(* ===== verification/_CoqProject ===== *)
-Q . S2P
Prelude.v
PyFloat.v
FloatRound.v
Text.v
Clock.v
PyValue.v
JsonParse.v
CborCodec.v
Protocol.v
Events.v
LiveEvents.v
Agents.v
Motivation.v
SelfImprovement.v
Contracts.v
Policy.v
Json.v
Maf.v
ModelAgents.v
Persona.v
PersonaBundle.v
Autonomy.v
Federation.v
StateSync.v
CliAdapter.v
Store.v
JsonNumbers.v
JsonRoundTrip.v
StoreTypes.v
Memory.v
Approval.v
Lifecycle.v
Artifact.v
Deploy.v
DeployProtocol.v
PromptContext.v
Catalog.v
Skills.v
Inference.v
ProviderProfiles.v
PlanQuality.v
RunEvidence.v
Workflow.v
RunSafety.v
RunRecords.v
RunTrace.v
RunFrames.v
AgentRun.v
EventDaemon.v
EventService.v
RunCommands.v
UserPrompt.v
Social.v
SocialAdapters.v
SocialSamples.v
SocialRegistry.v
SocialTest.v
SocialGateway.v
QQWebhook.v
QQGateway.v
SocialIngress.v
SocialSafety.v
Reply.v
UnitQuery.v
UnitCommands.v
Workspace.v
UnitState.v
Wrapper.v
UnitEvents.v
Listener.v
CallbackSmoke.v
SerialShell.v
Regex.v
MemoryEvidence.v
MemoryPlan.v
ArgParse.v
CommandTables.v
CommandLine.v
CoreLines.v
