(* ===== verification/Prelude.v ===== *)
(** * NeuroLink: verification of the Python core and the unit command line

    NeuroLink connects a reasoning core ([src/neurolink_core]) to units of
    firmware, over a command line ([src/neuro_cli]) that speaks CBOR messages.  The
    core turns perception events into frames, lets an affective and a rational
    agent decide on a tool call, holds the call against contracts, policy and
    human approval, runs it through an adapter, and keeps facts, memories,
    approvals and audit records in a SQLite store.  This development models the
    Python code of those parts as executable definitions and proves what makes
    each part correct.

    ** The files, in dependency order

    - [Prelude] (this file): results and exceptions ([result], [let!]), effects
      with a state ([eff], [do!]) whose exceptions keep the writes made before
      them, as in Python ([etry] is except Exception and lets an interrupt pass,
      [efinally] sees both); the frame relations [moves R] and the tactic [moves]; the stable
      sort [py_sorted]; insertion-ordered dictionaries ([od_get], [od_set]).
    - [PyFloat], [Text], [PyValue]: Python's floats (IEEE binary64 with [round] and
      [repr]), strings as UTF-8 bytes, and dynamically typed values with
      [dict.get], truthiness, [str()], [int()], [float()] and iteration.
    - [FloatRound]: the division that reads a decimal text is correctly rounded, and
      [repr] writes a decimal that reads back as the same double.
    - [Clock]: time stamps ([common.py] utc_now_iso, [memory.py] _utc_after_days).
    - [JsonParse], [JsonNumbers], [JsonRoundTrip]: [json.loads], the numbers it reads, and
      its round trip with the payload columns of the store.
    - [CborCodec], [Protocol]: [neuro_protocol.py], the CBOR-v2 codec, message maps,
      routes and payload builders.
    - [Events], [LiveEvents], [Agents]: [common.py], [events.py], [agents.py]: perception events,
      the deduplicating router, frames and the deterministic agents; the rows a
      monitor reports ([tools.py]).
    - [Motivation], [SelfImprovement]: [motivation.py], [self_improvement.py].
    - [Contracts], [Policy]: [tools.py], [policy.py]: tool contracts, the manifest, the
      read-only policy, threat findings and the governed bridge.
    - [Maf], [ModelAgents]: [maf.py], [rational_backends.py]: provider configuration and
      profiles, the model-backed agents, the rational backends and the checks of what a
      model answers.
    - [Json], [Persona], [PersonaBundle]: [persona.py] and the persona commands of
      [cli.py]; canonical JSON and SHA-256.
    - [Autonomy], [Federation]: [autonomy.py], [federation.py].
    - [StateSync], [CliAdapter]: state snapshots, activation health and the deterministic tool
      adapter of [tools.py], the interface [ToolAdapter]; the adapter that runs the
      command line.
    - [Store], [StoreTypes]: [data.py] as a record of tables (interface [Table]) and the
      types every table keeps; the session snapshots of [session.py].
    - [Memory]: [memory.py], candidates, screening and the three memory backends.
    - [Approval], [Lifecycle]: [apply_approval_decision] of [workflow.py] with its gate
      and resumed execution, and the machine it refines.
    - [Artifact], [Deploy], [DeployProtocol]: the admission of an application's artefact,
      the deployment commands of [workflow.py], and the protocol they refine.
    - [PromptContext]: [session.py], what a model is shown.
    - [Catalog], [Skills]: [neuro_workflow_catalog.py] and the skill files of [tools.py].
    - [Inference], [ProviderProfiles]: [inference.py], multimodal input, routes, and the
      provider profiles with their configuration file.
    - [PlanQuality], [RunEvidence], [Workflow]: a run of the workflow,
      [NoModelCoreWorkflow.run]: the quality of a plan, the payloads of a run, and the
      run itself over a [World] (store and memory, unit, model, router); what it composes
      is the routing of [Events], the agents of [Agents] or [ModelAgents], a backend of
      [Memory], [PromptContext], [Policy] and [Store].
    - [RunSafety], [RunRecords], [RunTrace], [RunFrames]: the calls a run makes, what it
      leaves in the store, the log of one run (the tools it was offered, the plan the
      rational agent answered, the calls it made for it), and which parts of the world
      it can change.
    - [AgentRun], [EventDaemon], [EventService], [RunCommands]: the commands that run the workflow (the
      dry run, the event replay, the event daemon, the live event service over the
      interface [LiveMonitor]) with their evidence, and what they may do.
    - [UserPrompt], [Social], [SocialAdapters], [SocialSamples]: the prompt events of
      [workflow.py]; the message envelope of [social.py]; the adapters of
      [social_adapters/], instances of the class [SocialAdapter] under the law class
      [BindsSender], and their samples.
    - [SocialRegistry], [SocialTest]: [registry.py], the adapter profiles, their
      configuration file and the connection tests.
    - [SocialGateway], [QQGateway], [QQWebhook]: the gateway clients, as event loops
      over the frames a socket delivers, and the webhook server, as a step relation
      of its request threads and its loop over the shared state: the counters change
      under the lock, the answer is written after it and may fail.
    - [SocialIngress], [SocialSafety]: the social commands of [cli.py], from a received
      message to the run of the workflow, and what they may do.
    - [Reply]: the payloads and replies of [neuro_protocol.py], CBOR or JSON.
    - [UnitQuery], [UnitCommands]: [neuro_cli.py], a request to a unit, its replies and
      the attempts; and the commands made of one request: queries, leases,
      deployments with the provider that serves an artifact, applications, updates.
    - [Workspace], [UnitState]: the workspace root, the skill and workflow
      descriptions, [neuro_agent_contracts.py] and [neuro_workflow_contracts.py]; the
      capability map and the state snapshot the core reads; [main].
    - [Wrapper]: [invoke_neuro_cli.py], what it makes of the output and the exit code
      of the command it runs, with its own copy of the failing statuses.
    - [UnitEvents], [Listener]: event rows and the processes that handle them; the
      subscriber's worker thread and the main thread, as a step relation.
    - [CallbackSmoke], [SerialShell]: the callback smoke test with its lease, and the
      serial console with the endpoint commands.
    - [Regex], [MemoryEvidence], [MemoryPlan]: regular expressions with Python's
      leftmost search; [collect_neurolink_memory_evidence.py]; the layout plans of
      [neuro_cli.py] and their gate.
    - [ArgParse], [CommandTables]: what the command lines use of [argparse], with the
      shapes its namespaces have; the argument tables of [neuro_cli.py] and of the
      wrapper.
    - [CommandLine], [CoreLines]: [main] from its tokens to its exit code; the lines
      that [CliAdapter] and [Deploy] write, as the other side reads them.

    ** How state and effects are modelled

    A dict is an association list in insertion order with Python's key equality.  A
    store table is a list of rows in row-id order; payload columns hold what
    [json.loads] makes of the JSON text.  Random ids and clock readings come from
    oracles ([env : nat -> Env], [clock : nat -> Z]) that are read in order, so every
    theorem holds for any ids and times; freshness is a hypothesis where a
    statement needs it.  What is outside the source is a parameter, and the theorems
    hold for each: tool adapters ([ToolAdapter], [UnitAdapter], [LiveMonitor], [DeployAdapter]),
    the process runner ([Runner]), the file system ([Files]), the
    sidecar's client ([Mem0Client]) and the provider's, SQLite's conversion of values
    ([Sqlite], [RecentTopics]), the parser of ISO instants, the texts of exceptions,
    [urlparse], sockets and the Ed25519 signatures of the chat services.  For the unit
    command line these are the Zenoh session and its subscribers ([Zenoh], [Subscribes]), the
    processes that handlers ([HandlerRunner]) and the memory collector run, the serial library ([Serial]),
    [Path.resolve] and the clock.

    ** What the theorems show

    - wire: encoding then decoding gives the message back, truncated input is
      rejected, decoding always ends, encodings exist exactly for 64-bit integers
      and valid text; every built route is recognised as its kind;
    - perception: each event is delivered once, redelivery changes nothing; the wake
      decision and the tool choice on an activation failure;
    - governance: tools are threat-rated as specified and never run directly from a
      bridge; self-improvement reviews apply nothing; growth is accounted for;
      persona values stay in range; persona bundles bind exactly to matching state;
    - models: a model is called only when the configuration is complete and the
      call allowed, what it answers is checked, and the session context of its prompt
      holds listed fields only (the rational model is also given the contracts of the
      tools in full); routes go to the first profile that serves the input; credentials stay masked;
    - federation: a ready route is justified, an eligible peer is used, the order of
      registration does not matter;
    - store and memory: tables keep their types under every operation, columns are
      read back as they were written, every double included, retirement is exact and
      idempotent, commits of proposed or screened candidates keep exactly the durable
      ones once each, and the sidecar backend refines the local one until an add fails;
    - approvals: a decision is final, an approval runs its tool at most once and only
      with its resources present, and the store refines a machine in which a
      request is decided at most once;
    - deployment: an admitted artefact is the application its source declares,
      activation refines the protocol of the runbook, leases are given back and
      rollbacks verified; a restart starts nothing after a refused stop;
    - runs: whatever the events, agents, memory and unit do, a run executes only the
      tool and the arguments that its rational agent answered, when the tool was offered,
      the arguments fit its contract and the policy allows it, and a look at the leases; it only asks for approvals; and when it returns it has recorded
      its span, events, results and audit; so do the commands over any number of
      cycles, which deliver each event once (of the events of one command and the 1000
      newest of the store), end with a closed span, and call no
      model without leave;
    - chat: a message reaches the workflow once, as the prompt of the user it is
      bound to, and a principal names one user of one service; gateways run only for
      profiles that are ready, deliver messages in order up to their limit and keep
      the session they resume; the webhook's counters and files account for every
      request by name, in any interleaving and whether or not its answer could be
      written; endpoints are probed only where a profile allows it; and a
      chat message can do no more than any other event;
    - unit command line: a query ends with an answer after the attempts its policy
      allows, an artifact is served whole, the state snapshot is read back by the core
      as what the unit answered to the three queries of its names, the release of a lease
      is sent however the smoke test ends, an interrupt of a query included, and
      the test passes only when each step did; the rows of a subscriber are the samples
      it took, in any interleaving of its two threads, and a handler runs only on
      events within its limit; the wrapper's exit code is a
      function of what the command printed and agrees with it on every answer of a query; an
      endpoint is set only when the shell confirms it;
    - command lines: every line is refused, shows the help or is one operation whose
      handler finds its arguments; grouped commands are aliases of the older ones; the
      tools of the adapter and the steps of a deployment plan arrive as the operations
      they mean;
    - memory evidence: the lines the firmware prints are read back, and a layout that the
      collector wrote is promoted exactly with all three kinds of evidence in its logs and
      with neither internal region grown in the linker's report.

    ** Bounds and fuel

    The decoder's fuel is the length of its input plus one, which
    [cbor_decode_total] shows to be enough, and so is that of [json.loads]
    ([json_loads_total]); the adapter's [execute] is run with fuel 2,
    enough for its one nested call ([fake_execute_total]).  SQLite's row limits
    are as in the source; [retire_expired_spec] is for tables within the limit of 1000
    rows it reads; five rounds extend a secret to a signing seed ([signing_seed_ends]).
    A query's back-off fits a float up to 1025 attempts ([backoff_overflows]); the digits
    of the collector's regular expressions are ASCII.  The timeout the core hands on is
    followed up to ten minutes ([timeouts_survive]).

    ** Not modelled

    Configuration values that are no text in the environment of a dry run; the two
    social smoke commands of [cli.py], the heartbeat and ready files of the webhook
    server and other pure I/O; an interrupt during a sleep; [cli.py] apart from the persona and social commands
    (argument parsing, printing, the collection of release evidence) and the firmware
    in C.  Python's recursion limit and floating-point topics are outside the model, and
    so are command lines with a bare "--", which versions of [argparse] read differently. *)

From Stdlib Require Import ZArith Lia Bool List Ascii String.
From stdpp Require Import base list option sets strings sorting.

#[export] Set Default Goal Selector "!".

(** ** Python exceptions and the result monad *)

(** The exception classes the modelled code raises.  [CborDecodeError],
    [UnicodeError] and [JSONDecodeError] are subclasses of [ValueError] in Python. *)
Inductive pyerr :=
  | ValueError (msg : string)
  | TypeError (msg : string)
  | KeyError (key : string)
  | IndexError (msg : string)
  | AttributeError (msg : string)
  | OverflowError (msg : string)
  | ZeroDivisionError
  | UnicodeError (msg : string)
  | CborDecodeError (msg : string)
  | IntegrityError (msg : string)
  | AssertionError
  | JSONDecodeError
  | UnboundLocalError (name : string)
  | RuntimeError (class_name msg : string)  (* a subclass of RuntimeError *)
  | External (class_name : string)  (* raised by code outside the source *)
  | OutOfFuel.

(** [exc.__class__.__name__] *)
Definition class_name_of (e : pyerr) : string :=
  match e with
  | ValueError _ => "ValueError" | TypeError _ => "TypeError" | KeyError _ => "KeyError"
  | IndexError _ => "IndexError" | AttributeError _ => "AttributeError"
  | OverflowError _ => "OverflowError" | ZeroDivisionError => "ZeroDivisionError"
  | UnicodeError _ => "UnicodeEncodeError" | CborDecodeError _ => "CborDecodeError"
  | IntegrityError _ => "IntegrityError" | AssertionError => "AssertionError"
  | JSONDecodeError => "JSONDecodeError" | UnboundLocalError _ => "UnboundLocalError"
  | RuntimeError name _ => name | External name => name
  | OutOfFuel => "RecursionError"
  end%string.

Inductive result (A : Type) : Type :=
  | Ok (a : A)
  | Raise (e : pyerr).
Arguments Ok {A} a.
Arguments Raise {A} e.

#[export] Instance pyerr_eq_dec : EqDecision pyerr.
Proof. solve_decision. Defined.

#[export] Instance result_eq_dec `{EqDecision A} : EqDecision (result A).
Proof. solve_decision. Defined.

Definition rbind {A B} (m : result A) (k : A -> result B) : result B :=
  match m with
  | Ok a => k a
  | Raise e => Raise e
  end.

Create HintDb py.
Create Rewrite HintDb py.

Declare Scope py_scope.
Delimit Scope py_scope with py.

Notation "'let!' x ':=' m 'in' k" := (rbind m (fun x => k))
  (at level 10, x pattern, m at level 100, k at level 200,
   format "'[hv' 'let!'  x  ':='  m  'in'  '//' k ']'") : py_scope.
Open Scope py_scope.

(** Run the results of a list left to right; the first exception wins. *)
Fixpoint sequence {A} (l : list (result A)) : result (list A) :=
  match l with
  | [] => Ok []
  | r :: rest => let! a := r in let! l' := sequence rest in Ok (a :: l')
  end.

Definition rmap {A B} (f : A -> result B) (l : list A) : result (list B) :=
  sequence (map f l).

(** A list comprehension whose condition can raise. *)
Fixpoint filter_r {A} (f : A -> result bool) (l : list A) : result (list A) :=
  match l with
  | [] => Ok []
  | x :: l' =>
      let! b := f x in
      let! rest := filter_r f l' in
      Ok (if b then x :: rest else rest)
  end.

Definition is_ok {A} (r : result A) : bool :=
  match r with Ok _ => true | Raise _ => false end.

(** ** Effects

    A call that reads and writes a state of type [W].  An exception keeps the
    writes made before it, as it does in Python. *)
Definition eff (W A : Type) : Type := W -> result A * W.

Definition eret {W A} (a : A) : eff W A := fun w => (Ok a, w).
Definition eraise {W A} (e : pyerr) : eff W A := fun w => (Raise e, w).
Definition elift {W A} (r : result A) : eff W A := fun w => (r, w).
Definition eget {W} : eff W W := fun w => (Ok w, w).
Definition emodify {W} (f : W -> W) : eff W unit := fun w => (Ok tt, f w).
Definition ebind {W A B} (m : eff W A) (k : A -> eff W B) : eff W B :=
  fun w => match m w with
           | (Ok a, w') => k a w'
           | (Raise e, w') => (Raise e, w')
           end.

Notation "'do!' x ':=' m 'in' k" := (ebind m (fun x => k))
  (at level 10, x pattern, m at level 100, k at level 200,
   format "'[hv' 'do!'  x  ':='  m  'in'  '//' k ']'") : py_scope.

(** [exc] is caught by [except ValueError]. *)
Definition is_value_error (e : pyerr) : bool :=
  match e with ValueError _ | UnicodeError _ | CborDecodeError _ | JSONDecodeError => true | _ => false end.

(** [exc] is caught by [except Exception]: all that is modelled, but an interrupt or an exit. *)
Definition KeyboardInterrupt : pyerr := External "KeyboardInterrupt".
Definition is_exception (e : pyerr) : bool :=
  match e with External name => negb (String.eqb name "KeyboardInterrupt" || String.eqb name "SystemExit") | _ => true end.

(** What a body returned or raised, whatever it is. *)
Definition eoutcome {W A} (m : eff W A) : eff W (result A) := fun w => let (r, w') := m w in (Ok r, w').
(** [try: ... except Exception as exc: ...]: what the body returned or raised; an interrupt passes. *)
Definition etry {W A} (m : eff W A) : eff W (result A) :=
  do! r := eoutcome m in match r with Raise e => if is_exception e then eret r else eraise e | Ok _ => eret r end.
Lemma etry_inv {W A} (m : eff W A) w r w' : etry m w = (r, w') ->
  exists x, m w = (x, w') /\ r = match x with Raise e => if is_exception e then Ok (Raise e) else Raise e | Ok a => Ok (Ok a) end.
Proof.
  unfold etry, eoutcome, ebind. destruct (m w) as [[a|e] w1]; cbn; [intros [= <- <-]; by exists (Ok a)|].
  destruct (is_exception e) eqn:E; intros [= <- <-]; exists (Raise e); by rewrite ?E.
Qed.
Lemma etry_state {W A} (m : eff W A) w : (etry m w).2 = (m w).2.
Proof. destruct (etry m w) as [r w'] eqn:E. apply etry_inv in E as (x & E & _). by rewrite E. Qed.

(** [try: ... finally: ...]: what the last part raises hides what the body did. *)
Definition efinally {W A} (m : eff W A) (last : eff W unit) : eff W A :=
  do! r := eoutcome m in do! _ := last in elift r.

(** ** Tactics *)

(** Split the innermost [match] or [if] of a hypothesis or of the goal. *)
Ltac destr_match H :=
  match type of H with
  | context [match ?x with _ => _ end] =>
      lazymatch x with
      | context [match _ with _ => _ end] => fail
      | _ => let E := fresh "E" in destruct x eqn:E
      end
  end.

Ltac destr_goal :=
  match goal with
  | |- context [match ?x with _ => _ end] =>
      lazymatch x with
      | context [match _ with _ => _ end] => fail
      | _ => let E := fresh "E" in destruct x eqn:E
      end
  end.

Lemma Ok_inj {A} (a b : A) : Ok a = Ok b -> a = b.
Proof. congruence. Qed.

(** Decompose a successful run of the error monad. *)
Ltac inv_ok :=
  repeat match goal with
    | H : Ok _ = Ok _ |- _ => apply Ok_inj in H
    | H : Raise _ = Ok _ |- _ => discriminate H
    | H : Ok _ = Raise _ |- _ => discriminate H
    | H : rbind ?m _ = Ok _ |- _ =>
        let E := fresh "E" in destruct m eqn:E; cbn [rbind] in H
    end; simplify_eq.

(** Turn boolean tests into propositions. *)
Ltac bool_prop :=
  repeat match goal with
    | H : (_ && _)%bool = true |- _ => apply andb_true_iff in H as [? ?]
    | H : (_ || _)%bool = false |- _ => apply orb_false_iff in H as [? ?]
    | H : negb _ = true |- _ => apply negb_true_iff in H
    | H : negb _ = false |- _ => apply negb_false_iff in H
    | H : (_ =? _)%Z = true |- _ => apply Z.eqb_eq in H
    | H : (_ =? _)%Z = false |- _ => apply Z.eqb_neq in H
    | H : (_ <=? _)%Z = true |- _ => apply Z.leb_le in H
    | H : (_ <=? _)%Z = false |- _ => apply Z.leb_gt in H
    | H : (_ <? _)%Z = true |- _ => apply Z.ltb_lt in H
    | H : (_ <? _)%Z = false |- _ => apply Z.ltb_ge in H
    | H : String.eqb _ _ = true |- _ => apply String.eqb_eq in H
    | H : String.eqb _ _ = false |- _ => apply String.eqb_neq in H
    end.

(** ** Results *)

Section Result.
Context {A B : Type}.
Implicit Types (m : result A) (l : list A).

Lemma rbind_ok m (k : A -> result B) b :
  rbind m k = Ok b <-> exists a, m = Ok a /\ k a = Ok b.
Proof.
  split; [|by intros (a & -> & ?)].
  destruct m as [a|e]; cbn; [by exists a|congruence].
Qed.

Lemma rmap_ok_Forall2 (f : A -> result B) l (l' : list B) :
  rmap f l = Ok l' <-> Forall2 (fun a b => f a = Ok b) l l'.
Proof.
  unfold rmap. revert l'. induction l as [|a l IH]; intros l'; cbn.
  - split; [by intros [= <-]|by inversion 1].
  - split.
    + intros H. inv_ok. constructor; [done|]. by apply IH.
    + inversion 1 as [|? b ? l2 Hb Hl]; subst. rewrite Hb. cbn.
      by rewrite (proj2 (IH l2) Hl).
Qed.

Lemma rmap_length (f : A -> result B) l (l' : list B) :
  rmap f l = Ok l' -> length l' = length l.
Proof. intros H%rmap_ok_Forall2. by rewrite (Forall2_length _ _ _ H). Qed.

Lemma rmap_pure (f : A -> result B) (g : A -> B) l :
  (forall a, a ∈ l -> f a = Ok (g a)) -> rmap f l = Ok (map g l).
Proof.
  intros H. apply rmap_ok_Forall2. induction l as [|a l IH]; cbn; constructor.
  - apply H. set_solver.
  - apply IH. intros. apply H. set_solver.
Qed.
End Result.

(** ** Effects and what they may change

    [moves R m]: whatever [m] answers, the state it leaves is related by [R] to
    the state it found.  For a preorder [R] this composes along [ebind]. *)

Definition moves {W A} (R : W -> W -> Prop) (m : eff W A) : Prop := forall w, R w (m w).2.

(** The part [f] of the state is left alone. *)
Definition same {W X} (f : W -> X) (w w' : W) : Prop := f w' = f w.

#[export] Instance same_preorder {W X} (f : W -> X) : PreOrder (same f).
Proof. split; unfold same; [done|]. intros a b c ? ?. by etrans. Qed.

Section Moves.
Context {W : Type} (R : W -> W -> Prop) `{!PreOrder R}.

Lemma moves_ret {A} (a : A) : moves R (eret a).
Proof. intros w. cbn. reflexivity. Qed.
Lemma moves_raise {A} e : moves R (eraise (A := A) e).
Proof. intros w. cbn. reflexivity. Qed.
Lemma moves_lift {A} (r : result A) : moves R (elift r).
Proof. intros w. cbn. reflexivity. Qed.
Lemma moves_get : moves R eget.
Proof. intros w. cbn. reflexivity. Qed.
Lemma moves_modify f : (forall w, R w (f w)) -> moves R (emodify f).
Proof. intros H w. apply H. Qed.
Lemma moves_bind {A B} (m : eff W A) (k : A -> eff W B) :
  moves R m -> (forall a, moves R (k a)) -> moves R (ebind m k).
Proof.
  intros Hm Hk w. unfold ebind. pose proof (Hm w) as H1. destruct (m w) as [[a|e] w']; cbn in *; [|done].
  etrans; [exact H1|]. apply Hk.
Qed.
End Moves.

Lemma moves_weaken {W A} (R R' : W -> W -> Prop) (m : eff W A) :
  (forall w w', R w w' -> R' w w') -> moves R m -> moves R' m.
Proof. intros H Hm w. apply H, Hm. Qed.

Lemma moves_at {W A} (R : W -> W -> Prop) (m : eff W A) w r w' : moves R m -> m w = (r, w') -> R w w'.
Proof. intros H E. specialize (H w). by rewrite E in H. Qed.

(** Results of composed effects. *)
Lemma ebind_inv {W A B} (m : eff W A) (k : A -> eff W B) w b w' :
  ebind m k w = (Ok b, w') <-> exists a w1, m w = (Ok a, w1) /\ k a w1 = (Ok b, w').
Proof.
  unfold ebind. destruct (m w) as [[a|e] w1]; split.
  - intros H. by exists a, w1.
  - intros (a' & w2 & [= <- <-] & H). done.
  - done.
  - by intros (? & ? & ? & _).
Qed.

Lemma ebind_eq {W A B} (m : eff W A) (k : A -> eff W B) w a w1 : m w = (Ok a, w1) -> ebind m k w = k a w1.
Proof. unfold ebind. by intros ->. Qed.

Lemma elift_inv {W A} (r : result A) (w w' : W) a : elift r w = (Ok a, w') <-> r = Ok a /\ w' = w.
Proof. unfold elift. split; [by intros [= -> ->]|by intros [-> ->]]. Qed.

Lemma eret_inv {W A} (a b : A) (w w' : W) : eret a w = (Ok b, w') <-> b = a /\ w' = w.
Proof. unfold eret. split; [by intros [= -> ->]|by intros [-> ->]]. Qed.

Create HintDb moves.
#[export] Hint Extern 0 (PreOrder _) => apply _ : moves.
#[export] Hint Resolve moves_ret moves_raise moves_lift moves_get moves_modify : moves.

(** Decompose a goal [moves R m] along the structure of [m]. *)
Ltac moves :=
  repeat match goal with
    | |- moves _ (ebind _ _) => apply moves_bind; [apply _| |intros ?]
    | |- moves _ (match ?x with _ => _ end) => destruct x
    | |- moves _ (let '_ := ?x in _) => destruct x
    | |- moves _ _ => progress eauto with moves
    end.

(** ** Python's [sorted]: a stable sort

    [sorted(l, key=k)] and [list.sort] are stable: elements whose keys compare
    equal keep their relative order, so the result is the same for every stable
    algorithm.  [leb x y] is "y's key is not smaller than x's". *)

Section Sort.
Context {A : Type} (leb : A -> A -> bool).

Fixpoint sinsert (x : A) (l : list A) : list A :=
  match l with
  | [] => [x]
  | y :: l' => if leb x y then x :: l else y :: sinsert x l'
  end.

Fixpoint py_sorted (l : list A) : list A :=
  match l with
  | [] => []
  | x :: l' => sinsert x (py_sorted l')
  end.

Lemma sinsert_perm x l : sinsert x l ≡ₚ x :: l.
Proof.
  induction l as [|y l IH]; cbn; [done|]. destruct (leb x y); [done|].
  rewrite IH. apply Permutation_swap.
Qed.

Lemma py_sorted_perm l : py_sorted l ≡ₚ l.
Proof. induction l; cbn; [done|]. by rewrite sinsert_perm, IHl. Qed.

Lemma elem_of_py_sorted x l : x ∈ py_sorted l <-> x ∈ l.
Proof. by rewrite py_sorted_perm. Qed.

Lemma length_py_sorted l : length (py_sorted l) = length l.
Proof. by rewrite py_sorted_perm. Qed.

Definition sort_rel (x y : A) : Prop := leb x y = true.

Context (leb_total : forall x y, leb x y = true \/ leb y x = true)
        (leb_trans : forall x y z, leb x y = true -> leb y z = true -> leb x z = true).

Lemma sinsert_sorted x l :
  StronglySorted sort_rel l -> StronglySorted sort_rel (sinsert x l).
Proof.
  induction 1 as [|y l Hl IH Hy]; cbn; [by repeat constructor|].
  destruct (leb x y) eqn:E; constructor; [by constructor| |done|].
  - constructor; [done|]. eapply Forall_impl; [exact Hy|].
    intros z Hz. exact (leb_trans _ _ _ E Hz).
  - rewrite sinsert_perm. constructor; [|done].
    destruct (leb_total x y); [congruence|done].
Qed.

Lemma py_sorted_sorted l : StronglySorted sort_rel (py_sorted l).
Proof. induction l; cbn; [constructor|by apply sinsert_sorted]. Qed.

Lemma py_sorted_unique l1 l2 :
  (forall x y, x ∈ l1 -> y ∈ l1 -> leb x y = true -> leb y x = true -> x = y) ->
  l1 ≡ₚ l2 -> py_sorted l1 = py_sorted l2.
Proof.
  intros Hanti Hp.
  eapply (StronglySorted_unique_strong sort_rel); auto using py_sorted_sorted.
  - intros x y Hx Hy. rewrite elem_of_py_sorted in Hx, Hy.
    rewrite <- Hp in Hy. by apply Hanti.
  - by rewrite !py_sorted_perm.
Qed.

Lemma py_sorted_id l : StronglySorted sort_rel l -> py_sorted l = l.
Proof.
  induction 1 as [|x l Hl IH Hx]; cbn; [done|]. rewrite IH.
  destruct l as [|y l]; cbn; [done|].
  apply Forall_cons in Hx as [Hxy _]. unfold sort_rel in Hxy. by rewrite Hxy.
Qed.
End Sort.

(** Insertion commutes with a map that does not change the comparison. *)
Lemma py_sorted_map {A B} (f : A -> B) (la : A -> A -> bool) (lb : B -> B -> bool) l :
  (forall x y, lb (f x) (f y) = la x y) ->
  py_sorted lb (map f l) = map f (py_sorted la l).
Proof.
  intros H. induction l as [|x l IH]; cbn; [done|]. rewrite IH.
  generalize (py_sorted la l) as k. induction k as [|y k IHk]; cbn; [done|].
  rewrite H. destruct (la x y); cbn; [done|]. by rewrite IHk.
Qed.

(** ** String order

    A Python [str] is represented by its (generalised) UTF-8 byte sequence; the
    order of the byte sequences is the code-point order Python compares by. *)

Lemma string_leb_total s t : String.leb s t = true \/ String.leb t s = true.
Proof. apply String.leb_total. Qed.

Lemma string_leb_trans s t u :
  String.leb s t = true -> String.leb t u = true -> String.leb s u = true.
Proof.
  intros Hst%Is_true_true Htu%Is_true_true. apply Is_true_true.
  exact (transitivity (R := String.le) Hst Htu).
Qed.

Lemma string_leb_antisym s t :
  String.leb s t = true -> String.leb t s = true -> s = t.
Proof. apply String.leb_antisym. Qed.

Lemma string_app_cons c s t : String c s +:+ t = String c (s +:+ t).
Proof. reflexivity. Qed.

Lemma string_app_nil_r s : s +:+ "" = s.
Proof. induction s as [|c s IH]; [done|]. by rewrite string_app_cons, IH. Qed.

Lemma string_app_assoc s t u : s +:+ (t +:+ u) = (s +:+ t) +:+ u.
Proof. induction s as [|c s IH]; [done|]. by rewrite !string_app_cons, IH. Qed.

Lemma string_app_inv_head s t u : s +:+ t = s +:+ u -> t = u.
Proof. apply (inj (String.app s)). Qed.

#[export] Hint Resolve string_leb_total string_leb_trans string_leb_antisym : core.

(** Sorting a set of strings ([sorted({...})]): sorted and without duplicates. *)
Definition sorted_strings (l : list string) : list string := py_sorted String.leb l.

Lemma sorted_strings_sorted l :
  StronglySorted (fun s t => String.leb s t = true) (sorted_strings l).
Proof. apply (py_sorted_sorted String.leb); eauto. Qed.

Lemma sorted_strings_perm l l' : l ≡ₚ l' -> sorted_strings l = sorted_strings l'.
Proof. apply py_sorted_unique; eauto. Qed.

(** ** Insertion-ordered dictionaries

    A Python [dict] is an association list in insertion order.  Keys are
    compared through a normal form [norm] (the identity for strings; booleans
    and integers compare equal as dict keys). *)

Section ODict.
Context {K N V : Type} (norm : K -> N) `{EqDecision N}.
Implicit Types (d : list (K * V)) (k : K) (v : V).

(** [d.get(k)] *)
Fixpoint od_get k d : option V :=
  match d with
  | [] => None
  | (k', v) :: d' => if decide (norm k' = norm k) then Some v else od_get k d'
  end.

(** [d[k] = v]: a present key keeps its place and its key object. *)
Fixpoint od_set k v d : list (K * V) :=
  match d with
  | [] => [(k, v)]
  | (k', v') :: d' =>
      if decide (norm k' = norm k) then (k', v) :: d' else (k', v') :: od_set k v d'
  end.

Definition od_keys d : list N := map (norm ∘ fst) d.

(** The invariant of every dict: no key occurs twice. *)
Definition od_wf d : Prop := NoDup (od_keys d).

Lemma od_get_set_eq k k' v d :
  norm k = norm k' -> od_get k' (od_set k v d) = Some v.
Proof.
  intros Hk. induction d as [|[k1 v1] d IH]; cbn.
  - by rewrite decide_True.
  - destruct (decide (norm k1 = norm k)) as [E|E]; cbn.
    + by rewrite decide_True by congruence.
    + by rewrite decide_False by congruence.
Qed.

Lemma od_get_set_ne k k' v d :
  norm k <> norm k' -> od_get k' (od_set k v d) = od_get k' d.
Proof.
  intros Hk. induction d as [|[k1 v1] d IH]; cbn.
  - by rewrite decide_False.
  - destruct (decide (norm k1 = norm k)) as [E|E]; cbn.
    + by rewrite !decide_False by congruence.
    + by rewrite IH.
Qed.

Lemma od_get_set k k' v d :
  od_get k' (od_set k v d) = if decide (norm k = norm k') then Some v else od_get k' d.
Proof. case_decide; auto using od_get_set_eq, od_get_set_ne. Qed.

Lemma od_get_None k d : od_get k d = None <-> norm k ∉ od_keys d.
Proof.
  induction d as [|[k1 v1] d IH]; cbn; [set_solver|].
  rewrite not_elem_of_cons, <- IH. case_decide; naive_solver.
Qed.

Lemma od_get_is_Some k d : is_Some (od_get k d) <-> norm k ∈ od_keys d.
Proof.
  rewrite <- not_eq_None_Some, od_get_None.
  destruct (decide (norm k ∈ od_keys d)); naive_solver.
Qed.

Lemma od_get_elem_of k v d : od_get k d = Some v -> exists k', norm k' = norm k /\ (k', v) ∈ d.
Proof.
  induction d as [|[k1 v1] d IH]; cbn; [done|]. case_decide as E.
  - intros [= ->]. exists k1. split; [done|]. left.
  - intros (k' & ? & ?)%IH. exists k'. split; [done|]. by right.
Qed.

Lemma od_wf_get k v d : od_wf d -> (k, v) ∈ d -> od_get k d = Some v.
Proof.
  unfold od_wf, od_keys. induction d as [|[k1 v1] d IH]; cbn; [set_solver|].
  intros [Hk1 Hd]%NoDup_cons [[= -> ->]|Hin]%elem_of_cons.
  - by rewrite decide_True.
  - rewrite decide_False; [by apply IH|]. intros E. apply Hk1. rewrite E.
    apply list_elem_of_In, in_map_iff. exists (k, v). split; [done|].
    by apply list_elem_of_In.
Qed.

Lemma od_keys_set k v d :
  od_keys (od_set k v d) = if decide (norm k ∈ od_keys d) then od_keys d else od_keys d ++ [norm k].
Proof.
  induction d as [|[k1 v1] d IH].
  - cbn. by rewrite decide_False by set_solver.
  - cbn. destruct (decide (norm k1 = norm k)) as [E|E]; cbn.
    + by rewrite decide_True by (rewrite E; left).
    + change (map (norm ∘ fst) (od_set k v d)) with (od_keys (od_set k v d)).
      rewrite IH. repeat case_decide; set_solver.
Qed.

Lemma od_set_wf k v d : od_wf d -> od_wf (od_set k v d).
Proof.
  unfold od_wf. rewrite od_keys_set. case_decide as E; [done|]. intros H.
  apply NoDup_app. split; [done|]. split; [set_solver|]. apply NoDup_singleton.
Qed.

Lemma od_nil_wf : od_wf [].
Proof. apply NoDup_nil_2. Qed.

Lemma od_get_app k d1 d2 :
  od_get k (d1 ++ d2) = match od_get k d1 with Some v => Some v | None => od_get k d2 end.
Proof. induction d1 as [|[k1 v1] d IH]; cbn; [done|]. by case_decide. Qed.

Lemma od_set_fresh k v d : norm k ∉ od_keys d -> od_set k v d = d ++ [(k, v)].
Proof.
  induction d as [|[k1 v1] d IH]; cbn; [done|].
  rewrite not_elem_of_cons. intros [H1 H2]. rewrite decide_False by congruence.
  by rewrite IH.
Qed.

Lemma od_wf_inj (x y : K * V) d :
  od_wf d -> x ∈ d -> y ∈ d -> norm x.1 = norm y.1 -> x = y.
Proof.
  unfold od_wf, od_keys. induction d as [|z d IH]; cbn; [set_solver|].
  intros [Hz Hd]%NoDup_cons Hx Hy E.
  assert (forall w, w ∈ d -> norm w.1 ∈ map (norm ∘ fst) d) as Hin.
  { intros w Hw. apply list_elem_of_In, in_map_iff. exists w. split; [done|]. by apply list_elem_of_In. }
  apply elem_of_cons in Hx as [->|Hx], Hy as [->|Hy]; auto.
  - exfalso. apply Hz. cbn. rewrite E. auto.
  - exfalso. apply Hz. cbn. rewrite <- E. auto.
Qed.

(** [d.update(d2)] *)
Definition od_update d d2 : list (K * V) := foldl (fun a '(k, v) => od_set k v a) d d2.

Lemma od_update_wf d d2 : od_wf d -> od_wf (od_update d d2).
Proof.
  unfold od_update. revert d. induction d2 as [|[k v] d2 IH]; intros d H; cbn; [done|].
  by apply IH, od_set_wf.
Qed.

Lemma od_get_update k d d2 :
  od_wf d2 ->
  od_get k (od_update d d2) = match od_get k d2 with Some v => Some v | None => od_get k d end.
Proof.
  unfold od_update, od_wf. revert d.
  induction d2 as [|[k1 v1] d2 IH]; intros d; cbn; [done|].
  intros [Hk1 Hd]%NoDup_cons. rewrite IH by done. case_decide as E.
  - assert (od_get k d2 = None) as -> by (apply od_get_None; by rewrite <- E).
    by apply od_get_set_eq.
  - by rewrite od_get_set_ne.
Qed.

Lemma od_get_perm k d1 d2 : od_wf d1 -> d1 ≡ₚ d2 -> od_get k d1 = od_get k d2.
Proof.
  intros Hwf Hp. assert (od_wf d2) as Hwf2.
  { unfold od_wf, od_keys in *. by rewrite <- Hp. }
  destruct (od_get k d2) as [v|] eqn:E2.
  - destruct (od_get_elem_of _ _ _ E2) as (k' & Hk & Hin). rewrite <- Hp in Hin.
    apply (od_wf_get _ _ _ Hwf) in Hin. rewrite <- Hin. clear -Hk.
    induction d1 as [|[k1 v1] d IH]; cbn; [done|]. by rewrite Hk, IH.
  - apply od_get_None in E2. apply od_get_None. unfold od_keys in *. by rewrite Hp.
Qed.
End ODict.

#[export] Hint Resolve od_set_wf od_nil_wf od_update_wf : core.
