(* ===== verification/PyFloat.v ===== *)
(** * Python floats

    IEEE-754 binary64 through [SpecFloat] (executable, no primitive floats):
    the literals, comparisons, additions and divisions the code performs, and
    the built-ins [round(x, n)], [max], [min], [float.__repr__]. *)

From Stdlib Require Import ZArith Lia Bool List Ascii String.
From Stdlib.Floats Require Import SpecFloat.
From stdpp Require Import base list option strings.
From S2P Require Import Prelude.

Open Scope Z_scope.

Abbreviation float := spec_float (only parsing).

Definition prec : Z := 53.
Definition emax : Z := 1024.

Definition fadd (x y : float) : float := SFadd prec emax x y.
Definition fmul (x y : float) : float := SFmul prec emax x y.
Definition fdiv (x y : float) : float := SFdiv prec emax x y.
Definition fltb (x y : float) : bool := SFltb x y.
Definition fleb (x y : float) : bool := SFleb x y.
Definition feqb (x y : float) : bool := SFeqb x y.

(** [float(z)] without the overflow test: the nearest binary64, ties to even. *)
Definition float_round_Z (z : Z) : float := binary_normalize prec emax z 0 false.

(** [float(z)] for an int: [OverflowError] when the result is not finite. *)
Definition float_of_Z (z : Z) : result float :=
  match float_round_Z z with
  | S754_infinity _ => Raise (OverflowError "int too large to convert to float")
  | f => Ok f
  end.

(** The literal [n / 10^k] as written in the source: [flit 35 2] is [0.35]. *)
Definition flit (n : Z) (k : nat) : float :=
  match n with
  | Z0 => S754_zero false
  | Zpos p => SFdiv prec emax (S754_finite false p 0) (S754_finite false (Z.to_pos (10 ^ Z.of_nat k)) 0)
  | Zneg p => SFdiv prec emax (S754_finite true p 0) (S754_finite false (Z.to_pos (10 ^ Z.of_nat k)) 0)
  end.

(** ** Exact decimal rounding *)

(** [num / den] rounded to the nearest integer, ties to even; [den > 0]. *)
Definition div_half_even (num den : Z) : Z :=
  let q := num / den in
  let r := num mod den in
  if 2 * r <? den then q
  else if den <? 2 * r then q + 1
  else if Z.even q then q else q + 1.

(** The magnitude of [m * 2^e] as a fraction. *)
Definition frac_of (m : positive) (e : Z) : Z * Z :=
  if 0 <=? e then (Zpos m * 2 ^ e, 1) else (Zpos m, 2 ^ (- e)).

(** The binary64 nearest to [(-1)^s * n / d], [n >= 0], [d > 0]. *)
Definition float_of_frac (s : bool) (n d : Z) : float :=
  match n with
  | Zpos p => SFdiv prec emax (S754_finite s p 0) (S754_finite false (Z.to_pos d) 0)
  | _ => S754_zero s
  end.

(** [round(x, ndigits)] for a float and [ndigits >= 0]. *)
Definition fround (x : float) (ndigits : Z) : float :=
  match x with
  | S754_finite s m e =>
      let (num, den) := frac_of m e in
      let n := div_half_even (num * 10 ^ ndigits) den in
      float_of_frac s n (10 ^ ndigits)
  | _ => x
  end.

(** [max(a, b)] and [min(a, b)]: the second argument only when strictly better. *)
Definition fmax (a b : float) : float := if fltb a b then b else a.
Definition fmin (a b : float) : float := if fltb b a then b else a.

(** [int(x)]: truncation towards zero. *)
Definition ftrunc (x : float) : result Z :=
  match x with
  | S754_zero _ => Ok 0
  | S754_infinity _ => Raise (OverflowError "cannot convert float infinity to integer")
  | S754_nan => Raise (ValueError "cannot convert float NaN to integer")
  | S754_finite s m e =>
      let (num, den) := frac_of m e in
      Ok (if s then - (num / den) else num / den)
  end.

(** [bool(x)]. *)
Definition ftruthy (x : float) : bool :=
  match x with S754_zero _ => false | _ => true end.

(** ** Equality of floats, decidable *)

#[export] Instance float_eq_dec : EqDecision spec_float.
Proof. solve_decision. Defined.

(** ** Facts *)

Lemma fltb_fleb x y : fltb x y = true -> fleb x y = true.
Proof. unfold fltb, fleb, SFltb, SFleb. destruct (SFcompare x y) as [[]|]; done. Qed.

(** A clamp between two ordered bounds lands between them for every float, NaN
    and infinities included. *)
Lemma fmax_fmin_bounds lo hi x :
  fltb lo hi = true -> fleb lo lo = true -> fleb hi hi = true ->
  fleb lo (fmax lo (fmin hi x)) = true /\ fleb (fmax lo (fmin hi x)) hi = true.
Proof.
  intros Hlh Hl Hh. pose proof (fltb_fleb _ _ Hlh). unfold fmax, fmin.
  destruct (fltb x hi) eqn:E1.
  - destruct (fltb lo x) eqn:E2; split; auto using fltb_fleb.
  - rewrite Hlh. auto.
Qed.

(** Clamping a value that already lies strictly between the bounds is the
    identity. *)
Lemma fmax_fmin_id lo hi x :
  fltb lo x = true -> fltb x hi = true -> fmax lo (fmin hi x) = x.
Proof. intros H1 H2. unfold fmax, fmin. by rewrite H2, H1. Qed.

(** ** [float.__repr__] *)

(** Decimal digits of a non-negative integer. *)
Fixpoint digits_of (fuel : nat) (z : Z) (acc : string) : string :=
  match fuel with
  | O => acc
  | S fuel' =>
      let acc' := String (ascii_of_N (Z.to_N (48 + z mod 10))) acc in
      if z <? 10 then acc' else digits_of fuel' (z / 10) acc'
  end.

(** [str(n)] for an int. *)
Definition string_of_Z (z : Z) : string :=
  let body := digits_of (S (Z.to_nat (Z.log2 (Z.abs z)))) (Z.abs z) "" in
  if z <? 0 then "-" +:+ body else body.

(** [floor(log10 (num/den))], [num, den > 0]: an estimate corrected by search. *)
Definition pow10_le (num den e : Z) : bool :=   (* 10^e <= num/den *)
  if 0 <=? e then den * 10 ^ e <=? num else den <=? num * 10 ^ (- e).

Fixpoint exp10_search (fuel : nat) (num den e : Z) : Z :=
  match fuel with
  | O => e
  | S f => if pow10_le num den (e + 1) then exp10_search f num den (e + 1)
           else if pow10_le num den e then e else exp10_search f num den (e - 1)
  end.

Definition exp10 (num den : Z) : Z :=
  exp10_search 5 num den ((Z.log2 num - Z.log2 den) * 30103 / 100000).

(** [n * 10^q] as a binary64. *)
Definition float_of_dec (s : bool) (n q : Z) : float :=
  if 0 <=? q then float_of_frac s (n * 10 ^ q) 1 else float_of_frac s n (10 ^ (- q)).

(** The two [k]-digit decimals around [num/den], nearest first; each is a pair
    (digits, exponent). *)
Definition candidates (k : Z) (num den e : Z) : list (Z * Z) :=
  let q := e - k + 1 in
  let (n', d') := if 0 <=? q then (num, den * 10 ^ q) else (num * 10 ^ (- q), den) in
  let lo := n' / d' in
  let near := div_half_even n' d' in
  [(near, q); (if near =? lo then lo + 1 else lo, q)].

Fixpoint shortest (fuel : nat) (k : Z) (num den e : Z) (x : float) : Z * Z :=
  match fuel with
  | O => (div_half_even num den, 0)
  | S f =>
      match List.find (fun c => feqb (float_of_dec false c.1 c.2) x) (candidates k num den e) with
      | Some c => c
      | None => shortest f (k + 1) num den e x
      end
  end.

Fixpoint strip_zeros (fuel : nat) (n q : Z) : Z * Z :=
  match fuel with
  | O => (n, q)
  | S f => if (n mod 10 =? 0) && negb (n =? 0) then strip_zeros f (n / 10) (q + 1) else (n, q)
  end.

Fixpoint zeros (n : nat) : string :=
  match n with O => "" | S k => String "0" (zeros k) end.

Definition string_take (n : nat) (s : string) : string := String.substring 0 n s.
Definition string_drop (n : nat) (s : string) : string :=
  String.substring n (String.length s - n) s.

(** Layout of [repr]: fixed notation for a decimal exponent in [-4, 16), else
    scientific with at least two exponent digits. *)
Definition layout (ds : string) (q : Z) : string :=
  let len := Z.of_nat (String.length ds) in
  let e10 := q + len - 1 in
  if (e10 <? -4) || (16 <=? e10) then
    let frac := string_drop 1 ds in
    let es := string_of_Z (Z.abs e10) in
    string_take 1 ds +:+ (if (frac =? "")%string then "" else "." +:+ frac)
      +:+ "e" +:+ (if e10 <? 0 then "-" else "+")
      +:+ (if Z.of_nat (String.length es) <? 2 then "0" +:+ es else es)
  else if e10 <? 0 then
    "0." +:+ zeros (Z.to_nat (- e10 - 1)) +:+ ds
  else if len <=? e10 + 1 then
    ds +:+ zeros (Z.to_nat (e10 + 1 - len)) +:+ ".0"
  else
    string_take (Z.to_nat (e10 + 1)) ds +:+ "." +:+ string_drop (Z.to_nat (e10 + 1)) ds.

Definition float_repr (x : float) : string :=
  match x with
  | S754_zero s => if s then "-0.0" else "0.0"
  | S754_infinity s => if s then "-inf" else "inf"
  | S754_nan => "nan"
  | S754_finite s m e =>
      let (num, den) := frac_of m e in
      let (n, q) := shortest 17 1 num den (exp10 num den) (S754_finite false m e) in
      let (n', q') := strip_zeros 20 n q in
      let body := layout (string_of_Z n') q' in
      if s then "-" +:+ body else body
  end.

(** Spot checks against CPython. *)
Example repr_checks :
  map float_repr [flit 1 1; flit 35 2; flit (-2) 1; flit 1 0; flit 12345678 3;
                  fdiv (flit 1 0) (flit 3 0); fadd (flit 1 1) (flit 2 1);
                  float_round_Z (10 ^ 16); float_round_Z (10 ^ 15); flit 1 5; flit 1 4;
                  float_round_Z (2 ^ 1023); S754_finite false 1 (-1074)]
  = ["0.1"; "0.35"; "-0.2"; "1.0"; "12345.678"; "0.3333333333333333";
     "0.30000000000000004"; "1e+16"; "1000000000000000.0"; "1e-05"; "0.0001";
     "8.98846567431158e+307"; "5e-324"]%string.
Proof. vm_compute. reflexivity. Qed.

Example round_checks :
  map float_repr [fround (flit 26750 4) 2; fround (flit 5 1) 0; fround (flit 15 1) 0;
                  fround (flit (-1) 5) 4; fround (flit 123456 5) 4]
  = ["2.67"; "0.0"; "2.0"; "-0.0"; "1.2346"]%string.
Proof. vm_compute. reflexivity. Qed.
