(* ===== verification/FloatRound.v ===== *)
(** * Correct rounding, and [repr] of a float

    The division that reads a decimal text rounds to the nearest double, ties to
    even ([fraction_rounded]); seventeen digits determine a double ([near_reads]),
    and [shortest] finds a decimal text of every finite one ([decimal_reads]). *)

From Stdlib Require Import ZArith Lia Bool List.
From Stdlib.Floats Require Import SpecFloat.
From stdpp Require Import base list.
From S2P Require Import Prelude PyFloat.

Open Scope Z_scope.

Lemma pow2_pos k : 0 <= k -> 0 < 2 ^ k.
Proof. intros. apply Z.pow_pos_nonneg; lia. Qed.
Lemma pow10_pos k : 0 <= k -> 0 < 10 ^ k.
Proof. intros. apply Z.pow_pos_nonneg; lia. Qed.

(** ** Shifting right keeps the place of a fraction *)

(** The record stands for [num / den]: its integer part, whether the fraction is at least a half, and whether
    anything is left below. *)
Definition stands_for (mrs : shr_record) (num den : Z) : Prop :=
  0 <= shr_m mrs /\
  match shr_r mrs, shr_s mrs with
  | false, false => num = shr_m mrs * den
  | false, true => shr_m mrs * den < num /\ 2 * num < 2 * (shr_m mrs * den) + den
  | true, false => 2 * num = 2 * (shr_m mrs * den) + den
  | true, true => 2 * (shr_m mrs * den) + den < 2 * num /\ num < shr_m mrs * den + den
  end.

Lemma shr_1_stands mrs num den : 0 < den -> stands_for mrs num den -> stands_for (shr_1 mrs) num (2 * den).
Proof.
  intros Hd [Hm H]. destruct mrs as [m r s]. cbn [shr_m shr_r shr_s] in *. unfold stands_for.
  destruct m as [|[p|p|]|p]; [| | | |lia]; cbn [shr_1 shr_m shr_r shr_s]; (split; [lia|]).
  - destruct r, s; cbn; lia.
  - rewrite Pos2Z.inj_xI in H. set (k := Z.pos p * den) in *. replace ((2 * Z.pos p + 1) * den) with (2 * k + den) in H by (subst k; ring).
    replace (Z.pos p * (2 * den)) with (2 * k) by (subst k; ring). destruct r, s; cbn; lia.
  - rewrite Pos2Z.inj_xO in H. set (k := Z.pos p * den) in *. replace (2 * Z.pos p * den) with (2 * k) in H by (subst k; ring).
    replace (Z.pos p * (2 * den)) with (2 * k) by (subst k; ring). destruct r, s; cbn; lia.
  - destruct r, s; cbn; lia.
Qed.

Lemma shr_stands n : forall mrs num den,
  0 < den -> stands_for mrs num den -> stands_for (SpecFloat.iter_pos shr_1 n mrs) num (2 ^ Zpos n * den).
Proof.
  induction n as [n IH|n IH|]; intros mrs num den Hd H; cbn [SpecFloat.iter_pos].
  - change (Z.pos n~1) with (2 * Z.pos n + 1). replace (2 ^ (2 * Z.pos n + 1) * den) with (2 ^ Z.pos n * (2 ^ Z.pos n * (2 * den)))
      by (replace (2 * Z.pos n + 1) with (Z.pos n + Z.pos n + 1) by lia; rewrite !Z.pow_add_r by lia; ring).
    pose proof (pow2_pos (Z.pos n)). apply IH; [nia|]. apply IH; [lia|]. by apply shr_1_stands.
  - change (Z.pos n~0) with (2 * Z.pos n). replace (2 ^ (2 * Z.pos n) * den) with (2 ^ Z.pos n * (2 ^ Z.pos n * den))
      by (replace (2 * Z.pos n) with (Z.pos n + Z.pos n) by lia; rewrite Z.pow_add_r by lia; ring).
    pose proof (pow2_pos (Z.pos n)). apply IH; [nia|]. by apply IH.
  - by apply shr_1_stands.
Qed.

Lemma stands_scale c mrs num den : 0 < c -> stands_for mrs num den -> stands_for mrs (c * num) (c * den).
Proof.
  intros Hc [Hm H]. split; [done|]. set (k := shr_m mrs * den) in *. replace (shr_m mrs * (c * den)) with (c * k) by (subst k; ring).
  destruct (shr_r mrs), (shr_s mrs); nia.
Qed.

(** Where a division leaves its remainder. *)
Lemma remainder_stands q r den :
  0 <= q -> 0 <= r < den -> stands_for (shr_record_of_loc q (new_location den r)) (q * den + r) den.
Proof.
  intros Hq Hr. unfold stands_for, new_location, new_location_even, new_location_odd.
  destruct (Z.even den) eqn:Ed; (destruct (Z.eqb_spec r 0) as [->|]; [cbn; lia|]).
  - destruct (Z.compare_spec (2 * r) den); cbn; lia.
  - assert (den <> 2 * r). { intros ->. rewrite Z.even_mul in Ed. done. }
    destruct (Z.compare_spec (2 * r + 1) den); cbn; lia.
Qed.

Lemma rounds mrs num den : 0 < den -> stands_for mrs num den ->
  round_nearest_even (shr_m mrs) (loc_of_shr_record mrs) = div_half_even num den.
Proof.
  intros Hd [Hm H]. destruct mrs as [m r s]. cbn [shr_m shr_r shr_s] in *.
  assert (Hq : num / den = m).
  { symmetry. apply (Z.div_unique num den m (num - m * den)); [left; destruct r, s; lia|ring]. }
  unfold div_half_even. rewrite Hq. pose proof (Z.div_mod num den ltac:(lia)) as Hdm. rewrite Hq in Hdm.
  assert (Hmod : num mod den = num - m * den) by lia. rewrite Hmod. cbn [loc_of_shr_record round_nearest_even].
  destruct r, s; cbn [loc_of_shr_record round_nearest_even];
    destruct (Z.ltb_spec (2 * (num - m * den)) den), (Z.ltb_spec den (2 * (num - m * den))); lia || done.
Qed.

(** ** The digits of a number *)

Lemma digits2_log2 p : Zpos (digits2_pos p) = Z.log2 (Zpos p) + 1.
Proof.
  induction p as [p IH|p IH|]; cbn [digits2_pos]; [| |done]; rewrite Pos2Z.inj_succ, IH.
  - rewrite Pos2Z.inj_xI, Z.log2_succ_double by lia. lia.
  - rewrite Pos2Z.inj_xO, Z.log2_double by lia. lia.
Qed.

Lemma Zdigits2_bounds n k : 0 <= n -> 0 <= k -> Zdigits2 n <= k <-> n < 2 ^ k.
Proof.
  intros Hn Hk. destruct n as [|p|p]; [cbn; pose proof (pow2_pos k); lia| |lia]. cbn [Zdigits2]. rewrite digits2_log2.
  rewrite Z.log2_lt_pow2 by lia. lia.
Qed.

(** ** The nearest double of a fraction *)

(** The unit of the smallest double, and the unit of the exponent [t]; kept folded. *)
Definition tiny : Z := 2 ^ 1074.
Definition unit_at (t : Z) : Z := 2 ^ (t + 1074).

Lemma tiny_split a : 0 <= a <= 1074 -> tiny = 2 ^ a * 2 ^ (1074 - a).
Proof. intros Ha. unfold tiny. rewrite <- Z.pow_add_r by lia. f_equal. lia. Qed.
Lemma unit_split t a : a <= 1074 -> 0 <= t + a -> unit_at t = 2 ^ (t + a) * 2 ^ (1074 - a).
Proof. intros Ha Ht. unfold unit_at. rewrite <- Z.pow_add_r by lia. f_equal. lia. Qed.
Lemma tiny_pos : 0 < tiny.
Proof. apply pow2_pos. lia. Qed.
Lemma unit_pos t : -1074 <= t -> 0 < unit_at t.
Proof. intros. apply pow2_pos. lia. Qed.

(** The exponent at which [n / d] is rounded: 53 binary digits, unless it is below the normal numbers. *)
Record exponent_of (n d t : Z) : Prop := {
  eo_min : -1074 <= t;
  eo_high : n * tiny < 2 ^ 53 * (d * unit_at t);
  eo_low : t = -1074 \/ 2 ^ 52 * (d * unit_at t) <= n * tiny;
}.

(** A rounded significand as a double. *)
Definition finish (s : bool) (m t : Z) : float :=
  let '(mrs, e) := shr_fexp prec emax m t loc_Exact in
  match shr_m mrs with
  | Z0 => S754_zero s
  | Zpos m' => if e <=? emax - prec then S754_finite s m' e else S754_infinity s
  | Zneg _ => S754_nan
  end.

Lemma fexp_eq e : fexp prec emax e = Z.max (e - 53) (-1074).
Proof. reflexivity. Qed.

Lemma shr_by mrs e k num den :
  0 <= k -> 0 < den -> stands_for mrs num den -> exists mrs', shr mrs e k = (mrs', e + k) /\ stands_for mrs' num (2 ^ k * den).
Proof.
  intros Hk Hd H. destruct k as [|p|p]; [| |lia]; cbn [shr].
  - exists mrs. rewrite Z.add_0_r, Z.pow_0_r, Z.mul_1_l. done.
  - eexists. split; [reflexivity|]. by apply shr_stands.
Qed.

Lemma shifted_mantissa m s : 0 <= s -> match s with Zpos _ => Z.shiftl m s | Z0 => m | Zneg _ => 0 end = m * 2 ^ s.
Proof. intros Hs. destruct s; [cbn; lia|apply Z.shiftl_mul_pow2; lia|lia]. Qed.

(** The exponent of the quotient before it is rounded is not above. *)
Lemma division_exponent n d t : 0 < n -> 0 < d -> exponent_of n d t ->
  Z.min (fexp prec emax (Z.log2 n + 1 - (Z.log2 d + 1))) 0 <= t.
Proof.
  intros Hn Hd [Hmin Hhi _]. rewrite fexp_eq. destruct (Z.le_gt_cases (Z.min (Z.max (Z.log2 n + 1 - (Z.log2 d + 1) - 53) (-1074)) 0) t) as [|Hc]; [done|].
  exfalso. assert (Hlog : Z.log2 d + t + 54 <= Z.log2 n) by lia.
  pose proof (Z.log2_spec n Hn) as [Hn1 _]. pose proof (Z.log2_spec d Hd) as [_ Hd2]. rewrite <- Z.add_1_r in Hd2.
  pose proof (Z.log2_nonneg d). pose proof (Z.log2_nonneg n). assert (Hpow : 2 ^ 53 * (2 ^ (Z.log2 d + 1) * unit_at t) <= 2 ^ Z.log2 n * tiny).
  { unfold unit_at, tiny. rewrite <- !Z.pow_add_r by lia. apply Z.pow_le_mono_r; lia. }
  pose proof tiny_pos. pose proof (unit_pos t Hmin).
  assert (d * unit_at t < 2 ^ (Z.log2 d + 1) * unit_at t) by nia. assert (2 ^ Z.log2 n * tiny <= n * tiny) by nia. lia.
Qed.

(** The digits of the quotient give the exponent. *)
Lemma quotient_exponent n d t a q r : 0 < n -> 0 < d -> exponent_of n d t -> 0 <= a <= 1074 -> 0 <= t + a ->
  0 <= q -> 0 <= r < d -> q * d + r = n * 2 ^ a -> fexp prec emax (Zdigits2 q + - a) = t.
Proof.
  intros Hn Hd [Hmin Hhi Hlo] Ha Hta Hq Hr Hdiv. rewrite fexp_eq.
  rewrite (tiny_split a) in Hhi, Hlo by lia. rewrite (unit_split t a) in Hhi, Hlo by lia.
  pose proof (pow2_pos (1074 - a) ltac:(lia)) as Hw. set (w := 2 ^ (1074 - a)) in *. pose proof (pow2_pos (t + a) Hta) as Hu.
  assert (Hup : Zdigits2 q <= 53 + (t + a)).
  { apply Zdigits2_bounds; [lia..|]. rewrite Z.pow_add_r by lia. set (u := 2 ^ (t + a)) in *.
    assert (n * 2 ^ a < 2 ^ 53 * (d * u)) by nia. nia. }
  destruct Hlo as [->|Hlo]; [lia|].
  assert (Hdown : ~ Zdigits2 q <= 52 + (t + a)).
  { rewrite Zdigits2_bounds by lia. rewrite Z.pow_add_r by lia. set (u := 2 ^ (t + a)) in *.
    assert (2 ^ 52 * (d * u) <= n * 2 ^ a) by nia. nia. }
  lia.
Qed.

Lemma fraction_rounded s n d t : 0 < n -> 0 < d -> exponent_of n d t ->
  float_of_frac s n d = finish s (div_half_even (n * tiny) (d * unit_at t)) t.
Proof.
  intros Hn Hd He. pose proof (division_exponent n d t Hn Hd He) as Hle. pose proof (eo_min _ _ _ He) as Hmin.
  destruct n as [|p|p]; [lia| |lia]. unfold float_of_frac, SFdiv, SFdiv_core_binary.
  destruct d as [|d|d]; [lia| |lia]. cbn [Z.to_pos Zdigits2]. rewrite !digits2_log2, !Z.add_0_r, Z.sub_0_r.
  set (e' := Z.min _ _) in *. assert (Ha : 0 <= - e' <= 1074) by (subst e'; rewrite fexp_eq; lia).
  assert (Hta : 0 <= t + - e') by lia. cbv zeta. rewrite shifted_mantissa by lia. change (0 - e') with (- e').
  clearbody e'. assert (Hea : exists a, - e' = a) by eauto. destruct Hea as [a Hea]. rewrite Hea in *.
  pose proof (Z_div_mod (Z.pos p * 2 ^ a) (Z.pos d) ltac:(lia)) as Hdiv.
  destruct (Z.div_eucl (Z.pos p * 2 ^ a) (Z.pos d)) as [q r]. destruct Hdiv as [Hdiv Hr].
  assert (Hq : 0 <= q) by (pose proof (pow2_pos a ltac:(lia)); nia).
  assert (Hdiv' : q * Z.pos d + r = Z.pos p * 2 ^ a) by lia.
  pose proof (quotient_exponent _ _ t a q r Hn Hd He Ha Hta Hq Hr Hdiv') as Hexp. replace (- a) with e' in Hexp by lia.
  pose proof (remainder_stands q r (Z.pos d) Hq Hr) as Hst. rewrite Hdiv' in Hst.
  unfold binary_round_aux. unfold shr_fexp at 1. rewrite Hexp.
  destruct (shr_by _ e' (t - e') _ (Z.pos d) ltac:(lia) ltac:(lia) Hst) as (mrs & -> & Hmrs).
  replace (e' + (t - e')) with t by lia. replace (t - e') with (t + a) in Hmrs by lia.
  apply (stands_scale (2 ^ (1074 - a))) in Hmrs; [|apply pow2_pos; lia].
  replace (2 ^ (1074 - a) * (Z.pos p * 2 ^ a)) with (Z.pos p * tiny) in Hmrs by (rewrite (tiny_split a) by lia; ring).
  replace (2 ^ (1074 - a) * (2 ^ (t + a) * Z.pos d)) with (Z.pos d * unit_at t) in Hmrs by (rewrite (unit_split t a) by lia; ring).
  pose proof (unit_pos t Hmin). rewrite (rounds _ (Z.pos p * tiny) (Z.pos d * unit_at t) ltac:(nia) Hmrs). rewrite xorb_false_r. reflexivity.
Qed.

(** Every positive fraction has such an exponent. *)
Lemma exponent_exists n d : 0 < n -> 0 < d -> exists t, exponent_of n d t.
Proof.
  intros Hn Hd. pose proof tiny_pos as Ht. set (q := n * tiny / d). pose proof (Z.div_mod (n * tiny) d ltac:(lia)) as Hdm.
  pose proof (Z.mod_pos_bound (n * tiny) d Hd) as Hr. fold q in Hdm. assert (Hq : 0 <= q) by (apply Z.div_pos; nia).
  destruct (Z.lt_ge_cases q (2 ^ 53)) as [Hs|Hb].
  - exists (-1074). split; [lia| |by left]. change (unit_at (-1074)) with 1. nia.
  - assert (Hl : 53 <= Z.log2 q) by (apply Z.log2_le_pow2; lia). pose proof (Z.log2_spec q ltac:(lia)) as [Hq1 Hq2].
    exists (Z.log2 q - 52 - 1074). unfold unit_at. replace (Z.log2 q - 52 - 1074 + 1074) with (Z.log2 q - 52) by lia.
    assert (E1 : 2 ^ 52 * 2 ^ (Z.log2 q - 52) = 2 ^ Z.log2 q) by (rewrite <- Z.pow_add_r by lia; f_equal; lia).
    assert (E2 : 2 ^ 53 * 2 ^ (Z.log2 q - 52) = 2 ^ Z.succ (Z.log2 q)) by (rewrite <- Z.pow_add_r by lia; f_equal; lia).
    split; [lia| |right]; unfold unit_at; replace (Z.log2 q - 52 - 1074 + 1074) with (Z.log2 q - 52) by lia.
    + replace (2 ^ 53 * (d * 2 ^ (Z.log2 q - 52))) with (d * 2 ^ Z.succ (Z.log2 q)) by (rewrite <- E2; ring). nia.
    + replace (2 ^ 52 * (d * 2 ^ (Z.log2 q - 52))) with (d * 2 ^ Z.log2 q) by (rewrite <- E1; ring). nia.
Qed.

Lemma div_half_even_scale c n d : 0 < c -> 0 < d -> div_half_even (c * n) (c * d) = div_half_even n d.
Proof.
  intros Hc Hd. unfold div_half_even. rewrite Z.div_mul_cancel_l, Z.mul_mod_distr_l by lia. set (r := n mod d).
  replace (2 * (c * r)) with (c * (2 * r)) by ring. set (r2 := 2 * r).
  replace (c * r2 <? c * d) with (r2 <? d) by (destruct (Z.ltb_spec r2 d), (Z.ltb_spec (c * r2) (c * d)); nia).
  by replace (c * d <? c * r2) with (d <? r2) by (destruct (Z.ltb_spec d r2), (Z.ltb_spec (c * d) (c * r2)); nia).
Qed.

(** The double of a fraction depends on the value of the fraction alone. *)
Lemma float_of_frac_scale s c n d : 0 < c -> 0 < n -> 0 < d -> float_of_frac s (c * n) (c * d) = float_of_frac s n d.
Proof.
  intros Hc Hn Hd. destruct (exponent_exists n d Hn Hd) as [t Ht]. pose proof (unit_pos t (eo_min _ _ _ Ht)) as Hu.
  rewrite (fraction_rounded s n d t) by done. rewrite (fraction_rounded s (c * n) (c * d) t); [|nia..|].
  - rewrite <- (div_half_even_scale c (n * tiny) (d * unit_at t)) by nia. by rewrite !Z.mul_assoc.
  - destruct Ht as [Hmin Hhi Hlo]. split; [done|nia|]. destruct Hlo as [|Hlo]; [by left|right; nia].
Qed.

(** ** Seventeen digits determine a double *)

Lemma bounded_inv m e : bounded prec emax m e = true ->
  fexp prec emax (Zdigits2 (Z.pos m) + e) = e /\ -1074 <= e <= 971 /\ Z.pos m < 2 ^ 53 /\ (e = -1074 \/ 2 ^ 52 <= Z.pos m).
Proof.
  unfold bounded, canonical_mantissa. intros [H1%Z.eqb_eq H2%Z.leb_le]%andb_prop. split; [exact H1|].
  change (Z.pos (digits2_pos m)) with (Zdigits2 (Z.pos m)) in H1. rewrite fexp_eq in H1. change (emax - prec) with 971 in H2.
  assert (Hd : Zdigits2 (Z.pos m) <= 53) by lia. split; [lia|]. split; [by apply Zdigits2_bounds in Hd|].
  destruct (Z.eq_dec e (-1074)) as [|He]; [by left|right]. destruct (Z.le_gt_cases (2 ^ 52) (Z.pos m)) as [|Hlt]; [done|].
  apply (Zdigits2_bounds (Z.pos m) 52) in Hlt; lia.
Qed.

Lemma finish_exact s m e : bounded prec emax m e = true -> finish s (Z.pos m) e = S754_finite s m e.
Proof.
  intros H. apply bounded_inv in H as (Hf & He & _). unfold finish, shr_fexp. rewrite Hf, Z.sub_diag. cbn [shr shr_record_of_loc shr_m].
  by rewrite (proj2 (Z.leb_le e (emax - prec))) by (change (emax - prec) with 971; lia).
Qed.

(** Rounding up to a power of two carries into the exponent. *)
Lemma finish_carry s e : -1074 <= e - 1 -> e <= 971 -> finish s (2 ^ 53) (e - 1) = S754_finite s 4503599627370496 e.
Proof.
  intros Hlo Hhi. unfold finish, shr_fexp. rewrite fexp_eq. change (Zdigits2 (2 ^ 53)) with 54.
  replace (Z.max (54 + (e - 1) - 53) (-1074) - (e - 1)) with 1 by lia. cbn [shr].
  change (shr_m (SpecFloat.iter_pos shr_1 1 (shr_record_of_loc (2 ^ 53) loc_Exact))) with 4503599627370496.
  replace (e - 1 + 1) with e by lia. cbv iota. by rewrite (proj2 (Z.leb_le e (emax - prec))) by (change (emax - prec) with 971; lia).
Qed.

Lemma nearest m num den : 0 < den -> 2 * Z.abs (num - m * den) < den -> div_half_even num den = m.
Proof.
  intros Hd H. unfold div_half_even. pose proof (Z.div_mod num den ltac:(lia)) as Hdm.
  pose proof (Z.mod_pos_bound num den Hd) as Hr. set (q := num / den) in *. set (r := num mod den) in *.
  replace (num - m * den) with (den * (q - m) + r) in H by lia.
  assert (Hk : q - m = 0 \/ q - m = -1).
  { destruct (Z.le_gt_cases (q - m) (-2)); [exfalso; assert (den * (q - m) <= den * -2) by nia; lia|].
    destruct (Z.le_gt_cases 1 (q - m)); [exfalso; assert (den * 1 <= den * (q - m)) by nia; lia|]. lia. }
  destruct (Z.ltb_spec (2 * r) den), (Z.ltb_spec den (2 * r)); destruct Hk as [Hk|Hk]; rewrite Hk in H; try lia.
  all: exfalso; lia.
Qed.

(** A fraction within a relative distance of half a unit of the seventeenth digit. *)
Lemma near_reads s m e n d :
  bounded prec emax m e = true -> 0 < n -> 0 < d ->
  2 * 10 ^ 16 * Z.abs (n * tiny - Z.pos m * (d * unit_at e)) <= Z.pos m * (d * unit_at e) ->
  float_of_frac s n d = S754_finite s m e.
Proof.
  intros Hb Hn Hd Hnear. pose proof (bounded_inv m e Hb) as (_ & He & Hm & Hlo). pose proof (unit_pos e ltac:(lia)) as Hu.
  set (x := n * tiny) in *. set (w := d * unit_at e) in *. assert (Hw : 0 < w) by (subst w; nia).
  change (2 * 10 ^ 16) with 20000000000000000 in Hnear. change (2 ^ 53) with 9007199254740992 in *. change (2 ^ 52) with 4503599627370496 in *.
  assert (Hmw : Z.pos m * w <= 9007199254740991 * w) by nia.
  destruct (Z.eq_dec e (-1074)) as [Hmin|Hmin].
  - rewrite (fraction_rounded s n d e Hn Hd); [|split; [lia|fold x w; change (2 ^ 53) with 9007199254740992; lia|by left]].
    fold x w. rewrite (nearest (Z.pos m)) by lia. by apply finish_exact.
  - destruct (Z.le_gt_cases (4503599627370496 * w) x) as [Hx|Hx].
    + rewrite (fraction_rounded s n d e Hn Hd); [|split; [lia|fold x w; change (2 ^ 53) with 9007199254740992; lia|right; exact Hx]].
      fold x w. rewrite (nearest (Z.pos m)) by lia. by apply finish_exact.
    + assert (Hpow : m = 4503599627370496%positive) by nia. subst m. clear Hmw Hlo.
      assert (Hhalf : w = 2 * (d * unit_at (e - 1))).
      { subst w. unfold unit_at. replace (e + 1074) with (1 + (e - 1 + 1074)) by lia. rewrite Z.pow_add_r by lia. ring. }
      rewrite (fraction_rounded s n d (e - 1) Hn Hd).
      * fold x. rewrite (nearest (2 ^ 53)); [apply finish_carry; lia|nia|]. change (2 ^ 53) with 9007199254740992. lia.
      * split; [lia|fold x; change (2 ^ 53) with 9007199254740992; lia|right; change (2 ^ 52) with 4503599627370496; lia].
Qed.

(** ** The decimal exponent *)

Lemma search_keeps fuel num den e : pow10_le num den e = true -> pow10_le num den (exp10_search fuel num den e) = true.
Proof.
  revert e. induction fuel as [|f IH]; intros e He; cbn [exp10_search]; [done|].
  destruct (pow10_le num den (e + 1)) eqn:E; [by apply IH|]. by rewrite He.
Qed.

Lemma search_finds fuel num den e :
  pow10_le num den (e - Z.of_nat fuel) = true -> pow10_le num den (exp10_search (S fuel) num den e) = true.
Proof.
  revert e. induction fuel as [|f IH]; intros e He.
  - rewrite Z.sub_0_r in He. cbn [exp10_search]. destruct (pow10_le num den (e + 1)) eqn:E; [done|]. by rewrite He.
  - change (exp10_search (S (S f)) num den e) with
      (if pow10_le num den (e + 1) then exp10_search (S f) num den (e + 1)
       else if pow10_le num den e then e else exp10_search (S f) num den (e - 1)).
    destruct (pow10_le num den (e + 1)) eqn:E; [by apply search_keeps|].
    destruct (pow10_le num den e) eqn:E'; [done|]. apply (IH (e - 1)).
    by replace (e - 1 - Z.of_nat f) with (e - Z.of_nat (S f)) by lia.
Qed.

(** Powers of ten against powers of two. *)
Lemma pow10_below a : 0 <= a -> 10 ^ a <= 2 ^ (10 * ((a + 2) / 3)).
Proof.
  intros Ha. set (k := (a + 2) / 3). assert (Hk : a <= 3 * k) by (subst k; Z.to_euclidean_division_equations; lia).
  transitivity (10 ^ (3 * k)); [apply Z.pow_le_mono_r; lia|]. rewrite !Z.pow_mul_r by lia. apply Z.pow_le_mono_l. lia.
Qed.

Lemma pow10_above b : 0 <= b -> 2 ^ (33 * (b / 10) + 3 * (b mod 10)) <= 10 ^ b.
Proof.
  intros Hb. pose proof (Z.div_pos b 10 Hb ltac:(lia)). pose proof (Z.mod_pos_bound b 10 ltac:(lia)).
  rewrite (Z.div_mod b 10) at 3 by lia. rewrite !Z.pow_add_r by lia. rewrite !(Z.pow_mul_r _ _ (b / 10)), (Z.pow_mul_r 2 3) by lia.
  apply Z.mul_le_mono_nonneg; [apply Z.pow_nonneg; lia| |apply Z.pow_nonneg; lia|]; apply Z.pow_le_mono_l; lia.
Qed.

Lemma exp10_below num den : 0 < num -> 0 < den -> -1100 <= Z.log2 num - Z.log2 den <= 1100 ->
  pow10_le num den (exp10 num den) = true.
Proof.
  intros Hn Hd Hl. unfold exp10. apply (search_finds 4). change (Z.of_nat 4) with 4. set (l := Z.log2 num - Z.log2 den) in *.
  pose proof (Z.log2_spec num Hn) as [Hn1 _]. pose proof (Z.log2_spec den Hd) as [_ Hd2]. rewrite <- Z.add_1_r in Hd2.
  pose proof (Z.log2_nonneg den). pose proof (Z.log2_nonneg num). set (a := l * 30103 / 100000 - 4).
  assert (Ha : 100000 * (a + 4) <= l * 30103) by (subst a; Z.to_euclidean_division_equations; lia). unfold pow10_le.
  assert (Hval : forall k, 0 <= k -> k <= Z.log2 num - (Z.log2 den + 1) -> den * 2 ^ k <= num).
  { intros k Hk Hle. transitivity (2 ^ (Z.log2 den + 1) * 2 ^ k); [pose proof (pow2_pos k Hk); nia|].
    rewrite <- Z.pow_add_r by lia. transitivity (2 ^ Z.log2 num); [apply Z.pow_le_mono_r; lia|done]. }
  destruct (Z.leb_spec 0 a) as [Hpos|Hneg]; apply Z.leb_le.
  - pose proof (pow10_below a Hpos). transitivity (den * 2 ^ (10 * ((a + 2) / 3))); [nia|]. apply Hval; Z.to_euclidean_division_equations; lia.
  - pose proof (pow10_above (- a) ltac:(lia)) as Hb. set (k := 33 * (- a / 10) + 3 * (- a mod 10)) in *.
    assert (Hk : 0 <= k /\ Z.log2 den + 1 <= Z.log2 num + k) by (subst k; Z.to_euclidean_division_equations; lia).
    transitivity (num * 2 ^ k); [|nia]. transitivity (2 ^ Z.log2 num * 2 ^ k); [|pose proof (pow2_pos k (proj1 Hk)); nia].
    rewrite <- Z.pow_add_r by lia. transitivity (2 ^ (Z.log2 den + 1)); [lia|apply Z.pow_le_mono_r; lia].
Qed.

(** ** The shortest decimal that reads back *)

Lemma feqb_eq x m e : feqb x (S754_finite false m e) = true -> x = S754_finite false m e.
Proof.
  unfold feqb, SFeqb, SFcompare. destruct x as [s|s| |[] m' e']; try done; try by destruct s.
  destruct (Z.compare_spec e' e) as [->|H|H]; try done. change (Pos.compare_cont Eq m' m) with (Pos.compare m' m).
  destruct (Pos.compare_spec m' m) as [->|H|H]; done.
Qed.

Lemma frac_value m e : -1074 <= e -> let '(num, den) := frac_of m e in
  0 < num /\ 0 < den /\ num * tiny = Z.pos m * unit_at e * den.
Proof.
  intros He. unfold frac_of, unit_at, tiny. destruct (Z.leb_spec 0 e) as [H|H].
  - pose proof (pow2_pos e H). split; [nia|]. split; [lia|]. rewrite Z.pow_add_r by lia. ring.
  - pose proof (pow2_pos (- e) ltac:(lia)). split; [lia|]. split; [done|].
    replace 1074 with (e + 1074 + - e) at 1 by lia. rewrite Z.pow_add_r by lia. ring.
Qed.

Lemma frac_log2 m e : bounded prec emax m e = true -> let '(num, den) := frac_of m e in
  -1100 <= Z.log2 num - Z.log2 den <= 1100.
Proof.
  intros (_ & He & Hm & _)%bounded_inv. unfold frac_of.
  assert (Hl : 0 <= Z.log2 (Z.pos m) < 53) by (split; [apply Z.log2_nonneg|apply Z.log2_lt_pow2; lia]).
  destruct (Z.leb_spec 0 e).
  - rewrite Z.log2_mul_pow2 by lia. change (Z.log2 1) with 0. lia.
  - rewrite Z.log2_pow2 by lia. lia.
Qed.

(** The seventeen-digit decimal next to a double. *)
Lemma seventeen_digits m e num den : bounded prec emax m e = true -> frac_of m e = (num, den) ->
  forall c l, candidates 17 num den (exp10 num den) = c :: l -> float_of_dec false c.1 c.2 = S754_finite false m e.
Proof.
  intros Hb Hf c l Hc. pose proof (bounded_inv m e Hb) as (_ & He & _). pose proof (frac_value m e ltac:(lia)) as Hv.
  pose proof (frac_log2 m e Hb) as Hl. rewrite Hf in Hv, Hl. destruct Hv as (Hn & Hd & Hv).
  pose proof (exp10_below num den Hn Hd Hl) as Hle. set (e10 := exp10 num den) in *. unfold candidates in Hc.
  replace (e10 - 17 + 1) with (e10 - 16) in Hc by lia. set (q := e10 - 16) in *.
  assert (Hscaled : exists n' d', (if 0 <=? q then (num, den * 10 ^ q) else (num * 10 ^ (- q), den)) = (n', d') /\
            0 < n' /\ 0 < d' /\ 10 ^ 16 * d' <= n').
  { unfold pow10_le in Hle. destruct (Z.leb_spec 0 q) as [Hq|Hq]; eexists _, _; (split; [reflexivity|]).
    - rewrite (proj2 (Z.leb_le 0 e10)) in Hle by lia. apply Z.leb_le in Hle. pose proof (pow10_pos q Hq). split; [lia|]. split; [nia|].
      replace e10 with (q + 16) in Hle by lia. rewrite Z.pow_add_r in Hle by lia. lia.
    - pose proof (pow10_pos (- q) ltac:(lia)). split; [nia|]. split; [done|]. destruct (Z.leb_spec 0 e10) as [Hp|Hp]; apply Z.leb_le in Hle.
      + replace 16 with (e10 + - q) by lia. rewrite Z.pow_add_r by lia. nia.
      + replace (- q) with (- e10 + 16) by lia. rewrite Z.pow_add_r by lia. nia. }
  destruct Hscaled as (n' & d' & Hsc & Hn' & Hd' & Hbig). rewrite Hsc in Hc. injection Hc as <- _. cbn [fst snd].
  set (near := div_half_even n' d'). assert (Hnear : 2 * Z.abs (near * d' - n') <= d').
  { unfold near, div_half_even. pose proof (Z.div_mod n' d' ltac:(lia)). pose proof (Z.mod_pos_bound n' d' Hd').
    destruct (Z.ltb_spec (2 * (n' mod d')) d'); [lia|]. destruct (Z.ltb_spec d' (2 * (n' mod d'))); [lia|]. destruct (Z.even _); lia. }
  change (10 ^ 16) with 10000000000000000 in Hbig. assert (Hpos : 0 < near) by nia.
  assert (Hreads : forall n d, 0 < n -> 0 < d -> 2 * 10 ^ 16 * Z.abs (n * den - num * d) <= num * d -> float_of_frac false n d = S754_finite false m e).
  { intros n d Hn0 Hd0 H. apply near_reads; [done..|]. pose proof tiny_pos as Ht. pose proof (unit_pos e ltac:(lia)) as Hu.
    set (w := d * unit_at e) in *. assert (Hw : num * d * tiny = den * (Z.pos m * w)).
    { replace (num * d * tiny) with (num * tiny * d) by ring. rewrite Hv. subst w. ring. }
    assert (Habs : Z.abs (n * den - num * d) * tiny = den * Z.abs (n * tiny - Z.pos m * w)).
    { assert (Hcore : (n * den - num * d) * tiny = den * (n * tiny - Z.pos m * w)).
      { replace ((n * den - num * d) * tiny) with (n * den * tiny - num * d * tiny) by ring. rewrite Hw. ring. }
      apply (f_equal Z.abs) in Hcore. rewrite !Z.abs_mul, (Z.abs_eq tiny), (Z.abs_eq den) in Hcore by lia. exact Hcore. }
    change (2 * 10 ^ 16) with 20000000000000000 in *. nia. }
  unfold float_of_dec. destruct (Z.leb_spec 0 q) as [Hq|Hq]; injection Hsc as <- <-; apply Hreads; lia.
Qed.

Lemma float_of_dec_pos n q m e : float_of_dec false n q = S754_finite false m e -> 0 < n.
Proof.
  unfold float_of_dec, float_of_frac. destruct (Z.le_gt_cases n 0) as [Hn|]; [|done].
  destruct (Z.leb_spec 0 q) as [Hq|Hq].
  - pose proof (pow10_pos q Hq). assert (n * 10 ^ q <= 0) by nia. destruct (n * 10 ^ q); [done|lia|done].
  - destruct n; [done|lia|done].
Qed.

Lemma float_of_dec_ten s n q : 0 < n -> float_of_dec s (10 * n) q = float_of_dec s n (q + 1).
Proof.
  intros Hn. unfold float_of_dec. destruct (Z.leb_spec 0 q) as [Hq|Hq].
  - rewrite (proj2 (Z.leb_le 0 (q + 1))) by lia. f_equal. rewrite Z.pow_add_r by lia. ring.
  - replace (10 ^ - q) with (10 * 10 ^ (- q - 1)) by (rewrite <- Z.pow_succ_r by lia; f_equal; lia).
    rewrite float_of_frac_scale by (try apply pow10_pos; lia). destruct (Z.leb_spec 0 (q + 1)) as [Hp|Hp].
    + replace q with (-1) by lia. cbn. by rewrite Z.mul_1_r.
    + f_equal. f_equal. lia.
Qed.

Lemma strip_zeros_value fuel n q s : 0 < n -> let '(n', q') := strip_zeros fuel n q in
  0 < n' /\ float_of_dec s n' q' = float_of_dec s n q.
Proof.
  revert n q. induction fuel as [|f IH]; intros n q Hn; cbn [strip_zeros]; [done|].
  destruct ((n mod 10 =? 0) && negb (n =? 0)) eqn:E; [|done]. apply andb_prop in E as [E%Z.eqb_eq _].
  assert (Hn' : n = 10 * (n / 10)) by (Z.to_euclidean_division_equations; lia). specialize (IH (n / 10) (q + 1) ltac:(lia)).
  destruct (strip_zeros f (n / 10) (q + 1)) as [n' q']. rewrite <- float_of_dec_ten, <- Hn' in IH by lia. exact IH.
Qed.

Lemma shortest_reads m e num den fuel : forall k,
  bounded prec emax m e = true -> frac_of m e = (num, den) -> k + Z.of_nat fuel = 18 -> (0 < fuel)%nat ->
  let c := shortest fuel k num den (exp10 num den) (S754_finite false m e) in
  float_of_dec false c.1 c.2 = S754_finite false m e.
Proof.
  induction fuel as [|f IH]; intros k Hb Hf Hk Hfuel; [lia|]. cbn [shortest].
  destruct (List.find _ _) as [c|] eqn:Ef; [apply find_some in Ef as [_ Ef]; by apply feqb_eq|].
  destruct f as [|f]; [|apply IH; (done || lia)]. assert (k = 17) as -> by lia. exfalso.
  pose proof (seventeen_digits m e num den Hb Hf) as Hs. unfold candidates in Ef, Hs. destruct (if 0 <=? _ then _ else _) as [n' d'].
  cbn [List.find] in Ef. rewrite (Hs _ _ eq_refl) in Ef. unfold feqb, SFeqb, SFcompare in Ef. rewrite Z.compare_refl in Ef.
  change (Pos.compare_cont Eq m m) with (Pos.compare m m) in Ef. by rewrite Pos.compare_refl in Ef.
Qed.

(** The digits that [repr] writes read back as the double. *)
Lemma decimal_reads m e : bounded prec emax m e = true ->
  let '(num, den) := frac_of m e in
  let '(n, q) := shortest 17 1 num den (exp10 num den) (S754_finite false m e) in
  let '(n', q') := strip_zeros 20 n q in
  0 < n' /\ float_of_dec false n' q' = S754_finite false m e.
Proof.
  intros Hb. destruct (frac_of m e) as [num den] eqn:Hf. pose proof (shortest_reads m e num den 17 1 Hb Hf ltac:(lia) ltac:(lia)) as Hs.
  cbv zeta in Hs. destruct (shortest 17 1 num den (exp10 num den) (S754_finite false m e)) as [n q]. cbn [fst snd] in Hs.
  pose proof (strip_zeros_value 20 n q false (float_of_dec_pos _ _ _ _ Hs)) as Hz. destruct (strip_zeros 20 n q) as [n' q']. by rewrite Hs in Hz.
Qed.
