(* ===== verification/Text.v ===== *)
(** * Text and bytes

    A Python [str] is represented by a Rocq [string] holding its generalised
    UTF-8 encoding (lone surrogates are encoded like other 3-byte code points).
    The representation is injective, turns concatenation into concatenation and
    code-point order into byte order, so [+], [==], [<], [in], [startswith],
    [split] and [join] are the byte operations; the operations that look at
    code points ([strip], [\d], strict UTF-8) decode first.  [bytes] are lists
    of integers between 0 and 255. *)

From Stdlib Require Import ZArith Lia Bool List Ascii String.
From stdpp Require Import base list option strings.
From S2P Require Import Prelude.

Open Scope Z_scope.

(** ** Bytes *)

Definition byte_of (c : ascii) : Z := Z.of_N (N_of_ascii c).
Definition ascii_of (b : Z) : ascii := ascii_of_N (Z.to_N b).

Definition is_byte (b : Z) : bool := (0 <=? b) && (b <? 256).

Fixpoint bytes_of_string (s : string) : list Z :=
  match s with
  | EmptyString => []
  | String c s' => byte_of c :: bytes_of_string s'
  end.

Fixpoint string_of_bytes (l : list Z) : string :=
  match l with
  | [] => EmptyString
  | b :: l' => String (ascii_of b) (string_of_bytes l')
  end.

Lemma byte_of_range c : 0 <= byte_of c < 256.
Proof. unfold byte_of. pose proof (N_ascii_bounded c). lia. Qed.

Lemma ascii_of_byte_of c : ascii_of (byte_of c) = c.
Proof. unfold ascii_of, byte_of. by rewrite N2Z.id, ascii_N_embedding. Qed.

Lemma byte_of_ascii_of b : 0 <= b < 256 -> byte_of (ascii_of b) = b.
Proof.
  intros H. unfold ascii_of, byte_of. rewrite N_ascii_embedding by lia. lia.
Qed.

Lemma string_of_bytes_of_string s : string_of_bytes (bytes_of_string s) = s.
Proof. induction s as [|c s IH]; cbn; [done|]. by rewrite ascii_of_byte_of, IH. Qed.

Lemma bytes_of_string_range s : Forall (fun b => 0 <= b < 256) (bytes_of_string s).
Proof. induction s as [|c s IH]; constructor; auto using byte_of_range. Qed.

Lemma bytes_of_string_inj s t : bytes_of_string s = bytes_of_string t -> s = t.
Proof.
  intros H. by rewrite <- (string_of_bytes_of_string s), H, string_of_bytes_of_string.
Qed.

Lemma bytes_of_string_app s t :
  bytes_of_string (s +:+ t) = bytes_of_string s ++ bytes_of_string t.
Proof. induction s as [|c s IH]; [done|]. rewrite string_app_cons. cbn. by rewrite IH. Qed.

(** [bytes.hex()] *)
Definition hex_digit (n : Z) : ascii :=
  ascii_of (if n <? 10 then 48 + n else 87 + n).

Fixpoint hex_of_bytes (l : list Z) : string :=
  match l with
  | [] => ""
  | b :: l' => String (hex_digit (b / 16)) (String (hex_digit (b mod 16)) (hex_of_bytes l'))
  end.

(** ** UTF-8 *)

Definition is_cont (b : Z) : bool := (128 <=? b) && (b <? 192).

(** The next code point of a generalised UTF-8 sequence. *)
Definition utf8_next (l : list Z) : option (Z * list Z) :=
  match l with
  | [] => None
  | b0 :: r0 =>
      if b0 <? 128 then Some (b0, r0)
      else match r0 with
      | [] => None
      | b1 :: r1 =>
          if negb (is_cont b1) then None
          else if (194 <=? b0) && (b0 <? 224) then
            Some ((b0 - 192) * 64 + (b1 - 128), r1)
          else match r1 with
          | [] => None
          | b2 :: r2 =>
              if negb (is_cont b2) then None
              else if (224 <=? b0) && (b0 <? 240) then
                let c := (b0 - 224) * 4096 + (b1 - 128) * 64 + (b2 - 128) in
                if c <? 2048 then None else Some (c, r2)
              else match r2 with
              | [] => None
              | b3 :: r3 =>
                  if negb (is_cont b3) then None
                  else if (240 <=? b0) && (b0 <? 245) then
                    let c := (b0 - 240) * 262144 + (b1 - 128) * 4096
                             + (b2 - 128) * 64 + (b3 - 128) in
                    if (c <? 65536) || (1114111 <? c) then None else Some (c, r3)
                  else None
              end
          end
      end
  end.

Definition is_surrogate (c : Z) : bool := (55296 <=? c) && (c <? 57344).

(** Decode with a fuel of one step per byte. *)
Fixpoint utf8_scan (fuel : nat) (l : list Z) : option (list Z) :=
  match l with
  | [] => Some []
  | _ =>
      match fuel with
      | O => None
      | S f =>
          match utf8_next l with
          | None => None
          | Some (c, r) => option_map (cons c) (utf8_scan f r)
          end
      end
  end.

Definition code_points_of_bytes (l : list Z) : option (list Z) := utf8_scan (length l) l.

(** Strict UTF-8: decodable and free of surrogates. *)
Definition utf8_valid (l : list Z) : bool :=
  match code_points_of_bytes l with
  | Some cs => forallb (fun c => negb (is_surrogate c)) cs
  | None => false
  end.

(** [s.encode("utf-8")] *)
Definition encode_utf8 (s : string) : result (list Z) :=
  let b := bytes_of_string s in
  if utf8_valid b then Ok b else Raise (UnicodeError "surrogates not allowed").

(** [b.decode("utf-8")] *)
Definition decode_utf8 (b : list Z) : result string :=
  if utf8_valid b then Ok (string_of_bytes b) else Raise (UnicodeError "invalid utf-8").

Lemma decode_encode_utf8 s b : encode_utf8 s = Ok b -> decode_utf8 b = Ok s.
Proof.
  unfold encode_utf8, decode_utf8. intros H. destr_match H; inv_ok.
  rewrite E. by rewrite string_of_bytes_of_string.
Qed.

(** The code points of a [str]. *)
Definition code_points (s : string) : list Z :=
  match code_points_of_bytes (bytes_of_string s) with
  | Some cs => cs
  | None => bytes_of_string s
  end.

Definition utf8_of_cp (c : Z) : list Z :=
  if c <? 128 then [c]
  else if c <? 2048 then [192 + c / 64; 128 + c mod 64]
  else if c <? 65536 then [224 + c / 4096; 128 + (c / 64) mod 64; 128 + c mod 64]
  else [240 + c / 262144; 128 + (c / 4096) mod 64; 128 + (c / 64) mod 64; 128 + c mod 64].

Definition of_code_points (cs : list Z) : string := string_of_bytes (flat_map utf8_of_cp cs).

Example code_points_ex :
  let s := string_of_bytes [72; 195; 169; 226; 132; 170; 240; 159; 152; 128; 237; 160; 128] in
  code_points s = [72; 233; 8490; 128512; 55296] /\ of_code_points (code_points s) = s
  /\ encode_utf8 s = Raise (UnicodeError "surrogates not allowed").
Proof. vm_compute. auto. Qed.

(** ** Whitespace, case *)

(** [c.isspace()] *)
Definition is_space (c : Z) : bool :=
  ((9 <=? c) && (c <=? 13)) || ((28 <=? c) && (c <=? 32)) || (c =? 133) || (c =? 160)
  || (c =? 5760) || ((8192 <=? c) && (c <=? 8202)) || (c =? 8232) || (c =? 8233)
  || (c =? 8239) || (c =? 8287) || (c =? 12288).

Fixpoint drop_space (l : list Z) : list Z :=
  match l with
  | c :: l' => if is_space c then drop_space l' else l
  | [] => []
  end.

(** [s.strip()] *)
Definition py_strip (s : string) : string :=
  of_code_points (rev (drop_space (rev (drop_space (code_points s))))).

Definition lower_byte (b : Z) : Z := if (65 <=? b) && (b <=? 90) then b + 32 else b.

(** [s.lower()] as far as ASCII text can see it: ASCII letters, the Kelvin sign
    (which lowers to "k") and the dotted capital I (which lowers to "i" and a
    combining dot) are mapped; the lower case of every other code point contains
    no ASCII character, so it is left alone.  Searching the result for an ASCII
    word, or comparing it with one, gives Python's answer. *)
Fixpoint lower_bytes (l : list Z) : list Z :=
  match l with
  | 226 :: ((132 :: ((170 :: r2) as r1)) as r0) => 107 :: lower_bytes r2
  | 196 :: ((176 :: r1) as r0) => 105 :: 204 :: 135 :: lower_bytes r1
  | b :: r => lower_byte b :: lower_bytes r
  | [] => []
  end.

Definition py_lower (s : string) : string := string_of_bytes (lower_bytes (bytes_of_string s)).

(** ** Substrings *)

Definition startswith (s p : string) : bool := String.prefix p s.

(** [needle in s] *)
Fixpoint py_contains (s needle : string) : bool :=
  String.prefix needle s ||
  match s with
  | EmptyString => false
  | String _ s' => py_contains s' needle
  end.

(** [s.replace(needle, new)] for a non-empty needle: leftmost occurrences,
    without overlap; [skip] counts the characters of an occurrence left to drop. *)
Fixpoint replace_from (needle new : string) (skip : nat) (s : string) : string :=
  match s with
  | EmptyString => ""
  | String c s' =>
      match skip with
      | S k => replace_from needle new k s'
      | O => if String.prefix needle s
             then new +:+ replace_from needle new (String.length needle - 1) s'
             else String c (replace_from needle new 0 s')
      end
  end.
Definition py_replace (needle new s : string) : string := replace_from needle new 0 s.

Example replace_ex : py_replace "_" " " (py_replace "system_" "" "system_system__app_x") = " app x".
Proof. reflexivity. Qed.

Fixpoint endswith (s suffix : string) : bool :=
  String.eqb s suffix ||
  match s with
  | EmptyString => false
  | String _ s' => endswith s' suffix
  end.

(** [s.replace(c, new)] for a one-character ASCII [c]. *)
Fixpoint replace_char (c : ascii) (new s : string) : string :=
  match s with
  | EmptyString => EmptyString
  | String a s' =>
      if Ascii.eqb a c then new +:+ replace_char c new s' else String a (replace_char c new s')
  end.

(** [s.split(c)] for a one-character ASCII separator: never empty. *)
Fixpoint split_on (c : ascii) (s : string) : list string :=
  match s with
  | EmptyString => [""]
  | String a s' =>
      if Ascii.eqb a c then "" :: split_on c s'
      else match split_on c s' with
           | [] => [String a ""]
           | w :: ws => String a w :: ws
           end
  end%string.

(** [sep.join(ws)] *)
Fixpoint join (sep : string) (ws : list string) : string :=
  match ws with
  | [] => ""
  | [w] => w
  | w :: ws' => w +:+ sep +:+ join sep ws'
  end%string.

Fixpoint mem_char (c : ascii) (s : string) : bool :=
  match s with
  | EmptyString => false
  | String a s' => Ascii.eqb a c || mem_char c s'
  end.

Section Split.
Context (c : ascii).

Lemma split_on_no_sep s : mem_char c s = false -> split_on c s = [s].
Proof.
  induction s as [|a s IH]; cbn; [done|]. intros [Ha Hs]%orb_false_iff.
  by rewrite Ha, IH.
Qed.

Lemma split_on_app s t :
  mem_char c s = false -> split_on c (s +:+ String c t) = s :: split_on c t.
Proof.
  induction s as [|a s IH].
  { change ("" +:+ String c t) with (String c t). cbn. by rewrite Ascii.eqb_refl. }
  cbn [mem_char]. intros [Ha Hs]%orb_false_iff.
  rewrite string_app_cons. cbn. by rewrite Ha, IH.
Qed.

Lemma split_on_nonempty s : split_on c s <> [].
Proof. destruct s as [|a s]; cbn; [done|]. destruct (Ascii.eqb a c); [done|]. by destruct (split_on c s). Qed.

(** [sep.join(s.split(sep)) == s] *)
Lemma join_split_on s : join (String c "") (split_on c s) = s.
Proof.
  induction s as [|a s IH]; [done|]. cbn.
  pose proof (split_on_nonempty s). destruct (Ascii.eqb_spec a c) as [->|].
  - destruct (split_on c s) as [|w ws]; [done|].
    change (String c (join (String c "") (w :: ws)) = String c s). by rewrite IH.
  - destruct (split_on c s) as [|w [|w' ws]]; [done|..];
      cbn in IH |- *; rewrite ?string_app_cons; f_equal; exact IH.
Qed.
End Split.

Lemma startswith_app p s : startswith (p +:+ s) p = true.
Proof.
  unfold startswith. induction p as [|a p IH]; [by destruct s|].
  rewrite string_app_cons. cbn. by destruct (ascii_dec a a).
Qed.

#[export] Hint Rewrite string_of_bytes_of_string bytes_of_string_app string_app_nil_r : py.
#[export] Hint Resolve bytes_of_string_range byte_of_range startswith_app : py.
