(* ===== verification/Clock.v ===== *)
(** * Time stamps ([common.py]: [utc_now_iso]; [memory.py]: [_utc_after_days])

    A clock reading is a number of microseconds since 1970-01-01T00:00:00Z.  A
    time stamp is [datetime.isoformat()] in UTC with "Z" for "+00:00": the
    Gregorian date, the time, and six digits of microseconds unless there are
    none.  The store and the memory runtime compare time stamps as text. *)

From Stdlib Require Import ZArith Lia Bool List Ascii String.
From stdpp Require Import base list option strings.
From S2P Require Import Prelude Text.

Open Scope Z_scope.

(** ** The calendar *)

(** Years of an era of 400 years start in March; [doe] is the day of the era. *)
Definition year_of_era (doe : Z) : Z := (doe - doe / 1460 + doe / 36524 - doe / 146096) / 365.

(** Year (counted from the start of the era), month and day of a day of the era. *)
Definition date_of (doe : Z) : Z * Z * Z :=
  let yoe := year_of_era doe in
  let doy := doe - (365 * yoe + yoe / 4 - yoe / 100) in
  let mp := (5 * doy + 2) / 153 in
  let m := if mp <? 10 then mp + 3 else mp - 9 in
  (yoe + (if m <=? 2 then 1 else 0), m, doy - (153 * mp + 2) / 5 + 1).

Definition year_in_era (doe : Z) : Z := (date_of doe).1.1.
Definition month_of (doe : Z) : Z := (date_of doe).1.2.
Definition day_of (doe : Z) : Z := (date_of doe).2.

Definition era_days : Z := 146097.
(** Days from 0000-03-01 to 1970-01-01. *)
Definition unix_epoch : Z := 719468.

Definition era (days : Z) : Z := (days + unix_epoch) / era_days.
Definition doe (days : Z) : Z := (days + unix_epoch) mod era_days.
Definition year (days : Z) : Z := year_in_era (doe days) + 400 * era days.
Definition month (days : Z) : Z := month_of (doe days).
Definition day (days : Z) : Z := day_of (doe days).

(** ** The text of a time stamp *)

(** [n] in exactly [w] decimal digits. *)
Fixpoint pad (w : nat) (n : Z) : string :=
  match w with
  | O => ""
  | S w' => pad w' (n / 10) +:+ String (ascii_of (48 + n mod 10)) ""
  end.

Definition day_micros : Z := 86400 * 1000000.

Definition date_text (days : Z) (rest : string) : string :=
  pad 4 (year days) +:+ String "-"%char (pad 2 (month days) +:+ String "-"%char (pad 2 (day days) +:+ rest)).

Definition time_text (seconds : Z) (rest : string) : string :=
  pad 2 (seconds / 3600) +:+ String ":"%char
    (pad 2 (seconds / 60 mod 60) +:+ String ":"%char (pad 2 (seconds mod 60) +:+ rest)).

Definition fraction_text (micros : Z) : string :=
  if micros =? 0 then "Z" else String "."%char (pad 6 micros +:+ "Z").

Definition stamp (micros : Z) : string :=
  date_text (micros / day_micros)
    (String "T"%char (time_text (micros / 1000000 mod 86400) (fraction_text (micros mod 1000000)))).

(** [datetime] holds the years 1 to 9999. *)
Definition in_range (micros : Z) : bool := (1 <=? year (micros / day_micros)) && (year (micros / day_micros) <=? 9999).

(** [datetime.now(timezone.utc).isoformat().replace("+00:00", "Z")] at a reading, and
    the same some days later. *)
Definition utc_text (micros : Z) : result string :=
  if in_range micros then Ok (stamp micros) else Raise (OverflowError "date value out of range").

Definition utc_after_days (reading days : Z) : result string := utc_text (reading + days * day_micros).

Example stamp_ex :
  utc_text 1778414400000000 = Ok "2026-05-10T12:00:00Z" /\ utc_text 951827696000120 = Ok "2000-02-29T12:34:56.000120Z"
  /\ utc_text (-1) = Ok "1969-12-31T23:59:59.999999Z" /\ utc_after_days 1778414400000000 30 = Ok "2026-06-09T12:00:00Z"
  /\ is_ok (utc_after_days 1778414400000000 (365 * 8000)) = false.
Proof. vm_compute. auto. Qed.

(** ** Text order of digits *)

Lemma ascii_compare_of a b : 0 <= a < 256 -> 0 <= b < 256 -> Ascii.compare (ascii_of a) (ascii_of b) = (a ?= b).
Proof.
  intros Ha Hb. unfold Ascii.compare. rewrite <- (byte_of_ascii_of a Ha), <- (byte_of_ascii_of b Hb) at 2.
  unfold byte_of. by rewrite N2Z.inj_compare.
Qed.

Lemma ascii_compare_refl c : Ascii.compare c c = Eq.
Proof. unfold Ascii.compare. apply N.compare_refl. Qed.

Lemma ascii_compare_eq c d : Ascii.compare c d = Eq -> c = d.
Proof. apply Ascii.compare_eq_iff. Qed.

Lemma string_compare_refl s : String.compare s s = Eq.
Proof. induction s as [|c s IH]; [done|]. cbn. by rewrite ascii_compare_refl. Qed.

Lemma compare_cons_same c r r' : String.compare (String c r) (String c r') = String.compare r r'.
Proof. cbn. by rewrite ascii_compare_refl. Qed.

(** Texts of the same length: the first difference decides. *)
Lemma compare_app a b r r' :
  String.length a = String.length b ->
  String.compare (a +:+ r) (b +:+ r') = match String.compare a b with Eq => String.compare r r' | c => c end.
Proof.
  revert b. induction a as [|c a IH]; intros [|d b] Hl; try done. rewrite !string_app_cons. cbn in *.
  destruct (Ascii.compare c d); [|done..]. apply IH. congruence.
Qed.

Lemma string_length_app a b : String.length (a +:+ b) = (String.length a + String.length b)%nat.
Proof. induction a as [|c a IH]; [done|]. rewrite string_app_cons. cbn. by rewrite IH. Qed.

Lemma length_pad w n : String.length (pad w n) = w.
Proof.
  revert n. induction w as [|w IH]; intros n; cbn; [done|]. rewrite string_length_app, IH. cbn. lia.
Qed.

Lemma lexi_compare m q q' r r' :
  0 <= r < m -> 0 <= r' < m -> (q * m + r ?= q' * m + r') = match q ?= q' with Eq => r ?= r' | c => c end.
Proof.
  intros Hr Hr'. destruct (Z.compare_spec q q') as [->|H|H].
  - destruct (Z.compare_spec r r'); [apply Z.compare_eq_iff|apply Z.compare_lt_iff|apply Z.compare_gt_iff]; lia.
  - apply Z.compare_lt_iff. nia.
  - apply Z.compare_gt_iff. nia.
Qed.

Lemma div_mod_compare m a b :
  0 < m -> (a ?= b) = match a / m ?= b / m with Eq => a mod m ?= b mod m | c => c end.
Proof.
  intros Hm. rewrite <- (lexi_compare m) by (apply Z.mod_pos_bound; lia).
  f_equal; rewrite (Z.div_mod _ m) at 1 by lia; lia.
Qed.

Lemma compare_pad w a b :
  0 <= a < 10 ^ Z.of_nat w -> 0 <= b < 10 ^ Z.of_nat w -> String.compare (pad w a) (pad w b) = (a ?= b).
Proof.
  revert a b. induction w as [|w IH]; intros a b Ha Hb.
  { cbn in *. replace a with b by lia. by rewrite Z.compare_refl. }
  rewrite Nat2Z.inj_succ, Z.pow_succ_r in Ha, Hb by lia. cbn [pad].
  rewrite compare_app by by rewrite !length_pad.
  rewrite IH by (split; [apply Z.div_pos|apply Z.div_lt_upper_bound]; lia).
  rewrite (div_mod_compare 10 a b) by lia. destruct (a / 10 ?= b / 10); [|done..].
  cbn. rewrite ascii_compare_of; [|pose proof (Z.mod_pos_bound a 10); lia|pose proof (Z.mod_pos_bound b 10); lia].
  rewrite Z.add_compare_mono_l. by destruct (a mod 10 ?= b mod 10).
Qed.

Lemma compare_field w a b r r' :
  0 <= a < 10 ^ Z.of_nat w -> 0 <= b < 10 ^ Z.of_nat w ->
  String.compare (pad w a +:+ r) (pad w b +:+ r') = match a ?= b with Eq => String.compare r r' | c => c end.
Proof. intros Ha Hb. rewrite compare_app by by rewrite !length_pad. by rewrite compare_pad. Qed.

(** The bound of a field as a numeral. *)
Ltac field_bound :=
  match goal with
  | |- context [10 ^ Z.of_nat ?w] => let v := eval vm_compute in (10 ^ Z.of_nat w) in change (10 ^ Z.of_nat w) with v
  end;
  first [lia | split; [apply Z.div_pos | apply Z.div_lt_upper_bound]; lia].

(** ** Dates grow with days *)

(** The first day of a year of the era; the last year ends with the era. *)
Definition year_start (y : Z) : Z := 365 * y + y / 4 - y / 100.
Definition year_end (y : Z) : Z := if y =? 399 then era_days else year_start (y + 1).

(** What month and day add to a date written as a number, from the day of the year. *)
Definition doy_key (doy : Z) : Z :=
  let mp := (5 * doy + 2) / 153 in
  let m := if mp <? 10 then mp + 3 else mp - 9 in
  (if m <=? 2 then 10000 else 0) + 100 * m + (doy - (153 * mp + 2) / 5 + 1).

Definition doy_ok (doy : Z) : bool :=
  let mp := (5 * doy + 2) / 153 in
  let m := if mp <? 10 then mp + 3 else mp - 9 in
  let d := doy - (153 * mp + 2) / 5 + 1 in
  (1 <=? m) && (m <=? 12) && (1 <=? d) && (d <=? 31) && (doy_key doy <? doy_key (doy + 1)).

Definition year_ok (y : Z) : bool :=
  (year_of_era (year_start y) =? y) && (year_of_era (year_end y - 1) =? y) && (year_end y - year_start y <=? 366).

Fixpoint upto_ok (p : Z -> bool) (n : nat) : bool :=
  match n with
  | O => true
  | S n' => p (Z.of_nat n') && upto_ok p n'
  end.

Lemma upto_ok_all p n x : upto_ok p n = true -> 0 <= x < Z.of_nat n -> p x = true.
Proof.
  induction n as [|n IH]; cbn [upto_ok]; intros H Hx; [lia|]. apply andb_true_iff in H as [H1 H2].
  destruct (decide (x = Z.of_nat n)) as [->|]; [done|]. apply IH; [done|lia].
Qed.

Lemma year_checked y : 0 <= y < 400 -> year_ok y = true.
Proof. by apply (upto_ok_all year_ok 400). Qed.

Lemma doy_checked d : 0 <= d < 366 -> doy_ok d = true.
Proof. by apply (upto_ok_all doy_ok 366). Qed.

Lemma year_of_era_mono a b : 0 <= a <= b -> b < era_days -> year_of_era a <= year_of_era b.
Proof.
  intros Ha Hb. unfold year_of_era. apply Z.div_le_mono; [lia|]. unfold era_days in Hb.
  replace b with (a + Z.of_nat (Z.to_nat (b - a))) in * by lia.
  revert Hb. generalize (Z.to_nat (b - a)) as n. intros n. induction n as [|n IH]; intros Hb.
  { rewrite Z.add_0_r. lia. }
  etrans; [apply IH; lia|]. rewrite Nat2Z.inj_succ.
  remember (a + Z.of_nat n) as x. replace (a + Z.succ (Z.of_nat n)) with (x + 1) by lia.
  Z.to_euclidean_division_equations. lia.
Qed.

Lemma year_start_range y : 0 <= y <= 400 -> 0 <= year_start y <= era_days - 1.
Proof. unfold year_start, era_days. Z.to_euclidean_division_equations. lia. Qed.

Lemma year_of_era_spec d :
  0 <= d < era_days -> 0 <= year_of_era d < 400 /\ year_start (year_of_era d) <= d < year_end (year_of_era d).
Proof.
  intros Hd. assert (0 <= year_of_era d < 400) as Hy.
  { pose proof (year_of_era_mono 0 d). pose proof (year_of_era_mono d (era_days - 1)).
    change (year_of_era 0) with 0 in *. change (year_of_era (era_days - 1)) with 399 in *. lia. }
  split; [done|]. split.
  - destruct (decide (year_of_era d = 0)) as [->|]; [change (year_start 0) with 0; lia|].
    pose proof (year_checked (year_of_era d - 1)) as Hc. unfold year_ok, year_end in Hc. bool_prop.
    destruct (Z.eqb_spec (year_of_era d - 1) 399); [lia|].
    destruct (Z.le_gt_cases (year_start (year_of_era d)) d); [done|].
    pose proof (year_of_era_mono d (year_start (year_of_era d - 1 + 1) - 1)) as Hm.
    replace (year_of_era d - 1 + 1) with (year_of_era d) in * by lia.
    pose proof (year_start_range (year_of_era d)). lia.
  - unfold year_end. destruct (Z.eqb_spec (year_of_era d) 399); [lia|].
    pose proof (year_checked (year_of_era d + 1)) as Hc. unfold year_ok in Hc. bool_prop.
    destruct (Z.le_gt_cases (year_start (year_of_era d + 1)) d); [|done].
    pose proof (year_of_era_mono (year_start (year_of_era d + 1)) d) as Hm.
    pose proof (year_start_range (year_of_era d + 1)). lia.
Qed.

Definition doy (d : Z) : Z := d - year_start (year_of_era d).

Lemma doy_range d : 0 <= d < era_days -> 0 <= doy d < 366.
Proof.
  intros Hd. pose proof (year_of_era_spec d Hd) as [Hy Hs]. pose proof (year_checked _ Hy) as Hc.
  unfold year_ok in Hc. unfold doy. bool_prop. lia.
Qed.

Definition date_key (d : Z) : Z := (year_in_era d * 100 + month_of d) * 100 + day_of d.

Lemma date_key_eq d : date_key d = 10000 * year_of_era d + doy_key (doy d).
Proof.
  unfold date_key, year_in_era, month_of, day_of, date_of, doy_key, doy, year_start. cbn zeta. cbn [fst snd].
  destruct (_ <=? 2); lia.
Qed.

Lemma doy_key_mono a b : 0 <= a < b -> b < 366 -> doy_key a < doy_key b.
Proof.
  intros Ha. replace b with (a + 1 + Z.of_nat (Z.to_nat (b - a - 1))) by lia.
  generalize (Z.to_nat (b - a - 1)) as n. induction n as [|n IH]; intros Hb.
  - rewrite Z.add_0_r in *. pose proof (doy_checked a) as H. unfold doy_ok in H. cbn zeta in H. bool_prop. lia.
  - pose proof (doy_checked (a + 1 + Z.of_nat n)) as H. unfold doy_ok in H. cbn zeta in H. rewrite Nat2Z.inj_succ in *.
    replace (a + 1 + Z.succ (Z.of_nat n)) with (a + 1 + Z.of_nat n + 1) in * by lia. bool_prop. lia.
Qed.

Lemma doy_key_range a : 0 <= a < 366 -> 301 <= doy_key a <= 10229.
Proof.
  intros Ha. change 301 with (doy_key 0). change 10229 with (doy_key 365).
  destruct (decide (a = 0)) as [->|]; [change (doy_key 0 <= doy_key 0 <= doy_key 365); vm_compute; done|].
  pose proof (doy_key_mono 0 a). destruct (decide (a = 365)) as [->|]; [lia|]. pose proof (doy_key_mono a 365). lia.
Qed.

Lemma doe_range days : 0 <= doe days < era_days.
Proof. unfold doe, era_days. apply Z.mod_pos_bound. lia. Qed.

Lemma date_key_range d : 0 <= d < era_days -> 301 <= date_key d <= 4000229.
Proof.
  intros Hd. rewrite date_key_eq. pose proof (doy_key_range _ (doy_range d Hd)). pose proof (year_of_era_spec d Hd). lia.
Qed.

Lemma date_key_mono a b : 0 <= a < b -> b < era_days -> date_key a < date_key b.
Proof.
  intros Ha Hb. rewrite !date_key_eq. pose proof (year_of_era_mono a b).
  pose proof (doy_range a) as Hda. pose proof (doy_range b) as Hdb.
  pose proof (doy_key_range _ (doy_range a ltac:(lia))). pose proof (doy_key_range _ (doy_range b ltac:(lia))).
  destruct (decide (year_of_era a = year_of_era b)) as [E|]; [|lia].
  pose proof (doy_key_mono (doy a) (doy b)) as Hm. unfold doy in *. rewrite E in *. lia.
Qed.

(** A date as one number: year, month and day in order. *)
Definition key (days : Z) : Z := (year days * 100 + month days) * 100 + day days.

Lemma key_eq days : key days = date_key (doe days) + 4000000 * era days.
Proof. unfold key, date_key, year, month, day. lia. Qed.

Lemma month_day_range days : 1 <= month days <= 12 /\ 1 <= day days <= 31.
Proof.
  pose proof (doy_checked _ (doy_range _ (doe_range days))) as H. unfold doy_ok in H. cbn zeta in H.
  unfold month, day, month_of, day_of, date_of. cbn zeta. cbn [fst snd].
  change (doe days - (365 * year_of_era (doe days) + year_of_era (doe days) / 4 - year_of_era (doe days) / 100))
    with (doy (doe days)). bool_prop. lia.
Qed.

Lemma key_mono a b : a < b -> key a < key b.
Proof.
  intros H. rewrite !key_eq. pose proof (date_key_range _ (doe_range a)). pose proof (date_key_range _ (doe_range b)).
  assert (era a <= era b) by (unfold era, era_days; apply Z.div_le_mono; lia).
  destruct (decide (era a = era b)) as [E|]; [|lia]. rewrite E.
  pose proof (doe_range a) as [? _]. pose proof (doe_range b) as [_ ?].
  pose proof (date_key_mono (doe a) (doe b)) as Hm. cut (doe a < doe b); [lia|].
  unfold doe, era in *. rewrite !Z.mod_eq by (unfold era_days; lia). rewrite E. lia.
Qed.

Lemma key_compare a b : (a ?= b) = (key a ?= key b).
Proof.
  symmetry. destruct (Z.compare_spec a b) as [->|H|H]; [apply Z.compare_refl|..].
  - apply Z.compare_lt_iff. by apply key_mono.
  - apply Z.compare_gt_iff. by apply key_mono.
Qed.

(** ** Time stamps order as text *)

Lemma date_compare a b r r' :
  1 <= year a <= 9999 -> 1 <= year b <= 9999 ->
  String.compare (date_text a r) (date_text b r') = match a ?= b with Eq => String.compare r r' | c => c end.
Proof.
  intros Ha Hb. unfold date_text. pose proof (month_day_range a). pose proof (month_day_range b).
  rewrite compare_field, compare_cons_same, compare_field, compare_cons_same, compare_field by field_bound.
  rewrite (key_compare a b). unfold key. rewrite !(lexi_compare 100) by lia.
  destruct (year a ?= year b); [|done..]. by destruct (month a ?= month b).
Qed.

Lemma time_compare a b r r' :
  0 <= a < 86400 -> 0 <= b < 86400 ->
  String.compare (time_text a r) (time_text b r') = match a ?= b with Eq => String.compare r r' | c => c end.
Proof.
  intros Ha Hb. unfold time_text.
  pose proof (Z.mod_pos_bound (a / 60) 60). pose proof (Z.mod_pos_bound (b / 60) 60).
  pose proof (Z.mod_pos_bound a 60). pose proof (Z.mod_pos_bound b 60).
  rewrite compare_field, compare_cons_same, compare_field, compare_cons_same, compare_field by field_bound.
  rewrite (div_mod_compare 60 a b), (div_mod_compare 60 (a / 60) (b / 60)) by lia.
  rewrite !Z.div_div by lia. change (60 * 60) with 3600.
  destruct (a / 3600 ?= b / 3600); [|done..]. by destruct (a / 60 mod 60 ?= b / 60 mod 60).
Qed.

(** A whole second has no fraction: its text goes on with "Z", which sorts after ".". *)
Definition whole (micros : Z) : bool := micros mod 1000000 =? 0.

Lemma fraction_compare a b :
  0 <= a < 1000000 -> 0 <= b < 1000000 ->
  String.compare (fraction_text a) (fraction_text b) = if xorb (a =? 0) (b =? 0) then b ?= a else a ?= b.
Proof.
  intros Ha Hb. unfold fraction_text. destruct (Z.eqb_spec a 0), (Z.eqb_spec b 0); subst; cbn [xorb]; try done.
  - symmetry. apply Z.compare_gt_iff. lia.
  - symmetry. apply Z.compare_lt_iff. lia.
  - rewrite compare_cons_same, compare_field by field_bound. by destruct (a ?= b).
Qed.

Lemma day_of_second a : a / day_micros = a / 1000000 / 86400.
Proof. rewrite Z.div_div by lia. reflexivity. Qed.

Lemma micros_split a : a / 1000000 = a / day_micros * 86400 + a / 1000000 mod 86400.
Proof. rewrite day_of_second. rewrite (Z.div_mod (a / 1000000) 86400) at 1 by lia. lia. Qed.

Lemma micros_compare a b :
  (a ?= b) = match a / day_micros ?= b / day_micros with
             | Eq => match a / 1000000 mod 86400 ?= b / 1000000 mod 86400 with
                     | Eq => a mod 1000000 ?= b mod 1000000
                     | c => c
                     end
             | c => c
             end.
Proof.
  rewrite (div_mod_compare 1000000 a b) by lia.
  rewrite (div_mod_compare 86400 (a / 1000000) (b / 1000000)) by lia. rewrite <- !day_of_second. by destruct (a / day_micros ?= b / day_micros).
Qed.

(** Two stamps of the same second, one of them of a whole second. *)
Definition mixed (a b : Z) : bool := (a / 1000000 =? b / 1000000) && xorb (whole a) (whole b).

Lemma same_second_compare a b : a / 1000000 = b / 1000000 -> (a ?= b) = (a mod 1000000 ?= b mod 1000000).
Proof. intros E. rewrite (div_mod_compare 1000000 a b) by lia. by rewrite E, Z.compare_refl. Qed.

Lemma stamp_compare a b :
  in_range a = true -> in_range b = true ->
  String.compare (stamp a) (stamp b) = if mixed a b then b ?= a else a ?= b.
Proof.
  unfold in_range. intros Ha Hb. bool_prop. unfold stamp. rewrite date_compare, compare_cons_same by lia.
  rewrite time_compare by (apply Z.mod_pos_bound; lia). rewrite fraction_compare by (apply Z.mod_pos_bound; lia).
  unfold mixed, whole. destruct (Z.eqb_spec (a / 1000000) (b / 1000000)) as [E|E]; cbn [andb].
  - assert (a / day_micros = b / day_micros) as -> by by rewrite !day_of_second, E.
    rewrite E, !Z.compare_refl. rewrite (same_second_compare a b), (same_second_compare b a) by done. done.
  - rewrite (micros_compare a b). destruct (Z.compare_spec (a / day_micros) (b / day_micros)) as [Ed|?|?]; [|done..].
    destruct (Z.compare_spec (a / 1000000 mod 86400) (b / 1000000 mod 86400)) as [Es|?|?]; [|done..].
    destruct E. by rewrite (micros_split a), (micros_split b), Ed, Es.
Qed.

(** Time stamps compared as text (as [data.py] compares expiry times) order as the clock does, whatever the
    dates, except within one second when exactly one of the two has no fraction: there the text order is the
    reverse.  Outside the years 1 to 9999 there is no stamp. *)
Theorem time_stamp_order a b :
  match utc_text a, utc_text b with
  | Ok ta, Ok tb => String.compare ta tb = (if mixed a b then b ?= a else a ?= b) /\ (ta = tb <-> a = b)
  | _, _ => in_range a = false \/ in_range b = false
  end.
Proof.
  unfold utc_text. destruct (in_range a) eqn:Ha; [|by left]. destruct (in_range b) eqn:Hb; [|by right].
  pose proof (stamp_compare a b Ha Hb) as Hc. split; [done|]. split; [|congruence]. intros E.
  rewrite E in Hc. rewrite string_compare_refl in Hc.
  destruct (mixed a b); symmetry in Hc; apply Z.compare_eq_iff in Hc; congruence.
Qed.

Example mixed_stamps :
  match utc_text 1778414400000000, utc_text 1778414400500000 with
  | Ok ta, Ok tb => (ta, tb, String.compare ta tb) = ("2026-05-10T12:00:00Z", "2026-05-10T12:00:00.500000Z", Gt)%string
  | _, _ => False
  end.
Proof. vm_compute. reflexivity. Qed.
