(* ===== verification/PyValue.v ===== *)
(** * Dynamic Python values

    The payloads, contexts and configuration the program passes around are
    untyped JSON-like values.  [pyval] has the cases the code distinguishes;
    dictionaries are insertion-ordered with [str], [int] or [bool] keys (the
    keys JSON and the CBOR decoder can produce). *)

From Stdlib Require Import ZArith Lia Bool List Ascii String.
From Stdlib.Floats Require Import SpecFloat.
From stdpp Require Import base list option strings.
From S2P Require Import Prelude PyFloat Text.

Open Scope Z_scope.

Inductive pykey :=
  | KStr (s : string)
  | KInt (z : Z)
  | KBool (b : bool).

Inductive pyval :=
  | VNone
  | VBool (b : bool)
  | VInt (z : Z)
  | VFloat (f : spec_float)
  | VStr (s : string)
  | VList (l : list pyval)
  | VTuple (l : list pyval)
  | VDict (d : list (pykey * pyval)).

Abbreviation dict := (list (pykey * pyval)).

Coercion KStr : string >-> pykey.

#[export] Instance pykey_eq_dec : EqDecision pykey.
Proof. solve_decision. Defined.

(** Dict keys [True]/[1] and [False]/[0] are the same key. *)
Definition key_norm (k : pykey) : string + Z :=
  match k with
  | KStr s => inl s
  | KInt z => inr z
  | KBool b => inr (Z.b2z b)
  end.

Definition key_val (k : pykey) : pyval :=
  match k with KStr s => VStr s | KInt z => VInt z | KBool b => VBool b end.

(** ** Dict operations *)

Definition dget (k : pykey) (d : dict) : option pyval := od_get key_norm k d.
(** [d.get(k)] and [d.get(k, default)] *)
Definition dget_or (k : pykey) (default : pyval) (d : dict) : pyval :=
  match dget k d with Some v => v | None => default end.
Definition dgetn (k : pykey) (d : dict) : pyval := dget_or k VNone d.
(** [d[k]] *)
Definition dindex (k : string) (d : dict) : result pyval :=
  match dget k d with Some v => Ok v | None => Raise (KeyError k) end.
(** [d[k] = v] *)
Definition dset (k : pykey) (v : pyval) (d : dict) : dict := od_set key_norm k v d.
(** [k in d] *)
Definition dmem (k : pykey) (d : dict) : bool :=
  match dget k d with Some _ => true | None => false end.
(** [d.setdefault(k, v)] as a state change *)
Definition dsetdefault (k : pykey) (v : pyval) (d : dict) : dict :=
  if dmem k d then d else dset k v d.
(** [d.update(d2)] and [{**d, **d2}] *)
Definition dupdate (d d2 : dict) : dict := od_update key_norm d d2.
Definition dwf (d : dict) : Prop := od_wf key_norm d.

(** A dict display with string keys, built left to right. *)
Definition dict_of (l : list (string * pyval)) : dict :=
  map (fun kv => (KStr kv.1, kv.2)) l.

(** ** Truth, type tests *)

Definition py_truthy (v : pyval) : bool :=
  match v with
  | VNone => false
  | VBool b => b
  | VInt z => negb (z =? 0)
  | VFloat f => ftruthy f
  | VStr s => negb (String.eqb s "")
  | VList l | VTuple l => match l with [] => false | _ => true end
  | VDict d => match d with [] => false | _ => true end
  end.

(** [a or b] *)
Definition por (a b : pyval) : pyval := if py_truthy a then a else b.

Definition is_dict (v : pyval) : bool := match v with VDict _ => true | _ => false end.
Definition is_list (v : pyval) : bool := match v with VList _ => true | _ => false end.
Definition is_none (v : pyval) : bool := match v with VNone => true | _ => false end.
Definition is_str (v : pyval) : bool := match v with VStr _ => true | _ => false end.

(** ** Equality [==] with the scalars the code compares against *)

Definition float_eq_Z (f : spec_float) (z : Z) : bool :=
  match f with
  | S754_zero _ => z =? 0
  | S754_finite s m e =>
      let (n, d) := frac_of m e in (if s then - n else n) =? z * d
  | _ => false
  end.

Definition eq_str (v : pyval) (s : string) : bool :=
  match v with VStr t => String.eqb t s | _ => false end.

Definition eq_int (v : pyval) (n : Z) : bool :=
  match v with
  | VInt z => z =? n
  | VBool b => Z.b2z b =? n
  | VFloat f => float_eq_Z f n
  | _ => false
  end.

(** ** Equality and hashability of values *)

Definition num_eq (a b : pyval) : option bool :=
  match a, b with
  | VFloat f, VFloat g => Some (feqb f g)
  | VFloat _, (VInt z) => Some (eq_int a z)
  | VFloat _, (VBool c) => Some (eq_int a (Z.b2z c))
  | VInt z, (VFloat _ | VInt _ | VBool _) => Some (eq_int b z)
  | VBool c, (VFloat _ | VInt _ | VBool _) => Some (eq_int b (Z.b2z c))
  | _, _ => None
  end.

(** [a == b] *)
Fixpoint py_eq (a b : pyval) {struct a} : bool :=
  let eqs := fix eqs (l1 l2 : list pyval) {struct l1} : bool :=
    match l1, l2 with
    | [], [] => true
    | x :: l1', y :: l2' => py_eq x y && eqs l1' l2'
    | _, _ => false
    end in
  match a, b with
  | VNone, VNone => true
  | VStr s, VStr t => String.eqb s t
  | VList l1, VList l2 => eqs l1 l2
  | VTuple l1, VTuple l2 => eqs l1 l2
  | VDict d1, VDict d2 =>
      Nat.eqb (length d1) (length d2) &&
      forallb (fun kv => match kv with (k, x) =>
                 match dget k d2 with Some y => py_eq x y | None => false end end) d1
  | _, _ => match num_eq a b with Some r => r | None => false end
  end.

(** What a [set] or [dict] accepts as an element. *)
Fixpoint hashable (v : pyval) : bool :=
  match v with
  | VList _ | VDict _ => false
  | VTuple l => forallb hashable l
  | _ => true
  end.

(** [x in s] for a list, tuple or set of values *)
Definition py_in (x : pyval) (l : list pyval) : bool := existsb (py_eq x) l.
(** [t in l] for a string [t] *)
Definition str_in (t : string) (l : list string) : bool := existsb (String.eqb t) l.

(** ** [repr] and [str] *)

(** [repr(s)]: single quotes unless the text has single and no double quotes;
    control characters are escaped, other characters are taken as printable. *)
Definition hex2 (n : Z) : string := String (hex_digit (n / 16)) (String (hex_digit (n mod 16)) "").

Definition repr_char (quote : ascii) (c : ascii) : string :=
  let b := byte_of c in
  if Ascii.eqb c quote || (b =? 92) then String "092"%char (String c "")
  else if b =? 9 then "\t"
  else if b =? 10 then "\n"
  else if b =? 13 then "\r"
  else if (b <? 32) || (b =? 127) then "\x" +:+ hex2 b
  else String c "".

Fixpoint repr_chars (quote : ascii) (s : string) : string :=
  match s with
  | EmptyString => ""
  | String c s' => repr_char quote c +:+ repr_chars quote s'
  end.

Definition single_quote : ascii := "'"%char.
Definition double_quote : ascii := "034"%char.

Definition repr_str (s : string) : string :=
  let q := if mem_char single_quote s && negb (mem_char double_quote s)
           then double_quote else single_quote in
  String q (repr_chars q s +:+ String q "").

Definition repr_key (k : pykey) : string :=
  match k with
  | KStr s => repr_str s
  | KInt z => string_of_Z z
  | KBool b => if b then "True" else "False"
  end.

Fixpoint py_repr (v : pyval) : string :=
  match v with
  | VNone => "None"
  | VBool b => if b then "True" else "False"
  | VInt z => string_of_Z z
  | VFloat f => float_repr f
  | VStr s => repr_str s
  | VList l => "[" +:+ join ", " (map py_repr l) +:+ "]"
  | VTuple l =>
      match l with
      | [x] => "(" +:+ py_repr x +:+ ",)"
      | _ => "(" +:+ join ", " (map py_repr l) +:+ ")"
      end
  | VDict d =>
      "{" +:+ join ", " (map (fun kv => repr_key kv.1 +:+ ": " +:+ py_repr kv.2) d) +:+ "}"
  end.

Definition py_str (v : pyval) : string :=
  match v with VStr s => s | _ => py_repr v end.

(** [str(payload.get(k) or default)] *)
Definition str_or (k : string) (default : string) (d : dict) : string :=
  py_str (por (dgetn k d) (VStr default)).

(** ** [int], [float], [list], [dict], [tuple] *)

Definition is_digit (b : Z) : bool := (48 <=? b) && (b <=? 57).

(** Decimal digits with single underscores between them. *)
Fixpoint parse_digits (l : list Z) (acc : Z) (after_digit : bool) : option Z :=
  match l with
  | [] => if after_digit then Some acc else None
  | b :: l' =>
      if is_digit b then parse_digits l' (acc * 10 + (b - 48)) true
      else if (b =? 95) && after_digit then parse_digits l' acc false
      else None
  end.

Definition with_sign {A} (parse : list Z -> option A) (neg : A -> A) (l : list Z) : option A :=
  match l with
  | b :: l' =>
      if b =? 45 then option_map neg (parse l')
      else if b =? 43 then parse l' else parse l
  | [] => None
  end.

(** [int(s)] for ASCII text. *)
Definition parse_int (s : string) : option Z :=
  with_sign (fun l => parse_digits l 0 false) Z.opp (bytes_of_string (py_strip s)).

Definition py_int (v : pyval) : result Z :=
  match v with
  | VInt z => Ok z
  | VBool b => Ok (Z.b2z b)
  | VFloat f => ftrunc f
  | VStr s =>
      match parse_int s with
      | Some z => Ok z
      | None => Raise (ValueError ("invalid literal for int() with base 10: " +:+ repr_str s))
      end
  | _ => Raise (TypeError "int() argument must be a string, a bytes-like object or a real number")
  end.

(** [float(s)] for ASCII decimal text. *)
Fixpoint span_digits (l : list Z) : list Z * list Z :=
  match l with
  | b :: l' => if is_digit b || (b =? 95) then let (a, r) := span_digits l' in (b :: a, r) else ([], l)
  | [] => ([], [])
  end.

Definition parse_exp (l : list Z) : option Z :=
  match l with
  | [] => Some 0
  | b :: l' =>
      if (b =? 101) || (b =? 69)
      then with_sign (fun l => parse_digits l 0 false) Z.opp l' else None
  end.

Definition frac_digits (l : list Z) : Z := Z.of_nat (length (List.filter is_digit l)).

Definition parse_mantissa (l : list Z) : option spec_float :=
  let (ip, r) := span_digits l in
  let (fp, r') := match r with
                  | b :: r1 => if b =? 46 then span_digits r1 else ([], r)
                  | [] => ([], r)
                  end in
  let opt ds := match ds with [] => Some 0 | _ => parse_digits ds 0 false end in
  match ip, fp with
  | [], [] => None
  | _, _ =>
      match opt ip, opt fp, parse_exp r' with
      | Some i, Some f, Some e =>
          let k := frac_digits fp in
          Some (float_of_dec false (i * 10 ^ k + f) (e - k))
      | _, _, _ => None
      end
  end.

Definition parse_unsigned_float (l : list Z) : option spec_float :=
  let w := py_lower (string_of_bytes l) in
  if String.eqb w "inf" || String.eqb w "infinity" then Some (S754_infinity false)
  else if String.eqb w "nan" then Some S754_nan
  else parse_mantissa l.

Definition py_float (v : pyval) : result spec_float :=
  match v with
  | VFloat f => Ok f
  | VInt z => float_of_Z z
  | VBool b => float_of_Z (Z.b2z b)
  | VStr s =>
      match with_sign parse_unsigned_float SFopp (bytes_of_string (py_strip s)) with
      | Some f => Ok f
      | None => Raise (ValueError ("could not convert string to float: " +:+ repr_str s))
      end
  | _ => Raise (TypeError "float() argument must be a string or a real number")
  end.

(** Iteration over a value: [list(v)], [tuple(v)], [for x in v]. *)
Definition py_iter (v : pyval) : result (list pyval) :=
  match v with
  | VList l | VTuple l => Ok l
  | VDict d => Ok (map (fun kv => key_val kv.1) d)
  | VStr s => Ok (map (fun c => VStr (of_code_points [c])) (code_points s))
  | _ => Raise (TypeError "object is not iterable")
  end.

(** A value used as a dict key. *)
Definition py_key (v : pyval) : result pykey :=
  match v with
  | VStr s => Ok (KStr s)
  | VInt z => Ok (KInt z)
  | VBool b => Ok (KBool b)
  | _ => Raise (TypeError "unhashable type")
  end.

(** [dict(v)]: a copy of a dict, or built from an iterable of pairs. *)
Definition dict_item (v : pyval) : result (pykey * pyval) :=
  let! l := py_iter v in
  match l with
  | [k; x] => let! k' := py_key k in Ok (k', x)
  | _ => Raise (ValueError "dictionary update sequence element has wrong length; 2 is required")
  end.

Definition py_dict (v : pyval) : result dict :=
  match v with
  | VDict d => Ok d
  | _ => let! l := py_iter v in let! kvs := rmap dict_item l in Ok (dupdate [] kvs)
  end.

(** [value.get(...)] on a value that should be a dict. *)
Definition as_dict (v : pyval) : result dict :=
  match v with VDict d => Ok d | _ => Raise (AttributeError "object has no attribute 'get'") end.

(** [o or None] for an optional text. *)
Definition str_truthy (o : option string) : option string :=
  match o with Some s => if String.eqb s "" then None else Some s | None => None end.

(** [tuple(str(item) for item in v)] *)
Definition str_items (v : pyval) : result (list string) :=
  let! l := py_iter v in Ok (map py_str l).

Definition vstrs (l : list string) : list pyval := map VStr l.

Definition opt_str (o : option string) : pyval :=
  match o with Some s => VStr s | None => VNone end.

(** ** Facts *)

Section PyvalInd.
Context (P : pyval -> Prop)
  (HNone : P VNone) (HBool : forall b, P (VBool b)) (HInt : forall z, P (VInt z))
  (HFloat : forall f, P (VFloat f)) (HStr : forall s, P (VStr s))
  (HList : forall l, Forall P l -> P (VList l))
  (HTuple : forall l, Forall P l -> P (VTuple l))
  (HDict : forall d, Forall (fun kv => P kv.2) d -> P (VDict d)).

(** Induction through the nested lists. *)
Fixpoint pyval_nested_ind (v : pyval) : P v :=
  let fix go (l : list pyval) : Forall P l :=
    match l with
    | [] => Forall_nil_2 _
    | x :: l' => Forall_cons_2 _ _ _ (pyval_nested_ind x) (go l')
    end in
  let fix god (d : dict) : Forall (fun kv => P kv.2) d :=
    match d with
    | [] => Forall_nil_2 _
    | kv :: d' =>
        match kv return Forall (fun kv => P kv.2) (kv :: d') with
        | (k, x) => Forall_cons_2 _ (k, x) _ (pyval_nested_ind x) (god d')
        end
    end in
  match v with
  | VNone => HNone
  | VBool b => HBool b
  | VInt z => HInt z
  | VFloat f => HFloat f
  | VStr s => HStr s
  | VList l => HList l (go l)
  | VTuple l => HTuple l (go l)
  | VDict d => HDict d (god d)
  end.
End PyvalInd.

Lemma key_norm_str s k : key_norm k = inl s -> k = KStr s.
Proof. by destruct k; cbn; intros [= ->]. Qed.

Lemma dget_dset_eq k v d : dget k (dset k v d) = Some v.
Proof. by apply od_get_set_eq. Qed.

Lemma dget_dset_ne k k' v d : key_norm k <> key_norm k' -> dget k' (dset k v d) = dget k' d.
Proof. apply od_get_set_ne. Qed.

Lemma dget_dset_str (k k' : string) v d :
  dget k' (dset k v d) = if String.eqb k k' then Some v else dget k' d.
Proof.
  destruct (String.eqb_spec k k') as [->|H]; [apply dget_dset_eq|].
  apply dget_dset_ne. cbn. congruence.
Qed.

Lemma dset_wf k v d : dwf d -> dwf (dset k v d).
Proof. apply od_set_wf. Qed.

Lemma dget_dupdate k d d2 :
  dwf d2 -> dget k (dupdate d d2) = match dget k d2 with Some v => Some v | None => dget k d end.
Proof. apply od_get_update. Qed.

Lemma dupdate_wf d d2 : dwf d -> dwf (dupdate d d2).
Proof. apply od_update_wf. Qed.

Lemma dsetdefault_wf k v d : dwf d -> dwf (dsetdefault k v d).
Proof. unfold dsetdefault. destruct (dmem k d); auto using dset_wf. Qed.

Lemma py_str_VStr s : py_str (VStr s) = s.
Proof. reflexivity. Qed.

Lemma por_str_nonempty s t : s <> ""%string -> por (VStr s) t = VStr s.
Proof. intros H. unfold por. cbn. by apply String.eqb_neq in H as ->. Qed.

Lemma Forall_dset (P : pyval -> Prop) k v d :
  P v -> Forall (fun kv => P kv.2) d -> Forall (fun kv => P kv.2) (dset k v d).
Proof.
  intros Hv. unfold dset. induction 1 as [|[k1 v1] d H1 Hd IH]; cbn.
  - by constructor.
  - case_decide; by constructor.
Qed.

Lemma dget_cons_str (k k' : string) v d :
  dget (KStr k') ((KStr k, v) :: d) = if String.eqb k k' then Some v else dget (KStr k') d.
Proof.
  unfold dget. cbn. destruct (String.eqb_spec k k') as [->|H].
  - by rewrite decide_True.
  - rewrite decide_False; [done|congruence].
Qed.

Lemma dget_dsetdefault_str (k k' : string) v d :
  dget (KStr k') (dsetdefault (KStr k) v d) =
  if String.eqb k k' then Some (dget_or (KStr k) v d) else dget (KStr k') d.
Proof.
  unfold dsetdefault, dmem, dget_or. destruct (dget (KStr k) d) as [x|] eqn:E.
  - destruct (String.eqb_spec k k') as [->|]; [by rewrite E|done].
  - by rewrite dget_dset_str.
Qed.

Lemma dget_if (b : bool) k (d1 d2 : dict) : dget k (if b then d1 else d2) = if b then dget k d1 else dget k d2.
Proof. by destruct b. Qed.

(** Look-up in a display with string keys. *)
Fixpoint sget (k : string) (l : list (string * pyval)) : option pyval :=
  match l with
  | [] => None
  | (s, v) :: l' => if String.eqb s k then Some v else sget k l'
  end.

Lemma dget_dict_of (k : string) l : dget (KStr k) (dict_of l) = sget k l.
Proof.
  induction l as [|[s v] l IH]; [done|]. change (dict_of ((s, v) :: l)) with ((KStr s, v) :: dict_of l).
  by rewrite dget_cons_str, IH.
Qed.

Lemma sget_app k l l' : sget k (l ++ l') = match sget k l with Some v => Some v | None => sget k l' end.
Proof. induction l as [|[s v] l IH]; cbn; [done|]. by destruct (String.eqb s k). Qed.

Lemma dget_nil k : dget k [] = None.
Proof. done. Qed.

Lemma dget_or_eq k x d : dget_or k x d = match dget k d with Some v => v | None => x end.
Proof. done. Qed.

Lemma dgetn_eq k d : dgetn k d = match dget k d with Some v => v | None => VNone end.
Proof. done. Qed.

Lemma dict_of_cons k v l : dict_of ((k, v) :: l) = (KStr k, v) :: dict_of l.
Proof. done. Qed.

Lemma dict_of_nil : dict_of [] = [].
Proof. done. Qed.

Lemma str_in_true t l : str_in t l = true <-> t ∈ l.
Proof.
  unfold str_in. rewrite existsb_exists. setoid_rewrite String.eqb_eq.
  setoid_rewrite <- list_elem_of_In. naive_solver.
Qed.

Lemma str_in_false t l : str_in t l = false <-> t ∉ l.
Proof. rewrite <- str_in_true. destruct (str_in t l); naive_solver. Qed.

Lemma py_eq_VStr s b : py_eq (VStr s) b = eq_str b s.
Proof. destruct b; cbn; try done. apply String.eqb_sym. Qed.

Lemma py_str_por_empty s : py_str (por (VStr s) (VStr "")) = s.
Proof. unfold por. cbn. by destruct (String.eqb_spec s ""). Qed.

Lemma dwf_dict_of l : NoDup (map fst l) -> dwf (dict_of l).
Proof.
  intros H. unfold dwf, od_wf, od_keys, dict_of. rewrite map_map.
  replace (map (fun x : string * pyval => (key_norm ∘ fst) (KStr x.1, x.2)) l) with (map (@inl string Z) (map fst l))
    by (rewrite map_map; by apply map_ext).
  by apply (NoDup_fmap_2 (@inl string Z)).
Qed.

Ltac nodup_lits := apply dwf_dict_of; cbn [map fst]; apply (bool_decide_unpack _); vm_compute; exact I.

#[export] Hint Resolve dset_wf dupdate_wf dsetdefault_wf : py.
#[export] Hint Rewrite dget_dset_eq dget_dset_str py_str_VStr : py.

(** Look up literal keys in displays and updates of a dict. *)
Ltac dict_step :=
  match goal with
  | |- context [dget (KStr ?k) (dict_of ?l)] =>
      rewrite (dget_dict_of k l); cbn [sget String.eqb Ascii.eqb Bool.eqb]
  | |- context [dget (KStr ?k') (dset (KStr ?k) ?v ?d)] =>
      rewrite (dget_dset_str k k' v d); cbn [String.eqb Ascii.eqb Bool.eqb]
  | |- context [dget (KStr ?k') (dsetdefault (KStr ?k) ?v ?d)] =>
      rewrite (dget_dsetdefault_str k k' v d); cbn [String.eqb Ascii.eqb Bool.eqb]
  | |- context [dget ?k (if ?b then ?d1 else ?d2)] => rewrite (dget_if b k d1 d2)
  | |- context [dget (KStr ?k') ((KStr ?k, ?v) :: ?d)] =>
      rewrite (dget_cons_str k k' v d); cbn [String.eqb Ascii.eqb Bool.eqb]
  | |- context [dget ?k []] => rewrite (dget_nil k)
  end.

Ltac dict_simpl :=
  unfold dgetn, dget_or, dindex, dmem;
  repeat (with_strategy opaque [dget dset dsetdefault dict_of] dict_step);
  cbn [rbind].

Example repr_ex :
  py_str (VDict [(KStr "a", VList [VInt 1; VNone; VStr "it's"]); (KBool true, VTuple [VFloat (flit 5 1)])])
  = "{'a': [1, None, " +:+ String double_quote "it's" +:+ String double_quote "], True: (0.5,)}".
Proof. vm_compute. reflexivity. Qed.

Example parse_ex :
  py_int (VStr " -1_000 ") = Ok (-1000) /\ is_ok (py_int (VStr "1__0")) = false
  /\ py_float (VStr "-2.5e-1") = Ok (flit (-25) 2) /\ is_ok (py_float (VStr ".")) = false.
Proof. vm_compute. auto. Qed.
