(* ===== verification/JsonParse.v ===== *)
(** * [json.loads]

    Python's JSON decoder on the UTF-8 bytes of a text: the grammar of RFC 8259
    with NaN, Infinity and -Infinity, strict strings, surrogate pairs joined,
    the last of repeated keys winning, and the limit on the digits of an
    integer.  The recursion is on fuel; twice the length of the text is enough
    ([json_loads_total]). *)

From Stdlib Require Import ZArith Lia Bool List Ascii String.
From Stdlib.Floats Require Import SpecFloat.
From stdpp Require Import base list option strings.
From S2P Require Import Prelude PyFloat Text PyValue.

Open Scope Z_scope.

Definition json_space (b : Z) : bool := (b =? 32) || (b =? 9) || (b =? 10) || (b =? 13).

Fixpoint skip_space (l : list Z) : list Z :=
  match l with
  | b :: l' => if json_space b then skip_space l' else l
  | [] => []
  end.

(** ** Strings *)

Definition hex_value (b : Z) : option Z :=
  if (48 <=? b) && (b <=? 57) then Some (b - 48)
  else if (97 <=? b) && (b <=? 102) then Some (b - 87)
  else if (65 <=? b) && (b <=? 70) then Some (b - 55)
  else None.

Definition hex_unit (a b c d : Z) : option Z :=
  match hex_value a, hex_value b, hex_value c, hex_value d with
  | Some a, Some b, Some c, Some d => Some (((a * 16 + b) * 16 + c) * 16 + d)
  | _, _, _, _ => None
  end.

Definition high_surrogate (u : Z) : bool := (55296 <=? u) && (u <=? 56319).
Definition low_surrogate (u : Z) : bool := (56320 <=? u) && (u <=? 57343).

(** [b] of a two-character escape. *)
Definition plain_escape (b : Z) : option Z :=
  if (b =? 34) || (b =? 92) || (b =? 47) then Some b
  else if b =? 98 then Some 8
  else if b =? 102 then Some 12
  else if b =? 110 then Some 10
  else if b =? 114 then Some 13
  else if b =? 116 then Some 9
  else None.

(** The bytes of a string after its opening quote, and what follows its closing quote. *)
Fixpoint string_body (l : list Z) : option (list Z * list Z) :=
  match l with
  | [] => None
  | b :: r =>
      if b =? 34 then Some ([], r)
      else if b =? 92 then
        match r with
        | e :: r1 =>
            if e =? 117 then
              match r1 with
              | a1 :: a2 :: a3 :: a4 :: r2 =>
                  match hex_unit a1 a2 a3 a4 with
                  | None => None
                  | Some u =>
                      let single := option_map (fun x => (utf8_of_cp u ++ x.1, x.2)) (string_body r2) in
                      if high_surrogate u then
                        match r2 with
                        | s :: t :: b1 :: b2 :: b3 :: b4 :: r3 =>
                            if (s =? 92) && (t =? 117) then
                              match hex_unit b1 b2 b3 b4 with
                              | None => None
                              | Some v =>
                                  if low_surrogate v
                                  then option_map (fun x => (utf8_of_cp (65536 + (u - 55296) * 1024 + (v - 56320)) ++ x.1, x.2))
                                                  (string_body r3)
                                  else single
                              end
                            else single
                        | _ => single
                        end
                      else single
                  end
              | _ => None
              end
            else
              match plain_escape e with
              | Some c => option_map (fun x => (c :: x.1, x.2)) (string_body r1)
              | None => None
              end
        | [] => None
        end
      else if b <? 32 then None
      else option_map (fun x => (b :: x.1, x.2)) (string_body r)
  end.

(** ** Numbers *)

Fixpoint digits (l : list Z) : list Z * list Z :=
  match l with
  | b :: l' => if is_digit b then let (ds, r) := digits l' in (b :: ds, r) else ([], l)
  | [] => ([], [])
  end.

(** The integer part: no leading zeros. *)
Definition int_part (l : list Z) : option (list Z * list Z) :=
  match digits l with
  | ([], _) => None
  | (48 :: _, _) => Some ([48], match l with _ :: r => r | [] => [] end)
  | found => Some found
  end.

Definition frac_part (l : list Z) : list Z * list Z :=
  match l with
  | 46 :: r => match digits r with ([], _) => ([], l) | (ds, r') => (46 :: ds, r') end
  | _ => ([], l)
  end.

Definition exp_part (l : list Z) : list Z * list Z :=
  match l with
  | e :: r =>
      if (e =? 101) || (e =? 69) then
        let (sign, r1) := match r with
                          | s :: r' => if (s =? 43) || (s =? 45) then ([s], r') else ([], r)
                          | [] => ([], r)
                          end in
        match digits r1 with ([], _) => ([], l) | (ds, r2) => (e :: sign ++ ds, r2) end
      else ([], l)
  | [] => ([], l)
  end.

(** [sys.get_int_max_str_digits()] *)
Definition max_int_digits : nat := 4300.

Definition number (l : list Z) : option (result pyval * list Z) :=
  let (sign, l1) := match l with 45 :: r => ([45], r) | _ => ([], l) end in
  match int_part l1 with
  | None => None
  | Some (ip, l2) =>
      let (fp, l3) := frac_part l2 in
      let (ep, l4) := exp_part l3 in
      match fp, ep with
      | [], [] =>
          Some (if (max_int_digits <? length ip)%nat
                then Raise (ValueError "Exceeds the limit (4300 digits) for integer string conversion")
                else rbind (py_int (VStr (string_of_bytes (sign ++ ip)))) (fun z => Ok (VInt z)), l4)
      | _, _ => Some (rbind (py_float (VStr (string_of_bytes (sign ++ ip ++ fp ++ ep)))) (fun f => Ok (VFloat f)), l4)
      end
  end.

(** ** Values *)

(** The literals, with their bytes. *)
Definition literals : list (list Z * pyval) :=
  map (fun x => (bytes_of_string x.1, x.2))
    [("null", VNone); ("true", VBool true); ("false", VBool false); ("NaN", VFloat S754_nan);
     ("Infinity", VFloat (S754_infinity false)); ("-Infinity", VFloat (S754_infinity true))]%string.

Fixpoint strip_prefix (p l : list Z) : option (list Z) :=
  match p, l with
  | [], _ => Some l
  | a :: p', b :: l' => if a =? b then strip_prefix p' l' else None
  | _, [] => None
  end.

Fixpoint literal (table : list (list Z * pyval)) (l : list Z) : option (pyval * list Z) :=
  match table with
  | [] => None
  | (p, v) :: rest => match strip_prefix p l with Some r => Some (v, r) | None => literal rest l end
  end.

(** What follows the byte [c], when the text starts with it. *)
Definition after (c : Z) (l : list Z) : option (list Z) :=
  match l with b :: r => if b =? c then Some r else None | [] => None end.

Fixpoint value_at (fuel : nat) (l : list Z) : result (pyval * list Z) :=
  match fuel with
  | O => Raise OutOfFuel
  | S f =>
      match after 34 l, after 123 l, after 91 l with
      | Some r, _, _ =>
          match string_body r with
          | Some (s, r') => Ok (VStr (string_of_bytes s), r')
          | None => Raise JSONDecodeError
          end
      | _, Some r, _ =>
          match after 125 (skip_space r) with
          | Some r' => Ok (VDict [], r')
          | None => let! (kvs, r2) := members_at f (skip_space r) in Ok (VDict (dupdate [] kvs), r2)
          end
      | _, _, Some r =>
          match after 93 (skip_space r) with
          | Some r' => Ok (VList [], r')
          | None => let! (items, r2) := items_at f (skip_space r) in Ok (VList items, r2)
          end
      | None, None, None =>
          match literal literals l with
          | Some found => Ok found
          | None =>
              match number l with
              | Some (v, r) => let! v := v in Ok (v, r)
              | None => Raise JSONDecodeError
              end
          end
      end
  end
(** The items of an array, from the first one. *)
with items_at (fuel : nat) (l : list Z) : result (list pyval * list Z) :=
  match fuel with
  | O => Raise OutOfFuel
  | S f =>
      let! (v, r) := value_at f l in
      match after 44 (skip_space r), after 93 (skip_space r) with
      | Some r', _ => let! (vs, r2) := items_at f (skip_space r') in Ok (v :: vs, r2)
      | None, Some r' => Ok ([v], r')
      | None, None => Raise JSONDecodeError
      end
  end
(** The members of an object, from the first key. *)
with members_at (fuel : nat) (l : list Z) : result (dict * list Z) :=
  match fuel with
  | O => Raise OutOfFuel
  | S f =>
      match after 34 l with
      | None => Raise JSONDecodeError
      | Some r =>
          match string_body r with
          | None => Raise JSONDecodeError
          | Some (k, r1) =>
              match after 58 (skip_space r1) with
              | None => Raise JSONDecodeError
              | Some r2 =>
                  let! (v, r3) := value_at f (skip_space r2) in
                  let entry := (KStr (string_of_bytes k), v) in
                  match after 44 (skip_space r3), after 125 (skip_space r3) with
                  | Some r4, _ => let! (kvs, r5) := members_at f (skip_space r4) in Ok (entry :: kvs, r5)
                  | None, Some r4 => Ok ([entry], r4)
                  | None, None => Raise JSONDecodeError
                  end
              end
          end
      end
  end.

Definition json_fuel (l : list Z) : nat := (2 * length l + 2)%nat.

(** [json.loads(s)] *)
Definition json_loads (s : string) : result pyval :=
  let l := skip_space (bytes_of_string s) in
  let! (v, r) := value_at (json_fuel l) l in
  match skip_space r with
  | [] => Ok v
  | _ => Raise JSONDecodeError
  end.

Definition quoted (s : string) : string := String "034"%char s +:+ String "034"%char "".

Example loads_ex :
  json_loads (join "" [" {"; quoted "a"; ":[1,-2.5e1, true ,null,{}],"; quoted "b\u00e9"; ":"; quoted "\ud83d\ude00"; "}"]%string) =
  Ok (VDict (dict_of [("a"%string, VList [VInt 1; VFloat (flit (-25) 0); VBool true; VNone; VDict []]);
                      ("b" +:+ string_of_bytes [195; 169], VStr (string_of_bytes [240; 159; 152; 128]))])) /\
  map json_loads ["1e5"; "NaN"; "-0"; quoted "\ud800x"]%string =
  [Ok (VFloat (flit 100000 0)); Ok (VFloat S754_nan); Ok (VInt 0); Ok (VStr (string_of_bytes [237; 160; 128; 120]))] /\
  forallb (fun s => negb (is_ok (json_loads s)))
    ["01"; "[1,]"; "-"; ""; "[1 2]"; "{}x"; "{1:2}"; quoted "\u12"; quoted "\x"; quoted (String "010"%char "")]%string = true.
Proof. vm_compute. auto. Qed.

(** ** Totality *)

Lemma skip_space_length l : (length (skip_space l) <= length l)%nat.
Proof. induction l as [|b l IH]; cbn; [lia|]. destruct (json_space b); cbn; lia. Qed.

(** A reader that leaves less than it was given. *)
Definition consumes {A} (f : list Z -> option (A * list Z)) (l : list Z) : Prop :=
  forall x r, f l = Some (x, r) -> (length r < length l)%nat.

Lemma string_body_consumes l : consumes string_body l.
Proof.
  unfold consumes. remember (length l) as n eqn:Hn. revert l Hn.
  induction n as [n IH] using lt_wf_ind. intros l -> s r E.
  assert (step : forall (g : list Z * list Z -> list Z * list Z) r1, (length r1 < length l)%nat ->
            (forall x, (g x).2 = x.2) -> option_map g (string_body r1) = Some (s, r) -> (length r < length l)%nat).
  { intros g r1 Hlt Hg Em. destruct (string_body r1) as [[s1 r']|] eqn:E1; [|discriminate]. cbn in Em.
    injection Em as Em. apply (f_equal snd) in Em. rewrite Hg in Em. cbn in Em. subst r'.
    specialize (IH _ Hlt r1 eq_refl s1 r E1). lia. }
  destruct l as [|b r0]; [discriminate|]. cbn [string_body] in E. cbn [length] in *.
  repeat match type of E with
         | (if ?c then _ else _) = _ => destruct c
         | match ?x with _ => _ end = _ => destruct x eqn:?; try discriminate
         end; try discriminate; try (injection E; intros <- _; lia).
  all: cbn [length] in *; refine (step _ _ _ _ E); [cbn [length]; lia|reflexivity].
Qed.

Lemma digits_length l : (length (digits l).2 + length (digits l).1 = length l)%nat.
Proof.
  induction l as [|b l IH]; cbn; [lia|]. destruct (is_digit b); cbn; [|lia]. destruct (digits l); cbn in *; lia.
Qed.

Lemma int_part_consumes l : consumes int_part l.
Proof.
  intros ds r E. unfold int_part in E. pose proof (digits_length l) as D.
  destruct (digits l) as [[|d ds'] r'] eqn:Ed; [discriminate|]. cbn in D.
  assert (Hr : (length r < length l)%nat \/ r = match l with _ :: r => r | [] => [] end).
  { destruct (decide (d = 48)) as [->|]; [right; injection E; intros <- _; destruct l; reflexivity|].
    left. repeat case_match; injection E; intros <- _; try lia; congruence. }
  destruct Hr as [Hr| ->]; [assumption|]. destruct l; cbn in *; [lia|lia].
Qed.

Lemma frac_part_length l : (length (frac_part l).2 <= length l)%nat.
Proof.
  unfold frac_part. repeat case_match; cbn; try lia. pose proof (digits_length l0) as D. subst.
  match goal with H : digits _ = _ |- _ => rewrite H in D end. cbn in D. lia.
Qed.

Lemma exp_part_length l : (length (exp_part l).2 <= length l)%nat.
Proof.
  unfold exp_part. destruct l as [|e r]; [cbn; lia|]. destruct ((e =? 101) || (e =? 69)); [|cbn; lia].
  set (p := match r with s :: r' => if (s =? 43) || (s =? 45) then ([s], r') else ([], r) | [] => ([], r) end).
  assert (Hp : (length p.2 <= length r)%nat) by (subst p; destruct r as [|s r']; [cbn; lia|destruct (_ || _); cbn; lia]).
  destruct p as [sign r1]. cbn in Hp. pose proof (digits_length r1) as D.
  destruct (digits r1) as [[|d ds] r2]; cbn in *; lia.
Qed.

Lemma minus_length (l : list Z) : (length (match l with 45%Z :: r => ([45%Z], r) | _ => ([], l) end).2 <= length l)%nat.
Proof. repeat case_match; cbn; lia. Qed.

Lemma number_consumes l : consumes number l.
Proof.
  intros v r E. unfold number in E.
  set (p := match l with 45 :: r => ([45], r) | _ => ([], l) end) in E.
  assert (Hp : (length p.2 <= length l)%nat) by exact (minus_length l). clearbody p.
  destruct p as [sign l1]. cbn [snd] in Hp. destruct (int_part l1) as [[ip l2]|] eqn:Ei; [|discriminate].
  apply int_part_consumes in Ei. pose proof (frac_part_length l2) as Hf. destruct (frac_part l2) as [fp l3].
  pose proof (exp_part_length l3) as He. destruct (exp_part l3) as [ep l4]. cbn [snd] in Hf, He.
  destruct fp, ep; injection E; intros <- _; lia.
Qed.

Lemma strip_prefix_length p l r : strip_prefix p l = Some r -> (length r + length p = length l)%nat.
Proof.
  revert l. induction p as [|a p IH]; intros [|b l] E; cbn in *; try discriminate; try (injection E as <-; cbn; lia).
  destruct (a =? b); [|discriminate]. apply IH in E. lia.
Qed.

Lemma literal_consumes l : consumes (literal literals) l.
Proof.
  intros v r. assert (Hl : Forall (fun x => (0 < length x.1)%nat) literals) by (repeat constructor).
  induction Hl as [|[p w] table Hp _ IH]; cbn [literal]; [discriminate|].
  destruct (strip_prefix p l) eqn:Es; [|exact IH]. intros E. injection E; intros <- _. apply strip_prefix_length in Es. cbn in Hp. lia.
Qed.

(** A reader with enough fuel: it never runs out, and it consumes something. *)
Definition settled {A} (x : result (A * list Z)) (l : list Z) : Prop :=
  match x with Ok (_, r) => (length r < length l)%nat | Raise e => e <> OutOfFuel end.

Lemma settled_trans {A B} (x : result (A * list Z)) (f : A * list Z -> result (B * list Z)) (l l' : list Z) :
  settled x l' -> (length l' <= length l)%nat ->
  (forall a r, (length r < length l')%nat -> x = Ok (a, r) -> settled (f (a, r)) l) -> settled (let! y := x in f y) l.
Proof. intros Hx Hl Hf. destruct x as [[a r]|e]; [|exact Hx]. cbn [rbind]. apply Hf; [exact Hx|reflexivity]. Qed.

Lemma number_settled l v r : number l = Some (v, r) -> settled (let! v := v in Ok (v, r)) l.
Proof.
  intros E. pose proof (number_consumes _ _ _ E) as Hr. unfold number in E.
  destruct v as [v|e]; [exact Hr|]. cbn [rbind settled]. intros ->. revert E.
  destruct (match l with 45 :: r => ([45], r) | _ => ([], l) end) as [sign l1].
  destruct (int_part l1) as [[ip l2]|]; [|discriminate]. destruct (frac_part l2) as [fp l3]. destruct (exp_part l3) as [ep l4].
  assert (Hi : forall s, (let! z := py_int (VStr s) in Ok (VInt z)) <> Raise OutOfFuel).
  { intros s. unfold py_int. destruct (parse_int s); discriminate. }
  assert (Hf : forall s, (let! f := py_float (VStr s) in Ok (VFloat f)) <> Raise OutOfFuel).
  { intros s. unfold py_float. destruct (with_sign _ _ _); discriminate. }
  destruct fp, ep; intros E; injection E as E _; try exact (Hf _ E).
  destruct (max_int_digits <? length ip)%nat; [discriminate E|exact (Hi _ E)].
Qed.

Lemma after_length c l r : after c l = Some r -> (length r < length l)%nat.
Proof. destruct l as [|b l]; cbn; [discriminate|]. destruct (b =? c); [|discriminate]. intros E. injection E as <-. lia. Qed.

(** The lengths that the readers so far leave. *)
Ltac lengths :=
  repeat match goal with
  | H : after _ _ = Some _ |- _ => apply after_length in H
  | H : string_body _ = Some _ |- _ => apply string_body_consumes in H
  end;
  repeat match goal with
  | H : context [length (skip_space ?r)] |- _ => 
      lazymatch goal with _ : (length (skip_space r) <= length r)%nat |- _ => fail | _ => pose proof (skip_space_length r) end
  | |- context [length (skip_space ?r)] =>
      lazymatch goal with _ : (length (skip_space r) <= length r)%nat |- _ => fail | _ => pose proof (skip_space_length r) end
  end; try lia.

Lemma readers_settled fuel :
  (forall l, (2 * length l < fuel)%nat -> settled (value_at fuel l) l) /\
  (forall l, (2 * length l + 1 < fuel)%nat -> settled (items_at fuel l) l) /\
  (forall l, (2 * length l + 1 < fuel)%nat -> settled (members_at fuel l) l).
Proof.
  induction fuel as [|f (IHv & IHi & IHm)]; [repeat split; intros; lia|].
  repeat split; intros l Hf; cbn [value_at items_at members_at].
  - destruct (after 34 l) as [r|] eqn:E1; [destruct (string_body r) as [[s r']|] eqn:E; [cbn; lengths|discriminate]|].
    destruct (after 123 l) as [r|] eqn:E2.
    { destruct (after 125 (skip_space r)) eqn:E; [cbn; lengths|].
      eapply settled_trans; [apply IHm; lengths|lengths|]. intros a r2 Hr _. cbn. lengths. }
    destruct (after 91 l) as [r|] eqn:E3.
    { destruct (after 93 (skip_space r)) eqn:E; [cbn; lengths|].
      eapply settled_trans; [apply IHi; lengths|lengths|]. intros a r2 Hr _. cbn. lengths. }
    destruct (literal literals l) as [[v r]|] eqn:El; [exact (literal_consumes _ _ _ El)|].
    destruct (number l) as [[v r]|] eqn:En; [exact (number_settled _ _ _ En)|discriminate].
  - eapply settled_trans; [apply IHv; lia|lia|]. intros v r Hr _.
    destruct (after 44 (skip_space r)) as [r'|] eqn:E1; [|destruct (after 93 (skip_space r)) eqn:E; [cbn; lengths|discriminate]].
    eapply settled_trans; [apply IHi; lengths|lengths|]. intros vs r2 Hr2 _. cbn. lengths.
  - destruct (after 34 l) as [r|] eqn:E1; [|discriminate]. destruct (string_body r) as [[k r1]|] eqn:E2; [|discriminate].
    destruct (after 58 (skip_space r1)) as [r2|] eqn:E3; [|discriminate].
    eapply settled_trans; [apply IHv; lengths|lengths|]. intros v r3 Hr _.
    destruct (after 44 (skip_space r3)) as [r4|] eqn:E4; [|destruct (after 125 (skip_space r3)) eqn:E; [cbn; lengths|discriminate]].
    eapply settled_trans; [apply IHm; lengths|lengths|]. intros kvs r5 Hr5 _. cbn. lengths.
Qed.

(** The fuel is enough: decoding ends on every text. *)
Theorem json_loads_total s : json_loads s <> Raise OutOfFuel.
Proof.
  unfold json_loads, json_fuel. set (l := skip_space (bytes_of_string s)).
  pose proof (proj1 (readers_settled (2 * length l + 2)) l ltac:(lia)) as H.
  destruct (value_at _ l) as [[v r]|e]; cbn [rbind settled] in *; [destruct (skip_space r); discriminate|congruence].
Qed.
