(* ===== verification/CborCodec.v ===== *)
(** * The CBOR-v2 codec ([neuro_cli/src/neuro_protocol.py])

    [cbor_encode] and [cbor_decode] on dynamic values: byte layout, argument
    widths, key order, and every exception.  Python's recursion limit is not
    modelled; the decoder's fuel is one more than the input length, and
    [cbor_decode_total] shows that it is never exhausted. *)

From Stdlib Require Import ZArith Lia Bool List Ascii String.
From stdpp Require Import base list option strings sorting.
From S2P Require Import Prelude PyFloat Text PyValue.

Open Scope Z_scope.

(** ** Encoder *)

(** [value.to_bytes(n, "big")] *)
Fixpoint be_bytes (n : nat) (value : Z) : list Z :=
  match n with
  | O => []
  | S n' => be_bytes n' (value / 256) ++ [value mod 256]
  end.

(** [int.from_bytes(b, "big")] *)
Definition from_be (l : list Z) : Z := foldl (fun acc b => acc * 256 + b) 0 l.

Definition cbor_encode_uint (major value : Z) : result (list Z) :=
  if value <? 0 then Raise (ValueError "CBOR unsigned value must be non-negative")
  else if value <? 24 then Ok [Z.lor (Z.shiftl major 5) value]
  else if value <=? 255 then Ok [Z.lor (Z.shiftl major 5) 24; value]
  else if value <=? 65535 then Ok (Z.lor (Z.shiftl major 5) 25 :: be_bytes 2 value)
  else if value <=? 4294967295 then Ok (Z.lor (Z.shiftl major 5) 26 :: be_bytes 4 value)
  else if value <? 2 ^ 64 then Ok (Z.lor (Z.shiftl major 5) 27 :: be_bytes 8 value)
  else Raise (OverflowError "int too big to convert").

Definition cbor_encode_bool (b : bool) : result (list Z) := Ok [if b then 245 else 244].

Definition cbor_encode_int (value : Z) : result (list Z) :=
  if 0 <=? value then cbor_encode_uint 0 value else cbor_encode_uint 1 (-1 - value).

Definition cbor_encode_str (s : string) : result (list Z) :=
  let! data := encode_utf8 s in
  let! h := cbor_encode_uint 3 (Z.of_nat (length data)) in
  Ok (h ++ data).

Definition cbor_encode_key (k : pykey) : result (list Z) :=
  match k with
  | KStr s => cbor_encode_str s
  | KInt z => cbor_encode_int z
  | KBool b => cbor_encode_bool b
  end.

(** The order of [sorted(value.items(), key=lambda item: item[0])]. *)
Definition key_leb (a b : pykey) : bool :=
  match key_norm a, key_norm b with
  | inl s, inl t => String.leb s t
  | inr x, inr y => x <=? y
  | inl _, inr _ => false
  | inr _, inl _ => true
  end.

Definition key_is_str (k : pykey) : bool := match k with KStr _ => true | _ => false end.

(** Comparing a [str] with an [int] raises; a list that holds both kinds is
    compared across kinds by every sorting algorithm. *)
Definition sortable (ks : list pykey) : bool :=
  forallb key_is_str ks || forallb (fun k => negb (key_is_str k)) ks.

Definition item_leb {V} (a b : pykey * V) : bool := key_leb a.1 b.1.

Definition sorted_items {V} (items : list (pykey * V)) : result (list (pykey * V)) :=
  if sortable (map fst items) then Ok (py_sorted item_leb items)
  else Raise (TypeError "'<' not supported between instances of 'int' and 'str'").

Fixpoint encode_items (items : list (pykey * result (list Z))) : result (list Z) :=
  match items with
  | [] => Ok []
  | (k, r) :: rest =>
      let! kb := cbor_encode_key k in
      let! vb := r in
      let! tl := encode_items rest in
      Ok (kb ++ vb ++ tl)
  end.

Fixpoint cbor_encode (value : pyval) : result (list Z) :=
  match value with
  | VBool b => cbor_encode_bool b
  | VInt z => cbor_encode_int z
  | VStr s => cbor_encode_str s
  | VDict d =>
      let! items := sorted_items (map (fun kv => match kv with (k, x) => (k, cbor_encode x) end) d) in
      let! h := cbor_encode_uint 5 (Z.of_nat (length items)) in
      let! body := encode_items items in
      Ok (h ++ body)
  | VList l | VTuple l =>
      let! h := cbor_encode_uint 4 (Z.of_nat (length l)) in
      let! parts := sequence (map cbor_encode l) in
      Ok (h ++ List.concat parts)
  | VNone => Raise (TypeError "unsupported CBOR value type: NoneType")
  | VFloat _ => Raise (TypeError "unsupported CBOR value type: float")
  end.

(** ** Decoder *)

Definition slice (data : list Z) (a b : Z) : list Z :=
  take (Z.to_nat (b - a)) (drop (Z.to_nat a) data).

Definition dlen (data : list Z) : Z := Z.of_nat (length data).

Definition cbor_read_arg (data : list Z) (offset additional : Z) : result (Z * Z) :=
  if additional <? 24 then Ok (additional, offset)
  else
    let! end_ :=
      (if additional =? 24 then Ok (offset + 1)
       else if additional =? 25 then Ok (offset + 2)
       else if additional =? 26 then Ok (offset + 4)
       else if additional =? 27 then Ok (offset + 8)
       else Raise (CborDecodeError "unsupported indefinite or reserved CBOR length")) in
    if dlen data <? end_ then Raise (CborDecodeError "truncated CBOR value")
    else Ok (from_be (slice data offset end_), end_).

(** [for _ in range(length): item, offset = decode(...); items.append(item)] *)
Fixpoint read_items (dec : Z -> result (pyval * Z)) (fuel : nat) (remaining offset : Z)
    (acc : list pyval) : result (list pyval * Z) :=
  if remaining <=? 0 then Ok (acc, offset)
  else match fuel with
  | O => Raise OutOfFuel
  | S f =>
      let! (item, offset') := dec offset in
      read_items dec f (remaining - 1) offset' (acc ++ [item])
  end.

Fixpoint read_pairs (dec : Z -> result (pyval * Z)) (fuel : nat) (remaining offset : Z)
    (acc : dict) : result (dict * Z) :=
  if remaining <=? 0 then Ok (acc, offset)
  else match fuel with
  | O => Raise OutOfFuel
  | S f =>
      let! (key, offset1) := dec offset in
      let! (value, offset2) := dec offset1 in
      let! k := py_key key in
      read_pairs dec f (remaining - 1) offset2 (dset k value acc)
  end.

Fixpoint cbor_decode_at (fuel : nat) (data : list Z) (offset : Z) : result (pyval * Z) :=
  match fuel with
  | O => Raise OutOfFuel
  | S f =>
      if dlen data <=? offset then Raise (CborDecodeError "empty or truncated CBOR payload")
      else
        let initial := nth (Z.to_nat offset) data 0 in
        let offset := offset + 1 in
        let major := Z.shiftr initial 5 in
        let additional := Z.land initial 31 in
        if major =? 0 then
          let! (n, o) := cbor_read_arg data offset additional in Ok (VInt n, o)
        else if major =? 1 then
          let! (n, o) := cbor_read_arg data offset additional in Ok (VInt (-1 - n), o)
        else if major =? 3 then
          let! (len, o) := cbor_read_arg data offset additional in
          let end_ := o + len in
          if dlen data <? end_ then Raise (CborDecodeError "truncated CBOR text string")
          else let! s := decode_utf8 (slice data o end_) in Ok (VStr s, end_)
        else if major =? 4 then
          let! (len, o) := cbor_read_arg data offset additional in
          let! (items, o') := read_items (cbor_decode_at f data) f len o [] in
          Ok (VList items, o')
        else if major =? 5 then
          let! (len, o) := cbor_read_arg data offset additional in
          let! (d, o') := read_pairs (cbor_decode_at f data) f len o [] in
          Ok (VDict d, o')
        else if (major =? 7) && ((additional =? 20) || (additional =? 21)) then
          Ok (VBool (additional =? 21), offset)
        else Raise (CborDecodeError ("unsupported CBOR major type: " +:+ string_of_Z major))
  end.

Definition decode_fuel (data : list Z) : nat := S (length data).

Definition cbor_decode (data : list Z) : result pyval :=
  let! (value, offset) := cbor_decode_at (decode_fuel data) data 0 in
  if offset =? dlen data then Ok value
  else Raise (CborDecodeError "trailing CBOR bytes").

(** ** What a round trip returns

    Tuples come back as lists and dictionaries in key order. *)
Fixpoint cbor_norm (v : pyval) : pyval :=
  match v with
  | VList l | VTuple l => VList (map cbor_norm l)
  | VDict d => VDict (py_sorted item_leb (map (fun kv => match kv with (k, x) => (k, cbor_norm x) end) d))
  | _ => v
  end.

(** Every dict inside the value has distinct keys, as a Python dict does. *)
Inductive pywf : pyval -> Prop :=
  | wf_none : pywf VNone
  | wf_bool b : pywf (VBool b)
  | wf_int z : pywf (VInt z)
  | wf_float f : pywf (VFloat f)
  | wf_str s : pywf (VStr s)
  | wf_list l : Forall pywf l -> pywf (VList l)
  | wf_tuple l : Forall pywf l -> pywf (VTuple l)
  | wf_dict d : dwf d -> Forall (fun kv => pywf kv.2) d -> pywf (VDict d).

Example encode_ex :
  cbor_encode (VDict (dict_of [("b", VTuple [VInt 500; VBool true]); ("a", VInt (-1))]))
  = Ok [162; 97; 97; 32; 97; 98; 130; 25; 1; 244; 245].
Proof. vm_compute. reflexivity. Qed.

Example decode_ex :
  cbor_decode [162; 97; 97; 32; 97; 98; 130; 25; 1; 244; 245]
  = Ok (VDict (dict_of [("a", VInt (-1)); ("b", VList [VInt 500; VBool true])])).
Proof. vm_compute. reflexivity. Qed.

Example decode_errors_ex :
  map (fun d => cbor_decode d) [[]; [24]; [31]; [97; 255]; [129]; [161; 128; 0]; [0; 0]; [64]; [246]]
  = [Raise (CborDecodeError "empty or truncated CBOR payload");
     Raise (CborDecodeError "truncated CBOR value");
     Raise (CborDecodeError "unsupported indefinite or reserved CBOR length");
     Raise (UnicodeError "invalid utf-8");
     Raise (CborDecodeError "empty or truncated CBOR payload");
     Raise (TypeError "unhashable type");
     Raise (CborDecodeError "trailing CBOR bytes");
     Raise (CborDecodeError "unsupported CBOR major type: 2");
     Raise (CborDecodeError "unsupported CBOR major type: 7")].
Proof. vm_compute. reflexivity. Qed.

(** ** Byte-level lemmas *)

Lemma header_value m x : 0 <= x < 32 -> Z.lor (Z.shiftl m 5) x = m * 32 + x.
Proof.
  intros Hx. pose proof (Z.add_lor_land (Z.shiftl m 5) x) as E.
  assert (Z.land (Z.shiftl m 5) x = 0) as E0.
  { apply Z.bits_inj'. intros n Hn. rewrite Z.land_spec, Z.bits_0.
    destruct (Z.ltb_spec n 5).
    - rewrite Z.shiftl_spec_low by lia. done.
    - apply andb_false_iff. right. apply Z.bits_above_log2; [lia|].
      destruct (Z.eq_dec x 0) as [->|]; [cbn; lia|].
      apply Z.log2_lt_pow2; [lia|]. apply Z.lt_le_trans with (2 ^ 5); [lia|].
      apply Z.pow_le_mono_r; lia. }
  rewrite Z.shiftl_mul_pow2 in * by lia. lia.
Qed.

Lemma header_major m x : 0 <= x < 32 -> Z.shiftr (m * 32 + x) 5 = m.
Proof. intros H. rewrite Z.shiftr_div_pow2 by lia. change (2 ^ 5) with 32. Z.div_mod_to_equations; lia. Qed.

Lemma header_additional m x : 0 <= x < 32 -> Z.land (m * 32 + x) 31 = x.
Proof.
  intros H. change 31 with (Z.ones 5). rewrite Z.land_ones by lia.
  change (2 ^ 5) with 32. Z.div_mod_to_equations; lia.
Qed.

Lemma length_be_bytes n v : length (be_bytes n v) = n.
Proof. revert v. induction n as [|n IH]; intros v; cbn; [done|]. rewrite length_app, IH. cbn. lia. Qed.

Lemma be_bytes_range n v : Forall (fun b => 0 <= b < 256) (be_bytes n v).
Proof.
  revert v. induction n as [|n IH]; intros v; cbn; [done|].
  apply Forall_app. split; [apply IH|]. constructor; [|done]. apply Z.mod_pos_bound. lia.
Qed.

Lemma from_be_be_bytes n v : 0 <= v < 256 ^ Z.of_nat n -> from_be (be_bytes n v) = v.
Proof.
  revert v. induction n as [|n IH]; intros v H; [cbn in *; lia|].
  rewrite Nat2Z.inj_succ, Z.pow_succ_r in H by lia. cbn [be_bytes].
  unfold from_be. rewrite foldl_app. cbn.
  change (foldl _ 0 (be_bytes n (v / 256))) with (from_be (be_bytes n (v / 256))).
  rewrite IH; [|split; [apply Z.div_pos; lia|apply Z.div_lt_upper_bound; lia]].
  pose proof (Z.div_mod v 256). lia.
Qed.

(** ** A chunk of bytes at an offset of the input *)

Definition at_offset (data : list Z) (o : Z) (bs : list Z) : Prop :=
  0 <= o /\ o + dlen bs <= dlen data /\ slice data o (o + dlen bs) = bs.

Lemma dlen_nonneg l : 0 <= dlen l.
Proof. unfold dlen. lia. Qed.

Lemma dlen_app a b : dlen (a ++ b) = dlen a + dlen b.
Proof. unfold dlen. rewrite length_app. lia. Qed.

Lemma slice_take data o n : slice data o (o + Z.of_nat n) = take n (drop (Z.to_nat o) data).
Proof. unfold slice. do 2 f_equal. lia. Qed.

Lemma take_app_inv {A} n m (l a b : list A) :
  take (n + m) l = a ++ b -> length a = n -> length b = m ->
  take n l = a /\ take m (drop n l) = b.
Proof.
  intros H <- <-. split.
  - apply (f_equal (take (length a))) in H.
    rewrite take_take, take_app_length in H. by rewrite Nat.min_l in H by lia.
  - apply (f_equal (drop (length a))) in H.
    rewrite drop_app_length, skipn_firstn_comm in H.
    by replace (length a + length b - length a)%nat with (length b) in H by lia.
Qed.

Lemma at_offset_app data o a b :
  at_offset data o (a ++ b) -> at_offset data o a /\ at_offset data (o + dlen a) b.
Proof.
  intros (Ho & Hl & Hs). rewrite dlen_app in *. unfold dlen in *.
  assert (o + (Z.of_nat (length a) + Z.of_nat (length b)) = o + Z.of_nat (length a + length b)) as E by lia.
  rewrite E, slice_take in Hs. destruct (take_app_inv _ _ _ _ _ Hs eq_refl eq_refl) as [Ha Hb].
  unfold at_offset, dlen. rewrite !slice_take. split_and!; try lia; [done|].
  rewrite drop_drop in Hb. rewrite <- Hb at 2. do 2 f_equal. lia.
Qed.

Lemma at_offset_cons data o b bs :
  at_offset data o (b :: bs) ->
  0 <= o < dlen data /\ nth (Z.to_nat o) data 0 = b /\ at_offset data (o + 1) bs.
Proof.
  intros H. change (b :: bs) with ([b] ++ bs) in H. apply at_offset_app in H as [H1 H2].
  destruct H1 as (Ho & Hl & Hs). change (dlen [b]) with (Z.of_nat 1) in *.
  split; [lia|]. split; [|exact H2]. rewrite slice_take in Hs.
  pose proof (nth_skipn (Z.to_nat o) data 0%nat 0) as E. rewrite Nat.add_0_r in E.
  rewrite <- E. destruct (drop (Z.to_nat o) data); cbn in *; congruence.
Qed.

Lemma at_offset_all bs : at_offset bs 0 bs.
Proof.
  unfold at_offset, dlen. split_and!; [lia..|]. rewrite slice_take. cbn. by rewrite firstn_all.
Qed.

(** ** Argument encoding *)

Lemma read_arg_wide data o n v :
  at_offset data o (be_bytes n v) -> 0 <= v < 256 ^ Z.of_nat n ->
  (dlen data <? o + Z.of_nat n) = false /\ from_be (slice data o (o + Z.of_nat n)) = v.
Proof.
  intros (Ho & Hl & Hs) Hv. unfold dlen in Hl, Hs. rewrite length_be_bytes in Hl, Hs.
  split; [apply Z.ltb_ge; unfold dlen; lia|]. rewrite Hs. by apply from_be_be_bytes.
Qed.

Lemma Ok_pair_eq {A B} (a : A) (b b' : B) : b = b' -> Ok (a, b) = Ok (a, b').
Proof. by intros ->. Qed.

(** The header written for an argument is read back, with the same major type. *)
Lemma read_arg_encode major v h data o :
  cbor_encode_uint major v = Ok h -> at_offset data o h ->
  exists x, 0 <= o < dlen data /\ nth (Z.to_nat o) data 0 = major * 32 + x /\ 0 <= x < 28
    /\ cbor_read_arg data (o + 1) x = Ok (v, o + dlen h) /\ 0 <= v < 2 ^ 64.
Proof.
  unfold cbor_encode_uint. intros H Hat.
  repeat (destr_match H; [try discriminate|]); bool_prop; inv_ok;
    apply at_offset_cons in Hat as (? & Hb & Hat);
    rewrite header_value in Hb by lia.
  - exists v. split_and!; try lia. unfold cbor_read_arg.
    assert ((v <? 24) = true) as -> by (apply Z.ltb_lt; lia). done.
  - exists 24. change [v] with ([] ++ [v]) in Hat.
    replace [v] with (be_bytes 1 v) in Hat
      by (cbn; rewrite Z.mod_small by lia; done).
    apply read_arg_wide in Hat as [H1 H2]; [|cbn; lia].
    split_and!; try lia. cbn -[dlen from_be slice Z.add]. change (Z.of_nat 1) with 1 in *. rewrite H1, H2.
    apply Ok_pair_eq. unfold dlen. cbn [length]. rewrite ?length_be_bytes. lia.
  - exists 25. apply read_arg_wide in Hat as [H1 H2]; [|cbn; lia].
    split_and!; try lia. cbn -[dlen from_be be_bytes slice Z.add]. change (Z.of_nat 2) with 2 in *.
    rewrite H1, H2. apply Ok_pair_eq. unfold dlen. cbn [length]. rewrite ?length_be_bytes. lia.
  - exists 26. apply read_arg_wide in Hat as [H1 H2]; [|cbn; lia].
    split_and!; try lia. cbn -[dlen from_be be_bytes slice Z.add]. change (Z.of_nat 4) with 4 in *.
    rewrite H1, H2. apply Ok_pair_eq. unfold dlen. cbn [length]. rewrite ?length_be_bytes. lia.
  - exists 27. apply read_arg_wide in Hat as [H1 H2]; [|cbn; lia].
    split_and!; try lia. cbn -[dlen from_be be_bytes slice Z.add]. change (Z.of_nat 8) with 8 in *.
    rewrite H1, H2. apply Ok_pair_eq. unfold dlen. cbn [length]. rewrite ?length_be_bytes. lia.
Qed.

(** ** Encodings are never empty *)

Lemma encode_uint_nonempty m v h : cbor_encode_uint m v = Ok h -> h <> [].
Proof. unfold cbor_encode_uint. intros H. repeat destr_match H; inv_ok; done. Qed.

Lemma encode_int_nonempty z h : cbor_encode_int z = Ok h -> h <> [].
Proof. unfold cbor_encode_int. intros H. destr_match H; by eapply encode_uint_nonempty. Qed.

Lemma app_nonempty {A} (a b : list A) : a <> [] -> a ++ b <> [].
Proof. by destruct a. Qed.

Lemma encode_nonempty v bs : cbor_encode v = Ok bs -> bs <> [].
Proof.
  destruct v; cbn -[cbor_encode_uint]; intros H; unfold cbor_encode_bool, cbor_encode_str in H;
    inv_ok; eauto using encode_int_nonempty, app_nonempty, encode_uint_nonempty.
Qed.

(** ** The decoder undoes the encoder, at any offset of a larger input *)

(** [cbor_encode v = Ok bs] reads back at every offset, with any fuel no
    shorter than the encoding. *)
Definition reads_back (v : pyval) : Prop :=
  forall bs, cbor_encode v = Ok bs ->
  forall fuel data o, at_offset data o bs -> (length bs <= fuel)%nat ->
  cbor_decode_at fuel data o = Ok (cbor_norm v, o + dlen bs).

Ltac decode_header H Hat :=
  match type of Hat with at_offset ?data ?o _ =>
    let x := fresh "x" in
    destruct (read_arg_encode _ _ _ _ _ H Hat) as (x & ? & Hn & ? & Harg & ?);
    cbn [cbor_decode_at];
    rewrite (proj2 (Z.leb_gt (dlen data) o)) by lia;
    cbv zeta; rewrite Hn, header_major, header_additional by lia;
    cbn -[dlen from_be slice Z.add cbor_read_arg Z.of_nat read_items read_pairs];
    rewrite Harg; cbn [rbind]
  end.

Lemma fuel_pos (bs : list Z) fuel :
  bs <> [] -> (length bs <= fuel)%nat -> exists f, fuel = S f /\ (length bs <= S f)%nat.
Proof. destruct bs; [done|]. cbn. intros. exists (pred fuel). lia. Qed.

Lemma reads_back_int z : reads_back (VInt z).
Proof.
  intros bs H fuel data o Hat Hf.
  destruct (fuel_pos _ _ (encode_nonempty _ _ H) Hf) as (f & -> & _).
  cbn in H. unfold cbor_encode_int in H. destr_match H; bool_prop.
  - decode_header H Hat. done.
  - decode_header H Hat. do 3 f_equal. lia.
Qed.

Lemma reads_back_bool b : reads_back (VBool b).
Proof.
  intros bs H fuel data o Hat Hf. cbn in H. unfold cbor_encode_bool in H. inv_ok.
  destruct fuel as [|f]; [cbn in Hf; lia|].
  apply at_offset_cons in Hat as (? & Hn & _). cbn [cbor_decode_at].
  rewrite (proj2 (Z.leb_gt (dlen data) o)) by lia. cbv zeta. rewrite Hn.
  by destruct b.
Qed.

Lemma reads_back_str s : reads_back (VStr s).
Proof.
  intros bs H fuel data o Hat Hf.
  destruct (fuel_pos _ _ (encode_nonempty _ _ H) Hf) as (f & -> & _).
  cbn in H. unfold cbor_encode_str in H. inv_ok.
  apply at_offset_app in Hat as [Hh Hd].
  decode_header E0 Hh. destruct Hd as (Ho & Hl & Hs).
  change (Z.of_nat (length a)) with (dlen a).
  assert ((dlen data <? o + dlen a0 + dlen a) = false) as -> by (apply Z.ltb_ge; lia).
  rewrite Hs, (decode_encode_utf8 _ _ E). cbn. apply Ok_pair_eq. rewrite dlen_app. lia.
Qed.

Lemma reads_back_key k : reads_back (key_val k).
Proof. destruct k; cbn [key_val]; auto using reads_back_int, reads_back_bool, reads_back_str. Qed.

Lemma encode_key_val k : cbor_encode_key k = cbor_encode (key_val k).
Proof. by destruct k. Qed.

Lemma norm_key_val k : cbor_norm (key_val k) = key_val k.
Proof. by destruct k. Qed.

Lemma py_key_val k : py_key (key_val k) = Ok k.
Proof. by destruct k. Qed.

Lemma concat_length_nonempty {A} (parts : list (list A)) :
  Forall (fun p => p <> []) parts -> (length parts <= length (List.concat parts))%nat.
Proof.
  induction 1 as [|p ps Hp _ IH]; cbn; [lia|]. rewrite length_app. destruct p; [done|]. cbn. lia.
Qed.

Lemma read_items_back f data l parts :
  Forall2 (fun v bs => cbor_encode v = Ok bs) l parts -> Forall reads_back l ->
  (length (List.concat parts) <= f)%nat ->
  forall k o acc, at_offset data o (List.concat parts) -> (length l <= k)%nat ->
  read_items (cbor_decode_at f data) k (Z.of_nat (length l)) o acc
  = Ok (acc ++ map cbor_norm l, o + dlen (List.concat parts)).
Proof.
  intros Hp. induction Hp as [|v bs l parts Hv Hp IH]; intros Hr Hf k o acc Hat Hk.
  - destruct k; cbn; by rewrite app_nil_r, Z.add_0_r.
  - apply Forall_cons in Hr as [Hrv Hr]. cbn in Hat, Hf. rewrite length_app in Hf.
    apply at_offset_app in Hat as [H1 H2]. destruct k as [|k]; [cbn in Hk; lia|].
    cbn [read_items length]. rewrite (proj2 (Z.leb_gt _ 0)) by lia.
    rewrite (Hrv _ Hv f data o H1) by lia. cbn [rbind].
    replace (Z.of_nat (S (length l)) - 1) with (Z.of_nat (length l)) by lia.
    rewrite IH by (auto; cbn in Hk; lia). cbn. rewrite <- app_assoc. apply Ok_pair_eq.
    rewrite dlen_app. lia.
Qed.

Lemma reads_back_seq l :
  Forall reads_back l -> reads_back (VList l) /\ reads_back (VTuple l).
Proof.
  intros IH. assert (reads_back (VList l)) as HL; [|split; [exact HL|exact HL]].
  intros bs H fuel data o Hat Hf.
  destruct (fuel_pos _ _ (encode_nonempty _ _ H) Hf) as (f & -> & Hf').
  cbn -[cbor_encode_uint] in H. inv_ok. change (sequence (map cbor_encode l)) with (rmap cbor_encode l) in E0.
  apply rmap_ok_Forall2 in E0. pose proof (encode_uint_nonempty _ _ _ E) as Hne.
  apply at_offset_app in Hat as [Hh Hd]. decode_header E Hh.
  assert (Forall (fun p => p <> []) a0) as Hparts.
  { apply Forall_forall. intros p Hp. apply list_elem_of_lookup in Hp as [i Hi].
    destruct (Forall2_lookup_r _ _ _ _ _ E0 Hi) as (v & _ & Hv). by eapply encode_nonempty. }
  pose proof (concat_length_nonempty _ Hparts) as Hlen.
  rewrite length_app in Hf'. destruct a as [|? a]; [done|]. cbn [length] in Hf'.
  pose proof (Forall2_length _ _ _ E0).
  rewrite (read_items_back f data l a0) by (auto; lia). cbn [rbind cbor_norm].
  apply Ok_pair_eq. rewrite dlen_app. lia.
Qed.

Definition item_bytes (kv : pykey * pyval) (bs : list Z) : Prop :=
  exists kb vb, cbor_encode_key kv.1 = Ok kb /\ cbor_encode kv.2 = Ok vb /\ bs = kb ++ vb.

Lemma encode_items_ok ds body :
  encode_items (map (fun kv => (kv.1, cbor_encode kv.2)) ds) = Ok body ->
  exists parts, Forall2 item_bytes ds parts /\ body = List.concat parts.
Proof.
  revert body. induction ds as [|[k v] ds IH]; intros body H; cbn in H.
  - inv_ok. exists []. split; [constructor|done].
  - inv_ok. destruct (IH _ eq_refl) as (parts & ? & ->). exists ((a ++ a0) :: parts). split.
    + constructor; [|done]. exists a, a0. done.
    + cbn. by rewrite app_assoc.
Qed.

Lemma item_bytes_nonempty kv bs : item_bytes kv bs -> bs <> [].
Proof.
  intros (kb & vb & Hk & _ & ->). apply app_nonempty. rewrite encode_key_val in Hk.
  by eapply encode_nonempty.
Qed.

Lemma read_pairs_back f data ds parts :
  Forall2 item_bytes ds parts -> Forall (fun kv => reads_back kv.2) ds ->
  (length (List.concat parts) <= f)%nat ->
  forall k o acc, at_offset data o (List.concat parts) -> (length ds <= k)%nat ->
  dwf (acc ++ map (fun kv => (kv.1, cbor_norm kv.2)) ds) ->
  read_pairs (cbor_decode_at f data) k (Z.of_nat (length ds)) o acc
  = Ok (acc ++ map (fun kv => (kv.1, cbor_norm kv.2)) ds, o + dlen (List.concat parts)).
Proof.
  intros Hp. induction Hp as [|[key v] bs ds parts Hv Hp IH]; intros Hr Hf k o acc Hat Hk Hwf.
  - destruct k; cbn; by rewrite app_nil_r, Z.add_0_r.
  - apply Forall_cons in Hr as [Hrv Hr]. cbn in Hat, Hf. rewrite length_app in Hf.
    destruct Hv as (kb & vb & Hkb & Hvb & ->). cbn in Hkb, Hvb, Hrv.
    apply at_offset_app in Hat as [H1 H2]. apply at_offset_app in H1 as [H1 H1'].
    rewrite length_app in Hf. destruct k as [|k]; [cbn in Hk; lia|].
    cbn [read_pairs length]. rewrite (proj2 (Z.leb_gt _ 0)) by lia.
    rewrite encode_key_val in Hkb.
    rewrite (reads_back_key key _ Hkb f data o H1) by lia. cbn [rbind].
    rewrite (Hrv _ Hvb f data _ H1') by lia. cbn [rbind]. rewrite norm_key_val, py_key_val. cbn [rbind].
    replace (Z.of_nat (S (length ds)) - 1) with (Z.of_nat (length ds)) by lia.
    assert (dset key (cbor_norm v) acc = acc ++ [(key, cbor_norm v)]) as ->.
    { apply od_set_fresh. unfold dwf, od_wf, od_keys in *. rewrite map_app in Hwf.
      apply NoDup_app in Hwf as (_ & Hd & _). intros Hin. apply (Hd _ Hin). left. }
    rewrite dlen_app in H2. replace (o + (dlen kb + dlen vb)) with (o + dlen kb + dlen vb) in H2 by lia.
    rewrite IH; [|done|lia|done|cbn in Hk; lia|].
    + rewrite <- app_assoc. cbn. apply Ok_pair_eq. rewrite !dlen_app. lia.
    + rewrite <- app_assoc. exact Hwf.
Qed.

Lemma item_leb_total {V} (a b : pykey * V) : item_leb a b = true \/ item_leb b a = true.
Proof.
  unfold item_leb, key_leb. destruct (key_norm a.1), (key_norm b.1); auto.
  rewrite !Z.leb_le. lia.
Qed.

Lemma item_leb_trans {V} (a b c : pykey * V) :
  item_leb a b = true -> item_leb b c = true -> item_leb a c = true.
Proof.
  unfold item_leb, key_leb. destruct (key_norm a.1), (key_norm b.1), (key_norm c.1);
    try discriminate; eauto. rewrite !Z.leb_le. lia.
Qed.

Lemma item_leb_antisym {V} (a b : pykey * V) :
  item_leb a b = true -> item_leb b a = true -> key_norm a.1 = key_norm b.1.
Proof.
  unfold item_leb, key_leb. destruct (key_norm a.1), (key_norm b.1); try discriminate.
  - intros. f_equal. eauto.
  - rewrite !Z.leb_le. intros. f_equal. lia.
Qed.

Definition norm_item (kv : pykey * pyval) : pykey * pyval := (kv.1, cbor_norm kv.2).
Definition encode_item (kv : pykey * pyval) : pykey * result (list Z) := (kv.1, cbor_encode kv.2).

Lemma norm_dict_sorted d :
  cbor_norm (VDict d) = VDict (map norm_item (py_sorted item_leb d)).
Proof.
  cbn. f_equal. rewrite (map_ext _ norm_item) by (by intros []). by apply py_sorted_map.
Qed.

(** The dict case of the encoder: sort the entries, then encode them. *)
Lemma encode_dict_eq d :
  cbor_encode (VDict d) =
  if sortable (map fst d) then
    let! h := cbor_encode_uint 5 (Z.of_nat (length d)) in
    let! body := encode_items (map encode_item (py_sorted item_leb d)) in
    Ok (h ++ body)
  else Raise (TypeError "'<' not supported between instances of 'int' and 'str'").
Proof.
  cbn -[cbor_encode_uint sortable]. rewrite (map_ext _ encode_item) by (by intros []).
  unfold sorted_items. rewrite map_map, (map_ext (fun x => (encode_item x).1) fst) by (by intros []).
  destruct (sortable (map fst d)); [|done].
  rewrite (py_sorted_map encode_item item_leb) by done. cbn [rbind].
  by rewrite length_map, length_py_sorted.
Qed.

Lemma encode_dict d bs :
  cbor_encode (VDict d) = Ok bs ->
  exists h body, cbor_encode_uint 5 (Z.of_nat (length d)) = Ok h /\
    encode_items (map encode_item (py_sorted item_leb d)) = Ok body /\ bs = h ++ body.
Proof.
  rewrite encode_dict_eq. intros H. destr_match H; [|done]. inv_ok. eauto.
Qed.

Lemma dwf_perm d d' : d ≡ₚ d' -> dwf d -> dwf d'.
Proof. unfold dwf, od_wf, od_keys. by intros ->. Qed.

Lemma dwf_map_norm d : dwf d -> dwf (map norm_item d).
Proof. unfold dwf, od_wf, od_keys. by rewrite map_map. Qed.

Lemma reads_back_dict d :
  dwf d -> Forall (fun kv => reads_back kv.2) d -> reads_back (VDict d).
Proof.
  intros Hwf IH bs H fuel data o Hat Hf.
  destruct (fuel_pos _ _ (encode_nonempty _ _ H) Hf) as (f & -> & Hf').
  apply encode_dict in H as (h & body & Hh & Hb & ->).
  apply encode_items_ok in Hb as (parts & Hparts & ->).
  rewrite norm_dict_sorted.
  apply at_offset_app in Hat as [Ha1 Ha2]. decode_header Hh Ha1.
  pose proof (py_sorted_perm item_leb d) as Hperm.
  assert (Forall (fun p => p <> []) parts) as Hne.
  { apply Forall_forall. intros p Hp. apply list_elem_of_lookup in Hp as [i Hi].
    destruct (Forall2_lookup_r _ _ _ _ _ Hparts Hi) as (v & _ & Hv). by eapply item_bytes_nonempty. }
  pose proof (concat_length_nonempty _ Hne) as Hlen.
  rewrite length_app in Hf'. pose proof (encode_uint_nonempty _ _ _ Hh).
  destruct h as [|? h]; [done|]. cbn [length] in Hf'.
  pose proof (Forall2_length _ _ _ Hparts) as Hl2.
  rewrite <- (length_py_sorted item_leb d).
  rewrite (read_pairs_back f data (py_sorted item_leb d) parts); [|done| |lia|done|lia|].
  - cbn [rbind]. apply Ok_pair_eq. rewrite dlen_app. lia.
  - by rewrite Hperm.
  - apply dwf_map_norm. by eapply dwf_perm.
Qed.

Lemma reads_back_all v : pywf v -> reads_back v.
Proof.
  induction v using pyval_nested_ind; intros Hw.
  - by intros bs Hbs.
  - apply reads_back_bool.
  - apply reads_back_int.
  - by intros bs Hbs.
  - apply reads_back_str.
  - apply reads_back_seq. inversion Hw; subst. rewrite !Forall_forall in *. eauto.
  - apply reads_back_seq. inversion Hw; subst. rewrite !Forall_forall in *. eauto.
  - inversion Hw; subst. apply reads_back_dict; [done|]. rewrite !Forall_forall in *. eauto.
Qed.

(** ** The decoder terminates, stays inside the input and fails only in its own ways *)

Definition all_bytes (data : list Z) : Prop := Forall (fun b => 0 <= b < 256) data.

(** The exceptions the decoder raises. *)
Definition decode_error (e : pyerr) : Prop :=
  match e with
  | CborDecodeError _ | UnicodeError _ => True
  | TypeError m => m = "unhashable type"%string
  | _ => False
  end.

Definition decodes_within (data : list Z) (o : Z) (r : result (pyval * Z)) : Prop :=
  match r with
  | Ok (v, o') => o < o' <= dlen data /\ pywf v
  | Raise e => decode_error e
  end.

Lemma foldl_be_nonneg l acc : all_bytes l -> 0 <= acc -> 0 <= foldl (fun acc b => acc * 256 + b) acc l.
Proof. intros H. revert acc. induction H; intros acc Ha; cbn; [done|]. apply IHForall. lia. Qed.

Lemma from_be_nonneg l : all_bytes l -> 0 <= from_be l.
Proof. intros H. by apply foldl_be_nonneg. Qed.

Lemma slice_bytes data a b : all_bytes data -> all_bytes (slice data a b).
Proof. intros H. apply Forall_take. by apply Forall_drop. Qed.

Lemma read_arg_within data o x :
  all_bytes data -> 0 <= o <= dlen data -> 0 <= x ->
  match cbor_read_arg data o x with
  | Ok (v, o') => o <= o' <= dlen data /\ 0 <= v
  | Raise e => decode_error e
  end.
Proof.
  intros Hb Ho Hx. unfold cbor_read_arg.
  repeat match goal with
    | |- context [if ?c then _ else _] => destruct c eqn:?; cbn [rbind]
    end; bool_prop; try done; try (split; [lia|]); try lia; by apply from_be_nonneg, slice_bytes.
Qed.

Section Within.
Context (data : list Z) (Hbytes : all_bytes data) (dec : Z -> result (pyval * Z)) (fuel : Z)
  (Hdec : forall o, 0 <= o <= dlen data -> dlen data - o < fuel ->
          decodes_within data o (dec o)).

Lemma read_items_within k n o acc :
  0 <= o <= dlen data -> dlen data - o < Z.of_nat k -> dlen data - o < fuel ->
  Forall pywf acc ->
  match read_items dec k n o acc with
  | Ok (l, o') => o <= o' <= dlen data /\ Forall pywf l
  | Raise e => decode_error e
  end.
Proof.
  revert n o acc. induction k as [|k IH]; intros n o acc Ho Hk Hf Hacc; [lia|]. cbn.
  destruct (n <=? 0); [split; [lia|done]|].
  pose proof (Hdec o Ho Hf) as H. destruct (dec o) as [[v o1]|e]; cbn; [|done].
  destruct H as [H1 Hv]. specialize (IH (n - 1) o1 (acc ++ [v])).
  destruct (read_items dec k (n - 1) o1 (acc ++ [v])) as [[l o2]|e];
    [destruct IH as [? ?]; try lia; [apply Forall_app; auto|split; [lia|done]]|].
  apply IH; try lia. apply Forall_app. auto.
Qed.

Lemma read_pairs_within k n o acc :
  0 <= o <= dlen data -> dlen data - o < Z.of_nat k -> dlen data - o < fuel ->
  dwf acc -> Forall (fun kv => pywf kv.2) acc ->
  match read_pairs dec k n o acc with
  | Ok (d, o') => o <= o' <= dlen data /\ dwf d /\ Forall (fun kv => pywf kv.2) d
  | Raise e => decode_error e
  end.
Proof.
  revert n o acc. induction k as [|k IH]; intros n o acc Ho Hk Hf Hd Hacc; [lia|]. cbn.
  destruct (n <=? 0); [split; [lia|done]|].
  pose proof (Hdec o Ho Hf) as H. destruct (dec o) as [[key o1]|e]; cbn; [|done].
  destruct H as [H1 _].
  assert (0 <= o1 <= dlen data) as Ho1 by lia. assert (dlen data - o1 < fuel) as Hf1 by lia.
  pose proof (Hdec o1 Ho1 Hf1) as H. destruct (dec o1) as [[v o2]|e]; cbn; [|done].
  destruct H as [H2 Hv]. destruct (py_key key) as [k'|e] eqn:Ek; cbn; [|by destruct key; cbn in Ek; simplify_eq].
  pose proof (Forall_dset pywf k' v acc Hv Hacc) as Hacc'.
  specialize (IH (n - 1) o2 (dset k' v acc)).
  destruct (read_pairs dec k (n - 1) o2 (dset k' v acc)) as [[d o3]|e].
  - destruct IH as (? & ? & ?); try lia; auto using dset_wf. split; [lia|done].
  - apply IH; try lia; auto using dset_wf.
Qed.
End Within.

Lemma nth_byte data o : all_bytes data -> 0 <= o < dlen data -> 0 <= nth (Z.to_nat o) data 0 < 256.
Proof.
  intros H Ho. unfold dlen in Ho. apply (proj1 (List.Forall_forall _ _) H). apply nth_In. lia.
Qed.

Lemma decode_at_within f data o :
  all_bytes data -> 0 <= o <= dlen data -> dlen data - o < Z.of_nat f ->
  decodes_within data o (cbor_decode_at f data o).
Proof.
  revert o. induction f as [|f IH]; intros o Hb Ho Hf; [lia|]. cbn [cbor_decode_at].
  destruct (Z.leb_spec (dlen data) o); [done|]. cbv zeta.
  assert (0 <= o < dlen data) as Hlt by lia. pose proof (nth_byte data o Hb Hlt) as Hn.
  revert Hn. generalize (nth (Z.to_nat o) data 0) as b. intros b Hn.
  assert (0 <= Z.land b 31) as Hadd by (apply Z.land_nonneg; lia).
  assert (0 <= o + 1 <= dlen data) as Ho1 by lia.
  pose proof (read_arg_within data (o + 1) (Z.land b 31) Hb Ho1 Hadd) as Harg.
  destruct (Z.shiftr b 5 =? 0);
    [destruct (cbor_read_arg _ _ _) as [[v o1]|e]; cbn; [split; [lia|constructor]|done]|].
  destruct (Z.shiftr b 5 =? 1);
    [destruct (cbor_read_arg _ _ _) as [[v o1]|e]; cbn; [split; [lia|constructor]|done]|].
  destruct (Z.shiftr b 5 =? 3).
  { destruct (cbor_read_arg _ _ _) as [[v o1]|e]; cbn -[dlen]; [|done].
    destruct (Z.ltb_spec (dlen data) (o1 + v)); [done|].
    unfold decode_utf8. destruct (utf8_valid _); cbn; [split; [lia|constructor]|done]. }
  destruct (Z.shiftr b 5 =? 4).
  { destruct (cbor_read_arg _ _ _) as [[v o1]|e]; cbn -[dlen]; [|done].
    pose proof (read_items_within data _ (Z.of_nat f) (fun o H1 H2 => IH o Hb H1 H2) f v o1 []) as Hi.
    destruct (read_items _ f v o1 []) as [[l o2]|e]; cbn.
    - destruct Hi; try lia; auto. split; [lia|]. by constructor.
    - apply Hi; try lia. done. }
  destruct (Z.shiftr b 5 =? 5).
  { destruct (cbor_read_arg _ _ _) as [[v o1]|e]; cbn -[dlen]; [|done].
    pose proof (read_pairs_within data _ (Z.of_nat f) (fun o H1 H2 => IH o Hb H1 H2) f v o1 []) as Hi.
    destruct (read_pairs _ f v o1 []) as [[d o2]|e]; cbn.
    - destruct Hi as (? & ? & ?); try lia; auto; [apply od_nil_wf|]. split; [lia|]. by constructor.
    - apply Hi; try lia; [apply od_nil_wf|done]. }
  destruct (_ && _); cbn; [split; [lia|constructor]|done].
Qed.

(** ** The result does not depend on what follows the value *)

Lemma slice_app data rest a b :
  0 <= a <= dlen data -> b <= dlen data -> slice (data ++ rest) a b = slice data a b.
Proof.
  unfold slice, dlen. intros Ha Hb. rewrite skipn_app, firstn_app, length_skipn.
  replace (Z.to_nat (b - a) - (length data - Z.to_nat a))%nat with 0%nat by lia.
  cbn. apply app_nil_r.
Qed.

Lemma read_arg_app data rest o x v o' :
  0 <= o <= dlen data -> cbor_read_arg data o x = Ok (v, o') ->
  cbor_read_arg (data ++ rest) o x = Ok (v, o').
Proof.
  intros Ho. unfold cbor_read_arg. intros H. destr_match H; [done|].
  destruct (if x =? 24 then _ else _) as [e|e]; cbn [rbind] in *; [|done].
  destruct (Z.ltb_spec (dlen data) e); [done|]. inv_ok.
  rewrite dlen_app. pose proof (dlen_nonneg rest).
  assert ((dlen data + dlen rest <? o') = false) as -> by (apply Z.ltb_ge; lia).
  by rewrite slice_app by lia.
Qed.

Section Local.
Context (lo hi : Z) (dec dec' : Z -> result (pyval * Z))
  (Hloc : forall o v o', lo <= o <= hi -> dec o = Ok (v, o') ->
          dec' o = Ok (v, o') /\ lo <= o' <= hi).

Lemma read_items_app k k' n o acc r :
  lo <= o <= hi -> (k <= k')%nat ->
  read_items dec k n o acc = Ok r -> read_items dec' k' n o acc = Ok r.
Proof.
  revert k' n o acc. induction k as [|k IH]; intros k' n o acc Ho Hk; cbn.
  - destruct k'; cbn; by destruct (n <=? 0).
  - destruct k' as [|k']; [lia|]. cbn. destruct (n <=? 0); [done|]. intros H.
    destruct (dec o) as [[v o1]|e] eqn:E; cbn in H; [|done].
    destruct (Hloc _ _ _ Ho E) as [-> ?]. cbn. apply IH; auto with lia.
Qed.

Lemma read_pairs_app k k' n o acc r :
  lo <= o <= hi -> (k <= k')%nat ->
  read_pairs dec k n o acc = Ok r -> read_pairs dec' k' n o acc = Ok r.
Proof.
  revert k' n o acc. induction k as [|k IH]; intros k' n o acc Ho Hk; cbn.
  - destruct k'; cbn; by destruct (n <=? 0).
  - destruct k' as [|k']; [lia|]. cbn. destruct (n <=? 0); [done|]. intros H.
    destruct (dec o) as [[v o1]|e] eqn:E; cbn in H; [|done].
    destruct (Hloc _ _ _ Ho E) as [-> ?]. cbn.
    destruct (dec o1) as [[v2 o2]|e] eqn:E2; cbn in H; [|done].
    destruct (Hloc o1 v2 o2) as [-> ?]; auto. cbn.
    destruct (py_key v); cbn in *; [|done]. apply IH; auto with lia.
Qed.
End Local.

Lemma decode_at_app f f' data rest o v o' :
  all_bytes data -> 0 <= o <= dlen data -> dlen data - o < Z.of_nat f -> (f <= f')%nat ->
  cbor_decode_at f data o = Ok (v, o') -> cbor_decode_at f' (data ++ rest) o = Ok (v, o').
Proof.
  intros Hb. revert f' o v o'. induction f as [|f IH]; intros f' o v o' Ho Hf Hff H; [done|].
  destruct f' as [|f']; [lia|]. cbn [cbor_decode_at] in H |- *.
  destruct (Z.leb_spec (dlen data) o); [done|]. cbv zeta in H |- *.
  rewrite (proj2 (Z.leb_gt (dlen (data ++ rest)) o))
    by (rewrite dlen_app; pose proof (dlen_nonneg rest); lia).
  rewrite app_nth1 by (unfold dlen in *; lia).
  assert (0 <= o < dlen data) as Hlt by lia. pose proof (nth_byte data o Hb Hlt) as Hn.
  revert H Hn. generalize (nth (Z.to_nat o) data 0) as b. intros b H Hn.
  assert (0 <= Z.land b 31) as Hadd by (apply Z.land_nonneg; lia).
  assert (0 <= o + 1 <= dlen data) as Ho1 by lia.
  pose proof (read_arg_within data (o + 1) (Z.land b 31) Hb Ho1 Hadd) as Harg.
  pose proof (fun v o' => read_arg_app data rest (o + 1) (Z.land b 31) v o' Ho1) as Happ.
  destruct (cbor_read_arg data (o + 1) (Z.land b 31)) as [[n o1]|e] eqn:Er.
  2: { cbn [rbind] in H.
       repeat (match type of H with (if ?c then _ else _) = _ => destruct c end; try done). }
  rewrite (Happ n o1 eq_refl). cbn -[dlen] in H |- *.
  destruct (Z.shiftr b 5 =? 0); [done|]. destruct (Z.shiftr b 5 =? 1); [done|].
  assert (forall o v o', o1 <= o <= dlen data -> cbor_decode_at f data o = Ok (v, o') ->
    cbor_decode_at f' (data ++ rest) o = Ok (v, o') /\ o1 <= o' <= dlen data) as Hloc.
  { intros o2 v2 o3 Ho2 H2. split; [apply (IH f' o2 v2 o3); auto; lia|].
    pose proof (decode_at_within f data o2 Hb) as Hw. rewrite H2 in Hw.
    destruct Hw; lia. }
  destruct (Z.shiftr b 5 =? 3).
  { destruct (Z.ltb_spec (dlen data) (o1 + n)); [done|]. rewrite dlen_app.
    pose proof (dlen_nonneg rest).
    rewrite (proj2 (Z.ltb_ge (dlen data + dlen rest) (o1 + n))) by lia.
    rewrite slice_app by lia. done. }
  destruct (Z.shiftr b 5 =? 4).
  { destruct (read_items (cbor_decode_at f data) f n o1 []) as [[l o2]|e] eqn:E; cbn in H; [|done].
    by rewrite (read_items_app o1 (dlen data) _ _ Hloc f f' n o1 [] _ ltac:(lia) ltac:(lia) E). }
  destruct (Z.shiftr b 5 =? 5); [|done].
  destruct (read_pairs (cbor_decode_at f data) f n o1 []) as [[d o2]|e] eqn:E; cbn in H; [|done].
  by rewrite (read_pairs_app o1 (dlen data) _ _ Hloc f f' n o1 [] _ ltac:(lia) ltac:(lia) E).
Qed.

(** ** What the encoder accepts *)

Definition fits (n : Z) : bool := n <? 2 ^ 64.

Definition encodable_str (s : string) : bool :=
  utf8_valid (bytes_of_string s) && fits (dlen (bytes_of_string s)).

Definition encodable_int (z : Z) : bool := (- 2 ^ 64 <=? z) && fits z.

Definition encodable_key (k : pykey) : bool :=
  match k with KStr s => encodable_str s | KInt z => encodable_int z | KBool _ => true end.

(** The values [cbor_encode] accepts: no [None], no floats, integers between
    [-2^64] and [2^64 - 1], text without lone surrogates, dict keys of one kind. *)
Fixpoint encodable (v : pyval) : bool :=
  match v with
  | VNone | VFloat _ => false
  | VBool _ => true
  | VInt z => encodable_int z
  | VStr s => encodable_str s
  | VList l | VTuple l => fits (Z.of_nat (length l)) && forallb encodable l
  | VDict d =>
      sortable (map fst d) && fits (Z.of_nat (length d))
      && forallb (fun kv => match kv with (k, x) => encodable_key k && encodable x end) d
  end.

Lemma encode_uint_ok m v : 0 <= v -> is_ok (cbor_encode_uint m v) = fits v.
Proof.
  intros Hv. unfold cbor_encode_uint, fits. rewrite (proj2 (Z.ltb_ge v 0)) by lia.
  repeat match goal with |- context [if ?c then _ else _] => destruct c eqn:? end; bool_prop;
    cbn; try done; symmetry; apply Z.ltb_lt; lia.
Qed.

Lemma encode_int_ok z : is_ok (cbor_encode_int z) = encodable_int z.
Proof.
  unfold cbor_encode_int, encodable_int. destruct (Z.leb_spec 0 z).
  - rewrite encode_uint_ok by lia. rewrite (proj2 (Z.leb_le _ z)) by lia. done.
  - rewrite encode_uint_ok by lia. unfold fits. rewrite (proj2 (Z.ltb_lt z _)) by lia.
    rewrite andb_true_r. apply eq_true_iff_eq. rewrite Z.ltb_lt, Z.leb_le. lia.
Qed.

Lemma encode_str_ok s : is_ok (cbor_encode_str s) = encodable_str s.
Proof.
  unfold cbor_encode_str, encodable_str, encode_utf8.
  destruct (utf8_valid _); cbn -[cbor_encode_uint]; [|done].
  rewrite <- (encode_uint_ok 3) by apply dlen_nonneg. unfold dlen.
  by destruct (cbor_encode_uint 3 _).
Qed.

Lemma encode_key_ok k : is_ok (cbor_encode_key k) = encodable_key k.
Proof. destruct k; cbn; auto using encode_str_ok, encode_int_ok. Qed.

Lemma is_ok_rbind {A B} (m : result A) (k : A -> result B) (b : bool) :
  (forall a, m = Ok a -> is_ok (k a) = b) -> is_ok (rbind m k) = is_ok m && b.
Proof. destruct m; cbn; auto. Qed.

Lemma is_ok_sequence {A} (l : list (result A)) : is_ok (sequence l) = forallb is_ok l.
Proof.
  induction l as [|r l IH]; cbn; [done|]. destruct r; cbn; [|done].
  rewrite <- IH. by destruct (sequence l).
Qed.

Lemma is_ok_encode_items ds :
  is_ok (encode_items ds) = forallb (fun kv => encodable_key kv.1 && is_ok kv.2) ds.
Proof.
  induction ds as [|[k r] ds IH]; cbn; [done|]. rewrite <- encode_key_ok, <- IH.
  destruct (cbor_encode_key k); cbn; [|done]. destruct r; cbn; [|done].
  by destruct (encode_items ds).
Qed.

Lemma forallb_perm {A} (f : A -> bool) l l' : l ≡ₚ l' -> forallb f l = forallb f l'.
Proof.
  induction 1 as [|x l l' _ IH|x y l|l l' l'' _ IH1 _ IH2]; cbn; [done|by rewrite IH| |by rewrite IH1].
  by destruct (f x), (f y).
Qed.

Lemma forallb_map' {A B} (f : A -> B) (p : B -> bool) l : forallb p (map f l) = forallb (p ∘ f) l.
Proof. induction l as [|x l IH]; cbn; [done|]. by rewrite IH. Qed.

Lemma forallb_ext_Forall {A} (f g : A -> bool) l :
  Forall (fun x => f x = g x) l -> forallb f l = forallb g l.
Proof. induction 1 as [|x l H _ IH]; cbn; [done|]. by rewrite H, IH. Qed.

Lemma encode_seq_ok l :
  Forall (fun v => is_ok (cbor_encode v) = encodable v) l ->
  is_ok (cbor_encode (VList l)) = encodable (VList l).
Proof.
  intros IH. cbn -[cbor_encode_uint]. rewrite (is_ok_rbind _ _ (forallb encodable l)).
  - by rewrite encode_uint_ok by lia.
  - intros h _. transitivity (is_ok (sequence (map cbor_encode l))).
    { by destruct (sequence _). }
    rewrite is_ok_sequence, forallb_map'. by apply forallb_ext_Forall.
Qed.

Lemma encode_dict_ok d :
  Forall (fun kv => is_ok (cbor_encode kv.2) = encodable kv.2) d ->
  is_ok (cbor_encode (VDict d)) = encodable (VDict d).
Proof.
  intros IH. rewrite encode_dict_eq. cbn -[cbor_encode_uint sortable].
  destruct (sortable (map fst d)); [|done].
  rewrite (is_ok_rbind _ _ (forallb (fun kv => encodable_key kv.1 && encodable kv.2) d)).
  - rewrite encode_uint_ok by lia. cbn. f_equal. apply forallb_ext_Forall.
    apply Forall_forall. by intros [].
  - intros h _. transitivity (is_ok (encode_items (map encode_item (py_sorted item_leb d)))).
    { by destruct (encode_items _). }
    rewrite is_ok_encode_items, forallb_map', (forallb_perm _ _ _ (py_sorted_perm _ _)).
    apply forallb_ext_Forall. eapply Forall_impl; [exact IH|]. intros [k x] Hx. cbn in *. by rewrite Hx.
Qed.

Lemma encode_ok_encodable v : is_ok (cbor_encode v) = encodable v.
Proof.
  induction v using pyval_nested_ind; [done|done|..].
  - exact (encode_int_ok z).
  - done.
  - exact (encode_str_ok s).
  - by apply encode_seq_ok.
  - exact (encode_seq_ok l H).
  - by apply encode_dict_ok.
Qed.

Lemma encode_uint_bytes m v h : 0 <= m < 8 -> cbor_encode_uint m v = Ok h -> all_bytes h.
Proof.
  unfold cbor_encode_uint. intros Hm H.
  repeat (destr_match H; [try discriminate|]); bool_prop; inv_ok; rewrite header_value by lia;
    (constructor; [lia|]); auto using be_bytes_range; repeat constructor; lia.
Qed.

Lemma encode_key_bytes k kb : cbor_encode_key k = Ok kb -> all_bytes kb.
Proof.
  destruct k as [s|z|b]; cbn.
  - unfold cbor_encode_str, encode_utf8. intros H. inv_ok. destr_match E; inv_ok.
    apply Forall_app. split; [by eapply encode_uint_bytes; [|eassumption]|apply bytes_of_string_range].
  - unfold cbor_encode_int. intros H. destr_match H; by eapply encode_uint_bytes; [|eassumption].
  - unfold cbor_encode_bool. intros H. inv_ok. constructor; [destruct b; lia|done].
Qed.

Lemma encode_seq_bytes l bs :
  Forall (fun v => forall bs, cbor_encode v = Ok bs -> all_bytes bs) l ->
  cbor_encode (VList l) = Ok bs -> all_bytes bs.
Proof.
  intros IH H. cbn -[cbor_encode_uint] in H. inv_ok. apply Forall_app.
  split; [by eapply encode_uint_bytes; [|eassumption]|].
  change (sequence (map cbor_encode l)) with (rmap cbor_encode l) in E0.
  apply rmap_ok_Forall2 in E0. clear E. induction E0; inversion IH; subst; cbn; [done|].
  apply Forall_app. split; [by apply H2|by apply IHE0].
Qed.

Lemma encode_bytes v bs : cbor_encode v = Ok bs -> all_bytes bs.
Proof.
  revert bs. induction v using pyval_nested_ind; intros bs H0; try discriminate H0.
  - by apply (encode_key_bytes (KBool b)).
  - by apply (encode_key_bytes (KInt z)).
  - by apply (encode_key_bytes (KStr s)).
  - by eapply encode_seq_bytes.
  - by eapply encode_seq_bytes.
  - apply encode_dict in H0 as (h & body & Hh & Hb & ->).
    apply Forall_app. split; [by eapply encode_uint_bytes; [|eassumption]|].
    apply encode_items_ok in Hb as (parts & Hp & ->).
    assert (Forall (fun kv => forall bs, cbor_encode kv.2 = Ok bs -> all_bytes bs) (py_sorted item_leb d)) as IH
      by (by rewrite py_sorted_perm).
    clear H Hh. induction Hp as [|kv b ds ps Hkv _ IHp]; cbn; [done|].
    apply Forall_cons in IH as [H1 H2]. destruct Hkv as (kb & vb & Hk & Hv & ->).
    apply Forall_app. split; [|by apply IHp]. apply Forall_app.
    split; [by eapply encode_key_bytes|by apply H1].
Qed.

(** ** Properties *)

(** C1: decoding what [cbor_encode] produced returns the value, with tuples as
    lists and every dict in key order. *)
Theorem cbor_roundtrip v bs :
  pywf v -> cbor_encode v = Ok bs -> cbor_decode bs = Ok (cbor_norm v).
Proof.
  intros Hw H. unfold cbor_decode, decode_fuel.
  rewrite (reads_back_all v Hw bs H _ bs 0 (at_offset_all bs)) by lia.
  cbn [rbind]. by rewrite Z.add_0_l, Z.eqb_refl.
Qed.

(** C32: on every byte string the decoder terminates within its fuel; it either
    returns a value whose dicts have distinct keys or raises one of its
    documented exceptions. *)
Theorem cbor_decode_total data :
  all_bytes data ->
  (exists v, cbor_decode data = Ok v /\ pywf v) \/
  (exists e, cbor_decode data = Raise e /\ decode_error e).
Proof.
  intros Hb. unfold cbor_decode, decode_fuel.
  pose proof (decode_at_within (S (length data)) data 0 Hb) as H.
  destruct (cbor_decode_at _ data 0) as [[v o]|e]; cbn [rbind].
  - destruct H as [Ho Hv]; [unfold dlen; lia..|].
    destruct (o =? dlen data); [by left; exists v|]. right. eexists. split; [done|]. done.
  - right. exists e. split; [done|]. apply H; unfold dlen; lia.
Qed.

(** C33: an encoding cut short at any point, even inside a nested value, is
    rejected with a decoding exception: no encoding is a prefix of another. *)
Theorem cbor_truncated v p rest :
  pywf v -> cbor_encode v = Ok (p ++ rest) -> rest <> [] ->
  exists e, cbor_decode p = Raise e /\ decode_error e.
Proof.
  intros Hw H Hr. pose proof (encode_bytes _ _ H) as Hb. apply Forall_app in Hb as [Hb _].
  assert (Hin : 0 <= 0 <= dlen p /\ dlen p - 0 < Z.of_nat (S (length p))) by (unfold dlen; lia).
  pose proof (decode_at_within (S (length p)) p 0 Hb) as Hwi.
  pose proof (reads_back_all v Hw _ H (S (length (p ++ rest))) _ 0 (at_offset_all _)) as Hrb.
  unfold cbor_decode, decode_fuel.
  destruct (cbor_decode_at (S (length p)) p 0) as [[w o]|e] eqn:E; cbn [rbind].
  - apply (decode_at_app _ (S (length (p ++ rest))) _ rest) in E;
      [|done|lia|lia|rewrite length_app; lia].
    rewrite Hrb in E by lia. simplify_eq. rewrite dlen_app.
    assert ((0 + (dlen p + dlen rest) =? dlen p) = false) as ->.
    { apply Z.eqb_neq. destruct rest; [done|]. unfold dlen. cbn. lia. }
    by eexists.
  - exists e. split; [done|]. apply Hwi; lia.
Qed.

(** The encoder is canonical in the order of dict entries: two dicts with
    the same entries in any insertion order encode to the same bytes. *)
Theorem cbor_encode_order d d' :
  dwf d -> d ≡ₚ d' -> cbor_encode (VDict d) = cbor_encode (VDict d').
Proof.
  intros Hw Hp. rewrite !encode_dict_eq.
  assert (forall f, forallb f (map fst d) = forallb f (map fst d')) as Hf
    by (intros f; by apply forallb_perm, Permutation_map).
  unfold sortable. rewrite !Hf. rewrite (Permutation_length Hp).
  rewrite (py_sorted_unique item_leb item_leb_total item_leb_trans d d'); [done| |done].
  intros x y Hx Hy Lx Ly. eapply od_wf_inj; eauto using item_leb_antisym.
Qed.

(** C40: [cbor_encode] succeeds exactly on the encodable values: no [None] or
    float anywhere, integers in [-2^64, 2^64), valid text, dicts whose keys are
    all text or all numeric. *)
Theorem cbor_encode_domain v : (exists bs, cbor_encode v = Ok bs) <-> encodable v = true.
Proof.
  rewrite <- encode_ok_encodable. destruct (cbor_encode v) as [bs|e]; cbn.
  - split; [done|]. by exists bs.
  - split; [by intros [bs ?]|done].
Qed.

(** ** Witnesses *)

Ltac closed_dwf := unfold dwf, od_wf; apply (bool_decide_unpack _); vm_compute; exact I.
Ltac closed_pywf := repeat first [closed_dwf | constructor].

Definition sample_value : pyval :=
  VDict (dict_of [("b", VTuple [VInt 500; VBool true; VStr "ok"]); ("a", VInt (-1))]).
Definition sample_bytes : list Z :=
  [162; 97; 97; 32; 97; 98; 131; 25; 1; 244; 245; 98; 111; 107].

Lemma cbor_roundtrip_witness :
  pywf sample_value /\ cbor_encode sample_value = Ok sample_bytes /\
  cbor_decode sample_bytes = Ok (cbor_norm sample_value).
Proof.
  assert (pywf sample_value) as Hw by closed_pywf.
  split; [exact Hw|]. split; [vm_compute; reflexivity|].
  apply (cbor_roundtrip sample_value); [exact Hw|vm_compute; reflexivity].
Defined.

Lemma cbor_decode_total_witness :
  all_bytes [161; 97; 255] /\
  ((exists v, cbor_decode [161; 97; 255] = Ok v /\ pywf v) \/
   (exists e, cbor_decode [161; 97; 255] = Raise e /\ decode_error e)).
Proof.
  assert (all_bytes [161; 97; 255]) as Hb by (repeat constructor; lia).
  split; [exact Hb|]. exact (cbor_decode_total _ Hb).
Defined.

Lemma cbor_truncated_witness :
  exists e, cbor_decode (take 9 sample_bytes) = Raise e /\ decode_error e.
Proof.
  apply (cbor_truncated sample_value _ (drop 9 sample_bytes)); [closed_pywf|vm_compute; reflexivity|discriminate].
Defined.

Lemma cbor_encode_order_witness :
  cbor_encode (VDict (dict_of [("b", VInt 1); ("a", VInt 2)]))
  = cbor_encode (VDict (dict_of [("a", VInt 2); ("b", VInt 1)])).
Proof.
  apply (cbor_encode_order (dict_of [("b", VInt 1); ("a", VInt 2)])); [closed_dwf|].
  constructor.
Defined.
