(* ===== verification/Protocol.v ===== *)
(** * Wire messages and routes ([neuro_cli/src/neuro_protocol.py])

    The key and message-kind tables, the logical/wire translation of payloads,
    the routes and their message kinds, and the request metadata with its
    validation.  [uuid4().hex[:12]] is an input of the builders. *)

From Stdlib Require Import ZArith Lia Bool List Ascii String.
From Stdlib.Floats Require Import SpecFloat.
From stdpp Require Import base list option sets strings sorting.
From S2P Require Import Prelude PyFloat Text PyValue CborCodec.

Open Scope Z_scope.

(** ** Tables *)

Definition CBOR_V2_MESSAGE_KINDS : list (string * Z) :=
  [("query_request", 1); ("lease_acquire_request", 2); ("lease_release_request", 3);
   ("app_command_request", 4); ("callback_config_request", 5); ("update_prepare_request", 6);
   ("update_verify_request", 7); ("update_activate_request", 8);
   ("update_rollback_request", 9); ("update_delete_request", 10); ("error_reply", 20);
   ("lease_reply", 21); ("query_device_reply", 22); ("query_apps_reply", 23);
   ("query_leases_reply", 24); ("update_prepare_reply", 25); ("update_verify_reply", 26);
   ("update_activate_reply", 27); ("update_rollback_reply", 28); ("app_command_reply", 29);
   ("callback_event", 40); ("update_event", 41); ("state_event", 42);
   ("lease_event", 43)]%string.

Definition CBOR_V2_KEYS : list (string * Z) :=
  [("schema_version", 0); ("message_kind", 1); ("status", 2); ("request_id", 3);
   ("node_id", 4); ("source_core", 5); ("source_agent", 6); ("target_node", 7);
   ("timeout_ms", 8); ("priority", 9); ("idempotency_key", 10); ("lease_id", 11);
   ("forwarded", 12); ("status_code", 20); ("message", 21); ("resource", 30);
   ("expires_at_ms", 31); ("ttl_ms", 32); ("board", 40); ("zenoh_mode", 41);
   ("session_ready", 42); ("network_state", 43); ("ipv4", 44); ("app_id", 50);
   ("command", 51); ("args", 52); ("start_args", 53); ("reason", 54); ("path", 55);
   ("transport", 56); ("artifact_key", 57); ("size", 58); ("chunk_size", 59);
   ("app_count", 60); ("running_count", 61); ("suspended_count", 62); ("apps", 63);
   ("runtime_state", 64); ("manifest_present", 65); ("update_state", 66);
   ("artifact_state", 67); ("stable_ref", 68); ("last_error", 69); ("rollback_reason", 70);
   ("leases", 71); ("callback_enabled", 80); ("trigger_every", 81); ("event_name", 82);
   ("invoke_count", 83); ("start_count", 84); ("config_changed", 85); ("publish_ret", 86);
   ("echo", 87); ("stage", 90); ("detail", 91); ("state_version", 92); ("action", 93)]%string.

Definition assoc_s {V} (k : string) (l : list (string * V)) : option V := od_get (fun s => s) k l.
Definition assoc_z {V} (k : Z) (l : list (Z * V)) : option V := od_get (fun z => z) k l.

Definition CBOR_V2_KEY_NAMES : list (Z * string) :=
  od_update (fun z => z) [] (map (fun kv => (kv.2, kv.1)) CBOR_V2_KEYS).

Definition CBOR_V2_MESSAGE_KIND_NAMES : list (Z * string) :=
  od_update (fun z => z) [] (map (fun kv => (kv.2, kv.1)) CBOR_V2_MESSAGE_KINDS).

(** ** Wire map to logical names and back *)

(** [CBOR_V2_KEY_NAMES.get(key, key)] *)
Definition key_name (k : pykey) : pykey :=
  match key_norm k with
  | inr z => match assoc_z z CBOR_V2_KEY_NAMES with Some s => KStr s | None => k end
  | inl _ => k
  end.

Arguments key_name : simpl never.

(** [isinstance(item, int)]: booleans are ints. *)
Definition as_int (v : pyval) : option Z :=
  match v with VInt z => Some z | VBool b => Some (Z.b2z b) | _ => None end.

Definition message_kind_name (item : pyval) : option pyval :=
  match as_int item with
  | Some z => Some (match assoc_z z CBOR_V2_MESSAGE_KIND_NAMES with Some s => VStr s | None => item end)
  | None => None
  end.

Fixpoint cbor_map_to_logical (value : pyval) : pyval :=
  match value with
  | VDict d =>
      VDict (dupdate [] (map (fun kv => match kv with (k, item) =>
        let name := key_name k in
        (name,
         match (if bool_decide (name = KStr "message_kind") then message_kind_name item else None) with
         | Some v => v
         | None =>
             match item with
             | VDict _ => cbor_map_to_logical item
             | VList l =>
                 VList (map (fun entry => match entry with
                                          | VDict _ => cbor_map_to_logical entry
                                          | _ => entry end) l)
             | _ => item
             end
         end) end) d))
  | _ => value
  end.

Definition set_wire_key (result : dict) (name : pykey) (value : pyval) : dict :=
  match name with
  | KStr s => match assoc_s s CBOR_V2_KEYS with
              | Some key => dset (KInt key) value result
              | None => result
              end
  | _ => result
  end.

Definition logical_to_cbor_map (payload : dict) (message_kind : string) : result dict :=
  match assoc_s message_kind CBOR_V2_MESSAGE_KINDS with
  | None => Raise (KeyError message_kind)
  | Some kind =>
      Ok (foldl (fun result '(name, value) => set_wire_key result name value)
                [(KInt 0, VInt 2); (KInt 1, VInt kind)] payload)
  end.

Definition encode_payload_cbor (payload : dict) (message_kind : string) : result (list Z) :=
  let! m := logical_to_cbor_map payload message_kind in cbor_encode (VDict m).

Definition decode_payload_cbor (data : list Z) : result pyval :=
  let! decoded := cbor_decode data in
  if is_dict decoded then Ok (cbor_map_to_logical decoded)
  else Raise (CborDecodeError "CBOR payload root must be a map").

(** ** Routes *)

Definition query_route (node kind : string) : string := "neuro/" +:+ node +:+ "/query/" +:+ kind.
Definition lease_route (node action : string) : string := "neuro/" +:+ node +:+ "/cmd/lease/" +:+ action.
Definition app_command_route (node app_id command : string) : string :=
  "neuro/" +:+ node +:+ "/cmd/app/" +:+ app_id +:+ "/" +:+ command.
Definition update_route (node app_id stage : string) : string :=
  "neuro/" +:+ node +:+ "/update/app/" +:+ app_id +:+ "/" +:+ stage.
Definition event_subscription_route (node : string) : string := "neuro/" +:+ node +:+ "/event/**".
Definition app_event_subscription_route (node app_id : string) : string :=
  "neuro/" +:+ node +:+ "/event/app/" +:+ app_id +:+ "/**".
Definition artifact_route (node app_id : string) : string := "neuro/artifact/" +:+ node +:+ "/" +:+ app_id.

Definition update_kinds : list (string * string) :=
  [("prepare", "update_prepare_request"); ("verify", "update_verify_request");
   ("activate", "update_activate_request"); ("rollback", "update_rollback_request");
   ("delete", "update_delete_request")]%string.

Definition callback_config_fields : list string := ["callback_enabled"; "trigger_every"; "event_name"]%string.

Definition nth_part (n : nat) (parts : list string) : string := nth n parts "".
Definition parts_are (a b : string) (parts : list string) : bool :=
  String.eqb (nth_part 2 parts) a && String.eqb (nth_part 3 parts) b.

Definition message_kind_for_keyexpr (keyexpr : string) (payload : option dict) : result string :=
  let parts := split_on "/"%char keyexpr in
  let n := length parts in
  let unsupported := Raise (ValueError ("unsupported CBOR route: " +:+ keyexpr)) in
  let update_step :=
    if (6 <=? n)%nat && parts_are "update" "app" parts then
      match assoc_s (nth_part 5 parts) update_kinds with
      | Some kind => Ok kind
      | None => unsupported
      end
    else unsupported in
  let app_step :=
    if (5 <=? n)%nat && parts_are "cmd" "app" parts then
      if String.eqb (List.last parts "") "invoke" &&
         match payload with
         | Some p => existsb (fun f => dmem (KStr f) p) callback_config_fields
         | None => false
         end
      then Ok "callback_config_request"
      else Ok "app_command_request"
    else update_step in
  if (4 <=? n)%nat && String.eqb (nth_part 2 parts) "query" then Ok "query_request"
  else if (5 <=? n)%nat && parts_are "cmd" "lease" parts then
    if String.eqb (nth_part 4 parts) "acquire" then Ok "lease_acquire_request"
    else if String.eqb (nth_part 4 parts) "release" then Ok "lease_release_request"
    else app_step
  else app_step.

Definition encode_query_payload (keyexpr : string) (payload : dict) : result (list Z) :=
  let! kind := message_kind_for_keyexpr keyexpr (Some payload) in
  encode_payload_cbor payload kind.

(** ** Request metadata *)

Definition common_fields : list string :=
  ["request_id"; "source_core"; "source_agent"; "target_node"; "timeout_ms"]%string.

(** [payload[field] in ("", None, 0)] *)
Definition blank (v : pyval) : bool := eq_str v "" || is_none v || eq_int v 0.

Fixpoint check_common (fields : list string) (payload : dict) : result unit :=
  match fields with
  | [] => Ok tt
  | f :: rest =>
      match dget f payload with
      | None => Raise (ValueError ("missing required common metadata: " +:+ f))
      | Some v => if blank v then Raise (ValueError ("missing required common metadata: " +:+ f))
                  else check_common rest payload
      end
  end.

Definition validate_payload (payload : dict) (mode : string) : result unit :=
  let! _ := check_common common_fields payload in
  let! _ :=
    (if String.eqb mode "write" || String.eqb mode "protected" then
       if is_none (dgetn "priority" payload)
       then Raise (ValueError "missing required write metadata: priority")
       else if negb (py_truthy (dget_or "idempotency_key" (VStr "") payload))
       then Raise (ValueError "missing required write metadata: idempotency_key")
       else Ok tt
     else Ok tt) in
  if String.eqb mode "protected" && negb (py_truthy (dget_or "lease_id" (VStr "") payload))
  then Raise (ValueError "missing required protected metadata: lease_id")
  else Ok tt.

(** The parsed command line the builders read ([argparse.Namespace]). *)
Record args := {
  a_request_id : string;
  a_source_core : string;
  a_source_agent : string;
  a_node : string;
  a_timeout : spec_float;
  a_priority : Z;
  a_idempotency_key : string;
  a_lease_id : string;
  a_mode : string;
  a_trigger_every : Z;
  a_event_name : string;
}.

Definition make_request_id (hex : string) : string := "req-" +:+ hex.
Definition make_idempotency_key (hex : string) : string := "idem-" +:+ hex.

Definition base_payload (hex : string) (a : args) : result dict :=
  let request_id := if String.eqb (a_request_id a) "" then make_request_id hex else a_request_id a in
  let! timeout_ms := ftrunc (fmul (a_timeout a) (flit 1000 0)) in
  Ok (dict_of [("request_id", VStr request_id); ("source_core", VStr (a_source_core a));
               ("source_agent", VStr (a_source_agent a)); ("target_node", VStr (a_node a));
               ("timeout_ms", VInt timeout_ms)]).

Definition write_payload (hex hex2 : string) (a : args) : result dict :=
  let! payload := base_payload hex a in
  let payload := dset "priority" (VInt (a_priority a)) payload in
  Ok (dset "idempotency_key"
        (VStr (if String.eqb (a_idempotency_key a) "" then make_idempotency_key hex2
               else a_idempotency_key a)) payload).

Definition protected_write_payload (hex hex2 : string) (a : args) : result dict :=
  let! payload := write_payload hex hex2 a in
  Ok (dset "lease_id" (VStr (a_lease_id a)) payload).

Definition build_app_callback_config_payload (hex hex2 : string) (a : args) (enabled : option bool)
    : result dict :=
  let! payload := protected_write_payload hex hex2 a in
  let callback_enabled := match enabled with None => String.eqb (a_mode a) "on" | Some b => b end in
  let payload := dset "callback_enabled" (VBool callback_enabled) payload in
  let payload := dset "trigger_every" (VInt (Z.max 0 (a_trigger_every a))) payload in
  Ok (dset "event_name" (VStr (a_event_name a)) payload).

(** ** Facts about the tables *)

Definition wire_keys : list pykey := map (fun kv => KInt kv.2) CBOR_V2_KEYS.

Lemma wire_tables_inverse :
  Forall (fun kv => key_name (KInt kv.2) = KStr kv.1 /\ assoc_s kv.1 CBOR_V2_KEYS = Some kv.2) CBOR_V2_KEYS.
Proof. repeat constructor. Qed.

Lemma message_kinds_inverse :
  Forall (fun kv => assoc_z kv.2 CBOR_V2_MESSAGE_KIND_NAMES = Some kv.1
                    /\ assoc_s kv.1 CBOR_V2_MESSAGE_KINDS = Some kv.2) CBOR_V2_MESSAGE_KINDS.
Proof. repeat constructor. Qed.

Lemma wire_name_key n k : assoc_s n CBOR_V2_KEYS = Some k -> key_name (KInt k) = KStr n.
Proof.
  intros H. destruct (od_get_elem_of _ _ _ _ H) as (n' & <- & Hin).
  pose proof wire_tables_inverse as HF. rewrite Forall_forall in HF. by apply HF in Hin as [? _].
Qed.

Lemma message_kind_inverse kind z :
  assoc_s kind CBOR_V2_MESSAGE_KINDS = Some z -> assoc_z z CBOR_V2_MESSAGE_KIND_NAMES = Some kind.
Proof.
  intros H. destruct (od_get_elem_of _ _ _ _ H) as (n' & <- & Hin).
  pose proof message_kinds_inverse as HF. rewrite Forall_forall in HF. by apply HF in Hin as [? _].
Qed.

(** ** The wire map of a payload *)

(** What a payload entry means on the wire: the payload's value, or the header's. *)
Definition wire_value (payload : dict) (kind : Z) (n : string) : option pyval :=
  match dget n payload with
  | Some v => Some v
  | None => if String.eqb n "schema_version" then Some (VInt 2)
            else if String.eqb n "message_kind" then Some (VInt kind) else None
  end.

Definition wire_key (k : pykey) : Prop :=
  exists n z, k = KInt z /\ assoc_s n CBOR_V2_KEYS = Some z.

Definition wire_map (m : dict) : Prop := dwf m /\ Forall (fun kv => wire_key kv.1) m.

Lemma Forall_dset_key (Q : pykey -> Prop) k v (d : dict) :
  Q k -> Forall (fun kv => Q kv.1) d -> Forall (fun kv => Q kv.1) (dset k v d).
Proof.
  intros Hk. unfold dset. induction 1 as [|[k1 v1] d H1 Hd IH]; cbn.
  - by constructor.
  - case_decide; by constructor.
Qed.

Lemma set_wire_key_map result name v : wire_map result -> wire_map (set_wire_key result name v).
Proof.
  intros [Hw Hf]. unfold set_wire_key.
  destruct name as [s| |]; [|done..]. destruct (assoc_s s CBOR_V2_KEYS) as [z|] eqn:E; [|done].
  split; [by apply dset_wf|]. apply Forall_dset_key; [|done]. by exists s, z.
Qed.

Lemma wire_keys_inj n n' z : assoc_s n CBOR_V2_KEYS = Some z -> assoc_s n' CBOR_V2_KEYS = Some z -> n = n'.
Proof. intros H%wire_name_key H'%wire_name_key. congruence. Qed.

Lemma dget_set_wire_key result name v n z :
  assoc_s n CBOR_V2_KEYS = Some z ->
  dget (KInt z) (set_wire_key result name v) =
  if bool_decide (name = KStr n) then Some v else dget (KInt z) result.
Proof.
  intros Hz. unfold set_wire_key. destruct name as [s| |]; [|done..].
  destruct (assoc_s s CBOR_V2_KEYS) as [z'|] eqn:E; case_bool_decide as Hn; simplify_eq; [| |done].
  - apply dget_dset_eq.
  - apply dget_dset_ne. cbn. intros [= ->]. apply Hn. f_equal. by eapply wire_keys_inj.
Qed.

Lemma fold_wire_keys payload result :
  dwf payload -> wire_map result -> forall m,
  foldl (fun result '(name, value) => set_wire_key result name value) result payload = m ->
  wire_map m /\
  forall n z, assoc_s n CBOR_V2_KEYS = Some z ->
    dget (KInt z) m = match dget n payload with Some v => Some v | None => dget (KInt z) result end.
Proof.
  unfold dwf, od_wf. revert result.
  induction payload as [|[k v] payload IH]; intros result Hw Hm m Hfold; cbn in *; [by subst|].
  apply NoDup_cons in Hw as [Hk Hw].
  destruct (IH _ Hw (set_wire_key_map _ k v Hm) m Hfold) as [Hm' Hg]. split; [done|].
  intros n z Hz. rewrite (Hg n z Hz). rewrite (dget_set_wire_key _ _ _ n z Hz).
  unfold dget at 2. cbn. case_bool_decide as Hn.
  - subst k. rewrite decide_True by done.
    by rewrite (proj2 (od_get_None key_norm (KStr n) payload) Hk : dget n payload = None).
  - rewrite decide_False; [done|]. intros E. apply Hn. by apply key_norm_str.
Qed.

Lemma wire_map_spec payload message_kind m :
  dwf payload -> logical_to_cbor_map payload message_kind = Ok m ->
  exists kind, assoc_s message_kind CBOR_V2_MESSAGE_KINDS = Some kind /\ wire_map m /\
  forall n z, assoc_s n CBOR_V2_KEYS = Some z -> dget (KInt z) m = wire_value payload kind n.
Proof.
  unfold logical_to_cbor_map. intros Hw H.
  destruct (assoc_s message_kind CBOR_V2_MESSAGE_KINDS) as [kind|] eqn:Ek; [|done].
  inv_ok. exists kind. split; [done|].
  assert (wire_map [(KInt 0, VInt 2); (KInt 1, VInt kind)]) as H0.
  { split.
    - apply (dset_wf (KInt 1) (VInt kind) [(KInt 0, VInt 2)]). apply (dset_wf _ _ []), od_nil_wf.
    - apply Forall_cons. split; [by exists "schema_version", 0|].
      apply Forall_cons. split; [by exists "message_kind", 1|constructor]. }
  destruct (fold_wire_keys payload _ Hw H0 _ eq_refl) as [Hm Hg]. split; [done|].
  intros n z Hz. rewrite (Hg n z Hz). unfold wire_value. destruct (dget n payload); [done|].
  destruct (String.eqb_spec n "schema_version") as [->|H1]; [vm_compute in Hz; by simplify_eq|].
  destruct (String.eqb_spec n "message_kind") as [->|H2]; [vm_compute in Hz; by simplify_eq|].
  unfold dget. cbn. rewrite !decide_False; [done|..]; cbn; intros [= <-].
  - by apply H2, (wire_keys_inj _ _ 1).
  - by apply H1, (wire_keys_inj _ _ 0).
Qed.

(** ** Message round trip *)

(** [cbor_map_to_logical]'s value for the item of a logical name. *)
Definition logical_item (name : pykey) (item : pyval) : pyval :=
  match (if bool_decide (name = KStr "message_kind") then message_kind_name item else None) with
  | Some v => v
  | None =>
      match item with
      | VDict _ => cbor_map_to_logical item
      | VList l =>
          VList (map (fun entry => match entry with
                                   | VDict _ => cbor_map_to_logical entry
                                   | _ => entry end) l)
      | _ => item
      end
  end.

Definition logical_entry (kv : pykey * pyval) : pykey * pyval :=
  (key_name kv.1, logical_item (key_name kv.1) kv.2).

Lemma cbor_map_to_logical_dict d :
  cbor_map_to_logical (VDict d) = VDict (dupdate [] (map logical_entry d)).
Proof. cbn. do 2 f_equal. apply map_ext. by intros [k v]. Qed.

Lemma wire_map_get m k v :
  wire_map m -> (k, v) ∈ m -> exists n z, k = KInt z /\ assoc_s n CBOR_V2_KEYS = Some z.
Proof. intros [_ Hf] Hin. rewrite Forall_forall in Hf. by apply (Hf _) in Hin. Qed.

Lemma wire_map_dwf_logical m : wire_map m -> dwf (map logical_entry m).
Proof.
  intros [Hw Hf]. unfold dwf, od_wf, od_keys in *. induction m as [|[k v] m IH]; cbn in *; [constructor|].
  apply NoDup_cons in Hw as [Hk Hw]. apply Forall_cons in Hf as [(n & z & Hkz & Hz) Hf]. cbn in Hkz. subst k.
  apply NoDup_cons. split; [|by apply IH].
  rewrite (wire_name_key _ _ Hz). cbn. intros Hin.
  apply list_elem_of_In, in_map_iff in Hin as ([k' v'] & Hk' & Hin).
  apply in_map_iff in Hin as ([k2 v2] & [= <- <-] & Hin). apply list_elem_of_In in Hin.
  rewrite Forall_forall in Hf. destruct (Hf _ Hin) as (n' & z' & Hkz & Hz'). cbn in Hkz. subst k2. cbn in Hk'.
  rewrite (wire_name_key _ _ Hz') in Hk'. cbn in Hk'. simplify_eq.
  apply Hk. apply list_elem_of_In, in_map_iff. exists (KInt z, v2). cbn. split; [congruence|by apply list_elem_of_In].
Qed.

Lemma dget_logical m n z :
  wire_map m -> assoc_s n CBOR_V2_KEYS = Some z ->
  dget n (dupdate [] (map logical_entry m)) = option_map (logical_item (KStr n)) (dget (KInt z) m).
Proof.
  intros Hm Hz. rewrite dget_dupdate by by apply wire_map_dwf_logical.
  assert (dget n (map logical_entry m) = option_map (logical_item (KStr n)) (dget (KInt z) m)) as ->;
    [|by destruct (dget (KInt z) m)].
  destruct Hm as [_ Hf]. unfold dget. induction Hf as [|[k v] m (n' & z' & Hk & Hz') Hf IH]; [done|].
  cbn in Hk. subst k. cbn. rewrite IH, (wire_name_key _ _ Hz'). cbn.
  destruct (decide (n' = n)) as [->|Hn]; simplify_eq.
  - by rewrite !decide_True.
  - rewrite !decide_False; [done|..]; intros [= ?]; subst; [by eapply Hn, wire_keys_inj|done].
Qed.

Lemma dget_logical_None m k :
  wire_map m -> (forall n z, assoc_s n CBOR_V2_KEYS = Some z -> key_norm k <> inl n) ->
  dget k (dupdate [] (map logical_entry m)) = None.
Proof.
  intros Hm Hk. rewrite dget_dupdate by by apply wire_map_dwf_logical.
  assert (dget k (map logical_entry m) = None) as ->; [|done].
  apply od_get_None. intros Hin. apply list_elem_of_In, in_map_iff in Hin as (kv & Hkv & Hin).
  apply in_map_iff in Hin as ([k2 v2] & <- & Hin). apply list_elem_of_In in Hin.
  destruct (wire_map_get _ _ _ Hm Hin) as (n & z & -> & Hz). cbn in Hkv.
  rewrite (wire_name_key _ _ Hz) in Hkv. by eapply Hk.
Qed.

Lemma wire_map_norm_sorted m :
  wire_map m -> wire_map (map norm_item (py_sorted item_leb m)) /\
  forall z, dget (KInt z) (map norm_item (py_sorted item_leb m)) = option_map cbor_norm (dget (KInt z) m).
Proof.
  intros [Hw Hf]. pose proof (py_sorted_perm item_leb m) as Hp.
  assert (dwf (py_sorted item_leb m)) as Hw' by (by eapply dwf_perm; [symmetry|]).
  split; [split|].
  - by apply dwf_map_norm.
  - rewrite Forall_map. by rewrite Hp.
  - intros z. unfold dget. rewrite <- (od_get_perm key_norm (KInt z) _ _ Hw' Hp). clear.
    induction (py_sorted item_leb m) as [|[k v] l IH]; [done|]. cbn. by case_decide.
Qed.

Lemma pywf_wire payload message_kind m :
  pywf (VDict payload) -> logical_to_cbor_map payload message_kind = Ok m -> pywf (VDict m).
Proof.
  intros Hp H. inversion Hp as [| | | | | | |? Hw Hf]; subst.
  destruct (wire_map_spec _ _ _ Hw H) as (kind & Hk & [Hm _] & _). constructor; [done|].
  unfold logical_to_cbor_map in H. rewrite Hk in H. inv_ok. clear Hw Hm Hp.
  set (m0 := [_; _]). assert (Forall (fun kv => pywf kv.2) m0) as H0 by (repeat constructor).
  clearbody m0. revert m0 H0. induction Hf as [|[k v] payload Hv Hf IH]; intros m0 H0; [done|]. cbn. apply IH.
  unfold set_wire_key. destruct k as [s| |]; [|done..]. destruct (assoc_s s CBOR_V2_KEYS); [|done].
  by apply Forall_dset.
Qed.

(** The decoder's answer to an encoded payload, entry by entry. *)
Lemma decode_encoded_payload payload message_kind bs :
  pywf (VDict payload) -> encode_payload_cbor payload message_kind = Ok bs ->
  exists kind m, assoc_s message_kind CBOR_V2_MESSAGE_KINDS = Some kind /\ wire_map m /\
  (forall n z, assoc_s n CBOR_V2_KEYS = Some z ->
     dget (KInt z) m = option_map cbor_norm (wire_value payload kind n)) /\
  decode_payload_cbor bs = Ok (VDict (dupdate [] (map logical_entry m))).
Proof.
  intros Hp H. unfold encode_payload_cbor in H. inv_ok.
  pose proof (pywf_wire _ _ _ Hp E) as Hm.
  inversion Hp as [| | | | | | |? Hw Hf]; subst.
  destruct (wire_map_spec _ _ _ Hw E) as (kind & Hk & Hwm & Hg).
  destruct (wire_map_norm_sorted _ Hwm) as [Hws Hgs].
  eexists kind, _. split; [done|]. split; [exact Hws|]. split.
  - intros n z Hz. by rewrite Hgs, (Hg n z Hz).
  - unfold decode_payload_cbor, cbor_decode, decode_fuel.
    rewrite (reads_back_all _ Hm bs H _ bs 0 (at_offset_all bs)) by lia.
    cbn [rbind]. rewrite Z.add_0_l, Z.eqb_refl. cbn [rbind].
    rewrite norm_dict_sorted. cbn [is_dict]. by rewrite cbor_map_to_logical_dict.
Qed.

(** ** Routes and kinds *)

Definition slash : ascii := "/"%char.
(** A route segment: text without a slash. *)
Definition seg (s : string) : Prop := mem_char slash s = false.

Lemma split_seg s t : seg s -> split_on slash (s +:+ "/" +:+ t) = s :: split_on slash t.
Proof. apply split_on_app. Qed.

Lemma split_end s : seg s -> split_on slash s = [s].
Proof. apply split_on_no_sep. Qed.

(** The kind each route builder's key expression is sent as. *)
Inductive route_kind : string -> option dict -> string -> Prop :=
  | rk_query node kind p : seg node -> route_kind (query_route node kind) p "query_request"
  | rk_acquire node p : seg node -> route_kind (lease_route node "acquire") p "lease_acquire_request"
  | rk_release node p : seg node -> route_kind (lease_route node "release") p "lease_release_request"
  | rk_app node app_id command p :
      seg node -> seg app_id -> seg command ->
      (command = "invoke"%string -> forall d, p = Some d ->
       Forall (fun f => dmem (KStr f) d = false) callback_config_fields) ->
      route_kind (app_command_route node app_id command) p "app_command_request"
  | rk_config node app_id d f :
      seg node -> seg app_id -> f ∈ callback_config_fields -> dmem (KStr f) d = true ->
      route_kind (app_command_route node app_id "invoke") (Some d) "callback_config_request"
  | rk_update node app_id stage kind p :
      seg node -> seg app_id -> (stage, kind) ∈ update_kinds ->
      route_kind (update_route node app_id stage) p kind.

Lemma split_neuro node t :
  seg node -> split_on slash ("neuro/" +:+ node +:+ "/" +:+ t) = "neuro"%string :: node :: split_on slash t.
Proof. intros H. change ("neuro/" +:+ ?x) with ("neuro" +:+ "/" +:+ x). by rewrite !split_seg. Qed.

Lemma split_query node kind :
  seg node -> split_on slash (query_route node kind) = "neuro"%string :: node :: "query"%string :: split_on slash kind.
Proof.
  intros H. unfold query_route. change ("/query/" +:+ kind) with ("/" +:+ "query" +:+ "/" +:+ kind).
  by rewrite split_neuro, split_seg.
Qed.

Lemma split_lease node action :
  seg node -> split_on slash (lease_route node action) = "neuro"%string :: node :: "cmd"%string :: "lease"%string :: split_on slash action.
Proof.
  intros H. unfold lease_route. change ("/cmd/lease/" +:+ ?k) with ("/" +:+ "cmd" +:+ "/" +:+ "lease" +:+ "/" +:+ k).
  by rewrite split_neuro, !split_seg.
Qed.

Lemma split_app_cmd node app_id command :
  seg node -> seg app_id -> split_on slash (app_command_route node app_id command)
  = "neuro"%string :: node :: "cmd"%string :: "app"%string :: app_id :: split_on slash command.
Proof.
  intros H Ha. unfold app_command_route. change ("/cmd/app/" +:+ ?k) with ("/" +:+ "cmd" +:+ "/" +:+ "app" +:+ "/" +:+ k).
  by rewrite split_neuro, !split_seg.
Qed.

Lemma split_update node app_id stage :
  seg node -> seg app_id -> split_on slash (update_route node app_id stage)
  = "neuro"%string :: node :: "update"%string :: "app"%string :: app_id :: split_on slash stage.
Proof.
  intros H Ha. unfold update_route. change ("/update/app/" +:+ ?k) with ("/" +:+ "update" +:+ "/" +:+ "app" +:+ "/" +:+ k).
  by rewrite split_neuro, !split_seg.
Qed.

(** ** Validation *)

Lemma check_common_ok fields payload :
  check_common fields payload = Ok tt <->
  Forall (fun f => exists v, dget (KStr f) payload = Some v /\ blank v = false) fields.
Proof.
  induction fields as [|f fields IH]; cbn; [by split|].
  destruct (dget f payload) as [v|] eqn:E; [destruct (blank v) eqn:B|].
  - split; [done|]. inversion_clear 1 as [|? ? (v' & ? & ?)]. congruence.
  - rewrite IH, Forall_cons. naive_solver.
  - split; [done|]. inversion_clear 1 as [|? ? (v' & ? & ?)]. congruence.
Qed.

(** What [validate_payload] accepts. *)
Record valid_request (payload : dict) (mode : string) : Prop := {
  vr_common : Forall (fun f => exists v, dget (KStr f) payload = Some v /\ blank v = false) common_fields;
  vr_write : mode = "write"%string \/ mode = "protected"%string ->
    dgetn "priority" payload <> VNone /\ py_truthy (dget_or "idempotency_key" (VStr "") payload) = true;
  vr_protected : mode = "protected"%string -> py_truthy (dget_or "lease_id" (VStr "") payload) = true
}.

Lemma is_none_true v : is_none v = true <-> v = VNone.
Proof. by destruct v. Qed.

Lemma mode_write mode :
  String.eqb mode "write" || String.eqb mode "protected" = true <-> mode = "write"%string \/ mode = "protected"%string.
Proof. by rewrite orb_true_iff, !String.eqb_eq. Qed.

Definition field_ok (payload : dict) (f : string) : bool :=
  match dget f payload with Some v => negb (blank v) | None => false end.

(** ** Properties *)

(** C2: a payload sent through [encode_payload_cbor] and read by
    [decode_payload_cbor] is the logical payload again: every name of the key
    table holds the normal form of the value sent (the header's schema version
    2 and message kind where the payload had none, with the kind number turned
    back into its name), and no other name is present. *)
Theorem message_roundtrip payload message_kind bs :
  pywf (VDict payload) -> encode_payload_cbor payload message_kind = Ok bs ->
  exists kind d, assoc_s message_kind CBOR_V2_MESSAGE_KINDS = Some kind /\
  assoc_z kind CBOR_V2_MESSAGE_KIND_NAMES = Some message_kind /\
  decode_payload_cbor bs = Ok (VDict d) /\
  (forall n, is_Some (assoc_s n CBOR_V2_KEYS) ->
     dget n d = option_map (fun v => logical_item (KStr n) (cbor_norm v)) (wire_value payload kind n)) /\
  (forall k, (forall n, is_Some (assoc_s n CBOR_V2_KEYS) -> key_norm k <> inl n) -> dget k d = None).
Proof.
  intros Hp H. destruct (decode_encoded_payload _ _ _ Hp H) as (kind & m & Hk & Hm & Hg & Hd).
  eexists kind, _. split; [done|]. split; [by apply message_kind_inverse|]. split; [exact Hd|]. split.
  - intros n [z Hz]. rewrite (dget_logical _ _ _ Hm Hz), (Hg n z Hz). by destruct (wire_value payload kind n).
  - intros k Hn. apply dget_logical_None; [done|]. intros n z Hz. by eapply Hn.
Qed.

(** Every route a builder makes from slash-free segments is recognised as
    the message kind of that builder; an [invoke] with a callback configuration
    field is the configuration request, every other app command is not. *)
Theorem route_kind_recognised keyexpr payload kind :
  route_kind keyexpr payload kind -> message_kind_for_keyexpr keyexpr payload = Ok kind.
Proof.
  unfold message_kind_for_keyexpr. fold slash. destruct 1 as [node k p Hn|node p Hn|node p Hn
    |node app_id command p Hn Ha Hc Hi|node app_id d f Hn Ha Hf Hd|node app_id stage kind p Hn Ha Hs].
  - rewrite split_query by done. pose proof (split_on_nonempty slash k). by destruct (split_on slash k).
  - by rewrite split_lease.
  - by rewrite split_lease.
  - rewrite split_app_cmd, split_end by done. cbn.
    destruct (String.eqb_spec command "invoke") as [->|]; [|done].
    destruct p as [d|]; [|done]. cbn. specialize (Hi eq_refl d eq_refl).
    repeat apply Forall_cons in Hi as [-> Hi]. done.
  - rewrite split_app_cmd, split_end by done. cbn -[existsb].
    replace (existsb (fun f => dmem (KStr f) d) callback_config_fields) with true; [done|].
    symmetry. apply existsb_exists. exists f. split; [by apply list_elem_of_In|done].
  - rewrite split_update by done. repeat (apply elem_of_cons in Hs as [[= -> ->]|Hs]; [done|]).
    by apply elem_of_nil in Hs.
Qed.

(** [validate_payload] returns exactly for the payloads that carry the
    metadata of their mode; every other payload raises. *)
Theorem validate_payload_accepts payload mode :
  validate_payload payload mode = Ok tt <-> valid_request payload mode.
Proof.
  unfold validate_payload. split.
  - intros H. inv_ok. repeat match goal with u : unit |- _ => destruct u end. apply check_common_ok in E. constructor; [done|..].
    + intros Hm%mode_write. rewrite Hm in E0. cbn in E0.
      destruct (is_none (dgetn "priority" payload)) eqn:Ep; [done|].
      split; [by intros Hp%is_none_true; congruence|].
      by destruct (py_truthy (dget_or "idempotency_key" (VStr "") payload)).
    + intros ->. cbn in H. by destruct (py_truthy (dget_or "lease_id" (VStr "") payload)).
  - intros [Hc Hw Hp]. rewrite (proj2 (check_common_ok _ _) Hc). cbn [rbind].
    destruct (String.eqb mode "write" || String.eqb mode "protected") eqn:E.
    + destruct (Hw (proj1 (mode_write _) E)) as [Hpr ->].
      destruct (is_none (dgetn "priority" payload)) eqn:En; [by apply is_none_true in En|]. cbn.
      destruct (String.eqb_spec mode "protected") as [->|]; [|done]. by rewrite Hp.
    + cbn. by apply orb_false_iff in E as [_ ->].
Qed.

(** The payload [protected_write_payload] builds validates in protected
    mode when the command line names a source core, a source agent, a node, a
    lease and a timeout of at least a millisecond: request id and idempotency
    key are filled in by the builder. *)
Theorem protected_payload_valid hex hex2 a t :
  ftrunc (fmul (a_timeout a) (flit 1000 0)) = Ok t -> t <> 0 ->
  a_source_core a <> ""%string -> a_source_agent a <> ""%string -> a_node a <> ""%string ->
  a_lease_id a <> ""%string ->
  exists payload, protected_write_payload hex hex2 a = Ok payload /\
  validate_payload payload "protected" = Ok tt /\ validate_payload payload "write" = Ok tt.
Proof.
  intros Ht Hz Hc Hg Hn Hl. unfold protected_write_payload, write_payload, base_payload.
  rewrite Ht. cbn [rbind]. eexists. split; [reflexivity|].
  apply Z.eqb_neq in Hz. apply String.eqb_neq in Hc, Hg, Hn, Hl.
  set (rid := if String.eqb (a_request_id a) _ then _ else _). set (ik := if String.eqb (a_idempotency_key a) _ then _ else _).
  assert (String.eqb rid "" = false) as Hr by (unfold rid; destruct (String.eqb (a_request_id a) _) eqn:E; done).
  assert (String.eqb ik "" = false) as Hi by (unfold ik; destruct (String.eqb (a_idempotency_key a) _) eqn:E; done).
  clearbody rid ik. unfold validate_payload, check_common, common_fields. dict_simpl. unfold blank.
  cbn [eq_str is_none eq_int orb]. rewrite Hr, Hz, Hc, Hg, Hn. cbn. by rewrite Hi, Hl.
Qed.

(** ** Witnesses *)

Definition sample_payload : dict :=
  dict_of [("request_id", VStr "req-1"); ("target_node", VStr "unit-01"); ("priority", VInt 60);
           ("unknown_field", VBool true)].
Definition sample_wire : list Z :=
  match encode_payload_cbor sample_payload "query_request" with Ok bs => bs | Raise _ => [] end.

Lemma message_roundtrip_witness :
  exists kind d, assoc_s "query_request" CBOR_V2_MESSAGE_KINDS = Some kind /\
  assoc_z kind CBOR_V2_MESSAGE_KIND_NAMES = Some "query_request"%string /\
  decode_payload_cbor sample_wire = Ok (VDict d) /\
  (forall n, is_Some (assoc_s n CBOR_V2_KEYS) ->
     dget n d = option_map (fun v => logical_item (KStr n) (cbor_norm v)) (wire_value sample_payload kind n)) /\
  (forall k, (forall n, is_Some (assoc_s n CBOR_V2_KEYS) -> key_norm k <> inl n) -> dget k d = None).
Proof.
  apply (message_roundtrip sample_payload "query_request" sample_wire); [closed_pywf|vm_compute; reflexivity].
Defined.

Lemma route_kind_recognised_witness :
  message_kind_for_keyexpr (app_command_route "unit-01" "demo" "invoke")
    (Some (dict_of [("trigger_every", VInt 2)])) = Ok "callback_config_request"%string.
Proof.
  apply route_kind_recognised. apply (rk_config "unit-01" "demo" _ "trigger_every"); try reflexivity.
  right. left.
Defined.

Definition sample_args : args :=
  {| a_request_id := ""; a_source_core := "core-cli"; a_source_agent := "rational"; a_node := "unit-01";
     a_timeout := flit 10 0; a_priority := 50; a_idempotency_key := ""; a_lease_id := "lease-1";
     a_mode := "on"; a_trigger_every := 2; a_event_name := "callback" |}.

Lemma protected_payload_valid_witness :
  exists payload, protected_write_payload "0123456789ab" "ba9876543210" sample_args = Ok payload /\
  validate_payload payload "protected" = Ok tt /\ validate_payload payload "write" = Ok tt.
Proof.
  apply (protected_payload_valid _ _ sample_args 10000); [vm_compute; reflexivity|discriminate..].
Defined.
