(* ===== verification/Events.v ===== *)
(** * Perception events and the event router ([common.py], [events.py])

    Events, frames and the router that normalises raw events, drops the ones
    whose dedupe key was seen and orders the rest.  Fresh identifiers and the
    clock are inputs ([Env]). *)

From Stdlib Require Import ZArith Lia Bool List Ascii String.
From Stdlib.Floats Require Import SpecFloat.
From stdpp Require Import base list option sets strings sorting.
From S2P Require Import Prelude PyFloat Text PyValue.

Open Scope Z_scope.

(** What one call reads from its environment: [new_id]'s random part and
    [utc_now_iso()]. *)
Record Env := { env_hex : string; env_now : string }.

Definition new_id (prefix : string) (e : Env) : string := prefix +:+ "-" +:+ env_hex e.

Record PerceptionEvent := {
  event_id : string;
  source_kind : string;
  event_type : string;
  timestamp_wall : string;
  source_node : pyval;
  source_app : pyval;
  semantic_topic : pyval;
  timestamp_mono : pyval;
  priority : Z;
  dedupe_key : pyval;
  causality_id : pyval;
  raw_payload_ref : pyval;
  policy_tags : list pyval;
  ev_payload : dict;
}.

Definition from_payload (e : Env) (payload : dict) : result PerceptionEvent :=
  let! prio := py_int (dget_or "priority" (VInt 50) payload) in
  let! tags := py_iter (por (dgetn "policy_tags" payload) (VTuple [])) in
  let! body := py_dict (por (dgetn "payload" payload) (VDict [])) in
  Ok {| event_id := str_or "event_id" (new_id "evt" e) payload;
        source_kind := str_or "source_kind" "core" payload;
        event_type := str_or "event_type" "unknown" payload;
        timestamp_wall := str_or "timestamp_wall" (env_now e) payload;
        source_node := dgetn "source_node" payload;
        source_app := dgetn "source_app" payload;
        semantic_topic := dgetn "semantic_topic" payload;
        timestamp_mono := dgetn "timestamp_mono" payload;
        priority := prio;
        dedupe_key := dgetn "dedupe_key" payload;
        causality_id := dgetn "causality_id" payload;
        raw_payload_ref := dgetn "raw_payload_ref" payload;
        policy_tags := tags;
        ev_payload := body |}.

Definition event_to_dict (ev : PerceptionEvent) : dict :=
  dict_of [("event_id", VStr (event_id ev)); ("source_kind", VStr (source_kind ev));
           ("event_type", VStr (event_type ev)); ("timestamp_wall", VStr (timestamp_wall ev));
           ("source_node", source_node ev); ("source_app", source_app ev);
           ("semantic_topic", semantic_topic ev); ("timestamp_mono", timestamp_mono ev);
           ("priority", VInt (priority ev)); ("dedupe_key", dedupe_key ev);
           ("causality_id", causality_id ev); ("raw_payload_ref", raw_payload_ref ev);
           ("policy_tags", VList (policy_tags ev)); ("payload", VDict (ev_payload ev))].

Record PerceptionFrame := {
  frame_id : string;
  event_ids : list string;
  highest_priority : Z;
  topics : list pyval;
}.

Definition frame_to_dict (f : PerceptionFrame) : dict :=
  dict_of [("frame_id", VStr (frame_id f)); ("event_ids", VList (vstrs (event_ids f)));
           ("highest_priority", VInt (highest_priority f)); ("topics", VList (topics f))].

(** ** The router *)

Definition normalize_payload (raw_event : dict) : dict :=
  let payload := raw_event in
  let payload := dsetdefault "source_kind" (VStr "external") payload in
  let payload := dsetdefault "event_type" (por (dgetn "semantic_topic" payload) (VStr "unknown")) payload in
  let payload := dsetdefault "semantic_topic" (por (dgetn "event_type" payload) (VStr "unknown")) payload in
  let payload := dsetdefault "priority" (VInt 50) payload in
  let payload := dsetdefault "policy_tags" (VList []) payload in
  let payload :=
    if negb (py_truthy (dgetn "dedupe_key" payload))
    then dset "dedupe_key" (dgetn "event_id" payload) payload else payload in
  let payload :=
    if negb (py_truthy (dgetn "causality_id" payload))
    then dset "causality_id" (por (dgetn "dedupe_key" payload) (dgetn "event_id" payload)) payload
    else payload in
  if dmem "payload" payload then payload else dset "payload" (VDict []) payload.

(** [event.dedupe_key or event.event_id] *)
Definition event_key (ev : PerceptionEvent) : pyval := por (dedupe_key ev) (VStr (event_id ev)).

Definition normalize_one (raw : Env * dict) : result PerceptionEvent :=
  from_payload raw.1 (normalize_payload raw.2).

Fixpoint collect (seen : list pyval) (raws : list (Env * dict))
    : result (list PerceptionEvent * list pyval) :=
  match raws with
  | [] => Ok ([], seen)
  | raw :: rest =>
      let! ev := normalize_one raw in
      let key := event_key ev in
      if negb (hashable key) then Raise (TypeError "unhashable type")
      else if py_in key seen then collect seen rest
      else
        let! (events, seen') := collect (seen ++ [key]) rest in
        Ok (ev :: events, seen')
  end.

(** The order of [events.sort]: priority descending, then wall time, then id. *)
Definition event_leb (a b : PerceptionEvent) : bool :=
  if priority b <? priority a then true
  else if priority a <? priority b then false
  else if String.eqb (timestamp_wall a) (timestamp_wall b)
       then String.leb (event_id a) (event_id b)
       else String.leb (timestamp_wall a) (timestamp_wall b).

Definition normalize (seen : list pyval) (raws : list (Env * dict))
    : result (list PerceptionEvent * list pyval) :=
  let! (events, seen') := collect seen raws in
  Ok (py_sorted event_leb events, seen').

(** [seed_dedupe_keys]: falsy keys are skipped, the others stored as text. *)
Definition seed_dedupe_keys (seen : list pyval) (dedupe_keys : list pyval) : list pyval :=
  foldl (fun seen k => if py_truthy k
                       then (if py_in (VStr (py_str k)) seen then seen else seen ++ [VStr (py_str k)])
                       else seen) seen dedupe_keys.

(** [publish]: every subscriber of every event, in order; a call is the
    subscriber and the event it is given. *)
Definition publish {S} (subscribers : list S) (events : list PerceptionEvent)
    : list (S * PerceptionEvent) :=
  concat (map (fun ev => map (fun s => (s, ev)) subscribers) events).

Definition route {S} (subscribers : list S) (seen : list pyval) (raws : list (Env * dict))
    : result (list PerceptionEvent * list pyval * list (S * PerceptionEvent)) :=
  let! (events, seen') := normalize seen raws in
  Ok (events, seen', publish subscribers events).

(** ** Facts *)

Lemma event_leb_total a b : event_leb a b = true \/ event_leb b a = true.
Proof.
  unfold event_leb. destruct (Z.ltb_spec (priority b) (priority a)), (Z.ltb_spec (priority a) (priority b)); auto.
  rewrite (String.eqb_sym (timestamp_wall b)).
  destruct (String.eqb (timestamp_wall a) (timestamp_wall b)); auto.
Qed.

Lemma event_leb_trans a b c : event_leb a b = true -> event_leb b c = true -> event_leb a c = true.
Proof.
  unfold event_leb.
  destruct (Z.ltb_spec (priority b) (priority a)), (Z.ltb_spec (priority a) (priority b)),
    (Z.ltb_spec (priority c) (priority b)), (Z.ltb_spec (priority b) (priority c)),
    (Z.ltb_spec (priority c) (priority a)), (Z.ltb_spec (priority a) (priority c)); try (done || lia).
  destruct (String.eqb_spec (timestamp_wall a) (timestamp_wall b)) as [->|Hab].
  - destruct (String.eqb_spec (timestamp_wall b) (timestamp_wall c)); eauto.
  - destruct (String.eqb_spec (timestamp_wall b) (timestamp_wall c)) as [<-|Hbc].
    + apply String.eqb_neq in Hab. by rewrite Hab.
    + intros H1' H2'. destruct (String.eqb_spec (timestamp_wall a) (timestamp_wall c)) as [E|]; eauto.
      exfalso. rewrite <- E in H2'. by apply Hab, string_leb_antisym.
Qed.

Lemma existsb_app' {A} (f : A -> bool) l1 l2 : existsb f (l1 ++ l2) = existsb f l1 || existsb f l2.
Proof. apply existsb_app. Qed.

(** What [collect] adds: the keys of the events it keeps, in arrival order,
    each new with respect to everything before it. *)
Lemma collect_spec raws : forall seen events seen',
  collect seen raws = Ok (events, seen') ->
  seen' = seen ++ map event_key events /\
  (forall ev, ev ∈ events -> py_in (event_key ev) seen = false) /\
  ForallOrdPairs (fun a b => py_eq (event_key b) (event_key a) = false) events /\
  Forall (fun ev => exists raw, raw ∈ raws /\ normalize_one raw = Ok ev) events /\
  Forall (fun raw => exists ev, normalize_one raw = Ok ev /\
    (py_in (event_key ev) seen' = true \/ py_eq (event_key ev) (event_key ev) = false)) raws.
Proof.
  induction raws as [|raw raws IH]; intros seen events seen' H; cbn in H.
  { inv_ok. rewrite app_nil_r. split_and!; try constructor. set_solver. }
  inv_ok. destruct (hashable (event_key a)); cbn in H; [|done].
  destruct (py_in (event_key a) seen) eqn:Ein.
  - destruct (IH _ _ _ H) as (-> & H1 & H2 & H3 & H4). split_and!; auto.
    + eapply Forall_impl; [exact H3|]. intros ev (r & ? & ?). exists r. split; [by right|done].
    + constructor; [|done]. exists a. split; [done|]. left. unfold py_in in *.
      by rewrite existsb_app', Ein.
  - inv_ok. destruct a0 as [evs seen2]. inv_ok.
    destruct (IH _ _ _ E0) as (-> & H1 & H2 & H3 & H4). split_and!.
    + by rewrite <- app_assoc.
    + intros ev [->|Hev]%elem_of_cons; [done|]. specialize (H1 _ Hev). unfold py_in in *.
      rewrite existsb_app' in H1. by apply orb_false_iff in H1 as [? _].
    + constructor; [|done]. apply Forall_forall. intros ev Hev. specialize (H1 _ Hev).
      unfold py_in in H1. rewrite existsb_app' in H1. apply orb_false_iff in H1 as [_ H1].
      cbn in H1. by rewrite orb_false_r in H1.
    + constructor; [exists raw; split; [left|done]|]. eapply Forall_impl; [exact H3|].
      intros ev (r & ? & ?). exists r. split; [by right|done].
    + constructor; [|done]. exists a. split; [done|].
      destruct (py_eq (event_key a) (event_key a)) eqn:Er; [left|by right].
      unfold py_in. rewrite !existsb_app'. cbn. by rewrite Er, orb_true_r.
Qed.

(** A raw event with its own identity: a non-empty event id, and a dedupe key
    that is text if there is one. *)
Definition identified (raw : dict) : Prop :=
  (exists s, s <> ""%string /\ dget "event_id" raw = Some (VStr s)) /\
  (dget "dedupe_key" raw = None \/ exists s, dget "dedupe_key" raw = Some (VStr s)).

Definition keyed (raw : dict) (k : string) : Prop :=
  dget "dedupe_key" (normalize_payload raw) = Some (VStr k) /\ k <> ""%string.

Lemma truthy_str s : py_truthy (VStr s) = negb (String.eqb s "").
Proof. done. Qed.

Lemma identified_keyed raw : identified raw -> exists k, keyed raw k.
Proof.
  intros [(s & Hs & He) Hd]. unfold keyed, normalize_payload. dict_simpl. rewrite He. cbn [py_truthy].
  assert (exists k, (if negb (py_truthy match dget "dedupe_key" raw with Some v => v | None => VNone end)
    then Some (VStr s) else dget "dedupe_key" raw) = Some (VStr k) /\ k <> ""%string) as (k & Hk & ?).
  { destruct Hd as [->|[t ->]]; cbn; [eauto|].
    destruct (String.eqb_spec t ""); cbn; eauto. }
  exists k. split; [|done]. rewrite <- Hk. repeat destr_goal; dict_simpl; done.
Qed.

Lemma from_payload_key e d k ev :
  from_payload e d = Ok ev -> dget "dedupe_key" d = Some (VStr k) -> k <> ""%string -> event_key ev = VStr k.
Proof.
  unfold from_payload. intros H Hk Hne. inv_ok. unfold event_key. cbn [dedupe_key].
  rewrite dgetn_eq, Hk. by apply por_str_nonempty.
Qed.

(** The kept event's key does not depend on the fresh identifiers. *)
Lemma keyed_event_key raw k e ev :
  keyed raw k -> normalize_one (e, raw) = Ok ev -> event_key ev = VStr k.
Proof. intros [Hk Hne] H. exact (from_payload_key _ _ _ _ H Hk Hne). Qed.

Lemma from_payload_env e e' d ev : from_payload e d = Ok ev -> exists ev', from_payload e' d = Ok ev'.
Proof. unfold from_payload. intros H. inv_ok. eauto. Qed.

Lemma normalize_one_env e e' raw ev :
  normalize_one (e, raw) = Ok ev -> exists ev', normalize_one (e', raw) = Ok ev'.
Proof. apply from_payload_env. Qed.

Lemma collect_redelivered seen raws :
  Forall (fun raw => exists ev, normalize_one raw = Ok ev /\ hashable (event_key ev) = true /\
                     py_in (event_key ev) seen = true) raws ->
  collect seen raws = Ok ([], seen).
Proof. induction 1 as [|raw raws (ev & H & Hh & Hin) _ IH]; cbn; [done|]. by rewrite H; cbn; rewrite Hh, Hin. Qed.

Lemma py_in_str k l : py_in (VStr k) l = existsb (fun v => eq_str v k) l.
Proof. unfold py_in. induction l as [|v l IH]; cbn [existsb]; [done|]. by rewrite py_eq_VStr, IH. Qed.

(** Delivering again what the router accepted. *)
Lemma router_redelivery_again seen raws events seen' again :
  normalize seen raws = Ok (events, seen') ->
  Forall (fun raw => identified raw.2) raws ->
  Forall (fun raw => raw.2 ∈ map snd raws) again ->
  normalize seen' again = Ok ([], seen').
Proof.
  unfold normalize. intros H Hid Hin. inv_ok. destruct a as [evs s2]. inv_ok.
  destruct (collect_spec _ _ _ _ E) as (_ & _ & _ & _ & H4).
  rewrite (collect_redelivered seen' again); [done|].
  eapply Forall_impl; [exact Hin|]. intros [e raw] Hr. cbn in Hr.
  apply list_elem_of_In, in_map_iff in Hr as ([e0 raw0] & Heq & Hr). cbn in Heq. subst raw0.
  apply list_elem_of_In in Hr. rewrite Forall_forall in H4, Hid.
  destruct (identified_keyed _ (Hid _ Hr)) as [k Hk]. destruct (H4 _ Hr) as (ev0 & Hn0 & Hkey).
  destruct (normalize_one_env _ e _ _ Hn0) as [ev Hn]. exists ev. split; [done|].
  rewrite (keyed_event_key _ _ _ _ Hk Hn0) in Hkey. rewrite (keyed_event_key _ _ _ _ Hk Hn).
  split; [done|]. destruct Hkey as [?|Hkey]; [done|]. cbn in Hkey. by rewrite String.eqb_refl in Hkey.
Qed.

(** ** Properties *)

(** C6: the router keeps each occurrence once.  The events it returns are
    ordered by priority (descending), wall time and id; each comes from a raw
    event of the batch; none has a key that was seen before, no two share a
    key; the keys recorded are exactly theirs; and every raw event of the batch
    is accounted for by a recorded key (a key not equal to itself, NaN, is the
    one exception). *)
Theorem router_exactly_once seen raws events seen' :
  normalize seen raws = Ok (events, seen') ->
  StronglySorted (fun a b => event_leb a b = true) events /\
  Forall (fun ev => (exists raw, raw ∈ raws /\ normalize_one raw = Ok ev) /\
                    py_in (event_key ev) seen = false) events /\
  (exists arrivals, arrivals ≡ₚ events /\ seen' = seen ++ map event_key arrivals /\
     ForallOrdPairs (fun a b => py_eq (event_key b) (event_key a) = false) arrivals) /\
  Forall (fun raw => exists ev, normalize_one raw = Ok ev /\
    (py_in (event_key ev) seen' = true \/ py_eq (event_key ev) (event_key ev) = false)) raws.
Proof.
  unfold normalize. intros H. inv_ok. destruct a as [evs s2]. inv_ok.
  destruct (collect_spec _ _ _ _ E) as (Hs & H1 & H2 & H3 & H4). split_and!.
  - apply (py_sorted_sorted event_leb event_leb_total event_leb_trans).
  - rewrite py_sorted_perm. apply Forall_and. split; [done|]. by apply Forall_forall.
  - exists evs. by rewrite py_sorted_perm.
  - done.
Qed.

(** Delivering again, in any order and with any repetition, events of a
    batch the router accepted changes nothing: no event is returned and no key
    recorded, whatever identifiers and times the second delivery draws. *)
Theorem router_redelivery_idempotent seen raws events seen' again :
  normalize seen raws = Ok (events, seen') ->
  Forall (fun raw => identified raw.2) raws ->
  Forall (fun raw => raw.2 ∈ map snd raws) again ->
  normalize seen' again = Ok ([], seen').
Proof. apply router_redelivery_again. Qed.

(** ** Witnesses *)

Definition sample_env : Env := {| env_hex := "0123456789ab"; env_now := "2026-05-10T12:00:00Z" |}.
Definition later_env : Env := {| env_hex := "ffffffffffff"; env_now := "2026-05-11T12:00:00Z" |}.
Definition sample_raws : list (Env * dict) :=
  [(sample_env, dict_of [("event_id", VStr "evt-1"); ("priority", VInt 20)]);
   (sample_env, dict_of [("event_id", VStr "evt-2"); ("dedupe_key", VStr "k"); ("priority", VInt 90)]);
   (sample_env, dict_of [("event_id", VStr "evt-3"); ("dedupe_key", VStr "k")])].
Definition sample_routed : list PerceptionEvent * list pyval :=
  match normalize [] sample_raws with Ok r => r | Raise _ => ([], []) end.

Lemma router_exactly_once_witness :
  map event_id (fst sample_routed) = ["evt-2"; "evt-1"]%string /\
  StronglySorted (fun a b => event_leb a b = true) (fst sample_routed) /\
  Forall (fun ev => (exists raw, raw ∈ sample_raws /\ normalize_one raw = Ok ev) /\
                    py_in (event_key ev) [] = false) (fst sample_routed) /\
  (exists arrivals, arrivals ≡ₚ fst sample_routed /\ snd sample_routed = [] ++ map event_key arrivals /\
     ForallOrdPairs (fun a b => py_eq (event_key b) (event_key a) = false) arrivals) /\
  Forall (fun raw => exists ev, normalize_one raw = Ok ev /\
    (py_in (event_key ev) (snd sample_routed) = true \/ py_eq (event_key ev) (event_key ev) = false)) sample_raws.
Proof.
  split; [vm_compute; reflexivity|].
  apply (router_exactly_once [] sample_raws (fst sample_routed) (snd sample_routed)). vm_compute. reflexivity.
Defined.

Lemma router_redelivery_idempotent_witness :
  normalize (snd sample_routed)
    [(later_env, dict_of [("event_id", VStr "evt-3"); ("dedupe_key", VStr "k")]);
     (later_env, dict_of [("event_id", VStr "evt-1"); ("priority", VInt 20)])]
  = Ok ([], snd sample_routed).
Proof.
  apply (router_redelivery_idempotent [] sample_raws (fst sample_routed) (snd sample_routed)).
  - vm_compute. reflexivity.
  - repeat (apply Forall_cons; split); [..|constructor]; cbn [snd];
      (split; [eexists; split; [|reflexivity]; discriminate|first [left; reflexivity|right; eexists; reflexivity]]).
  - repeat (apply Forall_cons; split); [..|constructor]; rewrite list_elem_of_In; cbn; auto.
Defined.
