(* ===== verification/LiveEvents.v ===== *)
(** * Live events of a unit ([tools.py], [NeuroCliToolAdapter])

    The rows a monitor reports, normalised to raw perception events: source,
    topic, type, id, priority and dedupe key. *)

From Stdlib Require Import ZArith Lia Bool List Ascii String.
From stdpp Require Import base list option strings.
From S2P Require Import Prelude PyFloat Text PyValue Events.

Open Scope Z_scope.

(** [[segment for segment in str(keyexpr).split("/") if segment]] *)
Definition segments (keyexpr : string) : list string :=
  List.filter (fun s => negb (String.eqb s "")) (split_on "/"%char keyexpr).

Definition source_node_from_keyexpr (keyexpr : string) : string :=
  match segments keyexpr with
  | root :: node :: _ => if String.eqb root "neuro" then node else ""
  | _ => ""
  end.

Definition source_app_from_keyexpr (keyexpr : string) : string :=
  match segments keyexpr with
  | root :: _ :: kind :: area :: app :: _ =>
      if String.eqb root "neuro" && String.eqb kind "event" && String.eqb area "app" then app else ""
  | _ => ""
  end.

(** [[a-zA-Z0-9]] *)
Definition is_alnum (b : Z) : bool :=
  is_digit b || ((65 <=? b) && (b <=? 90)) || ((97 <=? b) && (b <=? 122)).

(** [re.sub(r"[^a-zA-Z0-9]+", "-", ...)] *)
Fixpoint dashed (in_run : bool) (l : list Z) : list Z :=
  match l with
  | [] => []
  | b :: r => if is_alnum b then b :: dashed false r
              else if in_run then dashed true r else 45 :: dashed true r
  end.

Fixpoint lstrip_byte (b : Z) (l : list Z) : list Z :=
  match l with
  | c :: r => if c =? b then lstrip_byte b r else l
  | [] => []
  end.

(** [.strip("-")] *)
Definition strip_byte (b : Z) (l : list Z) : list Z := rev (lstrip_byte b (rev (lstrip_byte b l))).

Definition event_id_token (value : pyval) : string :=
  let text := bytes_of_string (py_str (por value (VStr ""))) in
  let token := py_lower (string_of_bytes (strip_byte 45 (dashed false text))) in
  if String.eqb token "" then "unknown" else token.

(** [value not in (None, "")] *)
Definition present (v : pyval) : bool := negb (is_none v) && negb (eq_str v "").

Fixpoint payload_text (payload : dict) (keys : list string) : string :=
  match keys with
  | [] => ""
  | k :: rest => if present (dgetn k payload) then py_str (dgetn k payload) else payload_text payload rest
  end.

Definition lower_text (payload : dict) (keys : list string) : string := py_lower (payload_text payload keys).

Definition update_topic (payload : dict) : option string :=
  let stage := lower_text payload ["stage"]%string in
  let status := lower_text payload ["status"; "update_state"; "runtime_state"]%string in
  if String.eqb stage "activate" && negb (str_in status [""; "ok"; "active"; "running"]%string)
  then Some "unit.lifecycle.activate_failed"%string
  else if negb (String.eqb stage "") then Some ("unit.lifecycle." +:+ stage)
  else None.

Definition state_topic (payload : dict) : option string :=
  let health := lower_text payload ["health"]%string in
  let network_state := lower_text payload ["network_state"]%string in
  let state := lower_text payload ["state"; "runtime_state"; "status"]%string in
  let expected_endpoint := payload_text payload ["expected_endpoint"; "configured_endpoint"]%string in
  let observed_endpoint := payload_text payload ["observed_endpoint"; "actual_endpoint"; "current_endpoint"]%string in
  let drift_flag := lower_text payload ["endpoint_drift"]%string in
  if str_in drift_flag ["1"; "true"; "yes"]%string
     || (negb (String.eqb expected_endpoint "") && negb (String.eqb observed_endpoint "")
         && negb (String.eqb expected_endpoint observed_endpoint))
  then Some "unit.network.endpoint_drift"%string
  else if String.eqb health "degraded" || String.eqb state "degraded" then Some "unit.health.degraded"%string
  else if String.eqb state "offline" || str_in network_state ["offline"; "disconnected"; "no_reply"]%string
  then Some "unit.state.offline"%string
  else if String.eqb state "online" || String.eqb network_state "network_ready" then Some "unit.state.online"%string
  else None.

Definition keyexpr_topic (keyexpr : string) : string :=
  if endswith keyexpr "/health" then "unit.health.unknown"
  else if endswith keyexpr "/state" then "unit.state.unknown"
  else "".

Definition semantic_topic_for_live_payload (payload : dict) (message_kind keyexpr current_semantic_topic : string)
    : string :=
  if negb (String.eqb current_semantic_topic "") then current_semantic_topic
  else if String.eqb message_kind "callback_event" then "unit.callback"
  else if String.eqb message_kind "lease_event" then "lease_event"
  else
    let by_kind := if String.eqb message_kind "update_event" then update_topic payload
                   else if String.eqb message_kind "state_event" then state_topic payload
                   else None in
    match by_kind with Some topic => topic | None => keyexpr_topic keyexpr end.

(** The first truthy value, as [a or b or ...]. *)
Fixpoint por_list (l : list pyval) (last : pyval) : pyval :=
  match l with
  | [] => last
  | v :: rest => por v (por_list rest last)
  end.

Definition live_event_type (normalized payload : dict) (message_kind semantic_topic : string) : string :=
  let event_name := str_or "event_name" "" payload in
  let event_type := py_str (por_list [dgetn "event_type" normalized; dgetn "event_type" payload] (VStr "")) in
  if negb (String.eqb event_type "") then event_type
  else if String.eqb message_kind "callback_event" then "callback"
  else if negb (String.eqb event_name "") then event_name
  else if negb (String.eqb semantic_topic "") then semantic_topic
  else if negb (String.eqb message_kind "") then message_kind
  else "unknown".

Definition identity_seed (payload : dict) (timestamp_wall : string) : pyval :=
  por_list (dgetn "event_id" payload :: VStr timestamp_wall ::
            map (fun k => dgetn (KStr k) payload)
              ["timestamp_ms"; "state_version"; "sequence"; "invoke_count"; "status"; "health"; "state";
               "network_state"]%string) (VStr "0").

(** [value if value else fallback] for a text. *)
Definition sor (s fallback : string) : string := if String.eqb s "" then fallback else s.

Definition live_event_id (source_node source_app source_kind event_type : string) (seed : pyval) : string :=
  join "-" ["liveevt"; event_id_token (VStr (sor source_node "node"));
            event_id_token (VStr (sor source_app source_kind)); event_id_token (VStr event_type);
            event_id_token seed]%string.

Definition normalize_live_event_row (raw_event : dict) (default_source_kind default_app_id : string)
    : result dict :=
  let normalized := raw_event in
  if py_truthy (dgetn "semantic_topic" normalized) && py_truthy (dgetn "event_id" normalized) then Ok normalized
  else
    match dgetn "payload" normalized with
    | VDict payload =>
        let keyexpr := str_or "keyexpr" "" normalized in
        let message_kind := str_or "message_kind" "" payload in
        let source_node := py_str (por_list [dgetn "source_node" normalized; dgetn "source_node" payload]
                                            (VStr (source_node_from_keyexpr keyexpr))) in
        let source_app := py_str (por_list [dgetn "source_app" normalized; dgetn "source_app" payload;
                                            dgetn "app_id" payload; VStr default_app_id]
                                           (VStr (source_app_from_keyexpr keyexpr))) in
        let source_kind := py_str (por_list [dgetn "source_kind" normalized; dgetn "source_kind" payload]
                                     (VStr (if String.eqb source_app "" then default_source_kind else "unit_app"))) in
        let semantic_topic := semantic_topic_for_live_payload payload message_kind keyexpr
          (py_str (por_list [dgetn "semantic_topic" normalized; dgetn "semantic_topic" payload] (VStr ""))) in
        let event_type := live_event_type normalized payload message_kind semantic_topic in
        let timestamp_wall := py_str (por_list [dgetn "timestamp_wall" normalized; dgetn "timestamp_wall" payload]
                                               (VStr "")) in
        let normalized := if String.eqb timestamp_wall "" then normalized
                          else dset "timestamp_wall" (VStr timestamp_wall) normalized in
        let normalized := if py_truthy (dgetn "event_id" normalized) then normalized
                          else dset "event_id" (VStr (live_event_id source_node source_app source_kind event_type
                                                        (identity_seed payload timestamp_wall))) normalized in
        let normalized := dset "source_node" (VStr source_node) (dset "source_kind" (VStr source_kind) normalized) in
        let normalized := if String.eqb source_app "" then normalized
                          else dset "source_app" (VStr source_app) normalized in
        let normalized := dset "semantic_topic" (VStr (sor semantic_topic event_type))
                            (dset "event_type" (VStr event_type) normalized) in
        let! priority := py_int (por_list [dgetn "priority" normalized; dgetn "priority" payload]
                                   (VInt (if String.eqb event_type "callback" then 80 else 50))) in
        let normalized := dset "payload" (VDict payload) (dset "priority" (VInt priority) normalized) in
        Ok (dsetdefault "dedupe_key" (dgetn "event_id" normalized) normalized)
    | _ => Ok normalized
    end.

Definition normalize_app_event_row (raw_event : dict) (default_app_id : string) : result dict :=
  let payload_event_id := match dgetn "payload" raw_event with
                          | VDict raw_payload => str_or "event_id" "" raw_payload
                          | _ => ""%string
                          end in
  let! normalized := normalize_live_event_row raw_event "unit_app" default_app_id in
  match dgetn "payload" normalized with
  | VDict payload =>
      if String.eqb (str_or "event_type" "" normalized) "callback" && String.eqb payload_event_id "" then
        let fresh := join "-" ["appevt"; py_str (dgetn "source_app" normalized); py_str (dgetn "event_type" normalized);
                               py_str (dgetn "invoke_count" payload); py_str (dgetn "start_count" payload)]%string in
        let event_id := VStr (py_str (por (dgetn "event_id" payload) (VStr fresh))) in
        Ok (dset "dedupe_key" event_id (dset "event_id" event_id normalized))
      else Ok normalized
  | _ => Ok normalized
  end.

(** ** Facts *)

(** A row as a monitor reports it: a payload, and identities that are texts if given. *)
Record row_ok (raw : dict) : Prop := {
  ro_payload : exists payload, dget "payload" raw = Some (VDict payload);
  ro_event_id : py_truthy (dgetn "event_id" raw) = false \/ is_str (dgetn "event_id" raw) = true;
  ro_dedupe : dget "dedupe_key" raw = None \/ exists s, dget "dedupe_key" raw = Some (VStr s);
}.

Lemma sor_nonempty s t : t <> ""%string -> sor s t <> ""%string.
Proof. unfold sor. by destruct (String.eqb_spec s ""). Qed.

Lemma eqb_nonempty s : negb (String.eqb s "") = true -> s <> ""%string.
Proof. intros H. by apply negb_true_iff, String.eqb_neq in H. Qed.

Lemma live_event_type_nonempty normalized payload kind topic : live_event_type normalized payload kind topic <> ""%string.
Proof. unfold live_event_type. repeat case_match; try done; by apply eqb_nonempty. Qed.

Lemma live_event_id_nonempty a b c d e : live_event_id a b c d e <> ""%string.
Proof. done. Qed.

Lemma truthy_nonempty s : s <> ""%string -> py_truthy (VStr s) = true.
Proof. intros H. cbn. by apply negb_true_iff, String.eqb_neq. Qed.

Lemma truthy_text v :
  py_truthy v = false \/ is_str v = true -> py_truthy v = true -> exists s, v = VStr s /\ s <> ""%string.
Proof.
  intros [->|Hs] Ht; [done|]. destruct v; try done. exists s. split; [done|]. by intros ->.
Qed.

Lemma truthy_get k d v : dgetn k d = v -> v <> VNone -> dget k d = Some v.
Proof. rewrite dgetn_eq. by destruct (dget k d); intros <-. Qed.

(** What normalisation leaves in a row. *)
Record live_row (n : dict) : Prop := {
  lr_topic : py_truthy (dgetn "semantic_topic" n) = true;
  lr_identified : identified n;
}.

Lemma dget_dset_if (b : bool) (k k' : string) v d :
  k <> k' -> dget k' (if b then d else dset k v d) = dget k' d.
Proof. intros H. destruct b; [done|]. apply dget_dset_ne. cbn. congruence. Qed.

Lemma normalize_live_ok raw kind app n :
  row_ok raw -> normalize_live_event_row raw kind app = Ok n -> live_row n.
Proof.
  intros [(payload & Hp) He Hd]. pose proof (truthy_text _ He) as Htext. unfold normalize_live_event_row.
  destruct (py_truthy (dgetn "semantic_topic" raw) && py_truthy (dgetn "event_id" raw)) eqn:Eid.
  { intros <-%Ok_inj. apply andb_true_iff in Eid as [Ht Hi]. split; [done|]. split; [|done].
    destruct He as [?|Hs]; [congruence|]. rewrite dgetn_eq in Hi, Hs.
    destruct (dget "event_id" raw) as [v|]; [|done]. destruct v; try done. exists s. split; [|done]. by intros ->. }
  rewrite (dgetn_eq "payload"), Hp. cbn zeta.
  set (etype := live_event_type _ _ _ _). set (eid := live_event_id _ _ _ _ _).
  assert (etype <> ""%string) as Het by apply live_event_type_nonempty.
  assert (eid <> ""%string) as Heid by apply live_event_id_nonempty.
  intros H. apply rbind_ok in H as (priority & _ & <-%Ok_inj).
  set (stamped := if String.eqb (py_str _) "" then raw else _).
  assert (forall k : string, k <> "timestamp_wall"%string -> dget k stamped = dget k raw) as Hst
    by (intros k Hk; by apply dget_dset_if).
  match goal with |- live_row (dsetdefault _ (dgetn _ (dset _ _ (dset _ _ ?m))) _) => set (final := m) end.
  assert (dget "event_id" final = if py_truthy (dgetn "event_id" raw) then dget "event_id" raw else Some (VStr eid)) as Hfe.
  { unfold final. rewrite !dget_dset_ne by done. rewrite dget_dset_if by done. rewrite !dget_dset_ne by done.
    rewrite (dgetn_eq "event_id" stamped), Hst, <- dgetn_eq by done.
    destruct (py_truthy (dgetn "event_id" raw)); [by apply Hst|apply dget_dset_eq]. }
  assert (exists s, dget "event_id" final = Some (VStr s) /\ s <> ""%string) as (s & Hs & Hne).
  { rewrite Hfe. destruct (py_truthy (dgetn "event_id" raw)) eqn:Et; [|by exists eid].
    destruct (Htext eq_refl) as (s & Hs & Hne). exists s. split; [by apply truthy_get|done]. }
  assert (dget "dedupe_key" final = dget "dedupe_key" raw) as Hfd.
  { unfold final. rewrite !dget_dset_ne by done. rewrite dget_dset_if by done. rewrite !dget_dset_ne by done.
    rewrite dget_dset_if by done. by apply Hst. }
  split.
  - rewrite dgetn_eq, dget_dsetdefault_str. cbn [String.eqb]. rewrite !dget_dset_ne by done. unfold final.
    rewrite dget_dset_eq. by apply truthy_nonempty, sor_nonempty.
  - split.
    + exists s. split; [done|]. rewrite dget_dsetdefault_str, !dget_dset_ne by done. done.
    + right. rewrite dget_dsetdefault_str, String.eqb_refl, dget_or_eq, !dget_dset_ne, Hfd by done.
      rewrite (dgetn_eq "event_id"), !dget_dset_ne, Hs by done.
      destruct Hd as [->|[t ->]]; [by exists s|by exists t].
Qed.

Lemma normalize_live_again n kind app : live_row n -> normalize_live_event_row n kind app = Ok n.
Proof.
  intros [Ht [(s & Hs & He) _]]. unfold normalize_live_event_row. rewrite Ht, (dgetn_eq "event_id"), He.
  by rewrite (truthy_nonempty s Hs).
Qed.

Lemma normalize_live_idempotent raw kind app n kind' app' :
  row_ok raw -> normalize_live_event_row raw kind app = Ok n -> normalize_live_event_row n kind' app' = Ok n.
Proof. intros Hr H. eapply normalize_live_again, normalize_live_ok; eauto. Qed.

(** ** Properties *)

(** What a monitor reports is delivered once.  Rows with a payload, whose ids and dedupe keys are texts if
    given, normalise to rows that normalise to themselves; and once a batch of them went through the
    router, the same rows reported again (in any order, in part or repeatedly, and normalised again)
    yield no event and leave the router as it is. *)
Theorem live_events_delivered_once rows kind app raws env seen events seen' again :
  Forall row_ok rows ->
  rmap (fun row => normalize_live_event_row row kind app) rows = Ok raws ->
  normalize seen (map (fun raw => (env, raw)) raws) = Ok (events, seen') ->
  Forall (fun raw => forall kind' app', normalize_live_event_row raw kind' app' = Ok raw) raws /\
  forall reported, Forall (fun x => x.2 ∈ rows) again ->
    rmap (fun x => let! raw := normalize_live_event_row x.2 kind app in Ok (x.1, raw)) again = Ok reported ->
    normalize seen' reported = Ok ([], seen').
Proof.
  intros Hrows Hraws Hn. apply rmap_ok_Forall2 in Hraws.
  assert (Forall live_row raws) as Hlive.
  { apply Forall_forall. intros raw (i & Hi)%list_elem_of_lookup.
    destruct (Forall2_lookup_r _ _ _ _ _ Hraws Hi) as (row & Hrow & Hr). rewrite Forall_forall in Hrows.
    eapply normalize_live_ok; [|exact Hr]. by eapply Hrows, list_elem_of_lookup_2. }
  split; [eapply Forall_impl; [exact Hlive|]; intros; by apply normalize_live_again|].
  intros reported Hin Hrep%rmap_ok_Forall2. eapply router_redelivery_again; [exact Hn|..].
  - apply Forall_map. eapply Forall_impl; [exact Hlive|]. intros raw [_ H]. exact H.
  - apply Forall_forall. intros x (i & Hi)%list_elem_of_lookup.
    destruct (Forall2_lookup_r _ _ _ _ _ Hrep Hi) as (y & Hy & Hx). apply rbind_ok in Hx as (raw & Hraw & <-%Ok_inj).
    rewrite Forall_forall in Hin. apply list_elem_of_lookup_2, Hin in Hy.
    apply list_elem_of_lookup in Hy as (j & Hj). destruct (Forall2_lookup_l _ _ _ _ _ Hraws Hj) as (raw' & Hr' & Hr).
    assert (raw' = raw) as -> by congruence. cbn [snd]. rewrite map_map. cbn. rewrite map_id.
    by eapply list_elem_of_lookup_2.
Qed.

(** ** Witnesses *)

Definition monitor_rows : list dict :=
  [dict_of [("keyexpr", VStr "neuro/unit-01/event/app/neuro_demo_app/callback");
            ("payload", VDict (dict_of [("message_kind", VStr "callback_event"); ("invoke_count", VInt 3)]))];
   dict_of [("keyexpr", VStr "neuro/unit-01/event/update");
            ("payload", VDict (dict_of [("message_kind", VStr "update_event"); ("stage", VStr "activate");
                                        ("status", VStr "error"); ("timestamp_ms", VInt 1200)]))]]%string.

Definition monitor_raws : list dict :=
  match rmap (fun row => normalize_live_event_row row "unit" "") monitor_rows with Ok l => l | Raise _ => [] end.

Example monitor_raws_ex :
  map (fun n => (dgetn "event_id" n, dgetn "semantic_topic" n, dgetn "source_app" n, dgetn "priority" n)) monitor_raws =
  [(VStr "liveevt-unit-01-neuro-demo-app-callback-3", VStr "unit.callback", VStr "neuro_demo_app", VInt 80);
   (VStr "liveevt-unit-01-unit-unit-lifecycle-activate-failed-1200", VStr "unit.lifecycle.activate_failed", VNone, VInt 50)]%string.
Proof. vm_compute. reflexivity. Qed.

Definition monitor_routed : list PerceptionEvent * list pyval :=
  match normalize [] (map (fun raw => (sample_env, raw)) monitor_raws) with Ok r => r | Raise _ => ([], []) end.

Lemma live_events_delivered_once_witness :
  normalize monitor_routed.2 (map (fun raw => (later_env, raw)) (rev monitor_raws)) = Ok ([], monitor_routed.2) /\
  length monitor_routed.1 = 2%nat.
Proof.
  split; [|vm_compute; reflexivity].
  apply (live_events_delivered_once monitor_rows "unit" "" monitor_raws sample_env [] monitor_routed.1 monitor_routed.2
           (map (fun row => (later_env, row)) (rev monitor_rows))).
  - repeat constructor; try (vm_compute; by left); try (vm_compute; by eauto).
  - vm_compute. reflexivity.
  - vm_compute. reflexivity.
  - repeat constructor; vm_compute; repeat constructor.
  - vm_compute. reflexivity.
Defined.
