(* ===== verification/Agents.v ===== *)
(** * Frames and the deterministic agents ([agents.py], [workflow.py]'s [_build_frame])

    The perception frame of a batch of events, the affective decision on a
    frame and the rational plan of a decision. *)

From Stdlib Require Import ZArith Lia Bool List Ascii String.
From stdpp Require Import base list option sets strings sorting.
From S2P Require Import Prelude Text PyValue Events.

Open Scope Z_scope.

(** ** Frames *)

(** Adding to a [set]: an equal element is not added again. *)
Definition set_add (s : list pyval) (v : pyval) : result (list pyval) :=
  if negb (hashable v) then Raise (TypeError "unhashable type")
  else Ok (if py_in v s then s else s ++ [v]).

Fixpoint set_of (s : list pyval) (l : list pyval) : result (list pyval) :=
  match l with
  | [] => Ok s
  | v :: l' => let! s' := set_add s v in set_of s' l'
  end.

Definition as_str (v : pyval) : option string := match v with VStr s => Some s | _ => None end.
Definition as_num (v : pyval) : option Z :=
  match v with VInt z => Some z | VBool b => Some (Z.b2z b) | _ => None end.

(** [sorted(s)] for a set of topics.  Texts sort among themselves and so do
    integers; at most one element needs no comparison; anything else raises.
    (Event payloads are JSON: a topic is never a tuple, and several
    floating-point topics are outside the model.) *)
Definition sorted_values (l : list pyval) : result (list pyval) :=
  match mapM as_str l with
  | Some ss => Ok (vstrs (sorted_strings ss))
  | None =>
      match mapM as_num l with
      | Some _ => Ok (py_sorted (fun a b => match as_num a, as_num b with
                                            | Some x, Some y => x <=? y | _, _ => true end) l)
      | None => match l with
                | [_] => Ok l
                | _ => Raise (TypeError "'<' not supported between instances")
                end
      end
  end.

(** [event.semantic_topic or event.event_type] *)
Definition event_topic (ev : PerceptionEvent) : pyval := por (semantic_topic ev) (VStr (event_type ev)).

(** [max(..., default=0)] *)
Definition max_default (l : list Z) : Z :=
  match l with [] => 0 | z :: l' => foldl Z.max z l' end.

Definition build_frame (e : Env) (events : list PerceptionEvent) : result PerceptionFrame :=
  let! topic_set := set_of [] (List.filter py_truthy (map event_topic events)) in
  let! topics := sorted_values topic_set in
  Ok {| frame_id := new_id "frame" e;
        event_ids := map event_id events;
        highest_priority := max_default (map priority events);
        topics := topics |}.

(** ** The affective agent *)

Record AffectiveDecision := { delegated : bool; reason : string; salience : Z }.

Definition OPERATIONAL_WAKE_TOPICS : list (string * (string * Z)) :=
  [("unit.network.endpoint_drift", ("network_endpoint_drift_requires_rational_window", 85));
   ("unit.health.degraded", ("degraded_health_requires_rational_window", 85));
   ("unit.lifecycle.activate_failed", ("activate_failure_requires_rational_window", 90));
   ("unit.state.offline", ("offline_state_requires_rational_window", 90));
   ("unit.state.online", ("online_state_requires_rational_window", 70))]%string.

(** [topic in self.OPERATIONAL_WAKE_TOPICS] with the entry. *)
Definition wake_entry (topic : pyval) : option (string * Z) :=
  match as_str topic with Some s => od_get (fun s => s) s OPERATIONAL_WAKE_TOPICS | None => None end.

Fixpoint first_wake (l : list pyval) : option (string * Z) :=
  match l with
  | [] => None
  | t :: l' => match wake_entry t with Some e => Some e | None => first_wake l' end
  end.

(** [t in frame.topics] *)
Definition has_topic (t : string) (frame : PerceptionFrame) : bool := existsb (fun v => eq_str v t) (topics frame).

Definition decide_frame (frame : PerceptionFrame) : AffectiveDecision :=
  match first_wake (topics frame) with
  | Some (reason, minimum_salience) =>
      {| delegated := true; reason := reason;
         salience := Z.max (highest_priority frame) minimum_salience |}
  | None =>
      if (50 <=? highest_priority frame) || has_topic "unit.callback" frame
      then {| delegated := true; reason := "salient_perception_frame_requires_rational_window";
              salience := highest_priority frame |}
      else {| delegated := false; reason := "low_salience_frame_recorded_without_action";
              salience := highest_priority frame |}
  end.

(** ** The rational agent *)

Record RationalPlan := { tool_name : string; plan_args : dict; plan_reason : string }.

(** The [if]/[elif] chain on the frame's topics. *)
Definition plan_choices : list (string * (string * string)) :=
  [("unit.lifecycle.activate_failed", ("system_activation_health_guard", "post_activate_health_guard_required"));
   ("user.input.control.app.restart", ("system_restart_app", "app_restart_requested_by_user_input"));
   ("user.input.control.app.start", ("system_start_app", "app_start_requested_by_user_input"));
   ("user.input.control.app.stop", ("system_stop_app", "app_stop_requested_by_user_input"));
   ("user.input.control.app.unload", ("system_unload_app", "app_unload_requested_by_user_input"));
   ("user.input.query.device", ("system_query_device", "device_query_requested_by_user_input"));
   ("user.input.query.apps", ("system_query_apps", "app_query_requested_by_user_input"));
   ("user.input.query.leases", ("system_query_leases", "lease_query_requested_by_user_input"));
   ("user.input.capabilities", ("system_capabilities", "capabilities_query_requested_by_user_input"))]%string.

Definition choose_tool (frame : PerceptionFrame) : string * string :=
  match List.find (fun c => has_topic c.1 frame) plan_choices with
  | Some c => c.2
  | None => ("system_state_sync", "state_sync_before_any_unit_side_effect")%string
  end.

Definition app_scoped_tools : list string :=
  ["system_activation_health_guard"; "system_restart_app"; "system_start_app"; "system_stop_app";
   "system_unload_app"]%string.

Definition plan (decision : AffectiveDecision) (frame : PerceptionFrame) (session_context : option dict)
    : option RationalPlan :=
  if negb (delegated decision) then None
  else
    let (tool_name, reason') := choose_tool frame in
    let args := dict_of [("event_ids", VList (vstrs (event_ids frame))); ("reason", VStr (reason decision))] in
    let args :=
      match session_context with
      | Some ctx =>
          if str_in tool_name app_scoped_tools then
            let target_app_id := str_or "target_app_id" "" ctx in
            if negb (String.eqb target_app_id "") then
              dset "app" (VStr target_app_id) (dset "app_id" (VStr target_app_id) args)
            else args
          else args
      | None => args
      end in
    Some {| tool_name := tool_name; plan_args := args; plan_reason := reason' |}.

(** ** Facts *)

Lemma first_wake_Some l e : first_wake l = Some e -> exists t, t ∈ l /\ wake_entry t = Some e.
Proof.
  induction l as [|t l IH]; cbn; [done|]. destruct (wake_entry t) eqn:E.
  - intros [= <-]. exists t. split; [left|done].
  - intros (t' & ? & ?)%IH. exists t'. split; [by right|done].
Qed.

Lemma first_wake_None l : first_wake l = None <-> Forall (fun t => wake_entry t = None) l.
Proof.
  induction l as [|t l IH]; cbn; [by split|]. rewrite Forall_cons.
  destruct (wake_entry t); [|naive_solver]. split; [done|naive_solver].
Qed.

Lemma max_default_ge l z : z ∈ l -> z <= max_default l.
Proof.
  destruct l as [|y l]; cbn; [set_solver|]. revert y.
  induction l as [|x l IH]; intros y; cbn.
  - intros ->%list_elem_of_singleton. lia.
  - assert (forall a b, a <= b -> foldl Z.max a l <= foldl Z.max b l) as Hm.
    { clear. induction l as [|x l IH]; cbn; [done|]. intros. apply IH. lia. }
    intros [->|[->|Hz]%elem_of_cons]%elem_of_cons.
    + etrans; [apply (IH y); left|]. apply Hm. lia.
    + etrans; [apply (IH x); left|]. apply Hm. lia.
    + etrans; [apply (IH y); by right|]. apply Hm. lia.
Qed.

Lemma set_of_in l : forall s s' v,
  set_of s l = Ok s' -> (v ∈ s -> v ∈ s') /\ (forall t, v = VStr t -> v ∈ l -> v ∈ s').
Proof.
  induction l as [|x l IH]; intros s s' v H; cbn in H; [inv_ok; set_solver|].
  inv_ok. unfold set_add in E. destruct (hashable x); cbn in E; [|done]. inv_ok.
  destruct (IH _ _ v H) as [H1 H2]. split.
  - intros Hv. apply H1. destruct (py_in x s); set_solver.
  - intros t -> [<-|Hin]%elem_of_cons; [|eauto]. apply H1.
    destruct (py_in (VStr t) s) eqn:Ein; [|set_solver].
    unfold py_in in Ein. apply existsb_exists in Ein as (w & Hw%list_elem_of_In & Heq).
    rewrite py_eq_VStr in Heq. destruct w; cbn in Heq; try done. apply String.eqb_eq in Heq. by subst.
Qed.

Lemma mapM_as_str l ss : mapM as_str l = Some ss -> l = vstrs ss.
Proof.
  rewrite mapM_Some. induction 1 as [|v s l ss Hv _ ->]; [done|]. cbn. f_equal. by destruct v; simplify_eq/=.
Qed.

Lemma sorted_values_in l l' v : sorted_values l = Ok l' -> v ∈ l -> v ∈ l'.
Proof.
  unfold sorted_values. destruct (mapM as_str l) as [ss|] eqn:E.
  - intros [= <-] Hv. rewrite (mapM_as_str _ _ E) in Hv. unfold vstrs in *.
    apply list_elem_of_In, in_map_iff in Hv as (s & <- & Hs). apply list_elem_of_In, in_map_iff.
    exists s. split; [done|]. apply list_elem_of_In. apply elem_of_py_sorted. by apply list_elem_of_In.
  - destruct (mapM as_num l) as [zs|].
    + intros [= <-] Hv. by apply elem_of_py_sorted.
    + destruct l as [|x [|y l]]; [done| |done]. by intros [= <-].
Qed.

Lemma frame_has_topic e events frame ev t :
  build_frame e events = Ok frame -> ev ∈ events -> event_topic ev = VStr t -> t <> ""%string ->
  has_topic t frame = true.
Proof.
  unfold build_frame. intros H Hev Ht Hne. inv_ok. unfold has_topic. cbn. apply existsb_exists.
  exists (VStr t). split; [|cbn; apply String.eqb_refl]. apply list_elem_of_In.
  eapply sorted_values_in; [done|]. apply (proj2 (set_of_in _ _ _ (VStr t) E)) with t; [done|].
  apply list_elem_of_In, filter_In. split.
  - apply in_map_iff. exists ev. split; [done|by apply list_elem_of_In].
  - cbn. by apply String.eqb_neq in Hne as ->.
Qed.

Lemma has_topic_in t frame : has_topic t frame = true -> VStr t ∈ topics frame.
Proof.
  unfold has_topic. intros (v & Hv & He)%existsb_exists. destruct v; cbn in He; try done.
  apply String.eqb_eq in He. subst. by apply list_elem_of_In.
Qed.

Lemma wake_table_min t reason m : wake_entry t = Some (reason, m) -> 70 <= m.
Proof.
  destruct t; cbn -[OPERATIONAL_WAKE_TOPICS]; try done. intros H.
  destruct (od_get_elem_of _ _ _ _ H) as (k & _ & Hin).
  repeat (apply elem_of_cons in Hin as [[= -> -> ->]|Hin]; [lia|]). by apply elem_of_nil in Hin.
Qed.

(** ** Properties *)

(** A frame wakes the rational agent exactly when it has an operational
    topic, a priority of 50 or more, or a callback; the decision's salience is
    never below the frame's priority, nor below 70 on an operational topic. *)
Theorem wake_decision_spec frame :
  let d := decide_frame frame in
  (delegated d = true <->
     (exists t, t ∈ topics frame /\ is_Some (wake_entry t)) \/ 50 <= highest_priority frame \/
     has_topic "unit.callback" frame = true) /\
  highest_priority frame <= salience d /\
  ((exists t, t ∈ topics frame /\ is_Some (wake_entry t)) -> 70 <= salience d).
Proof.
  unfold decide_frame. destruct (first_wake (topics frame)) as [[r m]|] eqn:E; cbn.
  - destruct (first_wake_Some _ _ E) as (t & Ht & Hw). split_and!; [|lia|].
    + split; [|done]. intros _. left. exists t. by rewrite Hw.
    + apply wake_table_min in Hw. lia.
  - apply first_wake_None in E. rewrite Forall_forall in E.
    assert (~ exists t, t ∈ topics frame /\ is_Some (wake_entry t)) as Hno.
    { intros (t & Ht & [x Hx]). by rewrite (E _ Ht) in Hx. }
    split_and!; [|by repeat destr_goal; cbn|done].
    destruct (Z.leb_spec 50 (highest_priority frame)); cbn; [naive_solver|].
    destruct (has_topic "unit.callback" frame); cbn; [naive_solver|]. split; [done|]. naive_solver lia.
Qed.

(** An activation failure is never left without its guard: in any batch of
    events that has one, the frame wakes the agents and the plan is the
    activation health guard, scoped to the session's target application when
    there is one, whatever other topics the batch has. *)
Theorem activate_failed_is_guarded e events frame ev ctx :
  build_frame e events = Ok frame -> ev ∈ events ->
  event_topic ev = VStr "unit.lifecycle.activate_failed" ->
  exists p, plan (decide_frame frame) frame ctx = Some p /\
    tool_name p = "system_activation_health_guard"%string /\
    dget "event_ids" (plan_args p) = Some (VList (vstrs (map event_id events))) /\
    (forall c, ctx = Some c -> str_or "target_app_id" "" c <> ""%string ->
       dget "app_id" (plan_args p) = Some (VStr (str_or "target_app_id" "" c))).
Proof.
  intros Hf Hev Ht. pose proof (frame_has_topic _ _ _ _ _ Hf Hev Ht ltac:(done)) as Htop.
  assert (delegated (decide_frame frame) = true) as Hd.
  { unfold decide_frame. destruct (first_wake (topics frame)) as [[r m]|] eqn:E; [done|].
    apply first_wake_None in E. rewrite Forall_forall in E.
    by specialize (E _ (has_topic_in _ _ Htop)). }
  assert (event_ids frame = map event_id events) as Hids by (unfold build_frame in Hf; by inv_ok).
  unfold plan, choose_tool. rewrite Hd. cbn. rewrite Htop. cbn. eexists. split; [reflexivity|].
  split; [done|]. rewrite <- Hids. cbn. split.
  - destruct ctx as [c|]; cbn; [destr_goal|]; dict_simpl; done.
  - intros c -> Hc. apply String.eqb_neq in Hc. cbn. rewrite Hc. cbn. by dict_simpl.
Qed.

(** ** Witnesses *)

Definition failed_events : list PerceptionEvent :=
  match normalize [] [({| env_hex := "01"; env_now := "t" |},
                       dict_of [("event_id", VStr "evt-1"); ("semantic_topic", VStr "unit.health.degraded")]);
                      ({| env_hex := "02"; env_now := "t" |},
                       dict_of [("event_id", VStr "evt-2"); ("semantic_topic", VStr "unit.lifecycle.activate_failed")])] with
  | Ok (evs, _) => evs
  | Raise _ => []
  end.
Definition failed_frame : PerceptionFrame :=
  match build_frame {| env_hex := "03"; env_now := "t" |} failed_events with
  | Ok f => f
  | Raise _ => {| frame_id := ""; event_ids := []; highest_priority := 0; topics := [] |}
  end.
Definition target_context : dict := dict_of [("target_app_id", VStr "demo")].

Lemma activate_failed_is_guarded_witness :
  exists p, plan (decide_frame failed_frame) failed_frame (Some target_context) = Some p /\
    tool_name p = "system_activation_health_guard"%string /\
    dget "event_ids" (plan_args p) = Some (VList (vstrs (map event_id failed_events))) /\
    (forall c, Some target_context = Some c -> str_or "target_app_id" "" c <> ""%string ->
       dget "app_id" (plan_args p) = Some (VStr (str_or "target_app_id" "" c))).
Proof.
  apply (activate_failed_is_guarded {| env_hex := "03"; env_now := "t" |} failed_events failed_frame
           (nth 1 failed_events (hd (nth 0 failed_events (nth 1 failed_events
              {| event_id := ""; source_kind := ""; event_type := ""; timestamp_wall := ""; source_node := VNone;
                 source_app := VNone; semantic_topic := VNone; timestamp_mono := VNone; priority := 0;
                 dedupe_key := VNone; causality_id := VNone; raw_payload_ref := VNone; policy_tags := [];
                 ev_payload := [] |})) failed_events)) (Some target_context)).
  - vm_compute. reflexivity.
  - vm_compute. right. left.
  - vm_compute. reflexivity.
Defined.
