(* ===== verification/Motivation.v ===== *)
(** * Vitality ([motivation.py])

    The bounded vitality score, its bands, and the signals that decay or
    replenish it. *)

From Stdlib Require Import ZArith Lia Bool List Ascii String.
From Stdlib.Floats Require Import SpecFloat.
From stdpp Require Import base list option strings.
From S2P Require Import Prelude PyFloat Text PyValue.

Open Scope Z_scope.

Definition VITALITY_POLICY_IMPACT : string := "salience_and_tone_only".

Inductive direction := Decay | Replenish.

#[export] Instance direction_eq_dec : EqDecision direction.
Proof. solve_decision. Defined.

Definition direction_str (d : direction) : string :=
  match d with Decay => "decay" | Replenish => "replenish" end.

Record VitalitySignal := {
  sg_reason : string;
  sg_direction : direction;
  sg_verified : bool;
  sg_magnitude : Z;
}.

(** [__post_init__]: the only way a signal is made. *)
Definition make_signal (reason : string) (d : direction) (verified : bool) (magnitude : Z)
    : result VitalitySignal :=
  if magnitude <? 1 then Raise (ValueError "vitality signal magnitude must be >= 1")
  else Ok {| sg_reason := reason; sg_direction := d; sg_verified := verified; sg_magnitude := magnitude |}.

Record VitalityPolicy := {
  min_score : Z;
  max_score : Z;
  relaxed_min : Z;
  attentive_min : Z;
  concerned_min : Z;
  decay_weights : list (string * Z);
  replenishment_weights : list (string * Z);
}.

Definition default_policy : VitalityPolicy := {|
  min_score := 0; max_score := 100; relaxed_min := 75; attentive_min := 45; concerned_min := 20;
  decay_weights := [("wall_clock_tick", 3); ("no_effective_interaction", 4); ("stale_memory", 5);
                    ("stalled_improvement", 6); ("unresolved_fault", 8); ("failed_test", 10)]%string;
  replenishment_weights := [("useful_interaction", 4); ("memory_consolidation", 6); ("tests_passed", 8);
                            ("unit_recovery", 10); ("approved_improvement", 12);
                            ("release_gate_passed", 14)]%string |}.

Definition weight (reason : string) (table : list (string * Z)) : option Z := od_get (fun s => s) reason table.

Definition clamp (p : VitalityPolicy) (score : Z) : Z := Z.max (min_score p) (Z.min (max_score p) score).

Definition state_for_score (p : VitalityPolicy) (score : Z) : string :=
  if relaxed_min p <=? score then "relaxed"
  else if attentive_min p <=? score then "attentive"
  else if concerned_min p <=? score then "concerned"
  else "critical".

Definition urgency_modifier_for_score (p : VitalityPolicy) (score : Z) : spec_float :=
  let state := state_for_score p score in
  if String.eqb state "relaxed" then flit (-2) 1
  else if String.eqb state "attentive" then flit 0 0
  else if String.eqb state "concerned" then flit 35 2
  else flit 7 1.

Definition delta_for (p : VitalityPolicy) (signal : VitalitySignal) : result Z :=
  match sg_direction signal with
  | Decay =>
      match weight (sg_reason signal) (decay_weights p) with
      | None => Raise (ValueError ("unknown vitality decay reason: " +:+ sg_reason signal))
      | Some w => Ok (- (w * sg_magnitude signal))
      end
  | Replenish =>
      if negb (sg_verified signal) then
        Raise (ValueError "vitality replenishment requires verified evidence before it can be applied")
      else
        match weight (sg_reason signal) (replenishment_weights p) with
        | None => Raise (ValueError ("unknown vitality replenishment reason: " +:+ sg_reason signal))
        | Some w => Ok (w * sg_magnitude signal)
        end
  end.

Record VitalityState := {
  vs_score : Z;
  vs_state : string;
  vs_last_decay_reason : option string;
  vs_last_replenishment_reason : option string;
  vs_urgency_modifier : spec_float;
  vs_policy_impact : string;
}.

Definition from_score (p : VitalityPolicy) (score : Z) (decay replenish : option string) : VitalityState :=
  let clamped_score := clamp p score in
  {| vs_score := clamped_score;
     vs_state := state_for_score p clamped_score;
     vs_last_decay_reason := decay;
     vs_last_replenishment_reason := replenish;
     vs_urgency_modifier := urgency_modifier_for_score p clamped_score;
     vs_policy_impact := VITALITY_POLICY_IMPACT |}.

Definition vitality_to_dict (v : VitalityState) : dict :=
  dict_of [("score", VInt (vs_score v)); ("state", VStr (vs_state v));
           ("last_decay_reason", opt_str (vs_last_decay_reason v));
           ("last_replenishment_reason", opt_str (vs_last_replenishment_reason v));
           ("urgency_modifier", VFloat (vs_urgency_modifier v));
           ("policy_impact", VStr (vs_policy_impact v))].

Record VitalityTransition := {
  vt_previous : VitalityState;
  vt_current : VitalityState;
  vt_applied_delta : Z;
  vt_signals : list VitalitySignal;
}.

Definition signal_to_dict (s : VitalitySignal) : pyval :=
  VDict (dict_of [("reason", VStr (sg_reason s)); ("direction", VStr (direction_str (sg_direction s)));
                  ("verified", VBool (sg_verified s)); ("magnitude", VInt (sg_magnitude s))]).

Definition transition_to_dict (t : VitalityTransition) : dict :=
  dict_of [("previous", VDict (vitality_to_dict (vt_previous t)));
           ("current", VDict (vitality_to_dict (vt_current t)));
           ("applied_delta", VInt (vt_applied_delta t));
           ("signals", VList (map signal_to_dict (vt_signals t)))].

(** The loop over the signals: score and the two last reasons. *)
Fixpoint run_signals (p : VitalityPolicy) (signals : list VitalitySignal)
    (acc : Z * option string * option string) : result (Z * option string * option string) :=
  match signals with
  | [] => Ok acc
  | s :: rest =>
      let '(next_score, last_decay, last_replenish) := acc in
      let! d := delta_for p s in
      match sg_direction s with
      | Decay => run_signals p rest (next_score + d, Some (sg_reason s), last_replenish)
      | Replenish => run_signals p rest (next_score + d, last_decay, Some (sg_reason s))
      end
  end.

Definition apply_vitality_signals (p : VitalityPolicy) (current : VitalityState)
    (signals : list VitalitySignal) : result VitalityTransition :=
  let! r := run_signals p signals
              (vs_score current, vs_last_decay_reason current, vs_last_replenishment_reason current) in
  let '(next_score, last_decay, last_replenish) := r in
  let next_state := from_score p next_score last_decay last_replenish in
  Ok {| vt_previous := current; vt_current := next_state;
        vt_applied_delta := vs_score next_state - vs_score current;
        vt_signals := signals |}.

(** ** Facts *)

(** The state invariant: in range, with the band and urgency of its score. *)
Definition vitality_ok (p : VitalityPolicy) (v : VitalityState) : Prop :=
  min_score p <= vs_score v <= max_score p /\
  vs_state v = state_for_score p (vs_score v) /\
  vs_urgency_modifier v = urgency_modifier_for_score p (vs_score v) /\
  vs_policy_impact v = VITALITY_POLICY_IMPACT.

Lemma from_score_ok p score d r : min_score p <= max_score p -> vitality_ok p (from_score p score d r).
Proof. intros H. unfold vitality_ok, from_score, clamp. cbn. split; [lia|done]. Qed.

(** The total change of a list of signals. *)
Definition total_delta (p : VitalityPolicy) (signals : list VitalitySignal) : result Z :=
  let! ds := rmap (delta_for p) signals in Ok (foldr Z.add 0 ds).

Lemma run_signals_score p signals : forall acc r,
  run_signals p signals acc = Ok r ->
  exists ds, Forall2 (fun s d => delta_for p s = Ok d) signals ds /\ r.1.1 = acc.1.1 + foldr Z.add 0 ds.
Proof.
  induction signals as [|s signals IH]; intros [[sc ld] lr] r H; cbn in H.
  - inv_ok. exists []. cbn. split; [constructor|lia].
  - inv_ok. destruct (sg_direction s); apply IH in H as (ds & Hds & Hr);
      exists (a :: ds); cbn in *; (split; [by constructor|lia]).
Qed.

Definition weights_positive (p : VitalityPolicy) : Prop :=
  Forall (fun kw => 0 < kw.2) (decay_weights p) /\ Forall (fun kw => 0 < kw.2) (replenishment_weights p).

Lemma weight_positive k table w : Forall (fun kw => 0 < kw.2) table -> weight k table = Some w -> 0 < w.
Proof.
  intros Hf Hw. destruct (od_get_elem_of _ _ _ _ Hw) as (k' & _ & Hin).
  rewrite Forall_forall in Hf. exact (Hf _ Hin).
Qed.

Lemma delta_sign p s d :
  weights_positive p -> 1 <= sg_magnitude s -> delta_for p s = Ok d ->
  match sg_direction s with Decay => d < 0 | Replenish => 0 < d /\ sg_verified s = true end.
Proof.
  intros [Hd Hr] Hm H. unfold delta_for in H. destruct (sg_direction s).
  - destruct (weight _ _) eqn:E; [|done]. inv_ok. apply weight_positive in E; [nia|done].
  - destruct (sg_verified s); cbn in H; [|done]. destruct (weight _ _) eqn:E; [|done]. inv_ok.
    apply weight_positive in E; [split; [nia|done]|done].
Qed.

Lemma sum_sign p signals ds :
  weights_positive p -> Forall (fun s => 1 <= sg_magnitude s) signals ->
  Forall2 (fun s d => delta_for p s = Ok d) signals ds ->
  0 < foldr Z.add 0 ds -> exists s, s ∈ signals /\ sg_direction s = Replenish /\ sg_verified s = true.
Proof.
  intros Hw Hm H. induction H as [|s d signals ds Hs Hds IH]; cbn; [lia|]. intros Hpos.
  apply Forall_cons in Hm as [Hm1 Hm]. pose proof (delta_sign _ _ _ Hw Hm1 Hs) as Hsg.
  destruct (sg_direction s) eqn:E.
  - destruct IH as (s' & ? & ?); [done|lia|]. exists s'. split; [by right|done].
  - exists s. split; [left|]. by destruct Hsg.
Qed.

Lemma make_signal_magnitude r d v m s : make_signal r d v m = Ok s -> 1 <= sg_magnitude s.
Proof. unfold make_signal. destruct (Z.ltb_spec m 1); [done|]. intros [= <-]. cbn. lia. Qed.

(** ** Properties *)

(** Applying signals yields a state in range with the band of its score,
    whose score is the clamped sum of the deltas, and a transition whose delta
    is the difference of the scores; it fails exactly when some signal has no
    delta (an unknown reason, or a replenishment without verification). *)
Theorem apply_signals_spec p current signals :
  min_score p <= max_score p ->
  match apply_vitality_signals p current signals with
  | Ok t => exists d, total_delta p signals = Ok d /\ vitality_ok p (vt_current t) /\
      vs_score (vt_current t) = clamp p (vs_score current + d) /\
      vt_previous t = current /\ vt_signals t = signals /\
      vs_score (vt_current t) = vs_score current + vt_applied_delta t
  | Raise e => exists s, s ∈ signals /\ delta_for p s = Raise e
  end.
Proof.
  intros Hp. unfold apply_vitality_signals. destruct (run_signals p signals _) as [[[sc ld] lr]|e] eqn:E.
  - cbn -[clamp]. destruct (run_signals_score _ _ _ _ E) as (ds & Hds & Hr). cbn in Hr. subst sc.
    exists (foldr Z.add 0 ds). split_and!; try done; [|by apply from_score_ok|lia].
    unfold total_delta. by rewrite (proj2 (rmap_ok_Forall2 (delta_for p) signals ds) Hds).
  - cbn. revert E. generalize (vs_score current, vs_last_decay_reason current, vs_last_replenishment_reason current).
    induction signals as [|s signals IH]; intros [[a b] c] H; cbn in H; [done|].
    destruct (delta_for p s) as [d|e'] eqn:Ed; cbn in H.
    + destruct (sg_direction s); apply IH in H as (s' & ? & ?); exists s'; (split; [by right|done]).
    + exists s. split; [left|congruence].
Qed.

(** Vitality does not rise by itself: when the score goes up, some applied
    signal is a replenishment with verified evidence. *)
Theorem vitality_rise_needs_verified p current signals t :
  weights_positive p -> min_score p <= max_score p -> vs_score current <= max_score p ->
  min_score p <= vs_score current ->
  Forall (fun s => exists r d v m, make_signal r d v m = Ok s) signals ->
  apply_vitality_signals p current signals = Ok t ->
  vs_score current < vs_score (vt_current t) ->
  exists s, s ∈ signals /\ sg_direction s = Replenish /\ sg_verified s = true.
Proof.
  intros Hw Hmm Hmax Hmin Hs H Hlt. unfold apply_vitality_signals in H. inv_ok.
  destruct a as [[sc ld] lr]. inv_ok. destruct (run_signals_score _ _ _ _ E) as (ds & Hds & Hr). cbn in Hr, Hlt.
  subst sc. apply (sum_sign p signals ds); [done| |done|unfold clamp in Hlt; lia].
  eapply Forall_impl; [exact Hs|]. intros s (r & d & v & m & Hm). by eapply make_signal_magnitude.
Qed.

(** ** Witnesses *)

Definition sample_state : VitalityState := from_score default_policy 40 None None.
Definition sample_signals : list VitalitySignal :=
  [{| sg_reason := "failed_test"; sg_direction := Decay; sg_verified := false; sg_magnitude := 1 |};
   {| sg_reason := "tests_passed"; sg_direction := Replenish; sg_verified := true; sg_magnitude := 3 |}].
Definition sample_transition : VitalityTransition :=
  match apply_vitality_signals default_policy sample_state sample_signals with
  | Ok t => t
  | Raise _ => {| vt_previous := sample_state; vt_current := sample_state; vt_applied_delta := 0; vt_signals := [] |}
  end.

Lemma apply_signals_spec_witness :
  min_score default_policy <= max_score default_policy /\
  match apply_vitality_signals default_policy sample_state sample_signals with
  | Ok t => exists d, total_delta default_policy sample_signals = Ok d /\ vitality_ok default_policy (vt_current t) /\
      vs_score (vt_current t) = clamp default_policy (vs_score sample_state + d) /\
      vt_previous t = sample_state /\ vt_signals t = sample_signals /\
      vs_score (vt_current t) = vs_score sample_state + vt_applied_delta t
  | Raise e => exists s, s ∈ sample_signals /\ delta_for default_policy s = Raise e
  end.
Proof. split; [cbn; lia|]. apply (apply_signals_spec default_policy). cbn. lia. Defined.

Lemma vitality_rise_needs_verified_witness :
  vs_score (vt_current sample_transition) = 54 /\
  exists s, s ∈ sample_signals /\ sg_direction s = Replenish /\ sg_verified s = true.
Proof.
  split; [vm_compute; reflexivity|].
  apply (vitality_rise_needs_verified default_policy sample_state sample_signals sample_transition).
  - split; repeat constructor.
  - cbn. lia.
  - vm_compute. discriminate.
  - vm_compute. discriminate.
  - repeat first [apply List.Forall_nil|apply List.Forall_cons].
    + by exists "failed_test"%string, Decay, false, 1.
    + by exists "tests_passed"%string, Replenish, true, 3.
  - vm_compute. reflexivity.
  - vm_compute. reflexivity.
Defined.
