(* ===== verification/SelfImprovement.v ===== *)
(** * Self-improvement proposals ([self_improvement.py])

    Proposals, their risk and sandbox classification, and the review that
    never lets one apply changes. *)

From Stdlib Require Import ZArith Lia Bool List Ascii String.
From stdpp Require Import base list option sets strings.
From S2P Require Import Prelude Text PyValue.

Open Scope Z_scope.

Definition PROHIBITED_SELF_IMPROVEMENT_ACTIONS : list string :=
  ["git_push"; "firmware_flash"; "credential_mutation"; "production_deploy"]%string.

Record ImprovementEvidence := {
  ie_tests_passed : bool;
  ie_lint_passed : bool;
  ie_smoke_passed : bool;
  ie_evidence_refs : list string;
}.

Definition no_evidence : ImprovementEvidence :=
  {| ie_tests_passed := false; ie_lint_passed := false; ie_smoke_passed := false; ie_evidence_refs := [] |}.

Definition verified_success (e : ImprovementEvidence) : bool :=
  ie_tests_passed e && ie_lint_passed e && ie_smoke_passed e.

Definition evidence_to_dict (e : ImprovementEvidence) : dict :=
  dict_of [("tests_passed", VBool (ie_tests_passed e)); ("lint_passed", VBool (ie_lint_passed e));
           ("smoke_passed", VBool (ie_smoke_passed e));
           ("evidence_refs", VList (vstrs (ie_evidence_refs e)));
           ("verified_success", VBool (verified_success e))].

Inductive risk := RiskLow | RiskMedium | RiskHigh.
Inductive sandbox := Simulation | IsolatedWorkspace.
Inductive proposal_status := Proposed | PendingApproval.

Definition risk_str (r : risk) : string :=
  match r with RiskLow => "low" | RiskMedium => "medium" | RiskHigh => "high" end.
Definition sandbox_str (s : sandbox) : string :=
  match s with Simulation => "simulation" | IsolatedWorkspace => "isolated_workspace" end.
Definition proposal_status_str (s : proposal_status) : string :=
  match s with Proposed => "proposed" | PendingApproval => "pending_approval" end.

Record ImprovementProposal := {
  ip_proposal_id : string;
  ip_source : string;
  ip_summary : string;
  ip_risk_level : risk;
  ip_sandbox_mode : sandbox;
  ip_status : proposal_status;
  ip_touches_code : bool;
  ip_targets_runtime : bool;
  ip_approval_required : bool;
  ip_prohibited_actions : list string;
  ip_evidence : ImprovementEvidence;
}.

Definition proposal_to_dict (p : ImprovementProposal) : dict :=
  dict_of [("proposal_id", VStr (ip_proposal_id p)); ("source", VStr (ip_source p));
           ("summary", VStr (ip_summary p)); ("risk_level", VStr (risk_str (ip_risk_level p)));
           ("sandbox_mode", VStr (sandbox_str (ip_sandbox_mode p)));
           ("status", VStr (proposal_status_str (ip_status p)));
           ("touches_code", VBool (ip_touches_code p)); ("targets_runtime", VBool (ip_targets_runtime p));
           ("approval_required", VBool (ip_approval_required p));
           ("prohibited_actions", VList (vstrs (ip_prohibited_actions p)));
           ("evidence", VDict (evidence_to_dict (ip_evidence p)))].

Inductive review_decision := DecisionPending | DecisionDenied | DecisionApproved.
Inductive execution_mode := SandboxOnly | NotExecuted.

Definition review_decision_str (d : review_decision) : string :=
  match d with DecisionPending => "pending_approval" | DecisionDenied => "denied" | DecisionApproved => "approved" end.
Definition execution_mode_str (m : execution_mode) : string :=
  match m with SandboxOnly => "sandbox_only" | NotExecuted => "not_executed" end.

Record ImprovementReview := {
  ir_proposal : ImprovementProposal;
  ir_decision : review_decision;
  ir_execution_mode : execution_mode;
  ir_can_apply_changes : bool;
  ir_vitality_replenishment_allowed : bool;
  ir_failure_reason : option string;
}.

Definition review_to_dict (r : ImprovementReview) : dict :=
  dict_of [("proposal", VDict (proposal_to_dict (ir_proposal r)));
           ("decision", VStr (review_decision_str (ir_decision r)));
           ("execution_mode", VStr (execution_mode_str (ir_execution_mode r)));
           ("can_apply_changes", VBool (ir_can_apply_changes r));
           ("vitality_replenishment_allowed", VBool (ir_vitality_replenishment_allowed r));
           ("failure_reason", opt_str (ir_failure_reason r))].

Definition classify_improvement_risk (source : string) (touches_code targets_runtime : bool) : risk :=
  if targets_runtime then RiskHigh
  else if touches_code || str_in source ["failed_test"; "maintenance_finding"]%string then RiskMedium
  else RiskLow.

Definition propose_self_improvement (proposal_id source summary : string)
    (touches_code targets_runtime : bool) (evidence : option ImprovementEvidence) : ImprovementProposal :=
  {| ip_proposal_id := proposal_id;
     ip_source := source;
     ip_summary := summary;
     ip_risk_level := classify_improvement_risk source touches_code targets_runtime;
     ip_sandbox_mode := if touches_code || targets_runtime then IsolatedWorkspace else Simulation;
     ip_status := PendingApproval;
     ip_touches_code := touches_code;
     ip_targets_runtime := targets_runtime;
     ip_approval_required := true;
     ip_prohibited_actions := PROHIBITED_SELF_IMPROVEMENT_ACTIONS;
     ip_evidence := match evidence with Some e => e | None => no_evidence end |}.

Definition review_self_improvement (proposal : ImprovementProposal) (approved : bool)
    (evidence : ImprovementEvidence) : ImprovementReview :=
  let reviewed :=
    {| ip_proposal_id := ip_proposal_id proposal;
       ip_source := ip_source proposal;
       ip_summary := ip_summary proposal;
       ip_risk_level := ip_risk_level proposal;
       ip_sandbox_mode := ip_sandbox_mode proposal;
       ip_status := ip_status proposal;
       ip_touches_code := ip_touches_code proposal;
       ip_targets_runtime := ip_targets_runtime proposal;
       ip_approval_required := ip_approval_required proposal;
       ip_prohibited_actions := ip_prohibited_actions proposal;
       ip_evidence := evidence |} in
  if negb approved then
    {| ir_proposal := reviewed; ir_decision := DecisionDenied; ir_execution_mode := NotExecuted;
       ir_can_apply_changes := false; ir_vitality_replenishment_allowed := false;
       ir_failure_reason := Some "operator_denied"%string |}
  else if negb (verified_success evidence) then
    {| ir_proposal := reviewed; ir_decision := DecisionApproved; ir_execution_mode := SandboxOnly;
       ir_can_apply_changes := false; ir_vitality_replenishment_allowed := false;
       ir_failure_reason := Some "verified_evidence_incomplete"%string |}
  else
    {| ir_proposal := reviewed; ir_decision := DecisionApproved; ir_execution_mode := SandboxOnly;
       ir_can_apply_changes := false; ir_vitality_replenishment_allowed := true;
       ir_failure_reason := None |}.

(** ** Properties *)

(** No review lets a proposal apply changes, whoever approves it and
    whatever its evidence; a proposal is executed in a sandbox exactly when it is
    approved, vitality is replenished exactly for an approved proposal with
    complete evidence, and the review keeps the proposal's risk, its sandbox
    (isolated whenever it touches code or the runtime) and its prohibitions. *)
Theorem review_never_applies_changes proposal_id source summary code runtime ev approved evidence :
  let p := propose_self_improvement proposal_id source summary code runtime ev in
  let r := review_self_improvement p approved evidence in
  ir_can_apply_changes r = false /\
  (ir_execution_mode r = SandboxOnly <-> approved = true) /\
  (ir_vitality_replenishment_allowed r = true <->
     approved = true /\ ie_tests_passed evidence = true /\ ie_lint_passed evidence = true /\
     ie_smoke_passed evidence = true) /\
  (ir_failure_reason r = None <-> ir_vitality_replenishment_allowed r = true) /\
  ip_approval_required (ir_proposal r) = true /\
  ip_prohibited_actions (ir_proposal r) = PROHIBITED_SELF_IMPROVEMENT_ACTIONS /\
  (ip_sandbox_mode (ir_proposal r) = Simulation <-> code = false /\ runtime = false) /\
  (ip_risk_level (ir_proposal r) = RiskHigh <-> runtime = true).
Proof.
  unfold review_self_improvement, verified_success.
  destruct approved, (ie_tests_passed evidence), (ie_lint_passed evidence), (ie_smoke_passed evidence),
    code, runtime; cbn; unfold classify_improvement_risk; cbn;
    try (destruct (_ || _)); naive_solver.
Qed.
