(* ===== verification/Contracts.v ===== *)
(** * Tool contracts ([tools.py]: [ToolContract] and the manifest; [policy.py]: [SideEffectLevel])

    The contract record, its dictionary form and the deterministic adapter's
    manifest. *)

From Stdlib Require Import ZArith Lia Bool List Ascii String.
From stdpp Require Import base list option sets strings.
From S2P Require Import Prelude Text PyValue.

Open Scope Z_scope.

Inductive SideEffectLevel :=
  | ObserveOnly | ReadOnly | SuggestOnly | LowRiskExecute | ApprovalRequired | Destructive.

#[export] Instance level_eq_dec : EqDecision SideEffectLevel.
Proof. solve_decision. Defined.

Definition level_value (l : SideEffectLevel) : string :=
  match l with
  | ObserveOnly => "observe_only"
  | ReadOnly => "read_only"
  | SuggestOnly => "suggest_only"
  | LowRiskExecute => "low_risk_execute"
  | ApprovalRequired => "approval_required"
  | Destructive => "destructive"
  end.

Definition all_levels : list SideEffectLevel :=
  [ObserveOnly; ReadOnly; SuggestOnly; LowRiskExecute; ApprovalRequired; Destructive].

(** [SideEffectLevel(text)] *)
Definition parse_level (s : string) : result SideEffectLevel :=
  match List.find (fun l => String.eqb (level_value l) s) all_levels with
  | Some l => Ok l
  | None => Raise (ValueError (repr_str s +:+ " is not a valid SideEffectLevel"))
  end.

Record ToolContract := {
  tool_name : string;
  description : string;
  side_effect_level : SideEffectLevel;
  argv_template : list string;
  resource : string;
  required_arguments : list string;
  required_resources : list string;
  timeout_seconds : Z;
  retryable : bool;
  approval_required : bool;
  cleanup_hint : pyval;
  output_contract : dict;
}.

(** [value[0]] *)
Definition py_index0 (v : pyval) : result pyval :=
  match v with
  | VList (x :: _) | VTuple (x :: _) => Ok x
  | VList [] | VTuple [] => Raise (IndexError "list index out of range")
  | VStr s => match code_points s with
              | c :: _ => Ok (VStr (of_code_points [c]))
              | [] => Raise (IndexError "string index out of range")
              end
  | VDict d => match dget (KInt 0) d with Some x => Ok x | None => Raise (KeyError "0") end
  | _ => Raise (TypeError "object is not subscriptable")
  end.

(** [tuple(str(item) for item in payload.get(key) or ())] *)
Definition str_tuple (key : string) (payload : dict) : result (list string) :=
  str_items (por (dgetn key payload) (VTuple [])).

Definition contract_from_dict (payload : dict) : result ToolContract :=
  let name := py_str (por (por (dgetn "name" payload) (dgetn "tool_name" payload)) (VStr "")) in
  let! level := parse_level (str_or "side_effect_level" "read_only" payload) in
  let! argv := str_tuple "argv_template" payload in
  let! rargs := str_tuple "required_arguments" payload in
  let! rres := str_items (por (por (dgetn "lease_requirements" payload) (dgetn "required_resources" payload)) (VTuple [])) in
  let! timeout := py_int (dget_or "timeout_seconds" (VInt 10) payload) in
  let! hint := py_index0 (por (dgetn "cleanup_hints" payload)
                              (VList [por (dgetn "cleanup_hint" payload) VNone])) in
  let! out := py_dict (por (dgetn "output_contract" payload) (VDict [])) in
  Ok {| tool_name := name;
        description := str_or "description" "" payload;
        side_effect_level := level;
        argv_template := argv;
        resource := str_or "resource" "" payload;
        required_arguments := rargs;
        required_resources := rres;
        timeout_seconds := timeout;
        retryable := py_truthy (dget_or "retryable" (VBool false) payload);
        approval_required := py_truthy (dget_or "approval_required" (VBool false) payload);
        cleanup_hint := hint;
        output_contract := out |}.

Definition contract_to_dict (c : ToolContract) : dict :=
  dict_of [("name", VStr (tool_name c)); ("description", VStr (description c));
           ("argv_template", VList (vstrs (argv_template c))); ("resource", VStr (resource c));
           ("required_arguments", VList (vstrs (required_arguments c)));
           ("side_effect_level", VStr (level_value (side_effect_level c)));
           ("lease_requirements", VList (vstrs (required_resources c)));
           ("timeout_seconds", VInt (timeout_seconds c)); ("retryable", VBool (retryable c));
           ("approval_required", VBool (approval_required c));
           ("cleanup_hints", VList (if py_truthy (cleanup_hint c) then [cleanup_hint c] else []));
           ("output_contract", VDict (output_contract c))].

(** ** The manifest of the deterministic adapter *)

Definition TOOL_MANIFEST_SCHEMA_VERSION : string := "1.2.0-tool-manifest-v1".

(** The manifest, in the order of the adapter: observation, guarded lifecycle and application control. *)
Definition observation_tools : list ToolContract := [
  {| tool_name := "system_query_device";
     description := "Read current Unit device/network state through the query plane.";
     side_effect_level := ReadOnly;
     argv_template := ["python"; "neuro_cli/scripts/invoke_neuro_cli.py"; "query"; "device"; "--output"; "json"];
     resource := "device query plane";
     required_arguments := ["--node"];
     required_resources := [];
     timeout_seconds := 10; retryable := true; approval_required := false;
     cleanup_hint := VNone;
     output_contract := dict_of [("format", VStr "json"); ("top_level_ok", VBool true); ("failure_statuses", VList (vstrs ["no_reply"; "query_failed"; "error_reply"; "parse_failed"]))] |};
  {| tool_name := "system_query_apps";
     description := "Read current Unit application lifecycle state through the query plane.";
     side_effect_level := ReadOnly;
     argv_template := ["python"; "neuro_cli/scripts/invoke_neuro_cli.py"; "query"; "apps"; "--output"; "json"];
     resource := "app query plane";
     required_arguments := ["--node"];
     required_resources := [];
     timeout_seconds := 10; retryable := true; approval_required := false;
     cleanup_hint := VNone;
     output_contract := dict_of [("format", VStr "json"); ("top_level_ok", VBool true); ("failure_statuses", VList (vstrs ["no_reply"; "query_failed"; "error_reply"; "parse_failed"]))] |};
  {| tool_name := "system_query_leases";
     description := "Read current active leases before any side-effecting action.";
     side_effect_level := ReadOnly;
     argv_template := ["python"; "neuro_cli/scripts/invoke_neuro_cli.py"; "query"; "leases"; "--output"; "json"];
     resource := "lease query plane";
     required_arguments := ["--node"];
     required_resources := [];
     timeout_seconds := 10; retryable := true; approval_required := false;
     cleanup_hint := VNone;
     output_contract := dict_of [("format", VStr "json"); ("top_level_ok", VBool true); ("failure_statuses", VList (vstrs ["no_reply"; "query_failed"; "error_reply"; "parse_failed"]))] |};
  {| tool_name := "system_state_sync";
     description := "Aggregate device, apps, leases, protocol, and agent runtime metadata into one read-only sync snapshot.";
     side_effect_level := ReadOnly;
     argv_template := ["python"; "neuro_cli/scripts/invoke_neuro_cli.py"; "system"; "state-sync"; "--output"; "json"];
     resource := "state sync aggregate";
     required_arguments := ["--node"];
     required_resources := [];
     timeout_seconds := 10; retryable := true; approval_required := false;
     cleanup_hint := VStr "review active leases before side-effecting commands";
     output_contract := dict_of [("format", VStr "json"); ("top_level_ok", VBool true); ("failure_statuses", VList (vstrs ["partial_failure"; "no_reply"; "query_failed"; "error_reply"; "parse_failed"]))] |}]%string.

Definition guard_tools : list ToolContract := [
  {| tool_name := "system_activation_health_guard";
     description := "Classify post-activation health from read-only state sync evidence before any recovery action.";
     side_effect_level := ReadOnly;
     argv_template := ["python"; "neuro_cli/scripts/invoke_neuro_cli.py"; "system"; "state-sync"; "--output"; "json"];
     resource := "post-activation health observation";
     required_arguments := ["--node"; "--app-id"];
     required_resources := [];
     timeout_seconds := 10; retryable := true; approval_required := false;
     cleanup_hint := VStr "treat rollback as an operator decision after reviewing health evidence";
     output_contract := dict_of [("format", VStr "json"); ("top_level_ok", VBool true); ("classification_statuses", VList (vstrs ["healthy"; "degraded"; "no_reply"; "rollback_required"]))] |};
  {| tool_name := "system_rollback_app";
     description := "Rollback a staged app update after explicit operator approval.";
     side_effect_level := ApprovalRequired;
     argv_template := ["python"; "neuro_cli/scripts/invoke_neuro_cli.py"; "deploy"; "rollback"; "--output"; "json"];
     resource := "neuro/<node>/update/app/<app-id>/rollback";
     required_arguments := ["--node"; "--app-id"; "--lease-id"];
     required_resources := ["update_rollback_lease"];
     timeout_seconds := 15; retryable := false; approval_required := true;
     cleanup_hint := VStr "confirm rollback evidence, lease ownership, and target app identity before resume";
     output_contract := dict_of [("format", VStr "json"); ("top_level_ok", VBool true); ("failure_statuses", VList (vstrs ["approval_required"; "lease_missing"; "control_failed"; "parse_failed"]))] |};
  {| tool_name := "system_capabilities";
     description := "Read stable Neuro CLI protocol, workflow, and agent runtime metadata.";
     side_effect_level := ObserveOnly;
     argv_template := ["python"; "neuro_cli/scripts/invoke_neuro_cli.py"; "system"; "capabilities"; "--output"; "json"];
     resource := "capability map";
     required_arguments := [];
     required_resources := [];
     timeout_seconds := 5; retryable := false; approval_required := false;
     cleanup_hint := VNone;
     output_contract := dict_of [("format", VStr "json"); ("top_level_ok", VBool true); ("failure_statuses", VList (vstrs ["parse_failed"]))] |}]%string.

Definition app_control_tools : list ToolContract := [
  {| tool_name := "system_restart_app";
     description := "Restart a Unit application through the control plane after explicit approval.";
     side_effect_level := ApprovalRequired;
     argv_template := ["python"; "neuro_cli/scripts/invoke_neuro_cli.py"; "control"; "app-restart"; "--output"; "json"];
     resource := "app control plane";
     required_arguments := ["--node"; "--app"];
     required_resources := ["app_control_lease"];
     timeout_seconds := 15; retryable := false; approval_required := true;
     cleanup_hint := VStr "confirm target app identity and active leases before restart";
     output_contract := dict_of [("format", VStr "json"); ("top_level_ok", VBool true); ("failure_statuses", VList (vstrs ["approval_required"; "lease_missing"; "control_failed"; "parse_failed"]))] |};
  {| tool_name := "system_start_app";
     description := "Start a Unit application through the control plane after explicit approval.";
     side_effect_level := ApprovalRequired;
     argv_template := ["python"; "neuro_cli/scripts/invoke_neuro_cli.py"; "app"; "start"; "--output"; "json"];
     resource := "app control plane";
     required_arguments := ["--node"; "--app-id"; "--lease-id"];
     required_resources := ["app_control_lease"];
     timeout_seconds := 15; retryable := false; approval_required := true;
     cleanup_hint := VStr "confirm target app identity and active leases before start";
     output_contract := dict_of [("format", VStr "json"); ("top_level_ok", VBool true); ("failure_statuses", VList (vstrs ["approval_required"; "lease_missing"; "control_failed"; "parse_failed"]))] |};
  {| tool_name := "system_stop_app";
     description := "Stop a Unit application through the control plane after explicit approval.";
     side_effect_level := ApprovalRequired;
     argv_template := ["python"; "neuro_cli/scripts/invoke_neuro_cli.py"; "app"; "stop"; "--output"; "json"];
     resource := "app control plane";
     required_arguments := ["--node"; "--app-id"; "--lease-id"];
     required_resources := ["app_control_lease"];
     timeout_seconds := 15; retryable := false; approval_required := true;
     cleanup_hint := VStr "confirm target app identity and active leases before stop";
     output_contract := dict_of [("format", VStr "json"); ("top_level_ok", VBool true); ("failure_statuses", VList (vstrs ["approval_required"; "lease_missing"; "control_failed"; "parse_failed"]))] |};
  {| tool_name := "system_unload_app";
     description := "Unload a Unit application through the control plane after explicit approval.";
     side_effect_level := ApprovalRequired;
     argv_template := ["python"; "neuro_cli/scripts/invoke_neuro_cli.py"; "app"; "unload"; "--output"; "json"];
     resource := "app control plane";
     required_arguments := ["--node"; "--app-id"; "--lease-id"];
     required_resources := ["app_control_lease"];
     timeout_seconds := 15; retryable := false; approval_required := true;
     cleanup_hint := VStr "confirm target app identity and active leases before unload";
     output_contract := dict_of [("format", VStr "json"); ("top_level_ok", VBool true); ("failure_statuses", VList (vstrs ["approval_required"; "lease_missing"; "control_failed"; "parse_failed"]))] |}]%string.

Definition tool_manifest : list ToolContract := observation_tools ++ guard_tools ++ app_control_tools.

Definition tool_manifest_payload : dict :=
  dict_of [("ok", VBool true); ("status", VStr "ok");
           ("schema_version", VStr TOOL_MANIFEST_SCHEMA_VERSION);
           ("tools", VList (map (fun c => VDict (contract_to_dict c)) tool_manifest))].

Definition parse_tool_manifest_payload (payload : dict) : result (list ToolContract) :=
  let! items := py_iter (por (dgetn "tools" payload) (VTuple [])) in
  rmap (fun item => let! d := py_dict item in contract_from_dict d) items.

Definition describe_tool (name : string) : option ToolContract :=
  List.find (fun c => String.eqb (tool_name c) name) tool_manifest.

(** ** Facts *)

Lemma parse_level_value l : parse_level (level_value l) = Ok l.
Proof. by destruct l. Qed.

Lemma parse_level_inv s l : parse_level s = Ok l -> level_value l = s.
Proof.
  unfold parse_level. destruct (List.find _ all_levels) as [l'|] eqn:E; [|done]. intros [= <-].
  apply find_some in E as [_ E]. by apply String.eqb_eq.
Qed.

Lemma str_items_vstrs l : str_items (VList (vstrs l)) = Ok l.
Proof. unfold str_items, vstrs. cbn. f_equal. induction l; cbn; congruence. Qed.

Lemma str_items_por l : str_items (por (VList (vstrs l)) (VTuple [])) = Ok l.
Proof. destruct l; [done|]. apply str_items_vstrs. Qed.

(** A contract whose cleanup hint is absent or not empty, as contracts are built. *)
Definition hint_ok (v : pyval) : Prop := v = VNone \/ py_truthy v = true.

Lemma contract_round_trip c : hint_ok (cleanup_hint c) -> contract_from_dict (contract_to_dict c) = Ok c.
Proof.
  intros Hh. unfold contract_from_dict, contract_to_dict, str_tuple, str_or. dict_simpl.
  rewrite !str_items_por.
  replace (por (VStr (level_value (side_effect_level c))) (VStr "read_only"))
    with (VStr (level_value (side_effect_level c))) by (by destruct (side_effect_level c)).
  rewrite py_str_VStr, parse_level_value. cbn [rbind py_int].
  replace (por (por (VList (vstrs (required_resources c))) VNone) (VTuple []))
    with (por (VList (vstrs (required_resources c))) (VTuple [])) by (by destruct (required_resources c)).
  rewrite str_items_por. cbn [rbind].
  replace (py_str (por (por (VStr (tool_name c)) VNone) (VStr ""))) with (tool_name c).
  2: { generalize (tool_name c) as s. intros s. unfold por. cbn. destruct (String.eqb_spec s "") as [->|Hs]; cbn; [done|]. apply String.eqb_neq in Hs. by rewrite Hs. }
  rewrite !py_str_por_empty.
  assert (py_index0 (por (VList (if py_truthy (cleanup_hint c) then [cleanup_hint c] else []))
            (VList [por VNone VNone])) = Ok (cleanup_hint c)) as ->.
  { destruct Hh as [->|Ht]; [done|]. by rewrite Ht. }
  assert (py_dict (por (VDict (output_contract c)) (VDict [])) = Ok (output_contract c)) as ->
    by (by destruct (output_contract c)).
  cbn [rbind]. by destruct c.
Qed.

Lemma manifest_hints : Forall (fun c => hint_ok (cleanup_hint c)) tool_manifest.
Proof. unfold tool_manifest, observation_tools, guard_tools, app_control_tools. cbn [app]. repeat (apply Forall_cons; split; [unfold hint_ok; cbn [cleanup_hint]; first [by left|by right]|]). constructor. Qed.

(** ** Properties *)

(** A tool contract survives its dictionary form (side effect level,
    lease requirements, approval flag and all other fields), and the manifest
    a client parses from the adapter's payload is the adapter's manifest. *)
Theorem contract_dict_roundtrip :
  (forall c, hint_ok (cleanup_hint c) -> contract_from_dict (contract_to_dict c) = Ok c) /\
  parse_tool_manifest_payload tool_manifest_payload = Ok tool_manifest.
Proof.
  split; [exact contract_round_trip|]. unfold parse_tool_manifest_payload, tool_manifest_payload.
  dict_simpl. replace (py_iter _) with (Ok (map (fun c => VDict (contract_to_dict c)) tool_manifest)) by done.
  cbn [rbind]. apply rmap_ok_Forall2. generalize manifest_hints.
  induction 1 as [|c l Hc Hl IH]; cbn [map]; constructor; [|done]. cbn [py_dict rbind].
  by apply contract_round_trip.
Qed.
