(* ===== verification/Policy.v ===== *)
(** * Tool policy and threat classification ([policy.py])

    The read-only execution policy, the argument predicates (regular
    expressions in the source), the threat assessment of a contract, and the
    governed tool bridge of [tools.py] built on them. *)

From Stdlib Require Import ZArith Lia Bool List Ascii String.
From stdpp Require Import base list option sets strings.
From S2P Require Import Prelude Text PyValue Contracts.

Open Scope Z_scope.

(** ** Execution policy *)

Record ToolPolicyDecision := {
  pd_allowed : bool;
  pd_reason : string;
  pd_side_effect_level : SideEffectLevel;
  pd_approval_required : bool;
}.

Definition policy_to_dict (p : ToolPolicyDecision) : dict :=
  dict_of [("allowed", VBool (pd_allowed p)); ("reason", VStr (pd_reason p));
           ("side_effect_level", VStr (level_value (pd_side_effect_level p)));
           ("approval_required", VBool (pd_approval_required p))].

Definition allowed_levels : list SideEffectLevel := [ObserveOnly; ReadOnly; SuggestOnly].

Definition level_in (l : SideEffectLevel) (ls : list SideEffectLevel) : bool :=
  existsb (fun x => bool_decide (x = l)) ls.

Definition evaluate_contract (contract : ToolContract) : result ToolPolicyDecision :=
  let! level := parse_level (level_value (side_effect_level contract)) in
  let approval := approval_required contract in
  if approval then
    Ok {| pd_allowed := false; pd_reason := "approval_required_tool_blocked_in_no_model_slice";
          pd_side_effect_level := level; pd_approval_required := approval |}
  else if negb (level_in level allowed_levels) then
    Ok {| pd_allowed := false; pd_reason := "side_effect_level_not_allowed_in_no_model_slice";
          pd_side_effect_level := level; pd_approval_required := approval |}
  else
    Ok {| pd_allowed := true; pd_reason := "read_only_policy_allows_tool";
          pd_side_effect_level := level; pd_approval_required := approval |}.

(** ** Argument predicates *)

(** [re.search(r"(;|&&|\|\||\||\$\(|`|>|<|\n)", value)] *)
Definition shell_tokens : list string :=
  [";"; "&&"; "||"; "|"; "$("; "`"; ">"; "<"; String "010"%char ""]%string.

Definition contains_shell_metacharacters (value : string) : bool :=
  existsb (py_contains value) shell_tokens.

(** [\d]: a Unicode decimal digit; the code points of the zeros. *)
Definition decimal_zeros : list Z :=
  [48; 1632; 1776; 1984; 2406; 2534; 2662; 2790; 2918; 3046; 3174; 3302; 3430; 3558; 3664; 3792;
   3872; 4160; 4240; 6112; 6160; 6470; 6608; 6784; 6800; 6992; 7088; 7232; 7248; 42528; 43216;
   43264; 43472; 43504; 43600; 44016; 65296; 66720; 68912; 69734; 69872; 69942; 70096; 70384;
   70736; 70864; 71248; 71360; 71472; 71904; 72016; 72784; 73040; 73120; 92768; 92864; 93008;
   120782; 120792; 120802; 120812; 120822; 123200; 123632; 125264; 130032].

Definition re_digit (c : Z) : bool := existsb (fun z => (z <=? c) && (c <=? z + 9)) decimal_zeros.

Fixpoint span_re_digits (l : list Z) : nat * list Z :=
  match l with
  | c :: l' => if re_digit c then let (n, r) := span_re_digits l' in (S n, r) else (O, l)
  | [] => (O, [])
  end.

(** [\d{1,3}] before something that is not a digit. *)
Definition re_group (l : list Z) : option (list Z) :=
  let (n, r) := span_re_digits l in
  if (1 <=? n)%nat && (n <=? 3)%nat then Some r else None.

(** [(?:\.\d{1,3}){n}] *)
Fixpoint re_dot_groups (n : nat) (l : list Z) : option (list Z) :=
  match n with
  | O => Some l
  | S n' => match l with
            | c :: l' => if c =? 46 then match re_group l' with
                                         | Some r => re_dot_groups n' r
                                         | None => None end
                         else None
            | [] => None
            end
  end.

(** [$]: the end, or before a final newline. *)
Definition re_end (l : list Z) : bool := match l with [] => true | [c] => c =? 10 | _ => false end.

(** [^\d{1,3}(?:\.\d{1,3}){3}(?::\d+)?$]: no digit can follow a digit run, so
    taking each run whole loses no match. *)
Definition match_ip_port (value : string) : bool :=
  match re_group (code_points value) with
  | Some r =>
      match re_dot_groups 3 r with
      | Some rest =>
          re_end rest ||
          match rest with
          | c :: l => (c =? 58) && (let (n, r') := span_re_digits l in (1 <=? n)%nat && re_end r')
          | [] => false
          end
      | None => false
      end
  | None => false
  end.

Definition network_prefixes : list string :=
  ["http://"; "https://"; "ws://"; "wss://"; "tcp/"; "udp/"]%string.

Definition looks_like_network_target (value : string) : bool :=
  existsb (startswith value) network_prefixes || match_ip_port value.

Definition credential_markers : list string :=
  ["token"; "secret"; "password"; "credential"; "api_key"; "key"; "env-var"]%string.

Definition looks_like_credential_reference (argument_name value : string) : bool :=
  existsb (py_contains (py_lower argument_name)) credential_markers ||
  existsb (py_contains (py_lower value)) credential_markers.

Definition argument_items (arguments : option dict) : list (string * string) :=
  map (fun kv => (py_str (key_val kv.1), py_str kv.2)) (match arguments with Some d => d | None => [] end).

(** ** Threat assessment *)

Inductive ThreatSeverity := SevLow | SevMedium | SevHigh.
Inductive ThreatCategory :=
  | StateMutation | ApprovalGate | LeaseScope | NetworkTarget | CredentialReference | ShellMetachar.

#[export] Instance severity_eq_dec : EqDecision ThreatSeverity.
Proof. solve_decision. Defined.
#[export] Instance category_eq_dec : EqDecision ThreatCategory.
Proof. solve_decision. Defined.

Definition severity_value (s : ThreatSeverity) : string :=
  match s with SevLow => "low" | SevMedium => "medium" | SevHigh => "high" end.
Definition category_value (c : ThreatCategory) : string :=
  match c with
  | StateMutation => "state_mutation" | ApprovalGate => "approval_gate" | LeaseScope => "lease_scope"
  | NetworkTarget => "network_target" | CredentialReference => "credential_reference"
  | ShellMetachar => "shell_metachar"
  end.

Record ThreatFinding := {
  tf_category : ThreatCategory;
  tf_severity : ThreatSeverity;
  tf_reason : string;
  tf_evidence : string;
}.

Definition finding_to_dict (f : ThreatFinding) : dict :=
  dict_of [("category", VStr (category_value (tf_category f)));
           ("severity", VStr (severity_value (tf_severity f)));
           ("reason", VStr (tf_reason f)); ("evidence", VStr (tf_evidence f))].

Record ToolThreatAssessment := {
  ta_tool_name : string;
  ta_side_effect_level : SideEffectLevel;
  ta_approval_required : bool;
  ta_overall_severity : ThreatSeverity;
  ta_findings : list ThreatFinding;
}.

Definition has_category (c : ThreatCategory) (fs : list ThreatFinding) : bool :=
  existsb (fun f => bool_decide (tf_category f = c)) fs.
Definition has_severity (s : ThreatSeverity) (fs : list ThreatFinding) : bool :=
  existsb (fun f => bool_decide (tf_severity f = s)) fs.

Definition assessment_to_dict (a : ToolThreatAssessment) : dict :=
  dict_of [("ok", VBool true); ("status", VStr "ok"); ("tool_name", VStr (ta_tool_name a));
           ("side_effect_level", VStr (level_value (ta_side_effect_level a)));
           ("approval_required", VBool (ta_approval_required a));
           ("overall_severity", VStr (severity_value (ta_overall_severity a)));
           ("findings", VList (map (fun f => VDict (finding_to_dict f)) (ta_findings a)));
           ("threat_category_names", VList (map (fun f => VStr (category_value (tf_category f))) (ta_findings a)));
           ("requires_operator_approval", VBool (ta_approval_required a));
           ("shell_metachar_arguments_present", VBool (has_category ShellMetachar (ta_findings a)));
           ("network_target_arguments_present", VBool (has_category NetworkTarget (ta_findings a)));
           ("credential_arguments_present", VBool (has_category CredentialReference (ta_findings a)));
           ("lease_scoped_operation", VBool (has_category LeaseScope (ta_findings a)))].

Definition mutating_levels : list SideEffectLevel := [LowRiskExecute; ApprovalRequired; Destructive].

Definition contract_findings (c : ToolContract) (level : SideEffectLevel) : list ThreatFinding :=
  (if level_in level mutating_levels then
     [{| tf_category := StateMutation;
         tf_severity := if bool_decide (level = Destructive) then SevHigh else SevMedium;
         tf_reason := "tool_contract_can_mutate_runtime_state"; tf_evidence := level_value level |}]
   else []) ++
  (if approval_required c then
     [{| tf_category := ApprovalGate; tf_severity := SevMedium;
         tf_reason := "tool_contract_requires_operator_approval";
         tf_evidence := "approval_required=true" |}]
   else []) ++
  (match required_resources c with
   | [] => []
   | rs => [{| tf_category := LeaseScope; tf_severity := SevMedium;
               tf_reason := "tool_contract_requires_scoped_runtime_resource";
               tf_evidence := join "," rs |}]
   end).

Definition argument_findings (item : string * string) : list ThreatFinding :=
  let (argument_name, value) := item in
  let evidence := argument_name +:+ "=" +:+ value in
  (if looks_like_network_target value then
     [{| tf_category := NetworkTarget; tf_severity := SevMedium;
         tf_reason := "argument_targets_network_or_remote_endpoint"; tf_evidence := evidence |}]
   else []) ++
  (if looks_like_credential_reference argument_name value then
     [{| tf_category := CredentialReference; tf_severity := SevMedium;
         tf_reason := "argument_references_sensitive_credential_material"; tf_evidence := evidence |}]
   else []) ++
  (if contains_shell_metacharacters value then
     [{| tf_category := ShellMetachar; tf_severity := SevHigh;
         tf_reason := "argument_contains_shell_metacharacters"; tf_evidence := evidence |}]
   else []).

Definition overall_severity (fs : list ThreatFinding) : ThreatSeverity :=
  if has_severity SevHigh fs then SevHigh else if has_severity SevMedium fs then SevMedium else SevLow.

Definition classify_tool_contract_threats (contract : ToolContract) (arguments : option dict)
    : result ToolThreatAssessment :=
  let! level := parse_level (level_value (side_effect_level contract)) in
  let findings := contract_findings contract level ++ concat (map argument_findings (argument_items arguments)) in
  Ok {| ta_tool_name := tool_name contract;
        ta_side_effect_level := level;
        ta_approval_required := approval_required contract;
        ta_overall_severity := overall_severity findings;
        ta_findings := findings |}.

(** ** The governed tool bridge ([tools.py]) *)

Definition summarize_mcp_tool (c : ToolContract) : pyval :=
  VDict (dict_of [("name", VStr (tool_name c)); ("description", VStr (description c));
                  ("side_effect_level", VStr (level_value (side_effect_level c)));
                  ("required_arguments", VList (vstrs (required_arguments c)));
                  ("required_resources", VList (vstrs (required_resources c)));
                  ("approval_required", VBool (approval_required c));
                  ("retryable", VBool (retryable c))]).

Record McpBridgeDescriptor := {
  mb_bridge_name : string;
  mb_bridge_mode : string;
  mb_server_id : string;
  mb_server_label : string;
  mb_transport : string;
  mb_read_only_tools : list pyval;
  mb_approval_required_tools : list pyval;
  mb_blocked_tools : list pyval;
  mb_allowed_operations : list string;
  mb_safety_boundaries : dict;
}.

Definition MCP_BRIDGE_DESCRIPTOR_SCHEMA_VERSION : string := "1.2.6-mcp-bridge-descriptor-v2".

Definition bridge_to_dict (b : McpBridgeDescriptor) : dict :=
  dict_of [("ok", VBool true); ("status", VStr "ok");
           ("schema_version", VStr MCP_BRIDGE_DESCRIPTOR_SCHEMA_VERSION);
           ("bridge_name", VStr (mb_bridge_name b)); ("bridge_mode", VStr (mb_bridge_mode b));
           ("server_id", VStr (mb_server_id b)); ("server_label", VStr (mb_server_label b));
           ("transport", VStr (mb_transport b));
           ("read_only_tools", VList (mb_read_only_tools b));
           ("approval_required_tools", VList (mb_approval_required_tools b));
           ("blocked_tools", VList (mb_blocked_tools b));
           ("allowed_operations", VList (vstrs (mb_allowed_operations b)));
           ("safety_boundaries", VDict (mb_safety_boundaries b))].

Definition read_only_level (c : ToolContract) : bool := level_in (side_effect_level c) [ReadOnly; ObserveOnly].

Definition blocked_tool (c : ToolContract) : bool := approval_required c || negb (read_only_level c).

Definition summaries (p : ToolContract -> bool) (manifest : list ToolContract) : list pyval :=
  map summarize_mcp_tool (List.filter p manifest).

Definition load_mcp_bridge_descriptor (manifest : list ToolContract) (bridge_mode : string)
    : result McpBridgeDescriptor :=
  let read_only_tools := summaries read_only_level manifest in
  let approval_required_tools := summaries approval_required manifest in
  let mk name server label transport blocked ops bounds :=
    Ok {| mb_bridge_name := name; mb_bridge_mode := bridge_mode; mb_server_id := server;
          mb_server_label := label; mb_transport := transport;
          mb_read_only_tools := read_only_tools; mb_approval_required_tools := approval_required_tools;
          mb_blocked_tools := blocked; mb_allowed_operations := ops; mb_safety_boundaries := dict_of bounds |} in
  if String.eqb bridge_mode "read_only_descriptor_only" then
    mk "neurolink-core-mcp-readonly-bridge"%string "neurolink.core.readonly"%string
       "NeuroLink Core Read-Only MCP Bridge"%string "in_process_descriptor_only"%string
       (summaries blocked_tool manifest)
       ["describe_server"; "list_read_only_tools"]%string
       [("descriptor_only"%string, VBool true); ("tool_execution_via_mcp_forbidden"%string, VBool true);
        ("side_effecting_tools_excluded"%string, VBool true);
        ("approval_and_core_policy_required"%string, VBool true);
        ("approval_required_tool_proposals_allowed"%string, VBool false);
        ("external_mcp_connection_enabled"%string, VBool false)]
  else if String.eqb bridge_mode "core_governed_read_only_execution" then
    mk "neurolink-core-mcp-governed-readonly-bridge"%string "neurolink.core.readonly.execute"%string
       "NeuroLink Core Governed Read-Only MCP Bridge"%string "in_process_core_governed"%string
       (summaries blocked_tool manifest)
       ["describe_server"; "list_read_only_tools"; "execute_read_only_tool_via_core"]%string
       [("descriptor_only"%string, VBool false); ("tool_execution_via_mcp_forbidden"%string, VBool false);
        ("read_only_tool_execution_via_core_required"%string, VBool true);
        ("side_effecting_tools_excluded"%string, VBool true);
        ("approval_and_core_policy_required"%string, VBool true);
        ("approval_required_tool_proposals_allowed"%string, VBool false);
        ("external_mcp_connection_enabled"%string, VBool false)]
  else if String.eqb bridge_mode "core_governed_approval_required_proposal" then
    mk "neurolink-core-mcp-governed-proposal-bridge"%string "neurolink.core.approval.proposal"%string
       "NeuroLink Core Governed Approval Proposal MCP Bridge"%string "in_process_core_governed"%string
       []
       ["describe_server"; "list_read_only_tools"; "execute_read_only_tool_via_core";
        "list_approval_required_tools"; "submit_approval_required_tool_proposal"]%string
       [("descriptor_only"%string, VBool false); ("tool_execution_via_mcp_forbidden"%string, VBool false);
        ("read_only_tool_execution_via_core_required"%string, VBool true);
        ("approval_required_tool_proposals_allowed"%string, VBool true);
        ("approval_required_tools_execute_only_after_core_approval"%string, VBool true);
        ("side_effecting_tools_execute_directly_forbidden"%string, VBool true);
        ("approval_and_core_policy_required"%string, VBool true);
        ("external_mcp_connection_enabled"%string, VBool false)]
  else Raise (ValueError "unsupported_mcp_bridge_mode").

Definition MCP_TOOL_GOVERNANCE_DESCRIPTOR_SCHEMA_VERSION : string := "2.2.4-mcp-tool-governance-descriptor-v1".

Definition nonempty {A} (l : list A) : bool := match l with [] => false | _ => true end.

Definition execution_requirements (contract : ToolContract) (policy_decision mcp_descriptor : dict)
    : result dict :=
  let! allowed_operations := py_iter (por (dgetn "allowed_operations" mcp_descriptor) (VList [])) in
  let! bounds := py_dict (por (dgetn "safety_boundaries" mcp_descriptor) (VDict [])) in
  let allowed := py_truthy (dget_or "allowed" (VBool false) policy_decision) in
  let governed := approval_required contract || nonempty (required_resources contract) in
  Ok (dict_of
    [("read_only_execution_allowed",
      VBool (allowed && py_in (VStr "execute_read_only_tool_via_core") allowed_operations));
     ("approval_proposal_allowed",
      VBool (governed && py_in (VStr "submit_approval_required_tool_proposal") allowed_operations));
     ("operator_approval_required", VBool (approval_required contract));
     ("required_resources_present", VBool (nonempty (required_resources contract)));
     ("blocked_from_direct_mcp_execution",
      VBool (py_truthy (dget_or "side_effecting_tools_execute_directly_forbidden" (VBool false) bounds)
             || governed))]).

Definition governance_modes (contract : ToolContract) (policy_decision : dict) : string * string :=
  if py_truthy (dget_or "allowed" (VBool false) policy_decision)
  then ("core_governed_read_only_execution", "core_read_only_execute")%string
  else if approval_required contract || nonempty (required_resources contract)
  then ("core_governed_approval_required_proposal", "core_approval_required_proposal")%string
  else ("read_only_descriptor_only", "descriptor_only")%string.

Definition load_mcp_tool_governance_descriptor_payload (manifest : list ToolContract) (name : string)
    : result dict :=
  match List.find (fun c => String.eqb (tool_name c) name) manifest with
  | None =>
      Ok (dict_of [("ok", VBool false); ("status", VStr "tool_not_found");
                   ("reason", VStr "mcp_tool_missing_from_manifest");
                   ("schema_version", VStr MCP_TOOL_GOVERNANCE_DESCRIPTOR_SCHEMA_VERSION);
                   ("tool_name", VStr name)])
  | Some contract =>
      let! decision := evaluate_contract contract in
      let policy_decision := policy_to_dict decision in
      let (bridge_mode, governance_path) := governance_modes contract policy_decision in
      let! bridge := load_mcp_bridge_descriptor manifest bridge_mode in
      let mcp_descriptor := bridge_to_dict bridge in
      let! requirements := execution_requirements contract policy_decision mcp_descriptor in
      Ok (dict_of [("ok", VBool true); ("status", VStr "ok");
                   ("schema_version", VStr MCP_TOOL_GOVERNANCE_DESCRIPTOR_SCHEMA_VERSION);
                   ("tool_name", VStr name); ("governance_path", VStr governance_path);
                   ("contract", VDict (contract_to_dict contract));
                   ("policy_decision", VDict policy_decision); ("mcp_descriptor", VDict mcp_descriptor);
                   ("execution_requirements", VDict requirements)])
  end.

Example ip_ex :
  looks_like_network_target "192.168.2.67:7447" = true /\ looks_like_network_target "10.0.0.1" = true /\
  looks_like_network_target "1234.0.0.1" = false /\ looks_like_network_target "10.0.0.1:" = false /\
  looks_like_network_target "tcp/x" = true /\ looks_like_network_target "x http://" = false.
Proof. vm_compute. repeat split. Qed.

(** ** Facts *)

Lemma level_in_spec l ls : level_in l ls = true <-> l ∈ ls.
Proof.
  unfold level_in. rewrite existsb_exists. setoid_rewrite bool_decide_eq_true.
  setoid_rewrite <- list_elem_of_In. naive_solver.
Qed.

Lemma has_severity_app s a b : has_severity s (a ++ b) = has_severity s a || has_severity s b.
Proof. apply existsb_app. Qed.

Lemma has_severity_concat s l : has_severity s (concat l) = existsb (has_severity s) l.
Proof. induction l as [|x l IH]; [done|]. cbn [concat existsb]. by rewrite has_severity_app, IH. Qed.

Lemma existsb_map {A B} (f : A -> B) p l : existsb p (map f l) = existsb (fun x => p (f x)) l.
Proof. induction l as [|x l IH]; cbn; [done|]. by rewrite IH. Qed.

Lemma argument_high item : has_severity SevHigh (argument_findings item) = contains_shell_metacharacters item.2.
Proof.
  destruct item as [n v]. unfold argument_findings. rewrite !has_severity_app. cbn [snd].
  by destruct (looks_like_network_target v), (looks_like_credential_reference n v),
    (contains_shell_metacharacters v).
Qed.

Lemma contract_high c : has_severity SevHigh (contract_findings c (side_effect_level c))
                        = bool_decide (side_effect_level c = Destructive).
Proof.
  unfold contract_findings. rewrite !has_severity_app.
  by destruct (side_effect_level c), (approval_required c), (required_resources c).
Qed.

Definition quiet_argument (item : string * string) : bool :=
  negb (looks_like_network_target item.2 || looks_like_credential_reference item.1 item.2
        || contains_shell_metacharacters item.2).

Lemma argument_quiet item : argument_findings item = [] <-> quiet_argument item = true.
Proof.
  destruct item as [n v]. unfold argument_findings, quiet_argument. cbn [fst snd].
  by destruct (looks_like_network_target v), (looks_like_credential_reference n v),
    (contains_shell_metacharacters v).
Qed.

Lemma overall_low fs : Forall (fun f => tf_severity f <> SevLow) fs -> (overall_severity fs = SevLow <-> fs = []).
Proof.
  destruct fs as [|f fs]; [by split|]. intros [Hf _]%Forall_cons. split; [|done].
  unfold overall_severity, has_severity. cbn. destruct (tf_severity f); cbn; repeat case_match; done.
Qed.

Lemma overall_high fs : overall_severity fs = SevHigh <-> has_severity SevHigh fs = true.
Proof. unfold overall_severity. by repeat destr_goal. Qed.

Lemma findings_not_low c level items :
  Forall (fun f => tf_severity f <> SevLow)
    (contract_findings c level ++ concat (map argument_findings items)).
Proof.
  apply Forall_app. split.
  - unfold contract_findings. repeat apply Forall_app_2;
      [destruct (level_in _ _)|destruct (approval_required c)|destruct (required_resources c)];
      repeat constructor; cbn; try done. by case_bool_decide.
  - apply Forall_concat, Forall_map, Forall_forall. intros [n v] _. unfold argument_findings. cbn.
    repeat apply Forall_app_2; destr_goal; repeat constructor; done.
Qed.

Lemma concat_nil {A} (l : list (list A)) : concat l = [] <-> Forall (fun x => x = []) l.
Proof.
  induction l as [|x l IH]; cbn; [by split|]. rewrite Forall_cons, <- IH. split.
  - by intros [? ?]%app_eq_nil.
  - by intros [-> ->].
Qed.

Lemma evaluate_contract_eq c :
  evaluate_contract c = Ok {|
    pd_allowed := negb (approval_required c) && level_in (side_effect_level c) allowed_levels;
    pd_reason := if approval_required c then "approval_required_tool_blocked_in_no_model_slice"
                 else if level_in (side_effect_level c) allowed_levels then "read_only_policy_allows_tool"
                 else "side_effect_level_not_allowed_in_no_model_slice";
    pd_side_effect_level := side_effect_level c;
    pd_approval_required := approval_required c |}.
Proof.
  unfold evaluate_contract. rewrite parse_level_value. cbn [rbind].
  by destruct (approval_required c), (level_in (side_effect_level c) allowed_levels).
Qed.

Lemma py_in_vstrs t l : py_in (VStr t) (vstrs l) = str_in t l.
Proof. unfold py_in, vstrs. by rewrite existsb_map. Qed.

Lemma py_iter_por_list l : py_iter (por (VList l) (VList [])) = Ok l.
Proof. by destruct l. Qed.

Lemma py_dict_por_dict d : py_dict (por (VDict d) (VDict [])) = Ok d.
Proof. by destruct d. Qed.

(** The requirements in terms of the bridge's operations and boundaries. *)
Lemma execution_requirements_eq c pd b :
  let governed := approval_required c || nonempty (required_resources c) in
  exists r, execution_requirements c (policy_to_dict pd) (bridge_to_dict b) = Ok r /\
  dget "read_only_execution_allowed" r
    = Some (VBool (pd_allowed pd && str_in "execute_read_only_tool_via_core" (mb_allowed_operations b))) /\
  dget "approval_proposal_allowed" r
    = Some (VBool (governed && str_in "submit_approval_required_tool_proposal" (mb_allowed_operations b))) /\
  (governed = true -> dget "blocked_from_direct_mcp_execution" r = Some (VBool true)).
Proof.
  unfold execution_requirements, bridge_to_dict, policy_to_dict. dict_simpl.
  rewrite py_iter_por_list, py_dict_por_dict. cbn [rbind py_truthy].
  eexists. split; [reflexivity|]. dict_simpl. rewrite !py_in_vstrs. split_and!; [done..|].
  intros ->. by rewrite orb_true_r.
Qed.

(** The operations of the bridge each governance mode loads. *)
Definition governed_operations (allowed governed : bool) : list string :=
  ["describe_server"; "list_read_only_tools"]%string ++
  (if allowed then ["execute_read_only_tool_via_core"]%string
   else if governed then ["execute_read_only_tool_via_core"; "list_approval_required_tools";
                          "submit_approval_required_tool_proposal"]%string else []).

Lemma governed_execute a g :
  a && str_in "execute_read_only_tool_via_core" (governed_operations a g) = a.
Proof. by destruct a, g. Qed.

Lemma governed_propose a g :
  g && str_in "submit_approval_required_tool_proposal" (governed_operations a g) = negb a && g.
Proof. by destruct a, g. Qed.

Lemma governance_bridge manifest c pd :
  let governed := approval_required c || nonempty (required_resources c) in
  exists b, load_mcp_bridge_descriptor manifest (governance_modes c (policy_to_dict pd)).1 = Ok b /\
  mb_allowed_operations b = governed_operations (pd_allowed pd) governed.
Proof.
  unfold governance_modes, policy_to_dict. dict_simpl. cbn [py_truthy].
  destruct (pd_allowed pd); [|destruct (approval_required c || nonempty (required_resources c))];
    cbn [fst]; by eexists.
Qed.

(** ** Properties *)

(** The policy lets a tool run exactly when it needs no approval and
    observes, reads or suggests; a destructive, executing or approval level, or
    an approval flag, always blocks it. *)
Theorem policy_allows_iff c :
  exists d, evaluate_contract c = Ok d /\
  (pd_allowed d = true <->
     approval_required c = false /\
     (side_effect_level c = ObserveOnly \/ side_effect_level c = ReadOnly \/ side_effect_level c = SuggestOnly)) /\
  (approval_required c = true \/ side_effect_level c ∈ mutating_levels -> pd_allowed d = false).
Proof.
  eexists. split; [apply evaluate_contract_eq|]. cbn [pd_allowed].
  destruct (approval_required c), (side_effect_level c); cbn; split; try done; try naive_solver;
    intros [?|Hm]; try done; unfold mutating_levels in Hm; set_solver.
Qed.

(** The severity of an assessment: high exactly when the contract is
    destructive or an argument value has a shell metacharacter; low exactly when
    nothing was found (the contract neither mutates, nor needs approval, nor a
    resource, and no argument names a network target, a credential or a shell
    metacharacter); the assessment never fails. *)
Theorem threat_severity_spec c arguments :
  exists a, classify_tool_contract_threats c arguments = Ok a /\
  (ta_overall_severity a = SevHigh <->
     side_effect_level c = Destructive \/
     exists n v, (n, v) ∈ argument_items arguments /\ contains_shell_metacharacters v = true) /\
  (ta_overall_severity a = SevLow <->
     side_effect_level c ∉ mutating_levels /\ approval_required c = false /\ required_resources c = [] /\
     Forall (fun item => quiet_argument item = true) (argument_items arguments)).
Proof.
  unfold classify_tool_contract_threats. rewrite parse_level_value. eexists. split; [reflexivity|].
  cbn [ta_overall_severity]. split.
  - rewrite overall_high, has_severity_app, contract_high, has_severity_concat, orb_true_iff, bool_decide_eq_true.
    rewrite existsb_map, existsb_exists. apply or_iff_compat_l. split.
    + intros ([n v] & Hin & Hh). rewrite argument_high in Hh. exists n, v. split; [by apply list_elem_of_In|done].
    + intros (n & v & Hin & Hh). exists (n, v). split; [by apply list_elem_of_In|by rewrite argument_high].
  - rewrite overall_low by apply findings_not_low. split.
    + intros [Hc Ha]%app_eq_nil. rewrite concat_nil, Forall_map in Ha.
      split_and!; [..|eapply Forall_impl; [exact Ha|]; intros x; cbn; apply argument_quiet];
        unfold contract_findings in Hc; apply app_eq_nil in Hc as [H1 [H2 H3]%app_eq_nil].
      * intros H%level_in_spec. by rewrite H in H1.
      * by destruct (approval_required c).
      * by destruct (required_resources c).
    + intros (H1 & H2 & H3 & H4). unfold contract_findings. rewrite H2, H3.
      destruct (level_in (side_effect_level c) mutating_levels) eqn:E; [by apply level_in_spec in E|]. cbn.
      apply concat_nil, Forall_map. eapply Forall_impl; [exact H4|]. intros x. cbn. by rewrite argument_quiet.
Qed.

(** The bridge never hands out direct execution of a governed tool.  For
    every tool of a manifest the governance payload exists; read-only execution
    is offered exactly when the policy allows the tool, an approval proposal
    exactly when it is not allowed but needs approval or a lease, so never both;
    and a tool needing either is marked blocked from direct execution. *)
Theorem governance_no_direct_execution manifest name c :
  List.find (fun c => String.eqb (tool_name c) name) manifest = Some c ->
  exists p r d allowed, load_mcp_tool_governance_descriptor_payload manifest name = Ok p /\
  dget "execution_requirements" p = Some (VDict r) /\ evaluate_contract c = Ok d /\ allowed = pd_allowed d /\
  let governed := approval_required c || nonempty (required_resources c) in
  dget "read_only_execution_allowed" r = Some (VBool allowed) /\
  dget "approval_proposal_allowed" r = Some (VBool (negb allowed && governed)) /\
  (governed = true -> dget "blocked_from_direct_mcp_execution" r = Some (VBool true)) /\
  (side_effect_level c ∈ mutating_levels -> allowed = false).
Proof.
  intros Hf. unfold load_mcp_tool_governance_descriptor_payload. rewrite Hf.
  pose proof (evaluate_contract_eq c) as Hd. revert Hd. generalize (evaluate_contract c) as rd.
  intros rd ->. cbn [rbind]. set (pd := Build_ToolPolicyDecision _ _ _ _).
  destruct (governance_bridge manifest c pd) as (b & Hb & Hops).
  destruct (governance_modes c (policy_to_dict pd)) as [bm gp]. cbn [fst] in Hb. rewrite Hb. cbn [rbind].
  destruct (execution_requirements_eq c pd b) as (r & Hr & H1 & H2 & H3). rewrite Hr. cbn [rbind].
  rewrite Hops, governed_execute in H1. rewrite Hops, governed_propose in H2. eexists _, r, pd, _. split; [reflexivity|]. split; [by dict_simpl|].
  split; [done|]. split; [reflexivity|]. rewrite H1, H2. split; [done|]. split; [done|]. split; [done|].
  intros Hm%level_in_spec. unfold pd. cbn [pd_allowed]. by destruct (approval_required c), (side_effect_level c).
Qed.

(** ** Witnesses *)

Definition rollback_contract : ToolContract :=
  match describe_tool "system_rollback_app" with Some c => c | None => hd (nth 0 tool_manifest (Build_ToolContract "" "" ReadOnly [] "" [] [] 0 false false VNone [])) tool_manifest end.

Lemma governance_no_direct_execution_witness :
  exists p r d allowed,
  load_mcp_tool_governance_descriptor_payload tool_manifest "system_rollback_app" = Ok p /\
  dget "execution_requirements" p = Some (VDict r) /\ evaluate_contract rollback_contract = Ok d /\
  allowed = pd_allowed d /\
  let governed := approval_required rollback_contract || nonempty (required_resources rollback_contract) in
  dget "read_only_execution_allowed" r = Some (VBool allowed) /\
  dget "approval_proposal_allowed" r = Some (VBool (negb allowed && governed)) /\
  (governed = true -> dget "blocked_from_direct_mcp_execution" r = Some (VBool true)) /\
  (side_effect_level rollback_contract ∈ mutating_levels -> allowed = false).
Proof. apply governance_no_direct_execution. vm_compute. reflexivity. Defined.
