(* ===== verification/Json.v ===== *)
(** * [json.dumps] and [hashlib.sha256]

    The canonical JSON text ([sort_keys=True], compact separators, ASCII
    escapes) and the SHA-256 digest the program's stable hashes are made of. *)

From Stdlib Require Import ZArith Lia Bool List Ascii String.
From Stdlib.Floats Require Import SpecFloat.
From stdpp Require Import base list option strings sorting.
From S2P Require Import Prelude PyFloat Text PyValue CborCodec.

Open Scope Z_scope.

(** ** JSON text *)

(** [{:04x}] of a 16-bit unit. *)
Definition hex4 (n : Z) : string :=
  string_of_list_ascii (map (fun k => hex_digit (Z.shiftr n k mod 16)) [12; 8; 4; 0]).

Definition json_escape (c : Z) : string :=
  if (c =? 34) || (c =? 92) then String "092"%char (string_of_bytes [c])
  else if c =? 10 then "\n"
  else if c =? 13 then "\r"
  else if c =? 9 then "\t"
  else if c =? 12 then "\f"
  else if c =? 8 then "\b"
  else if (32 <=? c) && (c <=? 126) then string_of_bytes [c]
  else if c <? 65536 then "\u" +:+ hex4 c
  else let v := c - 65536 in
       "\u" +:+ hex4 (55296 + v / 1024) +:+ "\u" +:+ hex4 (56320 + v mod 1024).

Definition quote_mark : string := String "034"%char "".

Definition json_str (s : string) : string :=
  quote_mark +:+ join "" (map json_escape (code_points s)) +:+ quote_mark.

Definition json_float (f : spec_float) : string :=
  match f with
  | S754_nan => "NaN"
  | S754_infinity s => if s then "-Infinity" else "Infinity"
  | _ => float_repr f
  end.

Definition json_key (k : pykey) : string :=
  match k with
  | KStr s => json_str s
  | KInt z => json_str (string_of_Z z)
  | KBool b => json_str (if b then "true" else "false")
  end.

(** [json.dumps(value, sort_keys=True, separators=(comma, colon))] *)
Fixpoint json_text (comma colon : string) (v : pyval) : result string :=
  match v with
  | VNone => Ok "null"
  | VBool b => Ok (if b then "true" else "false")
  | VInt z => Ok (string_of_Z z)
  | VFloat f => Ok (json_float f)
  | VStr s => Ok (json_str s)
  | VList l | VTuple l =>
      let! parts := sequence (map (json_text comma colon) l) in Ok ("[" +:+ join comma parts +:+ "]")
  | VDict d =>
      let! items := sorted_items (map (fun kv => match kv with (k, x) => (k, json_text comma colon x) end) d) in
      let! parts := sequence (map (fun kv => let! t := kv.2 in Ok (json_key kv.1 +:+ colon +:+ t)) items) in
      Ok ("{" +:+ join comma parts +:+ "}")
  end.

(** [separators=(",", ":")] *)
Definition json_dumps (v : pyval) : result string := json_text "," ":" v.

(** ** SHA-256 *)

Definition w32 (z : Z) : Z := Z.land z 4294967295.
Definition rotr (x n : Z) : Z := Z.lor (Z.shiftr x n) (w32 (Z.shiftl x (32 - n))).
Definition xor3 (a b c : Z) : Z := Z.lxor a (Z.lxor b c).

Definition sha_k : list Z :=
  [1116352408; 1899447441; 3049323471; 3921009573; 961987163; 1508970993; 2453635748; 2870763221;
3624381080; 310598401; 607225278; 1426881987; 1925078388; 2162078206; 2614888103; 3248222580;
3835390401; 4022224774; 264347078; 604807628; 770255983; 1249150122; 1555081692; 1996064986;
2554220882; 2821834349; 2952996808; 3210313671; 3336571891; 3584528711; 113926993; 338241895;
666307205; 773529912; 1294757372; 1396182291; 1695183700; 1986661051; 2177026350; 2456956037;
2730485921; 2820302411; 3259730800; 3345764771; 3516065817; 3600352804; 4094571909; 275423344;
430227734; 506948616; 659060556; 883997877; 958139571; 1322822218; 1537002063; 1747873779;
1955562222; 2024104815; 2227730452; 2361852424; 2428436474; 2756734187; 3204031479; 3329325298].

Definition sha_h0 : list Z :=
  [1779033703; 3144134277; 1013904242; 2773480762; 1359893119; 2600822924; 528734635; 1541459225].

(** Message schedule: the newest word first. *)
Fixpoint sha_extend (n : nat) (w : list Z) : list Z :=
  match n with
  | O => w
  | S n' =>
      let w2 := nth 1 w 0 in let w7 := nth 6 w 0 in let w15 := nth 14 w 0 in let w16 := nth 15 w 0 in
      let s0 := xor3 (rotr w15 7) (rotr w15 18) (Z.shiftr w15 3) in
      let s1 := xor3 (rotr w2 17) (rotr w2 19) (Z.shiftr w2 10) in
      sha_extend n' (w32 (w16 + s0 + w7 + s1) :: w)
  end.

Definition sha_round (st : list Z) (kw : Z * Z) : list Z :=
  match st with
  | [a; b; c; d; e; f; g; h] =>
      let s1 := xor3 (rotr e 6) (rotr e 11) (rotr e 25) in
      let ch := Z.lxor (Z.land e f) (Z.land (Z.lxor e 4294967295) g) in
      let t1 := w32 (h + s1 + ch + kw.1 + kw.2) in
      let s0 := xor3 (rotr a 2) (rotr a 13) (rotr a 22) in
      let maj := xor3 (Z.land a b) (Z.land a c) (Z.land b c) in
      [w32 (t1 + w32 (s0 + maj)); a; b; c; w32 (d + t1); e; f; g]
  | _ => st
  end.

Definition sha_block (h : list Z) (words : list Z) : list Z :=
  let w := rev (sha_extend 48 (rev words)) in
  map (fun p => w32 (p.1 + p.2)) (combine h (foldl sha_round h (combine sha_k w))).

Fixpoint words_of (fuel : nat) (l : list Z) : list Z :=
  match fuel, l with
  | S f, a :: b :: c :: d :: l' => (a * 16777216 + b * 65536 + c * 256 + d) :: words_of f l'
  | _, _ => []
  end.

Fixpoint sha_blocks (fuel : nat) (h : list Z) (ws : list Z) : list Z :=
  match fuel, ws with
  | S f, _ :: _ => sha_blocks f (sha_block h (take 16 ws)) (drop 16 ws)
  | _, _ => h
  end.

Definition sha_pad (m : list Z) : list Z :=
  let n := Z.of_nat (length m) in
  m ++ 128 :: repeat 0 (Z.to_nat ((55 - n) mod 64)) ++ be_bytes 8 (n * 8).

Definition sha256 (m : list Z) : list Z :=
  let p := sha_pad m in
  flat_map (be_bytes 4) (sha_blocks (length p) sha_h0 (words_of (length p) p)).

Example sha256_abc :
  hex_of_bytes (sha256 [97; 98; 99])
  = "ba7816bf8f01cfea414140de5dae2223b00361a396177a9cb410ff61f20015ad"%string.
Proof. vm_compute. reflexivity. Qed.

(** [hashlib.sha256(json.dumps(...).encode("utf-8")).hexdigest()] *)
Definition stable_hash (payload : dict) : result string :=
  let! encoded := json_dumps (VDict payload) in
  let! bytes := encode_utf8 encoded in
  Ok (hex_of_bytes (sha256 bytes)).

Example json_ex :
  json_dumps (VDict [(KStr "b", VList [VInt 1; VFloat (flit 5 1); VNone]); (KStr "a", VStr ("x" +:+ string_of_bytes [195; 169; 10]))])
  = Ok (join quote_mark ["{"; "a"; ":"; "x\u00e9\n"; ","; "b"; ":[1,0.5,null]}"]%string).
Proof. vm_compute. reflexivity. Qed.

(** ** The stable hash is total on dictionaries with text keys *)

Inductive json_safe : pyval -> Prop :=
  | safe_none : json_safe VNone
  | safe_bool b : json_safe (VBool b)
  | safe_int z : json_safe (VInt z)
  | safe_float f : json_safe (VFloat f)
  | safe_str s : json_safe (VStr s)
  | safe_list l : Forall json_safe l -> json_safe (VList l)
  | safe_tuple l : Forall json_safe l -> json_safe (VTuple l)
  | safe_dict d : Forall (fun kv => key_is_str kv.1 = true /\ json_safe kv.2) d -> json_safe (VDict d).

Definition ascii_str (s : string) : Prop := Forall (fun b => 0 <= b < 128) (bytes_of_string s).

Lemma ascii_cons c s : byte_of c < 128 -> ascii_str s -> ascii_str (String c s).
Proof. intros Hc Hs. constructor; [|done]. pose proof (byte_of_range c). lia. Qed.

Lemma ascii_app s t : ascii_str s -> ascii_str t -> ascii_str (s +:+ t).
Proof. unfold ascii_str. rewrite bytes_of_string_app. apply Forall_app_2. Qed.

Lemma ascii_join sep l : ascii_str sep -> Forall ascii_str l -> ascii_str (join sep l).
Proof.
  intros Hsep. induction 1 as [|s l Hs Hl IH]; [constructor|]. destruct l as [|t l]; [done|].
  change (ascii_str (s +:+ sep +:+ join sep (t :: l))). auto using ascii_app.
Qed.

Lemma ascii_byte z : 0 <= z < 128 -> byte_of (ascii_of z) < 128.
Proof. intros H. rewrite byte_of_ascii_of; lia. Qed.

Definition ascii_strb (s : string) : bool := forallb (fun b => (0 <=? b) && (b <? 128)) (bytes_of_string s).

Lemma ascii_strb_ok s : ascii_strb s = true -> ascii_str s.
Proof.
  unfold ascii_strb, ascii_str. rewrite forallb_forall, Forall_forall. intros H b Hb%list_elem_of_In.
  specialize (H _ Hb). bool_prop. lia.
Qed.

(** A closed text is checked by computation. *)
Ltac ascii_lit := apply ascii_strb_ok; vm_compute; reflexivity.

Lemma ascii_hex4 n : ascii_str (hex4 n).
Proof.
  unfold hex4. cbn [map string_of_list_ascii].
  repeat (apply ascii_cons; [unfold hex_digit; apply ascii_byte;
    match goal with |- context [?x mod 16] => pose proof (Z.mod_pos_bound x 16 ltac:(lia)) end;
    destr_goal; bool_prop; lia|]). constructor.
Qed.

Lemma ascii_escape c : ascii_str (json_escape c).
Proof.
  assert (forall b, 0 <= b < 128 -> ascii_str (string_of_bytes [b])) as Hb
    by (intros b ?; apply ascii_cons; [by apply ascii_byte|constructor]).
  unfold json_escape.
  destruct ((c =? 34) || (c =? 92)) eqn:E1.
  { apply ascii_cons; [done|]. apply Hb. apply orb_true_iff in E1 as [?|?]; bool_prop; lia. }
  do 5 (match goal with |- context [c =? ?k] => destruct (c =? k) end; [ascii_lit|]).
  destruct ((32 <=? c) && (c <=? 126)) eqn:E2; [apply Hb; bool_prop; lia|].
  destruct (c <? 65536); repeat apply ascii_app; try apply ascii_hex4; ascii_lit.
Qed.

Lemma ascii_json_str s : ascii_str (json_str s).
Proof.
  unfold json_str. repeat apply ascii_app; [ascii_lit| |ascii_lit].
  apply ascii_join; [constructor|]. apply Forall_map, Forall_forall. intros. apply ascii_escape.
Qed.

Lemma ascii_digits fuel z acc : 0 <= z -> ascii_str acc -> ascii_str (digits_of fuel z acc).
Proof.
  revert z acc. induction fuel as [|f IH]; intros z acc Hz Ha; [done|]. cbn [digits_of].
  pose proof (Z.mod_pos_bound z 10 ltac:(lia)) as Hm.
  assert (ascii_str (String (ascii_of_N (Z.to_N (48 + z mod 10))) acc)) as H.
  { apply ascii_cons; [|done]. apply (ascii_byte (48 + z mod 10)). lia. }
  destruct (z <? 10); [done|]. apply IH; [|done]. apply Z.div_pos; lia.
Qed.

Lemma ascii_string_of_Z z : ascii_str (string_of_Z z).
Proof.
  unfold string_of_Z. assert (ascii_str (digits_of (S (Z.to_nat (Z.log2 (Z.abs z)))) (Z.abs z) "")) as H
    by (apply ascii_digits; [lia|constructor]).
  destruct (z <? 0); [|done]. apply ascii_app; [ascii_lit|done].
Qed.

Lemma ascii_substring n m s : ascii_str s -> ascii_str (String.substring n m s).
Proof.
  revert n m. induction s as [|c s IH]; intros n m H; [destruct n, m; constructor|].
  inversion H as [|? ? Hc Hs]; subst.
  destruct n as [|n]; [destruct m as [|m]|]; cbn; [constructor| |by apply IH].
  apply ascii_cons; [lia|by apply IH].
Qed.

Lemma ascii_zeros n : ascii_str (zeros n).
Proof. induction n; [constructor|]. by apply ascii_cons. Qed.

#[local] Hint Resolve ascii_app ascii_substring ascii_zeros ascii_string_of_Z ascii_json_str : ascii.

Lemma ascii_layout ds q : ascii_str ds -> ascii_str (layout ds q).
Proof.
  intros H. unfold layout, string_take, string_drop.
  assert (forall n m, ascii_str (String.substring n m ds)) as Hs by auto with ascii.
  repeat destr_goal; repeat apply ascii_app; auto with ascii; try ascii_lit.
Qed.

Lemma ascii_json_float f : ascii_str (json_float f).
Proof.
  destruct f as [s|s| |s m e]; [destruct s; ascii_lit..|ascii_lit|].
  unfold json_float, float_repr. destruct (frac_of m e) as [num den].
  destruct (shortest _ _ _ _ _ _) as [n q]. destruct (strip_zeros 20 n q) as [n' q'].
  assert (ascii_str (layout (string_of_Z n') q')) as H by apply ascii_layout, ascii_string_of_Z.
  destruct s; [|done]. by apply ascii_app; [ascii_lit|].
Qed.

Lemma sequence_safe {A} (P : A -> Prop) (l : list (result A)) :
  Forall (fun r => exists a, r = Ok a /\ P a) l -> exists l', sequence l = Ok l' /\ Forall P l'.
Proof.
  induction 1 as [|r l (a & -> & Ha) Hl (l' & Hl' & HP)]; cbn; [by exists []|].
  rewrite Hl'. cbn. exists (a :: l'). by split; [|constructor].
Qed.

Lemma json_text_safe comma colon v :
  ascii_str comma -> ascii_str colon -> json_safe v -> exists s, json_text comma colon v = Ok s /\ ascii_str s.
Proof.
  intros Hcomma Hcolon. induction v using pyval_nested_ind; intros Hv; cbn -[sequence].
  - eexists. split; [reflexivity|ascii_lit].
  - destruct b; eexists; (split; [reflexivity|ascii_lit]).
  - eauto with ascii.
  - eauto using ascii_json_float.
  - eauto with ascii.
  - inversion Hv as [| | | | |? Hl| |]; subst.
    destruct (sequence_safe ascii_str (map (json_text comma colon) l)) as (l' & -> & Hl').
    { apply Forall_map. rewrite !Forall_forall in *. auto. }
    cbn. eexists. split; [reflexivity|]. repeat apply ascii_app; try apply ascii_join; try ascii_lit; done.
  - inversion Hv as [| | | | | |? Hl|]; subst.
    destruct (sequence_safe ascii_str (map (json_text comma colon) l)) as (l' & -> & Hl').
    { apply Forall_map. rewrite !Forall_forall in *. auto. }
    cbn. eexists. split; [reflexivity|]. repeat apply ascii_app; try apply ascii_join; try ascii_lit; done.
  - inversion Hv as [| | | | | | |? Hd]; subst. set (items := map _ d).
    assert (sorted_items items = Ok (py_sorted item_leb items)) as ->.
    { unfold sorted_items, sortable. replace (forallb key_is_str (map fst items)) with true; [done|].
      symmetry. apply forallb_forall. intros k Hk. unfold items in Hk. rewrite map_map in Hk.
      apply in_map_iff in Hk as ([k' x] & <- & Hin). rewrite Forall_forall in Hd.
      by apply list_elem_of_In, Hd in Hin as [? _]. }
    cbn [rbind]. destruct (sequence_safe ascii_str
      (map (fun kv => let! t := kv.2 in Ok (json_key kv.1 +:+ colon +:+ t)) (py_sorted item_leb items)))
      as (l' & -> & Hl').
    { apply Forall_map. rewrite py_sorted_perm. unfold items. apply Forall_map.
      rewrite !Forall_forall in *. intros [k x] Hin. cbn.
      destruct (H _ Hin) as (s & Hs & Ha); [by apply Hd in Hin as [_ ?]|]. cbn in Hs. rewrite Hs. cbn.
      eexists. split; [reflexivity|]. repeat apply ascii_app; [|done..].
      destruct k; apply ascii_json_str. }
    cbn. eexists. split; [reflexivity|]. repeat apply ascii_app; try apply ascii_join; try ascii_lit; done.
Qed.

Lemma json_dumps_safe v : json_safe v -> exists s, json_dumps v = Ok s /\ ascii_str s.
Proof. apply json_text_safe; ascii_lit. Qed.

Lemma utf8_scan_ascii l : forall fuel, (length l <= fuel)%nat -> Forall (fun b => 0 <= b < 128) l -> utf8_scan fuel l = Some l.
Proof.
  induction l as [|b l IH]; intros fuel Hf Hl; [by destruct fuel|].
  destruct fuel as [|f]; [cbn in Hf; lia|]. apply Forall_cons in Hl as [Hb Hl].
  cbn. replace (b <? 128) with true by (symmetry; apply Z.ltb_lt; lia). cbn in Hf. by rewrite IH by (done || lia).
Qed.

Lemma encode_utf8_ascii s : ascii_str s -> encode_utf8 s = Ok (bytes_of_string s).
Proof.
  intros H. unfold encode_utf8, utf8_valid, code_points_of_bytes. rewrite utf8_scan_ascii by done.
  replace (forallb _ _) with true; [done|]. symmetry. apply forallb_forall.
  intros b Hb. apply list_elem_of_In in Hb. unfold ascii_str in H. rewrite Forall_forall in H.
  apply H in Hb. unfold is_surrogate. destruct (Z.leb_spec 55296 b); [lia|done].
Qed.

Lemma stable_hash_total d : json_safe (VDict d) -> exists h, stable_hash d = Ok h.
Proof.
  intros H. destruct (json_dumps_safe _ H) as (s & Hs & Ha). unfold stable_hash. rewrite Hs. cbn [rbind].
  rewrite encode_utf8_ascii by done. cbn [rbind]. eauto.
Qed.

Lemma json_safe_dict_of l : Forall (fun kv => json_safe kv.2) l -> json_safe (VDict (dict_of l)).
Proof.
  intros H. constructor. unfold dict_of. apply Forall_map. eapply Forall_impl; [exact H|]. by intros [k v].
Qed.
