(* ===== verification/Maf.v ===== *)
(** * The model provider ([maf.py], first half)

    What the environment configures, the runtime profile of a provider mode, and
    the JSON object in a model's answer. *)

From Stdlib Require Import ZArith Lia Bool List Ascii String.
From Stdlib.Floats Require Import SpecFloat.
From stdpp Require Import base list option strings gmap.
From S2P Require Import Prelude PyFloat Text PyValue JsonParse Json Events Agents.

#[local] Open Scope string_scope.
#[local] Open Scope Z_scope.
#[local] Open Scope list_scope.

Definition MAF_RUNTIME_SCHEMA_VERSION : string := "1.2.0-maf-runtime-v1".
Definition MAF_PROVIDER_CONFIG_SCHEMA_VERSION : string := "1.2.0-maf-provider-config-v1".
Definition MAF_PROVIDER_ENV_VARS : list string := ["AZURE_OPENAI_ENDPOINT"; "AZURE_OPENAI_API_KEY"; "OPENAI_API_KEY"].
Definition MAF_PROVIDER_ENDPOINT_ENV_VARS : list string := ["AZURE_OPENAI_ENDPOINT"; "OPENAI_BASE_URL"].
Definition MAF_PROVIDER_MODEL_ENV_VARS : list string := ["OPENAI_MODEL"].
Definition MAF_PROVIDER_DEPLOYMENT_ENV_VARS : list string := ["AZURE_OPENAI_CHAT_DEPLOYMENT"; "AZURE_OPENAI_DEPLOYMENT_NAME"].

(** ** Modes *)

Inductive MafProviderMode := DETERMINISTIC_FAKE | PROVIDER_AVAILABLE_NO_CALL | REAL_PROVIDER.

#[export] Instance provider_mode_eq_dec : EqDecision MafProviderMode.
Proof. solve_decision. Defined.

Definition mode_value (m : MafProviderMode) : string :=
  match m with
  | DETERMINISTIC_FAKE => "deterministic_fake"
  | PROVIDER_AVAILABLE_NO_CALL => "provider_available_no_call"
  | REAL_PROVIDER => "real_provider"
  end.

(** [MafProviderMode(provider_mode)] *)
Definition mode_of (provider_mode : string) : result MafProviderMode :=
  match List.find (fun m => String.eqb (mode_value m) provider_mode)
          [DETERMINISTIC_FAKE; PROVIDER_AVAILABLE_NO_CALL; REAL_PROVIDER] with
  | Some m => Ok m
  | None => Raise (ValueError (repr_str provider_mode +:+ " is not a valid MafProviderMode"))
  end.

(** ** The environment *)

Notation environ := (gmap string string).

(** [env.get(name)] when it is set and not empty *)
Definition env_value (env : environ) (name : string) : option string := str_truthy (env !! name).

Definition present_env_vars (env : environ) (names : list string) : list string :=
  sorted_strings (List.filter (fun name => match env_value env name with Some _ => true | None => false end) names).

Fixpoint first_present_env_var (env : environ) (names : list string) : option (string * string) :=
  match names with
  | [] => None
  | name :: rest => match env_value env name with Some value => Some (name, value) | None => first_present_env_var env rest end
  end.

(** ** Provider configuration *)

Record MafProviderConfig := {
  provider_kind : string;
  credential_env_vars : list string;
  endpoint_env_var : option string;
  model_env_var : option string;
  deployment_env_var : option string;
  configured_model : option string;
  configured_deployment : option string;
}.

Definition credentials_available (c : MafProviderConfig) : bool :=
  match credential_env_vars c with [] => false | _ => true end.
(** [bool(s)] of an optional text *)
Definition is_set (o : option string) : bool := match str_truthy o with Some _ => true | None => false end.
Definition model_identifier_configured (c : MafProviderConfig) : bool :=
  is_set (configured_model c) || is_set (configured_deployment c).
Definition ready_for_model_call (c : MafProviderConfig) : bool :=
  credentials_available c && model_identifier_configured c.

Definition missing_requirements (c : MafProviderConfig) : list string :=
  (if credentials_available c then [] else ["credentials"]) ++
  (if model_identifier_configured c then [] else ["model_identifier"]).

Definition provider_config_to_dict (c : MafProviderConfig) : dict :=
  dict_of [("schema_version", VStr MAF_PROVIDER_CONFIG_SCHEMA_VERSION); ("provider_kind", VStr (provider_kind c));
           ("credential_env_vars", VList (vstrs (credential_env_vars c)));
           ("credentials_available", VBool (credentials_available c));
           ("endpoint_env_var", opt_str (endpoint_env_var c)); ("endpoint_configured", VBool (is_set (endpoint_env_var c)));
           ("model_env_var", opt_str (model_env_var c)); ("deployment_env_var", opt_str (deployment_env_var c));
           ("configured_model", opt_str (configured_model c)); ("configured_deployment", opt_str (configured_deployment c));
           ("model_identifier_configured", VBool (model_identifier_configured c));
           ("ready_for_model_call", VBool (ready_for_model_call c));
           ("missing_requirements", VList (vstrs (missing_requirements c)))].

Definition build_maf_provider_config (env : environ) : MafProviderConfig :=
  let credentials := present_env_vars env MAF_PROVIDER_ENV_VARS in
  let endpoint := option_map fst (first_present_env_var env MAF_PROVIDER_ENDPOINT_ENV_VARS) in
  let model := first_present_env_var env MAF_PROVIDER_MODEL_ENV_VARS in
  let deployment := first_present_env_var env MAF_PROVIDER_DEPLOYMENT_ENV_VARS in
  let is_endpoint name := match endpoint with Some e => String.eqb e name | None => false end in
  {| provider_kind :=
       if is_endpoint "AZURE_OPENAI_ENDPOINT" || existsb (fun name => startswith name "AZURE_OPENAI_") credentials
       then "azure_openai"
       else if is_endpoint "OPENAI_BASE_URL" || str_in "OPENAI_API_KEY" credentials then "openai_compatible"
       else "unknown";
     credential_env_vars := credentials;
     endpoint_env_var := endpoint;
     model_env_var := option_map fst model;
     deployment_env_var := option_map fst deployment;
     configured_model := option_map snd model;
     configured_deployment := option_map snd deployment |}.

(** ** The runtime profile *)

Record MafRuntimeProfile := {
  provider_mode : string;
  framework_package_available : bool;
  real_provider_enabled : bool;
  provider_config : MafProviderConfig;
  provider_ready_for_model_call : bool;
  skip_reason : string;
}.

Definition profile_to_dict (p : MafRuntimeProfile) : dict :=
  dict_of [("schema_version", VStr MAF_RUNTIME_SCHEMA_VERSION); ("framework", VStr "microsoft_agent_framework");
           ("workflow_api", VStr "functional_workflow_compatible"); ("provider_mode", VStr (provider_mode p));
           ("framework_package_available", VBool (framework_package_available p));
           ("real_provider_enabled", VBool (real_provider_enabled p));
           ("provider_ready_for_model_call", VBool (provider_ready_for_model_call p));
           ("skip_reason", VStr (skip_reason p)); ("requires_model_credentials", VBool (real_provider_enabled p));
           ("agent_roles", VList (vstrs ["affective"; "rational"]));
           ("provider_config", VDict (provider_config_to_dict (provider_config p)))].

(** [framework] is [find_spec("agent_framework") is not None]. *)
Definition skip_reason_of (mode : MafProviderMode) (framework : bool) (config : MafProviderConfig) : string :=
  if decide (mode = DETERMINISTIC_FAKE) then "deterministic_fake_mode"
  else if negb framework then "agent_framework_package_not_installed"
  else if negb (credentials_available config) then "model_credentials_not_configured"
  else if negb (model_identifier_configured config) then "model_identifier_not_configured"
  else if decide (mode = PROVIDER_AVAILABLE_NO_CALL) then "availability_only_mode"
  else "".

Definition profile_of (mode : MafProviderMode) (framework : bool) (env : environ) : MafRuntimeProfile :=
  let config := build_maf_provider_config env in
  {| provider_mode := mode_value mode;
     framework_package_available := framework;
     real_provider_enabled := bool_decide (mode = REAL_PROVIDER);
     provider_config := config;
     provider_ready_for_model_call := framework && ready_for_model_call config;
     skip_reason := skip_reason_of mode framework config |}.

Definition build_maf_runtime_profile (provider_mode : string) (framework : bool) (env : environ) : result MafRuntimeProfile :=
  let! mode := mode_of provider_mode in Ok (profile_of mode framework env).

Definition provider_not_ready_message (p : MafRuntimeProfile) : string :=
  "real_microsoft_agent_framework_provider_unavailable:" +:+
  (if String.eqb (skip_reason p) "" then "provider_not_ready" else skip_reason p).

(** [MafProviderNotReadyError(_provider_not_ready_message(profile))] *)
Definition not_ready (p : MafRuntimeProfile) : pyerr := RuntimeError "MafProviderNotReadyError" (provider_not_ready_message p).

(** ** The text of an answer *)

(** [json.dumps(v, separators=(comma, colon))]: keys in insertion order. *)
Fixpoint json_plain_text (comma colon : string) (v : pyval) : result string :=
  match v with
  | VNone => Ok "null"
  | VBool b => Ok (if b then "true" else "false")
  | VInt z => Ok (string_of_Z z)
  | VFloat f => Ok (json_float f)
  | VStr s => Ok (json_str s)
  | VList l | VTuple l =>
      let! parts := sequence (map (json_plain_text comma colon) l) in Ok ("[" +:+ join comma parts +:+ "]")
  | VDict d =>
      let! parts := sequence (map (fun kv => match kv with (k, x) =>
                                       let! t := json_plain_text comma colon x in Ok (json_key k +:+ colon +:+ t) end) d) in
      Ok ("{" +:+ join comma parts +:+ "}")
  end.
Definition json_plain : pyval -> result string := json_plain_text ", " ": ".

(** What a client's library returns: its [text] (called when it is a method), its [value]
    when it has one that is not [None], what [to_dict()] gives where the method exists, and [str()]. *)
Inductive response_value := ValueObject (to_dict : pyval) | PlainValue (v : pyval).
Record AgentResponse := { rs_text : pyval; rs_value : option response_value; rs_to_dict : option pyval; rs_str : string }.

(** The text of a response; [otherwise] is for one with neither text, value nor dictionary. *)
Definition extract_response_text (otherwise : string) (r : AgentResponse) : result string :=
  if py_truthy (rs_text r) then Ok (py_str (rs_text r))
  else match rs_value r, rs_to_dict r with
       | Some (ValueObject d), _ => json_plain d
       | Some (PlainValue (VDict d)), _ => json_plain (VDict d)
       | Some (PlainValue (VList l)), _ => json_plain (VList l)
       | Some (PlainValue v), _ => Ok (py_str v)
       | None, Some d => json_plain d
       | None, None => Ok otherwise
       end.

(** ** The JSON object of an answer *)

(** [s[s.find("{") : s.rfind("}") + 1]], when both are there in this order *)
Fixpoint from_brace (l : list Z) : option (list Z) :=
  match l with
  | [] => None
  | b :: r => if b =? 123 then Some l else from_brace r
  end.
Fixpoint to_brace (l : list Z) : option (list Z) :=
  match l with
  | [] => None
  | b :: r => match to_brace r with
              | Some r' => Some (b :: r')
              | None => if b =? 125 then Some [b] else None
              end
  end.
Definition braced (s : string) : option string :=
  match from_brace (bytes_of_string s) with
  | Some l => option_map string_of_bytes (to_brace l)
  | None => None
  end.

(** The candidates in turn; only a decoding error goes on to the next one. *)
Fixpoint first_object (allow_none : bool) (candidates : list string) : result (option (option dict)) :=
  match candidates with
  | [] => Ok None
  | candidate :: rest =>
      match json_loads candidate with
      | Raise JSONDecodeError => first_object allow_none rest
      | Raise e => Raise e
      | Ok VNone => if allow_none then Ok (Some None) else first_object allow_none rest
      | Ok (VDict d) => Ok (Some (Some d))
      | Ok _ => first_object allow_none rest
      end
  end.

Definition extract_json_object (source : string) (text : string) (allow_none : bool) : result (option dict) :=
  let normalized_text := py_strip text in
  if String.eqb normalized_text "" then Raise (ValueError (source +:+ "_response_missing_text"))
  else
    let candidates := [normalized_text] ++ match braced normalized_text with Some s => [s] | None => [] end ++
                      (if allow_none then ["null"] else []) in
    let! found := first_object allow_none candidates in
    match found with
    | Some payload => Ok payload
    | None => Raise (ValueError (source +:+ "_response_not_valid_json_object"))
    end.

(** ** Facts *)

Lemma first_object_from allow_none candidates d :
  first_object allow_none candidates = Ok (Some (Some d)) -> exists c, c ∈ candidates /\ json_loads c = Ok (VDict d).
Proof.
  induction candidates as [|c rest IH]; cbn [first_object]; [discriminate|]. intros E.
  assert (Hrest : first_object allow_none rest = Ok (Some (Some d)) -> exists c', c' ∈ c :: rest /\ json_loads c' = Ok (VDict d)).
  { intros H. destruct (IH H) as (c' & Hin & Hl). exists c'. split; [right; exact Hin|exact Hl]. }
  destruct (json_loads c) as [v|e] eqn:El.
  - destruct v; try exact (Hrest E); [destruct allow_none; [discriminate|exact (Hrest E)]|].
    injection E as <-. exists c. split; [left|exact El].
  - destruct e; try discriminate. exact (Hrest E).
Qed.

(** An answer's object is a JSON reading of the stripped answer or of its outermost braces. *)
Lemma extracted_object_read source text allow_none d :
  extract_json_object source text allow_none = Ok (Some d) ->
  json_loads (py_strip text) = Ok (VDict d) \/ exists s, braced (py_strip text) = Some s /\ json_loads s = Ok (VDict d).
Proof.
  unfold extract_json_object. destruct (String.eqb (py_strip text) ""); [discriminate|]. intros E.
  destruct (first_object allow_none _) as [[found|]|] eqn:Ef; cbn [rbind] in E; try discriminate. injection E as ->.
  apply first_object_from in Ef as (c & Hin & Hl). rewrite !elem_of_app, list_elem_of_singleton in Hin.
  destruct Hin as [->|[Hb|Hn]]; [left; exact Hl| |].
  - destruct (braced (py_strip text)) as [s|]; [|set_solver]. apply list_elem_of_singleton in Hb as ->. eauto.
  - destruct allow_none; [|set_solver]. apply list_elem_of_singleton in Hn as ->. vm_compute in Hl. discriminate.
Qed.

Example answers :
  map (fun t => extract_json_object "provider" t true) ["Sure: {} done"; "no tool"; "null"; "[1]"] =
  [Ok (Some []); Ok None; Ok None; Ok None] /\
  extract_json_object "provider" "no tool" false = Raise (ValueError "provider_response_not_valid_json_object").
Proof. vm_compute. auto. Qed.
