(* ===== verification/ModelAgents.v ===== *)
(** * Agents backed by a model ([maf.py], second half; [rational_backends.py])

    Provider clients, the adapters around them, the rational backends and the
    provider smoke command.  The libraries that call a model are parameters; what
    they answer is checked here before it becomes a decision or a plan. *)

From Stdlib Require Import ZArith Lia Bool List Ascii String.
From stdpp Require Import base list option strings gmap.
From S2P Require Import Prelude PyFloat Text PyValue JsonParse Json Events Agents Maf.

#[local] Open Scope string_scope.
#[local] Open Scope Z_scope.
#[local] Open Scope list_scope.

Definition MAF_PROVIDER_SMOKE_SCHEMA_VERSION : string := "1.2.5-maf-provider-smoke-v2".
Definition MAF_PROVIDER_API_VERSION_ENV_VARS : list string := ["AZURE_OPENAI_API_VERSION"; "OPENAI_API_VERSION"].
Definition MAF_REAL_PROVIDER_ALLOWED_TOOLS : list string :=
  ["system_query_device"; "system_query_apps"; "system_query_leases"; "system_state_sync"; "system_capabilities"].

Definition decision_to_dict (d : AffectiveDecision) : dict :=
  dict_of [("delegated", VBool (delegated d)); ("reason", VStr (reason d)); ("salience", VInt (salience d))].
Definition rational_plan_to_dict (p : RationalPlan) : dict :=
  dict_of [("tool_name", VStr (tool_name p)); ("args", VDict (plan_args p)); ("reason", VStr (plan_reason p))].

(** ** Answers become decisions and plans *)

Definition non_empty_str (v : pyval) : option string := match v with VStr s => str_truthy (Some s) | _ => None end.

(** [isinstance(v, int)]: a truth value is one; its number is kept. *)
Definition int_value (v : pyval) : option Z :=
  match v with VInt z => Some z | VBool b => Some (Z.b2z b) | _ => None end.

Definition coerce_affective_decision (answer : pyval) : result AffectiveDecision :=
  let! payload := as_dict answer in
  match dgetn "delegated" payload with
  | VBool delegated =>
      match non_empty_str (dgetn "reason" payload) with
      | Some reason =>
          match int_value (dgetn "salience" payload) with
          | Some salience =>
              if (salience <? 0) || (100 <? salience)
              then Raise (ValueError "provider_affective_decision_salience_out_of_range")
              else Ok {| delegated := delegated; reason := reason; salience := salience |}
          | None => Raise (ValueError "provider_affective_decision_salience_out_of_range")
          end
      | None => Raise (ValueError "provider_affective_decision_reason_must_be_string")
      end
  | _ => Raise (ValueError "provider_affective_decision_delegated_must_be_bool")
  end.

(** [str(tool.get("name") or tool.get("tool_name") or "")] *)
Definition tool_label (tool : dict) : string := py_str (por (dgetn "name" tool) (por (dgetn "tool_name" tool) (VStr ""))).

Definition validate_rational_plan_payload (answer : pyval) (available_tools : option (list dict)) : result (option RationalPlan) :=
  match answer with
  | VNone => Ok None
  | _ =>
      let! payload := as_dict answer in
      match non_empty_str (dgetn "tool_name" payload), dgetn "args" payload, non_empty_str (dgetn "reason" payload) with
      | None, _, _ => Raise (ValueError "rational_plan_tool_name_must_be_string")
      | Some tool_name, VDict args, Some reason =>
          if match available_tools with Some tools => str_in tool_name (map tool_label tools) | None => true end
          then Ok (Some {| tool_name := tool_name; plan_args := args; plan_reason := reason |})
          else Raise (ValueError "rational_plan_tool_not_in_available_tools")
      | Some _, VDict _, None => Raise (ValueError "rational_plan_reason_must_be_string")
      | Some _, _, _ => Raise (ValueError "rational_plan_args_must_be_object")
      end
  end.

(** ** Clients *)

Record MafProviderClient (C : Type) := {
  client_kind : string;       (* [provider_client_kind] *)
  is_placeholder : bool;      (* [isinstance(client, PlaceholderMafProviderClient)] *)
  client_decide : PerceptionFrame -> list dict -> MafRuntimeProfile -> option dict -> eff C pyval;
  client_plan : AffectiveDecision -> PerceptionFrame -> MafRuntimeProfile -> list dict -> dict -> eff C pyval;
}.
Arguments client_kind {C}.
Arguments is_placeholder {C}.
Arguments client_decide {C}.
Arguments client_plan {C}.

Definition placeholder_client {C} : MafProviderClient C := {|
  client_kind := "placeholder";
  is_placeholder := true;
  client_decide _ _ _ _ := eraise (RuntimeError "NotImplementedError" "real_provider_affective_agent_not_implemented");
  client_plan _ _ _ _ _ := eraise (RuntimeError "NotImplementedError" "real_provider_rational_agent_not_implemented");
|}.

(** The arguments the chat client is made with ([AgentFrameworkMafProviderClient.__init__]). *)
Definition client_kwargs (profile : MafRuntimeProfile) (env : environ) : result dict :=
  let unavailable reason := Raise (RuntimeError "MafProviderNotReadyError"
                                     ("real_microsoft_agent_framework_provider_unavailable:" +:+ reason)) in
  let config := provider_config profile in
  if negb (provider_ready_for_model_call profile) then Raise (not_ready profile)
  else match match str_truthy (configured_deployment config) with Some m => Some m | None => str_truthy (configured_model config) end with
  | None => unavailable "model_identifier_not_configured"
  | Some configured_model =>
      match first_present_env_var env MAF_PROVIDER_ENV_VARS with
      | None => unavailable "model_credentials_not_configured"
      | Some (_, credential_value) =>
          let endpoint := first_present_env_var env MAF_PROVIDER_ENDPOINT_ENV_VARS in
          let api_version := first_present_env_var env MAF_PROVIDER_API_VERSION_ENV_VARS in
          Ok (dict_of ([("model", VStr configured_model); ("api_key", VStr credential_value)] ++
            match endpoint with
            | Some (name, value) =>
                if String.eqb name "AZURE_OPENAI_ENDPOINT" then [("azure_endpoint", VStr value)] else [("base_url", VStr value)]
            | None => []
            end ++
            match api_version with Some (_, value) => [("api_version", VStr value)] | None => [] end))
      end
  end.

Definition affective_instructions : string :=
  "You are the NeuroLink Core affective agent. " +:+
  "Use only the prompt-safe affective context summary, multimodal summary, profile route summary, and presentation policy provided by Core. " +:+
  "Decide whether the current perception frame should delegate to the rational agent. " +:+
  "Do not execute tools, mutate state, or invent extra capabilities. " +:+
  "Return JSON only with keys delegated (bool), reason (string), salience (int 0-100).".

Definition rational_instructions : string :=
  "You are the NeuroLink Core rational agent. " +:+
  "Pick at most one available tool from the provided live tool manifest. " +:+
  "Do not invent tools, arguments, or capabilities that are not present in that manifest. " +:+
  "Use session context and recent execution history to avoid redundant work when possible. " +:+
  "Return JSON only with keys tool_name (string), args (object), reason (string). " +:+
  "Return null only if no tool should be executed.".

(** [json.dumps(payload, sort_keys=True)] *)
Definition prompt_text (payload : dict) : result string := json_text ", " ": " (VDict payload).

Definition opt_dict (o : option dict) : pyval := match o with Some d => VDict d | None => VNone end.

(** [run_agent kwargs instructions name prompt] stands for the chat client's library. *)
Section AgentFramework.
Context {C : Type} (run_agent : dict -> string -> string -> string -> eff C AgentResponse).

Definition run_json_agent (kwargs : dict) (agent_name instructions : string) (prompt_payload : dict) (allow_none : bool)
    : eff C (option dict) :=
  do! prompt := elift (prompt_text prompt_payload) in
  do! response := run_agent kwargs instructions agent_name prompt in
  do! text := elift (extract_response_text "" response) in
  elift (extract_json_object "provider" text allow_none).

Definition framework_client (kwargs : dict) : MafProviderClient C := {|
  client_kind := "agent_framework_openai";
  is_placeholder := false;
  client_decide frame memory_items profile affective_context :=
    do! payload := run_json_agent kwargs "neurolink-core-affective" affective_instructions
      (dict_of [("frame", VDict (frame_to_dict frame)); ("memory_items", VList (map VDict memory_items));
                ("maf_runtime", VDict (profile_to_dict profile));
                ("affective_context", VDict (default [] affective_context))]) false in
    match payload with Some d => eret (VDict d) | None => eraise AssertionError end;
  client_plan decision frame profile available_tools session_context :=
    do! payload := run_json_agent kwargs "neurolink-core-rational" rational_instructions
      (dict_of [("decision", VDict (decision_to_dict decision)); ("frame", VDict (frame_to_dict frame));
                ("maf_runtime", VDict (profile_to_dict profile)); ("available_tools", VList (map VDict available_tools));
                ("session_context", VDict session_context);
                ("allowed_tools", VList (vstrs MAF_REAL_PROVIDER_ALLOWED_TOOLS))]) true in
    eret (opt_dict payload);
|}.

Definition build_default_maf_provider_client (profile : MafRuntimeProfile) (env : environ) : result (MafProviderClient C) :=
  if negb (provider_ready_for_model_call profile) then Raise (not_ready profile)
  else let! kwargs := client_kwargs profile env in Ok (framework_client kwargs).
End AgentFramework.

(** ** The affective adapters *)

(** [agent.decide(frame, memory_items, affective_context=...)] and [agent.runtime_metadata()] *)
Record AffectiveAgent (C : Type) := {
  aa_decide : PerceptionFrame -> list dict -> option dict -> eff C AffectiveDecision;
  aa_metadata : dict;
}.
Arguments aa_decide {C}.
Arguments aa_metadata {C}.

(** [agent.plan(decision, frame, available_tools=..., session_context=...)] *)
Record RationalAgent (C : Type) := {
  ra_plan : AffectiveDecision -> PerceptionFrame -> option (list dict) -> option dict -> eff C (option RationalPlan);
  ra_metadata : dict;
}.
Arguments ra_plan {C}.
Arguments ra_metadata {C}.

Section Adapters.
Context {C : Type}.

Definition maf_affective_agent (profile : MafRuntimeProfile) : AffectiveAgent C := {|
  aa_decide frame _ _ := eret (decide_frame frame);
  aa_metadata := dupdate (profile_to_dict profile)
    (dict_of [("agent_role", VStr "affective"); ("agent_adapter", VStr "deterministic_fake_affective")]);
|}.

(** [try: first() except TypeError: second()] *)
Definition or_on_type_error {A} (first second : eff C A) : eff C A :=
  fun w => match first w with
           | (Raise (TypeError _), w') => second w'
           | out => out
           end.

Definition real_decide (profile : MafRuntimeProfile) (client : MafProviderClient C) (frame : PerceptionFrame)
    (memory_items : list dict) (affective_context : option dict) : eff C AffectiveDecision :=
  do! payload := match affective_context with
                 | None => client_decide client frame memory_items profile None
                 | Some _ => or_on_type_error (client_decide client frame memory_items profile affective_context)
                                              (client_decide client frame memory_items profile None)
                 end in
  elift (coerce_affective_decision payload).

Definition client_metadata (role prefix : string) (client : MafProviderClient C) : dict :=
  dict_of [("agent_role", VStr role); ("agent_adapter", VStr (prefix +:+ client_kind client));
           ("provider_client_kind", VStr (client_kind client));
           ("provider_call_supported", VBool (negb (is_placeholder client)))].

Definition real_affective_agent (profile : MafRuntimeProfile) (provider_client : option (MafProviderClient C))
    : result (AffectiveAgent C) :=
  if negb (provider_ready_for_model_call profile) then Raise (not_ready profile)
  else
    let client := default placeholder_client provider_client in
    Ok {| aa_decide := real_decide profile client;
          aa_metadata := dupdate (profile_to_dict profile) (client_metadata "affective" "real_provider_affective_" client) |}.

Definition build_affective_agent_adapter (profile : MafRuntimeProfile) (provider_client : option (MafProviderClient C))
    : result (AffectiveAgent C) :=
  if String.eqb (provider_mode profile) (mode_value REAL_PROVIDER) then real_affective_agent profile provider_client
  else Ok (maf_affective_agent profile).

(** ** The rational backends *)

(** [agent.run(prompt)] of a Copilot agent made with these options. *)
Notation copilot := (dict -> string -> eff C AgentResponse).

Inductive RationalBackend :=
  | DeterministicRationalBackend
  | ProviderRationalBackend (client : MafProviderClient C) (profile : MafRuntimeProfile)
  (* the agent of the given factory, and of the package when it is installed *)
  | CopilotSdkRationalBackend (allow_model_call : bool) (env : environ) (agent_factory package : option copilot).

Definition set_name (env : environ) (name : string) : pyval :=
  match env_value env name with Some _ => VStr name | None => VNone end.

Definition backend_metadata (b : RationalBackend) : dict :=
  match b with
  | DeterministicRationalBackend => dict_of
      [("backend_kind", VStr "deterministic_fake"); ("backend_runtime", VStr "local_deterministic");
       ("requires_external_sdk", VBool false); ("can_execute_tools_directly", VBool false)]
  | ProviderRationalBackend client _ => dict_of
      [("backend_kind", VStr "maf_provider_client"); ("backend_runtime", VStr "provider_plan");
       ("provider_client_kind", VStr (client_kind client)); ("requires_external_sdk", VBool true);
       ("can_execute_tools_directly", VBool false)]
  | CopilotSdkRationalBackend allow_model_call env _ package => dict_of
      [("backend_kind", VStr "github_copilot_sdk"); ("backend_runtime", VStr "agent_framework_github_copilot");
       ("package_name", VStr "agent-framework-github-copilot");
       ("package_available", VBool match package with Some _ => true | None => false end);
       ("requires_external_sdk", VBool true); ("requires_copilot_cli_auth", VBool true);
       ("model_env_var", set_name env "GITHUB_COPILOT_MODEL"); ("cli_path_env_var", set_name env "GITHUB_COPILOT_CLI_PATH");
       ("timeout_env_var", set_name env "GITHUB_COPILOT_TIMEOUT"); ("log_level_env_var", set_name env "GITHUB_COPILOT_LOG_LEVEL");
       ("model_call_allowed", VBool allow_model_call); ("can_execute_tools_directly", VBool false)]
  end.

Definition copilot_instructions : string :=
  "You are the NeuroLink Core Rational Agent running through GitHub Copilot. " +:+
  "Return JSON only. Pick at most one tool from the provided available_tools list. " +:+
  "Do not call shell commands, access files, fetch URLs, use MCP servers, or execute Unit tools. " +:+
  "You may only propose a RationalPlan for the NeuroLink Core policy layer to evaluate. " +:+
  "Return null if no tool should be executed.".

Definition copilot_default_options (env : environ) : dict :=
  dict_of ([("instructions", VStr copilot_instructions)] ++
    match env_value env "GITHUB_COPILOT_MODEL" with Some model => [("model", VStr model)] | None => [] end ++
    match env_value env "GITHUB_COPILOT_TIMEOUT" with
    | Some timeout => [("timeout", match parse_int timeout with Some n => VInt n | None => VStr timeout end)]
    | None => []
    end).

Definition copilot_payload (decision : AffectiveDecision) (frame : PerceptionFrame) (available_tools : list dict)
    (session_context : dict) : dict :=
  dict_of [("decision", VDict (decision_to_dict decision)); ("frame", VDict (frame_to_dict frame));
           ("available_tools", VList (map VDict available_tools)); ("session_context", VDict session_context);
           ("response_contract", VDict (dict_of [("return_json_only", VBool true); ("nullable", VBool true);
              ("schema", VDict (dict_of [("tool_name", VStr "string from available_tools only"); ("args", VStr "object");
                                         ("reason", VStr "non-empty string")]))]));
           ("safety_boundaries", VDict (dict_of [("plan_only", VBool true); ("can_execute_tools_directly", VBool false);
              ("core_policy_and_approval_gates_authoritative", VBool true)]))].

Definition run_copilot_agent (env : environ) (agent_factory package : option copilot) (prompt : string) : eff C string :=
  match agent_factory, package with
  | Some agent, _ | None, Some agent =>
      do! response := agent (copilot_default_options env) prompt in
      elift (extract_response_text (rs_str response) response)
  | None, None => eraise (RuntimeError "RuntimeError" "github_copilot_agent_framework_package_not_installed")
  end.

Definition backend_plan (b : RationalBackend) (decision : AffectiveDecision) (frame : PerceptionFrame)
    (available_tools : option (list dict)) (session_context : option dict) : eff C (option RationalPlan) :=
  let tools := default [] available_tools in
  let context := default [] session_context in
  match b with
  | DeterministicRationalBackend => eret (plan decision frame session_context)
  | ProviderRationalBackend client profile =>
      do! payload := client_plan client decision frame profile tools context in
      elift (validate_rational_plan_payload payload (Some tools))
  | CopilotSdkRationalBackend allow_model_call env agent_factory package =>
      if negb allow_model_call then eraise (ValueError "copilot_rational_backend_requires_allow_model_call")
      else
        do! prompt := elift (prompt_text (copilot_payload decision frame tools context)) in
        do! text := run_copilot_agent env agent_factory package prompt in
        do! payload := elift (extract_json_object "copilot" text true) in
        elift (validate_rational_plan_payload (opt_dict payload) (Some tools))
  end.

Definition maf_rational_agent (profile : MafRuntimeProfile) (backend : RationalBackend) : RationalAgent C := {|
  ra_plan := backend_plan backend;
  ra_metadata := dupdate (profile_to_dict profile)
    (dict_of [("agent_role", VStr "rational"); ("agent_adapter", VStr "deterministic_fake_rational");
              ("rational_backend", VDict (backend_metadata backend))]);
|}.

Definition real_rational_agent (profile : MafRuntimeProfile) (provider_client : option (MafProviderClient C))
    : result (RationalAgent C) :=
  if negb (provider_ready_for_model_call profile) then Raise (not_ready profile)
  else
    let client := default placeholder_client provider_client in
    let backend := ProviderRationalBackend client profile in
    Ok {| ra_plan := backend_plan backend;
          ra_metadata := dupdate (dupdate (profile_to_dict profile) (client_metadata "rational" "real_provider_rational_" client))
                                 (dict_of [("rational_backend", VDict (backend_metadata backend))]) |}.

(** [env] is the process environment the Copilot backend reads. *)
Definition build_rational_agent_adapter (profile : MafRuntimeProfile) (provider_client : option (MafProviderClient C))
    (rational_backend : string) (allow_model_call : bool) (env : environ) (copilot_agent_factory package : option copilot)
    : result (RationalAgent C) :=
  if String.eqb rational_backend "copilot" then
    Ok (maf_rational_agent profile (CopilotSdkRationalBackend allow_model_call env copilot_agent_factory package))
  else if String.eqb rational_backend "deterministic" then Ok (maf_rational_agent profile DeterministicRationalBackend)
  else if negb (str_in rational_backend ["auto"; "provider"]) then
    Raise (ValueError "rational_backend_must_be_auto_deterministic_provider_or_copilot")
  else if String.eqb (provider_mode profile) (mode_value REAL_PROVIDER) then real_rational_agent profile provider_client
  else Ok (maf_rational_agent profile DeterministicRationalBackend).
End Adapters.

(** ** The provider smoke command *)

Section Smoke.
Context {C : Type} (run_agent : dict -> string -> string -> string -> eff C AgentResponse).
(** Whether the agent framework is installed, the environment, and [str(exc)]. *)
Context (framework : bool) (env : environ) (exc_text : pyerr -> string).

Definition build_closure_gates (allow_model_call execute_model_call runtime_ready : bool)
    (smoke_status smoke_reason call_status : string) (model_call_evidence_present : bool) : dict :=
  dict_of
    [("real_provider_call_opt_in_respected", VBool (negb execute_model_call || allow_model_call));
     ("provider_requirements_ready", VBool runtime_ready);
     ("missing_requirements_cleanly_reported",
      VBool (negb runtime_ready && String.eqb smoke_status "skipped" &&
             str_in smoke_reason ["agent_framework_package_not_installed"; "model_credentials_not_configured";
                                  "model_identifier_not_configured"]));
     ("model_call_evidence_present", VBool model_call_evidence_present);
     ("closure_smoke_outcome_recorded",
      VBool (str_in call_status ["not_requested"; "model_call_not_requested"; "model_call_skipped_not_ready";
                                 "model_call_succeeded"; "model_call_failed"; "model_call_not_allowed"]))].

Definition smoke_runtime (profile : MafRuntimeProfile) : dict :=
  dset "agent_adapters"
    (VList (map VDict [dict_of [("agent_role", VStr "affective"); ("agent_adapter", VStr "deterministic_fake_affective")];
                       dict_of [("agent_role", VStr "rational"); ("agent_adapter", VStr "deterministic_fake_rational")]]))
    (profile_to_dict profile).

Definition smoke_payload (ok : bool) (status reason smoke_mode : string) (allow_model_call execute_model_call : bool)
    (profile : MafRuntimeProfile) (call_status : string) : dict :=
  let config := provider_config profile in
  dict_of [("schema_version", VStr MAF_PROVIDER_SMOKE_SCHEMA_VERSION); ("ok", VBool ok); ("status", VStr status);
           ("reason", VStr reason); ("smoke_mode", VStr smoke_mode); ("model_call_allowed", VBool allow_model_call);
           ("model_call_requested", VBool execute_model_call);
           ("framework_package_available", VBool (framework_package_available profile));
           ("credentials_available", VBool (credentials_available config));
           ("present_env_vars", VList (vstrs (credential_env_vars config)));
           ("maf_runtime", VDict (smoke_runtime profile)); ("requires_model_credentials", VBool true);
           ("call_status", VStr call_status); ("executes_model_call", VBool false)].

Definition set_all (l : list (string * pyval)) (d : dict) : dict :=
  foldl (fun d kv => dset (KStr kv.1) kv.2 d) d l.

Definition smoke_frame : PerceptionFrame :=
  {| frame_id := "frame-provider-smoke-001"; event_ids := ["evt-provider-smoke-001"]; highest_priority := 80;
     topics := [VStr "provider.smoke"] |}.

Definition smoke_call (profile : MafRuntimeProfile) (provider_client : option (MafProviderClient C))
    : eff C (MafProviderClient C * AffectiveDecision) :=
  do! client := elift (match provider_client with
                       | Some client => Ok client
                       | None => build_default_maf_provider_client run_agent profile env
                       end) in
  do! answer := client_decide client smoke_frame [] profile None in
  do! decision := elift (coerce_affective_decision answer) in
  eret (client, decision).

Definition smoke_status_of (profile : MafRuntimeProfile) : string * string :=
  if provider_ready_for_model_call profile then ("ready", "framework_package_and_provider_configuration_available")
  else if negb (framework_package_available profile) then ("skipped", "agent_framework_package_not_installed")
  else if negb (credentials_available (provider_config profile)) then ("skipped", "model_credentials_not_configured")
  else ("skipped", "model_identifier_not_configured").

Definition model_call_evidence (profile : MafRuntimeProfile) (client : MafProviderClient C) : dict :=
  dict_of [("agent_role", VStr "affective"); ("frame_id", VStr (frame_id smoke_frame));
           ("event_ids", VList (vstrs (event_ids smoke_frame)));
           ("provider_kind", VStr (provider_kind (provider_config profile)));
           ("provider_client_kind", VStr (client_kind client)); ("response_schema", VStr "AffectiveDecision")].

Definition maf_provider_smoke_status (allow_model_call execute_model_call : bool)
    (provider_client : option (MafProviderClient C)) : eff C dict :=
  let gates := build_closure_gates allow_model_call execute_model_call in
  if execute_model_call && negb allow_model_call then
    let profile := profile_of PROVIDER_AVAILABLE_NO_CALL framework env in
    let reason := "execute_model_call_requires_allow_model_call" in
    eret (dset "closure_gates" (VDict (gates false "error" reason "model_call_not_allowed" false))
               (smoke_payload false "error" reason "model_call_smoke" false true profile "model_call_not_allowed"))
  else
    let profile := profile_of (if allow_model_call then REAL_PROVIDER else PROVIDER_AVAILABLE_NO_CALL) framework env in
    let runnable := provider_ready_for_model_call profile in
    let '(status, reason) := smoke_status_of profile in
    let call_status := if allow_model_call && runnable then "model_call_not_requested" else "not_requested" in
    let payload :=
      smoke_payload true status reason
        (if execute_model_call then "model_call_smoke" else if allow_model_call then "provider_call_opt_in" else "availability_only")
        allow_model_call execute_model_call profile call_status in
    let payload := dset "closure_gates" (VDict (gates runnable status reason call_status false)) payload in
    if negb execute_model_call then eret payload
    else if negb runnable then
      eret (set_all [("call_status", VStr "model_call_skipped_not_ready");
                     ("closure_gates", VDict (gates runnable status reason "model_call_skipped_not_ready" false))] payload)
    else fun w =>
      match smoke_call profile provider_client w with
      | (Raise exc, w') =>
          (Ok (set_all [("ok", VBool false); ("status", VStr "error"); ("reason", VStr "model_call_failed");
                        ("call_status", VStr "model_call_failed"); ("failure_class", VStr (class_name_of exc));
                        ("failure_status", VStr (exc_text exc)); ("executes_model_call", VBool true);
                        ("closure_gates", VDict (gates runnable "error" "model_call_failed" "model_call_failed" false))] payload), w')
      | (Ok (client, decision), w') =>
          (Ok (set_all [("status", VStr "ready"); ("reason", VStr "model_call_succeeded");
                        ("call_status", VStr "model_call_succeeded"); ("executes_model_call", VBool true);
                        ("affective_decision", VDict (decision_to_dict decision));
                        ("model_call_evidence", VDict (model_call_evidence profile client));
                        ("closure_gates", VDict (gates runnable "ready" "model_call_succeeded" "model_call_succeeded" true))] payload), w')
      end.
End Smoke.

(** ** An answer is checked *)

Lemma non_empty_str_spec v s : non_empty_str v = Some s -> v = VStr s /\ s <> "".
Proof.
  destruct v as [| | | |t| | |]; cbn; try discriminate. unfold str_truthy.
  destruct (String.eqb_spec t ""); [discriminate|]. intros H. injection H as <-. auto.
Qed.

(** An accepted plan names a tool that was offered, and says why. *)
Definition admissible (tools : list dict) (p : RationalPlan) : Prop :=
  tool_name p ∈ map tool_label tools /\ tool_name p <> "" /\ plan_reason p <> "".

Lemma validated_plan answer tools p :
  validate_rational_plan_payload answer (Some tools) = Ok (Some p) -> admissible tools p.
Proof.
  unfold validate_rational_plan_payload. intros E.
  destruct answer as [| | | | | | |payload]; try discriminate. cbn [as_dict rbind] in E.
  destruct (non_empty_str (dgetn "tool_name" payload)) as [name|] eqn:En; [|discriminate].
  apply non_empty_str_spec in En as [_ Hname].
  destruct (dgetn "args" payload); try discriminate.
  destruct (non_empty_str (dgetn "reason" payload)) as [why|] eqn:Er; [|discriminate].
  apply non_empty_str_spec in Er as [_ Hwhy].
  destruct (str_in name (map tool_label tools)) eqn:Em; [|discriminate]. injection E as <-.
  split; [|split]; [apply str_in_true; exact Em|exact Hname|exact Hwhy].
Qed.

Lemma coerced_decision answer d :
  coerce_affective_decision answer = Ok d -> 0 <= salience d <= 100 /\ reason d <> "".
Proof.
  unfold coerce_affective_decision. intros E. destruct (as_dict answer) as [payload|]; [|discriminate]. cbn [rbind] in E.
  destruct (dgetn "delegated" payload); try discriminate.
  destruct (non_empty_str (dgetn "reason" payload)) as [why|] eqn:Er; [|discriminate].
  destruct (int_value (dgetn "salience" payload)) as [n|]; [|discriminate].
  destruct ((n <? 0) || (100 <? n)) eqn:Eb; [discriminate|]. injection E as <-. cbn.
  apply non_empty_str_spec in Er as [_ Hwhy]. bool_prop. split; [lia|exact Hwhy].
Qed.

(** A step that leaves the outside world alone. *)
Definition untouched {C A} (m : eff C A) : Prop := forall w, (m w).2 = w.

Definition is_deterministic {C} (b : RationalBackend (C := C)) : bool :=
  match b with DeterministicRationalBackend => true | _ => false end.

(** C35: a model is not trusted: whatever its client or agent answers, and whatever it does,
    an affective decision that comes out has a salience from 0 to 100 and a reason, and a
    plan that comes out of a model-backed backend names a tool that was offered to it. *)
Theorem model_answers_checked {C} (profile : MafRuntimeProfile) (client : MafProviderClient C) (b : RationalBackend (C := C))
    frame items context decision tools session_context w :
  (forall d w', real_decide profile client frame items context w = (Ok d, w') -> 0 <= salience d <= 100 /\ reason d <> "") /\
  (forall p w', is_deterministic b = false ->
     backend_plan b decision frame tools session_context w = (Ok (Some p), w') -> admissible (default [] tools) p).
Proof.
  split.
  - intros d w' E. unfold real_decide in E. apply ebind_inv in E as (answer & w1 & _ & E).
    unfold elift in E. injection E as E _. exact (coerced_decision _ _ E).
  - intros p w' Hb E. destruct b as [|client' profile'|allow env factory package]; [discriminate| |]; cbn [backend_plan] in E.
    + apply ebind_inv in E as (answer & w1 & _ & E). unfold elift in E. injection E as E _. exact (validated_plan _ _ _ E).
    + destruct (negb allow); [discriminate|]. apply ebind_inv in E as (prompt & w1 & _ & E).
      apply ebind_inv in E as (text & w2 & _ & E). apply ebind_inv in E as (payload & w3 & _ & E).
      unfold elift in E. injection E as E _. exact (validated_plan _ _ _ E).
Qed.

(** A client that answers with a tool the manifest does not have, and with one it has. *)
Definition answering (tool : string) : MafProviderClient nat := {|
  client_kind := "test"; is_placeholder := false;
  client_decide _ _ _ _ := fun w => (Ok (VDict (dict_of
    [("delegated", VBool true); ("reason", VStr "r"); ("salience", VInt 80)])), S w);
  client_plan _ _ _ _ _ := fun w => (Ok (VDict (dict_of
    [("tool_name", VStr tool); ("args", VDict []); ("reason", VStr "r")])), S w);
|}.
Definition sample_decision : AffectiveDecision := {| delegated := true; reason := "r"; salience := 80 |}.
Definition sample_profile : MafRuntimeProfile := profile_of REAL_PROVIDER true (<["OPENAI_API_KEY" := "k"]> ∅).
Definition sample_tools : list dict := [dict_of [("name", VStr "system_query_apps")]].
Notation ask tool := (backend_plan (ProviderRationalBackend (answering tool) sample_profile) sample_decision smoke_frame
                        (Some sample_tools) None 0%nat).

Example unknown_tool_refused : (ask "rm").1 = Raise (ValueError "rational_plan_tool_not_in_available_tools").
Proof. vm_compute. reflexivity. Qed.

Lemma model_answers_checked_witness :
  (exists p, (ask "system_query_apps").1 = Ok (Some p) /\ admissible sample_tools p) /\
  (exists d, (real_decide sample_profile (answering "t") smoke_frame [] None 0%nat).1 = Ok d /\ 0 <= salience d <= 100).
Proof.
  pose proof (model_answers_checked sample_profile (answering "system_query_apps")
    (ProviderRationalBackend (answering "system_query_apps") sample_profile) smoke_frame [] None sample_decision
    (Some sample_tools) None 0%nat) as [Hd Hp].
  split; eexists; (split; [vm_compute; reflexivity|]).
  - eapply Hp; vm_compute; reflexivity.
  - refine (proj1 (Hd _ _ _)). vm_compute. reflexivity.
Defined.

(** ** A model is called only when allowed *)

Lemma profile_ready mode framework env :
  provider_ready_for_model_call (profile_of mode framework env) = framework && ready_for_model_call (build_maf_provider_config env).
Proof. reflexivity. Qed.

(** No model is called without permission: the smoke command always ends with a payload,
    which reports a call exactly when one was requested, allowed and configured, and leaves
    the client alone otherwise; a Copilot backend without permission raises before its agent is
    made; and an adapter for a real provider is not even built on an incomplete configuration. *)
Theorem model_calls_gated {C} run_agent framework env exc_text allow execute (client : option (MafProviderClient C))
    environment factory package decision frame tools session_context w :
  let called := execute && allow && (framework && ready_for_model_call (build_maf_provider_config env)) in
  let smoke := maf_provider_smoke_status run_agent framework env exc_text allow execute client in
  (exists payload, (smoke w).1 = Ok payload /\ dget "executes_model_call" payload = Some (VBool called)) /\
  (called = false -> (smoke w).2 = w) /\
  backend_plan (CopilotSdkRationalBackend (C := C) false environment factory package) decision frame tools session_context w =
    (Raise (ValueError "copilot_rational_backend_requires_allow_model_call"), w) /\
  (framework && ready_for_model_call (build_maf_provider_config env) = false ->
   is_ok (build_affective_agent_adapter (profile_of REAL_PROVIDER framework env) client) = false /\
   is_ok (build_rational_agent_adapter (profile_of REAL_PROVIDER framework env) client "auto" allow environment factory package) = false).
Proof.
  intros called smoke. split; [|split; [|split; [reflexivity|]]].
  - unfold smoke, maf_provider_smoke_status. subst called. destruct execute, allow; cbn [andb negb]; cbv zeta.
    all: try destruct (smoke_status_of _) as [status why].
    all: try (eexists; split; reflexivity).
    rewrite profile_ready. destruct (framework && ready_for_model_call (build_maf_provider_config env)); cbn [negb].
    + destruct (smoke_call run_agent env _ client w) as [[[c d]|e] w']; eexists; split; reflexivity.
    + eexists; split; reflexivity.
  - intros Hc. unfold smoke, maf_provider_smoke_status. subst called. destruct execute, allow; cbn [andb negb] in *; cbv zeta.
    all: try destruct (smoke_status_of _) as [status why]; try reflexivity.
    rewrite profile_ready, Hc. reflexivity.
  - intros Hr. unfold build_affective_agent_adapter, build_rational_agent_adapter, real_affective_agent, real_rational_agent.
    rewrite profile_ready, Hr. split; reflexivity.
Qed.
Lemma model_calls_gated_witness :
  is_ok (build_affective_agent_adapter (C := nat) (profile_of REAL_PROVIDER true ∅) None) = false /\
  (maf_provider_smoke_status (C := nat) (fun _ _ _ _ => eraise AssertionError) true ∅ class_name_of true true None 0%nat).2 = 0%nat.
Proof.
  pose proof (model_calls_gated (C := nat) (fun _ _ _ _ => eraise AssertionError) true ∅ class_name_of true true None
    ∅ None None sample_decision smoke_frame None None 0%nat) as (_ & Hq & _ & Hn).
  split; [apply Hn|apply Hq]; vm_compute; reflexivity.
Defined.

(** The endpoint is among the variables that hold a credential, and the first of them: a client
    for Azure is made with the endpoint as its key. *)
Lemma azure_key_is_the_endpoint profile env endpoint kwargs :
  env_value env "AZURE_OPENAI_ENDPOINT" = Some endpoint ->
  client_kwargs profile env = Ok kwargs ->
  dget "api_key" kwargs = Some (VStr endpoint) /\ dget "azure_endpoint" kwargs = Some (VStr endpoint).
Proof.
  intros He Hk. unfold client_kwargs in Hk. cbn [first_present_env_var MAF_PROVIDER_ENV_VARS MAF_PROVIDER_ENDPOINT_ENV_VARS] in Hk.
  rewrite He in Hk. destruct (negb _); [discriminate|].
  match type of Hk with match ?o with _ => _ end = _ => destruct o as [model|]; [|discriminate] end.
  destruct (first_present_env_var env MAF_PROVIDER_API_VERSION_ENV_VARS) as [[name version]|]; injection Hk as <-;
    split; reflexivity.
Qed.

Example azure_client :
  let env := <["AZURE_OPENAI_ENDPOINT" := "https://unit.example"]> (<["AZURE_OPENAI_API_KEY" := "key"]>
               (<["AZURE_OPENAI_CHAT_DEPLOYMENT" := "gpt"]> ∅)) in
  (let! kwargs := client_kwargs (profile_of REAL_PROVIDER true env) env in dindex "api_key" kwargs) = Ok (VStr "https://unit.example").
Proof. vm_compute. reflexivity. Qed.
