(* ===== verification/Persona.v ===== *)
(** * Persona ([persona.py], persona bundle commands of [cli.py])

    The persona's seed, state, relationships and growth record, the signals
    that move it, the runtime evidence that grows it, and the bundle operations
    that bind, redact, inspect and verify them. *)

From Stdlib Require Import ZArith Lia Bool List Ascii String.
From Stdlib.Floats Require Import SpecFloat.
From stdpp Require Import base list option sets strings sorting.
From S2P Require Import Prelude PyFloat Text PyValue Json.

Open Scope Z_scope.

Definition f_zero : spec_float := flit 0 0.
Definition f_one : spec_float := flit 1 0.
Definition f_half : spec_float := flit 5 1.
Definition f_minus_one : spec_float := flit (-1) 0.

(** [_clamp] *)
Definition clamp (value minimum maximum : spec_float) : spec_float :=
  fmax minimum (fmin maximum (fround value 4)).
Definition clamp01 (value : spec_float) : spec_float := clamp value f_zero f_one.
Definition clamp11 (value : spec_float) : spec_float := clamp value f_minus_one f_one.

Arguments clamp01 : simpl never.
Arguments clamp11 : simpl never.
Arguments f_zero : simpl never.
Arguments f_one : simpl never.
Arguments f_half : simpl never.
Arguments f_minus_one : simpl never.

Definition string_tuple (value : pyval) : result (list string) := str_items (por value (VList [])).

(** [float(payload.get(key, default))] *)
Definition float_field (key : string) (default : spec_float) (payload : dict) : result spec_float :=
  py_float (dget_or key (VFloat default) payload).

(** [int(payload.get(key) or default)] *)
Definition int_or (key : string) (default : Z) (payload : dict) : result Z :=
  py_int (por (dgetn key payload) (VInt default)).

(** [str(payload.get(key)) if payload.get(key) is not None else None] *)
Definition opt_str_field (key : string) (payload : dict) : option string :=
  if is_none (dgetn key payload) then None else Some (py_str (dgetn key payload)).

Definition PERSONA_GROWTH_RUNTIME_SOURCES : list string :=
  ["social_interaction"; "unit_event"; "relationship_summary"; "vitality_transition"; "self_improvement"]%string.

(** ** Seed *)

Record PersonaSeedConfig := {
  sc_persona_id : string;
  sc_seed_name : string;
  sc_mood : string;
  sc_valence : spec_float;
  sc_arousal : spec_float;
  sc_curiosity : spec_float;
  sc_fatigue : spec_float;
  sc_social_openness : spec_float;
  sc_vitality_summary : string;
  sc_relationship_style : string;
  sc_immutable_boundaries : list string;
  sc_created_at : pyval;
}.

Definition seed_from_dict (payload : dict) : result PersonaSeedConfig :=
  let! valence := float_field "valence" f_zero payload in
  let! arousal := float_field "arousal" f_zero payload in
  let! curiosity := float_field "curiosity" f_half payload in
  let! fatigue := float_field "fatigue" f_zero payload in
  let! openness := float_field "social_openness" f_half payload in
  let! bounds := string_tuple (dgetn "immutable_boundaries" payload) in
  Ok {| sc_persona_id := str_or "persona_id" "affective-main" payload;
        sc_seed_name := str_or "seed_name" "default" payload;
        sc_mood := str_or "mood" "steady" payload;
        sc_valence := clamp11 valence;
        sc_arousal := clamp01 arousal;
        sc_curiosity := clamp01 curiosity;
        sc_fatigue := clamp01 fatigue;
        sc_social_openness := clamp01 openness;
        sc_vitality_summary := str_or "vitality_summary" "attentive" payload;
        sc_relationship_style := str_or "relationship_style" "warm" payload;
        sc_immutable_boundaries := bounds;
        sc_created_at := dgetn "created_at" payload |}.

Definition seed_to_dict (s : PersonaSeedConfig) : dict :=
  dict_of [("persona_id", VStr (sc_persona_id s)); ("seed_name", VStr (sc_seed_name s));
           ("mood", VStr (sc_mood s)); ("valence", VFloat (sc_valence s));
           ("arousal", VFloat (sc_arousal s)); ("curiosity", VFloat (sc_curiosity s));
           ("fatigue", VFloat (sc_fatigue s)); ("social_openness", VFloat (sc_social_openness s));
           ("vitality_summary", VStr (sc_vitality_summary s));
           ("relationship_style", VStr (sc_relationship_style s));
           ("immutable_boundaries", VList (vstrs (sc_immutable_boundaries s)));
           ("created_at", sc_created_at s)].

Definition compute_persona_seed_fingerprint (s : PersonaSeedConfig) : result string :=
  stable_hash (seed_to_dict s).

(** ** Growth *)

Record PersonaGrowthEvidence := {
  ge_event_id : string;
  ge_source : string;
  ge_reason : string;
  ge_recorded_at : string;
  ge_principal_id : option string;
  ge_summary : string;
}.

Definition evidence_from_dict (payload : dict) : PersonaGrowthEvidence :=
  {| ge_event_id := str_or "event_id" "" payload;
     ge_source := str_or "source" "" payload;
     ge_reason := str_or "reason" "" payload;
     ge_recorded_at := str_or "recorded_at" "" payload;
     ge_principal_id := opt_str_field "principal_id" payload;
     ge_summary := str_or "summary" "" payload |}.

Definition growth_evidence_to_dict (e : PersonaGrowthEvidence) : dict :=
  dict_of [("event_id", VStr (ge_event_id e)); ("source", VStr (ge_source e));
           ("reason", VStr (ge_reason e)); ("recorded_at", VStr (ge_recorded_at e));
           ("principal_id", opt_str (ge_principal_id e)); ("summary", VStr (ge_summary e))].

Record PersonaGrowthState := {
  gs_persona_id : string;
  gs_seed_fingerprint : string;
  gs_revision : Z;
  gs_social_interaction_count : Z;
  gs_unit_event_count : Z;
  gs_relationship_summary_count : Z;
  gs_vitality_event_count : Z;
  gs_self_improvement_count : Z;
  gs_evidence_event_ids : list string;
  gs_last_evidence_source : option string;
  gs_last_evidence_reason : option string;
  gs_last_evidence_at : option string;
  gs_provenance_hash : string;
}.

Definition growth_from_dict (payload : dict) : result PersonaGrowthState :=
  let! revision := int_or "revision" 0 payload in
  let! social := int_or "social_interaction_count" 0 payload in
  let! unit := int_or "unit_event_count" 0 payload in
  let! relationship := int_or "relationship_summary_count" 0 payload in
  let! vitality := int_or "vitality_event_count" 0 payload in
  let! improvement := int_or "self_improvement_count" 0 payload in
  let! ids := string_tuple (dgetn "evidence_event_ids" payload) in
  Ok {| gs_persona_id := str_or "persona_id" "affective-main" payload;
        gs_seed_fingerprint := str_or "seed_fingerprint" "" payload;
        gs_revision := revision;
        gs_social_interaction_count := social;
        gs_unit_event_count := unit;
        gs_relationship_summary_count := relationship;
        gs_vitality_event_count := vitality;
        gs_self_improvement_count := improvement;
        gs_evidence_event_ids := ids;
        gs_last_evidence_source := opt_str_field "last_evidence_source" payload;
        gs_last_evidence_reason := opt_str_field "last_evidence_reason" payload;
        gs_last_evidence_at := opt_str_field "last_evidence_at" payload;
        gs_provenance_hash := str_or "provenance_hash" "" payload |}.

(** [to_dict], with the provenance hash as an argument. *)
Definition growth_dict (g : PersonaGrowthState) (provenance : string) : dict :=
  dict_of [("persona_id", VStr (gs_persona_id g)); ("seed_fingerprint", VStr (gs_seed_fingerprint g));
           ("revision", VInt (gs_revision g));
           ("social_interaction_count", VInt (gs_social_interaction_count g));
           ("unit_event_count", VInt (gs_unit_event_count g));
           ("relationship_summary_count", VInt (gs_relationship_summary_count g));
           ("vitality_event_count", VInt (gs_vitality_event_count g));
           ("self_improvement_count", VInt (gs_self_improvement_count g));
           ("evidence_event_ids", VList (vstrs (gs_evidence_event_ids g)));
           ("last_evidence_source", opt_str (gs_last_evidence_source g));
           ("last_evidence_reason", opt_str (gs_last_evidence_reason g));
           ("last_evidence_at", opt_str (gs_last_evidence_at g));
           ("provenance_hash", VStr provenance)].

Definition growth_to_dict (g : PersonaGrowthState) : dict := growth_dict g (gs_provenance_hash g).

(** [payload = to_dict(); payload["provenance_hash"] = ""] *)
Definition compute_persona_growth_provenance_hash (g : PersonaGrowthState) : result string :=
  stable_hash (dset "provenance_hash" (VStr "") (growth_to_dict g)).

(** [replace(g, provenance_hash=h)] *)
Definition with_provenance (g : PersonaGrowthState) (h : string) : PersonaGrowthState :=
  {| gs_persona_id := gs_persona_id g; gs_seed_fingerprint := gs_seed_fingerprint g;
     gs_revision := gs_revision g; gs_social_interaction_count := gs_social_interaction_count g;
     gs_unit_event_count := gs_unit_event_count g;
     gs_relationship_summary_count := gs_relationship_summary_count g;
     gs_vitality_event_count := gs_vitality_event_count g;
     gs_self_improvement_count := gs_self_improvement_count g;
     gs_evidence_event_ids := gs_evidence_event_ids g;
     gs_last_evidence_source := gs_last_evidence_source g;
     gs_last_evidence_reason := gs_last_evidence_reason g;
     gs_last_evidence_at := gs_last_evidence_at g;
     gs_provenance_hash := h |}.

Definition initialize_persona_growth_state (seed : PersonaSeedConfig) : result PersonaGrowthState :=
  let! fingerprint := compute_persona_seed_fingerprint seed in
  let g := {| gs_persona_id := sc_persona_id seed; gs_seed_fingerprint := fingerprint;
              gs_revision := 0; gs_social_interaction_count := 0; gs_unit_event_count := 0;
              gs_relationship_summary_count := 0; gs_vitality_event_count := 0;
              gs_self_improvement_count := 0; gs_evidence_event_ids := [];
              gs_last_evidence_source := None; gs_last_evidence_reason := None;
              gs_last_evidence_at := None; gs_provenance_hash := "" |} in
  let! h := compute_persona_growth_provenance_hash g in
  Ok (with_provenance g h).

(** The [increments] table. *)
Definition increments : list (string * (Z * Z * Z * Z * Z)) :=
  [("social_interaction"%string, (1, 0, 0, 0, 0)); ("unit_event"%string, (0, 1, 0, 0, 0));
   ("relationship_summary"%string, (0, 0, 1, 0, 0)); ("vitality_transition"%string, (0, 0, 0, 1, 0));
   ("self_improvement"%string, (0, 0, 0, 0, 1))].

(** The growth record after an accepted evidence, before its hash is filled in. *)
Definition grow (g : PersonaGrowthState) (e : PersonaGrowthEvidence) (inc : Z * Z * Z * Z * Z)
    : PersonaGrowthState :=
  let '(social, unit, relationship, vitality, improvement) := inc in
  {| gs_persona_id := gs_persona_id g; gs_seed_fingerprint := gs_seed_fingerprint g;
     gs_revision := gs_revision g + 1;
     gs_social_interaction_count := gs_social_interaction_count g + social;
     gs_unit_event_count := gs_unit_event_count g + unit;
     gs_relationship_summary_count := gs_relationship_summary_count g + relationship;
     gs_vitality_event_count := gs_vitality_event_count g + vitality;
     gs_self_improvement_count := gs_self_improvement_count g + improvement;
     gs_evidence_event_ids := gs_evidence_event_ids g ++ [ge_event_id e];
     gs_last_evidence_source := Some (ge_source e);
     gs_last_evidence_reason := Some (ge_reason e);
     gs_last_evidence_at := Some (ge_recorded_at e);
     gs_provenance_hash := "" |}.

Definition apply_persona_growth_evidence (current : PersonaGrowthState) (evidence : PersonaGrowthEvidence)
    : result PersonaGrowthState :=
  if negb (str_in (ge_source evidence) PERSONA_GROWTH_RUNTIME_SOURCES) then
    Raise (ValueError "persona_growth_requires_runtime_evidence")
  else if String.eqb (ge_event_id evidence) "" then
    Raise (ValueError "persona_growth_requires_event_id")
  else if str_in (ge_event_id evidence) (gs_evidence_event_ids current) then
    Raise (ValueError "persona_growth_event_already_recorded")
  else
    match od_get (fun s => s) (ge_source evidence) increments with
    | None => Raise (KeyError (ge_source evidence))
    | Some inc =>
        let updated := grow current evidence inc in
        let! h := compute_persona_growth_provenance_hash updated in
        Ok (with_provenance updated h)
    end.

(** ** Relationships and state *)

Record RelationshipSummary := {
  rs_principal_id : string;
  rs_trust : spec_float;
  rs_familiarity : spec_float;
  rs_preferred_address : string;
  rs_boundaries : list string;
  rs_last_interaction_reason : pyval;
}.

Definition relationship_from_dict (payload : dict) : result RelationshipSummary :=
  let! trust := float_field "trust" f_half payload in
  let! familiarity := float_field "familiarity" f_zero payload in
  let! bounds := string_tuple (dgetn "boundaries" payload) in
  Ok {| rs_principal_id := str_or "principal_id" "unknown" payload;
        rs_trust := clamp01 trust;
        rs_familiarity := clamp01 familiarity;
        rs_preferred_address := str_or "preferred_address" "" payload;
        rs_boundaries := bounds;
        rs_last_interaction_reason := dgetn "last_interaction_reason" payload |}.

Definition relationship_to_dict (r : RelationshipSummary) : dict :=
  dict_of [("principal_id", VStr (rs_principal_id r)); ("trust", VFloat (rs_trust r));
           ("familiarity", VFloat (rs_familiarity r));
           ("preferred_address", VStr (rs_preferred_address r));
           ("boundaries", VList (vstrs (rs_boundaries r)));
           ("last_interaction_reason", rs_last_interaction_reason r)].

Definition relationship_rational_summary (r : RelationshipSummary) : dict :=
  dict_of [("principal_id", VStr (rs_principal_id r)); ("trust", VFloat (rs_trust r));
           ("familiarity", VFloat (rs_familiarity r));
           ("last_interaction_reason", rs_last_interaction_reason r)].

Record PersonaSignal := {
  ps_reason : string;
  ps_mood : option string;
  ps_valence_delta : spec_float;
  ps_arousal_delta : spec_float;
  ps_curiosity_delta : spec_float;
  ps_fatigue_delta : spec_float;
  ps_social_openness_delta : spec_float;
  ps_principal_id : option string;
  ps_trust_delta : spec_float;
  ps_familiarity_delta : spec_float;
  ps_preferred_address : option string;
  ps_boundary_note : option string;
}.

Record PersonaState := {
  pe_persona_id : string;
  pe_version : Z;
  pe_mood : string;
  pe_valence : spec_float;
  pe_arousal : spec_float;
  pe_curiosity : spec_float;
  pe_fatigue : spec_float;
  pe_social_openness : spec_float;
  pe_vitality_summary : string;
  pe_relationships : list RelationshipSummary;
  pe_seed_config : option PersonaSeedConfig;
  pe_growth_state : option PersonaGrowthState;
  pe_provenance_hash : option string;
  pe_updated_at : pyval;
}.

(** [X.from_dict(payload.get(key) or {}) if payload.get(key) else None] *)
Definition opt_from {A} (f : dict -> result A) (key : string) (payload : dict) : result (option A) :=
  if py_truthy (dgetn key payload)
  then let! d := as_dict (por (dgetn key payload) (VDict [])) in let! a := f d in Ok (Some a)
  else Ok None.

Definition persona_from_dict (payload : dict) : result PersonaState :=
  let! version := int_or "version" 1 payload in
  let! valence := float_field "valence" f_zero payload in
  let! arousal := float_field "arousal" f_zero payload in
  let! curiosity := float_field "curiosity" f_half payload in
  let! fatigue := float_field "fatigue" f_zero payload in
  let! openness := float_field "social_openness" f_half payload in
  let! items := py_iter (por (dgetn "relationship_summaries" payload) (VList [])) in
  let! relationships := rmap (fun item => let! d := as_dict item in relationship_from_dict d) items in
  let! seed := opt_from seed_from_dict "seed_config" payload in
  let! growth := opt_from growth_from_dict "growth_state" payload in
  Ok {| pe_persona_id := str_or "persona_id" "affective-main" payload;
        pe_version := version;
        pe_mood := str_or "mood" "steady" payload;
        pe_valence := clamp11 valence;
        pe_arousal := clamp01 arousal;
        pe_curiosity := clamp01 curiosity;
        pe_fatigue := clamp01 fatigue;
        pe_social_openness := clamp01 openness;
        pe_vitality_summary := str_or "vitality_summary" "attentive" payload;
        pe_relationships := relationships;
        pe_seed_config := seed;
        pe_growth_state := growth;
        pe_provenance_hash := opt_str_field "provenance_hash" payload;
        pe_updated_at := dgetn "updated_at" payload |}.

Definition opt_dict {A} (f : A -> dict) (o : option A) : pyval :=
  match o with Some a => VDict (f a) | None => VNone end.

Definition persona_to_dict (p : PersonaState) : dict :=
  dict_of [("persona_id", VStr (pe_persona_id p)); ("version", VInt (pe_version p));
           ("mood", VStr (pe_mood p)); ("valence", VFloat (pe_valence p));
           ("arousal", VFloat (pe_arousal p)); ("curiosity", VFloat (pe_curiosity p));
           ("fatigue", VFloat (pe_fatigue p)); ("social_openness", VFloat (pe_social_openness p));
           ("vitality_summary", VStr (pe_vitality_summary p));
           ("relationship_summaries", VList (map (fun r => VDict (relationship_to_dict r)) (pe_relationships p)));
           ("seed_config", opt_dict seed_to_dict (pe_seed_config p));
           ("growth_state", opt_dict growth_to_dict (pe_growth_state p));
           ("provenance_hash", opt_str (pe_provenance_hash p)); ("updated_at", pe_updated_at p)].

Definition persona_rational_summary (p : PersonaState) : dict :=
  dict_of [("persona_id", VStr (pe_persona_id p)); ("mood", VStr (pe_mood p));
           ("valence", VFloat (pe_valence p)); ("arousal", VFloat (pe_arousal p));
           ("curiosity", VFloat (pe_curiosity p)); ("fatigue", VFloat (pe_fatigue p));
           ("social_openness", VFloat (pe_social_openness p));
           ("vitality_summary", VStr (pe_vitality_summary p));
           ("relationship_summaries",
            VList (map (fun r => VDict (relationship_rational_summary r)) (pe_relationships p)));
           ("growth_state",
            match pe_growth_state p with
            | Some g => VDict (dict_of [("revision", VInt (gs_revision g));
                                        ("last_evidence_source", opt_str (gs_last_evidence_source g));
                                        ("last_evidence_reason", opt_str (gs_last_evidence_reason g))])
            | None => VNone
            end)].

Definition initialize_persona_state_from_seed (seed : PersonaSeedConfig) (updated_at : pyval) : PersonaState :=
  {| pe_persona_id := sc_persona_id seed; pe_version := 1; pe_mood := sc_mood seed;
     pe_valence := sc_valence seed; pe_arousal := sc_arousal seed; pe_curiosity := sc_curiosity seed;
     pe_fatigue := sc_fatigue seed; pe_social_openness := sc_social_openness seed;
     pe_vitality_summary := sc_vitality_summary seed; pe_relationships := [];
     pe_seed_config := None; pe_growth_state := None; pe_provenance_hash := None;
     pe_updated_at := por updated_at (sc_created_at seed) |}.

(** ** Immutability stamp *)

Definition compute_persona_immutability_stamp (seed : PersonaSeedConfig) (persona : PersonaState)
    (growth : PersonaGrowthState) : result string :=
  stable_hash (dict_of [("seed", VDict (seed_to_dict seed)); ("persona_state", VDict (persona_to_dict persona));
                        ("growth_state", VDict (growth_to_dict growth))]).

Definition persona_immutability_tampered (expected_stamp : string) (seed : PersonaSeedConfig)
    (persona : PersonaState) (growth : PersonaGrowthState) : result bool :=
  let! actual := compute_persona_immutability_stamp seed persona growth in
  Ok (negb (String.eqb expected_stamp actual)).

(** ** Signals *)

(** [a or b] on an optional and a present string. *)
Definition opt_or (a : option string) (b : string) : string :=
  match a with Some s => if String.eqb s "" then b else s | None => b end.

Definition opt_truthy (a : option string) : option string :=
  match a with Some s => if String.eqb s "" then None else Some s | None => None end.

Definition rel_get (pid : string) (rels : list (string * RelationshipSummary)) : option RelationshipSummary :=
  od_get (fun s => s) pid rels.

Definition new_relationship (pid : string) : RelationshipSummary :=
  {| rs_principal_id := pid; rs_trust := f_half; rs_familiarity := f_zero; rs_preferred_address := "";
     rs_boundaries := []; rs_last_interaction_reason := VNone |}.

Definition update_relationship (s : PersonaSignal) (pid : string) (previous : RelationshipSummary)
    : RelationshipSummary :=
  {| rs_principal_id := pid;
     rs_trust := clamp01 (fadd (rs_trust previous) (ps_trust_delta s));
     rs_familiarity := clamp01 (fadd (rs_familiarity previous) (ps_familiarity_delta s));
     rs_preferred_address := opt_or (ps_preferred_address s) (rs_preferred_address previous);
     rs_boundaries :=
       match opt_truthy (ps_boundary_note s) with
       | Some note => if str_in note (rs_boundaries previous) then rs_boundaries previous
                      else rs_boundaries previous ++ [note]
       | None => rs_boundaries previous
       end;
     rs_last_interaction_reason := VStr (ps_reason s) |}.

(** The local variables of the signal loop. *)
Record SignalAcc := {
  sa_mood : string;
  sa_valence : spec_float;
  sa_arousal : spec_float;
  sa_curiosity : spec_float;
  sa_fatigue : spec_float;
  sa_openness : spec_float;
  sa_rels : list (string * RelationshipSummary);
}.

Definition signal_step (a : SignalAcc) (s : PersonaSignal) : SignalAcc :=
  {| sa_mood := opt_or (ps_mood s) (sa_mood a);
     sa_valence := clamp11 (fadd (sa_valence a) (ps_valence_delta s));
     sa_arousal := clamp01 (fadd (sa_arousal a) (ps_arousal_delta s));
     sa_curiosity := clamp01 (fadd (sa_curiosity a) (ps_curiosity_delta s));
     sa_fatigue := clamp01 (fadd (sa_fatigue a) (ps_fatigue_delta s));
     sa_openness := clamp01 (fadd (sa_openness a) (ps_social_openness_delta s));
     sa_rels :=
       match opt_truthy (ps_principal_id s) with
       | Some pid =>
           let previous := match rel_get pid (sa_rels a) with Some r => r | None => new_relationship pid end in
           od_set (fun s => s) pid (update_relationship s pid previous) (sa_rels a)
       | None => sa_rels a
       end |}.

Definition rels_of (rs : list RelationshipSummary) : list (string * RelationshipSummary) :=
  od_update (fun s => s) [] (map (fun r => (rs_principal_id r, r)) rs).

Definition rel_leb (a b : RelationshipSummary) : bool := String.leb (rs_principal_id a) (rs_principal_id b).

Definition apply_persona_signals (current : PersonaState) (signals : list PersonaSignal)
    (vitality_summary : option string) (updated_at : pyval) : PersonaState :=
  let a := foldl signal_step
    {| sa_mood := pe_mood current; sa_valence := pe_valence current; sa_arousal := pe_arousal current;
       sa_curiosity := pe_curiosity current; sa_fatigue := pe_fatigue current;
       sa_openness := pe_social_openness current; sa_rels := rels_of (pe_relationships current) |} signals in
  {| pe_persona_id := pe_persona_id current; pe_version := pe_version current;
     pe_mood := sa_mood a; pe_valence := sa_valence a; pe_arousal := sa_arousal a;
     pe_curiosity := sa_curiosity a; pe_fatigue := sa_fatigue a; pe_social_openness := sa_openness a;
     pe_vitality_summary := opt_or vitality_summary (pe_vitality_summary current);
     pe_relationships := py_sorted rel_leb (map snd (sa_rels a));
     pe_seed_config := None; pe_growth_state := None; pe_provenance_hash := None;
     pe_updated_at := por updated_at (pe_updated_at current) |}.

Definition redact_relationships (current : PersonaState) (principal_ids : list string) (updated_at : pyval)
    : PersonaState :=
  {| pe_persona_id := pe_persona_id current; pe_version := pe_version current;
     pe_mood := pe_mood current; pe_valence := pe_valence current; pe_arousal := pe_arousal current;
     pe_curiosity := pe_curiosity current; pe_fatigue := pe_fatigue current;
     pe_social_openness := pe_social_openness current;
     pe_vitality_summary := pe_vitality_summary current;
     pe_relationships := List.filter (fun r => negb (str_in (rs_principal_id r) principal_ids)) (pe_relationships current);
     pe_seed_config := None; pe_growth_state := None; pe_provenance_hash := None;
     pe_updated_at := por updated_at (pe_updated_at current) |}.

(** ** Facts: ranges *)

Definition in_range (lo hi x : spec_float) : Prop := fleb lo x = true /\ fleb x hi = true.

Lemma clamp01_range x : in_range f_zero f_one (clamp01 x).
Proof. apply fmax_fmin_bounds; vm_compute; reflexivity. Qed.

Lemma clamp11_range x : in_range f_minus_one f_one (clamp11 x).
Proof. apply fmax_fmin_bounds; vm_compute; reflexivity. Qed.

#[local] Hint Resolve clamp01_range clamp11_range : py.

Definition relationship_ok (r : RelationshipSummary) : Prop :=
  in_range f_zero f_one (rs_trust r) /\ in_range f_zero f_one (rs_familiarity r).

(** The range invariant of a persona. *)
Definition persona_ok (p : PersonaState) : Prop :=
  in_range f_minus_one f_one (pe_valence p) /\ in_range f_zero f_one (pe_arousal p) /\
  in_range f_zero f_one (pe_curiosity p) /\ in_range f_zero f_one (pe_fatigue p) /\
  in_range f_zero f_one (pe_social_openness p) /\ Forall relationship_ok (pe_relationships p).

Definition acc_ok (a : SignalAcc) : Prop :=
  in_range f_minus_one f_one (sa_valence a) /\ in_range f_zero f_one (sa_arousal a) /\
  in_range f_zero f_one (sa_curiosity a) /\ in_range f_zero f_one (sa_fatigue a) /\
  in_range f_zero f_one (sa_openness a) /\
  od_wf (fun s => s) (sa_rels a) /\
  Forall (fun kr => relationship_ok kr.2 /\ rs_principal_id kr.2 = kr.1) (sa_rels a).

Lemma Forall_od_set {V} (P : string * V -> Prop) k v d :
  P (k, v) -> Forall P d -> Forall P (od_set (fun s => s) k v d).
Proof.
  intros Hk. induction 1 as [|[k1 v1] d H1 Hd IH]; cbn; [by constructor|].
  case_decide as E; constructor; auto. by rewrite E.
Qed.

Lemma signal_step_ok a s : acc_ok a -> acc_ok (signal_step a s).
Proof.
  intros (_ & _ & _ & _ & _ & Hw & Hf). unfold acc_ok. cbn. split_and!; auto with py.
  - destruct (opt_truthy _); [by apply od_set_wf|done].
  - destruct (opt_truthy _) as [pid|]; [|done]. apply Forall_od_set; [|done]. cbn. split; [|done].
    split; apply clamp01_range.
Qed.

Lemma rels_of_ok rs : Forall relationship_ok rs ->
  od_wf (fun s => s) (rels_of rs) /\ Forall (fun kr => relationship_ok kr.2 /\ rs_principal_id kr.2 = kr.1) (rels_of rs).
Proof.
  intros H. unfold rels_of, od_update. split; [apply od_update_wf, od_nil_wf|].
  assert (forall acc : list (string * RelationshipSummary),
    Forall (fun kr => relationship_ok kr.2 /\ rs_principal_id kr.2 = kr.1) acc ->
    Forall (fun kr => relationship_ok kr.2 /\ rs_principal_id kr.2 = kr.1)
      (foldl (fun a '(k, v) => od_set (fun s => s) k v a) acc (map (fun r => (rs_principal_id r, r)) rs))) as Hg;
    [|by apply Hg].
  induction H as [|r rs Hr Hrs IH]; intros acc Hacc; cbn; [done|]. apply IH. by apply Forall_od_set.
Qed.

Lemma foldl_inv {A B} (P : A -> Prop) (f : A -> B -> A) l a :
  (forall a b, P a -> P (f a b)) -> P a -> P (foldl f a l).
Proof. intros Hf. revert a. induction l; cbn; auto. Qed.

Lemma relationship_from_dict_ok d r : relationship_from_dict d = Ok r -> relationship_ok r.
Proof. unfold relationship_from_dict. intros H. inv_ok. split; cbn; auto with py. Qed.

(** ** Facts: growth *)

Lemma growth_hash_total g : exists h, compute_persona_growth_provenance_hash g = Ok h.
Proof.
  apply stable_hash_total.
  replace (dset "provenance_hash" (VStr "") (growth_to_dict g)) with (growth_dict g "") by reflexivity.
  apply json_safe_dict_of. repeat (apply Forall_cons; split; [|]); cbn; try constructor;
    try (destruct (_ : option string); constructor).
  unfold vstrs. apply Forall_map, Forall_forall. constructor.
Qed.

(** The provenance hash covers everything but itself. *)
Lemma provenance_hash_ignores_itself g h :
  compute_persona_growth_provenance_hash (with_provenance g h) = compute_persona_growth_provenance_hash g.
Proof. reflexivity. Qed.

Lemma runtime_source_increments s :
  str_in s PERSONA_GROWTH_RUNTIME_SOURCES = true -> exists inc, od_get (fun s => s) s increments = Some inc.
Proof.
  intros H%str_in_true. unfold PERSONA_GROWTH_RUNTIME_SOURCES in H.
  repeat (apply elem_of_cons in H as [->|H]; [by eexists|]). by apply elem_of_nil in H.
Qed.

Definition growth_total (g : PersonaGrowthState) : Z :=
  gs_social_interaction_count g + gs_unit_event_count g + gs_relationship_summary_count g
  + gs_vitality_event_count g + gs_self_improvement_count g.

Lemma increments_sum s inc : od_get (fun s => s) s increments = Some inc ->
  let '(a, b, c, d, e) := inc in a + b + c + d + e = 1.
Proof.
  intros H. destruct (od_get_elem_of _ _ _ _ H) as (k & _ & Hin). clear H.
  repeat (apply elem_of_cons in Hin as [[= _ ->]|Hin]; [done|]). by apply elem_of_nil in Hin.
Qed.

(** The growth invariant: as many counted events as revisions and recorded
    ids, no id twice, and a provenance hash that matches the record. *)
Definition growth_ok (g : PersonaGrowthState) : Prop :=
  growth_total g = gs_revision g /\ gs_revision g = Z.of_nat (length (gs_evidence_event_ids g)) /\
  NoDup (gs_evidence_event_ids g) /\ compute_persona_growth_provenance_hash g = Ok (gs_provenance_hash g).

(** The evidence a growth record accepts. *)
Definition acceptable (g : PersonaGrowthState) (e : PersonaGrowthEvidence) : Prop :=
  ge_source e ∈ PERSONA_GROWTH_RUNTIME_SOURCES /\ ge_event_id e <> ""%string /\
  ge_event_id e ∉ gs_evidence_event_ids g.

Lemma growth_step_ok g e g' :
  apply_persona_growth_evidence g e = Ok g' ->
  acceptable g e /\ gs_evidence_event_ids g' = gs_evidence_event_ids g ++ [ge_event_id e] /\
  gs_persona_id g' = gs_persona_id g /\ gs_seed_fingerprint g' = gs_seed_fingerprint g /\
  gs_revision g' = gs_revision g + 1 /\ growth_total g' = growth_total g + 1 /\
  compute_persona_growth_provenance_hash g' = Ok (gs_provenance_hash g').
Proof.
  unfold apply_persona_growth_evidence. intros H.
  destruct (str_in (ge_source e) _) eqn:Es; cbn [negb] in H; [|done].
  destruct (String.eqb_spec (ge_event_id e) "") as [|Hid]; [done|].
  destruct (str_in (ge_event_id e) (gs_evidence_event_ids g)) eqn:Ed; [done|].
  destruct (runtime_source_increments _ Es) as [inc Hinc]. rewrite Hinc in H.
  destruct (compute_persona_growth_provenance_hash (grow g e inc)) as [h|] eqn:Eh; cbn in H; [|done].
  inv_ok. pose proof (increments_sum _ _ Hinc) as Hsum. destruct inc as [[[[x1 x2] x3] x4] x5].
  apply str_in_true in Es. apply str_in_false in Ed. split_and!; try done.
  unfold growth_total. cbn. lia.
Qed.

Lemma growth_step_total g e : acceptable g e -> exists g', apply_persona_growth_evidence g e = Ok g'.
Proof.
  intros (Hs%str_in_true & Hid & Hd%str_in_false). unfold apply_persona_growth_evidence. rewrite Hs. cbn [negb].
  apply String.eqb_neq in Hid. rewrite Hid, Hd.
  destruct (runtime_source_increments _ Hs) as [inc ->].
  destruct (growth_hash_total (grow g e inc)) as [h ->]. cbn. eauto.
Qed.

Lemma growth_step_keeps g e g' : growth_ok g -> apply_persona_growth_evidence g e = Ok g' -> growth_ok g'.
Proof.
  intros (H1 & H2 & H3 & _) H. destruct (growth_step_ok _ _ _ H) as ((_ & _ & Hnew) & Hids & _ & _ & Hrev & Htot & Hh).
  unfold growth_ok. rewrite Hids, Hrev, Htot, length_app. cbn [length]. split_and!; [lia|lia| |done].
  apply NoDup_app. split; [done|]. split; [|apply NoDup_singleton]. set_solver.
Qed.

(** A run of evidences, stopping at the first one refused. *)
Fixpoint grow_all (g : PersonaGrowthState) (es : list PersonaGrowthEvidence) : result PersonaGrowthState :=
  match es with
  | [] => Ok g
  | e :: es' => let! g' := apply_persona_growth_evidence g e in grow_all g' es'
  end.

(** How many of the evidences came from a source, and the counters of a record by the source they count. *)
Definition from_source (source : string) (es : list PersonaGrowthEvidence) : Z :=
  Z.of_nat (length (List.filter (fun e => String.eqb (ge_source e) source) es)).
Definition counts_of (g : PersonaGrowthState) : list (string * Z) :=
  [("social_interaction", gs_social_interaction_count g); ("unit_event", gs_unit_event_count g);
   ("relationship_summary", gs_relationship_summary_count g); ("vitality_transition", gs_vitality_event_count g);
   ("self_improvement", gs_self_improvement_count g)]%string.
Definition counts_after (g : PersonaGrowthState) (es : list PersonaGrowthEvidence) : list (string * Z) :=
  map (fun sc => (sc.1, sc.2 + from_source sc.1 es)) (counts_of g).

Lemma growth_step_counts g e g' : apply_persona_growth_evidence g e = Ok g' -> counts_of g' = counts_after g [e].
Proof.
  unfold apply_persona_growth_evidence. intros H.
  destruct (str_in (ge_source e) _) eqn:Es; cbn [negb] in H; [|done].
  destruct (String.eqb (ge_event_id e) ""); [done|]. destruct (str_in (ge_event_id e) (gs_evidence_event_ids g)); [done|].
  destruct (od_get (fun s => s) (ge_source e) increments) as [inc|] eqn:Hinc; [|done].
  destruct (compute_persona_growth_provenance_hash (grow g e inc)) as [h|]; cbn [rbind] in H; [|done]. apply Ok_inj in H as <-.
  destruct (od_get_elem_of _ _ _ _ Hinc) as (k & Hk & Hin). cbn in Hk. subst k. unfold counts_after, counts_of, from_source, grow, with_provenance.
  unfold increments in Hin. cbn [List.filter map fst snd].
  repeat (apply elem_of_cons in Hin as [[= -> ->]|Hin]; [cbn; rewrite ?Z.add_0_r; reflexivity|]). by apply elem_of_nil in Hin.
Qed.

Lemma counts_after_app g g1 e es : counts_of g1 = counts_after g [e] -> counts_after g1 es = counts_after g (e :: es).
Proof.
  intros H. unfold counts_after in *. rewrite H, map_map. apply map_ext. intros [source n]. cbn [fst snd]. f_equal.
  unfold from_source. cbn [List.filter]. destruct (String.eqb (ge_source e) source); cbn [length]; lia.
Qed.

Lemma grow_all_counts es : forall g g', grow_all g es = Ok g' -> counts_of g' = counts_after g es.
Proof.
  induction es as [|e es IH]; intros g g' H; cbn in H.
  - inv_ok. unfold counts_after, from_source. cbn. by rewrite !Z.add_0_r.
  - inv_ok. rewrite (IH _ _ H). by apply counts_after_app, growth_step_counts.
Qed.

(** ** Facts: relationships *)

Lemma rel_leb_total a b : rel_leb a b = true \/ rel_leb b a = true.
Proof. apply string_leb_total. Qed.

Lemma rel_leb_trans a b c : rel_leb a b = true -> rel_leb b c = true -> rel_leb a c = true.
Proof. apply string_leb_trans. Qed.

Definition find_rel (pid : string) (rs : list RelationshipSummary) : option RelationshipSummary :=
  List.find (fun r => String.eqb (rs_principal_id r) pid) rs.

Definition mentions (pid : string) (s : PersonaSignal) : Prop := opt_truthy (ps_principal_id s) = Some pid.

Lemma signal_step_other a s pid :
  ~ mentions pid s -> rel_get pid (sa_rels (signal_step a s)) = rel_get pid (sa_rels a).
Proof.
  unfold mentions, rel_get. intros H. cbn. destruct (opt_truthy (ps_principal_id s)) as [p|]; [|done].
  apply od_get_set_ne. congruence.
Qed.

Lemma signals_other signals : forall a pid,
  Forall (fun s => ~ mentions pid s) signals ->
  rel_get pid (sa_rels (foldl signal_step a signals)) = rel_get pid (sa_rels a).
Proof.
  induction signals as [|s signals IH]; intros a pid H; cbn; [done|].
  apply Forall_cons in H as [Hs H]. rewrite IH by done. by apply signal_step_other.
Qed.

Definition rel_entry (r : RelationshipSummary) : string * RelationshipSummary := (rs_principal_id r, r).

Lemma od_update_fresh {V} (d acc : list (string * V)) :
  od_wf (fun s => s) (acc ++ d) -> od_update (fun s => s) acc d = acc ++ d.
Proof.
  unfold od_update. revert acc. induction d as [|[k v] d IH]; intros acc H; cbn; [by rewrite app_nil_r|].
  rewrite od_set_fresh.
  - rewrite IH; [by rewrite <- app_assoc|]. by rewrite <- app_assoc.
  - unfold od_wf, od_keys in *. rewrite map_app in H. apply NoDup_app in H as (_ & H & _).
    intros Hk. apply (H _ Hk). left.
Qed.

Lemma rels_of_nodup rs : NoDup (map rs_principal_id rs) -> rels_of rs = map rel_entry rs.
Proof.
  intros H. unfold rels_of. rewrite od_update_fresh; [done|]. unfold od_wf, od_keys. cbn [app].
  rewrite map_map. exact H.
Qed.

Lemma rels_members d r :
  od_wf (fun s => s) d -> Forall (fun kr => relationship_ok kr.2 /\ rs_principal_id kr.2 = kr.1) d ->
  (r ∈ map snd d <-> rel_get (rs_principal_id r) d = Some r).
Proof.
  intros Hw Hf. rewrite list_elem_of_fmap. split.
  - intros ([k r'] & -> & Hin). rewrite Forall_forall in Hf. destruct (Hf _ Hin) as [_ Hk]. cbn in *.
    rewrite Hk. by apply od_wf_get.
  - intros H. destruct (od_get_elem_of _ _ _ _ H) as (k & _ & Hin). by exists (k, r).
Qed.

Lemma grow_all_ids es : forall g g', grow_all g es = Ok g' -> growth_ok g ->
  growth_ok g' /\ gs_evidence_event_ids g' = gs_evidence_event_ids g ++ map ge_event_id es /\
  gs_persona_id g' = gs_persona_id g /\ gs_seed_fingerprint g' = gs_seed_fingerprint g.
Proof.
  induction es as [|e es IH]; intros g g' H Hg; cbn in H; [inv_ok; by rewrite app_nil_r|].
  inv_ok. destruct (growth_step_ok _ _ _ E) as (_ & Hids & Hp & Hf & _).
  destruct (IH _ _ H (growth_step_keeps _ _ _ Hg E)) as (H1 & H2 & H3 & H4).
  split_and!; [done| |congruence..]. rewrite H2, Hids, <- app_assoc. done.
Qed.

Lemma grow_all_accepts es : forall g, NoDup (gs_evidence_event_ids g) ->
  ((exists g', grow_all g es = Ok g') <->
   Forall (fun e => ge_source e ∈ PERSONA_GROWTH_RUNTIME_SOURCES /\ ge_event_id e <> ""%string) es /\
   NoDup (gs_evidence_event_ids g ++ map ge_event_id es)).
Proof.
  induction es as [|e es IH]; intros g Hnd; cbn.
  { rewrite app_nil_r. split; [by split|]. intros _. by exists g. }
  assert (Happ : forall (l : list string) x t, l ++ x :: t = (l ++ [x]) ++ t) by (intros; by rewrite <- app_assoc).
  split.
  - intros [g' H]. inv_ok. destruct (growth_step_ok _ _ _ E) as ((Hs & Hi & Hd) & Hids & _).
    assert (NoDup (gs_evidence_event_ids a)) as Hnd'.
    { rewrite Hids. apply NoDup_app. split; [done|]. split; [set_solver|apply NoDup_singleton]. }
    destruct (proj1 (IH a Hnd') (ex_intro _ _ H)) as [Hf Hn]. rewrite Hids, <- Happ in Hn.
    split; [by constructor|done].
  - intros [[(Hs & Hi) Hf]%Forall_cons Hn].
    assert (acceptable g e) as Hacc.
    { split_and!; [done..|]. apply NoDup_app in Hn as (_ & Hn & _). intros Hin. apply (Hn _ Hin). left. }
    destruct (growth_step_total _ _ Hacc) as [g1 H1]. rewrite H1. cbn.
    destruct (growth_step_ok _ _ _ H1) as (_ & Hids & _). apply IH.
    + rewrite Hids. apply NoDup_app. destruct Hacc as (_ & _ & ?).
      split; [done|]. split; [set_solver|apply NoDup_singleton].
    + rewrite Hids, <- Happ. done.
Qed.

(** ** Properties *)

(** C38: growth is accounted for: from a consistent record a sequence of
    evidences is accepted exactly when every one comes from a runtime source
    with an event id, and no id occurs twice or was recorded before; the record
    stays consistent (counts, revisions and recorded ids agree, the provenance
    hash is that of the record), its ids are extended in order, each of its five
    counters grows by the number of evidences of its own source, and its persona
    and seed fingerprint never change. *)
Theorem growth_run_accounted g es :
  growth_ok g ->
  ((exists g', grow_all g es = Ok g') <->
   Forall (fun e => ge_source e ∈ PERSONA_GROWTH_RUNTIME_SOURCES /\ ge_event_id e <> ""%string) es /\
   NoDup (gs_evidence_event_ids g ++ map ge_event_id es)) /\
  (forall g', grow_all g es = Ok g' ->
     growth_ok g' /\ gs_evidence_event_ids g' = gs_evidence_event_ids g ++ map ge_event_id es /\
     counts_of g' = counts_after g es /\
     gs_persona_id g' = gs_persona_id g /\ gs_seed_fingerprint g' = gs_seed_fingerprint g).
Proof.
  intros Hg. split; [apply grow_all_accepts; by destruct Hg as (_ & _ & ? & _)|].
  intros g' H. destruct (grow_all_ids es _ _ H Hg) as (H1 & H2 & H3 & H4). split_and!; try done. by apply grow_all_counts.
Qed.

(** Signals keep a persona in range whatever the deltas (NaN and
    infinities included); the relationships of the result are ordered by
    principal with no principal twice; a principal no signal mentions keeps
    exactly its relationship; identity and version are unchanged. *)
Theorem signals_keep_persona_ok current signals vitality updated_at :
  persona_ok current -> NoDup (map rs_principal_id (pe_relationships current)) ->
  let p := apply_persona_signals current signals vitality updated_at in
  persona_ok p /\ StronglySorted (fun a b => rel_leb a b = true) (pe_relationships p) /\
  NoDup (map rs_principal_id (pe_relationships p)) /\
  (forall r, Forall (fun s => ~ mentions (rs_principal_id r) s) signals ->
     (r ∈ pe_relationships p <-> r ∈ pe_relationships current)) /\
  pe_persona_id p = pe_persona_id current /\ pe_version p = pe_version current.
Proof.
  intros (H1 & H2 & H3 & H4 & H5 & Hr) Hnd. unfold apply_persona_signals.
  set (a0 := Build_SignalAcc _ _ _ _ _ _ _). destruct (rels_of_ok _ Hr) as [Hw0 Hf0].
  assert (acc_ok (foldl signal_step a0 signals)) as (Hv & Ha & Hc & Hfa & Ho & Hw & Hf)
    by (apply foldl_inv; [apply signal_step_ok|by split_and!]).
  split_and!; cbn [pe_relationships pe_persona_id pe_version]; try done.
  - unfold persona_ok. cbn. split_and!; try done. rewrite py_sorted_perm. apply Forall_map.
    eapply Forall_impl; [exact Hf|]. by intros kr [? _].
  - apply (py_sorted_sorted rel_leb rel_leb_total rel_leb_trans).
  - rewrite py_sorted_perm, map_map.
    rewrite (map_ext_in (fun x => rs_principal_id x.2) (fun kr => kr.1)).
    { exact Hw. }
    intros kr Hin%list_elem_of_In. rewrite Forall_forall in Hf. by apply Hf.
  - intros r Hm. rewrite elem_of_py_sorted, rels_members by done.
    rewrite signals_other by done. unfold a0. cbn [sa_rels].
    rewrite <- rels_members by done. rewrite rels_of_nodup by done.
    by rewrite map_map, map_id.
Qed.

(** ** Witnesses *)

Definition sample_seed : PersonaSeedConfig :=
  {| sc_persona_id := "affective-main"; sc_seed_name := "default"; sc_mood := "steady"; sc_valence := f_zero;
     sc_arousal := f_zero; sc_curiosity := f_half; sc_fatigue := f_zero; sc_social_openness := f_half;
     sc_vitality_summary := "attentive"; sc_relationship_style := "warm";
     sc_immutable_boundaries := ["privacy_delete_allowed"%string]; sc_created_at := VStr "2026-05-10T11:55:00Z" |}.

Definition empty_growth : PersonaGrowthState :=
  {| gs_persona_id := ""; gs_seed_fingerprint := ""; gs_revision := 0; gs_social_interaction_count := 0;
     gs_unit_event_count := 0; gs_relationship_summary_count := 0; gs_vitality_event_count := 0;
     gs_self_improvement_count := 0; gs_evidence_event_ids := []; gs_last_evidence_source := None;
     gs_last_evidence_reason := None; gs_last_evidence_at := None; gs_provenance_hash := "" |}.

Definition sample_growth : PersonaGrowthState :=
  match initialize_persona_growth_state sample_seed with Ok g => g | Raise _ => empty_growth end.

Definition sample_evidence (id source : string) : PersonaGrowthEvidence :=
  {| ge_event_id := id; ge_source := source; ge_reason := "feedback"; ge_recorded_at := "2026-05-10T12:00:00Z";
     ge_principal_id := Some "user-01"%string; ge_summary := "" |}.

Definition sample_evidences : list PersonaGrowthEvidence :=
  [sample_evidence "evt-1" "social_interaction"; sample_evidence "evt-2" "unit_event"].

Lemma growth_run_accounted_witness :
  growth_ok sample_growth /\
  ((exists g', grow_all sample_growth sample_evidences = Ok g') <->
   Forall (fun e => ge_source e ∈ PERSONA_GROWTH_RUNTIME_SOURCES /\ ge_event_id e <> ""%string) sample_evidences /\
   NoDup (gs_evidence_event_ids sample_growth ++ map ge_event_id sample_evidences)) /\
  (forall g', grow_all sample_growth sample_evidences = Ok g' ->
     growth_ok g' /\
     gs_evidence_event_ids g' = gs_evidence_event_ids sample_growth ++ map ge_event_id sample_evidences /\
     counts_of g' = counts_after sample_growth sample_evidences /\
     gs_persona_id g' = gs_persona_id sample_growth /\ gs_seed_fingerprint g' = gs_seed_fingerprint sample_growth).
Proof.
  assert (growth_ok sample_growth) as Hg.
  { split; [vm_compute; reflexivity|]. split; [vm_compute; reflexivity|]. split; [vm_compute; constructor|].
    vm_compute. reflexivity. }
  split; [exact Hg|]. apply (growth_run_accounted sample_growth sample_evidences). exact Hg.
Defined.

Definition sample_relationship (pid : string) : RelationshipSummary := new_relationship pid.

Definition sample_persona : PersonaState :=
  {| pe_persona_id := "affective-main"; pe_version := 1; pe_mood := "steady"; pe_valence := f_zero;
     pe_arousal := f_zero; pe_curiosity := f_half; pe_fatigue := f_zero; pe_social_openness := f_half;
     pe_vitality_summary := "attentive";
     pe_relationships := [sample_relationship "user-01"; sample_relationship "user-02"];
     pe_seed_config := None; pe_growth_state := None; pe_provenance_hash := None;
     pe_updated_at := VStr "2026-05-10T11:55:00Z" |}.

Definition sample_signal : PersonaSignal :=
  {| ps_reason := "supportive_user_feedback"; ps_mood := Some "curious"%string; ps_valence_delta := flit 4 1;
     ps_arousal_delta := S754_nan; ps_curiosity_delta := S754_infinity false; ps_fatigue_delta := f_zero;
     ps_social_openness_delta := f_zero; ps_principal_id := Some "user-01"%string; ps_trust_delta := flit 3 1;
     ps_familiarity_delta := flit 4 1; ps_preferred_address := Some "Captain"%string;
     ps_boundary_note := Some "no_group_ping_at_night"%string |}.

Lemma signals_keep_persona_ok_witness :
  persona_ok sample_persona /\
  let p := apply_persona_signals sample_persona [sample_signal] None VNone in
  persona_ok p /\ StronglySorted (fun a b => rel_leb a b = true) (pe_relationships p) /\
  NoDup (map rs_principal_id (pe_relationships p)) /\
  (forall r, Forall (fun s => ~ mentions (rs_principal_id r) s) [sample_signal] ->
     (r ∈ pe_relationships p <-> r ∈ pe_relationships sample_persona)) /\
  pe_persona_id p = pe_persona_id sample_persona /\ pe_version p = pe_version sample_persona.
Proof.
  assert (persona_ok sample_persona) as Hp.
  { repeat split; repeat constructor. }
  split; [exact Hp|]. apply (signals_keep_persona_ok sample_persona); [exact Hp|].
  apply (bool_decide_unpack _). vm_compute. exact I.
Defined.
