(* ===== verification/PersonaBundle.v ===== *)
(** * Persona bundles ([cli.py]: the persona-state commands)

    Binding a seed, a persona state and a growth record together, and the
    set-up, export, growth, inspection, deletion and tamper-report payloads. *)

From Stdlib Require Import ZArith Lia Bool List Ascii String.
From Stdlib.Floats Require Import SpecFloat.
From stdpp Require Import base list option sets strings sorting.
From S2P Require Import Prelude PyFloat Text PyValue CborCodec Json Persona.

Open Scope Z_scope.

(** [{**d, key: value, ...}] *)
Definition dict_with (d : dict) (l : list (string * pyval)) : dict := dupdate d (dict_of l).

Definition bind_persona_bundle (seed : PersonaSeedConfig) (persona : PersonaState) (growth : PersonaGrowthState)
    : result PersonaState :=
  let! expected_seed_fingerprint := compute_persona_seed_fingerprint seed in
  if negb (String.eqb (pe_persona_id persona) (sc_persona_id seed)) then
    Raise (ValueError "persona_bundle_persona_id_mismatch")
  else if negb (String.eqb (gs_persona_id growth) (sc_persona_id seed)) then
    Raise (ValueError "persona_growth_persona_id_mismatch")
  else if negb (String.eqb (gs_seed_fingerprint growth) expected_seed_fingerprint) then
    Raise (ValueError "persona_growth_seed_fingerprint_mismatch")
  else
    persona_from_dict
      (dict_with (persona_to_dict persona)
         [("seed_config"%string, VDict (seed_to_dict seed));
          ("growth_state"%string, VDict (growth_to_dict growth));
          ("provenance_hash"%string, por (opt_str (pe_provenance_hash persona)) (VStr (gs_seed_fingerprint growth)));
          ("updated_at"%string, por (pe_updated_at persona) (sc_created_at seed))]).

(** [all(closure_gates.values())] *)
Definition all_gates (gates : list (string * pyval)) : bool := forallb (fun kv => py_truthy kv.2) gates.

Definition status_of (ok : bool) (yes no : string) : pyval := VStr (if ok then yes else no).

Definition build_persona_seed_setup_payload (seed : PersonaSeedConfig) : result dict :=
  let! growth := initialize_persona_growth_state seed in
  let! persona := bind_persona_bundle seed
                    (initialize_persona_state_from_seed seed (sc_created_at seed)) growth in
  let! stamp := compute_persona_immutability_stamp seed persona growth in
  let! tampered := persona_immutability_tampered stamp seed persona growth in
  let gates := [("seed_config_recorded"%string, VBool (py_truthy (VDict (seed_to_dict seed))));
                ("persona_state_initialized"%string, VBool (py_truthy (VDict (persona_to_dict persona))));
                ("growth_state_initialized"%string, VBool (py_truthy (VDict (growth_to_dict growth))));
                ("provenance_hash_recorded"%string, VBool (py_truthy (opt_str (pe_provenance_hash persona))));
                ("immutability_stamp_valid"%string, VBool (negb tampered))] in
  let ok := all_gates gates in
  Ok (dict_of
    [("schema_version", VStr "2.2.5-persona-seed-setup-v1");
     ("status", status_of ok "ready" "incomplete");
     ("reason", status_of ok "persona_seed_initialized" "persona_seed_gap");
     ("command", VStr "persona-seed-setup");
     ("seed_config", VDict (seed_to_dict seed)); ("persona_state", VDict (persona_to_dict persona));
     ("persona_growth", VDict (growth_to_dict growth)); ("immutability_stamp", VStr stamp);
     ("closure_gates", VDict (dict_of gates));
     ("evidence_summary", VDict (dict_of
        [("persona_id", VStr (sc_persona_id seed)); ("seed_name", VStr (sc_seed_name seed));
         ("immutable_boundary_count", VInt (Z.of_nat (length (sc_immutable_boundaries seed))));
         ("growth_revision", VInt (gs_revision growth))]));
     ("ok", VBool ok)]%string).

Definition redact_if (persona : PersonaState) (ids : list string) : PersonaState :=
  match ids with [] => persona | _ => redact_relationships persona ids VNone end.

Definition zlen {A} (l : list A) : pyval := VInt (Z.of_nat (length l)).

Definition build_persona_state_export (seed : PersonaSeedConfig) (persona : PersonaState)
    (growth : PersonaGrowthState) (redact_principal_ids : list string) (expected_stamp : option string)
    : result dict :=
  let! exported := bind_persona_bundle seed (redact_if persona redact_principal_ids) growth in
  let! actual_stamp := compute_persona_immutability_stamp seed persona growth in
  let! tampered :=
    match opt_truthy expected_stamp with
    | Some stamp => persona_immutability_tampered stamp seed persona growth
    | None => Ok false
    end in
  let gates := [("export_ready", VBool true);
                ("redaction_applied",
                 VBool (match redact_principal_ids with
                        | [] => true
                        | _ => (length (pe_relationships exported) <=? length (pe_relationships persona))%nat
                        end));
                ("immutability_stamp_valid", VBool (negb tampered));
                ("growth_state_attached", VBool (bool_decide (is_Some (pe_growth_state exported))))]%string in
  let ok := all_gates gates in
  Ok (dict_of
    [("schema_version", VStr "2.2.5-persona-state-export-v1");
     ("status", status_of ok "ready" "tampered");
     ("reason", status_of ok "persona_export_ready" "persona_export_tampered");
     ("command", VStr "persona-state-export");
     ("seed_config", VDict (seed_to_dict seed)); ("persona_state", VDict (persona_to_dict exported));
     ("persona_growth", VDict (growth_to_dict growth)); ("immutability_stamp", VStr actual_stamp);
     ("expected_immutability_stamp", opt_str expected_stamp);
     ("redacted_principal_ids", VList (vstrs redact_principal_ids));
     ("rational_summary", VDict (persona_rational_summary exported));
     ("closure_gates", VDict (dict_of gates));
     ("evidence_summary", VDict (dict_of
        [("relationship_count", zlen (pe_relationships exported));
         ("redacted_principal_count", zlen redact_principal_ids); ("tampered", VBool tampered)]));
     ("ok", VBool ok)]%string).

Definition build_persona_growth_apply (seed : PersonaSeedConfig) (persona : PersonaState)
    (growth : PersonaGrowthState) (evidence : PersonaGrowthEvidence) : result dict :=
  let! updated_growth := apply_persona_growth_evidence growth evidence in
  let! rebuilt :=
    persona_from_dict
      (dict_with (persona_to_dict persona)
         [("growth_state", VDict (growth_to_dict updated_growth));
          ("updated_at", VStr (ge_recorded_at evidence));
          ("provenance_hash", VStr (gs_provenance_hash updated_growth))]%string) in
  let! updated_persona := bind_persona_bundle seed rebuilt updated_growth in
  let! stamp := compute_persona_immutability_stamp seed updated_persona updated_growth in
  let! tampered := persona_immutability_tampered stamp seed updated_persona updated_growth in
  let gates := [("runtime_evidence_only", VBool (str_in (ge_source evidence) PERSONA_GROWTH_RUNTIME_SOURCES));
                ("growth_revision_advanced", VBool (gs_revision updated_growth =? gs_revision growth + 1)%Z);
                ("evidence_event_recorded",
                 VBool (str_in (ge_event_id evidence) (gs_evidence_event_ids updated_growth)));
                ("immutability_stamp_valid", VBool (negb tampered))]%string in
  let ok := all_gates gates in
  Ok (dict_of
    [("schema_version", VStr "2.2.5-persona-growth-apply-v1");
     ("status", status_of ok "ready" "incomplete");
     ("reason", status_of ok "persona_growth_recorded" "persona_growth_gap");
     ("command", VStr "persona-growth-apply");
     ("growth_evidence", VDict (growth_evidence_to_dict evidence));
     ("seed_config", VDict (seed_to_dict seed)); ("persona_state", VDict (persona_to_dict updated_persona));
     ("persona_growth", VDict (growth_to_dict updated_growth)); ("immutability_stamp", VStr stamp);
     ("closure_gates", VDict (dict_of gates));
     ("evidence_summary", VDict (dict_of
        [("growth_revision", VInt (gs_revision updated_growth));
         ("last_evidence_source", opt_str (gs_last_evidence_source updated_growth));
         ("last_evidence_reason", opt_str (gs_last_evidence_reason updated_growth));
         ("evidence_event_count", zlen (gs_evidence_event_ids updated_growth))]));
     ("ok", VBool ok)]%string).

Definition build_persona_state_inspect (seed : PersonaSeedConfig) (persona : PersonaState)
    (growth : PersonaGrowthState) (rational_summary_only : bool) : result dict :=
  let! bound := bind_persona_bundle seed persona growth in
  let! stamp := compute_persona_immutability_stamp seed bound growth in
  let! tampered := persona_immutability_tampered stamp seed bound growth in
  let gates := [("read_only_view", VBool true);
                ("growth_state_attached", VBool (bool_decide (is_Some (pe_growth_state bound))));
                ("immutability_stamp_valid", VBool (negb tampered));
                ("prompt_safe_summary_available", VBool (py_truthy (VDict (persona_rational_summary bound))))]%string in
  Ok (dict_of
    [("schema_version", VStr "2.2.5-persona-state-inspect-v1"); ("status", VStr "ready");
     ("reason", VStr "persona_state_inspect_ready"); ("command", VStr "persona-state-inspect");
     ("rational_summary_only", VBool rational_summary_only);
     ("seed_config", VDict (seed_to_dict seed));
     ("persona_state", if rational_summary_only then VNone else VDict (persona_to_dict bound));
     ("persona_growth", if rational_summary_only then VNone else VDict (growth_to_dict growth));
     ("immutability_stamp", VStr stamp);
     ("rational_summary", VDict (persona_rational_summary bound));
     ("closure_gates", VDict (dict_of gates));
     ("evidence_summary", VDict (dict_of
        [("relationship_count", zlen (pe_relationships bound)); ("growth_revision", VInt (gs_revision growth))]));
     ("ok", VBool (all_gates gates))]%string).

Definition build_persona_state_delete (seed : PersonaSeedConfig) (persona : PersonaState)
    (growth : PersonaGrowthState) (principal_ids : list string) (delete_all : bool) : result dict :=
  let! updated :=
    (if delete_all then Ok None
     else let! p := bind_persona_bundle seed (redact_relationships persona principal_ids VNone) growth in
          Ok (Some p)) in
  let before := Z.of_nat (length (pe_relationships persona)) in
  let remaining := match updated with Some p => Z.of_nat (length (pe_relationships p)) | None => 0 end in
  let deleted := match updated with Some _ => before - remaining | None => before end in
  let deleted_growth := match updated with Some _ => VDict (growth_to_dict growth) | None => VNone end in
  let gates := [("delete_scope_declared",
                 VBool (delete_all || match principal_ids with [] => false | _ => true end));
                ("privacy_operation_only", VBool true);
                ("growth_state_not_rewritten",
                 VBool (delete_all || py_eq deleted_growth (VDict (growth_to_dict growth))))]%string in
  let ok := all_gates gates in
  Ok (dict_of
    [("schema_version", VStr "2.2.5-persona-state-delete-v1");
     ("status", status_of ok "ready" "incomplete");
     ("reason", status_of delete_all "persona_state_deleted" "persona_state_redacted");
     ("command", VStr "persona-state-delete"); ("delete_all", VBool delete_all);
     ("deleted_principal_ids", VList (vstrs principal_ids));
     ("deleted_relationship_count", VInt deleted);
     ("seed_config", if delete_all then VNone else VDict (seed_to_dict seed));
     ("persona_state", opt_dict persona_to_dict updated); ("persona_growth", deleted_growth);
     ("closure_gates", VDict (dict_of gates));
     ("evidence_summary", VDict (dict_of
        [("full_bundle_deleted", VBool delete_all); ("deleted_relationship_count", VInt deleted);
         ("remaining_relationship_count", VInt remaining)]));
     ("ok", VBool ok)]%string).

Definition build_persona_tamper_report (seed : PersonaSeedConfig) (persona : PersonaState)
    (growth : PersonaGrowthState) (expected_stamp : string) : result dict :=
  let! actual_stamp := compute_persona_immutability_stamp seed persona growth in
  let! tampered := persona_immutability_tampered expected_stamp seed persona growth in
  let gates := [("expected_stamp_supplied", VBool (negb (String.eqb expected_stamp "")));
                ("immutability_stamp_valid", VBool (negb tampered));
                ("persona_growth_bound", VBool (bool_decide (is_Some (pe_growth_state persona))))]%string in
  Ok (dict_of
    [("schema_version", VStr "2.2.5-persona-tamper-report-v1");
     ("status", status_of tampered "tampered" "ready");
     ("reason", status_of tampered "persona_immutability_tampered" "persona_immutability_verified");
     ("command", VStr "persona-tamper-report");
     ("expected_immutability_stamp", VStr expected_stamp); ("actual_immutability_stamp", VStr actual_stamp);
     ("tampered", VBool tampered);
     ("seed_config", VDict (seed_to_dict seed)); ("persona_state", VDict (persona_to_dict persona));
     ("persona_growth", VDict (growth_to_dict growth));
     ("closure_gates", VDict (dict_of gates));
     ("evidence_summary", VDict (dict_of
        [("persona_id", VStr (sc_persona_id seed)); ("growth_revision", VInt (gs_revision growth));
         ("expected_matches_actual", VBool (negb tampered))]));
     ("ok", VBool (all_gates gates))]%string).

(** ** Facts *)

Lemma dget_dict_with (k : string) d l :
  dwf (dict_of l) ->
  dget (KStr k) (dict_with d l) = match sget k l with Some v => Some v | None => dget (KStr k) d end.
Proof. intros H. unfold dict_with. by rewrite dget_dupdate, dget_dict_of. Qed.

Lemma int_or_zero z : py_int (por (VInt z) (VInt 0)) = Ok z.
Proof. unfold por. cbn. destruct (Z.eqb_spec z 0); by subst. Qed.

Lemma string_tuple_vstrs l : string_tuple (VList (vstrs l)) = Ok l.
Proof.
  unfold string_tuple, str_items. destruct l as [|s l]; [done|]. cbn. do 3 f_equal.
  unfold vstrs. induction l; cbn; congruence.
Qed.

Lemma opt_str_back (o : option string) :
  (if is_none (opt_str o) then None else Some (py_str (opt_str o))) = o.
Proof. by destruct o. Qed.

(** A growth record with a persona id survives its dictionary form. *)
Lemma growth_round_trip g : gs_persona_id g <> ""%string -> growth_from_dict (growth_to_dict g) = Ok g.
Proof.
  intros Hne. unfold growth_from_dict, growth_to_dict, growth_dict, int_or, str_or, opt_str_field. dict_simpl.
  rewrite !int_or_zero, string_tuple_vstrs. cbn [rbind]. rewrite !py_str_por_empty, !opt_str_back.
  rewrite por_str_nonempty, py_str_VStr by done. by destruct g.
Qed.

Lemma relationship_rebuild r :
  rs_principal_id r <> ""%string ->
  exists r', relationship_from_dict (relationship_to_dict r) = Ok r' /\
    rs_principal_id r' = rs_principal_id r /\ relationship_ok r' /\
    rs_preferred_address r' = rs_preferred_address r /\ rs_boundaries r' = rs_boundaries r.
Proof.
  intros Hne. unfold relationship_from_dict, relationship_to_dict, float_field, str_or. dict_simpl.
  rewrite string_tuple_vstrs. cbn [rbind py_float]. eexists. split; [reflexivity|]. cbn -[por py_str].
  rewrite py_str_por_empty, por_str_nonempty by done. split_and!; try done. split; apply clamp01_range.
Qed.

Lemma seed_rebuild s : exists s', seed_from_dict (seed_to_dict s) = Ok s'.
Proof.
  unfold seed_from_dict, seed_to_dict, float_field, str_or. dict_simpl.
  rewrite string_tuple_vstrs. cbn [rbind py_float]. eauto.
Qed.

Definition principals (p : PersonaState) : list string := map rs_principal_id (pe_relationships p).

(** The keys [from_dict] reads that no override touches come from [to_dict]. *)
Lemma rebuild_relationships rs :
  Forall (fun r => rs_principal_id r <> ""%string) rs ->
  exists rs', rmap (fun item => let! d := as_dict item in relationship_from_dict d)
                (map (fun r => VDict (relationship_to_dict r)) rs) = Ok rs' /\
    map rs_principal_id rs' = map rs_principal_id rs /\ Forall relationship_ok rs'.
Proof.
  unfold rmap. rewrite map_map. cbn [as_dict rbind]. induction 1 as [|r rs Hr Hrs (rs' & H1 & H2 & H3)]; [by exists []|].
  destruct (relationship_rebuild r Hr) as (r' & Hr' & Hid & Hok & _).
  cbn [map sequence as_dict rbind]. rewrite Hr'. cbn [rbind]. rewrite H1. cbn [rbind].
  exists (r' :: rs'). split; [done|]. cbn [map]. split; [congruence|by constructor].
Qed.

Lemma opt_from_none {A} (f : dict -> result A) key d : dget (KStr key) d = Some VNone -> opt_from f key d = Ok None.
Proof. intros H. unfold opt_from. rewrite dgetn_eq, H. done. Qed.

Lemma opt_from_dict {A} (f : dict -> result A) key d x a :
  dget (KStr key) d = Some (VDict x) -> x <> [] -> f x = Ok a -> opt_from f key d = Ok (Some a).
Proof. intros H Hx Hf. unfold opt_from. rewrite dgetn_eq, H. destruct x; [done|]. cbn. by rewrite Hf. Qed.

(** A dictionary that reads back as a persona: the fields of a persona's
    dictionary up to the late ones. *)
Record persona_fields (p : PersonaState) (d : dict) : Prop := {
  pf_id : dget "persona_id" d = Some (VStr (pe_persona_id p));
  pf_version : dget "version" d = Some (VInt (pe_version p));
  pf_valence : dget "valence" d = Some (VFloat (pe_valence p));
  pf_arousal : dget "arousal" d = Some (VFloat (pe_arousal p));
  pf_curiosity : dget "curiosity" d = Some (VFloat (pe_curiosity p));
  pf_fatigue : dget "fatigue" d = Some (VFloat (pe_fatigue p));
  pf_openness : dget "social_openness" d = Some (VFloat (pe_social_openness p));
  pf_rels : dget "relationship_summaries" d =
            Some (VList (map (fun r => VDict (relationship_to_dict r)) (pe_relationships p)));
  pf_seed : dget "seed_config" d = Some VNone \/ exists s, dget "seed_config" d = Some (VDict (seed_to_dict s));
}.

Lemma persona_rebuild p g d :
  persona_fields p d -> pe_persona_id p <> ""%string ->
  Forall (fun r => rs_principal_id r <> ""%string) (pe_relationships p) ->
  gs_persona_id g <> ""%string -> dget "growth_state" d = Some (VDict (growth_to_dict g)) ->
  exists p', persona_from_dict d = Ok p' /\
    pe_persona_id p' = pe_persona_id p /\ principals p' = principals p /\ persona_ok p' /\
    pe_growth_state p' = Some g /\ pe_provenance_hash p' = opt_str_field "provenance_hash" d.
Proof.
  intros [Fi Fv F1 F2 F3 F4 F5 Fr Fs] Hp Hr Hg Fg. unfold persona_from_dict, float_field, int_or, dget_or.
  rewrite F1, F2, F3, F4, F5, !dgetn_eq, Fv, Fr. cbn [py_float rbind].
  assert (exists v, py_int (por (VInt (pe_version p)) (VInt 1)) = Ok v) as [v ->]
    by (unfold por; cbn; destruct (pe_version p =? 0); cbn; eauto).
  cbn [rbind].
  replace (py_iter (por (VList (map (fun r => VDict (relationship_to_dict r)) (pe_relationships p))) (VList [])))
    with (Ok (map (fun r => VDict (relationship_to_dict r)) (pe_relationships p))) by (by destruct (pe_relationships p)).
  cbn [rbind]. destruct (rebuild_relationships _ Hr) as (rs' & -> & Hids & Hok). cbn [rbind].
  assert (exists o, opt_from seed_from_dict "seed_config" d = Ok o) as [o ->].
  { destruct Fs as [Fs|[s Fs]]; [exists None; by apply opt_from_none|].
    destruct (seed_rebuild s) as [s' Hs']. exists (Some s'). by eapply opt_from_dict. }
  cbn [rbind]. rewrite (opt_from_dict growth_from_dict "growth_state" d _ g Fg ltac:(done) (growth_round_trip g Hg)).
  cbn [rbind]. eexists. split; [reflexivity|]. cbn [pe_persona_id pe_growth_state pe_provenance_hash].
  unfold str_or. rewrite dgetn_eq, Fi, por_str_nonempty by done. split_and!; try done.
  unfold persona_ok. cbn. split_and!; try done; apply clamp01_range || apply clamp11_range.
Qed.

Lemma persona_fields_with p l :
  dwf (dict_of l) ->
  Forall (fun k => sget k l = None) ["persona_id"; "version"; "valence"; "arousal"; "curiosity";
     "fatigue"; "social_openness"; "relationship_summaries"]%string ->
  (sget "seed_config" l = None \/ exists s, sget "seed_config" l = Some (VDict (seed_to_dict s))) ->
  persona_fields p (dict_with (persona_to_dict p) l).
Proof.
  intros Hl Hk Hs. repeat (apply Forall_cons in Hk as [? Hk]). unfold persona_to_dict.
  constructor; rewrite dget_dict_with by done;
    try (match goal with H : sget ?k l = None |- context [sget ?k l] => rewrite H end; by dict_simpl).
  destruct Hs as [->|[s ->]]; [dict_simpl|eauto]. destruct (pe_seed_config p); cbn; eauto.
Qed.

Lemma seed_safe s : json_safe (sc_created_at s) -> json_safe (VDict (seed_to_dict s)).
Proof.
  intros H. apply json_safe_dict_of. repeat (apply Forall_cons; split; [cbn; try constructor; try done|]); [|constructor].
  unfold vstrs. apply Forall_map, Forall_forall. constructor.
Qed.

Lemma seed_fingerprint_total s : json_safe (sc_created_at s) -> exists h, compute_persona_seed_fingerprint s = Ok h.
Proof. intros H. by apply stable_hash_total, seed_safe. Qed.

(** The inputs of the bundle commands: named principals and a JSON creation time. *)
Record bundle_inputs (seed : PersonaSeedConfig) (persona : PersonaState) : Prop := {
  bi_created : json_safe (sc_created_at seed);
  bi_id : sc_persona_id seed <> ""%string;
  bi_principals : Forall (fun r => rs_principal_id r <> ""%string) (pe_relationships persona);
}.

(** A seed, a state and a growth record that belong together. *)
Definition matching (seed : PersonaSeedConfig) (persona : PersonaState) (growth : PersonaGrowthState) : Prop :=
  pe_persona_id persona = sc_persona_id seed /\ gs_persona_id growth = sc_persona_id seed /\
  compute_persona_seed_fingerprint seed = Ok (gs_seed_fingerprint growth).

Lemma bind_matching seed persona growth p :
  bind_persona_bundle seed persona growth = Ok p -> matching seed persona growth.
Proof.
  unfold bind_persona_bundle, matching. intros H. destruct (compute_persona_seed_fingerprint seed) as [h|]; cbn [rbind] in H; [|done].
  destruct (String.eqb_spec (pe_persona_id persona) (sc_persona_id seed)); cbn [negb] in H; [|done].
  destruct (String.eqb_spec (gs_persona_id growth) (sc_persona_id seed)); cbn [negb] in H; [|done].
  destruct (String.eqb_spec (gs_seed_fingerprint growth) h); cbn [negb] in H; [|done]. by subst.
Qed.

Lemma bind_total seed persona growth :
  bundle_inputs seed persona -> matching seed persona growth ->
  exists p, bind_persona_bundle seed persona growth = Ok p /\
    pe_persona_id p = pe_persona_id persona /\ principals p = principals persona /\ persona_ok p /\
    pe_growth_state p = Some growth /\
    pe_provenance_hash p = Some (match opt_truthy (pe_provenance_hash persona) with
                                 | Some h => h | None => gs_seed_fingerprint growth end).
Proof.
  intros [Hc Hi Hp] (H1 & H2 & H3). unfold bind_persona_bundle. rewrite H3. cbn [rbind].
  rewrite H1, H2, !String.eqb_refl. cbn [negb]. rewrite <- H1. set (l := [_; _; _; _]).
  assert (dwf (dict_of l)) as Hl by nodup_lits.
  destruct (persona_rebuild persona growth (dict_with (persona_to_dict persona) l)) as (p & Hp' & Q1 & Q2 & Q3 & Q4 & Q5).
  - apply persona_fields_with; [done|repeat constructor|]. right. by exists seed.
  - by rewrite H1.
  - done.
  - by rewrite H2.
  - by rewrite dget_dict_with.
  - exists p. split_and!; try done. rewrite Q5. unfold opt_str_field. rewrite dgetn_eq, dget_dict_with by done.
    cbn [sget l String.eqb Ascii.eqb Bool.eqb]. unfold opt_truthy.
    destruct (pe_provenance_hash persona) as [h|]; cbn; [|done]. unfold por. cbn.
    by destruct (String.eqb h "").
Qed.

Lemma stamp_total seed persona growth :
  json_safe (sc_created_at seed) -> json_safe (VDict (persona_to_dict persona)) ->
  exists h, compute_persona_immutability_stamp seed persona growth = Ok h.
Proof.
  intros H1 H2. apply stable_hash_total, json_safe_dict_of.
  repeat (apply Forall_cons; split; [cbn [snd]|]); [by apply seed_safe|done| |constructor].
  unfold growth_to_dict, growth_dict. apply json_safe_dict_of.
  repeat (apply Forall_cons; split; [|]); cbn; try constructor;
    try (destruct (_ : option string); constructor).
  unfold vstrs. apply Forall_map, Forall_forall. constructor.
Qed.

(** ** Properties *)

(** A bundle is bound exactly when the state and the growth record carry
    the seed's persona id and the record carries the seed's fingerprint; the
    bound persona is in range, keeps its id and its principals in order, holds
    exactly the growth record, and has a provenance hash. *)
Theorem bundle_binds_iff_matching seed persona growth :
  bundle_inputs seed persona ->
  ((exists p, bind_persona_bundle seed persona growth = Ok p) <-> matching seed persona growth) /\
  (forall p, bind_persona_bundle seed persona growth = Ok p ->
     pe_persona_id p = pe_persona_id persona /\ principals p = principals persona /\ persona_ok p /\
     pe_growth_state p = Some growth /\ is_Some (pe_provenance_hash p)).
Proof.
  intros Hb. split.
  - split; [intros [p H]; by eapply bind_matching|]. intros Hm.
    destruct (bind_total _ _ _ Hb Hm) as (p & Hp & _). eauto.
  - intros p Hp. destruct (bind_total _ _ _ Hb (bind_matching _ _ _ _ Hp)) as (p' & Hp' & H1 & H2 & H3 & H4 & H5).
    rewrite Hp in Hp'. inv_ok. rewrite H5. eauto 10.
Qed.

Lemma redact_principals p ids u :
  principals (redact_relationships p ids u) = List.filter (fun pid => negb (str_in pid ids)) (principals p).
Proof.
  unfold principals. cbn. induction (pe_relationships p) as [|r rs IH]; [done|]. cbn.
  destruct (str_in (rs_principal_id r) ids); cbn; by rewrite IH.
Qed.

(** Deletion for privacy: when the redacting deletion of a bundle answers,
    the persona it returns has exactly the principals that were not named, in
    their order, still in range and with the growth record untouched, and the
    reported count is the number of relationships removed. *)
Theorem persona_delete_redacts seed persona growth ids payload :
  bundle_inputs seed persona -> ids <> [] ->
  build_persona_state_delete seed persona growth ids false = Ok payload ->
  exists p, dget "persona_state" payload = Some (VDict (persona_to_dict p)) /\
    principals p = List.filter (fun pid => negb (str_in pid ids)) (principals persona) /\
    persona_ok p /\ pe_growth_state p = Some growth /\
    dget "persona_growth" payload = Some (VDict (growth_to_dict growth)) /\
    dget "deleted_relationship_count" payload =
      Some (VInt (Z.of_nat (length (principals persona)) - Z.of_nat (length (principals p)))).
Proof.
  intros Hb Hids H. unfold build_persona_state_delete in H.
  destruct (bind_persona_bundle seed (redact_relationships persona ids VNone) growth) as [p|e] eqn:E; cbn [rbind] in H; [|done].
  assert (bundle_inputs seed (redact_relationships persona ids VNone)) as Hb'.
  { destruct Hb as [? ? Hp]. constructor; [done..|]. cbn. rewrite Forall_forall in *. intros r Hr.
    apply Hp. apply list_elem_of_In, filter_In in Hr as [Hr _]. by apply list_elem_of_In. }
  destruct (bind_total _ _ _ Hb' (bind_matching _ _ _ _ E)) as (p' & Hp' & H1 & H2 & H3 & H4 & H5).
  rewrite E in Hp'. apply Ok_inj in Hp', H. subst p' payload. exists p. dict_simpl.
  rewrite H2, redact_principals. unfold principals. rewrite !length_map.
  split_and!; try done. do 2 f_equal. f_equal. f_equal.
  assert (length (pe_relationships p) = length (principals p)) as -> by (unfold principals; by rewrite length_map).
  rewrite H2, redact_principals. done.
Qed.

(** ** Witnesses *)

Lemma sample_inputs : bundle_inputs sample_seed sample_persona.
Proof. constructor; [constructor|discriminate|]. repeat first [apply List.Forall_nil|apply List.Forall_cons; [discriminate|]]. Qed.

Lemma bundle_binds_iff_matching_witness :
  ((exists p, bind_persona_bundle sample_seed sample_persona sample_growth = Ok p) <->
   matching sample_seed sample_persona sample_growth) /\
  (forall p, bind_persona_bundle sample_seed sample_persona sample_growth = Ok p ->
     pe_persona_id p = pe_persona_id sample_persona /\ principals p = principals sample_persona /\ persona_ok p /\
     pe_growth_state p = Some sample_growth /\ is_Some (pe_provenance_hash p)).
Proof. apply (bundle_binds_iff_matching sample_seed). exact sample_inputs. Defined.

Definition sample_deletion : dict :=
  match build_persona_state_delete sample_seed sample_persona sample_growth ["user-01"%string] false with
  | Ok d => d | Raise _ => [] end.

Lemma persona_delete_redacts_witness :
  exists p, dget "persona_state" sample_deletion = Some (VDict (persona_to_dict p)) /\
    principals p = List.filter (fun pid => negb (str_in pid ["user-01"%string])) (principals sample_persona) /\
    persona_ok p /\ pe_growth_state p = Some sample_growth /\
    dget "persona_growth" sample_deletion = Some (VDict (growth_to_dict sample_growth)) /\
    dget "deleted_relationship_count" sample_deletion =
      Some (VInt (Z.of_nat (length (principals sample_persona)) - Z.of_nat (length (principals p)))).
Proof.
  apply (persona_delete_redacts sample_seed); [exact sample_inputs|discriminate|].
  vm_compute. reflexivity.
Defined.
