(* ===== verification/Autonomy.v ===== *)
(** * Autonomous daemon planning ([autonomy.py])

    The plan of one daemon cycle: the clock and maintenance events it adds and
    the decision to wake. *)

From Stdlib Require Import ZArith Lia Bool List Ascii String.
From Stdlib.Floats Require Import SpecFloat.
From stdpp Require Import base list option sets strings.
From S2P Require Import Prelude PyFloat Text PyValue Motivation Persona.

Open Scope Z_scope.

Definition INTERNAL_AUTONOMY_TOPICS : list string := ["time.tick"; "core.maintenance.tick"]%string.

Record AutonomousDaemonPolicy := {
  dp_maintenance_interval_cycles : Z;
  dp_time_tick_priority : Z;
  dp_maintenance_tick_priority : Z;
  dp_wake_priority_threshold : Z;
  dp_time_tick_period_ms : Z;
}.

Definition default_daemon_policy : AutonomousDaemonPolicy :=
  {| dp_maintenance_interval_cycles := 3; dp_time_tick_priority := 10;
     dp_maintenance_tick_priority := 25; dp_wake_priority_threshold := 50;
     dp_time_tick_period_ms := 1000 |}.

Record AutonomousCyclePlan := {
  cp_cycle_index : Z;
  cp_cycle_kind : string;
  cp_wake_decision : string;
  cp_reasons : list string;
  cp_raw_event_count : Z;
  cp_planned_events : list dict;
  cp_synthetic_event_count : Z;
  cp_should_run_workflow : bool;
}.

(** [str(event.get("semantic_topic") or event.get("event_type") or "unknown")] *)
Definition topic_of (event : dict) : string :=
  py_str (por (por (dgetn "semantic_topic" event) (dgetn "event_type" event)) (VStr "unknown")).

Definition plan_to_dict (p : AutonomousCyclePlan) : dict :=
  dict_of [("cycle_index", VInt (cp_cycle_index p)); ("cycle_kind", VStr (cp_cycle_kind p));
           ("wake_decision", VStr (cp_wake_decision p)); ("reasons", VList (vstrs (cp_reasons p)));
           ("raw_event_count", VInt (cp_raw_event_count p));
           ("planned_event_count", VInt (Z.of_nat (length (cp_planned_events p))));
           ("synthetic_event_count", VInt (cp_synthetic_event_count p));
           ("should_run_workflow", VBool (cp_should_run_workflow p));
           ("planned_topics", VList (map (fun e => VStr (topic_of e)) (cp_planned_events p)))].

(** ** Daemon state *)

Definition build_vitality_summary (v : option VitalityState) : dict :=
  match v with
  | None => dict_of [("present", VBool false); ("state", VStr "unknown"); ("score", VNone);
                     ("urgency_modifier", VNone); ("policy_impact", VStr "salience_and_tone_only")]
  | Some v => dset "present" (VBool true) (vitality_to_dict v)
  end.

Definition build_persona_summary (p : option PersonaState) : dict :=
  match p with
  | None => dict_of [("present", VBool false); ("persona_id", VStr ""); ("mood", VStr "unknown");
                     ("vitality_summary", VStr "unknown"); ("relationship_count", VInt 0)]
  | Some p => dset "relationship_count" (VInt (Z.of_nat (length (pe_relationships p))))
                (dset "present" (VBool true) (persona_rational_summary p))
  end.

Record AutonomousDaemonState := {
  ds_autonomy_enabled : bool;
  ds_operator_paused : bool;
  ds_run_state : string;
  ds_cycle_count : Z;
  ds_last_maintenance_cycle : option Z;
  ds_continuity : dict;
  ds_heartbeat : dict;
  ds_vitality_summary : dict;
  ds_persona_summary : dict;
}.

Definition opt_int (o : option Z) : pyval := match o with Some z => VInt z | None => VNone end.

Definition daemon_state_to_dict (s : AutonomousDaemonState) : dict :=
  dict_of [("autonomy_enabled", VBool (ds_autonomy_enabled s)); ("operator_paused", VBool (ds_operator_paused s));
           ("run_state", VStr (ds_run_state s)); ("cycle_count", VInt (ds_cycle_count s));
           ("last_maintenance_cycle", opt_int (ds_last_maintenance_cycle s));
           ("continuity", VDict (ds_continuity s)); ("heartbeat", VDict (ds_heartbeat s));
           ("vitality_summary", VDict (ds_vitality_summary s)); ("persona_summary", VDict (ds_persona_summary s))].

Definition build_daemon_state (autonomy_enabled operator_paused : bool) (cycle_count : Z)
    (last_maintenance_cycle : option Z) (previous_execution_count seeded_dedupe_key_count : Z)
    (last_cycle_timestamp : option string) (vitality : option VitalityState) (persona : option PersonaState)
    : AutonomousDaemonState :=
  let run_state : string := if operator_paused then "paused" else "idle" in
  {| ds_autonomy_enabled := autonomy_enabled;
     ds_operator_paused := operator_paused;
     ds_run_state := run_state;
     ds_cycle_count := cycle_count;
     ds_last_maintenance_cycle := last_maintenance_cycle;
     ds_continuity := dict_of
       [("resumed_session"%string, VBool ((0 <? previous_execution_count) || (0 <? seeded_dedupe_key_count)));
        ("previous_execution_count"%string, VInt previous_execution_count);
        ("seeded_dedupe_key_count"%string, VInt seeded_dedupe_key_count)];
     ds_heartbeat := dict_of
       [("recorded"%string, VBool autonomy_enabled); ("status"%string, VStr run_state);
        ("last_cycle_index"%string, if 0 <? cycle_count then VInt cycle_count else VNone);
        ("last_cycle_timestamp"%string, opt_str last_cycle_timestamp)];
     ds_vitality_summary := build_vitality_summary vitality;
     ds_persona_summary := build_persona_summary persona |}.

(** ** Synthetic events *)

(** [f"{cycle_index:04d}"]: at least four characters, zeros after the sign. *)
Definition pad4 (z : Z) : string :=
  let body := string_of_Z (Z.abs z) in
  let width := if z <? 0 then 3 else 4 in
  let fill := zeros (Z.to_nat (width - Z.of_nat (String.length body))) in
  if z <? 0 then "-" +:+ fill +:+ body else fill +:+ body.

Definition build_time_tick_event (cycle_index : Z) (timestamp_wall : string) (period_ms priority : Z) : dict :=
  let suffix := pad4 cycle_index in
  dict_of [("event_id", VStr ("evt-autonomy-time-tick-" +:+ suffix)); ("source_kind", VStr "clock");
           ("source_node", VStr "core-daemon"); ("event_type", VStr "time.tick");
           ("semantic_topic", VStr "time.tick"); ("timestamp_wall", VStr timestamp_wall);
           ("priority", VInt priority); ("dedupe_key", VStr ("autonomy-time-tick-" +:+ suffix));
           ("policy_tags", VList (vstrs ["clock"; "autonomy"]%string));
           ("payload", VDict (dict_of [("period_ms", VInt period_ms); ("cycle_index", VInt cycle_index);
                                       ("scheduler", VStr "autonomy_planner")]))].

Definition build_maintenance_tick_event (cycle_index : Z) (timestamp_wall : string) (priority : Z)
    (reason : string) (vitality_state : option string) : dict :=
  let suffix := pad4 cycle_index in
  dict_of [("event_id", VStr ("evt-autonomy-maintenance-tick-" +:+ suffix)); ("source_kind", VStr "core");
           ("source_node", VStr "core-daemon"); ("event_type", VStr "core.maintenance.tick");
           ("semantic_topic", VStr "core.maintenance.tick"); ("timestamp_wall", VStr timestamp_wall);
           ("priority", VInt priority); ("dedupe_key", VStr ("autonomy-maintenance-tick-" +:+ suffix));
           ("policy_tags", VList (vstrs ["maintenance"; "autonomy"]%string));
           ("payload", VDict (dict_of
              [("cycle_index", VInt cycle_index); ("reason", VStr reason);
               ("vitality_state", VStr (match vitality_state with
                                        | Some s => if String.eqb s "" then "unknown" else s
                                        | None => "unknown" end));
               ("scheduler", VStr "autonomy_planner")]))].

(** ** The plan of a cycle *)

(** [a % b] on ints. *)
Definition py_mod (a b : Z) : result Z := if b =? 0 then Raise ZeroDivisionError else Ok (a mod b).

(** Whether maintenance is due: its reason and the reason recorded in the plan. *)
Definition maintenance_due (p : AutonomousDaemonPolicy) (cycle_index : Z) (vitality : option VitalityState)
    (last_maintenance_cycle : option Z) : result (option (string * string)) :=
  let low := match vitality with
             | Some v => str_in (vs_state v) ["concerned"; "critical"]%string
             | None => false end in
  if low then
    Ok (Some ("vitality_" +:+ match vitality with Some v => vs_state v | None => "" end,
              "low_vitality_maintenance_due"%string))
  else
    match last_maintenance_cycle with
    | None =>
        let! m := py_mod cycle_index (dp_maintenance_interval_cycles p) in
        Ok (if m =? 0 then Some ("maintenance_interval_elapsed", "maintenance_interval_elapsed")%string else None)
    | Some last =>
        Ok (if dp_maintenance_interval_cycles p <=? cycle_index - last
            then Some ("maintenance_interval_elapsed", "maintenance_interval_elapsed")%string else None)
    end.

(** [max((int(event.get("priority") or 0) for event in planned), default=0)] *)
Fixpoint max_priority (best : option Z) (events : list dict) : result Z :=
  match events with
  | [] => Ok (match best with Some z => z | None => 0 end)
  | e :: rest =>
      let! z := py_int (por (dgetn "priority" e) (VInt 0)) in
      max_priority (Some (match best with Some b => if b <? z then z else b | None => z end)) rest
  end.

Definition external (e : dict) : bool := negb (str_in (topic_of e) INTERNAL_AUTONOMY_TOPICS).

Definition plan_autonomous_cycle (p : AutonomousDaemonPolicy) (raw_events : list dict) (cycle_index : Z)
    (timestamp_wall : string) (vitality : option VitalityState) (last_maintenance_cycle : option Z)
    (operator_paused : bool) : result AutonomousCyclePlan :=
  let topics := map topic_of raw_events in
  if operator_paused then
    Ok {| cp_cycle_index := cycle_index; cp_cycle_kind := "paused"; cp_wake_decision := "paused";
          cp_reasons := ["operator_paused"%string]; cp_raw_event_count := Z.of_nat (length raw_events);
          cp_planned_events := raw_events; cp_synthetic_event_count := 0; cp_should_run_workflow := false |}
  else
    let tick_needed := negb (str_in "time.tick" topics) in
    let planned := if tick_needed
                   then raw_events ++ [build_time_tick_event cycle_index timestamp_wall
                                         (dp_time_tick_period_ms p) (dp_time_tick_priority p)]
                   else raw_events in
    let topics := if tick_needed then topics ++ ["time.tick"%string] else topics in
    let reasons := if tick_needed then ["time_tick_scheduled"%string] else [] in
    let! due := maintenance_due p cycle_index vitality last_maintenance_cycle in
    let reasons := match due with Some (_, r) => reasons ++ [r] | None => reasons end in
    let add_maintenance := match due with Some _ => negb (str_in "core.maintenance.tick" topics) | None => false end in
    let planned := if add_maintenance
                   then planned ++ [build_maintenance_tick_event cycle_index timestamp_wall
                                      (dp_maintenance_tick_priority p)
                                      (match due with Some (r, _) => r | None => "" end)
                                      (option_map vs_state vitality)]
                   else planned in
    let topics := if add_maintenance then topics ++ ["core.maintenance.tick"%string] else topics in
    let external_events := List.filter external planned in
    let! highest_priority := max_priority None planned in
    let has_external := match external_events with [] => false | _ => true end in
    let maintenance := str_in "core.maintenance.tick" topics in
    let (wake_decision, reason) :=
      if has_external then ("affective_wake", "external_event_present")%string
      else if maintenance then ("maintenance_only", "maintenance_tick_present")%string
      else if dp_wake_priority_threshold p <=? highest_priority
           then ("affective_wake", "priority_threshold_reached")%string
      else ("sleep", "quiet_cycle")%string in
    let cycle_kind : string :=
      if has_external && maintenance then "mixed"
      else if has_external then "external_batch"
      else if maintenance then "maintenance_tick"
      else "time_tick" in
    Ok {| cp_cycle_index := cycle_index; cp_cycle_kind := cycle_kind; cp_wake_decision := wake_decision;
          cp_reasons := reasons ++ [reason]; cp_raw_event_count := Z.of_nat (length raw_events);
          cp_planned_events := planned;
          cp_synthetic_event_count := Z.max 0 (Z.of_nat (length planned) - Z.of_nat (length raw_events));
          cp_should_run_workflow := str_in wake_decision ["affective_wake"; "maintenance_only"]%string |}.

(** ** Facts *)

Lemma topic_time_tick i t ms pr : topic_of (build_time_tick_event i t ms pr) = "time.tick"%string.
Proof. unfold topic_of, build_time_tick_event. by dict_simpl. Qed.

Lemma topic_maintenance i t pr r v : topic_of (build_maintenance_tick_event i t pr r v) = "core.maintenance.tick"%string.
Proof. unfold topic_of, build_maintenance_tick_event. by dict_simpl. Qed.

Lemma str_in_app t a b : str_in t (a ++ b) = str_in t a || str_in t b.
Proof. apply existsb_app. Qed.

(** The set [topics] is the topics of the planned events, clock and maintenance
    included. *)
Lemma topics_snoc (b : bool) evs e t : topic_of e = t ->
  (if b then map topic_of evs ++ [t] else map topic_of evs) = map topic_of (if b then evs ++ [e] else evs).
Proof. intros <-. destruct b; [|done]. by rewrite map_app. Qed.

(** What a non-paused cycle plans, in terms of the planned events alone. *)
Lemma filter_nonempty {A} (f : A -> bool) l :
  (match List.filter f l with [] => false | _ => true end) = existsb f l.
Proof. induction l as [|x l IH]; cbn; [done|]. by destruct (f x). Qed.

Definition planned_events (p : AutonomousDaemonPolicy) (raw_events : list dict) (cycle_index : Z)
    (timestamp_wall : string) (vitality : option VitalityState) (due : option (string * string)) : list dict :=
  let clocked := if str_in "time.tick" (map topic_of raw_events) then raw_events
                 else raw_events ++ [build_time_tick_event cycle_index timestamp_wall
                                       (dp_time_tick_period_ms p) (dp_time_tick_priority p)] in
  match due with
  | Some (r, _) =>
      if str_in "core.maintenance.tick" (map topic_of clocked) then clocked
      else clocked ++ [build_maintenance_tick_event cycle_index timestamp_wall
                         (dp_maintenance_tick_priority p) r (option_map vs_state vitality)]
  | None => clocked
  end.

Definition wake_of (p : AutonomousDaemonPolicy) (planned : list dict) (highest : Z) : string :=
  if existsb external planned then "affective_wake"
  else if str_in "core.maintenance.tick" (map topic_of planned) then "maintenance_only"
  else if dp_wake_priority_threshold p <=? highest then "affective_wake" else "sleep".

Definition kind_of (planned : list dict) : string :=
  let maintenance := str_in "core.maintenance.tick" (map topic_of planned) in
  if existsb external planned then (if maintenance then "mixed" else "external_batch")
  else if maintenance then "maintenance_tick" else "time_tick".

Lemma plan_eq p raw i t v last :
  exists reasons, plan_autonomous_cycle p raw i t v last false =
  let! due := maintenance_due p i v last in
  let planned := planned_events p raw i t v due in
  let! highest := max_priority None planned in
  Ok {| cp_cycle_index := i; cp_cycle_kind := kind_of planned; cp_wake_decision := wake_of p planned highest;
        cp_reasons := reasons due highest; cp_raw_event_count := Z.of_nat (length raw);
        cp_planned_events := planned;
        cp_synthetic_event_count := Z.max 0 (Z.of_nat (length planned) - Z.of_nat (length raw));
        cp_should_run_workflow :=
          str_in (wake_of p planned highest) ["affective_wake"; "maintenance_only"]%string |}.
Proof.
  exists (fun due highest =>
    (match due with
     | Some (_, r) => (if str_in "time.tick" (map topic_of raw) then [] else ["time_tick_scheduled"%string]) ++ [r]
     | None => if str_in "time.tick" (map topic_of raw) then [] else ["time_tick_scheduled"%string] end) ++
    [if existsb external (planned_events p raw i t v due) then "external_event_present"
     else if str_in "core.maintenance.tick" (map topic_of (planned_events p raw i t v due))
          then "maintenance_tick_present"
     else if (dp_wake_priority_threshold p <=? highest)%Z then "priority_threshold_reached" else "quiet_cycle"]%string).
  unfold plan_autonomous_cycle.
  rewrite (topics_snoc _ raw (build_time_tick_event i t (dp_time_tick_period_ms p) (dp_time_tick_priority p)))
    by apply topic_time_tick.
  destruct (maintenance_due p i v last) as [due|]; [|done]. cbn [rbind].
  set (clocked := if negb _ then _ else raw).
  assert (clocked = if str_in "time.tick" (map topic_of raw) then raw
                    else raw ++ [build_time_tick_event i t (dp_time_tick_period_ms p) (dp_time_tick_priority p)]) as Hc
    by (unfold clocked; by destruct (str_in _ _)).
  set (add := match due with Some _ => _ | None => false end).
  set (m := build_maintenance_tick_event _ _ _ _ _).
  rewrite (topics_snoc add clocked m) by apply topic_maintenance.
  assert ((if add then clocked ++ [m] else clocked) = planned_events p raw i t v due) as ->.
  { unfold planned_events. rewrite <- Hc. unfold add, m. destruct due as [[r x]|]; [|done].
    by destruct (str_in "core.maintenance.tick" (map topic_of clocked)). }
  destruct (max_priority None (planned_events p raw i t v due)) as [h|]; [|done]. cbn [rbind].
  rewrite filter_nonempty. unfold kind_of, wake_of.
  destruct (existsb external _), (str_in "core.maintenance.tick" (map topic_of (planned_events p raw i t v due))),
    (dp_wake_priority_threshold p <=? h), due as [[r x]|], (str_in "time.tick" (map topic_of raw)); reflexivity.
Qed.

(** The synthetic events of a cycle: at most the clock and one maintenance event. *)
Lemma planned_split p raw i t v due :
  exists extra, planned_events p raw i t v due = raw ++ extra /\ (length extra <= 2)%nat /\
  Forall (fun e => external e = false) extra /\
  str_in "time.tick" (map topic_of (planned_events p raw i t v due)) = true /\
  (due <> None -> str_in "core.maintenance.tick" (map topic_of (planned_events p raw i t v due)) = true).
Proof.
  unfold planned_events. set (tick := build_time_tick_event _ _ _ _).
  assert (exists extra, (if str_in "time.tick" (map topic_of raw) then raw else raw ++ [tick]) = raw ++ extra /\
    (length extra <= 1)%nat /\ Forall (fun e => external e = false) extra /\
    str_in "time.tick" (map topic_of (raw ++ extra)) = true) as (ex & -> & Hl & Hf & Ht).
  { destruct (str_in "time.tick" (map topic_of raw)) eqn:E; [exists []|exists [tick]].
    - rewrite app_nil_r. split_and!; [done|cbn; lia|constructor|done].
    - split_and!; [done|cbn; lia| |].
      + apply Forall_singleton. unfold external, tick. by rewrite topic_time_tick.
      + rewrite map_app, str_in_app. cbn [map]. unfold tick. rewrite topic_time_tick. by apply orb_true_r. }
  destruct due as [[r x]|]; [|exists ex; split_and!; [done|lia|done|done|done]].
  destruct (str_in "core.maintenance.tick" (map topic_of (raw ++ ex))) eqn:E.
  - exists ex. split_and!; [done|lia|done|done|done].
  - set (m := build_maintenance_tick_event _ _ _ _ _). exists (ex ++ [m]). rewrite !app_assoc.
    rewrite (map_app _ (raw ++ ex)), !str_in_app, length_app. cbn [map length].
    unfold m at 3 4. rewrite topic_maintenance. split_and!; [done|lia| | |].
    + apply Forall_app_2; [done|]. apply Forall_singleton. unfold external, m. by rewrite topic_maintenance.
    + by rewrite Ht.
    + intros _. by apply orb_true_r.
Qed.

(** When maintenance is due. *)
Definition due_now (p : AutonomousDaemonPolicy) (i : Z) (v : option VitalityState) (last : option Z) : Prop :=
  (exists s, v = Some s /\ (vs_state s = "concerned" \/ vs_state s = "critical")%string) \/
  (last = None /\ i mod dp_maintenance_interval_cycles p = 0) \/
  (exists l, last = Some l /\ dp_maintenance_interval_cycles p <= i - l).

Lemma maintenance_due_spec p i v last due :
  maintenance_due p i v last = Ok due -> due_now p i v last -> due <> None.
Proof.
  unfold maintenance_due, due_now, py_mod. intros H Hd. set (low := match v with Some _ => _ | None => false end) in *.
  destruct low eqn:El; [by inv_ok|].
  assert (~ exists s, v = Some s /\ (vs_state s = "concerned" \/ vs_state s = "critical")%string) as Hn.
  { intros (s & -> & [E|E]); unfold low in El; rewrite E in El; done. }
  destruct Hd as [?|[[-> Hi]|(l & -> & Hi)]]; [done|..].
  - destruct (dp_maintenance_interval_cycles p =? 0); cbn in H; [done|]. inv_ok. by rewrite Hi.
  - apply Z.leb_le in Hi. rewrite Hi in H. by inv_ok.
Qed.

(** ** Properties *)

(** A planned cycle: the raw events followed by at most two internal
    synthetic events, always with a clock event; a maintenance event whenever
    maintenance is due (low vitality, or the interval elapsed); every external
    event wakes the agents; the cycle sleeps, and only then skips the workflow,
    exactly when nothing external or maintenance is planned and all priorities
    are below the threshold. *)
Theorem cycle_plan_spec p raw i t v last pl :
  plan_autonomous_cycle p raw i t v last false = Ok pl ->
  (exists extra, cp_planned_events pl = raw ++ extra /\ (length extra <= 2)%nat /\
     Forall (fun e => external e = false) extra /\ cp_synthetic_event_count pl = Z.of_nat (length extra)) /\
  "time.tick"%string ∈ map topic_of (cp_planned_events pl) /\
  (due_now p i v last -> "core.maintenance.tick"%string ∈ map topic_of (cp_planned_events pl)) /\
  ((exists e, e ∈ raw /\ external e = true) -> cp_wake_decision pl = "affective_wake"%string) /\
  (exists highest, max_priority None (cp_planned_events pl) = Ok highest /\
     (cp_should_run_workflow pl = false <->
        Forall (fun e => external e = false) raw /\
        "core.maintenance.tick"%string ∉ map topic_of (cp_planned_events pl) /\
        highest < dp_wake_priority_threshold p)).
Proof.
  destruct (plan_eq p raw i t v last) as [reasons ->]. intros H.
  destruct (maintenance_due p i v last) as [due|] eqn:Ed; cbn [rbind] in H; [|done].
  destruct (planned_split p raw i t v due) as (extra & Hsplit & Hlen & Hext & Ht & Hm).
  set (planned := planned_events p raw i t v due) in *.
  destruct (max_priority None planned) as [h|] eqn:Eh; cbn [rbind] in H; [|done].
  apply Ok_inj in H. subst pl. cbn -[existsb Z.max].
  assert (existsb external planned = existsb external raw) as Hex.
  { rewrite Hsplit, existsb_app. replace (existsb external extra) with false; [by rewrite orb_false_r|].
    symmetry. clear -Hext. induction Hext as [|e l He Hl IH]; [done|]. cbn. by rewrite He, IH. }
  split_and!.
  - exists extra. split_and!; [done..|]. rewrite Hsplit, length_app. lia.
  - by apply str_in_true.
  - intros Hd. apply str_in_true, Hm. by eapply maintenance_due_spec.
  - intros (e & He & Hx). unfold wake_of. rewrite Hex.
    replace (existsb external raw) with true; [done|]. symmetry. apply existsb_exists.
    exists e. split; [by apply list_elem_of_In|done].
  - exists h. split; [done|]. unfold wake_of. rewrite Hex.
    assert (existsb external raw = false <-> Forall (fun e => external e = false) raw) as Hr.
    { rewrite <- not_true_iff_false, existsb_exists, Forall_forall. setoid_rewrite <- list_elem_of_In.
      setoid_rewrite <- not_true_iff_false. naive_solver. }
    rewrite <- Hr, <- str_in_false.
    destruct (existsb external raw); cbn; [naive_solver|].
    destruct (str_in "core.maintenance.tick" (map topic_of planned)); cbn; [naive_solver|].
    destruct (Z.leb_spec (dp_wake_priority_threshold p) h); cbn; naive_solver lia.
Qed.

(** A paused daemon adds nothing and runs nothing; and a cycle that is not
    paused gets its plan whenever the interval is not zero and every raw event's
    priority is a number or absent. *)
Theorem cycle_plan_total p raw i t v last :
  plan_autonomous_cycle p raw i t v last true =
    Ok {| cp_cycle_index := i; cp_cycle_kind := "paused"; cp_wake_decision := "paused";
          cp_reasons := ["operator_paused"%string]; cp_raw_event_count := Z.of_nat (length raw);
          cp_planned_events := raw; cp_synthetic_event_count := 0; cp_should_run_workflow := false |} /\
  (dp_maintenance_interval_cycles p <> 0 ->
   Forall (fun e => exists z, py_int (por (dgetn "priority" e) (VInt 0)) = Ok z) raw ->
   exists pl, plan_autonomous_cycle p raw i t v last false = Ok pl).
Proof.
  split; [done|]. intros Hi Hr. destruct (plan_eq p raw i t v last) as [reasons ->].
  assert (exists due, maintenance_due p i v last = Ok due) as [due ->].
  { unfold maintenance_due, py_mod. apply Z.eqb_neq in Hi. rewrite Hi.
    destruct (match v with Some _ => _ | None => false end); [eauto|]. destruct last; cbn; eauto. }
  cbn [rbind].
  assert (forall evs best, Forall (fun e => exists z, py_int (por (dgetn "priority" e) (VInt 0)) = Ok z) evs ->
    exists h, max_priority best evs = Ok h) as Hmax.
  { induction evs as [|e evs IH]; intros best H; cbn [max_priority]; [eauto|].
    apply Forall_cons in H as [[z Hz] H]. rewrite Hz. cbn [rbind]. by apply IH. }
  assert (forall z, py_int (por (VInt z) (VInt 0)) = Ok z) as Hpz
    by (intros z; unfold por; cbn; destruct (Z.eqb_spec z 0); by subst).
  destruct (Hmax (planned_events p raw i t v due) None) as [h Hh].
  { assert (forall i t ms pr, exists z, py_int (por (dgetn "priority" (build_time_tick_event i t ms pr)) (VInt 0)) = Ok z)
      as H1 by (intros; unfold build_time_tick_event; dict_simpl; eauto).
    assert (forall i t pr r v, exists z,
      py_int (por (dgetn "priority" (build_maintenance_tick_event i t pr r v)) (VInt 0)) = Ok z)
      as H2 by (intros; unfold build_maintenance_tick_event; dict_simpl; eauto).
    unfold planned_events. destruct (str_in "time.tick" (map topic_of raw)), due as [[r x]|];
      try destruct (str_in "core.maintenance.tick" _);
      repeat (apply Forall_app_2; [|by apply Forall_singleton]); done. }
  rewrite Hh. cbn [rbind]. eauto.
Qed.

(** ** Witnesses *)

Definition quiet_plan : AutonomousCyclePlan :=
  match plan_autonomous_cycle default_daemon_policy [dict_of [("event_type", VStr "unit.callback"); ("priority", VInt 80)]]
          7 "2026-05-10T12:00:00Z" None (Some 4) false with
  | Ok pl => pl
  | Raise _ => {| cp_cycle_index := 0; cp_cycle_kind := ""; cp_wake_decision := ""; cp_reasons := [];
                  cp_raw_event_count := 0; cp_planned_events := []; cp_synthetic_event_count := 0;
                  cp_should_run_workflow := false |}
  end.

Lemma cycle_plan_spec_witness :
  cp_cycle_kind quiet_plan = "mixed"%string /\
  (exists extra, cp_planned_events quiet_plan = [dict_of [("event_type", VStr "unit.callback"); ("priority", VInt 80)]] ++ extra /\
     (length extra <= 2)%nat /\
     Forall (fun e => external e = false) extra /\ cp_synthetic_event_count quiet_plan = Z.of_nat (length extra)) /\
  "time.tick"%string ∈ map topic_of (cp_planned_events quiet_plan) /\
  (due_now default_daemon_policy 7 None (Some 4) ->
     "core.maintenance.tick"%string ∈ map topic_of (cp_planned_events quiet_plan)) /\
  ((exists e, e ∈ [dict_of [("event_type", VStr "unit.callback"); ("priority", VInt 80)]] /\ external e = true) ->
     cp_wake_decision quiet_plan = "affective_wake"%string) /\
  (exists highest, max_priority None (cp_planned_events quiet_plan) = Ok highest /\
     (cp_should_run_workflow quiet_plan = false <->
        Forall (fun e => external e = false) [dict_of [("event_type", VStr "unit.callback"); ("priority", VInt 80)]] /\
        "core.maintenance.tick"%string ∉ map topic_of (cp_planned_events quiet_plan) /\
        highest < dp_wake_priority_threshold default_daemon_policy)).
Proof.
  split; [vm_compute; reflexivity|].
  apply (cycle_plan_spec default_daemon_policy _ 7 "2026-05-10T12:00:00Z" None (Some 4) quiet_plan).
  vm_compute. reflexivity.
Defined.
