(* ===== verification/Federation.v ===== *)
(** * Federation routing ([federation.py])

    The topology registry of a core, the route it plans to a node, and the
    delegation proposal a ready route allows.

    [datetime.fromisoformat(...).astimezone(timezone.utc)] is a parameter: what
    instant a text denotes depends, for a text without an offset, on the time
    zone of the machine. *)

From Stdlib Require Import ZArith Lia Bool List Ascii String.
From stdpp Require Import base list option sets strings sorting.
From S2P Require Import Prelude Text PyValue.

Open Scope Z_scope.

Definition FEDERATION_ROUTE_SCHEMA_VERSION : string := "1.2.6-federation-route-v1".
Definition UNIT_CAPABILITY_SCHEMA_VERSION : string := "1.2.6-unit-capability-v1".
Definition DELEGATED_EXECUTION_SCHEMA_VERSION : string := "1.2.6-delegated-execution-v1".
Definition FEDERATION_ROUTE_SMOKE_SCHEMA_VERSION : string := "1.2.6-federation-route-smoke-v1".

Record UnitCapabilityDescriptor := {
  uc_node_id : string;
  uc_architecture : string;
  uc_abi : string;
  uc_board_family : string;
  uc_llext_supported : bool;
  uc_storage_class : string;
  uc_network_transports : list string;
  uc_relay_capable : bool;
  uc_signing_enforced : bool;
  uc_resource_budget : list (string * Z);
  uc_relay_path : list string;
}.

Definition unit_to_dict (u : UnitCapabilityDescriptor) : dict :=
  dict_of [("node_id", VStr (uc_node_id u)); ("architecture", VStr (uc_architecture u));
           ("abi", VStr (uc_abi u)); ("board_family", VStr (uc_board_family u));
           ("llext_supported", VBool (uc_llext_supported u)); ("storage_class", VStr (uc_storage_class u));
           ("network_transports", VList (vstrs (uc_network_transports u)));
           ("relay_capable", VBool (uc_relay_capable u)); ("signing_enforced", VBool (uc_signing_enforced u));
           ("resource_budget", VDict (dict_of (map (fun kv => (kv.1, VInt kv.2)) (uc_resource_budget u))));
           ("relay_path", VList (vstrs (uc_relay_path u)));
           ("schema_version", VStr UNIT_CAPABILITY_SCHEMA_VERSION)].

Record CorePeerDescriptor := {
  cp_core_id : string;
  cp_trust_scope : string;
  cp_remote_units : list string;
  cp_attachments : list dict;
  cp_capabilities : list string;
  cp_advertised_at : string;
  cp_expires_at : string;
  cp_reachable : bool;
}.

Definition peer_to_dict (p : CorePeerDescriptor) : dict :=
  dict_of [("core_id", VStr (cp_core_id p)); ("trust_scope", VStr (cp_trust_scope p));
           ("remote_units", VList (vstrs (cp_remote_units p)));
           ("remote_unit_attachments", VList (map VDict (cp_attachments p)));
           ("capabilities", VList (vstrs (cp_capabilities p)));
           ("advertised_at", VStr (cp_advertised_at p)); ("expires_at", VStr (cp_expires_at p));
           ("reachable", VBool (cp_reachable p))].

Definition attachment_for (p : CorePeerDescriptor) (node_id : string) : option dict :=
  List.find (fun a => String.eqb (str_or "node_id" "" a) node_id) (cp_attachments p).

Record RouteDecision := {
  rd_source_core : string;
  rd_target_node : string;
  rd_route_kind : string;
  rd_status : string;
  rd_trust_scope : string;
  rd_target_core : option string;
  rd_relay_path : list string;
  rd_failure_reason : string;
  rd_evidence_refs : list string;
}.

Definition route_ok (r : RouteDecision) : bool := String.eqb (rd_status r) "route_ready".

Definition route_to_dict (r : RouteDecision) : dict :=
  dict_of [("schema_version", VStr FEDERATION_ROUTE_SCHEMA_VERSION); ("ok", VBool (route_ok r));
           ("source_core", VStr (rd_source_core r)); ("target_node", VStr (rd_target_node r));
           ("target_core", opt_str (rd_target_core r)); ("route_kind", VStr (rd_route_kind r));
           ("status", VStr (rd_status r)); ("trust_scope", VStr (rd_trust_scope r));
           ("relay_path", VList (vstrs (rd_relay_path r)));
           ("failure_reason", VStr (rd_failure_reason r));
           ("evidence_refs", VList (vstrs (rd_evidence_refs r)))].

Record DelegatedExecutionProposal := {
  dl_delegation_id : string;
  dl_source_core : string;
  dl_target_core : string;
  dl_target_node : string;
  dl_resource : string;
  dl_policy_scope : string;
  dl_route_kind : string;
  dl_timeout_ms : Z;
  dl_cleanup_required : bool;
  dl_audit_correlation_id : string;
}.

Definition delegation_to_dict (d : DelegatedExecutionProposal) : dict :=
  dict_of [("delegation_id", VStr (dl_delegation_id d)); ("source_core", VStr (dl_source_core d));
           ("target_core", VStr (dl_target_core d)); ("target_node", VStr (dl_target_node d));
           ("resource", VStr (dl_resource d)); ("policy_scope", VStr (dl_policy_scope d));
           ("route_kind", VStr (dl_route_kind d)); ("timeout_ms", VInt (dl_timeout_ms d));
           ("cleanup_required", VBool (dl_cleanup_required d));
           ("audit_correlation_id", VStr (dl_audit_correlation_id d));
           ("schema_version", VStr DELEGATED_EXECUTION_SCHEMA_VERSION)].

(** ** The registry *)

Record FederationTopologyRegistry := {
  ft_local_core_id : string;
  ft_local_trust_scope : string;
  ft_local_units : list (string * UnitCapabilityDescriptor);
  ft_peers : list (string * CorePeerDescriptor);
}.

Definition new_registry (local_core_id local_trust_scope : string) : FederationTopologyRegistry :=
  {| ft_local_core_id := local_core_id; ft_local_trust_scope := local_trust_scope;
     ft_local_units := []; ft_peers := [] |}.

Definition register_local_unit (u : UnitCapabilityDescriptor) (r : FederationTopologyRegistry)
    : FederationTopologyRegistry :=
  {| ft_local_core_id := ft_local_core_id r; ft_local_trust_scope := ft_local_trust_scope r;
     ft_local_units := od_set (fun s => s) (uc_node_id u) u (ft_local_units r); ft_peers := ft_peers r |}.

Definition register_peer (p : CorePeerDescriptor) (r : FederationTopologyRegistry) : FederationTopologyRegistry :=
  {| ft_local_core_id := ft_local_core_id r; ft_local_trust_scope := ft_local_trust_scope r;
     ft_local_units := ft_local_units r; ft_peers := od_set (fun s => s) (cp_core_id p) p (ft_peers r) |}.

Definition peer_leb (a b : CorePeerDescriptor) : bool := String.leb (cp_core_id a) (cp_core_id b).

Definition list_peers (r : FederationTopologyRegistry) : list CorePeerDescriptor :=
  py_sorted peer_leb (map snd (ft_peers r)).


Definition advertises (target_node : string) (p : CorePeerDescriptor) : bool :=
  str_in target_node (cp_remote_units p) ||
  match attachment_for p target_node with Some _ => true | None => false end.

(** [tuple(str(item) for item in (attachment.get(key) or ()) if str(item))] *)
Definition attached_texts (key : string) (attachment : dict) : result (list string) :=
  let! l := str_items (por (dgetn key attachment) (VTuple [])) in
  Ok (List.filter (fun s => negb (String.eqb s "")) l).

Definition core_ids (ps : list CorePeerDescriptor) : list string := sorted_strings (map cp_core_id ps).

Section Route.
(** The instant, in microseconds of UTC, an ISO text denotes. *)
Variable instant : string -> result Z.

Definition parse_utc (value : string) : result Z := instant (replace_char "Z"%char "+00:00" value).

Definition is_fresh (p : CorePeerDescriptor) (now : string) : result bool :=
  let! e := parse_utc (cp_expires_at p) in
  let! n := parse_utc now in
  Ok (n <=? e).

Variable r : FederationTopologyRegistry.

Definition decision (target_node route_kind status trust_scope : string) (target_core : option string)
    (relay_path : list string) (failure_reason : string) (evidence_refs : list string) : RouteDecision :=
  {| rd_source_core := ft_local_core_id r; rd_target_node := target_node; rd_route_kind := route_kind;
     rd_status := status; rd_trust_scope := trust_scope; rd_target_core := target_core;
     rd_relay_path := relay_path; rd_failure_reason := failure_reason; rd_evidence_refs := evidence_refs |}.

Definition path_kind (path : list string) : string := match path with [] => "direct" | _ => "relay" end.
Definition has_path (path : list string) : bool := match path with [] => false | _ => true end.

(** [required and required != have], [required and required not in have] *)
Definition mismatch (required : option string) (have : string) : bool :=
  match required with Some s => negb (String.eqb s have) | None => false end.
Definition unsupported (required : option string) (have : list string) : bool :=
  match required with Some t => negb (str_in t have) | None => false end.

Definition plan_local (target_node : string) (scope transport : option string)
    (u : UnitCapabilityDescriptor) : RouteDecision :=
  let local_scope := ft_local_trust_scope r in
  let path := uc_relay_path u in
  if mismatch scope local_scope then
    decision target_node "local" "route_rejected" local_scope None [] "trust_scope_mismatch" [target_node]
  else if unsupported transport (uc_network_transports u) then
    decision target_node (path_kind path) "route_rejected" local_scope None path "transport_mismatch"
             (target_node :: path)
  else if has_path path && negb (uc_relay_capable u) then
    decision target_node "relay" "route_rejected" local_scope None path "relay_capability_mismatch"
             (target_node :: path)
  else decision target_node (path_kind path) "route_ready" local_scope None path "" [target_node].

(** [required_trust_scope or peers[0].trust_scope] *)
Definition scope_or_first (scope : option string) (ps : list CorePeerDescriptor) : string :=
  match scope, ps with
  | Some s, _ => s
  | None, p :: _ => cp_trust_scope p
  | None, [] => ""
  end.

Definition plan_selected (target_node : string) (transport : option string) (selected : CorePeerDescriptor)
    : result RouteDecision :=
  let attachment := match attachment_for selected target_node with Some a => a | None => [] end in
  let! path := attached_texts "relay_path" attachment in
  let! transports := attached_texts "network_transports" attachment in
  let refs := cp_core_id selected :: target_node :: path in
  let d kind_status reason := decision target_node "delegated_core" kind_status (cp_trust_scope selected)
                                (Some (cp_core_id selected)) path reason refs in
  Ok (if has_path transports && unsupported transport transports
      then d "route_rejected"%string "transport_mismatch"%string
      else d "route_ready"%string ""%string).

Definition trusts (scope : option string) (p : CorePeerDescriptor) : bool :=
  match scope with Some s => String.eqb (cp_trust_scope p) s | None => true end.

Definition plan_remote (target_node now : string) (scope transport : option string) : result RouteDecision :=
  let rejected status trust reason refs :=
    Ok (decision target_node "delegated_core" status trust None [] reason refs) in
  match List.filter (advertises target_node) (map snd (ft_peers r)) with
  | [] => Ok (decision target_node "none" "no_route" (match scope with Some s => s | None => "" end)
                       None [] "target_node_not_advertised" [])
  | peers =>
      match List.filter (trusts scope) peers with
      | [] => rejected "route_rejected"%string (match scope with Some s => s | None => ""%string end)
                       "trust_scope_mismatch"%string (core_ids peers)
      | trusted =>
          let! fresh := filter_r (fun p => is_fresh p now) trusted in
          match fresh with
          | [] => rejected "stale_route"%string (scope_or_first scope trusted) "peer_advertisement_stale"%string
                           (core_ids trusted)
          | _ =>
              match py_sorted peer_leb (List.filter cp_reachable fresh) with
              | [] => rejected "route_failed"%string (scope_or_first scope fresh) "peer_unreachable"%string
                               (core_ids fresh)
              | selected :: _ => plan_selected target_node transport selected
              end
          end
      end
  end.

Definition plan_route (target_node now : string) (required_trust_scope required_transport : option string)
    : result RouteDecision :=
  let scope := str_truthy required_trust_scope in
  let transport := str_truthy required_transport in
  match od_get (fun s => s) target_node (ft_local_units r) with
  | Some u => Ok (plan_local target_node scope transport u)
  | None => plan_remote target_node now scope transport
  end.
End Route.

(** ** Delegation *)

Definition build_delegated_execution_proposal (delegation_id : string) (route : RouteDecision)
    (resource policy_scope : string) (timeout_ms : Z) (cleanup_required : bool) (audit_correlation_id : string)
    : result DelegatedExecutionProposal :=
  let refused := Raise (ValueError "delegated_execution_requires_ready_delegated_core_route") in
  if negb (String.eqb (rd_route_kind route) "delegated_core") || negb (route_ok route) then refused
  else match rd_target_core route with
       | None => refused
       | Some core =>
           Ok {| dl_delegation_id := delegation_id; dl_source_core := rd_source_core route;
                 dl_target_core := core; dl_target_node := rd_target_node route; dl_resource := resource;
                 dl_policy_scope := policy_scope; dl_route_kind := rd_route_kind route;
                 dl_timeout_ms := timeout_ms; dl_cleanup_required := cleanup_required;
                 dl_audit_correlation_id := audit_correlation_id |}
       end.

(** ** The route smoke command *)

Record SmokeArgs := {
  sm_target_node : string;
  sm_now : string;
  sm_required_trust_scope : string;
  sm_required_transport : string;
  sm_local_unit : bool;
  sm_network_transports : list string;
  sm_relay_via : list string;
  sm_relay_capable : option bool;
  sm_peer_core_id : string;
  sm_peer_trust_scope : string;
  sm_peer_network_transports : list string;
  sm_peer_relay_via : list string;
  sm_peer_expires_at : string;
  sm_peer_reachable : bool;
  sm_include_delegation_proposal : bool;
}.

Definition smoke_registry (a : SmokeArgs) : FederationTopologyRegistry :=
  let registry := new_registry "core-a" "local" in
  if sm_local_unit a then
    register_local_unit
      {| uc_node_id := sm_target_node a; uc_architecture := "xtensa"; uc_abi := "zephyr-llext-v1";
         uc_board_family := "generic-unit-class"; uc_llext_supported := true;
         uc_storage_class := "removable_or_flash"; uc_network_transports := sm_network_transports a;
         uc_relay_capable := match sm_relay_capable a with None => has_path (sm_relay_via a) | Some b => b end;
         uc_signing_enforced := false; uc_resource_budget := []; uc_relay_path := sm_relay_via a |} registry
  else
    register_peer
      {| cp_core_id := sm_peer_core_id a; cp_trust_scope := sm_peer_trust_scope a;
         cp_remote_units := [sm_target_node a];
         cp_attachments :=
           if has_path (sm_peer_relay_via a) || has_path (sm_peer_network_transports a) then
             [dict_of [("node_id", VStr (sm_target_node a));
                       ("relay_path", VList (vstrs (sm_peer_relay_via a)));
                       ("network_transports", VList (vstrs (sm_peer_network_transports a)))]]
           else [];
         cp_capabilities := ["delegated_execution"%string];
         cp_advertised_at := "2026-05-09T11:00:00Z"; cp_expires_at := sm_peer_expires_at a;
         cp_reachable := sm_peer_reachable a |} registry.

Definition federation_route_smoke (instant : string -> result Z) (a : SmokeArgs) : result dict :=
  let! route := plan_route instant (smoke_registry a) (sm_target_node a) (sm_now a)
                  (str_truthy (Some (sm_required_trust_scope a))) (str_truthy (Some (sm_required_transport a))) in
  let delegated := String.eqb (rd_route_kind route) "delegated_core" in
  let near := str_in (rd_route_kind route) ["direct"; "relay"]%string in
  let! proposal :=
    (if sm_include_delegation_proposal a && route_ok route && delegated then
       let! p := build_delegated_execution_proposal "fed-del-smoke-001" route
                   ("neuro/" +:+ sm_target_node a +:+ "/query/device") "read_only" 5000 false
                   "audit-fed-smoke-001" in
       Ok (VDict (delegation_to_dict p))
     else Ok VNone) in
  Ok (dict_of
    [("schema_version", VStr FEDERATION_ROUTE_SMOKE_SCHEMA_VERSION);
     ("command", VStr "federation-route-smoke"); ("ok", VBool (route_ok route));
     ("status", VStr (rd_status route));
     ("reason", VStr (if route_ok route then "route_ready" else rd_failure_reason route));
     ("route_decision", VDict (route_to_dict route)); ("delegated_execution", proposal);
     ("closure_gates", VDict (dict_of
        [("route_decision_recorded", VBool true); ("route_ready", VBool (route_ok route));
         ("direct_or_relay_route_recorded", VBool (near && route_ok route));
         ("delegated_route_recorded", VBool delegated);
         ("delegated_execution_contract_ready", VBool (negb (is_none proposal)));
         ("trust_scope_checked", VBool (negb (String.eqb (sm_required_trust_scope a) "") || near))]));
     ("evidence_summary", VDict (dict_of
        [("target_node", VStr (sm_target_node a)); ("route_kind", VStr (rd_route_kind route));
         ("target_core", opt_str (rd_target_core route)); ("relay_path", VList (vstrs (rd_relay_path route)));
         ("trust_scope", VStr (rd_trust_scope route));
         ("required_transport", VStr (sm_required_transport a));
         ("supported_transports", VList (vstrs (if sm_local_unit a then sm_network_transports a
                                                else sm_peer_network_transports a)));
         ("failure_reason", VStr (rd_failure_reason route))]))]%string).

(** ** Facts *)

Lemma filter_r_ok {A} (f : A -> result bool) l l' :
  filter_r f l = Ok l' ->
  l' = List.filter (fun x => match f x with Ok b => b | Raise _ => false end) l /\
  Forall (fun x => exists b, f x = Ok b) l.
Proof.
  revert l'. induction l as [|x l IH]; intros l' H; cbn in H; [inv_ok; by split|].
  inv_ok. destruct (IH _ eq_refl) as [-> Hf]. cbn. rewrite E. split; [by destruct a|]. constructor; eauto.
Qed.

Lemma filter_r_total {A} (f : A -> result bool) l :
  Forall (fun x => exists b, f x = Ok b) l -> exists l', filter_r f l = Ok l'.
Proof. induction 1 as [|x l [b Hb] Hl [l' Hl']]; cbn; [eauto|]. rewrite Hb. cbn. rewrite Hl'. cbn. eauto. Qed.

Lemma list_filter_perm {A} (f : A -> bool) l l' : l ≡ₚ l' -> List.filter f l ≡ₚ List.filter f l'.
Proof.
  induction 1 as [|x l l' H IH|x y l|l l' l'' H1 IH1 H2 IH2]; cbn; [done|..].
  - destruct (f x); by rewrite ?IH.
  - destruct (f x), (f y); try done. apply Permutation_swap.
  - by etrans.
Qed.

Lemma peer_leb_total a b : peer_leb a b = true \/ peer_leb b a = true.
Proof. apply string_leb_total. Qed.
Lemma peer_leb_trans a b c : peer_leb a b = true -> peer_leb b c = true -> peer_leb a c = true.
Proof. apply string_leb_trans. Qed.

Lemma list_filter_in {A} (f : A -> bool) l x : x ∈ List.filter f l <-> x ∈ l /\ f x = true.
Proof. by rewrite !list_elem_of_In, filter_In. Qed.

(** The registry invariant: every peer is stored once, under its core id. *)
Definition registry_wf (r : FederationTopologyRegistry) : Prop :=
  od_wf (fun s => s) (ft_peers r) /\ Forall (fun kp => cp_core_id kp.2 = kp.1) (ft_peers r) /\
  od_wf (fun s => s) (ft_local_units r) /\ Forall (fun ku => uc_node_id ku.2 = ku.1) (ft_local_units r).

Lemma Forall_od_set_key {V} (key : V -> string) v (d : list (string * V)) :
  Forall (fun kv => key kv.2 = kv.1) d -> Forall (fun kv => key kv.2 = kv.1) (od_set (fun s => s) (key v) v d).
Proof.
  induction 1 as [|[k1 v1] d H1 Hd IH]; cbn; [by constructor|]. case_decide as E; constructor; auto.
Qed.

Lemma new_registry_wf core scope : registry_wf (new_registry core scope).
Proof. unfold registry_wf. cbn. split_and!; auto using od_nil_wf. Qed.

Lemma register_peer_wf p r : registry_wf r -> registry_wf (register_peer p r).
Proof.
  intros (H1 & H2 & H3 & H4). unfold registry_wf. cbn. split_and!; auto using od_set_wf.
  by apply (Forall_od_set_key cp_core_id).
Qed.

Lemma register_local_unit_wf u r : registry_wf r -> registry_wf (register_local_unit u r).
Proof.
  intros (H1 & H2 & H3 & H4). unfold registry_wf. cbn. split_and!; auto using od_set_wf.
  by apply (Forall_od_set_key uc_node_id).
Qed.

Lemma peers_same_core r p q :
  registry_wf r -> p ∈ map snd (ft_peers r) -> q ∈ map snd (ft_peers r) -> cp_core_id p = cp_core_id q -> p = q.
Proof.
  intros (Hw & Hk & _) Hp Hq E. apply list_elem_of_fmap in Hp as ([k p'] & -> & Hp).
  apply list_elem_of_fmap in Hq as ([k' q'] & -> & Hq). rewrite Forall_forall in Hk.
  pose proof (Hk _ Hp) as E1. pose proof (Hk _ Hq) as E2. cbn in *.
  assert ((k, p') = (k', q')) as [= _ ->]; [|done]. eapply od_wf_inj; eauto. cbn. congruence.
Qed.

Section Routes.
Context (instant : string -> result Z) (r : FederationTopologyRegistry).

(** A peer that may carry a route: known, advertising the node, trusted,
    fresh and reachable. *)
Record eligible (target now : string) (scope : option string) (p : CorePeerDescriptor) : Prop := {
  el_known : p ∈ map snd (ft_peers r);
  el_advertises : advertises target p = true;
  el_trusted : trusts scope p = true;
  el_fresh : is_fresh instant p now = Ok true;
  el_reachable : cp_reachable p = true;
}.

(** The peers in the order the planner prefers them. *)
Definition fresh_b (now : string) (p : CorePeerDescriptor) : bool :=
  match is_fresh instant p now with Ok b => b | Raise _ => false end.

Definition candidates (target now : string) (scope : option string) : list CorePeerDescriptor :=
  py_sorted peer_leb (List.filter cp_reachable (List.filter (fresh_b now)
    (List.filter (trusts scope) (List.filter (advertises target) (map snd (ft_peers r)))))).

Lemma candidates_eligible target now scope p :
  p ∈ candidates target now scope <-> eligible target now scope p.
Proof.
  unfold candidates. rewrite elem_of_py_sorted, !list_filter_in. unfold fresh_b. split.
  - intros [[[[? ?] ?] Hf] ?]. constructor; try done. by destruct (is_fresh _ _ _) as [[]|].
  - intros [? ? ? Hf ?]. by rewrite Hf.
Qed.

(** The planner's remote branch: the candidate list decides. *)
Lemma plan_remote_candidates target now scope transport d :
  plan_remote instant r target now scope transport = Ok d ->
  match candidates target now scope with
  | [] => rd_status d <> "route_ready"%string /\ rd_target_core d = None
  | p :: _ => plan_selected r target transport p = Ok d
  end.
Proof.
  unfold plan_remote, candidates. intros H.
  destruct (List.filter (advertises target) _) as [|p0 ps]; [by inv_ok|].
  destruct (List.filter (trusts scope) (p0 :: ps)) as [|p1 ts]; [by inv_ok|].
  destruct (filter_r _ (p1 :: ts)) as [fresh|] eqn:E; cbn [rbind] in H; [|done].
  apply filter_r_ok in E as [E _]. unfold fresh_b. rewrite <- E.
  destruct fresh as [|p2 fs]; [by inv_ok|].
  destruct (py_sorted peer_leb (List.filter cp_reachable (p2 :: fs))); [by inv_ok|done].
Qed.

(** Conversely, when the advertisement times of the trusted peers parse, the
    preferred candidate is used; and a plan that reached a candidate parsed them. *)
Definition times_parse (target now : string) (scope : option string) : Prop :=
  Forall (fun p => exists b, is_fresh instant p now = Ok b)
    (List.filter (trusts scope) (List.filter (advertises target) (map snd (ft_peers r)))).

Lemma plan_remote_uses target now scope transport p ps :
  times_parse target now scope -> candidates target now scope = p :: ps ->
  plan_remote instant r target now scope transport = plan_selected r target transport p.
Proof.
  unfold times_parse, candidates, plan_remote. intros Ht Hc.
  destruct (List.filter (advertises target) _) as [|p0 qs]; [done|].
  destruct (List.filter (trusts scope) (p0 :: qs)) as [|p1 ts]; [done|].
  destruct (filter_r_total _ _ Ht) as [fresh E]. rewrite E. cbn [rbind].
  apply filter_r_ok in E as [E _]. fold (fresh_b now) in E. rewrite <- E in Hc.
  destruct fresh as [|p2 fs]; [done|]. by rewrite Hc.
Qed.

Lemma plan_remote_parsed target now scope transport d p ps :
  plan_remote instant r target now scope transport = Ok d -> candidates target now scope = p :: ps ->
  times_parse target now scope.
Proof.
  unfold times_parse, candidates, plan_remote. intros H Hc.
  destruct (List.filter (advertises target) _) as [|p0 qs]; [done|].
  destruct (List.filter (trusts scope) (p0 :: qs)) as [|p1 ts]; [done|].
  destruct (filter_r _ (p1 :: ts)) as [fresh|] eqn:E; cbn [rbind] in H; [|done].
  by apply filter_r_ok in E as [_ E].
Qed.

Lemma candidates_least target now scope p ps :
  candidates target now scope = p :: ps ->
  eligible target now scope p /\
  forall q, eligible target now scope q -> String.leb (cp_core_id p) (cp_core_id q) = true.
Proof.
  intros E. pose proof (py_sorted_sorted peer_leb peer_leb_total peer_leb_trans
    (List.filter cp_reachable (List.filter (fresh_b now)
    (List.filter (trusts scope) (List.filter (advertises target) (map snd (ft_peers r))))))) as Hs.
  fold (candidates target now scope) in Hs. rewrite E in Hs. inversion Hs as [|? ? Hs' Hp]; subst.
  split; [apply candidates_eligible; rewrite E; left|].
  intros q Hq. apply candidates_eligible in Hq. rewrite E in Hq. apply elem_of_cons in Hq as [->|Hq].
  - by destruct (string_leb_total (cp_core_id p) (cp_core_id p)).
  - rewrite Forall_forall in Hp. by apply Hp.
Qed.
End Routes.

Lemma candidates_perm instant r1 r2 target now scope :
  registry_wf r1 -> ft_peers r1 ≡ₚ ft_peers r2 ->
  candidates instant r1 target now scope = candidates instant r2 target now scope.
Proof.
  intros Hw Hp. unfold candidates. apply (py_sorted_unique peer_leb peer_leb_total peer_leb_trans).
  - intros x y Hx Hy Lx Ly. rewrite !list_filter_in in Hx, Hy.
    apply (peers_same_core r1); [done|tauto|tauto|]. by apply string_leb_antisym.
  - repeat apply list_filter_perm. by rewrite Hp.
Qed.

Lemma times_parse_perm instant r1 r2 target now scope :
  ft_peers r1 ≡ₚ ft_peers r2 -> times_parse instant r1 target now scope ->
  times_parse instant r2 target now scope.
Proof.
  unfold times_parse. intros Hp H. eapply Permutation_Forall; [|exact H].
  repeat apply list_filter_perm. by rewrite Hp.
Qed.

(** What the attachment of a peer says about transports. *)
Definition transport_supported (target : string) (transport : option string) (p : CorePeerDescriptor) : Prop :=
  exists ts, attached_texts "network_transports" (match attachment_for p target with Some a => a | None => [] end) = Ok ts /\
  (ts = [] \/ forall t, transport = Some t -> t ∈ ts).

Lemma plan_selected_ready r target transport p d :
  plan_selected r target transport p = Ok d ->
  rd_target_core d = Some (cp_core_id p) /\ rd_trust_scope d = cp_trust_scope p /\ rd_target_node d = target /\
  (rd_status d = "route_ready"%string <-> transport_supported target transport p) /\
  (rd_status d <> "route_ready"%string -> rd_failure_reason d = "transport_mismatch"%string).
Proof.
  unfold plan_selected, transport_supported. intros H.
  destruct (attached_texts "relay_path" _) as [path|]; cbn [rbind] in H; [|done].
  destruct (attached_texts "network_transports" _) as [ts|]; cbn [rbind] in H; [|done].
  apply Ok_inj in H. unfold has_path, unsupported in H.
  destruct ts as [|t0 ts]; cbn [andb] in H.
  { subst d. cbn. split_and!; try done. split; [|done]. intros _. exists []. eauto. }
  destruct transport as [t|].
  - destruct (str_in t (t0 :: ts)) eqn:E; cbn in H; subst d; cbn; split_and!; try done.
    + split; [|done]. intros _. eexists. split; [done|]. right. intros ? [= <-]. by apply str_in_true.
    + split; [done|]. intros (l & [= <-] & [?|Ht]); [done|]. apply str_in_false in E. by destruct E; apply Ht.
  - subst d. cbn. split_and!; try done. split; [|done]. intros _. eexists. split; [done|]. right. by intros ? [=].
Qed.

Lemma mismatch_false scope have : mismatch scope have = false <-> forall s, scope = Some s -> s = have.
Proof.
  unfold mismatch. destruct scope as [s|]; [|by split].
  rewrite negb_false_iff, String.eqb_eq. naive_solver.
Qed.

Lemma unsupported_false transport have :
  unsupported transport have = false <-> forall t, transport = Some t -> t ∈ have.
Proof.
  unfold unsupported. destruct transport as [t|]; [|by split].
  rewrite negb_false_iff, str_in_true. naive_solver.
Qed.

Lemma plan_local_ready r target scope transport u :
  let d := plan_local r target scope transport u in
  rd_target_core d = None /\
  (rd_status d = "route_ready"%string <->
     (forall s, scope = Some s -> s = ft_local_trust_scope r) /\
     (forall t, transport = Some t -> t ∈ uc_network_transports u) /\
     (uc_relay_path u = [] \/ uc_relay_capable u = true)).
Proof.
  unfold plan_local. rewrite <- mismatch_false, <- unsupported_false.
  destruct (mismatch _ _), (unsupported _ _), (uc_relay_path u), (uc_relay_capable u); cbn; naive_solver.
Qed.

(** ** Properties *)

(** C31: a ready route is justified.  Either the node is a local unit whose
    scope, transports and relay capability satisfy the request; or it is not
    local and the route is delegated to a peer that advertises the node, has
    the required trust scope, is fresh and reachable and supports the transport,
    and whose core id is the least among all such peers. *)
Theorem ready_route_justified instant r target now scope transport d :
  plan_route instant r target now scope transport = Ok d -> route_ok d = true ->
  (exists u, od_get (fun s => s) target (ft_local_units r) = Some u /\ rd_target_core d = None /\
     (forall s, str_truthy scope = Some s -> s = ft_local_trust_scope r) /\
     (forall t, str_truthy transport = Some t -> t ∈ uc_network_transports u) /\
     (uc_relay_path u = [] \/ uc_relay_capable u = true)) \/
  (od_get (fun s => s) target (ft_local_units r) = None /\
   exists p, eligible instant r target now (str_truthy scope) p /\
     rd_target_core d = Some (cp_core_id p) /\ rd_trust_scope d = cp_trust_scope p /\
     transport_supported target (str_truthy transport) p /\
     forall q, eligible instant r target now (str_truthy scope) q ->
       String.leb (cp_core_id p) (cp_core_id q) = true).
Proof.
  unfold plan_route, route_ok. intros H Hok%String.eqb_eq.
  destruct (od_get _ target (ft_local_units r)) as [u|] eqn:El.
  - left. exists u. apply Ok_inj in H. subst d.
    destruct (plan_local_ready r target (str_truthy scope) (str_truthy transport) u) as [Hc Hr].
    apply Hr in Hok. split_and!; try done; apply Hok.
  - right. split; [done|]. apply plan_remote_candidates in H.
    destruct (candidates instant r target now (str_truthy scope)) as [|p ps] eqn:Ec; [by destruct H|].
    destruct (candidates_least _ _ _ _ _ _ _ Ec) as [Hel Hmin].
    destruct (plan_selected_ready _ _ _ _ _ H) as (H1 & H2 & _ & H3 & _).
    exists p. split_and!; try done. by apply H3.
Qed.

(** An eligible peer is never overlooked: when the node is not local and
    some known peer advertises it, is trusted, fresh and reachable, a plan that
    is made is delegated to the least such peer, and is not ready only because
    that peer's declared transports lack the required one. *)
Theorem eligible_peer_is_used instant r target now scope transport d q :
  od_get (fun s => s) target (ft_local_units r) = None ->
  plan_route instant r target now scope transport = Ok d ->
  eligible instant r target now (str_truthy scope) q ->
  exists p, eligible instant r target now (str_truthy scope) p /\
    String.leb (cp_core_id p) (cp_core_id q) = true /\ rd_target_core d = Some (cp_core_id p) /\
    (route_ok d = true <-> transport_supported target (str_truthy transport) p) /\
    (route_ok d = false -> rd_failure_reason d = "transport_mismatch"%string).
Proof.
  unfold plan_route, route_ok. intros El H Hq. rewrite El in H. apply plan_remote_candidates in H.
  destruct (candidates instant r target now (str_truthy scope)) as [|p ps] eqn:Ec.
  { apply candidates_eligible in Hq. rewrite Ec in Hq. by apply elem_of_nil in Hq. }
  destruct (candidates_least _ _ _ _ _ _ _ Ec) as [Hel Hmin].
  destruct (plan_selected_ready _ _ _ _ _ H) as (H1 & _ & _ & H3 & H4).
  exists p. rewrite String.eqb_eq. split_and!; try done; [by apply Hmin|].
  intros Hn%String.eqb_neq. by apply H4.
Qed.

(** The order in which peers and units were registered does not matter to a
    ready route: of two well-formed registries with the same local core, units
    and peers up to order, when one plans a ready route the other plans it too. *)
Theorem route_order_irrelevant instant r1 r2 target now scope transport d :
  registry_wf r1 -> registry_wf r2 ->
  ft_local_core_id r1 = ft_local_core_id r2 -> ft_local_trust_scope r1 = ft_local_trust_scope r2 ->
  ft_local_units r1 ≡ₚ ft_local_units r2 -> ft_peers r1 ≡ₚ ft_peers r2 ->
  plan_route instant r1 target now scope transport = Ok d -> route_ok d = true ->
  plan_route instant r2 target now scope transport = Ok d.
Proof.
  intros Hw1 Hw2 Hc Hs Hu Hp H Hok. unfold plan_route in *.
  rewrite <- (od_get_perm (fun s => s) target _ _ (proj1 (proj2 (proj2 Hw1))) Hu).
  destruct (od_get _ target (ft_local_units r1)) as [u|].
  - rewrite <- H. unfold plan_local, decision. by rewrite Hc, Hs.
  - pose proof (plan_remote_candidates _ _ _ _ _ _ _ H) as Hd.
    pose proof (candidates_perm instant r1 r2 target now (str_truthy scope) Hw1 Hp) as E.
    destruct (candidates instant r1 target now (str_truthy scope)) as [|p ps] eqn:Ec.
    { destruct Hd as [Hd _]. apply String.eqb_eq in Hok. done. }
    erewrite plan_remote_uses; [|..|by symmetry].
    + rewrite <- Hd. unfold plan_selected, decision. by rewrite Hc.
    + eapply times_parse_perm; [done|]. by eapply plan_remote_parsed.
Qed.

(** Delegation is proposed exactly for a ready delegated route with a target
    core, and the proposal names that core, the route's source and its node. *)
Theorem delegation_requires_ready_route delegation_id route resource scope ms cleanup audit :
  ((exists p, build_delegated_execution_proposal delegation_id route resource scope ms cleanup audit = Ok p) <->
   rd_route_kind route = "delegated_core"%string /\ route_ok route = true /\ is_Some (rd_target_core route)) /\
  (forall p, build_delegated_execution_proposal delegation_id route resource scope ms cleanup audit = Ok p ->
   Some (dl_target_core p) = rd_target_core route /\ dl_source_core p = rd_source_core route /\
   dl_target_node p = rd_target_node route /\ dl_resource p = resource /\ dl_policy_scope p = scope).
Proof.
  unfold build_delegated_execution_proposal.
  destruct (String.eqb_spec (rd_route_kind route) "delegated_core") as [->|Hk]; cbn; [|naive_solver].
  destruct (route_ok route); cbn; [|naive_solver]. destruct (rd_target_core route); cbn; [|naive_solver].
  split; [naive_solver|]. by intros p [= <-].
Qed.

(** ** Witnesses *)

(** A concrete clock: the length of the text, in place of the instant it denotes. *)
Definition sample_instant (s : string) : result Z := Ok (Z.of_nat (String.length s)).

Definition sample_peer (core : string) : CorePeerDescriptor :=
  {| cp_core_id := core; cp_trust_scope := "lab"; cp_remote_units := ["unit-09"%string];
     cp_attachments := [dict_of [("node_id", VStr "unit-09"); ("network_transports", VList (vstrs ["wifi"%string]))]];
     cp_capabilities := []; cp_advertised_at := ""; cp_expires_at := "2026-05-09T12:30:00Z"; cp_reachable := true |}.

Definition sample_registry (cores : list string) : FederationTopologyRegistry :=
  foldr (fun c r => register_peer (sample_peer c) r) (new_registry "core-a" "local") cores.

Definition sample_route : RouteDecision :=
  match plan_route sample_instant (sample_registry ["core-c"; "core-b"]%string) "unit-09" "2026-05-09T12:00:00Z"
          (Some "lab"%string) (Some "wifi"%string) with
  | Ok d => d
  | Raise _ => decision (new_registry "" "") "" "" "" "" None [] "" []
  end.

Lemma ready_route_justified_witness :
  rd_target_core sample_route = Some "core-b"%string /\
  ((exists u, od_get (fun s => s) "unit-09"%string (ft_local_units (sample_registry ["core-c"; "core-b"]%string)) = Some u /\
     rd_target_core sample_route = None /\
     (forall s, str_truthy (Some "lab"%string) = Some s -> s = ft_local_trust_scope (sample_registry ["core-c"; "core-b"]%string)) /\
     (forall t, str_truthy (Some "wifi"%string) = Some t -> t ∈ uc_network_transports u) /\
     (uc_relay_path u = [] \/ uc_relay_capable u = true)) \/
  (od_get (fun s => s) "unit-09"%string (ft_local_units (sample_registry ["core-c"; "core-b"]%string)) = None /\
   exists p, eligible sample_instant (sample_registry ["core-c"; "core-b"]%string) "unit-09" "2026-05-09T12:00:00Z"
               (str_truthy (Some "lab"%string)) p /\
     rd_target_core sample_route = Some (cp_core_id p) /\ rd_trust_scope sample_route = cp_trust_scope p /\
     transport_supported "unit-09" (str_truthy (Some "wifi"%string)) p /\
     forall q, eligible sample_instant (sample_registry ["core-c"; "core-b"]%string) "unit-09" "2026-05-09T12:00:00Z"
                 (str_truthy (Some "lab"%string)) q ->
       String.leb (cp_core_id p) (cp_core_id q) = true)).
Proof.
  split; [vm_compute; reflexivity|].
  apply (ready_route_justified sample_instant _ "unit-09" "2026-05-09T12:00:00Z"); vm_compute; reflexivity.
Defined.

Lemma eligible_peer_is_used_witness :
  exists p, eligible sample_instant (sample_registry ["core-c"; "core-b"]%string) "unit-09" "2026-05-09T12:00:00Z"
              (str_truthy (Some "lab"%string)) p /\
    String.leb (cp_core_id p) "core-c" = true /\ rd_target_core sample_route = Some (cp_core_id p) /\
    (route_ok sample_route = true <-> transport_supported "unit-09" (str_truthy (Some "wifi"%string)) p) /\
    (route_ok sample_route = false -> rd_failure_reason sample_route = "transport_mismatch"%string).
Proof.
  apply (eligible_peer_is_used sample_instant _ "unit-09" "2026-05-09T12:00:00Z" (Some "lab"%string)
           (Some "wifi"%string) sample_route (sample_peer "core-c")); [vm_compute; reflexivity..|].
  constructor; try (vm_compute; reflexivity). vm_compute. first [left|right; left].
Defined.

Lemma route_order_irrelevant_witness :
  plan_route sample_instant (sample_registry ["core-b"; "core-c"]%string) "unit-09" "2026-05-09T12:00:00Z"
    (Some "lab"%string) (Some "wifi"%string) = Ok sample_route.
Proof.
  apply (route_order_irrelevant sample_instant (sample_registry ["core-c"; "core-b"]%string)).
  - repeat apply register_peer_wf. apply new_registry_wf.
  - repeat apply register_peer_wf. apply new_registry_wf.
  - reflexivity.
  - reflexivity.
  - reflexivity.
  - vm_compute. constructor.
  - vm_compute. reflexivity.
  - vm_compute. reflexivity.
Defined.
