(* ===== verification/StateSync.v ===== *)
(** * State sync, activation health and the deterministic adapter ([tools.py])

    The surfaces a state sync collects from a unit, the classification of a
    unit after an activation, and [FakeUnitToolAdapter.execute].  Random ids are
    drawn from an oracle [env], one index per draw; the state of the adapter is
    the index of its next draw. *)

From Stdlib Require Import ZArith Lia Bool List Ascii String.
From stdpp Require Import base list option strings.
From S2P Require Import Prelude PyFloat Text PyValue Events Contracts.

Open Scope Z_scope.

Definition STATE_SYNC_SCHEMA_VERSION : string := "1.2.0-state-sync-v1".
Definition ACTIVATION_HEALTH_SCHEMA_VERSION : string := "1.2.3-activation-health-v1".

Definition APP_CONTROL_TOOL_ACTIONS : list (string * string) :=
  [("system_start_app", "start"); ("system_stop_app", "stop"); ("system_unload_app", "unload")]%string.

Record StateSyncSurface := {
  sf_ok : bool;
  sf_status : string;
  sf_payload : dict;
  sf_attempt : Z;
  sf_max_attempts : Z;
  sf_retried : bool;
  sf_failure_status : string;
}.

Definition surface (ok : bool) (status : string) (payload : dict) : StateSyncSurface :=
  {| sf_ok := ok; sf_status := status; sf_payload := payload; sf_attempt := 1; sf_max_attempts := 1;
     sf_retried := false; sf_failure_status := "" |}.

Definition surface_from_dict (payload : dict) : result StateSyncSurface :=
  let! body := py_dict (por (dgetn "payload" payload) (VDict [])) in
  let! attempt := py_int (dget_or "attempt" (VInt 1) payload) in
  let! max_attempts := py_int (dget_or "max_attempts" (VInt 1) payload) in
  Ok {| sf_ok := py_truthy (dget_or "ok" (VBool false) payload);
        sf_status := str_or "status" "unknown" payload;
        sf_payload := body; sf_attempt := attempt; sf_max_attempts := max_attempts;
        sf_retried := py_truthy (dget_or "retried" (VBool false) payload);
        sf_failure_status := str_or "failure_status" "" payload |}.

Definition surface_to_dict (s : StateSyncSurface) : dict :=
  dict_of [("ok", VBool (sf_ok s)); ("status", VStr (sf_status s)); ("payload", VDict (sf_payload s));
           ("attempt", VInt (sf_attempt s)); ("max_attempts", VInt (sf_max_attempts s));
           ("retried", VBool (sf_retried s)); ("failure_status", VStr (sf_failure_status s))].

Record StateSyncSnapshot := {
  sn_status : string;
  sn_state : list (pykey * StateSyncSurface);
  sn_recommended_next_actions : list string;
  sn_schema_version : string;
}.

Definition snapshot_from_dict (payload : dict) : result StateSyncSnapshot :=
  let! state_payload := py_dict (por (dgetn "state" payload) (VDict [])) in
  let! state := rmap (fun item => let! d := py_dict item.2 in
                                  let! s := surface_from_dict d in Ok (item.1, s)) state_payload in
  let! actions := str_items (por (dgetn "recommended_next_actions" payload) (VTuple [])) in
  Ok {| sn_status := str_or "status" "unknown" payload; sn_state := state;
        sn_recommended_next_actions := actions;
        sn_schema_version := str_or "schema_version" STATE_SYNC_SCHEMA_VERSION payload |}.

Definition snapshot_to_dict (s : StateSyncSnapshot) : dict :=
  dict_of [("ok", VBool (String.eqb (sn_status s) "ok")); ("status", VStr (sn_status s));
           ("schema_version", VStr (sn_schema_version s));
           ("state", VDict (map (fun kv => (kv.1, VDict (surface_to_dict kv.2))) (sn_state s)));
           ("recommended_next_actions", VList (vstrs (sn_recommended_next_actions s)))].

Definition surface_get (k : string) (s : StateSyncSnapshot) : option StateSyncSurface :=
  od_get key_norm (KStr k) (sn_state s).

Record ToolExecutionResult := {
  tr_tool_result_id : string;
  tr_tool_name : string;
  tr_status : string;
  tr_payload : dict;
}.

Definition tool_result_to_dict (r : ToolExecutionResult) : dict :=
  dict_of [("tool_result_id", VStr (tr_tool_result_id r)); ("tool_name", VStr (tr_tool_name r));
           ("status", VStr (tr_status r)); ("payload", VDict (tr_payload r))].

Record ActivationHealthObservation := {
  ah_app_id : string;
  ah_classification : string;
  ah_reason : string;
  ah_ready_for_rollback_consideration : bool;
  ah_device_status : string;
  ah_network_state : string;
  ah_app_status : string;
  ah_app_present : bool;
  ah_observed_app_state : string;
  ah_recommended_next_actions : list string;
}.

Definition health_to_dict (o : ActivationHealthObservation) : dict :=
  dict_of [("schema_version", VStr ACTIVATION_HEALTH_SCHEMA_VERSION); ("app_id", VStr (ah_app_id o));
           ("classification", VStr (ah_classification o)); ("reason", VStr (ah_reason o));
           ("ready_for_rollback_consideration", VBool (ah_ready_for_rollback_consideration o));
           ("device_status", VStr (ah_device_status o)); ("network_state", VStr (ah_network_state o));
           ("app_status", VStr (ah_app_status o)); ("app_present", VBool (ah_app_present o));
           ("observed_app_state", VStr (ah_observed_app_state o));
           ("recommended_next_actions", VList (vstrs (ah_recommended_next_actions o)))].

(** ** Classification after an activation ([_classify_activation_health_result]) *)

(** [str(d.get(k1) or d.get(k2) or default)] *)
Definition str_or2 (k1 k2 default : string) (d : dict) : string :=
  py_str (por (por (dgetn k1 d) (dgetn k2 d)) (VStr default)).

(** The first row of the apps surface that is the application. *)
Definition is_app (app_id : string) (app : pyval) : bool :=
  match app with VDict d => String.eqb (str_or2 "app_id" "name" "" d) app_id | _ => false end.

Definition matched_app (app_id : string) (apps : list pyval) : option dict :=
  match List.find (is_app app_id) apps with Some (VDict d) => Some d | _ => None end.

Definition app_state (matched : option dict) : string :=
  match matched with Some d => str_or2 "state" "status" "unknown" d | None => "unknown" end.

Definition running_state (state : string) : bool :=
  str_in (py_lower state) ["running"; "active"; "started"]%string.

Arguments app_state : simpl never.
Arguments running_state : simpl never.

(** Classification, reason, readiness for a rollback review and next action. *)
Definition classify (device : StateSyncSurface) (network_state : string) (matched : option dict)
    : string * string * bool * string :=
  (if negb (sf_ok device) || negb (str_in (sf_status device) ["ok"; "ready"]) then
     ("no_reply", py_str (por (VStr (sf_status device)) (VStr "device_unreachable")), false,
      "rerun query device and verify Unit/router reachability before rollback")
   else if negb (String.eqb network_state "NETWORK_READY") then
     ("degraded", "network_not_ready_after_activate", false,
      "inspect network readiness and event stream before protected rollback")
   else match matched with
   | None => ("rollback_required", "target_app_missing_after_activate", true,
              "confirm activation evidence and prepare protected rollback review")
   | Some _ =>
       if running_state (app_state matched) then
         ("healthy", "target_app_running_after_activate", false,
          "activation health is good; continue observation and preserve evidence")
       else
         ("degraded", "target_app_not_running_after_activate", true,
          "inspect app lifecycle state and decide whether protected rollback is required")
   end)%string.

Definition no_reply_observation (app_id failure_status : string) : ActivationHealthObservation :=
  {| ah_app_id := app_id; ah_classification := "no_reply"; ah_reason := failure_status;
     ah_ready_for_rollback_consideration := false; ah_device_status := failure_status;
     ah_network_state := "unknown"; ah_app_status := "unknown"; ah_app_present := false;
     ah_observed_app_state := "unknown";
     ah_recommended_next_actions := ["rerun state sync and verify Unit/router reachability before recovery"%string] |}.

Definition surface_or (default : StateSyncSurface) (k : string) (s : StateSyncSnapshot) : StateSyncSurface :=
  match surface_get k s with Some x => x | None => default end.

Definition observe_snapshot (app_id : string) (snapshot : StateSyncSnapshot)
    : result ActivationHealthObservation :=
  let device := surface_or (surface false "unknown" (dict_of [("status", VStr "unknown")])) "device" snapshot in
  let apps := surface_or (surface false "unknown"
                (dict_of [("status", VStr "unknown"); ("apps", VList [])])) "apps" snapshot in
  let network_state := str_or "network_state" "unknown" (sf_payload device) in
  let! observed_apps := py_iter (por (dgetn "apps" (sf_payload apps)) (VList [])) in
  let matched := matched_app app_id observed_apps in
  let app_status := py_str (por (por (dgetn "status" (sf_payload apps)) (VStr (sf_status apps))) (VStr "unknown")) in
  let '(classification, reason, ready, action) := classify device network_state matched in
  Ok {| ah_app_id := app_id; ah_classification := classification; ah_reason := reason;
        ah_ready_for_rollback_consideration := ready;
        ah_device_status := py_str (por (por (VStr (sf_status device)) (dgetn "status" (sf_payload device)))
                                        (VStr "unknown"));
        ah_network_state := network_state; ah_app_status := app_status;
        ah_app_present := match matched with Some _ => true | None => false end;
        ah_observed_app_state := app_state matched;
        ah_recommended_next_actions := [action] |}.

Definition classify_activation_health_result (r : ToolExecutionResult) (app_id : string)
    : result ActivationHealthObservation :=
  if negb (String.eqb (tr_status r) "ok") then
    Ok (no_reply_observation app_id (str_or "failure_status" "state_sync_failed" (tr_payload r)))
  else
    let! state_sync := as_dict (por (dgetn "state_sync" (tr_payload r)) (VDict [])) in
    let! snapshot := snapshot_from_dict state_sync in
    observe_snapshot app_id snapshot.

(** ** The tool adapter

    What the workflow asks of an adapter: to execute a tool and answer with a
    result, reading and writing a state of its own. *)
Class ToolAdapter (S : Type) := adapter_execute : string -> dict -> eff S ToolExecutionResult.

(** [list(args.get("event_ids") or [])] and [str(args.get("app_id") or args.get("app") or "")] *)
Definition arg_event_ids (args : dict) : result (list pyval) :=
  py_iter (por (dgetn "event_ids" args) (VList [])).
Definition arg_app (default : string) (args : dict) : string := str_or2 "app_id" "app" default args.

Definition build_state_sync_snapshot (args : dict) : result StateSyncSnapshot :=
  let! event_ids := arg_event_ids args in
  let target_app_id := arg_app "" args in
  let apps := if String.eqb target_app_id "" then []
              else [VDict (dict_of [("app_id", VStr target_app_id); ("state", VStr "running");
                                    ("status", VStr "active")])] in
  let apps_payload := dict_of [("status", VStr "ok"); ("app_count", VInt (Z.of_nat (length apps)));
                               ("apps", VList apps); ("observed_event_ids", VList event_ids)] in
  Ok {| sn_status := "ok";
        sn_state :=
          [(KStr "device", surface true "ok"
             (dict_of [("status", VStr "ok"); ("network_state", VStr "NETWORK_READY");
                       ("ipv4", VStr "192.168.2.67")]));
           (KStr "apps", surface true "ok" apps_payload);
           (KStr "leases", surface true "ok" (dict_of [("status", VStr "ok"); ("leases", VList [])]))];
        sn_recommended_next_actions :=
          ["state sync is clean; read-only delegated reasoning may continue"%string];
        sn_schema_version := STATE_SYNC_SCHEMA_VERSION |}.

(** The answers that do not go through the query envelope. *)
Definition ok_payload (payload : dict) : dict :=
  dict_of [("ok", VBool true); ("status", VStr "ok"); ("payload", VDict payload)].

Definition control_payload (action app : string) : list (string * pyval) :=
  [("status", VStr "ok"); ("requested_action", VStr action); ("requested_app", VStr app)]%string.

Definition query_reply (tool_name : string) (event_ids : list pyval) : option dict :=
  (if String.eqb tool_name "system_query_device" then
     Some (dict_of [("status", VStr "ok"); ("network_state", VStr "NETWORK_READY");
                    ("ipv4", VStr "192.168.2.67")])
   else if String.eqb tool_name "system_query_apps" then
     Some (dict_of [("status", VStr "ok"); ("app_count", VInt 0); ("apps", VList []);
                    ("observed_event_ids", VList event_ids)])
   else if String.eqb tool_name "system_query_leases" then
     Some (dict_of [("status", VStr "ok"); ("leases", VList [])])
   else None)%string.

Definition command_reply (tool_name : string) (args : dict) : option dict :=
  (if String.eqb tool_name "system_capabilities" then
     Some (dict_of [("agent_runtime", VStr "1.2.0-agent-runtime-v1");
                    ("tool_manifest_command", VStr "system tool-manifest --output json");
                    ("state_sync_command", VStr "system state-sync --output json")])
   else if String.eqb tool_name "system_restart_app" then
     Some (dict_of (control_payload "restart_app" (str_or "app" "default-app" args)))
   else match od_get (fun s => s) tool_name APP_CONTROL_TOOL_ACTIONS with
   | Some action => Some (dict_of (control_payload action (arg_app "default-app" args)))
   | None =>
       if String.eqb tool_name "system_rollback_app" then
         Some (dict_of (control_payload "rollback_app" (arg_app "default-app" args) ++
                        [("reason", VStr (str_or "reason" "" args))]))
       else None
   end)%string.

Section FakeAdapter.
(** The environment of the [n]-th draw. *)
Variable env : nat -> Env.

Definition draw_id (prefix : string) : eff nat string := fun n => (Ok (new_id prefix (env n)), S n).

Definition fake_query_payload (tool_name : string) (args : dict) : eff nat dict :=
  do! event_ids := elift (arg_event_ids args) in
  match query_reply tool_name event_ids with
  | Some reply =>
      do! request_id := draw_id "req" in
      eret (dict_of [("ok", VBool true); ("status", VStr "ok");
                     ("payload", VDict (dict_of [("request_id", VStr request_id)]));
                     ("replies", VList [VDict (dict_of [("ok", VBool true); ("payload", VDict reply)])])])
  | None =>
      match command_reply tool_name args with
      | Some payload => eret (ok_payload payload)
      | None => eraise (ValueError ("unsupported fake tool: " +:+ tool_name))
      end
  end.

Definition finish (tool_name status : string) (payload : dict) : eff nat ToolExecutionResult :=
  do! id := draw_id "tool" in
  eret {| tr_tool_result_id := id; tr_tool_name := tool_name; tr_status := status; tr_payload := payload |}.

(** [execute] calls itself once, for the state sync an activation guard needs;
    two levels of fuel are enough ([fake_execute_total]). *)
Fixpoint execute (fuel : nat) (tool_name : string) (args : dict) : eff nat ToolExecutionResult :=
  match fuel with
  | O => eraise OutOfFuel
  | S f =>
      match describe_tool tool_name with
      | None =>
          finish tool_name "error" (dict_of [("failure_status", VStr "unknown_tool");
                                             ("failure_class", VStr "manifest_lookup_failed")])
      | Some contract =>
          do! event_ids := elift (arg_event_ids args) in
          let payload := dict_of [("contract", VDict (contract_to_dict contract));
                                  ("mode", VStr "fake_no_model");
                                  ("side_effect_level", VStr (level_value (side_effect_level contract)));
                                  ("event_ids", VList event_ids)] in
          do! payload :=
            (if String.eqb tool_name "system_state_sync" then
               do! snapshot := elift (build_state_sync_snapshot args) in
               eret (dset "state_sync" (VDict (snapshot_to_dict snapshot)) payload)
             else if String.eqb tool_name "system_activation_health_guard" then
               do! r := execute f "system_state_sync" args in
               do! health := elift (classify_activation_health_result r (arg_app "" args)) in
               let payload := dset "activation_health" (VDict (health_to_dict health)) payload in
               if String.eqb (tr_status r) "ok" then
                 do! sync := elift (py_dict (por (dgetn "state_sync" (tr_payload r)) (VDict []))) in
                 eret (dset "state_sync" (VDict sync) payload)
               else eret (dset "state_sync_error" (VDict (tr_payload r)) payload)
             else
               do! r := fake_query_payload tool_name args in
               eret (dset "result" (VDict r) payload)) in
          finish tool_name "ok" payload
      end
  end.

#[export] Instance fake_adapter : ToolAdapter nat := execute 2.
End FakeAdapter.

(** ** Facts *)

Lemma surface_round_trip s : sf_status s <> ""%string -> surface_from_dict (surface_to_dict s) = Ok s.
Proof.
  intros H. unfold surface_from_dict, surface_to_dict, str_or. dict_simpl.
  replace (py_dict (por (VDict (sf_payload s)) (VDict []))) with (Ok (sf_payload s)) by (by destruct (sf_payload s)).
  cbn [rbind py_int py_truthy]. rewrite py_str_por_empty, por_str_nonempty by done. by destruct s.
Qed.

Record snapshot_ok (s : StateSyncSnapshot) : Prop := {
  so_status : sn_status s <> ""%string;
  so_schema : sn_schema_version s <> ""%string;
  so_surfaces : Forall (fun kv => sf_status kv.2 <> ""%string) (sn_state s);
}.

Lemma snapshot_rebuild s : snapshot_ok s -> snapshot_from_dict (snapshot_to_dict s) = Ok s.
Proof.
  intros [H1 H2 H3]. unfold snapshot_from_dict, snapshot_to_dict, str_or. dict_simpl.
  rewrite str_items_por, !por_str_nonempty by done.
  replace (py_dict (por _ (VDict []))) with
    (Ok (map (fun kv => (kv.1, VDict (surface_to_dict kv.2))) (sn_state s))) by (by destruct (sn_state s)).
  cbn [rbind]. erewrite (proj2 (rmap_ok_Forall2 _ _ (sn_state s))); [by destruct s|].
  clear -H3. induction H3 as [|[k x] l Hx Hl IH]; cbn [map]; constructor; [|done].
  cbn [fst snd py_dict rbind] in *. by rewrite surface_round_trip.
Qed.

Lemma fake_snapshot_ok args s : build_state_sync_snapshot args = Ok s -> snapshot_ok s.
Proof. unfold build_state_sync_snapshot. intros H. inv_ok. split; [done|done|by repeat constructor]. Qed.

(** What a state sync result reports. *)
Record reported (r : ToolExecutionResult) (snap : StateSyncSnapshot) : Prop := {
  re_status : tr_status r = "ok"%string;
  re_snapshot : exists d, as_dict (por (dgetn "state_sync" (tr_payload r)) (VDict [])) = Ok d /\
                          snapshot_from_dict d = Ok snap;
}.

(** The device answered, and its network is ready. *)
Definition device_answers (snap : StateSyncSnapshot) : Prop :=
  exists dev, surface_get "device" snap = Some dev /\ sf_ok dev = true /\ sf_status dev ∈ ["ok"; "ready"]%string.
Definition device_ready (snap : StateSyncSnapshot) : Prop :=
  exists dev, surface_get "device" snap = Some dev /\ sf_ok dev = true /\ sf_status dev ∈ ["ok"; "ready"]%string /\
              str_or "network_state" "unknown" (sf_payload dev) = "NETWORK_READY"%string.

(** The first row of the application in the apps surface says it is running. *)
Definition app_rows (snap : StateSyncSnapshot) : result (list pyval) :=
  match surface_get "apps" snap with
  | Some apps => py_iter (por (dgetn "apps" (sf_payload apps)) (VList []))
  | None => Ok []
  end.
Definition app_running (snap : StateSyncSnapshot) (app_id : string) : Prop :=
  exists rows d, app_rows snap = Ok rows /\ matched_app app_id rows = Some d /\
                 running_state (app_state (Some d)) = true.

Lemma reported_unique r s1 s2 : reported r s1 -> reported r s2 -> s1 = s2.
Proof. intros [_ (d1 & H1 & H2)] [_ (d2 & H3 & H4)]. congruence. Qed.

Lemma device_answers_b snap dev0 :
  sf_ok dev0 = false ->
  let dev := surface_or dev0 "device" snap in
  device_answers snap <-> negb (sf_ok dev) || negb (str_in (sf_status dev) ["ok"; "ready"]%string) = false.
Proof.
  intros H0 dev. unfold dev, surface_or, device_answers. destruct (surface_get "device" snap) as [d|].
  - rewrite orb_false_iff, !negb_false_iff, str_in_true. naive_solver.
  - rewrite H0. cbn. split; [|done]. by intros (? & ? & _).
Qed.

Lemma device_ready_b snap dev0 :
  sf_ok dev0 = false ->
  device_ready snap <-> device_answers snap /\
    str_or "network_state" "unknown" (sf_payload (surface_or dev0 "device" snap)) = "NETWORK_READY"%string.
Proof.
  intros H0. unfold surface_or, device_answers, device_ready. destruct (surface_get "device" snap); naive_solver.
Qed.

(** The observation of a snapshot, in terms of the three tests. *)
Lemma observe_snapshot_cases app_id snap o :
  observe_snapshot app_id snap = Ok o ->
  (~ device_answers snap /\ ah_classification o = "no_reply"%string /\ ah_ready_for_rollback_consideration o = false) \/
  (device_answers snap /\ ~ device_ready snap /\ ah_classification o = "degraded"%string /\
     ah_ready_for_rollback_consideration o = false) \/
  (device_ready snap /\ ~ app_running snap app_id /\ ah_classification o <> "healthy"%string /\
     ah_classification o <> "no_reply"%string /\ ah_ready_for_rollback_consideration o = true) \/
  (device_ready snap /\ app_running snap app_id /\ ah_classification o = "healthy"%string /\
     ah_ready_for_rollback_consideration o = false).
Proof.
  unfold observe_snapshot. set (dev0 := surface false "unknown" (dict_of [("status", VStr "unknown")])).
  intros H. rewrite (device_ready_b snap dev0), (device_answers_b snap dev0) by done.
  destruct (py_iter _) as [rows|] eqn:Er; cbn [rbind] in H; [|done].
  assert (app_rows snap = Ok rows) as Ea.
  { unfold app_rows. unfold surface_or in Er. destruct (surface_get "apps" snap); [done|]. by apply Ok_inj in Er as <-. }
  unfold classify in H. destruct (negb (sf_ok _) || _) eqn:Ed.
  { apply Ok_inj in H as <-. left. by cbn. }
  destruct (String.eqb_spec (str_or "network_state" "unknown" (sf_payload (surface_or dev0 "device" snap)))
              "NETWORK_READY") as [Hn|Hn]; cbn [negb] in H; cycle 1.
  { apply Ok_inj in H as <-. right; left. cbn. tauto. }
  assert (app_running snap app_id <-> exists d, matched_app app_id rows = Some d /\ running_state (app_state (Some d)) = true)
    as -> by (unfold app_running; rewrite Ea; split; [intros (? & d & [= ->] & ?); by exists d|intros (d & ?); by exists rows, d]).
  destruct (matched_app app_id rows) as [d|]; cycle 1.
  { apply Ok_inj in H as <-. right; right; left. cbn. split_and!; try done. by intros (? & ? & _). }
  right; right. destruct (running_state (app_state (Some d))) eqn:Es; apply Ok_inj in H as <-; [right|left]; cbn.
  - split_and!; try done. by exists d.
  - split_and!; try done. intros (d2 & [= ->] & Hd). by rewrite Hd in Es.
Qed.

(** *** The deterministic adapter *)

Lemma describe_tool_Some name c : describe_tool name = Some c -> tool_name c = name /\ c ∈ tool_manifest.
Proof.
  unfold describe_tool. intros H. apply find_some in H as [Hin He%String.eqb_eq].
  by rewrite list_elem_of_In.
Qed.

Lemma describe_tool_None name : describe_tool name = None <-> name ∉ map tool_name tool_manifest.
Proof.
  unfold describe_tool. split.
  - intros H Hin. rewrite list_elem_of_In, in_map_iff in Hin. destruct Hin as (c & <- & Hc).
    pose proof (find_none _ _ H _ Hc) as E. cbn in E. by rewrite String.eqb_refl in E.
  - intros H. destruct (List.find _ _) as [c|] eqn:E; [|done]. exfalso. apply H.
    apply (describe_tool_Some name c) in E as [<- Hin]. rewrite list_elem_of_In. apply in_map. by rewrite <- list_elem_of_In.
Qed.

(** The tools answered by [_fake_query_payload]. *)
Definition fake_tools : list string :=
  ["system_query_device"; "system_query_apps"; "system_query_leases"; "system_capabilities";
   "system_restart_app"; "system_start_app"; "system_stop_app"; "system_unload_app"; "system_rollback_app"]%string.

Lemma fake_query_total env name args ids n :
  name ∈ fake_tools -> arg_event_ids args = Ok ids ->
  exists payload n', fake_query_payload env name args n = (Ok payload, n') /\ (n <= n')%nat.
Proof.
  intros Hn He. unfold fake_query_payload, elift, ebind. rewrite He.
  unfold fake_tools in Hn. rewrite !elem_of_cons, elem_of_nil in Hn.
  destruct Hn as [->|[->|[->|[->|[->|[->|[->|[->|[->|[]]]]]]]]]]; cbn; eauto with lia.
Qed.

Lemma manifest_names name :
  name ∈ map tool_name tool_manifest ->
  name = "system_state_sync"%string \/ name = "system_activation_health_guard"%string \/
  (name <> "system_state_sync" /\ name <> "system_activation_health_guard")%string /\ name ∈ fake_tools.
Proof.
  intros H. destruct (decide (name = "system_state_sync"%string)); [by left|].
  destruct (decide (name = "system_activation_health_guard"%string)); [by right; left|].
  right; right. split; [done|]. unfold fake_tools.
  cbn [map tool_manifest observation_tools guard_tools app_control_tools app tool_name] in H.
  rewrite !elem_of_cons, elem_of_nil in *. tauto.
Qed.

Definition running_row (app : string) : dict :=
  dict_of [("app_id", VStr app); ("state", VStr "running"); ("status", VStr "active")].

Lemma matched_running_row app : app <> ""%string -> matched_app app [VDict (running_row app)] = Some (running_row app).
Proof.
  intros H. unfold matched_app. cbn [List.find is_app]. unfold str_or2, running_row. dict_simpl.
  rewrite !(por_str_nonempty app) by done. by rewrite py_str_VStr, String.eqb_refl.
Qed.

Lemma fake_snapshot_health args s :
  build_state_sync_snapshot args = Ok s ->
  exists o, observe_snapshot (arg_app "" args) s = Ok o /\
    ah_classification o = (if String.eqb (arg_app "" args) "" then "rollback_required" else "healthy")%string.
Proof.
  unfold build_state_sync_snapshot. intros H. inv_ok. generalize (arg_app "" args) as app. intros app.
  destruct (String.eqb_spec app "") as [->|Ee]; [by eexists|].
  fold (running_row app). unfold observe_snapshot, surface_or.
  repeat match goal with |- context [surface_get ?k ?x] =>
    let v := eval cbv -[running_row] in (surface_get k x) in change (surface_get k x) with v end.
  cbn [sf_payload sf_status sf_ok]. unfold str_or. dict_simpl. unfold por. cbn [py_truthy negb orb py_iter rbind].
  rewrite matched_running_row by done. by eexists.
Qed.

Lemma fake_sync_result env f args ids n :
  arg_event_ids args = Ok ids ->
  exists r s, execute env (S f) "system_state_sync" args n = (Ok r, S n) /\ tr_status r = "ok"%string /\
    tr_tool_result_id r = new_id "tool" (env n) /\ tr_tool_name r = "system_state_sync"%string /\
    build_state_sync_snapshot args = Ok s /\ dget "state_sync" (tr_payload r) = Some (VDict (snapshot_to_dict s)).
Proof.
  intros He. cbn [execute]. destruct (describe_tool "system_state_sync") as [c|] eqn:Ed; [|by vm_compute in Ed].
  unfold elift at 1, ebind at 1. rewrite He. rewrite String.eqb_refl.
  destruct (build_state_sync_snapshot args) as [s|] eqn:Es; cycle 1.
  { unfold build_state_sync_snapshot in Es. rewrite He in Es. done. }
  unfold ebind, elift, eret, finish, draw_id. cbn -[dset dget dict_of]. eexists _, s. split_and!; try done.
Qed.

Lemma fake_guard_result env f args ids n :
  arg_event_ids args = Ok ids ->
  exists r n' o, execute env (S (S f)) "system_activation_health_guard" args n = (Ok r, n') /\ (n < n')%nat /\
    tr_status r = "ok"%string /\ tr_tool_name r = "system_activation_health_guard"%string /\
    dget "activation_health" (tr_payload r) = Some (VDict (health_to_dict o)) /\
    ah_classification o = (if String.eqb (arg_app "" args) "" then "rollback_required" else "healthy")%string.
Proof.
  intros He. destruct (fake_sync_result env f args ids n He) as (r & s & Hr & H1 & _ & _ & Hs & H4).
  destruct (fake_snapshot_health _ _ Hs) as (o & Ho & Hc).
  remember (S f) as f1 eqn:Ef. cbn [execute].
  destruct (describe_tool "system_activation_health_guard") as [c|] eqn:Ed; [|by vm_compute in Ed].
  unfold elift at 1, ebind at 1. rewrite He. cbn [String.eqb Ascii.eqb Bool.eqb].
  assert (classify_activation_health_result r (arg_app "" args) = Ok o) as Hk.
  { unfold classify_activation_health_result. rewrite H1. cbn [String.eqb Ascii.eqb Bool.eqb negb]. dict_simpl.
    rewrite H4. replace (as_dict _) with (Ok (snapshot_to_dict s)) by done. cbn [rbind].
    by rewrite (snapshot_rebuild s (fake_snapshot_ok _ _ Hs)). }
  unfold ebind, elift, eret, finish, draw_id. rewrite Hr, Hk, H1.
  cbn -[dset dget dict_of health_to_dict snapshot_to_dict]. rewrite dgetn_eq, H4.
  cbn -[dset dget dict_of health_to_dict snapshot_to_dict].
  eexists _, _, o. split_and!; try done; lia.
Qed.

(** ** Properties *)

(** An activation is judged on evidence.  A rollback review is offered
    exactly when the state sync succeeded, the device answered with its network
    ready, and the application's row is missing or not running; the activation
    is healthy exactly when it is running there; and "no_reply" means exactly
    that the sync failed or the device did not answer. *)
Theorem activation_health_spec r app_id o :
  classify_activation_health_result r app_id = Ok o ->
  (ah_ready_for_rollback_consideration o = true <->
     exists snap, reported r snap /\ device_ready snap /\ ~ app_running snap app_id) /\
  (ah_classification o = "healthy"%string <->
     exists snap, reported r snap /\ device_ready snap /\ app_running snap app_id) /\
  (ah_classification o = "no_reply"%string <->
     tr_status r <> "ok"%string \/ exists snap, reported r snap /\ ~ device_answers snap).
Proof.
  unfold classify_activation_health_result. destruct (String.eqb_spec (tr_status r) "ok") as [Hs|Hs]; cbn [negb].
  - intros H. destruct (as_dict _) as [d|] eqn:Ed; cbn [rbind] in H; [|done].
    destruct (snapshot_from_dict d) as [snap|] eqn:Es; cbn [rbind] in H; [|done].
    assert (reported r snap) as Hr by (split; eauto).
    assert (forall P : StateSyncSnapshot -> Prop, (exists s, reported r s /\ P s) <-> P snap) as Hu.
    { intros P. split; [|eauto]. intros (s & Hr' & Hp). by rewrite (reported_unique _ _ _ Hr Hr'). }
    rewrite !Hu. assert (device_ready snap -> device_answers snap) as Hd.
    { unfold device_ready, device_answers. naive_solver. }
    apply observe_snapshot_cases in H
      as [(? & -> & ->)|[(? & ? & -> & ->)|[(? & ? & ? & ? & ->)|(? & ? & -> & ->)]]];
      intuition (first [discriminate|contradiction|auto]).
  - intros H. apply Ok_inj in H as <-. cbn.
    assert (forall P : StateSyncSnapshot -> Prop, (exists s, reported r s /\ P s) <-> False) as Hu.
    { intros P. split; [|done]. by intros (s & [? _] & _). }
    rewrite !Hu. intuition (first [discriminate|contradiction|auto]).
Qed.

(** A snapshot survives its dictionary form; and what the deterministic
    adapter answers to a state sync is read back as exactly the snapshot it
    built: status, surfaces in order, schema version and actions. *)
Theorem snapshot_round_trip :
  (forall s, snapshot_ok s -> snapshot_from_dict (snapshot_to_dict s) = Ok s) /\
  (forall env args ids n, arg_event_ids args = Ok ids ->
     exists r s, fake_adapter env "system_state_sync" args n = (Ok r, S n) /\
       build_state_sync_snapshot args = Ok s /\ reported r s).
Proof.
  split; [apply snapshot_rebuild|]. intros env args ids n He.
  destruct (fake_sync_result env 1 args ids n He) as (r & s & Hr & H1 & _ & _ & Hs & H4).
  exists r, s. split_and!; try done. split; [done|]. exists (snapshot_to_dict s).
  split; [by rewrite dgetn_eq, H4|]. apply snapshot_rebuild, (fake_snapshot_ok _ _ Hs).
Qed.

(** The deterministic adapter answers every call whose event ids are a
    sequence, within two levels of recursion: with an "ok" result exactly for the
    tools of the manifest, under the name asked for and with a new id; and its
    activation guard reports a named application as healthy and, when none is
    named, that a rollback review is needed. *)
Theorem fake_execute_total env name args ids n :
  arg_event_ids args = Ok ids ->
  exists r n', fake_adapter env name args n = (Ok r, n') /\ (n < n')%nat /\ tr_tool_name r = name /\
    (tr_status r = "ok"%string <-> name ∈ map tool_name tool_manifest) /\
    (name = "system_activation_health_guard"%string ->
       exists o, dget "activation_health" (tr_payload r) = Some (VDict (health_to_dict o)) /\
         ah_classification o = (if String.eqb (arg_app "" args) "" then "rollback_required" else "healthy")%string).
Proof.
  intros He. unfold fake_adapter. destruct (describe_tool name) as [c|] eqn:Ed; cycle 1.
  { exists {| tr_tool_result_id := new_id "tool" (env n); tr_tool_name := name; tr_status := "error";
              tr_payload := dict_of [("failure_status", VStr "unknown_tool");
                                     ("failure_class", VStr "manifest_lookup_failed")] |}, (S n).
    cbn [execute]. rewrite Ed. split_and!; try done; [lia|..].
    - split; [done|]. by apply describe_tool_None in Ed.
    - intros ->. by vm_compute in Ed. }
  assert (name ∈ map tool_name tool_manifest) as Hm.
  { destruct (decide (name ∈ map tool_name tool_manifest)) as [|Hn]; [done|].
    apply describe_tool_None in Hn. congruence. }
  destruct (manifest_names name Hm) as [->|[->|[[H1 H2] Hf]]].
  - destruct (fake_sync_result env 1 args ids n He) as (r & s & Hr & Hs & _ & Hn & _).
    exists r, (S n). split_and!; try done. lia.
  - destruct (fake_guard_result env 0 args ids n He) as (r & n' & o & Hr & Hl & Hs & Hn & Hd & Hc).
    exists r, n'. split_and!; try done. intros _. by exists o.
  - destruct (fake_query_total env name args ids n Hf He) as (payload & n' & Hq & Hl).
    apply String.eqb_neq in H1 as H1', H2 as H2'.
    cbn [execute]. rewrite Ed. unfold ebind, elift, eret, finish, draw_id. rewrite He, H1', H2', Hq.
    eexists _, (S n'). split_and!; try done. lia.
Qed.

(** ** Witnesses *)

(** A unit whose application was found stopped after an activation. *)
Definition stopped_snapshot : StateSyncSnapshot :=
  {| sn_status := "ok";
     sn_state := [(KStr "device", surface true "ready" (dict_of [("network_state", VStr "NETWORK_READY")]));
                  (KStr "apps", surface true "ok" (dict_of [("apps", VList
                     [VNone; VDict (dict_of [("app_id", VStr "demo"); ("state", VStr "Stopped")])])]))];
     sn_recommended_next_actions := []; sn_schema_version := STATE_SYNC_SCHEMA_VERSION |}.

Definition stopped_result : ToolExecutionResult :=
  {| tr_tool_result_id := "tool-1"; tr_tool_name := "system_state_sync"; tr_status := "ok";
     tr_payload := dict_of [("state_sync", VDict (snapshot_to_dict stopped_snapshot))] |}.

Lemma activation_health_spec_witness :
  exists o, classify_activation_health_result stopped_result "demo" = Ok o /\
    ah_ready_for_rollback_consideration o = true /\
    exists snap, reported stopped_result snap /\ device_ready snap /\ ~ app_running snap "demo".
Proof.
  destruct (classify_activation_health_result stopped_result "demo") as [o|] eqn:E; [|by vm_compute in E].
  exists o. split; [done|].
  assert (ah_ready_for_rollback_consideration o = true) as Hr by (vm_compute in E; by injection E as <-).
  split; [done|]. by apply (activation_health_spec stopped_result "demo" o E).
Defined.

Definition sample_env (n : nat) : Env := {| env_hex := string_of_Z (Z.of_nat n); env_now := "2026-05-10T12:00:00Z" |}.

Lemma fake_execute_total_witness :
  exists r n', fake_adapter sample_env "system_query_leases" [] 0%nat = (Ok r, n') /\ tr_status r = "ok"%string.
Proof.
  destruct (fake_execute_total sample_env "system_query_leases" [] [] 0 eq_refl) as (r & n' & Hr & _ & _ & Hs & _).
  exists r, n'. split; [done|]. apply Hs. vm_compute. repeat first [left; reflexivity|right].
Defined.
