(* ===== verification/CliAdapter.v ===== *)
(** * The command-line tool adapter ([tools.py], [NeuroCliToolAdapter])

    The adapter that runs tools by calling the unit's command line in a process
    and reading JSON from its output.  The process runner is a parameter: any
    function from a command line and a timeout to a result or an exception,
    with a state of its own.  Random ids come from the oracle [env]. *)

From Stdlib Require Import ZArith Lia Bool List Ascii String.
From stdpp Require Import base list option strings.
From S2P Require Import Prelude PyFloat Text PyValue JsonParse Events LiveEvents Contracts StateSync.

Open Scope Z_scope.

Record CommandExecutionResult := { exit_code : Z; stdout : string; stderr : string }.

(** [runner(argv, timeout_seconds)] *)
Class Runner (S : Type) := runner : list string -> Z -> eff S CommandExecutionResult.

Record CliConfig := {
  cli_node : string;
  cli_source_core : string;
  cli_source_agent : string;
  cli_timeout_seconds : Z;
  cli_python_executable : string;
  cli_wrapper_path : string;
}.

(** ** Output of a command *)

(** [str.splitlines()] on code points: the line breaks, "\r\n" being one. *)
Definition line_break (c : Z) : bool :=
  ((10 <=? c) && (c <=? 13)) || ((28 <=? c) && (c <=? 30)) || (c =? 133) || (c =? 8232) || (c =? 8233).

Fixpoint split_lines (line : list Z) (l : list Z) : list (list Z) :=
  match l with
  | [] => match line with [] => [] | _ => [rev line] end
  | 13 :: 10 :: r => rev line :: split_lines [] r
  | c :: r => if line_break c then rev line :: split_lines [] r else split_lines (c :: line) r
  end.

Definition splitlines (s : string) : list string := map of_code_points (split_lines [] (code_points s)).

Definition command_exit (r : CommandExecutionResult) : string := "command_exit_" +:+ string_of_Z (exit_code r).

Definition parse_json_stdout (command_result : CommandExecutionResult) : result dict :=
  match json_loads (stdout command_result) with
  | Raise JSONDecodeError =>
      Raise (ValueError (if exit_code command_result =? 0 then "parse_failed" else command_exit command_result))
  | Raise e => Raise e
  | Ok (VDict payload) => Ok payload
  | Ok _ => Raise (ValueError "parse_failed")
  end.

Definition parse_jsonl_stdout (command_result : CommandExecutionResult) : result (list dict) :=
  let lines := List.filter (fun line => negb (String.eqb (py_strip line) "")) (splitlines (stdout command_result)) in
  let! rows := rmap (fun line => let! payload := json_loads line in
                                 match payload with VDict d => Ok d | _ => Raise (ValueError "parse_failed") end) lines in
  if exit_code command_result =? 0 then Ok rows else Raise (ValueError (command_exit command_result)).

(** [payload.get("ok", False)] *)
Definition payload_ok (payload : dict) : bool := py_truthy (dget_or "ok" (VBool false) payload).

(** The rows under [field] of the first reply whose payload lists it. *)
Fixpoint reply_rows (field : string) (replies : list pyval) : list dict :=
  match replies with
  | [] => []
  | reply :: rest =>
      match reply with
      | VDict reply_dict =>
          match dgetn "payload" reply_dict with
          | VDict reply_payload =>
              match dgetn (KStr field) reply_payload with
              | VList items => omap (fun v => match v with VDict d => Some d | _ => None end) items
              | _ => reply_rows field rest
              end
          | _ => reply_rows field rest
          end
      | _ => reply_rows field rest
      end
  end.

Definition extract_rows (field : string) (result_payload : dict) : list dict :=
  match dgetn "replies" result_payload with VList replies => reply_rows field replies | _ => [] end.
Definition extract_apps_payload : dict -> list dict := extract_rows "apps".
Definition extract_lease_rows : dict -> list dict := extract_rows "leases".

(** [str(d.get("status") or "")] when it is set and not "ok". *)
Definition bad_status (v : pyval) : string :=
  match v with
  | VDict d => let status := str_or "status" "" d in if String.eqb status "ok" then "" else status
  | _ => ""
  end.

Fixpoint replies_failure (replies : list pyval) : string :=
  match replies with
  | [] => ""
  | reply :: rest =>
      let status := match reply with VDict d => bad_status (dgetn "payload" d) | _ => ""%string end in
      if String.eqb status "" then replies_failure rest else status
  end.

Definition extract_nested_failure_status (payload : dict) : string :=
  let nested := bad_status (dgetn "payload" payload) in
  if String.eqb nested "" then match dgetn "replies" payload with VList replies => replies_failure replies | _ => "" end
  else nested.

(** ** Command lines *)

Definition base_command (c : CliConfig) (output : string) : list string :=
  [cli_python_executable c; cli_wrapper_path c; "--output"%string; output; "--node"%string; cli_node c;
   "--source-core"%string; cli_source_core c; "--source-agent"%string; cli_source_agent c; "--timeout"%string;
   string_of_Z (cli_timeout_seconds c)].

(** The template without the interpreter and script, and without [--output] and its value. *)
Fixpoint drop_output (argv : list string) : list string :=
  match argv with
  | [] => []
  | token :: rest =>
      if String.eqb token "--output" then match rest with [] => [] | _ :: rest' => drop_output rest' end
      else token :: drop_output rest
  end.

Definition contract_command_suffix (contract : ToolContract) : list string :=
  drop_output match argv_template contract with _ :: _ :: argv => argv | argv => argv end.

(** [argument_name.lstrip("-").replace("-", "_")] *)
Definition argument_key (argument_name : string) : string :=
  replace_char "-"%char "_" (string_of_bytes (lstrip_byte 45 (bytes_of_string argument_name))).

Definition candidate_keys (argument_name : string) : list string :=
  argument_key argument_name ::
  (if String.eqb argument_name "--app-id" then ["app"; "app_id"] else [])%string ++
  (if String.eqb argument_name "--lease-id" then ["lease_id"] else [])%string ++
  (if String.eqb argument_name "--start-args" then ["start_args"] else [])%string.

(** The first of the keys that is set. *)
Fixpoint argument_value (keys : list string) (args : dict) : option pyval :=
  match keys with
  | [] => None
  | k :: rest => if present (dgetn (KStr k) args) then Some (dgetn (KStr k) args) else argument_value rest args
  end.

Definition argument_tokens (args : dict) (argument_name : string) : list string :=
  if String.eqb argument_name "--node" then []
  else match argument_value (candidate_keys argument_name) args with
       | Some value => [argument_name; py_str value]
       | None => []
       end.

Definition build_contract_command_with_args (c : CliConfig) (contract : ToolContract) (args : dict) : list string :=
  let argv := base_command c "json" ++ contract_command_suffix contract ++
              flat_map (argument_tokens args) (required_arguments contract) in
  let optional_start_args := dgetn "start_args" args in
  argv ++ if present optional_start_args && negb (str_in "--start-args" argv)
          then ["--start-args"%string; py_str optional_start_args] else [].

Section CliAdapter.
Variable config : CliConfig.
Variable env : nat -> Env.
Context {S : Type} `{Run : Runner S}.

(** The runner's state, the cached manifest and the number of ids drawn. *)
Record CliState := {
  cli_runner : S;
  cli_manifest : option (list ToolContract);
  cli_drawn : nat;
}.

Definition run_command (argv : list string) (timeout : Z) : eff CliState CommandExecutionResult :=
  fun s => let '(r, s') := runner argv timeout (cli_runner s) in
           (r, {| cli_runner := s'; cli_manifest := cli_manifest s; cli_drawn := cli_drawn s |}).

Definition cache_manifest (l : list ToolContract) : eff CliState unit :=
  emodify (fun s => {| cli_runner := cli_runner s; cli_manifest := Some l; cli_drawn := cli_drawn s |}).

Definition draw_tool_id : eff CliState string :=
  fun s => (Ok (new_id "tool" (env (cli_drawn s))),
            {| cli_runner := cli_runner s; cli_manifest := cli_manifest s; cli_drawn := Datatypes.S (cli_drawn s) |}).

Definition answer (tool_name status : string) (payload : list (string * pyval)) : eff CliState ToolExecutionResult :=
  do! id := draw_tool_id in
  eret {| tr_tool_result_id := id; tr_tool_name := tool_name; tr_status := status; tr_payload := dict_of payload |}.

(** An error, with the payload's fields after its status and class. *)
Definition failed (tool_name failure_status failure_class : string) (payload : list (string * pyval))
    : eff CliState ToolExecutionResult :=
  answer tool_name "error"
    (("failure_status"%string, VStr failure_status) :: ("failure_class"%string, VStr failure_class) :: payload).

(** ** The manifest *)

Definition read_manifest (payload : dict) : result (list ToolContract) :=
  let! items := py_iter (por (dgetn "tools" payload) (VTuple [])) in
  rmap (fun item => let! d := py_dict item in contract_from_dict d) items.

Definition cli_tool_manifest : eff CliState (list ToolContract) :=
  do! s := eget in
  match cli_manifest s with
  | Some l => eret l
  | None =>
      do! command_result := run_command (base_command config "json" ++ ["system"; "tool-manifest"]%string)
                                        (cli_timeout_seconds config) in
      do! payload := elift (parse_json_stdout command_result) in
      if negb (payload_ok payload) then eraise (ValueError (str_or "status" "tool_manifest_failed" payload))
      else
        do! l := elift (read_manifest payload) in
        do! _ := cache_manifest l in
        eret l
  end.

Definition cli_describe_tool (name : string) : eff CliState (option ToolContract) :=
  do! manifest := cli_tool_manifest in
  eret (List.find (fun contract => String.eqb (tool_name contract) name) manifest).

Definition cli_manifest_payload : eff CliState dict :=
  do! manifest := cli_tool_manifest in
  eret (dict_of [("ok", VBool true); ("status", VStr "ok"); ("schema_version", VStr TOOL_MANIFEST_SCHEMA_VERSION);
                 ("tools", VList (map (fun contract => VDict (contract_to_dict contract)) manifest))]%string).

(** ** Commands of a contract *)

(** The result, and the payload or the text of the [ValueError] it raised. *)
Definition execute_raw_contract_command (contract : ToolContract) (args : dict)
    : eff CliState (CommandExecutionResult * (dict + string)) :=
  do! command_result := run_command (build_contract_command_with_args config contract args) (timeout_seconds contract) in
  match parse_json_stdout command_result with
  | Ok payload => eret (command_result, inl payload)
  | Raise (ValueError message) => eret (command_result, inr message)
  | Raise e => eraise e
  end.

(** The rows a query tool reports; none when the tool or its answer is missing. *)
Definition observed (tool : string) (extract : dict -> list dict) : eff CliState (list dict) :=
  do! contract := cli_describe_tool tool in
  match contract with
  | None => eret []
  | Some contract =>
      do! answered := execute_raw_contract_command contract [] in
      eret match answered.2 with inl payload => extract payload | inr _ => [] end
  end.

Definition observed_app_id (apps : list dict) : string :=
  match apps with
  | [app] => py_str (por_list [dgetn "app_id" app; dgetn "name" app; dgetn "app" app] (VStr ""))
  | _ => ""
  end.

Fixpoint lease_on (target_resource : string) (leases : list dict) : string :=
  match leases with
  | [] => ""
  | lease :: rest =>
      let lease_id := str_or "lease_id" "" lease in
      if String.eqb (str_or "resource" "" lease) target_resource && negb (String.eqb lease_id "") then lease_id
      else lease_on target_resource rest
  end.

(** What is left to resolve: the application, the lease, or nothing. *)
Inductive resolution :=
  | Resolved (args : dict)
  | AppUnresolved
  | LeaseUnresolved.

(** The application and the lease of a call: as given, or as the unit reports them. *)
Definition resolve_args (resource_of : string -> string) (args : dict) : eff CliState resolution :=
  let given_app := arg_app "" args in
  do! app_id := (if String.eqb given_app "" then
                   do! apps := observed "system_query_apps" extract_apps_payload in eret (observed_app_id apps)
                 else eret given_app) in
  if String.eqb app_id "" then eret AppUnresolved
  else
    let given_lease := str_or "lease_id" "" args in
    do! lease_id := (if String.eqb given_lease "" then
                       do! leases := observed "system_query_leases" extract_lease_rows in
                       eret (lease_on (resource_of app_id) leases)
                     else eret given_lease) in
    if String.eqb lease_id "" then eret LeaseUnresolved
    else eret (Resolved (dsetdefault "lease_id" (VStr lease_id)
                 (dsetdefault "app" (VStr app_id) (dsetdefault "app_id" (VStr app_id) args)))).

Definition control_resource (app_id : string) : string := "app/" +:+ app_id +:+ "/control".
Definition rollback_resource (app_id : string) : string := "update/app/" +:+ app_id +:+ "/rollback".

Definition resolve_control_app_args (args : dict) : eff CliState (option dict) :=
  do! r := resolve_args control_resource args in
  eret match r with Resolved resolved => Some resolved | _ => None end.

Definition resolve_rollback_args (args : dict) : eff CliState (dict + string) :=
  do! r := resolve_args rollback_resource args in
  eret match r with
       | Resolved resolved => inl resolved
       | AppUnresolved => inr "rollback_args_unresolved"%string
       | LeaseUnresolved => inr "lease_not_found"%string
       end.

(** ** Tools that control applications *)

(** The failure of an answer, if it is one: its nested status, or its own. *)
Definition answer_failure (payload : dict) : option string :=
  let nested := extract_nested_failure_status payload in
  if negb (payload_ok payload) || negb (String.eqb nested "") then
    Some (sor nested (str_or "status" "unknown" payload))
  else None.

(** Run one command with resolved arguments and judge its answer. *)
Definition run_control (contract : ToolContract) (resolved_args : dict) (cli_failed control_failed : string)
    : eff CliState ToolExecutionResult :=
  let contract_field := ("contract"%string, VDict (contract_to_dict contract)) in
  let args_field := ("resolved_args"%string, VDict resolved_args) in
  do! (command_result, answered) := execute_raw_contract_command contract resolved_args in
  match answered with
  | inr command_error =>
      failed (tool_name contract) command_error cli_failed
        [contract_field; args_field; ("stderr"%string, VStr (stderr command_result))]
  | inl payload =>
      match answer_failure payload with
      | Some failure => failed (tool_name contract) failure control_failed
                          [contract_field; args_field; ("result"%string, VDict payload)]
      | None => answer (tool_name contract) "ok" [contract_field; args_field; ("result"%string, VDict payload)]
      end
  end.

Definition unresolved (contract : ToolContract) (name failure_status failure_class : string) (args : dict)
    : eff CliState ToolExecutionResult :=
  failed name failure_status failure_class
    [("contract", VDict (contract_to_dict contract)); ("requested_args", VDict args)]%string.

Definition execute_single_app_control (contract : ToolContract) (args : dict) : eff CliState ToolExecutionResult :=
  do! resolved := resolve_control_app_args args in
  match resolved with
  | None => unresolved contract (tool_name contract) "control_args_unresolved" "dynamic_argument_resolution_failed" args
  | Some resolved_args => run_control contract resolved_args "control_cli_failed" "control_failed"
  end.

Definition execute_rollback_app (contract : ToolContract) (args : dict) : eff CliState ToolExecutionResult :=
  do! resolved := resolve_rollback_args args in
  match resolved with
  | inr failure =>
      unresolved contract (tool_name contract) failure
        (if String.eqb failure "lease_not_found" then "rollback_lease_resolution_failed"
         else "dynamic_argument_resolution_failed") args
  | inl resolved_args => run_control contract resolved_args "rollback_cli_failed" "rollback_failed"
  end.

(** The command of one half of a restart. *)
Definition restart_half (contract : ToolContract) (action half : string) : ToolContract :=
  {| tool_name := "system_restart_app." +:+ action;
     description := action +:+ " app as " +:+ half +:+ " half of restart";
     side_effect_level := side_effect_level contract;
     argv_template := ["python"; "neuro_cli/scripts/invoke_neuro_cli.py"; "app"; action; "--output"; "json"]%string;
     resource := ""; required_arguments := ["--node"; "--app-id"; "--lease-id"]%string; required_resources := [];
     timeout_seconds := timeout_seconds contract; retryable := false; approval_required := false;
     cleanup_hint := VNone; output_contract := [] |}.

Definition stop_contract (contract : ToolContract) : ToolContract := restart_half contract "stop" "first".
Definition start_contract (contract : ToolContract) : ToolContract := restart_half contract "start" "second".

Definition execute_restart_app (contract : ToolContract) (args : dict) : eff CliState ToolExecutionResult :=
  let name := "system_restart_app"%string in
  let contract_field := ("contract"%string, VDict (contract_to_dict contract)) in
  do! resolved := resolve_control_app_args args in
  match resolved with
  | None => unresolved contract name "restart_args_unresolved" "dynamic_argument_resolution_failed" args
  | Some resolved_args =>
      let args_field := ("resolved_args"%string, VDict resolved_args) in
      do! (stop_result, stopped) := execute_raw_contract_command (stop_contract contract) resolved_args in
      match stopped with
      | inr stop_error =>
          failed name stop_error "restart_stop_cli_failed"
            [contract_field; args_field; ("stderr"%string, VStr (stderr stop_result))]
      | inl stop_payload =>
          let stop_field := ("stop_result"%string, VDict stop_payload) in
          match answer_failure stop_payload with
          | Some failure => failed name failure "restart_stop_failed" [contract_field; args_field; stop_field]
          | None =>
              do! (start_result, started) := execute_raw_contract_command (start_contract contract) resolved_args in
              match started with
              | inr start_error =>
                  failed name start_error "restart_start_cli_failed"
                    [contract_field; args_field; stop_field; ("stderr"%string, VStr (stderr start_result))]
              | inl start_payload =>
                  let start_field := ("start_result"%string, VDict start_payload) in
                  match answer_failure start_payload with
                  | Some failure => failed name failure "restart_start_failed"
                                      [contract_field; args_field; stop_field; start_field]
                  | None => answer name "ok" [contract_field; args_field; stop_field; start_field]
                  end
              end
          end
      end
  end.

(** ** [execute] *)

(** The tools that only read: run the command of the contract and judge its answer. *)
Definition execute_query (contract : ToolContract) (name : string) : eff CliState ToolExecutionResult :=
  do! command_result := run_command (base_command config "json" ++ contract_command_suffix contract)
                                    (timeout_seconds contract) in
  match parse_json_stdout command_result with
  | Raise (ValueError message) =>
      failed name message "cli_execution_failed" [("stderr"%string, VStr (stderr command_result))]
  | Raise e => eraise e
  | Ok payload =>
      let payload_field := ("payload"%string, VDict payload) in
      if negb (payload_ok payload) then
        failed name (str_or "status" "unknown" payload) "top_level_status_failure" [payload_field]
      else
        let nested := extract_nested_failure_status payload in
        if negb (String.eqb nested "") then failed name nested "nested_payload_status_failure" [payload_field]
        else
          let contract_field := ("contract"%string, VDict (contract_to_dict contract)) in
          if String.eqb name "system_state_sync" then
            do! snapshot := elift (snapshot_from_dict payload) in
            answer name "ok" [contract_field; ("state_sync"%string, VDict (snapshot_to_dict snapshot))]
          else answer name "ok" [contract_field; ("result"%string, VDict payload)]
  end.

Definition unknown_tool (name : string) : eff CliState ToolExecutionResult :=
  failed name "unknown_tool" "manifest_lookup_failed" [].

(** [self.execute("system_state_sync", args)] of the activation guard. *)
Definition execute_state_sync : eff CliState ToolExecutionResult :=
  do! contract := cli_describe_tool "system_state_sync" in
  match contract with
  | None => unknown_tool "system_state_sync"
  | Some contract => execute_query contract "system_state_sync"
  end.

Definition execute_activation_health_guard (contract : ToolContract) (args : dict)
    : eff CliState ToolExecutionResult :=
  do! r := execute_state_sync in
  do! observation := elift (classify_activation_health_result r (arg_app "" args)) in
  let fields := [("contract", VDict (contract_to_dict contract));
                 ("activation_health", VDict (health_to_dict observation))]%string in
  do! synced := (if String.eqb (tr_status r) "ok" then
                   do! sync := elift (py_dict (por (dgetn "state_sync" (tr_payload r)) (VDict []))) in
                   eret ("state_sync"%string, VDict sync)
                 else eret ("state_sync_error"%string, VDict (tr_payload r))) in
  answer (tool_name contract) "ok" (fields ++ [synced]).

Definition cli_execute (name : string) (args : dict) : eff CliState ToolExecutionResult :=
  do! contract := cli_describe_tool name in
  match contract with
  | None => unknown_tool name
  | Some contract =>
      if String.eqb name "system_activation_health_guard" then execute_activation_health_guard contract args
      else if String.eqb name "system_rollback_app" then execute_rollback_app contract args
      else if String.eqb name "system_restart_app" then execute_restart_app contract args
      else match od_get (fun s => s) name APP_CONTROL_TOOL_ACTIONS with
           | Some _ => execute_single_app_control contract args
           | None => execute_query contract name
           end
  end.

(** ** Events *)

Definition count_text (n : Z) : string := string_of_Z (Z.max 0 n).

Definition collect_agent_events (max_events : Z) : eff CliState (list dict) :=
  do! command_result := run_command
    (base_command config "jsonl" ++ ["monitor"; "agent-events"; "--max-events"; count_text max_events]%string)
    (cli_timeout_seconds config) in
  elift (parse_jsonl_stdout command_result).

(** The monitor commands of live and application events. *)
Definition monitor (what : list string) (duration max_events : Z) (ready_file : string) (failure : string)
    (normalize : dict -> result dict) : eff CliState dict :=
  if (duration <=? 0) && (max_events <=? 0) then
    eraise (ValueError (failure +:+ "_event_collection_requires_duration_or_max_events"))
  else
    do! command_result := run_command
      (base_command config "json" ++ "monitor"%string :: what ++
       ["--duration"; count_text duration; "--max-events"; count_text max_events]%string ++
       (if String.eqb ready_file "" then [] else ["--ready-file"%string; ready_file]))
      (Z.max (cli_timeout_seconds config)
             (if 0 <? duration then duration + cli_timeout_seconds config else cli_timeout_seconds config)) in
    do! payload := elift (parse_json_stdout command_result) in
    if negb (payload_ok payload) then
      eraise (ValueError (str_or "status" (failure +:+ "_event_monitor_failed") payload))
    else
      match dgetn "events" payload with
      | VList raw_events =>
          do! events := elift (rmap normalize (omap (fun v => match v with VDict d => Some d | _ => None end) raw_events)) in
          eret (dset "events" (VList (map VDict events)) payload)
      | _ => eraise (ValueError (failure +:+ "_event_monitor_missing_events"))
      end.

Definition collect_live_events (duration max_events : Z) (ready_file : string) : eff CliState dict :=
  monitor ["events"]%string duration max_events ready_file "live"
    (fun item => normalize_live_event_row item "unit" "").

Definition collect_app_events (app_id : string) (duration max_events : Z) (ready_file : string) : eff CliState dict :=
  monitor ["app-events"; "--app-id"; app_id]%string duration max_events ready_file "app"
    (fun item => normalize_app_event_row item app_id).

#[export] Instance cli_adapter : ToolAdapter CliState := cli_execute.
End CliAdapter.

(** ** The commands a call sends

    A runner that also keeps each command line with what came of it, in order. *)

Definition command_log : Type := list (list string * result CommandExecutionResult).

Definition logged_runner {S} (run : Runner S) : Runner (S * command_log) :=
  fun argv timeout s => let '(r, s') := run argv timeout s.1 in (r, (s', s.2 ++ [(argv, r)])).

Section Log.
Context (config : CliConfig) (env : nat -> Env) {S : Type} (run : Runner S).

Notation W := (CliState (S := S * command_log)).
#[local] Instance log_runner : Runner (S * command_log) := logged_runner run.

Definition log_of (w : W) : command_log := (cli_runner w).2.

(** The log grows by entries that satisfy [P]. *)
Definition sends (P : list string * result CommandExecutionResult -> Prop) (w w' : W) : Prop :=
  exists l, log_of w' = log_of w ++ l /\ Forall P l.

#[export] Instance sends_preorder P : PreOrder (sends P).
Proof.
  split; unfold sends.
  - intros w. exists []. by rewrite app_nil_r.
  - intros a b c (l1 & -> & H1) (l2 & -> & H2). exists (l1 ++ l2). rewrite app_assoc. split; [done|]. by apply Forall_app.
Qed.

(** A command that carries no arguments of the call. *)
Definition query_line (argv : list string) : Prop :=
  argv = base_command config "json" ++ ["system"; "tool-manifest"]%string \/
  exists contract, argv = build_contract_command_with_args config contract [].

Definition queries : W -> W -> Prop := sends (fun entry => query_line entry.1).
#[local] Instance queries_preorder : PreOrder queries := sends_preorder _.

Lemma run_command_sends (P : _ -> Prop) argv timeout :
  (forall r, P (argv, r)) -> moves (sends P) (run_command argv timeout).
Proof.
  intros HP w. unfold run_command, runner, log_runner, logged_runner. destruct (run argv timeout (cli_runner w).1) as [r s'].
  exists [(argv, r)]. split; [done|]. by constructor.
Qed.

Lemma quiet_sends {A} P (m : eff W A) : moves (same log_of) m -> moves (sends P) m.
Proof. apply moves_weaken. intros w w' H. exists []. by rewrite app_nil_r. Qed.

Lemma cache_quiet l : moves (same log_of) (cache_manifest l).
Proof. by intros []. Qed.
Lemma draw_quiet : moves (same log_of) (draw_tool_id env).
Proof. by intros []. Qed.
#[local] Hint Resolve cache_quiet draw_quiet : moves.

Lemma answer_quiet name status payload : moves (same log_of) (answer env name status payload).
Proof. unfold answer. moves. Qed.
#[local] Hint Resolve answer_quiet : moves.

Lemma manifest_queries : moves queries (cli_tool_manifest config).
Proof.
  unfold cli_tool_manifest. moves.
  - apply run_command_sends. by left.
  - apply quiet_sends. auto with moves.
Qed.
#[local] Hint Resolve manifest_queries : moves.

Lemma describe_queries name : moves queries (cli_describe_tool config name).
Proof. unfold cli_describe_tool. moves. Qed.
#[local] Hint Resolve describe_queries : moves.

Lemma raw_queries contract : moves queries (execute_raw_contract_command config contract []).
Proof. unfold execute_raw_contract_command. moves. apply run_command_sends. right. by exists contract. Qed.
#[local] Hint Resolve raw_queries : moves.

Lemma observed_queries tool extract : moves queries (observed config tool extract).
Proof. unfold observed. moves. Qed.
#[local] Hint Resolve observed_queries : moves.

Lemma resolve_queries resource_of args : moves queries (resolve_args config resource_of args).
Proof. unfold resolve_args. moves. Qed.

(** *** Resolved arguments *)

(** The identities of a call are left out or are non-empty texts. *)
Definition clean (args : dict) : Prop :=
  Forall (fun k => dget (KStr k) args = None \/ exists t, t <> ""%string /\ dget (KStr k) args = Some (VStr t))
    ["app_id"; "app"; "lease_id"]%string.

Lemma clean_inv args :
  clean args ->
  (dget "app_id" args = None \/ (arg_app "" args <> ""%string /\ dget "app_id" args = Some (VStr (arg_app "" args)))) /\
  (dget "lease_id" args = None \/ (str_or "lease_id" "" args <> ""%string /\
                                   dget "lease_id" args = Some (VStr (str_or "lease_id" "" args)))).
Proof.
  intros H. apply Forall_cons in H as [Ha H]. apply Forall_cons in H as [_ H]. rewrite Forall_singleton in H. cbn beta in *.
  split.
  - destruct Ha as [?|(t & Ht & Ha)]; [by left|]. right. unfold arg_app, str_or2. rewrite !dgetn_eq, Ha.
    rewrite !por_str_nonempty, py_str_VStr by done. done.
  - destruct H as [?|(t & Ht & Hl)]; [by left|]. right. unfold str_or. rewrite !dgetn_eq, Hl.
    rewrite por_str_nonempty, py_str_VStr by done. done.
Qed.

(** What a command line takes from resolved arguments. *)
Definition resolved_to (args ra : dict) (app lease : string) : Prop :=
  app <> ""%string /\ lease <> ""%string /\ dget "app_id" ra = Some (VStr app) /\
  dget "lease_id" ra = Some (VStr lease) /\ dget "start_args" ra = dget "start_args" args.

Lemma resolve_args_resolved resource_of args w ra w' :
  clean args -> resolve_args config resource_of args w = (Ok (Resolved ra), w') ->
  exists app lease, resolved_to args ra app lease.
Proof.
  intros Hc H. destruct (clean_inv args Hc) as [Ha Hl]. unfold resolve_args in H.
  apply ebind_inv in H as (app & w1 & Happ & H).
  destruct (String.eqb_spec app ""); [by apply eret_inv in H as [[=] _]|].
  apply ebind_inv in H as (lease & w2 & Hlease & H).
  destruct (String.eqb_spec lease ""); [by apply eret_inv in H as [[=] _]|].
  apply eret_inv in H as [[= ->] _]. exists app, lease. split_and!; try done.
  - rewrite !dget_dsetdefault_str. cbn -[dget dget_or]. rewrite dget_or_eq.
    destruct Ha as [->|[Hne Ha]]; [done|]. rewrite Ha. apply String.eqb_neq in Hne. rewrite Hne in Happ.
    by apply eret_inv in Happ as [-> _].
  - rewrite dget_dsetdefault_str. cbn -[dget dget_or dsetdefault]. rewrite dget_or_eq, !dget_dsetdefault_str. cbn -[dget dget_or].
    destruct Hl as [->|[Hne Hl]]; [done|]. rewrite Hl. apply String.eqb_neq in Hne. rewrite Hne in Hlease.
    by apply eret_inv in Hlease as [-> _].
  - by rewrite !dget_dsetdefault_str.
Qed.

(** The command of a half of a restart names the application and its lease. *)
Definition half_line (action : string) (args : dict) (app lease : string) : list string :=
  base_command config "json" ++ ["app"; action; "--app-id"; app; "--lease-id"; lease]%string ++
  (if present (dgetn "start_args" args)
      && negb (str_in "--start-args" (base_command config "json" ++ ["app"; action; "--app-id"; app; "--lease-id"; lease]%string))
   then ["--start-args"%string; py_str (dgetn "start_args" args)] else []).

Lemma half_command contract action half args ra app lease :
  action <> "--output"%string -> resolved_to args ra app lease ->
  build_contract_command_with_args config (restart_half contract action half) ra = half_line action args app lease.
Proof.
  intros Hact (Happ & Hlease & Ha & Hl & Hs).
  assert (forall t, t <> ""%string -> present (VStr t) = true) as Hp.
  { intros t Ht. unfold present. cbn. by apply negb_true_iff, String.eqb_neq. }
  assert (contract_command_suffix (restart_half contract action half) = ["app"%string; action]) as Hsuf.
  { unfold contract_command_suffix. cbn [argv_template restart_half drop_output]. cbn [String.eqb Ascii.eqb Bool.eqb].
    by rewrite (proj2 (String.eqb_neq _ _) Hact). }
  assert (flat_map (argument_tokens ra) (required_arguments (restart_half contract action half)) =
          ["--app-id"%string; app; "--lease-id"%string; lease]) as Htok.
  { cbn [required_arguments restart_half flat_map]. unfold argument_tokens, candidate_keys.
    cbn [String.eqb Ascii.eqb Bool.eqb Datatypes.app]. change (argument_key "--app-id") with "app_id"%string.
    change (argument_key "--lease-id") with "lease_id"%string. cbn [argument_value].
    rewrite (dgetn_eq "app_id"), Ha, (dgetn_eq "lease_id"), Hl, !Hp by done. reflexivity. }
  unfold build_contract_command_with_args, half_line. rewrite Hsuf, Htok, (dgetn_eq "start_args"), Hs, <- dgetn_eq.
  rewrite <- !app_assoc. reflexivity.
Qed.

(** *** A restart *)

(** The answer of a logged command says the action was done. *)
Definition answered_ok (entry : list string * result CommandExecutionResult) : Prop :=
  exists r payload, entry.2 = Ok r /\ parse_json_stdout r = Ok payload /\ answer_failure payload = None.

(** What a restart may send after its queries: nothing, the stop, or the stop and then
    the start; the start only when the stop was answered ok. *)
Definition restart_commands (args : dict) (l : command_log) : Prop :=
  l = [] \/
  exists app lease stop, app <> ""%string /\ lease <> ""%string /\ stop.1 = half_line "stop" args app lease /\
    (l = [stop] \/ (answered_ok stop /\ exists start, start.1 = half_line "start" args app lease /\ l = [stop; start])).

Lemma raw_command contract args w :
  exists r w', run_command (build_contract_command_with_args config contract args) (timeout_seconds contract) w = (r, w') /\
    log_of w' = log_of w ++ [(build_contract_command_with_args config contract args, r)] /\
    execute_raw_contract_command config contract args w =
      match r with
      | Raise e => (Raise e, w')
      | Ok cr => match parse_json_stdout cr with
                 | Ok payload => (Ok (cr, inl payload), w')
                 | Raise (ValueError message) => (Ok (cr, inr message), w')
                 | Raise e => (Raise e, w')
                 end
      end.
Proof.
  unfold execute_raw_contract_command, ebind. destruct (run_command _ _ w) as [r w'] eqn:E. exists r, w'. split; [done|]. split.
  - unfold run_command, runner, log_runner, logged_runner in E.
    destruct (run _ _ (cli_runner w).1) as [r' s']. by injection E as <- <-.
  - destruct r as [cr|e]; [|done]. destruct (parse_json_stdout cr) as [payload|e]; [done|]. by destruct e.
Qed.

Lemma quiet_log {A} (m : eff W A) w r w' : moves (same log_of) m -> m w = (r, w') -> log_of w' = log_of w.
Proof. intros H E. pose proof (moves_at _ _ _ _ _ H E) as Hq. exact Hq. Qed.

Lemma failed_quiet name status class payload : moves (same log_of) (failed env name status class payload).
Proof. unfold failed. auto with moves. Qed.
#[local] Hint Resolve failed_quiet : moves.

(** What a call sent after [w], and what it answered. *)
Definition restart_outcome (args : dict) (w : W) (out : result ToolExecutionResult * W) : Prop :=
  exists asked sent, log_of out.2 = log_of w ++ asked ++ sent /\ Forall (fun entry => query_line entry.1) asked /\
    restart_commands args sent /\
    forall res, out.1 = Ok res ->
      (tr_status res = "ok"%string /\ exists stop start, sent = [stop; start] /\ answered_ok stop /\ answered_ok start) \/
      (tr_status res = "error"%string /\ ~ exists stop start, sent = [stop; start] /\ answered_ok stop /\ answered_ok start).

Lemma answer_ok name status payload w :
  exists res w', answer env name status payload w = (Ok res, w') /\ log_of w' = log_of w /\ tr_status res = status.
Proof. by eexists _, _. Qed.

Lemma failed_ok name status class payload w :
  exists res w', failed env name status class payload w = (Ok res, w') /\ log_of w' = log_of w /\ tr_status res = "error"%string.
Proof. apply answer_ok. Qed.

(** How a logged answer is judged. *)
Lemma judged line (r : result CommandExecutionResult) :
  (exists cr payload, r = Ok cr /\ parse_json_stdout cr = Ok payload /\ answer_failure payload = None /\ answered_ok (line, r)) \/
  (~ answered_ok (line, r) /\
   ((exists e, r = Raise e) \/
    exists cr, r = Ok cr /\
      ((exists e, parse_json_stdout cr = Raise e) \/
       exists payload failure, parse_json_stdout cr = Ok payload /\ answer_failure payload = Some failure))).
Proof.
  unfold answered_ok. destruct r as [cr|e]; [|right; split; [by intros (? & ? & [=] & _)|left; eauto]].
  destruct (parse_json_stdout cr) as [payload|e] eqn:Ep.
  - destruct (answer_failure payload) as [failure|] eqn:Ef; [right|left; eauto 10]. split; [|right; eauto 10].
    intros (r & p & [= <-] & Hp & Hf). congruence.
  - right. split; [intros (r & p & [= <-] & Hp & Hf); congruence|right; eauto].
Qed.

(** Nothing sent, or only a stop: the restart did not happen. *)
Lemma outcome_error args w asked sent name status class payload w1 :
  log_of w1 = log_of w ++ asked ++ sent -> Forall (fun entry => query_line entry.1) asked -> restart_commands args sent ->
  ~ (exists stop start, sent = [stop; start] /\ answered_ok stop /\ answered_ok start) ->
  restart_outcome args w (failed env name status class payload w1).
Proof.
  intros Hl Hq Hc Hn. destruct (failed_ok name status class payload w1) as (res & w2 & E & Hlog & Hs). rewrite E.
  exists asked, sent. split; [cbn; congruence|]. split; [done|]. split; [done|]. intros res' [= <-]. by right.
Qed.

Lemma outcome_raise args w asked sent e w1 :
  log_of w1 = log_of w ++ asked ++ sent -> Forall (fun entry => query_line entry.1) asked -> restart_commands args sent ->
  restart_outcome args w (Raise e, w1).
Proof. intros Hl Hq Hc. exists asked, sent. split_and!; try done. Qed.

Lemma restart_follows contract args w : clean args -> restart_outcome args w (execute_restart_app config env contract args w).
Proof.
  intros Hclean. unfold execute_restart_app, resolve_control_app_args. unfold ebind at 1 2.
  destruct (resolve_args config control_resource args w) as [r w1] eqn:Er.
  destruct (moves_at _ _ _ _ _ (resolve_queries control_resource args) Er) as (asked & Hlog & Hq).
  rewrite <- (app_nil_r asked) in Hlog.
  destruct r as [r|e]; [|apply (outcome_raise _ _ asked []); try done; by left].
  cbn [eret]. destruct r as [ra| |]; cbn [eret].
  2,3: apply (outcome_error _ _ asked []); try done; [by left|by intros (? & ? & [=] & _)].
  destruct (resolve_args_resolved _ _ _ _ _ Hclean Er) as (app & lease & Hres).
  pose proof Hres as (Happ & Hlease & _). rewrite app_nil_r in Hlog.
  destruct (raw_command (stop_contract contract) ra w1) as (rs & w2 & _ & Hlog2 & Hraw).
  unfold ebind at 1. rewrite Hraw. clear Hraw. unfold stop_contract in Hlog2. rewrite (half_command _ _ _ args _ app lease) in Hlog2 by done.
  set (stop := (half_line "stop" args app lease, rs)) in *.
  assert (log_of w2 = log_of w ++ asked ++ [stop]) as Hl2 by (rewrite Hlog2, Hlog; by rewrite <- app_assoc).
  assert (restart_commands args [stop]) as Hc1 by (right; exists app, lease, stop; auto 10).
  assert (~ exists a b, [stop] = [a; b] /\ answered_ok a /\ answered_ok b) as Hn1 by (by intros (? & ? & [=] & _)).
  destruct (judged (half_line "stop" args app lease) rs) as
    [(cr & payload & -> & Hp & Hf & Hok)|(Hno & [(e & ->)|(cr & -> & [(e & Hp)|(payload & failure & Hp & Hf)])])].
  2: by apply (outcome_raise _ _ asked [stop]).
  2: { rewrite Hp. destruct e; first [by apply (outcome_raise _ _ asked [stop])|by apply (outcome_error _ _ asked [stop])]. }
  2: { rewrite Hp, Hf. by apply (outcome_error _ _ asked [stop]). }
  rewrite Hp, Hf.
  destruct (raw_command (start_contract contract) ra w2) as (rt & w3 & _ & Hlog3 & Hraw).
  unfold ebind at 1. rewrite Hraw. clear Hraw. unfold start_contract in Hlog3. rewrite (half_command _ _ _ args _ app lease) in Hlog3 by done.
  set (start := (half_line "start" args app lease, rt)) in *.
  assert (log_of w3 = log_of w ++ asked ++ [stop; start]) as Hl3 by (rewrite Hlog3, Hl2; by rewrite <- !app_assoc).
  assert (restart_commands args [stop; start]) as Hc2.
  { right. exists app, lease, stop. split_and!; try done. right. split; [done|]. by exists start. }
  destruct (judged (half_line "start" args app lease) rt) as
    [(cr' & payload' & -> & Hp' & Hf' & Hok')|(Hno & [(e & ->)|(cr' & -> & [(e & Hp')|(payload' & failure & Hp' & Hf')])])].
  2: by apply (outcome_raise _ _ asked [stop; start]).
  2,3: assert (~ exists a b, [stop; start] = [a; b] /\ answered_ok a /\ answered_ok b) as Hn2
         by (by intros (? & ? & [= <- <-] & _ & ?)).
  2: { rewrite Hp'. destruct e; first [by apply (outcome_raise _ _ asked [stop; start])
                                      |by apply (outcome_error _ _ asked [stop; start])]. }
  2: { rewrite Hp', Hf'. by apply (outcome_error _ _ asked [stop; start]). }
  rewrite Hp', Hf'.
  match goal with |- restart_outcome _ _ (answer _ ?n ?s ?p _) => destruct (answer_ok n s p w3) as (res & w4 & E & Hl4 & Hs) end.
  rewrite E. exists asked, [stop; start]. split; [cbn; congruence|]. split; [done|]. split; [done|].
  intros res' [= <-]. left. split; [done|]. by exists stop, start.
Qed.

Lemma outcome_after args w w1 out :
  queries w w1 -> restart_outcome args w1 out -> restart_outcome args w out.
Proof.
  intros (asked1 & Hl1 & H1) (asked & sent & Hl & H & Hs). exists (asked1 ++ asked), sent.
  split; [rewrite Hl, Hl1; by rewrite <- !app_assoc|]. split; [by apply Forall_app|done].
Qed.

Lemma outcome_silent args w name status class payload : restart_outcome args w (failed env name status class payload w).
Proof.
  apply (outcome_error _ _ [] []); [by rewrite app_nil_r|constructor|by left|by intros (? & ? & [=] & _)].
Qed.

Lemma execute_restart args w :
  clean args -> restart_outcome args w (cli_execute config env "system_restart_app" args w).
Proof.
  intros Hclean. unfold cli_execute. unfold ebind at 1.
  destruct (cli_describe_tool config "system_restart_app" w) as [r w1] eqn:E.
  pose proof (moves_at _ _ _ _ _ (describe_queries "system_restart_app") E) as Hq.
  apply (outcome_after _ _ w1); [done|]. destruct r as [[contract|]|e]; cbn [String.eqb Ascii.eqb Bool.eqb].
  - by apply restart_follows.
  - apply outcome_silent.
  - apply (outcome_raise _ _ [] []); [by rewrite app_nil_r|constructor|by left].
Qed.
End Log.

(** ** Properties *)

(** The protocol of a restart.  For any process runner and whatever its commands print or raise: after
    commands that only read the manifest and the unit, a restart sends nothing, or a stop, or
    a stop and then a start; both name the same application and lease, neither empty; the start goes out only after
    the unit answered the stop with success; and the result is "ok" exactly when both halves
    were answered with success, and "error" otherwise.  (The identities in the arguments are left out or non-empty
    texts.) *)
Theorem restart_protocol config env {S} (run : Runner S) args w :
  clean args ->
  let out := cli_execute (Run := logged_runner run) config env "system_restart_app" args w in
  exists asked sent, log_of out.2 = log_of w ++ asked ++ sent /\
    Forall (fun entry => query_line config entry.1) asked /\ restart_commands config args sent /\
    forall res, out.1 = Ok res ->
      (tr_status res = "ok"%string /\ exists stop start, sent = [stop; start] /\ answered_ok stop /\ answered_ok start) \/
      (tr_status res = "error"%string /\ ~ exists stop start, sent = [stop; start] /\ answered_ok stop /\ answered_ok start).
Proof. apply execute_restart. Qed.

(** ** Witnesses *)

Definition sample_config : CliConfig :=
  {| cli_node := "unit-01"; cli_source_core := "core-cli"; cli_source_agent := "rational"; cli_timeout_seconds := 10;
     cli_python_executable := "python"; cli_wrapper_path := "invoke_neuro_cli.py" |}.

(** A unit that reports one application and a lease on it; [fails] is the action it refuses. *)
Definition obj (fields : list (string * string)) : string :=
  "{" +:+ join "," (map (fun kv => quoted kv.1 +:+ ":" +:+ kv.2) fields) +:+ "}".
Definition reply (payload : string) : string :=
  obj [("ok", "true"); ("status", quoted "ok"); ("replies", "[" +:+ obj [("payload", payload)] +:+ "]")]%string.
Definition sample_runner (fails : string) : Runner unit := fun argv _ s =>
  let has t := str_in t argv in
  let out := (if has "tool-manifest" then
                obj [("ok", "true"); ("tools", "[" +:+ join "," (map (fun n => obj [("name", quoted n)])
                       ["system_restart_app"; "system_query_apps"; "system_query_leases"]) +:+ "]")]
              else if has "app" then
                if has fails then reply (obj [("status", quoted "refused")]) else reply (obj [("status", quoted "ok")])
              else reply (obj [("apps", "[" +:+ obj [("app_id", quoted "demo")] +:+ "]");
                               ("leases", "[" +:+ obj [("resource", quoted "app/demo/control"); ("lease_id", quoted "l-1")] +:+ "]")]))%string in
  (Ok {| exit_code := 0; stdout := out; stderr := "" |}, s).

Definition cli_start : CliState (S := unit * command_log) := {| cli_runner := (tt, []); cli_manifest := None; cli_drawn := 0 |}.
Definition sample_restart (fails : string) (args : dict) : result ToolExecutionResult * CliState (S := unit * command_log) :=
  cli_execute (Run := logged_runner (sample_runner fails)) sample_config sample_env "system_restart_app" args cli_start.

Definition status_of (out : result ToolExecutionResult * CliState (S := unit * command_log)) : string :=
  match out.1 with Ok res => tr_status res | Raise _ => "raised" end.
Definition tails (out : result ToolExecutionResult * CliState (S := unit * command_log)) : list (list string) :=
  map (fun entry => drop 12 entry.1) (log_of out.2).

(** Resolved from the unit; a refused stop; and an empty lease in the arguments, which is found on the unit and
    then left out of the commands. *)
Example restarts :
  (status_of (sample_restart "" []), tails (sample_restart "" [])) =
    ("ok", [["system"; "tool-manifest"]; []; []; ["app"; "stop"; "--app-id"; "demo"; "--lease-id"; "l-1"];
            ["app"; "start"; "--app-id"; "demo"; "--lease-id"; "l-1"]])%string /\
  (status_of (sample_restart "stop" []), length (tails (sample_restart "stop" []))) = ("error"%string, 4%nat) /\
  tails (sample_restart "" (dict_of [("lease_id", VStr "")])) =
    [["system"; "tool-manifest"]; []; []; ["app"; "stop"; "--app-id"; "demo"]; ["app"; "start"; "--app-id"; "demo"]]%string.
Proof. vm_compute. auto. Qed.

Lemma restart_protocol_witness :
  clean [] /\ exists asked stop start, log_of (sample_restart "" []).2 = asked ++ [stop; start] /\
    Forall (fun entry => query_line sample_config entry.1) asked /\ answered_ok stop /\ answered_ok start.
Proof.
  assert (clean []) as Hc by (repeat constructor; by left). split; [done|].
  destruct (restart_protocol sample_config sample_env (sample_runner "") [] cli_start Hc) as (asked & sent & Hl & Hq & Hs & Ho).
  assert (status_of (sample_restart "" []) = "ok"%string) as Hok by (vm_compute; reflexivity).
  unfold status_of, sample_restart in Hok. destruct (cli_execute _ _ _ _ _).1 as [res|e] eqn:E; [|discriminate Hok].
  destruct (Ho res eq_refl) as [(_ & stop & start & -> & ? & ?)|(Herr & _)]; [|congruence].
  exists asked, stop, start. by split_and!.
Defined.
