(* ===== verification/Store.v ===== *)
(** * The core data store ([data.py])

    [CoreDataStore] as a record of tables, each a list of rows in the order of
    their row ids ([INSERT OR REPLACE] removes the old row and adds the new one
    at the end).  Clock readings and random ids come from an oracle [env], one
    index per reading.  Payload columns hold JSON text: a payload is stored as
    what [json.loads] makes of its [json.dumps(..., sort_keys=True)]. *)

From Stdlib Require Import ZArith Lia Bool List Ascii String SpecFloat.
From stdpp Require Import base list option strings sorting.
From S2P Require Import Prelude PyFloat Text PyValue CborCodec Events.

Open Scope Z_scope.

(** ** Payload columns *)

Definition json_key_text (k : pykey) : string :=
  match k with
  | KStr s => s
  | KInt z => string_of_Z z
  | KBool b => if b then "true" else "false"
  end.

(** [json.loads(json.dumps(v, sort_keys=True))] *)
Fixpoint json_norm (v : pyval) : result pyval :=
  match v with
  | VList l | VTuple l => let! l' := sequence (map json_norm l) in Ok (VList l')
  | VDict d =>
      let! items := sorted_items (map (fun kv => match kv with (k, x) => (k, json_norm x) end) d) in
      let! kvs := sequence (map (fun kv => let! x := kv.2 in Ok (KStr (json_key_text kv.1), x)) items) in
      Ok (VDict (dupdate [] kvs))
  | _ => Ok v
  end.

(** Payload columns are only written from dicts, and read back as dicts. *)
Definition json_column (payload : dict) : result dict := let! v := json_norm (VDict payload) in as_dict v.

(** ** Tables with a primary key *)

Section Table.
Context {R : Type} (key : R -> string).

Definition t_find (k : string) (t : list R) : option R := List.find (fun r => String.eqb (key r) k) t.
Definition t_insert (r : R) (t : list R) : result (list R) :=
  match t_find (key r) t with
  | Some _ => Raise (IntegrityError "UNIQUE constraint failed")
  | None => Ok (t ++ [r])
  end.
Definition t_replace (r : R) (t : list R) : list R :=
  List.filter (fun x => negb (String.eqb (key x) (key r))) t ++ [r].
Definition t_update (k : string) (f : R -> R) (t : list R) : list R :=
  map (fun r => if String.eqb (key r) k then f r else r) t.

(** Every key once. *)
Definition t_wf (t : list R) : Prop := NoDup (map key t).

(** [ORDER BY created DESC, key DESC] and [ORDER BY created] *)
Definition newest_leb (created : R -> string) (a b : R) : bool :=
  if String.eqb (created a) (created b) then String.leb (key b) (key a)
  else String.leb (created b) (created a).
Definition newest (created : R -> string) (limit : nat) (t : list R) : list R :=
  take limit (py_sorted (newest_leb created) t).
Definition oldest (created : R -> string) (t : list R) : list R :=
  py_sorted (fun a b => String.leb (created a) (created b)) t.
End Table.

(** ** Rows *)

Record EventRow := {
  er_id : string; er_source_kind : string; er_source_node : option string; er_source_app : option string;
  er_event_type : string; er_semantic_topic : option string; er_timestamp_mono : pyval; er_timestamp_wall : string;
  er_priority : Z; er_dedupe_key : option string; er_causality_id : option string; er_raw_payload_ref : option string;
  er_policy_tags : list pyval; er_payload : dict; er_created_at : string }.
Record SpanRow := {
  sp_id : string; sp_session_id : option string; sp_status : string; sp_payload : dict;
  sp_started_at : string; sp_completed_at : option string }.
Record FactRow := {
  fa_id : string; fa_span : string; fa_type : string; fa_subject : string; fa_payload : dict;
  fa_created_at : string }.
Record PolicyRow := {
  po_id : string; po_span : string; po_tool_name : string; po_allowed : bool; po_reason : string;
  po_payload : dict; po_created_at : string }.
Record CandidateRow := {
  mc_id : string; mc_span : string; mc_topic : string; mc_payload : dict; mc_created_at : string }.
Record MemoryRow := {
  mm_id : string; mm_span : string; mm_topic : string; mm_payload : dict; mm_created_at : string }.
Record ToolRow := {
  to_id : string; to_span : string; to_tool_name : string; to_status : string; to_payload : dict;
  to_created_at : string }.
Record ApprovalRow := {
  ap_id : string; ap_session_id : string; ap_span : string; ap_tool_name : string; ap_status : string;
  ap_payload : dict; ap_created_at : string; ap_updated_at : string }.
Record DecisionRow := {
  de_id : string; de_request_id : string; de_session_id : string; de_decision : string;
  de_payload : dict; de_created_at : string }.
Record AuditRow := {
  au_id : string; au_span : string; au_session_id : option string; au_status : string;
  au_payload : dict; au_created_at : string }.

Record CoreDataStore := {
  perception_events : list EventRow;
  execution_spans : list SpanRow;
  facts : list FactRow;
  policy_decisions : list PolicyRow;
  memory_candidates : list CandidateRow;
  long_term_memories : list MemoryRow;
  tool_results : list ToolRow;
  approval_requests : list ApprovalRow;
  approval_decisions : list DecisionRow;
  audit_records : list AuditRow;
  st_next : nat;  (* the next environment reading *)
}.

Definition empty_store : CoreDataStore :=
  {| perception_events := []; execution_spans := []; facts := []; policy_decisions := []; memory_candidates := [];
     long_term_memories := []; tool_results := []; approval_requests := []; approval_decisions := [];
     audit_records := []; st_next := 0 |}.

Definition with_events (t : list EventRow) (s : CoreDataStore) : CoreDataStore :=
  {| perception_events := t; execution_spans := execution_spans s; facts := facts s; policy_decisions := policy_decisions s;
     memory_candidates := memory_candidates s; long_term_memories := long_term_memories s;
     tool_results := tool_results s; approval_requests := approval_requests s;
     approval_decisions := approval_decisions s; audit_records := audit_records s; st_next := st_next s |}.
Definition with_spans (t : list SpanRow) (s : CoreDataStore) : CoreDataStore :=
  {| perception_events := perception_events s; execution_spans := t; facts := facts s; policy_decisions := policy_decisions s;
     memory_candidates := memory_candidates s; long_term_memories := long_term_memories s;
     tool_results := tool_results s; approval_requests := approval_requests s;
     approval_decisions := approval_decisions s; audit_records := audit_records s; st_next := st_next s |}.
Definition with_facts (t : list FactRow) (s : CoreDataStore) : CoreDataStore :=
  {| perception_events := perception_events s; execution_spans := execution_spans s; facts := t; policy_decisions := policy_decisions s;
     memory_candidates := memory_candidates s; long_term_memories := long_term_memories s;
     tool_results := tool_results s; approval_requests := approval_requests s;
     approval_decisions := approval_decisions s; audit_records := audit_records s; st_next := st_next s |}.
Definition with_policies (t : list PolicyRow) (s : CoreDataStore) : CoreDataStore :=
  {| perception_events := perception_events s; execution_spans := execution_spans s; facts := facts s; policy_decisions := t;
     memory_candidates := memory_candidates s; long_term_memories := long_term_memories s;
     tool_results := tool_results s; approval_requests := approval_requests s;
     approval_decisions := approval_decisions s; audit_records := audit_records s; st_next := st_next s |}.
Definition with_candidates (t : list CandidateRow) (s : CoreDataStore) : CoreDataStore :=
  {| perception_events := perception_events s; execution_spans := execution_spans s; facts := facts s; policy_decisions := policy_decisions s;
     memory_candidates := t; long_term_memories := long_term_memories s;
     tool_results := tool_results s; approval_requests := approval_requests s;
     approval_decisions := approval_decisions s; audit_records := audit_records s; st_next := st_next s |}.
Definition with_memories (t : list MemoryRow) (s : CoreDataStore) : CoreDataStore :=
  {| perception_events := perception_events s; execution_spans := execution_spans s; facts := facts s; policy_decisions := policy_decisions s;
     memory_candidates := memory_candidates s; long_term_memories := t;
     tool_results := tool_results s; approval_requests := approval_requests s;
     approval_decisions := approval_decisions s; audit_records := audit_records s; st_next := st_next s |}.
Definition with_tools (t : list ToolRow) (s : CoreDataStore) : CoreDataStore :=
  {| perception_events := perception_events s; execution_spans := execution_spans s; facts := facts s; policy_decisions := policy_decisions s;
     memory_candidates := memory_candidates s; long_term_memories := long_term_memories s;
     tool_results := t; approval_requests := approval_requests s;
     approval_decisions := approval_decisions s; audit_records := audit_records s; st_next := st_next s |}.
Definition with_approvals (t : list ApprovalRow) (s : CoreDataStore) : CoreDataStore :=
  {| perception_events := perception_events s; execution_spans := execution_spans s; facts := facts s; policy_decisions := policy_decisions s;
     memory_candidates := memory_candidates s; long_term_memories := long_term_memories s;
     tool_results := tool_results s; approval_requests := t;
     approval_decisions := approval_decisions s; audit_records := audit_records s; st_next := st_next s |}.
Definition with_decisions (t : list DecisionRow) (s : CoreDataStore) : CoreDataStore :=
  {| perception_events := perception_events s; execution_spans := execution_spans s; facts := facts s; policy_decisions := policy_decisions s;
     memory_candidates := memory_candidates s; long_term_memories := long_term_memories s;
     tool_results := tool_results s; approval_requests := approval_requests s;
     approval_decisions := t; audit_records := audit_records s; st_next := st_next s |}.
Definition with_audits (t : list AuditRow) (s : CoreDataStore) : CoreDataStore :=
  {| perception_events := perception_events s; execution_spans := execution_spans s; facts := facts s; policy_decisions := policy_decisions s;
     memory_candidates := memory_candidates s; long_term_memories := long_term_memories s;
     tool_results := tool_results s; approval_requests := approval_requests s;
     approval_decisions := approval_decisions s; audit_records := t; st_next := st_next s |}.
Definition with_next (n : nat) (s : CoreDataStore) : CoreDataStore :=
  {| perception_events := perception_events s; execution_spans := execution_spans s; facts := facts s; policy_decisions := policy_decisions s;
     memory_candidates := memory_candidates s; long_term_memories := long_term_memories s;
     tool_results := tool_results s; approval_requests := approval_requests s;
     approval_decisions := approval_decisions s; audit_records := audit_records s; st_next := n |}.

(** What a table promises the operations: a key, and a place in the store. *)
Class Table (R : Type) := {
  tb_key : R -> string;
  tb_rows : CoreDataStore -> list R;
  tb_put : list R -> CoreDataStore -> CoreDataStore;
  tb_rows_put : forall t s, tb_rows (tb_put t s) = t;
  tb_put_rows : forall s, tb_put (tb_rows s) s = s;
}.

Ltac table_laws := by intros; repeat match goal with s : CoreDataStore |- _ => destruct s end.
#[export] Program Instance event_table : Table EventRow := {| tb_key := er_id; tb_rows := perception_events; tb_put := with_events |}.
Solve Obligations with table_laws.
#[export] Program Instance span_table : Table SpanRow := {| tb_key := sp_id; tb_rows := execution_spans; tb_put := with_spans |}.
Solve Obligations with table_laws.
#[export] Program Instance fact_table : Table FactRow := {| tb_key := fa_id; tb_rows := facts; tb_put := with_facts |}.
Solve Obligations with table_laws.
#[export] Program Instance policy_table : Table PolicyRow := {| tb_key := po_id; tb_rows := policy_decisions; tb_put := with_policies |}.
Solve Obligations with table_laws.
#[export] Program Instance candidate_table : Table CandidateRow := {| tb_key := mc_id; tb_rows := memory_candidates; tb_put := with_candidates |}.
Solve Obligations with table_laws.
#[export] Program Instance memory_table : Table MemoryRow := {| tb_key := mm_id; tb_rows := long_term_memories; tb_put := with_memories |}.
Solve Obligations with table_laws.
#[export] Program Instance tool_table : Table ToolRow := {| tb_key := to_id; tb_rows := tool_results; tb_put := with_tools |}.
Solve Obligations with table_laws.
#[export] Program Instance approval_table : Table ApprovalRow := {| tb_key := ap_id; tb_rows := approval_requests; tb_put := with_approvals |}.
Solve Obligations with table_laws.
#[export] Program Instance decision_table : Table DecisionRow := {| tb_key := de_id; tb_rows := approval_decisions; tb_put := with_decisions |}.
Solve Obligations with table_laws.
#[export] Program Instance audit_table : Table AuditRow := {| tb_key := au_id; tb_rows := audit_records; tb_put := with_audits |}.
Solve Obligations with table_laws.

(** [INSERT], [INSERT OR IGNORE], [INSERT OR REPLACE], [UPDATE ... WHERE key = ?] and the reading by key. *)
Definition insert_row `{Table R} (r : R) : eff CoreDataStore unit :=
  fun s => match t_insert tb_key r (tb_rows s) with
           | Ok t => (Ok tt, tb_put t s)
           | Raise e => (Raise e, s)
           end.
Definition insert_or_ignore_row `{Table R} (r : R) : eff CoreDataStore unit :=
  emodify (fun s => match t_insert tb_key r (tb_rows s) with Ok t => tb_put t s | Raise _ => s end).
Definition replace_row `{Table R} (r : R) : eff CoreDataStore unit :=
  emodify (fun s => tb_put (t_replace tb_key r (tb_rows s)) s).
Definition update_row `{Table R} (k : string) (f : R -> R) : eff CoreDataStore unit :=
  emodify (fun s => tb_put (t_update tb_key k f (tb_rows s)) s).
Definition find_row `{Table R} (k : string) (s : CoreDataStore) : option R := t_find tb_key k (tb_rows s).

(** ** Operations *)

Section Operations.
Variable env : nat -> Env.

Definition read_env : eff CoreDataStore Env := fun s => (Ok (env (st_next s)), with_next (S (st_next s)) s).
Definition utc_now : eff CoreDataStore string := do! e := read_env in eret (env_now e).
Definition draw (prefix : string) : eff CoreDataStore string := do! e := read_env in eret (new_id prefix e).

(** *** Events

    A text column takes the text of a value; SQLite writes a float as text and
    converts what a REAL column is given in ways of its own ([Sqlite]).  Values that
    are no scalars, and integers of more than 64 bits, are refused. *)
Class Sqlite := { real_text : spec_float -> string; real_column : pyval -> pyval }.

Definition fits_int64 (z : Z) : bool := (- 2 ^ 63 <=? z) && (z <? 2 ^ 63).
Definition sql_int (z : Z) : result Z := if fits_int64 z then Ok z else Raise (External "OverflowError").
Definition sql_text `{Sqlite} (v : pyval) : result (option string) :=
  match v with
  | VNone => Ok None
  | VBool b => Ok (Some (if b then "1" else "0")%string)
  | VInt z => let! z := sql_int z in Ok (Some (string_of_Z z))
  | VFloat f => Ok (Some (real_text f))
  | VStr s => Ok (Some s)
  | _ => Raise (External "ProgrammingError")
  end.
Definition sql_real `{Sqlite} (v : pyval) : result pyval :=
  match v with
  | VList _ | VTuple _ | VDict _ => Raise (External "ProgrammingError")
  | VInt z => let! z := sql_int z in Ok (real_column (VInt z))
  | _ => Ok (real_column v)
  end.

Definition event_row `{Sqlite} (ev : PerceptionEvent) (tags : list pyval) (payload : dict) (now : string) : result EventRow :=
  let! node := sql_text (source_node ev) in
  let! app := sql_text (source_app ev) in
  let! topic := sql_text (semantic_topic ev) in
  let! mono := sql_real (timestamp_mono ev) in
  let! prio := sql_int (priority ev) in
  let! dedupe := sql_text (dedupe_key ev) in
  let! causality := sql_text (causality_id ev) in
  let! raw := sql_text (raw_payload_ref ev) in
  Ok {| er_id := event_id ev; er_source_kind := source_kind ev; er_source_node := node; er_source_app := app;
        er_event_type := event_type ev; er_semantic_topic := topic; er_timestamp_mono := mono;
        er_timestamp_wall := timestamp_wall ev; er_priority := prio; er_dedupe_key := dedupe;
        er_causality_id := causality; er_raw_payload_ref := raw; er_policy_tags := tags; er_payload := payload;
        er_created_at := now |}.

(** An event that is stored already is ignored. *)
Definition persist_event `{Sqlite} (ev : PerceptionEvent) : eff CoreDataStore unit :=
  do! tags := elift (let! v := json_norm (VList (policy_tags ev)) in py_iter v) in
  do! column := elift (json_column (ev_payload ev)) in
  do! now := utc_now in
  do! row := elift (event_row ev tags column now) in
  insert_or_ignore_row row.

Definition persist_execution_span (execution_span_id status : string) (payload : dict)
    (session_id : option string) : eff CoreDataStore unit :=
  do! column := elift (json_column payload) in
  do! now := utc_now in
  do! completed := (if String.eqb status "running" then eret None
                    else do! t := utc_now in eret (Some t)) in
  do! s := eget in
  let started := match find_row (R := SpanRow) execution_span_id s with
                 | Some r => sp_started_at r
                 | None => now
                 end in
  replace_row {| sp_id := execution_span_id; sp_session_id := session_id; sp_status := status;
                 sp_payload := column; sp_started_at := started; sp_completed_at := completed |}.

Definition persist_fact (execution_span_id fact_type subject : string) (payload : dict)
    : eff CoreDataStore string :=
  do! fact_id := draw "fact" in
  do! column := elift (json_column payload) in
  do! now := utc_now in
  do! _ := insert_row {| fa_id := fact_id; fa_span := execution_span_id; fa_type := fact_type;
                         fa_subject := subject; fa_payload := column; fa_created_at := now |} in
  eret fact_id.

Definition persist_policy_decision (execution_span_id tool_name : string) (decision : dict)
    : eff CoreDataStore string :=
  do! policy_decision_id := draw "policy" in
  do! column := elift (json_column decision) in
  do! now := utc_now in
  do! _ := insert_row {| po_id := policy_decision_id; po_span := execution_span_id;
                         po_tool_name := tool_name;
                         po_allowed := py_truthy (dget_or "allowed" (VBool false) decision);
                         po_reason := str_or "reason" "" decision;
                         po_payload := column; po_created_at := now |} in
  eret policy_decision_id.

Definition persist_memory_candidate (execution_span_id semantic_topic : string) (payload : dict)
    : eff CoreDataStore string :=
  do! memory_candidate_id := draw "memcand" in
  do! column := elift (json_column payload) in
  do! now := utc_now in
  do! _ := insert_row {| mc_id := memory_candidate_id; mc_span := execution_span_id;
                         mc_topic := semantic_topic; mc_payload := column; mc_created_at := now |} in
  eret memory_candidate_id.

Definition persist_tool_result (tool_result_id execution_span_id tool_name status : string) (payload : dict)
    : eff CoreDataStore unit :=
  do! column := elift (json_column payload) in
  do! now := utc_now in
  insert_row {| to_id := tool_result_id; to_span := execution_span_id; to_tool_name := tool_name;
                to_status := status; to_payload := column; to_created_at := now |}.

Definition persist_audit_record (audit_id execution_span_id status : string) (payload : dict)
    (session_id : option string) : eff CoreDataStore unit :=
  do! column := elift (json_column payload) in
  do! now := utc_now in
  insert_row {| au_id := audit_id; au_span := execution_span_id; au_session_id := session_id;
                au_status := status; au_payload := column; au_created_at := now |}.

Definition persist_approval_request (session_id source_execution_span_id tool_name status : string)
    (payload : dict) (approval_request_id : option string) : eff CoreDataStore string :=
  do! id := match str_truthy approval_request_id with
            | Some id => eret id
            | None => draw "approval"
            end in
  do! timestamp := utc_now in
  do! column := elift (json_column payload) in
  do! s := eget in
  let created := match find_row (R := ApprovalRow) id s with
                 | Some r => ap_created_at r
                 | None => timestamp
                 end in
  do! _ := replace_row {| ap_id := id; ap_session_id := session_id; ap_span := source_execution_span_id;
                          ap_tool_name := tool_name; ap_status := status; ap_payload := column;
                          ap_created_at := created; ap_updated_at := timestamp |} in
  eret id.

Definition persist_approval_decision (approval_request_id session_id decision : string) (payload : dict)
    : eff CoreDataStore string :=
  do! approval_decision_id := draw "approvaldec" in
  do! column := elift (json_column payload) in
  do! now := utc_now in
  do! _ := insert_row {| de_id := approval_decision_id; de_request_id := approval_request_id;
                         de_session_id := session_id; de_decision := decision;
                         de_payload := column; de_created_at := now |} in
  eret approval_decision_id.

Definition persist_long_term_memory (source_execution_span_id semantic_topic : string) (payload : dict)
    : eff CoreDataStore string :=
  do! memory_id := draw "memory" in
  do! column := elift (json_column payload) in
  do! now := utc_now in
  do! _ := insert_row {| mm_id := memory_id; mm_span := source_execution_span_id; mm_topic := semantic_topic;
                         mm_payload := column; mm_created_at := now |} in
  eret memory_id.

Definition set_memory_payload (payload : dict) (m : MemoryRow) : MemoryRow :=
  {| mm_id := mm_id m; mm_span := mm_span m; mm_topic := mm_topic m; mm_payload := payload;
     mm_created_at := mm_created_at m |}.

Definition update_long_term_memory (memory_id : string) (payload : dict) : eff CoreDataStore unit :=
  do! column := elift (json_column payload) in
  update_row memory_id (set_memory_payload column).

(** *** Retirement *)

Definition retired (governance : dict) : bool := eq_str (dgetn "lifecycle_state" governance) "retired".

Definition memory_governance (m : MemoryRow) : result dict :=
  py_dict (por (dgetn "memory_governance" (mm_payload m)) (VDict [])).

Definition retired_history (governance : dict) : result (list pyval) :=
  let! history := py_iter (por (dgetn "lifecycle_history" governance) (VList [])) in
  Ok (if py_in (VStr "retired") history then history else history ++ [VStr "retired"]).

Definition retire_governance (reason at_ : string) (history : list pyval) (governance : dict) : dict :=
  dupdate governance (dict_of [("lifecycle_state", VStr "retired"); ("decision_reason", VStr reason);
                               ("retired_at", VStr at_); ("lifecycle_history", VList history)]%string).

Definition retire_memory (m : MemoryRow) (governance : dict) : eff CoreDataStore unit :=
  update_long_term_memory (mm_id m) (dset "memory_governance" (VDict governance) (mm_payload m)).
End Operations.

(** ** Reading *)

Definition by_newest_span := newest sp_id sp_started_at.
Definition by_newest_approval := newest ap_id ap_created_at.
Definition by_newest_memory := newest mm_id mm_created_at.

Definition opt_is (o : option string) (s : string) : bool :=
  match o with Some t => String.eqb s t | None => true end.

Definition span_dict (r : SpanRow) : dict :=
  dict_of [("execution_span_id", VStr (sp_id r)); ("session_id", opt_str (sp_session_id r));
           ("status", VStr (sp_status r)); ("payload", VDict (sp_payload r));
           ("started_at", VStr (sp_started_at r)); ("completed_at", opt_str (sp_completed_at r))].
Definition fact_dict (r : FactRow) : dict :=
  dict_of [("fact_id", VStr (fa_id r)); ("execution_span_id", VStr (fa_span r)); ("fact_type", VStr (fa_type r));
           ("subject", VStr (fa_subject r)); ("payload", VDict (fa_payload r)); ("created_at", VStr (fa_created_at r))].
Definition policy_dict (r : PolicyRow) : dict :=
  dict_of [("policy_decision_id", VStr (po_id r)); ("execution_span_id", VStr (po_span r));
           ("tool_name", VStr (po_tool_name r)); ("allowed", VBool (po_allowed r));
           ("reason", VStr (po_reason r)); ("payload", VDict (po_payload r)); ("created_at", VStr (po_created_at r))].
Definition candidate_dict (r : CandidateRow) : dict :=
  dict_of [("memory_candidate_id", VStr (mc_id r)); ("execution_span_id", VStr (mc_span r));
           ("semantic_topic", VStr (mc_topic r)); ("payload", VDict (mc_payload r)); ("created_at", VStr (mc_created_at r))].
Definition memory_dict (r : MemoryRow) : dict :=
  dict_of [("memory_id", VStr (mm_id r)); ("source_execution_span_id", VStr (mm_span r));
           ("semantic_topic", VStr (mm_topic r)); ("payload", VDict (mm_payload r)); ("created_at", VStr (mm_created_at r))].
Definition approval_dict (r : ApprovalRow) : dict :=
  dict_of [("approval_request_id", VStr (ap_id r)); ("session_id", VStr (ap_session_id r));
           ("source_execution_span_id", VStr (ap_span r)); ("tool_name", VStr (ap_tool_name r));
           ("status", VStr (ap_status r)); ("payload", VDict (ap_payload r));
           ("created_at", VStr (ap_created_at r)); ("updated_at", VStr (ap_updated_at r))].
Definition decision_dict (r : DecisionRow) : dict :=
  dict_of [("approval_decision_id", VStr (de_id r)); ("approval_request_id", VStr (de_request_id r));
           ("session_id", VStr (de_session_id r)); ("decision", VStr (de_decision r));
           ("payload", VDict (de_payload r)); ("created_at", VStr (de_created_at r))].
Definition audit_dict (r : AuditRow) : dict :=
  dict_of [("audit_id", VStr (au_id r)); ("execution_span_id", VStr (au_span r));
           ("session_id", opt_str (au_session_id r)); ("status", VStr (au_status r));
           ("payload", VDict (au_payload r)); ("created_at", VStr (au_created_at r))].

(** [ORDER BY timestamp_wall DESC LIMIT limit]; a negative limit is none. *)
Definition latest_events (limit : Z) (t : list EventRow) : list EventRow :=
  let sorted := py_sorted (fun a b => String.leb (er_timestamp_wall b) (er_timestamp_wall a)) t in
  if limit <? 0 then sorted else take (Z.to_nat limit) sorted.

Definition query_events (limit min_priority : Z) (topic : option string) (s : CoreDataStore) : list EventRow :=
  latest_events limit
    (List.filter (fun r => (min_priority <=? er_priority r) &&
                           match str_truthy topic with
                           | Some t => match er_semantic_topic r with Some t' => String.eqb t' t | None => false end
                           | None => true
                           end) (perception_events s)).

Definition get_recent_dedupe_keys (limit : Z) (s : CoreDataStore) : list string :=
  let later a b := if String.eqb (er_timestamp_wall a) (er_timestamp_wall b)
                   then String.leb (er_created_at b) (er_created_at a)
                   else String.leb (er_timestamp_wall b) (er_timestamp_wall a) in
  let sorted := py_sorted later (List.filter (fun r => match str_truthy (er_dedupe_key r) with Some _ => true | None => false end)
                                   (perception_events s)) in
  omap er_dedupe_key (if limit <? 0 then sorted else take (Z.to_nat limit) sorted).

(** The frame of stored events ([CoreDataStore.build_frame]); there is one at least. *)
Definition stored_frame (id : string) (events : list EventRow) : PerceptionFrame :=
  {| frame_id := id; event_ids := map er_id events;
     highest_priority := match map er_priority events with [] => 0 | p :: rest => foldl Z.max p rest end;
     topics := vstrs (sorted_strings (remove_dups (omap (fun r => str_truthy (er_semantic_topic r)) events))) |}.

Definition get_execution_span (id : string) (s : CoreDataStore) : option SpanRow := find_row id s.
Definition get_approval_request (id : string) (s : CoreDataStore) : option ApprovalRow := find_row id s.
Definition get_audit_record (id : string) (s : CoreDataStore) : option AuditRow := find_row id s.

Definition get_execution_spans_for_session (session_id : string) (limit : nat) (s : CoreDataStore) : list SpanRow :=
  by_newest_span limit
    (List.filter (fun r => match sp_session_id r with Some x => String.eqb x session_id | None => false end)
                 (execution_spans s)).

Definition get_facts (execution_span_id : string) (fact_type : option string) (s : CoreDataStore) : list FactRow :=
  oldest fa_created_at
    (List.filter (fun r => String.eqb (fa_span r) execution_span_id && opt_is (str_truthy fact_type) (fa_type r)) (facts s)).

Definition get_policy_decisions (execution_span_id : string) (s : CoreDataStore) : list PolicyRow :=
  oldest po_created_at (List.filter (fun r => String.eqb (po_span r) execution_span_id) (policy_decisions s)).

Definition get_memory_candidates (execution_span_id : string) (s : CoreDataStore) : list CandidateRow :=
  oldest mc_created_at (List.filter (fun r => String.eqb (mc_span r) execution_span_id) (memory_candidates s)).

Definition get_approval_requests (session_id source_execution_span_id status : option string) (limit : nat)
    (s : CoreDataStore) : list ApprovalRow :=
  by_newest_approval limit
    (List.filter (fun r => opt_is session_id (ap_session_id r) && opt_is source_execution_span_id (ap_span r) &&
                           opt_is status (ap_status r)) (approval_requests s)).

Definition get_approval_decisions (approval_request_id : string) (s : CoreDataStore) : list DecisionRow :=
  oldest de_created_at (List.filter (fun r => String.eqb (de_request_id r) approval_request_id) (approval_decisions s)).

(** The retired memories are dropped after the limit was applied. *)
Definition active_memory (m : MemoryRow) : result bool :=
  let! governance := as_dict (por (dgetn "memory_governance" (mm_payload m)) (VDict [])) in
  Ok (negb (retired governance)).

Definition get_long_term_memories (source_execution_span_id semantic_topic : option string)
    (include_retired : bool) (limit : nat) (s : CoreDataStore) : result (list MemoryRow) :=
  let memories := by_newest_memory limit
    (List.filter (fun r => opt_is source_execution_span_id (mm_span r) && opt_is semantic_topic (mm_topic r))
                 (long_term_memories s)) in
  if include_retired then Ok memories else filter_r active_memory memories.

(** ** Retirement and evidence *)

Section Retire.
Variable env : nat -> Env.

Fixpoint retire_each (reason : string) (memories : list MemoryRow) : eff CoreDataStore (list string) :=
  match memories with
  | [] => eret []
  | m :: rest =>
      do! governance := elift (memory_governance m) in
      if retired governance then retire_each reason rest
      else
        do! history := elift (retired_history governance) in
        do! now := utc_now env in
        do! _ := retire_memory m (retire_governance reason now history governance) in
        do! ids := retire_each reason rest in
        eret (mm_id m :: ids)
  end.

Definition retire_long_term_memories (semantic_topic source_execution_span_id : option string)
    (reason : string) : eff CoreDataStore (list string) :=
  do! s := eget in
  do! memories := elift (get_long_term_memories source_execution_span_id semantic_topic true 1000 s) in
  retire_each reason memories.

(** Not yet due: no expiry, or one after the reference time (compared as text). *)
Definition retained (reference_time : string) (governance : dict) : bool :=
  let expires := str_or "retention_expires_at" "" governance in
  String.eqb expires "" || negb (String.leb expires reference_time).

Fixpoint retire_expired_each (reference_time : string) (memories : list MemoryRow)
    : eff CoreDataStore (list string) :=
  match memories with
  | [] => eret []
  | m :: rest =>
      do! governance := elift (memory_governance m) in
      if retired governance || retained reference_time governance then retire_expired_each reference_time rest
      else
        do! history := elift (retired_history governance) in
        do! _ := retire_memory m (retire_governance "retention_expired" reference_time history governance) in
        do! ids := retire_expired_each reference_time rest in
        eret (mm_id m :: ids)
  end.

Definition retire_expired_long_term_memories (reference_time : option string)
    : eff CoreDataStore (list string) :=
  do! resolved := match str_truthy reference_time with Some t => eret t | None => utc_now env end in
  do! s := eget in
  do! memories := elift (get_long_term_memories None None true 1000 s) in
  retire_expired_each resolved memories.
End Retire.

Definition rows {R} (f : R -> dict) (l : list R) : pyval := VList (map (fun r => VDict (f r)) l).
Definition row_or_none {R} (f : R -> dict) (o : option R) : pyval :=
  match o with Some r => VDict (f r) | None => VNone end.

Definition build_execution_evidence (execution_span_id audit_id : string) (s : CoreDataStore) : result dict :=
  let! memories := get_long_term_memories (Some execution_span_id) None false 20 s in
  Ok (dict_of
    [("execution_span", row_or_none span_dict (get_execution_span execution_span_id s));
     ("facts", rows fact_dict (get_facts execution_span_id None s));
     ("policy_decisions", rows policy_dict (get_policy_decisions execution_span_id s));
     ("memory_candidates", rows candidate_dict (get_memory_candidates execution_span_id s));
     ("approval_requests", rows approval_dict (get_approval_requests None (Some execution_span_id) None 20 s));
     ("long_term_memories", rows memory_dict memories);
     ("audit_record", row_or_none audit_dict (get_audit_record audit_id s))]).

(** ** Sessions ([session.py]) *)

Record CoreSessionSnapshot := {
  ss_session_id : string;
  ss_current_execution_span_id : option string;
  ss_recent_execution_spans : list SpanRow;
  ss_recent_audit_ids : list string;
  ss_pending_approval_requests : list ApprovalRow;
}.

Definition session_to_dict (n : CoreSessionSnapshot) : dict :=
  dict_of [("session_id", VStr (ss_session_id n));
           ("current_execution_span_id", opt_str (ss_current_execution_span_id n));
           ("recent_execution_spans", rows span_dict (ss_recent_execution_spans n));
           ("recent_audit_ids", VList (vstrs (ss_recent_audit_ids n)));
           ("pending_approval_requests", rows approval_dict (ss_pending_approval_requests n))].

Definition audit_ids (spans : list SpanRow) : list string :=
  omap (fun r => let audit_id := dgetn "audit_id" (sp_payload r) in
                 if py_truthy audit_id then Some (py_str audit_id) else None) spans.

Definition load_snapshot (session_id : string) (current_execution_span_id : option string) (limit : nat)
    (s : CoreDataStore) : CoreSessionSnapshot :=
  let spans := get_execution_spans_for_session session_id limit s in
  {| ss_session_id := session_id; ss_current_execution_span_id := current_execution_span_id;
        ss_recent_execution_spans := spans; ss_recent_audit_ids := audit_ids spans;
        ss_pending_approval_requests := get_approval_requests (Some session_id) None (Some "pending"%string) 20 s |}.

Definition build_context (session_id : string) (current_execution_span_id : option string) (limit : nat)
    (s : CoreDataStore) : dict :=
  let snapshot := load_snapshot session_id current_execution_span_id limit s in
  let previous := List.filter (fun r => match ss_current_execution_span_id snapshot with
                                        | Some id => negb (String.eqb (sp_id r) id)
                                        | None => true
                                        end) (ss_recent_execution_spans snapshot) in
  dict_of [("session_id", VStr (ss_session_id snapshot));
               ("current_execution_span_id", opt_str (ss_current_execution_span_id snapshot));
               ("previous_execution_spans", rows span_dict previous);
               ("recent_audit_ids", VList (vstrs (ss_recent_audit_ids snapshot)));
               ("pending_approval_requests", rows approval_dict (ss_pending_approval_requests snapshot))].

(** ** What the operations leave alone *)

Section Frames.
Context (env : nat -> Env) {X : Type} (f : CoreDataStore -> X).

Lemma insert_row_same `{Table R} (r : R) :
  (forall t s, f (tb_put t s) = f s) -> moves (same f) (insert_row r).
Proof. intros Hf s. unfold insert_row. destruct (t_insert _ _ _); cbn; [apply Hf|done]. Qed.

Lemma replace_row_same `{Table R} (r : R) :
  (forall t s, f (tb_put t s) = f s) -> moves (same f) (replace_row r).
Proof. intros Hf s. apply Hf. Qed.

Lemma insert_or_ignore_same `{Table R} (r : R) :
  (forall t s, f (tb_put t s) = f s) -> moves (same f) (insert_or_ignore_row r).
Proof. intros Hf s. unfold insert_or_ignore_row. cbn. destruct (t_insert _ _ _); [apply Hf|done]. Qed.

Lemma update_row_same `{Table R} k (g : R -> R) :
  (forall t s, f (tb_put t s) = f s) -> moves (same f) (update_row k g).
Proof. intros Hf s. apply Hf. Qed.

Lemma read_env_same : (forall n s, f (with_next n s) = f s) -> moves (same f) (read_env env).
Proof. intros Hf s. apply Hf. Qed.
End Frames.

#[export] Hint Resolve insert_row_same insert_or_ignore_same replace_row_same update_row_same read_env_same : moves.
#[export] Hint Extern 1 (forall _ _, _ = _) => (intros; reflexivity) : moves.

Ltac frame := intros; unfold utc_now, draw; moves.

(** Each operation leaves alone what the clock and its own table do not touch. *)
Section PersistFrames.
Context (env : nat -> Env) {X : Type} (f : CoreDataStore -> X).
Hypothesis f_next : forall n s, f (with_next n s) = f s.

Lemma draw_same prefix : moves (same f) (draw env prefix).
Proof. frame. Qed.
Lemma persist_span_same a b c d :
  (forall t s, f (with_spans t s) = f s) -> moves (same f) (persist_execution_span env a b c d).
Proof. unfold persist_execution_span. frame. Qed.
Lemma persist_tool_same a b c d e :
  (forall t s, f (with_tools t s) = f s) -> moves (same f) (persist_tool_result env a b c d e).
Proof. unfold persist_tool_result. frame. Qed.
Lemma persist_audit_same a b c d e :
  (forall t s, f (with_audits t s) = f s) -> moves (same f) (persist_audit_record env a b c d e).
Proof. unfold persist_audit_record. frame. Qed.
Lemma persist_approval_same a b c d e g :
  (forall t s, f (with_approvals t s) = f s) -> moves (same f) (persist_approval_request env a b c d e g).
Proof. unfold persist_approval_request. frame. Qed.
Lemma persist_decision_same a b c d :
  (forall t s, f (with_decisions t s) = f s) -> moves (same f) (persist_approval_decision env a b c d).
Proof. unfold persist_approval_decision. frame. Qed.
End PersistFrames.

#[export] Hint Resolve draw_same persist_span_same persist_tool_same persist_audit_same
  persist_approval_same persist_decision_same : moves.

(** ** Tables *)

Section TableFacts.
Context {R : Type} (key : R -> string).

Lemma t_find_key k t r : t_find key k t = Some r -> key r = k /\ r ∈ t.
Proof.
  unfold t_find. intros H. apply find_some in H as [Hin He%String.eqb_eq]. by rewrite list_elem_of_In.
Qed.

Lemma t_find_app k t t' : t_find key k (t ++ t') = match t_find key k t with Some r => Some r | None => t_find key k t' end.
Proof. unfold t_find. induction t as [|r t IH]; cbn; [done|]. by destruct (String.eqb (key r) k). Qed.

Lemma t_find_filter k k' t :
  t_find key k (List.filter (fun x => negb (String.eqb (key x) k')) t) = if String.eqb k' k then None else t_find key k t.
Proof.
  unfold t_find. induction t as [|r t IH]; cbn; [by destruct (String.eqb k' k)|].
  destruct (String.eqb_spec (key r) k') as [<-|Hk]; cbn; rewrite IH; [by destruct (String.eqb (key r) k)|].
  destruct (String.eqb_spec (key r) k) as [<-|]; [|done].
  by destruct (String.eqb_spec k' (key r)) as [->|].
Qed.

Lemma t_find_replace k r t : t_find key k (t_replace key r t) = if String.eqb (key r) k then Some r else t_find key k t.
Proof.
  unfold t_replace. rewrite t_find_app, t_find_filter. unfold t_find at 2. cbn.
  destruct (String.eqb (key r) k); [done|]. by destruct (t_find key k t).
Qed.

Lemma t_insert_ok r t t' : t_insert key r t = Ok t' <-> t_find key (key r) t = None /\ t' = t ++ [r].
Proof. unfold t_insert. destruct (t_find key (key r) t); split; try done; [by intros [? _]|by intros [= <-]|by intros [_ ->]]. Qed.

Lemma t_find_None k t : t_find key k t = None <-> k ∉ map key t.
Proof.
  unfold t_find. induction t as [|r t IH]; cbn; [split; [intros _ ?%elem_of_nil|]; done|].
  rewrite elem_of_cons. destruct (String.eqb_spec (key r) k) as [<-|Hk]; [naive_solver|]. rewrite IH. naive_solver.
Qed.

Lemma t_insert_wf r t t' : t_wf key t -> t_insert key r t = Ok t' -> t_wf key t'.
Proof.
  unfold t_wf. intros Hw [Hn%t_find_None ->]%t_insert_ok. rewrite map_app. apply NoDup_app. split_and!; [done| |].
  - intros k Hk Hr. apply list_elem_of_singleton in Hr as ->. done.
  - apply NoDup_singleton.
Qed.

Lemma t_replace_wf r t : t_wf key t -> t_wf key (t_replace key r t).
Proof.
  unfold t_wf, t_replace. intros Hw. rewrite map_app. apply NoDup_app. split_and!; [| |apply NoDup_singleton].
  - clear -Hw. induction t as [|x t IH]; cbn in *; [constructor|]. apply NoDup_cons in Hw as [Hx Hw].
    destruct (String.eqb (key x) (key r)); cbn; [auto|]. apply NoDup_cons. split; [|auto].
    intros Hin. apply Hx. rewrite list_elem_of_In, in_map_iff in *. destruct Hin as (y & Hy & [Hy' _]%filter_In). by exists y.
  - intros k Hk Hr. apply list_elem_of_singleton in Hr as ->.
    rewrite list_elem_of_In, in_map_iff in Hk. destruct Hk as (y & Hy & [_ Hy']%filter_In).
    by rewrite Hy, String.eqb_refl in Hy'.
Qed.

Lemma t_wf_inj t x y : t_wf key t -> x ∈ t -> y ∈ t -> key x = key y -> x = y.
Proof.
  unfold t_wf. induction t as [|z t IH]; cbn; [by intros _ ?%elem_of_nil|].
  intros [Hz Hw]%NoDup_cons Hx Hy E. rewrite !elem_of_cons in Hx, Hy.
  assert (forall r, r ∈ t -> key r ∈ map key t) as Hin by (intros r; apply (list_elem_of_fmap_2 key)).
  destruct Hx as [->|Hx], Hy as [->|Hy]; [done| | |auto]; exfalso; apply Hz; [rewrite E|rewrite <- E]; auto.
Qed.

Lemma t_update_keys k f t : (forall r, key (f r) = key r) -> map key (t_update key k f t) = map key t.
Proof.
  intros Hf. unfold t_update. rewrite map_map. apply map_ext. intros r. by destruct (String.eqb (key r) k).
Qed.
End TableFacts.

Lemma insert_row_inv `{Table R} (r : R) s s' :
  insert_row r s = (Ok tt, s') -> s' = tb_put (tb_rows s ++ [r]) s.
Proof. unfold insert_row. destruct (t_insert _ _ _) eqn:E; intros [=]; subst. by apply t_insert_ok in E as [_ ->]. Qed.

Lemma persist_tool_result_ok env id span name status payload s s' :
  persist_tool_result env id span name status payload s = (Ok tt, s') ->
  exists column row, json_column payload = Ok column /\ s' = with_tools (tool_results s ++ [row]) (with_next (S (st_next s)) s) /\
    to_id row = id /\ to_span row = span /\ to_tool_name row = name /\ to_status row = status /\ to_payload row = column.
Proof.
  unfold persist_tool_result. intros H. apply ebind_inv in H as (column & s1 & Hc & H).
  apply elift_inv in Hc as [Hc ->]. apply ebind_inv in H as (now & s2 & Hn & H).
  apply insert_row_inv in H as ->. unfold utc_now, read_env, ebind, eret in Hn. injection Hn as <- <-.
  exists column. eexists. by split_and!.
Qed.

Lemma persist_audit_record_ok env id span status payload session s s' :
  persist_audit_record env id span status payload session s = (Ok tt, s') ->
  exists row, s' = with_audits (audit_records s ++ [row]) (with_next (S (st_next s)) s) /\
    au_id row = id /\ au_span row = span /\ au_status row = status.
Proof.
  unfold persist_audit_record. intros H. apply ebind_inv in H as (column & s1 & Hc & H).
  apply elift_inv in Hc as [Hc ->]. apply ebind_inv in H as (now & s2 & Hn & H).
  apply insert_row_inv in H as ->. unfold utc_now, read_env, ebind, eret in Hn. injection Hn as <- <-.
  eexists. by split_and!.
Qed.

Lemma persist_long_term_memory_ok env span topic payload s id s' :
  persist_long_term_memory env span topic payload s = (Ok id, s') ->
  exists column row, json_column payload = Ok column /\
    s' = with_memories (long_term_memories s ++ [row]) (with_next (S (S (st_next s))) s) /\
    mm_id row = id /\ mm_span row = span /\ mm_topic row = topic /\ mm_payload row = column.
Proof.
  unfold persist_long_term_memory. intros H. apply ebind_inv in H as (id' & s1 & Hd & H).
  unfold draw, read_env, ebind, eret in Hd. injection Hd as <- <-.
  apply ebind_inv in H as (column & s2 & [Hc ->]%elift_inv & H). apply ebind_inv in H as (now & s2 & Hn & H).
  unfold utc_now, read_env, ebind, eret in Hn. injection Hn as <- <-.
  apply ebind_inv in H as ([] & s3 & Hi & [-> ->]%eret_inv). apply insert_row_inv in Hi as ->.
  eexists _, _. by split_and!.
Qed.

Lemma find_span_replaced r s k :
  get_execution_span k (tb_put (t_replace tb_key r (tb_rows s)) s) =
  if String.eqb (sp_id r) k then Some r else get_execution_span k s.
Proof. apply (t_find_replace sp_id k r). Qed.

Lemma persist_execution_span_ok env id status payload session s s' :
  persist_execution_span env id status payload session s = (Ok tt, s') ->
  exists row, get_execution_span id s' = Some row /\ sp_status row = status /\ sp_session_id row = session.
Proof.
  unfold persist_execution_span. intros H. apply ebind_inv in H as (column & s1 & Hc & H).
  apply ebind_inv in H as (now & s2 & Hn & H). apply ebind_inv in H as (completed & s3 & Hd & H).
  apply ebind_inv in H as (s4 & s5 & [= <- <-] & H). unfold replace_row, emodify in H. injection H as <-.
  eexists. rewrite find_span_replaced. cbn [sp_id]. by rewrite String.eqb_refl.
Qed.

(** *** Approval requests *)

(** Every request but [id] is left alone. *)
Definition others (id : string) (s s' : CoreDataStore) : Prop :=
  forall k, k <> id -> get_approval_request k s' = get_approval_request k s.

#[export] Instance others_preorder id : PreOrder (others id).
Proof. split; unfold others; [done|]. intros a b c H1 H2 k Hk. by rewrite H2, H1. Qed.

Lemma same_others id s s' : same approval_requests s s' -> others id s s'.
Proof. unfold same, others, get_approval_request, find_row. cbn. by intros ->. Qed.

Lemma find_approval_replaced r s k :
  get_approval_request k (tb_put (t_replace tb_key r (tb_rows s)) s) =
  if String.eqb (ap_id r) k then Some r else get_approval_request k s.
Proof. apply (t_find_replace ap_id k r). Qed.

Lemma persist_approval_request_ok env session span tool status payload id s id' s' :
  id <> ""%string -> persist_approval_request env session span tool status payload (Some id) s = (Ok id', s') ->
  exists column r, json_column payload = Ok column /\ get_approval_request id s' = Some r /\
    ap_status r = status /\ ap_payload r = column /\ ap_tool_name r = tool /\ ap_span r = span /\
    ap_session_id r = session /\ others id s s'.
Proof.
  intros Hid. unfold persist_approval_request. cbn [str_truthy]. apply String.eqb_neq in Hid. rewrite Hid.
  intros (i & s1 & [= <- <-] & H)%ebind_inv.
  apply ebind_inv in H as (now & s2 & Hnow & H). apply ebind_inv in H as (column & s3 & Hc & H).
  apply elift_inv in Hc as [Hc ->]. apply ebind_inv in H as (s4 & s5 & [= <- <-] & H).
  apply ebind_inv in H as ([] & s6 & Hr & [= <- <-]).
  unfold replace_row, emodify in Hr. injection Hr as <-. unfold utc_now, read_env, ebind, eret in Hnow.
  injection Hnow as _ <-. exists column. eexists. split; [done|].
  rewrite find_approval_replaced. cbn [ap_id]. rewrite String.eqb_refl. split_and!; try done.
  intros k Hk. rewrite find_approval_replaced. cbn [ap_id].
  apply not_eq_sym, String.eqb_neq in Hk. by rewrite Hk.
Qed.

(** A payload that is not JSON raises before the requests are written. *)
Lemma persist_raise env session span tool status payload id s e s' :
  id <> ""%string -> persist_approval_request env session span tool status payload (Some id) s = (Raise e, s') ->
  approval_requests s' = approval_requests s.
Proof.
  intros Hid E. unfold persist_approval_request in E. cbn [str_truthy] in E. apply String.eqb_neq in Hid. rewrite Hid in E.
  unfold ebind, eret, elift, utc_now, read_env, eget, replace_row, emodify in E. cbn in E.
  destruct (json_column payload); [done|]. by injection E as _ <-.
Qed.

Lemma persist_approval_request_others env session span tool status payload id :
  id <> ""%string -> moves (others id) (persist_approval_request env session span tool status payload (Some id)).
Proof.
  intros Hid s. destruct (persist_approval_request _ _ _ _ _ _ _ s) as [[i|e] s'] eqn:E; cbn [snd].
  - by destruct (persist_approval_request_ok _ _ _ _ _ _ _ _ _ _ Hid E) as (_ & _ & _ & _ & _ & _ & _ & _ & _ & ?).
  - by apply same_others, (persist_raise _ _ _ _ _ _ _ _ _ _ Hid E).
Qed.

(** *** Payload columns keep their text keys *)

Lemma dget_str_in k v d : dget (KStr k) d = Some v -> (KStr k, v) ∈ d.
Proof. intros (k' & Hk & Hin)%od_get_elem_of. apply key_norm_str in Hk as ->. done. Qed.

Lemma sortable_str k ks : sortable ks = true -> KStr k ∈ ks -> Forall (fun x => key_is_str x = true) ks.
Proof.
  unfold sortable. rewrite orb_true_iff, !forallb_forall, Forall_forall. setoid_rewrite list_elem_of_In.
  intros [H|H]; [done|]. by intros Hin%H.
Qed.

Lemma dwf_same_keys (d d' : dict) : Forall2 (fun a b => b.1 = a.1) d d' -> dwf d -> dwf d'.
Proof.
  intros H. unfold dwf, od_wf. assert (od_keys key_norm d' = od_keys key_norm d) as ->; [|done].
  induction H as [|a b l l' E Hl IH]; cbn; [done|]. unfold od_keys in IH. by rewrite E, IH.
Qed.

Lemma json_norm_dict d v :
  json_norm (VDict d) = Ok v ->
  exists kvs, v = VDict (dupdate [] kvs) /\ sortable (map fst d) = true /\
    Forall2 (fun kv out => exists x, json_norm kv.2 = Ok x /\ out = (KStr (json_key_text kv.1), x))
      (py_sorted item_leb d) kvs.
Proof.
  cbn [json_norm]. intros H. apply rbind_ok in H as (items & Hi & H). apply rbind_ok in H as (kvs & Hk & H).
  apply Ok_inj in H as <-. exists kvs. split; [done|].
  rewrite (map_ext _ (fun kv => (kv.1, json_norm kv.2))) in Hi by (by intros []).
  unfold sorted_items in Hi. rewrite map_map in Hi. cbn [fst] in Hi.
  destruct (sortable (map fst d)) eqn:Es; [|done]. split; [done|]. apply Ok_inj in Hi as <-.
  rewrite (py_sorted_map _ item_leb) in Hk by done. rewrite map_map in Hk.
  apply (rmap_ok_Forall2 (fun kv => let! x := json_norm kv.2 in Ok (KStr (json_key_text kv.1), x))) in Hk.
  eapply Forall2_impl; [exact Hk|]. intros kv out Ho. cbn in Ho. inv_ok. eauto.
Qed.

Lemma json_norm_get d col k v :
  dwf d -> json_norm (VDict d) = Ok (VDict col) -> dget (KStr k) d = Some v ->
  exists v', json_norm v = Ok v' /\ dget (KStr k) col = Some v'.
Proof.
  intros Hw H Hv. apply json_norm_dict in H as (kvs & [= ->] & Hs & Hf). apply dget_str_in in Hv as Hin.
  assert (Forall (fun x => key_is_str x = true) (map fst d)) as Hstr.
  { eapply sortable_str; [done|]. apply (list_elem_of_fmap_2 fst d (KStr k, v) Hin). }
  assert (Forall2 (fun kv out => out.1 = kv.1 /\ json_norm kv.2 = Ok out.2) (py_sorted item_leb d) kvs) as Hf'.
  { assert (Forall (fun kv => key_is_str kv.1 = true) (py_sorted item_leb d)) as Hk.
    { rewrite py_sorted_perm. by apply Forall_map in Hstr. }
    clear -Hf Hk. induction Hf as [|kv out l l' (x & Hx & ->) Hl IH]; [constructor|].
    apply Forall_cons in Hk as [Hk Hk']. constructor; [|auto]. cbn. split; [|done]. by destruct kv as [[]]. }
  assert (dwf kvs) as Hwk.
  { eapply (dwf_same_keys (py_sorted item_leb d)).
    - eapply Forall2_impl; [exact Hf'|]. by intros ? ? [? _].
    - apply (dwf_perm d); [|done]. by rewrite py_sorted_perm. }
  rewrite dget_dupdate by done.
  assert ((KStr k, v) ∈ py_sorted item_leb d) as (i & Hi)%list_elem_of_lookup by by rewrite py_sorted_perm.
  destruct (Forall2_lookup_l _ _ _ _ _ Hf' Hi) as ([k' v'] & Ho & Hk' & Hn). cbn in *. subst k'.
  exists v'. split; [done|]. unfold dget.
  by rewrite (od_wf_get key_norm (KStr k) v' kvs Hwk (list_elem_of_lookup_2 _ _ _ Ho)).
Qed.

Lemma json_column_get d col k v :
  dwf d -> json_column d = Ok col -> dget (KStr k) d = Some v ->
  exists v', json_norm v = Ok v' /\ dget (KStr k) col = Some v'.
Proof.
  unfold json_column. intros Hw H. apply rbind_ok in H as (x & Hx & Hd). destruct x; try done.
  apply Ok_inj in Hd as ->. by apply json_norm_get.
Qed.

(** *** Retirement *)

(** A memory to retire at [T]: readable, not yet retired, and with an expiry
    that is not after [T]. *)
Definition due (T : string) (m : MemoryRow) : bool :=
  match memory_governance m with
  | Ok g => let expires := str_or "retention_expires_at" "" g in
            negb (eq_str (dgetn "lifecycle_state" g) "retired") && negb (String.eqb expires "") && String.leb expires T
  | Raise _ => false
  end.

Lemma due_eq T m g : memory_governance m = Ok g -> due T m = negb (retired g || retained T g).
Proof.
  unfold due, retired, retained. intros ->. cbn zeta. rewrite !negb_orb, negb_involutive. by rewrite andb_assoc.
Qed.

(** [m'] is [m] with the governance a retirement writes. *)
Definition retired_from (T : string) (m m' : MemoryRow) : Prop :=
  exists g h c, memory_governance m = Ok g /\ retired_history g = Ok h /\
    json_column (dset "memory_governance" (VDict (retire_governance "retention_expired" T h g)) (mm_payload m)) = Ok c /\
    m' = set_memory_payload c m.

Lemma update_long_term_memory_ok id payload s s' :
  update_long_term_memory id payload s = (Ok tt, s') <->
  exists c, json_column payload = Ok c /\
    s' = with_memories (t_update mm_id id (set_memory_payload c) (long_term_memories s)) s.
Proof.
  unfold update_long_term_memory. rewrite ebind_inv. split.
  - intros (c & s1 & [Hc ->]%elift_inv & H). unfold update_row, emodify in H. injection H as <-. by exists c.
  - intros (c & Hc & ->). exists c, s. by rewrite elift_inv.
Qed.

Lemma Forall2_update {R R'} (P : R -> R' -> Prop) (key : R -> string) k f (t : list R) t' :
  Forall2 P (t_update key k f t) t' -> Forall2 (fun x y => P (if String.eqb (key x) k then f x else x) y) t t'.
Proof. unfold t_update. apply Forall2_fmap_l. Qed.

(** One row of the table after retiring the due memories of [ms]. *)
Definition after_retirement (T : string) (ms : list MemoryRow) (ids : list string) (x x' : MemoryRow) : Prop :=
  (mm_id x ∉ ids /\ x' = x) \/
  (mm_id x ∈ ids /\ exists m c, m ∈ ms /\ mm_id m = mm_id x /\ retired_from T m (set_memory_payload c m) /\
     x' = set_memory_payload c x).

Lemma retire_expired_each_ok T ms :
  NoDup (map mm_id ms) -> forall s ids s',
  retire_expired_each T ms s = (Ok ids, s') ->
  Forall (fun m => is_ok (memory_governance m) = true) ms /\ ids = map mm_id (List.filter (due T) ms) /\
  s' = with_memories (long_term_memories s') s /\
  Forall2 (after_retirement T ms ids) (long_term_memories s) (long_term_memories s').
Proof.
  induction ms as [|m ms IH]; intros Hnd s ids s' H; cbn [retire_expired_each] in H.
  { apply eret_inv in H as [-> ->]. split_and!; [constructor|done|by destruct s|].
    apply Forall2_same_length_lookup_2; [done|]. intros i x y Hx Hy. left. rewrite elem_of_nil. split; [tauto|congruence]. }
  cbn [map] in Hnd. apply NoDup_cons in Hnd as [Hm Hnd].
  apply ebind_inv in H as (g & s1 & [Hg ->]%elift_inv & H).
  cbn [List.filter]. rewrite (due_eq T m g Hg).
  destruct (retired g || retained T g); cbn [negb].
  { destruct (IH Hnd _ _ _ H) as (H1 & H2 & H3 & H4). split_and!; try done; [by constructor; [rewrite Hg|]|].
    eapply Forall2_impl; [exact H4|]. intros x x' [?|(? & m0 & c & ? & ?)]; [by left|]. right. split; [done|].
    exists m0, c. split; [by right|done]. }
  apply ebind_inv in H as (h & s1 & [Hh ->]%elift_inv & H).
  apply ebind_inv in H as ([] & s1 & Hu & H). apply update_long_term_memory_ok in Hu as (c & Hc & ->).
  apply ebind_inv in H as (ids' & s2 & H & [-> ->]%eret_inv).
  destruct (IH Hnd _ _ _ H) as (H1 & H2 & H3 & H4). cbn [long_term_memories with_memories] in H4.
  split_and!; [by constructor; [rewrite Hg|]|cbn [map]; by rewrite H2| |].
  { rewrite H3. by destruct s. }
  assert (mm_id m ∉ ids') as Hm'.
  { rewrite H2. intros Hin. apply Hm. rewrite list_elem_of_In, in_map_iff in *.
    destruct Hin as (y & Hy & [Hin _]%filter_In). by exists y. }
  apply Forall2_update in H4. eapply Forall2_impl; [exact H4|]. cbn beta. intros x x' Hx.
  destruct (String.eqb_spec (mm_id x) (mm_id m)) as [E|E].
  - destruct Hx as [[_ ->]|[Hin _]]; [|cbn in Hin; by rewrite E in Hin].
    right. rewrite E. split; [by left|]. exists m, c. split; [by left|]. split; [done|]. split; [|done].
    by exists g, h, c.
  - destruct Hx as [[Hn ->]|(Hin & m0 & c0 & Hm0 & Hx)].
    + left. split; [|done]. rewrite elem_of_cons. naive_solver.
    + right. split; [by right|]. exists m0, c0. split; [by right|done].
Qed.

(** What a memory holds when it was written by the store: dicts with one entry per key. *)
Record memory_ok (m : MemoryRow) : Prop := {
  mo_payload : dwf (mm_payload m);
  mo_governance : forall g, memory_governance m = Ok g -> dwf g;
}.

Lemma retired_from_retired T m c :
  memory_ok m -> retired_from T m (set_memory_payload c m) ->
  active_memory (set_memory_payload c m) = Ok false /\
  exists g, memory_governance (set_memory_payload c m) = Ok g /\ retired g = true.
Proof.
  intros [Hp Hg] (g & h & c' & Hm & _ & Hc & E). assert (c' = c) as -> by (by injection E).
  eapply json_column_get in Hc as (v & Hv & Hget); [|by apply dset_wf|apply dget_dset_eq].
  apply json_norm_dict in Hv as Hd. destruct Hd as (kvs & -> & _).
  set (g' := dupdate [] kvs) in *.
  assert (retired g' = true) as Hr.
  { destruct (json_norm_get _ _ "lifecycle_state" (VStr "retired") (dupdate_wf _ _ (Hg g Hm)) Hv) as (v & Hn & Hl).
    - unfold retire_governance. rewrite dget_dupdate by nodup_lits. by dict_simpl.
    - cbn in Hn. apply Ok_inj in Hn as <-. unfold retired. by rewrite dgetn_eq, Hl. }
  assert (g' <> []) as Hne by (intros E'; by rewrite E' in Hr).
  unfold active_memory, memory_governance. cbn [mm_payload set_memory_payload]. rewrite dgetn_eq, Hget.
  assert (por (VDict g') (VDict []) = VDict g') as -> by (unfold por; cbn; by destruct g').
  cbn [as_dict py_dict rbind]. rewrite Hr. split; [done|]. by exists g'.
Qed.

Lemma all_memories n s :
  (length (long_term_memories s) <= n)%nat ->
  get_long_term_memories None None true n s = Ok (py_sorted (newest_leb mm_id mm_created_at) (long_term_memories s)).
Proof.
  intros H. unfold get_long_term_memories, by_newest_memory, newest. f_equal.
  assert (forall l : list MemoryRow, List.filter (fun _ => true) l = l) as Hf by (induction l; cbn; congruence).
  cbn. rewrite Hf. apply take_ge. by rewrite length_py_sorted.
Qed.

Lemma retire_none T ms s :
  Forall (fun m => exists g, memory_governance m = Ok g /\ retired g || retained T g = true) ms ->
  retire_expired_each T ms s = (Ok [], s).
Proof.
  induction 1 as [|m ms (g & Hg & Hr) _ IH]; cbn; [done|]. unfold ebind at 1, elift. by rewrite Hg, Hr.
Qed.

Lemma retire_expired_run env T s :
  T <> ""%string -> (length (long_term_memories s) <= 1000)%nat ->
  retire_expired_long_term_memories env (Some T) s =
  retire_expired_each T (py_sorted (newest_leb mm_id mm_created_at) (long_term_memories s)) s.
Proof.
  intros HT Hl. apply String.eqb_neq in HT. unfold retire_expired_long_term_memories, str_truthy. rewrite HT.
  unfold ebind, eret, eget, elift. by rewrite all_memories.
Qed.

(** ** Properties *)

(** Retirement is exact, complete and idempotent.  From a table with distinct
    ids, [retire_expired_long_term_memories] at a reference time returns the ids
    of exactly the memories that are due then; each of them keeps its id, topic,
    span and creation time and is from then on never looked up as active; every
    other memory is unchanged; and doing it again changes nothing. *)
Theorem retire_expired_spec env T s ids s' :
  T <> ""%string -> t_wf mm_id (long_term_memories s) -> (length (long_term_memories s) <= 1000)%nat ->
  Forall memory_ok (long_term_memories s) ->
  retire_expired_long_term_memories env (Some T) s = (Ok ids, s') ->
  (forall id, id ∈ ids <-> exists m, m ∈ long_term_memories s /\ mm_id m = id /\ due T m = true) /\
  Forall2 (fun m m' => if due T m then retired_from T m m' /\ active_memory m' = Ok false else m' = m)
    (long_term_memories s) (long_term_memories s') /\
  retire_expired_long_term_memories env (Some T) s' = (Ok [], s').
Proof.
  intros HT Hw Hl Hok H. rewrite retire_expired_run in H by done.
  set (ms := py_sorted (newest_leb mm_id mm_created_at) (long_term_memories s)) in *.
  assert (Permutation ms (long_term_memories s)) as Hp by apply py_sorted_perm.
  apply retire_expired_each_ok in H as (Hg & Hids & Hs' & Hf); [|by rewrite Hp].
  assert (forall m, m ∈ long_term_memories s -> mm_id m ∈ ids <-> due T m = true) as Hdue.
  { intros m Hm. rewrite Hids, list_elem_of_In, in_map_iff. setoid_rewrite filter_In. split.
    - intros (m0 & E & Hm0 & Hd). apply list_elem_of_In in Hm0. rewrite Hp in Hm0.
      by rewrite <- (t_wf_inj mm_id _ m0 m Hw Hm0 Hm E).
    - intros Hd. exists m. rewrite <- list_elem_of_In, Hp. done. }
  assert (Forall2 (fun m m' => if due T m then retired_from T m m' /\ active_memory m' = Ok false /\
            (exists g, memory_governance m' = Ok g /\ retired g = true) else m' = m)
            (long_term_memories s) (long_term_memories s')) as Hrows.
  { apply Forall2_same_length_lookup_2; [by eapply Forall2_length|]. intros i x x' Hx Hx'.
    pose proof (Forall2_lookup_lr _ _ _ _ _ _ Hf Hx Hx') as Ha. apply list_elem_of_lookup_2 in Hx.
    pose proof (Hdue x Hx) as Hd. destruct Ha as [[Hn ->]|(Hin & m & c & Hm & E & Hr & ->)].
    - destruct (due T x); [tauto|done].
    - apply Hd in Hin as ->. rewrite Hp in Hm. rewrite (t_wf_inj mm_id _ m x Hw Hm Hx E) in Hr.
      split; [done|]. apply retired_from_retired in Hr; [done|]. rewrite Forall_forall in Hok. by apply Hok. }
  split_and!.
  - intros id. rewrite Hids, list_elem_of_In, in_map_iff. setoid_rewrite filter_In.
    setoid_rewrite <- list_elem_of_In. setoid_rewrite Hp. naive_solver.
  - eapply Forall2_impl; [exact Hrows|]. cbn beta. intros m m' Hm. destruct (due T m); [|done]. destruct Hm as (H1 & H2 & _). by split.
  - rewrite retire_expired_run; [|done|by rewrite <- (Forall2_length _ _ _ Hrows)]. apply retire_none.
    rewrite py_sorted_perm. apply Forall_forall. intros m' (i & Hi)%list_elem_of_lookup.
    destruct (Forall2_lookup_r _ _ _ _ _ Hrows Hi) as (m & Hm & Hr). apply list_elem_of_lookup_2 in Hm.
    destruct (due T m) eqn:Ed.
    + destruct Hr as (_ & _ & g & Hg' & Hret). exists g. by rewrite Hret.
    + subst m'. rewrite Hp in Hg. rewrite Forall_forall in Hg. specialize (Hg m Hm).
      destruct (memory_governance m) as [g|] eqn:Eg; [|done]. exists g. split; [done|].
      rewrite (due_eq T m g Eg) in Ed. by apply negb_false_iff in Ed.
Qed.

(** ** Witnesses *)

Definition sample_memory (id expires : string) : MemoryRow :=
  {| mm_id := id; mm_span := "span-0"; mm_topic := "unit.callback";
     mm_payload := dict_of [("memory_governance", VDict (dict_of
       [("lifecycle_state", VStr "committed"); ("retention_expires_at", VStr expires)]))]%string;
     mm_created_at := "2026-05-01T00:00:00Z" |}.

Definition sample_store : CoreDataStore :=
  with_memories [sample_memory "memory-a" "2026-05-08T00:00:00Z"; sample_memory "memory-b" "2026-07-01T00:00:00Z"]
    empty_store.

Definition store_env (n : nat) : Env := {| env_hex := string_of_Z (Z.of_nat n); env_now := "2026-05-10T12:00:00Z" |}.

Lemma sample_memory_ok id expires : memory_ok (sample_memory id expires).
Proof.
  split; [nodup_lits|]. intros g Hg. apply Ok_inj in Hg as <-. nodup_lits.
Qed.

Lemma retire_expired_spec_witness :
  exists s', retire_expired_long_term_memories store_env (Some "2026-06-01T00:00:00Z"%string) sample_store =
    (Ok ["memory-a"%string], s') /\
    retire_expired_long_term_memories store_env (Some "2026-06-01T00:00:00Z"%string) s' = (Ok [], s').
Proof.
  destruct (retire_expired_long_term_memories store_env (Some "2026-06-01T00:00:00Z"%string) sample_store)
    as [r s'] eqn:E.
  assert (r = Ok ["memory-a"%string]) as -> by (vm_compute in E; by injection E).
  exists s'. split; [done|].
  apply (retire_expired_spec store_env "2026-06-01T00:00:00Z" sample_store ["memory-a"%string] s').
  - done.
  - unfold t_wf. cbn. apply NoDup_cons. split; [|apply NoDup_singleton]. by intros ?%list_elem_of_singleton.
  - cbn. lia.
  - apply Forall_cons. split; [apply sample_memory_ok|]. apply Forall_singleton, sample_memory_ok.
  - exact E.
Defined.
