(* ===== verification/JsonNumbers.v ===== *)
(** * The numbers of a JSON text

    [json.dumps] writes an integer as its digits and a finite float as its [repr];
    [json.loads] reads them back: the integers that Python agrees to convert
    ([int_text]), and every float that a double can be ([float_text]). *)

From Stdlib Require Import ZArith Lia Bool List Ascii String.
From Stdlib.Floats Require Import SpecFloat.
From stdpp Require Import base list option strings.
From S2P Require Import Prelude PyFloat FloatRound Text PyValue JsonParse Json.

Open Scope Z_scope.

Ltac euclid := Z.to_euclidean_division_equations; lia.

(** ** Numbers *)

(** What follows a number does not go on with it. *)
Definition ends_number (rest : list Z) : Prop :=
  match rest with [] => True | b :: _ => is_digit b = false /\ b <> 46 /\ b <> 101 /\ b <> 69 end.

Lemma digits_app l ds rest : digits l = (ds, []) -> ends_number rest -> digits (l ++ rest) = (ds, rest).
Proof.
  intros E Hr. revert ds E. induction l as [|b l IH]; intros ds E; cbn [digits app] in *.
  - injection E as <-. destruct rest as [|b rest]; [reflexivity|]. destruct Hr as [Hd _]. cbn. rewrite Hd. reflexivity.
  - destruct (is_digit b); [|discriminate]. destruct (digits l) as [ds' r] eqn:El. injection E as <- ->.
    rewrite (IH ds' eq_refl). reflexivity.
Qed.

(** Decimal digits without a leading zero, and their number. *)
Fixpoint digits_value (acc : Z) (l : list Z) : Z :=
  match l with [] => acc | b :: l' => digits_value (acc * 10 + (b - 48)) l' end.
Definition numeral (l : list Z) (n : Z) : Prop :=
  Forall (fun b => 48 <= b <= 57) l /\ digits_value 0 l = n /\ 
  match l with [] => False | b :: l' => b = 48 -> l' = [] end.

Lemma digits_of_digits l : Forall (fun b => 48 <= b <= 57) l -> digits l = (l, []).
Proof.
  induction 1 as [|b l Hb _ IH]; cbn; [reflexivity|]. unfold is_digit.
  rewrite !(proj2 (Z.leb_le _ _)) by lia. cbn [andb]. rewrite IH. reflexivity.
Qed.

Lemma digits_value_app acc l m : digits_value acc (l ++ m) = digits_value (digits_value acc l) m.
Proof. revert acc. induction l as [|b l IH]; intros acc; cbn; [reflexivity|apply IH]. Qed.

Lemma digits_value_shift acc l : digits_value acc l = acc * 10 ^ Z.of_nat (length l) + digits_value 0 l.
Proof.
  revert acc. induction l as [|b l IH]; intros acc; cbn [digits_value length]; [cbn; lia|].
  rewrite IH, (IH (0 * 10 + (b - 48))). rewrite Nat2Z.inj_succ, Z.pow_succ_r by lia. lia.
Qed.

Lemma parse_digits_value l acc : Forall (fun b => 48 <= b <= 57) l -> parse_digits l acc true = Some (digits_value acc l).
Proof.
  intros Hl. revert acc. induction Hl as [|b l Hb _ IH]; intros acc; cbn; [reflexivity|]. unfold is_digit.
  rewrite !(proj2 (Z.leb_le _ _)) by lia. exact (IH _).
Qed.

(** The digits of a non-negative integer. *)
Lemma digits_of_numeral fuel z acc :
  0 <= z < 2 ^ Z.of_nat fuel ->
  exists l, bytes_of_string (digits_of fuel z acc) = l ++ bytes_of_string acc /\ (fuel <> O -> numeral l z) /\ (fuel = O -> l = []).
Proof.
  revert z acc. induction fuel as [|f IH]; intros z acc Hz; cbn [digits_of].
  { exists []. split; [reflexivity|]. split; [congruence|reflexivity]. }
  change (ascii_of_N (Z.to_N (48 + z mod 10))) with (ascii_of (48 + z mod 10)).
  assert (Hb : byte_of (ascii_of (48 + z mod 10)) = 48 + z mod 10) by (apply byte_of_ascii_of; euclid).
  assert (Hone : z < 10 -> numeral [48 + z mod 10] z).
  { intros Hlt. repeat split; [constructor; [euclid|constructor]|cbn; euclid]. }
  destruct (Z.ltb_spec z 10) as [Hlt|Hge].
  - exists [48 + z mod 10]. cbn [bytes_of_string app]. rewrite Hb. split; [reflexivity|].
    split; [intros _; exact (Hone Hlt)|discriminate].
  - destruct (IH (z / 10) (String (ascii_of (48 + z mod 10)) acc)) as (l & Hl & Hn & H0).
    { rewrite Nat2Z.inj_succ, Z.pow_succ_r in Hz by lia. split; [euclid|]. apply Z.div_lt_upper_bound; lia. }
    exists (l ++ [48 + z mod 10]). rewrite Hl. cbn [bytes_of_string]. rewrite Hb, <- app_assoc. split; [reflexivity|].
    split; [intros _|discriminate].
    destruct f as [|f]; [cbn in Hz; lia|]. destruct (Hn ltac:(lia)) as (Hd & Hv & Hlead). split; [|split].
    + apply Forall_app. split; [exact Hd|]. constructor; [euclid|constructor].
    + rewrite digits_value_app, Hv. cbn. euclid.
    + destruct l as [|b l]; [destruct Hlead|]. cbn [app]. intros Hb48. rewrite (Hlead Hb48) in Hv. cbn in Hv. euclid.
Qed.

Lemma string_of_nonneg z : 0 <= z -> exists l, bytes_of_string (string_of_Z z) = l /\ numeral l z.
Proof.
  intros Hz. unfold string_of_Z. rewrite (proj2 (Z.ltb_ge z 0)) by lia. rewrite (Z.abs_eq z) by lia.
  destruct (digits_of_numeral (S (Z.to_nat (Z.log2 z))) z "") as (l & Hl & Hn & _).
  { split; [lia|]. rewrite Nat2Z.inj_succ, Z2Nat.id by apply Z.log2_nonneg.
    destruct (Z.eq_dec z 0) as [->|]; [reflexivity|]. apply Z.log2_spec. lia. }
  exists l. rewrite Hl. cbn [bytes_of_string]. rewrite app_nil_r. split; [reflexivity|]. exact (Hn ltac:(lia)).
Qed.

Lemma string_of_negative z : z < 0 ->
  exists l, bytes_of_string (string_of_Z z) = 45 :: l /\ bytes_of_string (string_of_Z (- z)) = l /\ numeral l (- z).
Proof.
  intros Hz. unfold string_of_Z. rewrite (proj2 (Z.ltb_lt z 0)) by lia. rewrite (Z.abs_neq z) by lia.
  destruct (string_of_nonneg (- z)) as (l & Hl & Hn); [lia|]. exists l. split; [|split; [exact Hl|exact Hn]].
  rewrite bytes_of_string_app. cbn [bytes_of_string app]. f_equal. rewrite <- Hl. unfold string_of_Z.
  rewrite (proj2 (Z.ltb_ge (- z) 0)), (Z.abs_eq (- z)) by lia. reflexivity.
Qed.

(** *** Visible text *)

Definition visible (l : list Z) : Prop := Forall (fun b => 33 <= b <= 126) l.
Definition all_digits (l : list Z) : Prop := Forall (fun b => 48 <= b <= 57) l.

Lemma bytes_of_visible l : visible l -> bytes_of_string (string_of_bytes l) = l.
Proof.
  induction 1 as [|b l Hb _ IH]; [reflexivity|]. cbn [string_of_bytes bytes_of_string]. rewrite IH, byte_of_ascii_of by lia. reflexivity.
Qed.

Lemma all_digits_visible l : all_digits l -> visible l.
Proof. intros H. eapply Forall_impl; [exact H|]. cbn. lia. Qed.

(** Stripping leaves a visible text alone. *)
Lemma strip_visible l : visible l -> py_strip (string_of_bytes l) = string_of_bytes l.
Proof.
  intros Hl. assert (Ha : Forall (fun b => 0 <= b < 128) l) by (eapply Forall_impl; [exact Hl|]; cbn; lia).
  assert (Hd : forall m, visible m -> drop_space m = m).
  { intros [|b m]; [reflexivity|]. intros [Hm _]%Forall_cons. cbn [drop_space].
    replace (is_space b) with false; [reflexivity|]. symmetry. unfold is_space.
    repeat (apply orb_false_iff; split); first [apply Z.eqb_neq; lia | apply andb_false_iff; rewrite !Z.leb_gt; lia]. }
  unfold py_strip, code_points, code_points_of_bytes. rewrite (bytes_of_visible l Hl), utf8_scan_ascii by (exact Ha || lia).
  rewrite (Hd l Hl), (Hd (rev l)), rev_involutive by (apply Forall_rev; exact Hl). unfold of_code_points. f_equal.
  clear Hl Hd. induction Ha as [|b l Hb _ IH]; [reflexivity|]. cbn [flat_map]. rewrite IH.
  unfold utf8_of_cp. rewrite (proj2 (Z.ltb_lt b 128)) by lia. reflexivity.
Qed.

Lemma frac_part_end rest : ends_number rest -> frac_part rest = ([], rest).
Proof.
  destruct rest as [|b rest]; [reflexivity|]. intros (_ & Hb & _). unfold frac_part.
  repeat (reflexivity || match goal with |- context [match ?x with _ => _ end] => destruct x end); congruence.
Qed.

Lemma exp_part_end rest : ends_number rest -> exp_part rest = ([], rest).
Proof.
  destruct rest as [|b rest]; [reflexivity|]. intros (_ & _ & H1 & H2). unfold exp_part.
  rewrite (proj2 (Z.eqb_neq b 101)), (proj2 (Z.eqb_neq b 69)) by assumption. reflexivity.
Qed.

Lemma int_part_numeral l n rest : numeral l n -> ends_number rest -> int_part (l ++ rest) = Some (l, rest).
Proof.
  intros (Hd & Hv & Hlead) Hr. unfold int_part. rewrite (digits_app l l rest (digits_of_digits l Hd) Hr).
  destruct l as [|b l]; [destruct Hlead|]. cbn [app].
  destruct (Z.eq_dec b 48) as [->|Hb]; [rewrite (Hlead eq_refl); reflexivity|].
  repeat (reflexivity || match goal with |- context [match ?x with _ => _ end] => destruct x end); congruence.
Qed.

Lemma parse_int_numeral sign l n :
  sign = [] \/ sign = [45] -> numeral l n ->
  parse_int (string_of_bytes (sign ++ l)) = Some (match sign with [] => n | _ => - n end).
Proof.
  intros Hsign (Hd & Hv & Hlead). unfold parse_int.
  assert (Hr : Forall (fun b => 45 <= b <= 57) (sign ++ l)).
  { apply Forall_app. split; [destruct Hsign as [->| ->]; repeat constructor; lia|]. eapply Forall_impl; [exact Hd|]. cbn. lia. }
  assert (Hvis : visible (sign ++ l)) by (eapply Forall_impl; [exact Hr|]; cbn; lia). rewrite strip_visible by exact Hvis.
  rewrite bytes_of_visible by exact Hvis. destruct l as [|b l]; [destruct Hlead|]. apply Forall_cons in Hd as [Hb1 Hd].
  assert (Hp : parse_digits (b :: l) 0 false = Some n).
  { cbn [parse_digits]. unfold is_digit. rewrite !(proj2 (Z.leb_le _ _)) by lia. cbn [andb].
    rewrite parse_digits_value by exact Hd. cbn [digits_value] in Hv. rewrite Hv. reflexivity. }
  destruct Hsign as [->| ->]; cbn [app with_sign].
  - rewrite (proj2 (Z.eqb_neq b 45)), (proj2 (Z.eqb_neq b 43)) by lia. exact Hp.
  - cbn [Z.eqb Pos.eqb]. rewrite Hp. reflexivity.
Qed.

Definition short_int (z : Z) : bool := (length (bytes_of_string (string_of_Z (Z.abs z))) <=? max_int_digits)%nat.

(** The text of a number: what it starts with, and how it is read. *)
Record number_text (v : pyval) (l : list Z) : Prop := {
  nt_first : exists b l', l = b :: l' /\ 45 <= b <= 57;
  nt_read : forall rest, ends_number rest -> number (l ++ rest) = Some (Ok v, rest);
  nt_literal : forall rest, literal literals (l ++ rest) = None;
}.

Lemma number_of_numeral sign l n rest :
  sign = [] \/ sign = [45] -> numeral l n -> (length l <= max_int_digits)%nat -> ends_number rest ->
  number ((sign ++ l) ++ rest) = Some (Ok (VInt (match sign with [] => n | _ => - n end)), rest).
Proof.
  intros Hsign Hn Hlen Hr. pose proof Hn as (Hd & _ & Hlead). unfold number.
  assert (Hs : (match (sign ++ l) ++ rest with 45 :: r => ([45], r) | _ => ([], (sign ++ l) ++ rest) end) = (sign, l ++ rest)).
  { destruct Hsign as [->| ->]; [|reflexivity]. destruct l as [|b l]; [destruct Hlead|].
    apply Forall_cons in Hd as [Hb _]. cbn [app].
    repeat (reflexivity || match goal with |- context [match ?x with _ => _ end] => destruct x end); lia. }
  rewrite Hs. clear Hs.
  rewrite (int_part_numeral l n rest Hn Hr), (frac_part_end rest Hr), (exp_part_end rest Hr).
  rewrite (proj2 (Nat.ltb_ge _ _)) by exact Hlen. unfold py_int. rewrite (parse_int_numeral sign l n Hsign Hn).
  destruct Hsign as [->| ->]; reflexivity.
Qed.

Lemma literal_digit b m : 48 <= b <= 57 -> literal literals (b :: m) = None /\ literal literals (45 :: b :: m) = None.
Proof.
  intros Hb. set (t := literals). vm_compute in t. subst t. cbn [literal strip_prefix].
  rewrite !(proj2 (Z.eqb_neq _ b)) by lia. split; reflexivity.
Qed.

Lemma int_text z : short_int z = true -> number_text (VInt z) (bytes_of_string (string_of_Z z)).
Proof.
  unfold short_int. intros Hs%Nat.leb_le. destruct (Z.ltb_spec z 0) as [Hz|Hz].
  - destruct (string_of_negative z Hz) as (l & -> & El & Hn). rewrite Z.abs_neq, El in Hs by lia.
    pose proof Hn as (Hd & _ & Hlead). split.
    + exists 45, l. split; [reflexivity|lia].
    + intros rest Hr. change (45 :: l) with ([45] ++ l). rewrite (number_of_numeral [45] l (- z) rest) by auto.
      rewrite Z.opp_involutive. reflexivity.
    + intros rest. destruct l as [|b l]; [destruct Hlead|]. apply Forall_cons in Hd as [Hb _]. apply literal_digit, Hb.
  - destruct (string_of_nonneg z Hz) as (l & El & Hn). rewrite Z.abs_eq, El in Hs by lia. rewrite El.
    pose proof Hn as (Hd & _ & Hlead). destruct l as [|b l]; [destruct Hlead|]. pose proof Hd as Hd'. apply Forall_cons in Hd' as [Hb _]. split.
    + exists b, l. split; [reflexivity|lia].
    + intros rest Hr. exact (number_of_numeral [] (b :: l) z rest (or_introl eq_refl) Hn Hs Hr).
    + intros rest. apply literal_digit, Hb.
Qed.

(** *** Floats whose text reads back *)

Lemma digits_app_rest l ds r rest : digits l = (ds, r) -> ends_number rest -> digits (l ++ rest) = (ds, r ++ rest).
Proof.
  intros E Hr. revert ds r E. induction l as [|b l IH]; intros ds r E; cbn [digits app] in *.
  - injection E as <- <-. exact (digits_app [] [] rest eq_refl Hr).
  - destruct (is_digit b); [|injection E as <- <-; reflexivity].
    destruct (digits l) as [ds' r'] eqn:El. injection E as <- <-. rewrite (IH ds' r' eq_refl). reflexivity.
Qed.

Lemma int_part_app l ip r rest : int_part l = Some (ip, r) -> ends_number rest -> int_part (l ++ rest) = Some (ip, r ++ rest).
Proof.
  unfold int_part. intros E Hr. destruct (digits l) as [ds r'] eqn:Ed. rewrite (digits_app_rest _ _ _ _ Ed Hr).
  destruct ds as [|d ds]; [discriminate|]. destruct l as [|b l]; [discriminate|]. cbn [app].
  destruct (Z.eq_dec d 48) as [->|Hd].
  - injection E as <- <-. reflexivity.
  - repeat match goal with
    | _ => progress cbn
    | H : Some (?x, ?y) = Some (?x', ?y') |- _ => injection H as <- <-; reflexivity
    | H : context [match ?x with _ => _ end] |- _ => is_var x; destruct x
    end; congruence.
Qed.

Lemma frac_part_dot r : frac_part (46 :: r) = match digits r with ([], _) => ([], 46 :: r) | (ds, r') => (46 :: ds, r') end.
Proof. reflexivity. Qed.

Lemma frac_part_other b r : b <> 46 -> frac_part (b :: r) = ([], b :: r).
Proof.
  intros Hb. unfold frac_part.
  repeat (reflexivity || match goal with |- context [match ?x with _ => _ end] => destruct x end); congruence.
Qed.

Lemma frac_part_app l fp r rest : frac_part l = (fp, r) -> ends_number rest -> frac_part (l ++ rest) = (fp, r ++ rest).
Proof.
  intros E Hr. destruct l as [|b l]; [injection E as <- <-; exact (frac_part_end rest Hr)|]. cbn [app].
  destruct (Z.eq_dec b 46) as [->|Hb].
  - rewrite frac_part_dot in *. destruct (digits l) as [ds r'] eqn:Ed. rewrite (digits_app_rest _ _ _ _ Ed Hr).
    destruct ds; injection E as <- <-; reflexivity.
  - rewrite frac_part_other in * by exact Hb. injection E as <- <-. reflexivity.
Qed.

Lemma exp_part_app l ep rest : exp_part l = (ep, []) -> ends_number rest -> exp_part (l ++ rest) = (ep, rest).
Proof.
  intros E Hr. destruct l as [|e l]; [injection E as <-; exact (exp_part_end rest Hr)|]. cbn [app].
  unfold exp_part in *. destruct ((e =? 101) || (e =? 69)); [|discriminate].
  destruct l as [|s l]; [discriminate|]. cbn [app].
  destruct ((s =? 43) || (s =? 45)).
  - destruct (digits l) as [ds r'] eqn:Ed. rewrite (digits_app_rest _ _ _ _ Ed Hr). destruct ds; [discriminate|].
    injection E as <- ->. reflexivity.
  - change (s :: l ++ rest) with ((s :: l) ++ rest).
    destruct (digits (s :: l)) as [ds r'] eqn:Ed. rewrite (digits_app_rest _ _ _ _ Ed Hr). destruct ds; [discriminate|].
    injection E as <- ->. reflexivity.
Qed.

(** [number] after the sign. *)
Definition number_body (sign l1 : list Z) : option (result pyval * list Z) :=
  match int_part l1 with
  | None => None
  | Some (ip, l2) =>
      let (fp, l3) := frac_part l2 in
      let (ep, l4) := exp_part l3 in
      match fp, ep with
      | [], [] =>
          Some (if (max_int_digits <? length ip)%nat
                then Raise (ValueError "Exceeds the limit (4300 digits) for integer string conversion")
                else rbind (py_int (VStr (string_of_bytes (sign ++ ip)))) (fun z => Ok (VInt z)), l4)
      | _, _ => Some (rbind (py_float (VStr (string_of_bytes (sign ++ ip ++ fp ++ ep)))) (fun f => Ok (VFloat f)), l4)
      end
  end.

Lemma number_minus r : number (45 :: r) = number_body [45] r.
Proof. reflexivity. Qed.
Lemma number_plain b r : b <> 45 -> number (b :: r) = number_body [] (b :: r).
Proof.
  intros Hb. unfold number, number_body.
  assert (E : (match b :: r with 45 :: r => ([45], r) | _ => ([], b :: r) end) = ([], b :: r)).
  { repeat (reflexivity || match goal with |- context [match ?x with _ => _ end] => destruct x end); congruence. }
  rewrite E. reflexivity.
Qed.

Lemma number_body_app sign l v rest :
  number_body sign l = Some (v, []) -> ends_number rest -> number_body sign (l ++ rest) = Some (v, rest).
Proof.
  unfold number_body. intros E Hr. destruct (int_part l) as [[ip l2]|] eqn:Ei; [|discriminate].
  rewrite (int_part_app _ _ _ _ Ei Hr). destruct (frac_part l2) as [fp l3] eqn:Ef. rewrite (frac_part_app _ _ _ _ Ef Hr).
  destruct (exp_part l3) as [ep l4] eqn:Ee.
  assert (l4 = []) as -> by (destruct fp, ep; congruence).
  rewrite (exp_part_app _ _ _ Ee Hr). destruct fp, ep; injection E as <-; reflexivity.
Qed.

Lemma number_body_first sign l v r : number_body sign l = Some (v, r) -> exists b l', l = b :: l' /\ 48 <= b <= 57.
Proof.
  unfold number_body, int_part. destruct l as [|b l]; [discriminate|]. cbn [digits].
  unfold is_digit. destruct ((48 <=? b) && (b <=? 57)) eqn:Eb; [|discriminate]. intros _. bool_prop. exists b, l. split; [reflexivity|lia].
Qed.

Lemma number_reads l v : number l = Some (Ok v, []) -> number_text v l.
Proof.
  intros E. destruct l as [|b l]; [discriminate|]. destruct (Z.eq_dec b 45) as [->|Hb].
  - rewrite number_minus in E. destruct (number_body_first _ _ _ _ E) as (c & l' & -> & Hc). split.
    + eexists _, _. split; [reflexivity|lia].
    + intros rest Hr. cbn [app]. rewrite number_minus. exact (number_body_app _ _ _ rest E Hr).
    + intros rest. exact (proj2 (literal_digit c (l' ++ rest) Hc)).
  - rewrite number_plain in E by exact Hb. destruct (number_body_first _ _ _ _ E) as (c & l' & Ec & Hc). injection Ec as -> ->. split.
    + eexists _, _. split; [reflexivity|lia].
    + intros rest Hr. cbn [app]. rewrite number_plain by lia. exact (number_body_app _ (c :: l') _ rest E Hr).
    + intros rest. exact (proj1 (literal_digit c (l' ++ rest) Hc)).
Qed.


(** ** The text of a float *)

(** A decimal text: the digits before the point, those after it, and an exponent. *)
Definition fraction_text (fd : list Z) : list Z := match fd with [] => [] | _ => 46 :: fd end.
Definition exponent_text (x : option (bool * list Z)) : list Z :=
  match x with None => [] | Some (negative, ed) => 101 :: (if negative : bool then 45 else 43) :: ed end.
Definition exponent_value (x : option (bool * list Z)) : Z :=
  match x with None => 0 | Some (negative, ed) => if negative : bool then - digits_value 0 ed else digits_value 0 ed end.

Record decimal_text (ip fd : list Z) (x : option (bool * list Z)) : Prop := {
  dt_int : all_digits ip /\ ip <> [] /\ (forall r, ip = 48 :: r -> r = []);
  dt_fraction : all_digits fd;
  dt_exponent : match x with None => fd <> [] | Some (_, ed) => all_digits ed /\ ed <> [] end;
}.

Definition text_of (ip fd : list Z) (x : option (bool * list Z)) : list Z := ip ++ fraction_text fd ++ exponent_text x.

Lemma exponent_visible x : match x with None => True | Some (_, ed) => all_digits ed end -> visible (exponent_text x).
Proof.
  destruct x as [[[] ed]|]; intros H; [| |constructor]; (constructor; [lia|]); (constructor; [lia|exact (all_digits_visible ed H)]).
Qed.

Lemma text_visible ip fd x : decimal_text ip fd x -> visible (text_of ip fd x).
Proof.
  intros [(Hi & _) Hf Hx]. unfold text_of. apply Forall_app. split; [by apply all_digits_visible|]. apply Forall_app. split.
  - destruct fd; [constructor|]. constructor; [lia|exact (all_digits_visible _ Hf)].
  - apply exponent_visible. destruct x as [[? ?]|]; tauto.
Qed.

Lemma digits_then l rest : all_digits l -> match rest with [] => True | b :: _ => is_digit b = false end -> digits (l ++ rest) = (l, rest).
Proof.
  intros H Hr. induction H as [|b l Hb _ IH]; cbn [app].
  - destruct rest as [|b rest]; [reflexivity|]. cbn. by rewrite Hr.
  - cbn [digits]. unfold is_digit. rewrite !(proj2 (Z.leb_le _ _)) by lia. cbn [andb]. by rewrite IH.
Qed.

Lemma after_int fd x : match fraction_text fd ++ exponent_text x with [] => True | b :: _ => is_digit b = false end.
Proof. destruct fd; [|reflexivity]. by destruct x as [[? ?]|]. Qed.

Lemma after_fraction x : match exponent_text x with [] => True | b :: _ => is_digit b = false end.
Proof. by destruct x as [[? ?]|]. Qed.

Lemma int_part_text ip fd x : decimal_text ip fd x -> int_part (text_of ip fd x) = Some (ip, fraction_text fd ++ exponent_text x).
Proof.
  intros [(Hi & Hne & Hlead) _ _]. unfold int_part, text_of. rewrite (digits_then ip _ Hi (after_int fd x)).
  destruct ip as [|b ip]; [done|]. cbn [app]. destruct (Z.eq_dec b 48) as [->|Hb].
  - rewrite (Hlead ip eq_refl). reflexivity.
  - repeat (reflexivity || match goal with |- context [match ?x with _ => _ end] => destruct x end); congruence.
Qed.

Lemma frac_part_text fd x : all_digits fd -> frac_part (fraction_text fd ++ exponent_text x) = (fraction_text fd, exponent_text x).
Proof.
  intros Hf. destruct fd as [|b fd]; [by destruct x as [[? ?]|]|]. cbn [fraction_text app]. rewrite frac_part_dot.
  change (b :: fd ++ exponent_text x) with ((b :: fd) ++ exponent_text x). by rewrite (digits_then _ _ Hf (after_fraction x)).
Qed.

Lemma exp_part_text x : match x with None => True | Some (_, ed) => all_digits ed /\ ed <> [] end -> exp_part (exponent_text x) = (exponent_text x, []).
Proof.
  destruct x as [[negative ed]|]; [|done]. intros [Hd Hne]. unfold exp_part, exponent_text.
  change ((101 =? 101) || (101 =? 69)) with true. cbv iota.
  assert (Hsg : ((if negative then 45 else 43) =? 43) || ((if negative then 45 else 43) =? 45) = true) by by destruct negative. rewrite Hsg.
  rewrite <- (app_nil_r ed) at 1. rewrite (digits_then ed [] Hd I). by destruct ed.
Qed.

(** *** The text as [float] reads it *)

Lemma span_digits_then l rest : all_digits l -> match rest with [] => True | b :: _ => is_digit b || (b =? 95) = false end ->
  span_digits (l ++ rest) = (l, rest).
Proof.
  intros H Hr. induction H as [|b l Hb _ IH]; cbn [app].
  - destruct rest as [|b rest]; [reflexivity|]. cbn. by rewrite Hr.
  - cbn [span_digits]. unfold is_digit. rewrite !(proj2 (Z.leb_le _ _)) by lia. cbn [andb orb]. by rewrite IH.
Qed.

Lemma parse_digits_all l : all_digits l -> l <> [] -> parse_digits l 0 false = Some (digits_value 0 l).
Proof.
  intros [|b l' Hb Hl]; [done|]. intros _. cbn [parse_digits]. unfold is_digit. rewrite !(proj2 (Z.leb_le _ _)) by lia. cbn [andb].
  by rewrite parse_digits_value.
Qed.

Lemma parse_exp_text x : match x with None => True | Some (_, ed) => all_digits ed /\ ed <> [] end ->
  parse_exp (exponent_text x) = Some (exponent_value x).
Proof.
  destruct x as [[negative ed]|]; [|done]. intros [Hd Hne]. cbn [exponent_text parse_exp].
  change ((101 =? 101) || (101 =? 69)) with true. cbv iota. destruct negative; cbn [with_sign Z.eqb Pos.eqb exponent_value];
    by rewrite (parse_digits_all ed Hd Hne).
Qed.

Lemma frac_digits_all l : all_digits l -> frac_digits l = Z.of_nat (length l).
Proof.
  unfold frac_digits. intros H. f_equal. induction H as [|b l Hb _ IH]; [done|]. cbn [List.filter].
  assert (is_digit b = true) as -> by (unfold is_digit; rewrite !(proj2 (Z.leb_le _ _)) by lia; done). cbn [length]. by rewrite IH.
Qed.

Lemma parse_mantissa_text ip fd x : decimal_text ip fd x ->
  parse_mantissa (text_of ip fd x) = Some (float_of_dec false (digits_value 0 (ip ++ fd)) (exponent_value x - Z.of_nat (length fd))).
Proof.
  intros [(Hi & Hne & _) Hf Hx]. unfold parse_mantissa, text_of.
  rewrite (span_digits_then ip) by (first [exact Hi | destruct fd; [by destruct x as [[? ?]|]|reflexivity]]).
  assert (Hsp : match fraction_text fd ++ exponent_text x with
                | b :: r1 => if b =? 46 then span_digits r1 else ([], fraction_text fd ++ exponent_text x)
                | [] => ([], fraction_text fd ++ exponent_text x) end = (fd, exponent_text x)).
  { destruct fd as [|b fd]; [by destruct x as [[? ?]|]|]. cbn [fraction_text app Z.eqb Pos.eqb].
    change (b :: fd ++ exponent_text x) with ((b :: fd) ++ exponent_text x). apply span_digits_then; [done|by destruct x as [[? ?]|]]. }
  rewrite Hsp. clear Hsp.
  assert (Hx' : match x with None => True | Some (_, ed) => all_digits ed /\ ed <> [] end) by by destruct x as [[? ?]|].
  rewrite (parse_exp_text x Hx'), (frac_digits_all fd Hf). rewrite digits_value_app, (digits_value_shift (digits_value 0 ip) fd).
  destruct ip as [|b ip]; [done|]. rewrite (parse_digits_all (b :: ip)) by done. destruct fd as [|c fd]; [by destruct x as [[? ?]|]|].
  by rewrite (parse_digits_all (c :: fd)).
Qed.

Lemma unsigned_of_digit b l : 48 <= b <= 57 -> parse_unsigned_float (b :: l) = parse_mantissa (b :: l).
Proof.
  intros Hb. assert (Hc : b = 48 \/ b = 49 \/ b = 50 \/ b = 51 \/ b = 52 \/ b = 53 \/ b = 54 \/ b = 55 \/ b = 56 \/ b = 57) by lia.
  by repeat (destruct Hc as [->|Hc]; [reflexivity|]); subst b.
Qed.

(** What a decimal text is read as, after its sign. *)
Lemma number_body_text sign ip fd x : sign = [] \/ sign = [45] -> decimal_text ip fd x ->
  let f := float_of_dec false (digits_value 0 (ip ++ fd)) (exponent_value x - Z.of_nat (length fd)) in
  number_body sign (text_of ip fd x) = Some (Ok (VFloat (match sign with [] => f | _ => SFopp f end)), []).
Proof.
  intros Hsign Hd f. pose proof Hd as [(Hi & Hne & _) Hf Hx]. unfold number_body. rewrite (int_part_text ip fd x Hd), (frac_part_text fd x Hf).
  rewrite (exp_part_text x) by by destruct x as [[? ?]|].
  assert (Hread : py_float (VStr (string_of_bytes (sign ++ text_of ip fd x))) = Ok (match sign with [] => f | _ => SFopp f end)).
  { pose proof (text_visible ip fd x Hd) as Hv. unfold py_float.
    rewrite strip_visible, bytes_of_visible by (destruct Hsign as [->| ->]; [exact Hv|constructor; [lia|exact Hv]]).
    pose proof (parse_mantissa_text ip fd x Hd) as Hm. fold f in Hm. unfold text_of in *. destruct ip as [|b ip]; [done|].
    apply Forall_cons in Hi as [Hb _]. cbn [app] in *. destruct Hsign as [->| ->]; cbn [app with_sign].
    - rewrite (proj2 (Z.eqb_neq b 45)), (proj2 (Z.eqb_neq b 43)) by lia. by rewrite unsigned_of_digit, Hm.
    - change (45 =? 45) with true. cbv iota. by rewrite unsigned_of_digit, Hm. }
  unfold text_of in Hread. rewrite Hread. destruct fd as [|c fd]; [|reflexivity]. destruct x as [[? ?]|]; [reflexivity|done].
Qed.

(** *** The layout of [repr] *)

Lemma bytes_of_take n s : bytes_of_string (string_take n s) = take n (bytes_of_string s).
Proof.
  unfold string_take. revert n. induction s as [|c s IH]; intros [|n]; try reflexivity. cbn [String.substring bytes_of_string]. rewrite IH. reflexivity.
Qed.

Lemma length_of_bytes s : length (bytes_of_string s) = String.length s.
Proof. induction s as [|c s IH]; [reflexivity|]. cbn. by rewrite IH. Qed.

Lemma substring_all s k : (String.length s <= k)%nat -> String.substring 0 k s = s.
Proof.
  revert k. induction s as [|c s IH]; intros [|k] H; try reflexivity; [cbn in H; lia|]. cbn. rewrite IH; [done|]. cbn in H. lia.
Qed.

Lemma bytes_of_drop n s : bytes_of_string (string_drop n s) = drop n (bytes_of_string s).
Proof.
  unfold string_drop. revert s. induction n as [|n IH]; intros s; [|destruct s as [|c s]; [reflexivity|]].
  - rewrite Nat.sub_0_r, substring_all by lia. reflexivity.
  - cbn [String.substring String.length bytes_of_string drop]. rewrite <- IH. reflexivity.
Qed.

Lemma bytes_of_zeros n : bytes_of_string (zeros n) = repeat 48 n.
Proof. induction n as [|n IH]; [reflexivity|]. cbn [zeros bytes_of_string repeat]. by rewrite IH. Qed.

Lemma zeros_digits n : all_digits (repeat 48 n).
Proof. induction n; constructor; [lia|done]. Qed.

Lemma zeros_value n acc : digits_value acc (repeat 48 n) = acc * 10 ^ Z.of_nat n.
Proof.
  revert acc. induction n as [|n IH]; intros acc; cbn [repeat digits_value]; [cbn; lia|]. rewrite IH.
  rewrite Nat2Z.inj_succ, Z.pow_succ_r by lia. ring.
Qed.

(** The text of an exponent: at least two digits. *)
Lemma exponent_digits z : 0 <= z ->
  let es := string_of_Z z in
  let ed := bytes_of_string (if Z.of_nat (String.length es) <? 2 then "0" +:+ es else es) in
  all_digits ed /\ ed <> [] /\ digits_value 0 ed = z.
Proof.
  intros Hz es ed. destruct (string_of_nonneg z Hz) as (l & El & Hd & Hv & Hlead). subst ed. change (string_of_Z z) with es in El.
  assert (Hne : l <> []) by by destruct l.
  destruct (_ <? _); [|rewrite El; by split_and!]. rewrite bytes_of_string_app, El. split; [constructor; [change (byte_of "0"%char) with 48; lia|done]|].
  by split.
Qed.

Lemma layout_text n q : 0 < n -> exists ip fd x, decimal_text ip fd x /\
  bytes_of_string (layout (string_of_Z n) q) = text_of ip fd x /\
  float_of_dec false (digits_value 0 (ip ++ fd)) (exponent_value x - Z.of_nat (length fd)) = float_of_dec false n q.
Proof.
  intros Hn. destruct (string_of_nonneg n ltac:(lia)) as (l & El & Hd & Hv & Hlead). destruct l as [|b l']; [done|].
  assert (Hb : b <> 48). { intros ->. rewrite (Hlead eq_refl) in Hv. cbn in Hv. lia. }
  pose proof (length_of_bytes (string_of_Z n)) as Hlen. rewrite El in Hlen. cbn [length] in Hlen.
  assert (Hfirst : forall r m, b :: m = 48 :: r -> r = []) by congruence.
  unfold layout. rewrite <- Hlen. set (e10 := q + Z.of_nat (S (length l')) - 1). set (ds := string_of_Z n) in *.
  destruct ((e10 <? -4) || (16 <=? e10)); [|destruct (Z.ltb_spec e10 0) as [Hneg|Hpos]; [|destruct (Z.leb_spec (Z.of_nat (S (length l'))) (e10 + 1)) as [Hint|Hmid]]].
  - destruct (exponent_digits (Z.abs e10) ltac:(lia)) as (Hed & Hene & Hev). set (es := string_of_Z (Z.abs e10)) in *.
    set (ed := bytes_of_string (if Z.of_nat (String.length es) <? 2 then "0" +:+ es else es)) in *. 
    exists [b], l', (Some (e10 <? 0, ed)). apply Forall_cons in Hd as [Hb1 Hd]. split; [|split].
    + split; [|done|done]. split; [constructor; [lia|constructor]|]. split; [done|]. intros r [= -> _]. done.
    + rewrite !bytes_of_string_app, bytes_of_take, El. unfold text_of, exponent_text. cbn [take app]. f_equal.
      assert (Hfrac : bytes_of_string (string_drop 1 ds) = l') by (rewrite bytes_of_drop, El; reflexivity).
      rewrite app_assoc. f_equal.
      * destruct (String.eqb_spec (string_drop 1 ds) "") as [E|E].
        -- rewrite E in Hfrac. by rewrite <- Hfrac.
        -- rewrite bytes_of_string_app, Hfrac. destruct l'; [|done]. destruct (string_drop 1 ds); [done|discriminate].
      * by destruct (e10 <? 0).
    + cbn [app exponent_value]. rewrite Hv, Hev. f_equal. destruct (Z.ltb_spec e10 0); lia.
  - exists [48], (repeat 48 (Z.to_nat (- e10 - 1)) ++ b :: l'), None. split; [|split].
    + split; [split; [constructor; [lia|constructor]|]; split; [done|]; by intros r [= <-]|apply Forall_app; split; [apply zeros_digits|done]|by destruct (repeat _ _)].
    + rewrite !bytes_of_string_app, bytes_of_zeros, El. unfold text_of. cbn [exponent_text]. rewrite app_nil_r.
      destruct (repeat 48 (Z.to_nat (- e10 - 1)) ++ b :: l') eqn:E; [by destruct (repeat _ _)|reflexivity].
    + change ([48] ++ ?m) with (48 :: m). cbn [digits_value]. rewrite digits_value_app, zeros_value. rewrite Z.mul_0_l, Hv. f_equal.
      rewrite length_app, repeat_length. cbn [length exponent_value]. lia.
  - exists (b :: l' ++ repeat 48 (Z.to_nat (e10 + 1 - Z.of_nat (S (length l'))))), [48], None. apply Forall_cons in Hd as [Hb1 Hd]. split; [|split].
    + split; [|constructor; [lia|constructor]|done]. split; [constructor; [lia|apply Forall_app; split; [done|apply zeros_digits]]|]. split; [done|]. intros r [= -> _]. done.
    + rewrite !bytes_of_string_app, bytes_of_zeros, El. unfold text_of. cbn [app fraction_text exponent_text]. by rewrite <- app_assoc.
    + assert (Hq : 0 <= q) by lia. replace (e10 + 1 - Z.of_nat (S (length l'))) with q by lia.
      change (b :: l' ++ repeat 48 (Z.to_nat q)) with ((b :: l') ++ repeat 48 (Z.to_nat q)). rewrite !digits_value_app, Hv, zeros_value.
      cbn [digits_value exponent_value length]. replace (n * 10 ^ Z.of_nat (Z.to_nat q) * 10 + (48 - 48)) with (10 * (n * 10 ^ q)) by (rewrite Z2Nat.id by lia; ring).
      rewrite float_of_dec_ten by (pose proof (pow10_pos q Hq); nia). change (0 - Z.of_nat 1 + 1) with 0. unfold float_of_dec.
      rewrite (proj2 (Z.leb_le 0 q) Hq). cbn [Z.leb Z.compare]. by rewrite Z.mul_1_r.
  - set (k := Z.to_nat (e10 + 1)). assert (Hk : (0 < k < S (length l'))%nat) by lia.
    exists (take k (b :: l')), (drop k (b :: l')), None. split; [|split].
    + assert (Hne : drop k (b :: l') <> []). { intros E. apply (f_equal length) in E. rewrite length_drop in E. cbn [length] in E. lia. }
      split; [split; [by apply Forall_take|]|by apply Forall_drop|done]. destruct k as [|k]; [lia|]. split; [done|]. cbn [take]. by intros r [= -> _].
    + rewrite !bytes_of_string_app, bytes_of_take, bytes_of_drop, El. unfold text_of. cbn [exponent_text]. rewrite app_nil_r.
      destruct (drop k (b :: l')) eqn:E; [|done]. apply (f_equal length) in E. rewrite length_drop in E. cbn [length] in E. lia.
    + rewrite take_drop, Hv. f_equal. rewrite length_drop. cbn [length exponent_value]. lia.
Qed.

(** A float that a double can be: zero, infinite, not a number, or finite with a canonical significand and exponent. *)
Definition is_double (f : spec_float) : bool := valid_binary prec emax f.

(** Its text is a number, and reads back as it was. *)
Lemma finite_reads s m e : is_double (S754_finite s m e) = true ->
  number (bytes_of_string (json_float (S754_finite s m e))) = Some (Ok (VFloat (S754_finite s m e)), []).
Proof.
  intros Hb. pose proof (decimal_reads m e Hb) as Hr. cbn [json_float float_repr]. destruct (frac_of m e) as [num den].
  destruct (shortest 17 1 num den (exp10 num den) (S754_finite false m e)) as [n q]. destruct (strip_zeros 20 n q) as [n' q'].
  destruct Hr as [Hn Hr]. destruct (layout_text n' q' Hn) as (ip & fd & x & Hd & Ht & Hv). rewrite Hr in Hv.
  pose proof (number_body_text (if s then [45] else []) ip fd x ltac:(destruct s; auto) Hd) as Hbody. cbv zeta in Hbody. rewrite Hv in Hbody.
  destruct s.
  - rewrite bytes_of_string_app, Ht. change (bytes_of_string "-" ++ text_of ip fd x) with (45 :: text_of ip fd x). by rewrite number_minus, Hbody.
  - rewrite Ht. destruct Hd as [(Hi & Hne & _) _ _]. unfold text_of in *. destruct ip as [|b ip]; [done|]. apply Forall_cons in Hi as [Hb' _].
    cbn [app] in *. by rewrite number_plain, Hbody by lia.
Qed.
