(* ===== verification/JsonRoundTrip.v ===== *)
(** * [json.loads] of [json.dumps]

    What the store reads back from a payload column: decoding the text that
    [json_text] writes gives [json_norm] of the value.  The texts of numbers are
    read in [JsonNumbers]. *)

From Stdlib Require Import ZArith Lia Bool List Ascii String.
From Stdlib.Floats Require Import SpecFloat.
From stdpp Require Import base list option strings sorting.
From S2P Require Import Prelude PyFloat Text PyValue JsonParse JsonNumbers CborCodec Json Store.

Open Scope Z_scope.

(** ** Code points and their bytes *)

Definition scalar (c : Z) : Prop := 0 <= c <= 1114111 /\ is_surrogate c = false.

Lemma utf8_next_spec l c r :
  Forall (fun b => 0 <= b < 256) l -> utf8_next l = Some (c, r) -> l = utf8_of_cp c ++ r /\ 0 <= c <= 1114111.
Proof.
  intros Hl E. unfold utf8_next in E. destruct l as [|b0 r0]; [discriminate|]. apply Forall_cons in Hl as [H0 Hl].
  unfold utf8_of_cp. destruct (b0 <? 128) eqn:E0.
  { injection E as <- <-. rewrite E0. bool_prop. split; [reflexivity|lia]. }
  destruct r0 as [|b1 r1]; [discriminate|]. unfold is_cont in E. apply Forall_cons in Hl as [H1 Hl].
  destruct (negb _) eqn:E1 in E; [discriminate|]. apply negb_false_iff in E1.
  destruct ((194 <=? b0) && (b0 <? 224)) eqn:E2.
  { injection E as <- <-. bool_prop. rewrite (proj2 (Z.ltb_ge _ _)), (proj2 (Z.ltb_lt _ _)) by lia.
    split; [|lia]. cbn [app]. f_equal; [euclid|f_equal; euclid]. }
  destruct r1 as [|b2 r2]; [discriminate|]. apply Forall_cons in Hl as [Hb2 Hl].
  destruct (negb _) eqn:E3 in E; [discriminate|]. apply negb_false_iff in E3.
  destruct ((224 <=? b0) && (b0 <? 240)) eqn:E4.
  { destruct (_ <? 2048) eqn:E5 in E; [discriminate|]. injection E as <- <-. bool_prop.
    rewrite (proj2 (Z.ltb_ge _ 128)), (proj2 (Z.ltb_ge _ 2048)), (proj2 (Z.ltb_lt _ 65536)) by lia.
    split; [|lia]. cbn [app]. f_equal; [euclid|f_equal; [euclid|f_equal; euclid]]. }
  destruct r2 as [|b3 r3]; [discriminate|]. apply Forall_cons in Hl as [Hb3 Hl].
  destruct (negb _) eqn:E5 in E; [discriminate|]. apply negb_false_iff in E5.
  destruct ((240 <=? b0) && (b0 <? 245)) eqn:E6; [|discriminate].
  destruct (_ || _) eqn:E7 in E; [discriminate|]. injection E as <- <-. bool_prop.
  rewrite (proj2 (Z.ltb_ge _ 128)), (proj2 (Z.ltb_ge _ 2048)), (proj2 (Z.ltb_ge _ 65536)) by lia.
  split; [|lia]. cbn [app]. f_equal; [euclid|f_equal; [euclid|f_equal; [euclid|f_equal; euclid]]].
Qed.

Lemma utf8_scan_spec fuel l cs :
  Forall (fun b => 0 <= b < 256) l -> utf8_scan fuel l = Some cs ->
  l = flat_map utf8_of_cp cs /\ Forall (fun c => 0 <= c <= 1114111) cs.
Proof.
  revert l cs. induction fuel as [|f IH]; intros l cs Hl E; cbn [utf8_scan] in E.
  { destruct l; [injection E as <-; split; [reflexivity|constructor]|discriminate]. }
  destruct l as [|b l']; [injection E as <-; split; [reflexivity|constructor]|].
  destruct (utf8_next (b :: l')) as [[c r]|] eqn:En; [|discriminate].
  destruct (utf8_next_spec _ _ _ Hl En) as [Hc Hr]. rewrite Hc in Hl. apply Forall_app in Hl as [_ Hlr].
  destruct (utf8_scan f r) as [cs'|] eqn:Es; [|discriminate]. injection E as <-.
  destruct (IH _ _ Hlr Es) as [-> Hcs]. split; [exact Hc|constructor; [exact Hr|exact Hcs]].
Qed.

(** A text that has an encoding: its code points are scalars, and make up its bytes. *)
Lemma valid_text s b :
  encode_utf8 s = Ok b ->
  bytes_of_string s = flat_map utf8_of_cp (code_points s) /\ Forall scalar (code_points s).
Proof.
  unfold encode_utf8, utf8_valid, code_points. intros E.
  destruct (code_points_of_bytes (bytes_of_string s)) as [cs|] eqn:Ec; [|discriminate].
  destruct (forallb _ cs) eqn:Ef; [|discriminate].
  unfold code_points_of_bytes in Ec. apply utf8_scan_spec in Ec as [Hb Hcs]; [|apply bytes_of_string_range].
  split; [exact Hb|]. rewrite forallb_forall in Ef. rewrite Forall_forall in *. intros c Hc. split; [auto|].
  apply negb_true_iff, Ef, list_elem_of_In, Hc.
Qed.

(** ** Escapes *)

Lemma hex_value_digit d : 0 <= d < 16 -> hex_value (byte_of (hex_digit d)) = Some d.
Proof.
  intros H. assert (Hd : d ∈ map Z.of_nat (seq 0 16)).
  { apply list_elem_of_In, in_map_iff. exists (Z.to_nat d). split; [lia|]. apply in_seq. lia. }
  assert (HF : Forall (fun d => hex_value (byte_of (hex_digit d)) = Some d) (map Z.of_nat (seq 0 16))).
  { repeat (constructor; [vm_compute; reflexivity|]). constructor. }
  rewrite Forall_forall in HF. apply HF, Hd.
Qed.

Lemma hex_unit_of n : 0 <= n < 65536 ->
  exists a b c d, bytes_of_string (hex4 n) = [a; b; c; d] /\ hex_unit a b c d = Some n.
Proof.
  intros Hn. do 4 eexists. split; [reflexivity|]. unfold hex_unit.
  rewrite !hex_value_digit by (apply Z.mod_pos_bound; lia). f_equal.
  rewrite !Z.shiftr_div_pow2 by lia. change (2 ^ 12) with 4096. change (2 ^ 8) with 256. change (2 ^ 4) with 16.
  change (2 ^ 0) with 1. euclid.
Qed.

(** Reading the escape of a character. *)
Lemma string_body_escape c rest s r :
  scalar c -> string_body rest = Some (s, r) ->
  string_body (bytes_of_string (json_escape c) ++ rest) = Some (utf8_of_cp c ++ s, r).
Proof.
  intros [Hc Hs] E. unfold json_escape. unfold is_surrogate in Hs.
  destruct ((c =? 34) || (c =? 92)) eqn:E1.
  { apply orb_true_iff in E1 as [E1|E1]; apply Z.eqb_eq in E1; subst c; cbn; rewrite E; reflexivity. }
  destruct (c =? 10) eqn:E2; [bool_prop; subst; cbn; rewrite E; reflexivity|].
  destruct (c =? 13) eqn:E3; [bool_prop; subst; cbn; rewrite E; reflexivity|].
  destruct (c =? 9) eqn:E4; [bool_prop; subst; cbn; rewrite E; reflexivity|].
  destruct (c =? 12) eqn:E5; [bool_prop; subst; cbn; rewrite E; reflexivity|].
  destruct (c =? 8) eqn:E6; [bool_prop; subst; cbn; rewrite E; reflexivity|].
  destruct ((32 <=? c) && (c <=? 126)) eqn:E7.
  { bool_prop. cbn [string_of_bytes bytes_of_string app]. rewrite byte_of_ascii_of by lia.
    cbn [string_body]. unfold utf8_of_cp.
    rewrite (proj2 (Z.eqb_neq c 34)), (proj2 (Z.eqb_neq c 92)), (proj2 (Z.ltb_ge c 32)), (proj2 (Z.ltb_lt c 128)) by lia.
    rewrite E. reflexivity. }
  destruct (c <? 65536) eqn:E8.
  - destruct (hex_unit_of c) as (a1 & a2 & a3 & a4 & Hb & Hu); [bool_prop; lia|].
    rewrite bytes_of_string_app, Hb. cbn [bytes_of_string app]. cbn [string_body].
    change (byte_of "\"%char) with 92. change (byte_of "u"%char) with 117. cbn [Z.eqb Pos.eqb]. rewrite Hu.
    assert (high_surrogate c = false) as -> by (unfold high_surrogate; bool_prop; lia).
    rewrite E. reflexivity.
  - bool_prop. set (v := c - 65536) in *.
    destruct (hex_unit_of (55296 + v / 1024)) as (a1 & a2 & a3 & a4 & Hb & Hu); [subst v; euclid|].
    destruct (hex_unit_of (56320 + v mod 1024)) as (b1 & b2 & b3 & b4 & Hb' & Hu'); [subst v; euclid|].
    rewrite !bytes_of_string_app, Hb, Hb'. cbn [bytes_of_string app]. cbn [string_body].
    change (byte_of "\"%char) with 92. change (byte_of "u"%char) with 117. cbn [Z.eqb Pos.eqb]. rewrite Hu.
    assert (high_surrogate (55296 + v / 1024) = true) as -> by (unfold high_surrogate; subst v; apply andb_true_iff; split; apply Z.leb_le; euclid).
    cbn [andb]. rewrite Hu'.
    assert (low_surrogate (56320 + v mod 1024) = true) as -> by (unfold low_surrogate; subst v; apply andb_true_iff; split; apply Z.leb_le; euclid).
    rewrite E. cbn [option_map fst snd].
    replace (65536 + (55296 + v / 1024 - 55296) * 1024 + (56320 + v mod 1024 - 56320)) with c by (subst v; euclid). reflexivity.
Qed.

Lemma string_body_escapes cs rest :
  Forall scalar cs ->
  string_body (flat_map (fun c => bytes_of_string (json_escape c)) cs ++ 34 :: rest) = Some (flat_map utf8_of_cp cs, rest).
Proof.
  induction 1 as [|c cs Hc _ IH]; [reflexivity|]. cbn [flat_map]. rewrite <- app_assoc. exact (string_body_escape _ _ _ _ Hc IH).
Qed.

Lemma bytes_of_join ss : bytes_of_string (join "" ss) = flat_map bytes_of_string ss.
Proof.
  induction ss as [|s ss IH]; [reflexivity|]. destruct ss as [|t ss]; [cbn; rewrite app_nil_r; reflexivity|].
  change (bytes_of_string (s +:+ "" +:+ join "" (t :: ss)) = bytes_of_string s ++ flat_map bytes_of_string (t :: ss)).
  rewrite !bytes_of_string_app. cbn [bytes_of_string app]. rewrite IH. reflexivity.
Qed.

Definition valid (s : string) : Prop := exists b, encode_utf8 s = Ok b.

(** A quoted text and how it is read. *)
Lemma json_str_read s :
  valid s -> exists body, bytes_of_string (json_str s) = 34 :: body /\
    forall rest, string_body (body ++ rest) = Some (bytes_of_string s, rest).
Proof.
  intros [b Hb]. destruct (valid_text _ _ Hb) as [Hs Hc]. unfold json_str, quote_mark.
  rewrite !bytes_of_string_app, bytes_of_join, flat_map_concat_map, map_map, <- flat_map_concat_map.
  eexists. split; [reflexivity|]. intros rest. rewrite <- app_assoc. rewrite Hs. exact (string_body_escapes _ rest Hc).
Qed.

(** ** Values *)

(** A text that is read as the value, whatever follows it. *)
Record reads_as (v : pyval) (l : list Z) : Prop := {
  ra_first : exists b l', l = b :: l' /\ json_space b = false;
  ra_read : forall fuel rest, (2 * length l <= fuel)%nat -> ends_number rest -> value_at fuel (l ++ rest) = Ok (v, rest);
}.

Lemma number_reads_as v l : number_text v l -> reads_as v l.
Proof.
  intros [(b & l' & -> & Hb) Hn Hl]. split.
  - exists b, l'. split; [reflexivity|]. unfold json_space. repeat (apply orb_false_iff; split); apply Z.eqb_neq; lia.
  - intros fuel rest Hf Hr. destruct fuel as [|f]; [cbn in Hf; lia|]. specialize (Hl rest). specialize (Hn rest Hr).
    cbn [app] in *. cbn [value_at after].
    rewrite (proj2 (Z.eqb_neq b 34)), (proj2 (Z.eqb_neq b 123)), (proj2 (Z.eqb_neq b 91)) by lia.
    rewrite Hl, Hn. reflexivity.
Qed.

Lemma literals_read :
  Forall (fun x => reads_as x.2 (bytes_of_string x.1))
    [("null", VNone); ("true", VBool true); ("false", VBool false); ("NaN", VFloat S754_nan);
     ("Infinity", VFloat (S754_infinity false)); ("-Infinity", VFloat (S754_infinity true))]%string.
Proof.
  repeat constructor; cbn [fst snd]; try (eexists _, _; split; reflexivity).
  all: intros [|f] rest Hf _; [cbn in Hf; lia|reflexivity].
Qed.

Lemma str_reads_as s : valid s -> reads_as (VStr s) (bytes_of_string (json_str s)).
Proof.
  intros Hs. destruct (json_str_read s Hs) as (body & -> & Hb). split; [eexists _, _; split; reflexivity|].
  intros [|f] rest Hf _; [cbn in Hf; lia|]. cbn [app value_at]. change (after 34 (34 :: body ++ rest)) with (Some (body ++ rest)). cbv iota beta.
  rewrite Hb, string_of_bytes_of_string. reflexivity.
Qed.

(** Separators: the sign and spaces. *)
Definition spaces (l : list Z) : Prop := Forall (fun b => json_space b = true) l.

Lemma skip_spaces w l : spaces w -> skip_space (w ++ l) = skip_space l.
Proof. induction 1 as [|b w Hb _ IH]; cbn; [reflexivity|]. rewrite Hb. exact IH. Qed.

Lemma skip_first v l rest : reads_as v l -> skip_space (l ++ rest) = l ++ rest.
Proof. intros [(b & l' & -> & Hb) _]. cbn. rewrite Hb. reflexivity. Qed.

Lemma ends_with b rest : b = 44 \/ b = 93 \/ b = 125 -> ends_number (b :: rest).
Proof. intros [->|[->| ->]]; cbn; repeat split; discriminate. Qed.

Section Containers.
Context (w w' : list Z) (Hw : spaces w) (Hw' : spaces w').

(** The bytes of a list of items after the opening bracket, with their separators. *)
Fixpoint separated (ls : list (list Z)) : list Z :=
  match ls with
  | [] => []
  | [l] => l
  | l :: rest => l ++ 44 :: w ++ separated rest
  end.

Lemma separated_cons l m ls : separated (l :: m :: ls) = l ++ 44 :: w ++ separated (m :: ls).
Proof. reflexivity. Qed.

Lemma separated_first b m ls rest :
  json_space b = false -> skip_space (w ++ separated ((b :: m) :: ls) ++ rest) = separated ((b :: m) :: ls) ++ rest.
Proof.
  intros Hb. rewrite skip_spaces by exact Hw. destruct ls; cbn [separated app skip_space]; rewrite Hb; reflexivity.
Qed.

(** The fuel of a list of items covers its head and its tail. *)
Lemma separated_fuel l m ls f :
  (2 * length (separated (l :: m :: ls)) + 1 <= S f)%nat ->
  (2 * length l <= f)%nat /\ (2 * length (separated (m :: ls)) + 1 <= f)%nat.
Proof. rewrite separated_cons, length_app. cbn [length]. rewrite length_app. lia. Qed.

Lemma items_read vs ls fuel rest :
  Forall2 reads_as vs ls -> vs <> [] -> (2 * length (separated ls) + 1 <= fuel)%nat ->
  items_at fuel (separated ls ++ 93 :: rest) = Ok (vs, rest).
Proof.
  intros H. revert fuel. induction H as [|v l vs ls Hl H IH]; intros fuel Hne Hf; [congruence|].
  destruct fuel as [|f]; [lia|]. cbn [items_at]. destruct H as [|v2 l2 vs ls Hl2 H].
  - cbn [separated] in *. rewrite (ra_read _ _ Hl) by (lia || exact (ends_with 93 _ ltac:(auto))). reflexivity.
  - apply separated_fuel in Hf as [Hf1 Hf2].
    rewrite separated_cons, <- app_assoc. cbn [app]. rewrite <- app_assoc.
    rewrite (ra_read _ _ Hl) by (lia || exact (ends_with 44 _ ltac:(auto))). cbn [rbind].
    change (skip_space (44 :: ?x)) with (44 :: x). change (after 44 (44 :: ?x)) with (Some x). cbv iota beta.
    pose proof (ra_first _ _ Hl2) as (b & m & -> & Hb). rewrite separated_first by exact Hb.
    rewrite IH by (discriminate || lia). reflexivity.
Qed.

(** The text of a member. *)
Definition reads_member (kv : pykey * pyval) (l : list Z) : Prop :=
  exists k lv, kv.1 = KStr k /\ valid k /\ reads_as kv.2 lv /\ l = bytes_of_string (json_str k) ++ 58 :: w' ++ lv.

Lemma member_first kv l : reads_member kv l -> exists m, l = 34 :: m.
Proof. intros (k & lv & _ & Hk & _ & ->). destruct (json_str_read k Hk) as (body & -> & _). eexists. reflexivity. Qed.

Lemma members_read kvs ls fuel rest :
  Forall2 reads_member kvs ls -> kvs <> [] -> (2 * length (separated ls) + 1 <= fuel)%nat ->
  members_at fuel (separated ls ++ 125 :: rest) = Ok (kvs, rest).
Proof.
  intros H. revert fuel. induction H as [|[kk v] l kvs ls (k & lv & Hk & Hvk & Hv & El) H IH]; intros fuel Hne Hf; [congruence|].
  cbn [fst snd] in *. subst kk. destruct (json_str_read k Hvk) as (body & Eb & Hb).
  assert (Hlen : (length l = 2 + length body + length w' + length lv)%nat).
  { rewrite El, Eb. cbn [length app]. rewrite length_app. cbn [length]. rewrite length_app. lia. }
  assert (Hhead : forall f more, (2 * length lv <= f)%nat -> ends_number more ->
    exists r r2, after 34 (l ++ more) = Some r /\ string_body r = Some (bytes_of_string k, r2) /\
      after 58 (skip_space r2) = Some (w' ++ lv ++ more) /\ value_at f (skip_space (w' ++ lv ++ more)) = Ok (v, more)).
  { intros f more Hf1 Hm. rewrite El, Eb. exists (body ++ (58 :: w' ++ lv) ++ more), ((58 :: w' ++ lv) ++ more).
    split; [cbn [app]; change (after 34 (34 :: ?x)) with (Some x); rewrite <- app_assoc; reflexivity|]. split; [apply Hb|].
    split; [cbn [app]; rewrite <- app_assoc; reflexivity|].
    rewrite skip_spaces by exact Hw'. rewrite (skip_first _ _ _ Hv). exact (ra_read _ _ Hv _ _ Hf1 Hm). }
  destruct fuel as [|f]; [lia|]. cbn [members_at]. destruct H as [|kv2 l2 kvs ls Hl2 H].
  - cbn [separated] in *. destruct (Hhead f (125 :: rest)) as (r & r2 & E1 & E2 & E3 & E4); [lia|exact (ends_with 125 _ ltac:(auto))|].
    rewrite E1, E2, E3, E4, string_of_bytes_of_string. reflexivity.
  - apply separated_fuel in Hf as [Hf1 Hf2]. rewrite separated_cons, <- app_assoc. cbn [app]. rewrite <- app_assoc.
    destruct (Hhead f (44 :: w ++ separated (l2 :: ls) ++ 125 :: rest)) as (r & r2 & E1 & E2 & E3 & E4);
      [lia|exact (ends_with 44 _ ltac:(auto))|].
    rewrite E1, E2, E3, E4, string_of_bytes_of_string. cbn [rbind].
    change (skip_space (44 :: ?x)) with (44 :: x). change (after 44 (44 :: ?x)) with (Some x). cbv iota beta zeta.
    destruct (member_first _ _ Hl2) as [m ->]. rewrite separated_first by reflexivity.
    rewrite IH by (discriminate || lia). reflexivity.
Qed.

Lemma list_reads_as vs ls :
  Forall2 reads_as vs ls -> reads_as (VList vs) (91 :: separated ls ++ [93]).
Proof.
  intros H. split; [eexists _, _; split; reflexivity|]. intros [|f] rest Hf _; [cbn in Hf; lia|].
  cbn [app]. rewrite <- app_assoc. cbn [app value_at]. change (after 34 (91 :: ?x)) with (@None (list Z)).
  change (after 123 (91 :: ?x)) with (@None (list Z)). change (after 91 (91 :: ?x)) with (Some x). cbv iota beta.
  destruct H as [|v l vs ls Hl H]; [reflexivity|].
  pose proof (ra_first _ _ Hl) as (b & m & El & Hb).
  assert (Hs : skip_space (separated (l :: ls) ++ 93 :: rest) = separated (l :: ls) ++ 93 :: rest).
  { subst l. destruct ls; cbn [separated app skip_space]; rewrite Hb; reflexivity. }
  assert (Ha : after 93 (separated (l :: ls) ++ 93 :: rest) = None).
  { pose proof (ra_read _ _ Hl (2 * length l) [] ltac:(lia) I) as E. subst l.
    destruct ls; cbn [separated app after]; (destruct (Z.eqb_spec b 93) as [->|]; [|reflexivity]);
      cbn [length] in E; (destruct m; discriminate). }
  rewrite Hs, Ha. cbn [length] in Hf. rewrite length_app in Hf. cbn [length] in Hf.
  rewrite (items_read (v :: vs) (l :: ls)) by (discriminate || lia || (constructor; assumption)). reflexivity.
Qed.

Lemma dict_reads_as kvs ls :
  Forall2 reads_member kvs ls -> reads_as (VDict (dupdate [] kvs)) (123 :: separated ls ++ [125]).
Proof.
  intros H. split; [eexists _, _; split; reflexivity|]. intros [|f] rest Hf _; [cbn in Hf; lia|].
  cbn [app]. rewrite <- app_assoc. cbn [app value_at]. change (after 34 (123 :: ?x)) with (@None (list Z)).
  change (after 123 (123 :: ?x)) with (Some x). cbv iota beta.
  destruct H as [|kv l kvs ls Hl H]; [reflexivity|]. destruct (member_first _ _ Hl) as [m El].
  assert (Hs : skip_space (separated (l :: ls) ++ 125 :: rest) = separated (l :: ls) ++ 125 :: rest) by (subst l; destruct ls; reflexivity).
  assert (Ha : after 125 (separated (l :: ls) ++ 125 :: rest) = None) by (subst l; destruct ls; reflexivity).
  rewrite Hs, Ha. cbn [length] in Hf. rewrite length_app in Hf. cbn [length] in Hf.
  rewrite (members_read (kv :: kvs) (l :: ls)) by (discriminate || lia || (constructor; assumption)). reflexivity.
Qed.
End Containers.

(** ** The round trip *)

(** The values whose texts are read back: texts that have an encoding, integers that Python
    agrees to convert, and every double. *)
Inductive text_safe : pyval -> Prop :=
  | ts_none : text_safe VNone
  | ts_bool b : text_safe (VBool b)
  | ts_int z : short_int z = true -> text_safe (VInt z)
  | ts_float f : is_double f = true -> text_safe (VFloat f)
  | ts_str s : valid s -> text_safe (VStr s)
  | ts_list l : Forall text_safe l -> text_safe (VList l)
  | ts_tuple l : Forall text_safe l -> text_safe (VTuple l)
  | ts_dict d : Forall (fun kv => valid (json_key_text kv.1) /\ text_safe kv.2) d -> text_safe (VDict d).

Lemma float_reads_as f : is_double f = true -> reads_as (VFloat f) (bytes_of_string (json_float f)).
Proof.
  pose proof literals_read as HL. intros Hd. destruct f as [s|s| |s m e].
  - apply number_reads_as, number_reads. destruct s; reflexivity.
  - destruct s; [exact (Forall_lookup_1 _ _ 5 _ HL eq_refl)|exact (Forall_lookup_1 _ _ 4 _ HL eq_refl)].
  - exact (Forall_lookup_1 _ _ 3 _ HL eq_refl).
  - by apply number_reads_as, number_reads, finite_reads.
Qed.

Lemma json_key_eq k : json_key k = json_str (json_key_text k).
Proof. destruct k as [| |[]]; reflexivity. Qed.

Section RoundTrip.
Context (comma colon : string) (w w' : list Z).
Context (Hcomma : bytes_of_string comma = 44 :: w) (Hcolon : bytes_of_string colon = 58 :: w').
Context (Hw : spaces w) (Hw' : spaces w').

Lemma bytes_of_joined ss : bytes_of_string (join comma ss) = separated w (map bytes_of_string ss).
Proof.
  induction ss as [|s [|t ss] IH]; [reflexivity|reflexivity|].
  change (bytes_of_string (s +:+ comma +:+ join comma (t :: ss)) = bytes_of_string s ++ 44 :: w ++ separated w (map bytes_of_string (t :: ss))).
  rewrite !bytes_of_string_app, Hcomma, IH. reflexivity.
Qed.

(** The text of a value reads as its normal form. *)
Definition round_trips (v : pyval) : Prop :=
  text_safe v -> forall v', json_norm v = Ok v' ->
  exists s, json_text comma colon v = Ok s /\ reads_as v' (bytes_of_string s).

Lemma texts_read l l' :
  Forall round_trips l -> Forall text_safe l -> sequence (map json_norm l) = Ok l' ->
  exists ss, sequence (map (json_text comma colon) l) = Ok ss /\ Forall2 reads_as l' (map bytes_of_string ss).
Proof.
  intros H. revert l'. induction H as [|v l Hv _ IH]; intros l' Hs E; cbn in *.
  { injection E as <-. exists []. split; [reflexivity|constructor]. }
  apply Forall_cons in Hs as [Hsv Hs]. apply rbind_ok in E as (v' & Ev & E). apply rbind_ok in E as (l2 & El & E).
  injection E as <-. destruct (Hv Hsv v' Ev) as (s & -> & Hr). destruct (IH l2 Hs El) as (ss & -> & Hrs).
  exists (s :: ss). split; [reflexivity|]. constructor; assumption.
Qed.

Lemma json_text_dict d :
  sortable (map fst d) = true ->
  json_text comma colon (VDict d) =
  (let! parts := sequence (map (fun kv => let! t := json_text comma colon kv.2 in Ok (json_key kv.1 +:+ colon +:+ t)) (py_sorted item_leb d)) in
   Ok ("{" +:+ join comma parts +:+ "}")).
Proof.
  intros Hs. cbn [json_text]. rewrite (map_ext _ (fun kv => (kv.1, json_text comma colon kv.2))) by (intros []; reflexivity).
  unfold sorted_items. rewrite map_map.
  change (sortable _) with (sortable (map fst d)). rewrite Hs. cbn [rbind].
  rewrite (py_sorted_map _ item_leb) by reflexivity. rewrite map_map. reflexivity.
Qed.

Lemma members_text d kvs :
  Forall (fun kv => round_trips kv.2) d -> Forall (fun kv => valid (json_key_text kv.1) /\ text_safe kv.2) d ->
  Forall2 (fun kv out => exists x, json_norm kv.2 = Ok x /\ out = (KStr (json_key_text kv.1), x)) d kvs ->
  exists ss, sequence (map (fun kv => let! t := json_text comma colon kv.2 in Ok (json_key kv.1 +:+ colon +:+ t)) d) = Ok ss /\
             Forall2 (reads_member w') kvs (map bytes_of_string ss).
Proof.
  intros H Hs HF. revert H Hs. induction HF as [|kv out d kvs (x & Ex & ->) _ IH]; intros H Hs.
  { exists []. split; [reflexivity|constructor]. }
  apply Forall_cons in H as [Hv H]. apply Forall_cons in Hs as [[Hk Hsv] Hs].
  destruct (Hv Hsv x Ex) as (s & Es & Hr). destruct (IH H Hs) as (ss & Ess & Hrs).
  exists ((json_key kv.1 +:+ colon +:+ s) :: ss). cbn [map sequence]. rewrite Es. cbn [rbind sequence]. 
  unfold sequence in Ess |- *. rewrite Ess. split; [reflexivity|]. constructor; [|exact Hrs].
  exists (json_key_text kv.1), (bytes_of_string s). split; [reflexivity|]. split; [exact Hk|]. split; [exact Hr|].
  rewrite !bytes_of_string_app, json_key_eq, Hcolon. reflexivity.
Qed.

Lemma text_reads v : round_trips v.
Proof.
  induction v using pyval_nested_ind; intros Hs v' E; inversion Hs; subst; cbn [json_norm] in E.
  - injection E as <-. exists "null"%string. split; [reflexivity|]. exact (Forall_lookup_1 _ _ 0 _ literals_read eq_refl).
  - injection E as <-. destruct b; eexists; (split; [reflexivity|]);
      [exact (Forall_lookup_1 _ _ 1 _ literals_read eq_refl)|exact (Forall_lookup_1 _ _ 2 _ literals_read eq_refl)].
  - injection E as <-. eexists. split; [reflexivity|]. apply number_reads_as, int_text. assumption.
  - injection E as <-. eexists. split; [reflexivity|]. apply float_reads_as. assumption.
  - injection E as <-. eexists. split; [reflexivity|]. apply str_reads_as. assumption.
  - apply rbind_ok in E as (l' & El & E). injection E as <-. destruct (texts_read l l') as (ss & Ess & Hr); [assumption..|].
    cbn [json_text]. rewrite Ess. cbn [rbind]. eexists. split; [reflexivity|].
    rewrite !bytes_of_string_app, bytes_of_joined. exact (list_reads_as w Hw _ _ Hr).
  - apply rbind_ok in E as (l' & El & E). injection E as <-. destruct (texts_read l l') as (ss & Ess & Hr); [assumption..|].
    cbn [json_text]. rewrite Ess. cbn [rbind]. eexists. split; [reflexivity|].
    rewrite !bytes_of_string_app, bytes_of_joined. exact (list_reads_as w Hw _ _ Hr).
  - apply json_norm_dict in E as (kvs & -> & Hsort & HF). rewrite json_text_dict by exact Hsort.
    destruct (members_text (py_sorted item_leb d) kvs) as (ss & Ess & Hr); [| |exact HF|].
    1-2: rewrite py_sorted_perm; assumption.
    rewrite Ess. cbn [rbind]. eexists. split; [reflexivity|].
    rewrite !bytes_of_string_app, bytes_of_joined. exact (dict_reads_as w w' Hw Hw' _ _ Hr).
Qed.
End RoundTrip.

(** Decoding undoes encoding, for every layout of the separators (any spaces after the comma
    and the colon). *)
Lemma json_round_trip comma colon w w' v v' :
  bytes_of_string comma = 44 :: w -> spaces w -> bytes_of_string colon = 58 :: w' -> spaces w' ->
  text_safe v -> json_norm v = Ok v' ->
  exists s, json_text comma colon v = Ok s /\ json_loads s = Ok v'.
Proof.
  intros Hcomma Hw Hcolon Hw' Hs Hn.
  destruct (text_reads comma colon w w' Hcomma Hcolon Hw Hw' v Hs v' Hn) as (s & Es & Hr). exists s. split; [exact Es|].
  unfold json_loads. pose proof (skip_first _ _ [] Hr) as Hskip. rewrite app_nil_r in Hskip. rewrite Hskip.
  pose proof (ra_read _ _ Hr (json_fuel (bytes_of_string s)) [] ltac:(unfold json_fuel; lia) I) as E.
  rewrite app_nil_r in E. rewrite E. reflexivity.
Qed.

(** A payload with nested values, an accent, a quote, a tuple, a float and keys out of order. *)
Definition sample_payload : dict :=
  dict_of [("text", VStr (string_of_bytes [72; 195; 169; 34; 10; 240; 159; 152; 128])); ("confidence", VFloat (flit 9 1));
           ("ids", VTuple [VInt (-12); VInt 0; VNone]); ("nested", VDict (dict_of [("b", VBool true); ("a", VList [])]))]%string.

Lemma sample_payload_safe : text_safe (VDict sample_payload).
Proof.
  repeat first [constructor | eexists; vm_compute; reflexivity | vm_compute; reflexivity].
Qed.

(** C36: what the store reads back from a payload column is what the model keeps in it: for
    a payload whose texts have an encoding, whose integers are at most 4300 digits long and whose
    floats are any doubles (finite, infinite or not a number), json.dumps with sorted keys writes
    a text, json.loads reads that text, and the result is the column of the model: tuples as
    lists, keys as texts in order, everything else, every float included, as it was. *)
Theorem payload_column_round_trip payload col :
  text_safe (VDict payload) -> json_column payload = Ok col ->
  exists s, json_text ", " ": " (VDict payload) = Ok s /\ json_loads s = Ok (VDict col).
Proof.
  intros Hs Hc. unfold json_column in Hc. apply rbind_ok in Hc as (v & Hv & Hd).
  destruct v as [| | | | | | |d]; try discriminate. injection Hd as ->.
  apply (json_round_trip ", " ": " [32] [32]); [reflexivity|repeat constructor|reflexivity|repeat constructor|exact Hs|exact Hv].
Qed.

Lemma payload_column_round_trip_witness :
  exists s col, json_text ", " ": " (VDict sample_payload) = Ok s /\ json_loads s = Ok (VDict col) /\
    map fst col = map KStr ["confidence"; "ids"; "nested"; "text"]%string.
Proof.
  assert (H : forall col, json_column sample_payload = Ok col ->
    exists s, json_text ", " ": " (VDict sample_payload) = Ok s /\ json_loads s = Ok (VDict col)).
  { intros col. exact (payload_column_round_trip sample_payload col sample_payload_safe). }
  destruct (json_column sample_payload) as [col|] eqn:E; vm_compute in E; [|discriminate].
  destruct (H _ eq_refl) as (s & Es & El). exists s, col. split; [exact Es|]. split; [exact El|].
  injection E as <-. reflexivity.
Defined.
