(* ===== verification/StoreTypes.v ===== *)
(** * Types of the core data store

    What every table holds, whatever was written to it: each key once, and in
    each payload column a JSON object (text keys, each once, at every depth, and
    no tuples).  Every operation of the store preserves it, also when it raises. *)

From Stdlib Require Import ZArith Lia Bool List Ascii String.
From stdpp Require Import base list option strings sorting relations.
From S2P Require Import Prelude PyFloat Text PyValue CborCodec Events Store.

Open Scope Z_scope.

(** ** JSON values *)

Inductive json_value : pyval -> Prop :=
  | jv_none : json_value VNone
  | jv_bool b : json_value (VBool b)
  | jv_int z : json_value (VInt z)
  | jv_float f : json_value (VFloat f)
  | jv_str s : json_value (VStr s)
  | jv_list l : Forall json_value l -> json_value (VList l)
  | jv_dict d : dwf d -> Forall (fun kv => key_is_str kv.1 = true /\ json_value kv.2) d -> json_value (VDict d).

Definition json_object (d : dict) : Prop := json_value (VDict d).

Lemma json_object_inv d :
  json_object d <-> dwf d /\ Forall (fun kv => key_is_str kv.1 = true /\ json_value kv.2) d.
Proof. split; [by inversion 1|]. intros [? ?]. by constructor. Qed.

Lemma dset_entries (P : pykey * pyval -> Prop) k v d :
  Forall P d -> (forall k', P (k', v)) -> Forall P (dset k v d).
Proof.
  intros Hd Hk. unfold dset. induction Hd as [|[k1 v1] d H1 Hd IH]; cbn; [by repeat constructor|].
  case_decide; by constructor.
Qed.

Lemma json_object_dset s v d : json_value v -> json_object d -> json_object (dset (KStr s) v d).
Proof.
  rewrite !json_object_inv. intros Hv [Hw Hd]. split; [by apply dset_wf|].
  unfold dset. clear Hw. induction Hd as [|[k1 v1] d H1 Hd IH]; cbn; [by repeat constructor|].
  case_decide; constructor; try done. by destruct H1.
Qed.

Lemma json_object_update kvs d :
  json_object d -> Forall (fun kv => key_is_str kv.1 = true /\ json_value kv.2) kvs -> json_object (dupdate d kvs).
Proof.
  unfold dupdate, od_update. revert d. induction kvs as [|[k v] kvs IH]; intros d Hd Hk; cbn; [done|].
  apply Forall_cons in Hk as [[Hk Hv] Hkvs]. apply IH; [|done]. destruct k as [s| |]; [|done..].
  by apply (json_object_dset s v d).
Qed.

(** Values that went through JSON are JSON values. *)
Lemma json_norm_value v v' : json_norm v = Ok v' -> json_value v'.
Proof.
  revert v'. induction v using pyval_nested_ind; intros v' Hn.
  1-5: by apply Ok_inj in Hn as <-; constructor.
  1-2: cbn [json_norm] in Hn; apply rbind_ok in Hn as (l' & Hl & <-%Ok_inj); constructor;
    apply (rmap_ok_Forall2 json_norm) in Hl; apply Forall_forall; intros x (i & Hi)%list_elem_of_lookup;
    destruct (Forall2_lookup_r _ _ _ _ _ Hl Hi) as (y & Hy & Hyx); rewrite Forall_forall in H;
    by apply (H y); [eapply list_elem_of_lookup_2|].
  apply json_norm_dict in Hn as (kvs & -> & _ & Hf). apply json_object_update.
  { constructor; constructor. }
  apply Forall_forall. intros kv (i & Hi)%list_elem_of_lookup.
  destruct (Forall2_lookup_r _ _ _ _ _ Hf Hi) as ([k x] & Hy & x' & Hx & ->). split; [done|].
  apply list_elem_of_lookup_2 in Hy. rewrite py_sorted_perm in Hy. rewrite Forall_forall in H. by apply (H (k, x)).
Qed.

Lemma json_column_object d column : json_column d = Ok column -> json_object column.
Proof.
  unfold json_column. intros H. apply rbind_ok in H as (v & Hv & Hd). apply json_norm_value in Hv.
  destruct v; try done. by apply Ok_inj in Hd as ->.
Qed.

(** ** Tables *)

Class HasPayload (R : Type) := row_payload : R -> dict.
#[export] Instance event_payload : HasPayload EventRow := er_payload.
#[export] Instance span_payload : HasPayload SpanRow := sp_payload.
#[export] Instance fact_payload : HasPayload FactRow := fa_payload.
#[export] Instance policy_payload : HasPayload PolicyRow := po_payload.
#[export] Instance candidate_payload : HasPayload CandidateRow := mc_payload.
#[export] Instance memory_payload : HasPayload MemoryRow := mm_payload.
#[export] Instance tool_payload : HasPayload ToolRow := to_payload.
#[export] Instance approval_payload : HasPayload ApprovalRow := ap_payload.
#[export] Instance decision_payload : HasPayload DecisionRow := de_payload.
#[export] Instance audit_payload : HasPayload AuditRow := au_payload.

Definition table_ok {R} `{Table R, HasPayload R} (t : list R) : Prop :=
  t_wf tb_key t /\ Forall (fun r => json_object (row_payload r)) t.

Record store_ok (s : CoreDataStore) : Prop := {
  ok_events : table_ok (perception_events s);
  ok_spans : table_ok (execution_spans s);
  ok_facts : table_ok (facts s);
  ok_policies : table_ok (policy_decisions s);
  ok_candidates : table_ok (memory_candidates s);
  ok_memories : table_ok (long_term_memories s);
  ok_tools : table_ok (tool_results s);
  ok_approvals : table_ok (approval_requests s);
  ok_decisions : table_ok (approval_decisions s);
  ok_audits : table_ok (audit_records s);
}.

(** What the operations use of a table of the store. *)
Class StoreTable (R : Type) `{Table R, HasPayload R} := {
  table_of_ok : forall s, store_ok s -> table_ok (tb_rows s);
  put_ok : forall t s, store_ok s -> table_ok t -> store_ok (tb_put t s);
}.

Ltac store_table := split; [intros s []; assumption|intros t s [] Ht; constructor; cbn; assumption].
#[export] Instance event_store : StoreTable EventRow. Proof. store_table. Qed.
#[export] Instance span_store : StoreTable SpanRow. Proof. store_table. Qed.
#[export] Instance fact_store : StoreTable FactRow. Proof. store_table. Qed.
#[export] Instance policy_store : StoreTable PolicyRow. Proof. store_table. Qed.
#[export] Instance candidate_store : StoreTable CandidateRow. Proof. store_table. Qed.
#[export] Instance memory_store : StoreTable MemoryRow. Proof. store_table. Qed.
#[export] Instance tool_store : StoreTable ToolRow. Proof. store_table. Qed.
#[export] Instance approval_store : StoreTable ApprovalRow. Proof. store_table. Qed.
#[export] Instance decision_store : StoreTable DecisionRow. Proof. store_table. Qed.
#[export] Instance audit_store : StoreTable AuditRow. Proof. store_table. Qed.

(** ** Operations *)

Definition keeps (s s' : CoreDataStore) : Prop := store_ok s -> store_ok s'.

#[export] Instance keeps_preorder : PreOrder keeps.
Proof. split; unfold keeps; [by intros ? ?|auto]. Qed.

(** A value that is computed first, with what the computation tells of it. *)
Lemma moves_lift_bind {W A B} (R : W -> W -> Prop) `{!PreOrder R} (r : result A) (k : A -> eff W B) :
  (forall a, r = Ok a -> moves R (k a)) -> moves R (ebind (elift r) k).
Proof.
  intros Hk w. unfold ebind, elift. destruct r as [a|e]; [by apply Hk|]. cbn. reflexivity.
Qed.

Section Rows.
Context {R : Type} `{ST : StoreTable R}.

Lemma insert_row_keeps (r : R) : json_object (row_payload r) -> moves keeps (insert_row r).
Proof.
  intros Hr s Hs. unfold insert_row. destruct (t_insert tb_key r (tb_rows s)) as [t|e] eqn:E; cbn [snd]; [|done].
  apply put_ok; [done|]. destruct (table_of_ok s Hs) as [Hw Hp]. split; [by eapply t_insert_wf|].
  apply t_insert_ok in E as [_ ->]. apply Forall_app. by rewrite Forall_singleton.
Qed.

Lemma insert_or_ignore_keeps (r : R) : json_object (row_payload r) -> moves keeps (insert_or_ignore_row r).
Proof.
  intros Hr s. pose proof (insert_row_keeps r Hr s) as Hk. unfold insert_row in Hk. unfold insert_or_ignore_row. cbn.
  by destruct (t_insert tb_key r (tb_rows s)).
Qed.

Lemma replace_row_keeps (r : R) : json_object (row_payload r) -> moves keeps (replace_row r).
Proof.
  intros Hr s Hs. unfold replace_row. cbn [emodify snd]. apply put_ok; [done|].
  destruct (table_of_ok s Hs) as [Hw Hp]. split; [by apply t_replace_wf|]. unfold t_replace. apply Forall_app.
  rewrite Forall_singleton. split; [|done]. rewrite Forall_forall in Hp |- *. intros x Hx. apply Hp.
  rewrite list_elem_of_In, filter_In in Hx. destruct Hx as [Hx _]. by apply list_elem_of_In.
Qed.

Lemma update_row_keeps k (f : R -> R) :
  (forall r, tb_key (f r) = tb_key r) -> (forall r, json_object (row_payload (f r))) -> moves keeps (update_row k f).
Proof.
  intros Hk Hf s Hs. unfold update_row. cbn [emodify snd]. apply put_ok; [done|].
  destruct (table_of_ok s Hs) as [Hw Hp]. split; [unfold t_wf; by rewrite t_update_keys|]. unfold t_update.
  apply Forall_map. eapply Forall_impl; [exact Hp|]. intros r Hr. cbn beta. by destruct (String.eqb _ _).
Qed.
End Rows.

Section Persist.
Variable env : nat -> Env.

Lemma read_env_keeps : moves keeps (read_env env).
Proof. intros s []. by split. Qed.
#[local] Hint Resolve read_env_keeps : moves.

Lemma utc_now_keeps : moves keeps (utc_now env).
Proof. unfold utc_now. moves. Qed.
Lemma draw_keeps prefix : moves keeps (draw env prefix).
Proof. unfold draw. moves. Qed.
#[local] Hint Resolve utc_now_keeps draw_keeps : moves.

(** Each payload is written as the column it becomes. *)
Ltac write := first [solve [moves] | by apply insert_row_keeps | by apply insert_or_ignore_keeps | by apply replace_row_keeps | by apply update_row_keeps].
Ltac column :=
  repeat match goal with
    | |- moves _ (ebind (elift (json_column _)) _) =>
        apply moves_lift_bind; [apply _|]; intros ? ?%json_column_object
    | |- moves _ (ebind _ _) => apply moves_bind; [apply _|write|intros ?]
    | |- moves _ (match ?x with _ => _ end) => destruct x
    | |- moves _ _ => write
    end.

Lemma event_row_payload `{SQ : Sqlite} ev tags payload now r : event_row ev tags payload now = Ok r -> row_payload r = payload.
Proof. unfold event_row. intros E. inv_ok. done. Qed.

Lemma persist_event_keeps `{Sqlite} ev : moves keeps (persist_event env ev).
Proof.
  unfold persist_event. apply moves_lift_bind; [apply _|]; intros tags _. apply moves_lift_bind; [apply _|].
  intros column Hc%json_column_object. apply moves_bind; [apply _|moves|intros now].
  apply moves_lift_bind; [apply _|]. intros row Hr%event_row_payload. apply insert_or_ignore_keeps. by rewrite Hr.
Qed.
Lemma persist_span_keeps a b c d : moves keeps (persist_execution_span env a b c d).
Proof. unfold persist_execution_span. column. Qed.
Lemma persist_fact_keeps a b c d : moves keeps (persist_fact env a b c d).
Proof. unfold persist_fact. column. Qed.
Lemma persist_policy_keeps a b c : moves keeps (persist_policy_decision env a b c).
Proof. unfold persist_policy_decision. column. Qed.
Lemma persist_candidate_keeps a b c : moves keeps (persist_memory_candidate env a b c).
Proof. unfold persist_memory_candidate. column. Qed.
Lemma persist_tool_keeps a b c d e : moves keeps (persist_tool_result env a b c d e).
Proof. unfold persist_tool_result. column. Qed.
Lemma persist_audit_keeps a b c d e : moves keeps (persist_audit_record env a b c d e).
Proof. unfold persist_audit_record. column. Qed.
Lemma persist_approval_keeps a b c d e f : moves keeps (persist_approval_request env a b c d e f).
Proof. unfold persist_approval_request. column. Qed.
Lemma persist_decision_keeps a b c d : moves keeps (persist_approval_decision env a b c d).
Proof. unfold persist_approval_decision. column. Qed.
Lemma persist_memory_keeps a b c : moves keeps (persist_long_term_memory env a b c).
Proof. unfold persist_long_term_memory. column. Qed.
Lemma update_memory_keeps id payload : moves keeps (update_long_term_memory id payload).
Proof. unfold update_long_term_memory. column. Qed.
#[local] Hint Resolve update_memory_keeps : moves.

Lemma retire_each_keeps reason l : moves keeps (retire_each env reason l).
Proof. induction l as [|m l IH]; cbn [retire_each]; unfold retire_memory; moves. Qed.
Lemma retire_expired_each_keeps T l : moves keeps (retire_expired_each T l).
Proof. induction l as [|m l IH]; cbn [retire_expired_each]; unfold retire_memory; moves. Qed.
#[local] Hint Resolve retire_each_keeps retire_expired_each_keeps : moves.

Lemma retire_keeps a b c : moves keeps (retire_long_term_memories env a b c).
Proof. unfold retire_long_term_memories. moves. Qed.
Lemma retire_expired_keeps a : moves keeps (retire_expired_long_term_memories env a).
Proof. unfold retire_expired_long_term_memories. moves. Qed.

(** One call of a writing operation, whatever its arguments and its outcome. *)
Inductive store_call : CoreDataStore -> CoreDataStore -> Prop :=
  | call_event `{Sqlite} ev s : store_call s (persist_event env ev s).2
  | call_span a b c d s : store_call s (persist_execution_span env a b c d s).2
  | call_fact a b c d s : store_call s (persist_fact env a b c d s).2
  | call_policy a b c s : store_call s (persist_policy_decision env a b c s).2
  | call_candidate a b c s : store_call s (persist_memory_candidate env a b c s).2
  | call_tool a b c d e s : store_call s (persist_tool_result env a b c d e s).2
  | call_audit a b c d e s : store_call s (persist_audit_record env a b c d e s).2
  | call_approval a b c d e f s : store_call s (persist_approval_request env a b c d e f s).2
  | call_decision a b c d s : store_call s (persist_approval_decision env a b c d s).2
  | call_memory a b c s : store_call s (persist_long_term_memory env a b c s).2
  | call_update a b s : store_call s (update_long_term_memory a b s).2
  | call_retire a b c s : store_call s (retire_long_term_memories env a b c s).2
  | call_retire_expired a s : store_call s (retire_expired_long_term_memories env a s).2.

#[local] Hint Resolve persist_event_keeps persist_span_keeps persist_fact_keeps persist_policy_keeps persist_candidate_keeps
  persist_tool_keeps persist_audit_keeps persist_approval_keeps persist_decision_keeps persist_memory_keeps
  update_memory_keeps retire_keeps retire_expired_keeps : moves.

Lemma store_call_keeps s s' : store_call s s' -> keeps s s'.
Proof.
  inversion 1; subst;
    match goal with |- keeps ?s (?m ?s).2 => enough (moves keeps m) as Hm by exact (Hm s); auto with moves end.
Qed.
End Persist.

Lemma empty_store_ok : store_ok empty_store.
Proof. split; (split; [apply NoDup_nil_2|constructor]). Qed.

(** A memory of a well-typed store can be retired and read back. *)
Lemma json_object_get k v d : json_object d -> dget k d = Some v -> json_value v.
Proof.
  rewrite json_object_inv. intros [_ Hd] (k' & _ & Hin)%od_get_elem_of. rewrite Forall_forall in Hd.
  by apply Hd in Hin as [_ ?].
Qed.

Lemma py_dict_wf v d : json_value v -> py_dict v = Ok d -> dwf d.
Proof.
  intros Hv. assert (forall l, (let! kvs := rmap dict_item l in Ok (dupdate [] kvs)) = Ok d -> dwf d) as Hit.
  { intros l H. apply rbind_ok in H as (kvs & _ & <-%Ok_inj). apply dupdate_wf, od_nil_wf. }
  destruct v; unfold py_dict; cbn [py_iter rbind]; intros H; try done; try by eapply Hit.
  apply Ok_inj in H as <-. by inversion Hv.
Qed.

(** What the retirement of memories relies on. *)
Lemma store_ok_memories s : store_ok s -> t_wf mm_id (long_term_memories s) /\ Forall memory_ok (long_term_memories s).
Proof.
  intros [_ _ _ _ _ [Hw Hp] _ _ _ _]. split; [done|]. eapply Forall_impl; [exact Hp|]. intros m Hm. split.
  - by apply json_object_inv in Hm as [? _].
  - intros g. unfold memory_governance. rewrite dgetn_eq. apply py_dict_wf. unfold por.
    destruct (py_truthy _); [|constructor; [apply od_nil_wf|constructor]]. destruct (dget "memory_governance" (mm_payload m)) eqn:E; [|constructor].
    exact (json_object_get _ _ _ Hm E).
Qed.

(** ** Properties *)

(** C18: types of the store: from an empty store, whatever sequence of persists, updates and retirements runs,
    and wherever one of them raises, every table holds each key once and every payload column is a
    JSON object; so the memories are ones the retirement is right for. *)
Theorem store_stays_typed env s :
  rtc (store_call env) empty_store s -> store_ok s /\ Forall memory_ok (long_term_memories s).
Proof.
  intros H. enough (store_ok s) by (split; [done|by apply store_ok_memories]).
  pose proof empty_store_ok as Hok. induction H as [|s1 s2 s3 Hs _ IH]; [done|].
  by apply IH, (store_call_keeps env s1 s2).
Qed.

(** ** Witnesses *)

Definition typed_store : CoreDataStore :=
  (persist_long_term_memory store_env "span-0" "unit.callback"
     (dict_of [("refs", VTuple [VStr "evt-1"; VDict [(KStr "b", VInt 2); (KStr "a", VInt 1)]])]%string) empty_store).2.

Lemma store_stays_typed_witness :
  store_ok typed_store /\
  map mm_payload (long_term_memories typed_store) =
    [dict_of [("refs", VList [VStr "evt-1"; VDict [(KStr "a", VInt 1); (KStr "b", VInt 2)]])]]%string.
Proof.
  split; [|vm_compute; reflexivity]. apply (store_stays_typed store_env typed_store). apply rtc_once, call_memory.
Defined.
