(* ===== verification/Memory.v ===== *)
(** * Memory runtimes ([memory.py])

    Candidates, their screening and their commit to long-term memory, for the
    three backends: the empty one, the local one over the core data store, and
    the one that mirrors a sidecar service.  The sidecar's client is a
    parameter: any value of [Mem0Client].  [env] and [clock] are the oracles of
    the store's ids and times and of the memory runtime's own clock readings,
    one index per reading. *)

From Stdlib Require Import ZArith Lia Bool List Ascii String.
From Stdlib.Floats Require Import SpecFloat.
From stdpp Require Import base list option strings sorting.
From S2P Require Import Prelude PyFloat Text Clock PyValue CborCodec Json Events Store.

Open Scope Z_scope.

Definition MEMORY_GOVERNANCE_SCHEMA_VERSION : string := "1.2.5-memory-governance-v1".

(** ** Candidates *)

Definition candidate_confidence (priority : Z) : result spec_float :=
  if priority <=? 0 then Ok (flit 2 1)
  else
    let! p := float_of_Z priority in
    Ok (fround (fmin (flit 1 0) (fmax (flit 2 1) (fdiv p (flit 100 0)))) 3).

Definition retention_policy_for_topic (semantic_topic : string) : string * Z :=
  if startswith semantic_topic "user.input" then ("user_context"%string, 30)
  else if startswith semantic_topic "unit.callback" then ("operational_lesson"%string, 14)
  else if startswith semantic_topic "time." then ("ephemeral_telemetry"%string, 1)
  else ("operational_context"%string, 7).

(** A piece of a [join]. *)
Definition join_piece (v : pyval) : result string :=
  match v with VStr s => Ok s | _ => Raise (TypeError "sequence item: expected str instance") end.

(** Texts sort; any other id makes [sorted] or the [join] after it raise. *)
Definition candidate_dedupe_key (semantic_topic source : pyval) (event_ids : list pyval) : result string :=
  let! ids := rmap join_piece event_ids in
  let! topic := join_piece semantic_topic in
  let! src := join_piece source in
  let! bytes := encode_utf8 (join "|" (topic :: src :: sorted_strings ids)) in
  Ok ("memcand:" +:+ string_take 16 (hex_of_bytes (sha256 bytes))).

Definition set_opt (k : string) (v : option string) (d : dict) : dict :=
  match v with Some s => dset k (VStr s) d | None => d end.

Definition governed_candidate (semantic_topic : pyval) (source : string) (event_ids : list string)
    (priority : Z) (source_fact_refs : option (list pyval)) (memory_backend user_id agent_id : option string)
    : result dict :=
  let refs := VList (vstrs event_ids) in
  let fact_refs := match source_fact_refs with Some l => l | None => [] end in
  let! dedupe_key := candidate_dedupe_key semantic_topic (VStr source) (vstrs event_ids) in
  let! confidence := candidate_confidence priority in
  let governance := dict_of
    [("schema_version", VStr MEMORY_GOVERNANCE_SCHEMA_VERSION); ("lifecycle_state", VStr "proposed");
     ("decision_reason", VStr "frame_topic_candidate_detected"); ("confidence", VFloat confidence);
     ("confidence_source", VStr "frame_priority"); ("dedupe_key", VStr dedupe_key);
     ("source_event_refs", refs); ("source_fact_refs", VList fact_refs);
     ("source_fact_ref_count", VInt (Z.of_nat (length fact_refs)));
     ("review_mode", VStr "deterministic_auto_candidate");
     ("lifecycle_history", VList [VStr "proposed"])]%string in
  let candidate := dict_of
    [("semantic_topic", semantic_topic); ("source", VStr source); ("event_ids", refs);
     ("priority", VInt priority); ("candidate_dedupe_key", VStr dedupe_key); ("source_event_refs", refs);
     ("memory_governance", VDict (set_opt "memory_backend" memory_backend governance))]%string in
  Ok (set_opt "agent_id" agent_id (set_opt "user_id" user_id (set_opt "memory_backend" memory_backend candidate))).

(** [dict(payload.get("memory_governance") or {})] *)
Definition governance_of (payload : dict) : result dict :=
  py_dict (por (dgetn "memory_governance" payload) (VDict [])).

(** [x.append(item)] unless the item is there. *)
Definition append_new (item : string) (l : list pyval) : list pyval :=
  if py_in (VStr item) l then l else l ++ [VStr item].

(** The key of a payload: what its governance says, what it says, or the digest. *)
Definition payload_dedupe_key (governance payload : dict) (semantic_topic source : string) (event_ids : result (list pyval))
    : result string :=
  let known := por (dgetn "dedupe_key" governance) (dgetn "candidate_dedupe_key" payload) in
  if py_truthy known then Ok (py_str known)
  else let! ids := event_ids in candidate_dedupe_key (VStr semantic_topic) (VStr source) ids.

(** The state a screening decides, with its reason. *)
Definition screening_decision (retention_class : string) (priority : Z) : string * string :=
  if String.eqb retention_class "ephemeral_telemetry" then ("rejected", "ephemeral_telemetry_not_retained")%string
  else if priority <? 10 then ("rejected", "candidate_confidence_below_threshold")%string
  else ("accepted", "deterministic_candidate_accepted")%string.

Section Memory.
Variable env : nat -> Env.
Variable clock : nat -> Z.

(** [_utc_after_days(days)], with a new reading of the clock. *)
Definition utc_after (days : Z) : eff CoreDataStore string :=
  fun s => (utc_after_days (clock (st_next s)) days, with_next (S (st_next s)) s).

(** [governance[key] = governance.get(key) or _utc_after_days(0)] *)
Definition stamp_once (key : string) (governance : dict) : eff CoreDataStore dict :=
  let old := dgetn key governance in
  if py_truthy old then eret (dset key old governance)
  else do! now := utc_after 0 in eret (dset key (VStr now) governance).

Definition screen_candidate (candidate : dict) : eff CoreDataStore dict :=
  let payload := candidate in
  do! governance := elift (governance_of payload) in
  let semantic_topic := str_or "semantic_topic" "unknown" payload in
  let source := str_or "source" "unknown" payload in
  do! event_ids := elift (py_iter (por (dgetn "event_ids" payload) (VList []))) in
  do! priority := elift (py_int (por (dgetn "priority" payload) (VInt 0))) in
  do! dedupe_key := elift (payload_dedupe_key governance payload semantic_topic source (Ok event_ids)) in
  do! source_fact_refs := elift (py_iter (por (dgetn "source_fact_refs" governance)
                                             (por (dgetn "source_fact_refs" payload) (VList [])))) in
  let '(retention_class, retention_ttl_days) := retention_policy_for_topic semantic_topic in
  do! history := elift (py_iter (por (dgetn "lifecycle_history" governance) (VList [VStr "proposed"]))) in
  let '(lifecycle_state, decision_reason) := screening_decision retention_class priority in
  let accepted := String.eqb lifecycle_state "accepted" in
  let lifecycle_history := append_new lifecycle_state (append_new "screened" history) in
  do! confidence := elift (candidate_confidence priority) in
  do! expires := utc_after retention_ttl_days in
  let governance := dupdate governance (dict_of
    [("schema_version", VStr MEMORY_GOVERNANCE_SCHEMA_VERSION); ("lifecycle_state", VStr lifecycle_state);
     ("decision_reason", VStr decision_reason); ("screening_reason", VStr decision_reason);
     ("confidence", VFloat confidence); ("confidence_source", VStr "frame_priority");
     ("dedupe_key", VStr dedupe_key); ("source_event_refs", VList event_ids);
     ("source_fact_refs", VList source_fact_refs);
     ("source_fact_ref_count", VInt (Z.of_nat (length source_fact_refs)));
     ("review_mode", VStr "deterministic_auto_candidate"); ("retention_class", VStr retention_class);
     ("retention_ttl_days", VInt retention_ttl_days); ("retention_expires_at", VStr expires);
     ("commit_eligible", VBool accepted); ("lifecycle_history", VList lifecycle_history)]%string) in
  do! governance := stamp_once (if accepted then "accepted_at" else "rejected_at") governance in
  eret (dset "memory_governance" (VDict governance)
    (dset "source_fact_refs" (VList source_fact_refs)
      (dset "source_event_refs" (VList event_ids)
        (dset "candidate_dedupe_key" (VStr dedupe_key) payload)))).

Definition committed_memory_payload (candidate : dict) (commit_backend commit_reason : string)
    (external_memory_id sidecar_status : option string) : eff CoreDataStore dict :=
  let payload := candidate in
  do! governance := elift (governance_of payload) in
  do! history := elift (py_iter (por (dgetn "lifecycle_history" governance) (VList []))) in
  do! now := utc_after 0 in
  let governance := dupdate governance (dict_of
    [("schema_version", VStr MEMORY_GOVERNANCE_SCHEMA_VERSION); ("lifecycle_state", VStr "committed");
     ("decision_reason", VStr commit_reason); ("commit_backend", VStr commit_backend);
     ("committed_at", VStr now); ("lifecycle_history", VList (append_new "committed" history))]%string) in
  let external := str_truthy external_memory_id in
  let status := str_truthy sidecar_status in
  let governance := set_opt "sidecar_status" status (set_opt "external_memory_id" external governance) in
  eret (set_opt "sidecar_status" status
         (set_opt "external_memory_id" external (dset "memory_governance" (VDict governance) payload))).

Definition candidate_commit_eligible (candidate : dict) : result bool :=
  let! governance := governance_of candidate in
  Ok (py_truthy (dget_or "commit_eligible" (VBool false) governance)
      || String.eqb (str_or "lifecycle_state" "" governance) "accepted").

Definition list_at (k : string) (d : dict) : result pyval :=
  let! l := py_iter (por (dgetn k d) (VList [])) in Ok (VList l).

Definition external_memory_payload (candidate : dict) : result dict :=
  let! governance := governance_of candidate in
  let text k default := VStr (str_or k default governance) in
  let! event_ids := list_at "event_ids" candidate in
  let! source_event_refs := list_at "source_event_refs" governance in
  let! source_fact_refs := list_at "source_fact_refs" governance in
  Ok (dict_of
    [("semantic_topic", VStr (str_or "semantic_topic" "unknown" candidate));
     ("source", VStr (str_or "source" "unknown" candidate)); ("event_ids", event_ids);
     ("source_event_refs", source_event_refs); ("source_fact_refs", source_fact_refs);
     ("memory_governance", VDict (dict_of
       [("schema_version", VStr MEMORY_GOVERNANCE_SCHEMA_VERSION);
        ("lifecycle_state", text "lifecycle_state" "unknown"); ("decision_reason", text "decision_reason" "");
        ("confidence", dgetn "confidence" governance); ("confidence_source", text "confidence_source" "");
        ("dedupe_key", text "dedupe_key" ""); ("retention_class", text "retention_class" "");
        ("retention_expires_at", text "retention_expires_at" ""); ("review_mode", text "review_mode" "")]))]%string).

(** ** Commit *)

(** What a candidate commits as, with its key; [None] when it is not eligible. *)
Definition commit_payload (candidate : dict) : eff CoreDataStore (option (dict * string)) :=
  do! governance := elift (governance_of candidate) in
  do! payload := (if str_in (str_or "lifecycle_state" "" governance) [""; "proposed"]%string
                  then screen_candidate candidate else eret candidate) in
  do! eligible := elift (candidate_commit_eligible payload) in
  if eligible then
    do! governance := elift (governance_of payload) in
    do! dedupe_key := elift (payload_dedupe_key governance payload (str_or "semantic_topic" "unknown" payload)
                               (str_or "source" "unknown" payload)
                               (py_iter (por (dgetn "event_ids" payload) (VList [])))) in
    eret (Some (payload, dedupe_key))
  else eret None.

(** ** The local backend *)

Fixpoint local_commit_each (execution_span_id : string) (seen : list string) (candidates : list dict)
    : eff CoreDataStore (list string) :=
  match candidates with
  | [] => eret []
  | candidate :: rest =>
      do! found := commit_payload candidate in
      match found with
      | None => local_commit_each execution_span_id seen rest
      | Some (payload, dedupe_key) =>
          if str_in dedupe_key seen then local_commit_each execution_span_id seen rest
          else
            do! committed := committed_memory_payload payload "local_sqlite" "auto_commit_local_sqlite" None None in
            do! memory_id := persist_long_term_memory env execution_span_id
                               (str_or "semantic_topic" "unknown" payload) committed in
            do! ids := local_commit_each execution_span_id (dedupe_key :: seen) rest in
            eret (memory_id :: ids)
      end
  end.

Definition local_commit_candidates (execution_span_id : string) (candidates : list dict)
    : eff CoreDataStore (list string) :=
  local_commit_each execution_span_id [] candidates.

Fixpoint screen_candidates (candidates : list dict) : eff CoreDataStore (list dict) :=
  match candidates with
  | [] => eret []
  | c :: rest => do! c' := screen_candidate c in do! rest' := screen_candidates rest in eret (c' :: rest')
  end.

Definition local_retire_expired_memories (reference_time : option string) : eff CoreDataStore (list string) :=
  retire_expired_long_term_memories env reference_time.

(** A topic as the argument of the query's [semantic_topic = ?]: no filter for
    [None]; SQLite compares an integer with the text column as its digits.
    (Floating-point topics are outside the model.) *)
Definition topic_argument (topic : pyval) : result (option string) :=
  match topic with
  | VStr s => Ok (Some s)
  | VNone => Ok None
  | VBool b => Ok (Some (if b then "1" else "0")%string)
  | VInt z => if (- 2 ^ 63 <=? z) && (z <? 2 ^ 63) then Ok (Some (string_of_Z z))
              else Raise (OverflowError "Python int too large to convert to SQLite INTEGER")
  | _ => Raise (TypeError "Error binding parameter: type is not supported")
  end.

Definition local_lookup (frame : PerceptionFrame) (s : CoreDataStore) : result (list pyval) :=
  let! found := rmap (fun topic => let! t := topic_argument topic in get_long_term_memories None t false 5 s)
                     (topics frame) in
  Ok (map (fun m => VDict (memory_dict m)) (concat found)).

(** [candidate] for every topic of the frame. *)
Definition propose (source : string) (memory_backend user_id agent_id : option string) (frame : PerceptionFrame)
    : result (list dict) :=
  rmap (fun topic => governed_candidate topic source (event_ids frame) (highest_priority frame) None
                       memory_backend user_id agent_id) (topics frame).

Definition fake_propose_candidates : PerceptionFrame -> result (list dict) :=
  propose "no_model_perception_frame" None None None.
Definition local_propose_candidates : PerceptionFrame -> result (list dict) :=
  propose "local_candidate_backed_memory" (Some "local_sqlite"%string) None None.

End Memory.

(** ** The sidecar backend *)

(** What a client's call raised. *)
Record Raised := { class_name : string; is_type_error : bool }.

(** [client.add(message, user_id=, metadata=)], the same with [messages=message], and the
    two forms of [client.search]; [C] is the sidecar's own state. *)
Record Mem0Client (C : Type) := {
  add_positional : string -> string -> dict -> C -> (pyval + Raised) * C;
  add_keyword : string -> string -> dict -> C -> (pyval + Raised) * C;
  search_keyword : string -> string -> Z -> C -> (pyval + Raised) * C;
  search_positional : string -> string -> Z -> C -> (pyval + Raised) * C;
}.
Arguments add_positional {C}.
Arguments add_keyword {C}.
Arguments search_keyword {C}.
Arguments search_positional {C}.

Record Mem0Sidecar (C : Type) := {
  mem_client : option (Mem0Client C);
  mem_user_id : string;
  mem_agent_id : string;
  package_available : bool;
  unavailable_reason : string;
}.
Arguments mem_client {C}.
Arguments mem_user_id {C}.
Arguments mem_agent_id {C}.
Arguments package_available {C}.
Arguments unavailable_reason {C}.

(** What the backend keeps: the store, the sidecar, and its own last results. *)
Record Mem0State (C : Type) := {
  data_store : CoreDataStore;
  sidecar : C;
  last_lookup_status : string;
  last_commit_status : string;
  last_sidecar_memory_ids : list string;
}.
Arguments data_store {C}.
Arguments sidecar {C}.
Arguments last_lookup_status {C}.
Arguments last_commit_status {C}.
Arguments last_sidecar_memory_ids {C}.
Arguments Build_Mem0State {C}.

Definition mem0_init {C} (store : CoreDataStore) (c : C) : Mem0State C :=
  {| data_store := store; sidecar := c; last_lookup_status := "not_requested";
     last_commit_status := "not_requested"; last_sidecar_memory_ids := [] |}.

Definition on_store {C A} (m : eff CoreDataStore A) : eff (Mem0State C) A :=
  fun s => let '(r, store) := m (data_store s) in
           (r, {| data_store := store; sidecar := sidecar s; last_lookup_status := last_lookup_status s;
                  last_commit_status := last_commit_status s; last_sidecar_memory_ids := last_sidecar_memory_ids s |}).

Definition on_sidecar {C A} (call : C -> A * C) : eff (Mem0State C) A :=
  fun s => let '(r, c) := call (sidecar s) in
           (Ok r, {| data_store := data_store s; sidecar := c; last_lookup_status := last_lookup_status s;
                     last_commit_status := last_commit_status s; last_sidecar_memory_ids := last_sidecar_memory_ids s |}).

Definition set_lookup_status {C} (t : string) : eff (Mem0State C) unit :=
  emodify (fun s => Build_Mem0State (data_store s) (sidecar s) t (last_commit_status s) (last_sidecar_memory_ids s)).
Definition set_commit_status {C} (t : string) : eff (Mem0State C) unit :=
  emodify (fun s => Build_Mem0State (data_store s) (sidecar s) (last_lookup_status s) t (last_sidecar_memory_ids s)).
Definition set_sidecar_memory_ids {C} (ids : list string) : eff (Mem0State C) unit :=
  emodify (fun s => Build_Mem0State (data_store s) (sidecar s) (last_lookup_status s) (last_commit_status s) ids).

(** The class name of an exception the runtime itself raises. *)
Definition raised_by (e : pyerr) : Raised :=
  {| class_name := class_name_of e; is_type_error := match e with TypeError _ => true | _ => false end |}.

(** [try: first() except TypeError: second()] *)
Definition retry_on_type_error {C} (first second : C -> (pyval + Raised) * C) : C -> (pyval + Raised) * C :=
  fun c => match first c with
           | (inr e, c') => if is_type_error e then second c' else (inr e, c')
           | ok => ok
           end.

(** [value] when it is a non-empty text. *)
Definition id_text (v : pyval) : option string :=
  match v with VStr s => str_truthy (Some s) | _ => None end.

Definition first_some {A} (a b : option A) : option A := match a with Some _ => a | None => b end.

Definition extract_sidecar_memory_id (result : pyval) : option string :=
  match result with
  | VDict d =>
      let keyed := first_some (id_text (dgetn "id" d))
                     (first_some (id_text (dgetn "memory_id" d)) (id_text (dgetn "memoryId" d))) in
      let listed := match dgetn "results" d with
                    | VList (VDict first_result :: _) =>
                        id_text (por (dgetn "id" first_result) (dgetn "memory_id" first_result))
                    | _ => None
                    end in
      first_some keyed listed
  | _ => None
  end.

Definition normalize_search_results (raw_results : pyval) : list dict :=
  let candidate_results := match raw_results with
                           | VDict d => por (dgetn "results" d) (por (dgetn "memories" d) (VList []))
                           | v => v
                           end in
  match candidate_results with
  | VList items =>
      map (fun item => let payload := match item with
                                      | VDict d => d
                                      | v => dict_of [("memory", VStr (py_str v))]%string
                                      end in
                       dsetdefault "source" (VStr "mem0_sidecar") payload) items
  | _ => []
  end.

Section Mem0.
Variable env : nat -> Env.
Variable clock : nat -> Z.
Context {C : Type} (m : Mem0Sidecar C).

Definition mem0_propose_candidates : PerceptionFrame -> result (list dict) :=
  propose "mem0_sidecar_memory" (Some "mem0_sidecar"%string) (Some (mem_user_id m)) (Some (mem_agent_id m)).

Definition search_sidecar (client : Mem0Client C) (query : string) : eff (Mem0State C) (pyval + Raised) :=
  on_sidecar (retry_on_type_error (search_keyword client query (mem_user_id m) 5)
                                  (search_positional client query (mem_user_id m) 5)).

(** What an [add] is given, or what building it raised. *)
Definition sidecar_message (candidate : dict) : result string :=
  let! payload := external_memory_payload candidate in json_text ", " ": " (VDict payload).

Definition sidecar_metadata (execution_span_id : string) (candidate : dict) : dict :=
  dict_of [("source_execution_span_id", VStr execution_span_id);
           ("semantic_topic", dgetn "semantic_topic" candidate);
           ("event_ids", dget_or "event_ids" (VList []) candidate);
           ("agent_id", VStr (mem_agent_id m))]%string.

Definition add_sidecar_memory (client : Mem0Client C) (execution_span_id : string) (candidate : dict)
    : eff (Mem0State C) (pyval + Raised) :=
  let metadata := sidecar_metadata execution_span_id candidate in
  match sidecar_message candidate with
  | Raise e => eret (inr (raised_by e))
  | Ok message => on_sidecar (retry_on_type_error (add_positional client message (mem_user_id m) metadata)
                                                  (add_keyword client message (mem_user_id m) metadata))
  end.

Definition mem0_lookup (frame : PerceptionFrame) : eff (Mem0State C) (list pyval) :=
  do! s := eget in
  do! local_items := elift (local_lookup frame (data_store s)) in
  match mem_client m with
  | None => do! _ := set_lookup_status "fallback_local_sqlite" in eret local_items
  | Some client =>
      do! pieces := elift (rmap join_piece (topics frame)) in
      let joined := join " " pieces in
      let query := if String.eqb joined "" then frame_id frame else joined in
      do! raw := search_sidecar client query in
      match raw with
      | inr e => do! _ := set_lookup_status ("fallback_local_sqlite_after_" +:+ class_name e) in eret local_items
      | inl raw_results =>
          do! _ := set_lookup_status "sidecar_and_local_sqlite" in
          eret (map VDict (normalize_search_results raw_results) ++ local_items)
      end
  end.

(** The loop over the candidates with a client: the sidecar's ids and the committed
    candidates, or the class of the exception an [add] raised. *)
Fixpoint sidecar_commit_each (client : Mem0Client C) (execution_span_id : string) (seen : list string)
    (candidates : list dict) : eff (Mem0State C) ((list string * list dict) + string) :=
  match candidates with
  | [] => eret (inl ([], []))
  | candidate :: rest =>
      do! found := on_store (commit_payload clock candidate) in
      match found with
      | None => sidecar_commit_each client execution_span_id seen rest
      | Some (payload, dedupe_key) =>
          if str_in dedupe_key seen then sidecar_commit_each client execution_span_id seen rest
          else
            do! result := add_sidecar_memory client execution_span_id payload in
            match result with
            | inr e => eret (inr (class_name e))
            | inl result =>
                let sidecar_memory_id := extract_sidecar_memory_id result in
                do! committed := on_store (committed_memory_payload clock payload "mem0_sidecar"
                                   "auto_commit_mem0_sidecar" sidecar_memory_id (Some "sidecar_committed"%string)) in
                do! others := sidecar_commit_each client execution_span_id (dedupe_key :: seen) rest in
                eret (match others with
                      | inl (ids, cs) => inl (match sidecar_memory_id with Some id => id :: ids | None => ids end,
                                              committed :: cs)
                      | inr e => inr e
                      end)
            end
      end
  end.

(** The loop without a client. *)
Fixpoint fallback_commit_each (seen : list string) (candidates : list dict)
    : eff CoreDataStore (list dict) :=
  match candidates with
  | [] => eret []
  | candidate :: rest =>
      do! found := commit_payload clock candidate in
      match found with
      | None => fallback_commit_each seen rest
      | Some (payload, dedupe_key) =>
          if str_in dedupe_key seen then fallback_commit_each seen rest
          else
            do! committed := committed_memory_payload clock payload "local_sqlite_fallback"
                               "auto_commit_mem0_fallback_local_sqlite" None (Some "fallback_local_sqlite"%string) in
            do! others := fallback_commit_each (dedupe_key :: seen) rest in
            eret (committed :: others)
      end
  end.

Definition mirrored_candidate (status : string) (sidecar_memory_ids : list string) (candidate : dict) : result dict :=
  let ids := VList (vstrs sidecar_memory_ids) in
  let payload := dset "sidecar_memory_ids" ids (dset "sidecar_status" (VStr status)
                   (dset "memory_backend" (VStr "mem0_sidecar") candidate)) in
  let! governance := governance_of payload in
  Ok (dset "memory_governance"
       (VDict (dset "fallback_continuity" (VBool (startswith status "fallback_"))
                (dset "sidecar_memory_ids" ids
                  (dset "sqlite_mirror_status" (VStr status)
                    (dset "mirror_status" (VStr status)
                      (dset "mirror_backend" (VStr "local_sqlite") governance)))))) payload).

Definition mem0_commit_candidates (execution_span_id : string) (candidates : list dict)
    : eff (Mem0State C) (list string) :=
  do! (sidecar_memory_ids, committed_candidates) :=
    (match mem_client m with
     | Some client =>
         do! added := sidecar_commit_each client execution_span_id [] candidates in
         match added with
         | inr e => do! _ := set_commit_status ("sqlite_mirror_after_" +:+ e) in eret ([], [])
         | inl done => do! _ := set_commit_status "sidecar_and_sqlite_mirror" in eret done
         end
     | None =>
         do! _ := set_commit_status "fallback_local_sqlite" in
         do! committed := on_store (fallback_commit_each [] candidates) in
         eret ([], committed)
     end) in
  do! _ := set_sidecar_memory_ids sidecar_memory_ids in
  do! s := eget in
  do! mirrored := elift (rmap (mirrored_candidate (last_commit_status s) sidecar_memory_ids) committed_candidates) in
  on_store (local_commit_candidates env clock execution_span_id mirrored).

Definition mem0_retire_expired_memories (reference_time : option string) : eff (Mem0State C) (list string) :=
  on_store (retire_expired_long_term_memories env reference_time).

Definition mem0_runtime_metadata (s : Mem0State C) : dict :=
  let configured := match mem_client m with Some _ => true | None => false end in
  dict_of
    [("backend_kind", VStr "mem0_sidecar"); ("backend_runtime", VStr "mem0_with_sqlite_mirror");
     ("governance_schema_version", VStr MEMORY_GOVERNANCE_SCHEMA_VERSION);
     ("requires_external_service", VBool true); ("package_available", VBool (package_available m));
     ("sidecar_configured", VBool configured); ("fallback_backend", VStr "local_sqlite");
     ("fallback_active", VBool (negb configured));
     ("unavailable_reason", VStr (if configured then "" else unavailable_reason m));
     ("user_id", VStr (mem_user_id m)); ("agent_id", VStr (mem_agent_id m));
     ("last_lookup_status", VStr (last_lookup_status s)); ("last_commit_status", VStr (last_commit_status s));
     ("sidecar_memory_ids", VList (vstrs (last_sidecar_memory_ids s)));
     ("can_execute_tools_directly", VBool false)]%string.
End Mem0.

Definition local_metadata (backend_kind backend_runtime : string) : dict := dict_of
  [("backend_kind", VStr backend_kind); ("backend_runtime", VStr backend_runtime);
   ("governance_schema_version", VStr MEMORY_GOVERNANCE_SCHEMA_VERSION);
   ("requires_external_service", VBool false); ("fallback_active", VBool false);
   ("can_execute_tools_directly", VBool false)]%string.
Definition fake_runtime_metadata : dict := local_metadata "fake" "local_deterministic_empty".
Definition local_runtime_metadata : dict := local_metadata "local_sqlite" "sqlite_candidate_store".

(** ** Choosing a backend *)

Inductive MemoryBackend (C : Type) :=
  | FakeLongTermMemory
  | LocalCandidateBackedMemory
  | Mem0SidecarMemory (m : Mem0Sidecar C).
Arguments FakeLongTermMemory {C}.
Arguments LocalCandidateBackedMemory {C}.
Arguments Mem0SidecarMemory {C}.

(** [installed]: a mem0 package is found; [init_client] imports it and makes a client from
    the configuration text, or tells the class of the exception that raised. *)
Definition build_memory_backend {C} (installed : bool) (init_client : option string -> Mem0Client C + string)
    (memory_backend : string) (mem0_client : option (Mem0Client C)) (env : string -> option string)
    : result (MemoryBackend C) :=
  if String.eqb memory_backend "fake" then Ok FakeLongTermMemory
  else if String.eqb memory_backend "local" then Ok LocalCandidateBackedMemory
  else if negb (String.eqb memory_backend "mem0") then Raise (ValueError "memory_backend_must_be_fake_local_or_mem0")
  else
    let user_id := default "neurolink-core"%string (env "MEM0_USER_ID"%string) in
    let agent_id := default "neurolink-rational"%string (env "MEM0_AGENT_ID"%string) in
    let sidecar client available reason :=
      Mem0SidecarMemory {| mem_client := client; mem_user_id := user_id; mem_agent_id := agent_id;
                           package_available := available; unavailable_reason := reason |} in
    Ok match mem0_client with
       | Some client => sidecar (Some client) installed ""%string
       | None =>
           if negb installed then sidecar None false "mem0_package_not_installed"%string
           else match init_client (str_truthy (env "MEM0_CONFIG_JSON"%string)) with
                | inl client => sidecar (Some client) true ""%string
                | inr raised => sidecar None true ("mem0_client_init_failed_" +:+ raised)
                end
       end.

(** ** Only the clock moves *)

Definition quiet (s s' : CoreDataStore) : Prop := s' = with_next (st_next s') s.

#[export] Instance quiet_preorder : PreOrder quiet.
Proof.
  split; unfold quiet; [by intros []|]. intros s1 s2 s3 -> H. rewrite H. reflexivity.
Qed.

Section Quiet.
Context (env : nat -> Env) (clock : nat -> Z).

Lemma utc_after_quiet days : moves quiet (utc_after clock days).
Proof. by intros []. Qed.
#[local] Hint Resolve utc_after_quiet : moves.

Lemma stamp_once_quiet key g : moves quiet (stamp_once clock key g).
Proof. unfold stamp_once. moves. Qed.
#[local] Hint Resolve stamp_once_quiet : moves.

Lemma screen_candidate_quiet c : moves quiet (screen_candidate clock c).
Proof. unfold screen_candidate. moves. Qed.
#[local] Hint Resolve screen_candidate_quiet : moves.

Lemma committed_memory_payload_quiet c a b d e : moves quiet (committed_memory_payload clock c a b d e).
Proof. unfold committed_memory_payload. moves. Qed.

Lemma commit_payload_quiet c : moves quiet (commit_payload clock c).
Proof. unfold commit_payload. moves. Qed.
End Quiet.

(** ** What screening leaves *)

Lemma ebind_lift_inv {W A B} (r : result A) (k : A -> eff W B) w b w' :
  ebind (elift r) k w = (Ok b, w') <-> exists a, r = Ok a /\ k a w = (Ok b, w').
Proof.
  rewrite ebind_inv. split; [intros (a & w1 & [? ->]%elift_inv & ?); eauto|].
  intros (a & -> & ?). exists a, w. by rewrite elift_inv.
Qed.

Lemma ebind_lift_ok {W A B} (r : result A) (k : A -> eff W B) w a : r = Ok a -> ebind (elift r) k w = k a w.
Proof. by intros ->. Qed.

Lemma dget_set_opt (k k' : string) o d :
  k <> k' -> dget k' (set_opt k o d) = dget k' d.
Proof. intros Hk. destruct o; [|done]. cbn. rewrite dget_dset_ne; [done|]. cbn. congruence. Qed.

Lemma set_opt_wf k o d : dwf d -> dwf (set_opt k o d).
Proof. destruct o; [apply dset_wf|done]. Qed.

(** Topic, source, ids and priority as the runtime reads them. *)
Definition topic_of (c : dict) : string := str_or "semantic_topic" "unknown" c.
Definition priority_of (c : dict) : result Z := py_int (por (dgetn "priority" c) (VInt 0)).
Definition key_of_payload (c : dict) : result string :=
  let! g := governance_of c in
  payload_dedupe_key g c (topic_of c) (str_or "source" "unknown" c) (py_iter (por (dgetn "event_ids" c) (VList []))).

(** A candidate worth keeping: not telemetry, and of a priority of at least 10. *)
Definition durable (c : dict) : bool :=
  match priority_of c with
  | Ok p => String.eqb (screening_decision (retention_policy_for_topic (topic_of c)).1 p).1 "accepted"
  | Raise _ => false
  end.

Lemma durable_spec c :
  durable c = true <->
  (exists p, priority_of c = Ok p /\ 10 <= p) /\
  (startswith (topic_of c) "time." = false \/ startswith (topic_of c) "user.input" = true \/
   startswith (topic_of c) "unit.callback" = true).
Proof.
  unfold durable, retention_policy_for_topic, screening_decision. destruct (priority_of c) as [p|e].
  - assert (p < 10 <-> p <? 10 = true) as Hp by (by rewrite Z.ltb_lt).
    repeat case_match; cbn in *; split; intros H'; try done; naive_solver lia.
  - split; [done|]. by intros [(p & [=] & _) _].
Qed.

Section Screening.
Context (env : nat -> Env) (clock : nat -> Z).

Lemma stamp_once_ok key g s g' s' :
  stamp_once clock key g s = (Ok g', s') -> exists v, g' = dset key v g.
Proof.
  unfold stamp_once. destruct (py_truthy _); [intros [-> _]%eret_inv; eauto|].
  intros (v & s1 & _ & [-> _]%eret_inv)%ebind_inv. eauto.
Qed.

(** What a screened payload holds. *)
Record screened (c : dict) (p : dict) (g' : dict) : Prop := {
  sn_governance : dget "memory_governance" p = Some (VDict g');
  sn_state : dget "lifecycle_state" g' =
             Some (VStr (if durable c then "accepted" else "rejected"));
  sn_eligible : dget "commit_eligible" g' = Some (VBool (durable c));
  sn_key : exists key, key_of_payload c = Ok key /\ dget "dedupe_key" g' = Some (VStr key);
  sn_expires : exists n e, utc_after_days (clock n) (retention_policy_for_topic (topic_of c)).2 = Ok e /\
                           dget "retention_expires_at" g' = Some (VStr e);
  sn_topic : topic_of p = topic_of c;
  sn_priority : priority_of p = priority_of c;
  sn_wf : dwf c -> (forall g, governance_of c = Ok g -> dwf g) -> dwf p /\ dwf g';
}.

Lemma screening_states class p :
  screening_decision class p = ("accepted"%string, (screening_decision class p).2) \/
  screening_decision class p = ("rejected"%string, (screening_decision class p).2).
Proof. unfold screening_decision. repeat case_match; cbn; auto. Qed.

Lemma screen_candidate_ok c s p s' :
  screen_candidate clock c s = (Ok p, s') -> exists g', screened c p g'.
Proof.
  unfold screen_candidate. cbn zeta. rewrite ebind_lift_inv. intros (g & Hg & H).
  apply ebind_lift_inv in H as (ids & Hids & H). apply ebind_lift_inv in H as (prio & Hp & H).
  apply ebind_lift_inv in H as (key & Hk & H). apply ebind_lift_inv in H as (refs & _ & H).
  destruct (retention_policy_for_topic _) as [class days] eqn:Ec.
  apply ebind_lift_inv in H as (history & _ & H).
  assert (durable c = String.eqb (screening_decision class prio).1 "accepted") as Hd.
  { unfold durable, priority_of, topic_of. by rewrite Hp, Ec. }
  destruct (screening_decision class prio) as [state reason] eqn:Es. cbn [fst] in Hd.
  apply ebind_lift_inv in H as (confidence & _ & H).
  apply ebind_inv in H as (expires & s1 & He & H). apply ebind_inv in H as (g' & s2 & Hs & [-> _]%eret_inv).
  apply stamp_once_ok in Hs as (v & ->). set (stamped := (if String.eqb state "accepted" then _ else _) : string).
  assert (stamped = "accepted_at"%string \/ stamped = "rejected_at"%string) as Hst
    by (unfold stamped; destruct (String.eqb _ _); auto).
  eexists. split.
  - by dict_simpl.
  - rewrite Hd. destruct Hst as [-> | ->]; rewrite dget_dset_ne by done; rewrite dget_dupdate by nodup_lits; dict_simpl;
      destruct (screening_states class prio) as [E|E]; rewrite Es in E; injection E as ->; done.
  - rewrite Hd. destruct Hst as [-> | ->]; rewrite dget_dset_ne by done; rewrite dget_dupdate by nodup_lits; by dict_simpl.
  - exists key. split.
    + unfold key_of_payload. rewrite Hg. cbn [rbind]. by rewrite Hids.
    + destruct Hst as [-> | ->]; rewrite dget_dset_ne by done; rewrite dget_dupdate by nodup_lits; by dict_simpl.
  - exists (st_next s), expires. split.
    + unfold topic_of. rewrite Ec. unfold utc_after in He. cbn [snd]. congruence.
    + destruct Hst as [-> | ->]; rewrite dget_dset_ne by done; rewrite dget_dupdate by nodup_lits; by dict_simpl.
  - unfold topic_of, str_or. rewrite !dgetn_eq. by dict_simpl.
  - unfold priority_of. rewrite !dgetn_eq. by dict_simpl.
  - intros Hc Hgw. split; [by repeat apply dset_wf|]. by apply dset_wf, dupdate_wf, Hgw.
Qed.
End Screening.

(** ** What is committed *)

(** A candidate as it is proposed: dicts with one entry per key, no decision yet, and a
    key that is a text if there is one. *)
Record proposed (c : dict) : Prop := {
  pr_wf : dwf c;
  pr_governance : exists g, governance_of c = Ok g /\ dwf g /\
    str_or "lifecycle_state" "" g ∈ [""; "proposed"]%string /\
    (let known := por (dgetn "dedupe_key" g) (dgetn "candidate_dedupe_key" c) in
     py_truthy known = false \/ is_str known = true);
}.

(** A candidate as it is offered for commit: as it was proposed, or, as the workflow does, after it was screened. *)
Inductive offered (clock : nat -> Z) (c : dict) : Prop :=
  | of_proposed : proposed c -> offered clock c
  | of_screened c0 s0 s1 : proposed c0 -> screen_candidate clock c0 s0 = (Ok c, s1) -> offered clock c.

Lemma payload_dedupe_key_nonempty g p topic source ids key :
  (let known := por (dgetn "dedupe_key" g) (dgetn "candidate_dedupe_key" p) in
   py_truthy known = false \/ is_str known = true) ->
  payload_dedupe_key g p topic source ids = Ok key -> key <> ""%string.
Proof.
  cbn zeta. unfold payload_dedupe_key. cbn zeta. generalize (por (dgetn "dedupe_key" g) (dgetn "candidate_dedupe_key" p)) as known.
  intros known Hkn H.
  destruct (py_truthy known) eqn:Et.
  - destruct Hkn as [?|Hs]; [congruence|]. destruct known; try done. cbn in Et. apply Ok_inj in H as <-.
    rewrite py_str_VStr. intros ->. done.
  - apply rbind_ok in H as (l & _ & H). unfold candidate_dedupe_key in H. inv_ok. done.
Qed.

Lemma governance_at p g : dget "memory_governance" p = Some (VDict g) -> g <> [] -> governance_of p = Ok g.
Proof. intros H Hn. unfold governance_of. rewrite dgetn_eq, H. unfold por. cbn. by destruct g. Qed.

Lemma dget_nonempty (k : string) v (d : dict) : dget k d = Some v -> d <> [].
Proof. by intros H ->. Qed.

Lemma screened_governance clock c p g : screened clock c p g -> governance_of p = Ok g.
Proof. intros [Hg Hs]. eapply governance_at; [done|]. by eapply dget_nonempty. Qed.

Lemma screened_durable clock c p g : screened clock c p g -> durable p = durable c.
Proof. intros H. unfold durable. by rewrite (sn_priority _ _ _ _ H), (sn_topic _ _ _ _ H). Qed.

(** A screened candidate is its own screening. *)
Lemma screened_again clock c0 c g : proposed c0 -> screened clock c0 c g -> screened clock c c g.
Proof.
  intros [Hw (g0 & Hg0 & Hgw & _ & Hkn)] Hsc. pose proof (screened_durable _ _ _ _ Hsc) as Hd.
  pose proof (screened_governance _ _ _ _ Hsc) as Hg. destruct (sn_key _ _ _ _ Hsc) as (key & Hk & Hkey). split.
  - exact (sn_governance _ _ _ _ Hsc).
  - rewrite Hd. exact (sn_state _ _ _ _ Hsc).
  - rewrite Hd. exact (sn_eligible _ _ _ _ Hsc).
  - exists key. split; [|done]. unfold key_of_payload in Hk |- *. rewrite Hg0 in Hk. rewrite Hg. cbn [rbind] in *.
    apply payload_dedupe_key_nonempty in Hk as Hne; [|done]. unfold payload_dedupe_key.
    rewrite (dgetn_eq "dedupe_key" g), Hkey. cbn zeta. rewrite por_str_nonempty by done.
    cbn [py_truthy py_str]. apply String.eqb_neq in Hne. by rewrite Hne.
  - rewrite (sn_topic _ _ _ _ Hsc). exact (sn_expires _ _ _ _ Hsc).
  - done.
  - done.
  - intros _ _. apply (sn_wf _ _ _ _ Hsc Hw). intros ? ?. by replace g1 with g0 by congruence.
Qed.

(** What both kinds of candidates have. *)
Record shaped (c : dict) : Prop := {
  sh_wf : dwf c;
  sh_governance : exists g, governance_of c = Ok g /\ dwf g /\
    (let known := por (dgetn "dedupe_key" g) (dgetn "candidate_dedupe_key" c) in
     py_truthy known = false \/ is_str known = true);
}.

Lemma offered_shaped clock c : offered clock c -> shaped c.
Proof.
  intros [[Hw (g & Hg & Hgw & _ & Hkn)]|c0 s0 s1 Hp Hsc]; [split; [done|by exists g]|].
  apply screen_candidate_ok in Hsc as (g & Hsc). pose proof Hp as [Hw (g0 & Hg0 & Hgw & _ & Hkn)].
  destruct (sn_wf _ _ _ _ Hsc Hw) as [Hcw Hgw']; [intros ? ?; by replace g1 with g0 by congruence|].
  split; [done|]. exists g. split; [by eapply screened_governance|]. split; [done|]. cbn zeta.
  destruct (sn_key _ _ _ _ Hsc) as (key & Hk & Hkey). unfold key_of_payload in Hk. rewrite Hg0 in Hk.
  apply payload_dedupe_key_nonempty in Hk; [|done]. rewrite dgetn_eq, Hkey, por_str_nonempty by done. by right.
Qed.

(** Taking a screened candidate: it is committed as it is when it is eligible. *)
Lemma commit_screened clock c g (s : CoreDataStore) found s' :
  screened clock c c g -> (forall key, key_of_payload c = Ok key -> key <> ""%string) ->
  (do! eligible := elift (candidate_commit_eligible c) in
   if eligible then
     do! governance := elift (governance_of c) in
     do! dedupe_key := elift (payload_dedupe_key governance c (str_or "semantic_topic" "unknown" c)
                                (str_or "source" "unknown" c) (py_iter (por (dgetn "event_ids" c) (VList [])))) in
     eret (Some (c, dedupe_key))
   else eret None) s = (Ok found, s') ->
  exists key, key_of_payload c = Ok key /\ found = (if durable c then Some (c, key) else None).
Proof.
  intros Hsc Hne H. pose proof (screened_governance _ _ _ _ Hsc) as Hg. destruct (sn_key _ _ _ _ Hsc) as (key & Hk & Hkey).
  apply ebind_lift_inv in H as (el & Hel & H). unfold candidate_commit_eligible in Hel. rewrite Hg in Hel.
  cbn [rbind] in Hel. rewrite dget_or_eq, (sn_eligible _ _ _ _ Hsc) in Hel. unfold str_or in Hel.
  rewrite dgetn_eq, (sn_state _ _ _ _ Hsc) in Hel. exists key. split; [done|].
  assert (el = durable c) as -> by (apply Ok_inj in Hel as <-; by destruct (durable c)).
  destruct (durable c); [|by apply eret_inv in H as [-> _]].
  rewrite Hg in H. apply ebind_lift_inv in H as (g1 & Hg1 & H). apply Ok_inj in Hg1 as <-.
  apply ebind_lift_inv in H as (k & Hk' & [-> _]%eret_inv). specialize (Hne _ Hk).
  unfold payload_dedupe_key in Hk'. rewrite (dgetn_eq "dedupe_key" g), Hkey in Hk'. cbn zeta in Hk'.
  rewrite por_str_nonempty in Hk' by done. cbn in Hk'. apply String.eqb_neq in Hne. rewrite Hne in Hk'.
  by apply Ok_inj in Hk' as <-.
Qed.

Lemma shaped_key c key : shaped c -> key_of_payload c = Ok key -> key <> ""%string.
Proof.
  intros [_ (g & Hg & _ & Hkn)] Hk. unfold key_of_payload in Hk. rewrite Hg in Hk. by eapply payload_dedupe_key_nonempty.
Qed.

Lemma commit_payload_ok clock c s found s' :
  offered clock c -> commit_payload clock c s = (Ok found, s') ->
  exists key, key_of_payload c = Ok key /\
    match found with
    | None => durable c = false
    | Some (p, k) => durable c = true /\ k = key /\ exists g, screened clock c p g
    end.
Proof.
  intros Ho. pose proof (offered_shaped _ _ Ho) as Hsh. destruct Ho as [Hp|c0 s0 s1 Hp Hs0]; unfold commit_payload.
  - pose proof Hp as [_ (g & Hg & _ & Hst & _)]. rewrite ebind_lift_inv. intros (g0 & Hg0 & H).
    assert (g0 = g) as -> by congruence. apply str_in_true in Hst. rewrite Hst in H. clear Hst.
    apply ebind_inv in H as (p & s1 & Hs & H). pose proof (of_screened clock p _ _ _ Hp Hs) as Hop.
    apply screen_candidate_ok in Hs as (g' & Hsc). pose proof (screened_again _ _ _ _ Hp Hsc) as Hag.
    apply (commit_screened _ _ _ _ _ _ Hag) in H as (key & Hk & ->); [|intros k; apply shaped_key; by eapply offered_shaped].
    destruct (sn_key _ _ _ _ Hag) as (k1 & Hk1 & Hd1). destruct (sn_key _ _ _ _ Hsc) as (k2 & Hk2 & Hd2).
    assert (k2 = key) as -> by congruence. exists key. split; [done|]. rewrite (screened_durable _ _ _ _ Hsc).
    destruct (durable c) eqn:Ed; [|done]. split_and!; try done. by exists g'.
  - apply screen_candidate_ok in Hs0 as (g & Hsc). pose proof (screened_again _ _ _ _ Hp Hsc) as Hag.
    rewrite (screened_governance _ _ _ _ Hsc), ebind_lift_inv. intros (? & <-%Ok_inj & H).
    assert (str_in (str_or "lifecycle_state" "" g) [""; "proposed"]%string = false) as Hst.
    { apply str_in_false. unfold str_or. rewrite dgetn_eq, (sn_state _ _ _ _ Hsc). by destruct (durable c0); intros [|[|[]%elem_of_nil]%elem_of_cons]%elem_of_cons. }
    rewrite Hst in H. rewrite (ebind_eq _ _ _ c s) in H by done.
    apply (commit_screened _ _ _ _ _ _ Hag) in H as (key & Hk & ->); [|intros k; by apply shaped_key].
    exists key. split; [done|]. destruct (durable c) eqn:Ed; [|done]. split_and!; try done. by exists g.
Qed.

(** A payload that is committed for candidate [c] under [key]. *)
Record ready (clock : nat -> Z) (c : dict) (key : string) (p : dict) : Prop := {
  rd_wf : dwf p;
  rd_topic : topic_of p = topic_of c;
  rd_key : key <> ""%string;
  rd_governance : exists g, dget "memory_governance" p = Some (VDict g) /\ dwf g /\
    dget "dedupe_key" g = Some (VStr key) /\ dget "lifecycle_state" g = Some (VStr "committed") /\
    dget "commit_eligible" g = Some (VBool true) /\
    exists n e, utc_after_days (clock n) (retention_policy_for_topic (topic_of c)).2 = Ok e /\
                dget "retention_expires_at" g = Some (VStr e);
}.

Lemma topic_of_dset k v p : k <> "semantic_topic"%string -> topic_of (dset (KStr k) v p) = topic_of p.
Proof. intros Hk. unfold topic_of, str_or. rewrite !dgetn_eq, dget_dset_ne; [done|]. cbn. congruence. Qed.

Lemma topic_of_set_opt k o p : k <> "semantic_topic"%string -> topic_of (set_opt k o p) = topic_of p.
Proof. intros Hk. destruct o; [by apply topic_of_dset|done]. Qed.

Lemma committed_ready clock c p g backend reason external status key s p' s' :
  shaped c -> screened clock c p g -> durable c = true -> key_of_payload c = Ok key ->
  committed_memory_payload clock p backend reason external status s = (Ok p', s') -> ready clock c key p'.
Proof.
  intros [Hw (g0 & Hg0 & Hg0w & Hkn)] Hsc Hd Hk. unfold committed_memory_payload. cbn zeta.
  rewrite (screened_governance _ _ _ _ Hsc), ebind_lift_inv. intros (? & <-%Ok_inj & H).
  apply ebind_lift_inv in H as (history & _ & H). apply ebind_inv in H as (now & s1 & _ & [-> _]%eret_inv).
  destruct (sn_wf _ _ _ _ Hsc Hw) as [Hpw Hgw]; [intros ? ?; congruence|].
  destruct (sn_key _ _ _ _ Hsc) as (key' & Hk' & Hkey). assert (key' = key) as -> by congruence.
  destruct (sn_expires _ _ _ _ Hsc) as (n & e & He1 & He2). split.
  - by repeat first [apply set_opt_wf|apply dset_wf].
  - rewrite !topic_of_set_opt, topic_of_dset by done. apply (sn_topic _ _ _ _ Hsc).
  - unfold key_of_payload in Hk. rewrite Hg0 in Hk. by eapply payload_dedupe_key_nonempty.
  - eexists. split; [by rewrite !dget_set_opt, dget_dset_eq|]. split; [by repeat apply set_opt_wf; apply dupdate_wf|].
    rewrite !dget_set_opt by done. rewrite !dget_dupdate by nodup_lits. rewrite !dget_dict_of. cbn.
    rewrite (sn_eligible _ _ _ _ Hsc), Hd. split_and!; try done. by exists n, e.
Qed.

Lemma committed_topic clock p backend reason external status s p' s' :
  committed_memory_payload clock p backend reason external status s = (Ok p', s') -> topic_of p' = topic_of p.
Proof.
  unfold committed_memory_payload. cbn zeta. intros (g & _ & H)%ebind_lift_inv.
  apply ebind_lift_inv in H as (history & _ & H). apply ebind_inv in H as (now & s1 & _ & [-> _]%eret_inv).
  by rewrite !topic_of_set_opt, topic_of_dset.
Qed.

Lemma governance_of_at p g : dget "memory_governance" p = Some (VDict g) -> governance_of p = Ok g.
Proof.
  intros H. destruct g; [|by apply governance_at]. unfold governance_of. rewrite dgetn_eq, H. reflexivity.
Qed.

Lemma mirrored_ready clock c key status ids p p' :
  ready clock c key p -> mirrored_candidate status ids p = Ok p' -> ready clock c key p'.
Proof.
  intros [Hw Ht Hk (g & Hg & Hgw & H1 & H2 & H3 & H4)]. unfold mirrored_candidate. cbn zeta.
  rewrite (governance_of_at _ g) by by dict_simpl. cbn [rbind]. intros <-%Ok_inj. split.
  - by repeat apply dset_wf.
  - by rewrite !topic_of_dset.
  - done.
  - eexists. split; [by rewrite dget_dset_eq|]. split; [by repeat apply dset_wf|]. rewrite !dget_dset_ne by done. done.
Qed.

Lemma ready_again clock c key p backend reason external status s p' s' :
  ready clock c key p -> committed_memory_payload clock p backend reason external status s = (Ok p', s') ->
  ready clock c key p'.
Proof.
  intros [Hw Ht Hk (g & Hg & Hgw & H1 & H2 & H3 & H4)] H. pose proof (committed_topic _ _ _ _ _ _ _ _ _ H) as Htp.
  unfold committed_memory_payload in H. cbn zeta in H. rewrite (governance_of_at _ _ Hg) in H.
  apply ebind_lift_inv in H as (g0 & <-%Ok_inj & H). apply ebind_lift_inv in H as (history & _ & H).
  apply ebind_inv in H as (now & s1 & _ & [-> _]%eret_inv). split; [|congruence|done|].
  - by repeat first [apply set_opt_wf|apply dset_wf].
  - eexists. split; [by rewrite !dget_set_opt, dget_dset_eq|]. split; [by repeat apply set_opt_wf; apply dupdate_wf|].
    rewrite !dget_set_opt by done. rewrite !dget_dupdate by nodup_lits. by rewrite !dget_dict_of.
Qed.

(** A payload that is already committed is taken as it is. *)
Lemma commit_payload_ready clock c key p s : ready clock c key p -> commit_payload clock p s = (Ok (Some (p, key)), s).
Proof.
  intros [Hw Ht Hk (g & Hg & Hgw & H1 & H2 & H3 & H4)]. pose proof (governance_of_at _ _ Hg) as Hgov.
  unfold commit_payload. rewrite (ebind_lift_ok _ _ _ g) by done.
  assert (str_or "lifecycle_state" "" g = "committed"%string) as ->
    by (unfold str_or; rewrite dgetn_eq, H2; apply py_str_por_empty).
  rewrite (ebind_eq _ _ _ p s) by done. rewrite (ebind_lift_ok _ _ _ true).
  2: { unfold candidate_commit_eligible. rewrite Hgov. cbn [rbind]. by rewrite dget_or_eq, H3. }
  rewrite (ebind_lift_ok _ _ _ g) by done. rewrite (ebind_lift_ok _ _ _ key); [done|].
  unfold payload_dedupe_key. rewrite (dgetn_eq "dedupe_key" g), H1. cbn zeta. rewrite por_str_nonempty by done.
  cbn [py_truthy py_str]. apply String.eqb_neq in Hk. by rewrite Hk.
Qed.

(** ** The candidates that are committed *)

(** The durable candidates, the first one for each dedupe key, with their keys. *)
Fixpoint chosen (seen : list string) (candidates : list dict) : list (dict * string) :=
  match candidates with
  | [] => []
  | c :: rest =>
      match key_of_payload c with
      | Ok key => if durable c && negb (str_in key seen) then (c, key) :: chosen (key :: seen) rest
                  else chosen seen rest
      | Raise _ => chosen seen rest
      end
  end.

Lemma chosen_in seen candidates c key :
  (c, key) ∈ chosen seen candidates -> c ∈ candidates /\ durable c = true /\ key_of_payload c = Ok key /\ key ∉ seen.
Proof.
  revert seen. induction candidates as [|c' rest IH]; intros seen; cbn [chosen]; [by intros ?%elem_of_nil|].
  assert (forall seen', (c, key) ∈ chosen seen' rest ->
            c ∈ c' :: rest /\ durable c = true /\ key_of_payload c = Ok key /\ key ∉ seen') as Hrest.
  { intros seen' (?&?&?&?)%IH. split_and!; try done. by right. }
  destruct (key_of_payload c') as [key'|] eqn:Ek; [|apply Hrest].
  destruct (durable c' && negb (str_in key' seen)) eqn:E; [|apply Hrest]. bool_prop.
  intros [[= -> ->]|H']%elem_of_cons.
  - split_and!; try done; [by left|]. by apply str_in_false.
  - apply Hrest in H' as (?&?&?&Hn). split_and!; try done. intros ?. apply Hn. by right.
Qed.

Lemma chosen_keys seen candidates key :
  key ∈ map snd (chosen seen candidates) <->
  key ∉ seen /\ exists c, c ∈ candidates /\ durable c = true /\ key_of_payload c = Ok key.
Proof.
  split.
  - intros ([c k] & -> & Hin)%list_elem_of_fmap. apply chosen_in in Hin as (?&?&?&?). split; [done|]. by exists c.
  - intros (Hs & c & Hc & Hd & Hk). revert seen Hs. induction Hc as [c rest|c c' rest Hc IH]; intros seen Hs; cbn [chosen].
    + rewrite Hk, Hd. apply str_in_false in Hs. rewrite Hs. cbn. by left.
    + destruct (key_of_payload c') as [key'|]; [|by apply IH].
      destruct (durable c' && negb (str_in key' seen)); [|by apply IH]. cbn [map snd].
      destruct (decide (key = key')) as [->|Hne]; [by left|]. right. apply IH; [done..|]. by intros [?|?]%elem_of_cons.
Qed.

Lemma chosen_nodup seen candidates : NoDup (map snd (chosen seen candidates)).
Proof.
  revert seen. induction candidates as [|c rest IH]; intros seen; cbn [chosen]; [constructor|].
  destruct (key_of_payload c) as [key|]; [|done]. destruct (durable c && negb (str_in key seen)); [|done].
  cbn [map snd]. apply NoDup_cons. split; [|done]. rewrite chosen_keys. intros [Hn _]. apply Hn. by left.
Qed.

(** One step of a commit loop over [c]: what it finds and what is chosen. *)
Lemma chosen_step clock c rest seen s found s' :
  offered clock c -> commit_payload clock c s = (Ok found, s') ->
  match found with
  | Some (p, key) =>
      if str_in key seen then chosen seen (c :: rest) = chosen seen rest
      else chosen seen (c :: rest) = (c, key) :: chosen (key :: seen) rest /\
           durable c = true /\ key_of_payload c = Ok key /\ exists g, screened clock c p g
  | None => chosen seen (c :: rest) = chosen seen rest
  end.
Proof.
  intros Hc Hf. apply commit_payload_ok in Hf as (key & Hk & Hf); [|done]. cbn [chosen]. rewrite Hk.
  destruct found as [[p k]|]; [|by rewrite Hf]. destruct Hf as (Hd & -> & g & Hsc). rewrite Hd.
  destruct (str_in key seen); [done|]. cbn. split_and!; try done. by exists g.
Qed.

(** A memory row that holds the payload committed for [c]. *)
Record committed_row (clock : nat -> Z) (span : string) (c : dict) (key : string) (r : MemoryRow) : Prop := {
  cr_span : mm_span r = span;
  cr_topic : mm_topic r = topic_of c;
  cr_governance : exists g, memory_governance r = Ok g /\
    dget "dedupe_key" g = Some (VStr key) /\ dget "lifecycle_state" g = Some (VStr "committed") /\
    exists n e, utc_after_days (clock n) (retention_policy_for_topic (topic_of c)).2 = Ok e /\
                dget "retention_expires_at" g = Some (VStr e);
}.

(** The dedupe key of a stored memory. *)
Definition row_key (r : MemoryRow) : string :=
  match memory_governance r with Ok g => str_or "dedupe_key" "" g | Raise _ => "" end.

Lemma committed_row_key clock span c key r : committed_row clock span c key r -> row_key r = key.
Proof.
  intros [_ _ (g & Hg & Hk & _)]. unfold row_key, str_or. rewrite Hg, dgetn_eq, Hk. apply py_str_por_empty.
Qed.

(** A stored payload keeps the texts of its governance. *)
Lemma stored_governance p g column :
  dwf p -> dwf g -> dget "memory_governance" p = Some (VDict g) -> json_column p = Ok column ->
  exists h, dget "memory_governance" column = Some (VDict h) /\
    forall (k t : string), dget k g = Some (VStr t) -> dget k h = Some (VStr t).
Proof.
  intros Hp Hg Hget Hc. destruct (json_column_get _ _ _ _ Hp Hc Hget) as (v & Hv & Hcol).
  pose proof (json_norm_dict _ _ Hv) as (kvs & -> & _). exists (dupdate [] kvs). split; [done|].
  intros k t Hk. destruct (json_norm_get _ _ _ _ Hg Hv Hk) as (v & Hn & Hl). by apply Ok_inj in Hn as <-.
Qed.

Lemma stored_row clock span c key p r :
  ready clock c key p -> json_column p = Ok (mm_payload r) -> mm_span r = span -> mm_topic r = topic_of p ->
  committed_row clock span c key r.
Proof.
  intros [Hw Ht Hk (g & Hg & Hgw & H1 & H2 & _ & n & e & He1 & He2)] Hc Hs Htr.
  destruct (stored_governance _ _ _ Hw Hgw Hg Hc) as (h & Hh & Htext). split; [done|by rewrite Htr|].
  exists h. split; [exact (governance_of_at _ _ Hh)|]. split_and!; [by apply Htext..|]. exists n, e. auto.
Qed.

(** More memories are all a commit adds. *)
Definition appended (s : CoreDataStore) (rows : list MemoryRow) (s' : CoreDataStore) : Prop :=
  s' = with_memories (long_term_memories s ++ rows) (with_next (st_next s') s).

Lemma appended_nil s : appended s [] s.
Proof. unfold appended. rewrite app_nil_r. by destruct s. Qed.

Lemma appended_quiet s s1 rows s' : quiet s s1 -> appended s1 rows s' -> appended s rows s'.
Proof. unfold quiet, appended. intros -> ->. done. Qed.

Lemma appended_none s s' : appended s [] s' -> quiet s s'.
Proof. unfold appended, quiet. rewrite app_nil_r. intros ->. by destruct s. Qed.

Lemma appended_app s s1 r rows s' : appended s [r] s1 -> appended s1 rows s' -> appended s (r :: rows) s'.
Proof. unfold appended. intros -> ->. cbn. by rewrite <- (app_assoc _ [r] rows). Qed.

Section LocalLoop.
Context (env : nat -> Env) (clock : nat -> Z) (span : string).

Definition rows_for (l : list (dict * string)) (rows : list MemoryRow) : Prop :=
  Forall2 (fun ck r => committed_row clock span ck.1 ck.2 r) l rows.

(** Persisting a payload that is ready. *)
Lemma persist_ready c key p s id s' :
  ready clock c key p ->
  persist_long_term_memory env span (topic_of p) p s = (Ok id, s') ->
  exists r, appended s [r] s' /\ mm_id r = id /\ committed_row clock span c key r.
Proof.
  intros Hr H. apply persist_long_term_memory_ok in H as (column & r & Hcol & Hs & Hid & Hspan & Htopic & Hpay).
  exists r. split; [by unfold appended; rewrite Hs|]. split; [done|]. eapply stored_row; [done|congruence|done..].
Qed.

Lemma local_commit_each_ok candidates : forall seen s ids s',
  Forall (offered clock) candidates -> local_commit_each env clock span seen candidates s = (Ok ids, s') ->
  exists rows, appended s rows s' /\ map mm_id rows = ids /\ rows_for (chosen seen candidates) rows.
Proof.
  induction candidates as [|c rest IH]; intros seen s ids s' Hpr H; cbn [local_commit_each] in H.
  { apply eret_inv in H as [-> ->]. exists []. split; [apply appended_nil|]. split; [done|constructor]. }
  apply Forall_cons in Hpr as [Hc Hpr]. apply ebind_inv in H as (found & s1 & Hf & H).
  pose proof (moves_at _ _ _ _ _ (commit_payload_quiet clock c) Hf) as Hq.
  apply (chosen_step _ _ rest seen) in Hf; [|done].
  assert (forall s2, quiet s1 s2 -> local_commit_each env clock span seen rest s2 = (Ok ids, s') ->
            exists rows, appended s rows s' /\ map mm_id rows = ids /\ rows_for (chosen seen rest) rows) as Hskip.
  { intros s2 Hq2 H2. destruct (IH _ _ _ _ Hpr H2) as (rows & Ha & ?). exists rows. split; [|done].
    eapply appended_quiet; [|exact Ha]. by etrans. }
  destruct found as [[p key]|]; [|rewrite Hf; by eapply Hskip].
  destruct (str_in key seen); [rewrite Hf; by eapply Hskip|]. destruct Hf as (-> & Hd & Hk & g & Hsc).
  apply ebind_inv in H as (p' & s2 & Hp' & H).
  pose proof (moves_at _ _ _ _ _ (committed_memory_payload_quiet clock p _ _ _ _) Hp') as Hq2.
  assert (topic_of p = topic_of p') as Ht by (symmetry; eapply committed_topic; exact Hp').
  apply (committed_ready clock c p g _ _ _ _ key) in Hp'; [|by eapply offered_shaped|done..].
  apply ebind_inv in H as (id & s3 & Hi & H). change (str_or _ _ p) with (topic_of p) in Hi. rewrite Ht in Hi.
  apply (persist_ready c key) in Hi as (r & Ha & <- & Hr); [|done].
  apply ebind_inv in H as (ids' & s4 & H & [-> ->]%eret_inv).
  destruct (IH _ _ _ _ Hpr H) as (rows & Ha' & <- & Hn). exists (r :: rows). split; [|split; [done|by constructor]].
  apply (appended_quiet _ s2); [by etrans|]. by apply (appended_app _ s3).
Qed.

(** Committing payloads that are ready, under distinct keys. *)
Lemma local_commit_ready l : forall seen s payloads ids s',
  Forall2 (fun ck p => ready clock ck.1 ck.2 p) l payloads -> NoDup (map snd l) ->
  (forall key, key ∈ map snd l -> key ∉ seen) ->
  local_commit_each env clock span seen payloads s = (Ok ids, s') ->
  exists rows, appended s rows s' /\ map mm_id rows = ids /\ rows_for l rows.
Proof.
  induction l as [|[c key] l IH]; intros seen s payloads ids s' Hl Hnd Hseen H; inversion Hl as [|? p ? rest Hp Hrest]; subst;
    cbn [local_commit_each] in H.
  { apply eret_inv in H as [-> ->]. exists []. split; [apply appended_nil|]. split; [done|constructor]. }
  cbn [map snd fst] in *. apply NoDup_cons in Hnd as [Hn Hnd]. unfold ebind at 1 in H.
  rewrite (commit_payload_ready _ _ _ _ _ Hp) in H.
  assert (str_in key seen = false) as Hs by (apply str_in_false, Hseen; by left). rewrite Hs in H.
  apply ebind_inv in H as (p' & s2 & Hp' & H).
  pose proof (moves_at _ _ _ _ _ (committed_memory_payload_quiet clock p _ _ _ _) Hp') as Hq2.
  assert (topic_of p = topic_of p') as Ht by (symmetry; eapply committed_topic; exact Hp').
  apply (ready_again _ c key) in Hp'; [|done].
  apply ebind_inv in H as (id & s3 & Hi & H). change (str_or _ _ p) with (topic_of p) in Hi. rewrite Ht in Hi.
  apply (persist_ready c key) in Hi as (r & Ha & <- & Hr); [|done].
  apply ebind_inv in H as (ids' & s4 & H & [-> ->]%eret_inv).
  assert (forall key', key' ∈ map snd l -> key' ∉ key :: seen) as Hseen'.
  { intros key' Hk' [->|Hin]%elem_of_cons; [done|]. apply (Hseen key'); [by right|done]. }
  destruct (IH _ _ _ _ _ Hrest Hnd Hseen' H) as (rows & Ha' & <- & Hrows).
  exists (r :: rows). split; [|split; [done|by constructor]].
  apply (appended_quiet _ s2); [done|]. by apply (appended_app _ s3).
Qed.
End LocalLoop.

(** ** The sidecar backend's loops *)

Section SidecarLoops.
Context (env : nat -> Env) (clock : nat -> Z) (span : string) {C : Type} (m : Mem0Sidecar C).

(** The store is left alone but for the clock. *)
Definition store_quiet (s s' : Mem0State C) : Prop := quiet (data_store s) (data_store s').

#[export] Instance store_quiet_preorder : PreOrder store_quiet.
Proof. split; unfold store_quiet; [by intros ?|]. intros ? ? ? ? ?. by etrans. Qed.

Lemma on_store_quiet {A} (op : eff CoreDataStore A) : moves quiet op -> moves store_quiet (on_store op).
Proof. intros H s. unfold on_store, store_quiet. specialize (H (data_store s)). by destruct (op _). Qed.

Lemma on_sidecar_quiet {A} (call : C -> A * C) : moves store_quiet (on_sidecar call).
Proof. intros s. unfold on_sidecar, store_quiet. by destruct (call _). Qed.

Lemma set_commit_status_quiet t : moves store_quiet (set_commit_status t).
Proof. intros s. unfold store_quiet. cbn. reflexivity. Qed.

#[local] Hint Resolve set_commit_status_quiet on_store_quiet on_sidecar_quiet commit_payload_quiet committed_memory_payload_quiet : moves.

Lemma add_sidecar_memory_quiet client c : moves store_quiet (add_sidecar_memory m client span c).
Proof. unfold add_sidecar_memory. moves. Qed.
#[local] Hint Resolve add_sidecar_memory_quiet : moves.

Lemma sidecar_commit_each_quiet client candidates seen :
  moves store_quiet (sidecar_commit_each clock m client span seen candidates).
Proof. revert seen. induction candidates as [|c rest IH]; intros seen; cbn [sidecar_commit_each]; moves. Qed.

Lemma fallback_commit_each_quiet candidates seen : moves quiet (fallback_commit_each clock seen candidates).
Proof. revert seen. induction candidates as [|c rest IH]; intros seen; cbn [fallback_commit_each]; moves. Qed.

Lemma in_store_inv {A} (op : eff CoreDataStore A) (s s' : Mem0State C) a :
  on_store op s = (Ok a, s') -> op (data_store s) = (Ok a, data_store s').
Proof. unfold on_store. destruct (op _) as [[] w]; intros [= -> <-]; done. Qed.

Definition ready_for (l : list (dict * string)) (payloads : list dict) : Prop :=
  Forall2 (fun ck p => ready clock ck.1 ck.2 p) l payloads.

Lemma sidecar_commit_each_ok client candidates : forall seen s ids payloads s',
  Forall (offered clock) candidates ->
  sidecar_commit_each clock m client span seen candidates s = (Ok (inl (ids, payloads)), s') ->
  ready_for (chosen seen candidates) payloads.
Proof.
  induction candidates as [|c rest IH]; intros seen s ids payloads s' Hpr H; cbn [sidecar_commit_each] in H.
  { apply eret_inv in H as [[= -> ->] _]. constructor. }
  apply Forall_cons in Hpr as [Hc Hpr]. apply ebind_inv in H as (found & s1 & Hf & H).
  apply in_store_inv in Hf. apply (chosen_step _ _ rest seen) in Hf; [|done].
  destruct found as [[p key]|]; [|rewrite Hf; by eapply IH].
  destruct (str_in key seen); [rewrite Hf; by eapply IH|]. destruct Hf as (-> & Hd & Hk & g & Hsc).
  apply ebind_inv in H as ([result|e] & s2 & _ & H); [|by apply eret_inv in H as [[=] _]].
  apply ebind_inv in H as (p' & s3 & Hp' & H). apply in_store_inv in Hp'.
  apply (committed_ready clock c p g _ _ _ _ key) in Hp'; [|by eapply offered_shaped|done..].
  apply ebind_inv in H as ([[ids' cs]|e] & s4 & H & He); apply eret_inv in He as [He _]; [|done].
  injection He as _ ->. constructor; [done|]. by eapply IH.
Qed.

(** What the client answers to one candidate: an [add] that works, or what it (or building its message) raised. *)
Definition added (client : Mem0Client C) (p : dict) (c : C) : (pyval + Raised) * C :=
  match sidecar_message p with
  | Raise e => (inr (raised_by e), c)
  | Ok message => retry_on_type_error (add_positional client message (mem_user_id m) (sidecar_metadata m span p))
                                      (add_keyword client message (mem_user_id m) (sidecar_metadata m span p)) c
  end.

(** The candidates a client was given, one after the other, with its answers. *)
Inductive Adds (client : Mem0Client C) : C -> list dict -> list pyval -> C -> Prop :=
  | adds_none c : Adds client c [] [] c
  | adds_one c p result c1 sent results c2 :
      added client p c = (inl result, c1) -> Adds client c1 sent results c2 -> Adds client c (p :: sent) (result :: results) c2.

(** A chosen candidate and what is sent for it. *)
Definition screened_as (ck : dict * string) (p : dict) : Prop := exists g, screened clock ck.1 p g.

Lemma add_sidecar_memory_added client p (s s' : Mem0State C) r :
  add_sidecar_memory m client span p s = (Ok r, s') -> added client p (sidecar s) = (r, sidecar s').
Proof.
  unfold add_sidecar_memory, added. destruct (sidecar_message p) as [message|e]; [|by intros [-> ->]%eret_inv].
  unfold on_sidecar. destruct (retry_on_type_error _ _ _). by intros [= -> <-].
Qed.

Lemma on_store_sidecar {A} (op : eff CoreDataStore A) (s s' : Mem0State C) r : on_store op s = (r, s') -> sidecar s' = sidecar s.
Proof. unfold on_store. destruct (op _). by intros [= _ <-]. Qed.

Lemma sidecar_commit_each_adds client candidates : forall seen s r s',
  Forall (offered clock) candidates -> sidecar_commit_each clock m client span seen candidates s = (Ok r, s') ->
  match r with
  | inl (ids, _) => exists sent results, Forall2 screened_as (chosen seen candidates) sent /\
      Adds client (sidecar s) sent results (sidecar s') /\ ids = omap extract_sidecar_memory_id results
  | inr raised => exists kept ck lost sent results p e c, chosen seen candidates = kept ++ ck :: lost /\
      Forall2 screened_as kept sent /\ Adds client (sidecar s) sent results c /\ screened_as ck p /\
      added client p c = (inr e, sidecar s') /\ raised = class_name e
  end.
Proof.
  induction candidates as [|c rest IH]; intros seen s r s' Hpr H; cbn [sidecar_commit_each] in H.
  { apply eret_inv in H as [-> ->]. exists [], []. split_and!; constructor. }
  apply Forall_cons in Hpr as [Hc Hpr]. apply ebind_inv in H as (found & s1 & Hf & H).
  pose proof (on_store_sidecar _ _ _ _ Hf) as Hs1. rewrite <- Hs1.
  apply in_store_inv in Hf. apply (chosen_step _ _ rest seen) in Hf; [|done].
  destruct found as [[p key]|]; [|rewrite Hf; by apply IH].
  destruct (str_in key seen); [rewrite Hf; by apply IH|]. destruct Hf as (-> & _ & _ & Hsc).
  apply ebind_inv in H as ([result|e] & s2 & Ha & H); apply add_sidecar_memory_added in Ha.
  - apply ebind_inv in H as (p' & s3 & Hp' & H). apply on_store_sidecar in Hp'. rewrite <- Hp' in Ha.
    apply ebind_inv in H as (others & s4 & H & [-> ->]%eret_inv). apply IH in H; [|done]. destruct others as [[ids cs]|raised].
    + destruct H as (sent & results & Hs & Had & ->). exists (p :: sent), (result :: results). split; [by constructor|].
      split; [by eapply adds_one|]. cbn [omap list_omap]. by destruct (extract_sidecar_memory_id result).
    + destruct H as (kept & ck & lost & sent & results & p2 & e & c2 & -> & Hs & Had & H).
      exists ((c, key) :: kept), ck, lost, (p :: sent), (result :: results), p2, e, c2. split; [done|].
      split; [by constructor|]. split; [by eapply adds_one|done].
  - apply eret_inv in H as [-> ->]. exists [], (c, key), (chosen (key :: seen) rest), [], [], p, e, (sidecar s1).
    split_and!; [done|constructor|constructor|done..].
Qed.

Lemma fallback_commit_each_ok candidates : forall seen s payloads s',
  Forall (offered clock) candidates -> fallback_commit_each clock seen candidates s = (Ok payloads, s') ->
  ready_for (chosen seen candidates) payloads.
Proof.
  induction candidates as [|c rest IH]; intros seen s payloads s' Hpr H; cbn [fallback_commit_each] in H.
  { apply eret_inv in H as [-> _]. constructor. }
  apply Forall_cons in Hpr as [Hc Hpr]. apply ebind_inv in H as (found & s1 & Hf & H).
  apply (chosen_step _ _ rest seen) in Hf; [|done].
  destruct found as [[p key]|]; [|rewrite Hf; by eapply IH].
  destruct (str_in key seen); [rewrite Hf; by eapply IH|]. destruct Hf as (-> & Hd & Hk & g & Hsc).
  apply ebind_inv in H as (p' & s3 & Hp' & H). apply (committed_ready clock c p g _ _ _ _ key) in Hp'; [|exact (offered_shaped clock c Hc)|done..].
  apply ebind_inv in H as (cs & s4 & H & [-> _]%eret_inv). constructor; [done|]. by eapply IH.
Qed.

Lemma mirrored_ready_for l status ids payloads mirrored :
  ready_for l payloads -> rmap (mirrored_candidate status ids) payloads = Ok mirrored -> ready_for l mirrored.
Proof.
  intros Hl Hm%rmap_ok_Forall2. revert mirrored Hm. induction Hl as [|ck p l ps Hp Hl IH]; intros mirrored Hm.
  - inversion Hm. constructor.
  - inversion Hm as [|? p' ? ms Hp' Hms]; subst. constructor; [|by apply IH]. by eapply mirrored_ready.
Qed.

(** What is left of a commit once the candidates are committed. *)
Lemma mirror_ok l status ids payloads (s s' : Mem0State C) res :
  NoDup (map snd l) -> ready_for l payloads -> last_commit_status s = status ->
  (do! _ := set_sidecar_memory_ids ids in
   do! st := eget in
   do! mirrored := elift (rmap (mirrored_candidate (last_commit_status st) ids) payloads) in
   on_store (local_commit_candidates env clock span mirrored)) s = (Ok res, s') ->
  exists rows, appended (data_store s) rows (data_store s') /\ map mm_id rows = res /\
    rows_for clock span l rows /\ last_commit_status s' = status /\ last_sidecar_memory_ids s' = ids /\ sidecar s' = sidecar s.
Proof.
  intros Hnd Hl Hst H. apply ebind_inv in H as ([] & s1 & Hs & H). injection Hs as <-.
  apply ebind_inv in H as (st & s2 & Hg & H). injection Hg as <- <-. apply ebind_lift_inv in H as (mirrored & Hm & H).
  assert (last_commit_status s' = last_commit_status s /\ last_sidecar_memory_ids s' = ids /\ sidecar s' = sidecar s) as (Hc & Hi & Hside).
  { unfold on_store in H. destruct (local_commit_candidates _ _ _ _ _) as [r w]. injection H as _ <-. done. }
  apply in_store_inv in H. cbn [data_store] in H.
  apply (local_commit_ready env clock span l) in H as (rows & Ha & Hids & Hr);
    [|by eapply mirrored_ready_for|done|by intros key _ ?%elem_of_nil].
  exists rows. split_and!; try done. by rewrite Hc.
Qed.
End SidecarLoops.

(** Every proposal of a frame is a proposed candidate. *)
Lemma governed_proposed topic source ids priority refs backend user agent c :
  governed_candidate topic source ids priority refs backend user agent = Ok c -> proposed c.
Proof.
  unfold governed_candidate. cbn zeta. intros H. apply rbind_ok in H as (key & _ & H).
  apply rbind_ok in H as (confidence & _ & H). apply Ok_inj in H as <-. split.
  - repeat apply set_opt_wf. nodup_lits.
  - eexists. split; [|split; [|split]].
    + apply governance_of_at. rewrite !dget_set_opt by done. by dict_simpl.
    + apply set_opt_wf. nodup_lits.
    + unfold str_or. rewrite dgetn_eq, dget_set_opt by done. right. left.
    + cbn zeta. rewrite !dgetn_eq, !dget_set_opt by done. dict_simpl. unfold por. by destruct (py_truthy (VStr key)) eqn:E; right.
Qed.

Lemma propose_proposed source backend user agent frame candidates :
  propose source backend user agent frame = Ok candidates -> Forall proposed candidates.
Proof.
  intros H%rmap_ok_Forall2. induction H as [|topic c l l' Hc _ IH]; constructor; [|done]. by eapply governed_proposed.
Qed.

Lemma screen_candidates_offered clock candidates s screened s' :
  Forall proposed candidates -> screen_candidates clock candidates s = (Ok screened, s') -> Forall (offered clock) screened.
Proof.
  intros H. revert s screened s'. induction H as [|c rest Hc _ IH]; intros s screened s' E; cbn [screen_candidates] in E.
  { apply eret_inv in E as [-> _]. constructor. }
  apply ebind_inv in E as (c' & s1 & Hs & E). apply ebind_inv in E as (rest' & s2 & Hr & [-> _]%eret_inv).
  constructor; [by eapply of_screened|by eapply IH].
Qed.

(** ** Properties *)

(** What committing candidates promises: the long-term memories grow by one row for each
    dedupe key of a durable candidate and by no other row, no key comes twice, and
    nothing else changes but the clock.  The rows carry the returned ids, the span,
    the topic of a candidate with their key, the state "committed", and the expiry of
    that topic's retention policy. *)
Definition commits (clock : nat -> Z) (span : string) (candidates : list dict) (s : CoreDataStore)
    (ids : list string) (s' : CoreDataStore) : Prop :=
  exists rows, appended s rows s' /\ map mm_id rows = ids /\ NoDup (map row_key rows) /\
    (forall key, key ∈ map row_key rows <->
       exists c, c ∈ candidates /\ durable c = true /\ key_of_payload c = Ok key) /\
    Forall (fun r => exists c, c ∈ candidates /\ durable c = true /\ key_of_payload c = Ok (row_key r) /\
                       committed_row clock span c (row_key r) r) rows.

Lemma chosen_commits clock span candidates s rows s' :
  appended s rows s' -> rows_for clock span (chosen [] candidates) rows ->
  commits clock span candidates s (map mm_id rows) s'.
Proof.
  intros Ha Hr. assert (map row_key rows = map snd (chosen [] candidates)) as Hkeys.
  { clear Ha. induction Hr as [|[c key] r l rows Hr _ IH]; cbn; [done|]. by rewrite (committed_row_key _ _ _ _ _ Hr), IH. }
  exists rows. split_and!; [done..| | |].
  - rewrite Hkeys. apply chosen_nodup.
  - intros key. rewrite Hkeys, chosen_keys, elem_of_nil. tauto.
  - apply Forall_forall. intros r (i & Hi)%list_elem_of_lookup.
    destruct (Forall2_lookup_r _ _ _ _ _ Hr Hi) as ([c key] & Hc & Hrow). apply list_elem_of_lookup_2 in Hc.
    rewrite (committed_row_key _ _ _ _ _ Hrow). apply chosen_in in Hc as (?&?&?&_). by exists c.
Qed.

(** The local backend commits: from proposed candidates, a commit that returns keeps exactly the
    durable ones (neither telemetry nor of a priority below 10), once for each dedupe key. *)
Theorem local_commit_spec env clock span candidates s ids s' :
  Forall (offered clock) candidates ->
  local_commit_candidates env clock span candidates s = (Ok ids, s') ->
  commits clock span candidates s ids s'.
Proof.
  unfold local_commit_candidates. intros Hpr H.
  destruct (local_commit_each_ok env clock span candidates [] s ids s' Hpr H) as (rows & Ha & <- & Hr).
  by apply chosen_commits.
Qed.

(** C34: the sidecar backend mirrors the local one, unless an [add] fails. The candidates are as they were proposed, or, as the workflow
    hands them over, those proposals once screened. Without a client, a commit that returns keeps in the store what the local backend
    would keep: one memory for each dedupe key of a durable candidate. With a client, the durable candidates (the first of each key) are
    given to it in order: when every [add] works the same memories are kept, and the sidecar ids reported are those of its answers;
    when one raises, nothing more is sent, the store keeps nothing at all (what was sent before stays in the sidecar), no ids are
    returned or reported, and the status is "sqlite_mirror_after_" and the class of what was raised. *)
Theorem mem0_commit_spec {C} env clock (m : Mem0Sidecar C) span candidates (s s' : Mem0State C) ids :
  Forall (offered clock) candidates ->
  mem0_commit_candidates env clock m span candidates s = (Ok ids, s') ->
  match mem_client m with
  | None => commits clock span candidates (data_store s) ids (data_store s') /\
      last_commit_status s' = "fallback_local_sqlite"%string /\ last_sidecar_memory_ids s' = [] /\ sidecar s' = sidecar s
  | Some client =>
      (exists sent results, Forall2 (screened_as clock) (chosen [] candidates) sent /\
         Adds span m client (sidecar s) sent results (sidecar s') /\ commits clock span candidates (data_store s) ids (data_store s') /\
         last_commit_status s' = "sidecar_and_sqlite_mirror"%string /\
         last_sidecar_memory_ids s' = omap extract_sidecar_memory_id results) \/
      (exists kept ck lost sent results p e c, chosen [] candidates = kept ++ ck :: lost /\
         Forall2 (screened_as clock) kept sent /\ Adds span m client (sidecar s) sent results c /\ screened_as clock ck p /\
         added span m client p c = (inr e, sidecar s') /\ last_commit_status s' = "sqlite_mirror_after_" +:+ class_name e /\
         ids = [] /\ last_sidecar_memory_ids s' = [] /\ quiet (data_store s) (data_store s'))
  end.
Proof.
  intros Hpr H. unfold mem0_commit_candidates in H. apply ebind_inv in H as ([sids payloads] & s1 & H1 & H).
  assert (store_quiet s s1) as Hq.
  { eapply moves_at; [|exact H1]. destruct (mem_client m) as [client|]; moves.
    all: auto using set_commit_status_quiet, sidecar_commit_each_quiet, on_store_quiet, fallback_commit_each_quiet. }
  destruct (mem_client m) as [client|] eqn:Em.
  - apply ebind_inv in H1 as ([[ids1 cs]|e] & s2 & Hl & H1); pose proof (sidecar_commit_each_adds _ _ _ _ _ _ _ _ _ Hpr Hl) as Had;
      apply ebind_inv in H1 as ([] & s3 & Hs & H1); injection Hs as <-; apply eret_inv in H1 as [[= -> ->] ->].
    + left. apply (sidecar_commit_each_ok clock) in Hl; [|done]. destruct Had as (sent & results & Hs & Had & ->).
      apply (mirror_ok env clock span (chosen [] candidates) "sidecar_and_sqlite_mirror") in H
        as (rows & Ha & <- & Hr & Hst & Hi & Hside); [|apply chosen_nodup|done|done].
      exists sent, results. rewrite Hside. split_and!; try done. apply chosen_commits; [|done]. by eapply appended_quiet.
    + right. destruct Had as (kept & ck & lost & sent & results & p & ex & c & Hch & Hs & Had & Hck & Hadd & ->).
      apply (mirror_ok env clock span [] ("sqlite_mirror_after_" +:+ class_name ex)) in H
        as (rows & Ha & <- & Hr & Hst & Hi & Hside); [|constructor|constructor|done].
      inversion Hr; subst. exists kept, ck, lost, sent, results, p, ex, c. rewrite Hside. split_and!; try done.
      etrans; [exact Hq|]. by apply appended_none.
  - apply ebind_inv in H1 as ([] & s2 & Hs & H1). injection Hs as <-. apply ebind_inv in H1 as (cs & s3 & Hl & H1).
    apply eret_inv in H1 as [[= -> ->] ->]. pose proof (on_store_sidecar _ _ _ _ Hl) as Hsc.
    assert (last_commit_status s3 = "fallback_local_sqlite"%string) as Hst3.
    { unfold on_store in Hl. destruct (fallback_commit_each _ _ _ _). by injection Hl as _ <-. }
    apply in_store_inv, fallback_commit_each_ok in Hl; [|done].
    apply (mirror_ok env clock span (chosen [] candidates) "fallback_local_sqlite") in H
      as (rows & Ha & <- & Hr & Hst & Hi & Hside); [|apply chosen_nodup|done|done].
    split_and!; try done; [|by rewrite Hside, Hsc]. apply chosen_commits; [|done]. by eapply appended_quiet.
Qed.

(** ** Witnesses *)

Definition memory_clock (n : nat) : Z := 1778414400000000 + Z.of_nat n * 1000.

Definition memory_frame (priority : Z) : PerceptionFrame :=
  {| frame_id := "frame-1"; event_ids := ["evt-2"; "evt-1"]%string; highest_priority := priority;
     topics := map VStr ["user.input.text"; "time.tick"; "unit.callback"; "user.input.text"]%string |}.

Definition proposals (r : result (list dict)) : list dict := match r with Ok l => l | Raise _ => [] end.

Definition memory_candidates_of (priority : Z) : list dict := proposals (local_propose_candidates (memory_frame priority)).

Lemma memory_candidates_proposed priority : priority = 40 -> Forall (offered memory_clock) (memory_candidates_of priority).
Proof.
  intros ->. apply Forall_impl with (P := proposed); [|by apply of_proposed].
  apply (propose_proposed "local_candidate_backed_memory" (Some "local_sqlite"%string) None None (memory_frame 40)).
  vm_compute. reflexivity.
Qed.

Definition sample_commit : result (list string) * CoreDataStore :=
  local_commit_candidates store_env memory_clock "span-1" (memory_candidates_of 40) empty_store.

(** Telemetry is not kept, and the repeated topic is kept once. *)
Example sample_commit_ex :
  sample_commit.1 = Ok ["memory-3"; "memory-10"]%string /\
  map mm_topic (long_term_memories sample_commit.2) = ["user.input.text"; "unit.callback"]%string.
Proof. vm_compute. auto. Qed.

(** A run, given what it returns. *)
Lemma run_eq {W A} (run : result A * W) r : run.1 = r -> run = (r, run.2).
Proof. by intros <-; destruct run. Qed.

Lemma local_commit_spec_witness :
  commits memory_clock "span-1" (memory_candidates_of 40) empty_store ["memory-3"; "memory-10"]%string sample_commit.2.
Proof.
  apply (local_commit_spec store_env memory_clock "span-1" (memory_candidates_of 40) empty_store
           ["memory-3"; "memory-10"]%string sample_commit.2); [by apply memory_candidates_proposed|].
  unfold sample_commit. apply run_eq. vm_compute. reflexivity.
Defined.

(** A sidecar whose [add] works [budget] times, by keyword only. *)
Definition sample_client : Mem0Client nat := {|
  add_positional _ _ _ n := (inr {| class_name := "TypeError"; is_type_error := true |}, n);
  add_keyword _ _ _ n := match n with
                         | O => (inr {| class_name := "ConnectionError"; is_type_error := false |}, n)
                         | S n' => (inl (VDict (dict_of [("id", VStr ("mem-" +:+ string_of_Z (Z.of_nat n)))]))%string, n')
                         end;
  search_keyword _ _ _ n := (inl VNone, n);
  search_positional _ _ _ n := (inl VNone, n);
|}.

Definition sample_sidecar : Mem0Sidecar nat :=
  {| mem_client := Some sample_client; mem_user_id := "neurolink-core"; mem_agent_id := "neurolink-rational";
     package_available := true; unavailable_reason := "" |}.

Definition sidecar_run (budget : nat) : result (list string) * Mem0State nat :=
  mem0_commit_candidates store_env memory_clock sample_sidecar "span-1" (memory_candidates_of 40) (mem0_init empty_store budget).

(** Two adds are needed: with one, the first memory is in the sidecar and nothing in the store. *)
Example sidecar_runs :
  (sidecar_run 2).1 = Ok ["memory-11"; "memory-14"]%string /\ last_commit_status (sidecar_run 2).2 = "sidecar_and_sqlite_mirror"%string /\
  last_sidecar_memory_ids (sidecar_run 2).2 = ["mem-2"; "mem-1"]%string /\
  (sidecar_run 1).1 = Ok [] /\ last_commit_status (sidecar_run 1).2 = "sqlite_mirror_after_ConnectionError"%string /\
  sidecar (sidecar_run 1).2 = O /\ long_term_memories (data_store (sidecar_run 1).2) = [].
Proof. vm_compute. auto 10. Qed.

(** The candidates of the workflow, screened before they are committed. *)
Definition screened_sample : result (list dict) * CoreDataStore := screen_candidates memory_clock (memory_candidates_of 40) empty_store.
Definition screened_candidates : list dict := proposals screened_sample.1.
Definition screened_run : result (list string) * Mem0State nat :=
  mem0_commit_candidates store_env memory_clock sample_sidecar "span-1" screened_candidates (mem0_init empty_store 1%nat).

Lemma screened_candidates_offered : Forall (offered memory_clock) screened_candidates.
Proof.
  assert (H : Forall proposed (memory_candidates_of 40)).
  { apply (propose_proposed "local_candidate_backed_memory" (Some "local_sqlite"%string) None None (memory_frame 40)).
    vm_compute. reflexivity. }
  revert H. unfold screened_candidates, screened_sample. generalize (memory_candidates_of 40). intros l H.
  destruct (screen_candidates memory_clock l empty_store) as [[screened|e] s'] eqn:E; [|constructor].
  exact (screen_candidates_offered _ _ _ _ _ H E).
Qed.

Lemma mem0_commit_spec_witness :
  exists kept ck lost, chosen [] screened_candidates = kept ++ ck :: lost /\
    last_commit_status screened_run.2 = "sqlite_mirror_after_ConnectionError"%string /\ quiet empty_store (data_store screened_run.2).
Proof.
  assert (E : screened_run = (Ok [], screened_run.2)) by (apply run_eq; vm_compute; reflexivity).
  destruct (mem0_commit_spec store_env memory_clock sample_sidecar "span-1" screened_candidates
              (mem0_init empty_store 1%nat) screened_run.2 [] screened_candidates_offered E) as [H|H].
  - destruct H as (_ & _ & _ & _ & _ & H & _). exfalso. revert H. vm_compute. discriminate.
  - destruct H as (kept & ck & lost & _ & _ & _ & e & _ & Hch & _ & _ & _ & _ & Hst & _ & _ & Hq).
    exists kept, ck, lost. split; [exact Hch|]. split; [|exact Hq]. vm_compute. reflexivity.
Defined.

(** A candidate that is accepted but has no [commit_eligible] flag is committed by the local backend and added
    to the sidecar, but the sidecar backend's mirror of it is not kept. *)
Definition accepted_candidate : dict := dict_of
  [("semantic_topic", VStr "user.input.text");
   ("memory_governance", VDict (dict_of [("lifecycle_state", VStr "accepted")]))]%string.

Lemma accepted_without_flag_is_lost :
  let run := mem0_commit_candidates store_env memory_clock sample_sidecar "span-1" [accepted_candidate]
               (mem0_init empty_store 5%nat) in
  (local_commit_candidates store_env memory_clock "span-1" [accepted_candidate] empty_store).1 = Ok ["memory-1"%string] /\
  run.1 = Ok [] /\ sidecar run.2 = 4%nat /\ last_commit_status run.2 = "sidecar_and_sqlite_mirror"%string /\
  long_term_memories (data_store run.2) = [].
Proof. vm_compute. auto 10. Qed.
