(* ===== verification/Approval.v ===== *)
(** * Approval of delegated tools ([workflow.py])

    The operator's decision on a pending approval request: what resources the
    request needs and the unit reports, the gate on them, the execution of the
    approved tool, and what is recorded.  The tool adapter is any instance of
    [ToolAdapter]; the state is the data store and the adapter's own state. *)

From Stdlib Require Import ZArith Lia Bool List Ascii String.
From stdpp Require Import base list option strings relations.
From S2P Require Import Prelude PyFloat Text PyValue Events Contracts StateSync Store.

Open Scope Z_scope.

(** ** What the unit reports *)

(** [_extract_observed_lease_rows] and [_extract_observed_app_rows]: the rows
    under [field] of the first reply of an "ok" observation. *)
Definition observed_rows (field : string) (observation : dict) : result (list dict) :=
  if negb (eq_str (dgetn "status" observation) "ok") then Ok []
  else match dgetn "payload" observation with
  | VDict payload =>
      match dgetn "result" payload with
      | VDict result_payload =>
          match dgetn "replies" result_payload with
          | VList (first :: _) =>
              let! first_reply := as_dict first in
              match dgetn "payload" first_reply with
              | VDict reply_payload =>
                  match dgetn field reply_payload with
                  | VList l => Ok (omap (fun v => match v with VDict d => Some d | _ => None end) l)
                  | _ => Ok []
                  end
              | _ => Ok []
              end
          | _ => Ok []
          end
      | _ => Ok []
      end
  | _ => Ok []
  end.

Definition resource_keys : list string := ["resource"; "resource_name"; "lease_name"; "name"]%string.

Definition nonempty_str (v : pyval) : option string :=
  match v with VStr s => if String.eqb s "" then None else Some s | _ => None end.

Definition resource_name (lease : dict) : option string :=
  head (omap (fun k => nonempty_str (dgetn (KStr k) lease)) resource_keys).

Definition observed_resource_names (leases : list dict) : list string :=
  sorted_strings (remove_dups (omap resource_name leases)).

(** The ids of the leases whose resource is one of [resources], in order. *)
Definition matching_lease_ids (resources : list string) (leases : list dict) : list string :=
  omap (fun lease =>
    if str_in (str_or "resource" "" lease) resources then
      nonempty_str (VStr (str_or "lease_id" "" lease))
    else None) leases.

(** ** Operator requirements ([_build_operator_requirements]) *)

Record OperatorRequirements := {
  or_resource : string;
  or_required_resources : list string;
  or_resolved_required_resources : list string;
  or_unresolved_required_resources : list string;
  or_observed_resources : list string;
  or_missing_required_resources : list string;
  or_plan_quality : pyval;
  or_skill_requirements : pyval;
  or_mcp_requirements : pyval;
  or_workflow_plan_required : bool;
  or_workflow_plan_evidence_present : bool;
  or_cleanup_hint : pyval;
  or_target_app_id : string;
  or_matching_lease_ids : list string;
  or_recovery_candidate_summary : pyval;
  or_lease_observation : dict;
  or_apps_observation : dict;
  or_state_sync_observation : dict;
}.

Definition satisfied (o : OperatorRequirements) : bool :=
  match or_missing_required_resources o with [] => true | _ => false end.

Definition requirements_to_dict (o : OperatorRequirements) : dict :=
  dict_of
    [("resource", VStr (or_resource o));
     ("required_resources", VList (vstrs (or_required_resources o)));
     ("resolved_required_resources", VList (vstrs (or_resolved_required_resources o)));
     ("unresolved_required_resources", VList (vstrs (or_unresolved_required_resources o)));
     ("observed_resources", VList (vstrs (or_observed_resources o)));
     ("missing_required_resources", VList (vstrs (or_missing_required_resources o)));
     ("resource_requirements_satisfied", VBool (satisfied o));
     ("plan_quality", por (or_plan_quality o) VNone);
     ("skill_requirements", por (or_skill_requirements o) VNone);
     ("mcp_requirements", por (or_mcp_requirements o) VNone);
     ("workflow_plan_required", VBool (or_workflow_plan_required o));
     ("workflow_plan_evidence_present", VBool (or_workflow_plan_evidence_present o));
     ("missing_operational_prerequisites",
      VList (if or_workflow_plan_required o && negb (or_workflow_plan_evidence_present o)
             then [VStr "workflow_plan_evidence"] else []));
     ("cleanup_hint", or_cleanup_hint o);
     ("target_app_id", VStr (or_target_app_id o));
     ("matching_lease_ids", VList (vstrs (or_matching_lease_ids o)));
     ("recovery_candidate_summary", por (or_recovery_candidate_summary o) VNone);
     ("lease_observation", VDict (or_lease_observation o));
     ("apps_observation", VDict (or_apps_observation o));
     ("state_sync_observation", VDict (or_state_sync_observation o))].

(** The scoped name of a required resource, when it can be resolved. *)
Definition resolve_resource (target_app_id resource : string) : option string :=
  if String.eqb resource "app_control_lease" then
    if String.eqb target_app_id "" then None else Some ("app/" +:+ target_app_id +:+ "/control")
  else if String.eqb resource "update_rollback_lease" then
    if String.eqb target_app_id "" then None else Some ("update/app/" +:+ target_app_id +:+ "/rollback")
  else Some resource.

Definition unresolvable (target_app_id resource : string) : bool :=
  match resolve_resource target_app_id resource with Some _ => false | None => true end.

Definition str_list (v : pyval) : list string :=
  match v with VList l | VTuple l => map py_str l | _ => [] end.

Definition or_empty (key : string) (d : dict) : pyval := por (dgetn (KStr key) d) (VDict []).

Definition target_app (request_payload : dict) (recovery : pyval) (observed_apps : list dict) : result string :=
  let! requested_args := as_dict (or_empty "requested_args" request_payload) in
  let named := por (por (dgetn "app_id" requested_args) (dgetn "app" requested_args))
                   (dgetn "target_app_id" request_payload) in
  let! target :=
    (if py_truthy named then Ok (py_str named)
     else let! d := as_dict recovery in Ok (str_or "app_id" "" d)) in
  Ok (match observed_apps with
      | [app] => if String.eqb target "" then
                   py_str (por (por (por (dgetn "app_id" app) (dgetn "name" app)) (dgetn "app" app)) (VStr ""))
                 else target
      | _ => target
      end).

(** ** Effects on the store and on the adapter *)

Section Approval.
Context {AS : Type} `{Adapter : ToolAdapter AS} (env : nat -> Env).

Definition world : Type := CoreDataStore * AS.

Definition on_store {A} (m : eff CoreDataStore A) : eff world A :=
  fun w => let (r, s) := m w.1 in (r, (s, w.2)).
Definition on_adapter {A} (m : eff AS A) : eff world A :=
  fun w => let (r, a) := m w.2 in (r, (w.1, a)).
Definition run_tool (tool_name : string) (args : dict) : eff world ToolExecutionResult :=
  on_adapter (adapter_execute tool_name args).
Definition get_store : eff world CoreDataStore := fun w => (Ok w.1, w).

(** The read-only tool run to inspect the unit. *)
Definition inspect (tool_name : string) : eff world dict :=
  do! r := run_tool tool_name (dict_of [("reason", VStr "approval_operator_inspect")]%string) in
  eret (tool_result_to_dict r).

Definition build_operator_requirements (request : ApprovalRow) : eff world OperatorRequirements :=
  let request_payload := ap_payload request in
  let required_resources := str_list (dgetn "required_resources" request_payload) in
  let contract_payload := or_empty "contract" request_payload in
  let plan_quality := or_empty "plan_quality" request_payload in
  do! quality := elift (as_dict plan_quality) in
  let skill_requirements := por (dgetn "skill_requirements" quality) (or_empty "skill_requirements" request_payload) in
  let mcp_requirements := por (dgetn "mcp_requirements" quality) (or_empty "mcp_requirements" request_payload) in
  do! lease_observation := inspect "system_query_leases" in
  do! apps_observation := inspect "system_query_apps" in
  do! state_sync_observation := inspect "system_state_sync" in
  do! observed_leases := elift (observed_rows "leases" lease_observation) in
  do! observed_apps := elift (observed_rows "apps" apps_observation) in
  let recovery := or_empty "recovery_candidate_summary" request_payload in
  do! target_app_id := elift (target_app request_payload recovery observed_apps) in
  let observed_resources := observed_resource_names observed_leases in
  let resolved := omap (resolve_resource target_app_id) required_resources in
  let unresolved := List.filter (unresolvable target_app_id) required_resources in
  let missing := List.filter (fun r => negb (str_in r observed_resources)) resolved ++ unresolved in
  do! skill := elift (as_dict skill_requirements) in
  do! contract := elift (as_dict contract_payload) in
  eret {| or_resource := py_str (por (por (dgetn "resource" contract) (dgetn "tool_name" request_payload)) (VStr ""));
          or_required_resources := required_resources;
          or_resolved_required_resources := resolved;
          or_unresolved_required_resources := unresolved;
          or_observed_resources := observed_resources;
          or_missing_required_resources := missing;
          or_plan_quality := plan_quality;
          or_skill_requirements := skill_requirements;
          or_mcp_requirements := mcp_requirements;
          or_workflow_plan_required := py_truthy (dgetn "workflow_plan_required" skill);
          or_workflow_plan_evidence_present := py_truthy (dgetn "workflow_plan_evidence_present" skill);
          or_cleanup_hint := dgetn "cleanup_hint" request_payload;
          or_target_app_id := target_app_id;
          or_matching_lease_ids := matching_lease_ids resolved observed_leases;
          or_recovery_candidate_summary := recovery;
          or_lease_observation := lease_observation;
          or_apps_observation := apps_observation;
          or_state_sync_observation := state_sync_observation |}.

(** ** Context of a decision ([build_approval_context]) *)

(** [payload.get("audit_id")] of a span, and the evidence under it. *)
Definition span_evidence (span : option SpanRow) (s : CoreDataStore) : result (option dict) :=
  match span with
  | None => Ok None
  | Some r =>
      let audit_id := dgetn "audit_id" (sp_payload r) in
      if is_none audit_id then Ok None
      else let! e := build_execution_evidence (sp_id r) (py_str audit_id) s in Ok (Some e)
  end.

Definition resumed_evidence (request : ApprovalRow) (resumed : option (string * string)) (s : CoreDataStore)
    : result (option dict) :=
  match resumed with
  | Some (execution_span_id, audit_id) =>
      let! e := build_execution_evidence execution_span_id audit_id s in Ok (Some e)
  | None =>
      let id := dgetn "resumed_execution_span_id" (ap_payload request) in
      if is_none id then Ok None else span_evidence (get_execution_span (py_str id) s) s
  end.

(** The source's rational plan evidence is added to the requirements. *)
Definition with_plan_evidence (evidence : option dict) (requirements : dict) : result dict :=
  match evidence with
  | None => Ok requirements
  | Some e =>
      let! audit_record := as_dict (or_empty "audit_record" e) in
      let! audit_payload := as_dict (or_empty "payload" audit_record) in
      let plan := or_empty "rational_plan_evidence" audit_payload in
      Ok (if py_truthy plan then dset "rational_plan_evidence" plan requirements else requirements)
  end.

Definition opt_dict (o : option dict) : pyval := match o with Some d => VDict d | None => VNone end.

Definition build_approval_context (request : ApprovalRow) (resumed : option (string * string))
    (operator_requirements : option OperatorRequirements) : eff world dict :=
  do! s := get_store in
  let source_span := get_execution_span (ap_span request) s in
  do! source_evidence := elift (span_evidence source_span s) in
  do! resumed_execution_evidence := elift (resumed_evidence request resumed s) in
  do! requirements := match operator_requirements with
                      | Some o => eret o
                      | None => build_operator_requirements request
                      end in
  do! effective := elift (with_plan_evidence source_evidence (requirements_to_dict requirements)) in
  eret (dict_of
    [("source_execution_span", row_or_none span_dict source_span);
     ("source_execution_evidence", opt_dict source_evidence);
     ("resumed_execution_evidence", opt_dict resumed_execution_evidence);
     ("operator_requirements", VDict effective);
     ("recovery_candidate_summary", dgetn "recovery_candidate_summary" effective)]%string).

(** ** The decision ([apply_approval_decision]) *)

Definition snapshot_dict (session_id : string) : eff world dict :=
  do! s := get_store in
  eret (session_to_dict (load_snapshot session_id None 5 s)).

Definition updated_request (approval_request_id : string) : eff world ApprovalRow :=
  do! s := get_store in
  match get_approval_request approval_request_id s with
  | Some r => eret r
  | None => eraise AssertionError
  end.

Definition metadata_dict (approval_metadata : option dict) : pyval :=
  match approval_metadata with Some (_ :: _ as d) => VDict d | _ => VNone end.

(** [{**payload, **updates}] *)
Definition merge (payload : dict) (updates : list (string * pyval)) : dict := dupdate payload (dict_of updates).

Definition approval_answer (ok : bool) (status : string) (failure : list (string * pyval)) (request : ApprovalRow)
    (approval_metadata : option dict) (resumed_execution : pyval) (context session : dict) : eff world dict :=
  do! s := get_store in
  eret (dict_of ([("ok", VBool ok); ("status", VStr status)]%string ++ failure ++
    [("approval_request", VDict (approval_dict request));
     ("approval_decisions", rows decision_dict (get_approval_decisions (ap_id request) s));
     ("approval_metadata", metadata_dict approval_metadata);
     ("resumed_execution", resumed_execution);
     ("approval_context", VDict context); ("session", VDict session)]%string)).

Definition resource_gate_failure : list (string * pyval) :=
  [("failure_class", VStr "approval_resource_gate_unsatisfied");
   ("failure_status", VStr "missing_required_resources")]%string.

(** The gate is closed: the attempt is recorded and the request stays pending. *)
Definition block_decision (request : ApprovalRow) (decision_payload : dict)
    (requirements : OperatorRequirements) (approval_metadata : option dict) : eff world dict :=
  let missing := VList (vstrs (or_missing_required_resources requirements)) in
  let decision_payload := merge decision_payload
    ([("decision_outcome", VStr "blocked_resource_gate")]%string ++ resource_gate_failure ++
     [("missing_required_resources", missing)]%string) in
  do! _ := on_store (persist_approval_decision env (ap_id request) (ap_session_id request) "approve" decision_payload) in
  do! _ := on_store (persist_approval_request env (ap_session_id request) (ap_span request) (ap_tool_name request)
             "pending" (merge (ap_payload request)
               [("status", VStr "pending"); ("last_decision_attempt", VStr "approve");
                ("last_decision_outcome", VStr "blocked_resource_gate");
                ("last_missing_required_resources", missing)]%string) (Some (ap_id request))) in
  do! updated := updated_request (ap_id request) in
  do! context := build_approval_context updated None (Some requirements) in
  do! session := snapshot_dict (ap_session_id request) in
  approval_answer false "blocked_resource_gate" resource_gate_failure updated approval_metadata VNone context session.

(** The arguments of the approved call: the requested ones, completed with the
    target application and the first matching lease. *)
Definition resolved_arguments (request : ApprovalRow) (requirements : OperatorRequirements) : result dict :=
  let! args := py_dict (or_empty "requested_args" (ap_payload request)) in
  let app := or_target_app_id requirements in
  let args := if String.eqb app "" then args
              else dsetdefault "app" (VStr app) (dsetdefault "app_id" (VStr app) args) in
  Ok (match or_matching_lease_ids requirements with
      | id :: _ => if String.eqb id "" then args else dsetdefault "lease_id" (VStr id) args
      | [] => args
      end).

Definition final_response (tool_name : string) : dict :=
  dict_of [("speaker", VStr "affective"); ("delegated", VBool true);
           ("text", VStr ("Approved delegated " +:+ py_replace "_" " " (py_replace "system_" "" tool_name) +:+
                          " and resumed execution."));
           ("salience", VInt 80)].

(** What the resumed execution is: its span, its audit record and its result. *)
Record Resumed := {
  re_span : string; re_audit : string; re_result : ToolExecutionResult; re_final_response : dict }.

Definition resumed_dict (r : Resumed) : dict :=
  dict_of [("execution_span_id", VStr (re_span r)); ("tool_result", VDict (tool_result_to_dict (re_result r)));
           ("audit_id", VStr (re_audit r));
           ("final_response", VDict (re_final_response r))].

(** Run the approved tool and record its span, result and audit. *)
Definition resume_execution (request : ApprovalRow) (requirements : OperatorRequirements)
    (approval_metadata : option dict) : eff world Resumed :=
  do! execution_span_id := on_store (draw env "span") in
  do! args := elift (resolved_arguments request requirements) in
  do! r := run_tool (ap_tool_name request) args in
  let r := {| tr_tool_result_id := tr_tool_result_id r; tr_tool_name := tr_tool_name r; tr_status := tr_status r;
              tr_payload := merge (tr_payload r) [("approval_request_id", VStr (ap_id request));
                                                  ("approval_decision", VStr "approve")]%string |} in
  do! audit_id := on_store (draw env "audit") in
  do! _ := on_store (persist_execution_span env execution_span_id "running"
             (dict_of [("session_id", VStr (ap_session_id request)); ("approval_request_id", VStr (ap_id request));
                       ("resumed_from_execution_span_id", VStr (ap_span request));
                       ("decision", VStr "approve")]) (Some (ap_session_id request))) in
  do! _ := on_store (persist_tool_result env (tr_tool_result_id r) execution_span_id (tr_tool_name r) (tr_status r)
             (tr_payload r)) in
  do! _ := on_store (persist_audit_record env audit_id execution_span_id "ok"
             (dict_of ([("approval_request_id", VStr (ap_id request)); ("approval_decision", VStr "approve")]%string ++
                       (match metadata_dict approval_metadata with
                        | VDict d => [("approval_metadata"%string, VDict d)]
                        | _ => []
                        end) ++
                       [("resumed_execution", VDict (tool_result_to_dict r));
                        ("final_response", VDict (final_response (ap_tool_name request)))]%string))
             (Some (ap_session_id request))) in
  do! _ := on_store (persist_execution_span env execution_span_id "ok"
             (dict_of [("session_id", VStr (ap_session_id request)); ("approval_request_id", VStr (ap_id request));
                       ("decision", VStr "approve"); ("tool_result_id", VStr (tr_tool_result_id r));
                       ("audit_id", VStr audit_id)]) (Some (ap_session_id request))) in
  eret {| re_span := execution_span_id; re_audit := audit_id; re_result := r;
          re_final_response := final_response (ap_tool_name request) |}.

Definition updated_status (decision : string) : string :=
  (if String.eqb decision "approve" then "approved"
   else if String.eqb decision "expire" then "expired" else "denied")%string.

(** Record a decision that takes effect and move the request to its new status. *)
Definition settle_decision (request : ApprovalRow) (decision : string)
    (decision_payload : dict) (requirements : option OperatorRequirements) (resumed : option Resumed)
    (approval_metadata : option dict) : eff world dict :=
  let status := updated_status decision in
  do! _ := on_store (persist_approval_decision env (ap_id request) (ap_session_id request) decision
             decision_payload) in
  do! _ := on_store (persist_approval_request env (ap_session_id request) (ap_span request) (ap_tool_name request)
             status (merge (ap_payload request)
               ([("status", VStr status); ("last_decision", VStr decision)]%string ++
                match resumed with
                | Some r => [("resumed_execution_span_id"%string, VStr (re_span r))]
                | None => []
                end)) (Some (ap_id request))) in
  do! updated := updated_request (ap_id request) in
  do! context := build_approval_context updated
                   (match resumed with Some r => Some (re_span r, re_audit r) | None => None end) requirements in
  do! session := snapshot_dict (ap_session_id request) in
  approval_answer true status [] updated approval_metadata
    (match resumed with Some r => VDict (resumed_dict r) | None => VNone end) context session.

Definition apply_approval_decision (approval_request_id decision : string) (approval_metadata : option dict)
    : eff world dict :=
  if negb (str_in decision ["approve"; "deny"; "expire"]%string) then
    eraise (ValueError "approval_decision_must_be_approve_deny_or_expire")
  else
    do! s := get_store in
    match get_approval_request approval_request_id s with
    | None => eraise (ValueError "approval_request_not_found")
    | Some request =>
        if negb (String.eqb (ap_status request) "pending") then
          eraise (ValueError ("approval_request_not_pending_" +:+ ap_status request))
        else
          let decision_payload := dict_of
            ([("decision", VStr decision); ("tool_name", VStr (ap_tool_name request));
              ("source_execution_span_id", VStr (ap_span request))]%string ++
             match metadata_dict approval_metadata with
             | VDict d => [("approval_metadata"%string, VDict d)]
             | _ => []
             end) in
          if String.eqb decision "approve" then
            do! requirements := build_operator_requirements request in
            let decision_payload :=
              merge decision_payload [("operator_requirements"%string, VDict (requirements_to_dict requirements))] in
            if negb (satisfied requirements) then
              block_decision request decision_payload requirements approval_metadata
            else
              do! resumed := resume_execution request requirements approval_metadata in
              settle_decision request decision
                (merge decision_payload [("resumed_execution_span_id"%string, VStr (re_span resumed))])
                (Some requirements) (Some resumed) approval_metadata
          else
            settle_decision request decision decision_payload None None approval_metadata
    end.
End Approval.

(** ** Facts *)

Section Facts.
Context {AS : Type} `{Adapter : ToolAdapter AS} (env : nat -> Env).

Notation W := (world (AS := AS)).

(** An operation on the store that moves it by [R], and the adapter's runs. *)
Lemma on_store_moves {A} (R : CoreDataStore -> CoreDataStore -> Prop) (m : eff CoreDataStore A) :
  moves R m -> moves (fun w w' : W => R w.1 w'.1) (on_store m).
Proof. intros H [s a]. unfold on_store. cbn. specialize (H s). by destruct (m s). Qed.

Lemma on_store_same {A X} (f : CoreDataStore -> X) (m : eff CoreDataStore A) :
  moves (same f) m -> moves (same (fun w : W => f w.1)) (on_store (AS := AS) m).
Proof. apply on_store_moves. Qed.

Lemma run_tool_same {X} (f : CoreDataStore -> X) tool args :
  moves (same (fun w : W => f w.1)) (run_tool tool args).
Proof. intros [s a]. unfold run_tool, on_adapter, same. cbn. by destruct (adapter_execute tool args a). Qed.

Lemma get_store_same {X} (f : W -> X) : moves (same f) get_store.
Proof. by intros w. Qed.

Hint Resolve on_store_same run_tool_same get_store_same : moves.

Lemma requirements_same {X} (f : CoreDataStore -> X) request :
  moves (same (fun w : W => f w.1)) (build_operator_requirements request).
Proof. unfold build_operator_requirements, inspect. moves. Qed.
Hint Resolve requirements_same : moves.

Lemma context_same {X} (f : CoreDataStore -> X) request resumed requirements :
  moves (same (fun w : W => f w.1)) (build_approval_context request resumed requirements).
Proof. unfold build_approval_context. moves. Qed.
Hint Resolve context_same : moves.

Lemma updated_same {X} (f : CoreDataStore -> X) id :
  moves (same (fun w : W => f w.1)) (updated_request (AS := AS) id).
Proof. unfold updated_request. moves. Qed.
Lemma snapshot_same {X} (f : CoreDataStore -> X) id :
  moves (same (fun w : W => f w.1)) (snapshot_dict (AS := AS) id).
Proof. unfold snapshot_dict. moves. Qed.
Lemma answer_same {X} (f : CoreDataStore -> X) a b c d e g h i :
  moves (same (fun w : W => f w.1)) (approval_answer (AS := AS) a b c d e g h i).
Proof. unfold approval_answer. moves. Qed.
Hint Resolve updated_same snapshot_same answer_same : moves.

Lemma resume_same {X} (f : CoreDataStore -> X) request requirements metadata :
  (forall n s, f (with_next n s) = f s) -> (forall t s, f (with_spans t s) = f s) ->
  (forall t s, f (with_tools t s) = f s) -> (forall t s, f (with_audits t s) = f s) ->
  moves (same (fun w : W => f w.1)) (resume_execution env request requirements metadata).
Proof. intros. unfold resume_execution. moves. Qed.

Lemma block_same {X} (f : CoreDataStore -> X) request payload requirements metadata :
  (forall n s, f (with_next n s) = f s) -> (forall t s, f (with_approvals t s) = f s) ->
  (forall t s, f (with_decisions t s) = f s) ->
  moves (same (fun w : W => f w.1)) (block_decision env request payload requirements metadata).
Proof. intros. unfold block_decision. moves. Qed.

Lemma settle_same {X} (f : CoreDataStore -> X) request decision payload requirements resumed metadata :
  (forall n s, f (with_next n s) = f s) -> (forall t s, f (with_approvals t s) = f s) ->
  (forall t s, f (with_decisions t s) = f s) ->
  moves (same (fun w : W => f w.1)) (settle_decision env request decision payload requirements resumed metadata).
Proof. intros. unfold settle_decision. moves. Qed.

(** *** The approval requests *)

Definition others_w (id : string) (w w' : W) : Prop := others id w.1 w'.1.

#[export] Instance others_w_preorder id : PreOrder (others_w id).
Proof. split; unfold others_w; [done|]. intros a b c ? ?. by etrans. Qed.

(** The requests are untouched, hence the other requests too. *)
Lemma same_others_w {A} id (m : eff W A) : moves (same (fun w : W => approval_requests w.1)) m -> moves (others_w id) m.
Proof. apply moves_weaken. intros w w' H. by apply same_others. Qed.

Lemma store_others_w {A} id (m : eff CoreDataStore A) : moves (others id) m -> moves (others_w id) (on_store (AS := AS) m).
Proof. apply on_store_moves. Qed.

Lemma block_others request payload requirements metadata :
  ap_id request <> ""%string ->
  moves (others_w (ap_id request)) (block_decision env request payload requirements metadata).
Proof.
  intros Hid. unfold block_decision. apply moves_bind; [apply _| |intros _].
  { apply same_others_w. moves. }
  apply moves_bind; [apply _| |intros _; apply same_others_w; moves].
  by apply store_others_w, persist_approval_request_others.
Qed.

Lemma settle_others request decision payload requirements resumed metadata :
  ap_id request <> ""%string ->
  moves (others_w (ap_id request)) (settle_decision env request decision payload requirements resumed metadata).
Proof.
  intros Hid. unfold settle_decision. apply moves_bind; [apply _| |intros _].
  { apply same_others_w. moves. }
  apply moves_bind; [apply _| |intros _; apply same_others_w; moves].
  by apply store_others_w, persist_approval_request_others.
Qed.

(** A decision touches no other request. *)
Lemma apply_others id decision metadata :
  id <> ""%string -> moves (others_w id) (apply_approval_decision env id decision metadata).
Proof.
  intros Hid. unfold apply_approval_decision. destruct (negb _); [apply moves_raise; apply _|].
  apply moves_bind; [apply _|by apply same_others_w, get_store_same|]. intros s.
  destruct (get_approval_request id s) as [request|] eqn:E; [|apply moves_raise; apply _].
  apply t_find_key in E as [E _]. cbn [tb_key approval_table] in E. subst id.
  destruct (negb _); [apply moves_raise; apply _|]. destruct (String.eqb decision "approve"); [|by apply settle_others].
  apply moves_bind; [apply _|apply same_others_w; eauto with moves|]. intros requirements.
  destruct (negb _); [by apply block_others|].
  apply moves_bind; [apply _|apply same_others_w, resume_same; done|]. intros resumed. by apply settle_others.
Qed.

(** A request that is not pending is refused, and nothing changes. *)
Lemma apply_not_pending id decision metadata (w : W) r :
  get_approval_request id w.1 = Some r -> ap_status r <> "pending"%string ->
  exists e, apply_approval_decision env id decision metadata w = (Raise e, w).
Proof.
  intros Hg Hs. unfold apply_approval_decision, eraise. destruct (negb (str_in decision _)); [by eexists|].
  unfold ebind, get_store. rewrite Hg. apply String.eqb_neq in Hs. rewrite Hs. by eexists.
Qed.

Lemma same_get {A} (m : eff W A) w a w' id :
  moves (same (fun w : W => approval_requests w.1)) m -> m w = (a, w') ->
  get_approval_request id w'.1 = get_approval_request id w.1.
Proof. intros H E. apply (moves_at _ _ _ _ _ H) in E. unfold get_approval_request, find_row. cbn. by rewrite E. Qed.

Lemma on_store_inv {A} (m : eff CoreDataStore A) (w w' : W) a :
  on_store m w = (Ok a, w') -> m w.1 = (Ok a, w'.1) /\ w'.2 = w.2.
Proof. unfold on_store. destruct (m w.1). by intros [= -> <-]. Qed.

(** The two ways a decision ends: the request is stored under its new status and
    the answer is made of it. *)
Lemma store_and_answer request status payload ok answer_status failure metadata resumed_value (w w' : W) answer resumed requirements :
  ap_id request <> ""%string -> sget "approval_request" failure = None ->
  (do! _ := on_store (persist_approval_request env (ap_session_id request) (ap_span request) (ap_tool_name request)
              status payload (Some (ap_id request))) in
   do! updated := updated_request (ap_id request) in
   do! context := build_approval_context updated resumed requirements in
   do! session := snapshot_dict (ap_session_id request) in
   approval_answer ok answer_status failure updated metadata resumed_value context session) w = (Ok answer, w') ->
  dget "ok" answer = Some (VBool ok) /\ dget "status" answer = Some (VStr answer_status) /\
  exists column r, json_column payload = Ok column /\ get_approval_request (ap_id request) w'.1 = Some r /\
    ap_status r = status /\ ap_payload r = column /\ ap_tool_name r = ap_tool_name request /\
    dget "approval_request" answer = Some (VDict (approval_dict r)).
Proof.
  intros Hid Hf H. apply ebind_inv in H as (i & w1 & H1 & H). apply on_store_inv in H1 as [H1 _].
  apply persist_approval_request_ok in H1 as (column & r & Hc & Hr & Hs & Hp & Ht & _); [|done].
  apply ebind_inv in H as (u & w2 & H2 & H). unfold updated_request, ebind, get_store in H2. rewrite Hr in H2.
  injection H2 as <- <-.
  apply ebind_inv in H as (context & w3 & H3 & H). apply ebind_inv in H as (session & w4 & H4 & H).
  apply same_get with (id := ap_id request) in H3; [|eauto with moves].
  apply same_get with (id := ap_id request) in H4; [|eauto with moves].
  apply ebind_inv in H as (s & w5 & Hs5 & H). injection Hs5 as <- <-. apply eret_inv in H as [-> ->].
  split_and!; [done|done|]. exists column, r. rewrite H4, H3. split_and!; try done.
  by rewrite dget_dict_of, !sget_app, Hf.
Qed.

Lemma settle_ok request decision payload requirements resumed metadata (w w' : W) answer :
  ap_id request <> ""%string ->
  settle_decision env request decision payload requirements resumed metadata w = (Ok answer, w') ->
  dget "ok" answer = Some (VBool true) /\ dget "status" answer = Some (VStr (updated_status decision)) /\
  exists r, get_approval_request (ap_id request) w'.1 = Some r /\ ap_status r = updated_status decision /\
    ap_tool_name r = ap_tool_name request.
Proof.
  intros Hid H. unfold settle_decision in H. apply ebind_inv in H as (i & w1 & _ & H).
  apply store_and_answer in H as (Ho & Hs & column & r & _ & Hr & Hst & _ & Ht & _); [|done|done]. eauto 10.
Qed.

Lemma block_ok request payload requirements metadata (w w' : W) answer :
  ap_id request <> ""%string ->
  block_decision env request payload requirements metadata w = (Ok answer, w') ->
  dget "ok" answer = Some (VBool false) /\ dget "status" answer = Some (VStr "blocked_resource_gate") /\
  exists r, get_approval_request (ap_id request) w'.1 = Some r /\ ap_status r = "pending"%string /\
    ap_tool_name r = ap_tool_name request.
Proof.
  intros Hid H. unfold block_decision in H. apply ebind_inv in H as (i & w1 & _ & H).
  apply store_and_answer in H as (Ho & Hs & column & r & _ & Hr & Hst & _ & Ht & _); [|done|done]. eauto 10.
Qed.

(** The branches of an answered decision. *)
Lemma apply_ok_inv id decision metadata (w w' : W) answer :
  apply_approval_decision env id decision metadata w = (Ok answer, w') ->
  str_in decision ["approve"; "deny"; "expire"]%string = true /\
  exists request, get_approval_request id w.1 = Some request /\ ap_id request = id /\
    ap_status request = "pending"%string /\
    ((decision = "approve"%string /\ exists requirements w1,
        build_operator_requirements request w = (Ok requirements, w1) /\
        ((satisfied requirements = false /\ exists payload,
            block_decision env request payload requirements metadata w1 = (Ok answer, w')) \/
         (satisfied requirements = true /\ exists payload resumed w2,
            resume_execution env request requirements metadata w1 = (Ok resumed, w2) /\
            settle_decision env request decision payload (Some requirements) (Some resumed) metadata w2 = (Ok answer, w')))) \/
     (decision <> "approve"%string /\ exists payload,
        settle_decision env request decision payload None None metadata w = (Ok answer, w'))).
Proof.
  unfold apply_approval_decision. destruct (str_in decision _); cbn [negb]; [|done]. intros H. split; [done|].
  apply ebind_inv in H as (s & w1 & [= <- <-] & H).
  destruct (get_approval_request id w.1) as [request|] eqn:E; [|done]. exists request. split; [done|].
  apply t_find_key in E as [E _]. split; [exact E|].
  destruct (String.eqb_spec (ap_status request) "pending") as [Hs|]; cbn [negb] in H; [|done]. split; [done|].
  destruct (String.eqb_spec decision "approve") as [Hd|Hd]; [left|right; eauto]. split; [done|].
  apply ebind_inv in H as (requirements & w1 & H1 & H). exists requirements, w1. split; [done|].
  destruct (satisfied requirements); cbn [negb] in H; [right|left; eauto]. split; [done|].
  apply ebind_inv in H as (resumed & w2 & H2 & H). eauto 10.
Qed.


(** *** What an approved execution records *)

Definition records (s : CoreDataStore) : list ToolRow * list AuditRow := (tool_results s, audit_records s).

Record resumed_in (request : ApprovalRow) (r : Resumed) (s s' : CoreDataStore) : Prop := {
  ri_tool : exists row, tool_results s' = tool_results s ++ [row] /\ to_span row = re_span r /\
              to_id row = tr_tool_result_id (re_result r) /\ to_status row = tr_status (re_result r);
  ri_audit : exists row, audit_records s' = audit_records s ++ [row] /\ au_id row = re_audit r /\
               au_span row = re_span r;
  ri_span : exists row, get_execution_span (re_span r) s' = Some row /\ sp_status row = "ok"%string /\
              sp_session_id row = Some (ap_session_id request);
}.

Lemma on_store_at {A X} (f : CoreDataStore -> X) (m : eff CoreDataStore A) (w w' : W) a :
  moves (same f) m -> on_store m w = (a, w') -> f w'.1 = f w.1.
Proof. intros Hm E. apply (moves_at _ _ _ _ _ (on_store_same f m Hm) E). Qed.

Lemma resume_ok request requirements metadata (w w' : W) r :
  resume_execution env request requirements metadata w = (Ok r, w') -> resumed_in request r w.1 w'.1.
Proof.
  unfold resume_execution. intros H.
  apply ebind_inv in H as (span & w1 & H1 & H). apply (on_store_at records) in H1; [|eauto with moves].
  apply ebind_inv in H as (args & w2 & [_ ->]%elift_inv & H).
  apply ebind_inv in H as (res & w3 & H3 & H). apply (moves_at _ _ _ _ _ (run_tool_same records _ _)) in H3.
  apply ebind_inv in H as (audit & w4 & H4 & H). apply (on_store_at records) in H4; [|eauto with moves].
  apply ebind_inv in H as ([] & w5 & H5 & H). apply (on_store_at records) in H5; [|eauto with moves].
  apply ebind_inv in H as ([] & w6 & H6 & H). apply on_store_inv in H6 as [H6 _].
  apply persist_tool_result_ok in H6 as (column & row & _ & H6 & Hi & Hs & _ & Hst & _).
  apply ebind_inv in H as ([] & w7 & H7 & H). apply on_store_inv in H7 as [H7 _].
  apply persist_audit_record_ok in H7 as (arow & H7 & Ha & Has & _).
  apply ebind_inv in H as ([] & w8 & H8 & H). apply eret_inv in H as [-> ->].
  pose proof H8 as H9. apply (on_store_at records) in H8; [|eauto with moves]. apply on_store_inv in H9 as [H9 _].
  assert (records w5.1 = records w.1) as E by (unfold same in *; congruence).
  rewrite H7, H6 in H8. unfold records in *. cbn in H8. injection E as E1 E2. injection H8 as T1 T2.
  split.
  - exists row. rewrite T1, E1. by split_and!.
  - exists arow. rewrite T2, E2. by split_and!.
  - by apply persist_execution_span_ok in H9.
Qed.

(** The requirements an inspection finds satisfied. *)
Lemma satisfied_spec request (w w' : W) o :
  build_operator_requirements request w = (Ok o, w') ->
  satisfied o = true <->
  Forall (fun r => exists s, resolve_resource (or_target_app_id o) r = Some s /\ s ∈ or_observed_resources o)
    (or_required_resources o).
Proof.
  unfold build_operator_requirements. intros H.
  repeat (apply ebind_inv in H as (? & ? & _ & H)). apply eret_inv in H as [-> _].
  unfold satisfied. cbn. match goal with |- context [omap (resolve_resource ?x)] => generalize x end. intros app.
  match goal with |- context [observed_resource_names ?x] => generalize (observed_resource_names x) end. intros obs.
  generalize (str_list (dgetn "required_resources" (ap_payload request))) as l. intros l.
  transitivity (List.filter (fun r => negb (str_in r obs)) (omap (resolve_resource app) l) = [] /\
                List.filter (unresolvable app) l = []).
  { destruct (List.filter _ (omap _ _)), (List.filter _ l); cbn; naive_solver. }
  induction l as [|r l IH]; cbn; [by rewrite Forall_nil|]. rewrite Forall_cons, <- IH. unfold unresolvable.
  destruct (resolve_resource app r) as [s|]; cbn; [|naive_solver].
  destruct (str_in s obs) eqn:E; cbn; [apply str_in_true in E|apply str_in_false in E]; naive_solver.
Qed.

(** ** Steps of the core

    A decision taken on some request, whatever its outcome, or anything that
    leaves the approval requests alone. *)
Inductive core_step : W -> W -> Prop :=
  | step_decision id decision metadata w :
      id <> ""%string -> core_step w (apply_approval_decision env id decision metadata w).2
  | step_elsewhere w w' : approval_requests w'.1 = approval_requests w.1 -> core_step w w'.

(** A request that is not pending keeps its row. *)
Lemma settled_step id r (w w' : W) :
  core_step w w' -> get_approval_request id w.1 = Some r -> ap_status r <> "pending"%string ->
  get_approval_request id w'.1 = Some r.
Proof.
  intros H Hr Hs. inversion H as [i decision metadata w0 Hi|w0 w1 Hsame]; subst.
  - destruct (String.eqb_spec id i) as [<-|Hne].
    + destruct (apply_not_pending id decision metadata w r Hr Hs) as [e He]. by rewrite He.
    + rewrite (apply_others i decision metadata Hi w id Hne). done.
  - unfold get_approval_request, find_row in *. cbn in *. by rewrite Hsame.
Qed.

Lemma settled_steps id r (w w' : W) :
  rtc core_step w w' -> get_approval_request id w.1 = Some r -> ap_status r <> "pending"%string ->
  get_approval_request id w'.1 = Some r.
Proof. induction 1; eauto using settled_step. Qed.
End Facts.

(** ** The tools an adapter is asked to run

    An adapter that also keeps the names of the tools it ran, in order. *)
Definition logged {AS} (adapter : ToolAdapter AS) : ToolAdapter (AS * list string) :=
  fun name args a => let (r, a') := adapter name args a.1 in (r, (a', a.2 ++ [name])).

Definition inspection_tools : list string :=
  ["system_query_leases"; "system_query_apps"; "system_state_sync"]%string.

Section Log.
Context {AS : Type} (adapter : ToolAdapter AS) (env : nat -> Env).

Notation W := (world (AS := AS * list string)).
#[local] Instance logged_adapter : ToolAdapter (AS * list string) := logged adapter.

(** The log grows, by names that satisfy [P]. *)
Definition grows (P : string -> Prop) (w w' : W) : Prop := exists l, w'.2.2 = w.2.2 ++ l /\ Forall P l.

#[export] Instance grows_preorder P : PreOrder (grows P).
Proof.
  split; [intros w; exists []; by rewrite app_nil_r|].
  intros a b c (l & Hl & H) (l' & Hl' & H'). exists (l ++ l'). rewrite Hl', Hl, app_assoc. by rewrite Forall_app.
Qed.

Notation silent := (grows (fun _ => False)).
Notation inspecting := (grows (fun name => name ∈ inspection_tools)).

Lemma on_store_silent {A} P (m : eff CoreDataStore A) : moves (grows P) (on_store (AS := AS * list string) m).
Proof. intros [s a]. unfold on_store. cbn. destruct (m s). exists []. by rewrite app_nil_r. Qed.

Lemma get_store_silent P : moves (grows P) (get_store (AS := AS * list string)).
Proof. intros w. reflexivity. Qed.

Lemma run_tool_grows (P : string -> Prop) name args : P name -> moves (grows P) (run_tool name args).
Proof.
  intros Hp [s a]. unfold run_tool, on_adapter, adapter_execute, logged_adapter, logged. cbn.
  destruct (adapter name args a.1). exists [name]. by repeat constructor.
Qed.

Hint Resolve on_store_silent get_store_silent : moves.

Lemma inspect_grows name : name ∈ inspection_tools -> moves inspecting (inspect name).
Proof. intros Hn. unfold inspect. moves. by apply run_tool_grows. Qed.

Lemma requirements_inspecting request : moves inspecting (build_operator_requirements request).
Proof.
  unfold build_operator_requirements. moves; apply inspect_grows; unfold inspection_tools;
    repeat first [left; reflexivity|right].
Qed.

Lemma context_silent request resumed requirements :
  moves silent (build_approval_context request resumed (Some requirements)).
Proof. unfold build_approval_context. moves. Qed.

Lemma context_inspecting request resumed : moves inspecting (build_approval_context request resumed None).
Proof. unfold build_approval_context. moves. apply requirements_inspecting. Qed.

Lemma settle_silent request decision payload requirements resumed metadata :
  moves silent (settle_decision env request decision payload (Some requirements) resumed metadata).
Proof.
  unfold settle_decision, updated_request, snapshot_dict, approval_answer. moves; apply context_silent.
Qed.

Lemma settle_inspecting request decision payload resumed metadata :
  moves inspecting (settle_decision env request decision payload None resumed metadata).
Proof.
  unfold settle_decision, updated_request, snapshot_dict, approval_answer. moves; apply context_inspecting.
Qed.

Lemma block_silent request payload requirements metadata :
  moves silent (block_decision env request payload requirements metadata).
Proof.
  unfold block_decision, updated_request, snapshot_dict, approval_answer. moves; apply context_silent.
Qed.

(** The approved tool, at most once. *)
Definition once (tool : string) (w w' : W) : Prop := w'.2.2 = w.2.2 \/ w'.2.2 = w.2.2 ++ [tool].

Lemma silent_same (w w' : W) : silent w w' -> w'.2.2 = w.2.2.
Proof. intros (l & Hl & Hf). destruct l; [by rewrite app_nil_r in Hl|]. by inversion Hf. Qed.

Lemma resume_once request requirements metadata (w : W) :
  once (ap_tool_name request) w (resume_execution env request requirements metadata w).2.
Proof.
  unfold resume_execution. unfold ebind at 1. destruct (on_store _ w) as [[span|e] w1] eqn:E1; cycle 1.
  { left. symmetry. symmetry. apply (moves_at silent _ _ _ _ (on_store_silent _ _)) in E1. by apply silent_same. }
  apply (moves_at silent _ _ _ _ (on_store_silent _ _)), silent_same in E1.
  unfold ebind at 1, elift. destruct (resolved_arguments request requirements) as [args|e]; cbn [fst snd]; [|by left].
  unfold ebind at 1. destruct (run_tool _ args w1) as [r w2] eqn:E2.
  assert (w2.2.2 = w.2.2 ++ [ap_tool_name request]) as E.
  { rewrite <- E1. unfold run_tool, on_adapter, adapter_execute, logged_adapter, logged in E2.
    destruct w1 as [s [a l]]. cbn in *. destruct (adapter _ _ a). by injection E2 as _ <-. }
  right. rewrite <- E. destruct r as [r|e]; [|done]. apply silent_same.
  match goal with |- silent _ (?m _).2 => assert (moves silent m) as Hm by moves; apply Hm end.
Qed.

(** What a decision on [id] may make the adapter run, from [w]. *)
Definition approved_run (id decision : string) (w : W) (obs : list string) (tool : string) : Prop :=
  exists request requirements w1, decision = "approve"%string /\
    get_approval_request id w.1 = Some request /\ ap_status request = "pending"%string /\
    build_operator_requirements request w = (Ok requirements, w1) /\ satisfied requirements = true /\
    tool = ap_tool_name request /\ Forall (fun name => name ∈ inspection_tools) obs.

Definition decision_log (id decision : string) (w w' : W) : Prop :=
  exists l, w'.2.2 = w.2.2 ++ l /\
    (Forall (fun name => name ∈ inspection_tools) l \/
     exists obs tool, l = obs ++ [tool] /\ approved_run id decision w obs tool).

Lemma decision_log_inspecting id decision (w w' : W) : inspecting w w' -> decision_log id decision w w'.
Proof. intros (l & Hl & Hf). exists l. eauto. Qed.

Lemma apply_log id decision metadata (w : W) :
  decision_log id decision w (apply_approval_decision env id decision metadata w).2.
Proof.
  unfold apply_approval_decision. destruct (negb _); [apply decision_log_inspecting; reflexivity|].
  unfold ebind at 1, get_store.
  destruct (get_approval_request id w.1) as [request|] eqn:Eg; [|apply decision_log_inspecting; reflexivity].
  destruct (String.eqb_spec (ap_status request) "pending") as [Hs|]; cbn [negb];
    [|apply decision_log_inspecting; reflexivity].
  destruct (String.eqb_spec decision "approve") as [Hd|]; [|by apply decision_log_inspecting, settle_inspecting].
  unfold ebind at 1. pose proof (requirements_inspecting request w) as Hr.
  destruct (build_operator_requirements request w) as [[requirements|e] w1] eqn:Eb; cbn [snd] in Hr;
    [|by apply decision_log_inspecting].
  destruct (satisfied requirements) eqn:Esat; cbn [negb]; cycle 1.
  { apply decision_log_inspecting. etrans; [exact Hr|]. eapply moves_weaken; [|apply block_silent].
    intros a b (l & Hl & Hf). exists l. split; [done|]. by eapply Forall_impl. }
  destruct Hr as (obs & Hl & Hf).
  assert (forall w2 : W, once (ap_tool_name request) w1 w2 -> decision_log id decision w w2) as Ho.
  { intros w2 [Hw|Hw]; [exists obs; rewrite Hw; eauto|]. exists (obs ++ [ap_tool_name request]).
    rewrite Hw, Hl, app_assoc. split; [done|]. right. exists obs, (ap_tool_name request). split; [done|].
    by exists request, requirements, w1. }
  unfold ebind. pose proof (resume_once request requirements metadata w1) as Hon.
  destruct (resume_execution env request requirements metadata w1) as [[resumed|e] w2] eqn:E2; cbn [snd] in Hon;
    [|by apply Ho].
  match goal with |- context [settle_decision ?a ?b ?c ?d (Some ?e) ?f ?g ?h] =>
    pose proof (settle_silent b c d e f g h) as Hq end.
  apply Ho. unfold once. by rewrite (silent_same _ _ Hq).
Qed.
End Log.

(** ** Properties *)

(** C3: a decision that takes effect is final.  When [apply_approval_decision]
    answers "ok", the request was pending and now has the status of the decision;
    whatever the core does afterwards - other decisions, retries, failures, work
    on other tables - that row stays as it is, and every further decision on the
    request is refused and changes nothing. *)
Theorem settled_decision_final AS (adapter : ToolAdapter AS) env id decision metadata (w w' : world) answer :
  id <> ""%string ->
  apply_approval_decision env id decision metadata w = (Ok answer, w') ->
  dget "ok" answer = Some (VBool true) ->
  (exists r0, get_approval_request id w.1 = Some r0 /\ ap_status r0 = "pending"%string) /\
  exists r, get_approval_request id w'.1 = Some r /\ ap_status r = updated_status decision /\
    forall w'', rtc (core_step env) w' w'' ->
      get_approval_request id w''.1 = Some r /\
      forall decision' metadata', exists e, apply_approval_decision env id decision' metadata' w'' = (Raise e, w'').
Proof.
  intros Hid H Hok. apply apply_ok_inv in H as (_ & request & Hg & <- & Hs & H). split; [eauto|].
  assert (exists r, get_approval_request (ap_id request) w'.1 = Some r /\ ap_status r = updated_status decision) as (r & Hr & Hst).
  { destruct H as [(_ & o & w1 & _ & [(_ & p & H)|(_ & p & res & w2 & _ & H)])|(_ & p & H)].
    - apply block_ok in H as [Hb _]; [|done]. congruence.
    - apply settle_ok in H as (_ & _ & r & ? & ? & _); eauto.
    - apply settle_ok in H as (_ & _ & r & ? & ? & _); eauto. }
  exists r. split; [done|]. split; [done|]. intros w'' Hsteps.
  assert (ap_status r <> "pending"%string) as Hn.
  { rewrite Hst. unfold updated_status. by destruct (String.eqb decision "approve"), (String.eqb decision "expire"). }
  assert (get_approval_request (ap_id request) w''.1 = Some r) as Hr' by eauto using settled_steps.
  split; [done|]. intros d m. by apply (apply_not_pending env _ d m w'' r).
Qed.

(** C5: the resource gate.  An approval that answers first inspects the unit; the
    requirements are satisfied exactly when every required resource resolves to
    one the unit reports.  If they are not, the answer says so, the request stays
    pending and no result, audit record or span is written; if they are, exactly
    one tool result and one audit record are added, under a span that ends "ok". *)
Theorem approval_gate AS (adapter : ToolAdapter AS) env id metadata (w w' : world) answer :
  id <> ""%string ->
  apply_approval_decision env id "approve" metadata w = (Ok answer, w') ->
  exists request o w1, get_approval_request id w.1 = Some request /\
    build_operator_requirements request w = (Ok o, w1) /\ w1.1 = w.1 /\
    (satisfied o = true <->
       Forall (fun r => exists s, resolve_resource (or_target_app_id o) r = Some s /\ s ∈ or_observed_resources o)
         (or_required_resources o)) /\
    (satisfied o = false ->
       dget "status" answer = Some (VStr "blocked_resource_gate") /\
       (exists r, get_approval_request id w'.1 = Some r /\ ap_status r = "pending"%string) /\
       tool_results w'.1 = tool_results w.1 /\ audit_records w'.1 = audit_records w.1 /\
       execution_spans w'.1 = execution_spans w.1) /\
    (satisfied o = true ->
       dget "status" answer = Some (VStr "approved") /\ exists resumed, resumed_in request resumed w.1 w'.1).
Proof.
  intros Hid H. apply apply_ok_inv in H as (_ & request & Hg & <- & Hs & [(_ & o & w1 & Hb & H)|[H _]]); [|done].
  exists request, o, w1. split; [done|]. split; [done|].
  assert (w1.1 = w.1) as E by exact (moves_at _ _ _ _ _ (requirements_same (fun s => s) request) Hb).
  split; [done|]. split; [by apply (satisfied_spec request w w1)|].
  destruct H as [(Hsat & p & H)|(Hsat & p & res & w2 & H1 & H)]; rewrite Hsat.
  - split; [|done]. intros _.
    pose proof (moves_at _ _ _ _ _ (block_same env (fun s => (records s, execution_spans s)) _ _ _ _
      (fun _ _ => eq_refl) (fun _ _ => eq_refl) (fun _ _ => eq_refl)) H) as Hf.
    apply block_ok in H as (_ & Hst & r & Hr & Hrs & _); [|done].
    unfold same, records in Hf. rewrite E in Hf. injection Hf as -> -> ->. split_and!; try done. by exists r.
  - split; [done|]. intros _.
    pose proof (moves_at _ _ _ _ _ (settle_same env (fun s => (records s, execution_spans s)) _ _ _ _ _ _
      (fun _ _ => eq_refl) (fun _ _ => eq_refl) (fun _ _ => eq_refl)) H) as Hf.
    apply settle_ok in H as (_ & Hst & _); [|done]. split; [done|]. exists res.
    apply resume_ok in H1 as [Ht Ha Hsp]. rewrite E in Ht, Ha.
    unfold same, records in Hf. injection Hf as F1 F2 F3.
    split; [by rewrite F1|by rewrite F2|]. unfold get_execution_span, find_row in *. cbn in *. by rewrite F3.
Qed.

(** C4: what an adapter is asked to do.  Whatever the decision, its outcome and
    the adapter, the tools run are inspections (leases, apps, state sync), followed
    at most once by the tool of the request, and then only by an approval of a
    pending request whose requirements are satisfied: a denial, an expiry, a
    blocked or a refused decision never runs it. *)
Theorem approval_runs_tool_once AS (adapter : ToolAdapter AS) env id decision metadata
    (w : world (AS := AS * list string)) :
  decision_log adapter id decision w
    (apply_approval_decision (Adapter := logged adapter) env id decision metadata w).2.
Proof. apply apply_log. Qed.

(** ** Witnesses *)

(** A pending request to stop an application, which needs a control lease. *)
Definition sample_request : dict :=
  dict_of [("required_resources", VList (vstrs ["app_control_lease"%string]));
           ("requested_args", VDict (dict_of [("app_id", VStr "demo")]))]%string.

Definition sample_world : world (AS := nat) :=
  ((persist_approval_request sample_env "session-1" "span-0" "system_stop_app" "pending" sample_request
      (Some "approval-1"%string) empty_store).2, 100%nat).

Definition fake : ToolAdapter nat := fake_adapter sample_env.

Definition answer_field (k : string) (r : result dict * world (AS := nat)) : option pyval :=
  match r with (Ok a, _) => dget (KStr k) a | _ => None end.

Lemma settled_decision_final_witness :
  exists answer w', apply_approval_decision (Adapter := fake) sample_env "approval-1" "deny" None sample_world = (Ok answer, w') /\
    exists r, get_approval_request "approval-1" w'.1 = Some r /\ ap_status r = "denied"%string /\
      forall w'', rtc (core_step (Adapter := fake) sample_env) w' w'' -> get_approval_request "approval-1" w''.1 = Some r.
Proof.
  assert (answer_field "ok" (apply_approval_decision (Adapter := fake) sample_env "approval-1" "deny" None sample_world)
          = Some (VBool true)) as Hok by (vm_compute; reflexivity).
  destruct (apply_approval_decision _ _ _ _ _) as [[answer|e] w'] eqn:E; [|done].
  exists answer, w'. split; [done|].
  destruct (settled_decision_final nat fake sample_env "approval-1" "deny" None sample_world w' answer
              ltac:(done) E Hok) as (_ & r & Hr & Hs & Hf).
  exists r. split; [done|]. split; [by rewrite Hs|]. intros w'' Hw. by apply Hf.
Defined.

Lemma approval_gate_witness :
  exists answer w', apply_approval_decision (Adapter := fake) sample_env "approval-1" "approve" None sample_world = (Ok answer, w') /\
    dget "status" answer = Some (VStr "blocked_resource_gate") /\ tool_results w'.1 = [].
Proof.
  assert (answer_field "status" (apply_approval_decision (Adapter := fake) sample_env "approval-1" "approve" None sample_world)
          = Some (VStr "blocked_resource_gate")) as Hst by (vm_compute; reflexivity).
  destruct (apply_approval_decision _ _ _ _ _) as [[answer|e] w'] eqn:E; [|done].
  exists answer, w'. split; [done|]. split; [done|].
  destruct (approval_gate nat fake sample_env "approval-1" None sample_world w' answer ltac:(done) E)
    as (request & o & w1 & _ & _ & _ & _ & Hb & Ha).
  destruct (satisfied o) eqn:Es.
  - destruct (Ha eq_refl) as [H _]. cbn [answer_field] in Hst. rewrite Hst in H. discriminate H.
  - destruct (Hb eq_refl) as (_ & _ & Ht & _). rewrite Ht. reflexivity.
Defined.
