(* ===== verification/Lifecycle.v ===== *)
(** * The life of an approval request

    An abstract machine that keeps a status for each request, and the proof that
    the store refines it: submissions, decisions (whatever they answer or raise)
    and everything else the core does to its store are steps of the machine or
    leave it alone. *)

From Stdlib Require Import ZArith Lia Bool List Ascii String.
From stdpp Require Import base list option strings gmap relations.
From S2P Require Import Prelude PyValue Events Store StateSync Approval.

Open Scope Z_scope.

(** ** The machine *)

Notation lifecycle := (gmap string string).

Definition final_statuses : list string := ["approved"; "denied"; "expired"]%string.

Inductive lifecycle_step : lifecycle -> lifecycle -> Prop :=
  | lc_submit id m : m !! id = None -> lifecycle_step m (<[id := "pending"%string]> m)
  | lc_decide id status m :
      m !! id = Some "pending"%string -> status ∈ final_statuses -> lifecycle_step m (<[id := status]> m).

(** The statuses a run of the machine can reach. *)
Definition statuses_ok (m : lifecycle) : Prop :=
  map_Forall (fun _ status => status = "pending"%string \/ status ∈ final_statuses) m.

Lemma lifecycle_step_ok m m' : lifecycle_step m m' -> statuses_ok m -> statuses_ok m'.
Proof.
  intros [id m0 Hm|id status m0 Hm Hs] H; apply map_Forall_insert_2; try done; [by left|by right].
Qed.

(** A decided request stays as it was decided. *)
Lemma lifecycle_decided m m' id status :
  rtc lifecycle_step m m' -> m !! id = Some status -> status <> "pending"%string -> m' !! id = Some status.
Proof.
  induction 1 as [|m m1 m2 Hstep _ IH]; [done|]. intros Hm Hs. apply IH; [|done].
  destruct Hstep as [id' m0 Hn|id' status' m0 Hp _]; rewrite lookup_insert_ne; congruence.
Qed.

(** ** The store as a state of the machine *)

Definition abs (s : CoreDataStore) : lifecycle :=
  list_to_map (map (fun r => (ap_id r, ap_status r)) (approval_requests s)).

Lemma abs_lookup s id : abs s !! id = ap_status <$> get_approval_request id s.
Proof.
  unfold abs, get_approval_request, find_row, t_find. cbn [tb_rows tb_key approval_table].
  induction (approval_requests s) as [|r t IH]; cbn; [apply lookup_empty|].
  destruct (String.eqb_spec (ap_id r) id) as [<-|Hne]; [by rewrite lookup_insert_eq|]. by rewrite lookup_insert_ne.
Qed.

Lemma abs_same s s' : approval_requests s' = approval_requests s -> abs s' = abs s.
Proof. unfold abs. by intros ->. Qed.

Lemma same_requests s s' id : approval_requests s' = approval_requests s -> get_approval_request id s' = get_approval_request id s.
Proof. intros H. unfold get_approval_request, find_row. cbn. by rewrite H. Qed.

(** Only [id] has a new status. *)
Lemma abs_others id s s' status :
  others id s s' -> ap_status <$> get_approval_request id s' = Some status -> abs s' = <[id := status]> (abs s).
Proof.
  intros Ho Hs. apply map_eq. intros k. rewrite abs_lookup. destruct (decide (k = id)) as [->|Hne].
  - by rewrite lookup_insert_eq.
  - rewrite lookup_insert_ne, abs_lookup by done. by rewrite Ho.
Qed.

Section Lifecycle.
Context {AS : Type} `{Adapter : ToolAdapter AS} (env : nat -> Env).
Notation W := (world (AS := AS)).

(** What the core does to the approval requests: a decision, whatever it answers or
    raises; the submission of a request under a new id; or something else. *)
Inductive core_event : W -> W -> Prop :=
  | ev_decision id decision metadata w :
      id <> ""%string -> core_event w (apply_approval_decision env id decision metadata w).2
  | ev_submit session span tool payload id w :
      id <> ""%string -> get_approval_request id w.1 = None ->
      core_event w (on_store (persist_approval_request env session span tool "pending" payload (Some id)) w).2
  | ev_elsewhere w w' : approval_requests w'.1 = approval_requests w.1 -> core_event w w'.

(** *** A decision on a pending request *)

(** The status of [id] stays within [S]. *)
Definition within (id : string) (S : list string) (s s' : CoreDataStore) : Prop :=
  (exists r, get_approval_request id s = Some r /\ ap_status r ∈ S) ->
  exists r, get_approval_request id s' = Some r /\ ap_status r ∈ S.

Definition within_w id S (w w' : W) : Prop := within id S w.1 w'.1.

#[export] Instance within_w_preorder id S : PreOrder (within_w id S).
Proof. split; unfold within_w, within; [by intros ? ?|]. intros a b c H1 H2 H. by apply H2, H1. Qed.

Lemma same_within {A} id S (m : eff W A) :
  moves (same (fun w : W => approval_requests w.1)) m -> moves (within_w id S) m.
Proof.
  apply moves_weaken. intros w w' H Hin. by rewrite (same_requests w.1 w'.1 id H).
Qed.

Lemma persist_within session span tool status payload id S :
  id <> ""%string -> status ∈ S ->
  moves (within_w id S) (on_store (AS := AS) (persist_approval_request env session span tool status payload (Some id))).
Proof.
  intros Hid Hs. apply (on_store_moves (within id S)). intros s Hin.
  destruct (persist_approval_request _ _ _ _ _ _ _ s) as [[i|e] s'] eqn:E; cbn [snd].
  - destruct (persist_approval_request_ok _ _ _ _ _ _ _ _ _ _ Hid E) as (_ & r & _ & Hr & <- & _). eauto.
  - by rewrite (same_requests s s' id (persist_raise _ _ _ _ _ _ _ _ _ _ Hid E)).
Qed.

#[local] Hint Resolve on_store_same run_tool_same get_store_same requirements_same context_same updated_same
  snapshot_same answer_same : moves.

(** Everything after the last write of the requests is a reading. *)
Ltac within_step Hid := apply moves_bind; [apply _| |intros ?]; [first [solve [apply same_within; moves] | by apply persist_within]|].

Lemma block_within request payload requirements metadata S :
  ap_id request <> ""%string -> "pending"%string ∈ S ->
  moves (within_w (ap_id request) S) (block_decision env request payload requirements metadata).
Proof. intros Hid HS. unfold block_decision. do 2 within_step Hid. apply same_within. moves. Qed.

Lemma settle_within request decision payload requirements resumed metadata S :
  ap_id request <> ""%string -> updated_status decision ∈ S ->
  moves (within_w (ap_id request) S) (settle_decision env request decision payload requirements resumed metadata).
Proof. intros Hid HS. unfold settle_decision. do 2 within_step Hid. apply same_within. moves. Qed.

Lemma apply_within id decision metadata S :
  id <> ""%string -> "pending"%string ∈ S -> updated_status decision ∈ S ->
  moves (within_w id S) (apply_approval_decision env id decision metadata).
Proof.
  intros Hid HS HS'. unfold apply_approval_decision. destruct (negb _); [apply moves_raise; apply _|].
  apply moves_bind; [apply _|by apply same_within, get_store_same|]. intros s.
  destruct (get_approval_request id s) as [request|] eqn:E; [|apply moves_raise; apply _].
  apply t_find_key in E as [E _]. cbn [tb_key approval_table] in E. subst id.
  destruct (negb _); [apply moves_raise; apply _|]. destruct (String.eqb decision "approve"); [|by apply settle_within].
  apply moves_bind; [apply _|apply same_within; eauto with moves|]. intros requirements.
  destruct (negb _); [by apply block_within|].
  apply moves_bind; [apply _|apply same_within, resume_same; done|]. intros resumed. by apply settle_within.
Qed.

Lemma apply_absent id decision metadata (w : W) :
  get_approval_request id w.1 = None -> exists e, apply_approval_decision env id decision metadata w = (Raise e, w).
Proof.
  intros Hg. unfold apply_approval_decision, eraise. destruct (negb (str_in decision _)); [by eexists|].
  unfold ebind, get_store. rewrite Hg. by eexists.
Qed.

Lemma updated_status_final decision : updated_status decision ∈ final_statuses.
Proof. unfold updated_status. repeat case_match; repeat constructor. Qed.

(** At most one step of the machine for each event. *)
Lemma event_step (w w' : W) : core_event w w' -> abs w'.1 = abs w.1 \/ lifecycle_step (abs w.1) (abs w'.1).
Proof.
  intros H. inversion H as [id decision metadata w0 Hid|session span tool payload id w0 Hid Hnone|w0 w1 Hsame]; subst.
  - destruct (get_approval_request id w.1) as [r|] eqn:Er.
    2: { destruct (apply_absent id decision metadata w Er) as [e ->]. by left. }
    destruct (decide (ap_status r = "pending"%string)) as [Hp|Hp].
    2: { destruct (apply_not_pending env id decision metadata w r Er Hp) as [e ->]. by left. }
    pose proof (apply_others env id decision metadata Hid w) as Ho.
    destruct (apply_within id decision metadata ["pending"; updated_status decision]%string Hid ltac:(by left)
                ltac:(right; by left) w) as (r' & Hr' & Hin).
    { exists r. split; [done|]. rewrite Hp. by left. }
    assert (abs (apply_approval_decision env id decision metadata w).2.1 = <[id := ap_status r']> (abs w.1)) as ->.
    { apply abs_others; [done|]. by rewrite Hr'. }
    assert (abs w.1 !! id = Some "pending"%string) as Hold by by rewrite abs_lookup, Er, <- Hp.
    apply elem_of_cons in Hin as [-> | ->%list_elem_of_singleton].
    + left. by apply insert_id.
    + right. by apply lc_decide, updated_status_final.
  - assert (abs w.1 !! id = None) as Hold by by rewrite abs_lookup, Hnone.
    unfold on_store. destruct w as [s a]. cbn [fst] in *.
    destruct (persist_approval_request _ _ _ _ _ _ _ s) as [[i|e] s'] eqn:E; cbn [snd fst].
    + destruct (persist_approval_request_ok _ _ _ _ _ _ _ _ _ _ Hid E) as (_ & r & _ & Hr & Hs & _ & _ & _ & _ & Ho).
      right. rewrite (abs_others id s s' "pending"); [by apply lc_submit|done|]. rewrite Hr. cbn. congruence.
    + left. apply abs_same. by apply (persist_raise _ _ _ _ _ _ _ _ _ _ Hid E).
  - left. by apply abs_same.
Qed.
End Lifecycle.

(** ** Properties *)

(** C17: the store refines the life cycle of requests: for any tool adapter, whatever the core does
    to its approval requests (submissions under new ids, decisions that answer or raise at any
    point, anything else) is a run of the machine in which a request is submitted as pending and
    decided at most once; so every status stays one of pending, approved, denied and expired. *)
Theorem approvals_refine_lifecycle AS (adapter : ToolAdapter AS) env (w w' : world) :
  rtc (core_event (Adapter := adapter) env) w w' ->
  rtc lifecycle_step (abs w.1) (abs w'.1) /\ (statuses_ok (abs w.1) -> statuses_ok (abs w'.1)).
Proof.
  intros H. assert (rtc lifecycle_step (abs w.1) (abs w'.1)) as Hr.
  { induction H as [|x y z Hstep _ IH]; [done|].
    destruct (event_step env x y Hstep) as [E|Hs]; [by rewrite <- E|by eapply rtc_l]. }
  split; [done|]. clear H. induction Hr; [done|]. intros. eauto using lifecycle_step_ok.
Qed.

(** ** Witnesses *)

Definition submitted : world (AS := nat) := (on_store (persist_approval_request sample_env "session-1" "span-0"
  "system_restart_app" "pending" (dict_of []) (Some "approval-7"%string)) (empty_store, 0%nat)).2.
Definition decided : world (AS := nat) :=
  (apply_approval_decision (Adapter := fake) sample_env "approval-7" "deny" None submitted).2.

Lemma approvals_refine_lifecycle_witness :
  rtc lifecycle_step ∅ (abs decided.1) /\ abs decided.1 !! "approval-7"%string = Some "denied"%string.
Proof.
  split; [|vm_compute; reflexivity].
  apply (approvals_refine_lifecycle nat fake sample_env (empty_store, 0%nat) decided).
  apply (rtc_l _ _ submitted); [|apply rtc_once].
  - by apply (ev_submit sample_env "session-1" "span-0" "system_restart_app" (dict_of []) "approval-7").
  - by apply (ev_decision sample_env "approval-7" "deny" None submitted).
Defined.
