(* ===== verification/Artifact.v ===== *)
(** * Build plans and the admission of artifacts ([workflow.py])

    The plan of an application's build, the identity its C source declares, the
    header of its ELF artifact, and the admission that holds them against each
    other.  The file system is a parameter: the contents of the regular file at a
    path, if there is one. *)

From Stdlib Require Import ZArith Lia Bool List Ascii String.
From stdpp Require Import base list option strings.
From S2P Require Import Prelude PyFloat Text PyValue JsonParse CborCodec Events Policy Json.

Open Scope Z_scope.

Class Files := file_at : string -> option (list Z).

Definition APP_BUILD_PLAN_SCHEMA_VERSION : string := "1.2.4-app-build-plan-v1".
Definition APP_ARTIFACT_ADMISSION_SCHEMA_VERSION : string := "1.2.4-app-artifact-admission-v1".

(** ** Paths ([PurePosixPath]) *)

(** The root and the parts of a path: no empty parts, no ["."]; exactly two leading slashes are kept. *)
Definition path_root (p : string) : string :=
  if startswith p "//" then (if startswith p "///" then "/" else "//") else if startswith p "/" then "/" else "".
Definition path_parts (p : string) : list string :=
  List.filter (fun s => negb (String.eqb s "") && negb (String.eqb s ".")) (split_on "/"%char p).

(** [Path(p).joinpath(...).as_posix()] and [Path(p).name] *)
Definition as_posix (p : string) (more : list string) : string :=
  let text := path_root p +:+ join "/" (path_parts p ++ more) in
  if String.eqb text "" then "." else text.
Definition path_name (p : string) : string := default ""%string (last (path_parts p)).

Example posix_ex :
  map (fun p => (as_posix p [], path_name p)) ["a//b/./c"; "//a"; "///a/"; ""; "./x"; "a/.."; "/"]%string =
  [("a/b/c", "c"); ("//a", "a"); ("/a", "a"); (".", ""); ("x", "x"); ("a/..", ".."); ("/", "")]%string.
Proof. reflexivity. Qed.

(** [s.rpartition("/")], its first and last component. *)
Definition rpartition_slash (s : string) : string * string :=
  match rev (split_on "/"%char s) with
  | [] | [_] => (""%string, s)
  | base :: parents => (join "/" (rev parents), base)
  end.

(** ** Build plans *)

(** [[A-Za-z0-9_]] *)
Definition id_byte (b : Z) : bool :=
  is_digit b || ((65 <=? b) && (b <=? 90)) || ((97 <=? b) && (b <=? 122)) || (b =? 95).

(** [re.fullmatch(r"[A-Za-z0-9_][A-Za-z0-9_-]*", s)] *)
Definition app_id_text (s : string) : bool :=
  match bytes_of_string s with
  | [] => false
  | b :: r => id_byte b && forallb (fun b => id_byte b || (b =? 45)) r
  end.

Definition validate_app_build_app_id (app_id : string) : result string :=
  let normalized := py_strip app_id in
  if String.eqb normalized "" then Raise (ValueError "app_build_plan_requires_app_id")
  else if negb (app_id_text normalized) then Raise (ValueError "invalid_app_build_app_id")
  else Ok normalized.

Definition posix_slashes (s : string) : string := replace_char "\"%char "/" s.
Definition newline : ascii := "010"%char.

Definition validate_app_build_dir (build_dir : string) : result string :=
  let normalized := posix_slashes (py_strip build_dir) in
  if String.eqb normalized "" then Raise (ValueError "app_build_plan_requires_build_dir")
  else if py_contains normalized ".." then Raise (ValueError "invalid_app_build_dir")
  else if negb (startswith normalized "build/" && negb (String.eqb normalized "build/") &&
                negb (mem_char newline normalized))
  then Raise (ValueError "invalid_app_build_dir")
  else Ok normalized.

Definition default_source_dir (app_id : string) : string := "applocation/NeuroLink/subprojects/" +:+ app_id.

Definition text_or_empty (o : option string) : string := default ""%string o.

Definition resolve_app_build_source_dir (app_id : string) (app_source_dir : option string) : result string :=
  let given := posix_slashes (py_strip (text_or_empty app_source_dir)) in
  let candidate := if String.eqb given "" then default_source_dir app_id else given in
  if py_contains candidate ".." then Raise (ValueError "invalid_app_build_source_dir") else Ok candidate.

Definition get_unit_app_build_dir (build_dir app_id : string) : string :=
  let (parent_dir, base_name) := rpartition_slash build_dir in
  if String.eqb app_id "neuro_unit_app" then parent_dir +:+ "/" +:+ base_name +:+ "_app"
  else parent_dir +:+ "/" +:+ base_name +:+ "_" +:+ replace_char "-"%char "_" app_id +:+ "_app".

Definition default_board : string := "dnesp32s3b/esp32s3/procpu".
Definition default_build_dir : string := "build/neurolink_unit".

Record BuildPlan := {
  bp_preset : string;
  bp_board : string;
  bp_app_id : string;
  bp_app_source_dir : string;
  bp_unit_build_dir : string;
  bp_app_build_dir : string;
  bp_source_artifact_file : string;
  bp_staged_artifact_file : string;
  bp_build_command : string;
}.

Definition build_command_parts (preset app_id source_dir build_dir board : string) (check_c_style : bool) : list string :=
  ["bash"; "applocation/NeuroLink/scripts/build_neurolink.sh"; "--preset"; preset]%string ++
  (if String.eqb app_id "neuro_unit_app" then [] else ["--app"%string; app_id]) ++
  (if String.eqb source_dir (default_source_dir app_id) then [] else ["--app-source-dir"%string; source_dir]) ++
  (if String.eqb build_dir default_build_dir then [] else ["--build-dir"%string; build_dir]) ++
  (if String.eqb board default_board then [] else ["--board"%string; board]) ++
  (if check_c_style then [] else ["--no-c-style-check"%string]).

Definition build_app_build_plan (preset app_id : string) (app_source_dir : option string) (board build_dir : string)
    (check_c_style : bool) : result BuildPlan :=
  let normalized_preset := py_strip preset in
  if negb (str_in normalized_preset ["unit-app"; "unit-ext"]%string) then
    Raise (ValueError "unsupported_app_build_preset")
  else
    let! normalized_app_id := validate_app_build_app_id app_id in
    let! normalized_build_dir := validate_app_build_dir build_dir in
    let! normalized_source_dir := resolve_app_build_source_dir normalized_app_id app_source_dir in
    let app_build_dir := get_unit_app_build_dir normalized_build_dir normalized_app_id in
    Ok {| bp_preset := normalized_preset; bp_board := board; bp_app_id := normalized_app_id;
          bp_app_source_dir := normalized_source_dir; bp_unit_build_dir := normalized_build_dir;
          bp_app_build_dir := app_build_dir;
          bp_source_artifact_file := app_build_dir +:+ "/" +:+ normalized_app_id +:+ ".llext";
          bp_staged_artifact_file := normalized_build_dir +:+ "/llext/" +:+ normalized_app_id +:+ ".llext";
          bp_build_command := join " " (build_command_parts normalized_preset normalized_app_id normalized_source_dir
                                          normalized_build_dir board check_c_style) |}.

Definition build_plan_dict (p : BuildPlan) : dict :=
  dict_of
    [("schema_version", VStr APP_BUILD_PLAN_SCHEMA_VERSION); ("release_slice", VStr "1.2.4");
     ("preset", VStr (bp_preset p)); ("board", VStr (bp_board p)); ("app_id", VStr (bp_app_id p));
     ("app_source_dir", VStr (bp_app_source_dir p)); ("unit_build_dir", VStr (bp_unit_build_dir p));
     ("app_build_dir", VStr (bp_app_build_dir p)); ("source_artifact_file", VStr (bp_source_artifact_file p));
     ("staged_artifact_file", VStr (bp_staged_artifact_file p));
     ("canonical_artifact_file", VStr (bp_source_artifact_file p));
     ("build_script", VStr "applocation/NeuroLink/scripts/build_neurolink.sh");
     ("build_command", VStr (bp_build_command p)); ("uses_edk_external_app_flow", VBool true);
     ("admission_checks", VList (vstrs
        ["source_artifact_exists"; "source_artifact_is_nonempty"; "source_artifact_has_valid_elf_header";
         "staged_artifact_exists"; "staged_artifact_is_nonempty"; "staged_artifact_has_valid_elf_header";
         "artifact_app_id_matches_request"]))]%string.

Definition build_plan_payload (p : BuildPlan) : dict :=
  dict_of [("ok", VBool true); ("status", VStr "ok"); ("command", VStr "app-build-plan");
           ("build_plan", VDict (build_plan_dict p))]%string.

(** ** The identity a source declares *)

(** Items of the patterns the source is searched with.  A greedy class is always
    followed by a character outside of it, so matching never has to backtrack. *)
Inductive re_item :=
  | ReText (s : string)   (* the text itself *)
  | ReSpaces              (* [\s*] *)
  | ReNotQuote            (* a group of one or more characters other than the quote *)
  | ReDigits.             (* [(\d+)] *)

Fixpoint span (f : Z -> bool) (l : list Z) : list Z * list Z :=
  match l with
  | c :: r => if f c then let (a, b) := span f r in (c :: a, b) else ([], l)
  | [] => ([], [])
  end.

(** A group: a non-empty run of characters. *)
Definition group (f : Z -> bool) (l : list Z) : option (list Z * list Z) :=
  match span f l with ([], _) => None | found => Some found end.

(** The groups of a match at the head of [l]. *)
Fixpoint match_items (items : list re_item) (l : list Z) : option (list string) :=
  match items with
  | [] => Some []
  | ReText s :: rest => match strip_prefix (code_points s) l with Some r => match_items rest r | None => None end
  | ReSpaces :: rest => match_items rest (drop_space l)
  | ReNotQuote :: rest =>
      match group (fun c => negb (c =? 34)) l with
      | Some (g, r) => option_map (cons (of_code_points g)) (match_items rest r)
      | None => None
      end
  | ReDigits :: rest =>
      match group re_digit l with
      | Some (g, r) => option_map (cons (of_code_points g)) (match_items rest r)
      | None => None
      end
  end.

(** [re.search]: the leftmost match. *)
Fixpoint re_search (items : list re_item) (l : list Z) : option (list string) :=
  match match_items items l with
  | Some groups => Some groups
  | None => match l with [] => None | _ :: r => re_search items r end
  end.

Definition string_constant (name : string) : list re_item :=
  [ReText ("static const char " +:+ name +:+ "[]"); ReSpaces; ReText "="; ReSpaces; ReText quote_mark; ReNotQuote;
   ReText (quote_mark +:+ ";")].

Definition version_field (name : string) : list re_item :=
  [ReText ("." +:+ name); ReSpaces; ReText "="; ReSpaces; ReDigits].

Definition manifest_version_items : list re_item :=
  [ReText ".version"; ReSpaces; ReText "="; ReSpaces; ReText "{"; ReSpaces] ++ version_field "major" ++
  [ReSpaces; ReText ","; ReSpaces] ++ version_field "minor" ++ [ReSpaces; ReText ","; ReSpaces] ++ version_field "patch".

(** Universal newlines, as [read_text] translates them. *)
Fixpoint unix_newlines (l : list Z) : list Z :=
  match l with
  | 13 :: 10 :: r => 10 :: unix_newlines r
  | c :: r => (if c =? 13 then 10 else c) :: unix_newlines r
  | [] => []
  end.

Definition read_text (bytes : list Z) : result string :=
  let! text := decode_utf8 bytes in Ok (string_of_bytes (unix_newlines (bytes_of_string text))).

Record SourceIdentity := {
  si_file : string;
  si_app_id : string;
  si_app_version : string;
  si_build_id : string;
  si_manifest_version : string;
}.

Definition source_identity_dict (s : SourceIdentity) : dict :=
  dict_of [("source_identity_file", VStr (si_file s)); ("app_id", VStr (si_app_id s));
           ("app_version", VStr (si_app_version s)); ("build_id", VStr (si_build_id s));
           ("manifest_version", VStr (si_manifest_version s))]%string.

Definition require_match (items : list re_item) (failure_status source_text : string) : result (list string) :=
  match re_search items (code_points source_text) with
  | Some groups => Ok groups
  | None => Raise (ValueError failure_status)
  end.

(** [match.group(1)] *)
Definition group1 (groups : list string) : string := default ""%string (head groups).

Section Admission.
Context {FS : Files}.

Definition load_app_source_identity (app_source_dir app_id : string) : result SourceIdentity :=
  let source_file := as_posix app_source_dir ["src"; "main.c"]%string in
  match file_at source_file with
  | None => Raise (ValueError "source_identity_file_missing")
  | Some bytes =>
      let! source_text := read_text bytes in
      let! app := require_match (string_constant "app_id") "source_identity_app_id_missing" source_text in
      let source_app_id := group1 app in
      if negb (String.eqb source_app_id app_id) then Raise (ValueError "source_app_id_mismatch")
      else
        let! version := require_match (string_constant "app_version") "source_identity_version_missing" source_text in
        let! build := require_match (string_constant "app_build_id") "source_identity_build_id_missing" source_text in
        let! numbers := require_match manifest_version_items "source_identity_manifest_version_missing" source_text in
        let manifest_version := join "." numbers in
        if negb (String.eqb manifest_version (group1 version)) then
          Raise (ValueError "source_manifest_version_mismatch")
        else Ok {| si_file := source_file; si_app_id := source_app_id; si_app_version := group1 version;
                   si_build_id := group1 build; si_manifest_version := manifest_version |}
  end.
End Admission.

(** ** The header of an artifact *)

Record ElfIdentity := {
  elf_class : string;
  elf_endianness : string;
  elf_version : Z;
  elf_type : Z;
  elf_machine_id : Z;
  elf_machine_name : string;
}.

Definition ELF_MACHINE_NAMES : list (Z * string) :=
  [(3, "x86"); (40, "arm"); (62, "x86_64"); (94, "xtensa"); (183, "aarch64"); (243, "riscv")]%string.

Definition machine_name_of (machine : Z) : string :=
  match List.find (fun entry => entry.1 =? machine) ELF_MACHINE_NAMES with
  | Some (_, name) => name
  | None => "unknown-" +:+ string_of_Z machine
  end.

(** [struct.unpack] of an unsigned word, [little] first byte least. *)
Definition unpack_word (little : bool) (bytes : list Z) : Z :=
  from_be (if little then rev bytes else bytes).

Definition ELF_MAGIC : list Z := [127; 69; 76; 70].
Definition invalid_header {A} : result A := Raise (ValueError "artifact_invalid_elf_header").

Definition read_elf_identity (artifact_bytes : list Z) : result ElfIdentity :=
  if (length artifact_bytes <? 24)%nat then invalid_header
  else if negb (bool_decide (take 4 artifact_bytes = ELF_MAGIC)) then invalid_header
  else
    let byte i := nth i artifact_bytes 0 in
    let word i n := take n (drop i artifact_bytes) in
    let cls := byte 4%nat in
    let data := byte 5%nat in
    let version := byte 6%nat in
    if negb ((cls =? 1) || (cls =? 2)) || negb ((data =? 1) || (data =? 2)) || negb (version =? 1) then invalid_header
    else
      let little := data =? 1 in
      let e_type := unpack_word little (word 16 2)%nat in
      let e_machine := unpack_word little (word 18 2)%nat in
      let e_version_word := unpack_word little (word 20 4)%nat in
      if negb (e_version_word =? 1) then invalid_header
      else Ok {| elf_class := if cls =? 1 then "ELF32" else "ELF64";
                 elf_endianness := if little then "little_endian" else "big_endian";
                 elf_version := e_version_word; elf_type := e_type; elf_machine_id := e_machine;
                 elf_machine_name := machine_name_of e_machine |}.

Definition elf_identity_dict (e : ElfIdentity) : dict :=
  dict_of [("elf_class", VStr (elf_class e)); ("endianness", VStr (elf_endianness e));
           ("elf_version", VInt (elf_version e)); ("elf_type", VInt (elf_type e));
           ("machine_id", VInt (elf_machine_id e)); ("machine_name", VStr (elf_machine_name e))]%string.

(** ** Admission *)

Definition resolve_app_artifact_file (artifact_file : option string) (fallback_file : string) : result string :=
  let given := posix_slashes (py_strip (text_or_empty artifact_file)) in
  let candidate := if String.eqb given "" then fallback_file else given in
  if String.eqb candidate "" then Raise (ValueError "app_artifact_admission_requires_artifact_file") else Ok candidate.

Definition expected_architecture_of (board : string) : string :=
  if String.eqb board "dnesp32s3b/esp32s3/procpu" then "xtensa" else "unknown".

(** [needle in artifact_bytes] *)
Fixpoint contains_bytes (needle l : list Z) : bool :=
  match strip_prefix needle l with
  | Some _ => true
  | None => match l with [] => false | _ :: r => contains_bytes needle r end
  end.

Record ArtifactAdmission := {
  aa_artifact_file : string;
  aa_size_bytes : Z;
  aa_sha256 : string;
  aa_expected_architecture : string;
  aa_elf_identity : ElfIdentity;
  aa_source_identity : SourceIdentity;
}.

Definition admission_dict (a : ArtifactAdmission) : dict :=
  dict_of
    [("schema_version", VStr APP_ARTIFACT_ADMISSION_SCHEMA_VERSION); ("artifact_file", VStr (aa_artifact_file a));
     ("artifact_size_bytes", VInt (aa_size_bytes a)); ("artifact_sha256", VStr (aa_sha256 a));
     ("expected_architecture", VStr (aa_expected_architecture a));
     ("elf_identity", VDict (elf_identity_dict (aa_elf_identity a)));
     ("source_identity", VDict (source_identity_dict (aa_source_identity a)));
     ("filename_matches_app_id", VBool true); ("artifact_contains_app_id_string", VBool true);
     ("artifact_contains_build_id_string", VBool true); ("artifact_contains_version_string", VBool true);
     ("admission_checks", VList (vstrs
        ["artifact_exists"; "artifact_is_nonempty"; "artifact_filename_matches_app_id"; "artifact_has_valid_elf_header";
         "artifact_target_architecture_matches_board"; "artifact_contains_app_id_string";
         "artifact_contains_build_id_string"; "artifact_contains_version_string";
         "source_manifest_version_matches_source_version"]));
     ("admitted", VBool true)]%string.

(** The artifact's bytes against the identities: every string the source declares must be in them. *)
Definition admit_bytes (board artifact_file : string) (artifact_bytes : list Z) (source : SourceIdentity)
    : result ArtifactAdmission :=
  let! elf := read_elf_identity artifact_bytes in
  let expected := expected_architecture_of board in
  if negb (String.eqb expected "unknown") && negb (String.eqb (elf_machine_name elf) expected) then
    Raise (ValueError "artifact_target_arch_mismatch")
  else
    let! app_id := encode_utf8 (si_app_id source) in
    let! build_id := encode_utf8 (si_build_id source) in
    let! version := encode_utf8 (si_app_version source) in
    if negb (contains_bytes app_id artifact_bytes) then Raise (ValueError "artifact_app_id_missing")
    else if negb (contains_bytes build_id artifact_bytes) then Raise (ValueError "artifact_build_id_missing")
    else if negb (contains_bytes version artifact_bytes) then Raise (ValueError "artifact_version_missing")
    else Ok {| aa_artifact_file := artifact_file; aa_size_bytes := Z.of_nat (length artifact_bytes);
               aa_sha256 := hex_of_bytes (sha256 artifact_bytes); aa_expected_architecture := expected;
               aa_elf_identity := elf; aa_source_identity := source |}.

Section Admit.
Context {FS : Files}.

Definition build_app_artifact_admission (preset app_id : string) (app_source_dir : option string) (board build_dir : string)
    (artifact_file : option string) : result (BuildPlan * ArtifactAdmission) :=
  let! plan := build_app_build_plan preset app_id app_source_dir board build_dir false in
  let! resolved := resolve_app_artifact_file artifact_file (bp_source_artifact_file plan) in
  if negb (String.eqb (path_name resolved) (app_id +:+ ".llext")) then
    Raise (ValueError "artifact_filename_app_id_mismatch")
  else
    match file_at (as_posix resolved []) with
    | None => Raise (ValueError "artifact_missing")
    | Some [] => Raise (ValueError "artifact_empty")
    | Some artifact_bytes =>
        let! source := load_app_source_identity (bp_app_source_dir plan) app_id in
        let! admission := admit_bytes board (as_posix resolved []) artifact_bytes source in
        Ok (plan, admission)
    end.
End Admit.

Definition admission_payload (plan : BuildPlan) (admission : ArtifactAdmission) : dict :=
  dict_of [("ok", VBool true); ("status", VStr "ok"); ("command", VStr "app-artifact-admission");
           ("build_plan", VDict (build_plan_dict plan)); ("artifact_admission", VDict (admission_dict admission))]%string.

(** ** Headers as they are written *)

Definition bytes_ok (l : list Z) : Prop := Forall (fun b => 0 <= b < 256) l.

(** [struct.pack] of an unsigned word of [n] bytes. *)
Definition pack_word (little : bool) (n : nat) (v : Z) : list Z := if little then rev (be_bytes n v) else be_bytes n v.

(** The first 24 bytes of an ELF file: magic, class, byte order, version, nine
    bytes that nobody reads, type, machine and version again. *)
Definition elf_header (is64 little : bool) (padding : list Z) (e_type e_machine : Z) : list Z :=
  ELF_MAGIC ++ [if is64 then 2 else 1; if little then 1 else 2; 1] ++ padding ++
  pack_word little 2 e_type ++ pack_word little 2 e_machine ++ pack_word little 4 1.

Definition identity_of (is64 little : bool) (e_type e_machine : Z) : ElfIdentity :=
  {| elf_class := if is64 then "ELF64" else "ELF32";
     elf_endianness := if little then "little_endian" else "big_endian";
     elf_version := 1; elf_type := e_type; elf_machine_id := e_machine; elf_machine_name := machine_name_of e_machine |}.

Lemma from_be_range l : bytes_ok l -> 0 <= from_be l < 256 ^ Z.of_nat (length l).
Proof.
  induction l as [|b l IH] using rev_ind; intros Hl; [cbn; lia|].
  apply Forall_app in Hl as [Hl [Hb _]%Forall_cons]. specialize (IH Hl).
  unfold from_be in *. rewrite foldl_app, length_app. cbn [foldl length]. change (Z.of_nat (length l + 1)) with (Z.of_nat (length l + 1)).
  rewrite Nat2Z.inj_add, Z.pow_add_r by lia. change (256 ^ Z.of_nat 1) with 256. lia.
Qed.

Lemma be_bytes_from_be l : bytes_ok l -> be_bytes (length l) (from_be l) = l.
Proof.
  induction l as [|b l IH] using rev_ind; intros Hl; [done|].
  apply Forall_app in Hl as [Hl [Hb _]%Forall_cons]. rewrite length_app, Nat.add_comm.
  unfold from_be. rewrite foldl_app. cbn [foldl be_bytes length Nat.add]. change (foldl _ 0 l) with (from_be l).
  rewrite (Z.add_comm (_ * 256)), Z.div_add, (Z.div_small b), Z.add_0_l, IH, Z.mod_add, Z.mod_small by (done || lia). done.
Qed.

Lemma length_pack_word little n v : length (pack_word little n v) = n.
Proof. unfold pack_word. destruct little; rewrite ?length_rev; apply length_be_bytes. Qed.

Lemma unpack_pack little n v : 0 <= v < 256 ^ Z.of_nat n -> unpack_word little (pack_word little n v) = v.
Proof. intros Hv. unfold unpack_word, pack_word. destruct little; rewrite ?rev_involutive; by apply from_be_be_bytes. Qed.

Lemma pack_unpack little l : bytes_ok l -> pack_word little (length l) (unpack_word little l) = l.
Proof.
  intros Hl. unfold unpack_word, pack_word. destruct little; [|by apply be_bytes_from_be].
  rewrite <- (length_rev l), be_bytes_from_be; [apply rev_involutive|]. by apply List.Forall_rev.
Qed.

Lemma unpack_range little l : bytes_ok l -> 0 <= unpack_word little l < 256 ^ Z.of_nat (length l).
Proof.
  intros Hl. unfold unpack_word. destruct little; [|by apply from_be_range].
  rewrite <- (length_rev l). apply from_be_range. by apply List.Forall_rev.
Qed.

Lemma read_header is64 little padding e_type e_machine rest :
  length padding = 9%nat -> 0 <= e_type < 65536 -> 0 <= e_machine < 65536 ->
  read_elf_identity (elf_header is64 little padding e_type e_machine ++ rest) =
  Ok (identity_of is64 little e_type e_machine).
Proof.
  intros Hp Ht Hm. do 9 (destruct padding as [|? padding]; [done|]). destruct padding; [|done].
  unfold elf_header.
  pose proof (unpack_pack little 2 e_type Ht) as Et. pose proof (length_pack_word little 2 e_type) as Lt.
  pose proof (unpack_pack little 2 e_machine Hm) as Em. pose proof (length_pack_word little 2 e_machine) as Lm.
  destruct (pack_word little 2 e_type) as [|? [|? [|]]]; try done.
  destruct (pack_word little 2 e_machine) as [|? [|? [|]]]; try done.
  unfold identity_of. rewrite <- Et, <- Em.
  destruct is64, little; reflexivity.
Qed.

Lemma one_or_two z : (z =? 1) || (z =? 2) = true -> exists b : bool, z = (if b then 2 else 1).
Proof. intros [->%Z.eqb_eq| ->%Z.eqb_eq]%orb_true_iff; [by exists false|by exists true]. Qed.

Lemma read_only_headers bytes id :
  bytes_ok bytes -> read_elf_identity bytes = Ok id ->
  exists is64 little padding e_type e_machine rest,
    length padding = 9%nat /\ 0 <= e_type < 65536 /\ 0 <= e_machine < 65536 /\
    bytes = elf_header is64 little padding e_type e_machine ++ rest /\ id = identity_of is64 little e_type e_machine.
Proof.
  intros Hb E. unfold read_elf_identity in E.
  destruct (_ <? _)%nat eqn:El; [done|]. apply Nat.ltb_ge in El.
  do 24 (destruct bytes as [|? bytes]; [cbn in El; lia|]). clear El.
  destruct (bool_decide _) eqn:Em; [|done]. apply bool_decide_eq_true in Em. cbn [take] in Em.
  injection Em as -> -> -> ->. cbn [negb nth take drop] in E.
  destruct (negb _ || _ || _) eqn:Ec; [done|]. destruct (negb _) eqn:Ev in E; [done|]. injection E as <-.
  apply negb_false_iff, Z.eqb_eq in Ev. apply orb_false_iff in Ec as [[Hc Hd]%orb_false_iff Hv].
  apply negb_false_iff in Hc, Hd, Hv. apply Z.eqb_eq in Hv as ->.
  apply one_or_two in Hc as [is64 ->], Hd as [big ->].
  do 7 (apply Forall_cons in Hb as [_ Hb]).
  match type of Hb with Forall _ (?p1 :: ?p2 :: ?p3 :: ?p4 :: ?p5 :: ?p6 :: ?p7 :: ?p8 :: ?p9 :: ?t1 :: ?t2 :: ?m1 :: ?m2 :: ?v1 :: ?v2 :: ?v3 :: ?v4 :: ?r) =>
    assert (bytes_ok [t1; t2] /\ bytes_ok [m1; m2] /\ bytes_ok [v1; v2; v3; v4]) as (Ht & Hm & Hw)
      by (unfold bytes_ok; do 17 (apply Forall_cons in Hb as [? Hb]); auto 10);
    set (little := (if big then 2 else 1) =? 1) in *;
    exists is64, little, [p1; p2; p3; p4; p5; p6; p7; p8; p9], (unpack_word little [t1; t2]), (unpack_word little [m1; m2]), r;
    pose proof (unpack_range little [t1; t2] Ht : 0 <= _ < 65536); pose proof (unpack_range little [m1; m2] Hm : 0 <= _ < 65536);
    pose proof (pack_unpack little [t1; t2] Ht) as Pt; pose proof (pack_unpack little [m1; m2] Hm) as Pm;
    pose proof (pack_unpack little [v1; v2; v3; v4] Hw) as Pw;
    change (unpack_word little [v1; v2; v3; v4] = 1) in Ev;
    change (take 2 _) with [t1; t2]; change (take 2 (drop _ _)) with [m1; m2]
  end.
  rewrite Ev in Pw. split_and!; try done; try lia.
  - unfold elf_header. cbn [length] in Pt, Pm, Pw. rewrite Pt, Pm, Pw. by destruct is64, big.
  - unfold identity_of. f_equal; [by destruct is64|exact Ev].
Qed.

Lemma contains_bytes_spec needle l : contains_bytes needle l = true <-> exists pre post, l = pre ++ needle ++ post.
Proof.
  assert (forall p x r, strip_prefix p x = Some r <-> x = p ++ r) as Hp.
  { induction p as [|a p IH]; intros x r; cbn; [split; congruence|]. destruct x as [|b x]; [done|].
    destruct (Z.eqb_spec a b) as [->|Hn]; [rewrite IH; split; [by intros ->|by intros [= ->]]|].
    split; [done|]. intros [= ]. congruence. }
  induction l as [|b l IH]; cbn [contains_bytes].
  - destruct (strip_prefix needle []) as [r|] eqn:E.
    + apply Hp in E. split; [intros _; by exists [], r|done].
    + split; [done|]. intros (pre & post & E'). destruct pre, needle; try done.
  - destruct (strip_prefix needle (b :: l)) as [r|] eqn:E.
    + apply Hp in E. split; [intros _; by exists [], r|done].
    + rewrite IH. split.
      * intros (pre & post & ->). by exists (b :: pre), post.
      * intros (pre & post & E'). destruct pre as [|c pre]; cbn in E'.
        -- assert (strip_prefix needle (b :: l) = Some post) by (by apply Hp). congruence.
        -- injection E' as -> ->. by exists pre, post.
Qed.

(** [s] occurs in the bytes, as UTF-8. *)
Definition occurs (s : string) (bytes : list Z) : Prop :=
  exists encoded pre post, encode_utf8 s = Ok encoded /\ bytes = pre ++ encoded ++ post.

Lemma admit_bytes_inv board file bytes source adm :
  admit_bytes board file bytes source = Ok adm ->
  read_elf_identity bytes = Ok (aa_elf_identity adm) /\
  (board = default_board -> elf_machine_name (aa_elf_identity adm) = "xtensa"%string) /\
  occurs (si_app_id source) bytes /\ occurs (si_build_id source) bytes /\ occurs (si_app_version source) bytes /\
  aa_source_identity adm = source /\ aa_artifact_file adm = file /\ aa_sha256 adm = hex_of_bytes (sha256 bytes) /\
  aa_size_bytes adm = Z.of_nat (length bytes).
Proof.
  intros H. unfold admit_bytes in H. destruct (read_elf_identity bytes) as [elf|]; [|done]. cbn [rbind] in H.
  destruct (negb _ && _) eqn:Ea in H; [done|].
  destruct (encode_utf8 (si_app_id source)) as [b1|] eqn:U1; [|done]. cbn [rbind] in H.
  destruct (encode_utf8 (si_build_id source)) as [b2|] eqn:U2; [|done]. cbn [rbind] in H.
  destruct (encode_utf8 (si_app_version source)) as [b3|] eqn:U3; [|done]. cbn [rbind] in H.
  destruct (contains_bytes b1 bytes) eqn:E1; [|done]. destruct (contains_bytes b2 bytes) eqn:E2; [|done].
  destruct (contains_bytes b3 bytes) eqn:E3; [|done]. cbn [negb] in H. injection H as <-.
  apply contains_bytes_spec in E1 as (? & ? & ?), E2 as (? & ? & ?), E3 as (? & ? & ?).
  cbn [aa_elf_identity aa_source_identity aa_artifact_file aa_sha256 aa_size_bytes].
  unfold occurs. split; [reflexivity|]. split.
  { intros ->. change (expected_architecture_of default_board) with "xtensa"%string in Ea. cbn [String.eqb Ascii.eqb Bool.eqb negb andb] in Ea.
    by apply negb_false_iff, String.eqb_eq in Ea. }
  split; [eauto|]. split; [eauto|]. split; [eauto|]. auto.
Qed.

Lemma load_source_inv {FS : Files} dir app_id source :
  load_app_source_identity dir app_id = Ok source ->
  si_file source = as_posix dir ["src"; "main.c"]%string /\ is_Some (file_at (si_file source)) /\
  si_app_id source = app_id /\ si_app_version source = si_manifest_version source.
Proof.
  intros E. unfold load_app_source_identity in E. destruct (file_at _) eqn:Ef; [|done]. inv_ok.
  destruct (negb _) eqn:Ei in E; [done|]. inv_ok. destruct (negb _) eqn:Ev in E; [done|]. injection E as <-.
  bool_prop. cbn. rewrite Ef. eauto.
Qed.

Lemma xtensa_machine m : machine_name_of m = "xtensa"%string -> m = 94.
Proof.
  unfold machine_name_of, ELF_MACHINE_NAMES. cbn [List.find fst]. intros H.
  repeat (destruct (_ =? m) eqn:E in H; [apply Z.eqb_eq in E; subst; cbn in H; congruence|clear E]). discriminate H.
Qed.

(** ** Properties *)

(** The header of an artifact.  Exactly the byte sequences that begin with an ELF header are
    accepted, for both word sizes and both byte orders, and what is read from one is what was
    written to it. *)
Theorem elf_identity_round_trip bytes id :
  bytes_ok bytes ->
  (read_elf_identity bytes = Ok id <->
   exists is64 little padding e_type e_machine rest,
     length padding = 9%nat /\ 0 <= e_type < 65536 /\ 0 <= e_machine < 65536 /\
     bytes = elf_header is64 little padding e_type e_machine ++ rest /\ id = identity_of is64 little e_type e_machine).
Proof.
  intros Hb. split; [by apply read_only_headers|].
  intros (is64 & little & padding & e_type & e_machine & rest & Hp & Ht & Hm & -> & ->). by apply read_header.
Qed.

(** What an admission guarantees, for any file system.  The admitted file is named after the
    application and begins with an ELF header, for the machine of the default board if that is the
    target; the source declares that application, and its version
    twice alike; the application's id, build id and version occur in the artifact; and the
    digest is the SHA-256 of exactly those bytes. *)
Theorem admission_sound {FS : Files} preset app_id app_source_dir board build_dir artifact_file plan adm :
  (forall path bytes, file_at path = Some bytes -> bytes_ok bytes) ->
  build_app_artifact_admission preset app_id app_source_dir board build_dir artifact_file = Ok (plan, adm) ->
  exists bytes is64 little padding e_type e_machine rest,
    file_at (aa_artifact_file adm) = Some bytes /\
    bytes = elf_header is64 little padding e_type e_machine ++ rest /\
    aa_elf_identity adm = identity_of is64 little e_type e_machine /\
    (board = default_board -> e_machine = 94) /\
    aa_sha256 adm = hex_of_bytes (sha256 bytes) /\
    let source := aa_source_identity adm in
    si_app_id source = app_id /\ si_app_version source = si_manifest_version source /\
    si_file source = as_posix (bp_app_source_dir plan) ["src"; "main.c"]%string /\
    occurs app_id bytes /\ occurs (si_build_id source) bytes /\ occurs (si_app_version source) bytes.
Proof.
  intros Hfs E. unfold build_app_artifact_admission in E.
  destruct (build_app_build_plan _ _ _ _ _ _) as [p|]; [|done]. cbn [rbind] in E.
  destruct (resolve_app_artifact_file _ _) as [file|]; [|done]. cbn [rbind] in E.
  destruct (negb _) in E; [done|]. destruct (file_at (as_posix file [])) as [[|b bytes]|] eqn:Ef; [done| |done].
  destruct (load_app_source_identity _ _) as [source|] eqn:Es; [|done]. cbn [rbind] in E.
  destruct (admit_bytes _ _ _ _) as [a|] eqn:Ea; [|done]. cbn [rbind] in E. injection E as -> ->.
  destruct (load_source_inv _ _ _ Es) as (? & _ & Hid & ?).
  destruct (admit_bytes_inv _ _ _ _ _ Ea) as (Hr & Hm & Ho1 & Ho2 & Ho3 & -> & -> & ? & _).
  destruct (read_only_headers _ _ (Hfs _ _ Ef) Hr) as (is64 & little & pad & ty & ma & rest & _ & _ & _ & Hb & Hi).
  exists (b :: bytes), is64, little, pad, ty, ma, rest. split_and!; try done; [|by subst app_id].
  intros Hd. specialize (Hm Hd). rewrite Hi in Hm. cbn [identity_of elf_machine_name] in Hm.
  by apply xtensa_machine.
Qed.

(** ** Witnesses *)

Definition c_string (name value : string) : string :=
  "static const char " +:+ name +:+ "[] = " +:+ quoted value +:+ ";" +:+ String newline "".

Definition sample_main : string :=
  c_string "app_id" "demo" +:+ c_string "app_version" "1.2.0" +:+ c_string "app_build_id" "demo-7" +:+
  "m = { .version = { .major = 1, .minor=2 , .patch = 0 } };".

Definition sample_artifact : list Z :=
  elf_header false true [0; 0; 0; 0; 0; 0; 0; 0; 0] 1 94 ++ bytes_of_string "..demo-7 demo 1.2.0".

Definition sample_files : Files := fun path =>
  if String.eqb path "build/neurolink_unit_demo_app/demo.llext" then Some sample_artifact
  else if String.eqb path "applocation/NeuroLink/subprojects/demo/src/main.c" then Some (bytes_of_string sample_main)
  else None.

Definition sample_admission : result (BuildPlan * ArtifactAdmission) :=
  build_app_artifact_admission (FS := sample_files) "unit-app" "demo" None default_board default_build_dir None.

Lemma sample_files_bytes path bytes : file_at (Files := sample_files) path = Some bytes -> bytes_ok bytes.
Proof.
  unfold file_at, sample_files. repeat case_match; intros E; [..|discriminate E]; apply (inj Some) in E; rewrite <- E; [|apply bytes_of_string_range].
  unfold bytes_ok, sample_artifact. apply Forall_app. split; [|apply bytes_of_string_range].
  apply (bool_decide_unpack _). vm_compute. exact I.
Qed.

Example admissions :
  match sample_admission with
  | Ok (plan, adm) => (bp_source_artifact_file plan, elf_machine_name (aa_elf_identity adm), si_build_id (aa_source_identity adm))
                      = ("build/neurolink_unit_demo_app/demo.llext", "xtensa", "demo-7")%string
  | Raise _ => False
  end /\
  build_app_artifact_admission (FS := sample_files) "unit-app" "demo" None default_board default_build_dir (Some "x/other.llext")%string
  = Raise (ValueError "artifact_filename_app_id_mismatch") /\
  build_app_artifact_admission (FS := sample_files) "unit-app" "none" None default_board default_build_dir None
  = Raise (ValueError "artifact_missing") /\
  build_app_build_plan "unit-app" "a/b" None default_board default_build_dir false = Raise (ValueError "invalid_app_build_app_id") /\
  build_app_build_plan "unit-app" "a" None default_board "build_x" false = Raise (ValueError "invalid_app_build_dir").
Proof. vm_compute. auto. Qed.

Lemma elf_identity_round_trip_witness :
  bytes_ok sample_artifact /\ is_Some (match read_elf_identity sample_artifact with Ok id => Some id | Raise _ => None end).
Proof.
  assert (bytes_ok sample_artifact) as Hb by (apply (sample_files_bytes "build/neurolink_unit_demo_app/demo.llext"); reflexivity).
  split; [done|].
  assert (read_elf_identity sample_artifact = Ok (identity_of false true 1 94)) as ->; [|by eexists].
  apply (elf_identity_round_trip _ _ Hb). exists false, true, [0; 0; 0; 0; 0; 0; 0; 0; 0], 1, 94, (bytes_of_string "..demo-7 demo 1.2.0").
  split_and!; done.
Defined.

Lemma admission_sound_witness : exists plan adm, sample_admission = Ok (plan, adm) /\
  exists bytes, file_at (Files := sample_files) (aa_artifact_file adm) = Some bytes /\ occurs "demo" bytes.
Proof.
  destruct sample_admission as [[plan adm]|e] eqn:E.
  2: { assert (is_ok sample_admission = true) as H by (vm_compute; reflexivity). rewrite E in H. discriminate H. }
  exists plan, adm. split; [reflexivity|].
  destruct (admission_sound (FS := sample_files) _ _ _ _ _ _ _ _ sample_files_bytes E)
    as (bytes & _ & _ & _ & _ & _ & _ & Hf & _ & _ & _ & _ & _ & _ & _ & Ho & _).
  exists bytes. split; [exact Hf|exact Ho].
Defined.
