(* ===== verification/Deploy.v ===== *)
(** * Deployment of applications ([workflow.py])

    The deployment plan, and the commands that run it: prepare and verify,
    activate, and roll back.  The unit is reached through an adapter that is a
    parameter: a process runner, a tool executor and a lookup of tool contracts,
    any functions on a state of their own. *)

From Stdlib Require Import ZArith Lia Bool List Ascii String.
From stdpp Require Import base list option strings.
From S2P Require Import Prelude PyFloat Text PyValue JsonParse Events LiveEvents Contracts Json StateSync CliAdapter Store.
From S2P Require Import Approval Artifact.

#[local] Open Scope string_scope.
#[local] Open Scope Z_scope.
#[local] Open Scope list_scope.

Definition APP_DEPLOY_PLAN_SCHEMA_VERSION : string := "1.2.4-app-deploy-plan-v1".
Definition APP_DEPLOY_PREPARE_VERIFY_SCHEMA_VERSION : string := "1.2.4-app-deploy-prepare-verify-v1".
Definition APP_DEPLOY_ACTIVATE_SCHEMA_VERSION : string := "1.2.4-app-deploy-activate-v1".
Definition APP_DEPLOY_ROLLBACK_SCHEMA_VERSION : string := "1.2.4-app-deploy-rollback-v1".

(** The adapter a deployment runs through; [describe_tool] may be missing. *)
Class DeployAdapter (S : Type) := {
  da_runner :: Runner S;
  da_tools :: ToolAdapter S;
  da_describe : option (string -> eff S (option ToolContract));
}.

(** ** The plan ([build_app_deploy_plan]) *)

(** [re.fullmatch(r"[A-Za-z0-9_.-]+", s)] *)
Definition identifier_text (s : string) : bool :=
  forallb (fun b => id_byte b || (b =? 46) || (b =? 45)) (bytes_of_string s).

Definition validate_deploy_plan_identifier (value failure_status : string) : result string :=
  let normalized := py_strip value in
  if String.eqb normalized "" then Raise (ValueError failure_status)
  else if negb (identifier_text normalized) then Raise (ValueError failure_status)
  else Ok normalized.

Definition suggest_activation_lease_id (app_id : string) : string :=
  "l-" +:+ py_lower (replace_char "."%char "-" (replace_char "_"%char "-" app_id)) +:+ "-act".

Definition activate_resource (app_id : string) : string := "update/app/" +:+ app_id +:+ "/activate".

(** A step of the plan; a step without a command line is not run as a process. *)
Record Step := {
  ps_name : string;
  ps_kind : string;
  ps_side_effect_free : bool;
  ps_argv : list string;
  ps_fields : list (string * pyval);
}.

Definition step_dict (p : Step) : dict :=
  dict_of ([("name", VStr (ps_name p)); ("kind", VStr (ps_kind p));
            ("side_effect_free", VBool (ps_side_effect_free p))] ++
           match ps_argv p with
           | [] => []
           | argv => [("command", VStr (join " " argv)); ("argv", VList (vstrs argv))]
           end ++ ps_fields p).

Record DeployPlan := {
  dp_node_id : string;
  dp_source_agent : string;
  dp_board : string;
  dp_app_id : string;
  dp_artifact_file : string;
  dp_lease_ttl_ms : Z;
  dp_start_args : string;
  dp_steps : list Step;
}.

Section Plan.
Variable sys_executable : string.

Definition preflight_parts (node_id artifact_file : string) : list string :=
  ["bash"; "applocation/NeuroLink/scripts/preflight_neurolink_linux.sh"; "--node"; node_id; "--artifact-file";
   artifact_file; "--auto-start-router"; "--require-serial"; "--install-missing-cli-deps"; "--output"; "json"].

Definition cli_prefix (node_id source_agent : string) : list string :=
  [sys_executable; "applocation/NeuroLink/neuro_cli/src/neuro_cli.py"; "--output"; "json"; "--node"; node_id;
   "--source-agent"; source_agent].

Definition deploy_steps (node_id source_agent app_id artifact_file : string) (lease_ttl_ms : Z) (start_args : string)
    : list Step :=
  let cli := cli_prefix node_id source_agent in
  let resource := activate_resource app_id in
  let lease := suggest_activation_lease_id app_id in
  let ok := ("expected_status", VStr "ok") in
  let nested_ok := ("expected_nested_payload_status", VStr "ok") in
  let approval := ("approval_required", VBool true) in
  let required := ("required_resource", VStr resource) in
  let step name kind free argv fields :=
    {| ps_name := name; ps_kind := kind; ps_side_effect_free := free; ps_argv := argv; ps_fields := fields |} in
  [step "preflight" "preflight" false (preflight_parts node_id artifact_file) [("expected_status", VStr "ready")];
   step "artifact_admission" "admission" true [] [("command", VStr "neurolink_core app-artifact-admission"); ok];
   step "lease_acquire_activate" "lease" false
     (cli ++ ["lease"; "acquire"; "--resource"; resource; "--lease-id"; lease; "--ttl-ms"; string_of_Z lease_ttl_ms])
     [required; ok];
   step "deploy_prepare" "deploy_prepare" false
     (cli ++ ["deploy"; "prepare"; "--app-id"; app_id; "--file"; artifact_file]) [nested_ok];
   step "deploy_verify" "deploy_verify" false (cli ++ ["deploy"; "verify"; "--app-id"; app_id]) [nested_ok];
   step "activation_approval_gate" "approval_gate" true []
     [approval; required; ("expected_decision", VStr "approved")];
   step "deploy_activate" "deploy_activate" false
     (cli ++ ["deploy"; "activate"; "--app-id"; app_id; "--lease-id"; lease] ++
      (if String.eqb start_args "" then [] else ["--start-args"; start_args])) [approval; nested_ok];
   step "activation_health_guard" "health_guard" true
     [sys_executable; "-m"; "neurolink_core.cli"; "activation-health-guard"; "--app-id"; app_id; "--tool-adapter";
      "neuro-cli"; "--output"; "json"] [ok];
   step "query_apps" "query_apps" true (cli ++ ["query"; "apps"]) [ok];
   step "lease_release_activate" "lease_cleanup" false (cli ++ ["lease"; "release"; "--lease-id"; lease])
     [("expected_status", VStr "ok_or_lease_not_found")];
   step "query_leases" "query_leases" true (cli ++ ["query"; "leases"])
     [ok; ("expected_leases", VList [])]].

Context {FS : Files}.

Definition build_app_deploy_plan (preset app_id : string) (app_source_dir : option string) (board build_dir : string)
    (artifact_file : option string) (node_id source_agent : string) (lease_ttl_ms : Z) (start_args : option string)
    : result (BuildPlan * ArtifactAdmission * DeployPlan) :=
  let! normalized_node_id := validate_deploy_plan_identifier node_id "invalid_deploy_node_id" in
  let! normalized_source_agent := validate_deploy_plan_identifier source_agent "invalid_deploy_source_agent" in
  if lease_ttl_ms <=? 0 then Raise (ValueError "invalid_deploy_lease_ttl_ms")
  else
    let! (build_plan, admission) :=
      build_app_artifact_admission preset app_id app_source_dir board build_dir artifact_file in
    let normalized_start_args := py_strip (text_or_empty start_args) in
    Ok (build_plan, admission,
        {| dp_node_id := normalized_node_id; dp_source_agent := normalized_source_agent; dp_board := board;
           dp_app_id := app_id; dp_artifact_file := aa_artifact_file admission; dp_lease_ttl_ms := lease_ttl_ms;
           dp_start_args := normalized_start_args;
           dp_steps := deploy_steps normalized_node_id normalized_source_agent app_id (aa_artifact_file admission)
                         lease_ttl_ms normalized_start_args |}).
End Plan.

Definition deploy_plan_dict (p : DeployPlan) : dict :=
  dict_of
    [("schema_version", VStr APP_DEPLOY_PLAN_SCHEMA_VERSION); ("release_slice", VStr "1.2.4");
     ("node_id", VStr (dp_node_id p)); ("source_agent", VStr (dp_source_agent p)); ("board", VStr (dp_board p));
     ("app_id", VStr (dp_app_id p)); ("artifact_file", VStr (dp_artifact_file p));
     ("activation_resource", VStr (activate_resource (dp_app_id p)));
     ("suggested_activate_lease_id", VStr (suggest_activation_lease_id (dp_app_id p)));
     ("lease_ttl_ms", VInt (dp_lease_ttl_ms p)); ("start_args", VStr (dp_start_args p));
     ("activation_approval_required", VBool true); ("cleanup_requires_empty_leases", VBool true);
     ("final_expected_app_state", VStr "RUNNING_ACTIVE"); ("steps", VList (map (fun s => VDict (step_dict s)) (dp_steps p)))].

(** The three documents every answer of a deployment starts with. *)
Definition plan_fields (planned : BuildPlan * ArtifactAdmission * DeployPlan) : list (string * pyval) :=
  let '(build_plan, admission, deploy_plan) := planned in
  [("build_plan", VDict (build_plan_dict build_plan)); ("artifact_admission", VDict (admission_dict admission));
   ("deploy_plan", VDict (deploy_plan_dict deploy_plan))].

Definition deploy_plan_payload (planned : BuildPlan * ArtifactAdmission * DeployPlan) : dict :=
  dict_of ([("ok", VBool true); ("status", VStr "ok"); ("command", VStr "app-deploy-plan")] ++ plan_fields planned).

(** [steps[i]["argv"]] *)
Definition argv_at (i : nat) (p : DeployPlan) : list string :=
  match dp_steps p !! i with Some s => ps_argv s | None => [] end.

(** ** Answers of commands *)

Fixpoint drop_until (b : Z) (l : list Z) : list Z :=
  match l with
  | c :: r => if c =? b then l else drop_until b r
  | [] => []
  end.

(** From the first opening brace to the last closing one, if they come in that order. *)
Definition brace_slice (s : string) : option string :=
  match drop_until 125 (rev (drop_until 123 (bytes_of_string s))) with
  | [] => None
  | l => Some (string_of_bytes (rev l))
  end.

(** What the first candidate that is JSON says. *)
Fixpoint first_json (candidates : list string) : result (option pyval) :=
  match candidates with
  | [] => Ok None
  | candidate :: rest =>
      if String.eqb candidate "" then first_json rest
      else match json_loads candidate with
           | Ok v => Ok (Some v)
           | Raise JSONDecodeError => first_json rest
           | Raise e => Raise e
           end
  end.

Definition parse_command_json_result (command_result : CommandExecutionResult) : result dict :=
  let normalized_stdout := py_strip (stdout command_result) in
  let! payload := first_json (normalized_stdout :: match brace_slice normalized_stdout with Some s => [s] | None => [] end) in
  match payload with
  | None | Some VNone =>
      Raise (ValueError (if exit_code command_result =? 0 then "parse_failed" else command_exit command_result))
  | Some (VDict d) => Ok d
  | Some _ => Raise (ValueError "parse_failed")
  end.

Definition command_payload_failure_status (payload : dict) : string :=
  let top_level_status := str_or "status" "" payload in
  match dgetn "ok" payload with
  | VBool false => sor top_level_status (extract_nested_failure_status payload)
  | _ => extract_nested_failure_status payload
  end.

(** ** Steps of an execution *)

Definition build_execution_step_result (name : string) (argv : list string) (command_result : CommandExecutionResult)
    (payload : option dict) (failure_status : string) : dict :=
  dict_of
    ([("name", VStr name); ("command", VStr (join " " argv)); ("argv", VList (vstrs argv));
      ("ok", VBool (String.eqb failure_status "")); ("failure_status", VStr failure_status);
      ("exit_code", VInt (exit_code command_result))] ++
     (if String.eqb (stderr command_result) "" then [] else [("stderr", VStr (stderr command_result))]) ++
     match payload with Some d => [("result", VDict d)] | None => [] end).

Definition build_tool_execution_step_result (name tool_name : string) (tool_result : ToolExecutionResult)
    (failure_status : string) : dict :=
  dict_of
    [("name", VStr name); ("tool_name", VStr tool_name); ("status", VStr (tr_status tool_result));
     ("ok", VBool (String.eqb failure_status "")); ("failure_status", VStr failure_status);
     ("result", VDict (tr_payload tool_result))].

(** [str(payload.get("failure_status") or status or default)] *)
Definition reported_failure (tool_result : ToolExecutionResult) (default : string) : string :=
  py_str (por_list [dgetn "failure_status" (tr_payload tool_result); VStr (tr_status tool_result)] (VStr default)).

Definition tool_execution_failure_status (tool_result : ToolExecutionResult) : string :=
  if negb (String.eqb (tr_status tool_result) "ok") then reported_failure tool_result "tool_execution_failed"
  else match dgetn "result" (tr_payload tool_result) with
       | VDict result_payload => command_payload_failure_status result_payload
       | _ => ""
       end.

(** The failure of an answered command; the last line is the list a step forgives. *)
Definition answer_status (expected_status : option string) (allowed : list string) (payload : dict) : string :=
  let failure_status := command_payload_failure_status payload in
  let failure_status :=
    match expected_status with
    | Some expected => if String.eqb (str_or "status" "" payload) expected then failure_status
                       else str_or "status" "unexpected_status" payload
    | None => failure_status
    end in
  if str_in failure_status allowed then "" else failure_status.

(** A step that failed after its command was run: mark it so. *)
Definition mark_failed (failure_status : string) (step : dict) : dict :=
  dset "ok" (VBool false) (dset "failure_status" (VStr failure_status) step).

(** ** What a unit reports about its applications and leases *)

Record TargetState := { ts_present : bool; ts_observed : string; ts_running : bool }.

Definition deploy_running_state (state : string) : bool :=
  str_in (py_lower state) ["running"; "active"; "started"; "running_active"].

Definition target_state (matched : option dict) : TargetState :=
  match matched with
  | None => {| ts_present := false; ts_observed := "missing"; ts_running := false |}
  | Some d => let state := str_or2 "state" "status" "unknown" d in
              {| ts_present := true; ts_observed := state; ts_running := deploy_running_state state |}
  end.

(** [payload.get(field)] as a list, of a payload that may not be a dictionary. *)
Definition listed (field : string) (payload : pyval) : option (list pyval) :=
  match payload with
  | VDict d => match dgetn (KStr field) d with VList l => Some l | _ => None end
  | _ => None
  end.

(** The list under [field] of the first reply that has one. *)
Fixpoint first_listed (field : string) (replies : list pyval) : list pyval :=
  match replies with
  | [] => []
  | reply :: rest =>
      match match reply with VDict d => listed field (dgetn "payload" d) | _ => None end with
      | Some l => l
      | None => first_listed field rest
      end
  end.

Definition replies_listed (field : string) (payload : dict) : list pyval :=
  match dgetn "replies" payload with VList replies => first_listed field replies | _ => [] end.

Definition extract_query_apps_target_state (payload : dict) (app_id : string) : TargetState :=
  target_state (matched_app app_id match listed "apps" (dgetn "payload" payload) with
                                   | Some l => l
                                   | None => replies_listed "apps" payload
                                   end).

(** [_extract_rollback_query_apps_state] on the observation of a tool *)
Definition extract_rollback_query_apps_state (observation : dict) (app_id : string) : result TargetState :=
  let! rows := observed_rows "apps" observation in Ok (target_state (matched_app app_id (map VDict rows))).

Definition extract_matching_lease_ids_for_resource (observation : dict) (resource_name : string) : result (list string) :=
  if String.eqb resource_name "" then Ok []
  else let! rows := observed_rows "leases" observation in Ok (matching_lease_ids [resource_name] rows).

(** ** Recovery *)

Definition build_recovery_candidate_summary (activation_health lease_observation activate_failed_payload : dict)
    : result dict :=
  let app_id := py_str (por_list [dgetn "app_id" activation_health; dgetn "target_app_id" activate_failed_payload] (VStr "")) in
  let lease_resource := if String.eqb app_id "" then "" else rollback_resource app_id in
  let! matching := extract_matching_lease_ids_for_resource lease_observation lease_resource in
  let observed_health := str_or "classification" "unknown" activation_health in
  Ok (dict_of
    [("trigger_topic", VStr "unit.lifecycle.activate_failed"); ("app_id", VStr app_id);
     ("artifact_id", VStr (str_or "artifact_id" "" activate_failed_payload));
     ("activation_result", VStr (str_or2 "activation_result" "status" "activate_failed" activate_failed_payload));
     ("observed_health", VStr observed_health);
     ("rollback_decision", VStr (if String.eqb observed_health "rollback_required" then "operator_review_required"
                                 else "not_required"));
     ("final_app_state", VStr (str_or "observed_app_state" "unknown" activation_health));
     ("lease_resource", VStr lease_resource);
     ("lease_ownership_status", VStr match matching with [] => "missing" | _ => "held" end);
     ("matching_lease_ids", VList (vstrs matching));
     ("ready_for_rollback_consideration",
      VBool (py_truthy (dget_or "ready_for_rollback_consideration" (VBool false) activation_health)))]).

Section Run.
Context {S : Type} `{Adapter : DeployAdapter S}.

Definition build_guarded_rollback_approval (summary : dict) : eff S dict :=
  do! contract := match da_describe with
                  | Some describe_tool => describe_tool "system_rollback_app"
                  | None => eret None
                  end in
  do! leases := elift (py_iter (por (dgetn "matching_lease_ids" summary) (VList []))) in
  let app_id := VStr (str_or "app_id" "" summary) in
  let requested_args :=
    dict_of [("app_id", app_id); ("app", app_id); ("lease_id", VStr match leases with l :: _ => py_str l | [] => "" end);
             ("reason", VStr "guarded_rollback_after_activation_health_failure")] in
  let payload :=
    dict_of
      [("status", VStr "pending_approval"); ("tool_name", VStr "system_rollback_app");
       ("reason", VStr "operator_approval_required_for_guarded_rollback"); ("requested_args", VDict requested_args);
       ("required_resources", VList [VStr "update_rollback_lease"]);
       ("cleanup_hint", VStr "confirm rollback evidence, lease ownership, and target app identity before resume");
       ("target_app_id", app_id); ("recovery_candidate_summary", VDict summary)] in
  eret match contract with
       | None => payload
       | Some c => dset "contract" (VDict (contract_to_dict c))
                     (dset "cleanup_hint" (cleanup_hint c)
                        (dset "required_resources" (VList (vstrs (required_resources c))) payload))
       end.

Variable timeout : Z.

(** Run one command: the step, and its failure status, which is empty on success. *)
Definition run_json_step (name : string) (argv : list string) (expected_status : option string) (allowed : list string)
    : eff S (dict * string) :=
  do! command_result := runner argv timeout in
  match parse_command_json_result command_result with
  | Raise (ValueError failure_status) =>
      eret (build_execution_step_result name argv command_result None failure_status, failure_status)
  | Raise e => eraise e
  | Ok payload =>
      let failure_status := answer_status expected_status allowed payload in
      eret (build_execution_step_result name argv command_result (Some payload) failure_status, failure_status)
  end.

(** How far an execution came. *)
Record Progress := {
  pg_execution : dict;
  pg_failed_step : string;
  pg_failure_status : string;
  pg_recovery : option dict;
  pg_rollback_approval : option dict;
}.

Definition going (execution : dict) : Progress :=
  {| pg_execution := execution; pg_failed_step := ""; pg_failure_status := ""; pg_recovery := None;
     pg_rollback_approval := None |}.
Definition stopped (execution : dict) (step failure : string) : Progress :=
  {| pg_execution := execution; pg_failed_step := step; pg_failure_status := failure; pg_recovery := None;
     pg_rollback_approval := None |}.

Variable plan : DeployPlan.

(** Prepare and verify under the lease, then [next]; a failed step ends the sequence. *)
Definition prepare_then (next : dict -> eff S Progress) (execution : dict) : eff S Progress :=
  do! (prepare_step, prepare_failure) := run_json_step "deploy_prepare" (argv_at 3 plan) None [] in
  let execution := dset "deploy_prepare" (VDict prepare_step) execution in
  if negb (String.eqb prepare_failure "") then eret (stopped execution "deploy_prepare" prepare_failure)
  else
    do! (verify_step, verify_failure) := run_json_step "deploy_verify" (argv_at 4 plan) None [] in
    let execution := dset "deploy_verify" (VDict verify_step) execution in
    if negb (String.eqb verify_failure "") then eret (stopped execution "deploy_verify" verify_failure)
    else next execution.

(** Give the lease back and look at what is still leased; the first failure of the execution is kept. *)
Definition cleanup (allowed : list string) (p : Progress) : eff S Progress :=
  let execution := dset "cleanup_attempted" (VBool true) (pg_execution p) in
  do! (release_step, release_failure) := run_json_step "lease_release_activate" (argv_at 9 plan) None allowed in
  do! (leases_step, leases_failure) := run_json_step "query_leases" (argv_at 10 plan) None [] in
  let observed_leases := match dgetn "result" leases_step with VDict d => replies_listed "leases" d | _ => [] end in
  let held := String.eqb leases_failure "" && match observed_leases with [] => false | _ => true end in
  let leases_failure := if held then "cleanup_leases_not_empty" else leases_failure in
  let leases_step := if held then mark_failed leases_failure leases_step else leases_step in
  let execution := dset "query_leases" (VDict leases_step) (dset "lease_release" (VDict release_step) execution) in
  let (failed_step, failure_status) :=
    if negb (String.eqb (pg_failure_status p) "") then (pg_failed_step p, pg_failure_status p)
    else if negb (String.eqb release_failure "") then ("lease_release_activate", release_failure)
    else if negb (String.eqb leases_failure "") then ("query_leases", leases_failure)
    else (pg_failed_step p, "") in
  eret {| pg_execution := execution; pg_failed_step := failed_step; pg_failure_status := failure_status;
          pg_recovery := pg_recovery p; pg_rollback_approval := pg_rollback_approval p |}.

(** The lease, [staged] under it, and the clean-up if it was acquired. *)
Definition under_lease (allowed : list string) (staged : dict -> eff S Progress) (execution : dict) : eff S Progress :=
  do! (lease_step, lease_failure) := run_json_step "lease_acquire_activate" (argv_at 2 plan) None [] in
  let execution := dset "lease_acquire" (VDict lease_step) execution in
  if negb (String.eqb lease_failure "") then eret (stopped execution "lease_acquire_activate" lease_failure)
  else do! p := staged execution in cleanup allowed p.

(** ** The activation and its guard *)

(** The failure a guard's answer stands for, and the health it reports; there is no health when the
    tool itself failed. *)
Definition judge_health (r : ToolExecutionResult) : result (string * option dict) :=
  if negb (String.eqb (tr_status r) "ok") then Ok (reported_failure r "activation_health_failed", None)
  else
    let! health := as_dict (por_list [dgetn "activation_health" (tr_payload r); dgetn "health_observation" (tr_payload r)]
                                     (VDict [])) in
    let classification := str_or "classification" "unknown" health in
    Ok (if String.eqb classification "healthy" then ""
        else if String.eqb classification "unknown" then "activation_health_not_healthy" else classification,
        Some health).

Definition app_args (app_id : string) (more : list (string * pyval)) : dict :=
  dict_of ([("app_id", VStr app_id); ("app", VStr app_id)] ++ more).

(** After an unhealthy activation: look at the leases and prepare the recovery. *)
Definition observe_failure (admission : ArtifactAdmission) (app_id health_failure : string) (health : option dict)
    (execution : dict) : eff S Progress :=
  do! r := adapter_execute "system_query_leases"
    (app_args app_id [("reason", VStr "activation_rollback_candidate_lease_observation")]) in
  let failure := if String.eqb (tr_status r) "ok" then ""
                 else reported_failure r "rollback_candidate_lease_observation_failed" in
  let execution := dset "rollback_candidate_lease_observation"
    (VDict (build_tool_execution_step_result "rollback_candidate_lease_observation" "system_query_leases" r failure))
    execution in
  match health with
  | None => eraise (UnboundLocalError "activation_health")
  | Some activation_health =>
      do! summary := elift (build_recovery_candidate_summary activation_health (tool_result_to_dict r)
        (dict_of [("target_app_id", VStr app_id);
                  ("artifact_id", VStr (sor (si_build_id (aa_source_identity admission)) (aa_sha256 admission)));
                  ("activation_result", VStr health_failure); ("status", VStr health_failure)])) in
      do! rollback_approval := (if String.eqb health_failure "rollback_required" then
                                  do! approval := build_guarded_rollback_approval summary in eret (Some approval)
                                else eret None) in
      eret {| pg_execution := execution; pg_failed_step := "activation_health_guard"; pg_failure_status := health_failure;
              pg_recovery := Some summary; pg_rollback_approval := rollback_approval |}
  end.

(** The application must be running after the activation. *)
Definition observe_apps (app_id : string) (execution : dict) : eff S Progress :=
  do! (step, failure) := run_json_step "query_apps" (argv_at 8 plan) None [] in
  let '(step, failure) :=
    match dgetn "result" step with
    | VDict payload =>
        let state := extract_query_apps_target_state payload app_id in
        let step := dset "app_present" (VBool (ts_present state))
                      (dset "observed_app_state" (VStr (ts_observed state)) step) in
        if String.eqb failure "" && negb (ts_running state)
        then (mark_failed "app_not_running_after_activate" step, "app_not_running_after_activate")
        else (step, failure)
    | _ => (step, failure)
    end in
  let execution := dset "query_apps" (VDict step) execution in
  eret (if String.eqb failure "" then going (dset "completed_through" (VStr "query_apps") execution)
        else stopped execution "query_apps" failure).

Definition activate_and_guard (admission : ArtifactAdmission) (app_id : string) (execution : dict) : eff S Progress :=
  do! (activate_step, activate_failure) := run_json_step "deploy_activate" (argv_at 6 plan) None [] in
  let execution := dset "deploy_activate" (VDict activate_step) execution in
  if negb (String.eqb activate_failure "") then eret (stopped execution "deploy_activate" activate_failure)
  else
    do! r := adapter_execute "system_activation_health_guard" (app_args app_id []) in
    do! (health_failure, health) := elift (judge_health r) in
    let execution := dset "activation_health_guard"
      (VDict (build_tool_execution_step_result "activation_health_guard" "system_activation_health_guard" r health_failure))
      execution in
    if String.eqb health_failure "" then observe_apps app_id execution
    else observe_failure admission app_id health_failure health execution.
End Run.

(** ** The commands *)

Section Commands.
Variable sys_executable : string.
Context {FS : Files} {S : Type} `{Adapter : DeployAdapter S}.

Record DeployRequest := {
  rq_preset : string;
  rq_app_id : string;
  rq_app_source_dir : option string;
  rq_board : string;
  rq_build_dir : string;
  rq_artifact_file : option string;
  rq_node_id : string;
  rq_source_agent : string;
  rq_lease_ttl_ms : Z;
  rq_start_args : option string;
  rq_timeout_seconds : Z;
}.

Definition plan_of (rq : DeployRequest) (start_args : option string) : result (BuildPlan * ArtifactAdmission * DeployPlan) :=
  build_app_deploy_plan sys_executable (rq_preset rq) (rq_app_id rq) (rq_app_source_dir rq) (rq_board rq) (rq_build_dir rq)
    (rq_artifact_file rq) (rq_node_id rq) (rq_source_agent rq) (rq_lease_ttl_ms rq) start_args.

Definition execution_start (schema_version : string) : dict :=
  dict_of [("schema_version", VStr schema_version); ("completed_through", VStr ""); ("cleanup_attempted", VBool false)].

(** The answer of a deployment command. *)
Definition deploy_answer (command failure_class : string) (planned : BuildPlan * ArtifactAdmission * DeployPlan)
    (decision : list (string * pyval)) (p : Progress) : dict :=
  let documents := plan_fields planned ++ decision ++ [("deploy_execution", VDict (pg_execution p))] in
  if negb (String.eqb (pg_failure_status p) "") then
    dict_of ([("ok", VBool false); ("status", VStr "error"); ("command", VStr command);
              ("failure_class", VStr failure_class); ("failure_status", VStr (pg_failure_status p));
              ("failed_step", VStr (pg_failed_step p))] ++ documents ++
             match pg_recovery p with Some d => [("recovery_candidate_summary", VDict d)] | None => [] end ++
             match pg_rollback_approval p with Some d => [("rollback_approval", VDict d)] | None => [] end)
  else dict_of ([("ok", VBool true); ("status", VStr "ok"); ("command", VStr command)] ++ documents).

(** Preflight, then [staged] under the lease. *)
Definition preflight_then (timeout : Z) (plan : DeployPlan) (allowed : list string) (staged : dict -> eff S Progress)
    (execution : dict) : eff S Progress :=
  do! (step, failure) := run_json_step timeout "preflight" (argv_at 0 plan) (Some "ready") [] in
  let execution := dset "preflight" (VDict step) execution in
  if negb (String.eqb failure "") then eret (stopped execution "preflight" failure)
  else under_lease timeout plan allowed staged execution.

Definition run_app_deploy_prepare_verify (rq : DeployRequest) : eff S dict :=
  do! planned := elift (plan_of rq None) in
  let plan := planned.2 in
  let timeout := rq_timeout_seconds rq in
  let verified execution := eret (going (dset "completed_through" (VStr "deploy_verify") execution)) in
  do! p := preflight_then timeout plan [] (prepare_then timeout plan verified)
             (execution_start APP_DEPLOY_PREPARE_VERIFY_SCHEMA_VERSION) in
  eret (deploy_answer "app-deploy-prepare-verify" "app_deploy_prepare_verify_failed" planned [] p).

Definition normalize_activation_approval_decision (decision : string) : result string :=
  let normalized := py_lower (py_strip decision) in
  if str_in normalized ["approve"; "approved"] then Ok "approved"
  else if str_in normalized ["deny"; "denied"] then Ok "denied"
  else if str_in normalized ["expire"; "expired"] then Ok "expired"
  else if str_in normalized ["pending"; ""] then Ok "pending"
  else Raise (ValueError "invalid_activation_approval_decision").

Definition decision_status (decision : string) : string :=
  if String.eqb decision "approved" then "approved"
  else if String.eqb decision "pending" then "pending_approval"
  else if String.eqb decision "expired" then "expired" else "denied".

Definition release_gate_approval_failure_class (status prefix : string) : string :=
  prefix +:+ (if String.eqb status "pending_approval" then "_approval_required"
              else if String.eqb status "denied" then "_approval_denied"
              else if String.eqb status "expired" then "_approval_expired" else "_approval_required").

Definition activation_decision_dict (plan : DeployPlan) (app_id decision note : string) : dict :=
  dict_of
    [("approval_required", VBool true); ("decision", VStr decision); ("status", VStr (decision_status decision));
     ("activation_resource", VStr (activate_resource (dp_app_id plan))); ("resolved_app_id", VStr app_id);
     ("resolved_lease_id", VStr (suggest_activation_lease_id (dp_app_id plan))); ("approval_note", VStr (py_strip note));
     ("resume_hint", VStr "rerun with --approval-decision approve to execute activation")].

Definition run_app_deploy_activate (rq : DeployRequest) (approval_decision approval_note : string) : eff S dict :=
  do! decision := elift (normalize_activation_approval_decision approval_decision) in
  do! planned := elift (plan_of rq (rq_start_args rq)) in
  let '(_, admission, plan) := planned in
  let app_id := rq_app_id rq in
  let timeout := rq_timeout_seconds rq in
  let decided := [("activation_decision", VDict (activation_decision_dict plan app_id decision approval_note))] in
  let execution := execution_start APP_DEPLOY_ACTIVATE_SCHEMA_VERSION in
  if negb (String.eqb decision "approved") then
    let status := decision_status decision in
    eret (dict_of ([("ok", VBool false); ("status", VStr status); ("command", VStr "app-deploy-activate");
                    ("failure_class", VStr (release_gate_approval_failure_class status "activation"));
                    ("failure_status", VStr status)] ++ plan_fields planned ++ decided ++
                   [("deploy_execution", VDict execution)]))
  else
    do! p := preflight_then timeout plan ["lease_not_found"]
               (prepare_then timeout plan (activate_and_guard timeout plan admission app_id)) execution in
    eret (deploy_answer "app-deploy-activate" "app_deploy_activate_failed" planned decided p).

(** ** Rollback ([run_app_deploy_rollback]) *)

(** What was looked at after a rollback: the step, its failure status. *)
Definition rollback_apps_step (app_id : string) : eff S (dict * string) :=
  do! r := adapter_execute "system_query_apps" (app_args app_id [("reason", VStr "post_rollback_app_observation")]) in
  let failure := tool_execution_failure_status r in
  let step := build_tool_execution_step_result "query_apps" "system_query_apps" r failure in
  if negb (String.eqb failure "") then eret (step, failure)
  else
    do! state := elift (extract_rollback_query_apps_state (tool_result_to_dict r) app_id) in
    let step := dset "app_present" (VBool (ts_present state)) (dset "observed_app_state" (VStr (ts_observed state)) step) in
    eret (if ts_running state then (mark_failed "app_still_running_after_rollback" step, "app_still_running_after_rollback")
          else (step, "")).

Definition rollback_leases_step (app_id : string) : eff S (dict * string) :=
  do! r := adapter_execute "system_query_leases" (app_args app_id [("reason", VStr "post_rollback_lease_observation")]) in
  let failure := tool_execution_failure_status r in
  let step := build_tool_execution_step_result "query_leases" "system_query_leases" r failure in
  if negb (String.eqb failure "") then eret (step, failure)
  else
    do! matching := elift (extract_matching_lease_ids_for_resource (tool_result_to_dict r) (rollback_resource app_id)) in
    let step := dset "matching_lease_ids" (VList (vstrs matching))
                  (dset "rollback_resource" (VStr (rollback_resource app_id)) step) in
    eret match matching with
         | [] => (step, "")
         | _ => (mark_failed "rollback_lease_still_held_after_rollback" step, "rollback_lease_still_held_after_rollback")
         end.

(** The category of a failed rollback, and what to do next. *)
Definition rollback_failure_category (failure_status : string) : string * string :=
  if String.eqb failure_status "rollback_args_unresolved" then
    ("argument_resolution", "provide explicit rollback lease identity or verify rollback lease discovery before retry")
  else if String.eqb failure_status "lease_holder_mismatch" then
    ("lease_ownership", "reacquire or release the rollback lease with the correct source_agent before retry")
  else if String.eqb failure_status "lease_not_found" then
    ("lease_resolution", "query rollback leases and confirm update/app/<app_id>/rollback is held before retry")
  else if String.eqb failure_status "no_reply" then
    ("transport", "verify Unit and router reachability, then rerun preflight or state sync before retry")
  else if String.eqb failure_status "app_still_running_after_rollback" then
    ("post_rollback_observation", "inspect app lifecycle state and confirm rollback target actually stopped before retry")
  else if String.eqb failure_status "rollback_lease_still_held_after_rollback" then
    ("post_rollback_cleanup", "inspect rollback lease ownership and release stale rollback lease state before retry")
  else ("rollback_execution", "inspect rollback result and query apps/leases evidence before retry").

Definition build_rollback_failure_summary (failed_step failure_status : string) (decision execution : dict) : result dict :=
  let! rollback_step := as_dict (or_empty "rollback" execution) in
  let! rollback_result := as_dict (or_empty "result" rollback_step) in
  let! resolved_args := as_dict (or_empty "resolved_args" rollback_result) in
  let (category, action) := rollback_failure_category failure_status in
  let! observed :=
    (if String.eqb failed_step "query_apps" then
       let! step := as_dict (or_empty "query_apps" execution) in
       Ok [("observed_app_state", VStr (str_or "observed_app_state" "unknown" step));
           ("app_present", VBool (py_truthy (dget_or "app_present" (VBool false) step)))]
     else if String.eqb failed_step "query_leases" then
       let! step := as_dict (or_empty "query_leases" execution) in
       let! ids := py_iter (por (dgetn "matching_lease_ids" step) (VList [])) in
       Ok [("matching_lease_ids", VList ids)]
     else Ok []) in
  let tool_failure_class := str_or "failure_class" "" rollback_result in
  Ok (dict_of
    ([("app_id", VStr (str_or "resolved_app_id" "" decision)); ("failed_step", VStr failed_step);
      ("failure_status", VStr failure_status); ("failure_category", VStr category);
      ("rollback_resource", VStr (str_or "rollback_resource" "" decision));
      ("requested_lease_id", VStr (str_or "requested_lease_id" "" decision));
      ("resolved_lease_id", VStr (str_or "lease_id" "" resolved_args));
      ("source_agent", VStr (str_or "source_agent" "" decision));
      ("recommended_next_actions", VList [VStr action])] ++ observed ++
     (if String.eqb tool_failure_class "" then [] else [("tool_failure_class", VStr tool_failure_class)]))).

Definition rollback_decision_dict (app_id node_id source_agent lease_id reason decision note : string) : dict :=
  dict_of
    [("approval_required", VBool true); ("decision", VStr decision); ("status", VStr (decision_status decision));
     ("rollback_resource", VStr (rollback_resource app_id)); ("resolved_app_id", VStr app_id);
     ("requested_lease_id", VStr lease_id); ("rollback_reason", VStr reason); ("approval_note", VStr (py_strip note));
     ("resume_hint", VStr "rerun with --approval-decision approve to execute rollback"); ("node_id", VStr node_id);
     ("source_agent", VStr source_agent)].

(** Roll back, then observe applications and leases: the execution, the failed step and its failure. *)
Definition roll_back (app_id lease_id reason : string) (execution : dict) : eff S (dict * string * string) :=
  do! r := adapter_execute "system_rollback_app"
    (app_args app_id ((if String.eqb lease_id "" then [] else [("lease_id", VStr lease_id)]) ++ [("reason", VStr reason)])) in
  let failure := tool_execution_failure_status r in
  let execution := dset "rollback"
    (VDict (build_tool_execution_step_result "rollback" "system_rollback_app" r failure)) execution in
  if negb (String.eqb failure "") then eret (execution, "rollback", failure)
  else
    let execution := dset "observation_attempted" (VBool true) execution in
    do! (apps_step, apps_failure) := rollback_apps_step app_id in
    do! (leases_step, leases_failure) := rollback_leases_step app_id in
    let execution := dset "completed_through" (VStr "query_leases")
      (dset "query_leases" (VDict leases_step) (dset "query_apps" (VDict apps_step) execution)) in
    eret (if negb (String.eqb apps_failure "") then (execution, "query_apps", apps_failure)
          else if negb (String.eqb leases_failure "") then (execution, "query_leases", leases_failure)
          else (execution, "", "")).

Definition run_app_deploy_rollback (app_id node_id source_agent : string) (lease_id : option string)
    (rollback_reason approval_decision approval_note : string) : eff S dict :=
  do! normalized_app_id := elift (validate_app_build_app_id app_id) in
  do! normalized_node_id := elift (validate_deploy_plan_identifier node_id "invalid_deploy_node_id") in
  do! normalized_source_agent := elift (validate_deploy_plan_identifier source_agent "invalid_deploy_source_agent") in
  do! decision := elift (normalize_activation_approval_decision approval_decision) in
  let normalized_lease_id := py_strip (text_or_empty lease_id) in
  let decided := rollback_decision_dict normalized_app_id normalized_node_id normalized_source_agent
                   normalized_lease_id rollback_reason decision approval_note in
  let execution := dict_of [("schema_version", VStr APP_DEPLOY_ROLLBACK_SCHEMA_VERSION); ("completed_through", VStr "");
                            ("observation_attempted", VBool false)] in
  let documents execution := [("rollback_decision", VDict decided); ("rollback_execution", VDict execution)] in
  if negb (String.eqb decision "approved") then
    let status := decision_status decision in
    eret (dict_of ([("ok", VBool false); ("status", VStr status); ("command", VStr "app-deploy-rollback");
                    ("failure_class", VStr (release_gate_approval_failure_class status "rollback"));
                    ("failure_status", VStr status)] ++ documents execution))
  else
    do! (execution, failed_step, failure_status) :=
      roll_back normalized_app_id normalized_lease_id rollback_reason execution in
    if negb (String.eqb failure_status "") then
      do! summary := elift (build_rollback_failure_summary failed_step failure_status decided execution) in
      eret (dict_of ([("ok", VBool false); ("status", VStr "error"); ("command", VStr "app-deploy-rollback");
                      ("failure_class", VStr "app_deploy_rollback_failed"); ("failure_status", VStr failure_status);
                      ("failed_step", VStr failed_step)] ++ documents execution ++
                     [("rollback_failure_summary", VDict summary)]))
    else eret (dict_of ([("ok", VBool true); ("status", VStr "ok"); ("command", VStr "app-deploy-rollback")] ++
                        documents execution)).
End Commands.

(** ** Evidence of a release gate, in the data store *)

Section Evidence.
Variable env : nat -> Env.

Definition fact_record : Type := string * string * dict.

Definition persist_release_gate_command_result (db_path command_name : string) (payload : dict)
    (fact_records : list fact_record) : eff CoreDataStore dict :=
  do! session_id := draw env "session" in
  do! execution_span_id := draw env "exec" in
  do! audit_id := draw env "audit" in
  let ok := py_truthy (dget_or "ok" (VBool false) payload) in
  let status := str_or "status" "unknown" payload in
  do! _ := persist_execution_span env execution_span_id "running"
             (dict_of [("command", VStr command_name); ("status", VStr "running")]) (Some session_id) in
  do! _ := persist_fact env execution_span_id "release_gate_command" command_name
             (dict_of [("command", VStr command_name); ("ok", VBool ok); ("status", VStr status)]) in
  do! _ := foldr (fun '(fact_type, subject, fact_payload) rest =>
                    do! _ := persist_fact env execution_span_id fact_type subject fact_payload in rest)
                 (eret tt) fact_records in
  do! _ := persist_audit_record env audit_id execution_span_id
             (str_or "status" (if py_truthy (dgetn "ok" payload) then "ok" else "error") payload) payload (Some session_id) in
  do! _ := persist_execution_span env execution_span_id (if ok then "ok" else str_or "status" "error" payload)
             (dict_of [("command", VStr command_name); ("status", VStr status); ("audit_id", VStr audit_id)])
             (Some session_id) in
  eret (dict_of [("db_path", VStr db_path); ("session_id", VStr session_id);
                 ("execution_span_id", VStr execution_span_id); ("audit_id", VStr audit_id)]).

(** A record of [d] if it says anything, on the subject it names under [key]. *)
Definition record_if (fact_type key default : string) (d : dict) : list fact_record :=
  match d with [] => [] | _ => [(fact_type, str_or key default d, d)] end.

Definition activate_facts (payload : dict) : result (list fact_record) :=
  let! decision := as_dict (or_empty "activation_decision" payload) in
  let app_id := str_or "resolved_app_id" "app-deploy-activate" decision in
  let! execution := as_dict (or_empty "deploy_execution" payload) in
  let! guard := as_dict (or_empty "activation_health_guard" execution) in
  let! guard_result := as_dict (or_empty "result" guard) in
  let! health := as_dict (por_list [dgetn "activation_health" guard_result; dgetn "health_observation" guard_result] (VDict [])) in
  let! recovery := as_dict (or_empty "recovery_candidate_summary" payload) in
  let! rollback_approval := as_dict (or_empty "rollback_approval" payload) in
  Ok (match decision with [] => [] | _ => [("activation_decision", app_id, decision)] end ++
      record_if "activation_health_observation" "app_id" app_id health ++
      record_if "recovery_candidate" "app_id" app_id recovery ++
      record_if "rollback_approval" "target_app_id" app_id rollback_approval).

Definition persist_app_deploy_activate_evidence (db_path : string) (payload : dict) : eff CoreDataStore dict :=
  do! facts := elift (activate_facts payload) in
  persist_release_gate_command_result db_path "app-deploy-activate" payload facts.

Definition rollback_facts (payload : dict) : result (list fact_record) :=
  let! decision := as_dict (or_empty "rollback_decision" payload) in
  let app_id := str_or "resolved_app_id" "app-deploy-rollback" decision in
  let! execution := as_dict (or_empty "rollback_execution" payload) in
  let! rollback_step := as_dict (or_empty "rollback" execution) in
  let! rollback_result := as_dict (or_empty "result" rollback_step) in
  let! summary := as_dict (or_empty "rollback_failure_summary" payload) in
  let record fact_type (d : dict) := match d with [] => [] | _ => [(fact_type, app_id, d)] end in
  Ok (record "rollback_decision" decision ++ record "rollback_result" rollback_result ++
      record "rollback_failure_summary" summary).

Definition persist_app_deploy_rollback_evidence (db_path : string) (payload : dict) : eff CoreDataStore dict :=
  do! facts := elift (rollback_facts payload) in
  persist_release_gate_command_result db_path "app-deploy-rollback" payload facts.
End Evidence.
