(* ===== verification/DeployProtocol.v ===== *)
(** * The protocol of a deployment

    What a deployment command may send to a unit, as an automaton over its calls,
    and that [run_app_deploy_prepare_verify] and [run_app_deploy_activate] follow
    it: for every adapter, whatever its commands answer or raise. *)

From Stdlib Require Import ZArith Lia Bool List Ascii String.
From stdpp Require Import base list option strings.
From S2P Require Import Prelude PyFloat Text PyValue JsonParse Events LiveEvents Contracts Json StateSync CliAdapter Store.
From S2P Require Import Approval Artifact Deploy.

#[local] Open Scope string_scope.
#[local] Open Scope Z_scope.
#[local] Open Scope list_scope.

(** ** Calls *)

Inductive call :=
  | Command (argv : list string) (r : result CommandExecutionResult)
  | Tool (name : string) (args : dict) (r : result ToolExecutionResult).

(** An adapter that also keeps its calls with what came of them, in order. *)
Definition logged {S} (A : DeployAdapter S) : DeployAdapter (S * list call) :=
  {| da_runner := fun argv timeout s => let '(r, s') := runner argv timeout s.1 in (r, (s', s.2 ++ [Command argv r]));
     da_tools := fun name args s => let '(r, s') := adapter_execute name args s.1 in (r, (s', s.2 ++ [Tool name args r]));
     da_describe := option_map (fun f name s => let '(r, s') := f name s.1 in (r, (s', s.2))) da_describe |}.

(** ** The automaton *)

Inductive phase :=
  | Preflight | Acquire | Prepare | Verify | Activate | Guard
  | ObserveLeases (health_known : bool)
  | ObserveApps
  | Release (good : bool)
  | Leases (good : bool)
  | Ended (good : bool)
  | Orphaned   (* the guard failed without a health report *)
  | Broken.    (* a call raised *)

#[export] Instance phase_eq_dec : EqDecision phase.
Proof. solve_decision. Defined.

(** The failure status of an answered command. *)
Definition verdict (expected : option string) (allowed : list string) (r : result CommandExecutionResult) : result string :=
  let! command_result := r in
  match parse_command_json_result command_result with
  | Ok payload => Ok (answer_status expected allowed payload)
  | Raise (ValueError message) => Ok message
  | Raise e => Raise e
  end.

Definition branch (v : result string) (good bad : phase) : phase :=
  match v with
  | Ok failure => if String.eqb failure "" then good else bad
  | Raise _ => Broken
  end.

(** What an answered command says, when it can be read. *)
Definition answer_payload (r : result CommandExecutionResult) : option dict :=
  match r with
  | Ok command_result => match parse_command_json_result command_result with Ok payload => Some payload | Raise _ => None end
  | Raise _ => None
  end.

Section Automaton.
Variables (activating : bool) (allowed : list string) (plan : DeployPlan) (app_id : string).

Definition sent (i : nat) (argv : list string) (next : phase) : option phase :=
  if decide (argv = argv_at i plan) then Some next else None.

Definition good_bool (v : result string) : bool := match v with Ok failure => String.eqb failure "" | Raise _ => false end.

(** What a successful answer shows; one that cannot be read has failed already. *)
Definition app_is_running (r : result CommandExecutionResult) : bool :=
  match answer_payload r with
  | Some payload => ts_running (extract_query_apps_target_state payload app_id)
  | None => true
  end.

Definition nothing_leased (r : result CommandExecutionResult) : bool :=
  match answer_payload r with
  | Some payload => match replies_listed "leases" payload with [] => true | _ => false end
  | None => true
  end.

Definition next (p : phase) (c : call) : option phase :=
  match p, c with
  | Preflight, Command argv r => sent 0 argv (branch (verdict (Some "ready") [] r) Acquire (Ended false))
  | Acquire, Command argv r => sent 2 argv (branch (verdict None [] r) Prepare (Ended false))
  | Prepare, Command argv r => sent 3 argv (branch (verdict None [] r) Verify (Release false))
  | Verify, Command argv r =>
      sent 4 argv (branch (verdict None [] r) (if activating then Activate else Release true) (Release false))
  | Activate, Command argv r => sent 6 argv (branch (verdict None [] r) Guard (Release false))
  | Guard, Tool name args r =>
      if String.eqb name "system_activation_health_guard" && eq_str (dgetn "app_id" args) app_id then
        Some match (let! r := r in judge_health r) with
             | Ok (failure, health) =>
                 if String.eqb failure "" then ObserveApps
                 else ObserveLeases match health with Some _ => true | None => false end
             | Raise _ => Broken
             end
      else None
  | ObserveLeases known, Tool name args r =>
      if String.eqb name "system_query_leases" && eq_str (dgetn "app_id" args) app_id then
        Some match r with Ok _ => if known then Release false else Orphaned | Raise _ => Broken end
      else None
  | ObserveApps, Command argv r =>
      let v := verdict None [] r in
      sent 8 argv (branch v (Release (app_is_running r)) (Release false))
  | Release good, Command argv r =>
      let v := verdict None allowed r in
      sent 9 argv (branch v (Leases good) (Leases false))
  | Leases good, Command argv r =>
      let v := verdict None [] r in
      sent 10 argv (branch v (Ended (good && nothing_leased r)) (Ended false))
  | _, _ => None
  end.

Fixpoint steps (p : phase) (l : list call) : option phase :=
  match l with
  | [] => Some p
  | c :: rest => match next p c with Some p' => steps p' rest | None => None end
  end.

Lemma steps_app p l1 l2 : steps p (l1 ++ l2) = match steps p l1 with Some p' => steps p' l2 | None => None end.
Proof. revert p. induction l1 as [|c l1 IH]; intros p; cbn; [done|]. by destruct (next p c). Qed.

(** ** Programs that follow the automaton *)

Context {S : Type} (A : DeployAdapter S).
#[local] Instance log_adapter : DeployAdapter (S * list call) := logged A.
Notation W := (S * list call)%type.

(** From phase [p], [m] makes calls of the automaton and ends in a phase that fits its result. *)
Definition follows {X} (p : phase) (m : eff W X) (Q : result X -> phase -> Prop) : Prop :=
  forall w, exists l p', (m w).2.2 = w.2 ++ l /\ steps p l = Some p' /\ Q (m w).1 p'.

Lemma follows_ret {X} p (x : X) (Q : result X -> phase -> Prop) : Q (Ok x) p -> follows p (eret x) Q.
Proof. intros H w. exists [], p. rewrite app_nil_r. done. Qed.

Lemma follows_raise {X} p e (Q : result X -> phase -> Prop) : Q (Raise e) p -> follows p (eraise e) Q.
Proof. intros H w. exists [], p. rewrite app_nil_r. done. Qed.

Lemma follows_lift {X} p (r : result X) (Q : result X -> phase -> Prop) : Q r p -> follows p (elift r) Q.
Proof. intros H w. exists [], p. rewrite app_nil_r. done. Qed.

Lemma follows_lift_eq {X} p (r : result X) : follows p (elift r) (fun r' q => r' = r /\ q = p).
Proof. by apply follows_lift. Qed.

Lemma follows_bind {X Y} p (m : eff W X) (k : X -> eff W Y) (Q : result X -> phase -> Prop) R :
  follows p m Q -> (forall x p', Q (Ok x) p' -> follows p' (k x) R) -> (forall e p', Q (Raise e) p' -> R (Raise e) p') ->
  follows p (ebind m k) R.
Proof.
  intros Hm Hk He w. destruct (Hm w) as (l & p1 & Hl & Hs & HQ). unfold ebind. destruct (m w) as [[x|e] w1]; cbn in *.
  - destruct (Hk x p1 HQ w1) as (l2 & p2 & Hl2 & Hs2 & HR). exists (l ++ l2), p2.
    rewrite Hl2, Hl, app_assoc. split; [done|]. by rewrite steps_app, Hs.
  - exists l, p1. split; [done|]. split; [done|]. by apply He.
Qed.

Lemma follows_weaken {X} p (m : eff W X) (Q R : result X -> phase -> Prop) :
  follows p m Q -> (forall r p', Q r p' -> R r p') -> follows p m R.
Proof. intros Hm HQ w. destruct (Hm w) as (l & p' & ? & ? & ?). exists l, p'. auto. Qed.

Lemma follows_quiet {X} p (m : eff W X) : (forall w, (m w).2.2 = w.2) -> follows p m (fun _ q => q = p).
Proof. intros Hm w. exists [], p. rewrite app_nil_r, Hm. done. Qed.

Lemma follows_tool p name args :
  (forall r, is_Some (next p (Tool name args r))) ->
  follows p (adapter_execute name args) (fun out q => next p (Tool name args out) = Some q).
Proof.
  intros Hp [s l]. unfold adapter_execute, da_tools, log_adapter, logged. cbn [fst snd].
  destruct (da_tools name args s) as [r s'] eqn:E. destruct (Hp r) as [q Hq].
  unfold adapter_execute. rewrite E. cbn [fst snd]. exists [Tool name args r], q. cbn [steps]. by rewrite Hq.
Qed.

(** A command step, whatever the phase makes of its answer. *)
Definition stepped (p : phase) (argv : list string) (expected : option string) (al : list string)
    (out : result (dict * string)) (q : phase) : Prop :=
  exists r, next p (Command argv r) = Some q /\
    match out with
    | Ok (step, failure) => verdict expected al r = Ok failure /\
        dgetn "result" step = match answer_payload r with Some d => VDict d | None => VNone end
    | Raise e => verdict expected al r = Raise e
    end.

Lemma step_result name argv cr payload failure :
  dgetn "result" (build_execution_step_result name argv cr payload failure) =
  match payload with Some d => VDict d | None => VNone end.
Proof.
  unfold build_execution_step_result. rewrite dgetn_eq, dget_dict_of. destruct (String.eqb (stderr cr) ""), payload; done.
Qed.

Lemma follows_step p timeout name argv expected al :
  (forall r, is_Some (next p (Command argv r))) ->
  follows p (run_json_step timeout name argv expected al) (stepped p argv expected al).
Proof.
  intros Hp [s l]. unfold run_json_step, ebind, runner, da_runner, log_adapter, logged. cbn [fst snd].
  destruct (da_runner argv timeout s) as [r s'] eqn:E. unfold runner. rewrite E. destruct (Hp r) as [q Hq].
  exists [Command argv r], q. cbn [steps]. rewrite Hq.
  assert (stepped p argv expected al
            match r with
            | Ok cr => match parse_command_json_result cr with
                       | Ok payload => Ok (build_execution_step_result name argv cr (Some payload) (answer_status expected al payload),
                                           answer_status expected al payload)
                       | Raise (ValueError m) => Ok (build_execution_step_result name argv cr None m, m)
                       | Raise e => Raise e
                       end
            | Raise e => Raise e
            end q) as H.
  { exists r. split; [done|]. destruct r as [cr|e]; [|done]. cbn [verdict rbind answer_payload].
    destruct (parse_command_json_result cr) as [payload|[]]; try done; split; try done; apply step_result. }
  destruct r as [cr|e]; [|done]. destruct (parse_command_json_result cr) as [payload|[]]; done.
Qed.

(** The usual command phase: on to [good] when the command succeeds, to [bad] when it does not. *)
Lemma follows_command p i expected al (good : result CommandExecutionResult -> phase) bad timeout name :
  (forall argv r, next p (Command argv r) = sent i argv (branch (verdict expected al r) (good r) bad)) ->
  follows p (run_json_step timeout name (argv_at i plan) expected al) (fun out q =>
    match out with
    | Ok (step, failure) => exists r, q = (if String.eqb failure "" then good r else bad) /\
        dgetn "result" step = match answer_payload r with Some d => VDict d | None => VNone end
    | Raise _ => q = Broken
    end).
Proof.
  intros Hn.
  assert (forall r, next p (Command (argv_at i plan) r) = Some (branch (verdict expected al r) (good r) bad)) as Hn'.
  { intros r. rewrite Hn. unfold sent. by rewrite decide_True. }
  eapply follows_weaken; [apply follows_step; intros r; rewrite Hn'; by eexists|].
  intros out q (r & Hq & Hout). rewrite Hn' in Hq. injection Hq as <-. destruct out as [[step failure]|e].
  - destruct Hout as [-> Hres]. by exists r.
  - by rewrite Hout.
Qed.

(** ** The commands follow the automaton *)

(** A call that raises never ends the protocol; it is orphaned exactly by the missing health report. *)
Definition raised (e : pyerr) (q : phase) : Prop :=
  (forall good, q <> Ended good) /\ (q = Orphaned -> e = UnboundLocalError "activation_health").

Lemma raised_broken e : raised e Broken.
Proof. by split. Qed.

Definition succeeded (p : Progress) : bool := String.eqb (pg_failure_status p) "".

Definition staged (out : result Progress) (q : phase) : Prop :=
  match out with Ok p => q = Release (succeeded p) | Raise e => raised e q end.
Definition ended (out : result Progress) (q : phase) : Prop :=
  match out with Ok p => q = Ended (succeeded p) | Raise e => raised e q end.

Lemma stopped_failed execution step failure : String.eqb failure "" = false -> succeeded (stopped execution step failure) = false.
Proof. done. Qed.

Context (timeout : Z).

Lemma prepare_follows stage execution :
  (forall execution, follows (if activating then Activate else Release true) (stage execution) staged) ->
  follows Prepare (prepare_then timeout plan stage execution) staged.
Proof.
  intros Hs. unfold prepare_then.
  eapply follows_bind; [by apply (follows_command Prepare 3 None [] (fun _ => Verify) (Release false))| |by intros e ? ->; apply raised_broken].
  intros [step failure] q (r & -> & _). destruct (String.eqb failure "") eqn:Ef; cbn [negb]; [|by apply follows_ret; unfold staged; rewrite stopped_failed].
  eapply follows_bind;
    [by apply (follows_command Verify 4 None [] (fun _ => if activating then Activate else Release true) (Release false))| |
     by intros e ? ->; apply raised_broken].
  intros [step2 failure2] q (r2 & -> & _). destruct (String.eqb failure2 "") eqn:Ef2; cbn [negb]; [apply Hs|].
  by apply follows_ret; unfold staged; rewrite stopped_failed.
Qed.

Lemma cleanup_follows p : follows (Release (succeeded p)) (cleanup timeout plan allowed p) ended.
Proof.
  unfold cleanup.
  eapply follows_bind;
    [by apply (follows_command (Release (succeeded p)) 9 None allowed (fun _ => Leases (succeeded p)) (Leases false))| |
     by intros e ? ->; apply raised_broken].
  intros [step failure] q (r & -> & _). set (good := String.eqb failure "" && succeeded p).
  assert ((if String.eqb failure "" then Leases (succeeded p) else Leases false) = Leases good) as ->
    by (unfold good; by destruct (String.eqb failure "")).
  eapply follows_bind;
    [by apply (follows_command (Leases good) 10 None [] (fun r => Ended (good && nothing_leased r)) (Ended false))| |
     by intros e ? ->; apply raised_broken].
  intros [step2 failure2] q (r2 & -> & Hres).
  set (observed := match dgetn "result" step2 with VDict d => replies_listed "leases" d | _ => [] end).
  assert (nothing_leased r2 = match observed with [] => true | _ => false end) as ->.
  { unfold nothing_leased, observed. rewrite Hres. by destruct (answer_payload r2). }
  unfold good, succeeded. clear Hres good.
  destruct (String.eqb (pg_failure_status p) "") eqn:Ep, (String.eqb failure "") eqn:Ef, (String.eqb failure2 "") eqn:Ef2, observed;
    cbn [andb negb String.eqb Ascii.eqb Bool.eqb]; rewrite ?Ef2; cbn [negb];
    apply follows_ret; unfold ended, succeeded; cbn [pg_failure_status]; by rewrite ?Ep, ?Ef, ?Ef2.
Qed.

Lemma lease_follows stage execution :
  (forall execution, follows Prepare (stage execution) staged) ->
  follows Acquire (under_lease timeout plan allowed stage execution) ended.
Proof.
  intros Hs. unfold under_lease.
  eapply follows_bind; [by apply (follows_command Acquire 2 None [] (fun _ => Prepare) (Ended false))| |by intros e ? ->; apply raised_broken].
  intros [step failure] q (r & -> & _). destruct (String.eqb failure "") eqn:Ef; cbn [negb].
  - eapply follows_bind; [apply Hs| |done]. intros p q ->. apply cleanup_follows.
  - apply follows_ret. unfold ended. by rewrite stopped_failed.
Qed.

Lemma preflight_follows stage execution :
  (forall execution, follows Prepare (stage execution) staged) ->
  follows Preflight (preflight_then timeout plan allowed stage execution) ended.
Proof.
  intros Hs. unfold preflight_then.
  eapply follows_bind;
    [by apply (follows_command Preflight 0 (Some "ready") [] (fun _ => Acquire) (Ended false))| |by intros e ? ->; apply raised_broken].
  intros [step failure] q (r & -> & _). destruct (String.eqb failure "") eqn:Ef; cbn [negb]; [by apply lease_follows|].
  apply follows_ret. unfold ended. by rewrite stopped_failed.
Qed.

(** *** The activation *)

Lemma observe_apps_follows execution : follows ObserveApps (observe_apps timeout plan app_id execution) staged.
Proof.
  unfold observe_apps.
  eapply follows_bind;
    [by apply (follows_command ObserveApps 8 None [] (fun r => Release (app_is_running r)) (Release false))| |by intros e ? ->; apply raised_broken].
  intros [step failure] q (r & -> & Hres). rewrite Hres. unfold app_is_running.
  destruct (answer_payload r) as [payload|] eqn:Ea; cbn beta iota.
  - destruct (ts_running _), (String.eqb failure "") eqn:Ef; cbn [andb negb]; rewrite ?Ef; apply follows_ret; unfold staged;
      first [by rewrite stopped_failed|done].
  - destruct (String.eqb failure "") eqn:Ef; apply follows_ret; unfold staged; [done|by rewrite stopped_failed].
Qed.

Lemma named_app more : eq_str (dgetn "app_id" (app_args app_id more)) app_id = true.
Proof. unfold app_args. cbn -[String.eqb]. apply String.eqb_refl. Qed.

Lemma next_observe known more r :
  next (ObserveLeases known) (Tool "system_query_leases" (app_args app_id more) r) =
  Some match r with Ok _ => if known then Release false else Orphaned | Raise _ => Broken end.
Proof. cbn [next]. by rewrite named_app. Qed.

Lemma next_guard r :
  next Guard (Tool "system_activation_health_guard" (app_args app_id []) r) =
  Some match (let! r := r in judge_health r) with
       | Ok (failure, health) =>
           if String.eqb failure "" then ObserveApps else ObserveLeases match health with Some _ => true | None => false end
       | Raise _ => Broken
       end.
Proof. cbn [next]. by rewrite named_app. Qed.

Lemma approval_quiet summary : moves (same snd) (build_guarded_rollback_approval (S := W) summary).
Proof.
  unfold build_guarded_rollback_approval. apply moves_bind; [apply _| |intros; moves].
  unfold da_describe, log_adapter, logged. destruct (@da_describe S A) as [f|]; cbn; [|by moves].
  intros w. unfold same. by destruct (f _ w.1).
Qed.

Lemma observe_failure_follows admission failure health execution :
  String.eqb failure "" = false ->
  follows (ObserveLeases (match health with Some _ => true | None => false end))
    (observe_failure admission app_id failure health execution) staged.
Proof.
  intros Hf. unfold observe_failure.
  eapply follows_bind; [by apply follows_tool; intros r; rewrite next_observe; eexists| |].
  2: { intros e q Hq. cbn beta in Hq. rewrite next_observe in Hq. injection Hq as <-. apply raised_broken. }
  intros r q Hq. cbn beta in Hq. rewrite next_observe in Hq. injection Hq as <-.
  destruct health as [health|]; [|by apply follows_raise; split].
  eapply follows_bind; [apply (follows_lift _ _ (fun _ q => q = Release false)); done| |by intros e ? ->; split].
  intros summary q ->.
  eapply follows_bind; [apply follows_quiet| |by intros e ? ->; split].
  { intros w. destruct (String.eqb failure "rollback_required"); [|done]. unfold ebind.
    pose proof (approval_quiet summary w) as Hq. unfold same in Hq. cbn in Hq. rewrite <- Hq.
    by destruct (build_guarded_rollback_approval summary w) as [[] ?]. }
  intros approval q ->. apply follows_ret. unfold staged, succeeded. cbn. by rewrite Hf.
Qed.

Lemma activate_follows admission execution :
  follows Activate (activate_and_guard timeout plan admission app_id execution) staged.
Proof.
  unfold activate_and_guard.
  eapply follows_bind; [by apply (follows_command Activate 6 None [] (fun _ => Guard) (Release false))| |by intros e ? ->; apply raised_broken].
  intros [step failure] q (r & -> & _). destruct (String.eqb failure "") eqn:Ef; cbn [negb];
    [|by apply follows_ret; unfold staged; rewrite stopped_failed].
  eapply follows_bind; [by apply follows_tool; intros g; rewrite next_guard; eexists| |].
  2: { intros e q Hq. cbn beta in Hq. rewrite next_guard in Hq. injection Hq as <-. apply raised_broken. }
  intros g q Hq. cbn beta in Hq. rewrite next_guard in Hq. injection Hq as <-. cbn [rbind].
  destruct (judge_health g) as [[health_failure health]|e]; cbn [elift].
  - eapply follows_bind; [apply follows_lift_eq| |by intros ? ? [[=] _]].
    intros [? ?] q [[= -> ->] ->]. destruct (String.eqb health_failure "") eqn:Eh; [apply observe_apps_follows|].
    by apply observe_failure_follows.
  - eapply follows_bind; [apply follows_lift_eq|by intros ? ? [[=] _]|]. intros ? ? [_ ->]. apply raised_broken.
Qed.

(** *** Giving the lease back *)

Definition holds_lease (p : phase) : bool :=
  match p with Prepare | Verify | Activate | Guard | ObserveLeases _ | ObserveApps | Release _ => true | _ => false end.

Lemma dead_ends p l good : p = Broken \/ p = Orphaned -> steps p l <> Some (Ended good).
Proof. by intros [-> | ->]; destruct l as [|[] ?]. Qed.

Lemma sent_inv i argv q p : sent i argv q = Some p -> argv = argv_at i plan /\ p = q.
Proof. unfold sent. destruct (decide _); [|done]. by intros [= ->]. Qed.

Lemma branch_cases v good bad : branch v good bad = good \/ branch v good bad = bad \/ branch v good bad = Broken.
Proof. unfold branch. destruct v; [|auto]. destruct (String.eqb _ _); auto. Qed.

Lemma leases_end g l good : steps (Leases g) l = Some (Ended good) -> exists r, l = [Command (argv_at 10 plan) r].
Proof.
  destruct l as [|[argv r|] l]; [done| |done]. cbn [steps next]. destruct (sent _ _ _) as [q|] eqn:E; [|done].
  apply sent_inv in E as [-> ->]. intros H. exists r. f_equal.
  destruct (branch_cases (verdict None [] r) (Ended (g && nothing_leased r)) (Ended false)) as [E|[E|E]]; rewrite E in H;
    by destruct l as [|[] ?].
Qed.

(** A phase that holds the lease moves to another, or gives the lease back, or is dead. *)
Lemma holding_next p c p' :
  next p c = Some p' -> holds_lease p = true ->
  holds_lease p' = true \/ (p' = Broken \/ p' = Orphaned) \/ exists r g, c = Command (argv_at 9 plan) r /\ p' = Leases g.
Proof.
  intros Hn Hp. destruct p, c as [argv r|name args r]; try done; cbn [next] in Hn;
    try (apply sent_inv in Hn as [-> ->];
         match goal with |- context [branch ?v ?a ?b] => destruct (branch_cases v a b) as [E|[E|E]]; rewrite E end;
         [..|by auto]; try (right; right; eauto; fail); left; by try destruct activating).
  - destruct (_ && _); [|done]. injection Hn as <-. repeat case_match; auto.
  - destruct (_ && _); [|done]. injection Hn as <-. repeat case_match; auto.
Qed.

Lemma release_tail p l good :
  steps p l = Some (Ended good) -> holds_lease p = true ->
  exists mid r1 r2, l = mid ++ [Command (argv_at 9 plan) r1; Command (argv_at 10 plan) r2].
Proof.
  revert p. induction l as [|c l IH]; intros p Hs Hp; cbn [steps] in Hs; [by injection Hs as ->|].
  destruct (next p c) as [p'|] eqn:En; [|done].
  destruct (holding_next _ _ _ En Hp) as [Hp'|[Hd|(r & g & -> & ->)]].
  - destruct (IH _ Hs Hp') as (mid & r1 & r2 & ->). by exists (c :: mid), r1, r2.
  - by apply dead_ends in Hs.
  - apply leases_end in Hs as [r2 ->]. by exists [], r, r2.
Qed.

(** A protocol that came to its end: it stopped at the preflight or at the lease, or it gave the lease back. *)
Lemma ended_calls l good :
  steps Preflight l = Some (Ended good) ->
  (good = false /\ exists r, l = [Command (argv_at 0 plan) r]) \/
  exists r0 r, verdict (Some "ready") [] r0 = Ok "" /\
    ((good = false /\ l = [Command (argv_at 0 plan) r0; Command (argv_at 2 plan) r]) \/
     (verdict None [] r = Ok "" /\ exists mid r1 r2,
       l = [Command (argv_at 0 plan) r0; Command (argv_at 2 plan) r] ++ mid ++
           [Command (argv_at 9 plan) r1; Command (argv_at 10 plan) r2])).
Proof.
  intros Hs. destruct l as [|[argv r0|] l]; [done| |done]. cbn [steps next] in Hs.
  destruct (sent 0 _ _) as [q|] eqn:E; [|done]. apply sent_inv in E as [-> ->]. unfold branch at 1 in Hs.
  destruct (verdict (Some "ready") [] r0) as [failure|e] eqn:Ev; [|by apply dead_ends in Hs; auto].
  destruct (String.eqb_spec failure "") as [->|]; [|by destruct l as [|[] ?]; [injection Hs as <-; left; eauto|..]].
  right. exists r0. destruct l as [|[argv r|] l]; [done| |done]. exists r. split; [done|]. cbn [steps next] in Hs.
  destruct (sent 2 _ _) as [q|] eqn:E; [|done]. apply sent_inv in E as [-> ->]. unfold branch at 1 in Hs.
  destruct (verdict None [] r) as [failure|e] eqn:Ev2; [|by apply dead_ends in Hs; auto].
  destruct (String.eqb_spec failure "") as [->|]; [|by destruct l as [|[] ?]; [injection Hs as <-; left|..]].
  right. split; [done|]. destruct (release_tail _ _ _ Hs) as (mid & r1 & r2 & ->); [done|]. by exists mid, r1, r2.
Qed.
End Automaton.

(** ** The two commands *)

Lemma deploy_answer_ok command failure_class planned decision p :
  dgetn "ok" (deploy_answer command failure_class planned decision p) = VBool (succeeded p).
Proof. unfold deploy_answer, succeeded. destruct (String.eqb (pg_failure_status p) ""); reflexivity. Qed.

(** What a command did after [w]: nothing was sent, or the protocol was followed as far as [p]. *)
Definition followed {S} (activating : bool) (allowed : list string) (plan : DeployPlan) (app_id : string)
    (w : S * list call) (out : result dict * (S * list call)) : Prop :=
  exists l p, out.2.2 = w.2 ++ l /\ steps activating allowed plan app_id Preflight l = Some p /\
    match out.1 with
    | Ok payload => exists good, p = Ended good /\ dgetn "ok" payload = VBool good
    | Raise e => raised e p
    end.

Lemma answer_follows {S} activating allowed plan app_id (m : eff (S * list call) Progress) command class planned decision w :
  follows activating allowed plan app_id Preflight m ended ->
  followed activating allowed plan app_id w
    ((do! p := m in eret (deploy_answer command class planned decision p)) w).
Proof.
  intros Hm. destruct (Hm w) as (l & p & Hl & Hs & Hp). unfold followed, ebind. exists l, p.
  destruct (m w) as [[pg|e] w1]; cbn in *; [|done].
  split; [done|]. split; [done|]. exists (succeeded pg). split; [done|]. apply deploy_answer_ok.
Qed.

Section Commands.
Variable sys_executable : string.
Context {FS : Files} {S : Type} (A : DeployAdapter S).
#[local] Instance commands_logged : DeployAdapter (S * list call) := logged A.

Lemma prepare_verify_followed rq w :
  match plan_of sys_executable rq None with
  | Raise e => run_app_deploy_prepare_verify sys_executable rq w = (Raise e, w)
  | Ok (_, _, plan) => followed false [] plan (rq_app_id rq) w (run_app_deploy_prepare_verify sys_executable rq w)
  end.
Proof.
  unfold run_app_deploy_prepare_verify. unfold ebind at 1, elift.
  destruct (plan_of sys_executable rq None) as [[[bp adm] plan]|e]; [|done]. cbn [snd].
  apply answer_follows. apply preflight_follows. intros execution. apply prepare_follows. intros execution'. by apply follows_ret.
Qed.

Lemma activate_followed rq decision note w :
  match normalize_activation_approval_decision decision, plan_of sys_executable rq (rq_start_args rq) with
  | Ok d, Ok (_, _, plan) =>
      if String.eqb d "approved"
      then followed true ["lease_not_found"] plan (rq_app_id rq) w (run_app_deploy_activate sys_executable rq decision note w)
      else exists payload, run_app_deploy_activate sys_executable rq decision note w = (Ok payload, w) /\
                           dgetn "ok" payload = VBool false
  | _, _ => exists e, run_app_deploy_activate sys_executable rq decision note w = (Raise e, w)
  end.
Proof.
  unfold run_app_deploy_activate.
  destruct (normalize_activation_approval_decision decision) as [d|e]; [|by eexists].
  rewrite (ebind_eq (elift (Ok d)) _ w d w) by done.
  destruct (plan_of sys_executable rq (rq_start_args rq)) as [[[bp adm] plan]|e]; [|by eexists].
  rewrite (ebind_eq (elift (Ok (bp, adm, plan))) _ w (bp, adm, plan) w) by done.
  destruct (String.eqb d "approved"); cbn [negb]; [|eexists; split; reflexivity].
  apply answer_follows. apply preflight_follows. intros execution. apply prepare_follows. intros execution'.
  apply activate_follows.
Qed.
End Commands.

(** ** Properties *)

(** C16: an activation follows its protocol.  For any file system and any adapter, and whatever its calls answer
    or raise: without an approval, or with a plan that cannot be made, nothing is sent; otherwise the calls are a run of the
    automaton (preflight, lease, prepare, verify, activate, guard, observation, release, leases), a command that returns has
    reached its end, and it reports success exactly when every step succeeded, the guard found the application healthy, the unit
    reports it running and no lease is left.  A command that raises never reached the end, and a guard that fails
    without a health report makes it raise with the lease still held. *)
Theorem activation_refines_protocol sys_executable {FS : Files} {S} (A : DeployAdapter S) rq decision note w :
  let out := run_app_deploy_activate (Adapter := logged A) sys_executable rq decision note w in
  (out.2 = w /\ (forall payload, out.1 = Ok payload -> dgetn "ok" payload = VBool false)) \/
  (normalize_activation_approval_decision decision = Ok "approved" /\
   exists build_plan admission plan,
     plan_of sys_executable rq (rq_start_args rq) = Ok (build_plan, admission, plan) /\
     followed true ["lease_not_found"] plan (rq_app_id rq) w out).
Proof.
  intros out. subst out. pose proof (activate_followed sys_executable A rq decision note w) as H.
  unfold commands_logged in H.
  destruct (normalize_activation_approval_decision decision) as [d|e].
  2: { left. destruct H as [e' ->]. by split. }
  destruct (plan_of sys_executable rq (rq_start_args rq)) as [[[bp adm] plan]|e].
  2: { left. destruct H as [e' ->]. by split. }
  destruct (String.eqb_spec d "approved") as [->|].
  - right. split; [done|]. by exists bp, adm, plan.
  - left. destruct H as (payload & -> & Hok). split; [done|]. by intros ? [= <-].
Qed.

(** The command lines of the lease of an application, for a node and an agent. *)
Section LeaseCommands.
Context (sys_executable : string) (rq : DeployRequest) (node agent : string).
#[local] Notation cli words := (cli_prefix sys_executable node agent ++ words).

Definition lease_acquired : list string :=
  cli ["lease"; "acquire"; "--resource"; activate_resource (rq_app_id rq); "--lease-id"; suggest_activation_lease_id (rq_app_id rq);
       "--ttl-ms"; string_of_Z (rq_lease_ttl_ms rq)].
Definition lease_released : list string := cli ["lease"; "release"; "--lease-id"; suggest_activation_lease_id (rq_app_id rq)].
Definition leases_queried : list string := cli ["query"; "leases"].

(** The lease of a deployment that ended with [good]: never asked for, refused, or given back by the last calls. *)
Definition lease_returned (artifact : string) (l : list call) (good : bool) : Prop :=
  let preflight := preflight_parts node artifact in
  (good = false /\ exists r, l = [Command preflight r]) \/
  exists r0 r, verdict (Some "ready") [] r0 = Ok "" /\
    ((good = false /\ l = [Command preflight r0; Command lease_acquired r]) \/
     (verdict None [] r = Ok "" /\ exists mid r1 r2,
        l = [Command preflight r0; Command lease_acquired r] ++ mid ++ [Command lease_released r1; Command leases_queried r2])).
End LeaseCommands.

(** A plan is for the node, the agent, the application and the lease time of its request. *)
Lemma plan_lease sys_executable {FS : Files} rq start_args build_plan admission plan :
  plan_of sys_executable rq start_args = Ok (build_plan, admission, plan) ->
  exists node agent, validate_deploy_plan_identifier (rq_node_id rq) "invalid_deploy_node_id" = Ok node /\
    validate_deploy_plan_identifier (rq_source_agent rq) "invalid_deploy_source_agent" = Ok agent /\
    argv_at 0 plan = preflight_parts node (aa_artifact_file admission) /\ argv_at 2 plan = lease_acquired sys_executable rq node agent /\
    argv_at 9 plan = lease_released sys_executable rq node agent /\ argv_at 10 plan = leases_queried sys_executable node agent.
Proof.
  unfold plan_of, build_app_deploy_plan. destruct (validate_deploy_plan_identifier (rq_node_id rq) _) as [node|]; [|done].
  destruct (validate_deploy_plan_identifier (rq_source_agent rq) _) as [agent|]; [|done]. cbn [rbind].
  destruct (_ <=? 0); [done|]. destruct (build_app_artifact_admission _ _ _ _ _ _) as [[bp adm]|]; [|done]. cbn [rbind].
  intros [= <- <- <-]. exists node, agent. by split_and!.
Qed.

Lemma followed_lease {FS : Files} {S} sys_executable rq start_args build_plan admission activating allowed plan (w : S * list call) payload out :
  plan_of sys_executable rq start_args = Ok (build_plan, admission, plan) ->
  followed activating allowed plan (rq_app_id rq) w out -> out.1 = Ok payload ->
  exists node agent l good, validate_deploy_plan_identifier (rq_node_id rq) "invalid_deploy_node_id" = Ok node /\
    validate_deploy_plan_identifier (rq_source_agent rq) "invalid_deploy_source_agent" = Ok agent /\
    out.2.2 = w.2 ++ l /\ dgetn "ok" payload = VBool good /\
    lease_returned sys_executable rq node agent (aa_artifact_file admission) l good.
Proof.
  intros Hplan (l & p & Hl & Hs & Hp) Ho. rewrite Ho in Hp. destruct Hp as (good & -> & Hok).
  destruct (plan_lease _ _ _ _ _ _ Hplan) as (node & agent & Hn & Ha & H0 & H2 & H9 & H10). exists node, agent, l, good.
  split_and!; [done..|]. unfold lease_returned. rewrite <- H0, <- H2, <- H9, <- H10. by apply (ended_calls activating allowed plan (rq_app_id rq)).
Qed.


(** ** The rollback *)

Definition tool_ok (r : result ToolExecutionResult) (t : ToolExecutionResult) : Prop :=
  r = Ok t /\ tool_execution_failure_status t = "".

(** The calls of a complete rollback of [app_id]. *)
Definition rollback_calls (app_id lease_id reason : string) (r1 r2 r3 : result ToolExecutionResult) : list call :=
  [Tool "system_rollback_app"
     (app_args app_id ((if String.eqb lease_id "" then [] else [("lease_id", VStr lease_id)]) ++ [("reason", VStr reason)])) r1;
   Tool "system_query_apps" (app_args app_id [("reason", VStr "post_rollback_app_observation")]) r2;
   Tool "system_query_leases" (app_args app_id [("reason", VStr "post_rollback_lease_observation")]) r3].

(** Every call succeeded, the application does not run and its rollback lease is held by nobody. *)
Definition rolled_back (app_id : string) (r1 r2 r3 : result ToolExecutionResult) : Prop :=
  exists t1 t2 t3 state,
    tool_ok r1 t1 /\ tool_ok r2 t2 /\ tool_ok r3 t3 /\
    extract_rollback_query_apps_state (tool_result_to_dict t2) app_id = Ok state /\ ts_running state = false /\
    extract_matching_lease_ids_for_resource (tool_result_to_dict t3) (rollback_resource app_id) = Ok [].

Section Rollback.
Context {S : Type} (A : DeployAdapter S).
#[local] Instance rollback_logged : DeployAdapter (S * list call) := logged A.
Notation W := (S * list call)%type.

Lemma tool_call name args (w : W) :
  exists r w', adapter_execute name args w = (r, w') /\ w'.2 = w.2 ++ [Tool name args r].
Proof.
  destruct w as [s l]. unfold adapter_execute, da_tools, rollback_logged, logged. cbn [fst snd].
  destruct (da_tools name args s) as [r s'] eqn:E. exists r, (s', l ++ [Tool name args r]).
  unfold adapter_execute. by rewrite E.
Qed.

(** What an observation after the rollback says. *)
Definition apps_observed (app_id : string) (r : result ToolExecutionResult) (failure : string) : Prop :=
  failure = "" <-> exists t state, tool_ok r t /\
    extract_rollback_query_apps_state (tool_result_to_dict t) app_id = Ok state /\ ts_running state = false.
Definition leases_observed (app_id : string) (r : result ToolExecutionResult) (failure : string) : Prop :=
  failure = "" <-> exists t, tool_ok r t /\
    extract_matching_lease_ids_for_resource (tool_result_to_dict t) (rollback_resource app_id) = Ok [].

Lemma apps_step_spec app_id (w : W) :
  exists r w', w'.2 = w.2 ++ [Tool "system_query_apps" (app_args app_id [("reason", VStr "post_rollback_app_observation")]) r] /\
    ((exists e, rollback_apps_step app_id w = (Raise e, w')) \/
     (exists step failure, rollback_apps_step app_id w = (Ok (step, failure), w') /\ apps_observed app_id r failure)).
Proof.
  destruct (tool_call "system_query_apps" (app_args app_id [("reason", VStr "post_rollback_app_observation")]) w)
    as (r & w' & E & Hl).
  exists r, w'. split; [done|]. unfold rollback_apps_step, ebind, elift. rewrite E. destruct r as [t|e]; [|by left; eexists].
  destruct (String.eqb (tool_execution_failure_status t) "") eqn:Ef; cbn [negb].
  - apply String.eqb_eq in Ef.
    destruct (extract_rollback_query_apps_state _ _) as [state|e] eqn:Es; [|by left; eexists].
    right. destruct (ts_running state) eqn:Er; eexists _, _; (split; [reflexivity|]); unfold apps_observed.
    + split; [done|]. intros (t' & state' & [[= <-] _] & Es' & Er'). congruence.
    + split; [|done]. intros _. exists t, state. by split_and!.
  - right. eexists _, _. split; [reflexivity|]. apply String.eqb_neq in Ef. unfold apps_observed.
    split; [done|]. by intros (t' & state' & [[= <-] ?] & _).
Qed.

Lemma leases_step_spec app_id (w : W) :
  exists r w', w'.2 = w.2 ++ [Tool "system_query_leases" (app_args app_id [("reason", VStr "post_rollback_lease_observation")]) r] /\
    ((exists e, rollback_leases_step app_id w = (Raise e, w')) \/
     (exists step failure, rollback_leases_step app_id w = (Ok (step, failure), w') /\ leases_observed app_id r failure)).
Proof.
  destruct (tool_call "system_query_leases" (app_args app_id [("reason", VStr "post_rollback_lease_observation")]) w)
    as (r & w' & E & Hl).
  exists r, w'. split; [done|]. unfold rollback_leases_step, ebind, elift. rewrite E. destruct r as [t|e]; [|by left; eexists].
  destruct (String.eqb (tool_execution_failure_status t) "") eqn:Ef; cbn [negb].
  - apply String.eqb_eq in Ef.
    destruct (extract_matching_lease_ids_for_resource _ _) as [ids|e] eqn:Es; [|by left; eexists].
    right. destruct ids; eexists _, _; (split; [reflexivity|]); unfold leases_observed.
    + split; [|done]. intros _. exists t. by split_and!.
    + split; [done|]. intros (t' & [[= <-] _] & Es'). congruence.
  - right. eexists _, _. split; [reflexivity|]. apply String.eqb_neq in Ef. unfold leases_observed.
    split; [done|]. by intros (t' & [[= <-] ?] & _).
Qed.

Lemma roll_back_spec app_id lease_id reason execution (w : W) :
  exists l, (roll_back app_id lease_id reason execution w).2.2 = w.2 ++ l /\
    forall execution' step failure, (roll_back app_id lease_id reason execution w).1 = Ok (execution', step, failure) ->
      (failure = "" <-> exists r1 r2 r3, l = rollback_calls app_id lease_id reason r1 r2 r3 /\ rolled_back app_id r1 r2 r3).
Proof.
  unfold roll_back, ebind. set (args := app_args app_id _).
  destruct (tool_call "system_rollback_app" args w) as (r1 & w1 & E1 & Hl1). rewrite E1.
  destruct r1 as [t1|e]; [|exists [Tool "system_rollback_app" args (Raise e)]; by split].
  destruct (String.eqb (tool_execution_failure_status t1) "") eqn:Ef; cbn [negb].
  2: { exists [Tool "system_rollback_app" args (Ok t1)]. split; [done|]. intros ? ? ? [= <- <- <-].
       apply String.eqb_neq in Ef. split; [done|]. by intros (r1 & r2 & r3 & [=] & _). }
  destruct (apps_step_spec app_id w1) as (r2 & w2 & Hl2 & [(e & E2)|(step2 & f2 & E2 & H2)]); rewrite E2.
  { eexists. split; [cbn; rewrite Hl2, Hl1, <- app_assoc; reflexivity|done]. }
  destruct (leases_step_spec app_id w2) as (r3 & w3 & Hl3 & [(e & E3)|(step3 & f3 & E3 & H3)]); rewrite E3.
  { eexists. split; [cbn; rewrite Hl3, Hl2, Hl1, <- !app_assoc; reflexivity|done]. }
  exists (rollback_calls app_id lease_id reason (Ok t1) r2 r3). split; [cbn; by rewrite Hl3, Hl2, Hl1, <- !app_assoc|].
  intros execution' step failure Hr. apply String.eqb_eq in Ef. unfold apps_observed, leases_observed in *.
  assert (failure = "" <-> f2 = "" /\ f3 = "") as ->.
  { cbn in Hr. destruct (String.eqb_spec f2 ""), (String.eqb_spec f3 ""); cbn in Hr; injection Hr as <- <- <-; naive_solver. }
  rewrite H2, H3. split.
  - intros [(t2 & state & Ht2 & Hs & Hr2) (t3 & Ht3 & Hi)]. exists (Ok t1), r2, r3. split; [done|].
    exists t1, t2, t3, state. by split_and!.
  - intros (? & ? & ? & [= <- <- <-] & t1' & t2 & t3 & state & _ & ? & ? & ? & ? & ?). split; eauto 10.
Qed.
End Rollback.

(** When a rollback counts as done.  For any adapter and whatever its tools answer or raise: without an approval (or with
    arguments that are not valid) no tool is called; and a command that returns reports success exactly when it was approved,
    it called the rollback and then observed applications and leases, all three succeeded, the
    application was no longer running and its rollback lease was no longer held. *)
Theorem rollback_verified {S} (A : DeployAdapter S) app_id node_id source_agent lease_id reason decision note w :
  let out := run_app_deploy_rollback (Adapter := logged A) app_id node_id source_agent lease_id reason decision note w in
  exists l, out.2.2 = w.2 ++ l /\
    (l <> [] -> normalize_activation_approval_decision decision = Ok "approved") /\
    forall payload, out.1 = Ok payload ->
      (dgetn "ok" payload = VBool true <->
       exists app r1 r2 r3, validate_app_build_app_id app_id = Ok app /\
         l = rollback_calls app (py_strip (text_or_empty lease_id)) reason r1 r2 r3 /\ rolled_back app r1 r2 r3).
Proof.
  intros out. subst out. unfold run_app_deploy_rollback.
  destruct (validate_app_build_app_id app_id) as [app|e]; [|exists []; rewrite app_nil_r; by split_and!].
  rewrite (ebind_eq (elift (Ok app)) _ w app w) by done.
  destruct (validate_deploy_plan_identifier node_id _) as [node|e]; [|exists []; rewrite app_nil_r; by split_and!].
  rewrite (ebind_eq (elift (Ok node)) _ w node w) by done.
  destruct (validate_deploy_plan_identifier source_agent _) as [agent|e]; [|exists []; rewrite app_nil_r; by split_and!].
  rewrite (ebind_eq (elift (Ok agent)) _ w agent w) by done.
  destruct (normalize_activation_approval_decision decision) as [d|e]; [|exists []; rewrite app_nil_r; by split_and!].
  rewrite (ebind_eq (elift (Ok d)) _ w d w) by done.
  destruct (String.eqb_spec d "approved") as [->|Hd]; cbn [negb].
  2: { exists []. rewrite app_nil_r. split_and!; [done..|]. intros payload [= <-]. split; [done|]. by intros (? & ? & ? & ? & _ & [=] & _). }
  match goal with |- context [roll_back app ?lease reason ?execution] =>
    destruct (roll_back_spec A app lease reason execution w) as (l & Hl & Hspec) end.
  exists l. unfold ebind, elift. unfold rollback_logged in *.
  destruct (roll_back _ _ _ _ w) as [[[[execution step] failure]|e] w1]; cbn [fst snd] in *; [|by split_and!].
  specialize (Hspec _ _ _ eq_refl). destruct (String.eqb_spec failure "") as [->|Hf]; cbn [negb].
  - split; [done|]. split; [done|]. intros payload [= <-]. split; [|done]. intros _.
    destruct (proj1 Hspec eq_refl) as (r1 & r2 & r3 & Hc & Hr). by exists app, r1, r2, r3.
  - assert (~ exists app' r1 r2 r3, Ok app = Ok app' /\
              l = rollback_calls app' (py_strip (text_or_empty lease_id)) reason r1 r2 r3 /\ rolled_back app' r1 r2 r3) as Hno.
    { intros (app' & r1 & r2 & r3 & [= <-] & Hc & Hr). apply Hf, Hspec. by exists r1, r2, r3. }
    destruct (build_rollback_failure_summary _ _ _ _) as [summary|e]; cbn [fst snd]; (split; [done|]); (split; [done|]).
    + intros payload [= <-]. split; [done|]. intros H. by destruct Hno.
    + done.
Qed.

(** ** Witnesses *)

Definition sample_request : DeployRequest :=
  {| rq_preset := "unit-app"; rq_app_id := "demo"; rq_app_source_dir := None; rq_board := default_board;
     rq_build_dir := default_build_dir; rq_artifact_file := None; rq_node_id := "unit-01"; rq_source_agent := "rational";
     rq_lease_ttl_ms := 120000; rq_start_args := None; rq_timeout_seconds := 30 |}.

(** A unit that answers as asked: [apps] is the state it reports, [health] what its guard says. *)
Definition sample_unit (app_state : string) (health : result ToolExecutionResult) : DeployAdapter unit :=
  let out s := {| exit_code := 0; stdout := s; stderr := "" |} in
  {| da_runner := fun argv _ s =>
       (Ok (out (if str_in "lease" argv || str_in "deploy" argv then obj [("ok", "true"); ("status", quoted "ok")]
                 else if str_in "apps" argv then
                   reply (obj [("apps", "[" +:+ obj [("app_id", quoted "demo"); ("state", quoted app_state)] +:+ "]")])
                 else if str_in "leases" argv then reply (obj [("leases", "[]")])
                 else "checking... " +:+ obj [("status", quoted "ready")])), s);
     da_tools := fun name args s =>
       (if String.eqb name "system_activation_health_guard" then health
        else Ok {| tr_tool_result_id := "tool-1"; tr_tool_name := name; tr_status := "ok"; tr_payload := [] |}, s);
     da_describe := None |}.

Definition guard_answer (status : string) (payload : dict) : result ToolExecutionResult :=
  Ok {| tr_tool_result_id := "tool-0"; tr_tool_name := "system_activation_health_guard"; tr_status := status;
        tr_payload := payload |}.
Definition healthy : result ToolExecutionResult :=
  guard_answer "ok" (dict_of [("activation_health", VDict (dict_of [("app_id", VStr "demo"); ("classification", VStr "healthy")]))]).

Notation sample_activation app_state health decision :=
  (run_app_deploy_activate (Adapter := logged (sample_unit app_state health)) (FS := sample_files) "python" sample_request
    decision "" (tt, [])).

Definition call_name (c : call) : string :=
  match c with
  | Command argv _ => join " " (drop 8 argv)
  | Tool name _ _ => name
  end.

Definition outcome_of (out : result dict * (unit * list call)) : result (string * string) * list string :=
  (match out.1 with
   | Ok d => Ok (str_or "status" "" d, str_or2 "failed_step" "failure_status" "" d)
   | Raise e => Raise e
   end, map call_name out.2.2).

(** An activation that succeeds; one that waits for approval; one whose application does not run; and one whose guard fails
    without a report, which raises after the activation and never gives the lease back. *)
Example activations :
  outcome_of (sample_activation "RUNNING_ACTIVE" healthy " Approve ") =
    (Ok ("ok", ""),
     ["--install-missing-cli-deps --output json"; "lease acquire --resource update/app/demo/activate --lease-id l-demo-act --ttl-ms 120000";
      "deploy prepare --app-id demo --file build/neurolink_unit_demo_app/demo.llext"; "deploy verify --app-id demo";
      "deploy activate --app-id demo --lease-id l-demo-act"; "system_activation_health_guard"; "query apps";
      "lease release --lease-id l-demo-act"; "query leases"]) /\
  outcome_of (sample_activation "running" healthy "pending") = (Ok ("pending_approval", "pending_approval"), []) /\
  (outcome_of (sample_activation "stopped" healthy "approve")).1 = Ok ("error", "query_apps") /\
  (outcome_of (sample_activation "running" (guard_answer "error" []) "approve")).1 = Raise (UnboundLocalError "activation_health") /\
  last (outcome_of (sample_activation "running" (guard_answer "error" []) "approve")).2 = Some "system_query_leases".
Proof. vm_compute. auto. Qed.

