(* ===== verification/PromptContext.v ===== *)
(** * The context given to a model ([session.py])

    [build_prompt_safe_context] reduces a session to the summaries that the prompts
    carry of it; the recall policy decides which memories those are. *)

From Stdlib Require Import ZArith Lia Bool List Ascii String.
From stdpp Require Import base list option strings sets.
From S2P Require Import Prelude PyFloat Text PyValue Events Contracts.

#[local] Open Scope string_scope.
#[local] Open Scope Z_scope.
#[local] Open Scope list_scope.

Definition PROMPT_SAFE_CONTEXT_SCHEMA_VERSION : string := "1.2.5-prompt-safe-context-v2".
Definition MEMORY_RECALL_POLICY_SCHEMA_VERSION : string := "1.2.5-memory-recall-policy-v1".

(** ** Reading fields *)

(** [cast(dict, d.get(key) or {})], read with [get] afterwards; [list(d.get(key) or [])] *)
Definition sub_dict (key : string) (d : dict) : result dict := as_dict (por (dgetn (KStr key) d) (VDict [])).
Definition list_at (key : string) (d : dict) : result (list pyval) := py_iter (por (dgetn (KStr key) d) (VList [])).

(** [bool(d.get(key, False))], [int(d.get(key) or 0)] *)
Definition flag (key : string) (d : dict) : pyval := VBool (py_truthy (dget_or (KStr key) (VBool false) d)).
Definition count_at (key : string) (d : dict) : result pyval :=
  let! n := py_int (por (dgetn (KStr key) d) (VInt 0)) in Ok (VInt n).

(** [len(v)] and [v[:n]] *)
Definition py_len (v : pyval) : result Z :=
  match v with
  | VStr s => Ok (Z.of_nat (length (code_points s)))
  | VList l | VTuple l => Ok (Z.of_nat (length l))
  | VDict d => Ok (Z.of_nat (length d))
  | _ => Raise (TypeError "object has no len()")
  end.
Definition py_prefix (n : nat) (v : pyval) : result (list pyval) :=
  match v with
  | VList l | VTuple l => Ok (take n l)
  | VStr s => Ok (map (fun c => VStr (of_code_points [c])) (take n (code_points s)))
  | VDict _ => Raise (KeyError "slice")
  | _ => Raise (TypeError "object is not subscriptable")
  end.

Definition dicts_of (l : list pyval) : list dict := omap (fun v => match v with VDict d => Some d | _ => None end) l.

Definition text (key : string) (d : dict) : string * pyval := (key, VStr (str_or key "" d)).
Definition first_text (key : string) (values : list pyval) : string * pyval :=
  (key, VStr (py_str (foldr por (VStr "") values))).

(** ** Summaries *)

Definition summarize_execution_span (span : dict) : result dict :=
  let! payload := sub_dict "payload" span in
  let! steps := list_at "steps" payload in
  let! results := count_at "tool_result_count" payload in
  Ok (dict_of [text "execution_span_id" span; text "status" span; ("steps", VList (take 12 steps));
               ("delegated", flag "delegated" payload); ("tool_result_count", results); text "audit_id" payload]).

(** [payload.get(key) or contract.get(key)] *)
Definition from_contract (key : string) (payload : dict) : result pyval :=
  if py_truthy (dgetn (KStr key) payload) then Ok (dgetn (KStr key) payload)
  else let! contract := sub_dict "contract" payload in Ok (dgetn (KStr key) contract).

Definition summarize_pending_approval (approval : dict) : result dict :=
  let! payload := sub_dict "payload" approval in
  let! level := from_contract "side_effect_level" payload in
  let! resources := from_contract "required_resources" payload in
  let! resources := py_iter (por resources (VList [])) in
  Ok (dict_of [text "approval_request_id" approval;
               first_text "tool_name" [dgetn "tool_name" approval; dgetn "tool_name" payload];
               first_text "status" [dgetn "status" approval; dgetn "status" payload];
               first_text "side_effect_level" [level];
               ("required_resources", VList resources); text "target_app_id" payload]).

Definition summarize_memory_item (item : dict) : result dict :=
  let! payload := sub_dict "payload" item in
  let! governance := sub_dict "memory_governance" payload in
  let! event_ids := py_iter (por (por (dgetn "event_ids" payload) (dgetn "event_ids" item)) (VList [])) in
  let! refs := list_at "source_fact_refs" governance in
  Ok (dict_of [first_text "memory_id" [dgetn "memory_id" item; dgetn "id" item];
               first_text "semantic_topic" [dgetn "semantic_topic" item; dgetn "semantic_topic" payload; dgetn "topic" item];
               first_text "source" [dgetn "source" item; dgetn "source" payload];
               text "source_execution_span_id" item; text "created_at" item; ("event_ids", VList (take 10 event_ids));
               ("priority", dget_or "priority" (dgetn "priority" item) payload);
               ("source_fact_refs", VList (take 10 refs)); text "retention_class" governance;
               text "lifecycle_state" governance; text "commit_backend" governance]).

(** The keys of a runtime that may be shown.  (The source iterates over a set; the order of
    the entries of its result is not defined.) *)
Definition runtime_keys : list string :=
  ["backend_kind"; "backend_runtime"; "requires_external_service"; "fallback_active"; "fallback_backend";
   "package_available"; "sidecar_configured"; "last_lookup_status"; "last_commit_status"; "can_execute_tools_directly"].

Definition summarize_runtime_metadata (metadata : dict) : dict :=
  dict_of (omap (fun key => match dget (KStr key) metadata with Some v => Some (key, v) | None => None end) runtime_keys).

Definition summarize_maf_runtime (metadata : dict) : result dict :=
  let! provider_config := sub_dict "provider_config" metadata in
  let! roles := list_at "agent_roles" metadata in
  Ok (dict_of [text "provider_mode" metadata; ("real_provider_enabled", flag "real_provider_enabled" metadata);
               ("provider_ready_for_model_call", flag "provider_ready_for_model_call" metadata);
               ("provider_kind", VStr (str_or "provider_kind" "unknown" provider_config)); ("agent_roles", VList roles)]).

Definition summarize_tool_contract (tool : dict) : result dict :=
  let! resources := list_at "required_resources" tool in
  Ok (dict_of [first_text "name" [dgetn "name" tool; dgetn "tool_name" tool]; text "side_effect_level" tool;
               ("required_resources", VList resources); ("approval_required", flag "approval_required" tool)]).

Definition summarize_skill_descriptor (skill : dict) : dict :=
  dict_of [text "name" skill; text "schema_version" skill; ("workflow_plan_required", flag "workflow_plan_required" skill);
           ("json_output_required", flag "json_output_required" skill);
           ("release_target_promotion_blocked", flag "release_target_promotion_blocked" skill);
           ("callback_audit_required", flag "callback_audit_required" skill)].

(** The field itself when the descriptor has it, else the one of its boundaries. *)
Definition boundary (key : string) (mcp : dict) : result (string * pyval) :=
  match dget (KStr key) mcp with
  | Some v => Ok (key, VBool (py_truthy v))
  | None => let! safety_boundaries := sub_dict "safety_boundaries" mcp in Ok (key, flag key safety_boundaries)
  end.

Definition summarize_mcp_descriptor (mcp : dict) : result dict :=
  let! read_only := py_len (por (dgetn "read_only_tools" mcp) (VList [])) in
  let! blocked := py_len (por (dgetn "blocked_tools" mcp) (VList [])) in
  let! forbidden := boundary "tool_execution_via_mcp_forbidden" mcp in
  let! external := boundary "external_mcp_connection_enabled" mcp in
  Ok (dict_of [text "bridge_name" mcp; text "schema_version" mcp; text "bridge_mode" mcp; text "transport" mcp;
               ("read_only_tool_count", VInt read_only); ("blocked_tool_count", VInt blocked);
               forbidden; external]).

Definition summarize_multimodal (summary : dict) : result dict :=
  let! input_modes := list_at "input_modes" summary in
  let! response_modes := list_at "response_modes" summary in
  let! text_count := count_at "text_count" summary in
  let! text_preview := list_at "text_preview" summary in
  let! images := count_at "image_ref_count" summary in
  let! audio := count_at "audio_ref_count" summary in
  let! video := count_at "video_ref_count" summary in
  Ok (dict_of [text "request_id" summary; ("input_modes", VList input_modes); ("response_modes", VList response_modes);
               ("profile_hint", VStr (str_or "profile_hint" "auto" summary)); text "latency_class" summary;
               ("text_count", text_count); ("text_preview", VList text_preview); ("image_ref_count", images);
               ("audio_ref_count", audio); ("video_ref_count", video); text "provenance" summary]).

Definition summarize_profile_route (route : dict) : result dict :=
  let! rejections := count_at "candidate_rejection_count" route in
  Ok (dict_of [("requested_profile", VStr (str_or "requested_profile" "auto" route)); text "selected_profile" route;
               ("route_status", VStr (str_or "route_status" "unknown" route)); text "route_reason" route;
               text "failure_status" route; ("fallback_used", flag "fallback_used" route);
               ("candidate_rejection_count", rejections); ("requires_live_backend", flag "requires_live_backend" route);
               ("route_ready", flag "route_ready" route)]).

Definition presentation_keys : list string :=
  ["prompt_safe_multimodal_summary_only"; "internal_facts_remain_core_owned"; "model_may_not_execute_tools_directly";
   "user_visible_output_separated_from_internal_facts"].

Definition summarize_affective_runtime_context (context : dict) : result dict :=
  let! multimodal := sub_dict "multimodal_summary" context in
  let! multimodal := summarize_multimodal multimodal in
  let! route := sub_dict "profile_route" context in
  let! route := summarize_profile_route route in
  let! policy := sub_dict "presentation_policy" context in
  Ok (dict_of [text "schema_version" context; ("multimodal_summary", VDict multimodal); ("profile_route", VDict route);
               ("presentation_policy", VDict (dict_of (map (fun key => (key, flag key policy)) presentation_keys)))]).

(** ** Recall *)

Definition classify_memory_recall_item (item : dict) : result string :=
  let! payload := sub_dict "payload" item in
  let! governance := sub_dict "memory_governance" payload in
  let lifecycle_state := str_or "lifecycle_state" "" governance in
  let retention_class := str_or "retention_class" "" governance in
  let or_unknown s := if String.eqb s "" then "unknown" else s in
  Ok (if match governance with [] => true | _ => false end then "ungoverned_memory_result"
      else if negb (String.eqb lifecycle_state "committed") then "lifecycle_" +:+ or_unknown lifecycle_state
      else if String.eqb retention_class "user_context" then "affective_long_term"
      else if str_in retention_class ["operational_lesson"; "operational_context"] then "rational_operational"
      else "retention_" +:+ or_unknown retention_class).

(** The affective and the rational summaries so far, and how many were left out, by category. *)
Record Recall := { rc_affective : list dict; rc_rational : list dict; rc_filtered : dict }.

Definition increment (category : string) (counts : dict) : dict :=
  dset (KStr category) (VInt (match dget (KStr category) counts with Some (VInt n) => n + 1 | _ => 1 end)) counts.

Definition recall_item (r : Recall) (item : dict) : result Recall :=
  let! classification := classify_memory_recall_item item in
  let! summary := summarize_memory_item item in
  Ok (if String.eqb classification "affective_long_term" then
        {| rc_affective := rc_affective r ++ [summary]; rc_rational := rc_rational r; rc_filtered := rc_filtered r |}
      else if String.eqb classification "rational_operational" then
        {| rc_affective := rc_affective r; rc_rational := rc_rational r ++ [summary]; rc_filtered := rc_filtered r |}
      else {| rc_affective := rc_affective r; rc_rational := rc_rational r;
              rc_filtered := increment classification (rc_filtered r) |}).

Fixpoint recall_items (r : Recall) (items : list dict) : result Recall :=
  match items with
  | [] => Ok r
  | item :: rest => let! r' := recall_item r item in recall_items r' rest
  end.

Definition recall (items : list dict) : result Recall :=
  recall_items {| rc_affective := []; rc_rational := []; rc_filtered := [] |} items.

(** [sorted({id for ... if id})] *)
Definition source_refs (summaries : list dict) : list string :=
  sorted_strings (remove_dups (List.filter (fun s => negb (String.eqb s "")) (map (str_or "memory_id" "") summaries))).

Definition recall_side (policy_mode : string) (summaries : list dict) (filtered : dict) : pyval :=
  VDict (dict_of [("policy_mode", VStr policy_mode); ("selected_count", VInt (Z.of_nat (length summaries)));
                  ("items", VList (map VDict (take 5 summaries))); ("source_refs", VList (vstrs (take 10 (source_refs summaries))));
                  ("filtered_out_categories", VDict filtered)]).

Definition recall_to_dict (lookup_count : nat) (memory_runtime : dict) (r : Recall) : dict :=
  dict_of [("schema_version", VStr MEMORY_RECALL_POLICY_SCHEMA_VERSION); ("lookup_count", VInt (Z.of_nat lookup_count));
           text "backend_kind" memory_runtime; text "fallback_backend" memory_runtime;
           ("fallback_active", flag "fallback_active" memory_runtime); text "last_lookup_status" memory_runtime;
           ("affective_recall", recall_side "affective_long_term_context" (rc_affective r) (rc_filtered r));
           ("rational_recall", recall_side "rational_operational_context" (rc_rational r) (rc_filtered r));
           ("filtered_out_categories", VDict (rc_filtered r)); ("runtime", VDict (summarize_runtime_metadata memory_runtime))].

(** ** The context *)

Definition summaries (summarize : dict -> result dict) (l : list pyval) : result pyval :=
  let! ds := rmap summarize (dicts_of l) in Ok (VList (map VDict ds)).

(** [d.get(key) or []], as it is *)
Definition list_value (key : string) (d : dict) : pyval := por (dgetn (KStr key) d) (VList []).

Definition safety_boundaries : dict :=
  dict_of [("model_context_only", VBool true); ("can_execute_tools_directly", VBool false);
           ("tool_execution_requires_core_policy", VBool true); ("approval_and_lease_gates_authoritative", VBool true);
           ("prompt_safe_multimodal_summary_only", VBool true)].

Definition build_prompt_safe_context (session_context : dict) (frame : PerceptionFrame)
    (memory_items available_tools : list dict) : result dict :=
  let previous_spans := list_value "previous_execution_spans" session_context in
  let! recalled := recall memory_items in
  let! memory_runtime := sub_dict "memory_runtime" session_context in
  let runtime := VDict (summarize_runtime_metadata memory_runtime) in
  let! previous_count := py_len previous_spans in
  let! audit_ids := list_at "recent_audit_ids" session_context in
  let! first_spans := py_prefix 5 previous_spans in
  let! previous := summaries summarize_execution_span first_spans in
  let! first_approvals := py_prefix 5 (list_value "pending_approval_requests" session_context) in
  let! approvals := summaries summarize_pending_approval first_approvals in
  let! maf := sub_dict "maf_runtime" session_context in
  let! maf := summarize_maf_runtime maf in
  let! tools := summaries summarize_tool_contract (map VDict (take 20 available_tools)) in
  let! first_skills := py_prefix 5 (list_value "skill_descriptors" session_context) in
  let! skills := summaries (fun d => Ok (summarize_skill_descriptor d)) first_skills in
  let! first_mcps := py_prefix 5 (list_value "mcp_descriptors" session_context) in
  let! mcps := summaries summarize_mcp_descriptor first_mcps in
  let! affective := sub_dict "affective_runtime_context" session_context in
  let! affective := summarize_affective_runtime_context affective in
  let rational_items := VList (map VDict (take 5 (rc_rational recalled))) in
  Ok (dict_of
    [("schema_version", VStr PROMPT_SAFE_CONTEXT_SCHEMA_VERSION); text "session_id" session_context;
     text "execution_span_id" session_context; text "target_app_id" session_context;
     ("frame", VDict (dict_of [("frame_id", VStr (frame_id frame)); ("event_ids", VList (vstrs (event_ids frame)));
                               ("topics", VList (topics frame)); ("highest_priority", VInt (highest_priority frame))]));
     ("history", VDict (dict_of [("previous_execution_count", VInt previous_count);
                                 ("recent_audit_ids", VList (take 5 audit_ids)); ("previous_executions", previous)]));
     ("pending_approvals", approvals);
     ("memory", VDict (dict_of
        [("lookup_count", VInt (Z.of_nat (length memory_items))); ("items", rational_items);
         ("affective_items", VList (map VDict (take 5 (rc_affective recalled)))); ("rational_items", rational_items);
         ("recall_policy", VDict (recall_to_dict (length memory_items) memory_runtime recalled)); ("runtime", runtime)]));
     ("runtime", VDict (dict_of [("maf", VDict maf); ("memory", runtime)])); ("available_tools", tools);
     ("skills", skills); ("mcp_bridges", mcps); ("affective_runtime", VDict affective);
     ("safety_boundaries", VDict safety_boundaries)]).

(** ** What a context may show

    A shape says which fields of a value are read; [redact] erases all others. *)

Inductive shape :=
  | Keep                                 (* the value as it is *)
  | Drop                                 (* erased *)
  | Fields (fields : list (string * shape))
  | Items (item : shape).

Fixpoint field_shape (k : pykey) (fields : list (string * shape)) : shape :=
  match fields with
  | [] => Drop
  | (name, s) :: rest => if decide (key_norm k = inl name) then s else field_shape k rest
  end.

Fixpoint redact (v : pyval) (s : shape) {struct v} : pyval :=
  match s with
  | Keep => v
  | Drop => VNone
  | Fields fields =>
      match v with
      | VDict d => VDict (map (fun kv => (kv.1, redact kv.2 (field_shape kv.1 fields))) d)
      | _ => v
      end
  | Items item =>
      match v with
      | VList l => VList (map (fun x => redact x item) l)
      | VTuple l => VTuple (map (fun x => redact x item) l)
      | _ => v
      end
  end.

Definition redact_fields (fields : list (string * shape)) (d : dict) : dict :=
  map (fun kv => (kv.1, redact kv.2 (field_shape kv.1 fields))) d.

Definition kept (keys : list string) : list (string * shape) := map (fun k => (k, Keep)) keys.

Definition span_fields := kept ["execution_span_id"; "status"] ++
  [("payload", Fields (kept ["steps"; "delegated"; "tool_result_count"; "audit_id"]))].
Definition approval_fields := kept ["approval_request_id"; "tool_name"; "status"] ++
  [("payload", Fields (kept ["tool_name"; "status"; "side_effect_level"; "required_resources"; "target_app_id"] ++
     [("contract", Fields (kept ["side_effect_level"; "required_resources"]))]))].
Definition governance_fields := kept ["source_fact_refs"; "retention_class"; "lifecycle_state"; "commit_backend"].
Definition item_fields := kept ["memory_id"; "id"; "semantic_topic"; "topic"; "source"; "source_execution_span_id"; "created_at";
                                "event_ids"; "priority"] ++
  [("payload", Fields (kept ["semantic_topic"; "source"; "event_ids"; "priority"] ++
     [("memory_governance", Fields governance_fields)]))].
Definition maf_fields := kept ["provider_mode"; "real_provider_enabled"; "provider_ready_for_model_call"; "agent_roles"] ++
  [("provider_config", Fields (kept ["provider_kind"]))].
Definition tool_fields := kept ["name"; "tool_name"; "side_effect_level"; "required_resources"; "approval_required"].
Definition skill_fields := kept ["name"; "schema_version"; "workflow_plan_required"; "json_output_required";
                                 "release_target_promotion_blocked"; "callback_audit_required"].
Definition mcp_fields := kept ["bridge_name"; "schema_version"; "bridge_mode"; "transport"; "tool_execution_via_mcp_forbidden";
                               "external_mcp_connection_enabled"] ++
  [("read_only_tools", Items Drop); ("blocked_tools", Items Drop);
   ("safety_boundaries", Fields (kept ["tool_execution_via_mcp_forbidden"; "external_mcp_connection_enabled"]))].
Definition multimodal_keys := ["request_id"; "input_modes"; "response_modes"; "profile_hint"; "latency_class"; "text_count";
  "text_preview"; "image_ref_count"; "audio_ref_count"; "video_ref_count"; "provenance"].
Definition route_keys := ["requested_profile"; "selected_profile"; "route_status"; "route_reason"; "failure_status";
  "fallback_used"; "candidate_rejection_count"; "requires_live_backend"; "route_ready"].
Definition affective_fields := kept ["schema_version"] ++
  [("multimodal_summary", Fields (kept multimodal_keys)); ("profile_route", Fields (kept route_keys));
   ("presentation_policy", Fields (kept presentation_keys))].
Definition context_fields := kept ["session_id"; "execution_span_id"; "target_app_id"; "recent_audit_ids"] ++
  [("previous_execution_spans", Items (Fields span_fields)); ("pending_approval_requests", Items (Fields approval_fields));
   ("memory_runtime", Fields (kept runtime_keys)); ("maf_runtime", Fields maf_fields);
   ("skill_descriptors", Items (Fields skill_fields)); ("mcp_descriptors", Items (Fields mcp_fields));
   ("affective_runtime_context", Fields affective_fields)].

(** ** Redaction and reading *)

Lemma redact_keep v : redact v Keep = v.
Proof. by destruct v. Qed.

Lemma redact_truthy v s : s <> Drop -> py_truthy (redact v s) = py_truthy v.
Proof. destruct v, s; try done; cbn; by destruct l || destruct d || idtac. Qed.

Lemma redact_dict d fields : redact (VDict d) (Fields fields) = VDict (redact_fields fields d).
Proof. done. Qed.

Section Reading.
Variable fields : list (string * shape).

Lemma dget_redact k d : dget (KStr k) (redact_fields fields d) =
  option_map (fun v => redact v (field_shape (KStr k) fields)) (dget (KStr k) d).
Proof.
  unfold dget. induction d as [|[k' v] d IH]; cbn [redact_fields map od_get fst snd]; [done|].
  change (map _ d) with (redact_fields fields d). cbn [key_norm].
  destruct (decide (key_norm k' = inl k)) as [E|E]; [|apply IH]. cbn [option_map]. do 2 f_equal.
  clear IH. induction fields as [|[name s] rest IH]; cbn [field_shape]; [done|]. rewrite E. cbn [key_norm].
  by destruct (decide (inl k = inl name)).
Qed.

Lemma dgetn_redact k s d : field_shape (KStr k) fields = s -> dgetn (KStr k) (redact_fields fields d) = redact (dgetn (KStr k) d) s.
Proof. intros <-. rewrite !dgetn_eq, dget_redact. destruct (dget (KStr k) d); [done|]. by destruct (field_shape _ _). Qed.

Lemma dgetn_kept k d : field_shape (KStr k) fields = Keep -> dgetn (KStr k) (redact_fields fields d) = dgetn (KStr k) d.
Proof. intros H. rewrite (dgetn_redact k Keep) by done. apply redact_keep. Qed.

Lemma dget_kept k d : field_shape (KStr k) fields = Keep -> dget (KStr k) (redact_fields fields d) = dget (KStr k) d.
Proof. intros H. rewrite dget_redact, H. destruct (dget _ _); [|done]. cbn. by rewrite redact_keep. Qed.

Lemma dget_or_kept k x d : field_shape (KStr k) fields = Keep -> dget_or (KStr k) x (redact_fields fields d) = dget_or (KStr k) x d.
Proof. intros H. by rewrite !dget_or_eq, dget_kept. Qed.

Lemma str_or_kept k x d : field_shape (KStr k) fields = Keep -> str_or k x (redact_fields fields d) = str_or k x d.
Proof. intros H. unfold str_or. by rewrite dgetn_kept. Qed.

Lemma list_at_kept k d : field_shape (KStr k) fields = Keep -> list_at k (redact_fields fields d) = list_at k d.
Proof. intros H. unfold list_at. by rewrite dgetn_kept. Qed.

Lemma count_at_kept k d : field_shape (KStr k) fields = Keep -> count_at k (redact_fields fields d) = count_at k d.
Proof. intros H. unfold count_at. by rewrite dgetn_kept. Qed.

Lemma sub_dict_redact k sub d :
  field_shape (KStr k) fields = Fields sub ->
  sub_dict k (redact_fields fields d) = (let! d' := sub_dict k d in Ok (redact_fields sub d')).
Proof.
  intros H. unfold sub_dict, por. rewrite (dgetn_redact k (Fields sub)), redact_truthy by done.
  destruct (py_truthy (dgetn (KStr k) d)); [|done]. by destruct (dgetn (KStr k) d).
Qed.

Lemma list_value_redact k item d :
  field_shape (KStr k) fields = Items item -> list_value k (redact_fields fields d) = redact (list_value k d) (Items item).
Proof.
  intros H. unfold list_value, por. rewrite (dgetn_redact k (Items item)), redact_truthy by done.
  by destruct (py_truthy (dgetn (KStr k) d)).
Qed.
End Reading.

Lemma py_len_items v item : py_len (redact v (Items item)) = py_len v.
Proof. destruct v; cbn; by rewrite ?length_map. Qed.

Lemma py_prefix_items n v item :
  (forall s, redact (VStr s) item = VStr s) ->
  py_prefix n (redact v (Items item)) = (let! l := py_prefix n v in Ok (map (fun x => redact x item) l)).
Proof.
  intros Hs. destruct v; cbn; rewrite ?firstn_map; try done. do 2 f_equal. rewrite map_map. apply map_ext. intros c. by rewrite Hs.
Qed.

Lemma dicts_of_redact fields l : dicts_of (map (fun x => redact x (Fields fields)) l) = map (redact_fields fields) (dicts_of l).
Proof. unfold dicts_of. induction l as [|[] l IH]; cbn; try done. by f_equal. Qed.

(** A summary that only reads [fields]. *)
Definition reads (fields : list (string * shape)) {A} (summarize : dict -> A) : Prop :=
  forall d, summarize (redact_fields fields d) = summarize d.

Lemma summaries_redact fields summarize l :
  reads fields summarize -> summaries summarize (map (fun x => redact x (Fields fields)) l) = summaries summarize l.
Proof.
  intros H. unfold summaries, rmap. rewrite dicts_of_redact, map_map. do 2 f_equal. by apply map_ext.
Qed.

Ltac read_fields :=
  repeat first [ rewrite dgetn_kept by reflexivity | rewrite dget_kept by reflexivity | rewrite dget_or_kept by reflexivity
               | rewrite str_or_kept by reflexivity | rewrite list_at_kept by reflexivity | rewrite count_at_kept by reflexivity ].
Ltac read_sub k :=
  match goal with |- context [sub_dict k (redact_fields ?fs ?d)] =>
    erewrite (sub_dict_redact fs k) by reflexivity; destruct (sub_dict k d) as [?|?]; cbn [rbind]; [|reflexivity]
  end.

Lemma span_reads : reads span_fields summarize_execution_span.
Proof. intros d. unfold summarize_execution_span, text, flag. read_sub "payload". by read_fields. Qed.

Lemma approval_reads : reads approval_fields summarize_pending_approval.
Proof.
  intros d. unfold summarize_pending_approval, from_contract, text, first_text, flag. read_sub "payload". read_fields.
  match goal with |- context [sub_dict "contract" (redact_fields ?fs ?d)] =>
    erewrite (sub_dict_redact fs "contract") by reflexivity; destruct (sub_dict "contract" d) as [?|?]; cbn [rbind] end;
    by read_fields.
Qed.

Lemma item_reads : reads item_fields summarize_memory_item.
Proof.
  intros d. unfold summarize_memory_item, text, first_text. read_sub "payload". read_sub "memory_governance". by read_fields.
Qed.

Lemma classify_reads : reads item_fields classify_memory_recall_item.
Proof.
  intros d. unfold classify_memory_recall_item. read_sub "payload". read_sub "memory_governance". read_fields.
  match goal with |- context [redact_fields _ ?g] => by destruct g end.
Qed.

Lemma omap_agree {A B} (f g : A -> option B) l : Forall (fun x => f x = g x) l -> omap f l = omap g l.
Proof.
  induction 1 as [|x l Hx _ IH]; [reflexivity|]. change (match f x with Some y => y :: omap f l | None => omap f l end =
    match g x with Some y => y :: omap g l | None => omap g l end). rewrite Hx, IH. reflexivity.
Qed.

Lemma omap_kept fields keys d :
  Forall (fun k => field_shape (KStr k) fields = Keep) keys ->
  omap (fun key => match dget (KStr key) (redact_fields fields d) with Some v => Some (key, v) | None => None end) keys =
  omap (fun key => match dget (KStr key) d with Some v => Some (key, v) | None => None end) keys.
Proof. intros H. apply omap_agree. eapply Forall_impl; [exact H|]. intros k Hk. cbn beta. rewrite dget_kept by exact Hk. reflexivity. Qed.

Lemma runtime_reads : reads (kept runtime_keys) summarize_runtime_metadata.
Proof.
  intros d. unfold summarize_runtime_metadata. f_equal. apply omap_kept.
  repeat (constructor; [reflexivity|]). constructor.
Qed.

Lemma maf_reads : reads maf_fields summarize_maf_runtime.
Proof. intros d. unfold summarize_maf_runtime, text, flag. read_sub "provider_config". by read_fields. Qed.

Lemma tool_reads : reads tool_fields summarize_tool_contract.
Proof. intros d. unfold summarize_tool_contract, text, first_text, flag. by read_fields. Qed.

Lemma skill_reads : reads skill_fields (fun d => Ok (summarize_skill_descriptor d)).
Proof. intros d. unfold summarize_skill_descriptor, text, flag. by read_fields. Qed.

Lemma len_redact fields k item d :
  field_shape (KStr k) fields = Items item ->
  py_len (por (dgetn (KStr k) (redact_fields fields d)) (VList [])) = py_len (por (dgetn (KStr k) d) (VList [])).
Proof. intros H. pose proof (list_value_redact fields k item d H) as E. unfold list_value in E. by rewrite E, py_len_items. Qed.

Lemma mcp_reads : reads mcp_fields summarize_mcp_descriptor.
Proof.
  intros d. unfold summarize_mcp_descriptor, text, boundary, flag.
  rewrite (len_redact _ "read_only_tools" Drop), (len_redact _ "blocked_tools" Drop) by done. read_fields.
  erewrite (sub_dict_redact mcp_fields "safety_boundaries") by reflexivity.
  destruct (sub_dict "safety_boundaries" d); cbn [rbind]; by read_fields.
Qed.

Lemma multimodal_reads : reads (kept multimodal_keys) summarize_multimodal.
Proof. intros d. unfold summarize_multimodal, text. by read_fields. Qed.

Lemma route_reads : reads (kept route_keys) summarize_profile_route.
Proof. intros d. unfold summarize_profile_route, text, flag. by read_fields. Qed.

Lemma affective_reads : reads affective_fields summarize_affective_runtime_context.
Proof.
  intros d. unfold summarize_affective_runtime_context, text. read_sub "multimodal_summary".
  rewrite multimodal_reads. destruct (summarize_multimodal _); cbn [rbind]; [|reflexivity].
  read_sub "profile_route". rewrite route_reads. destruct (summarize_profile_route _); cbn [rbind]; [|reflexivity].
  read_sub "presentation_policy". unfold presentation_keys, flag. cbn [map]. by read_fields.
Qed.

Lemma recall_reads items : recall (map (redact_fields item_fields) items) = recall items.
Proof.
  unfold recall. generalize {| rc_affective := []; rc_rational := []; rc_filtered := [] |}.
  induction items as [|item items IH]; intros r; cbn [map recall_items]; [done|].
  unfold recall_item. rewrite classify_reads, item_reads.
  destruct (classify_memory_recall_item item); [|done]. cbn [rbind]. destruct (summarize_memory_item item); [|done]. apply IH.
Qed.

Lemma recall_runtime_reads n d r : recall_to_dict n (redact_fields (kept runtime_keys) d) r = recall_to_dict n d r.
Proof.
  unfold recall_to_dict, text, flag. pose proof (runtime_reads d) as E.
  set (f := summarize_runtime_metadata) in *. rewrite E. clear E. clearbody f. read_fields. reflexivity.
Qed.

(** A list of the session, summarised, when only its length and its items' fields are read. *)
Lemma prefix_redact {B} k fields item n summarize (K : pyval -> result B) d :
  field_shape (KStr k) fields = Items (Fields item) -> reads item summarize ->
  (let! l := py_prefix n (list_value k (redact_fields fields d)) in let! out := summaries summarize l in K out) =
  (let! l := py_prefix n (list_value k d) in let! out := summaries summarize l in K out).
Proof.
  intros Hk Hr. rewrite (list_value_redact _ _ _ _ Hk), py_prefix_items by done.
  destruct (py_prefix n (list_value k d)); [|done]. cbn [rbind].
  rewrite (summaries_redact item) by exact Hr. reflexivity.
Qed.

Lemma py_len_list fields k item d :
  field_shape (KStr k) fields = Items item -> py_len (list_value k (redact_fields fields d)) = py_len (list_value k d).
Proof. intros H. rewrite (list_value_redact _ _ _ _ H). apply py_len_items. Qed.

Lemma tools_redact tools n :
  summaries summarize_tool_contract (map VDict (take n (map (redact_fields tool_fields) tools))) =
  summaries summarize_tool_contract (map VDict (take n tools)).
Proof.
  rewrite firstn_map, map_map. rewrite <- (summaries_redact tool_fields _ (map VDict _) tool_reads), map_map. reflexivity.
Qed.

(** The two sides read the same value next. *)
Ltac next_result :=
  match goal with |- rbind ?x _ = rbind ?x _ => destruct x as [?|?]; cbn [rbind]; [|reflexivity] end.

(** ** Recall *)

(** The items of a class, in order. *)
Definition of_class (c : string) (items : list dict) : list dict :=
  List.filter (fun item => match classify_memory_recall_item item with Ok c' => String.eqb c' c | Raise _ => false end) items.

Definition recalled_count (counts : dict) (c : string) : Z :=
  match dget (KStr c) counts with Some (VInt n) => n | _ => 0 end.

(** The state of a recall after [done] items. *)
Record recalled (seen : list dict) (r : Recall) : Prop := {
  re_affective : Forall2 (fun item d => summarize_memory_item item = Ok d) (of_class "affective_long_term" seen) (rc_affective r);
  re_rational : Forall2 (fun item d => summarize_memory_item item = Ok d) (of_class "rational_operational" seen) (rc_rational r);
  re_filtered : forall c, c <> "affective_long_term" -> c <> "rational_operational" ->
    recalled_count (rc_filtered r) c = Z.of_nat (length (of_class c seen));
  re_counts : forall c v, dget (KStr c) (rc_filtered r) = Some v -> exists n, v = VInt n;
}.

Lemma of_class_snoc c seen item c' :
  classify_memory_recall_item item = Ok c' ->
  of_class c (seen ++ [item]) = of_class c seen ++ (if String.eqb c' c then [item] else []).
Proof. intros E. unfold of_class. rewrite List.filter_app. cbn [List.filter]. rewrite E. by destruct (String.eqb c' c). Qed.

Lemma increment_count c c' counts :
  (forall c v, dget (KStr c) counts = Some v -> exists n, v = VInt n) ->
  recalled_count (increment c counts) c' = recalled_count counts c' + (if String.eqb c c' then 1 else 0).
Proof.
  intros Hc. unfold recalled_count, increment. rewrite dget_dset_str. destruct (String.eqb_spec c c') as [->|Hne].
  - destruct (dget (KStr c') counts) as [v|] eqn:E; [|done]. by destruct (Hc _ _ E) as [n ->].
  - destruct (dget (KStr c') counts) as [[]|]; lia.
Qed.

Lemma recall_step seen r item r' : recalled seen r -> recall_item r item = Ok r' -> recalled (seen ++ [item]) r'.
Proof.
  intros [Ha Hr Hf Hc] E. unfold recall_item in E.
  destruct (classify_memory_recall_item item) as [c|] eqn:Ec; [|done]. cbn [rbind] in E.
  destruct (summarize_memory_item item) as [d|] eqn:Ed; [|done]. cbn [rbind] in E.
  destruct (String.eqb_spec c "affective_long_term") as [->|Hna]; [|destruct (String.eqb_spec c "rational_operational") as [->|Hnr]];
    injection E as <-; split; intros; cbn [rc_affective rc_rational rc_filtered] in *; rewrite ?(of_class_snoc _ _ _ _ Ec).
  all: try match goal with H : context [dget _ (increment _ _)] |- _ =>
             unfold increment in H; rewrite dget_dset_str in H; destruct (String.eqb _ _); [naive_solver|eauto] end.
  all: try match goal with |- recalled_count _ _ = _ => rewrite ?increment_count by exact Hc; rewrite Hf by assumption end.
  all: repeat match goal with |- context [String.eqb ?a ?b] => destruct (String.eqb_spec a b); subst; try congruence end.
  all: rewrite ?app_nil_r, ?length_app; cbn [length]; try (apply Forall2_app; [assumption|constructor; [exact Ed|constructor]]).
  all: first [assumption | lia | eauto].
Qed.

Lemma recall_run items seen r r' : recalled seen r -> recall_items r items = Ok r' -> recalled (seen ++ items) r'.
Proof.
  revert seen r. induction items as [|item items IH]; intros seen r Hr E; cbn [recall_items] in E.
  - injection E as <-. rewrite app_nil_r. exact Hr.
  - destruct (recall_item r item) as [r1|] eqn:E1; [|discriminate]. cbn [rbind] in E.
    rewrite (app_assoc seen [item] items : seen ++ item :: items = _). exact (IH _ _ (recall_step _ _ _ _ Hr E1) E).
Qed.

(** The governance record of a memory item. *)
Definition governance_of (item : dict) : result dict :=
  let! payload := sub_dict "payload" item in sub_dict "memory_governance" payload.

(** Its governance is committed, with this retention class. *)
Definition committed_as (classes : list string) (item : dict) : Prop :=
  exists governance, governance_of item = Ok governance /\
    str_or "lifecycle_state" "" governance = "committed" /\ str_in (str_or "retention_class" "" governance) classes = true.

Lemma classify_committed item :
  (classify_memory_recall_item item = Ok "affective_long_term" <-> committed_as ["user_context"] item) /\
  (classify_memory_recall_item item = Ok "rational_operational" <->
   committed_as ["operational_lesson"; "operational_context"] item).
Proof.
  unfold committed_as, governance_of, classify_memory_recall_item.
  destruct (sub_dict "payload" item) as [payload|]; cbn [rbind];
    [|split; (split; [discriminate|]); intros (? & ? & _); discriminate].
  destruct (sub_dict "memory_governance" payload) as [g|]; cbn [rbind];
    [|split; (split; [discriminate|]); intros (? & ? & _); discriminate].
  destruct g as [|e g]; [split; (split; [discriminate|]); intros (g & E & E1 & _); injection E as <-; discriminate|].
  set (g' := e :: g). cbv zeta.
  assert (Hg : forall classes, (exists gov, Ok g' = Ok gov /\ str_or "lifecycle_state" "" gov = "committed" /\
     str_in (str_or "retention_class" "" gov) classes = true) <->
     (str_or "lifecycle_state" "" g' = "committed" /\ str_or "retention_class" "" g' ∈ classes)).
  { intros classes. setoid_rewrite str_in_true. split; [intros (gov & E & ? & ?); injection E as <-|exists g']; auto. }
  rewrite !Hg. clear Hg.
  generalize (str_or "lifecycle_state" "" g') (str_or "retention_class" "" g'). intros state retention. subst g'.
  destruct (String.eqb_spec state "committed") as [->|Hs]; cbn [negb];
    [|split; (split; [intros E; injection E; discriminate|intros [E _]; contradiction])].
  destruct (String.eqb_spec retention "user_context") as [->|Hu]; [split; set_solver|].
  destruct (str_in retention _) eqn:Hr; [apply str_in_true in Hr|apply str_in_false in Hr]; (split; [set_solver|]).
  - set_solver.
  - split; [|tauto]. intros E. injection E. discriminate.
Qed.

(** The recall policy, when it succeeds: the affective memories given to a model are
    exactly the retrieved ones whose governance is committed with the retention class of user
    context, in order; the rational ones exactly those committed as operational; and the items
    of every other class are counted, item for item, under that class as filtered out. *)
Theorem recall_policy_spec items r :
  recall items = Ok r ->
  recalled items r /\
  (forall item, classify_memory_recall_item item = Ok "affective_long_term" <-> committed_as ["user_context"] item) /\
  (forall item, classify_memory_recall_item item = Ok "rational_operational" <->
                committed_as ["operational_lesson"; "operational_context"] item).
Proof.
  intros E. split; [|split; intros item; apply classify_committed].
  apply (recall_run items [] _ _) in E; [exact E|]. split; try constructor; intros; discriminate.
Qed.

Definition memory_item (id state class : string) : dict :=
  dict_of [("memory_id", VStr id); ("payload", VDict (dict_of
    [("memory_governance", VDict (dict_of [("lifecycle_state", VStr state); ("retention_class", VStr class)]))]))].

Definition retrieved_items : list dict :=
  [memory_item "m1" "committed" "user_context"; memory_item "m2" "proposed" "user_context";
   memory_item "m3" "committed" "operational_lesson"; memory_item "m4" "proposed" "operational_lesson"].

Lemma recall_policy_spec_witness :
  exists r, recall retrieved_items = Ok r /\ recalled retrieved_items r /\
    length (rc_affective r) = 1%nat /\ recalled_count (rc_filtered r) "lifecycle_proposed" = 2.
Proof.
  eexists. split; [vm_compute; reflexivity|]. split; [|split; reflexivity].
  apply recall_policy_spec. vm_compute. reflexivity.
Defined.

(** C37: [build_prompt_safe_context] reads the listed fields and nothing else: the context it builds from a session, the memories and
    the tools is the same as the one it builds after every field outside [context_fields], [item_fields] and [tool_fields] has been
    erased, at every depth; the payload of a span, an approval or a memory, for one, only contributes the listed fields. This is about
    the session context of the two prompts: beside it the rational model is given the contracts of the available tools in full. *)
Theorem context_shows_listed_fields_only ctx frame items tools :
  build_prompt_safe_context (redact_fields context_fields ctx) frame
      (map (redact_fields item_fields) items) (map (redact_fields tool_fields) tools) =
  build_prompt_safe_context ctx frame items tools.
Proof.
  unfold build_prompt_safe_context. rewrite recall_reads, length_map.
  next_result. read_sub "memory_runtime". cbv zeta.
  rewrite runtime_reads, recall_runtime_reads. unfold text. read_fields.
  erewrite py_len_list by reflexivity. next_result. next_result.
  erewrite prefix_redact by first [reflexivity | exact span_reads]. do 2 next_result.
  erewrite prefix_redact by first [reflexivity | exact approval_reads]. do 2 next_result.
  read_sub "maf_runtime". rewrite maf_reads. next_result.
  rewrite tools_redact. next_result.
  erewrite prefix_redact by first [reflexivity | exact skill_reads]. do 2 next_result.
  erewrite prefix_redact by first [reflexivity | exact mcp_reads]. do 2 next_result.
  read_sub "affective_runtime_context". rewrite affective_reads. next_result. reflexivity.
Qed.

(** The tools of the workflow are the contracts of the manifest, whose [required_resources] are
    under another name, so a model is always told that a tool needs none. *)
Lemma contract_resources_hidden c :
  exists d, summarize_tool_contract (contract_to_dict c) = Ok d /\ dget "required_resources" d = Some (VList []) /\
            dget "lease_requirements" (contract_to_dict c) <> None.
Proof. eexists. split; [reflexivity|]. split; [reflexivity|discriminate]. Qed.

(** The redaction really erases: the arguments of a pending approval and the text of a memory. *)
Example redaction_erases :
  dgetn "payload" (redact_fields approval_fields (dict_of
    [("tool_name", VStr "t"); ("payload", VDict (dict_of [("args", VStr "secret"); ("target_app_id", VStr "a")]))])) =
  VDict (dict_of [("args", VNone); ("target_app_id", VStr "a")]).
Proof. reflexivity. Qed.
