(* ===== verification/Catalog.v ===== *)
(** * The workflow catalogue ([neuro_workflow_catalog.py])

    The plans and their metadata as the source lists them, entry by entry. *)

From Stdlib Require Import ZArith List Ascii String.
From stdpp Require Import base list option strings.
From S2P Require Import Prelude PyFloat Text PyValue Json.

#[local] Open Scope string_scope.
#[local] Open Scope Z_scope.
#[local] Open Scope list_scope.

(** [neuro_protocol.py] *)
Definition DEFAULT_WIRE_ENCODING : string := "cbor-v2".

Definition RELEASE_TARGET : string := "2.2.5".

Definition release_label (suffix : string) : string := "release-" +:+ RELEASE_TARGET +:+ "-" +:+ suffix.
Definition default_app_echo : string := "neuro_unit_app-" +:+ RELEASE_TARGET +:+ "-cbor-v2".

(** ** Plans *)

Definition plan_setup_linux : dict := dict_of
    [("category", VStr "setup");
     ("description", VStr "construct and validate a Linux NeuroLink build/test/control host");
     ("commands", VList (vstrs
       ["sudo apt-get update";
        "sudo apt-get install -y git python3 python3-venv python3-pip cmake ninja-build gperf ccache dfu-util device-tree-compiler wget curl xz-utils file make gcc gcc-multilib g++-multilib libsdl2-dev libmagic1 clang-format perl usbutils";
        "python3 -m venv .venv";
        "source .venv/bin/activate && python3 -m pip install --upgrade pip wheel west";
        "source .venv/bin/activate && python3 -m pip install -r zephyr/scripts/requirements.txt -r applocation/NeuroLink/neuro_cli/requirements.txt";
        "source .venv/bin/activate && west update";
        "cat zephyr/SDK_VERSION";
        "export ZEPHYR_SDK_INSTALL_DIR=${HOME}/zephyr-sdk-$(cat zephyr/SDK_VERSION)";
        "source applocation/NeuroLink/scripts/setup_neurolink_env.sh --activate --strict --install-neuro-cli-deps";
        "python applocation/NeuroLink/neuro_cli/scripts/invoke_neuro_cli.py system init";
        "python applocation/NeuroLink/neuro_cli/scripts/invoke_neuro_cli.py system capabilities";
        "python applocation/NeuroLink/neuro_cli/scripts/invoke_neuro_cli.py workflow plan unit-build";
        "python applocation/NeuroLink/neuro_cli/scripts/invoke_neuro_cli.py workflow plan unit-tests";
        "python applocation/NeuroLink/neuro_cli/scripts/invoke_neuro_cli.py workflow plan app-build";
        "python applocation/NeuroLink/neuro_cli/scripts/invoke_neuro_cli.py workflow plan preflight"]));
     ("artifacts", VList (vstrs
       [".venv";
        "build/neurolink_unit";
        "build/neurolink_unit_ut_check";
        "build/neurolink_unit_app"]))].

Definition plan_setup_windows : dict := dict_of
    [("category", VStr "setup");
     ("description", VStr "construct and validate a Windows NeuroLink build/test/control host");
     ("commands", VList (vstrs
       ["winget install --id Git.Git -e --source winget";
        "winget install --id Python.Python.3.12 -e --source winget";
        "winget install --id Kitware.CMake -e --source winget";
        "winget install --id Ninja-build.Ninja -e --source winget";
        "winget install --id Microsoft.PowerShell -e --source winget";
        "py -3 -m venv .venv";
        ". .venv/Scripts/Activate.ps1";
        "python -m pip install --upgrade pip wheel west";
        "python -m pip install -r zephyr/scripts/requirements.txt -r applocation/NeuroLink/neuro_cli/requirements.txt";
        "west update";
        "Get-Content zephyr/SDK_VERSION";
        ("$env:ZEPHYR_SDK_INSTALL_DIR = " +:+ quote_mark +:+ "$HOME/zephyr-sdk-$(Get-Content zephyr/SDK_VERSION)" +:+ quote_mark);
        ". applocation/NeuroLink/scripts/setup_neurolink_env.ps1 -Strict";
        "python applocation/NeuroLink/neuro_cli/scripts/invoke_neuro_cli.py system init";
        "python applocation/NeuroLink/neuro_cli/scripts/invoke_neuro_cli.py system capabilities";
        "python applocation/NeuroLink/neuro_cli/scripts/invoke_neuro_cli.py workflow plan unit-build";
        "python applocation/NeuroLink/neuro_cli/scripts/invoke_neuro_cli.py workflow plan cli-tests";
        "python applocation/NeuroLink/neuro_cli/scripts/invoke_neuro_cli.py workflow plan app-build";
        "python applocation/NeuroLink/neuro_cli/scripts/invoke_neuro_cli.py workflow plan preflight"]));
     ("artifacts", VList (vstrs
       [".venv";
        "build/neurolink_unit";
        "build/neurolink_unit_app";
        "applocation/NeuroLink/smoke-evidence"]))].

Definition plan_discover_host : dict := dict_of
    [("category", VStr "discovery");
     ("description", VStr "read local NeuroLink workspace and CLI capability state");
     ("commands", VList (vstrs
       ["python applocation/NeuroLink/neuro_cli/scripts/invoke_neuro_cli.py system init";
        "python applocation/NeuroLink/neuro_cli/scripts/invoke_neuro_cli.py system capabilities"]));
     ("artifacts", VList []);
     ("json_contract", VDict (dict_of
       [("success", VDict (dict_of
          [("ok", VBool true);
           ("status", VStr "ready");
           ("release_target", VStr RELEASE_TARGET);
           ("agent_skill", VDict (dict_of
             [("name", VStr "neuro-cli");
              ("source_of_truth", VStr "canonical")]));
           ("protocol", VDict (dict_of
             [("wire_encoding", VStr DEFAULT_WIRE_ENCODING)]))]));
        ("failure_statuses", VList (vstrs
          ["workspace_not_found";
           "handler_failed"]))]))].

Definition plan_discover_router : dict := dict_of
    [("category", VStr "discovery");
     ("description", VStr "classify Linux Zenoh router listener state without app control");
     ("commands", VList (vstrs
       ["bash applocation/NeuroLink/scripts/preflight_neurolink_linux.sh --node unit-01 --auto-start-router --install-missing-cli-deps --output json"]));
     ("artifacts", VList []);
     ("json_contract", VDict (dict_of
       [("success", VDict (dict_of
          [("status", VStr "ready");
           ("ready", VBool true);
           ("router", VDict (dict_of
             [("listening", VBool true);
              ("port", VInt 7447);
              ("auto_started", VBool false)]))]));
        ("failure_statuses", VList (vstrs
          ["router_not_listening";
           "router_failed_to_start";
           "no_reply_board_not_attached";
           "no_reply_board_unreachable"]))]))].

Definition plan_discover_serial : dict := dict_of
    [("category", VStr "discovery");
     ("description", VStr "classify Linux USB serial visibility before hardware evidence");
     ("commands", VList (vstrs
       ["bash applocation/NeuroLink/scripts/preflight_neurolink_linux.sh --node unit-01 --require-serial --output json"]));
     ("artifacts", VList []);
     ("json_contract", VDict (dict_of
       [("success", VDict (dict_of
          [("serial", VDict (dict_of
             [("present", VBool true);
              ("devices", VList (vstrs
                ["/dev/ttyACM0"]))]))]));
        ("failure_statuses", VList (vstrs
          ["serial_device_missing"]))]))].

Definition plan_serial_discover : dict := dict_of
    [("category", VStr "discovery");
     ("description", VStr "list host serial ports available for Unit UART recovery");
     ("commands", VList (vstrs
       ["python applocation/NeuroLink/neuro_cli/scripts/invoke_neuro_cli.py serial list"]));
     ("artifacts", VList []);
     ("json_contract", VDict (dict_of
       [("success", VDict (dict_of
          [("ok", VBool true);
           ("status", VStr "ok");
           ("devices", VList
             [VDict (dict_of
                [("device", VStr "/dev/ttyACM0");
                 ("source", VStr "pyserial")])])]));
        ("failure_statuses", VList (vstrs
          ["serial_device_missing"]))]))].

Definition plan_serial_zenoh_config : dict := dict_of
    [("category", VStr "configuration");
     ("description", VStr "configure the Unit Zenoh connect endpoint through UART shell");
     ("commands", VList (vstrs
       ["python applocation/NeuroLink/neuro_cli/scripts/invoke_neuro_cli.py serial zenoh show --port /dev/ttyACM0";
        "python applocation/NeuroLink/neuro_cli/scripts/invoke_neuro_cli.py serial zenoh set tcp/<host-ip>:7447 --port /dev/ttyACM0";
        "python applocation/NeuroLink/neuro_cli/scripts/invoke_neuro_cli.py --query-retries 5 query device"]));
     ("artifacts", VList (vstrs
       ["applocation/NeuroLink/smoke-evidence/serial-diag"]));
     ("json_contract", VDict (dict_of
       [("success", VDict (dict_of
          [("ok", VBool true);
           ("status", VStr "ok");
           ("endpoint", VStr "tcp/<host-ip>:7447");
           ("verified", VBool true)]));
        ("failure_statuses", VList (vstrs
          ["serial_dependency_missing";
           "serial_device_missing";
           "serial_open_failed";
           "serial_timeout";
           "shell_error";
           "endpoint_verify_failed";
           "no_reply"]))]))].

Definition plan_serial_zenoh_recover : dict := dict_of
    [("category", VStr "configuration");
     ("description", VStr "recover Unit connectivity when router endpoint drift causes no_reply");
     ("commands", VList (vstrs
       ["python applocation/NeuroLink/neuro_cli/scripts/invoke_neuro_cli.py workflow plan discover-router";
        "python applocation/NeuroLink/neuro_cli/scripts/invoke_neuro_cli.py workflow plan serial-discover";
        "python applocation/NeuroLink/neuro_cli/scripts/invoke_neuro_cli.py workflow plan serial-zenoh-config";
        "python applocation/NeuroLink/neuro_cli/scripts/invoke_neuro_cli.py --query-retries 5 query device"]));
     ("artifacts", VList (vstrs
       ["applocation/NeuroLink/smoke-evidence/serial-diag"]));
     ("json_contract", VDict (dict_of
       [("success", VDict (dict_of
          [("serial_config", VDict (dict_of
             [("status", VStr "ok")]));
           ("device_query", VDict (dict_of
             [("status", VStr "ok");
              ("node_id", VStr "unit-01")]))]));
        ("failure_statuses", VList (vstrs
          ["router_not_listening";
           "serial_device_missing";
           "endpoint_verify_failed";
           "no_reply_board_unreachable";
           "no_reply"]))]))].

Definition plan_discover_device : dict := dict_of
    [("category", VStr "discovery");
     ("description", VStr "query Unit reachability and device state through the router");
     ("commands", VList (vstrs
       ["python applocation/NeuroLink/neuro_cli/scripts/invoke_neuro_cli.py --query-retries 3 query device"]));
     ("artifacts", VList []);
     ("json_contract", VDict (dict_of
       [("success", VDict (dict_of
          [("ok", VBool true);
           ("replies", VList
             [VDict (dict_of
                [("ok", VBool true);
                 ("payload", VDict (dict_of
                   [("status", VStr "ok");
                    ("node_id", VStr "unit-01");
                    ("session_ready", VBool true)]))])])]));
        ("failure_statuses", VList (vstrs
          ["session_open_failed";
           "no_reply";
           "parse_failed";
           "error_reply";
           "payload.status:error"]))]))].

Definition plan_discover_apps : dict := dict_of
    [("category", VStr "discovery");
     ("description", VStr "query deployed Unit apps and runtime/update state");
     ("commands", VList (vstrs
       ["python applocation/NeuroLink/neuro_cli/scripts/invoke_neuro_cli.py --query-retries 3 query apps"]));
     ("artifacts", VList []);
     ("json_contract", VDict (dict_of
       [("success", VDict (dict_of
          [("ok", VBool true);
           ("replies", VList
             [VDict (dict_of
                [("ok", VBool true);
                 ("payload", VDict (dict_of
                   [("status", VStr "ok");
                    ("node_id", VStr "unit-01");
                    ("app_count", VInt 0);
                    ("running_count", VInt 0);
                    ("suspended_count", VInt 0);
                    ("apps", VList [])]))])])]));
        ("failure_statuses", VList (vstrs
          ["app_not_running";
           "session_open_failed";
           "no_reply";
           "parse_failed";
           "error_reply";
           "payload.status:error"]))]))].

Definition plan_discover_leases : dict := dict_of
    [("category", VStr "discovery");
     ("description", VStr "query active Unit leases before protected control");
     ("commands", VList (vstrs
       ["python applocation/NeuroLink/neuro_cli/scripts/invoke_neuro_cli.py --query-retries 3 query leases"]));
     ("artifacts", VList []);
     ("json_contract", VDict (dict_of
       [("success", VDict (dict_of
          [("ok", VBool true);
           ("replies", VList
             [VDict (dict_of
                [("ok", VBool true);
                 ("payload", VDict (dict_of
                   [("status", VStr "ok");
                    ("node_id", VStr "unit-01");
                    ("leases", VList [])]))])])]));
        ("failure_statuses", VList (vstrs
          ["lease_conflict";
           "session_open_failed";
           "no_reply";
           "parse_failed";
           "error_reply";
           "payload.status:error"]))]))].

Definition plan_control_health : dict := dict_of
    [("category", VStr "control");
     ("description", VStr "run read-only health queries before protected control");
     ("commands", VList (vstrs
       ["python applocation/NeuroLink/neuro_cli/scripts/invoke_neuro_cli.py workflow plan discover-device";
        "python applocation/NeuroLink/neuro_cli/scripts/invoke_neuro_cli.py workflow plan discover-apps";
        "python applocation/NeuroLink/neuro_cli/scripts/invoke_neuro_cli.py workflow plan discover-leases";
        "python applocation/NeuroLink/neuro_cli/scripts/invoke_neuro_cli.py --query-retries 3 query device";
        "python applocation/NeuroLink/neuro_cli/scripts/invoke_neuro_cli.py --query-retries 3 query apps";
        "python applocation/NeuroLink/neuro_cli/scripts/invoke_neuro_cli.py --query-retries 3 query leases"]));
     ("artifacts", VList []);
     ("json_contract", VDict (dict_of
       [("success", VDict (dict_of
          [("device", VDict (dict_of
             [("status", VStr "ok");
              ("node_id", VStr "unit-01")]));
           ("apps", VDict (dict_of
             [("status", VStr "ok");
              ("apps", VList [])]));
           ("leases", VDict (dict_of
             [("status", VStr "ok");
              ("leases", VList [])]))]));
        ("failure_statuses", VList (vstrs
          ["session_open_failed";
           "no_reply";
           "parse_failed";
           "error_reply";
           "payload.status:error"]))]))].

Definition plan_control_deploy : dict := dict_of
    [("category", VStr "control");
     ("description", VStr "protected deploy prepare/verify/activate sequence with lease cleanup");
     ("commands", VList (vstrs
       ["python applocation/NeuroLink/neuro_cli/scripts/invoke_neuro_cli.py workflow plan discover-device";
        "python applocation/NeuroLink/neuro_cli/scripts/invoke_neuro_cli.py workflow plan discover-apps";
        "python applocation/NeuroLink/neuro_cli/scripts/invoke_neuro_cli.py workflow plan discover-leases";
        ("python applocation/NeuroLink/neuro_cli/scripts/invoke_neuro_cli.py lease acquire --resource update/app/neuro_unit_app/activate --lease-id " +:+ (release_label "deploy") +:+ "-lease --ttl-ms 120000");
        "python applocation/NeuroLink/neuro_cli/scripts/invoke_neuro_cli.py deploy prepare --app-id neuro_unit_app --file build/neurolink_unit_app/neuro_unit_app.llext";
        "python applocation/NeuroLink/neuro_cli/scripts/invoke_neuro_cli.py deploy verify --app-id neuro_unit_app";
        ("python applocation/NeuroLink/neuro_cli/scripts/invoke_neuro_cli.py deploy activate --app-id neuro_unit_app --lease-id " +:+ (release_label "deploy") +:+ "-lease --start-args release=" +:+ RELEASE_TARGET);
        "python applocation/NeuroLink/neuro_cli/scripts/invoke_neuro_cli.py query device";
        "python applocation/NeuroLink/neuro_cli/scripts/invoke_neuro_cli.py query apps";
        ("python applocation/NeuroLink/neuro_cli/scripts/invoke_neuro_cli.py lease release --lease-id " +:+ (release_label "deploy") +:+ "-lease");
        "python applocation/NeuroLink/neuro_cli/scripts/invoke_neuro_cli.py query leases"]));
     ("artifacts", VList (vstrs
       ["build/neurolink_unit_app/neuro_unit_app.llext";
        "applocation/NeuroLink/smoke-evidence"]));
     ("json_contract", VDict (dict_of
       [("success", VDict (dict_of
          [("lease_acquire", VDict (dict_of
             [("status", VStr "ok");
              ("lease_id", VStr ((release_label "deploy") +:+ "-lease"))]));
           ("deploy_prepare", VDict (dict_of
             [("status", VStr "ok");
              ("app_id", VStr "neuro_unit_app")]));
           ("deploy_verify", VDict (dict_of
             [("status", VStr "ok");
              ("app_id", VStr "neuro_unit_app")]));
           ("deploy_activate", VDict (dict_of
             [("status", VStr "ok");
              ("app_id", VStr "neuro_unit_app")]));
           ("lease_cleanup", VDict (dict_of
             [("leases", VList [])]))]));
        ("failure_statuses", VList (vstrs
          ["lease_conflict";
           "artifact_missing";
           "artifact_stale";
           "prepare_failed";
           "verify_failed";
           "activate_failed";
           "payload.status:error"]))]))].

Definition plan_control_app_invoke : dict := dict_of
    [("category", VStr "control");
     ("description", VStr "protected app command invocation with app-control lease cleanup");
     ("commands", VList (vstrs
       ["python applocation/NeuroLink/neuro_cli/scripts/invoke_neuro_cli.py workflow plan discover-device";
        "python applocation/NeuroLink/neuro_cli/scripts/invoke_neuro_cli.py workflow plan discover-apps";
        ("python applocation/NeuroLink/neuro_cli/scripts/invoke_neuro_cli.py lease acquire --resource app/neuro_unit_app/control --lease-id " +:+ (release_label "app-control") +:+ "-lease --ttl-ms 60000");
        ("python applocation/NeuroLink/neuro_cli/scripts/invoke_neuro_cli.py app invoke --app-id neuro_unit_app --lease-id " +:+ (release_label "app-control") +:+ ("-lease --command invoke --args-json '{" +:+ quote_mark +:+ "echo" +:+ quote_mark +:+ ": " +:+ quote_mark) +:+ default_app_echo +:+ (quote_mark +:+ "}'"));
        ("python applocation/NeuroLink/neuro_cli/scripts/invoke_neuro_cli.py lease release --lease-id " +:+ (release_label "app-control") +:+ "-lease");
        "python applocation/NeuroLink/neuro_cli/scripts/invoke_neuro_cli.py query leases"]));
     ("artifacts", VList []);
     ("json_contract", VDict (dict_of
       [("success", VDict (dict_of
          [("lease_acquire", VDict (dict_of
             [("status", VStr "ok");
              ("resource", VStr "app/neuro_unit_app/control")]));
           ("app_invoke", VDict (dict_of
             [("status", VStr "ok");
              ("app_id", VStr "neuro_unit_app")]));
           ("lease_cleanup", VDict (dict_of
             [("leases", VList [])]))]));
        ("failure_statuses", VList (vstrs
          ["app_not_running";
           "lease_conflict";
           "invalid_input";
           "handler_failed";
           "payload.status:error"]))]))].

Definition plan_control_app_start : dict := dict_of
    [("category", VStr "control");
     ("description", VStr "protected app start with app-control lease cleanup");
     ("commands", VList (vstrs
       ["python applocation/NeuroLink/neuro_cli/scripts/invoke_neuro_cli.py workflow plan discover-device";
        "python applocation/NeuroLink/neuro_cli/scripts/invoke_neuro_cli.py workflow plan discover-apps";
        "python applocation/NeuroLink/neuro_cli/scripts/invoke_neuro_cli.py workflow plan discover-leases";
        ("python applocation/NeuroLink/neuro_cli/scripts/invoke_neuro_cli.py lease acquire --resource app/neuro_unit_app/control --lease-id " +:+ (release_label "app-start") +:+ "-lease --ttl-ms 60000");
        ("python applocation/NeuroLink/neuro_cli/scripts/invoke_neuro_cli.py app start --app-id neuro_unit_app --lease-id " +:+ (release_label "app-start") +:+ "-lease");
        "python applocation/NeuroLink/neuro_cli/scripts/invoke_neuro_cli.py query apps";
        ("python applocation/NeuroLink/neuro_cli/scripts/invoke_neuro_cli.py lease release --lease-id " +:+ (release_label "app-start") +:+ "-lease");
        "python applocation/NeuroLink/neuro_cli/scripts/invoke_neuro_cli.py query leases"]));
     ("artifacts", VList []);
     ("json_contract", VDict (dict_of
       [("success", VDict (dict_of
          [("lease_acquire", VDict (dict_of
             [("status", VStr "ok");
              ("resource", VStr "app/neuro_unit_app/control")]));
           ("app_start", VDict (dict_of
             [("status", VStr "ok");
              ("app_id", VStr "neuro_unit_app")]));
           ("lease_cleanup", VDict (dict_of
             [("leases", VList [])]))]));
        ("failure_statuses", VList (vstrs
          ["app_not_running";
           "lease_conflict";
           "payload.status:error"]))]))].

Definition plan_control_app_restart : dict := dict_of
    [("category", VStr "control");
     ("description", VStr "protected app restart with app-control lease cleanup");
     ("commands", VList (vstrs
       ["python applocation/NeuroLink/neuro_cli/scripts/invoke_neuro_cli.py workflow plan discover-device";
        "python applocation/NeuroLink/neuro_cli/scripts/invoke_neuro_cli.py workflow plan discover-apps";
        "python applocation/NeuroLink/neuro_cli/scripts/invoke_neuro_cli.py workflow plan discover-leases";
        ("python applocation/NeuroLink/neuro_cli/scripts/invoke_neuro_cli.py lease acquire --resource app/neuro_unit_app/control --lease-id " +:+ (release_label "app-restart") +:+ "-lease --ttl-ms 60000");
        ("python applocation/NeuroLink/neuro_cli/scripts/invoke_neuro_cli.py control app-restart --app neuro_unit_app --lease-id " +:+ (release_label "app-restart") +:+ "-lease");
        "python applocation/NeuroLink/neuro_cli/scripts/invoke_neuro_cli.py query apps";
        ("python applocation/NeuroLink/neuro_cli/scripts/invoke_neuro_cli.py lease release --lease-id " +:+ (release_label "app-restart") +:+ "-lease");
        "python applocation/NeuroLink/neuro_cli/scripts/invoke_neuro_cli.py query leases"]));
     ("artifacts", VList []);
     ("json_contract", VDict (dict_of
       [("success", VDict (dict_of
          [("lease_acquire", VDict (dict_of
             [("status", VStr "ok");
              ("resource", VStr "app/neuro_unit_app/control")]));
           ("app_restart", VDict (dict_of
             [("status", VStr "ok");
              ("app_id", VStr "neuro_unit_app")]));
           ("lease_cleanup", VDict (dict_of
             [("leases", VList [])]))]));
        ("failure_statuses", VList (vstrs
          ["app_not_running";
           "lease_conflict";
           "payload.status:error"]))]))].

Definition plan_control_callback : dict := dict_of
    [("category", VStr "control");
     ("description", VStr "protected callback configuration and same-session callback smoke");
     ("commands", VList (vstrs
       ["python applocation/NeuroLink/neuro_cli/scripts/invoke_neuro_cli.py workflow plan discover-device";
        "python applocation/NeuroLink/neuro_cli/scripts/invoke_neuro_cli.py workflow plan discover-apps";
        ("python applocation/NeuroLink/neuro_cli/scripts/invoke_neuro_cli.py lease acquire --resource app/neuro_unit_app/control --lease-id " +:+ (release_label "callback") +:+ "-lease --ttl-ms 60000");
        ("python applocation/NeuroLink/neuro_cli/scripts/invoke_neuro_cli.py app callback-config --app-id neuro_unit_app --lease-id " +:+ (release_label "callback") +:+ "-lease --mode on --trigger-every 1 --event-name callback");
        ("python applocation/NeuroLink/neuro_cli/scripts/invoke_neuro_cli.py app invoke --app-id neuro_unit_app --lease-id " +:+ (release_label "callback") +:+ ("-lease --command invoke --args-json '{" +:+ quote_mark +:+ "echo" +:+ quote_mark +:+ ": " +:+ quote_mark) +:+ default_app_echo +:+ (quote_mark +:+ "}'"));
        "python applocation/NeuroLink/neuro_cli/scripts/invoke_neuro_cli.py monitor app-events --app-id neuro_unit_app --duration 5 --max-events 1";
        ("python applocation/NeuroLink/neuro_cli/scripts/invoke_neuro_cli.py app callback-config --app-id neuro_unit_app --lease-id " +:+ (release_label "callback") +:+ "-lease --mode off --event-name callback");
        ("python applocation/NeuroLink/neuro_cli/scripts/invoke_neuro_cli.py lease release --lease-id " +:+ (release_label "callback") +:+ "-lease");
        "python applocation/NeuroLink/neuro_cli/scripts/invoke_neuro_cli.py workflow plan callback-smoke"]));
     ("artifacts", VList (vstrs
       ["applocation/NeuroLink/smoke-evidence"]));
     ("json_contract", VDict (dict_of
       [("success", VDict (dict_of
          [("callback_config", VDict (dict_of
             [("status", VStr "ok");
              ("callback_enabled", VBool true)]));
           ("app_invoke", VDict (dict_of
             [("status", VStr "ok");
              ("app_id", VStr "neuro_unit_app")]));
           ("event", VDict (dict_of
             [("keyexpr", VStr "neuro/unit-01/event/app/neuro_unit_app/callback")]));
           ("lease_cleanup", VDict (dict_of
             [("leases", VList [])]))]));
        ("failure_statuses", VList (vstrs
          ["callback_timeout";
           "handler_failed";
           "lease_conflict";
           "app_not_running";
           "payload.status:error"]))]))].

Definition plan_control_monitor : dict := dict_of
    [("category", VStr "control");
     ("description", VStr "monitor app-scoped events with explicit optional handler audit");
     ("commands", VList (vstrs
       ["python applocation/NeuroLink/neuro_cli/scripts/invoke_neuro_cli.py workflow plan discover-device";
        "python applocation/NeuroLink/neuro_cli/scripts/invoke_neuro_cli.py monitor app-events --app-id neuro_unit_app --duration 10 --max-events 1";
        "python applocation/NeuroLink/neuro_cli/scripts/invoke_neuro_cli.py monitor app-events --app-id neuro_unit_app --duration 10 --max-events 1 --handler-python applocation/NeuroLink/neuro_cli/skill/assets/callback_handler.py --handler-timeout 5"]));
     ("artifacts", VList []);
     ("json_contract", VDict (dict_of
       [("success", VDict (dict_of
          [("subscription", VDict (dict_of
             [("status", VStr "ok");
              ("app_id", VStr "neuro_unit_app")]));
           ("handler_audit", VDict (dict_of
             [("runner", VStr "explicit");
              ("returncode", VInt 0);
              ("max_output_bytes", VInt 16384)]))]));
        ("failure_statuses", VList (vstrs
          ["callback_timeout";
           "handler_failed";
           "handler_timeout";
           "handler_output_truncated"]))]))].

Definition plan_control_cleanup : dict := dict_of
    [("category", VStr "control");
     ("description", VStr "release known workflow leases and confirm clean lease state");
     ("commands", VList (vstrs
       ["python applocation/NeuroLink/neuro_cli/scripts/invoke_neuro_cli.py query leases";
        ("python applocation/NeuroLink/neuro_cli/scripts/invoke_neuro_cli.py lease release --lease-id " +:+ (release_label "deploy") +:+ "-lease");
        ("python applocation/NeuroLink/neuro_cli/scripts/invoke_neuro_cli.py lease release --lease-id " +:+ (release_label "app-control") +:+ "-lease");
        ("python applocation/NeuroLink/neuro_cli/scripts/invoke_neuro_cli.py lease release --lease-id " +:+ (release_label "callback") +:+ "-lease");
        "python applocation/NeuroLink/neuro_cli/scripts/invoke_neuro_cli.py query leases"]));
     ("artifacts", VList []);
     ("json_contract", VDict (dict_of
       [("success", VDict (dict_of
          [("leases", VList [])]));
        ("failure_statuses", VList (vstrs
          ["lease_not_found";
           "session_open_failed";
           "no_reply";
           "payload.status:error"]))]))].

Definition plan_control_rollback : dict := dict_of
    [("category", VStr "control");
     ("description", VStr "protected app rollback with explicit update rollback lease cleanup");
     ("commands", VList (vstrs
       ["python applocation/NeuroLink/neuro_cli/scripts/invoke_neuro_cli.py workflow plan discover-device";
        "python applocation/NeuroLink/neuro_cli/scripts/invoke_neuro_cli.py workflow plan discover-leases";
        ("python applocation/NeuroLink/neuro_cli/scripts/invoke_neuro_cli.py lease acquire --resource update/app/neuro_unit_app/rollback --lease-id " +:+ (release_label "rollback") +:+ "-lease --ttl-ms 60000");
        ("python applocation/NeuroLink/neuro_cli/scripts/invoke_neuro_cli.py deploy rollback --app-id neuro_unit_app --lease-id " +:+ (release_label "rollback") +:+ "-lease");
        "python applocation/NeuroLink/neuro_cli/scripts/invoke_neuro_cli.py query apps";
        ("python applocation/NeuroLink/neuro_cli/scripts/invoke_neuro_cli.py lease release --lease-id " +:+ (release_label "rollback") +:+ "-lease");
        "python applocation/NeuroLink/neuro_cli/scripts/invoke_neuro_cli.py query leases"]));
     ("artifacts", VList (vstrs
       ["applocation/NeuroLink/smoke-evidence"]));
     ("json_contract", VDict (dict_of
       [("success", VDict (dict_of
          [("lease_acquire", VDict (dict_of
             [("status", VStr "ok");
              ("resource", VStr "update/app/neuro_unit_app/rollback")]));
           ("deploy_rollback", VDict (dict_of
             [("status", VStr "ok");
              ("app_id", VStr "neuro_unit_app")]));
           ("lease_cleanup", VDict (dict_of
             [("leases", VList [])]))]));
        ("failure_statuses", VList (vstrs
          ["lease_conflict";
           "rollback_failed";
           "payload.status:error"]))]))].

Definition plan_app_build : dict := dict_of
    [("category", VStr "app_development");
     ("description", VStr "build the sample LLEXT app artifact");
     ("commands", VList (vstrs
       ["bash applocation/NeuroLink/scripts/build_neurolink.sh --preset unit-app --no-c-style-check"]));
     ("artifacts", VList (vstrs
       ["build/neurolink_unit_app/neuro_unit_app.llext"]))].

Definition plan_demo_build : dict := dict_of
    [("category", VStr "app_development");
     ("description", VStr "build the first release-1.2.0 demo artifact through the catalog-backed wrapper");
     ("commands", VList (vstrs
       ["bash applocation/NeuroLink/scripts/build_neurolink_demo.sh --demo neuro_demo_net_event --no-c-style-check";
        "bash applocation/NeuroLink/scripts/build_neurolink_demo.sh --demo neuro_demo_net_event --print-artifact-path --no-c-style-check"]));
     ("artifacts", VList (vstrs
       ["build/neurolink_unit/llext/neuro_demo_net_event.llext";
        "applocation/NeuroLink/subprojects/demo_catalog.json"]))].

Definition plan_unit_build : dict := dict_of
    [("category", VStr "board_operation");
     ("description", VStr "build Neuro Unit firmware");
     ("commands", VList (vstrs
       ["bash applocation/NeuroLink/scripts/build_neurolink.sh --preset unit --no-c-style-check"]));
     ("artifacts", VList (vstrs
       ["build/neurolink_unit/zephyr/zephyr.elf"]))].

Definition plan_unit_edk : dict := dict_of
    [("category", VStr "app_development");
     ("description", VStr "build the Unit EDK headers and LLEXT support output");
     ("commands", VList (vstrs
       ["bash applocation/NeuroLink/scripts/build_neurolink.sh --preset unit-edk --no-c-style-check"]));
     ("artifacts", VList (vstrs
       ["build/neurolink_unit/zephyr/llext-edk"]))].

Definition plan_unit_tests : dict := dict_of
    [("category", VStr "verification");
     ("description", VStr "run native_sim Neuro Unit tests");
     ("commands", VList (vstrs
       ["west build -b native_sim applocation/NeuroLink/neuro_unit/tests/unit --build-dir build/neurolink_unit_ut_check -p always -t run"]));
     ("artifacts", VList (vstrs
       ["build/neurolink_unit_ut_check"]))].

Definition plan_cli_tests : dict := dict_of
    [("category", VStr "verification");
     ("description", VStr "run Neuro CLI regression tests");
     ("commands", VList (vstrs
       ["/home/emb/project/zephyrproject/.venv/bin/python -m pytest applocation/NeuroLink/neuro_cli/tests/test_neuro_cli.py -q"]));
     ("artifacts", VList [])].

Definition plan_memory_evidence : dict := dict_of
    [("category", VStr "verification");
     ("description", VStr "collect build-time Neuro Unit memory evidence");
     ("commands", VList (vstrs
       [("/home/emb/project/zephyrproject/.venv/bin/python applocation/NeuroLink/scripts/collect_neurolink_memory_evidence.py --run-build --no-c-style-check --label " +:+ (release_label "memory-evidence"))]));
     ("artifacts", VList (vstrs
       ["applocation/NeuroLink/memory-evidence"]))].

Definition plan_llext_lifecycle : dict := dict_of
    [("category", VStr "app_development");
     ("description", VStr "exercise explicit LLEXT install, runtime unload, and artifact delete semantics");
     ("commands", VList (vstrs
       ["python applocation/NeuroLink/neuro_cli/scripts/invoke_neuro_cli.py workflow plan control-deploy";
        "python applocation/NeuroLink/neuro_cli/scripts/invoke_neuro_cli.py app stop --app-id neuro_unit_app --lease-id <lease>";
        "python applocation/NeuroLink/neuro_cli/scripts/invoke_neuro_cli.py app unload --app-id neuro_unit_app --lease-id <lease>";
        "python applocation/NeuroLink/neuro_cli/scripts/invoke_neuro_cli.py app delete --app-id neuro_unit_app --lease-id <lease>";
        "python applocation/NeuroLink/neuro_cli/scripts/invoke_neuro_cli.py query apps"]));
     ("artifacts", VList (vstrs
       ["applocation/NeuroLink/smoke-evidence"]));
     ("json_contract", VDict (dict_of
       [("success", VDict (dict_of
          [("deploy_activate", VDict (dict_of
             [("status", VStr "ok")]));
           ("runtime_unload", VDict (dict_of
             [("status", VStr "ok")]));
           ("artifact_delete", VDict (dict_of
             [("status", VStr "ok")]))]));
        ("failure_statuses", VList (vstrs
          ["lease_conflict";
           "app_not_running";
           "artifact_missing";
           "delete_active_app_rejected";
           "payload.status:error"]))]))].

Definition plan_memory_layout_dump : dict := dict_of
    [("category", VStr "verification");
     ("description", VStr "dump board static memory layout from Unit build artifacts");
     ("commands", VList (vstrs
       [("/home/emb/project/zephyrproject/.venv/bin/python applocation/NeuroLink/neuro_cli/scripts/invoke_neuro_cli.py memory layout-dump --build-dir build/neurolink_unit --output-dir applocation/NeuroLink/memory-evidence --label " +:+ (release_label "static-layout-baseline"))]));
     ("artifacts", VList (vstrs
       ["applocation/NeuroLink/memory-evidence"]));
     ("json_contract", VDict (dict_of
       [("success", VDict (dict_of
          [("section_totals", VDict (dict_of
             [("dram0", VInt 377188)]));
           ("config", VDict (dict_of
             [("CONFIG_LLEXT_HEAP_SIZE", VInt 64)]));
           ("sections", VList
             [VDict (dict_of
                [("name", VStr ".dram0.bss");
                 ("size", VInt 0)])])]));
        ("failure_statuses", VList (vstrs
          ["build_dir_missing";
           "zephyr_stat_missing";
           "config_missing";
           "parse_failed"]))]))].

Definition plan_llext_memory_config : dict := dict_of
    [("category", VStr "app_development");
     ("description", VStr "plan LLEXT memory configuration candidates from static layout evidence");
     ("commands", VList (vstrs
       ["python applocation/NeuroLink/neuro_cli/scripts/invoke_neuro_cli.py workflow plan memory-layout-dump";
        "bash applocation/NeuroLink/scripts/build_neurolink.sh --preset unit --overlay-config applocation/NeuroLink/neuro_unit/overlays/<llext-memory-candidate>.conf --no-c-style-check";
        "/home/emb/project/zephyrproject/.venv/bin/python applocation/NeuroLink/neuro_cli/scripts/invoke_neuro_cli.py memory layout-dump --build-dir build/neurolink_unit --output-dir applocation/NeuroLink/memory-evidence --label release-1.1.9-llext-memory-candidate";
        "/home/emb/project/zephyrproject/.venv/bin/python applocation/NeuroLink/neuro_cli/scripts/invoke_neuro_cli.py memory config-plan --baseline-json applocation/NeuroLink/memory-evidence/release-1.1.8-closure.json --candidate-json applocation/NeuroLink/memory-evidence/release-1.1.9-llext-memory-candidate.json"]));
     ("artifacts", VList (vstrs
       ["applocation/NeuroLink/memory-evidence"]));
     ("json_contract", VDict (dict_of
       [("success", VDict (dict_of
          [("baseline_layout", VDict (dict_of
             [("status", VStr "ok")]));
           ("candidate_layout", VDict (dict_of
             [("status", VStr "ok")]));
           ("promotion_allowed", VBool false)]));
        ("failure_statuses", VList (vstrs
          ["baseline_layout_missing";
           "candidate_layout_missing";
           "loaded_extensions_present";
           "candidate_build_failed";
           "runtime_heap_dynamic_unsafe";
           "memory_regression";
           "parse_failed"]))]))].

Definition plan_preflight : dict := dict_of
    [("category", VStr "board_operation");
     ("description", VStr "run Linux host and board preflight checks");
     ("commands", VList (vstrs
       ["bash applocation/NeuroLink/scripts/preflight_neurolink_linux.sh --node unit-01 --auto-start-router --require-serial --install-missing-cli-deps --output text"]));
     ("artifacts", VList [])].

Definition plan_smoke : dict := dict_of
    [("category", VStr "board_operation");
     ("description", VStr "run the Linux NeuroLink smoke path");
     ("commands", VList (vstrs
       ["bash applocation/NeuroLink/scripts/smoke_neurolink_linux.sh --install-missing-cli-deps --events-duration-sec 5"]));
     ("artifacts", VList (vstrs
       ["applocation/NeuroLink/smoke-evidence"]))].

Definition plan_callback_smoke : dict := dict_of
    [("category", VStr "board_operation");
     ("description", VStr "run the app callback smoke path through the CLI wrapper");
     ("commands", VList (vstrs
       [("/home/emb/project/zephyrproject/.venv/bin/python applocation/NeuroLink/neuro_cli/scripts/invoke_neuro_cli.py app-callback-smoke --app-id neuro_unit_app --expected-app-echo " +:+ default_app_echo +:+ " --trigger-every 1 --invoke-count 2")]));
     ("artifacts", VList [])].

Definition plan_demo_net_event_smoke : dict := dict_of
    [("category", VStr "board_operation");
     ("description", VStr "review the first network event demo smoke path without executing it");
     ("commands", VList (vstrs
       ["python applocation/NeuroLink/neuro_cli/scripts/invoke_neuro_cli.py workflow plan demo-build";
        "python applocation/NeuroLink/neuro_cli/scripts/invoke_neuro_cli.py workflow plan discover-device";
        "python applocation/NeuroLink/neuro_cli/scripts/invoke_neuro_cli.py workflow plan discover-apps";
        "python applocation/NeuroLink/neuro_cli/scripts/invoke_neuro_cli.py workflow plan discover-leases";
        "bash applocation/NeuroLink/scripts/preflight_neurolink_linux.sh --node unit-01 --artifact-file build/neurolink_unit/llext/neuro_demo_net_event.llext --auto-start-router --require-serial --install-missing-cli-deps --output text";
        ("python applocation/NeuroLink/neuro_cli/scripts/invoke_neuro_cli.py lease acquire --resource update/app/neuro_demo_net_event/activate --lease-id " +:+ (release_label "demo-net-event-deploy") +:+ "-lease --ttl-ms 120000");
        "python applocation/NeuroLink/neuro_cli/scripts/invoke_neuro_cli.py deploy prepare --app-id neuro_demo_net_event --file build/neurolink_unit/llext/neuro_demo_net_event.llext";
        "python applocation/NeuroLink/neuro_cli/scripts/invoke_neuro_cli.py deploy verify --app-id neuro_demo_net_event";
        ("python applocation/NeuroLink/neuro_cli/scripts/invoke_neuro_cli.py deploy activate --app-id neuro_demo_net_event --lease-id " +:+ (release_label "demo-net-event-deploy") +:+ "-lease --start-args mode=demo,profile=event_bridge");
        ("python applocation/NeuroLink/neuro_cli/scripts/invoke_neuro_cli.py lease acquire --resource app/neuro_demo_net_event/control --lease-id " +:+ (release_label "demo-net-event-control") +:+ "-lease --ttl-ms 60000");
        ("python applocation/NeuroLink/neuro_cli/scripts/invoke_neuro_cli.py app invoke --app-id neuro_demo_net_event --lease-id " +:+ (release_label "demo-net-event-control") +:+ ("-lease --command invoke --args-json '{" +:+ quote_mark +:+ "action" +:+ quote_mark +:+ ": " +:+ quote_mark +:+ "capability" +:+ quote_mark +:+ "}'"));
        ("python applocation/NeuroLink/neuro_cli/scripts/invoke_neuro_cli.py app invoke --app-id neuro_demo_net_event --lease-id " +:+ (release_label "demo-net-event-control") +:+ ("-lease --command invoke --args-json '{" +:+ quote_mark +:+ "action" +:+ quote_mark +:+ ": " +:+ quote_mark +:+ "publish" +:+ quote_mark +:+ ", " +:+ quote_mark +:+ "detail" +:+ quote_mark +:+ ": " +:+ quote_mark +:+ "workflow-plan" +:+ quote_mark +:+ "}'"));
        "python applocation/NeuroLink/neuro_cli/scripts/invoke_neuro_cli.py monitor app-events --app-id neuro_demo_net_event --duration 10 --max-events 1";
        ("python applocation/NeuroLink/neuro_cli/scripts/invoke_neuro_cli.py lease release --lease-id " +:+ (release_label "demo-net-event-control") +:+ "-lease");
        ("python applocation/NeuroLink/neuro_cli/scripts/invoke_neuro_cli.py lease release --lease-id " +:+ (release_label "demo-net-event-deploy") +:+ "-lease");
        "python applocation/NeuroLink/neuro_cli/scripts/invoke_neuro_cli.py query apps";
        "python applocation/NeuroLink/neuro_cli/scripts/invoke_neuro_cli.py query leases"]));
     ("artifacts", VList (vstrs
       ["build/neurolink_unit/llext/neuro_demo_net_event.llext";
        "applocation/NeuroLink/smoke-evidence"]));
     ("json_contract", VDict (dict_of
       [("success", VDict (dict_of
          [("deploy_activate", VDict (dict_of
             [("status", VStr "ok");
              ("app_id", VStr "neuro_demo_net_event")]));
           ("capability_invoke", VDict (dict_of
             [("status", VStr "ok");
              ("app_id", VStr "neuro_demo_net_event")]));
           ("publish_invoke", VDict (dict_of
             [("status", VStr "ok");
              ("app_id", VStr "neuro_demo_net_event")]));
           ("event", VDict (dict_of
             [("keyexpr", VStr "neuro/unit-01/event/app/neuro_demo_net_event/demo_event")]));
           ("lease_cleanup", VDict (dict_of
             [("leases", VList [])]))]));
        ("failure_statuses", VList (vstrs
          ["serial_device_missing";
           "no_reply_board_unreachable";
           "lease_conflict";
           "app_not_running";
           "not_implemented";
           "payload.status:error"]))]))].

Definition plan_release_closure : dict := dict_of
    [("category", VStr "verification");
     ("description", VStr "review the release closure gate sequence without executing it");
     ("commands", VList (vstrs
       [("/home/emb/project/zephyrproject/.venv/bin/python applocation/NeuroLink/scripts/collect_neurolink_memory_evidence.py --run-build --no-c-style-check --label " +:+ (release_label "closure"));
        "/home/emb/project/zephyrproject/.venv/bin/python -m py_compile applocation/NeuroLink/neuro_cli/src/neuro_protocol.py applocation/NeuroLink/neuro_cli/src/neuro_cli.py applocation/NeuroLink/neuro_cli/scripts/invoke_neuro_cli.py";
        "/home/emb/project/zephyrproject/.venv/bin/python -m pytest applocation/NeuroLink/neuro_cli/tests/test_neuro_cli.py applocation/NeuroLink/neuro_cli/tests/test_invoke_neuro_cli.py -q";
        "bash applocation/NeuroLink/tests/scripts/run_all_tests.sh";
        "git -C applocation/NeuroLink diff --check";
        "bash applocation/NeuroLink/scripts/preflight_neurolink_linux.sh --node unit-01 --auto-start-router --require-serial --install-missing-cli-deps --output text";
        "bash applocation/NeuroLink/scripts/smoke_neurolink_linux.sh --install-missing-cli-deps --events-duration-sec 5"]));
     ("artifacts", VList (vstrs
       ["applocation/NeuroLink/memory-evidence";
        "applocation/NeuroLink/smoke-evidence"]))].

Definition WORKFLOW_PLANS : list (string * dict) :=
  [("setup-linux", plan_setup_linux);
   ("setup-windows", plan_setup_windows);
   ("discover-host", plan_discover_host);
   ("discover-router", plan_discover_router);
   ("discover-serial", plan_discover_serial);
   ("serial-discover", plan_serial_discover);
   ("serial-zenoh-config", plan_serial_zenoh_config);
   ("serial-zenoh-recover", plan_serial_zenoh_recover);
   ("discover-device", plan_discover_device);
   ("discover-apps", plan_discover_apps);
   ("discover-leases", plan_discover_leases);
   ("control-health", plan_control_health);
   ("control-deploy", plan_control_deploy);
   ("control-app-invoke", plan_control_app_invoke);
   ("control-app-start", plan_control_app_start);
   ("control-app-restart", plan_control_app_restart);
   ("control-callback", plan_control_callback);
   ("control-monitor", plan_control_monitor);
   ("control-cleanup", plan_control_cleanup);
   ("control-rollback", plan_control_rollback);
   ("app-build", plan_app_build);
   ("demo-build", plan_demo_build);
   ("unit-build", plan_unit_build);
   ("unit-edk", plan_unit_edk);
   ("unit-tests", plan_unit_tests);
   ("cli-tests", plan_cli_tests);
   ("memory-evidence", plan_memory_evidence);
   ("llext-lifecycle", plan_llext_lifecycle);
   ("memory-layout-dump", plan_memory_layout_dump);
   ("llext-memory-config", plan_llext_memory_config);
   ("preflight", plan_preflight);
   ("smoke", plan_smoke);
   ("callback-smoke", plan_callback_smoke);
   ("demo-net-event-smoke", plan_demo_net_event_smoke);
   ("release-closure", plan_release_closure)].

(** ** Metadata *)

Definition WORKFLOW_METADATA_DEFAULTS : dict := dict_of
    [("host_support", VList (vstrs
       ["linux";
        "wsl"]));
     ("requires_hardware", VBool false);
     ("requires_serial", VBool false);
     ("requires_router", VBool false);
     ("requires_network", VBool true);
     ("destructive", VBool false);
     ("preconditions", VList (vstrs
       ["west workspace contains applocation/NeuroLink";
        "NeuroLink Python environment is active or wrapper Python is explicit"]));
     ("expected_success", VList (vstrs
       ["process exit code is 0";
        "no JSON payload field reports ok=false or status=error"]));
     ("failure_statuses", VList
       [VDict (dict_of
          [("status", VStr "process_nonzero");
           ("next_action", VStr "inspect stderr and command-specific logs")]);
        VDict (dict_of
          [("status", VStr "json_parse_failed");
           ("next_action", VStr "treat stdout contract as broken for Agent automation")])]);
     ("cleanup", VList [])].

Definition metadata_setup_linux : dict := dict_of
    [("host_support", VList (vstrs
       ["linux"]));
     ("requires_hardware", VBool false);
     ("requires_serial", VBool false);
     ("requires_router", VBool false);
     ("requires_network", VBool true);
     ("destructive", VBool false);
     ("preconditions", VList (vstrs
       ["network access is available";
        "operator approves sudo package installation commands before running them";
        "workspace root contains zephyr and applocation/NeuroLink";
        "Zephyr SDK version from zephyr/SDK_VERSION is installed or will be installed before build commands"]));
     ("expected_success", VList (vstrs
       ["required system commands are available";
        "repository-local .venv exists and has west plus Neuro CLI dependencies";
        "ZEPHYR_SDK_INSTALL_DIR points at the SDK version recorded in zephyr/SDK_VERSION";
        "setup_neurolink_env.sh strict validation exits 0";
        "system init and system capabilities return ok=true JSON"]));
     ("failure_statuses", VList
       [VDict (dict_of
          [("status", VStr "missing_required_command");
           ("next_action", VStr "install the named system package and rerun setup validation")]);
        VDict (dict_of
          [("status", VStr "zephyr_sdk_missing");
           ("next_action", VStr "install Zephyr SDK or export ZEPHYR_SDK_INSTALL_DIR")]);
        VDict (dict_of
          [("status", VStr "python_dependency_missing");
           ("next_action", VStr "run pip install for Zephyr and Neuro CLI requirements")])]);
     ("cleanup", VList [])].

Definition metadata_setup_windows : dict := dict_of
    [("host_support", VList (vstrs
       ["windows";
        "wsl"]));
     ("requires_hardware", VBool false);
     ("requires_serial", VBool false);
     ("requires_router", VBool false);
     ("requires_network", VBool true);
     ("destructive", VBool false);
     ("preconditions", VList (vstrs
       ["network access is available";
        "operator approves winget or manual installer prompts before running them";
        "PowerShell execution policy allows activating the local virtual environment";
        "workspace root contains zephyr and applocation/NeuroLink";
        "Zephyr SDK version from zephyr/SDK_VERSION is installed or will be installed before build commands"]));
     ("expected_success", VList (vstrs
       ["required commands are available from PowerShell";
        "repository-local .venv exists and has west plus Neuro CLI dependencies";
        "ZEPHYR_SDK_INSTALL_DIR points at the SDK version recorded in zephyr/SDK_VERSION";
        "setup_neurolink_env.ps1 strict validation exits 0";
        "system init and system capabilities return ok=true JSON"]));
     ("failure_statuses", VList
       [VDict (dict_of
          [("status", VStr "missing_required_command");
           ("next_action", VStr "install the named Windows tool and rerun setup validation")]);
        VDict (dict_of
          [("status", VStr "execution_policy_blocked");
           ("next_action", VStr "approve a process-scoped PowerShell execution policy change before activating .venv")]);
        VDict (dict_of
          [("status", VStr "zephyr_sdk_missing");
           ("next_action", VStr "install Zephyr SDK or set ZEPHYR_SDK_INSTALL_DIR")]);
        VDict (dict_of
          [("status", VStr "wsl_usb_required");
           ("next_action", VStr "switch to WSL USB/IP attach flow for Linux-canonical hardware evidence")])]);
     ("cleanup", VList [])].

Definition metadata_discover_host : dict := dict_of
    [("host_support", VList (vstrs
       ["linux";
        "windows";
        "wsl"]));
     ("requires_hardware", VBool false);
     ("requires_serial", VBool false);
     ("requires_router", VBool false);
     ("requires_network", VBool false);
     ("destructive", VBool false);
     ("preconditions", VList (vstrs
       ["workspace root contains zephyr and applocation/NeuroLink";
        "Neuro CLI wrapper can import the local source tree"]));
     ("expected_success", VList (vstrs
       ["system init reports ok=true and status=ready";
        "system capabilities reports protocol and release metadata";
        "agent_skill paths identify the canonical skill package"]));
     ("failure_statuses", VList
       [VDict (dict_of
          [("status", VStr "workspace_not_found");
           ("next_action", VStr "run from the west workspace root or pass an explicit project path in the Agent context")]);
        VDict (dict_of
          [("status", VStr "handler_failed");
           ("next_action", VStr "inspect CLI traceback-safe JSON error and Python environment")])]);
     ("cleanup", VList [])].

Definition metadata_discover_router : dict := dict_of
    [("host_support", VList (vstrs
       ["linux";
        "wsl"]));
     ("requires_hardware", VBool false);
     ("requires_serial", VBool false);
     ("requires_router", VBool true);
     ("requires_network", VBool false);
     ("destructive", VBool false);
     ("preconditions", VList (vstrs
       ["Linux shell can run the preflight helper";
        "operator approves auto-starting a local zenoh router if none is listening"]));
     ("expected_success", VList (vstrs
       ["preflight JSON includes router.listening=true";
        "router.port is 7447 unless overridden by the operator";
        "Unit no-reply is reported separately from router listener state"]));
     ("failure_statuses", VList
       [VDict (dict_of
          [("status", VStr "router_not_listening");
           ("next_action", VStr "start the router or rerun with --auto-start-router after operator approval")]);
        VDict (dict_of
          [("status", VStr "router_failed_to_start");
           ("next_action", VStr "inspect zenohd install/log output and port binding conflicts")]);
        VDict (dict_of
          [("status", VStr "no_reply_board_unreachable");
           ("next_action", VStr "router is reachable locally; check board network readiness or UART logs")])]);
     ("cleanup", VList (vstrs
       ["stop only router processes started by this workflow"]))].

Definition metadata_discover_serial : dict := dict_of
    [("host_support", VList (vstrs
       ["linux";
        "wsl"]));
     ("requires_hardware", VBool true);
     ("requires_serial", VBool true);
     ("requires_router", VBool false);
     ("requires_network", VBool false);
     ("destructive", VBool false);
     ("preconditions", VList (vstrs
       ["target Unit USB cable is attached";
        "Linux user has permission to read /dev/ttyACM* or /dev/ttyUSB*"]));
     ("expected_success", VList (vstrs
       ["preflight JSON includes serial.present=true";
        "serial.devices lists at least one /dev/ttyACM* or /dev/ttyUSB* path"]));
     ("failure_statuses", VList
       [VDict (dict_of
          [("status", VStr "serial_device_missing");
           ("next_action", VStr "check USB cable, dialout permissions, or WSL USB attach state")])]);
     ("cleanup", VList [])].

Definition metadata_serial_discover : dict := dict_of
    [("host_support", VList (vstrs
       ["linux";
        "windows";
        "wsl"]));
     ("requires_hardware", VBool true);
     ("requires_serial", VBool true);
     ("requires_router", VBool false);
     ("requires_network", VBool false);
     ("destructive", VBool false);
     ("preconditions", VList (vstrs
       ["target Unit USB serial device is attached";
        "pyserial is installed in the Neuro CLI Python environment"]));
     ("expected_success", VList (vstrs
       ["serial list returns ok=true";
        "devices contains at least one candidate Unit UART path"]));
     ("failure_statuses", VList
       [VDict (dict_of
          [("status", VStr "serial_device_missing");
           ("next_action", VStr "check USB cable, host permissions, WSL USB attach, or pass --port explicitly")]);
        VDict (dict_of
          [("status", VStr "serial_dependency_missing");
           ("next_action", VStr "install applocation/NeuroLink/neuro_cli/requirements.txt")])]);
     ("cleanup", VList [])].

Definition metadata_serial_zenoh_config : dict := dict_of
    [("host_support", VList (vstrs
       ["linux";
        "windows";
        "wsl"]));
     ("requires_hardware", VBool true);
     ("requires_serial", VBool true);
     ("requires_router", VBool false);
     ("requires_network", VBool false);
     ("destructive", VBool true);
     ("preconditions", VList (vstrs
       ["serial-discover finds the target Unit UART port or operator passes --port";
        "target router endpoint is known, for example tcp/<host-ip>:7447";
        "Unit firmware includes app zenoh_connect_show/set/clear shell commands"]));
     ("expected_success", VList (vstrs
       ["serial zenoh set returns ok=true";
        "reply endpoint matches the requested locator";
        "follow-up query device succeeds after reconnect when router is reachable"]));
     ("failure_statuses", VList
       [VDict (dict_of
          [("status", VStr "serial_dependency_missing");
           ("next_action", VStr "install applocation/NeuroLink/neuro_cli/requirements.txt")]);
        VDict (dict_of
          [("status", VStr "serial_device_missing");
           ("next_action", VStr "attach the Unit UART device or pass --port explicitly")]);
        VDict (dict_of
          [("status", VStr "serial_open_failed");
           ("next_action", VStr "check permissions or close other programs using the UART port")]);
        VDict (dict_of
          [("status", VStr "serial_timeout");
           ("next_action", VStr "confirm shell is enabled and baud rate matches the Unit UART")]);
        VDict (dict_of
          [("status", VStr "endpoint_verify_failed");
           ("next_action", VStr "inspect shell output and rerun serial zenoh show before retrying")])]);
     ("cleanup", VList [])].

Definition metadata_serial_zenoh_recover : dict := dict_of
    [("host_support", VList (vstrs
       ["linux";
        "wsl"]));
     ("requires_hardware", VBool true);
     ("requires_serial", VBool true);
     ("requires_router", VBool true);
     ("requires_network", VBool false);
     ("destructive", VBool true);
     ("preconditions", VList (vstrs
       ["discover-router reports the expected host router listener";
        "serial-discover can reach the Unit UART shell";
        "Zenoh no_reply is suspected to be endpoint drift rather than app failure"]));
     ("expected_success", VList (vstrs
       ["serial endpoint config returns ok=true";
        "query device reaches status=ok after reconnect retries"]));
     ("failure_statuses", VList
       [VDict (dict_of
          [("status", VStr "serial_open_failed");
           ("next_action", VStr "recover serial access before endpoint recovery")]);
        VDict (dict_of
          [("status", VStr "no_reply");
           ("next_action", VStr "inspect board network readiness and UART logs after endpoint config")]);
        VDict (dict_of
          [("status", VStr "router_not_listening");
           ("next_action", VStr "start zenohd before changing the Unit endpoint")])]);
     ("cleanup", VList [])].

Definition metadata_discover_device : dict := dict_of
    [("host_support", VList (vstrs
       ["linux";
        "wsl"]));
     ("requires_hardware", VBool true);
     ("requires_serial", VBool false);
     ("requires_router", VBool true);
     ("requires_network", VBool false);
     ("destructive", VBool false);
     ("preconditions", VList (vstrs
       ["Zenoh router is listening on the expected endpoint";
        "target Unit has joined the router network"]));
     ("expected_success", VList (vstrs
       ["query device returns ok=true";
        "reply payload reports status=ok and node_id for the target Unit";
        "session_ready and network_state are captured when provided by firmware"]));
     ("failure_statuses", VList
       [VDict (dict_of
          [("status", VStr "session_open_failed");
           ("next_action", VStr "check router availability and Zenoh configuration")]);
        VDict (dict_of
          [("status", VStr "no_reply");
           ("next_action", VStr "run discover-router and discover-serial to split router, USB, and board-network causes")]);
        VDict (dict_of
          [("status", VStr "payload.status:error");
           ("next_action", VStr "treat nested Unit error as discovery failure and inspect payload message/status_code")])]);
     ("cleanup", VList [])].

Definition metadata_discover_apps : dict := dict_of
    [("host_support", VList (vstrs
       ["linux";
        "wsl"]));
     ("requires_hardware", VBool true);
     ("requires_serial", VBool false);
     ("requires_router", VBool true);
     ("requires_network", VBool false);
     ("destructive", VBool false);
     ("preconditions", VList (vstrs
       ["discover-device succeeds for the target Unit";
        "Unit query apps route is supported by firmware"]));
     ("expected_success", VList (vstrs
       ["query apps returns ok=true";
        "reply payload includes app_count, running_count, suspended_count, and apps list";
        "app_not_running is reported as a state classification before app invoke/control"]));
     ("failure_statuses", VList
       [VDict (dict_of
          [("status", VStr "app_not_running");
           ("next_action", VStr "deploy or activate the app only through protected control workflows")]);
        VDict (dict_of
          [("status", VStr "no_reply");
           ("next_action", VStr "rerun discover-device before app-specific diagnosis")]);
        VDict (dict_of
          [("status", VStr "payload.status:error");
           ("next_action", VStr "treat nested Unit error as discovery failure and inspect payload message/status_code")])]);
     ("cleanup", VList [])].

Definition metadata_discover_leases : dict := dict_of
    [("host_support", VList (vstrs
       ["linux";
        "wsl"]));
     ("requires_hardware", VBool true);
     ("requires_serial", VBool false);
     ("requires_router", VBool true);
     ("requires_network", VBool false);
     ("destructive", VBool false);
     ("preconditions", VList (vstrs
       ["discover-device succeeds for the target Unit";
        "Unit query leases route is supported by firmware"]));
     ("expected_success", VList (vstrs
       ["query leases returns ok=true";
        "reply payload includes leases list";
        "empty leases list is required before starting release smoke/control closure"]));
     ("failure_statuses", VList
       [VDict (dict_of
          [("status", VStr "lease_conflict");
           ("next_action", VStr "release owned stale leases or wait for TTL expiry before protected control")]);
        VDict (dict_of
          [("status", VStr "no_reply");
           ("next_action", VStr "rerun discover-device before lease-specific diagnosis")]);
        VDict (dict_of
          [("status", VStr "payload.status:error");
           ("next_action", VStr "treat nested Unit error as discovery failure and inspect payload message/status_code")])]);
     ("cleanup", VList [])].

Definition metadata_control_health : dict := dict_of
    [("host_support", VList (vstrs
       ["linux";
        "wsl"]));
     ("requires_hardware", VBool true);
     ("requires_serial", VBool false);
     ("requires_router", VBool true);
     ("requires_network", VBool false);
     ("destructive", VBool false);
     ("preconditions", VList (vstrs
       ["discover-device succeeds for the target Unit";
        "discover-apps and discover-leases are available for the target Unit"]));
     ("expected_success", VList (vstrs
       ["query device, query apps, and query leases all return ok=true";
        "nested reply payloads report status=ok";
        "lease list is empty or only contains leases intentionally owned by the operator"]));
     ("failure_statuses", VList
       [VDict (dict_of
          [("status", VStr "no_reply");
           ("next_action", VStr "rerun discover-router and discover-device before control")]);
        VDict (dict_of
          [("status", VStr "payload.status:error");
           ("next_action", VStr "stop control flow and inspect nested Unit status_code/message")])]);
     ("cleanup", VList [])].

Definition metadata_control_deploy : dict := dict_of
    [("host_support", VList (vstrs
       ["linux";
        "wsl"]));
     ("requires_hardware", VBool true);
     ("requires_serial", VBool false);
     ("requires_router", VBool true);
     ("requires_network", VBool false);
     ("destructive", VBool true);
     ("preconditions", VList (vstrs
       ["discover-device succeeds for the target Unit";
        "discover-leases shows no conflicting update/app lease";
        "fresh LLEXT artifact exists at build/neurolink_unit/llext/neuro_unit_app.llext"]));
     ("expected_success", VList (vstrs
       ["lease acquire returns status=ok for update/app/neuro_unit_app/activate";
        "deploy prepare, verify, and activate return status=ok in order";
        "post-activate query apps reports neuro_unit_app active or running";
        "cleanup releases the deploy lease and query leases is empty"]));
     ("failure_statuses", VList
       [VDict (dict_of
          [("status", VStr "lease_conflict");
           ("next_action", VStr "release owned stale update lease or wait for TTL expiry")]);
        VDict (dict_of
          [("status", VStr "artifact_missing");
           ("next_action", VStr "run workflow plan app-build and rebuild the LLEXT artifact")]);
        VDict (dict_of
          [("status", VStr "payload.status:error");
           ("next_action", VStr "stop deploy flow and preserve prepare/verify/activate payload evidence")])]);
     ("cleanup", VList (vstrs
       [("release lease " +:+ (release_label "deploy") +:+ "-lease");
        "query leases until update/app/neuro_unit_app/activate lease is absent"]))].

Definition metadata_control_app_invoke : dict := dict_of
    [("host_support", VList (vstrs
       ["linux";
        "wsl"]));
     ("requires_hardware", VBool true);
     ("requires_serial", VBool false);
     ("requires_router", VBool true);
     ("requires_network", VBool false);
     ("destructive", VBool true);
     ("preconditions", VList (vstrs
       ["discover-device succeeds for the target Unit";
        "discover-apps reports neuro_unit_app running or ready for invoke";
        "discover-leases shows no conflicting app control lease"]));
     ("expected_success", VList (vstrs
       ["lease acquire returns status=ok for app/neuro_unit_app/control";
        "app invoke returns status=ok and app_id=neuro_unit_app";
        "cleanup releases the app control lease and query leases is empty"]));
     ("failure_statuses", VList
       [VDict (dict_of
          [("status", VStr "app_not_running");
           ("next_action", VStr "run control-deploy before app invoke")]);
        VDict (dict_of
          [("status", VStr "lease_conflict");
           ("next_action", VStr "release owned stale app control lease or wait for TTL expiry")]);
        VDict (dict_of
          [("status", VStr "payload.status:error");
           ("next_action", VStr "treat nested Unit error as command failure")])]);
     ("cleanup", VList (vstrs
       [("release lease " +:+ (release_label "app-control") +:+ "-lease");
        "query leases until app/neuro_unit_app/control lease is absent"]))].

Definition metadata_control_app_start : dict := dict_of
    [("host_support", VList (vstrs
       ["linux";
        "wsl"]));
     ("requires_hardware", VBool true);
     ("requires_serial", VBool false);
     ("requires_router", VBool true);
     ("requires_network", VBool false);
     ("destructive", VBool true);
     ("preconditions", VList (vstrs
       ["discover-device succeeds for the target Unit";
        "discover-apps confirms neuro_unit_app is present and startable";
        "discover-leases shows no conflicting app control lease"]));
     ("expected_success", VList (vstrs
       ["lease acquire returns status=ok for app/neuro_unit_app/control";
        "app start returns status=ok and app_id=neuro_unit_app";
        "cleanup releases the app control lease and query leases is empty"]));
     ("failure_statuses", VList
       [VDict (dict_of
          [("status", VStr "lease_conflict");
           ("next_action", VStr "release owned stale app control lease or wait for TTL expiry")]);
        VDict (dict_of
          [("status", VStr "payload.status:error");
           ("next_action", VStr "treat nested Unit error as start failure")])]);
     ("cleanup", VList (vstrs
       [("release lease " +:+ (release_label "app-start") +:+ "-lease");
        "query leases until app/neuro_unit_app/control lease is absent"]))].

Definition metadata_control_app_restart : dict := dict_of
    [("host_support", VList (vstrs
       ["linux";
        "wsl"]));
     ("requires_hardware", VBool true);
     ("requires_serial", VBool false);
     ("requires_router", VBool true);
     ("requires_network", VBool false);
     ("destructive", VBool true);
     ("preconditions", VList (vstrs
       ["discover-device succeeds for the target Unit";
        "discover-apps confirms neuro_unit_app is running or restartable";
        "discover-leases shows no conflicting app control lease"]));
     ("expected_success", VList (vstrs
       ["lease acquire returns status=ok for app/neuro_unit_app/control";
        "control app-restart returns status=ok and app_id=neuro_unit_app";
        "cleanup releases the app control lease and query leases is empty"]));
     ("failure_statuses", VList
       [VDict (dict_of
          [("status", VStr "lease_conflict");
           ("next_action", VStr "release owned stale app control lease or wait for TTL expiry")]);
        VDict (dict_of
          [("status", VStr "payload.status:error");
           ("next_action", VStr "treat nested Unit error as restart failure")])]);
     ("cleanup", VList (vstrs
       [("release lease " +:+ (release_label "app-restart") +:+ "-lease");
        "query leases until app/neuro_unit_app/control lease is absent"]))].

Definition metadata_control_callback : dict := dict_of
    [("host_support", VList (vstrs
       ["linux";
        "wsl"]));
     ("requires_hardware", VBool true);
     ("requires_serial", VBool false);
     ("requires_router", VBool true);
     ("requires_network", VBool false);
     ("destructive", VBool true);
     ("preconditions", VList (vstrs
       ["discover-device succeeds for the target Unit";
        "discover-apps reports neuro_unit_app running";
        "callback handler execution is explicitly enabled if a handler is used"]));
     ("expected_success", VList (vstrs
       ["callback config on returns status=ok";
        "app invoke returns status=ok and publishes the callback event";
        "monitor app-events captures a fresh app-scoped callback event";
        "callback config off and lease release complete during cleanup"]));
     ("failure_statuses", VList
       [VDict (dict_of
          [("status", VStr "callback_timeout");
           ("next_action", VStr "check app callback config, event name, and app-scoped subscription path")]);
        VDict (dict_of
          [("status", VStr "handler_failed");
           ("next_action", VStr "inspect explicit handler audit stdout/stderr/returncode")]);
        VDict (dict_of
          [("status", VStr "payload.status:error");
           ("next_action", VStr "treat nested Unit error as callback control failure")])]);
     ("cleanup", VList (vstrs
       ["turn callback mode off when the workflow enabled it";
        ("release lease " +:+ (release_label "callback") +:+ "-lease");
        "undeclare event subscribers and query leases"]))].

Definition metadata_control_monitor : dict := dict_of
    [("host_support", VList (vstrs
       ["linux";
        "wsl"]));
     ("requires_hardware", VBool true);
     ("requires_serial", VBool false);
     ("requires_router", VBool true);
     ("requires_network", VBool false);
     ("destructive", VBool false);
     ("preconditions", VList (vstrs
       ["discover-device succeeds for the target Unit";
        "operator explicitly approves any local handler command or handler Python file"]));
     ("expected_success", VList (vstrs
       ["monitor app-events subscribes to the app-scoped callback key expression";
        "optional handler audit reports runner, cwd, timeout, returncode, stdout, and stderr";
        "event collection stops on max-events or duration without leaking non-JSON stdout"]));
     ("failure_statuses", VList
       [VDict (dict_of
          [("status", VStr "handler_failed");
           ("next_action", VStr "inspect handler audit fields and do not retry blindly")]);
        VDict (dict_of
          [("status", VStr "callback_timeout");
           ("next_action", VStr "verify callback is enabled and event name matches monitor path")])]);
     ("cleanup", VList (vstrs
       ["undeclare subscriber and stop local handler execution"]))].

Definition metadata_control_cleanup : dict := dict_of
    [("host_support", VList (vstrs
       ["linux";
        "wsl"]));
     ("requires_hardware", VBool true);
     ("requires_serial", VBool false);
     ("requires_router", VBool true);
     ("requires_network", VBool false);
     ("destructive", VBool false);
     ("preconditions", VList (vstrs
       ["one or more known release workflow lease ids may still be active";
        "target Unit is reachable enough to query leases"]));
     ("expected_success", VList (vstrs
       ["owned workflow leases are released or already absent";
        "final query leases returns ok=true with an empty leases list for closure"]));
     ("failure_statuses", VList
       [VDict (dict_of
          [("status", VStr "lease_not_found");
           ("next_action", VStr "treat as already-clean for the named workflow lease and continue final query leases")]);
        VDict (dict_of
          [("status", VStr "payload.status:error");
           ("next_action", VStr "inspect lease payload and avoid claiming cleanup closure")])]);
     ("cleanup", VList (vstrs
       ["repeat query leases after each release attempt"]))].

Definition metadata_control_rollback : dict := dict_of
    [("host_support", VList (vstrs
       ["linux";
        "wsl"]));
     ("requires_hardware", VBool true);
     ("requires_serial", VBool false);
     ("requires_router", VBool true);
     ("requires_network", VBool false);
     ("destructive", VBool true);
     ("preconditions", VList (vstrs
       ["discover-device succeeds for the target Unit";
        "discover-leases shows no conflicting update rollback lease";
        "operator explicitly confirms the rollback target app and staged version"]));
     ("expected_success", VList (vstrs
       ["lease acquire returns status=ok for update/app/neuro_unit_app/rollback";
        "deploy rollback returns status=ok and app_id=neuro_unit_app";
        "cleanup releases the rollback lease and query leases is empty"]));
     ("failure_statuses", VList
       [VDict (dict_of
          [("status", VStr "lease_conflict");
           ("next_action", VStr "release owned stale rollback lease or wait for TTL expiry")]);
        VDict (dict_of
          [("status", VStr "payload.status:error");
           ("next_action", VStr "stop rollback flow and preserve failing reply payload")])]);
     ("cleanup", VList (vstrs
       [("release lease " +:+ (release_label "rollback") +:+ "-lease");
        "query leases until update/app/neuro_unit_app/rollback lease is absent"]))].

Definition metadata_app_build : dict := dict_of
    [("preconditions", VList (vstrs
       ["Unit EDK headers and LLEXT support output are available or buildable";
        "Zephyr toolchain and west workspace are configured"]));
     ("expected_success", VList (vstrs
       ["build command exits 0";
        "build/neurolink_unit_app/neuro_unit_app.llext exists"]))].

Definition metadata_demo_build : dict := dict_of
    [("requires_hardware", VBool false);
     ("requires_serial", VBool false);
     ("requires_router", VBool false);
     ("requires_network", VBool false);
     ("destructive", VBool false);
     ("preconditions", VList (vstrs
       ["subprojects/demo_catalog.json contains the selected demo app id";
        "build_neurolink_demo.sh is available and the Zephyr build toolchain is configured";
        "the selected demo source directory has a valid CMakeLists.txt and toolchain.cmake"]));
     ("expected_success", VList (vstrs
       ["catalog-backed wrapper exits 0";
        "wrapper reports demo_app_id=neuro_demo_net_event and artifact_file for the staged output";
        "build/neurolink_unit/llext/neuro_demo_net_event.llext exists after the build"]));
     ("failure_statuses", VList
       [VDict (dict_of
          [("status", VStr "demo_not_defined");
           ("next_action", VStr "choose an app id that exists in subprojects/demo_catalog.json")]);
        VDict (dict_of
          [("status", VStr "app source dir not found");
           ("next_action", VStr "restore the selected demo subproject or correct the catalog source_dir")]);
        VDict (dict_of
          [("status", VStr "artifact missing or empty");
           ("next_action", VStr "inspect the selected demo build log and rebuild after fixing the compile failure")])]);
     ("cleanup", VList [])].

Definition metadata_unit_build : dict := dict_of
    [("preconditions", VList (vstrs
       ["Zephyr SDK or compatible toolchain is installed";
        "west workspace modules are initialized"]));
     ("expected_success", VList (vstrs
       ["build command exits 0";
        "build/neurolink_unit/zephyr/zephyr.elf exists"]))].

Definition metadata_unit_edk : dict := dict_of
    [("preconditions", VList (vstrs
       ["Zephyr SDK or compatible toolchain is installed";
        "Unit firmware build configuration can generate LLEXT EDK output"]));
     ("expected_success", VList (vstrs
       ["build command exits 0";
        "build/neurolink_unit/zephyr/llext-edk exists"]))].

Definition metadata_unit_tests : dict := dict_of
    [("preconditions", VList (vstrs
       ["native_sim toolchain support is available";
        "west workspace modules are initialized"]));
     ("expected_success", VList (vstrs
       ["west build exits 0";
        "native_sim Unit tests report success"]))].

Definition metadata_cli_tests : dict := dict_of
    [("host_support", VList (vstrs
       ["linux";
        "windows";
        "wsl"]));
     ("requires_network", VBool false);
     ("preconditions", VList (vstrs
       ["Neuro CLI Python test dependencies are installed";
        "zenoh import is available or tests install a fake module where expected"]));
     ("expected_success", VList (vstrs
       ["pytest exits 0";
        "CLI JSON and wrapper contract regressions pass"]))].

Definition metadata_memory_evidence : dict := dict_of
    [("preconditions", VList (vstrs
       ["Zephyr SDK or compatible toolchain is installed";
        "memory evidence collector can run a Unit build"]));
     ("expected_success", VList (vstrs
       ["collector exits 0";
        "memory evidence JSON and summary artifacts are written"]))].

Definition metadata_llext_lifecycle : dict := dict_of
    [("requires_hardware", VBool true);
     ("requires_serial", VBool false);
     ("requires_router", VBool true);
     ("destructive", VBool true);
     ("preconditions", VList (vstrs
       ["control-deploy can activate the sample LLEXT app";
        "operator owns required app/update leases before destructive lifecycle changes"]));
     ("expected_success", VList (vstrs
       ["runtime unload and artifact delete report distinct status fields";
        "query apps confirms no stale running app after lifecycle cleanup"]));
     ("failure_statuses", VList
       [VDict (dict_of
          [("status", VStr "delete_active_app_rejected");
           ("next_action", VStr "stop and unload the running app before deleting its artifact")]);
        VDict (dict_of
          [("status", VStr "artifact_missing");
           ("next_action", VStr "treat as already deleted only when query apps/artifacts confirms clean state")])])].

Definition metadata_memory_layout_dump : dict := dict_of
    [("requires_hardware", VBool false);
     ("requires_serial", VBool false);
     ("requires_router", VBool false);
     ("requires_network", VBool false);
     ("destructive", VBool false);
     ("preconditions", VList (vstrs
       ["build/neurolink_unit contains Zephyr build artifacts";
        "memory evidence collector can parse .config and zephyr.stat"]));
     ("expected_success", VList (vstrs
       ["static layout JSON and summary artifacts are written";
        "section totals include dram0, iram0, flash, and ext_ram when available"]));
     ("failure_statuses", VList
       [VDict (dict_of
          [("status", VStr "build_dir_missing");
           ("next_action", VStr "run workflow plan unit-build before dumping static layout")]);
        VDict (dict_of
          [("status", VStr "zephyr_stat_missing");
           ("next_action", VStr "inspect the Unit build output and rebuild if needed")])])].

Definition metadata_llext_memory_config : dict := dict_of
    [("requires_hardware", VBool false);
     ("requires_serial", VBool false);
     ("requires_router", VBool false);
     ("requires_network", VBool false);
     ("destructive", VBool false);
     ("preconditions", VList (vstrs
       ["memory-layout-dump baseline exists";
        "candidate overlay changes only LLEXT memory/staging configuration"]));
     ("expected_success", VList (vstrs
       ["candidate build evidence is comparable with static layout baseline";
        "promotion remains blocked until hardware runtime evidence is collected"]));
     ("failure_statuses", VList
       [VDict (dict_of
          [("status", VStr "runtime_heap_dynamic_unsafe");
           ("next_action", VStr "keep the change as a build-time overlay candidate")]);
        VDict (dict_of
          [("status", VStr "memory_regression");
           ("next_action", VStr "reject the candidate or collect a narrower isolated overlay")])])].

Definition metadata_preflight : dict := dict_of
    [("requires_hardware", VBool true);
     ("requires_serial", VBool true);
     ("requires_router", VBool true);
     ("preconditions", VList (vstrs
       ["target Unit USB serial device is visible to the host";
        "Zenoh router can be started or is already reachable";
        "Neuro CLI Python dependencies are installed or installable"]));
     ("expected_success", VList (vstrs
       ["preflight exits 0";
        "serial, router, and Unit query checks pass"]));
     ("failure_statuses", VList
       [VDict (dict_of
          [("status", VStr "serial_device_missing");
           ("next_action", VStr "check USB cable, permissions, or WSL USB attach")]);
        VDict (dict_of
          [("status", VStr "no_reply_board_unreachable");
           ("next_action", VStr "check board network readiness and UART logs")])]);
     ("cleanup", VList (vstrs
       ["stop only router processes started by this workflow"]))].

Definition metadata_smoke : dict := dict_of
    [("requires_hardware", VBool true);
     ("requires_serial", VBool true);
     ("requires_router", VBool true);
     ("destructive", VBool true);
     ("preconditions", VList (vstrs
       ["preflight passes for the target Unit";
        "fresh Unit app artifact is buildable"]));
     ("expected_success", VList (vstrs
       ["smoke script exits 0";
        "fresh smoke evidence is written";
        "post-smoke lease query is empty"]));
     ("cleanup", VList (vstrs
       ["release any acquired app/update leases"]))].

Definition metadata_callback_smoke : dict := dict_of
    [("requires_hardware", VBool true);
     ("requires_router", VBool true);
     ("destructive", VBool true);
     ("preconditions", VList (vstrs
       ["target Unit is reachable through query device";
        "neuro_unit_app is deployed and activated";
        "callback handler execution is explicitly enabled if a handler is used"]));
     ("expected_success", VList (vstrs
       ["wrapper exits 0";
        "callback events are fresh and app-scoped";
        "nested Unit reply payloads do not report status=error"]));
     ("failure_statuses", VList
       [VDict (dict_of
          [("status", VStr "handler_failed");
           ("next_action", VStr "inspect audited handler stderr/stdout and return code")]);
        VDict (dict_of
          [("status", VStr "payload.status:error");
           ("next_action", VStr "treat nested Unit reply as command failure")])]);
     ("cleanup", VList (vstrs
       ["release callback smoke lease when acquired"]))].

Definition metadata_demo_net_event_smoke : dict := dict_of
    [("host_support", VList (vstrs
       ["linux";
        "wsl"]));
     ("requires_hardware", VBool true);
     ("requires_serial", VBool true);
     ("requires_router", VBool true);
     ("requires_network", VBool false);
     ("destructive", VBool true);
     ("preconditions", VList (vstrs
       ["workflow plan demo-build succeeds and build/neurolink_unit/llext/neuro_demo_net_event.llext is fresh";
        "preflight passes for the target Unit when artifact_file points at neuro_demo_net_event.llext";
        "discover-leases shows no conflicting update or app-control lease for neuro_demo_net_event"]));
     ("expected_success", VList (vstrs
       ["deploy prepare, verify, and activate return status=ok for neuro_demo_net_event";
        "capability and publish invoke commands return status=ok without nested payload.status:error";
        "monitor app-events captures a fresh demo_event for neuro_demo_net_event";
        "cleanup releases both demo leases and query leases is empty"]));
     ("failure_statuses", VList
       [VDict (dict_of
          [("status", VStr "serial_device_missing");
           ("next_action", VStr "restore Unit USB serial visibility before claiming hardware readiness")]);
        VDict (dict_of
          [("status", VStr "no_reply_board_unreachable");
           ("next_action", VStr "check board network readiness, UART logs, and router reachability before deploy")]);
        VDict (dict_of
          [("status", VStr "lease_conflict");
           ("next_action", VStr "release the stale deploy/app-control lease or wait for TTL expiry before retrying")]);
        VDict (dict_of
          [("status", VStr "not_implemented");
           ("next_action", VStr "treat this as unsupported runtime capability and collect capability reply evidence instead of smoke closure")]);
        VDict (dict_of
          [("status", VStr "payload.status:error");
           ("next_action", VStr "stop the demo smoke flow and preserve the failing Unit reply payload")])]);
     ("cleanup", VList (vstrs
       [("release lease " +:+ (release_label "demo-net-event-control") +:+ "-lease");
        ("release lease " +:+ (release_label "demo-net-event-deploy") +:+ "-lease");
        "query leases until both demo lease ids are absent"]))].

Definition metadata_release_closure : dict := dict_of
    [("requires_hardware", VBool true);
     ("requires_serial", VBool true);
     ("requires_router", VBool true);
     ("destructive", VBool true);
     ("preconditions", VList (vstrs
       ["local CLI, wrapper, script, build, and skill gates are green";
        "hardware preflight and smoke can run against the target Unit";
        "release identity has not been promoted prematurely"]));
     ("expected_success", VList (vstrs
       ["all listed gates exit 0";
        "memory and smoke evidence are fresh";
        "release identity remains controlled until final promotion slice"]));
     ("cleanup", VList (vstrs
       ["release any acquired leases";
        "capture final evidence paths"]))].

Definition WORKFLOW_PLAN_METADATA : list (string * dict) :=
  [("setup-linux", metadata_setup_linux);
   ("setup-windows", metadata_setup_windows);
   ("discover-host", metadata_discover_host);
   ("discover-router", metadata_discover_router);
   ("discover-serial", metadata_discover_serial);
   ("serial-discover", metadata_serial_discover);
   ("serial-zenoh-config", metadata_serial_zenoh_config);
   ("serial-zenoh-recover", metadata_serial_zenoh_recover);
   ("discover-device", metadata_discover_device);
   ("discover-apps", metadata_discover_apps);
   ("discover-leases", metadata_discover_leases);
   ("control-health", metadata_control_health);
   ("control-deploy", metadata_control_deploy);
   ("control-app-invoke", metadata_control_app_invoke);
   ("control-app-start", metadata_control_app_start);
   ("control-app-restart", metadata_control_app_restart);
   ("control-callback", metadata_control_callback);
   ("control-monitor", metadata_control_monitor);
   ("control-cleanup", metadata_control_cleanup);
   ("control-rollback", metadata_control_rollback);
   ("app-build", metadata_app_build);
   ("demo-build", metadata_demo_build);
   ("unit-build", metadata_unit_build);
   ("unit-edk", metadata_unit_edk);
   ("unit-tests", metadata_unit_tests);
   ("cli-tests", metadata_cli_tests);
   ("memory-evidence", metadata_memory_evidence);
   ("llext-lifecycle", metadata_llext_lifecycle);
   ("memory-layout-dump", metadata_memory_layout_dump);
   ("llext-memory-config", metadata_llext_memory_config);
   ("preflight", metadata_preflight);
   ("smoke", metadata_smoke);
   ("callback-smoke", metadata_callback_smoke);
   ("demo-net-event-smoke", metadata_demo_net_event_smoke);
   ("release-closure", metadata_release_closure)].
