(* ===== verification/Skills.v ===== *)
(** * Skills, runners and the coverage of the workflow catalogue ([tools.py])

    The skill descriptor read from a Markdown file, the skill registry, the
    descriptors of coding agent runners, and the check of a tool contract
    against the workflow catalogue. *)

From Stdlib Require Import ZArith Lia Bool List Ascii String.
From stdpp Require Import base list option strings.
From S2P Require Import Prelude PyFloat Text PyValue JsonParse Json Contracts Policy Artifact Catalog.

#[local] Open Scope string_scope.
#[local] Open Scope Z_scope.
#[local] Open Scope list_scope.

Definition SKILL_DESCRIPTOR_SCHEMA_VERSION : string := "1.2.5-skill-descriptor-v1".
Definition SKILL_REGISTRY_SCHEMA_VERSION : string := "2.2.4-skill-registry-v1".
Definition CODING_AGENT_DESCRIPTOR_SCHEMA_VERSION : string := "2.2.4-coding-agent-descriptor-v1".

(** ** Markdown, on code points *)

(** [s.splitlines()]; a carriage return never precedes a line feed here, since the text was
    read with universal newlines. *)
Definition line_break (c : Z) : bool :=
  ((10 <=? c) && (c <=? 13)) || ((28 <=? c) && (c <=? 30)) || (c =? 133) || (c =? 8232) || (c =? 8233).
Fixpoint split_lines (current : list Z) (l : list Z) : list string :=
  match l with
  | [] => match current with [] => [] | _ => [of_code_points (rev current)] end
  | c :: r => if line_break c then of_code_points (rev current) :: split_lines [] r else split_lines (c :: current) r
  end.
Definition splitlines (s : string) : list string := split_lines [] (code_points s).

(** The text before the first occurrence of [needle], and after it. *)
Fixpoint cut_at (needle l : list Z) : option (list Z * list Z) :=
  match strip_prefix needle l with
  | Some r => Some ([], r)
  | None => match l with
            | [] => None
            | c :: l' => match cut_at needle l' with Some (a, b) => Some (c :: a, b) | None => None end
            end
  end.

Definition cps (s : string) : list Z := code_points s.
Definition nl : string := String "010"%char "".

(** Stripping quotation marks. *)
Fixpoint drop_quotes (l : list Z) : list Z :=
  match l with c :: r => if c =? 34 then drop_quotes r else l | [] => [] end.
Definition strip_quotes (s : string) : string := of_code_points (rev (drop_quotes (rev (drop_quotes (cps s))))).

Definition frontmatter_entry (payload : list (string * string)) (line : string) : list (string * string) :=
  match cut_at [58] (cps line) with
  | Some (key, value) =>
      od_set (fun k : string => k) (py_strip (of_code_points key)) (strip_quotes (py_strip (of_code_points value))) payload
  | None => payload
  end.

Definition split_markdown_frontmatter (content : string) : list (string * string) * string :=
  match strip_prefix (cps ("---" +:+ nl)) (cps content) with
  | None => ([], content)
  | Some rest =>
      match cut_at (cps (nl +:+ "---" +:+ nl)) rest with
      | None => ([], content)
      | Some (block, body) => (foldl frontmatter_entry [] (splitlines (of_code_points block)), of_code_points body)
      end
  end.

(** What follows the last line feed of a run of spaces, when it has one. *)
Fixpoint after_last_newline (l : list Z) : option (list Z) :=
  match l with
  | [] => None
  | c :: r => match after_last_newline r with Some r' => Some r' | None => if c =? 10 then Some r else None end
  end.

(** Two number signs and spaces, at a line start, and what follows. *)
Definition heading_mark (l : list Z) : option (list Z) :=
  match strip_prefix [35; 35] l with
  | Some r => match span is_space r with ([], _) => None | (_, r') => Some r' end
  | None => None
  end.

(** The mark and the heading alone on its line, and the section after it. *)
Definition heading_at (heading : string) (l : list Z) : option (list Z) :=
  match heading_mark l with
  | Some r =>
      match strip_prefix (cps heading) r with
      | Some r' => let (spaces, r2) := span is_space r' in
                   option_map (fun rest => rest ++ r2) (after_last_newline spaces)
      | None => None
      end
  | None => None
  end.

Fixpoint find_heading (heading : string) (at_start : bool) (l : list Z) : option (list Z) :=
  match if at_start then heading_at heading l else None with
  | Some section => Some section
  | None => match l with [] => None | c :: r => find_heading heading (c =? 10) r end
  end.

Fixpoint until_heading (at_start : bool) (l : list Z) : list Z :=
  match l with
  | [] => []
  | c :: r => if at_start && match heading_mark l with Some _ => true | None => false end then []
              else c :: until_heading (c =? 10) r
  end.

Definition markdown_section (body heading : string) : string :=
  match find_heading heading true (cps body) with
  | None => ""
  | Some section => py_strip (of_code_points (until_heading true section))
  end.

(** A number, a full stop, spaces and the item. *)
Definition numbered_item (line : string) : option string :=
  match group re_digit (cps (py_strip line)) with
  | Some (_, r) =>
      match strip_prefix [46] r with
      | Some r' => match group is_space r' with Some (_, rest) => Some (py_strip (of_code_points rest)) | None => None end
      | None => None
      end
  | None => None
  end.
Definition extract_numbered_items (section : string) : list string := omap numbered_item (splitlines section).

(** A fence opened at the head of [l]: its content and what follows it. *)
Definition fenced_at (l : list Z) : option (list Z * list Z) :=
  match strip_prefix (cps "```") l with
  | Some r =>
      match match strip_prefix (cps ("bash" +:+ nl)) r with Some r' => Some r' | None => strip_prefix (cps nl) r end with
      | Some r' => cut_at (cps "```") r'
      | None => None
      end
  | None => None
  end.
Fixpoint fenced_blocks (fuel : nat) (l : list Z) : list (list Z) :=
  match fuel with
  | O => []
  | S f => match fenced_at l with
           | Some (block, rest) => block :: fenced_blocks f rest
           | None => match l with [] => [] | _ :: r => fenced_blocks f r end
           end
  end.
Definition extract_fenced_commands (section : string) : list string :=
  List.filter (fun c => negb (String.eqb c "")) 
    (map (fun b => py_strip (of_code_points b)) (fenced_blocks (S (length (cps section))) (cps section))).

(** A dash, a title in square brackets and a path in round ones. *)
Definition reference_line (line : string) : option dict :=
  match strip_prefix [45] (cps (py_strip line)) with
  | Some r =>
      match group is_space r with
      | Some (_, r1) =>
          match strip_prefix [91] r1 with
          | Some r2 =>
              match group (fun c => negb (c =? 93)) r2 with
              | Some (title, r3) =>
                  match strip_prefix [93; 40] r3 with
                  | Some r4 =>
                      match group (fun c => negb (c =? 41)) r4 with
                      | Some (path, r5) =>
                          match strip_prefix [41] r5 with
                          | Some r6 => match drop_space r6 with
                                       | [] => Some (dict_of [("title", VStr (of_code_points title)); ("path", VStr (of_code_points path))])
                                       | _ => None
                                       end
                          | None => None
                          end
                      | None => None
                      end
                  | None => None
                  end
              | None => None
              end
          | None => None
          end
      | None => None
      end
  | None => None
  end.
Definition extract_references (section : string) : list dict := omap reference_line (splitlines section).

(** ** Skill descriptors *)

Record SkillDescriptor := {
  sk_name : string;
  sk_description : string;
  sk_argument_hint : string;
  sk_path : string;
  workflow_plan_required : bool;
  json_output_required : bool;
  release_target_promotion_blocked : bool;
  callback_audit_required : bool;
  ground_rules : list string;
  first_check_commands : list string;
  references : list dict;
}.

Definition skill_to_dict (s : SkillDescriptor) : dict :=
  dict_of [("ok", VBool true); ("status", VStr "ok"); ("schema_version", VStr SKILL_DESCRIPTOR_SCHEMA_VERSION);
           ("name", VStr (sk_name s)); ("description", VStr (sk_description s)); ("argument_hint", VStr (sk_argument_hint s));
           ("skill_path", VStr (sk_path s)); ("workflow_plan_required", VBool (workflow_plan_required s));
           ("json_output_required", VBool (json_output_required s));
           ("release_target_promotion_blocked", VBool (release_target_promotion_blocked s));
           ("callback_audit_required", VBool (callback_audit_required s)); ("ground_rules", VList (vstrs (ground_rules s)));
           ("first_check_commands", VList (vstrs (first_check_commands s))); ("references", VList (map VDict (references s)))].

(** Some item has all of the words, in any case. *)
Definition mentions (words items : list string) : bool :=
  existsb (fun item => forallb (py_contains (py_lower item)) words) items.

Definition descriptor_of (path content : string) : SkillDescriptor :=
  let (frontmatter, body) := split_markdown_frontmatter content in
  let rules := extract_numbered_items (markdown_section body "Ground Rules") in
  let commands := extract_fenced_commands (markdown_section body "First Checks") in
  let field key default_ := match od_get (fun k : string => k) key frontmatter with
                            | Some s => if String.eqb s "" then default_ else s
                            | None => default_
                            end in
  {| sk_name := field "name" "unknown-skill";
     sk_description := field "description" "";
     sk_argument_hint := field "argument-hint" "";
     sk_path := path;
     workflow_plan_required := mentions ["workflow plan"] (rules ++ commands);
     json_output_required := mentions ["json"; "output"] rules;
     release_target_promotion_blocked := mentions ["release_target"; "do not promote"] rules;
     callback_audit_required := mentions ["callback"; "audit"] rules;
     ground_rules := rules;
     first_check_commands := commands;
     references := extract_references (markdown_section body "References") |}.

Section Skills.
Context {FS : Files}.

Definition load_neuro_cli_skill_descriptor (skill_path : string) : result SkillDescriptor :=
  let resolved_path := as_posix skill_path [] in
  match file_at resolved_path with
  | None => Raise (External "FileNotFoundError")
  | Some bytes => let! content := read_text bytes in Ok (descriptor_of resolved_path content)
  end.

Definition skill_source_kind (skill_path : string) : string :=
  if py_contains skill_path "/.github/skills/" then "vscode_discovery_adapter"
  else if py_contains skill_path "/neuro_cli/skill/" then "canonical_package_skill"
  else "external_skill".

Record SkillRegistryEntry := {
  skill_id : string;
  source_kind : string;
  canonical : bool;
  descriptor : SkillDescriptor;
}.

Definition entry_to_dict (e : SkillRegistryEntry) : dict :=
  dupdate (skill_to_dict (descriptor e))
    (dict_of [("skill_id", VStr (skill_id e)); ("source_kind", VStr (source_kind e)); ("canonical", VBool (canonical e))]).

Definition registry_entry (skill_path : string) : result SkillRegistryEntry :=
  let! d := load_neuro_cli_skill_descriptor skill_path in
  let kind := skill_source_kind (as_posix skill_path []) in
  Ok {| skill_id := sk_name d +:+ ":" +:+ kind; source_kind := kind;
        canonical := String.eqb kind "canonical_package_skill"; descriptor := d |}.

Definition load_skill_descriptor_registry (skill_paths : list string) : result (list SkillRegistryEntry) :=
  rmap registry_entry skill_paths.

Definition get_entry (id : string) (registry : list SkillRegistryEntry) : option SkillRegistryEntry :=
  List.find (fun e => String.eqb (skill_id e) id) registry.
Definition canonical_entries (registry : list SkillRegistryEntry) : list SkillRegistryEntry := List.filter canonical registry.

Definition registry_to_dict (registry : list SkillRegistryEntry) : dict :=
  dict_of [("ok", VBool true); ("status", VStr "ok"); ("schema_version", VStr SKILL_REGISTRY_SCHEMA_VERSION);
           ("entry_count", VInt (Z.of_nat (length registry)));
           ("canonical_entry_count", VInt (Z.of_nat (length (canonical_entries registry))));
           ("skill_ids", VList (vstrs (map skill_id registry)));
           ("canonical_skill_ids", VList (vstrs (map skill_id (canonical_entries registry))));
           ("entries", VList (map (fun e => VDict (entry_to_dict e)) registry))].
End Skills.

(** ** Runners of coding agents *)

Record CodingAgentRunnerDescriptor := {
  runner_name : string;
  display_name : string;
  invocation_mode : string;
  masked_env_vars : list string;
}.

Definition runner_catalog : list (string * (string * string * list string)) :=
  [("copilot", ("GitHub Copilot Coding Runner", "cli_json_plan_only", ["GITHUB_COPILOT_CLI_PATH"; "GITHUB_COPILOT_MODEL"]));
   ("qwen-code", ("Qwen Code Runner", "external_cli_plan_only", ["QWEN_CODE_MODEL"]));
   ("opencode", ("OpenCode Runner", "external_cli_plan_only", ["OPENCODE_MODEL"]));
   ("local-command", ("Local Command Coding Runner", "local_wrapper_plan_only", []))].

Definition load_coding_agent_runner_descriptor (name : string) : result CodingAgentRunnerDescriptor :=
  let normalized := py_lower (py_strip name) in
  let normalized := if String.eqb normalized "" then "copilot" else normalized in
  match od_get (fun k : string => k) normalized runner_catalog with
  | Some (display, mode, masked) =>
      Ok {| runner_name := normalized; display_name := display; invocation_mode := mode; masked_env_vars := masked |}
  | None => Raise (ValueError "unsupported_coding_agent_runner")
  end.

Definition prohibited_actions : list string :=
  ["direct_shell_execution"; "direct_mcp_execution"; "git_push"; "firmware_flash"; "credential_mutation"; "production_deploy"].

(** The flags of every runner. *)
Definition runner_to_dict (r : CodingAgentRunnerDescriptor) : dict :=
  dict_of [("ok", VBool true); ("status", VStr "ok"); ("schema_version", VStr CODING_AGENT_DESCRIPTOR_SCHEMA_VERSION);
           ("runner_name", VStr (runner_name r)); ("display_name", VStr (display_name r));
           ("invocation_mode", VStr (invocation_mode r)); ("disabled_by_default", VBool true); ("approval_required", VBool true);
           ("sandbox_required", VBool true); ("direct_execution_forbidden", VBool true); ("can_apply_changes", VBool false);
           ("release_target_promotion_blocked", VBool true); ("masked_env_vars", VList (vstrs (masked_env_vars r)));
           ("prohibited_actions", VList (vstrs prohibited_actions));
           ("allowed_operations", VList (vstrs ["describe_runner"; "submit_plan_for_self_improvement_review";
                                                "sandbox_only_execution_after_operator_approval"]));
           ("evidence_requirements", VList (vstrs ["approval_record"; "sandbox_execution_record"; "verified_test_evidence";
                                                   "audit_callback_record"]));
           ("safety_boundaries", VDict (dict_of
              [("disabled_by_default", VBool true); ("self_improvement_routing_required", VBool true);
               ("operator_approval_required", VBool true); ("sandbox_only_execution", VBool true);
               ("direct_shell_execution_forbidden", VBool true); ("direct_file_mutation_forbidden", VBool true);
               ("direct_mcp_execution_forbidden", VBool true); ("release_identity_promotion_forbidden", VBool true);
               ("autonomous_commit_push_forbidden", VBool true)]))].

(** ** [shlex.split] *)

(** Between words, in a word, in quotes, after a backslash (and where it returns to). *)
Inductive shlex_state := Blank | InWord | InQuotes (q : Z) | Escaped (quotes : option Z).

Definition shell_space (c : Z) : bool := (c =? 32) || (c =? 9) || (c =? 13) || (c =? 10).
Definition quote_char (c : Z) : bool := (c =? 34) || (c =? 39).

(** [token] is reversed; [quoted] tells that the word had quotes, so that an empty one counts. *)
Fixpoint shlex_words (st : shlex_state) (token : list Z) (quoted : bool) (l : list Z) : result (list string) :=
  let word := of_code_points (rev token) in
  let emitted := match token with [] => if quoted then [word] else [] | _ => [word] end in
  match l with
  | [] =>
      match st with
      | Blank => Ok []
      | InWord => Ok emitted
      | InQuotes _ => Raise (ValueError "No closing quotation")
      | Escaped _ => Raise (ValueError "No escaped character")
      end
  | c :: r =>
      match st with
      | Blank =>
          if shell_space c then shlex_words Blank [] false r
          else if c =? 92 then shlex_words (Escaped None) [] false r
          else if quote_char c then shlex_words (InQuotes c) [] false r
          else shlex_words InWord [c] false r
      | InWord =>
          if shell_space c then let! rest := shlex_words Blank [] false r in Ok (emitted ++ rest)
          else if quote_char c then shlex_words (InQuotes c) token quoted r
          else if c =? 92 then shlex_words (Escaped None) token quoted r
          else shlex_words InWord (c :: token) quoted r
      | InQuotes q =>
          if c =? q then shlex_words InWord token true r
          else if (c =? 92) && (q =? 34) then shlex_words (Escaped (Some q)) token true r
          else shlex_words (InQuotes q) (c :: token) true r
      | Escaped None => shlex_words InWord (c :: token) quoted r
      | Escaped (Some q) =>
          shlex_words (InQuotes q) (if (c =? 92) || (c =? q) then c :: token else c :: 92 :: token) quoted r
      end
  end.

Definition shlex_split (s : string) : result (list string) := shlex_words Blank [] false (code_points s).

Example shlex_split_ex :
  shlex_split (join "" ["a 'b c' "; quote_mark; "d\e\\"; quote_mark; "f \ g ''"]) = Ok ["a"; "b c"; "d\e\f"; " g"; ""] /\
  shlex_split "it's" = Raise (ValueError "No closing quotation").
Proof. vm_compute. auto. Qed.

(** ** The workflow catalogue and the contracts *)

(** What [load_workflow_catalog_definition] returns for a catalogue file. *)
Record WorkflowCatalog := {
  catalog_path : string;
  catalog_plans : list (string * dict);
  catalog_defaults : dict;
  catalog_metadata : list (string * dict);
}.

(** The catalogue of the repository, at its path. *)
Definition default_catalog (path : string) : WorkflowCatalog :=
  {| catalog_path := path; catalog_plans := WORKFLOW_PLANS; catalog_defaults := WORKFLOW_METADATA_DEFAULTS;
     catalog_metadata := WORKFLOW_PLAN_METADATA |}.

Definition INTERNAL_CORE_ONLY_TOOLS : list string := ["system_state_sync"; "system_activation_health_guard"].
Definition TOOL_WORKFLOW_COVERAGE : list (string * list string) :=
  [("system_query_device", ["discover-device"; "control-health"]); ("system_query_apps", ["discover-apps"]);
   ("system_query_leases", ["discover-leases"; "control-cleanup"]); ("system_capabilities", ["discover-host"]);
   ("system_start_app", ["control-app-start"]); ("system_restart_app", ["control-app-restart"]);
   ("system_stop_app", ["llext-lifecycle"]); ("system_unload_app", ["llext-lifecycle"]);
   ("system_rollback_app", ["control-rollback"])].

Fixpoint after_wrapper (argv : list string) : option (list string) :=
  match argv with
  | [] => None
  | item :: rest => if py_contains item "invoke_neuro_cli.py" then Some rest else after_wrapper rest
  end.
Fixpoint drop_output_option (argv : list string) : list string :=
  match argv with
  | [] => []
  | item :: rest => if String.eqb item "--output" then match rest with [] => [] | _ :: rest' => drop_output_option rest' end
                    else item :: drop_output_option rest
  end.
Definition canonical_contract_command_suffix (contract : ToolContract) : string :=
  match argv_template contract with
  | [] => ""
  | argv => py_strip (join " " (drop_output_option (default argv (after_wrapper argv))))
  end.

Definition workflow_command_mentions_lease (metadata : dict) : result bool :=
  let mentioned key := let! items := py_iter (por (dgetn (KStr key) metadata) (VList [])) in
                       Ok (existsb (fun item => py_contains (py_lower (py_str item)) "lease") items) in
  let! preconditions := mentioned "preconditions" in
  if preconditions then Ok true else mentioned "cleanup".

Definition entry {A} (name : string) (l : list (string * A)) : option A := od_get (fun k : string => k) name l.

(** The workflows covering the command so far, and the two alignments. *)
Record Coverage := { cov_workflows : list string; cov_destructive : bool; cov_lease : bool }.

(** Some command of the workflow holds the canonical command, once split as a shell does. *)
Fixpoint any_command (canonical_command : string) (commands : list pyval) : result bool :=
  match commands with
  | [] => Ok false
  | command :: rest =>
      let! words := shlex_split (py_str command) in
      if py_contains (join " " words) canonical_command then Ok true else any_command canonical_command rest
  end.

Definition workflow_metadata (catalog : WorkflowCatalog) (name : string) : dict :=
  dupdate (catalog_defaults catalog) (default [] (entry name (catalog_metadata catalog))).
Definition workflow_commands (catalog : WorkflowCatalog) (name : string) : result (list pyval) :=
  py_iter (por (dgetn "commands" (default [] (entry name (catalog_plans catalog)))) (VList [])).
Definition workflow_destructive (catalog : WorkflowCatalog) (name : string) : bool :=
  py_truthy (dget_or "destructive" (VBool false) (workflow_metadata catalog name)).

Definition cover_workflow (catalog : WorkflowCatalog) (contract : ToolContract) (canonical_command : string) (governed_tool : bool)
    (c : Coverage) (workflow_name : string) : result Coverage :=
  let! commands := workflow_commands catalog workflow_name in
  let! covered := if String.eqb canonical_command "" then Ok false else any_command canonical_command commands in
  let! lease := if nonempty (required_resources contract) && cov_lease c
                then workflow_command_mentions_lease (workflow_metadata catalog workflow_name)
                else Ok (cov_lease c) in
  Ok {| cov_workflows := cov_workflows c ++ (if covered then [workflow_name] else []);
        cov_destructive := cov_destructive c && Bool.eqb (workflow_destructive catalog workflow_name) governed_tool;
        cov_lease := lease |}.

Fixpoint cover_workflows (catalog : WorkflowCatalog) (contract : ToolContract) (canonical_command : string) (governed_tool : bool)
    (c : Coverage) (names : list string) : result Coverage :=
  match names with
  | [] => Ok c
  | name :: rest => let! c' := cover_workflow catalog contract canonical_command governed_tool c name in
                    cover_workflows catalog contract canonical_command governed_tool c' rest
  end.

Definition known_workflow (catalog : WorkflowCatalog) (name : string) : bool :=
  match entry name (catalog_plans catalog), entry name (catalog_metadata catalog) with
  | Some _, Some _ => true
  | _, _ => false
  end.

Definition governed_contract (contract : ToolContract) : bool :=
  approval_required contract || nonempty (required_resources contract) || negb (read_only_level contract).

Definition catalog_failure (present covered : bool) (c : Coverage) : string :=
  if negb present then "workflow_catalog_missing"
  else if negb covered then "workflow_catalog_command_gap"
  else if negb (cov_destructive c) || negb (cov_lease c) then "workflow_catalog_contract_mismatch"
  else "".

Definition validate_tool_workflow_catalog_consistency (catalog : WorkflowCatalog) (contract : ToolContract) : result dict :=
  let coverage_workflows := default [] (entry (tool_name contract) TOOL_WORKFLOW_COVERAGE) in
  if str_in (tool_name contract) INTERNAL_CORE_ONLY_TOOLS then
    Ok (dict_of [("catalog_path", VStr (catalog_path catalog)); ("internal_core_only", VBool true); ("coverage_workflows", VList []);
                 ("workflow_entries_present", VBool true); ("command_coverage_present", VBool true);
                 ("destructive_alignment", VBool true); ("lease_governance_alignment", VBool true); ("valid", VBool true);
                 ("failure_status", VStr "")])
  else
    let canonical_command := canonical_contract_command_suffix contract in
    let present := nonempty coverage_workflows && forallb (known_workflow catalog) coverage_workflows in
    let governed_tool := governed_contract contract in
    let! c := cover_workflows catalog contract canonical_command governed_tool
                {| cov_workflows := []; cov_destructive := true; cov_lease := true |}
                (if present then coverage_workflows else []) in
    let covered := nonempty (cov_workflows c) || String.eqb canonical_command "" in
    Ok (dict_of [("catalog_path", VStr (catalog_path catalog)); ("internal_core_only", VBool false);
                 ("coverage_workflows", VList (vstrs coverage_workflows)); ("workflow_entries_present", VBool present);
                 ("command_coverage_present", VBool covered); ("command_coverage_workflows", VList (vstrs (cov_workflows c)));
                 ("canonical_command", VStr canonical_command); ("destructive_alignment", VBool (cov_destructive c));
                 ("lease_governance_alignment", VBool (cov_lease c));
                 ("valid", VBool (present && covered && cov_destructive c && cov_lease c));
                 ("failure_status", VStr (catalog_failure present covered c))]).

(** ** What a valid contract is *)

(** Some command of some workflow runs the canonical command. *)
Definition command_covered (catalog : WorkflowCatalog) (canonical_command : string) (names : list string) : Prop :=
  exists name commands command words,
    In name names /\ workflow_commands catalog name = Ok commands /\ In command commands /\
    shlex_split (py_str command) = Ok words /\ py_contains (join " " words) canonical_command = true.

Record catalog_covers (catalog : WorkflowCatalog) (contract : ToolContract) (names : list string) : Prop := {
  cc_known : names <> [] /\ Forall (fun name => is_Some (entry name (catalog_plans catalog)) /\
                                               is_Some (entry name (catalog_metadata catalog))) names;
  cc_command : canonical_contract_command_suffix contract = "" \/
               command_covered catalog (canonical_contract_command_suffix contract) names;
  cc_destructive : Forall (fun name => workflow_destructive catalog name = governed_contract contract) names;
  cc_lease : required_resources contract <> [] ->
             Forall (fun name => workflow_command_mentions_lease (workflow_metadata catalog name) = Ok true) names;
}.

Lemma any_command_spec cmd commands b : any_command cmd commands = Ok b ->
  b = true <-> exists command words, In command commands /\ shlex_split (py_str command) = Ok words /\
                                     py_contains (join " " words) cmd = true.
Proof.
  induction commands as [|c rest IH]; cbn [any_command]; intros H.
  - injection H as <-. split; [discriminate | intros (?&?&[]&_)].
  - destruct (shlex_split (py_str c)) as [words|e] eqn:E; cbn in H; [|discriminate].
    destruct (py_contains (join " " words) cmd) eqn:Hc.
    + injection H as <-. split; [|done]. intros _. exists c, words. cbn. auto.
    + rewrite (IH H). split.
      * intros (c'&w&Hin&?). exists c', w. cbn. auto.
      * intros (c'&w&[<-|Hin]&Hs&Hw); [congruence|]. exists c', w. auto.
Qed.

Lemma nonempty_spec {A} (l : list A) : nonempty l = true <-> l <> [].
Proof. destruct l; cbn; split; congruence. Qed.

(** One more workflow, and the run over all of them. *)
Definition coverage_step (catalog : WorkflowCatalog) (contract : ToolContract) (cmd : string) (governed : bool)
    (names : list string) (c c' : Coverage) : Prop :=
  (cov_workflows c' <> [] <-> cov_workflows c <> [] \/ (cmd <> "" /\ command_covered catalog cmd names)) /\
  (cov_destructive c' = true <->
     cov_destructive c = true /\ Forall (fun name => workflow_destructive catalog name = governed) names) /\
  (cov_lease c' = true <->
     cov_lease c = true /\
     (required_resources contract <> [] ->
      Forall (fun name => workflow_command_mentions_lease (workflow_metadata catalog name) = Ok true) names)).

Lemma command_covered_cons catalog cmd name names commands : workflow_commands catalog name = Ok commands ->
  command_covered catalog cmd (name :: names) <->
  (exists command words, In command commands /\ shlex_split (py_str command) = Ok words /\
                         py_contains (join " " words) cmd = true) \/ command_covered catalog cmd names.
Proof.
  intros Hc. split.
  - intros (n&cs&c&w&[<-|Hin]&Hcs&H); [left | right; exists n, cs, c, w; auto].
    assert (cs = commands) as -> by congruence. exists c, w. exact H.
  - intros [(c&w&H)|(n&cs&c&w&Hin&H)]; [exists name, commands, c, w | exists n, cs, c, w]; cbn; tauto.
Qed.

Lemma cover_workflow_spec catalog contract cmd governed c name c' :
  cover_workflow catalog contract cmd governed c name = Ok c' ->
  coverage_step catalog contract cmd governed [name] c c'.
Proof.
  unfold cover_workflow, coverage_step. intros H.
  destruct (workflow_commands catalog name) as [commands|] eqn:Hc; [|discriminate]; cbn in H.
  rewrite (command_covered_cons _ _ _ _ _ Hc).
  assert (Hnil : ~ command_covered catalog cmd []) by (intros (?&?&?&?&[]&_)).
  destruct (if String.eqb cmd "" then Ok false else any_command cmd commands) as [covered|] eqn:Hcov; [|discriminate]; cbn in H.
  destruct (if _ && _ then _ else _) as [lease|] eqn:Hl in H; [|discriminate]; cbn in H.
  injection H as <-; cbn [cov_workflows cov_destructive cov_lease].
  split_and!.
  - assert (covered = true <-> cmd <> "" /\ exists command words, In command commands /\
              shlex_split (py_str command) = Ok words /\ py_contains (join " " words) cmd = true) as Hspec.
    { destruct (String.eqb_spec cmd "") as [->|Hne].
      - injection Hcov as <-. split; [discriminate | tauto].
      - rewrite (any_command_spec _ _ _ Hcov). tauto. }
    destruct (cov_workflows c), covered; cbn; (split; [intros Hx | intros Hx Hy]);
      first [discriminate | left; discriminate | tauto | (right; tauto) | naive_solver].
  - rewrite andb_true_iff, Forall_singleton, Bool.eqb_true_iff. tauto.
  - rewrite Forall_singleton. destruct (nonempty (required_resources contract)) eqn:Hr; cbn in Hl.
    + apply nonempty_spec in Hr. destruct (cov_lease c).
      * rewrite Hl. intuition congruence.
      * injection Hl as <-. intuition congruence.
    + injection Hl as <-. destruct (required_resources contract); [tauto | discriminate].
Qed.

Lemma cover_workflows_spec catalog contract cmd governed names c c' :
  cover_workflows catalog contract cmd governed c names = Ok c' ->
  coverage_step catalog contract cmd governed names c c'.
Proof.
  revert c. induction names as [|name rest IH]; cbn [cover_workflows]; intros c H.
  - injection H as <-. unfold coverage_step, command_covered. rewrite !Forall_nil. naive_solver.
  - destruct (cover_workflow _ _ _ _ _ _) as [c1|] eqn:E; [|discriminate]; cbn in H.
    assert (exists commands, workflow_commands catalog name = Ok commands) as [commands Hc].
    { unfold cover_workflow in E. destruct (workflow_commands catalog name); [eauto | discriminate]. }
    pose proof (cover_workflow_spec _ _ _ _ _ _ _ E) as (A1&A2&A3). destruct (IH _ H) as (B1&B2&B3).
    unfold coverage_step. rewrite (command_covered_cons _ _ _ _ _ Hc) in A1. rewrite (command_covered_cons _ _ _ _ _ Hc).
    assert (Hnil : ~ command_covered catalog cmd []) by (intros (?&?&?&?&[]&_)).
    rewrite !Forall_singleton in A2, A3. rewrite !Forall_cons. tauto.
Qed.

Lemma catalog_failure_spec present covered c :
  catalog_failure present covered c = "" <-> present && covered && cov_destructive c && cov_lease c = true.
Proof. unfold catalog_failure. destruct present, covered, (cov_destructive c), (cov_lease c); cbn; split; congruence. Qed.

Lemma known_workflows_spec catalog names :
  forallb (known_workflow catalog) names = true <->
  Forall (fun name => is_Some (entry name (catalog_plans catalog)) /\ is_Some (entry name (catalog_metadata catalog))) names.
Proof.
  induction names as [|n names IH]; cbn [forallb]; [by rewrite Forall_nil|]. rewrite andb_true_iff, Forall_cons, IH.
  apply and_iff_compat_r. unfold known_workflow.
  destruct (entry n (catalog_plans catalog)), (entry n (catalog_metadata catalog)); unfold is_Some; naive_solver.
Qed.

Lemma validate_valid_bool catalog contract d : validate_tool_workflow_catalog_consistency catalog contract = Ok d ->
  exists b, dgetn "valid" d = VBool b.
Proof.
  unfold validate_tool_workflow_catalog_consistency. destruct (str_in _ _).
  - intros [= <-]. dict_simpl. by exists true.
  - cbv zeta. destruct (cover_workflows _ _ _ _ _ _); [|discriminate]. cbn [rbind]. intros [= <-]. dict_simpl. eauto.
Qed.

Lemma validate_catalog_spec catalog contract d :
  validate_tool_workflow_catalog_consistency catalog contract = Ok d ->
  let internal := str_in (tool_name contract) INTERNAL_CORE_ONLY_TOOLS in
  (dgetn "valid" d = VBool true <->
     internal = true \/
     catalog_covers catalog contract (default [] (entry (tool_name contract) TOOL_WORKFLOW_COVERAGE))) /\
  (dgetn "failure_status" d = VStr "" <-> dgetn "valid" d = VBool true).
Proof.
  unfold validate_tool_workflow_catalog_consistency. cbv zeta.
  set (names := default [] (entry (tool_name contract) TOOL_WORKFLOW_COVERAGE)).
  set (cmd := canonical_contract_command_suffix contract). set (gov := governed_contract contract).
  destruct (str_in (tool_name contract) INTERNAL_CORE_ONLY_TOOLS).
  { intros [= <-]. unfold dgetn. dict_simpl. tauto. }
  destruct (cover_workflows _ _ _ _ _ _) as [c|] eqn:E; [|discriminate]. cbn [rbind].
  intros [= <-]. unfold dgetn. dict_simpl.
  set (present := nonempty names && forallb (known_workflow catalog) names) in *.
  set (covered := nonempty (cov_workflows c) || String.eqb cmd "").
  assert (forall b : bool, VBool b = VBool true <-> b = true) as Hv by (intros; split; congruence).
  assert (VStr (catalog_failure present covered c) = VStr "" <-> catalog_failure present covered c = "") as Hf by (split; congruence).
  rewrite Hf, catalog_failure_spec, !Hv. split; [|tauto].
  apply cover_workflows_spec in E as (A1&A2&A3). cbn [cov_workflows cov_destructive cov_lease] in A1, A2, A3.
  assert (Hc : covered = true <-> cov_workflows c <> [] \/ cmd = "")
    by (unfold covered; rewrite orb_true_iff, nonempty_spec, String.eqb_eq; reflexivity).
  rewrite !andb_true_iff, Hc, A1, A2, A3. clear Hc Hf Hv A1 A2 A3 covered.
  assert (Hp : present = true <-> names <> [] /\ Forall (fun name => is_Some (entry name (catalog_plans catalog)) /\
                                                     is_Some (entry name (catalog_metadata catalog))) names)
    by (unfold present; by rewrite andb_true_iff, nonempty_spec, known_workflows_spec).
  split.
  - intros (((Hk&Hcm)&_&Hd)&_&Hl). right. rewrite Hk in Hcm, Hd, Hl. apply Hp in Hk. split; [done| |done|done].
    unfold cmd in *. tauto.
  - intros [[=]|[Hk Hcm Hd Hl]]. apply Hp in Hk. rewrite Hk. split_and!; [done| |done|done|done|done].
    destruct (String.eqb_spec cmd ""); [tauto|]. left; right. unfold cmd in *. tauto.
Qed.

(** When a contract is valid against a workflow catalogue, for any catalogue: an internal tool always; any other tool exactly
    when it has workflows, each of them known to the catalogue with metadata, some command of one of them (split as a shell does)
    runs the tool's command, each is destructive exactly if the tool is governed (it needs an approval or a resource, or has side
    effects), and each mentions the lease if the tool needs a resource.  The failure status is empty exactly when it is valid. *)
Theorem contract_valid_iff_covered catalog contract d :
  validate_tool_workflow_catalog_consistency catalog contract = Ok d ->
  let internal := str_in (tool_name contract) INTERNAL_CORE_ONLY_TOOLS in
  (dgetn "valid" d = VBool true <->
     internal = true \/
     catalog_covers catalog contract (default [] (entry (tool_name contract) TOOL_WORKFLOW_COVERAGE))) /\
  (dgetn "failure_status" d = VStr "" <-> dgetn "valid" d = VBool true).
Proof. apply validate_catalog_spec. Qed.

Lemma contract_valid_iff_covered_witness : exists contract d,
  describe_tool "system_stop_app" = Some contract /\
  validate_tool_workflow_catalog_consistency (default_catalog "catalog.py") contract = Ok d /\
  str_in (tool_name contract) INTERNAL_CORE_ONLY_TOOLS = false /\
  (dgetn "valid" d = VBool true <->
     false = true \/ catalog_covers (default_catalog "catalog.py") contract ["llext-lifecycle"]).
Proof.
  eexists _, _. split; [reflexivity|]. split; [vm_compute; reflexivity|]. split; [reflexivity|].
  match goal with |- _ <-> _ \/ catalog_covers _ ?c _ =>
    refine (proj1 (contract_valid_iff_covered (default_catalog "catalog.py") c _ _)) end. vm_compute. reflexivity.
Defined.

(** Every tool of the manifest is valid against the repository's own catalogue. *)
Definition valid_against (catalog : WorkflowCatalog) (contract : ToolContract) : bool :=
  match validate_tool_workflow_catalog_consistency catalog contract with
  | Ok d => match dgetn "valid" d with VBool b => b | _ => false end
  | Raise _ => false
  end.
Lemma manifest_valid path : forallb (valid_against (default_catalog path)) tool_manifest = true.
Proof. vm_compute. reflexivity. Qed.

(** A small skill file. *)
Example skill_file_ex :
  let lines := ["---"; "name: probe"; "argument-hint: '<unit>'"; "---"; "# Probe"; "## Ground Rules"; "1. Use a workflow plan.";
                "2. Keep JSON output."; "## First Checks"; "```bash"; "neuro_cli query device"; "```"] in
  let d := descriptor_of "skill.md" (join nl lines) in
  (sk_name d, sk_argument_hint d, workflow_plan_required d, json_output_required d, ground_rules d, first_check_commands d) =
  ("probe", "'<unit>'", true, true, ["Use a workflow plan."; "Keep JSON output."], ["neuro_cli query device"]).
Proof. vm_compute. reflexivity. Qed.
