(* ===== verification/Inference.v ===== *)
(** * Multimodal input and inference routes ([inference.py])

    What a request carries, the profiles a model can be served under, and the
    choice of a profile: the first by priority that takes every input mode,
    gives every response mode and is ready. *)

From Stdlib Require Import ZArith Lia Bool List Ascii String.
From stdpp Require Import base gmap list option strings sorting.
From S2P Require Import Prelude PyFloat Text PyValue Maf.

#[local] Open Scope string_scope.
#[local] Open Scope Z_scope.
#[local] Open Scope list_scope.

Definition MULTIMODAL_INPUT_SCHEMA_VERSION : string := "1.2.5-multimodal-input-v1".
Definition INFERENCE_PROFILE_SCHEMA_VERSION : string := "1.2.5-inference-profile-v1".
Definition INFERENCE_ROUTE_SCHEMA_VERSION : string := "1.2.5-inference-route-v1".
Definition SUPPORTED_RESPONSE_MODES : list string := ["text"; "audio"].
Definition DEFAULT_RESPONSE_MODES : list string := ["text"].
Definition DEFAULT_LATENCY_CLASS : string := "interactive".

(** ** The input of a request *)

Record MediaReference := { mode : string; ref : string; ref_kind : string; ref_provenance : string }.

Definition reference_to_dict (r : MediaReference) : dict :=
  dict_of [("mode", VStr (mode r)); ("ref", VStr (ref r)); ("ref_kind", VStr (ref_kind r));
           ("provenance", VStr (ref_provenance r))].

Record NormalizedMultimodalInput := {
  request_id : string;
  profile_hint : string;
  in_modes : list string;
  response_modes : list string;
  latency_class : string;
  text : list string;
  images : list MediaReference;
  audio : list MediaReference;
  video : list MediaReference;
  provenance : string;
}.

Definition references_value (l : list MediaReference) : pyval := VList (map (fun r => VDict (reference_to_dict r)) l).

Definition input_to_dict (i : NormalizedMultimodalInput) : dict :=
  dict_of [("schema_version", VStr MULTIMODAL_INPUT_SCHEMA_VERSION); ("request_id", VStr (request_id i));
           ("profile_hint", VStr (profile_hint i)); ("input_modes", VList (vstrs (in_modes i)));
           ("response_modes", VList (vstrs (response_modes i))); ("latency_class", VStr (latency_class i));
           ("inputs", VDict (dict_of [("text", VList (vstrs (text i))); ("images", references_value (images i));
                                      ("audio", references_value (audio i)); ("video", references_value (video i))]));
           ("provenance", VStr (provenance i))].

(** The first occurrence of each value. *)
Fixpoint dedupe_from (seen values : list string) : list string :=
  match values with
  | [] => []
  | value :: rest => if str_in value seen then dedupe_from seen rest else value :: dedupe_from (value :: seen) rest
  end.
Definition dedupe (values : list string) : list string := dedupe_from [] values.

Definition classify_reference (ref : string) : string :=
  if startswith ref "http://" || startswith ref "https://" then "uri"
  else if startswith ref "file:" then "file_uri"
  else if py_contains ref "/" || startswith ref "." then "path"
  else "opaque_id".

Definition control_whitespace (s : string) : bool := existsb (fun c => (c =? 10) || (c =? 13) || (c =? 9)) (code_points s).

Definition normalize_ref (mode provenance raw_ref : string) : result MediaReference :=
  let ref := py_strip raw_ref in
  if String.eqb ref "" then Raise (ValueError (mode +:+ "_reference_empty"))
  else if control_whitespace ref then Raise (ValueError (mode +:+ "_reference_contains_control_whitespace"))
  else Ok {| mode := mode; ref := ref; ref_kind := classify_reference ref; ref_provenance := provenance |}.

Definition normalize_refs (mode : string) (refs : list string) (provenance : string) : result (list MediaReference) :=
  rmap (normalize_ref mode provenance) refs.

(** [value or default] of a text *)
Definition text_or (default value : string) : string := if String.eqb value "" then default else value.

Definition is_empty {A} (l : list A) : bool := match l with [] => true | _ => false end.

(** A list left out is the empty one. *)
Definition normalize_multimodal_input (request_id : string) (text image_refs audio_refs video_refs response_modes : list string)
    (profile_hint latency_class provenance : string) : result NormalizedMultimodalInput :=
  let normalized_text := List.filter (fun s => negb (String.eqb s "")) (map py_strip text) in
  let! images := normalize_refs "image" image_refs provenance in
  let! audio := normalize_refs "audio" audio_refs provenance in
  let! video := normalize_refs "video" video_refs provenance in
  let normalized_response_modes := dedupe (if is_empty response_modes then DEFAULT_RESPONSE_MODES else response_modes) in
  let unsupported := sorted_strings (List.filter (fun m => negb (str_in m SUPPORTED_RESPONSE_MODES)) normalized_response_modes) in
  if negb (is_empty unsupported) then Raise (ValueError ("unsupported_response_modes:" +:+ join "," unsupported))
  else
    let modes := (if is_empty normalized_text then [] else ["text"]) ++ (if is_empty images then [] else ["image"]) ++
                 (if is_empty audio then [] else ["audio"]) ++ (if is_empty video then [] else ["video"]) in
    if is_empty modes then Raise (ValueError "multimodal_input_requires_at_least_one_input")
    else Ok {| request_id := request_id; profile_hint := text_or "auto" profile_hint; in_modes := modes;
               response_modes := normalized_response_modes; latency_class := text_or DEFAULT_LATENCY_CLASS latency_class;
               text := normalized_text; images := images; audio := audio; video := video; provenance := provenance |}.

(** ** Profiles *)

Record InferenceProfile := {
  ip_name : string;
  backend : string;
  model_family : string;
  input_modes : list string;
  output_modes : list string;
  local_default : bool;
  resource_class : string;
  requires_external_service : bool;
  priority : Z;
}.

Definition inference_profile_to_dict (p : InferenceProfile) : dict :=
  dict_of [("schema_version", VStr INFERENCE_PROFILE_SCHEMA_VERSION); ("name", VStr (ip_name p)); ("backend", VStr (backend p));
           ("model_family", VStr (model_family p)); ("input_modes", VList (vstrs (input_modes p)));
           ("output_modes", VList (vstrs (output_modes p))); ("local_default", VBool (local_default p));
           ("resource_class", VStr (resource_class p)); ("requires_external_service", VBool (requires_external_service p));
           ("priority", VInt (priority p))].

Definition INFERENCE_PROFILES : list InferenceProfile :=
  [{| ip_name := "local_16g"; backend := "vllm_openai_compatible"; model_family := "gemma-3n-e4b";
      input_modes := ["text"; "image"; "audio"; "video"]; output_modes := ["text"]; local_default := true;
      resource_class := "single_local_16gb_gpu"; requires_external_service := true; priority := 10 |};
   {| ip_name := "visual_heavy"; backend := "vllm_openai_compatible"; model_family := "qwen3-vl-4b-instruct";
      input_modes := ["text"; "image"; "video"]; output_modes := ["text"]; local_default := false;
      resource_class := "visual_local_or_remote"; requires_external_service := true; priority := 20 |};
   {| ip_name := "omni_premium"; backend := "vllm_openai_compatible"; model_family := "qwen3-omni-30b-a3b";
      input_modes := ["text"; "image"; "audio"; "video"]; output_modes := ["text"; "audio"]; local_default := false;
      resource_class := "premium_multimodal"; requires_external_service := true; priority := 30 |};
   {| ip_name := "remote_openai_compatible"; backend := "openai_compatible_remote"; model_family := "operator_configured";
      input_modes := ["text"; "image"; "audio"; "video"]; output_modes := ["text"]; local_default := false;
      resource_class := "remote_provider"; requires_external_service := true; priority := 90 |}].

Definition get_inference_profile (name : string) : option InferenceProfile :=
  List.find (fun p => String.eqb (ip_name p) name) INFERENCE_PROFILES.
Definition inference_profile_catalog : list pyval := map (fun p => VDict (inference_profile_to_dict p)) INFERENCE_PROFILES.

(** ** Readiness *)

Definition live_reason (config : MafProviderConfig) : string * string :=
  if ready_for_model_call config then ("ready", "provider_configuration_available")
  else if negb (credentials_available config) then ("unavailable", "model_credentials_not_configured")
  else ("unavailable", "model_identifier_not_configured").

(** [readiness["ok"]] *)
Definition profile_ready (env : environ) (require_live_backend : bool) : bool :=
  negb require_live_backend || ready_for_model_call (build_maf_provider_config env).

Definition profile_readiness (profile : InferenceProfile) (env : environ) (require_live_backend : bool) : dict :=
  if negb require_live_backend then
    dict_of [("profile", VStr (ip_name profile)); ("ok", VBool true); ("status", VStr "deterministic_ready");
             ("reason", VStr "live_backend_not_required_for_deterministic_route");
             ("requires_external_service", VBool (requires_external_service profile))]
  else
    let config := build_maf_provider_config env in
    let (status, reason) := live_reason config in
    dict_of [("profile", VStr (ip_name profile)); ("ok", VBool (ready_for_model_call config)); ("status", VStr status);
             ("reason", VStr reason); ("requires_external_service", VBool (requires_external_service profile));
             ("provider_config", VDict (provider_config_to_dict config))].

(** ** Routes *)

(** [sorted(set(required).difference(offered))] *)
Definition sorted_difference (required offered : list string) : list string :=
  sorted_strings (List.filter (fun m => negb (str_in m offered)) (remove_dups required)).

Record Rejection := {
  rj_profile : InferenceProfile;
  missing_input_modes : list string;
  missing_response_modes : list string;
  rj_readiness : dict;
}.
Definition rejection_to_dict (r : Rejection) : dict :=
  dict_of [("profile", VStr (ip_name (rj_profile r))); ("missing_input_modes", VList (vstrs (missing_input_modes r)));
           ("missing_response_modes", VList (vstrs (missing_response_modes r))); ("readiness", VDict (rj_readiness r))].
Definition rejections_value (l : list Rejection) : pyval := VList (map (fun r => VDict (rejection_to_dict r)) l).

Inductive InferenceRoute :=
| ProfileNotFound (requested_profile : string)
| Routed (selected : InferenceProfile) (readiness : dict) (requested_profile : string) (rejections : list Rejection)
| NoCompatibleProfile (requested_profile : string) (rejections : list Rejection).

Definition priority_leb (p q : InferenceProfile) : bool := priority p <=? priority q.

Section Route.
Context (env : environ).

(** The loop over the candidates, with the rejections so far. *)
Fixpoint try_profiles (i : NormalizedMultimodalInput) (requested : string) (require_live_backend : bool)
    (rejections : list Rejection) (candidates : list InferenceProfile) : InferenceRoute :=
  match candidates with
  | [] => NoCompatibleProfile (text_or "auto" requested) rejections
  | profile :: rest =>
      let missing_inputs := sorted_difference (in_modes i) (input_modes profile) in
      let missing_outputs := sorted_difference (response_modes i) (output_modes profile) in
      let readiness := profile_readiness profile env require_live_backend in
      if is_empty missing_inputs && is_empty missing_outputs && py_truthy (dgetn "ok" readiness)
      then Routed profile readiness (text_or "auto" requested) rejections
      else try_profiles i requested require_live_backend
             (rejections ++ [{| rj_profile := profile; missing_input_modes := missing_inputs;
                                missing_response_modes := missing_outputs; rj_readiness := readiness |}]) rest
  end.

(** The profile asked for; "auto" asks for none. *)
Definition requested_name (i : NormalizedMultimodalInput) (profile_override : string) : string :=
  let requested := text_or (profile_hint i) profile_override in
  if String.eqb requested "auto" then "" else requested.

Definition build_inference_route (i : NormalizedMultimodalInput) (profile_override : string) (require_live_backend : bool)
    : InferenceRoute :=
  let requested := requested_name i profile_override in
  let try_ candidates := try_profiles i requested require_live_backend [] (py_sorted priority_leb candidates) in
  if String.eqb requested "" then try_ INFERENCE_PROFILES
  else match get_inference_profile requested with
       | None => ProfileNotFound requested
       | Some selected => try_ [selected]
       end.
End Route.

Definition route_ok (r : InferenceRoute) : bool := match r with Routed _ _ _ _ => true | _ => false end.

Definition route_to_dict (i : NormalizedMultimodalInput) (r : InferenceRoute) : dict :=
  dict_of ([("schema_version", VStr INFERENCE_ROUTE_SCHEMA_VERSION); ("ok", VBool (route_ok r))] ++
    match r with
    | ProfileNotFound requested =>
        [("status", VStr "profile_not_found"); ("requested_profile", VStr requested);
         ("failure_status", VStr "unknown_inference_profile"); ("normalized_input", VDict (input_to_dict i));
         ("available_profiles", VList (vstrs (map ip_name INFERENCE_PROFILES)))]
    | Routed selected readiness requested rejections =>
        [("status", VStr "routed"); ("selected_profile", VDict (inference_profile_to_dict selected));
         ("profile_readiness", VDict readiness); ("requested_profile", VStr requested);
         ("normalized_input", VDict (input_to_dict i));
         ("route_reason", VStr (if String.eqb requested "auto" then "best_available_profile" else "operator_override"));
         ("fallback_used", VBool false); ("candidate_rejections", rejections_value rejections)]
    | NoCompatibleProfile requested rejections =>
        [("status", VStr "no_compatible_profile"); ("requested_profile", VStr requested);
         ("failure_status", VStr "no_profile_supports_requested_modes_and_readiness");
         ("normalized_input", VDict (input_to_dict i)); ("candidate_rejections", rejections_value rejections)]
    end).

(** ** The smoke command *)

Definition multimodal_profile_smoke (env : environ) (text image_refs audio_refs video_refs response_modes_ : list string)
    (profile_hint profile_override : string) (require_live_backend : bool) : result dict :=
  let! normalized := normalize_multimodal_input "multimodal-request-001" text image_refs audio_refs video_refs response_modes_
                       profile_hint DEFAULT_LATENCY_CLASS "multimodal_profile_smoke" in
  let decided := build_inference_route env normalized profile_override require_live_backend in
  let route := route_to_dict normalized decided in
  let ok := py_truthy (dgetn "ok" route) in
  let selected_name := if ok then match dgetn "selected_profile" route with VDict d => str_or "name" "" d | _ => "" end else "" in
  let! rejected := py_iter (por (dgetn "candidate_rejections" route) (VList [])) in
  Ok (dict_of
    [("ok", VBool ok); ("status", VStr (if ok then "ready" else "error")); ("command", VStr "multimodal-profile-smoke");
     ("schema_version", VStr INFERENCE_ROUTE_SCHEMA_VERSION); ("multimodal_input", VDict (input_to_dict normalized));
     ("inference_route", VDict route);
     ("evidence_summary", VDict (dict_of
        [("input_modes", VList (vstrs (in_modes normalized))); ("response_modes", VList (vstrs (response_modes normalized)));
         ("requested_profile", VStr (str_or "requested_profile" "auto" route)); ("selected_profile", VStr selected_name);
         ("route_status", VStr (str_or "status" "unknown" route)); ("route_reason", VStr (str_or "route_reason" "" route));
         ("fallback_used", VBool (py_truthy (dget_or "fallback_used" (VBool false) route)));
         ("failure_status", VStr (str_or "failure_status" "" route));
         ("candidate_rejection_count", VInt (Z.of_nat (length rejected)));
         ("requires_live_backend", VBool require_live_backend)]));
     ("closure_gates", VDict (dict_of
        [("multimodal_input_recorded", VBool true); ("route_decision_recorded", VBool true);
         ("profile_readiness_recorded", VBool (py_truthy (por (dgetn "profile_readiness" route) (dgetn "candidate_rejections" route))));
         ("route_ready", VBool ok);
         ("fail_closed_when_unroutable",
          VBool (ok || str_in (str_or "status" "" route) ["profile_not_found"; "no_compatible_profile"]));
         ("no_model_call_executed", VBool true)]));
     ("profile_catalog", VList inference_profile_catalog); ("requires_live_backend", VBool require_live_backend);
     ("executes_model_call", VBool false)]).

(** A picture with a spoken answer goes to the only profile that speaks; without one it goes to the default. *)
Example smoke_ex :
  let run image out := match multimodal_profile_smoke ∅ ["hi"] [image] [] [] out "auto" "" false with
                       | Ok d => (dgetn "status" d, dgetn "evidence_summary" d)
                       | Raise _ => (VNone, VNone)
                       end in
  let selected r := match r.2 with VDict d => dgetn "selected_profile" d | _ => VNone end in
  selected (run "a.png" ["text"; "audio"]) = VStr "omni_premium" /\ selected (run "a.png" []) = VStr "local_16g" /\
  multimodal_profile_smoke ∅ [] [" "] [] [] [] "auto" "" false = Raise (ValueError "image_reference_empty").
Proof. vm_compute. auto. Qed.

(** ** What a route is *)

(** The profile takes and gives every mode of the request, and is ready. *)
Definition serves (env : environ) (require_live_backend : bool) (i : NormalizedMultimodalInput) (p : InferenceProfile) : Prop :=
  in_modes i ⊆ input_modes p /\ response_modes i ⊆ output_modes p /\ profile_ready env require_live_backend = true.

(** The profiles a request may get: the one it names, or all of them. *)
Definition candidate_profiles (i : NormalizedMultimodalInput) (profile_override : string) : list InferenceProfile :=
  let requested := requested_name i profile_override in
  if String.eqb requested "" then INFERENCE_PROFILES
  else match get_inference_profile requested with Some p => [p] | None => [] end.

Definition more_urgent (p q : InferenceProfile) : Prop := priority p < priority q.

Lemma sorted_difference_nil required offered :
  is_empty (sorted_difference required offered) = true <-> required ⊆ offered.
Proof.
  unfold sorted_difference, sorted_strings. set (l := List.filter _ _).
  assert (Hl : forall m, m ∈ l <-> m ∈ required /\ m ∉ offered).
  { intros m. unfold l. rewrite list_elem_of_In, filter_In, <- list_elem_of_In, elem_of_remove_dups, negb_true_iff, str_in_false. done. }
  assert (He : is_empty (py_sorted String.leb l) = true <-> forall m, m ∉ l).
  { setoid_rewrite <- (elem_of_py_sorted String.leb). destruct (py_sorted String.leb l) as [|x k]; cbn.
    - split; [intros _ m; apply not_elem_of_nil | done].
    - split; [done|]. intros H. destruct (H x). by left. }
  rewrite He. split.
  - intros H m Hm. destruct (decide (m ∈ offered)); [done|]. exfalso. apply (H m), Hl. done.
  - intros H m [Hm Hn]%Hl. apply Hn, H, Hm.
Qed.

Lemma readiness_ok p env live : py_truthy (dgetn "ok" (profile_readiness p env live)) = profile_ready env live.
Proof.
  unfold profile_readiness, profile_ready. destruct live; cbn [negb orb]; [|by dict_simpl].
  destruct (live_reason _). by dict_simpl.
Qed.

Lemma try_profiles_spec env i requested live rejections candidates :
  match try_profiles env i requested live rejections candidates with
  | ProfileNotFound _ => False
  | Routed p _ r rejected =>
      r = text_or "auto" requested /\ serves env live i p /\
      exists before after, candidates = before ++ p :: after /\ map rj_profile rejected = map rj_profile rejections ++ before /\
        Forall (fun q => ~ serves env live i q) before
  | NoCompatibleProfile r rejected =>
      r = text_or "auto" requested /\ map rj_profile rejected = map rj_profile rejections ++ candidates /\
      Forall (fun q => ~ serves env live i q) candidates
  end.
Proof.
  revert rejections. induction candidates as [|p rest IH]; intros rejections; cbn [try_profiles].
  { by rewrite app_nil_r. }
  assert (Hs : is_empty (sorted_difference (in_modes i) (input_modes p)) && is_empty (sorted_difference (response_modes i) (output_modes p))
               && py_truthy (dgetn "ok" (profile_readiness p env live)) = true <-> serves env live i p).
  { rewrite !andb_true_iff, !sorted_difference_nil, readiness_ok. unfold serves. tauto. }
  destruct (_ && _) eqn:E.
  - split_and!; [done|by apply Hs|]. exists [], rest. rewrite app_nil_r. auto.
  - assert (Hp : ~ serves env live i p) by (intros H%Hs; congruence).
    specialize (IH (rejections ++ [{| rj_profile := p;
      missing_input_modes := sorted_difference (in_modes i) (input_modes p);
      missing_response_modes := sorted_difference (response_modes i) (output_modes p);
      rj_readiness := profile_readiness p env live |}])).
    destruct (try_profiles _ _ _ _ _ rest) as [|q rd r rejected|r rejected]; [done| |].
    + destruct IH as (->&Hq&before&after&->&Hr&Hb). split_and!; [done|done|]. exists (p :: before), after.
      split_and!; [done| |by constructor]. rewrite Hr, map_app, <- app_assoc. done.
    + destruct IH as (->&Hr&Hb). split_and!; [done| |by constructor]. rewrite Hr, map_app, <- app_assoc. done.
Qed.

Lemma candidates_sorted i override :
  py_sorted priority_leb (candidate_profiles i override) = candidate_profiles i override /\
  StronglySorted more_urgent (candidate_profiles i override).
Proof.
  unfold candidate_profiles. destruct (String.eqb _ _).
  - split; [reflexivity|]. unfold INFERENCE_PROFILES. repeat constructor.
  - destruct (get_inference_profile _); split; repeat constructor.
Qed.

Lemma strongly_sorted_split (p : InferenceProfile) before after : StronglySorted more_urgent (before ++ p :: after) ->
  forall q, q ∈ before ++ p :: after -> (q ∈ before <-> more_urgent q p) /\ (q = p \/ more_urgent q p \/ more_urgent p q).
Proof.
  unfold more_urgent. induction before as [|b before IH]; cbn; intros Hs q Hq.
  - apply StronglySorted_inv in Hs as [_ Ha]. rewrite Forall_forall in Ha. apply elem_of_cons in Hq as [->|Hq].
    + split; [|auto]. split; [by intros ?%elem_of_nil | lia].
    + specialize (Ha q Hq). split; [|auto]. split; [by intros ?%elem_of_nil | lia].
  - apply StronglySorted_inv in Hs as [Hs Hb]. rewrite Forall_forall in Hb.
    assert (Hbp : priority b < priority p) by (apply Hb; set_solver).
    apply elem_of_cons in Hq as [->|Hq].
    + split; [|auto]. split; [done|]. intros _. by left.
    + destruct (IH Hs q Hq) as [H1 H2]. split; [|done]. rewrite <- H1, elem_of_cons. split; [|by right].
      intros [->|]; [|done]. specialize (Hb _ Hq). lia.
Qed.

Lemma try_sorted_spec env i live name cs : cs <> [] -> StronglySorted more_urgent cs ->
  match try_profiles env i name live [] cs with
  | ProfileNotFound _ => False
  | Routed p _ r rejected => r = text_or "auto" name /\ p ∈ cs /\ serves env live i p /\
      (forall q, q ∈ cs -> serves env live i q -> q = p \/ priority p < priority q) /\
      (forall q, q ∈ map rj_profile rejected <-> q ∈ cs /\ priority q < priority p) /\
      (live = true -> credentials_available (build_maf_provider_config env) = true)
  | NoCompatibleProfile r rejected => r = text_or "auto" name /\ map rj_profile rejected = cs /\ cs <> [] /\
      (forall q, q ∈ cs -> ~ serves env live i q)
  end.
Proof.
  intros Hne Ho. pose proof (try_profiles_spec env i name live [] cs) as H.
  destruct (try_profiles _ _ _ _ _ _) as [|p rd r rejected|r rejected]; [done| |].
  - destruct H as (->&Hp&before&after&->&Hr&Hb). rewrite Hr. cbn [map app].
    pose proof (strongly_sorted_split p before after Ho) as Hq. rewrite Forall_forall in Hb. unfold more_urgent in Hq.
    split_and!; [done|set_solver|done| | |].
    + intros q Hin Hs. destruct (Hq q Hin) as [Hbq [->|[Hlt|Hlt]]]; [by left| |by right]. apply Hbq in Hlt. by apply Hb in Hlt.
    + intros q. split; [intros Hin | intros [Hin Hlt]; by apply Hq].
      assert (q ∈ before ++ p :: after) by set_solver. split; [done|by apply Hq].
    + intros ->. destruct Hp as (_&_&Hp). unfold profile_ready, ready_for_model_call in Hp. cbn in Hp.
      by apply andb_true_iff in Hp as [? _].
  - destruct H as (->&Hr&Hb). rewrite Forall_forall in Hb. auto.
Qed.

(** A route is the best one. For any request and environment: an unknown profile is reported exactly when the request names one
    that does not exist; otherwise the candidates are the named profile, or all of them, and the selected one takes every input
    mode, gives every response mode and is ready, as no candidate of a smaller priority does, which are the rejected ones; when
    nothing is selected no candidate does, and all are reported as rejected.  A live backend is ready only with credentials and a
    model. *)
Theorem inference_route_spec env i profile_override live :
  let candidates := candidate_profiles i profile_override in
  match build_inference_route env i profile_override live with
  | ProfileNotFound name =>
      name = requested_name i profile_override /\ name <> "" /\ (forall p, p ∈ INFERENCE_PROFILES -> ip_name p <> name)
  | Routed p _ name rejected =>
      name = text_or "auto" (requested_name i profile_override) /\
      p ∈ candidates /\ serves env live i p /\
      (forall q, q ∈ candidates -> serves env live i q -> q = p \/ priority p < priority q) /\
      (forall q, q ∈ map rj_profile rejected <-> q ∈ candidates /\ priority q < priority p) /\
      (live = true -> credentials_available (build_maf_provider_config env) = true)
  | NoCompatibleProfile name rejected =>
      name = text_or "auto" (requested_name i profile_override) /\
      map rj_profile rejected = candidates /\ candidates <> [] /\ (forall q, q ∈ candidates -> ~ serves env live i q)
  end.
Proof.
  cbv zeta. destruct (candidates_sorted i profile_override) as [Hsort Hord].
  unfold build_inference_route. revert Hsort Hord. unfold candidate_profiles.
  set (name := requested_name i profile_override).
  pose proof (try_sorted_spec env i live name) as Htry.
  destruct (String.eqb_spec name "") as [E|E]; [|destruct (get_inference_profile name) as [p|] eqn:Eg]; intros Hsort Hord.
  - rewrite Hsort. specialize (Htry INFERENCE_PROFILES ltac:(done) Hord). by destruct (try_profiles _ _ _ _ _ _).
  - rewrite Hsort. specialize (Htry [p] ltac:(done) Hord). by destruct (try_profiles _ _ _ _ _ _).
  - split_and!; [done|done|]. intros p Hp Hn. apply list_elem_of_In in Hp.
    pose proof (List.find_none _ _ Eg p Hp) as H. cbn in H. by rewrite Hn, String.eqb_refl in H.
Qed.
