(* ===== verification/ProviderProfiles.v ===== *)
(** * Provider profiles ([inference.py])

    The profiles of model providers: the two built-in ones, those of the
    configuration file, which of them is active for each agent, the commands
    that change the file, and the environment a run gets from the active one.

    The state of the commands is the configuration file: absent, or what
    reading its text and [json.loads] answer.  What is written is kept as the
    value it is read back as ([json_norm]). *)

From Stdlib Require Import ZArith Lia Bool List Ascii String.
From stdpp Require Import base gmap list option strings sorting.
From S2P Require Import Prelude PyFloat Text PyValue Maf Store Inference.

#[local] Open Scope string_scope.
#[local] Open Scope Z_scope.
#[local] Open Scope list_scope.

Definition PROVIDER_PROFILE_SCHEMA_VERSION : string := "2.2.1-provider-profile-v1".
Definition PROVIDER_PROFILE_REGISTRY_SCHEMA_VERSION : string := "2.2.1-provider-profile-registry-v1".
Definition PROVIDER_PROFILE_CONFIG_SCHEMA_VERSION : string := "2.2.1-provider-profile-config-v1".
Definition MODEL_PROFILE_SMOKE_SCHEMA_VERSION : string := "2.2.1-model-profile-smoke-v1".
Definition MODEL_LIST_SCHEMA_VERSION : string := "2.2.1-model-list-v1".
Definition DEFAULT_ACTIVE_MODEL_SLOTS : list string := ["affective"; "rational"].

(** ** Profiles *)

(** The model and the deployment are not checked to be texts. *)
Record ProviderProfile := {
  pp_name : string;
  pp_provider_kind : string;
  pp_credential_env_var : string;
  pp_endpoint_env_var : string;
  pp_model_env_var : string;
  pp_deployment_env_var : string;
  pp_endpoint_url : option string;
  pp_configured_model : pyval;
  pp_configured_deployment : pyval;
  pp_endpoint_configured : bool;
  pp_credential_configured : bool;
  pp_supports_model_discovery : bool;
  pp_active_slots : list string;
  pp_enabled : bool;
}.

Definition pp_model_identifier_configured (p : ProviderProfile) : bool :=
  py_truthy (por (pp_configured_model p) (pp_configured_deployment p)).
Definition pp_ready_for_model_call (p : ProviderProfile) : bool :=
  pp_enabled p && pp_credential_configured p && pp_model_identifier_configured p.
Definition pp_missing_requirements (p : ProviderProfile) : list string :=
  (if pp_enabled p then [] else ["enabled_profile"]) ++
  (if pp_credential_configured p then [] else ["credential_reference"]) ++
  (if pp_model_identifier_configured p then [] else ["model_identifier"]).

Definition provider_profile_to_dict (p : ProviderProfile) : dict :=
  dict_of [("schema_version", VStr PROVIDER_PROFILE_SCHEMA_VERSION); ("name", VStr (pp_name p));
           ("provider_kind", VStr (pp_provider_kind p)); ("enabled", VBool (pp_enabled p));
           ("credential_env_var", VStr (pp_credential_env_var p));
           ("credential_configured", VBool (pp_credential_configured p));
           ("credential_value_masked", VStr (if pp_credential_configured p then "***" else ""));
           ("endpoint_env_var", VStr (pp_endpoint_env_var p)); ("endpoint_url", opt_str (pp_endpoint_url p));
           ("endpoint_configured", VBool (pp_endpoint_configured p)); ("model_env_var", VStr (pp_model_env_var p));
           ("deployment_env_var", VStr (pp_deployment_env_var p)); ("configured_model", pp_configured_model p);
           ("configured_deployment", pp_configured_deployment p);
           ("model_identifier_configured", VBool (pp_model_identifier_configured p));
           ("supports_model_discovery", VBool (pp_supports_model_discovery p));
           ("active_slots", VList (vstrs (pp_active_slots p))); ("ready_for_model_call", VBool (pp_ready_for_model_call p));
           ("missing_requirements", VList (vstrs (pp_missing_requirements p)))].

Record ProviderProfileRegistry := {
  rg_profiles : list ProviderProfile;
  rg_active_affective_profile : string;
  rg_active_rational_profile : string;
}.

Definition get_profile (name : string) (r : ProviderProfileRegistry) : option ProviderProfile :=
  List.find (fun p => String.eqb (pp_name p) name) (rg_profiles r).
Definition active_profile_names (r : ProviderProfileRegistry) : list string :=
  dedupe [rg_active_affective_profile r; rg_active_rational_profile r].
Definition active_profiles (r : ProviderProfileRegistry) : list ProviderProfile :=
  omap (fun name => get_profile name r) (active_profile_names r).
Definition provider_registry_to_dict (r : ProviderProfileRegistry) : dict :=
  dict_of [("schema_version", VStr PROVIDER_PROFILE_REGISTRY_SCHEMA_VERSION);
           ("active_affective_profile", VStr (rg_active_affective_profile r));
           ("active_rational_profile", VStr (rg_active_rational_profile r));
           ("active_profile_names", VList (vstrs (active_profile_names r)));
           ("profiles", VList (map (fun p => VDict (provider_profile_to_dict p)) (rg_profiles r)))].

(** ** The configuration file *)

Definition ConfigFile : Type := option (result pyval).

(** [path] is [str(resolved_path)]. *)
Definition load_provider_profile_config (path : string) (file : ConfigFile) : result dict :=
  match file with
  | None =>
      Ok (dict_of [("schema_version", VStr PROVIDER_PROFILE_CONFIG_SCHEMA_VERSION); ("config_path", VStr path);
                   ("exists", VBool false); ("active_affective_profile", VStr "openai_compatible");
                   ("active_rational_profile", VStr "openai_compatible"); ("profiles", VList [])])
  | Some content =>
      let! payload := content in
      match payload with
      | VDict d =>
          let! profiles := py_iter (por (dgetn "profiles" d) (VList [])) in
          Ok (dict_of [("schema_version", VStr (str_or "schema_version" PROVIDER_PROFILE_CONFIG_SCHEMA_VERSION d));
                       ("config_path", VStr path); ("exists", VBool true);
                       ("active_affective_profile", VStr (str_or "active_affective_profile" "openai_compatible" d));
                       ("active_rational_profile", VStr (str_or "active_rational_profile" "openai_compatible" d));
                       ("profiles", VList profiles)])
      | _ => Raise (ValueError "provider_profile_config_invalid_payload")
      end
  end.

Definition write_provider_profile_config (path : string) (payload : dict) : eff ConfigFile dict :=
  do! profiles := elift (py_iter (por (dgetn "profiles" payload) (VList []))) in
  let write_payload := dict_of
    [("schema_version", VStr PROVIDER_PROFILE_CONFIG_SCHEMA_VERSION);
     ("active_affective_profile", VStr (str_or "active_affective_profile" "openai_compatible" payload));
     ("active_rational_profile", VStr (str_or "active_rational_profile" "openai_compatible" payload));
     ("profiles", VList profiles)] in
  do! written := elift (json_norm (VDict write_payload)) in
  do! _ := emodify (fun _ => Some (Ok written)) in
  eret (dupdate write_payload (dict_of [("config_path", VStr path); ("exists", VBool true)])).

(** ** The registry *)

Definition normalize_slots (raw : pyval) : list string :=
  match raw with
  | VList items =>
      match List.filter (fun s => str_in s DEFAULT_ACTIVE_MODEL_SLOTS) (map py_str items) with
      | [] => DEFAULT_ACTIVE_MODEL_SLOTS
      | slots => slots
      end
  | _ => DEFAULT_ACTIVE_MODEL_SLOTS
  end.

Definition coerce_bool (default : bool) (value : pyval) : bool :=
  match value with
  | VBool b => b
  | VStr s =>
      let normalized := py_lower (py_strip s) in
      if str_in normalized ["1"; "true"; "yes"; "on"; "enabled"] then true
      else if str_in normalized ["0"; "false"; "no"; "off"; "disabled"] then false
      else default
  | _ => default
  end.

(** The name and the value of the first variable that is set, or the first name. *)
Definition first_present (env : environ) (names : list string) : string * option string :=
  match first_present_env_var env names with
  | Some (name, value) => (name, Some value)
  | None => (hd "" names, None)
  end.

(** [bool(env.get(name))], and [bool(name and env.get(name))] *)
Definition variable_set (env : environ) (name : string) : bool := is_set (env !! name).
Definition credential_present (env : environ) (name : string) : bool := negb (String.eqb name "") && variable_set env name.

Definition overlay_profile_from_config (env : environ) (p : ProviderProfile) (config_entry : dict) : ProviderProfile :=
  let field key default := str_or key default config_entry in
  let credential_env_var := field "credential_env_var" (pp_credential_env_var p) in
  let endpoint_env_var := field "endpoint_env_var" (pp_endpoint_env_var p) in
  let endpoint_url := str_truthy (Some (field "endpoint_url" (default "" (pp_endpoint_url p)))) in
  {| pp_name := field "name" (pp_name p);
     pp_provider_kind := field "provider_kind" (pp_provider_kind p);
     pp_credential_env_var := credential_env_var;
     pp_endpoint_env_var := endpoint_env_var;
     pp_model_env_var := field "model_env_var" (pp_model_env_var p);
     pp_deployment_env_var := field "deployment_env_var" (pp_deployment_env_var p);
     pp_endpoint_url := endpoint_url;
     pp_configured_model := por (dgetn "configured_model" config_entry) (pp_configured_model p);
     pp_configured_deployment := por (dgetn "configured_deployment" config_entry) (pp_configured_deployment p);
     pp_endpoint_configured := is_set endpoint_url || credential_present env endpoint_env_var;
     pp_credential_configured := credential_present env credential_env_var;
     pp_supports_model_discovery := coerce_bool (pp_supports_model_discovery p) (dgetn "supports_model_discovery" config_entry);
     pp_active_slots := normalize_slots (dgetn "active_slots" config_entry);
     pp_enabled := coerce_bool (pp_enabled p) (dgetn "enabled" config_entry) |}.

Definition openai_profile (env : environ) : ProviderProfile :=
  let (model_env_var, model) := first_present env MAF_PROVIDER_MODEL_ENV_VARS in
  {| pp_name := "openai_compatible"; pp_provider_kind := "openai_compatible"; pp_credential_env_var := "OPENAI_API_KEY";
     pp_endpoint_env_var := "OPENAI_BASE_URL"; pp_model_env_var := model_env_var; pp_deployment_env_var := "";
     pp_endpoint_url := None; pp_configured_model := opt_str model; pp_configured_deployment := VNone;
     pp_endpoint_configured := variable_set env "OPENAI_BASE_URL";
     pp_credential_configured := credential_present env "OPENAI_API_KEY"; pp_supports_model_discovery := true;
     pp_active_slots := DEFAULT_ACTIVE_MODEL_SLOTS;
     pp_enabled := str_in (provider_kind (build_maf_provider_config env)) ["openai_compatible"; "unknown"] |}.

Definition azure_profile (env : environ) : ProviderProfile :=
  let (deployment_env_var, deployment) := first_present env MAF_PROVIDER_DEPLOYMENT_ENV_VARS in
  {| pp_name := "azure_openai"; pp_provider_kind := "azure_openai"; pp_credential_env_var := "AZURE_OPENAI_API_KEY";
     pp_endpoint_env_var := "AZURE_OPENAI_ENDPOINT"; pp_model_env_var := ""; pp_deployment_env_var := deployment_env_var;
     pp_endpoint_url := None; pp_configured_model := VNone; pp_configured_deployment := opt_str deployment;
     pp_endpoint_configured := variable_set env "AZURE_OPENAI_ENDPOINT";
     pp_credential_configured := credential_present env "AZURE_OPENAI_API_KEY"; pp_supports_model_discovery := false;
     pp_active_slots := DEFAULT_ACTIVE_MODEL_SLOTS;
     pp_enabled := str_in (provider_kind (build_maf_provider_config env)) ["azure_openai"; "unknown"] |}.

(** What a profile of the file starts from, when its name is new. *)
Definition base_profile (profile_name : string) (entry : dict) : ProviderProfile :=
  {| pp_name := profile_name; pp_provider_kind := str_or "provider_kind" "custom" entry;
     pp_credential_env_var := str_or "credential_env_var" "OPENAI_API_KEY" entry;
     pp_endpoint_env_var := str_or "endpoint_env_var" "OPENAI_BASE_URL" entry;
     pp_model_env_var := str_or "model_env_var" "OPENAI_MODEL" entry;
     pp_deployment_env_var := str_or "deployment_env_var" "" entry; pp_endpoint_url := None;
     pp_configured_model := VNone; pp_configured_deployment := VNone; pp_endpoint_configured := false;
     pp_credential_configured := false; pp_supports_model_discovery := false;
     pp_active_slots := DEFAULT_ACTIVE_MODEL_SLOTS; pp_enabled := true |}.

Definition by_name : Type := list (string * ProviderProfile).

Definition add_entry (env : environ) (profiles : by_name) (raw_entry : pyval) : by_name :=
  match raw_entry with
  | VDict entry =>
      let profile_name := str_or "name" "" entry in
      if String.eqb profile_name "" then profiles
      else
        let base := match od_get (fun k : string => k) profile_name profiles with
                    | Some p => p
                    | None => base_profile profile_name entry
                    end in
        od_set (fun k : string => k) profile_name (overlay_profile_from_config env base entry) profiles
  | _ => profiles
  end.

Definition registry_profiles (env : environ) (entries : list pyval) : by_name :=
  fold_left (add_entry env) entries
    [("openai_compatible", openai_profile env); ("azure_openai", azure_profile env)].

Definition provider_profile_registry (env : environ) (path : string) (active_affective active_rational : option string)
    (file : ConfigFile) : result ProviderProfileRegistry :=
  let! config := load_provider_profile_config path file in
  let! entries := py_iter (por (dgetn "profiles" config) (VList [])) in
  let active chosen key := match str_truthy chosen with
                           | Some name => name
                           | None => str_or key "openai_compatible" config
                           end in
  Ok {| rg_profiles := map snd (registry_profiles env entries);
        rg_active_affective_profile := active active_affective "active_affective_profile";
        rg_active_rational_profile := active active_rational "active_rational_profile" |}.

Definition provider_profile_catalog (env : environ) (path : string) (file : ConfigFile) : result dict :=
  let! registry := provider_profile_registry env path None None file in
  let! config := load_provider_profile_config path file in
  Ok (dupdate (provider_registry_to_dict registry) (dict_of
        [("config_path", VStr (str_or "config_path" path config)); ("config_exists", VBool (py_truthy (dget_or "exists" (VBool false) config)));
         ("config_schema_version", VStr (str_or "schema_version" PROVIDER_PROFILE_CONFIG_SCHEMA_VERSION config))])).

(** ** The environment of a run ([build_provider_runtime_env])

    [dict(env)] updated under the names the provider's client reads. *)

Definition runtime_environ : Type := gmap string pyval.

Definition nonempty_value (env : runtime_environ) (name : string) : option pyval :=
  match env !! name with Some v => if py_truthy v then Some v else None | None => None end.
Definition set_if (name : string) (value : option pyval) (env : runtime_environ) : runtime_environ :=
  match value with Some v => <[name := v]> env | None => env end.
Definition either {A} (a b : option A) : option A := match a with Some _ => a | None => b end.
Definition truthy_value (v : pyval) : option pyval := if py_truthy v then Some v else None.

(** The names a client reads, and the model it is given. *)
Definition canonical_names (p : ProviderProfile) : string * string * string * pyval :=
  if String.eqb (pp_provider_kind p) "azure_openai" then
    ("AZURE_OPENAI_API_KEY", "AZURE_OPENAI_ENDPOINT", "AZURE_OPENAI_CHAT_DEPLOYMENT",
     por (pp_configured_deployment p) (pp_configured_model p))
  else
    ("OPENAI_API_KEY", "OPENAI_BASE_URL", "OPENAI_MODEL", por (pp_configured_model p) (pp_configured_deployment p)).

Definition profile_environ (p : ProviderProfile) (env : runtime_environ) : runtime_environ :=
  let '(credential_env, endpoint_env, model_env, identifier) := canonical_names p in
  let env := set_if credential_env (either (nonempty_value env (pp_credential_env_var p)) (nonempty_value env credential_env)) env in
  let endpoint := either (option_map VStr (str_truthy (pp_endpoint_url p)))
                         (either (nonempty_value env (pp_endpoint_env_var p)) (nonempty_value env endpoint_env)) in
  set_if model_env (truthy_value identifier) (set_if endpoint_env endpoint env).

Definition build_provider_runtime_env (env : environ) (path preferred_slot : string) (file : ConfigFile) : result runtime_environ :=
  let! registry := provider_profile_registry env path None None file in
  let name := if String.eqb preferred_slot "affective" then rg_active_affective_profile registry
              else rg_active_rational_profile registry in
  Ok (match get_profile name registry with
      | None => VStr <$> env
      | Some p => profile_environ p (VStr <$> env)
      end).

(** ** Listing and changing the configuration *)

Definition model_entry (p : ProviderProfile) : dict :=
  dict_of [("profile", VStr (pp_name p)); ("provider_kind", VStr (pp_provider_kind p));
           ("configured_model", pp_configured_model p); ("configured_deployment", pp_configured_deployment p);
           ("effective_model_identifier", por (pp_configured_deployment p) (por (pp_configured_model p) (VStr "")));
           ("active_slots", VList (vstrs (pp_active_slots p))); ("ready_for_model_call", VBool (pp_ready_for_model_call p));
           ("supports_model_discovery", VBool (pp_supports_model_discovery p));
           ("missing_requirements", VList (vstrs (pp_missing_requirements p)))].

Definition provider_model_list (env : environ) (path : string) (file : ConfigFile) : result dict :=
  let! registry := provider_profile_registry env path None None file in
  let! config := load_provider_profile_config path file in
  Ok (dict_of [("schema_version", VStr MODEL_LIST_SCHEMA_VERSION); ("command", VStr "model-list");
               ("config_path", VStr (str_or "config_path" path config));
               ("active_affective_profile", VStr (rg_active_affective_profile registry));
               ("active_rational_profile", VStr (rg_active_rational_profile registry));
               ("configured_profiles", VList (map (fun p => VDict (model_entry p)) (rg_profiles registry)));
               ("inference_profiles", VList inference_profile_catalog); ("ok", VBool true)]).

(** The fields a command sets, in the order the code sets them. *)
Definition config_fields : list string :=
  ["provider_kind"; "credential_env_var"; "endpoint_env_var"; "endpoint_url"; "model_env_var"; "deployment_env_var";
   "configured_model"; "configured_deployment"; "supports_model_discovery"; "enabled"].
Definition set_fields (updates : string -> option pyval) (entry : dict) : dict :=
  fold_left (fun d key => match updates key with Some v => dset (KStr key) v d | None => d end) config_fields entry.

Definition is_named (profile_name : string) (entry : dict) : bool := String.eqb (str_or "name" "" entry) profile_name.

(** The first entry of the name is updated; a new one is added at the end. *)
Fixpoint update_entry (profile_name : string) (updates : string -> option pyval) (profiles : list dict) : list dict :=
  match profiles with
  | [] => [set_fields updates (dict_of [("name", VStr profile_name)])]
  | entry :: rest => if is_named profile_name entry then set_fields updates entry :: rest
                     else entry :: update_entry profile_name updates rest
  end.

Definition dict_entries (l : list pyval) : list dict := omap (fun v => match v with VDict d => Some d | _ => None end) l.

Section Commands.
Context (env : environ) (path : string).

Definition read_config : eff ConfigFile dict := fun file => (load_provider_profile_config path file, file).
Definition read_catalog : eff ConfigFile dict := fun file => (provider_profile_catalog env path file, file).

Definition provider_config_update (profile_name : string) (updates : string -> option pyval) : eff ConfigFile dict :=
  do! config := read_config in
  do! entries := elift (py_iter (por (dgetn "profiles" config) (VList []))) in
  do! written := write_provider_profile_config path (dict_of
    [("active_affective_profile", por (dgetn "active_affective_profile" config) (VStr "openai_compatible"));
     ("active_rational_profile", por (dgetn "active_rational_profile" config) (VStr "openai_compatible"));
     ("profiles", VList (map VDict (update_entry profile_name updates (dict_entries entries))))]) in
  do! catalog := read_catalog in
  eret (dict_of [("schema_version", VStr PROVIDER_PROFILE_CONFIG_SCHEMA_VERSION); ("command", VStr "provider-config");
                 ("config_path", VStr (str_or "config_path" path written)); ("updated_profile", VStr profile_name);
                 ("config", VDict written); ("provider_profile_registry", VDict catalog); ("ok", VBool true)]).

Definition set_active_provider_profile (slot profile_name : string) : eff ConfigFile dict :=
  if negb (str_in slot DEFAULT_ACTIVE_MODEL_SLOTS) then eraise (ValueError "unsupported_model_slot")
  else
    do! config := read_config in
    do! profiles := elift (py_iter (por (dgetn "profiles" config) (VList []))) in
    let active s key := VStr (if String.eqb slot s then profile_name else str_or key "openai_compatible" config) in
    do! written := write_provider_profile_config path (dict_of
      [("active_affective_profile", active "affective" "active_affective_profile");
       ("active_rational_profile", active "rational" "active_rational_profile"); ("profiles", VList profiles)]) in
    do! catalog := read_catalog in
    eret (dict_of [("schema_version", VStr PROVIDER_PROFILE_CONFIG_SCHEMA_VERSION); ("command", VStr "model-set-active");
                   ("config_path", VStr (str_or "config_path" path written)); ("slot", VStr slot);
                   ("active_profile", VStr profile_name); ("provider_profile_registry", VDict catalog); ("ok", VBool true)]).
End Commands.

(** ** The smoke command *)

Definition unknown_active_profiles (r : ProviderProfileRegistry) : list string :=
  sorted_difference (active_profile_names r) (map pp_name (rg_profiles r)).
Definition active_ready (r : ProviderProfileRegistry) : bool :=
  negb (is_empty (active_profiles r)) && forallb pp_ready_for_model_call (active_profiles r).
Definition unready_requirements (r : ProviderProfileRegistry) : dict :=
  fold_left (fun d p => dset (KStr (pp_name p)) (VList (vstrs (pp_missing_requirements p))) d)
    (List.filter (fun p => negb (pp_ready_for_model_call p)) (active_profiles r)) [].

Definition model_profile_smoke (env : environ) (path : string) (active_affective active_rational : option string) (file : ConfigFile)
    : result dict :=
  let! registry := provider_profile_registry env path active_affective active_rational file in
  let unknown := unknown_active_profiles registry in
  let missing := unready_requirements registry in
  let ready := active_ready registry in
  let fail_closed := negb (is_empty unknown) || negb (is_empty missing) in
  let payload := provider_registry_to_dict registry in
  let! registry_text := json_plain_text "," ":" (VDict payload) in
  let gates :=
    [("provider_profiles_recorded", negb (is_empty (rg_profiles registry)));
     ("active_slots_recorded", negb (String.eqb (rg_active_affective_profile registry) "") &&
                               negb (String.eqb (rg_active_rational_profile registry) ""));
     ("active_profiles_resolve_or_fail_closed", is_empty unknown || fail_closed);
     ("missing_requirements_recorded", negb fail_closed || negb (is_empty unknown) || negb (is_empty missing));
     ("secret_values_masked", negb (py_contains (py_lower registry_text) "secret"));
     ("no_model_call_executed", true)] in
  let! config := load_provider_profile_config path file in
  Ok (dict_of
    [("ok", VBool (forallb snd gates)); ("status", VStr (if ready then "ready" else "configured_fail_closed"));
     ("reason", VStr (if ready then "active_model_profiles_ready" else "active_model_profiles_not_ready"));
     ("command", VStr "model-profile-smoke"); ("schema_version", VStr MODEL_PROFILE_SMOKE_SCHEMA_VERSION);
     ("config_path", VStr (str_or "config_path" path config)); ("provider_profile_registry", VDict payload);
     ("active_profile_readiness", VList (map (fun p => VDict (provider_profile_to_dict p)) (active_profiles registry)));
     ("unknown_active_profiles", VList (vstrs unknown)); ("missing_requirements", VDict missing);
     ("closure_gates", VDict (dict_of (map (fun g => (g.1, VBool g.2)) gates)));
     ("evidence_summary", VDict (dict_of
        [("active_affective_profile", VStr (rg_active_affective_profile registry));
         ("active_rational_profile", VStr (rg_active_rational_profile registry));
         ("active_profile_count", VInt (Z.of_nat (length (active_profiles registry)))); ("active_profiles_ready", VBool ready);
         ("unknown_active_profile_count", VInt (Z.of_nat (length unknown))); ("fail_closed", VBool fail_closed)]));
     ("executes_model_call", VBool false)]).

(** ** Credentials stay out of the payloads *)

(** The same variables are set, and those that name a model or a deployment have the same values. *)
Record same_settings (env env' : environ) : Prop := {
  ss_set : forall name, variable_set env name = variable_set env' name;
  ss_models : forall name, name ∈ MAF_PROVIDER_MODEL_ENV_VARS ++ MAF_PROVIDER_DEPLOYMENT_ENV_VARS ->
              env_value env name = env_value env' name;
}.

Section Masked.
Context (env env' : environ) (same_env : same_settings env env').

Lemma present_same names : present_env_vars env names = present_env_vars env' names.
Proof.
  unfold present_env_vars. f_equal. apply filter_ext. intros name. pose proof (ss_set _ _ same_env name) as H.
  unfold variable_set, is_set in H. unfold env_value. destruct (str_truthy (env !! name)), (str_truthy (env' !! name)); congruence.
Qed.

Lemma first_name_same names :
  option_map fst (first_present_env_var env names) = option_map fst (first_present_env_var env' names).
Proof.
  induction names as [|name rest IH]; cbn; [done|]. pose proof (ss_set _ _ same_env name) as H.
  unfold variable_set, is_set in H. unfold env_value. destruct (str_truthy (env !! name)), (str_truthy (env' !! name)); cbn; congruence.
Qed.

Lemma first_value_same names : names ⊆ MAF_PROVIDER_MODEL_ENV_VARS ++ MAF_PROVIDER_DEPLOYMENT_ENV_VARS ->
  first_present_env_var env names = first_present_env_var env' names.
Proof.
  induction names as [|name rest IH]; cbn; intros H; [done|]. rewrite (ss_models _ _ same_env name) by (apply H; by left).
  rewrite IH; [done|]. intros x Hx. apply H. by right.
Qed.

Lemma kind_same : provider_kind (build_maf_provider_config env) = provider_kind (build_maf_provider_config env').
Proof. unfold build_maf_provider_config. cbn [provider_kind]. by rewrite first_name_same, present_same. Qed.

Lemma present_credential_same name : credential_present env name = credential_present env' name.
Proof. unfold credential_present. by rewrite (ss_set _ _ same_env). Qed.

Lemma registry_profiles_same entries : registry_profiles env entries = registry_profiles env' entries.
Proof.
  assert (Hadd : forall profiles e, add_entry env profiles e = add_entry env' profiles e).
  { intros profiles [] ; try done. unfold add_entry, overlay_profile_from_config. by rewrite !present_credential_same. }
  unfold registry_profiles, openai_profile, azure_profile, first_present.
  rewrite kind_same, !(ss_set _ _ same_env), !present_credential_same.
  rewrite !first_value_same by (vm_compute; set_solver).
  match goal with |- fold_left _ _ ?i = _ => generalize i end. induction entries as [|e rest IH]; intros l; cbn; [done|].
  by rewrite Hadd, IH.
Qed.

Lemma registry_same path affective rational file :
  provider_profile_registry env path affective rational file = provider_profile_registry env' path affective rational file.
Proof.
  unfold provider_profile_registry. destruct (load_provider_profile_config path file); cbn; [|done].
  destruct (py_iter _); cbn; [|done]. by rewrite registry_profiles_same.
Qed.
End Masked.

(** The values of credentials and endpoints never reach a payload: two environments in which the same variables are set, and
    which agree on the models and deployments they name, have the same catalogue, model list and smoke payload, and every
    configuration command leaves the same file and answers the same, whatever the file holds. *)
Theorem credential_values_masked env env' path file :
  same_settings env env' ->
  provider_profile_catalog env path file = provider_profile_catalog env' path file /\
  provider_model_list env path file = provider_model_list env' path file /\
  (forall affective rational, model_profile_smoke env path affective rational file = model_profile_smoke env' path affective rational file) /\
  (forall name updates, provider_config_update env path name updates file = provider_config_update env' path name updates file) /\
  (forall slot name, set_active_provider_profile env path slot name file = set_active_provider_profile env' path slot name file).
Proof.
  intros Hs.
  assert (Hc : forall f, provider_profile_catalog env path f = provider_profile_catalog env' path f)
    by (intros; unfold provider_profile_catalog; by rewrite (registry_same env env')).
  split_and!; [done| | | |].
  - unfold provider_model_list. by rewrite (registry_same env env').
  - intros. unfold model_profile_smoke. by rewrite (registry_same env env').
  - intros. unfold provider_config_update, ebind, read_catalog, read_config.
    repeat first [done | rewrite Hc | destr_goal].
  - intros. unfold set_active_provider_profile. destruct (negb _); [done|]. unfold ebind, read_catalog, read_config.
    repeat first [done | rewrite Hc | destr_goal].
Qed.

Lemma credential_values_masked_witness :
  let env key : environ := <["OPENAI_API_KEY" := key]> (<["OPENAI_MODEL" := "m"]> ∅) in
  same_settings (env "one") (env "two") /\
  provider_profile_catalog (env "one") "c.json" None = provider_profile_catalog (env "two") "c.json" None.
Proof.
  intros env.
  assert (Hs : same_settings (env "one") (env "two")).
  { unfold env. split.
    - intros name. unfold variable_set. destruct (decide (name = "OPENAI_API_KEY")) as [->|Hn]; [reflexivity|].
      by rewrite !(lookup_insert_ne _ "OPENAI_API_KEY" name) by done.
    - intros name Hn. unfold env_value. assert ("OPENAI_API_KEY" <> name) by (intros <-; revert Hn; vm_compute; set_solver).
      by rewrite !(lookup_insert_ne _ "OPENAI_API_KEY" name) by done. }
  split; [exact Hs|]. exact (proj1 (credential_values_masked (env "one") (env "two") "c.json" None Hs)).
Defined.
