(* ===== verification/PlanQuality.v ===== *)
(** * The quality of a rational plan ([workflow.py], [_build_rational_plan_quality])

    A plan of the rational agent is held against the contract of its tool: the
    arguments it must carry, the tools it was offered, the skill's ground
    rules, the workflow catalogue and the governed bridge.  Only a valid plan
    reaches the tool policy. *)

From Stdlib Require Import ZArith Lia Bool List Ascii String.
From stdpp Require Import base list option strings.
From S2P Require Import Prelude PyFloat Text PyValue Events LiveEvents Agents Contracts Policy ModelAgents StateSync CliAdapter Artifact Catalog Skills.

#[local] Open Scope string_scope.
#[local] Open Scope Z_scope.
#[local] Open Scope list_scope.

Definition RATIONAL_PLAN_QUALITY_SCHEMA_VERSION : string := "1.2.6-rational-plan-quality-v2".

(** ** What the workflow asks of a tool adapter

    To execute a tool, to list the contracts of its tools (which may ask the
    unit), and to describe itself. *)
Class UnitAdapter (S : Type) := {
  ua_tools :: ToolAdapter S;
  ua_manifest : eff S (list ToolContract);
  ua_metadata : dict;
}.

Definition list_of (v : pyval) : result (list pyval) := py_iter (por v (VList [])).
Definition flag (key : string) (d : dict) : bool := py_truthy (dget_or (KStr key) (VBool false) d).

Section Summaries.
Context {S : Type} `{Adapter : UnitAdapter S} {FS : Files} (skill_path : string).

Definition describe_tool (name : string) : eff S (option ToolContract) :=
  do! manifest := ua_manifest in
  eret (List.find (fun c => String.eqb (Contracts.tool_name c) name) manifest).

(** [_skill_descriptor_summary] *)
Definition skill_descriptor_summary : result dict :=
  let! d := load_neuro_cli_skill_descriptor skill_path in
  let payload := skill_to_dict d in
  let! commands := list_of (dgetn "first_check_commands" payload) in
  Ok (dict_of [("schema_version", VStr (str_or "schema_version" "" payload)); ("name", VStr (str_or "name" "" payload));
               ("workflow_plan_required", VBool (flag "workflow_plan_required" payload));
               ("json_output_required", VBool (flag "json_output_required" payload));
               ("release_target_promotion_blocked", VBool (flag "release_target_promotion_blocked" payload));
               ("callback_audit_required", VBool (flag "callback_audit_required" payload));
               ("first_check_commands", VList (take 3 commands))]).

Definition bridge_mode_for (contract : option ToolContract) : string :=
  match contract with
  | None => "read_only_descriptor_only"
  | Some c => if approval_required c || nonempty (required_resources c) then "core_governed_approval_required_proposal"
              else if read_only_level c then "core_governed_read_only_execution"
              else "read_only_descriptor_only"
  end.

(** [_mcp_descriptor_summary] *)
Definition mcp_descriptor_summary (contract : option ToolContract) : eff S dict :=
  do! manifest := ua_manifest in
  do! bridge := elift (load_mcp_bridge_descriptor manifest (bridge_mode_for contract)) in
  let payload := bridge_to_dict bridge in
  do! bounds := elift (as_dict (por (dgetn "safety_boundaries" payload) (VDict []))) in
  do! operations := elift (list_of (dgetn "allowed_operations" payload)) in
  do! read_only := elift (list_of (dgetn "read_only_tools" payload)) in
  do! approvals := elift (list_of (dgetn "approval_required_tools" payload)) in
  do! blocked := elift (list_of (dgetn "blocked_tools" payload)) in
  let count l := VInt (Z.of_nat (length l)) in
  eret (dict_of
    [("schema_version", VStr (str_or "schema_version" "" payload)); ("bridge_name", VStr (str_or "bridge_name" "" payload));
     ("bridge_mode", VStr (str_or "bridge_mode" "" payload)); ("transport", VStr (str_or "transport" "" payload));
     ("allowed_operations", VList operations); ("read_only_tool_count", count read_only);
     ("approval_required_tool_count", count approvals); ("blocked_tool_count", count blocked);
     ("tool_execution_via_mcp_forbidden", VBool (flag "tool_execution_via_mcp_forbidden" bounds));
     ("approval_required_tool_proposals_allowed", VBool (flag "approval_required_tool_proposals_allowed" bounds));
     ("external_mcp_connection_enabled", VBool (flag "external_mcp_connection_enabled" bounds))]).
End Summaries.

(** ** Arguments *)

Definition required_argument_aliases (argument_name : string) : list string :=
  argument_key argument_name :: (if String.eqb argument_name "--app-id" then ["app"] else []) ++
  (if String.eqb argument_name "--lease-id" then ["lease"] else []).

Definition argument_present (args : dict) (argument_name : string) : bool :=
  String.eqb argument_name "--node" ||
  existsb (fun alias => negb (py_in (dgetn (KStr alias) args) [VNone; VStr ""; VList []])) (required_argument_aliases argument_name).

Definition missing_arguments (contract : ToolContract) (args : dict) : list string :=
  List.filter (fun name => negb (argument_present args name)) (required_arguments contract).

(** The operator's approval fills these in. *)
Definition operator_resolvable (contract : ToolContract) (argument_name : string) : bool :=
  approval_required contract && str_in argument_name ["--app"; "--app-id"; "--lease-id"].
Definition blocking_arguments (contract : ToolContract) (args : dict) : list string :=
  List.filter (fun name => negb (operator_resolvable contract name)) (missing_arguments contract args).

(** ** The skill's ground rules ([_build_skill_ground_rule_validation]) *)

(** ["--output"] followed by ["json"] somewhere. *)
Fixpoint json_output_flag (argv : list string) : bool :=
  match argv with
  | a :: ((b :: _) as rest) => (String.eqb a "--output" && String.eqb b "json") || json_output_flag rest
  | _ => false
  end.

Definition uses_wrapper (contract : ToolContract) : bool :=
  existsb (fun item => py_contains item "invoke_neuro_cli.py") (argv_template contract).
Definition json_contract (contract : ToolContract) : bool :=
  String.eqb (str_or "format" "" (output_contract contract)) "json" && flag "top_level_ok" (output_contract contract) &&
  json_output_flag (argv_template contract).
Definition legacy_read_only (contract : ToolContract) : bool :=
  uses_wrapper contract && negb (nonempty (output_contract contract)) && read_only_level contract.
Definition callback_audited (contract : ToolContract) (skill : dict) : bool :=
  negb (flag "callback_audit_required" skill) || negb (py_contains (Contracts.tool_name contract) "callback") ||
  approval_required contract || py_truthy (cleanup_hint contract).

Definition ground_rule_gates (contract : ToolContract) (skill : dict) : list (string * bool) :=
  [("wrapper_command_required", uses_wrapper contract);
   ("json_output_required", negb (flag "json_output_required" skill) || json_contract contract || legacy_read_only contract);
   ("callback_audit_rule_satisfied", callback_audited contract skill)].

Definition skill_ground_rule_validation (contract : ToolContract) (skill : dict) : dict :=
  let gates := ground_rule_gates contract skill in
  let valid := forallb snd gates in
  dict_of [("wrapper_command_required", VBool (uses_wrapper contract));
           ("json_output_flag_present", VBool (json_output_flag (argv_template contract)));
           ("json_output_contract_satisfied", VBool (json_contract contract));
           ("legacy_read_only_wrapper_contract", VBool (legacy_read_only contract));
           ("callback_audit_rule_satisfied", VBool (callback_audited contract skill));
           ("closure_gates", VDict (dict_of (map (fun g => (g.1, VBool g.2)) gates))); ("valid", VBool valid);
           ("failure_status", VStr (if valid then "" else "skill_ground_rule_violation"))].

(** ** The offered tools *)

(** The tool offered under a name: the last one wins, as in the index the code builds. *)
Definition available_tool (available_tools : list dict) (name : string) : option dict :=
  List.find (fun tool => String.eqb (tool_label tool) name) (rev available_tools).

(** [available_tool_index.get(plan.tool_name) or {}], held against the contract *)
Definition available_tool_match (contract : ToolContract) (matched : dict) : result bool :=
  let! resources := list_of (por (dgetn "required_resources" matched) (dgetn "lease_requirements" matched)) in
  Ok (nonempty matched &&
      py_eq (VList resources) (VList (vstrs (required_resources contract))) &&
      Bool.eqb (flag "approval_required" matched) (approval_required contract) &&
      Bool.eqb (flag "retryable" matched) (retryable contract) &&
      String.eqb (str_or "side_effect_level" "" matched) (level_value (side_effect_level contract))).

(** A tool that needs an approval or a resource. *)
Definition needs_review (contract : ToolContract) : bool := approval_required contract || nonempty (required_resources contract).

Record PlanQuality := {
  pq_tool_name : string;
  pq_available : bool;
  pq_contract_match : bool;
  pq_coverage : list (string * bool);
  pq_missing : list string;
  pq_resolvable : list string;
  pq_blocking : list string;
  pq_contract : ToolContract;
  pq_ground_rules : dict;
  pq_catalog : dict;
  pq_skill_requirements : dict;
  pq_mcp_requirements : dict;
}.

Definition resource_fit_valid (c : ToolContract) : bool := negb (nonempty (required_resources c)) || approval_required c.
Definition cleanup_valid (c : ToolContract) : bool := negb (needs_review c) || py_truthy (cleanup_hint c).

Definition pq_valid (q : PlanQuality) : bool :=
  negb (nonempty (pq_blocking q)) && pq_available q && pq_contract_match q &&
  resource_fit_valid (pq_contract q) && cleanup_valid (pq_contract q) &&
  flag "valid" (pq_ground_rules q) && flag "valid" (pq_catalog q) &&
  flag "bridge_mode_satisfies_tool_governance" (pq_mcp_requirements q).

(** The first failure, in the order of the code. *)
Definition first_text (l : list string) : string := default "" (head (List.filter (fun s => negb (String.eqb s "")) l)).
Definition pq_failure_status (q : PlanQuality) : string :=
  first_text [str_or "failure_status" "" (pq_ground_rules q); str_or "failure_status" "" (pq_catalog q);
              if nonempty (pq_blocking q) then "missing_required_arguments" else "";
              if pq_available q then "" else "rational_plan_tool_not_in_available_tools";
              if pq_contract_match q then "" else "rational_plan_tool_contract_mismatch"].

Definition quality_to_dict (q : PlanQuality) : dict :=
  let c := pq_contract q in
  dict_of
    [("schema_version", VStr RATIONAL_PLAN_QUALITY_SCHEMA_VERSION); ("tool_name", VStr (pq_tool_name q));
     ("available_tool_match", VBool (pq_available q)); ("available_tool_contract_match", VBool (pq_contract_match q));
     ("failure_status", VStr (pq_failure_status q));
     ("required_argument_coverage", VDict (dict_of (map (fun x => (x.1, VBool x.2)) (pq_coverage q))));
     ("missing_required_arguments", VList (vstrs (pq_missing q)));
     ("operator_resolvable_missing_arguments", VList (vstrs (pq_resolvable q)));
     ("blocking_missing_arguments", VList (vstrs (pq_blocking q)));
     ("required_resources", VList (vstrs (required_resources c))); ("approval_required", VBool (approval_required c));
     ("resource_fit", VDict (dict_of
        [("required_resources", VList (vstrs (required_resources c)));
         ("approval_required_for_required_resources", VBool (resource_fit_valid c)); ("valid", VBool (resource_fit_valid c))]));
     ("retryability", VDict (dict_of
        [("retryable", VBool (retryable c));
         ("operator_retry_guidance_required", VBool (negb (retryable c) && needs_review c)); ("valid", VBool true)]));
     ("retryable", VBool (retryable c));
     ("cleanup_awareness", VDict (dict_of
        [("cleanup_hint_present", VBool (py_truthy (cleanup_hint c))); ("cleanup_review_required", VBool (needs_review c));
         ("valid", VBool (cleanup_valid c))]));
     ("cleanup_hint_present", VBool (py_truthy (cleanup_hint c))); ("skill_ground_rules", VDict (pq_ground_rules q));
     ("workflow_catalog_consistency", VDict (pq_catalog q)); ("valid", VBool (pq_valid q));
     ("skill_requirements", VDict (pq_skill_requirements q)); ("mcp_requirements", VDict (pq_mcp_requirements q))].

Definition skill_requirements_of (contract : ToolContract) (skill catalog_consistency : dict) : result dict :=
  let! commands := list_of (dgetn "first_check_commands" skill) in
  Ok (dict_of
    [("skill_name", dgetn "name" skill);
     ("workflow_plan_required", VBool (py_truthy (dgetn "workflow_plan_required" skill) && needs_review contract));
     ("workflow_plan_evidence_present", VBool (flag "valid" catalog_consistency));
     ("json_output_required", VBool (flag "json_output_required" skill));
     ("release_target_promotion_blocked", VBool (flag "release_target_promotion_blocked" skill));
     ("callback_audit_required", VBool (flag "callback_audit_required" skill));
     ("suggested_first_check_commands", VList commands)]).

Definition int_or (key : string) (d : dict) : result Z := py_int (por (dgetn (KStr key) d) (VInt 0)).

Definition mcp_requirements_of (contract : ToolContract) (mcp : dict) : result dict :=
  let! operations := list_of (dgetn "allowed_operations" mcp) in
  let! read_only := int_or "read_only_tool_count" mcp in
  let! approvals := int_or "approval_required_tool_count" mcp in
  let! blocked := int_or "blocked_tool_count" mcp in
  Ok (dict_of
    [("bridge_name", dgetn "bridge_name" mcp); ("bridge_mode", dgetn "bridge_mode" mcp);
     ("allowed_operations", VList operations); ("read_only_tool_count", VInt read_only);
     ("approval_required_tool_count", VInt approvals); ("blocked_tool_count", VInt blocked);
     ("tool_execution_via_mcp_forbidden", VBool (flag "tool_execution_via_mcp_forbidden" mcp));
     ("approval_required_tool_proposals_allowed", VBool (flag "approval_required_tool_proposals_allowed" mcp));
     ("external_mcp_connection_enabled", VBool (flag "external_mcp_connection_enabled" mcp));
     ("bridge_mode_satisfies_tool_governance",
      VBool (if needs_review contract then flag "approval_required_tool_proposals_allowed" mcp else true))]).

Section Quality.
Context {S : Type} `{Adapter : UnitAdapter S} {FS : Files} (skill_path : string) (catalog : WorkflowCatalog).

Definition build_rational_plan_quality (plan : RationalPlan) (contract : ToolContract) (available_tools : list dict)
    : eff S PlanQuality :=
  let tool := Agents.tool_name plan in
  let args := plan_args plan in
  do! skill := elift (skill_descriptor_summary skill_path) in
  let ground_rules := skill_ground_rule_validation contract skill in
  do! consistency := elift (validate_tool_workflow_catalog_consistency catalog contract) in
  do! skill_requirements := elift (skill_requirements_of contract skill consistency) in
  do! mcp := mcp_descriptor_summary (Some contract) in
  do! mcp_requirements := elift (mcp_requirements_of contract mcp) in
  do! matched := elift (available_tool_match contract (default [] (available_tool available_tools tool))) in
  eret {| pq_tool_name := tool;
          pq_available := match available_tool available_tools tool with Some _ => true | None => false end;
          pq_contract_match := matched;
          pq_coverage := map (fun name => (name, argument_present args name)) (required_arguments contract);
          pq_missing := missing_arguments contract args;
          pq_resolvable := List.filter (operator_resolvable contract) (missing_arguments contract args);
          pq_blocking := blocking_arguments contract args;
          pq_contract := contract; pq_ground_rules := ground_rules; pq_catalog := consistency;
          pq_skill_requirements := skill_requirements; pq_mcp_requirements := mcp_requirements |}.
End Quality.

(** ** What a valid plan is *)

Section Valid.
Context {S : Type} `{Adapter : UnitAdapter S} {FS : Files} (skill_path : string) (catalog : WorkflowCatalog).

Record plan_fits (plan : RationalPlan) (contract : ToolContract) (available_tools : list dict) (skill : dict) : Prop := {
  pf_arguments : forall name, name ∈ required_arguments contract ->
                 argument_present (plan_args plan) name = true \/ operator_resolvable contract name = true;
  pf_offered : exists offered, available_tool available_tools (Agents.tool_name plan) = Some offered /\
                               available_tool_match contract offered = Ok true;
  pf_resources : required_resources contract <> [] -> approval_required contract = true;
  pf_cleanup : needs_review contract = true -> py_truthy (cleanup_hint contract) = true;
  pf_ground_rules : forallb snd (ground_rule_gates contract skill) = true;
  pf_catalog : str_in (Contracts.tool_name contract) INTERNAL_CORE_ONLY_TOOLS = true \/
               catalog_covers catalog contract (default [] (entry (Contracts.tool_name contract) TOOL_WORKFLOW_COVERAGE));
}.

Lemma blocking_nil contract args : blocking_arguments contract args = [] <->
  forall name, name ∈ required_arguments contract -> argument_present args name = true \/ operator_resolvable contract name = true.
Proof.
  assert (Hb : forall name, name ∈ blocking_arguments contract args <->
    name ∈ required_arguments contract /\ argument_present args name = false /\ operator_resolvable contract name = false).
  { intros name. unfold blocking_arguments, missing_arguments. rewrite !list_elem_of_In, !filter_In, !negb_true_iff. tauto. }
  split.
  - intros H name Hin. specialize (Hb name). rewrite H in Hb. destruct (argument_present args name); [by left|].
    destruct (operator_resolvable contract name); [by right|]. exfalso. apply (not_elem_of_nil name), Hb. auto.
  - intros H. destruct (blocking_arguments contract args) as [|name l]; [done|]. exfalso.
    destruct (proj1 (Hb name) ltac:(left)) as (Hin&Ha&Ho). apply H in Hin. destruct Hin; congruence.
Qed.

(** The bridge of a governed tool always takes proposals. *)
Lemma bridge_satisfies contract s mcp s' mcp_requirements :
  mcp_descriptor_summary (Some contract) s = (Ok mcp, s') -> mcp_requirements_of contract mcp = Ok mcp_requirements ->
  flag "bridge_mode_satisfies_tool_governance" mcp_requirements = true.
Proof.
  unfold mcp_descriptor_summary. intros H Hr. apply ebind_inv in H as (manifest & s1 & _ & H).
  apply ebind_inv in H as (bridge & s2 & [Hb ->]%elift_inv & H).
  apply ebind_inv in H as (bounds & s3 & [Hbounds ->]%elift_inv & H).
  apply ebind_inv in H as (operations & s4 & [_ ->]%elift_inv & H). apply ebind_inv in H as (ro & s5 & [_ ->]%elift_inv & H).
  apply ebind_inv in H as (ap & s6 & [_ ->]%elift_inv & H). apply ebind_inv in H as (bl & s7 & [_ ->]%elift_inv & H).
  apply eret_inv in H as [-> _]. unfold mcp_requirements_of in Hr. inv_ok. unfold flag at 1. dict_simpl. cbn [py_truthy].
  destruct (needs_review contract) eqn:En; [|done]. cbn [bridge_mode_for] in Hb. fold (needs_review contract) in Hb. rewrite En in Hb.
  cbn in Hb. injection Hb as <-. unfold flag at 1. dict_simpl. cbn [py_truthy].
  unfold bridge_to_dict in Hbounds. cbn in Hbounds. injection Hbounds as <-. reflexivity.
Qed.

Lemma plan_quality_parts plan contract available_tools s q s' :
  build_rational_plan_quality skill_path catalog plan contract available_tools s = (Ok q, s') ->
  exists skill, skill_descriptor_summary skill_path = Ok skill /\
    pq_ground_rules q = skill_ground_rule_validation contract skill /\
    validate_tool_workflow_catalog_consistency catalog contract = Ok (pq_catalog q) /\
    available_tool_match contract (default [] (available_tool available_tools (Agents.tool_name plan))) = Ok (pq_contract_match q) /\
    pq_available q = (match available_tool available_tools (Agents.tool_name plan) with Some _ => true | None => false end) /\
    pq_blocking q = blocking_arguments contract (plan_args plan) /\ pq_contract q = contract /\
    flag "bridge_mode_satisfies_tool_governance" (pq_mcp_requirements q) = true.
Proof.
  unfold build_rational_plan_quality. intros H. apply ebind_inv in H as (skill & s1 & [Hs ->]%elift_inv & H).
  apply ebind_inv in H as (consistency & s2 & [Hc ->]%elift_inv & H). apply ebind_inv in H as (sr & s3 & [_ ->]%elift_inv & H).
  apply ebind_inv in H as (mcp & s4 & Hm & H). apply ebind_inv in H as (mr & s5 & [Hr ->]%elift_inv & H).
  apply ebind_inv in H as (matched & s6 & [Ha ->]%elift_inv & H). apply eret_inv in H as [-> _].
  exists skill. cbn. split_and!; try done. eapply bridge_satisfies; eauto.
Qed.

Lemma truthy_flag_valid d b : dgetn "valid" d = VBool b -> flag "valid" d = b.
Proof.
  unfold flag, dgetn, dget_or. destruct (dget (KStr "valid") d); [intros ->; done | done].
Qed.

Lemma plan_valid_spec plan contract available_tools s q s' :
  build_rational_plan_quality skill_path catalog plan contract available_tools s = (Ok q, s') ->
  exists skill, skill_descriptor_summary skill_path = Ok skill /\
    (pq_valid q = true <-> plan_fits plan contract available_tools skill).
Proof.
  intros H. apply plan_quality_parts in H as (skill & Hs & Hg & Hc & Hm & Hav & Hb & Hct & Hbr). exists skill. split; [done|].
  destruct (validate_valid_bool _ _ _ Hc) as [b Hv]. pose proof (proj1 (validate_catalog_spec _ _ _ Hc)) as Hcov. cbv zeta in Hcov.
  assert (Hgr : flag "valid" (skill_ground_rule_validation contract skill) = forallb snd (ground_rule_gates contract skill))
    by (apply truthy_flag_valid; unfold skill_ground_rule_validation; by dict_simpl).
  unfold pq_valid. rewrite Hbr, Hb, Hct, Hg, Hav, Hgr, (truthy_flag_valid _ _ Hv), !andb_true_iff, negb_true_iff.
  assert (Hnil : nonempty (blocking_arguments contract (plan_args plan)) = false <-> blocking_arguments contract (plan_args plan) = [])
    by (by destruct (blocking_arguments _ _)).
  assert (Hb' : b = true <-> dgetn "valid" (pq_catalog q) = VBool true) by (rewrite Hv; split; congruence).
  assert (Hres : resource_fit_valid contract = true <-> (required_resources contract <> [] -> approval_required contract = true))
    by (unfold resource_fit_valid; destruct (required_resources contract), (approval_required contract); cbn; intuition congruence).
  assert (Hcl : cleanup_valid contract = true <-> (needs_review contract = true -> py_truthy (cleanup_hint contract) = true))
    by (unfold cleanup_valid; destruct (needs_review contract), (py_truthy _); cbn; intuition congruence).
  rewrite Hnil, blocking_nil, Hb', Hcov, Hres, Hcl.
  destruct (available_tool available_tools (Agents.tool_name plan)) as [offered|] eqn:Eo.
  - change (default [] (Some offered)) with offered in Hm. split.
    + intros (((((((H1&_)&H2)&H3)&H4)&H5)&H6)&_). rewrite H2 in Hm. constructor; eauto.
    + intros [H1 [o [Ho H2]] H3 H4 H5 H6]. rewrite Eo in Ho. injection Ho as <-. assert (pq_contract_match q = true) by congruence. tauto.
  - split; [intros (((((((_&[=])&_)&_)&_)&_)&_)&_)|]. intros [_ [o [Ho _]] _ _ _ _]. congruence.
Qed.

(** When a plan is valid, for any adapter, skill file and workflow catalogue: exactly when every required argument is there or is
    one the operator's approval fills in; the tool was offered to the agent, with the contract it has; a tool that needs resources
    needs an approval; a tool that needs either has a clean-up hint; the command goes through the wrapper and keeps the skill's
    rules on JSON output and callbacks; and the tool is internal or covered by the workflow catalogue. *)
Theorem plan_valid_iff_fits plan contract available_tools s q s' :
  build_rational_plan_quality skill_path catalog plan contract available_tools s = (Ok q, s') ->
  exists skill, skill_descriptor_summary skill_path = Ok skill /\
    (pq_valid q = true <-> plan_fits plan contract available_tools skill).
Proof. apply plan_valid_spec. Qed.
End Valid.

(** ** The adapters of the repository *)

Definition fake_unit_metadata : dict := dict_of
  [("adapter_kind", VStr "fake"); ("runtime_source", VStr "fake_no_model");
   ("wrapper_path", VStr "neuro_cli/scripts/invoke_neuro_cli.py"); ("node", VStr "unit-01"); ("source_core", VStr "core-cli");
   ("source_agent", VStr "rational"); ("supports_real_process", VBool false)].
Definition fake_unit (env : nat -> Env) : UnitAdapter nat :=
  {| ua_tools := fake_adapter env; ua_manifest := eret tool_manifest; ua_metadata := fake_unit_metadata |}.

(** A skill file, and the quality of a plan against it. *)
Definition sample_files : Files := fun path =>
  if String.eqb path "SKILL.md" then
    Some (bytes_of_string (join nl ["---"; "name: neuro-cli"; "---"; "## Ground Rules"; "1. Keep JSON output."]))
  else None.
Definition quality_of (plan : RationalPlan) : result PlanQuality :=
  match describe_tool (Adapter := fake_unit sample_env) (Agents.tool_name plan) 0%nat with
  | (Ok (Some contract), n) =>
      (build_rational_plan_quality (Adapter := fake_unit sample_env) (FS := sample_files) "SKILL.md" (default_catalog "catalog.py")
         plan contract (map contract_to_dict tool_manifest) n).1
  | _ => Raise (ValueError "unknown_tool")
  end.
Definition plan_for (tool : string) (args : list (string * pyval)) : RationalPlan :=
  {| Agents.tool_name := tool; plan_args := dict_of args; plan_reason := "r" |}.

(** Without arguments the operator fills in the rest, except for the activation guard, which needs its application. *)
Example manifest_plans :
  map (fun c => match quality_of (plan_for (Contracts.tool_name c) []) with
                | Ok q => (Contracts.tool_name c, pq_valid q)
                | Raise _ => (Contracts.tool_name c, false)
                end) tool_manifest = map (fun c => (Contracts.tool_name c, negb (String.eqb (Contracts.tool_name c) "system_activation_health_guard"))) tool_manifest /\
  match quality_of (plan_for "system_activation_health_guard" []) with Ok q => pq_failure_status q | Raise _ => "" end
  = "missing_required_arguments".
Proof. vm_compute. auto. Qed.

Lemma plan_valid_iff_fits_witness :
  let plan := plan_for "system_stop_app" [("app_id", VStr "demo")] in
  let tools := map contract_to_dict tool_manifest in
  exists contract q n, List.find (fun c => String.eqb (Contracts.tool_name c) "system_stop_app") tool_manifest = Some contract /\
    build_rational_plan_quality (Adapter := fake_unit sample_env) (FS := sample_files) "SKILL.md" (default_catalog "catalog.py") plan
      contract tools 0%nat = (Ok q, n) /\
    exists skill, pq_valid q = true /\ plan_fits (default_catalog "catalog.py") plan contract tools skill.
Proof.
  intros plan tools. eexists _, _, _. split; [reflexivity|]. split; [vm_compute; reflexivity|].
  match goal with |- exists skill, pq_valid ?q = _ /\ plan_fits _ _ ?c _ _ =>
    destruct (plan_valid_iff_fits (Adapter := fake_unit sample_env) (FS := sample_files) "SKILL.md" (default_catalog "catalog.py")
                plan c tools 0%nat q 0%nat ltac:(vm_compute; reflexivity)) as (skill & _ & H) end.
  exists skill. split; [reflexivity|]. apply H. reflexivity.
Defined.
