(* ===== verification/RunEvidence.v ===== *)
(** * What a run records ([workflow.py], the builders of [NoModelCoreWorkflow])

    The affective runtime context made of the events, the evidence on the
    model call and on the rational plan, the response and notification for the
    user, and the payload of the audit record. *)

From Stdlib Require Import ZArith Lia Bool List Ascii String.
From stdpp Require Import base gmap list option strings.
From S2P Require Import Prelude PyFloat Text PyValue Events Agents Contracts Maf ModelAgents StateSync Store Memory Policy Inference PlanQuality.

#[local] Open Scope string_scope.
#[local] Open Scope Z_scope.
#[local] Open Scope list_scope.

Definition RATIONAL_PLAN_EVIDENCE_SCHEMA_VERSION : string := "1.2.5-rational-plan-evidence-v1".
Definition AFFECTIVE_RUNTIME_CONTEXT_SCHEMA_VERSION : string := "1.2.5-affective-runtime-context-v1".

(** ** The input of the affective agent ([_build_affective_runtime_context]) *)

(** [value.strip()] of a text that is not blank *)
Definition stripped (v : pyval) : option string :=
  match v with VStr s => str_truthy (Some (py_strip s)) | _ => None end.
Definition stripped_items (v : pyval) : list string := match v with VList l => omap stripped l | _ => [] end.
Definition opt_list {A} (o : option A) : list A := match o with Some a => [a] | None => [] end.

(** What the payload of an event has under a key and under its plural. *)
Definition references_of (singular plural : string) (payload : dict) : list string :=
  opt_list (stripped (dgetn (KStr singular) payload)) ++ stripped_items (dgetn (KStr plural) payload).

Record RequestParts := {
  rq_text : list string; rq_images : list string; rq_audio : list string; rq_video : list string;
  rq_response_modes : list string; rq_profile_hint : string; rq_profile_override : string }.

Definition last_stripped (key default_ : string) (events : list PerceptionEvent) : string :=
  fold_left (fun acc ev => match stripped (dgetn (KStr key) (ev_payload ev)) with Some s => s | None => acc end) events default_.

Definition request_parts (events : list PerceptionEvent) : RequestParts :=
  let collect f := flat_map (fun ev => f (ev_payload ev)) events in
  {| rq_text := collect (fun p => opt_list (stripped (dgetn "text" p)));
     rq_images := collect (references_of "image_ref" "image_refs");
     rq_audio := collect (references_of "audio_ref" "audio_refs");
     rq_video := collect (references_of "video_ref" "video_refs");
     rq_response_modes := collect (references_of "response_mode" "response_modes");
     rq_profile_hint := last_stripped "profile_hint" "auto" events;
     rq_profile_override := last_stripped "profile_override" "" events |}.

(** [", ".join(frame.topics) if frame.topics else "unknown"] *)
Definition topics_text (frame : PerceptionFrame) : result string :=
  match topics frame with
  | [] => Ok "unknown"
  | l => let! pieces := rmap join_piece l in Ok (join ", " pieces)
  end.

(** [text[:160]] *)
Definition text_prefix (n : nat) (s : string) : string := of_code_points (take n (code_points s)).

Definition real_provider (profile : MafRuntimeProfile) : bool := String.eqb (provider_mode profile) (mode_value REAL_PROVIDER).

Definition presentation_policy : dict := dict_of
  [("prompt_safe_multimodal_summary_only", VBool true); ("internal_facts_remain_core_owned", VBool true);
   ("model_may_not_execute_tools_directly", VBool true); ("user_visible_output_separated_from_internal_facts", VBool true)].

Definition count {A} (l : list A) : pyval := VInt (Z.of_nat (length l)).

Definition build_affective_runtime_context (environment : environ) (profile : MafRuntimeProfile) (frame : PerceptionFrame)
    (events : list PerceptionEvent) : result dict :=
  let parts := request_parts events in
  let bare := is_empty (rq_text parts) && is_empty (rq_images parts) && is_empty (rq_audio parts) && is_empty (rq_video parts) in
  let! text := if bare then let! t := topics_text frame in Ok ["Perception topics: " +:+ t] else Ok (rq_text parts) in
  let provenance_ := if bare then "workflow_frame_summary" else "workflow_event_payload" in
  let live := real_provider profile in
  let override := if live && String.eqb (rq_profile_override parts) "" then "remote_openai_compatible" else rq_profile_override parts in
  let! normalized := normalize_multimodal_input (frame_id frame) text (rq_images parts) (rq_audio parts) (rq_video parts)
                       (rq_response_modes parts) (rq_profile_hint parts) DEFAULT_LATENCY_CLASS provenance_ in
  let route := route_to_dict normalized (build_inference_route environment normalized override live) in
  let! selected := as_dict (por (dgetn "selected_profile" route) (VDict [])) in
  let! rejected := list_of (dgetn "candidate_rejections" route) in
  Ok (dict_of
    [("schema_version", VStr AFFECTIVE_RUNTIME_CONTEXT_SCHEMA_VERSION);
     ("multimodal_summary", VDict (dict_of
        [("request_id", VStr (request_id normalized)); ("input_modes", VList (vstrs (in_modes normalized)));
         ("response_modes", VList (vstrs (response_modes normalized))); ("profile_hint", VStr (profile_hint normalized));
         ("latency_class", VStr (latency_class normalized)); ("text_count", count (Inference.text normalized));
         ("text_preview", VList (vstrs (map (text_prefix 160) (take 2 (Inference.text normalized)))));
         ("image_ref_count", count (images normalized)); ("audio_ref_count", count (audio normalized));
         ("video_ref_count", count (video normalized)); ("provenance", VStr (provenance normalized))]));
     ("profile_route", VDict (dict_of
        [("requested_profile", VStr (str_or "requested_profile" "auto" route)); ("selected_profile", VStr (str_or "name" "" selected));
         ("route_status", VStr (str_or "status" "unknown" route)); ("route_reason", VStr (str_or "route_reason" "" route));
         ("failure_status", VStr (str_or "failure_status" "" route)); ("fallback_used", VBool (flag "fallback_used" route));
         ("candidate_rejection_count", count rejected); ("requires_live_backend", VBool live);
         ("route_ready", VBool (py_truthy (dgetn "ok" route)))]));
     ("presentation_policy", VDict presentation_policy)]).

(** ** Evidence *)

Definition sub (key : string) (d : dict) : result dict := as_dict (por (dgetn (KStr key) d) (VDict [])).

(** The first adapter whose role is affective. *)
Definition affective_adapter_of (adapters : list pyval) : dict :=
  default [] (head (omap (fun a => match a with
                                   | VDict d => if eq_str (dgetn "agent_role" d) "affective" then Some d else None
                                   | _ => None
                                   end) adapters)).

Definition build_model_call_evidence (frame : PerceptionFrame) (decision : AffectiveDecision) (maf_runtime context : dict) : result dict :=
  let! config := sub "provider_config" maf_runtime in
  let! adapters := list_of (dgetn "agent_adapters" maf_runtime) in
  let adapter := affective_adapter_of adapters in
  let called := flag "real_provider_enabled" maf_runtime && flag "provider_call_supported" adapter in
  Ok (dict_of
    [("agent_role", VStr "affective"); ("call_status", VStr (if called then "model_call_succeeded" else "deterministic_fake"));
     ("executes_model_call", VBool called); ("frame_id", VStr (frame_id frame)); ("event_ids", VList (vstrs (event_ids frame)));
     ("provider_kind", VStr (str_or "provider_kind" "unknown" config));
     ("provider_client_kind", VStr (str_or "provider_client_kind" "deterministic_fake" adapter));
     ("response_schema", VStr "AffectiveDecision"); ("decision", VDict (decision_to_dict decision));
     ("multimodal_summary", por (dgetn "multimodal_summary" context) (VDict []));
     ("profile_route", por (dgetn "profile_route" context) (VDict []));
     ("presentation_policy", por (dgetn "presentation_policy" context) (VDict []));
     ("provider_failure_mode", VStr "fail_closed")]).

Definition build_rational_plan_evidence (plan : option RationalPlan) (failure_status : string) (available_tools : list dict)
    (tool_results : list ToolExecutionResult) : dict :=
  let names := map tool_label available_tools in
  let selected := match plan with Some p => Agents.tool_name p | None => "" end in
  dict_of [("schema_version", VStr RATIONAL_PLAN_EVIDENCE_SCHEMA_VERSION);
           ("status", VStr (if negb (String.eqb failure_status "") then "invalid_payload"
                            else match plan with None => "no_tool_selected" | Some _ => "tool_selected" end));
           ("failure_status", VStr failure_status); ("selected_tool_name", VStr selected);
           ("selected_tool_in_available_tools", VBool (negb (String.eqb selected "") && str_in selected names));
           ("available_tool_count", count names);
           ("tool_result_status", match tool_results with [] => VNone | r :: _ => VStr (tr_status r) end)].

(** [any(topic.startswith("user.input") for topic in frame.topics)] *)
Fixpoint interactive (l : list pyval) : result bool :=
  match l with
  | [] => Ok false
  | VStr s :: rest => if startswith s "user.input" then Ok true else interactive rest
  | _ :: _ => Raise (AttributeError "startswith")
  end.

Definition trigger_kind (user : bool) : string := if user then "interactive_request" else "event_driven_perception".
Definition delivery_kind (decision : AffectiveDecision) (user : bool) : string :=
  if negb (delegated decision) then "observation_only"
  else if user then "interactive_response" else "event_driven_notification".

Definition tool_label_text (name : string) : string := py_replace "_" " " (py_replace "system_" "" name).
Definition response_text (decision : AffectiveDecision) (topics : string) (tool_results : list ToolExecutionResult) : string :=
  if negb (delegated decision) then "Recorded perception topics " +:+ topics +:+ "; no delegated action was required."
  else match tool_results with
  | [] => "Observed " +:+ topics +:+ " and opened a reasoning window, but no tool execution was required."
  | r :: _ =>
      let label := tool_label_text (tr_tool_name r) in
      if String.eqb (tr_status r) "ok" then "Observed " +:+ topics +:+ " and completed a read-only " +:+ label +:+ " before responding."
      else if String.eqb (tr_status r) "pending_approval" then
        "Observed " +:+ topics +:+ " and prepared delegated " +:+ label +:+ ", but execution is waiting for explicit approval."
      else if String.eqb (tr_status r) "blocked" then
        "Observed " +:+ topics +:+ " but blocked delegated " +:+ label +:+ " due to policy constraints."
      else "Observed " +:+ topics +:+ " and attempted delegated " +:+ label +:+ ", but the tool path reported an error."
  end.

Definition build_final_response (frame : PerceptionFrame) (decision : AffectiveDecision) (tool_results : list ToolExecutionResult)
    : result dict :=
  let! topics_ := topics_text frame in
  let! user := interactive (topics frame) in
  Ok (dict_of [("speaker", VStr "affective"); ("delegated", VBool (delegated decision));
               ("text", VStr (response_text decision topics_ tool_results)); ("salience", VInt (salience decision));
               ("trigger_kind", VStr (trigger_kind user)); ("delivery_kind", VStr (delivery_kind decision user));
               ("topics", VList (topics frame))]).

Definition build_notification_summary (notification_id : string) (frame : PerceptionFrame) (decision : AffectiveDecision)
    (final_response : dict) : result dict :=
  let! user := interactive (topics frame) in
  Ok (dict_of [("notification_id", VStr notification_id); ("speaker", VStr (str_or "speaker" "affective" final_response));
               ("trigger_kind", VStr (trigger_kind user)); ("delivery_kind", VStr (delivery_kind decision user));
               ("audience", VStr "user"); ("salience", VInt (salience decision));
               ("urgency", VStr (if 80 <=? salience decision then "high" else "normal")); ("topics", VList (topics frame));
               ("delegated", VBool (delegated decision)); ("text", VStr (str_or "text" "" final_response))]).

(** ** The audit record *)

Record AuditSummaries := { state_sync_summary : pyval; activation_health_summary : pyval }.

Definition activation_summary (r : ToolExecutionResult) : result dict :=
  let! observation := py_dict (por (dgetn "activation_health" (tr_payload r)) (VDict [])) in
  let! actions := list_of (dgetn "recommended_next_actions" observation) in
  Ok (dict_of
    [("tool_status", VStr (tr_status r)); ("classification", VStr (str_or "classification" "unknown" observation));
     ("reason", VStr (str_or "reason" "" observation));
     ("ready_for_rollback_consideration", VBool (flag "ready_for_rollback_consideration" observation));
     ("app_id", VStr (str_or "app_id" "" observation)); ("network_state", VStr (str_or "network_state" "unknown" observation));
     ("observed_app_state", VStr (str_or "observed_app_state" "unknown" observation));
     ("recommended_next_actions", VList actions)]).

Definition sync_summary (r : ToolExecutionResult) : result dict :=
  let payload := tr_payload r in
  if String.eqb (tr_status r) "ok" then
    let! snapshot := py_dict (por (dgetn "state_sync" payload) (VDict [])) in
    let! actions := list_of (dgetn "recommended_next_actions" snapshot) in
    Ok (dict_of [("tool_status", VStr (tr_status r)); ("snapshot_status", dget_or "status" (VStr "unknown") snapshot);
                 ("recommended_next_actions", VList actions); ("failure_class", VStr ""); ("failure_status", VStr "")])
  else
    let nested := match dgetn "payload" payload with VDict d => d | _ => [] end in
    let! actions := if Policy.nonempty nested then list_of (dgetn "recommended_next_actions" nested) else Ok [] in
    Ok (dict_of [("tool_status", VStr (tr_status r)); ("snapshot_status", VStr (str_or "status" "error" nested));
                 ("recommended_next_actions", VList actions); ("failure_class", VStr (str_or "failure_class" "" payload));
                 ("failure_status", VStr (str_or "failure_status" "" payload))]).

(** The loop over the results: the last one of each kind counts. *)
Fixpoint summarize_results (acc : AuditSummaries) (results : list ToolExecutionResult) : result AuditSummaries :=
  match results with
  | [] => Ok acc
  | r :: rest =>
      if String.eqb (tr_tool_name r) "system_state_sync" then
        let! d := sync_summary r in
        summarize_results {| state_sync_summary := VDict d; activation_health_summary := activation_health_summary acc |} rest
      else if String.eqb (tr_tool_name r) "system_activation_health_guard" then
        let! d := activation_summary r in
        summarize_results {| state_sync_summary := state_sync_summary acc; activation_health_summary := VDict d |} rest
      else summarize_results acc rest
  end.

Definition dict_or_none (v : pyval) : pyval := match v with VDict d => VDict d | _ => VNone end.

Definition build_audit_payload (frame : PerceptionFrame) (decision : AffectiveDecision) (session_context : dict)
    (tool_results : list ToolExecutionResult) (final_response notification_summary adapter_runtime maf_runtime : dict) : result dict :=
  let! s := summarize_results {| state_sync_summary := VNone; activation_health_summary := VNone |} tool_results in
  Ok (dict_of
    [("frame", VDict (frame_to_dict frame)); ("decision", VDict (decision_to_dict decision));
     ("session_context", VDict session_context); ("maf_runtime", VDict maf_runtime); ("adapter_runtime", VDict adapter_runtime);
     ("state_sync_summary", state_sync_summary s); ("activation_health_summary", activation_health_summary s);
     ("rational_plan_evidence", dict_or_none (dgetn "rational_plan_evidence" session_context));
     ("recovery_candidate_summary", dict_or_none (dgetn "recovery_candidate_summary" session_context));
     ("notification_summary", VDict notification_summary); ("final_response", VDict final_response);
     ("tool_results", VList (map (fun r => VDict (tool_result_to_dict r)) tool_results))]).

(** ** The target of the events ([_extract_target_app_id_from_events]) *)

Fixpoint target_app_id_of (events : list PerceptionEvent) : string :=
  match events with
  | [] => ""
  | ev :: rest =>
      let named := str_or "target_app_id" "" (ev_payload ev) in
      let failed := eq_str (semantic_topic ev) "unit.lifecycle.activate_failed" in
      if negb (String.eqb named "") then named
      else if (String.eqb (source_kind ev) "user" || failed) && py_truthy (source_app ev) then py_str (source_app ev)
      else target_app_id_of rest
  end.

(** [_extract_activate_failed_event_payload] *)
Definition activate_failed_payload (events : list PerceptionEvent) : dict :=
  match List.find (fun ev => eq_str (semantic_topic ev) "unit.lifecycle.activate_failed") events with
  | Some ev => ev_payload ev
  | None => []
  end.
