(* ===== verification/Workflow.v ===== *)
(** * A run of the workflow ([workflow.py], [NoModelCoreWorkflow.run])

    Events come in, are routed and stored; a frame is built, memories are
    looked up and proposed, the affective agent decides, the rational agent
    plans, and the plan is held against its contract and the tool policy: it
    is executed, left for the operator's approval, or refused.  Everything is
    recorded, and the run ends with an audit record and a closed span.

    The store, the memory backend, the unit behind the tool adapter, the model
    behind the agents and the router each keep a state of their own. *)

From Stdlib Require Import ZArith Lia Bool List Ascii String.
From stdpp Require Import base gmap list option strings.
From S2P Require Import Prelude PyFloat Text PyValue Events Agents Contracts Policy Maf ModelAgents StateSync Store Memory Artifact Deploy PromptContext Catalog Skills Inference PlanQuality RunEvidence.

#[local] Open Scope string_scope.
#[local] Open Scope Z_scope.
#[local] Open Scope list_scope.

(** ** The state *)

Record World (US MS CS : Type) := {
  w_core : Mem0State MS;       (* the store and the memory backend *)
  w_unit : US;                 (* the tool adapter *)
  w_model : CS;                (* the provider's client *)
  w_seen : list pyval;         (* the router's keys *)
}.
Arguments Build_World {US MS CS}.
Arguments w_core {US MS CS}.
Arguments w_unit {US MS CS}.
Arguments w_model {US MS CS}.
Arguments w_seen {US MS CS}.

Section Lifts.
Context {US MS CS : Type}.
#[local] Notation world := (World US MS CS).

Definition core_do {A} (m : eff (Mem0State MS) A) : eff world A :=
  fun w => let '(r, c) := m (w_core w) in (r, Build_World c (w_unit w) (w_model w) (w_seen w)).
Definition store_do {A} (m : eff CoreDataStore A) : eff world A := core_do (Memory.on_store m).
Definition unit_do {A} (m : eff US A) : eff world A :=
  fun w => let '(r, u) := m (w_unit w) in (r, Build_World (w_core w) u (w_model w) (w_seen w)).
Definition model_do {A} (m : eff CS A) : eff world A :=
  fun w => let '(r, c) := m (w_model w) in (r, Build_World (w_core w) (w_unit w) c (w_seen w)).
Definition the_store : eff world CoreDataStore := fun w => (Ok (data_store (w_core w)), w).
Definition see (key : pyval) : eff world unit :=
  emodify (fun w => Build_World (w_core w) (w_unit w) (w_model w) (w_seen w ++ [key])).
Definition seen_keys : eff world (list pyval) := fun w => (Ok (w_seen w), w).
End Lifts.

(** [try: Some m except ValueError as exc: failure] *)
Definition catch_value_error {W A} (m : eff W A) : eff W (A + pyerr) :=
  fun w => match m w with
           | (Ok a, w') => (Ok (inl a), w')
           | (Raise e, w') => if is_value_error e then (Ok (inr e), w') else (Raise e, w')
           end.

Fixpoint each {W A B} (f : A -> eff W B) (l : list A) : eff W (list B) :=
  match l with
  | [] => eret []
  | a :: rest => do! b := f a in do! bs := each f rest in eret (b :: bs)
  end.

(** ** The workflow *)

(** What a workflow is made with.  The federation route provider is a function of the frame
    and the session context; [wf_exc_text] is [str(exc)]; [wf_environment] is the process environment. *)
Record Workflow (MS CS : Type) := {
  wf_profile : MafRuntimeProfile;
  wf_memory : MemoryBackend MS;
  wf_affective : AffectiveAgent CS;
  wf_rational : RationalAgent CS;
  wf_federation : option (PerceptionFrame -> dict -> result pyval);
  wf_skill_path : string;
  wf_catalog : WorkflowCatalog;
  wf_environment : environ;
  wf_exc_text : pyerr -> string;
}.
Arguments wf_profile {MS CS}.
Arguments wf_memory {MS CS}.
Arguments wf_affective {MS CS}.
Arguments wf_rational {MS CS}.
Arguments wf_federation {MS CS}.
Arguments wf_skill_path {MS CS}.
Arguments wf_catalog {MS CS}.
Arguments wf_environment {MS CS}.
Arguments wf_exc_text {MS CS}.

Section Run.
Context {US MS CS : Type} `{Adapter : UnitAdapter US} `{SQ : Sqlite} {FS : Files}.
Context (env : nat -> Env) (clock : nat -> Z) (wf : Workflow MS CS).
#[local] Notation world := (World US MS CS).

(** *** The memory backend *)

Definition memory_lookup (frame : PerceptionFrame) : eff (Mem0State MS) (list pyval) :=
  match wf_memory wf with
  | FakeLongTermMemory => eret []
  | LocalCandidateBackedMemory => do! s := eget in elift (local_lookup frame (data_store s))
  | Mem0SidecarMemory m => mem0_lookup m frame
  end.
Definition memory_propose (frame : PerceptionFrame) : result (list dict) :=
  match wf_memory wf with
  | FakeLongTermMemory => fake_propose_candidates frame
  | LocalCandidateBackedMemory => local_propose_candidates frame
  | Mem0SidecarMemory m => mem0_propose_candidates m frame
  end.
(** The deterministic backend commits nothing: it has no [commit_candidates]. *)
Definition memory_commit (span : string) (candidates : list dict) : option (eff (Mem0State MS) (list string)) :=
  match wf_memory wf with
  | FakeLongTermMemory => None
  | LocalCandidateBackedMemory => Some (Memory.on_store (local_commit_candidates env clock span candidates))
  | Mem0SidecarMemory m => Some (mem0_commit_candidates env clock m span candidates)
  end.
Definition memory_runtime_metadata : eff world dict := fun w =>
  (Ok match wf_memory wf with
      | FakeLongTermMemory => fake_runtime_metadata
      | LocalCandidateBackedMemory => local_runtime_metadata
      | Mem0SidecarMemory m => mem0_runtime_metadata m (w_core w)
      end, w).

Definition maf_runtime_metadata : dict :=
  dset "agent_adapters" (VList [VDict (aa_metadata (wf_affective wf)); VDict (ra_metadata (wf_rational wf))])
    (profile_to_dict (wf_profile wf)).

Definition new_id_for (prefix : string) : eff world string := store_do (draw env prefix).

(** *** Events and frame *)

Fixpoint route_each (raw_events : list dict) : eff world (list PerceptionEvent) :=
  match raw_events with
  | [] => eret []
  | raw :: rest =>
      do! e := store_do (read_env env) in
      do! ev := elift (normalize_one (e, raw)) in
      do! seen := seen_keys in
      let key := event_key ev in
      if negb (hashable key) then eraise (TypeError "unhashable type")
      else if py_in key seen then route_each rest
      else
        do! _ := see key in
        do! events := route_each rest in
        eret (ev :: events)
  end.
Definition route_events (raw_events : list dict) : eff world (list PerceptionEvent) :=
  do! events := route_each raw_events in eret (py_sorted event_leb events).

Definition fresh_frame (events : list PerceptionEvent) : eff world PerceptionFrame :=
  do! e := store_do (read_env env) in elift (build_frame e events).

(** The frame and the steps it took. *)
Definition frame_phase (use_db_events : bool) (query_limit min_priority : Z) (topic : option string) (events : list PerceptionEvent)
    : eff world (PerceptionFrame * list string) :=
  do! frame := fresh_frame events in
  if negb use_db_events then eret (frame, [])
  else
    do! s := the_store in
    match query_events query_limit min_priority topic s with
    | [] => eret (frame, ["database_query"])
    | db_events =>
        do! id := new_id_for "frame" in
        eret (stored_frame id db_events, ["database_query"; "frame_build_from_db"])
    end.

Definition event_fact (ev : PerceptionEvent) : dict :=
  dict_of [("event_id", VStr (event_id ev)); ("source_kind", VStr (Events.source_kind ev)); ("source_node", source_node ev);
           ("source_app", source_app ev); ("priority", VInt (Events.priority ev))].

(** A fact's subject column takes the text of the topic. *)
Definition persist_frame_facts (span : string) (frame : PerceptionFrame) (events : list PerceptionEvent) : eff world (list string) :=
  do! frame_fact := store_do (persist_fact env span "perception_frame" (frame_id frame) (frame_to_dict frame)) in
  do! facts := each (fun ev => do! subject := elift (sql_text (event_topic ev)) in
                               store_do (persist_fact env span "perception_event_topic" (default "" subject) (event_fact ev))) events in
  eret (frame_fact :: facts).

(** *** Memory *)

Definition governed_by (refs : list string) (candidate : dict) : result dict :=
  let! governance := py_dict (por (dgetn "memory_governance" candidate) (VDict [])) in
  let governance := dset "source_fact_ref_count" (count refs) (dset "source_fact_refs" (VList (vstrs refs)) governance) in
  Ok (dset "memory_governance" (VDict governance) (dset "source_fact_refs" (VList (vstrs refs)) candidate)).

Definition in_state (state : string) (candidate : dict) : result bool :=
  let! governance := py_dict (por (dgetn "memory_governance" candidate) (VDict [])) in
  Ok (String.eqb (py_str (dgetn "lifecycle_state" governance)) state).

Definition candidate_count (state : string) (candidates : list dict) : result pyval :=
  let! l := filter_r (in_state state) candidates in Ok (count l).

(** Propose, screen, record and commit; what the session context gets of it. *)
Definition memory_phase (span : string) (frame : PerceptionFrame) (refs : list string) (ctx : dict) : eff world (dict * list dict) :=
  do! proposed := elift (memory_propose frame) in
  do! candidates := elift (rmap (governed_by refs) proposed) in
  do! screened := store_do (screen_candidates clock candidates) in
  do! _ := each (fun c => store_do (persist_memory_candidate env span (str_or "semantic_topic" "unknown" c) c)) screened in
  do! accepted := elift (candidate_count "accepted" screened) in
  do! rejected := elift (candidate_count "rejected" screened) in
  let ctx := dset "rejected_memory_candidate_count" rejected
               (dset "accepted_memory_candidate_count" accepted (dset "memory_candidate_count" (count screened) ctx)) in
  let chosen := if is_empty screened then candidates else screened in
  match memory_commit span chosen with
  | None => eret (ctx, chosen)
  | Some commit =>
      do! ids := core_do commit in
      do! runtime := memory_runtime_metadata in
      eret (dset "memory_runtime" (VDict runtime) (dset "committed_memory_ids" (VList (vstrs ids))
             (dset "committed_memory_count" (count ids) ctx)), chosen)
  end.

Definition memory_summary (ctx : dict) (chosen : list dict) (refs : list string) (runtime : dict) : result dict :=
  let! accepted := PlanQuality.int_or "accepted_memory_candidate_count" ctx in
  let! rejected := PlanQuality.int_or "rejected_memory_candidate_count" ctx in
  let! committed := PlanQuality.int_or "committed_memory_count" ctx in
  Ok (dict_of [("candidate_count", count chosen); ("accepted_candidate_count", VInt accepted);
               ("rejected_candidate_count", VInt rejected); ("committed_memory_count", VInt committed);
               ("source_fact_ref_count", count refs); ("memory_runtime", VDict runtime)]).

(** *** The plan *)

(** The results so far, and what the session context gets of them. *)
Record Executed := { ex_results : list ToolExecutionResult; ex_context : list (string * pyval) }.

Definition tool_answer (name status : string) (payload : list (string * pyval)) : eff world ToolExecutionResult :=
  do! id := new_id_for "tool" in
  eret {| tr_tool_result_id := id; tr_tool_name := name; tr_status := status; tr_payload := dict_of payload |}.

Definition keep_result (span : string) (r : ToolExecutionResult) : eff world unit :=
  store_do (persist_tool_result env (tr_tool_result_id r) span (tr_tool_name r) (tr_status r) (tr_payload r)).

Definition with_payload (updates : list (string * pyval)) (r : ToolExecutionResult) : ToolExecutionResult :=
  {| tr_tool_result_id := tr_tool_result_id r; tr_tool_name := tr_tool_name r; tr_status := tr_status r;
     tr_payload := dupdate (tr_payload r) (dict_of updates) |}.

Definition dicts_value (l : list dict) : pyval := VList (map VDict l).

(** The request an approval waits for. *)
Definition request_payload (id tool reason : string) (args : dict) (contract : ToolContract) (policy : dict)
    (more : list (string * pyval)) (last : list (string * pyval)) : dict :=
  dict_of ([("approval_request_id", VStr id); ("tool_name", VStr tool); ("reason", VStr reason); ("requested_args", VDict args);
            ("required_resources", VList (vstrs (required_resources contract))); ("cleanup_hint", cleanup_hint contract);
            ("side_effect_level", VStr (level_value (side_effect_level contract))); ("policy_decision", VDict policy);
            ("contract", VDict (contract_to_dict contract))] ++ more ++ [("status", VStr "pending")] ++ last).

(** Ask for an approval: the request is stored and answers for the tool. *)
Definition ask_approval (session span tool : string) (payload : string -> dict) (quality : list (string * pyval)) (policy : dict)
    : eff world (ToolExecutionResult * string) :=
  do! id := new_id_for "approval" in
  do! _ := store_do (persist_approval_request env session span tool "pending" (payload id) (Some id)) in
  do! r := tool_answer tool "pending_approval"
    ([("failure_status", VStr "approval_required"); ("failure_class", VStr "approval_gate_pending");
      ("policy_decision", VDict policy)] ++ quality ++ [("approval_request", VDict (payload id))]) in
  eret (r, id).

Definition pending_ids (id : string) : string * pyval := ("pending_approval_request_ids", VList [VStr id]).

(** A plan whose tool has a contract: its quality, then the policy, then the tool, the operator or a refusal. *)
Definition run_plan (session span : string) (plan : RationalPlan) (contract : ToolContract) (available_tools : list dict)
    : eff world (ToolExecutionResult * list (string * pyval)) :=
  let tool := Agents.tool_name plan in
  do! quality := unit_do (build_rational_plan_quality (wf_skill_path wf) (wf_catalog wf) plan contract available_tools) in
  let plan_quality := ("plan_quality", VDict (quality_to_dict quality)) in
  if negb (pq_valid quality) then
    do! r := tool_answer tool "error"
      [("failure_status", VStr "missing_required_arguments"); ("failure_class", VStr "rational_plan_contract_invalid");
       ("requested_plan", VDict (rational_plan_to_dict plan)); ("contract", VDict (contract_to_dict contract)); plan_quality] in
    eret (r, [])
  else
    do! decision := elift (evaluate_contract contract) in
    let policy := policy_to_dict decision in
    do! _ := store_do (persist_policy_decision env span tool policy) in
    if pd_allowed decision then
      do! r := unit_do (adapter_execute tool (plan_args plan)) in
      eret (with_payload [("policy_decision", VDict policy); plan_quality] r, [])
    else if pd_approval_required decision then
      do! (r, id) := ask_approval session span tool
        (fun id => request_payload id tool "operator_approval_required_before_execution" (plan_args plan) contract policy
                     [plan_quality; ("skill_requirements", VDict (pq_skill_requirements quality))] [])
        [plan_quality] policy in
      eret (r, [pending_ids id])
    else
      do! r := tool_answer tool "blocked"
        [("failure_status", VStr "policy_blocked"); ("failure_class", VStr "tool_policy_denied");
         ("policy_decision", VDict policy); plan_quality] in
      eret (r, []).

(** *** Recovery after a failed activation *)

Definition rollback_args (app_id : string) : dict :=
  dict_of [("app_id", VStr app_id); ("app", VStr app_id); ("reason", VStr "guarded_rollback_after_activation_health_failure")].

(** The rollback is only ever asked for. *)
Definition ask_rollback (session span : string) (summary : dict) : eff world Executed :=
  do! contract := unit_do (describe_tool "system_rollback_app") in
  match contract with
  | None => eret {| ex_results := []; ex_context := [] |}
  | Some contract =>
      do! decision := elift (evaluate_contract contract) in
      let policy := policy_to_dict decision in
      do! _ := store_do (persist_policy_decision env span "system_rollback_app" policy) in
      if pd_approval_required decision then
        let app_id := str_or "app_id" "" summary in
        do! (r, id) := ask_approval session span "system_rollback_app"
          (fun id => request_payload id "system_rollback_app" "operator_approval_required_for_guarded_rollback"
                       (rollback_args app_id) contract policy []
                       [("target_app_id", VStr app_id); ("recovery_candidate_summary", VDict summary)]) [] policy in
        do! _ := keep_result span r in
        eret {| ex_results := [r]; ex_context := [pending_ids id] |}
      else eret {| ex_results := []; ex_context := [] |}
  end.

(** The leases are looked at and the recovery prepared. *)
Definition recover (session span : string) (frame : PerceptionFrame) (activation_health failed : dict) : eff world Executed :=
  do! contract := unit_do (describe_tool "system_query_leases") in
  match contract with
  | None => eret {| ex_results := []; ex_context := [] |}
  | Some contract =>
      do! decision := elift (evaluate_contract contract) in
      let policy := policy_to_dict decision in
      do! _ := store_do (persist_policy_decision env span "system_query_leases" policy) in
      if pd_allowed decision then
        do! r := unit_do (adapter_execute "system_query_leases"
          (dict_of [("event_ids", VList (vstrs (event_ids frame))); ("reason", VStr "rollback_candidate_lease_observation")])) in
        let leases := with_payload [("policy_decision", VDict policy)] r in
        do! _ := keep_result span leases in
        do! summary := elift (build_recovery_candidate_summary activation_health (tool_result_to_dict leases) failed) in
        do! _ := store_do (persist_fact env span "recovery_candidate"
          (py_str (por (por (dgetn "app_id" summary) (dgetn "rollback_decision" summary)) (VStr "recovery-candidate"))) summary) in
        do! rest := ask_rollback session span summary in
        eret {| ex_results := leases :: ex_results rest;
                ex_context := ("recovery_candidate_summary", VDict summary) :: ex_context rest |}
      else eret {| ex_results := []; ex_context := [] |}
  end.

Definition guard_succeeded (r : ToolExecutionResult) : bool :=
  String.eqb (tr_tool_name r) "system_activation_health_guard" && String.eqb (tr_status r) "ok".

Definition after_result (session span : string) (frame : PerceptionFrame) (failed : dict) (r : ToolExecutionResult)
    : eff world Executed :=
  if negb (guard_succeeded r) then eret {| ex_results := [r]; ex_context := [] |}
  else
    do! health := elift (sub "activation_health" (tr_payload r)) in
    do! _ := store_do (persist_fact env span "activation_health_observation"
      (py_str (por (por (dgetn "app_id" health) (dgetn "classification" health)) (VStr "activation-health"))) health) in
    if eq_str (dgetn "classification" health) "rollback_required" then
      do! rest := recover session span frame health failed in
      eret {| ex_results := r :: ex_results rest; ex_context := ex_context rest |}
    else eret {| ex_results := [r]; ex_context := [] |}.

Definition execute_plan (session span : string) (frame : PerceptionFrame) (failed : dict) (available_tools : list dict)
    (failure_status : string) (plan : option RationalPlan) : eff world Executed :=
  if negb (String.eqb failure_status "") then
    do! r := tool_answer "rational_plan_validation" "error"
      [("failure_status", VStr failure_status); ("failure_class", VStr "rational_plan_payload_invalid");
       ("available_tools", dicts_value available_tools)] in
    eret {| ex_results := [r]; ex_context := [] |}
  else match plan with
  | None => eret {| ex_results := []; ex_context := [] |}
  | Some plan =>
      let tool := Agents.tool_name plan in
      do! contract := unit_do (describe_tool tool) in
      do! (r, context) := match contract with
        | None =>
            do! r := tool_answer tool "error"
              [("failure_status", VStr "unknown_tool"); ("failure_class", VStr "manifest_lookup_failed");
               ("requested_plan", VDict (rational_plan_to_dict plan)); ("available_tools", dicts_value available_tools)] in
            eret (r, [])
        | Some contract => run_plan session span plan contract available_tools
        end in
      do! _ := keep_result span r in
      do! rest := after_result session span frame failed r in
      eret {| ex_results := ex_results rest; ex_context := context ++ ex_context rest |}
  end.

(** *** Deciding *)

(** What the affective agent is given: the prompt-safe context, its memories and its runtime. *)
Definition prompt_parts (prompt : dict) : result (dict * dict * list dict * dict) :=
  let! memory := sub "memory" prompt in
  let! recall_policy := sub "recall_policy" memory in
  let! items := list_of (dgetn "affective_items" memory) in
  let! items := rmap as_dict items in
  let! affective := sub "affective_runtime" prompt in
  Ok (recall_policy, memory, items, affective).

(** A real provider is only called over a route that is ready. *)
Definition route_guard (affective : dict) : result unit :=
  let! route := sub "profile_route" affective in
  if real_provider (wf_profile wf) && negb (flag "route_ready" route) then
    Raise (ValueError ("affective_provider_inference_route_unavailable:" +:+
                       str_or2 "failure_status" "route_status" "unavailable" route))
  else Ok tt.

Definition decide_and_plan (frame : PerceptionFrame) (items available_tools : list dict) (affective prompt : dict)
    : eff world (AffectiveDecision * dict * (option RationalPlan * string)) :=
  do! decision := model_do (aa_decide (wf_affective wf) frame items (Some affective)) in
  do! evidence := elift (build_model_call_evidence frame decision maf_runtime_metadata affective) in
  do! planned := catch_value_error (model_do (ra_plan (wf_rational wf) decision frame (Some available_tools) (Some prompt))) in
  eret (decision, evidence, match planned with
                            | inl plan => (plan, "")
                            | inr e => (None, wf_exc_text wf e)
                            end).

(** The federation route, asked for with the frame and the session context. *)
Definition federation_phase (span : string) (frame : PerceptionFrame) (ctx : dict) : eff world (dict * pyval) :=
  match wf_federation wf with
  | None => eret (ctx, VNone)
  | Some provider =>
      do! evidence := elift (provider frame ctx) in
      match evidence with
      | VDict ((_ :: _) as e) =>
          do! route := elift (sub "route_decision" e) in
          do! _ := store_do (persist_fact env span "federation_route"
            (py_str (por (por (dgetn "target_node" route) (dgetn "command" e)) (VStr (frame_id frame)))) e) in
          eret (dset "federation_route_evidence" (VDict e) ctx, VDict e)
      | v => eret (ctx, v)
      end
  end.

Definition initial_context (span target : string) (initial memory_runtime skill mcp : dict) : dict :=
  let ctx := dupdate (dict_of [("execution_span_id", VStr span)]) initial in
  let ctx := dset "memory_runtime" (VDict memory_runtime) (dset "maf_runtime" (VDict maf_runtime_metadata) ctx) in
  let ctx := if String.eqb target "" then ctx else dset "target_app_id" (VStr target) ctx in
  dset "mcp_descriptors" (VList [VDict mcp]) (dset "skill_descriptors" (VList [VDict skill]) ctx).

(** The context of the session before the agents are asked, with what they are shown. *)
Record Prepared := {
  pr_context : dict;           (* the session context *)
  pr_prompt : dict;            (* the prompt-safe context *)
  pr_tools : list dict;        (* the tools offered *)
  pr_items : list dict;        (* the memories the affective agent sees *)
  pr_affective : dict;         (* its runtime context *)
  pr_federation : pyval;       (* what the provider of federation routes answered *)
}.

Definition prepare (span : string) (initial : dict) (frame : PerceptionFrame) (events : list PerceptionEvent) (refs : list string)
    : eff world Prepared :=
  do! runtime := memory_runtime_metadata in
  do! skill := elift (skill_descriptor_summary (wf_skill_path wf)) in
  do! mcp := unit_do (mcp_descriptor_summary None) in
  let ctx := initial_context span (target_app_id_of events) initial runtime skill mcp in
  do! (ctx, federation) := federation_phase span frame ctx in
  do! found := core_do (memory_lookup frame) in
  do! memories := elift (rmap as_dict found) in
  do! runtime := memory_runtime_metadata in
  let ctx := dset "memory_runtime" (VDict runtime) (dset "memory_lookup_count" (count found) ctx) in
  do! (ctx, chosen) := memory_phase span frame refs ctx in
  do! runtime := memory_runtime_metadata in
  do! summary := elift (memory_summary ctx chosen refs runtime) in
  do! _ := store_do (persist_fact env span "memory_governance_summary" (frame_id frame) summary) in
  do! manifest := unit_do ua_manifest in
  let tools := map contract_to_dict manifest in
  let ctx := dset "available_tools" (dicts_value tools) ctx in
  do! affective := elift (build_affective_runtime_context (wf_environment wf) (wf_profile wf) frame events) in
  let ctx := dset "affective_runtime_context" (VDict affective) ctx in
  do! _ := store_do (persist_fact env span "affective_runtime_context" (frame_id frame) affective) in
  do! prompt := elift (build_prompt_safe_context ctx frame memories tools) in
  do! (recall_policy, memory, items, safe_affective) := elift (prompt_parts prompt) in
  let ctx := dset "memory_recall_policy" (VDict recall_policy) (dset "prompt_safe_context" (VDict prompt) ctx) in
  do! _ := store_do (persist_fact env span "memory_recall_policy" (frame_id frame) recall_policy) in
  eret {| pr_context := ctx; pr_prompt := prompt; pr_tools := tools; pr_items := items; pr_affective := safe_affective;
          pr_federation := federation |}.

(** *** The run *)

Record WorkflowResult := {
  wr_status : string;
  wr_execution_span_id : string;
  wr_session_id : string;
  wr_final_response : dict;
  wr_steps : list string;
  wr_events_persisted : Z;
  wr_delegated : bool;
  wr_tool_results : list ToolExecutionResult;
  wr_audit_id : string;
}.

Definition result_to_dict (r : WorkflowResult) : dict :=
  dict_of [("status", VStr (wr_status r)); ("execution_span_id", VStr (wr_execution_span_id r));
           ("session_id", VStr (wr_session_id r)); ("final_response", VDict (wr_final_response r));
           ("steps", VList (vstrs (wr_steps r))); ("events_persisted", VInt (wr_events_persisted r));
           ("delegated", VBool (wr_delegated r));
           ("tool_results", VList (map (fun t => VDict (tool_result_to_dict t)) (wr_tool_results r)));
           ("audit_id", VStr (wr_audit_id r))].

(** What the span says when it opens and when it closes. *)
Definition open_span (event_source session : string) (events : list PerceptionEvent) : dict :=
  dict_of [("event_source", VStr event_source); ("normalized_event_count", count events); ("session_id", VStr session)].
Definition closed_span (event_source session : string) (steps : list string) (events : list PerceptionEvent) (delegated : bool)
    (results : list ToolExecutionResult) (audit_id : string) (federation : pyval) : result dict :=
  let! federation := as_dict (por federation (VDict [])) in
  let! route := sub "route_decision" federation in
  Ok (dict_of
    [("event_source", VStr event_source); ("session_id", VStr session); ("steps", VList (vstrs steps));
     ("events_persisted", count events); ("normalized_event_count", count events); ("delegated", VBool delegated);
     ("tool_result_count", count results); ("audit_id", VStr audit_id);
     ("federation_route_status", VStr (str_or "status" "" federation));
     ("federation_route_kind", VStr (str_or "route_kind" "" route))]).

(** The response, the notification, the audit record and the closed span. *)
Definition conclude (event_source session span : string) (steps : list string) (frame : PerceptionFrame) (events : list PerceptionEvent)
    (decision : AffectiveDecision) (plan : option RationalPlan) (results : list ToolExecutionResult) (ctx : dict) (federation : pyval)
    : eff world WorkflowResult :=
  do! response := elift (build_final_response frame decision results) in
  do! notification_id := new_id_for "notif" in
  do! notification := elift (build_notification_summary notification_id frame decision response) in
  do! _ := store_do (persist_fact env span "notification_dispatch"
    (py_str (por (por (dgetn "notification_id" notification) (dgetn "speaker" response)) (VStr "notification"))) notification) in
  do! audit_id := new_id_for "audit" in
  do! audit := elift (build_audit_payload frame decision ctx results response notification ua_metadata maf_runtime_metadata) in
  do! _ := store_do (persist_audit_record env audit_id span "ok" audit (Some session)) in
  let delegated := match plan with Some _ => true | None => false end in
  do! closed := elift (closed_span event_source session steps events delegated results audit_id federation) in
  do! _ := store_do (persist_execution_span env span "ok" closed (Some session)) in
  eret {| wr_status := "ok"; wr_execution_span_id := span; wr_session_id := session; wr_final_response := response;
          wr_steps := steps ++ ["notification_dispatch"]; wr_events_persisted := Z.of_nat (length events);
          wr_delegated := delegated; wr_tool_results := results; wr_audit_id := audit_id |}.

Definition affective_step : string := if real_provider (wf_profile wf) then "affective_model_call" else "affective_arbitration".

Definition run (raw_events : list dict) (use_db_events : bool) (query_limit min_priority : Z) (topic session_id : option string)
    (event_source : string) : eff world WorkflowResult :=
  do! span := new_id_for "span" in
  do! session := match str_truthy session_id with Some s => eret s | None => new_id_for "session" end in
  do! s := the_store in
  let initial := build_context session None 5 s in
  do! events := route_events raw_events in
  do! _ := store_do (persist_execution_span env span "running" (open_span event_source session events) (Some session)) in
  do! _ := each (fun ev => store_do (persist_event env ev)) events in
  do! (frame, frame_steps) := frame_phase use_db_events query_limit min_priority topic events in
  do! refs := persist_frame_facts span frame events in
  do! p := prepare span initial frame events refs in
  do! _ := elift (route_guard (pr_affective p)) in
  do! (decision, evidence, (plan, failure)) :=
    decide_and_plan frame (pr_items p) (pr_tools p) (pr_affective p) (pr_prompt p) in
  do! executed := execute_plan session span frame (activate_failed_payload events) (pr_tools p) failure plan in
  let results := ex_results executed in
  let ctx := dupdate (dset "model_call_evidence" (VDict evidence) (pr_context p)) (dict_of (ex_context executed)) in
  let ctx := dset "rational_plan_evidence" (VDict (build_rational_plan_evidence plan failure (pr_tools p) results)) ctx in
  let steps := ["event_ingress"; "database_persistence"; "perception_frame_build"] ++ frame_steps ++
               ["session_context_load"; "long_term_memory_lookup_stub"; affective_step; "rational_delegate_optional";
                "tool_and_unit_execution"; "audit_record"] in
  conclude event_source session span steps frame events decision plan results ctx (pr_federation p).
End Run.

(** The candidates that the workflow commits are the proposals of the backend, given the refs of the facts and screened: each is a
    candidate as [Memory.offered] has it. *)
Lemma governed_by_proposed refs c c' : proposed c -> governed_by refs c = Ok c' -> proposed c'.
Proof.
  intros [Hw (g & Hg & Hgw & Hst & Hkn)]. unfold governed_by. unfold Memory.governance_of in Hg. rewrite Hg. cbn [rbind]. intros [= <-].
  set (g' := dset _ _ (dset _ _ g)). split; [by repeat apply dset_wf|]. exists g'. split; [|split; [|split]].
  - apply governance_of_at. by dict_simpl.
  - by repeat apply dset_wf.
  - unfold str_or in *. rewrite dgetn_eq in *. unfold g'. by dict_simpl.
  - unfold g'. rewrite !dgetn_eq in *. by dict_simpl.
Qed.

Lemma workflow_candidates_offered clock refs proposals candidates s screened s' :
  Forall proposed proposals -> rmap (governed_by refs) proposals = Ok candidates ->
  screen_candidates clock candidates s = (Ok screened, s') -> Forall (offered clock) screened.
Proof.
  intros Hp Hg%rmap_ok_Forall2. apply screen_candidates_offered.
  induction Hg as [|c c' l l' Hc _ IH]; constructor; apply Forall_cons in Hp as [H1 H2]; [by eapply governed_by_proposed|by apply IH].
Qed.
