(* ===== verification/RunSafety.v ===== *)
(** * What a run may do to the unit ([workflow.py], [NoModelCoreWorkflow.run])

    The calls a run makes through the tool adapter, whatever the events, the
    agents, the memory and the unit answer: at most the planned tool, which
    fits its contract and which the policy allows, and one look at the leases. *)

From Stdlib Require Import ZArith Lia Bool List Ascii String.
From stdpp Require Import base gmap list option strings.
From S2P Require Import Prelude PyFloat Text PyValue Events Agents Contracts Policy Maf ModelAgents StateSync Store Memory Artifact Deploy PromptContext Catalog Skills Inference PlanQuality RunEvidence Workflow.

#[local] Open Scope string_scope.
#[local] Open Scope Z_scope.
#[local] Open Scope list_scope.

(** ** An adapter that keeps a log of the tools it runs *)

Definition call : Type := string * dict.

Definition logging {US} (adapter : UnitAdapter US) : UnitAdapter (US * list call) := {|
  ua_tools := fun name args u => let '(r, u') := @adapter_execute US (@ua_tools US adapter) name args u.1 in (r, (u', u.2 ++ [(name, args)]));
  ua_manifest := fun u => let '(r, u') := @ua_manifest US adapter u.1 in (r, (u', u.2));
  ua_metadata := @ua_metadata US adapter;
|}.

Section Safety.
Context {US MS CS : Type} (adapter : UnitAdapter US) (SQ : Sqlite) (FS : Files).
Context (env : nat -> Env) (clock : nat -> Z) (wf : Workflow MS CS).
#[local] Notation world := (World (US * list call) MS CS).
#[local] Instance logging_adapter : UnitAdapter (US * list call) := logging adapter.

Definition log (w : world) : list call := (w_unit w).2.

(** Whatever happens, the calls [m] makes and what it answers satisfy [P]. *)
Definition makes {A} (P : list call -> result A -> Prop) (m : eff world A) : Prop :=
  forall w, exists calls, log (m w).2 = log w ++ calls /\ P calls (m w).1.

Lemma makes_silent {A} (P : list call -> result A -> Prop) (m : eff world A) :
  moves (same log) m -> (forall w, P [] (m w).1) -> makes P m.
Proof. intros Hm HP w. exists []. specialize (Hm w). unfold same in Hm. by rewrite Hm, app_nil_r. Qed.

(** A silent step first, with what it answers. *)
Lemma makes_after {A B} (P : list call -> result B -> Prop) (m : eff world A) (k : A -> eff world B) :
  moves (same log) m -> (forall e, P [] (Raise e)) -> (forall w a w', m w = (Ok a, w') -> makes P (k a)) -> makes P (ebind m k).
Proof.
  intros Hm HP Hk w. unfold ebind. specialize (Hm w). unfold same in Hm. destruct (m w) as [[a|e] w'] eqn:E; cbn in *.
  - destruct (Hk w a w' E w') as (calls & Hc & HPc). exists calls. by rewrite Hc, Hm.
  - exists []. by rewrite Hm, app_nil_r.
Qed.

Lemma makes_bind {A B} (P : list call -> result A -> Prop) (R : list call -> result B -> Prop) (m : eff world A) (k : A -> eff world B) :
  makes P m -> (forall calls e, P calls (Raise e) -> R calls (Raise e)) ->
  (forall calls a, P calls (Ok a) -> makes (fun more r => R (calls ++ more) r) (k a)) -> makes R (ebind m k).
Proof.
  intros Hm He Hk w. unfold ebind. destruct (Hm w) as (calls & Hc & HP). destruct (m w) as [[a|e] w'] eqn:E; cbn in *.
  - destruct (Hk calls a HP w') as (more & Hmore & HR). exists (calls ++ more). by rewrite Hmore, Hc, app_assoc.
  - exists calls. auto.
Qed.

(** *** Silent steps *)

Lemma core_do_silent {A} (m : eff (Mem0State MS) A) : moves (same log) (core_do m).
Proof. intros w. unfold core_do. by destruct (m (w_core w)). Qed.
Lemma store_do_silent {A} (m : eff CoreDataStore A) : moves (same log) (store_do m).
Proof. apply core_do_silent. Qed.
Lemma model_do_silent {A} (m : eff CS A) : moves (same log) (model_do m).
Proof. intros w. unfold model_do. by destruct (m (w_model w)). Qed.
Lemma unit_do_silent {A} (m : eff (US * list call) A) : moves (same snd) m -> moves (same log) (unit_do m).
Proof. intros Hm w. unfold unit_do, same, log. specialize (Hm (w_unit w)). by destruct (m (w_unit w)). Qed.
Lemma see_silent key : moves (same log) (see key).
Proof. done. Qed.
Lemma seen_silent : moves (same log) seen_keys.
Proof. done. Qed.
Lemma the_store_silent : moves (same log) the_store.
Proof. done. Qed.
Lemma metadata_silent : moves (same log) (memory_runtime_metadata wf).
Proof. done. Qed.
Lemma manifest_silent : moves (same snd) (ua_manifest (S := US * list call)).
Proof.
  intros u. change (ua_manifest u) with (let '(r, u') := @ua_manifest US adapter u.1 in (r, (u', u.2))).
  by destruct (@ua_manifest US adapter u.1).
Qed.
#[local] Hint Resolve core_do_silent store_do_silent model_do_silent unit_do_silent see_silent seen_silent the_store_silent
  metadata_silent manifest_silent : moves.

Lemma describe_silent name : moves (same snd) (describe_tool (S := US * list call) name).
Proof. unfold describe_tool. moves. Qed.
Lemma mcp_silent contract : moves (same snd) (mcp_descriptor_summary (S := US * list call) contract).
Proof. unfold mcp_descriptor_summary. moves. Qed.
#[local] Hint Resolve describe_silent mcp_silent : moves.
Lemma quality_silent path catalog plan contract tools :
  moves (same snd) (build_rational_plan_quality (S := US * list call) path catalog plan contract tools).
Proof. unfold build_rational_plan_quality. moves. Qed.
#[local] Hint Resolve quality_silent : moves.

Lemma each_silent {A B} (f : A -> eff world B) l : (forall a, moves (same log) (f a)) -> moves (same log) (each f l).
Proof. intros Hf. induction l as [|a l IH]; cbn [each]; moves. Qed.
Lemma catch_silent {A} (m : eff world A) : moves (same log) m -> moves (same log) (catch_value_error m).
Proof.
  intros Hm w. specialize (Hm w). unfold catch_value_error. destruct (m w) as [[a|e] w']; [done|]. by destruct (is_value_error e).
Qed.
#[local] Hint Resolve catch_silent : moves.
#[local] Hint Extern 2 (moves _ (each _ _)) => (apply each_silent; intros ?; moves) : moves.

Lemma route_silent raws : moves (same log) (route_events env raws).
Proof. unfold route_events. enough (moves (same log) (route_each env raws)) by moves. induction raws; cbn [route_each]; unfold new_id_for; moves. Qed.

Lemma frame_silent a b c d e : moves (same log) (frame_phase env a b c d e).
Proof. unfold frame_phase, fresh_frame, new_id_for. moves. Qed.
Lemma facts_silent span frame events : moves (same log) (persist_frame_facts env span frame events).
Proof. unfold persist_frame_facts. moves. Qed.
Lemma memory_silent span frame refs ctx : moves (same log) (memory_phase env clock wf span frame refs ctx).
Proof. unfold memory_phase. moves. Qed.
Lemma federation_silent span frame ctx : moves (same log) (federation_phase env wf span frame ctx).
Proof. unfold federation_phase. moves. Qed.
#[local] Hint Resolve route_silent frame_silent facts_silent memory_silent federation_silent : moves.
Lemma prepare_silent span initial frame events refs : moves (same log) (prepare env clock wf span initial frame events refs).
Proof. unfold prepare. moves. Qed.
Lemma decide_silent frame items tools affective prompt : moves (same log) (decide_and_plan wf frame items tools affective prompt).
Proof. unfold decide_and_plan. moves. Qed.
Lemma tool_answer_silent a b c : moves (same log) (tool_answer env a b c).
Proof. unfold tool_answer, new_id_for. moves. Qed.
Lemma keep_silent span r : moves (same log) (keep_result env span r).
Proof. unfold keep_result. moves. Qed.
#[local] Hint Resolve prepare_silent decide_silent tool_answer_silent keep_silent : moves.
Lemma ask_silent a b c d e f : moves (same log) (ask_approval env a b c d e f).
Proof. unfold ask_approval, new_id_for. moves. Qed.
#[local] Hint Resolve ask_silent : moves.
Lemma rollback_silent session span summary : moves (same log) (ask_rollback env session span summary).
Proof. unfold ask_rollback. moves. Qed.
Lemma conclude_silent a b c d e f g h i j k : moves (same log) (conclude env wf a b c d e f g h i j k).
Proof. unfold conclude, new_id_for. moves. Qed.
#[local] Hint Resolve rollback_silent conclude_silent : moves.

(** *** The calls *)

(** Some manifest the adapter answers with has the contract under the name, and the policy allows it. *)
Definition offers (name : string) (c : ToolContract) : Prop :=
  exists u m u', @ua_manifest US adapter u = (Ok m, u') /\ List.find (fun c => String.eqb (Contracts.tool_name c) name) m = Some c.
Definition read_only_tool (c : ToolContract) : Prop :=
  approval_required c = false /\ side_effect_level c ∈ [ObserveOnly; ReadOnly; SuggestOnly].
Definition authorised (name : string) (c : ToolContract) : Prop := offers name c /\ read_only_tool c.

(** The plan fits the contract the adapter gave for its tool, under the skill and the tools of the run. *)
Definition sound_plan (plan : RationalPlan) : Prop :=
  exists c tools skill, authorised (Agents.tool_name plan) c /\ skill_descriptor_summary (wf_skill_path wf) = Ok skill /\
                        plan_fits (wf_catalog wf) plan c tools skill.
Definition planned_call (plan : RationalPlan) : call := (Agents.tool_name plan, plan_args plan).

Lemma allowed_read_only c d : evaluate_contract c = Ok d -> pd_allowed d = true -> read_only_tool c.
Proof. rewrite evaluate_contract_eq. intros [= <-] [H1 H2]%andb_true_iff. apply negb_true_iff in H1. split; [done|]. exact (proj1 (level_in_spec _ allowed_levels) H2). Qed.

Lemma described name (w : world) c w' : unit_do (describe_tool name) w = (Ok (Some c), w') -> offers name c.
Proof.
  unfold unit_do. destruct (describe_tool name (w_unit w)) as [r u] eqn:E. intros [= -> _].
  apply ebind_inv in E as (m & u1 & Hm & [Hc _]%eret_inv).
  change (ua_manifest (w_unit w)) with (let '(r, u') := @ua_manifest US adapter (w_unit w).1 in (r, (u', (w_unit w).2))) in Hm.
  destruct (@ua_manifest US adapter (w_unit w).1) as [r u'] eqn:Eu. injection Hm as -> _. by exists (w_unit w).1, m, u'.
Qed.

Lemma execute_makes name args : makes (fun calls _ => calls = [(name, args)]) (unit_do (adapter_execute name args) : eff world _).
Proof.
  intros w. exists [(name, args)]. split; [|done]. unfold unit_do, log.
  change (adapter_execute name args (w_unit w)) with
    (let '(r, u') := @adapter_execute US (@ua_tools US adapter) name args (w_unit w).1 in (r, (u', (w_unit w).2 ++ [(name, args)]))).
  by destruct (@adapter_execute US _ name args (w_unit w).1).
Qed.

Lemma elift_silent {A} (r : result A) : moves (same log) (elift r).
Proof. done. Qed.

(** The tool a plan names is called once, or its answer is not "ok". *)
Definition plan_calls (plan : RationalPlan) (calls : list call) (r : result (ToolExecutionResult * list (string * pyval))) : Prop :=
  (calls = [] /\ forall t ctx, r = Ok (t, ctx) -> tr_status t <> "ok") \/ (calls = [planned_call plan] /\ sound_plan plan).

Lemma tool_answer_status name status payload (w : world) r w' : tool_answer env name status payload w = (Ok r, w') -> tr_status r = status.
Proof. intros H. apply ebind_inv in H as (id & w1 & _ & [-> _]%eret_inv). done. Qed.

Lemma refused plan (m : eff world (ToolExecutionResult * list (string * pyval))) :
  moves (same log) m -> (forall w t ctx w', m w = (Ok (t, ctx), w') -> tr_status t <> "ok") -> makes (plan_calls plan) m.
Proof.
  intros Hm Ht. apply makes_silent; [done|]. intros w. left. split; [done|]. intros t ctx H.
  destruct (m w) as [res w'] eqn:E. cbn in H. subst res. by eapply Ht.
Qed.

Ltac answers := intros ? ? ? ? H; apply ebind_inv in H as (? & ? & H & [[= -> ->] _]%eret_inv).

Lemma run_plan_makes session span plan contract tools : offers (Agents.tool_name plan) contract ->
  makes (plan_calls plan) (run_plan env wf session span plan contract tools).
Proof.
  intros Ho. unfold run_plan.
  assert (Hquiet : forall e, plan_calls plan [] (Raise e)) by (left; split; [done|discriminate]).
  apply makes_after; [auto with moves|done|]. intros w0 quality w0' Hq.
  destruct (pq_valid quality) eqn:Hv; cbn [negb].
  2:{ apply refused; [moves|]. answers. by rewrite (tool_answer_status _ _ _ _ _ _ H). }
  apply makes_after; [apply elift_silent|done|]. intros w1 decision w1' [Hd ->]%elift_inv.
  apply makes_after; [auto with moves|done|]. intros _ _ _ _.
  destruct (pd_allowed decision) eqn:Hallowed.
  - unfold unit_do in Hq. destruct (build_rational_plan_quality _ _ _ _ _ _) as [q u] eqn:E in Hq. injection Hq as -> _.
    apply plan_valid_spec in E as (skill & Hs & Hfit).
    eapply makes_bind; [apply execute_makes|intros calls e ->|intros calls t ->; apply makes_silent; [moves|intros w]];
      (right; split; [done|]; exists contract, tools, skill; split_and!; [split; [done|] | done | by apply Hfit]; by eapply allowed_read_only).
  - destruct (pd_approval_required decision).
    + apply refused; [moves|]. intros w t ctx w' H. apply ebind_inv in H as ([r id] & w2 & H & [[= -> ->] _]%eret_inv).
      unfold ask_approval in H. apply ebind_inv in H as (? & ? & _ & H). apply ebind_inv in H as (? & ? & _ & H).
      apply ebind_inv in H as (? & ? & H & [[= -> ->] _]%eret_inv). by rewrite (tool_answer_status _ _ _ _ _ _ H).
    + apply refused; [moves|]. answers. by rewrite (tool_answer_status _ _ _ _ _ _ H).
Qed.

Definition look_at_leases (calls : list call) : Prop :=
  calls = [] \/ exists args c, calls = [("system_query_leases", args)] /\ authorised "system_query_leases" c.

Lemma recover_makes session span frame health failed :
  makes (fun calls _ => look_at_leases calls) (recover env session span frame health failed).
Proof.
  assert (Hnil : look_at_leases []) by by left.
  unfold recover. apply makes_after; [auto with moves|done|]. intros w0 [c|] w0' Hc; [|by apply makes_silent; [moves|]].
  apply described in Hc. apply makes_after; [apply elift_silent|done|]. intros w1 decision w1' [Hd ->]%elift_inv.
  apply makes_after; [auto with moves|done|]. intros _ _ _ _.
  destruct (pd_allowed decision) eqn:Ha; [|by apply makes_silent; [moves|]].
  assert (Hl : forall args, look_at_leases [("system_query_leases", args)])
    by (intros args; right; exists args, c; split; [done|]; split; [done|]; by eapply allowed_read_only).
  eapply makes_bind; [apply execute_makes|intros calls e ->; apply Hl|]. intros calls r ->. apply makes_silent; [moves|intros w; apply Hl].
Qed.

Inductive run_calls : list call -> Prop :=
| calls_none : run_calls []
| calls_plan plan : sound_plan plan -> run_calls [planned_call plan]
| calls_recovery plan args c : sound_plan plan -> authorised "system_query_leases" c ->
                               run_calls [planned_call plan; ("system_query_leases", args)].

Lemma after_result_makes session span frame failed r :
  makes (fun calls _ => calls = [] \/ (tr_status r = "ok" /\ look_at_leases calls)) (after_result env session span frame failed r).
Proof.
  unfold after_result, guard_succeeded. destruct (String.eqb_spec (tr_status r) "ok") as [Hok|Hok].
  2:{ rewrite andb_false_r. cbn [negb]. apply makes_silent; [moves|by left]. }
  destruct (_ && true); cbn [negb]; [|apply makes_silent; [moves|by left]].
  apply makes_after; [apply elift_silent|by left|]. intros _ health _ _. apply makes_after; [auto with moves|by left|]. intros _ _ _ _.
  destruct (eq_str _ _); [|apply makes_silent; [moves|by left]].
  eapply makes_bind; [apply recover_makes|by right|]. intros calls rest Hl. apply makes_silent; [moves|]. intros w. right.
  by rewrite app_nil_r.
Qed.

Lemma execute_plan_makes session span frame failed tools failure plan :
  makes (fun calls _ => run_calls calls) (execute_plan env wf session span frame failed tools failure plan).
Proof.
  pose proof calls_none as Hnil. unfold execute_plan.
  destruct (negb _); [apply makes_silent; [moves|done]|]. destruct plan as [plan|]; [|apply makes_silent; [moves|done]].
  apply makes_after; [auto with moves|done|]. intros w0 contract w0' Hc.
  eapply (makes_bind (plan_calls plan)).
  - destruct contract as [c|].
    + apply described in Hc. by apply run_plan_makes.
    + apply refused; [moves|]. answers. by rewrite (tool_answer_status _ _ _ _ _ _ H).
  - intros calls e [[-> _]|[-> Hs]]; [done|by constructor].
  - intros calls [r ctx] Hr. apply makes_after; [auto with moves| |intros _ _ _ _].
    { intros e. destruct Hr as [[-> _]|[-> Hs]]; cbn [app]; [done|by constructor]. }
    eapply makes_bind; [apply after_result_makes| |].
    + intros more e Hm. destruct Hr as [[-> Hst]|[-> Hs]], Hm as [->|[Hok Hl]]; cbn [app]; try done; try by constructor.
      * by destruct (Hst r ctx eq_refl).
      * destruct Hl as [->|(args & c & -> & Ha)]; by econstructor.
    + intros more ex Hm. apply makes_silent; [moves|]. intros w. rewrite app_nil_r.
      destruct Hr as [[-> Hst]|[-> Hs]], Hm as [->|[Hok Hl]]; cbn [app]; try done; try by constructor.
      * by destruct (Hst r ctx eq_refl).
      * destruct Hl as [->|(args & c & -> & Ha)]; by econstructor.
Qed.

Lemma run_makes raws a b c d e f : makes (fun calls _ => run_calls calls) (run env clock wf raws a b c d e f).
Proof.
  pose proof calls_none as Hnil. unfold run, new_id_for.
  do 11 (apply makes_after; [moves|done|intros ? ? ? _]; repeat match goal with |- makes _ (let '(_, _) := ?x in _) => destruct x end; cbv zeta).
  eapply makes_bind; [apply execute_plan_makes|done|]. intros calls ex Hcalls.
  apply makes_silent; [moves|]. intros ?. by rewrite app_nil_r.
Qed.

Lemma run_calls_read_only calls name args :
  run_calls calls -> In (name, args) calls -> exists c, offers name c /\ read_only_tool c.
Proof.
  intros [|plan (c & tools & skill & [Ho Hr] & _)|plan args' c' (c & tools & skill & [Ho Hr] & _) [Ho' Hr']];
    cbn; unfold planned_call; [done|intros [[= <- <-]|[]]; eauto|intros [[= <- <-]|[[= <- <-]|[]]]; eauto].
Qed.
End Safety.

