(* ===== verification/RunRecords.v ===== *)
(** * What a run leaves in the store ([workflow.py], [NoModelCoreWorkflow.run])

    Every run that returns has closed its span, stored its events and written
    its audit record and its tool results; and whatever happens a run only asks
    for approvals: it settles no request and takes no decision. *)

From Stdlib Require Import ZArith Lia Bool List Ascii String.
From stdpp Require Import base gmap list option strings.
From S2P Require Import Prelude PyFloat Text PyValue Events Agents Contracts Policy Maf ModelAgents StateSync Store Memory Artifact Deploy PromptContext Catalog Skills Inference PlanQuality RunEvidence Workflow RunSafety.

#[local] Open Scope string_scope.
#[local] Open Scope Z_scope.
#[local] Open Scope list_scope.

(** ** What may change under a run

    A relation between the store before and after that every write of a run
    respects; a request for an approval only when the contract of its tool asks
    for one. *)

Definition asks_for (tool : string) (offered : string -> ToolContract -> Prop) : Prop :=
  exists c d, offered tool c /\ evaluate_contract c = Ok d /\ pd_approval_required d = true.

Class RunFrame (offered : string -> ToolContract -> Prop) (R : CoreDataStore -> CoreDataStore -> Prop) := {
  rf_order :: PreOrder R;
  rf_next n s : R s (with_next n s);
  rf_event (row : EventRow) : moves R (insert_or_ignore_row row);
  rf_spans t s : R s (with_spans t s);
  rf_facts t s : R s (with_facts t s);
  rf_policies t s : R s (with_policies t s);
  rf_candidates t s : R s (with_candidates t s);
  rf_memories t s : R s (with_memories t s);
  rf_tool (row : ToolRow) : moves R (insert_row row);
  rf_audits t s : R s (with_audits t s);
  rf_request (row : ApprovalRow) : ap_status row = "pending" -> asks_for (ap_tool_name row) offered -> moves R (replace_row row);
}.

Section Frames.
Context {offered : string -> ToolContract -> Prop} {R : CoreDataStore -> CoreDataStore -> Prop} `{RF : RunFrame offered R}.
Context (env : nat -> Env) (clock : nat -> Z).

Lemma read_env_kept : moves R (read_env env).
Proof. intros s. apply rf_next. Qed.
Lemma insert_row_kept `{Table T} (row : T) : (forall t s, R s (tb_put t s)) -> moves R (insert_row row).
Proof. intros HR s. unfold insert_row. destruct (t_insert _ _ _); cbn; [apply HR|reflexivity]. Qed.
Lemma replace_row_kept `{Table T} (row : T) : (forall t s, R s (tb_put t s)) -> moves R (replace_row row).
Proof. intros HR s. apply HR. Qed.
Lemma quiet_kept {A} (m : eff CoreDataStore A) : moves quiet m -> moves R m.
Proof. apply moves_weaken. intros s s' ->. apply rf_next. Qed.
#[local] Hint Resolve read_env_kept insert_row_kept replace_row_kept : moves.
#[local] Hint Extern 1 (forall _ _, R _ _) => first [exact rf_spans | exact rf_facts | exact rf_policies | exact rf_candidates
  | exact rf_memories | exact rf_audits] : moves.
#[local] Hint Extern 1 (moves R _) => first [exact (rf_event _) | exact (rf_tool _)] : moves.

Ltac kept := intros; unfold utc_now, draw; moves.

Lemma draw_kept prefix : moves R (draw env prefix).
Proof. kept. Qed.
Lemma fact_kept a b c d : moves R (persist_fact env a b c d).
Proof. unfold persist_fact. kept. Qed.
Lemma policy_kept a b c : moves R (persist_policy_decision env a b c).
Proof. unfold persist_policy_decision. kept. Qed.
Lemma candidate_kept a b c : moves R (persist_memory_candidate env a b c).
Proof. unfold persist_memory_candidate. kept. Qed.
Lemma span_kept a b c d : moves R (persist_execution_span env a b c d).
Proof. unfold persist_execution_span. kept. Qed.
Lemma audit_kept a b c d e : moves R (persist_audit_record env a b c d e).
Proof. unfold persist_audit_record. kept. Qed.
Lemma tool_kept a b c d e : moves R (persist_tool_result env a b c d e).
Proof. unfold persist_tool_result. kept. Qed.
Lemma event_kept `{Sqlite} ev : moves R (persist_event env ev).
Proof. unfold persist_event. kept. Qed.
Lemma request_kept session span tool payload id :
  asks_for tool offered -> moves R (persist_approval_request env session span tool "pending" payload id).
Proof. intros Ht. unfold persist_approval_request. kept; by apply rf_request. Qed.
Lemma memory_kept a b c : moves R (persist_long_term_memory env a b c).
Proof. unfold persist_long_term_memory. kept. Qed.
#[local] Hint Resolve quiet_kept screen_candidate_quiet commit_payload_quiet committed_memory_payload_quiet memory_kept : moves.

Lemma screen_kept l : moves R (screen_candidates clock l).
Proof. induction l as [|c l IH]; cbn [screen_candidates]; moves. Qed.
Lemma local_commit_kept span l : moves R (local_commit_candidates env clock span l).
Proof.
  unfold local_commit_candidates. generalize (@nil string).
  induction l as [|c l IH]; intros seen; cbn [local_commit_each]; moves.
Qed.
Lemma fallback_kept seen l : moves R (fallback_commit_each clock seen l).
Proof. revert seen. induction l as [|c l IH]; intros seen; cbn [fallback_commit_each]; moves. Qed.
#[local] Hint Resolve draw_kept fact_kept policy_kept candidate_kept span_kept audit_kept tool_kept event_kept screen_kept
  local_commit_kept fallback_kept : moves.

(** *** The memory backend *)
Section Backend.
Context {MS : Type}.

Definition backend_part (c c' : Mem0State MS) : Prop := R (data_store c) (data_store c').
#[export] Instance backend_part_preorder : PreOrder backend_part.
Proof. split; unfold backend_part; [intros c; reflexivity|intros a b c ? ?; by etrans]. Qed.

Lemma on_store_kept {A} (m : eff CoreDataStore A) : moves R m -> moves backend_part (Memory.on_store m).
Proof. intros Hm c. unfold Memory.on_store, backend_part. specialize (Hm (data_store c)). by destruct (m (data_store c)). Qed.
Lemma on_sidecar_kept {A} (call : MS -> A * MS) : moves backend_part (on_sidecar call).
Proof. intros c. unfold on_sidecar, backend_part. destruct (call (sidecar c)). cbn. reflexivity. Qed.
Lemma lookup_status_kept t : moves backend_part (set_lookup_status t).
Proof. intros c. unfold backend_part. cbn. reflexivity. Qed.
Lemma commit_status_kept t : moves backend_part (set_commit_status t).
Proof. intros c. unfold backend_part. cbn. reflexivity. Qed.
Lemma sidecar_ids_kept ids : moves backend_part (set_sidecar_memory_ids ids).
Proof. intros c. unfold backend_part. cbn. reflexivity. Qed.
#[local] Hint Resolve on_store_kept on_sidecar_kept lookup_status_kept commit_status_kept sidecar_ids_kept : moves.

Lemma sidecar_commit_kept (m : Mem0Sidecar MS) client span seen l : moves backend_part (sidecar_commit_each clock m client span seen l).
Proof.
  revert seen. induction l as [|c l IH]; intros seen; cbn [sidecar_commit_each]; unfold add_sidecar_memory; moves.
Qed.
#[local] Hint Resolve sidecar_commit_kept : moves.

Lemma mem0_commit_kept (m : Mem0Sidecar MS) span l : moves backend_part (mem0_commit_candidates env clock m span l).
Proof. unfold mem0_commit_candidates. moves. Qed.
Lemma mem0_lookup_kept (m : Mem0Sidecar MS) frame : moves backend_part (mem0_lookup m frame).
Proof. unfold mem0_lookup, search_sidecar. moves. Qed.
End Backend.

#[local] Hint Resolve on_store_kept mem0_commit_kept mem0_lookup_kept : moves.

(** *** The run *)
Section Runs.
Context {US MS CS : Type} `{Adapter : UnitAdapter US} `{SQ : Sqlite} {FS : Files}.
#[local] Notation world := (World US MS CS).

Definition stored (w : world) : CoreDataStore := data_store (w_core w).
Definition store_part (w w' : world) : Prop := R (stored w) (stored w').
#[export] Instance store_part_preorder : PreOrder store_part.
Proof. split; unfold store_part; [intros c; reflexivity|intros a b c ? ?; by etrans]. Qed.

Lemma core_do_kept {A} (m : eff (Mem0State MS) A) : moves backend_part m -> moves store_part (core_do m).
Proof. intros Hm w. unfold core_do, store_part, stored. specialize (Hm (w_core w)). by destruct (m (w_core w)). Qed.
Lemma store_do_kept {A} (m : eff CoreDataStore A) : moves R m -> moves store_part (store_do m).
Proof. intros Hm. by apply core_do_kept, on_store_kept. Qed.
Lemma unit_do_kept {A} (m : eff US A) : moves store_part (unit_do m).
Proof. intros w. unfold unit_do, store_part, stored. destruct (m (w_unit w)). cbn. reflexivity. Qed.
Lemma model_do_kept {A} (m : eff CS A) : moves store_part (model_do m).
Proof. intros w. unfold model_do, store_part, stored. destruct (m (w_model w)). cbn. reflexivity. Qed.
Lemma see_kept key : moves store_part (see key).
Proof. intros w. unfold store_part. cbn. reflexivity. Qed.
Lemma seen_kept : moves store_part seen_keys.
Proof. intros w. unfold store_part. cbn. reflexivity. Qed.
Lemma the_store_kept : moves store_part the_store.
Proof. intros w. unfold store_part. cbn. reflexivity. Qed.
#[local] Hint Resolve core_do_kept store_do_kept unit_do_kept model_do_kept see_kept seen_kept the_store_kept : moves.

Lemma each_kept {A B} (f : A -> eff world B) l : (forall a, moves store_part (f a)) -> moves store_part (each f l).
Proof. intros Hf. induction l as [|a l IH]; cbn [each]; moves. Qed.
Lemma catch_kept {A} (m : eff world A) : moves store_part m -> moves store_part (catch_value_error m).
Proof.
  intros Hm w. specialize (Hm w). unfold catch_value_error. destruct (m w) as [[a|e] w']; [done|]. by destruct (is_value_error e).
Qed.
#[local] Hint Resolve catch_kept : moves.
#[local] Hint Extern 2 (moves _ (each _ _)) => (apply each_kept; intros ?; moves) : moves.

Context (wf : Workflow MS CS).
(** What the adapter's manifest gives is what the relation knows as offered. *)
Hypothesis offered_manifest : forall name c, offers Adapter name c -> offered name c.

Lemma metadata_kept : moves store_part (memory_runtime_metadata wf).
Proof. intros w. unfold store_part. cbn. reflexivity. Qed.
#[local] Hint Resolve metadata_kept : moves.

Lemma route_kept raws : moves store_part (route_events env raws).
Proof. unfold route_events. enough (moves store_part (route_each env raws)) by moves. induction raws; cbn [route_each]; moves. Qed.
Lemma frame_kept a b c d e : moves store_part (frame_phase env a b c d e).
Proof. unfold frame_phase, fresh_frame, new_id_for. moves. Qed.
Lemma facts_kept span frame events : moves store_part (persist_frame_facts env span frame events).
Proof. unfold persist_frame_facts. moves. Qed.
Lemma memory_lookup_kept frame : moves backend_part (memory_lookup wf frame).
Proof. unfold memory_lookup. moves. Qed.
Lemma memory_commit_kept span l commit : memory_commit env clock wf span l = Some commit -> moves backend_part commit.
Proof. unfold memory_commit. destruct (wf_memory wf); intros [= <-]; moves. Qed.
#[local] Hint Resolve route_kept frame_kept facts_kept memory_lookup_kept memory_commit_kept : moves.
Lemma memory_phase_kept span frame refs ctx : moves store_part (memory_phase env clock wf span frame refs ctx).
Proof.
  unfold memory_phase. repeat (apply moves_bind; [apply _|moves|intros ?]). cbv zeta.
  destruct (memory_commit env clock wf span _) eqn:E; moves.
Qed.
Lemma federation_kept span frame ctx : moves store_part (federation_phase env wf span frame ctx).
Proof. unfold federation_phase. moves. Qed.
#[local] Hint Resolve memory_phase_kept federation_kept : moves.
Lemma prepare_kept span initial frame events refs : moves store_part (prepare env clock wf span initial frame events refs).
Proof. unfold prepare. moves. Qed.
Lemma decide_kept frame items tools affective prompt : moves store_part (decide_and_plan wf frame items tools affective prompt).
Proof. unfold decide_and_plan. moves. Qed.
Lemma tool_answer_kept a b c : moves store_part (tool_answer env a b c).
Proof. unfold tool_answer, new_id_for. moves. Qed.
Lemma keep_kept span r : moves store_part (keep_result env span r).
Proof. unfold keep_result. moves. Qed.
Lemma conclude_kept a b c d e f g h i j k : moves store_part (conclude env wf a b c d e f g h i j k).
Proof. unfold conclude, new_id_for. moves. Qed.
#[local] Hint Resolve prepare_kept decide_kept tool_answer_kept keep_kept conclude_kept : moves.

(** *** Asking *)

Lemma described_by name (w : world) c w' : unit_do (describe_tool name) w = (Ok (Some c), w') -> offered name c.
Proof.
  unfold unit_do. destruct (describe_tool name (w_unit w)) as [r u] eqn:E. intros [= -> _].
  apply ebind_inv in E as (m & u1 & Hm & [Hc _]%eret_inv). apply offered_manifest. by exists (w_unit w), m, u1.
Qed.

Lemma ask_kept session span tool payload quality policy :
  asks_for tool offered -> moves store_part (ask_approval env session span tool payload quality policy).
Proof.
  intros Ht. unfold ask_approval, new_id_for. moves. by apply store_do_kept, request_kept.
Qed.

(** The state is followed past a step whose answer matters. *)
Lemma moves_known {A B} (m : eff world A) (k : A -> eff world B) :
  moves store_part m -> (forall w a w', m w = (Ok a, w') -> moves store_part (k a)) -> moves store_part (ebind m k).
Proof.
  intros Hm Hk w. unfold ebind. specialize (Hm w). destruct (m w) as [[a|e] w'] eqn:E; cbn in *; [|done].
  etrans; [exact Hm|]. by apply (Hk w a w').
Qed.

Lemma run_plan_kept session span plan contract tools :
  offered (Agents.tool_name plan) contract -> moves store_part (run_plan env wf session span plan contract tools).
Proof.
  intros Ho. unfold run_plan. apply moves_bind; [apply _|moves|intros quality]. destruct (negb _); [moves|].
  apply moves_known; [moves|]. intros w d w' [Hd _]%elift_inv. apply moves_bind; [apply _|moves|intros _].
  destruct (pd_allowed d); [moves|]. destruct (pd_approval_required d) eqn:Hr; [|moves].
  apply moves_bind; [apply _|apply ask_kept; by exists contract, d|intros []; moves].
Qed.
Lemma ask_rollback_kept session span summary : moves store_part (ask_rollback env session span summary).
Proof.
  unfold ask_rollback. apply moves_known; [moves|]. intros w [c|] w' Hc; [|moves].
  apply described_by in Hc.
  apply moves_known; [moves|]. intros w1 d w1' [Hd _]%elift_inv. apply moves_bind; [apply _|moves|intros _].
  destruct (pd_approval_required d) eqn:Hr; [|moves].
  apply moves_bind; [apply _|apply ask_kept; by exists c, d|intros []; moves].
Qed.
#[local] Hint Resolve run_plan_kept ask_rollback_kept : moves.
Lemma recover_kept session span frame health failed : moves store_part (recover env session span frame health failed).
Proof. unfold recover. moves. Qed.
#[local] Hint Resolve recover_kept : moves.
Lemma after_result_kept session span frame failed r : moves store_part (after_result env session span frame failed r).
Proof. unfold after_result. moves. Qed.
#[local] Hint Resolve after_result_kept : moves.
Lemma execute_plan_kept session span frame failed tools failure plan :
  moves store_part (execute_plan env wf session span frame failed tools failure plan).
Proof.
  unfold execute_plan. destruct (negb _); [moves|]. destruct plan as [plan|]; [|moves].
  apply moves_known; [moves|]. intros w [c|] w' Hc; [apply described_by in Hc|]; moves.
Qed.
#[local] Hint Resolve execute_plan_kept : moves.
Lemma run_kept raws a b c d e f : moves store_part (run env clock wf raws a b c d e f).
Proof. unfold run, new_id_for. moves. Qed.

(** The ids a run takes and the events its router lets through: the first steps of [run], on their own. *)
Definition opening (raws : list dict) (session_id : option string) : eff world (string * string * list PerceptionEvent) :=
  do! span := new_id_for env "span" in
  do! session := match str_truthy session_id with Some s => eret s | None => new_id_for env "session" end in
  do! _ := the_store in
  do! events := route_events env raws in
  eret (span, session, events).

(** The phases of a run that returned, and what the store keeps of each. *)
Lemma run_phases raws a b c d e f (w : world) r w' : run env clock wf raws a b c d e f w = (Ok r, w') ->
  exists span session events w0, opening raws e w = (Ok (span, session, events), w0) /\
  (exists us w1 w2, store_do (persist_execution_span env span "running" (open_span f session events) (Some session)) w0 = (Ok tt, w1) /\
     each (fun ev => store_do (persist_event env ev)) events w1 = (Ok us, w2) /\ R (stored w2) (stored w')) /\
  (exists frame failed tools failure plan ex w3 w4 steps decision ctx federation,
     execute_plan env wf session span frame failed tools failure plan w3 = (Ok ex, w4) /\ R (stored w4) (stored w') /\
     conclude env wf f session span steps frame events decision plan (ex_results ex) ctx federation w4 = (Ok r, w')).
Proof.
  unfold run. intros (span & w1 & H1 & H)%ebind_inv. apply ebind_inv in H as (session & w2 & H2 & H).
  apply ebind_inv in H as (s & w3 & H3 & H). cbv zeta in H. apply ebind_inv in H as (events & w4 & H4 & H).
  apply ebind_inv in H as ([] & w5 & H5 & H). apply ebind_inv in H as (us & w6 & Hev & H). exists span, session, events, w4. split.
  { unfold opening, ebind at 1. rewrite H1. unfold ebind at 1. rewrite H2. unfold ebind at 1. rewrite H3. unfold ebind at 1. by rewrite H4. }
  split.
  { exists us, w5, w6. split; [done|]. split; [done|]. unfold new_id_for in H. refine (moves_at store_part _ _ _ _ _ H). moves. }
  apply ebind_inv in H as ([frame fs] & w7 & _ & H). apply ebind_inv in H as (refs & w8 & _ & H).
  apply ebind_inv in H as (p & w9 & _ & H). apply ebind_inv in H as (g & w10 & _ & H).
  apply ebind_inv in H as ([[decision evidence] [plan failure]] & w11 & _ & H). apply ebind_inv in H as (ex & w12 & Hex & H).
  do 12 eexists. split; [exact Hex|]. split; [|exact H]. refine (moves_at store_part _ _ _ _ _ H). moves.
Qed.
End Runs.
End Frames.

(** ** A run only asks *)

(** A request that waits for the operator, for a tool whose contract in the adapter's manifest asks for an approval. *)
Definition awaits (offered : string -> ToolContract -> Prop) (r : ApprovalRow) : Prop :=
  ap_status r = "pending" /\ asks_for (ap_tool_name r) offered.

Record only_asks (offered : string -> ToolContract -> Prop) (s s' : CoreDataStore) : Prop := {
  oa_decisions : approval_decisions s' = approval_decisions s;
  oa_new r : r ∈ approval_requests s' -> r ∈ approval_requests s \/ awaits offered r;
  oa_old r : r ∈ approval_requests s -> r ∈ approval_requests s' \/ exists r', r' ∈ approval_requests s' /\ ap_id r' = ap_id r /\ awaits offered r';
}.

Lemma t_replace_in {T} (key : T -> string) (row x : T) t :
  x ∈ t_replace key row t <-> (x ∈ t /\ key x <> key row) \/ x = row.
Proof.
  unfold t_replace. rewrite elem_of_app, list_elem_of_singleton, !list_elem_of_In, filter_In, negb_true_iff, String.eqb_neq. tauto.
Qed.

Section OnlyAsks.
Context (offered : string -> ToolContract -> Prop).

#[export] Instance only_asks_preorder : PreOrder (only_asks offered).
Proof.
  split; [by intros s; split; auto|]. intros a b c [Hd Hn Ho] [Hd' Hn' Ho']. split; [by etrans| |].
  - intros r [Hr|Hr]%Hn'; auto.
  - intros r [Hr|(r' & Hr & Hid & Hw)]%Ho; [by apply Ho'|]. right.
    destruct (Ho' r' Hr) as [Hr'|(r'' & Hr' & Hid' & Hw')]; [by exists r'|]. exists r''. by rewrite Hid'.
Qed.

Lemma only_asks_elsewhere s s' : approval_decisions s' = approval_decisions s -> approval_requests s' = approval_requests s -> only_asks offered s s'.
Proof. intros Hd Hr. split; [done| |]; rewrite Hr; auto. Qed.

#[export] Instance only_asks_frame : RunFrame offered (only_asks offered).
Proof.
  split; try (intros; by apply only_asks_elsewhere); try apply _.
  - intros row s. unfold insert_or_ignore_row. cbn. destruct (t_insert _ _ _); [by apply only_asks_elsewhere|reflexivity].
  - intros row s. unfold insert_row. cbn. destruct (t_insert _ _ _); [by apply only_asks_elsewhere|reflexivity].
  - intros row Hs Ht s. split; [done| |]; intros r; cbn -[t_replace]; rewrite t_replace_in.
    + intros [[Hr _]| ->]; [by left|by right].
    + intros Hr. destruct (String.eqb_spec (ap_id r) (ap_id row)) as [He|He]; [|by left; left].
      right. exists row. rewrite t_replace_in. split_and!; auto. by split.
Qed.
End OnlyAsks.

(** ** A run records *)

(** The tool results stay, and the events. *)
Record grows (s s' : CoreDataStore) : Prop := {
  gr_tools : tool_results s ⊆ tool_results s';
  gr_events : perception_events s ⊆ perception_events s';
}.

#[export] Instance grows_preorder : PreOrder grows.
Proof. split; [by intros s; split|]. intros a b c [] []. by split; etrans. Qed.

Lemma t_insert_grows {T} (key : T -> string) row t t' : t_insert key row t = Ok t' -> t ⊆ t' /\ row ∈ t'.
Proof.
  intros [_ ->]%t_insert_ok. split; [intros x Hx; rewrite elem_of_app; by left|rewrite elem_of_app, list_elem_of_singleton; by right].
Qed.

#[export] Instance grows_frame offered : RunFrame offered grows.
Proof.
  split; try (intros; by split); try apply _.
  - intros row s. unfold insert_or_ignore_row. cbn. destruct (t_insert er_id row _) eqn:E; [|reflexivity].
    apply t_insert_grows in E as [Hsub _]. by split.
  - intros row s. unfold insert_row. cbn. destruct (t_insert to_id row _) eqn:E; [|reflexivity].
    apply t_insert_grows in E as [Hsub _]. by split.
Qed.

Section Recorded.
Context {US MS CS : Type} (Adapter : UnitAdapter US) (SQ : Sqlite) (FS : Files).
Context (env : nat -> Env) (clock : nat -> Z) (wf : Workflow MS CS).
#[local] Notation world := (World US MS CS).

Lemma run_grows {A} (m : eff world A) w r w' : moves (store_part (R := grows)) m -> m w = (r, w') -> grows (stored w) (stored w').
Proof. intros Hm E. exact (moves_at _ _ _ _ _ Hm E). Qed.

(** A step on the store, seen from the world. *)
Lemma store_do_inv {A} (m : eff CoreDataStore A) (w : world) r w' :
  store_do m w = (r, w') -> m (stored w) = (r, stored w').
Proof.
  unfold store_do, core_do, Memory.on_store, stored. destruct (m (data_store (w_core w))) as [r1 s1]. by intros [= <- <-].
Qed.

(** *** Events *)

(** The row [persist_event] writes for an event. *)
Definition row_of_event (ev : PerceptionEvent) (row : EventRow) : Prop :=
  exists tags column now, (let! v := json_norm (VList (policy_tags ev)) in py_iter v) = Ok tags /\
    json_column (ev_payload ev) = Ok column /\ event_row ev tags column now = Ok row.

Lemma row_of_event_id ev row : row_of_event ev row -> er_id row = event_id ev.
Proof. intros (? & ? & ? & _ & _ & H). unfold event_row in H. by inv_ok. Qed.

(** A row of the event's id is there: an earlier one of the store, or one written for an event of the run. *)
Definition event_stored (s0 : CoreDataStore) (events : list PerceptionEvent) (s : CoreDataStore) (ev : PerceptionEvent) : Prop :=
  exists row, row ∈ perception_events s /\ er_id row = event_id ev /\
    (row ∈ perception_events s0 \/ exists ev', ev' ∈ events /\ row_of_event ev' row).

(** Nothing else is there. *)
Definition rows_from (s0 : CoreDataStore) (events : list PerceptionEvent) (s : CoreDataStore) : Prop :=
  forall row, row ∈ perception_events s -> row ∈ perception_events s0 \/ exists ev', ev' ∈ events /\ row_of_event ev' row.

Lemma persist_event_stored s0 events ev s s' : ev ∈ events -> rows_from s0 events s ->
  persist_event env ev s = (Ok tt, s') -> rows_from s0 events s' /\ event_stored s0 events s' ev.
Proof.
  intros Hin Hfrom. unfold persist_event. intros (tags & s1 & [Ht ->]%elift_inv & H)%ebind_inv. apply ebind_inv in H as (column & s2 & [Hcol ->]%elift_inv & H).
  apply ebind_inv in H as (now & s3 & Hn & H). apply ebind_inv in H as (row & s4 & [Hrow ->]%elift_inv & [= <-]).
  assert (Hof : row_of_event ev row) by by exists tags, column, now.
  assert (Hs3 : perception_events s3 = perception_events s).
  { refine (moves_at (same perception_events) _ _ _ _ _ Hn). unfold utc_now. intros x. done. }
  unfold rows_from in Hfrom. rewrite <- Hs3 in Hfrom. clear Hn Hs3.
  pose proof (row_of_event_id _ _ Hof) as Hid. unfold rows_from, event_stored. cbn.
  destruct (t_insert er_id row (perception_events s3)) eqn:E; cbn.
  - apply t_insert_ok in E as [_ ->]. split.
    + intros r [Hr|Hr%list_elem_of_singleton]%elem_of_app; [by apply Hfrom|]. subst r. right. by exists ev.
    + exists row. split; [apply elem_of_app; right; by apply list_elem_of_singleton|]. split; [done|]. right. by exists ev.
  - split; [exact Hfrom|]. unfold t_insert in E. destruct (t_find er_id (er_id row) _) as [x|] eqn:Ef; [|done].
    apply t_find_key in Ef as [Hx Hxin]. exists x. rewrite Hx. split_and!; [done|done|by apply Hfrom].
Qed.

Lemma event_stored_grows s0 events s s' ev : grows s s' -> event_stored s0 events s ev -> event_stored s0 events s' ev.
Proof. intros [_ Hev] (row & Hin & Hrow). exists row. split; [by apply Hev|done]. Qed.

Lemma events_stored s0 all events : events ⊆ all -> forall (w : world) l w', rows_from s0 all (stored w) ->
  each (fun ev => store_do (persist_event env ev)) events w = (Ok l, w') -> Forall (event_stored s0 all (stored w')) events.
Proof.
  induction events as [|ev events IH]; intros Hsub w l w' Hfrom; cbn [each]; [by constructor|].
  intros ([] & w1 & H1 & H)%ebind_inv. apply ebind_inv in H as (us & w2 & H2 & [_ ->]%eret_inv).
  apply store_do_inv, (persist_event_stored s0 all) in H1 as [Hfrom1 H1]; [|apply Hsub; by left|done].
  constructor; [|eapply IH; [intros x Hx; apply Hsub; by right|exact Hfrom1|exact H2]]. eapply event_stored_grows; [|exact H1].
  eapply run_grows; [|exact H2]. apply (each_kept (offered := offers Adapter)). intros ev'.
  apply store_do_kept, (event_kept (offered := offers Adapter)).
Qed.

(** Up to there the run has stored no event. *)
Lemma opening_stores_none raws session_id (w : world) r w' :
  opening env raws session_id w = (r, w') -> perception_events (stored w') = perception_events (stored w).
Proof.
  set (R := fun u u' : world => perception_events (stored u') = perception_events (stored u)).
  assert (PreOrder R) by (split; unfold R; [done|intros x y z ? ?; by etrans]).
  assert (Hread : forall prefix, moves R (new_id_for env prefix)).
  { intros prefix. unfold new_id_for. intros u. reflexivity. }
  assert (Henv : moves R (store_do (read_env env))) by (intros u; reflexivity).
  assert (Hseen : moves R seen_keys) by (intros u; reflexivity).
  assert (Hsee : forall key, moves R (see key)) by (intros key u; reflexivity).
  assert (Hroute : moves R (route_each env raws)).
  { clear -Henv Hseen Hsee H. induction raws; cbn [route_each]; moves. }
  assert (Hthe : moves R the_store) by (intros u; reflexivity).
  apply (moves_at R). unfold opening, route_events. moves.
Qed.

(** *** Tool results *)

Definition result_stored (span : string) (s : CoreDataStore) (t : ToolExecutionResult) : Prop :=
  exists row, row ∈ tool_results s /\ to_id row = tr_tool_result_id t /\ to_span row = span /\ to_tool_name row = tr_tool_name t /\
    to_status row = tr_status t /\ json_column (tr_payload t) = Ok (to_payload row).

Lemma result_stored_grows span s s' t : grows s s' -> result_stored span s t -> result_stored span s' t.
Proof. intros [Ht _] (row & Hin & Hrow). exists row. split; [by apply Ht|done]. Qed.

Lemma keep_result_stored span t (w w' : world) : keep_result env span t w = (Ok tt, w') -> result_stored span (stored w') t.
Proof.
  intros H%store_do_inv. apply persist_tool_result_ok in H as (column & row & Hc & -> & Hid & Hs & Hn & Hst & Hp).
  exists row. cbn. rewrite elem_of_app, list_elem_of_singleton, Hp. auto 8.
Qed.

(** Each result is stored, but the refusal of a plan that could not be read. *)
Definition unreadable_plan (t : ToolExecutionResult) : Prop := tr_tool_name t = "rational_plan_validation" /\ tr_status t = "error".
Definition results_stored (span : string) (s : CoreDataStore) (l : list ToolExecutionResult) : Prop :=
  Forall (result_stored span s) l \/ exists t, l = [t] /\ unreadable_plan t.

Lemma results_stored_grows span s s' l : grows s s' -> results_stored span s l -> results_stored span s' l.
Proof. intros Hg [Hl|Hl]; [left|by right]. eapply Forall_impl; [exact Hl|]. intros t. by apply result_stored_grows. Qed.

Lemma ask_rollback_stored session span summary (w : world) ex w' :
  ask_rollback env session span summary w = (Ok ex, w') -> Forall (result_stored span (stored w')) (ex_results ex).
Proof.
  unfold ask_rollback. intros (contract & w1 & _ & H)%ebind_inv. destruct contract as [contract|]; [|by apply eret_inv in H as [-> _]; constructor].
  apply ebind_inv in H as (d & w2 & _ & H). apply ebind_inv in H as (_ & w3 & _ & H).
  destruct (pd_approval_required d); [|by apply eret_inv in H as [-> _]; constructor].
  cbv zeta in H. apply ebind_inv in H as ([r id] & w4 & _ & H). apply ebind_inv in H as ([] & w5 & Hk & [-> ->]%eret_inv).
  apply Forall_singleton. by eapply keep_result_stored.
Qed.

Lemma recover_stored session span frame health failed (w : world) ex w' :
  recover env session span frame health failed w = (Ok ex, w') -> Forall (result_stored span (stored w')) (ex_results ex).
Proof.
  unfold recover. intros (contract & w1 & _ & H)%ebind_inv. destruct contract as [contract|]; [|by apply eret_inv in H as [-> _]; constructor].
  apply ebind_inv in H as (d & w2 & _ & H). apply ebind_inv in H as (_ & w3 & _ & H).
  destruct (pd_allowed d); [|by apply eret_inv in H as [-> _]; constructor].
  apply ebind_inv in H as (r & w4 & _ & H). apply ebind_inv in H as ([] & w5 & Hk & H).
  apply ebind_inv in H as (summary & w6 & [_ ->]%elift_inv & H). apply ebind_inv in H as (fid & w7 & Hf & H).
  apply ebind_inv in H as (rest & w8 & Hr & [-> ->]%eret_inv). cbn [ex_results].
  constructor; [|by eapply ask_rollback_stored]. eapply result_stored_grows; [|by eapply keep_result_stored].
  transitivity (stored w7); (eapply run_grows; [|eassumption]).
  - apply store_do_kept, (fact_kept (offered := offers Adapter)).
  - by apply (ask_rollback_kept (offered := offers Adapter) env wf).
Qed.

Lemma after_result_stored session span frame failed r (w : world) ex w' :
  after_result env session span frame failed r w = (Ok ex, w') -> result_stored span (stored w) r ->
  Forall (result_stored span (stored w')) (ex_results ex).
Proof.
  intros H Hr. pose proof (run_grows _ _ _ _ (after_result_kept (offered := offers Adapter) env wf (fun _ _ H => H) session span frame failed r) H) as Hg.
  apply (result_stored_grows _ _ _ _ Hg) in Hr. unfold after_result in H.
  destruct (negb _); [apply eret_inv in H as [-> _]; by apply Forall_singleton|].
  apply ebind_inv in H as (health & w1 & _ & H). apply ebind_inv in H as (fid & w2 & _ & H).
  destruct (eq_str _ _); [|apply eret_inv in H as [-> _]; by apply Forall_singleton].
  apply ebind_inv in H as (rest & w3 & H & [-> ->]%eret_inv). constructor; [done|]. by eapply recover_stored.
Qed.

Lemma execute_plan_stored session span frame failed tools failure plan (w : world) ex w' :
  execute_plan env wf session span frame failed tools failure plan w = (Ok ex, w') -> results_stored span (stored w') (ex_results ex).
Proof.
  unfold execute_plan. destruct (negb _).
  - intros (r & w1 & H & [-> _]%eret_inv)%ebind_inv. right. exists r. split; [done|].
    unfold tool_answer in H. by apply ebind_inv in H as (id & w2 & _ & [-> _]%eret_inv).
  - destruct plan as [plan|]; [|intros [-> _]%eret_inv; by left]. intros (contract & w1 & _ & H)%ebind_inv. left.
    apply ebind_inv in H as ([r ctx] & w2 & _ & H). apply ebind_inv in H as ([] & w3 & Hk & H).
    apply ebind_inv in H as (rest & w4 & H & [-> ->]%eret_inv). cbn [ex_results].
    eapply after_result_stored; [exact H|]. by eapply keep_result_stored.
Qed.

(** *** The end of a run *)

(** What a run that returned has left: the span closed and the audit record written under its ids. *)
Record concluded (r : WorkflowResult) (s : CoreDataStore) : Prop := {
  co_status : wr_status r = "ok";
  co_span : exists row, get_execution_span (wr_execution_span_id r) s = Some row /\ sp_status row = "ok" /\
                        sp_session_id row = Some (wr_session_id r);
  co_audit : exists row, row ∈ audit_records s /\ au_id row = wr_audit_id r /\ au_span row = wr_execution_span_id r /\ au_status row = "ok";
}.

Lemma conclude_ok a session span b c d e f results h i (w : world) r w' :
  conclude env wf a session span b c d e f results h i w = (Ok r, w') ->
  concluded r (stored w') /\ wr_execution_span_id r = span /\ wr_session_id r = session /\ wr_tool_results r = results /\ wr_events_persisted r = Z.of_nat (length d).
Proof.
  unfold conclude, new_id_for. intros (response & w1 & _ & H)%ebind_inv. apply ebind_inv in H as (nid & w2 & _ & H).
  apply ebind_inv in H as (notification & w3 & _ & H). apply ebind_inv in H as (fid & w4 & _ & H).
  apply ebind_inv in H as (aid & w5 & _ & H). apply ebind_inv in H as (audit & w6 & _ & H).
  apply ebind_inv in H as ([] & w7 & Ha%store_do_inv & H). cbv zeta in H. apply ebind_inv in H as (closed & w8 & [_ ->]%elift_inv & H).
  apply ebind_inv in H as ([] & w9 & Hs%store_do_inv & [-> ->]%eret_inv). split_and!; try done.
  apply persist_audit_record_ok in Ha as (row & Ha & Hid & Hspan & Hst).
  pose proof (moves_at _ _ _ _ _ (persist_span_same env audit_records (fun _ _ => eq_refl) span "ok" closed (Some session)
    (fun _ _ => eq_refl)) Hs) as Hsame. unfold same in Hsame.
  split; cbn; [done|by apply persist_execution_span_ok in Hs|]. exists row. rewrite Hsame, Ha. cbn.
  rewrite elem_of_app, list_elem_of_singleton. auto.
Qed.

Lemma run_ok raws a b c d e f (w : world) r w' :
  run env clock wf raws a b c d e f w = (Ok r, w') ->
  concluded r (stored w') /\ results_stored (wr_execution_span_id r) (stored w') (wr_tool_results r) /\
  exists events w0, opening env raws e w = (Ok (wr_execution_span_id r, wr_session_id r, events), w0) /\
    wr_events_persisted r = Z.of_nat (length events) /\ Forall (event_stored (stored w) events (stored w')) events.
Proof.
  intros (span & session & events & w0 & Ho & (us & w1 & w2 & Hspan & Hev & Hg) & frame & failed & tools & failure & plan & ex & w3 & w4 &
    steps & decision & ctx & federation & Hex%execute_plan_stored & Hg' & Hc)%(run_phases (R := grows) (offered := offers Adapter) env clock wf (fun _ _ H => H)).
  apply conclude_ok in Hc as (Hc & Hs & Hsn & Hr & Hn). rewrite Hs, Hsn, Hr. split_and!; [done|by eapply results_stored_grows|].
  exists events, w0. split; [done|]. split; [done|].
  apply (events_stored (stored w) events) in Hev; [|done|].
  - eapply Forall_impl; [exact Hev|]. intros ev. by apply event_stored_grows.
  - intros row Hrow. left. apply store_do_inv in Hspan. apply opening_stores_none in Ho. rewrite <- Ho.
    pose proof (moves_at _ _ _ _ _ (persist_span_same env perception_events (fun _ _ => eq_refl) span "running" (open_span f session events)
      (Some session) (fun _ _ => eq_refl)) Hspan) as Hsame. unfold same in Hsame. by rewrite <- Hsame.
Qed.
End Recorded.

(** ** Sample runs *)

Definition sample_profile : MafRuntimeProfile := profile_of DETERMINISTIC_FAKE false ∅.
Definition sample_workflow : Workflow nat nat := {|
  wf_profile := sample_profile; wf_memory := LocalCandidateBackedMemory; wf_affective := maf_affective_agent sample_profile;
  wf_rational := maf_rational_agent sample_profile DeterministicRationalBackend; wf_federation := None; wf_skill_path := "SKILL.md";
  wf_catalog := default_catalog "catalog.py"; wf_environment := ∅; wf_exc_text := class_name_of |}.
Definition sample_sqlite : Sqlite := {| real_text := fun _ => "0.0"; real_column := fun v => v |}.
Definition sample_world : World nat nat nat := {| w_core := mem0_init empty_store 0%nat; w_unit := 0%nat; w_model := 0%nat; w_seen := [] |}.
Definition sample_event (topic : string) (payload : list (string * pyval)) : dict := dict_of
  [("event_id", VStr "e1"); ("semantic_topic", VStr topic); ("source_kind", VStr "user"); ("priority", VInt 80);
   ("payload", VDict (dict_of payload))].
Definition sample_run (topic : string) (payload : list (string * pyval)) : result WorkflowResult * World nat nat nat :=
  run (Adapter := fake_unit sample_env) (SQ := sample_sqlite) (FS := sample_files) sample_env memory_clock sample_workflow
    [sample_event topic payload] false 100 0 None None "sample" sample_world.

(** What a run answered, the statuses of its tool results and of the requests it left. *)
Definition outcome (r : result WorkflowResult * World nat nat nat) : string * list (string * string) * list string :=
  (match r.1 with Ok res => wr_status res | Raise e => class_name_of e end,
   match r.1 with Ok res => map (fun t => (tr_tool_name t, tr_status t)) (wr_tool_results res) | Raise _ => [] end,
   map ap_status (approval_requests (stored r.2))).

Example query_is_answered : outcome (sample_run "user.input.query.apps" []) = ("ok", [("system_query_apps", "ok")], []).
Proof. vm_compute. reflexivity. Qed.
Example stop_waits_for_the_operator :
  outcome (sample_run "user.input.control.app.stop" [("target_app_id", VStr "demo")]) =
  ("ok", [("system_stop_app", "pending_approval")], ["pending"]).
Proof. vm_compute. reflexivity. Qed.

(** ** What a run promises *)

(** Whatever the events, the agents, the provider, the memory and the unit answer or raise, a run only asks for approvals: it
    takes no decision; each approval request in the store afterwards was there before or waits for the operator, for a tool whose
    contract in the adapter's manifest the policy wants approved; and each request there before is still there, unless one that
    waits has come under its id. *)
Theorem run_only_asks {US MS CS} (Adapter : UnitAdapter US) (SQ : Sqlite) (FS : Files) env clock (wf : Workflow MS CS)
    raw_events use_db_events query_limit min_priority topic session_id event_source (w : World US MS CS) :
  only_asks (offers Adapter) (stored w)
    (stored (run env clock wf raw_events use_db_events query_limit min_priority topic session_id event_source w).2).
Proof. by apply (run_kept (offered := offers Adapter)). Qed.

(** C8: a run that returns has recorded itself.  Its execution span, under the id that the run took first, is in the store, closed
    "ok" in the session that was given or taken; an audit record of the span is there under the answered audit id; the events
    it counts are those that its router let through of the given ones, in this run, and for each of them a row of its id is there:
    one that the store held before, or one written for an event of this run, with its fields, tags and payload; and each tool
    result it answers is there with its tool, status and payload, unless the answer is the one refusal of a plan that could not
    be read. *)
Theorem run_recorded {US MS CS} (Adapter : UnitAdapter US) (SQ : Sqlite) (FS : Files) env clock (wf : Workflow MS CS)
    raw_events use_db_events query_limit min_priority topic session_id event_source (w : World US MS CS) r w' :
  run env clock wf raw_events use_db_events query_limit min_priority topic session_id event_source w = (Ok r, w') ->
  concluded r (stored w') /\ results_stored (wr_execution_span_id r) (stored w') (wr_tool_results r) /\
  exists events w0, opening env raw_events session_id w = (Ok (wr_execution_span_id r, wr_session_id r, events), w0) /\
    wr_events_persisted r = Z.of_nat (length events) /\ Forall (event_stored SQ (stored w) events (stored w')) events.
Proof. apply run_ok. Qed.

Definition sample_result (run : result WorkflowResult * World nat nat nat) : WorkflowResult :=
  match run.1 with
  | Ok r => r
  | Raise _ => {| wr_status := ""; wr_execution_span_id := ""; wr_session_id := ""; wr_final_response := []; wr_steps := [];
                  wr_events_persisted := 0; wr_delegated := false; wr_tool_results := []; wr_audit_id := "" |}
  end.

Lemma run_recorded_witness :
  let r := sample_result (sample_run "user.input.query.apps" []) in
  length (wr_tool_results r) = 1%nat /\ wr_events_persisted r = 1 /\ concluded r (stored (sample_run "user.input.query.apps" []).2).
Proof.
  cbv zeta. split; [vm_compute; reflexivity|]. split; [vm_compute; reflexivity|].
  refine (proj1 (run_recorded (fake_unit sample_env) sample_sqlite sample_files sample_env memory_clock sample_workflow
    [sample_event "user.input.query.apps" []] false 100 0 None None "sample" sample_world _ _ (run_eq _ _ _))).
  vm_compute. reflexivity.
Defined.
