(* ===== verification/RunTrace.v ===== *)
(** * What a run does, next to what it was answered ([workflow.py], [NoModelCoreWorkflow.run])

    The tool adapter and the rational agent are wrapped so that they write down
    what passes through them: each manifest the adapter answered, each tool it
    was made to execute, and each answer of the agent with the tools it was
    shown.  The call of a run is then held against the answers of that very
    run. *)

From Stdlib Require Import ZArith Lia Bool List Ascii String.
From stdpp Require Import base gmap list option strings.
From S2P Require Import Prelude PyFloat Text PyValue Events Agents Contracts Policy Maf ModelAgents StateSync Store Memory Artifact Deploy PromptContext Catalog Skills Inference PlanQuality RunEvidence Workflow RunSafety RunRecords.

#[local] Open Scope string_scope.
#[local] Open Scope Z_scope.
#[local] Open Scope list_scope.

(** ** Wrappers that write down what passes *)

Inductive unit_event :=
| Offered (manifest : list ToolContract)
| Called (name : string) (args : dict).

Definition traced {US} (adapter : UnitAdapter US) : UnitAdapter (US * list unit_event) := {|
  ua_tools := fun name args u =>
    let '(r, u') := @adapter_execute US (@ua_tools US adapter) name args u.1 in (r, (u', u.2 ++ [Called name args]));
  ua_manifest := fun u =>
    let '(r, u') := @ua_manifest US adapter u.1 in
    (r, (u', match r with Ok m => u.2 ++ [Offered m] | Raise _ => u.2 end));
  ua_metadata := @ua_metadata US adapter;
|}.

(** An answer of the rational agent: the tools it was shown, and the plan it gave. *)
Definition answer : Type := option (list dict) * option RationalPlan.

Definition recording {CS} (agent : RationalAgent CS) : RationalAgent (CS * list answer) := {|
  ra_plan := fun decision frame tools prompt c =>
    let '(r, c') := ra_plan agent decision frame tools prompt c.1 in
    (r, (c', match r with Ok plan => c.2 ++ [(tools, plan)] | Raise _ => c.2 end));
  ra_metadata := ra_metadata agent;
|}.
Definition beside {CS} (agent : AffectiveAgent CS) : AffectiveAgent (CS * list answer) := {|
  aa_decide := fun frame items context c => let '(r, c') := aa_decide agent frame items context c.1 in (r, (c', c.2));
  aa_metadata := aa_metadata agent;
|}.
Definition recorded {MS CS} (wf : Workflow MS CS) : Workflow MS (CS * list answer) := {|
  wf_profile := wf_profile wf; wf_memory := wf_memory wf; wf_affective := beside (wf_affective wf);
  wf_rational := recording (wf_rational wf); wf_federation := wf_federation wf; wf_skill_path := wf_skill_path wf;
  wf_catalog := wf_catalog wf; wf_environment := wf_environment wf; wf_exc_text := wf_exc_text wf |}.

(** ** What justifies the calls of a run *)

Definition calls (events : list unit_event) : list call :=
  omap (fun e => match e with Called name args => Some (name, args) | Offered _ => None end) events.

(** The adapter has offered a contract for the tool among these events, and the contract lets it run unasked. *)
Definition permitted (before : list unit_event) (name : string) (c : ToolContract) : Prop :=
  (exists m, Offered m ∈ before /\ List.find (fun c => String.eqb (Contracts.tool_name c) name) m = Some c) /\ read_only_tool c.

Definition lease_look (args : dict) : Prop :=
  exists ids, args = dict_of [("event_ids", VList (vstrs ids)); ("reason", VStr "rollback_candidate_lease_observation")].

(** After the planned call: nothing, or one look at the leases. *)
Definition looks (before after : list unit_event) : Prop :=
  calls after = [] \/
  exists mid args tail c, after = mid ++ Called "system_query_leases" args :: tail /\ calls mid = [] /\ calls tail = [] /\
    lease_look args /\ permitted (before ++ mid) "system_query_leases" c.

(** The planned call: of a contract offered before it, which the plan fits under the tools the agent was shown. *)
Definition carries_out {FS : Files} (skill_path : string) (catalog : WorkflowCatalog) (tools : list dict) (plan : RationalPlan)
    (events : list unit_event) : Prop :=
  exists before after c skill,
    events = before ++ Called (Agents.tool_name plan) (plan_args plan) :: after /\ calls before = [] /\
    permitted before (Agents.tool_name plan) c /\ skill_descriptor_summary skill_path = Ok skill /\
    plan_fits catalog plan c tools skill /\ looks before after.

(** The calls of a run against its answers. *)
Definition justified {FS : Files} (skill_path : string) (catalog : WorkflowCatalog) (events : list unit_event) (answers : list answer) : Prop :=
  calls events = [] \/
  exists plan shown, answers = [(Some (map contract_to_dict shown), Some plan)] /\ Offered shown ∈ events /\
    carries_out skill_path catalog (map contract_to_dict shown) plan events.

Lemma calls_app a b : calls (a ++ b) = calls a ++ calls b.
Proof. apply omap_app. Qed.
Lemma calls_offered l : calls (map Offered l) = [].
Proof. by induction l. Qed.

Lemma permitted_more before more name c : permitted before name c -> permitted (more ++ before) name c.
Proof. intros [(m & Hm & Hf) Hr]. split; [|done]. exists m. split; [|done]. apply elem_of_app. auto. Qed.

Lemma carries_out_after {FS : Files} path catalog tools plan events more :
  calls more = [] -> carries_out path catalog tools plan events -> carries_out path catalog tools plan (more ++ events).
Proof.
  intros Hm (before & after & c & skill & -> & Hb & Hp & Hs & Hf & Hl). exists (more ++ before), after, c, skill.
  rewrite <- app_assoc, calls_app, Hm, Hb. split_and!; try done; [by apply permitted_more|].
  destruct Hl as [Hl|(mid & args & tail & c' & -> & ? & ? & ? & Hc)]; [by left|]. right. exists mid, args, tail, c'.
  split_and!; try done. rewrite <- app_assoc. by apply permitted_more.
Qed.

Section Trace.
Context {US MS CS : Type} (adapter : UnitAdapter US) (SQ : Sqlite) (FS : Files).
Context (env : nat -> Env) (clock : nat -> Z) (wf : Workflow MS CS).
#[local] Notation world := (World (US * list unit_event) MS (CS * list answer)).
#[local] Notation rwf := (recorded wf).
#[local] Instance traced_adapter : UnitAdapter (US * list unit_event) := traced adapter.

Definition unit_log (w : world) : list unit_event := (w_unit w).2.
Definition model_log (w : world) : list answer := (w_model w).2.

(** At most manifests were read. *)
Definition asks (w w' : world) : Prop := model_log w' = model_log w /\ exists ms, unit_log w' = unit_log w ++ map Offered ms.
#[export] Instance asks_preorder : PreOrder asks.
Proof.
  split.
  - intros w. split; [done|]. exists []. by rewrite app_nil_r.
  - intros a b c [Ha (l & Hl)] [Hb (l' & Hl')]. split; [by rewrite Hb|]. exists (l ++ l'). by rewrite Hl', Hl, map_app, app_assoc.
Qed.

(** *** Steps that at most read manifests *)

Lemma core_do_asks {A} (m : eff (Mem0State MS) A) : moves asks (core_do m).
Proof. intros w. unfold core_do. destruct (m (w_core w)). split; [done|]. exists []. by rewrite app_nil_r. Qed.
Lemma store_do_asks {A} (m : eff CoreDataStore A) : moves asks (store_do m).
Proof. apply core_do_asks. Qed.

(** On the unit alone. *)
Definition unit_asks (u u' : US * list unit_event) : Prop := exists ms, u'.2 = u.2 ++ map Offered ms.
#[export] Instance unit_asks_preorder : PreOrder unit_asks.
Proof.
  split; [intros u; exists []; by rewrite app_nil_r|].
  intros a b c [l Hl] [l' Hl']. exists (l ++ l'). by rewrite Hl', Hl, map_app, app_assoc.
Qed.
Lemma unit_do_asks {A} (m : eff (US * list unit_event) A) : moves unit_asks m -> moves asks (unit_do m).
Proof. intros Hm w. unfold unit_do. specialize (Hm (w_unit w)). destruct (m (w_unit w)). by split. Qed.
Lemma manifest_asks : moves unit_asks (ua_manifest (S := US * list unit_event)).
Proof.
  intros u. change (ua_manifest u) with (let '(r, u') := @ua_manifest US adapter u.1 in
    (r, (u', match r with Ok m => u.2 ++ [Offered m] | Raise _ => u.2 end))).
  destruct (@ua_manifest US adapter u.1) as [[m|e] u']; [by exists [m]|exists []; by rewrite app_nil_r].
Qed.
#[local] Hint Resolve manifest_asks : moves.
Lemma describe_asks name : moves unit_asks (describe_tool (S := US * list unit_event) name).
Proof. unfold describe_tool. moves. Qed.
Lemma mcp_asks contract : moves unit_asks (mcp_descriptor_summary (S := US * list unit_event) contract).
Proof. unfold mcp_descriptor_summary. moves. Qed.
#[local] Hint Resolve describe_asks mcp_asks : moves.
Lemma quality_asks path catalog plan contract tools :
  moves unit_asks (build_rational_plan_quality (S := US * list unit_event) path catalog plan contract tools).
Proof. unfold build_rational_plan_quality. moves. Qed.
Lemma the_store_asks : moves asks the_store.
Proof. intros w. reflexivity. Qed.
Lemma see_asks key : moves asks (see key).
Proof. intros w. split; [done|]. exists []. by rewrite app_nil_r. Qed.
Lemma seen_asks : moves asks seen_keys.
Proof. intros w. reflexivity. Qed.
Lemma metadata_asks : moves asks (memory_runtime_metadata rwf).
Proof. intros w. reflexivity. Qed.
#[local] Hint Resolve core_do_asks store_do_asks unit_do_asks quality_asks the_store_asks see_asks seen_asks metadata_asks : moves.
Lemma each_asks {A B} (f : A -> eff world B) l : (forall a, moves asks (f a)) -> moves asks (each f l).
Proof. intros Hf. induction l as [|a l IH]; cbn [each]; moves. Qed.
#[local] Hint Extern 2 (moves _ (each _ _)) => (apply each_asks; intros ?; moves) : moves.
Lemma route_asks raws : moves asks (route_events env raws).
Proof. unfold route_events. enough (moves asks (route_each env raws)) by moves. induction raws; cbn [route_each]; unfold new_id_for; moves. Qed.
Lemma frame_asks a b c d e : moves asks (frame_phase env a b c d e).
Proof. unfold frame_phase, fresh_frame, new_id_for. moves. Qed.
Lemma facts_asks span frame events : moves asks (persist_frame_facts env span frame events).
Proof. unfold persist_frame_facts. moves. Qed.
Lemma memory_asks span frame refs ctx : moves asks (memory_phase env clock rwf span frame refs ctx).
Proof. unfold memory_phase. moves. Qed.
Lemma federation_asks span frame ctx : moves asks (federation_phase env rwf span frame ctx).
Proof. unfold federation_phase. moves. Qed.
#[local] Hint Resolve route_asks frame_asks facts_asks memory_asks federation_asks : moves.
Lemma prepare_asks span initial frame events refs : moves asks (prepare env clock rwf span initial frame events refs).
Proof. unfold prepare. moves. Qed.
Lemma tool_answer_asks a b c : moves asks (tool_answer env a b c).
Proof. unfold tool_answer, new_id_for. moves. Qed.
Lemma keep_asks span r : moves asks (keep_result env span r).
Proof. unfold keep_result. moves. Qed.
#[local] Hint Resolve prepare_asks tool_answer_asks keep_asks : moves.
Lemma ask_asks a b c d e f : moves asks (ask_approval env a b c d e f).
Proof. unfold ask_approval, new_id_for. moves. Qed.
#[local] Hint Resolve ask_asks : moves.
Lemma rollback_asks session span summary : moves asks (ask_rollback env session span summary).
Proof. unfold ask_rollback. moves. Qed.
Lemma conclude_asks a b c d e f g h i j k : moves asks (conclude env rwf a b c d e f g h i j k).
Proof. unfold conclude, new_id_for. moves. Qed.
#[local] Hint Resolve rollback_asks conclude_asks : moves.
Lemma elift_asks {A} (r : result A) : moves asks (elift r).
Proof. intros w. reflexivity. Qed.
#[local] Hint Resolve elift_asks : moves.

(** *** The manifests that were read *)

Lemma manifest_read (w : world) m w' : unit_do ua_manifest w = (Ok m, w') ->
  unit_log w' = unit_log w ++ [Offered m] /\ model_log w' = model_log w.
Proof.
  unfold unit_do. change (ua_manifest (w_unit w)) with (let '(r, u') := @ua_manifest US adapter (w_unit w).1 in
    (r, (u', match r with Ok m => (w_unit w).2 ++ [Offered m] | Raise _ => (w_unit w).2 end))).
  destruct (@ua_manifest US adapter (w_unit w).1) as [r u']. intros [= -> <-]. done.
Qed.

Lemma unit_do_bind {A B} (m : eff (US * list unit_event) A) (k : A -> eff (US * list unit_event) B) (w : world) :
  unit_do (ebind m k) w = ebind (unit_do m) (fun a => unit_do (k a)) w.
Proof.
  unfold ebind at 2, unit_do, ebind. destruct (m (w_unit w)) as [[a|e] u]; [|done]. cbn. by destruct (k a u).
Qed.

Lemma described_tool name (w : world) c w' : unit_do (describe_tool name) w = (Ok (Some c), w') ->
  (exists m, unit_log w' = unit_log w ++ [Offered m] /\ List.find (fun c => String.eqb (Contracts.tool_name c) name) m = Some c) /\
  model_log w' = model_log w.
Proof.
  unfold describe_tool. rewrite unit_do_bind. intros H. apply ebind_inv in H as (m & w1 & Hm & H).
  apply manifest_read in Hm as [Hu Hl]. unfold unit_do, eret in H. injection H as Hf <-. split; [|exact Hl].
  exists m. by split.
Qed.

Lemma asks_logs (w w' : world) : asks w w' -> model_log w' = model_log w /\ exists l, unit_log w' = unit_log w ++ map Offered l.
Proof. done. Qed.

(** Walk through a run that answered, keeping that its steps only asked. *)
Ltac asked H :=
  match type of H with
  | ?m ?w = (?r, ?w') => let E := fresh "Ha" in assert (E : asks w w') by (apply (moves_at asks m w r w'); [moves|exact H]); clear H
  end.
Ltac walk H :=
  cbv beta zeta in H;
  match type of H with
  | ebind _ _ _ = (Ok _, _) => let H1 := fresh "H1" in apply ebind_inv in H as (? & ? & H1 & H); asked H1
  | (let '(_, _) := ?x in _) _ = _ => destruct x
  end.

(** Steps that asked, one after the other. *)
Ltac chain := repeat first [reflexivity | eassumption | etrans; [eassumption|]].

Lemma prepare_tools span initial frame events refs (w : world) p w' :
  prepare env clock rwf span initial frame events refs w = (Ok p, w') ->
  exists l m, unit_log w' = unit_log w ++ map Offered l /\ model_log w' = model_log w /\ m ∈ l /\ pr_tools p = map contract_to_dict m.
Proof.
  unfold prepare. intros H. do 13 walk H. apply ebind_inv in H as (m & w1 & Hm & H). apply manifest_read in Hm as [Hu Hl].
  repeat walk H. apply eret_inv in H as [-> ->]. cbn [pr_tools].
  match type of Hu with unit_log _ = unit_log ?w0 ++ _ => assert (asks w w0) as [Hl0 (first & Hu0)] by chain end.
  match goal with |- exists _ _, unit_log ?w_end = _ /\ _ => assert (asks w1 w_end) as [Hl1 (rest & Hu1)] by chain end.
  exists (first ++ m :: rest), m. rewrite Hl1, Hl, Hl0, Hu1, Hu, Hu0, map_app. cbn [map]. rewrite <- !app_assoc.
  split_and!; try done. apply elem_of_app. right. left.
Qed.

(** ** What a step leaves in the logs *)

Definition leaves {A} (P : list unit_event -> list answer -> result A -> Prop) (m : eff world A) : Prop :=
  forall w, exists us ms, unit_log (m w).2 = unit_log w ++ us /\ model_log (m w).2 = model_log w ++ ms /\ P us ms (m w).1.

Lemma leaves_asking {A} (P : list unit_event -> list answer -> result A -> Prop) (m : eff world A) :
  moves asks m -> (forall l w, P (map Offered l) [] (m w).1) -> leaves P m.
Proof.
  intros Hm HP w. destruct (Hm w) as [Hl (l & Hu)]. exists (map Offered l), []. rewrite app_nil_r. auto.
Qed.

(** A step that asks, then the rest; [P] survives earlier manifests. *)
Lemma leaves_after {A B} (P : list unit_event -> list answer -> result B -> Prop) (m : eff world A) (k : A -> eff world B) :
  moves asks m -> (forall l e, P (map Offered l) [] (Raise e)) ->
  (forall w a w', m w = (Ok a, w') -> leaves (fun us ms r => forall l, P (map Offered l ++ us) ms r) (k a)) -> leaves P (ebind m k).
Proof.
  intros Hm HP Hk w. unfold ebind. specialize (Hm w). destruct (m w) as [[a|e] w'] eqn:E; cbn in *.
  - destruct (Hk w a w' E w') as (us & ms & Hu & Hl & HPr). destruct Hm as [Hl0 (l & Hu0)]. exists (map Offered l ++ us), ms.
    by rewrite Hu, Hl, Hu0, Hl0, app_assoc.
  - destruct Hm as [Hl (l & Hu)]. exists (map Offered l), []. by rewrite Hu, Hl, app_nil_r.
Qed.

Lemma leaves_bind {A B} (P : list unit_event -> list answer -> result A -> Prop) (R : list unit_event -> list answer -> result B -> Prop)
    (m : eff world A) (k : A -> eff world B) :
  leaves P m -> (forall us ms e, P us ms (Raise e) -> R us ms (Raise e)) ->
  (forall us ms a, P us ms (Ok a) -> leaves (fun us' ms' r => R (us ++ us') (ms ++ ms') r) (k a)) -> leaves R (ebind m k).
Proof.
  intros Hm He Hk w. unfold ebind. destruct (Hm w) as (us & ms & Hu & Hl & HP). destruct (m w) as [[a|e] w'] eqn:E; cbn in *.
  - destruct (Hk us ms a HP w') as (us' & ms' & Hu' & Hl' & HR). exists (us ++ us'), (ms ++ ms'). by rewrite Hu', Hl', Hu, Hl, !app_assoc.
  - exists us, ms. auto.
Qed.

Lemma leaves_weaken {A} (P Q : list unit_event -> list answer -> result A -> Prop) (m : eff world A) :
  (forall us ms r, P us ms r -> Q us ms r) -> leaves P m -> leaves Q m.
Proof. intros H Hm w. destruct (Hm w) as (us & ms & ? & ? & ?). exists us, ms. auto. Qed.

Lemma execute_leaves name args :
  leaves (fun us ms _ => us = [Called name args] /\ ms = []) (unit_do (adapter_execute name args) : eff world _).
Proof.
  intros w. exists [Called name args], []. unfold unit_do, unit_log, model_log.
  change (adapter_execute name args (w_unit w)) with
    (let '(r, u') := @adapter_execute US (@ua_tools US adapter) name args (w_unit w).1 in (r, (u', (w_unit w).2 ++ [Called name args]))).
  destruct (@adapter_execute US _ name args (w_unit w).1). cbn. by rewrite app_nil_r.
Qed.

(** What the rational agent answers is what the run goes on with. *)
Lemma decide_leaves frame items tools affective prompt :
  leaves (fun us ms r => us = [] /\ (ms = [] /\ (forall d e plan failure, r = Ok (d, e, (Some plan, failure)) -> False) \/
                         exists d e plan, ms = [(Some tools, plan)] /\ r = Ok (d, e, (plan, ""))))
    (decide_and_plan rwf frame items tools affective prompt).
Proof.
  intros w. unfold decide_and_plan, ebind, model_do, catch_value_error, unit_log, model_log. cbn [wf_affective recorded beside aa_decide].
  destruct (aa_decide (wf_affective wf) frame items (Some affective) (w_model w).1) as [[d|e] c1]; cbn.
  2:{ exists [], []. rewrite !app_nil_r. split_and!; try done. left. split; [done|]. by intros ? ? ? ? [=]. }
  destruct (build_model_call_evidence frame d _ affective) as [ev|e]; cbn.
  2:{ exists [], []. rewrite !app_nil_r. split_and!; try done. left. split; [done|]. by intros ? ? ? ? [=]. }
  destruct (ra_plan (wf_rational wf) d frame (Some tools) (Some prompt) c1) as [[plan|e] c2]; cbn.
  - exists [], [(Some tools, plan)]. rewrite !app_nil_r. split_and!; try done. right. by exists d, ev, plan.
  - exists [], []. destruct (is_value_error e); cbn; rewrite !app_nil_r; (split_and!; try done; left; split; [done|]); by intros ? ? ? ? [=].
Qed.

(** *** The calls *)

(** Earlier manifests do not matter. *)
Definition closed {A} (P : list unit_event -> list answer -> result A -> Prop) : Prop :=
  (forall l e, P (map Offered l) [] (Raise e)) /\ (forall l us ms r, P us ms r -> P (map Offered l ++ us) ms r).

Lemma leaves_then {A B} (P : list unit_event -> list answer -> result B -> Prop) (m : eff world A) (k : A -> eff world B) :
  closed P -> moves asks m -> (forall w a w', m w = (Ok a, w') -> leaves P (k a)) -> leaves P (ebind m k).
Proof.
  intros [Hr Hc] Hm Hk. apply leaves_after; [done|exact Hr|]. intros w a w' E. eapply leaves_weaken; [|by eapply Hk].
  intros us ms r HP l. by apply Hc.
Qed.

(** The tool a plan names is executed once, last, as its contract and the policy allow; or its answer is not "ok". *)
Definition plan_step (plan : RationalPlan) (contract : ToolContract) (tools : list dict) (us : list unit_event) (ms : list answer)
    (r : result (ToolExecutionResult * list (string * pyval))) : Prop :=
  ms = [] /\
  ((calls us = [] /\ forall t ctx, r = Ok (t, ctx) -> tr_status t <> "ok") \/
   exists before skill, us = before ++ [Called (Agents.tool_name plan) (plan_args plan)] /\ calls before = [] /\
     read_only_tool contract /\ skill_descriptor_summary (wf_skill_path wf) = Ok skill /\ plan_fits (wf_catalog wf) plan contract tools skill).

Lemma plan_step_closed plan contract tools : closed (plan_step plan contract tools).
Proof.
  split.
  - intros l e. split; [done|]. left. split; [apply calls_offered|discriminate].
  - intros l us ms r [-> [[Hc Hr]|(before & skill & -> & Hb & Hro & Hs & Hf)]]; (split; [done|]).
    + left. by rewrite calls_app, calls_offered.
    + right. exists (map Offered l ++ before), skill. rewrite calls_app, calls_offered, app_assoc. auto.
Qed.

Lemma answered_status name status payload (w : world) r w' : tool_answer env name status payload w = (Ok r, w') -> tr_status r = status.
Proof. intros H. apply ebind_inv in H as (id & w1 & _ & [-> _]%eret_inv). done. Qed.

Lemma refuses plan contract tools (m : eff world (ToolExecutionResult * list (string * pyval))) :
  moves asks m -> (forall w t ctx w', m w = (Ok (t, ctx), w') -> tr_status t <> "ok") -> leaves (plan_step plan contract tools) m.
Proof.
  intros Hm Ht. apply leaves_asking; [done|]. intros l w. split; [done|]. left. split; [apply calls_offered|]. intros t ctx H.
  destruct (m w) as [res w'] eqn:E. cbn in H. subst res. by eapply Ht.
Qed.

Ltac answers := intros ? ? ? ? H; apply ebind_inv in H as (? & ? & H & [[= -> ->] _]%eret_inv).

Lemma run_plan_leaves session span plan contract tools :
  leaves (plan_step plan contract tools) (run_plan env rwf session span plan contract tools).
Proof.
  pose proof (plan_step_closed plan contract tools) as Hcl. unfold run_plan.
  apply leaves_then; [done|auto with moves|]. intros w0 quality w0' Hq.
  destruct (pq_valid quality) eqn:Hv; cbn [negb].
  2:{ apply refuses; [moves|]. answers. by rewrite (answered_status _ _ _ _ _ _ H). }
  apply leaves_then; [done|auto with moves|]. intros w1 decision w1' [Hd ->]%elift_inv.
  apply leaves_then; [done|auto with moves|]. intros _ _ _ _.
  destruct (pd_allowed decision) eqn:Hallowed.
  - unfold unit_do in Hq. destruct (build_rational_plan_quality _ _ _ _ _ _) as [q u] eqn:E in Hq. injection Hq as -> _.
    apply plan_valid_spec in E as (skill & Hs & Hfit).
    assert (Hp : forall r, plan_step plan contract tools [Called (Agents.tool_name plan) (plan_args plan)] [] r).
    { intros r. split; [done|]. right. exists [], skill. split_and!; try done; [by eapply allowed_read_only|by apply Hfit]. }
    eapply leaves_bind; [apply execute_leaves| |].
    + intros us ms e [-> ->]. apply Hp.
    + intros us ms t [-> ->]. intros w. exists [], []. rewrite !app_nil_r. split; [done|]. split; [done|]. apply Hp.
  - destruct (pd_approval_required decision).
    + apply refuses; [moves|]. intros w t ctx w' H. apply ebind_inv in H as ([r id] & w2 & H & [[= -> ->] _]%eret_inv).
      unfold ask_approval in H. apply ebind_inv in H as (? & ? & _ & H). apply ebind_inv in H as (? & ? & _ & H).
      apply ebind_inv in H as (? & ? & H & [[= -> ->] _]%eret_inv). by rewrite (answered_status _ _ _ _ _ _ H).
    + apply refuses; [moves|]. answers. by rewrite (answered_status _ _ _ _ _ _ H).
Qed.

(** What follows the events [before]: at most a look at the leases. *)
Definition look_step {A} (before us : list unit_event) (ms : list answer) (r : result A) : Prop := ms = [] /\ looks before us.

Lemma permitted_mono before before' name c :
  (forall m, Offered m ∈ before -> Offered m ∈ before') -> permitted before name c -> permitted before' name c.
Proof. intros H [(m & Hm & Hf) Hr]. split; [|done]. exists m. auto. Qed.

Lemma looks_later before l us : looks before us -> looks before (map Offered l ++ us).
Proof.
  intros [Hc|(mid & args & tail & c & -> & Hm & Ht & Ha & Hp)]; [left; by rewrite calls_app, calls_offered|].
  right. exists (map Offered l ++ mid), args, tail, c. rewrite calls_app, calls_offered, <- app_assoc. split_and!; try done.
  eapply permitted_mono; [|exact Hp]. intros e. rewrite !elem_of_app. tauto.
Qed.

Lemma looks_from before more us : calls more = [] -> looks (before ++ more) us -> looks before (more ++ us).
Proof.
  intros Hmore [Hc|(mid & args & tail & c & -> & Hm & Ht & Ha & Hp)]; [left; by rewrite calls_app, Hmore|].
  right. exists (more ++ mid), args, tail, c. rewrite calls_app, Hmore, <- app_assoc. rewrite <- app_assoc in Hp. by split_and!.
Qed.

Lemma look_step_closed {A} before : closed (look_step (A := A) before).
Proof.
  split; [intros l e; split; [done|]; left; apply calls_offered|]. intros l us ms r [-> Hl]. split; [done|]. by apply looks_later.
Qed.

Lemma look_nothing {A} before (m : eff world A) : moves asks m -> leaves (look_step before) m.
Proof. intros Hm. apply leaves_asking; [done|]. intros l w. split; [done|]. left. apply calls_offered. Qed.

Definition describe_step (name : string) (us : list unit_event) (ms : list answer) (r : result (option ToolContract)) : Prop :=
  ms = [] /\ calls us = [] /\
  forall c, r = Ok (Some c) -> exists m, Offered m ∈ us /\ List.find (fun c => String.eqb (Contracts.tool_name c) name) m = Some c.

Lemma describe_leaves name : leaves (describe_step name) (unit_do (describe_tool name)).
Proof.
  intros w. destruct (unit_do (describe_tool name) w) as [r w'] eqn:E.
  destruct (moves_at asks _ _ _ _ ltac:(apply unit_do_asks, describe_asks) E) as [Hl (l & Hu)].
  exists (map Offered l), []. cbn [fst snd]. rewrite app_nil_r. split_and!; [done|done|].
  split; [done|]. split; [apply calls_offered|]. intros c ->. apply described_tool in E as [(m & Hm & Hf) _]. exists m. split; [|done].
  rewrite Hu in Hm. apply app_inv_head in Hm. rewrite Hm. by left.
Qed.

Lemma recover_leaves session span frame health failed before :
  leaves (look_step before) (recover env session span frame health failed).
Proof.
  unfold recover. eapply leaves_bind; [apply describe_leaves| |].
  { intros us ms e (-> & Hc & _). split; [done|]. by left. }
  intros us ms contract (-> & Hc & Hf).
  eapply (leaves_weaken (look_step (before ++ us))).
  { intros us' ms' r [-> Hl]. split; [done|]. by apply looks_from. }
  destruct contract as [c|]; [|by apply look_nothing; moves]. destruct (Hf c eq_refl) as (m & Hm & Hfind).
  pose proof (look_step_closed (A := Executed) (before ++ us)) as Hcl.
  apply leaves_then; [done|moves|]. intros w1 decision w1' [Hd ->]%elift_inv.
  apply leaves_then; [done|moves|]. intros _ _ _ _.
  destruct (pd_allowed decision) eqn:Ha; [|by apply look_nothing; moves].
  set (args := dict_of _).
  assert (Hl : forall l, looks (before ++ us) (Called "system_query_leases" args :: map Offered l)).
  { intros l. right. exists [], args, (map Offered l), c. split_and!; try done; [apply calls_offered|by exists (event_ids frame)|].
    split; [|by eapply allowed_read_only]. exists m. split; [|done]. rewrite app_nil_r. apply elem_of_app. by right. }
  eapply leaves_bind; [apply execute_leaves| |].
  - intros us' ms' e [-> ->]. split; [done|]. apply (Hl []).
  - intros us' ms' r [-> ->]. apply leaves_asking; [moves|]. intros l w. split; [done|]. apply Hl.
Qed.

Lemma after_result_leaves session span frame failed r before :
  leaves (fun us ms _ => ms = [] /\ (calls us = [] \/ (tr_status r = "ok" /\ looks before us))) (after_result env session span frame failed r).
Proof.
  assert (Hn : forall m : eff world Executed, moves asks m ->
    leaves (fun us ms _ => ms = [] /\ (calls us = [] \/ (tr_status r = "ok" /\ looks before us))) m).
  { intros m Hm. apply leaves_asking; [done|]. intros l w. split; [done|]. left. apply calls_offered. }
  assert (Hcl : closed (fun us ms (_ : result Executed) => ms = [] /\ (calls us = [] \/ (tr_status r = "ok" /\ looks before us)))).
  { split; [intros l e; split; [done|]; left; apply calls_offered|]. intros l us ms r' [-> [Hc|[Hok Hl]]]; (split; [done|]).
    - left. by rewrite calls_app, calls_offered.
    - right. split; [done|]. by apply looks_later. }
  unfold after_result, guard_succeeded. destruct (String.eqb_spec (tr_status r) "ok") as [Hok|Hok].
  2:{ rewrite andb_false_r. cbn [negb]. apply Hn. moves. }
  destruct (_ && true); cbn [negb]; [|apply Hn; moves].
  apply leaves_then; [done|moves|]. intros _ health _ _. apply leaves_then; [done|moves|]. intros _ _ _ _.
  destruct (eq_str _ _); [|apply Hn; moves].
  eapply leaves_bind; [apply (recover_leaves session span frame health failed before)| |].
  - intros us ms e [-> Hl]. split; [done|]. by right.
  - intros us ms rest [-> Hl]. intros w. exists [], []. rewrite !app_nil_r. split; [done|]. split; [done|]. split; [done|]. by right.
Qed.

Definition execution_step {A} (tools : list dict) (plan : option RationalPlan) (us : list unit_event) (ms : list answer) (r : result A) : Prop :=
  ms = [] /\ (calls us = [] \/ exists p, plan = Some p /\ carries_out (wf_skill_path wf) (wf_catalog wf) tools p us).

Lemma execution_nothing {A} tools plan (m : eff world A) : moves asks m -> leaves (execution_step tools plan) m.
Proof. intros Hm. apply leaves_asking; [done|]. intros l w. split; [done|]. left. apply calls_offered. Qed.

(** What a plan's step and the look after it come to. *)
Lemma step_then_look tools plan contract offered us us' rr :
  calls offered = [] ->
  (exists m, Offered m ∈ offered /\ List.find (fun c => String.eqb (Contracts.tool_name c) (Agents.tool_name plan)) m = Some contract) ->
  plan_step plan contract tools us [] rr ->
  (calls us' = [] \/ ((exists t ctx, rr = Ok (t, ctx) /\ tr_status t = "ok") /\ looks (offered ++ us) us')) ->
  calls (offered ++ us ++ us') = [] \/ carries_out (wf_skill_path wf) (wf_catalog wf) tools plan (offered ++ us ++ us').
Proof.
  intros Ho Hm [_ [[Hc Hnot]|(before & skill & -> & Hb & Hro & Hs & Hf)]] Hl.
  - destruct Hl as [Hl|[(t & ctx & -> & Hok) _]]; [left; by rewrite !calls_app, Ho, Hc|]. by destruct (Hnot t ctx eq_refl).
  - right. exists (offered ++ before), us', contract, skill.
    rewrite calls_app, Ho, Hb, <- !app_assoc. split_and!; try done.
    + split; [|done]. destruct Hm as (m & Hin & Hfind). exists m. split; [|done]. apply elem_of_app. by left.
    + destruct Hl as [Hl|[_ Hl]]; [by left|]. destruct Hl as [Hl|(mid & args & tail & c & -> & ? & ? & ? & Hp)]; [by left|].
      right. exists mid, args, tail, c. split_and!; try done. eapply permitted_mono; [|exact Hp]. intros m'.
      rewrite !elem_of_app, list_elem_of_singleton. intuition discriminate.
Qed.

Lemma execute_plan_leaves session span frame failed tools failure plan :
  leaves (execution_step tools plan) (execute_plan env rwf session span frame failed tools failure plan).
Proof.
  unfold execute_plan. destruct (negb _); [apply execution_nothing; moves|]. destruct plan as [plan|]; [|apply execution_nothing; moves].
  eapply leaves_bind; [apply describe_leaves| |].
  { intros us ms e (-> & Hc & _). split; [done|]. by left. }
  intros offered ms contract (-> & Ho & Hf). cbn [app].
  eapply (leaves_bind (fun us ms rr => ms = [] /\ match contract with
            | Some c => plan_step plan c tools us [] rr
            | None => calls us = [] /\ forall t ctx, rr = Ok (t, ctx) -> tr_status t <> "ok"
            end)).
  - destruct contract as [c|].
    + eapply leaves_weaken; [|apply run_plan_leaves]. intros us ms r H. pose proof H as [-> _]. by split.
    + apply leaves_asking; [moves|]. intros l w. split; [done|]. split; [apply calls_offered|]. intros t ctx H.
      match type of H with (?m ?w0).1 = _ => destruct (m w0) as [res w1] eqn:E end. cbn in H. subst res.
      apply ebind_inv in E as (? & ? & E & [[= -> ->] _]%eret_inv). by rewrite (answered_status _ _ _ _ _ _ E).
  - intros us ms e [-> Hs]. destruct contract as [c|].
    + pose proof (step_then_look tools plan c offered us [] _ Ho (Hf c eq_refl) Hs (or_introl eq_refl)) as H.
      rewrite app_nil_r in H. split; [done|]. destruct H as [H|H]; [by left|]. right. by exists plan.
    + destruct Hs as [Hs _]. split; [done|]. left. by rewrite calls_app, Ho.
  - intros us ms [r ctx] [-> Hs]. cbn [app]. set (P := execution_step _ _).
    assert (Hend : forall us' (x : result Executed), calls us' = [] \/ (tr_status r = "ok" /\ looks (offered ++ us) us') ->
              execution_step tools (Some plan) (offered ++ us ++ us') [] x).
    { intros us' x Hl. destruct contract as [c|].
      - split; [done|]. destruct (step_then_look tools plan c offered us us' _ Ho (Hf c eq_refl) Hs) as [H|H]; [|by left|by right; exists plan].
        destruct Hl as [Hl|[Hok Hl]]; [by left|]. right. split; [by exists r, ctx|done].
      - destruct Hs as [Hs Hnot]. destruct Hl as [Hl|[Hok _]]; [|by destruct (Hnot r ctx eq_refl)].
        split; [done|]. left. by rewrite !calls_app, Ho, Hs. }
    eapply (leaves_bind (fun us' ms' _ => ms' = [] /\ calls us' = [])).
    + apply leaves_asking; [moves|]. intros l w. split; [done|]. apply calls_offered.
    + intros us' ms' e [-> Hc]. apply Hend. by left.
    + intros us1 ms1 _ [-> Hc1]. eapply leaves_bind; [apply (after_result_leaves session span frame failed r (offered ++ us ++ us1))| |].
      * intros us' ms' e [-> Hl]. apply Hend. destruct Hl as [Hl|[Hok Hl]]; [left; by rewrite calls_app, Hc1|].
        right. split; [done|]. apply looks_from; [done|]. by rewrite <- app_assoc.
      * intros us' ms' rest [-> Hl] w. exists [], []. rewrite !app_nil_r. split; [done|]. split; [done|].
        apply Hend. destruct Hl as [Hl|[Hok Hl]]; [left; by rewrite calls_app, Hc1|].
        right. split; [done|]. apply looks_from; [done|]. by rewrite <- app_assoc.
Qed.

(** *** The run *)

Lemma justified_closed {A} :
  closed (fun us ms (_ : result A) => justified (wf_skill_path wf) (wf_catalog wf) us ms).
Proof.
  split; [intros l e; left; apply calls_offered|]. intros l us ms _ [Hc|(plan & shown & -> & Hin & Hp)].
  - left. by rewrite calls_app, calls_offered.
  - right. exists plan, shown. split_and!; [done|apply elem_of_app; by right|]. by apply carries_out_after; [apply calls_offered|].
Qed.

(** After the tools were shown to the agent. *)
Definition decided_step {A} (tools : list dict) (us : list unit_event) (ms : list answer) (r : result A) : Prop :=
  (length ms <= 1)%nat /\
  (calls us = [] \/ exists plan, ms = [(Some tools, Some plan)] /\ carries_out (wf_skill_path wf) (wf_catalog wf) tools plan us).

Lemma decided_closed {A} tools : closed (decided_step (A := A) tools).
Proof.
  split; [intros l e; split; [cbn; lia|left; apply calls_offered]|]. intros l us ms r [Hlen [Hc|(plan & -> & Hp)]]; (split; [done|]).
  - left. by rewrite calls_app, calls_offered.
  - right. exists plan. split; [done|]. by apply carries_out_after; [apply calls_offered|].
Qed.

Lemma decided_leaves session span frame failed items tools affective prompt
    (k : AffectiveDecision -> dict -> option RationalPlan -> string -> Executed -> eff world WorkflowResult) :
  (forall d ev plan failure ex, moves asks (k d ev plan failure ex)) ->
  leaves (decided_step tools)
    (do! (d, ev, (plan, failure)) := decide_and_plan rwf frame items tools affective prompt in
     do! ex := execute_plan env rwf session span frame failed tools failure plan in k d ev plan failure ex).
Proof.
  intros Hk. eapply leaves_bind; [apply decide_leaves| |].
  - intros us ms e (-> & [[-> _]|(? & ? & ? & _ & [=])]). split; [cbn; lia|by left].
  - intros us ms [[d ev] [plan failure]] (-> & H). 
    assert (Hlen : (length ms <= 1)%nat) by (destruct H as [[-> _]|(? & ? & ? & -> & _)]; cbn; lia).
    assert (Hend : forall us' (x : result WorkflowResult), execution_step tools plan us' [] x -> decided_step tools us' (ms ++ []) x).
    { intros us' x [_ Hx]. rewrite app_nil_r. split; [done|]. destruct Hx as [Hx|(p & -> & Hx)]; [by left|].
      destruct H as [[_ Hno]|(d' & e' & plan' & -> & [= _ _ <- _])]; [by destruct (Hno d ev p failure eq_refl)|]. right. by exists p. }
    eapply leaves_bind; [apply execute_plan_leaves| |].
    + intros us' ms' e [-> Hx]. apply Hend. by split.
    + intros us' ms' ex [-> Hx]. apply leaves_asking; [apply Hk|]. intros l w. cbn [app]. apply Hend. split; [done|].
      destruct Hx as [Hx|(p & Hp & before & after & c & skill & -> & Hb & Hpe & Hs & Hf & Hl)].
      * left. by rewrite calls_app, Hx, calls_offered.
      * right. exists p. split; [done|]. exists before, (after ++ map Offered l), c, skill. rewrite <- app_assoc. split_and!; try done.
        destruct Hl as [Hl|(mid & args & tail & c' & -> & ? & Ht & ? & ?)]; [left; by rewrite calls_app, Hl, calls_offered|].
        right. exists mid, args, (tail ++ map Offered l), c'. rewrite <- app_assoc, calls_app, Ht, calls_offered. by split_and!.
Qed.

(** The tools shown to the agent are a manifest read on the way to it. *)
Lemma prepared_leaves {B} (P : list unit_event -> list answer -> result B -> Prop) (k : _ -> eff world B) span initial frame events refs :
  (forall l e, P (map Offered l) [] (Raise e)) ->
  (forall prep l m, m ∈ l -> pr_tools prep = map contract_to_dict m -> leaves (fun us ms r => P (map Offered l ++ us) ms r) (k prep)) ->
  leaves P (ebind (prepare env clock rwf span initial frame events refs) k).
Proof.
  intros He Hk w. unfold ebind. destruct (prepare _ _ _ _ _ _ _ _ w) as [[prep|x] w1] eqn:Ep.
  - destruct (prepare_tools _ _ _ _ _ _ _ _ Ep) as (l & m & Hu & Hl & Hin & Ht).
    destruct (Hk prep l m Hin Ht w1) as (us & ms & Hu1 & Hl1 & HP). exists (map Offered l ++ us), ms.
    by rewrite Hu1, Hl1, Hu, Hl, app_assoc.
  - destruct (moves_at asks _ _ _ _ ltac:(apply prepare_asks) Ep) as [Hl (l & Hu)]. exists (map Offered l), []. rewrite app_nil_r. split; [exact Hu|]. split; [exact Hl|]. apply He.
Qed.

Lemma run_leaves raws a b c d e f :
  leaves (fun us ms _ => length ms <= 1 /\ justified (wf_skill_path wf) (wf_catalog wf) us ms)%nat (run env clock rwf raws a b c d e f).
Proof.
  set (P := fun us ms (_ : result WorkflowResult) => (length ms <= 1)%nat /\ justified (wf_skill_path wf) (wf_catalog wf) us ms).
  assert (Hcl : closed P).
  { destruct (justified_closed (A := WorkflowResult)) as [Hr Hc]. split; [intros l x; split; [cbn; lia|by apply (Hr l (External ""))]|].
    intros l us ms r [Hlen Hj]. split; [done|]. by apply (Hc l us ms r). }
  change (leaves P (run env clock rwf raws a b c d e f)). unfold run, new_id_for.
  do 8 (apply leaves_then; [done|moves|intros ? ? ? _]; repeat match goal with |- leaves _ (let '(_, _) := ?x in _) => destruct x end; cbv zeta).
  apply prepared_leaves; [apply Hcl|]. intros prep ls shown Hin Ht.
  eapply (leaves_weaken (decided_step (pr_tools prep))).
  { intros us ms r [Hlen Hd]. split; [done|]. destruct Hd as [Hc|(plan & -> & Hp)]; [left; by rewrite calls_app, calls_offered|].
    right. exists plan, shown. rewrite Ht in Hp |- *. split_and!; [done| |by apply carries_out_after; [apply calls_offered|]].
    apply elem_of_app. left. apply list_elem_of_fmap. by exists shown. }
  apply leaves_then; [apply decided_closed|moves|]. intros _ _ _ _.
  apply decided_leaves. intros. moves.
Qed.

End Trace.

