(* ===== verification/RunFrames.v ===== *)
(** * What a run can change ([workflow.py], [NoModelCoreWorkflow.run])

    A run, step by step, against a relation between the worlds before and after:
    when the store and memory backend, the unit and the agents respect it, so
    does the run, apart from the keys that its routing records. *)

From Stdlib Require Import ZArith Lia Bool List Ascii String.
From stdpp Require Import base gmap list option strings.
From S2P Require Import Prelude PyFloat Text PyValue Events Agents Contracts Policy Maf ModelAgents StateSync Store Memory Artifact Deploy PromptContext Catalog Skills Inference PlanQuality RunEvidence Workflow RunRecords.

#[local] Open Scope string_scope.
#[local] Open Scope Z_scope.
#[local] Open Scope list_scope.

Section AnyWorld.
Context {W : Type} (R : W -> W -> Prop) `{!PreOrder R}.

Lemma reading_part {A} (f : W -> result A) : moves R (fun w => (f w, w)).
Proof. intros w. cbn. reflexivity. Qed.
Lemma each_part {A B} (f : A -> eff W B) l : (forall a, moves R (f a)) -> moves R (each f l).
Proof. intros Hf. induction l as [|a l IH]; cbn [each]; moves. Qed.
Lemma catch_part {A} (m : eff W A) : moves R m -> moves R (catch_value_error m).
Proof.
  intros Hm w. specialize (Hm w). unfold catch_value_error. destruct (m w) as [[a|e] w']; [done|]. by destruct (is_value_error e).
Qed.
End AnyWorld.

Section WorldFrames.
Context {US MS CS : Type} `{Adapter : UnitAdapter US} `{SQ : Sqlite} {FS : Files}.
Context (env : nat -> Env) (clock : nat -> Z) (wf : Workflow MS CS).
#[local] Notation world := (World US MS CS).
Context (R : world -> world -> Prop) `{!PreOrder R}.
Hypothesis core_part : forall A (m : eff (Mem0State MS) A), moves R (core_do m).
Hypothesis unit_part : forall A (m : eff US A), moves R (unit_do m).
Hypothesis decide_part : forall frame items context, moves R (model_do (aa_decide (wf_affective wf) frame items context)).
Hypothesis plan_part : forall decision frame tools context, moves R (model_do (ra_plan (wf_rational wf) decision frame tools context)).

Lemma store_part_any {A} (m : eff CoreDataStore A) : moves R (store_do m).
Proof. apply core_part. Qed.
#[local] Hint Resolve core_part unit_part decide_part plan_part store_part_any catch_part : moves.
#[local] Hint Extern 1 (moves _ (memory_runtime_metadata _)) => (apply reading_part; apply _) : moves.
#[local] Hint Extern 1 (moves _ the_store) => (apply reading_part; apply _) : moves.
#[local] Hint Extern 2 (moves _ (each _ _)) => (apply each_part; [apply _|intros ?; moves]) : moves.

Lemma frame_part a b c d e : moves R (frame_phase env a b c d e).
Proof. unfold frame_phase, fresh_frame, new_id_for. moves. Qed.
Lemma facts_part span frame events : moves R (persist_frame_facts env span frame events).
Proof. unfold persist_frame_facts. moves. Qed.
Lemma memory_part span frame refs ctx : moves R (memory_phase env clock wf span frame refs ctx).
Proof. unfold memory_phase. moves. Qed.
Lemma federation_part span frame ctx : moves R (federation_phase env wf span frame ctx).
Proof. unfold federation_phase. moves. Qed.
#[local] Hint Resolve frame_part facts_part memory_part federation_part : moves.
Lemma prepare_part span initial frame events refs : moves R (prepare env clock wf span initial frame events refs).
Proof. unfold prepare. moves. Qed.
Lemma decide_and_plan_part frame items tools affective prompt : moves R (decide_and_plan wf frame items tools affective prompt).
Proof. unfold decide_and_plan. moves. Qed.
Lemma tool_answer_part a b c : moves R (tool_answer env a b c).
Proof. unfold tool_answer, new_id_for. moves. Qed.
Lemma keep_part span r : moves R (keep_result env span r).
Proof. unfold keep_result. moves. Qed.
#[local] Hint Resolve prepare_part decide_and_plan_part tool_answer_part keep_part : moves.
Lemma ask_part a b c d e f : moves R (ask_approval env a b c d e f).
Proof. unfold ask_approval, new_id_for. moves. Qed.
#[local] Hint Resolve ask_part : moves.
Lemma run_plan_part session span plan contract tools : moves R (run_plan env wf session span plan contract tools).
Proof. unfold run_plan. moves. Qed.
Lemma ask_rollback_part session span summary : moves R (ask_rollback env session span summary).
Proof. unfold ask_rollback. moves. Qed.
#[local] Hint Resolve run_plan_part ask_rollback_part : moves.
Lemma recover_part session span frame health failed : moves R (recover env session span frame health failed).
Proof. unfold recover. moves. Qed.
#[local] Hint Resolve recover_part : moves.
Lemma after_result_part session span frame failed r : moves R (after_result env session span frame failed r).
Proof. unfold after_result. moves. Qed.
#[local] Hint Resolve after_result_part : moves.
Lemma execute_plan_part session span frame failed tools failure plan :
  moves R (execute_plan env wf session span frame failed tools failure plan).
Proof. unfold execute_plan. moves. Qed.
Lemma conclude_part a b c d e f g h i j k : moves R (conclude env wf a b c d e f g h i j k).
Proof. unfold conclude, new_id_for. moves. Qed.
#[local] Hint Resolve execute_plan_part conclude_part : moves.

(** A run routes its events once; the rest respects the relation. *)
Lemma run_routes raws a b c d e f (w : world) r w' : run env clock wf raws a b c d e f w = (Ok r, w') ->
  exists events w1 w2, route_events env raws w1 = (Ok events, w2) /\ R w w1 /\ R w2 w' /\
    wr_events_persisted r = Z.of_nat (length events).
Proof.
  unfold run, new_id_for. intros (span & w1 & H1 & H)%ebind_inv. apply ebind_inv in H as (session & w2 & H2 & H).
  apply ebind_inv in H as (s & w3 & H3 & H). cbv zeta in H. apply ebind_inv in H as (events & w4 & H4 & H).
  exists events, w3, w4. split; [exact H4|]. split.
  { transitivity w1; [refine (moves_at R _ _ _ _ _ H1); moves|]. transitivity w2; [refine (moves_at R _ _ _ _ _ H2); moves|].
    refine (moves_at R _ _ _ _ _ H3). moves. }
  split; [refine (moves_at R _ _ _ _ _ H); moves|].
  apply ebind_inv in H as (us0 & w5 & _ & H). apply ebind_inv in H as (us & w6 & _ & H).
  apply ebind_inv in H as ([frame fs] & w7 & _ & H). apply ebind_inv in H as (refs & w8 & _ & H).
  apply ebind_inv in H as (p & w9 & _ & H). apply ebind_inv in H as (g & w10 & _ & H).
  apply ebind_inv in H as ([[decision evidence] [plan failure]] & w11 & _ & H). apply ebind_inv in H as (ex & w12 & _ & H).
  cbv zeta in H. by apply conclude_ok in H as (_ & _ & _ & _ & ->).
Qed.

Hypothesis see_part : forall key, moves R (see key).

Lemma route_part raws : moves R (route_events env raws).
Proof.
  unfold route_events. enough (moves R (route_each env raws)) by moves.
  induction raws as [|raw raws IH]; cbn [route_each]; [moves|].
  apply moves_bind; [apply _|moves|intros e]. apply moves_bind; [apply _|moves|intros ev].
  apply moves_bind; [apply _|apply reading_part; apply _|intros seen]. moves.
Qed.
#[local] Hint Resolve route_part : moves.
Lemma run_part raws a b c d e f : moves R (run env clock wf raws a b c d e f).
Proof. unfold run, new_id_for. moves. Qed.
End WorldFrames.

(** ** Two parts of the world *)

Section Parts.
Context {US MS CS : Type} `{Adapter : UnitAdapter US} `{SQ : Sqlite} {FS : Files}.
Context (env : nat -> Env) (clock : nat -> Z) (wf : Workflow MS CS).
#[local] Notation world := (World US MS CS).

(** The agents of a workflow do not touch the provider. *)
Definition model_free : Prop :=
  (forall frame items context, untouched (aa_decide (wf_affective wf) frame items context)) /\
  (forall decision frame tools context, untouched (ra_plan (wf_rational wf) decision frame tools context)).

Lemma model_do_untouched {A} (m : eff CS A) : untouched m -> moves (same w_model) (model_do (US := US) (MS := MS) m).
Proof. intros Hm w. unfold model_do, same. specialize (Hm (w_model w)). by destruct (m (w_model w)) as [r c]. Qed.

Lemma run_model_free raws a b c d e f : model_free -> moves (same w_model) (run env clock wf raws a b c d e f).
Proof.
  intros [Hd Hp]. apply (run_part env clock wf (same w_model)).
  - intros A m w. unfold core_do. by destruct (m (w_core w)).
  - intros A m w. unfold unit_do. by destruct (m (w_unit w)).
  - intros. by apply model_do_untouched.
  - intros. by apply model_do_untouched.
  - done.
Qed.

(** *** The keys of the router *)

(** No key is one of those before it, nor of [seen]. *)
Fixpoint fresh_keys (seen keys : list pyval) : Prop :=
  match keys with
  | [] => True
  | key :: rest => py_in key seen = false /\ fresh_keys (seen ++ [key]) rest
  end.

Lemma fresh_keys_app seen keys more : fresh_keys seen (keys ++ more) <-> fresh_keys seen keys /\ fresh_keys (seen ++ keys) more.
Proof.
  revert seen. induction keys as [|key keys IH]; intros seen; cbn [fresh_keys app]; [by rewrite app_nil_r; tauto|].
  rewrite IH, <- app_assoc. cbn [app]. tauto.
Qed.

(** Raw events against the keys seen before: the keys of those that are new, in their order; the others are dropped. *)
Inductive routed : list pyval -> list dict -> list pyval -> Prop :=
| routed_nil seen : routed seen [] []
| routed_seen seen raw e ev raws keys :
    normalize_one (e, raw) = Ok ev -> py_in (event_key ev) seen = true -> routed seen raws keys -> routed seen (raw :: raws) keys
| routed_new seen raw e ev raws keys :
    normalize_one (e, raw) = Ok ev -> py_in (event_key ev) seen = false -> routed (seen ++ [event_key ev]) raws keys ->
    routed seen (raw :: raws) (event_key ev :: keys).

Lemma routed_app seen raws keys : routed seen raws keys ->
  forall raws' keys', routed (seen ++ keys) raws' keys' -> routed seen (raws ++ raws') (keys ++ keys').
Proof.
  induction 1 as [seen|seen raw e ev raws keys He Hin Hr IH|seen raw e ev raws keys He Hin Hr IH]; intros raws' keys' H'; cbn [app].
  - by rewrite app_nil_r in H'.
  - eapply routed_seen; eauto.
  - eapply routed_new; [done|done|]. apply IH. by rewrite <- app_assoc.
Qed.

Lemma routed_fresh seen raws keys : routed seen raws keys -> fresh_keys seen keys.
Proof. induction 1; cbn [fresh_keys]; auto. Qed.
Lemma routed_length seen raws keys : routed seen raws keys -> (length keys <= length raws)%nat.
Proof. induction 1; cbn [length]; lia. Qed.

Lemma seen_quiet {A} (m : eff CoreDataStore A) : moves (same w_seen) (store_do (US := US) (MS := MS) (CS := CS) m).
Proof. intros w. unfold store_do, core_do. by destruct (Memory.on_store m (w_core w)). Qed.

Lemma route_each_keys raws : forall (w : world) events w', route_each env raws w = (Ok events, w') ->
  exists keys, w_seen w' = w_seen w ++ keys /\ length keys = length events /\ routed (w_seen w) raws keys.
Proof.
  induction raws as [|raw raws IH]; intros w events w'; cbn [route_each].
  { intros [-> ->]%eret_inv. exists []. rewrite app_nil_r. split_and!; [done|done|constructor]. }
  intros (e & w1 & H1 & H)%ebind_inv. apply (moves_at _ _ _ _ _ (seen_quiet _)) in H1. unfold same in H1.
  apply ebind_inv in H as (ev & w2 & [Hev ->]%elift_inv & H). apply ebind_inv in H as (seen & w3 & [= <- <-] & H).
  cbv zeta in H. destruct (negb (hashable _)); [by inversion H|]. rewrite H1 in H.
  destruct (py_in (event_key ev) (w_seen w)) eqn:Hin.
  - apply IH in H as (keys & Hk & Hl & Hr). rewrite H1 in Hk, Hr. exists keys. split_and!; [done|done|]. by eapply routed_seen.
  - apply ebind_inv in H as ([] & w4 & Hs & H). apply ebind_inv in H as (rest & w5 & Hr & [-> ->]%eret_inv).
    injection Hs as <-. apply IH in Hr as (keys & Hk & Hl & Hr). cbn [w_seen] in Hk, Hr. rewrite H1 in Hk, Hr.
    exists (event_key ev :: keys). rewrite Hk, <- app_assoc. cbn. rewrite Hl. split_and!; [done|done|]. by eapply routed_new.
Qed.

Lemma run_keys raws a b c d e f (w : world) r w' : run env clock wf raws a b c d e f w = (Ok r, w') ->
  exists keys, w_seen w' = w_seen w ++ keys /\ Z.of_nat (length keys) = wr_events_persisted r /\
    routed (w_seen w) raws keys /\ fresh_keys (w_seen w) keys.
Proof.
  intros (events & w1 & w2 & Hr & H1 & H2 & ->)%(run_routes env clock wf (same w_seen)).
  - unfold same in H1, H2. unfold route_events in Hr. apply ebind_inv in Hr as (l & w3 & Hr & [-> ->]%eret_inv).
    apply route_each_keys in Hr as (keys & Hk & Hl & Hr). rewrite H2, Hk, H1. rewrite H1 in Hr. exists keys.
    split_and!; [done| |done|by apply routed_fresh in Hr].
    rewrite Hl. by rewrite (Permutation_length (py_sorted_perm event_leb l)).
  - intros A m w0. unfold core_do. by destruct (m (w_core w0)).
  - intros A m w0. unfold unit_do. by destruct (m (w_unit w0)).
  - intros frame items context w0. unfold model_do. by destruct (aa_decide _ _ _ _ (w_model w0)).
  - intros decision frame tools context w0. unfold model_do. by destruct (ra_plan _ _ _ _ _ (w_model w0)).
Qed.
End Parts.
