(* ===== verification/AgentRun.v ===== *)
(** * The run commands ([workflow.py]: the dry run and the event replay)

    A run is prepared from a provider mode, a rational backend and a memory
    backend; what it answers is completed with the evidence of the store and
    the closure gates of the release. *)

From Stdlib Require Import ZArith Lia Bool List Ascii String.
From stdpp Require Import base gmap list option strings.
From S2P Require Import Prelude PyFloat Text PyValue Events Agents Contracts Policy Maf ModelAgents StateSync Store Memory Artifact Deploy PromptContext Catalog Skills Inference PlanQuality RunEvidence Workflow RunSafety RunRecords.

#[local] Open Scope string_scope.
#[local] Open Scope Z_scope.
#[local] Open Scope list_scope.

Definition AGENT_RUN_EVIDENCE_SCHEMA_VERSION : string := "1.2.2-agent-run-evidence-v1".

(** ** The evidence of a run *)

(** The metadata of the first rational adapter that has a backend; the loop passes over the others. *)
Fixpoint rational_metadata (adapters : list pyval) : dict :=
  match adapters with
  | VDict adapter :: rest =>
      if eq_str (dgetn "agent_role" adapter) "rational" then
        match dgetn "rational_backend" adapter with VDict backend => backend | _ => rational_metadata rest end
      else rational_metadata rest
  | _ :: rest => rational_metadata rest
  | [] => []
  end.
Definition extract_rational_backend_metadata (maf_runtime : dict) : result dict :=
  let! adapters := list_of (dgetn "agent_adapters" maf_runtime) in
  Ok (rational_metadata adapters).

(** [payload.get(key) or {}] and [payload.get(key) or []] as they are. *)
Definition or_dict (key : string) (d : dict) : pyval := por (dgetn (KStr key) d) (VDict []).
Definition or_list (key : string) (d : dict) : pyval := por (dgetn (KStr key) d) (VList []).
Definition present (v : pyval) : bool := match v with VNone => false | _ => true end.

(** What the evidence is read from. *)
Record RunView := {
  rv_maf_runtime : dict;
  rv_rational_backend : dict;
  rv_execution_evidence : dict;
  rv_audit_record : pyval;
  rv_audit_payload : dict;
  rv_rational_plan_evidence : pyval;
  rv_plan_status : string;
  rv_prompt : dict;
  rv_affective_runtime : dict;
  rv_memory : dict;
  rv_recall_policy : dict;
  rv_boundaries : dict;
  rv_tool_results : list pyval;
}.

Definition run_view (payload : dict) : result RunView :=
  let! maf_runtime := sub "maf_runtime" payload in
  let! execution_evidence := sub "execution_evidence" payload in
  let audit_record := dgetn "audit_record" execution_evidence in
  let! audit := as_dict (por audit_record (VDict [])) in
  let! audit_payload := sub "payload" audit in
  let! session_context := sub "session_context" audit_payload in
  let plan_evidence := por (dgetn "rational_plan_evidence" audit_payload) (dgetn "rational_plan_evidence" session_context) in
  let! prompt := sub "prompt_safe_context" session_context in
  let! affective_runtime := sub "affective_runtime" prompt in
  let! memory := sub "memory" prompt in
  let! recall_policy := sub "recall_policy" memory in
  let! rational_backend := extract_rational_backend_metadata maf_runtime in
  let! boundaries := sub "safety_boundaries" prompt in
  let! tool_results := list_of (dgetn "tool_results" payload) in
  let! plan_dict := as_dict (por plan_evidence (VDict [])) in
  Ok {| rv_maf_runtime := maf_runtime; rv_rational_backend := rational_backend; rv_execution_evidence := execution_evidence;
        rv_audit_record := audit_record; rv_audit_payload := audit_payload; rv_rational_plan_evidence := plan_evidence;
        rv_plan_status := str_or "status" "" plan_dict; rv_prompt := prompt; rv_affective_runtime := affective_runtime;
        rv_memory := memory; rv_recall_policy := recall_policy; rv_boundaries := boundaries; rv_tool_results := tool_results |}.

Definition tool_succeeded (result : pyval) : bool :=
  match result with VDict r => eq_str (dgetn "status" r) "ok" | _ => false end.
Definition real_adapter (v : RunView) : result bool :=
  let! runtime := sub "adapter_runtime" (rv_audit_payload v) in
  Ok (eq_str (dgetn "adapter_kind" runtime) "neuro-cli").
Definition evidence_list (key : string) (v : RunView) : pyval := or_list key (rv_execution_evidence v).

(** The gates in the order of the code; the last two count only when a real adapter is required. *)
Definition evidence_gates (payload : dict) (v : RunView) (required real : bool) : list (string * bool) :=
  [("provider_runtime_metadata_present", nonempty (rv_maf_runtime v));
   ("rational_backend_metadata_present", nonempty (rv_rational_backend v));
   ("rational_plan_evidence_present", py_truthy (rv_rational_plan_evidence v));
   ("rational_plan_outcome_recorded", str_in (rv_plan_status v) ["tool_selected"; "no_tool_selected"; "invalid_payload"]);
   ("memory_runtime_metadata_present", py_truthy (dgetn "memory_runtime" payload));
   ("model_call_evidence_present", present (dgetn "model_call_evidence" payload));
   ("prompt_safe_context_present", nonempty (rv_prompt v));
   ("affective_runtime_context_present", nonempty (rv_affective_runtime v));
   ("db_counts_present", py_truthy (dgetn "db_counts" payload));
   ("execution_evidence_present", nonempty (rv_execution_evidence v));
   ("policy_or_pending_evidence_present", py_truthy (por (evidence_list "policy_decisions" v) (evidence_list "approval_requests" v)));
   ("tool_result_or_pending_approval_present", py_truthy (por (or_list "tool_results" payload) (evidence_list "approval_requests" v)));
   ("audit_record_present", present (rv_audit_record v));
   ("final_response_present", py_truthy (dgetn "final_response" payload));
   ("provider_context_is_prompt_safe", eq_str (dgetn "schema_version" (rv_prompt v)) "1.2.5-prompt-safe-context-v2");
   ("multimodal_summary_present", py_truthy (dgetn "multimodal_summary" (rv_affective_runtime v)));
   ("profile_route_recorded", py_truthy (dgetn "profile_route" (rv_affective_runtime v)));
   ("presentation_policy_recorded", py_truthy (dgetn "presentation_policy" (rv_affective_runtime v)));
   ("memory_recall_policy_present", nonempty (rv_recall_policy v));
   ("affective_memory_recall_recorded", py_truthy (dgetn "affective_recall" (rv_recall_policy v)));
   ("rational_memory_recall_recorded", py_truthy (dgetn "rational_recall" (rv_recall_policy v)));
   ("direct_tool_execution_by_model_disabled",
    match dgetn "can_execute_tools_directly" (rv_boundaries v) with VBool b => negb b | _ => false end)] ++
  (if required then [("real_tool_adapter_present", real); ("real_tool_execution_succeeded", existsb tool_succeeded (rv_tool_results v))]
   else []).

Definition flags (l : list (string * bool)) : dict := dict_of (map (fun g => (g.1, VBool g.2)) l).
Definition size (v : pyval) : result pyval := let! n := py_len v in Ok (VInt n).

Definition build_agent_run_evidence (payload : dict) : result dict :=
  let! v := run_view payload in
  let! real := real_adapter v in
  let required := flag "release_gate_require_real_tool_adapter" payload in
  let gates := evidence_gates payload v required real in
  let! adapter_count := size (or_list "agent_adapters" (rv_maf_runtime v)) in
  let! affective_recall := sub "affective_recall" (rv_recall_policy v) in
  let! rational_recall := sub "rational_recall" (rv_recall_policy v) in
  let! tools_shown := size (or_list "available_tools" (rv_prompt v)) in
  let! approvals_shown := size (or_list "pending_approvals" (rv_prompt v)) in
  let! multimodal := sub "multimodal_summary" (rv_affective_runtime v) in
  let! input_modes := list_of (dgetn "input_modes" multimodal) in
  let! route := sub "profile_route" (rv_affective_runtime v) in
  let! facts := size (evidence_list "facts" v) in
  let! decisions := size (evidence_list "policy_decisions" v) in
  let! candidates := size (evidence_list "memory_candidates" v) in
  let! memories := size (evidence_list "long_term_memories" v) in
  let! requests := size (evidence_list "approval_requests" v) in
  Ok (dict_of
    [("schema_version", VStr AGENT_RUN_EVIDENCE_SCHEMA_VERSION); ("workflow", VStr "agent-run");
     ("event_source", dgetn "event_source" payload); ("runtime_mode", dgetn "runtime_mode" payload);
     ("provider_runtime", VDict (dict_of
       [("provider_mode", dgetn "provider_mode" (rv_maf_runtime v));
        ("real_provider_enabled", dgetn "real_provider_enabled" (rv_maf_runtime v));
        ("provider_ready_for_model_call", dgetn "provider_ready_for_model_call" (rv_maf_runtime v));
        ("agent_adapter_count", adapter_count)]));
     ("rational_backend", VDict (rv_rational_backend v)); ("memory_runtime", or_dict "memory_runtime" payload);
     ("tool_adapter_runtime", or_dict "adapter_runtime" (rv_audit_payload v));
     ("release_gate_require_real_tool_adapter", VBool required); ("real_tool_adapter_present", VBool real);
     ("real_tool_execution_succeeded", VBool (existsb tool_succeeded (rv_tool_results v)));
     ("model_call_evidence", dgetn "model_call_evidence" payload);
     ("rational_plan_evidence", rv_rational_plan_evidence v);
     ("prompt_safe_context", VDict (dict_of
       [("schema_version", dgetn "schema_version" (rv_prompt v)); ("memory_lookup_count", dgetn "lookup_count" (rv_memory v));
        ("affective_memory_count", dgetn "selected_count" affective_recall);
        ("rational_memory_count", dgetn "selected_count" rational_recall);
        ("available_tool_count", tools_shown); ("pending_approval_count", approvals_shown);
        ("safety_boundaries", VDict (rv_boundaries v))]));
     ("memory_recall_policy", VDict (rv_recall_policy v));
     ("affective_runtime", VDict (dict_of
       [("schema_version", dgetn "schema_version" (rv_affective_runtime v)); ("input_modes", VList input_modes);
        ("selected_profile", dgetn "selected_profile" route); ("route_status", dgetn "route_status" route);
        ("route_ready", dgetn "route_ready" route);
        ("presentation_policy", or_dict "presentation_policy" (rv_affective_runtime v))]));
     ("db_counts", or_dict "db_counts" payload);
     ("evidence_counts", VDict (dict_of
       [("facts", facts); ("policy_decisions", decisions); ("memory_candidates", candidates); ("long_term_memories", memories);
        ("approval_requests", requests); ("tool_results", count (rv_tool_results v))]));
     ("audit", VDict (dict_of
       [("audit_id", dgetn "audit_id" payload); ("audit_record_present", VBool (present (rv_audit_record v)));
        ("session_id", dgetn "session_id" payload)]));
     ("final_response", dgetn "final_response" payload); ("closure_gates", VDict (flags gates));
     ("ok", VBool (forallb snd gates))]).

(** ** The payload of a run *)

Definition build_db_counts (s : CoreDataStore) : dict :=
  dict_of [("perception_events", count (perception_events s)); ("execution_spans", count (execution_spans s));
           ("facts", count (facts s)); ("policy_decisions", count (policy_decisions s));
           ("memory_candidates", count (memory_candidates s)); ("long_term_memories", count (long_term_memories s));
           ("tool_results", count (tool_results s)); ("approval_requests", count (approval_requests s));
           ("approval_decisions", count (approval_decisions s)); ("audit_records", count (audit_records s))].

(** [recent_topics]: the answer of a query whose order SQLite leaves open (DISTINCT, ordered by another column). *)
Definition RecentTopics : Type := Z -> list EventRow -> list string.

Definition audit_model_evidence (execution_evidence : dict) : result pyval :=
  match dgetn "audit_record" execution_evidence with
  | VDict record =>
      let! audit_payload := as_dict (dgetn "payload" record) in
      let! session_context := sub "session_context" audit_payload in
      Ok (dgetn "model_call_evidence" session_context)
  | _ => Raise (TypeError "object is not subscriptable")
  end.

Section Commands.
Context {US MS CS : Type} `{Adapter : UnitAdapter US} `{SQ : Sqlite} {FS : Files}.
Context (env : nat -> Env) (clock : nat -> Z) (recent_topics : RecentTopics).
#[local] Notation world := (World US MS CS).

Definition build_workflow_run_payload (wf : Workflow MS CS) (result : WorkflowResult) (use_db_events : bool)
    (query_limit min_priority : Z) (topic : option string) (require_real_tool_adapter : bool) (event_source : string)
    : eff world dict :=
  do! memory_runtime := memory_runtime_metadata wf in
  do! s := the_store in
  do! evidence := elift (build_execution_evidence (wr_execution_span_id result) (wr_audit_id result) s) in
  do! model_call_evidence := elift (audit_model_evidence evidence) in
  let payload := set_all
    [("maf_runtime", VDict (maf_runtime_metadata wf)); ("memory_runtime", VDict memory_runtime);
     ("release_gate_require_real_tool_adapter", VBool require_real_tool_adapter);
     ("runtime_mode", VStr (if real_provider (wf_profile wf) then "real_llm" else "deterministic"));
     ("model_call_evidence", model_call_evidence); ("db_counts", VDict (build_db_counts s));
     ("query", VDict (dict_of
       [("use_db_events", VBool use_db_events); ("query_limit", VInt query_limit); ("min_priority", VInt min_priority);
        ("topic", opt_str topic);
        ("recent_topics", VList (vstrs (recent_topics (Z.min query_limit 10) (perception_events s))))]));
     ("execution_evidence", VDict evidence); ("event_source", VStr event_source);
     ("session", VDict (session_to_dict (load_snapshot (wr_session_id result) (Some (wr_execution_span_id result)) 5 s)))]
    (result_to_dict result) in
  do! agent_run := elift (build_agent_run_evidence payload) in
  eret (dset "agent_run_evidence" (VDict agent_run) payload).

(** ** Preparing a run *)

(** What the commands are given besides the events: the provider mode, the leave to call a model, a client
    and a memory backend of the caller's own, the names of the rational and memory backends, and a
    provider of federation routes. *)
Record RunRequest := {
  rr_provider_mode : string;
  rr_allow_model_call : bool;
  rr_memory : option (MemoryBackend MS);
  rr_memory_backend : string;
  rr_mem0_client : option (Mem0Client MS);
  rr_provider_client : option (MafProviderClient CS);
  rr_rational_backend : string;
  rr_copilot_agent_factory : option (dict -> string -> eff CS AgentResponse);
  rr_federation : option (PerceptionFrame -> dict -> result pyval);
}.

(** What surrounds the process: the installed packages with what they do, its environment, the files and
    the texts of exceptions. *)
Record Surroundings := {
  su_environ : environ;
  su_framework : bool;
  su_run_agent : dict -> string -> string -> string -> eff CS AgentResponse;
  su_copilot : option (dict -> string -> eff CS AgentResponse);
  su_mem0_installed : bool;
  su_mem0_client : option string -> Mem0Client MS + string;
  su_skill_path : string;
  su_catalog : WorkflowCatalog;
  su_exc_text : pyerr -> string;
}.

Definition resolve_client (su : Surroundings) (rr : RunRequest) (profile : MafRuntimeProfile) (env' : environ)
    : result (option (MafProviderClient CS)) :=
  if negb (real_provider profile) then Ok (rr_provider_client rr)
  else if negb (rr_allow_model_call rr) then Raise (ValueError "real_provider_mode_requires_allow_model_call")
  else match rr_provider_client rr with
       | Some client => Ok (Some client)
       | None => let! client := build_default_maf_provider_client (su_run_agent su) profile env' in Ok (Some client)
       end.

(** The workflow, from the environment the provider is configured in. *)
Definition prepare_workflow (su : Surroundings) (rr : RunRequest) (runtime_env : environ) : result (Workflow MS CS) :=
  let! profile := build_maf_runtime_profile (rr_provider_mode rr) (su_framework su) runtime_env in
  let! client := resolve_client su rr profile runtime_env in
  if String.eqb (rr_rational_backend rr) "copilot" && negb (rr_allow_model_call rr) then
    Raise (ValueError "copilot_rational_backend_requires_allow_model_call")
  else
    let! memory := match rr_memory rr with
      | Some m => Ok m
      | None => build_memory_backend (su_mem0_installed su) (su_mem0_client su) (rr_memory_backend rr) (rr_mem0_client rr)
                  (fun name => su_environ su !! name)
      end in
    let! affective := build_affective_agent_adapter profile client in
    let! rational := build_rational_agent_adapter profile client (rr_rational_backend rr) (rr_allow_model_call rr)
                       (su_environ su) (rr_copilot_agent_factory rr) (su_copilot su) in
    Ok {| wf_profile := profile; wf_memory := memory; wf_affective := affective; wf_rational := rational;
          wf_federation := rr_federation rr; wf_skill_path := su_skill_path su; wf_catalog := su_catalog su;
          wf_environment := su_environ su; wf_exc_text := su_exc_text su |}.

Definition sample_events : list dict :=
  [dict_of [("event_id", VStr "evt-demo-callback-001"); ("source_kind", VStr "unit_app"); ("source_node", VStr "unit-01");
            ("source_app", VStr "neuro_demo_gpio"); ("event_type", VStr "callback"); ("semantic_topic", VStr "unit.callback");
            ("timestamp_wall", VStr "2026-05-04T00:00:00Z"); ("priority", VInt 80); ("dedupe_key", VStr "demo-callback-001");
            ("policy_tags", VList (vstrs ["demo"; "no_model"]));
            ("payload", VDict (dict_of [("callback_enabled", VBool true)]))];
   dict_of [("event_id", VStr "evt-time-tick-001"); ("source_kind", VStr "clock"); ("event_type", VStr "time.tick");
            ("semantic_topic", VStr "time.tick"); ("timestamp_wall", VStr "2026-05-04T00:00:01Z"); ("priority", VInt 10);
            ("dedupe_key", VStr "tick-001"); ("policy_tags", VList (vstrs ["clock"]));
            ("payload", VDict (dict_of [("period_ms", VInt 1000)]))]].

(** A router made anew that knows these keys, which are those of the newest events of the store. *)
Definition seed_router (keys : list string) : eff world unit :=
  emodify (fun w => Build_World (w_core w) (w_unit w) (w_model w) (seed_dedupe_keys [] (vstrs keys))).

(** [runtime_env] is what [build_provider_runtime_env] answers; its values are text here. *)
Definition run_no_model_dry_run (su : Surroundings) (rr : RunRequest) (runtime_env : result environ) (use_db_events : bool)
    (query_limit min_priority : Z) (topic : option string) (events : option (list dict)) (session_id : option string)
    (require_real_tool_adapter : bool) (event_source_label : option string) : eff world dict :=
  do! runtime_env := elift runtime_env in
  do! wf := elift (prepare_workflow su rr runtime_env) in
  let event_source := match event_source_label, events with
    | Some label, _ => label
    | None, Some _ => "provided"
    | None, None => "sample"
    end in
  do! result := run env clock wf (default sample_events events) use_db_events query_limit min_priority topic session_id event_source in
  build_workflow_run_payload wf result use_db_events query_limit min_priority topic require_real_tool_adapter event_source.

Definition replay_topic (event : dict) : string :=
  py_str (por (por (dgetn "semantic_topic" event) (dgetn "event_type" event)) (VStr "unknown")).

Definition run_event_replay (su : Surroundings) (rr : RunRequest) (runtime_env : result environ) (events : list dict)
    (session_id : option string) (require_real_tool_adapter : bool) (replay_label : option string) : eff world dict :=
  do! payload := run_no_model_dry_run su rr runtime_env false 100 0 None (Some events) session_id require_real_tool_adapter
                   (Some "replay_file") in
  do! persisted := elift (py_int (dget_or "events_persisted" (VInt 0) payload)) in
  eret (set_all
    [("command", VStr "event-replay"); ("event_source", VStr "replay_file");
     ("event_replay", VDict (dict_of
       [("replay_label", VStr (default "inline" (str_truthy replay_label))); ("provided_event_count", count events);
        ("normalized_event_count", VInt persisted);
        ("duplicate_event_count", VInt (Z.max 0 (Z.of_nat (length events) - persisted)));
        ("replayed_topics", VList (vstrs (sorted_strings (remove_dups (map replay_topic events)))))]))] payload).
End Commands.
