(* ===== verification/EventDaemon.v ===== *)
(** * The event daemon ([workflow.py], [run_event_daemon_replay])

    Batches of events are planned and run one after the other in one session,
    through one router that knows the keys of the store: what an earlier cycle
    or an earlier process delivered is not delivered again. *)

From Stdlib Require Import ZArith Lia Bool List Ascii String.
From stdpp Require Import base gmap list option strings.
From S2P Require Import Prelude PyFloat Text PyValue Events Agents Motivation Contracts Policy Maf ModelAgents Persona Autonomy StateSync Store Memory Artifact Deploy PromptContext Catalog Skills Inference PlanQuality RunEvidence Workflow RunSafety RunRecords RunFrames AgentRun.

#[local] Open Scope string_scope.
#[local] Open Scope Z_scope.
#[local] Open Scope list_scope.

(** ** What a daemon is given *)

Record DaemonRequest := {
  dr_autonomy_enabled : bool;
  dr_policy : option AutonomousDaemonPolicy;
  dr_vitality : option VitalityState;
  dr_persona : option PersonaState;
  dr_operator_paused : bool;
}.

(** What it has so far, after each cycle. *)
Record DaemonState := {
  da_session : option string;
  da_cycles : list dict;
  da_provided : Z;
  da_planned : Z;
  da_normalized : Z;
  da_topics : list string;          (* a set *)
  da_last_maintenance : option Z;
  da_last_timestamp : option string;
}.

Definition start_state (session : option string) : DaemonState :=
  {| da_session := session; da_cycles := []; da_provided := 0; da_planned := 0; da_normalized := 0; da_topics := [];
     da_last_maintenance := None; da_last_timestamp := None |}.

(** The wall time of the last event, if it says one. *)
Definition last_stamp (batch : list dict) : option string :=
  match last batch with
  | Some event => if py_truthy (dgetn "timestamp_wall" event) then Some (py_str (dgetn "timestamp_wall" event)) else None
  | None => None
  end.
Definition is_maintenance (event : dict) : bool :=
  String.eqb (py_str (por (por (dgetn "semantic_topic" event) (dgetn "event_type" event)) (VStr ""))) "core.maintenance.tick".

(** ** A cycle *)

(** A batch with what the autonomy plans to it, the time of the cycle and the plan's dictionary. *)
Record PlannedBatch := { pb_events : list dict; pb_timestamp : string; pb_maintenance : bool; pb_plan : option AutonomousCyclePlan }.

Definition plan_batch (dr : DaemonRequest) (index : Z) (last_maintenance : option Z) (timestamp : string) (batch : list dict)
    : result PlannedBatch :=
  if negb (dr_autonomy_enabled dr) then
    Ok {| pb_events := batch; pb_timestamp := timestamp; pb_maintenance := false; pb_plan := None |}
  else
    let! plan := plan_autonomous_cycle (default default_daemon_policy (dr_policy dr)) batch index timestamp (dr_vitality dr)
                   last_maintenance (dr_operator_paused dr) in
    let planned := cp_planned_events plan in
    Ok {| pb_events := planned; pb_timestamp := default timestamp (last_stamp planned);
          pb_maintenance := existsb is_maintenance planned; pb_plan := Some plan |}.

Definition sleeps (p : PlannedBatch) : bool :=
  match pb_plan p with Some plan => negb (cp_should_run_workflow plan) | None => false end.

Definition autonomy_summary (dr : DaemonRequest) (p : PlannedBatch) : dict :=
  dset "persona_summary" (VDict (build_persona_summary (dr_persona dr)))
    (dset "vitality_summary" (VDict (build_vitality_summary (dr_vitality dr)))
       (match pb_plan p with Some plan => plan_to_dict plan | None => [] end)).

(** What a cycle reports, after a run or without one. *)
Definition cycle_entry (dr : DaemonRequest) (index : Z) (batch : list dict) (p : PlannedBatch) (result : option WorkflowResult) : dict :=
  let provided := Z.of_nat (length batch) in
  let planned := Z.of_nat (length (pb_events p)) in
  dict_of
    ([("cycle_index", VInt index); ("provided_event_count", VInt provided); ("planned_event_count", VInt planned);
      ("synthetic_event_count", VInt (Z.max 0 (planned - provided)))] ++
     (match result with
      | Some r =>
          [("normalized_event_count", VInt (wr_events_persisted r));
           ("duplicate_event_count", VInt (Z.max 0 (planned - wr_events_persisted r)));
           ("execution_span_id", VStr (wr_execution_span_id r)); ("audit_id", VStr (wr_audit_id r));
           ("status", VStr (wr_status r)); ("delegated", VBool (wr_delegated r)); ("steps", VList (vstrs (wr_steps r)));
           ("tool_result_count", count (wr_tool_results r)); ("final_response", VDict (wr_final_response r))]
      | None =>
          [("normalized_event_count", VInt 0); ("duplicate_event_count", VInt 0); ("execution_span_id", VStr "");
           ("audit_id", VStr "");
           ("status", VStr (match pb_plan p with
                            | Some plan => if String.eqb (cp_wake_decision plan) "" then "sleep" else cp_wake_decision plan
                            | None => "sleep"
                            end));
           ("delegated", VBool false); ("steps", VList []); ("tool_result_count", VInt 0); ("final_response", VDict [])]
      end) ++ [("autonomy", VDict (autonomy_summary dr p))]).

Section Daemon.
Context {US MS CS : Type} `{Adapter : UnitAdapter US} `{SQ : Sqlite} {FS : Files}.
Context (env : nat -> Env) (clock : nat -> Z) (wf : Workflow MS CS) (dr : DaemonRequest).
#[local] Notation world := (World US MS CS).

Definition planned_state (index : Z) (batch : list dict) (p : PlannedBatch) (s : DaemonState) : DaemonState :=
  {| da_session := da_session s; da_cycles := da_cycles s; da_provided := da_provided s + Z.of_nat (length batch);
     da_planned := da_planned s + Z.of_nat (length (pb_events p)); da_normalized := da_normalized s;
     da_topics := da_topics s ++ map replay_topic (pb_events p);
     da_last_maintenance := if pb_maintenance p then Some index else da_last_maintenance s;
     da_last_timestamp := Some (pb_timestamp p) |}.

Definition add_cycle (entry : dict) (result : option WorkflowResult) (s : DaemonState) : DaemonState :=
  {| da_session := match result with Some r => Some (wr_session_id r) | None => da_session s end;
     da_cycles := da_cycles s ++ [entry]; da_provided := da_provided s; da_planned := da_planned s;
     da_normalized := da_normalized s + match result with Some r => wr_events_persisted r | None => 0 end;
     da_topics := da_topics s; da_last_maintenance := da_last_maintenance s; da_last_timestamp := da_last_timestamp s |}.

Definition daemon_cycle (index : Z) (batch : list dict) (s : DaemonState) : eff world DaemonState :=
  do! timestamp := match last_stamp batch with Some t => eret t | None => store_do (utc_now env) end in
  do! p := elift (plan_batch dr index (da_last_maintenance s) timestamp batch) in
  let s := planned_state index batch p s in
  if sleeps p then eret (add_cycle (cycle_entry dr index batch p None) None s)
  else
    do! r := run env clock wf (pb_events p) false 100 0 None (da_session s) "daemon_replay_file" in
    eret (add_cycle (cycle_entry dr index batch p (Some r)) (Some r) s).

Fixpoint daemon_cycles (index : Z) (batches : list (list dict)) (s : DaemonState) : eff world DaemonState :=
  match batches with
  | [] => eret s
  | batch :: rest => do! s := daemon_cycle index batch s in daemon_cycles (index + 1) rest s
  end.

(** The state after the last cycle, with the keys that were seeded and the executions before. *)
Definition daemon_runs (batches : list (list dict)) (session_id : option string) : eff world (DaemonState * list string * Z) :=
  do! s := the_store in
  let keys := get_recent_dedupe_keys 1000 s in
  do! _ := seed_router keys in
  let previous := match str_truthy session_id with
                  | Some session => Z.of_nat (length (get_execution_spans_for_session session 1000 s))
                  | None => 0
                  end in
  do! final := daemon_cycles 1 batches (start_state session_id) in
  eret (final, keys, previous).

Definition daemon_payload (final : DaemonState) (keys : list string) (previous : Z) (require_real_tool_adapter : bool)
    (replay_label : option string) : eff world dict :=
  do! memory_runtime := memory_runtime_metadata wf in
  do! s := the_store in
  do! seen := seen_keys in
  let cycle_count := Z.of_nat (length (da_cycles final)) in
  let state := build_daemon_state (dr_autonomy_enabled dr) (dr_operator_paused dr) cycle_count (da_last_maintenance final)
                 previous (Z.of_nat (length keys)) (da_last_timestamp final) (dr_vitality dr) (dr_persona dr) in
  eret (dict_of
    [("ok", VBool true); ("status", VStr "ok"); ("command", VStr "event-daemon"); ("event_source", VStr "daemon_replay_file");
     ("runtime_mode", VStr (if real_provider (wf_profile wf) then "real_llm" else "deterministic"));
     ("session_id", opt_str (da_session final)); ("maf_runtime", VDict (maf_runtime_metadata wf));
     ("memory_runtime", VDict memory_runtime); ("db_counts", VDict (build_db_counts s));
     ("event_daemon_evidence", VDict (dict_of
       [("schema_version", VStr "1.2.3-event-daemon-evidence-v1");
        ("replay_label", VStr (default "inline" (str_truthy replay_label))); ("cycle_count", VInt cycle_count);
        ("provided_event_count", VInt (da_provided final)); ("planned_event_count", VInt (da_planned final));
        ("normalized_event_count", VInt (da_normalized final));
        ("duplicate_event_count", VInt (Z.max 0 (da_planned final - da_normalized final)));
        ("seeded_dedupe_key_count", count keys); ("dedupe_key_count", count seen);
        ("observed_topics", VList (vstrs (sorted_strings (remove_dups (da_topics final)))));
        ("autonomy_enabled", VBool (dr_autonomy_enabled dr)); ("daemon_state", VDict (daemon_state_to_dict state));
        ("cycles", VList (map VDict (da_cycles final)))]));
     ("release_gate_require_real_tool_adapter", VBool require_real_tool_adapter)]).

Definition daemon (batches : list (list dict)) (session_id : option string) (require_real_tool_adapter : bool)
    (replay_label : option string) : eff world dict :=
  do! (final, keys, previous) := daemon_runs batches session_id in
  daemon_payload final keys previous require_real_tool_adapter replay_label.
End Daemon.

(** The command: the provider is configured in the process environment. *)
Definition run_event_daemon_replay {US MS CS} `{Adapter : UnitAdapter US} `{SQ : Sqlite} {FS : Files} (env : nat -> Env)
    (clock : nat -> Z) (su : Surroundings) (rr : RunRequest (MS := MS) (CS := CS)) (dr : DaemonRequest) (batches : list (list dict))
    (session_id : option string) (require_real_tool_adapter : bool) (replay_label : option string) : eff (World US MS CS) dict :=
  do! wf := elift (prepare_workflow su rr (su_environ su)) in
  daemon env clock wf dr batches session_id require_real_tool_adapter replay_label.

(** ** The events of all cycles *)

Section Accounts.
Context {US MS CS : Type} `{Adapter : UnitAdapter US} `{SQ : Sqlite} {FS : Files}.
Context (env : nat -> Env) (clock : nat -> Z) (wf : Workflow MS CS) (dr : DaemonRequest).
#[local] Notation world := (World US MS CS).

(** The batches as the autonomy plans them, from cycle [index] on: each at the time of its last event, or of a reading of the
    clock, with the last cycle that did maintenance. *)
Inductive planned_cycles : Z -> option Z -> list (list dict) -> list PlannedBatch -> Prop :=
| planned_none index maintained : planned_cycles index maintained [] []
| planned_one index maintained timestamp batch p batches plans :
    (forall t, last_stamp batch = Some t -> timestamp = t) ->
    plan_batch dr index maintained timestamp batch = Ok p ->
    planned_cycles (index + 1) (if pb_maintenance p then Some index else maintained) batches plans ->
    planned_cycles index maintained (batch :: batches) (p :: plans).

(** What the run of a cycle is given. *)
Definition delivered (p : PlannedBatch) : list dict := if sleeps p then [] else pb_events p.

(** The cycles add their batches and plans to the counts, and the new keys of what they deliver to the router. *)
Definition accounts (batches : list (list dict)) (plans : list PlannedBatch) (s s' : DaemonState) (w w' : world) : Prop :=
  length (da_cycles s') = (length (da_cycles s) + length batches)%nat /\
  da_provided s' = da_provided s + Z.of_nat (length (concat batches)) /\
  da_planned s' = da_planned s + Z.of_nat (length (concat (map pb_events plans))) /\
  exists keys, w_seen w' = w_seen w ++ keys /\ da_normalized s' = da_normalized s + Z.of_nat (length keys) /\
               routed (w_seen w) (concat (map delivered plans)) keys.

Lemma cycle_accounts index batch s (w : world) s' w' :
  daemon_cycle env clock wf dr index batch s w = (Ok s', w') ->
  exists timestamp p, (forall t, last_stamp batch = Some t -> timestamp = t) /\
    plan_batch dr index (da_last_maintenance s) timestamp batch = Ok p /\
    da_last_maintenance s' = (if pb_maintenance p then Some index else da_last_maintenance s) /\ accounts [batch] [p] s s' w w'.
Proof.
  unfold daemon_cycle. intros (t & w1 & H1 & H)%ebind_inv.
  assert (Hw : w_seen w1 = w_seen w /\ forall t', last_stamp batch = Some t' -> t = t').
  { destruct (last_stamp batch); [apply eret_inv in H1 as [-> ->]; split; [done|by intros ? [= ->]]|].
    split; [exact (moves_at _ _ _ _ _ (seen_quiet _) H1)|done]. }
  destruct Hw as [Hw Ht]. apply ebind_inv in H as (p & w2 & [Hp ->]%elift_inv & H). cbv zeta in H. exists t, p. split; [done|]. split; [done|].
  unfold accounts. destruct (sleeps p) eqn:Hsl.
  - apply eret_inv in H as [-> ->]. split; [done|]. cbn. rewrite length_app, !app_nil_r, Hw. split_and!; [done|done|done|].
    exists []. unfold delivered. rewrite Hsl, app_nil_r. split_and!; [done|cbn; lia|constructor].
  - apply ebind_inv in H as (r & w3 & Hr%run_keys & [-> ->]%eret_inv). destruct Hr as (keys & Hk & Hl & Hr & _). split; [done|]. cbn.
    rewrite length_app, !app_nil_r. split_and!; [done|done|done|]. rewrite Hk, Hw. rewrite Hw in Hr. exists keys. unfold delivered. rewrite Hsl.
    split_and!; [done|lia|done].
Qed.

Lemma cycles_account batches : forall index s (w : world) s' w',
  daemon_cycles env clock wf dr index batches s w = (Ok s', w') ->
  exists plans, planned_cycles index (da_last_maintenance s) batches plans /\ accounts batches plans s s' w w'.
Proof.
  induction batches as [|batch batches IH]; intros index s w s' w'; cbn [daemon_cycles].
  - intros [-> ->]%eret_inv. exists []. split; [constructor|]. unfold accounts. cbn. split_and!; [lia|lia|lia|]. exists []. rewrite app_nil_r.
    split_and!; [done|cbn; lia|constructor].
  - intros (s1 & w1 & (t & p & Ht & Hplan & Hm & Hc & Hp & Hpl & keys & Hk & Hn & Hf)%cycle_accounts &
      (plans & Hplans & Hc' & Hp' & Hpl' & more & Hk' & Hn' & Hf')%IH)%ebind_inv.
    exists (p :: plans). split; [eapply planned_one; [done|done|by rewrite <- Hm]|].
    unfold accounts. cbn [concat map length app] in *. rewrite app_nil_r in Hp, Hpl, Hf. rewrite !length_app, !Nat2Z.inj_add. split_and!; [lia|lia|lia|].
    exists (keys ++ more). rewrite Hk', Hk, <- app_assoc, length_app. split_and!; [done|lia|]. apply routed_app; [done|]. by rewrite <- Hk.
Qed.
End Accounts.

(** ** A sample: the same event in two batches *)

Definition sample_daemon : DaemonRequest :=
  {| dr_autonomy_enabled := false; dr_policy := None; dr_vitality := None; dr_persona := None; dr_operator_paused := false |}.
Definition sample_batches : list (list dict) := [sample_events; sample_events ++ [sample_event "user.input.query.apps" []]].
Definition sample_daemon_runs : result (DaemonState * list string * Z) * World nat nat nat :=
  daemon_runs (Adapter := fake_unit sample_env) (SQ := sample_sqlite) (FS := sample_files) sample_env memory_clock sample_workflow
    sample_daemon sample_batches None sample_world.
Definition daemon_counts (r : result (DaemonState * list string * Z) * World nat nat nat) : list Z :=
  match r.1 with
  | Ok (final, keys, _) => [Z.of_nat (length (da_cycles final)); da_provided final; da_planned final; da_normalized final;
                            Z.of_nat (length keys); Z.of_nat (length (w_seen r.2))]
  | Raise _ => []
  end.
Example repeated_events_are_dropped : daemon_counts sample_daemon_runs = [2; 5; 5; 3; 0; 3].
Proof. vm_compute. reflexivity. Qed.

(** C11: over all its cycles the daemon delivers an event once.  When it ends it has one entry for each batch; the events it counts
    as provided are those of the batches, and the events it counts as planned are those that the autonomy planned for the batches
    in turn.  The events of the plans that do not sleep went through the router one after the other, which was seeded with the
    dedupe keys of the 1000 latest stored events that have one (an older event, or one stored without such a key, may come
    again): an event whose key was seeded, or came earlier, was dropped, and each other added its key, once; and there is one
    such key for each event that it counts as normalized. *)
Theorem daemon_delivers_once {US MS CS} (Adapter : UnitAdapter US) (SQ : Sqlite) (FS : Files) env clock (wf : Workflow MS CS)
    dr batches session_id (w : World US MS CS) final keys previous w' :
  daemon_runs env clock wf dr batches session_id w = (Ok (final, keys, previous), w') ->
  length (da_cycles final) = length batches /\ da_provided final = Z.of_nat (length (concat batches)) /\
  keys = get_recent_dedupe_keys 1000 (stored w) /\
  exists plans new, planned_cycles dr 1 None batches plans /\
    da_planned final = Z.of_nat (length (concat (map pb_events plans))) /\
    let seeded := seed_dedupe_keys [] (vstrs keys) in
    w_seen w' = seeded ++ new /\ routed seeded (concat (map delivered plans)) new /\ fresh_keys seeded new /\
    da_normalized final = Z.of_nat (length new).
Proof.
  unfold daemon_runs. intros (s & w1 & [= <- <-] & H)%ebind_inv. cbv zeta in H. apply ebind_inv in H as ([] & w2 & [= <-] & H).
  apply ebind_inv in H as (final' & w3 & (plans & Hplans & Hc & Hp & Hpl & new & Hk & Hn & Hf)%cycles_account & [[= -> -> ->] ->]%eret_inv).
  cbn in Hc, Hp, Hpl, Hk, Hn, Hf, Hplans. split_and!; [done|lia|done|]. exists plans, new. cbv zeta.
  split_and!; [done|lia|done|done|by eapply routed_fresh|lia].
Qed.

Definition daemon_final (r : result (DaemonState * list string * Z) * World nat nat nat) : DaemonState :=
  match r.1 with Ok (final, _, _) => final | Raise _ => start_state None end.

Lemma daemon_delivers_once_witness : da_normalized (daemon_final sample_daemon_runs) = 3 /\
  length (da_cycles (daemon_final sample_daemon_runs)) = 2%nat.
Proof.
  split; [vm_compute; reflexivity|].
  refine (proj1 (daemon_delivers_once (fake_unit sample_env) sample_sqlite sample_files sample_env memory_clock sample_workflow
    sample_daemon sample_batches None sample_world (daemon_final sample_daemon_runs) [] 0 sample_daemon_runs.2 (run_eq _ _ _))).
  vm_compute. reflexivity.
Defined.
