(* ===== verification/EventService.v ===== *)
(** * The live event service ([workflow.py], [run_live_event_service])

    A bounded number of cycles: each collects what a monitor of the unit reports,
    runs the workflow on it and keeps a record of its lifecycle in the store.  The
    service ends with its span "completed", or "failed" with the reason. *)

From Stdlib Require Import ZArith Lia Bool List Ascii String.
From stdpp Require Import base gmap list option strings.
From S2P Require Import Prelude PyFloat Text PyValue Events Agents Contracts Policy Maf ModelAgents StateSync CliAdapter Store Memory Artifact Deploy PromptContext Catalog Skills Inference PlanQuality RunEvidence Workflow RunSafety RunRecords RunFrames AgentRun.

#[local] Open Scope string_scope.
#[local] Open Scope Z_scope.
#[local] Open Scope list_scope.

Definition EVENT_SERVICE_SCHEMA_VERSION : string := "1.2.4-event-service-v1".

(** What the service needs of a tool adapter besides its tools: the monitors of an application and of the unit,
    given how long and how many events to wait for, and a file to announce that they listen. *)
Class LiveMonitor (S : Type) := {
  monitor_app_events : string -> Z -> Z -> string -> eff S dict;
  monitor_live_events : Z -> Z -> string -> eff S dict;
}.

(** The command-line adapter has both. *)
#[export] Instance cli_monitor (config : CliConfig) {S : Type} (run : Runner S) : LiveMonitor (CliState (S := S)) :=
  {| monitor_app_events := collect_app_events config; monitor_live_events := collect_live_events config |}.

Definition event_service_failure_class (failure_status : string) : string :=
  if String.eqb failure_status "no_reply" then "event_service_monitor_unreachable"
  else if str_in failure_status ["endpoint_drift"; "stale_endpoint"] then "event_service_stale_endpoint"
  else if String.eqb failure_status "no_events_collected" then "event_service_monitor_empty"
  else "event_service_monitor_failed".

(** ** Topics *)

Definition kind_text (d : dict) : string := py_str (por (por (dgetn "semantic_topic" d) (dgetn "event_type" d)) (VStr "")).
Definition non_empty (l : list string) : list string := List.filter (fun s => negb (String.eqb s "")) l.
Definition sorted_set (l : list string) : list string := sorted_strings (remove_dups l).

Definition event_service_topics (events : list PerceptionEvent) : list string :=
  sorted_set (non_empty (concat (map (fun ev =>
    [kind_text (ev_payload ev); py_str (por (por (semantic_topic ev) (VStr (event_type ev))) (VStr ""))]) events))).
Definition raw_service_topics (events : list dict) : list string :=
  sorted_set (non_empty (concat (map (fun event =>
    [match dgetn "payload" event with VDict payload => kind_text payload | _ => "" end; kind_text event]) events))).

(** ** The service *)

Record ServiceRequest := {
  sq_event_source : string;
  sq_app_id : string;
  sq_duration : Z;
  sq_max_events : Z;
  sq_cycles : Z;
  sq_ready_file : string;
}.

Definition of_app (q : ServiceRequest) : bool := String.eqb (sq_event_source q) "app".
Definition service_subject (q : ServiceRequest) : string := if of_app q then sq_app_id q else "unit-events".
Definition source_label (q : ServiceRequest) : string := if of_app q then "neuro_cli_app_events_live" else "neuro_cli_events_live".
Definition monitor_command (q : ServiceRequest) : string := if of_app q then "app-events" else "events".

Definition check_request (q : ServiceRequest) : result unit :=
  if negb (str_in (sq_event_source q) ["app"; "unit"]) then Raise (ValueError "event_service_requires_valid_event_source")
  else if of_app q && String.eqb (sq_app_id q) "" then Raise (ValueError "event_service_requires_app_id")
  else if sq_cycles q <=? 0 then Raise (ValueError "event_service_requires_positive_cycles")
  else Ok tt.

(** What the service keeps between its cycles. *)
Record ServiceState := {
  sv_session : string;
  sv_lifecycle : list dict;
  sv_summaries : list dict;
  sv_collected : Z;
  sv_persisted : Z;
  sv_duplicates : Z;
  sv_last_payload : option dict;
  sv_last_event_id : string;
  sv_subscription : pyval;
  sv_listener_mode : pyval;
  sv_handler_audit : pyval;
}.

Definition start_service (session : string) : ServiceState :=
  {| sv_session := session; sv_lifecycle := []; sv_summaries := []; sv_collected := 0; sv_persisted := 0; sv_duplicates := 0;
     sv_last_payload := None; sv_last_event_id := ""; sv_subscription := VNone; sv_listener_mode := VNone;
     sv_handler_audit := VNone |}.

Definition with_lifecycle (entry : dict) (s : ServiceState) : ServiceState :=
  {| sv_session := sv_session s; sv_lifecycle := sv_lifecycle s ++ [entry]; sv_summaries := sv_summaries s;
     sv_collected := sv_collected s; sv_persisted := sv_persisted s; sv_duplicates := sv_duplicates s;
     sv_last_payload := sv_last_payload s; sv_last_event_id := sv_last_event_id s; sv_subscription := sv_subscription s;
     sv_listener_mode := sv_listener_mode s; sv_handler_audit := sv_handler_audit s |}.

(** After the monitor answered, before the workflow runs. *)
Definition with_collected (live : dict) (collected duplicates : Z) (s : ServiceState) : ServiceState :=
  {| sv_session := sv_session s; sv_lifecycle := sv_lifecycle s; sv_summaries := sv_summaries s;
     sv_collected := sv_collected s + collected; sv_persisted := sv_persisted s; sv_duplicates := sv_duplicates s + duplicates;
     sv_last_payload := sv_last_payload s; sv_last_event_id := sv_last_event_id s;
     sv_subscription := dgetn "subscription" live; sv_listener_mode := dgetn "listener_mode" live;
     sv_handler_audit := dgetn "handler_audit" live |}.

(** After the workflow ran. *)
Definition with_run (session : string) (payload summary : dict) (persisted : Z) (last_event_id : string) (s : ServiceState) : ServiceState :=
  {| sv_session := session; sv_lifecycle := sv_lifecycle s; sv_summaries := sv_summaries s ++ [summary];
     sv_collected := sv_collected s; sv_persisted := sv_persisted s + persisted; sv_duplicates := sv_duplicates s;
     sv_last_payload := Some payload; sv_last_event_id := if String.eqb last_event_id "" then sv_last_event_id s else last_event_id;
     sv_subscription := sv_subscription s; sv_listener_mode := sv_listener_mode s; sv_handler_audit := sv_handler_audit s |}.

(** [base_event_service_payload()]; the lists in it are the service's own, so it is built where they are complete. *)
Definition base_service_payload (q : ServiceRequest) (span : string) (seeded : Z) (s : ServiceState) : dict :=
  let payload := dict_of
    [("schema_version", VStr EVENT_SERVICE_SCHEMA_VERSION); ("bounded_runtime", VBool true);
     ("event_source_kind", VStr (sq_event_source q)); ("monitor_command", VStr (monitor_command q));
     ("duration", VInt (sq_duration q)); ("max_events", VInt (sq_max_events q)); ("cycle_count", VInt (sq_cycles q));
     ("execution_span_id", VStr span); ("workflow_execution_span_id", VNone); ("session_id", VStr (sv_session s));
     ("subscription", VNone); ("listener_mode", VNone); ("handler_audit", VNone);
     ("lifecycle", dicts_value (sv_lifecycle s)); ("cycle_summaries", dicts_value (sv_summaries s));
     ("checkpoint", VDict (dict_of [("last_event_id", VStr ""); ("persisted_event_count", VInt 0)]));
     ("seeded_dedupe_key_count", VInt seeded); ("collected_event_count", VInt (sv_collected s));
     ("duplicate_event_count", VInt (sv_duplicates s)); ("normalized_event_count", VInt (sv_persisted s))] in
  if of_app q then dset "app_id" (VStr (sq_app_id q)) payload else payload.

Section Service.
Context {US MS CS : Type} `{Adapter : UnitAdapter US} `{Monitor : LiveMonitor US} `{SQ : Sqlite} {FS : Files}.
Context (env : nat -> Env) (clock : nat -> Z) (recent_topics : RecentTopics) (wf : Workflow MS CS) (q : ServiceRequest).
#[local] Notation world := (World US MS CS).

Section Span.
Context (span : string) (seeded : Z).

Definition record_lifecycle (state : string) (extra : list (string * pyval)) (s : ServiceState) : eff world ServiceState :=
  do! now := store_do (utc_now env) in
  let entry := dict_of ([("lifecycle_state", VStr state); ("timestamp_wall", VStr now)] ++ extra) in
  do! _ := store_do (persist_fact env span "event_service_lifecycle" (service_subject q) entry) in
  eret (with_lifecycle entry s).

Definition fail_event_service (status failure_status : string) (s : ServiceState) : eff world dict :=
  do! s := record_lifecycle "clean_shutdown" [("service_status", VStr "failed"); ("shutdown_reason", VStr failure_status)] s in
  let service := dset "failure_status" (VStr failure_status) (base_service_payload q span seeded s) in
  do! checkpoint := elift (sub "checkpoint" service) in
  do! _ := store_do (persist_fact env span "event_service_checkpoint" (service_subject q) checkpoint) in
  do! _ := store_do (persist_execution_span env span "failed" (dict_of
    [("command", VStr "event-service"); ("status", VStr status); ("failure_status", VStr failure_status);
     ("event_source", VStr (source_label q)); ("event_service", VDict service)]) (Some (sv_session s))) in
  do! st := the_store in
  eret (dict_of
    [("ok", VBool false); ("status", VStr status); ("command", VStr "event-service");
     ("failure_class", VStr (event_service_failure_class failure_status)); ("failure_status", VStr failure_status);
     ("event_source", VStr (source_label q)); ("tool_adapter_runtime", VDict ua_metadata); ("session_id", VStr (sv_session s));
     ("db_counts", VDict (build_db_counts st)); ("event_service", VDict service)]).

Definition collect_events : eff US dict :=
  if of_app q then monitor_app_events (sq_app_id q) (sq_duration q) (sq_max_events q) (sq_ready_file q)
  else monitor_live_events (sq_duration q) (sq_max_events q) (sq_ready_file q).

Definition dict_events (live : dict) : result (list dict) :=
  let! items := list_of (dgetn "events" live) in
  Ok (omap (fun v => match v with VDict d => Some d | _ => None end) items).

(** A router of its own that knows the same keys: what would be new, and its topics. *)
Definition probe (events : list dict) : eff world (Z * list string) :=
  do! seen := seen_keys in
  do! raws := each (fun event => do! e := store_do (read_env env) in eret (e, event)) events in
  do! (fresh, _) := elift (Events.normalize (seed_dedupe_keys [] seen) raws) in
  eret (Z.max 0 (Z.of_nat (length events) - Z.of_nat (length fresh)),
        match fresh with [] => raw_service_topics events | _ => event_service_topics fresh end).

Definition running (last_cycle : bool) : pyval := VStr (if last_cycle then "completed" else "running").

(** The entries after a run: an endpoint that drifted, the events that were stored, a heartbeat. *)
Definition record_cycle (index collected duplicates persisted : Z) (run_span : string) (topics : list string) (s : ServiceState)
    : eff world ServiceState :=
  let last_cycle := negb (index <? sq_cycles q) in
  let counts := [("service_status", running last_cycle); ("cycle_index", VInt index); ("collected_event_count", VInt collected);
                 ("persisted_event_count", VInt persisted); ("duplicate_event_count", VInt duplicates);
                 ("workflow_execution_span_id", VStr run_span)] in
  do! s := (if str_in "unit.network.endpoint_drift" topics
            then record_lifecycle "stale_endpoint" [("service_status", VStr "running"); ("cycle_index", VInt index);
                                                    ("observed_topics", VList (vstrs topics))] s
            else eret s) in
  do! s := (if 0 <? persisted then record_lifecycle "events_persisted" counts s else eret s) in
  if negb last_cycle || (persisted =? 0) then record_lifecycle "heartbeat" counts s else eret s.

(** One cycle, and the ones after it. *)
Definition service_cycle (index : Z) (s : ServiceState) : eff world (ServiceState + dict) :=
  do! collected := catch_value_error (unit_do collect_events) in
  match collected with
  | inr e =>
      let failure_status := text_or "event_service_monitor_failed" (wf_exc_text wf e) in
      do! s := record_lifecycle failure_status [("service_status", VStr "failed"); ("cycle_index", VInt index);
                                                ("failure_status", VStr failure_status)] s in
      do! payload := fail_event_service "event_service_monitor_failed" failure_status s in
      eret (inr payload)
  | inl live =>
      do! events := elift (dict_events live) in
      let collected := Z.of_nat (length events) in
      do! (duplicates, topics) := probe events in
      do! s := record_lifecycle "ready" [("service_status", VStr "ready"); ("cycle_index", VInt index);
                                         ("subscription", dgetn "subscription" live);
                                         ("listener_mode", dgetn "listener_mode" live)]
                 (with_collected live collected duplicates s) in
      if is_empty events && (index =? 1) && (sv_persisted s =? 0) then
        do! s := record_lifecycle "no_events" [("service_status", VStr "completed"); ("cycle_index", VInt index);
                                               ("collected_event_count", VInt 0)] s in
        do! payload := fail_event_service "event_service_ingest_empty" "no_events_collected" s in
        eret (inr payload)
      else
        do! r := run env clock wf events false 100 0 None (Some (sv_session s)) (source_label q) in
        do! payload := build_workflow_run_payload recent_topics wf r false 100 0 None true (source_label q) in
        let last_event_id := match last events with Some event => str_or "event_id" "" event | None => "" end in
        let persisted := wr_events_persisted r in
        let summary := dict_of
          [("cycle_index", VInt index); ("raw_event_count", VInt collected); ("duplicate_event_count", VInt duplicates);
           ("persisted_event_count", VInt persisted); ("workflow_execution_span_id", VStr (wr_execution_span_id r));
           ("observed_topics", VList (vstrs topics)); ("last_event_id", VStr last_event_id)] in
        let s := with_run (wr_session_id r) payload summary persisted last_event_id s in
        do! s := record_cycle index collected duplicates persisted (wr_execution_span_id r) topics s in
        eret (inl s)
  end.

Fixpoint service_cycles (remaining : nat) (index : Z) (s : ServiceState) : eff world (ServiceState + dict) :=
  match remaining with
  | O => eret (inl s)
  | S remaining =>
      do! outcome := service_cycle index s in
      match outcome with
      | inr payload => eret (inr payload)
      | inl s => service_cycles remaining (index + 1) s
      end
  end.

Definition last_run_span (s : ServiceState) : pyval :=
  match sv_last_payload s with Some payload => dgetn "execution_span_id" payload | None => VNone end.

Definition complete_event_service (s : ServiceState) : eff world dict :=
  let checkpoint := dict_of [("last_event_id", VStr (sv_last_event_id s)); ("persisted_event_count", VInt (sv_persisted s))] in
  do! _ := store_do (persist_fact env span "event_service_checkpoint" (service_subject q) checkpoint) in
  do! s := record_lifecycle "clean_shutdown" [("service_status", VStr "completed");
                                              ("shutdown_reason", VStr "bounded_runtime_complete")] s in
  let service := set_all
    ([("subscription", sv_subscription s); ("listener_mode", sv_listener_mode s); ("handler_audit", sv_handler_audit s)] ++
     (match sv_last_payload s with Some _ => [("workflow_execution_span_id", last_run_span s)] | None => [] end) ++
     [("checkpoint", VDict checkpoint)]) (base_service_payload q span seeded s) in
  do! _ := store_do (persist_execution_span env span "completed" (dict_of
    [("command", VStr "event-service"); ("status", VStr "ok"); ("event_source", VStr (source_label q));
     ("event_service", VDict service); ("workflow_execution_span_id", dgetn "workflow_execution_span_id" service)])
    (Some (sv_session s))) in
  do! st := the_store in
  eret (set_all
    [("ok", VBool true); ("status", VStr "ok"); ("command", VStr "event-service"); ("event_source", VStr (source_label q));
     ("session_id", VStr (sv_session s)); ("events_persisted", VInt (sv_persisted s)); ("db_counts", VDict (build_db_counts st));
     ("event_service", VDict service)] (default [] (sv_last_payload s))).
End Span.

(** The service over a workflow; its router is made anew. *)
Definition event_service (session_id : option string) : eff world dict :=
  do! s := the_store in
  let keys := get_recent_dedupe_keys 1000 s in
  let seeded := Z.of_nat (length keys) in
  do! _ := seed_router keys in
  do! session := match str_truthy session_id with Some id => eret id | None => new_id_for env "session" end in
  do! span := new_id_for env "span" in
  do! _ := store_do (persist_execution_span env span "running" (dict_of
    [("command", VStr "event-service"); ("event_source", VStr (source_label q)); ("event_source_kind", VStr (sq_event_source q));
     ("monitor_command", VStr (monitor_command q)); ("app_id", VStr (sq_app_id q)); ("duration", VInt (sq_duration q));
     ("max_events", VInt (sq_max_events q)); ("cycles", VInt (sq_cycles q))]) (Some session)) in
  do! s := record_lifecycle span "start" [("service_status", VStr "running"); ("event_source", VStr (source_label q));
                                          ("bounded_runtime", VBool true)] (start_service session) in
  do! s := (if seeded =? 0 then eret s
            else record_lifecycle span "restart" [("service_status", VStr "running"); ("restart_reason", VStr "checkpoint_seeded");
                                                  ("seeded_dedupe_key_count", VInt seeded)] s) in
  do! outcome := service_cycles span seeded (Z.to_nat (sq_cycles q)) 1 s in
  match outcome with
  | inr payload => eret payload
  | inl s => complete_event_service span seeded s
  end.
End Service.

(** The command: the provider is configured in the process environment. *)
Definition run_live_event_service {US MS CS} `{Adapter : UnitAdapter US} `{Monitor : LiveMonitor US} `{SQ : Sqlite} {FS : Files}
    (env : nat -> Env) (clock : nat -> Z) (recent_topics : RecentTopics) (su : Surroundings)
    (rr : RunRequest (MS := MS) (CS := CS)) (q : ServiceRequest) (session_id : option string) : eff (World US MS CS) dict :=
  do! _ := elift (check_request q) in
  do! wf := elift (prepare_workflow su rr (su_environ su)) in
  event_service env clock recent_topics wf q session_id.

(** ** How a service ends *)

Section Ends.
Context {US MS CS : Type} (Adapter : UnitAdapter US) (Monitor : LiveMonitor US) (SQ : Sqlite) (FS : Files).
Context (env : nat -> Env) (clock : nat -> Z) (recent_topics : RecentTopics) (wf : Workflow MS CS) (q : ServiceRequest).
#[local] Notation world := (World US MS CS).

Lemma persist_fact_ok span type subject payload s id s' :
  persist_fact env span type subject payload s = (Ok id, s') ->
  exists column row, json_column payload = Ok column /\ s' = with_facts (facts s ++ [row]) (with_next (S (S (st_next s))) s) /\
    fa_span row = span /\ fa_type row = type /\ fa_subject row = subject /\ fa_payload row = column.
Proof.
  unfold persist_fact. intros (id' & s1 & Hd & H)%ebind_inv. unfold draw, read_env, ebind, eret in Hd. injection Hd as <- <-.
  apply ebind_inv in H as (column & s2 & [Hc ->]%elift_inv & H). apply ebind_inv in H as (now & s2 & Hn & H).
  unfold utc_now, read_env, ebind, eret in Hn. injection Hn as <- <-.
  apply ebind_inv in H as ([] & s3 & ->%insert_row_inv & [-> ->]%eret_inv). exists column. eexists. by split_and!.
Qed.

(** The store has an entry of the lifecycle that says the service shut down. *)
Definition shut_down (span : string) (s : CoreDataStore) : Prop :=
  exists row entry, row ∈ facts s /\ fa_span row = span /\ fa_type row = "event_service_lifecycle" /\
    dget "lifecycle_state" entry = Some (VStr "clean_shutdown") /\ json_column entry = Ok (fa_payload row).

Lemma shut_down_grows span s s' : facts s ⊆ facts s' -> shut_down span s -> shut_down span s'.
Proof. intros Hs (row & entry & Hin & H). exists row, entry. auto. Qed.

Lemma shutdown_recorded span extra s (w : world) s' w' :
  record_lifecycle env q span "clean_shutdown" extra s w = (Ok s', w') -> shut_down span (stored w').
Proof.
  unfold record_lifecycle. intros (now & w1 & _ & H)%ebind_inv. cbv zeta in H.
  apply ebind_inv in H as (id & w2 & Hf%store_do_inv%persist_fact_ok & [_ ->]%eret_inv).
  destruct Hf as (column & row & Hc & Hst & Hs & Ht & _ & Hp). exists row. eexists. rewrite Hst. cbn [facts with_facts].
  rewrite elem_of_app, list_elem_of_singleton, Hp. split_and!; [by right|done|done| |exact Hc]. done.
Qed.

Lemma seen_same {A} (m : eff world A) w r w' : moves (same w_seen) m -> m w = (r, w') -> w_seen w' = w_seen w.
Proof. intros Hm E. exact (moves_at _ _ _ _ _ Hm E). Qed.
Lemma unit_seen {A} (m : eff US A) : moves (same w_seen) (unit_do (MS := MS) (CS := CS) m).
Proof. intros w. unfold unit_do. by destruct (m (w_unit w)). Qed.
#[local] Hint Resolve seen_quiet unit_seen : moves.
#[local] Hint Extern 1 (moves _ (memory_runtime_metadata _)) => (apply reading_part; apply _) : moves.
#[local] Hint Extern 1 (moves _ the_store) => (apply reading_part; apply _) : moves.
#[local] Hint Extern 1 (moves _ seen_keys) => (apply reading_part; apply _) : moves.

Lemma lifecycle_seen span state extra s : moves (same w_seen) (record_lifecycle (US := US) (MS := MS) (CS := CS) env q span state extra s).
Proof. unfold record_lifecycle. moves. Qed.
#[local] Hint Resolve lifecycle_seen : moves.
Lemma record_cycle_seen span a b c d e f s : moves (same w_seen) (record_cycle (US := US) (MS := MS) (CS := CS) env q span a b c d e f s).
Proof. unfold record_cycle. moves. Qed.
Lemma payload_seen r a b c d e f : moves (same w_seen) (build_workflow_run_payload (US := US) (CS := CS) recent_topics wf r a b c d e f).
Proof. unfold build_workflow_run_payload. moves. Qed.
Lemma probe_seen events : moves (same w_seen) (probe (US := US) (MS := MS) (CS := CS) env events).
Proof.
  unfold probe. apply moves_bind; [apply _|moves|intros seen]. apply moves_bind; [apply _| |intros raws; moves].
  apply each_part; [apply _|]. intros event. moves.
Qed.
#[local] Hint Resolve record_cycle_seen payload_seen probe_seen : moves.

Lemma lifecycle_persisted span state extra s (w : world) s' w' :
  record_lifecycle env q span state extra s w = (Ok s', w') -> sv_persisted s' = sv_persisted s.
Proof.
  unfold record_lifecycle. intros (now & w1 & _ & H)%ebind_inv. cbv zeta in H.
  by apply ebind_inv in H as (id & w2 & _ & [-> _]%eret_inv).
Qed.
Lemma record_cycle_persisted span a b c d e f s (w : world) s' w' :
  record_cycle env q span a b c d e f s w = (Ok s', w') -> sv_persisted s' = sv_persisted s.
Proof.
  unfold record_cycle. intros (s1 & w1 & H1 & H)%ebind_inv. apply ebind_inv in H as (s2 & w2 & H2 & H).
  assert (sv_persisted s1 = sv_persisted s) as <-
    by (destruct (str_in _ f); [by apply lifecycle_persisted in H1|by apply eret_inv in H1 as [-> _]]).
  assert (sv_persisted s2 = sv_persisted s1) as <-
    by (destruct (0 <? d); [by apply lifecycle_persisted in H2|by apply eret_inv in H2 as [-> _]]).
  destruct (_ || _); [by apply lifecycle_persisted in H|by apply eret_inv in H as [-> _]].
Qed.

(** What the answer says of the span, and what the store has of it. *)
Definition ended (span : string) (ok : bool) (payload : dict) (s : CoreDataStore) : Prop :=
  dget "ok" payload = Some (VBool ok) /\
  (exists service, dget "event_service" payload = Some (VDict service) /\ dget "execution_span_id" service = Some (VStr span)) /\
  (exists row, get_execution_span span s = Some row /\ sp_status row = if ok then "completed" else "failed") /\ shut_down span s.

Lemma span_closed span status payload session s s' :
  persist_execution_span env span status payload session s = (Ok tt, s') ->
  (exists row, get_execution_span span s' = Some row /\ sp_status row = status) /\ facts s' = facts s.
Proof.
  intros H. split.
  - apply persist_execution_span_ok in H as (row & Hr & Hs & _). by exists row.
  - exact (moves_at _ _ _ _ _ (persist_span_same env facts (fun _ _ => eq_refl) _ _ _ _ (fun _ _ => eq_refl)) H).
Qed.

Lemma failed_ends span seeded status failure s (w : world) payload w' :
  fail_event_service env q span seeded status failure s w = (Ok payload, w') -> ended span false payload (stored w').
Proof.
  unfold fail_event_service. intros (s1 & w1 & Hs%shutdown_recorded & H)%ebind_inv. cbv zeta in H.
  apply ebind_inv in H as (checkpoint & w2 & [_ ->]%elift_inv & H).
  apply ebind_inv in H as (id & w3 & (column & row & _ & Hst & _)%store_do_inv%persist_fact_ok & H).
  apply ebind_inv in H as ([] & w4 & [Hspan Hf]%store_do_inv%span_closed & H).
  apply ebind_inv in H as (st & w5 & [= <- <-] & [-> ->]%eret_inv). split; [done|]. split_and!; [|done|].
  - eexists. split; [reflexivity|]. unfold base_service_payload. by destruct (of_app q).
  - eapply shut_down_grows; [|exact Hs]. rewrite Hf, Hst. cbn. set_solver.
Qed.

Lemma completed_ends span seeded s (w : world) payload w' :
  complete_event_service env q span seeded s w = (Ok payload, w') ->
  ended span true payload (stored w') /\ dget "events_persisted" payload = Some (VInt (sv_persisted s)) /\ w_seen w' = w_seen w.
Proof.
  intros H. split; [|split].
  3:{ eapply seen_same; [|exact H]. unfold complete_event_service. moves. }
  all: unfold complete_event_service in H; apply ebind_inv in H as (id & w1 & _ & H);
    apply ebind_inv in H as (s1 & w2 & Hr & H); cbv zeta in H;
    apply ebind_inv in H as ([] & w3 & [Hspan Hf]%store_do_inv%span_closed & H);
    apply ebind_inv in H as (st & w4 & [= <- <-] & [-> ->]%eret_inv).
  - split; [cbn [set_all foldl fst snd]; by rewrite !dget_dset_str|]. split_and!; [|done|].
    + eexists. split; [cbn [set_all foldl fst snd]; by rewrite !dget_dset_str|]. unfold base_service_payload.
      by destruct (of_app q), (sv_last_payload s1).
    + eapply shut_down_grows; [|by eapply shutdown_recorded]. by rewrite Hf.
  - cbn [set_all foldl fst snd]. rewrite !dget_dset_str. cbn. f_equal. f_equal.
    exact (lifecycle_persisted _ _ _ _ _ _ _ Hr).
Qed.

(** The service counts as many events as the router has new keys. *)
Definition new_keys (s s' : ServiceState) (w w' : world) : Prop :=
  exists keys, w_seen w' = w_seen w ++ keys /\ fresh_keys (w_seen w) keys /\ sv_persisted s' = sv_persisted s + Z.of_nat (length keys).

Definition outcome_ok (span : string) (s : ServiceState) (w w' : world) (outcome : ServiceState + dict) : Prop :=
  match outcome with inl s' => new_keys s s' w w' | inr payload => ended span false payload (stored w') end.

Lemma cycle_outcome span seeded index s (w : world) outcome w' :
  service_cycle env clock recent_topics wf q span seeded index s w = (Ok outcome, w') -> outcome_ok span s w w' outcome.
Proof.
  unfold service_cycle. intros (collected & w1 & H1 & H)%ebind_inv.
  apply seen_same in H1; [|apply catch_part; moves]. destruct collected as [live|e].
  2:{ cbv zeta in H. apply ebind_inv in H as (s1 & w2 & _ & H). apply ebind_inv in H as (payload & w3 & Hf & [-> ->]%eret_inv).
      by apply failed_ends in Hf. }
  apply ebind_inv in H as (events & w2 & [_ ->]%elift_inv & H). cbv zeta in H.
  apply ebind_inv in H as ([duplicates topics] & w2 & H2 & H). apply seen_same in H2; [|moves].
  apply ebind_inv in H as (s1 & w3 & H3 & H). pose proof (lifecycle_persisted _ _ _ _ _ _ _ H3) as Hs1.
  apply seen_same in H3; [|moves]. destruct (is_empty events && _ && _).
  { apply ebind_inv in H as (s2 & w4 & _ & H). apply ebind_inv in H as (payload & w5 & Hf & [-> ->]%eret_inv). by apply failed_ends in Hf. }
  apply ebind_inv in H as (r & w4 & (keys & Hk & Hl & _ & Hfresh)%run_keys & H).
  apply ebind_inv in H as (payload & w5 & H5 & H). apply seen_same in H5; [|moves].
  apply ebind_inv in H as (s2 & w6 & H6 & [-> ->]%eret_inv). pose proof (record_cycle_persisted _ _ _ _ _ _ _ _ _ _ _ H6) as Hs2.
  apply seen_same in H6; [|moves]. assert (Hw : w_seen w3 = w_seen w) by congruence. rewrite Hw in Hk, Hfresh.
  exists keys. rewrite H6, H5. split_and!; [done|done|]. rewrite Hs2. cbn. rewrite Hs1. cbn. lia.
Qed.

Lemma cycles_outcome span seeded remaining : forall index s (w : world) outcome w',
  service_cycles env clock recent_topics wf q span seeded remaining index s w = (Ok outcome, w') -> outcome_ok span s w w' outcome.
Proof.
  induction remaining as [|remaining IH]; intros index s w outcome w'; cbn [service_cycles].
  - intros [-> ->]%eret_inv. exists []. rewrite app_nil_r. split_and!; [done|done|cbn; lia].
  - intros ([s1|payload] & w1 & H1%cycle_outcome & H)%ebind_inv; [|by apply eret_inv in H as [-> ->]].
    apply IH in H. destruct H1 as (keys & Hk & Hf & Hn). destruct outcome as [s2|payload]; [|done].
    destruct H as (more & Hk' & Hf' & Hn'). exists (keys ++ more).
    rewrite Hk', Hk, <- app_assoc, length_app, fresh_keys_app, <- Hk. split_and!; [done|done|done|lia].
Qed.

Lemma service_ends session_id (w : world) payload w' :
  event_service env clock recent_topics wf q session_id w = (Ok payload, w') ->
  exists span ok, ended span ok payload (stored w') /\
    (ok = true -> exists new, let seeded := seed_dedupe_keys [] (vstrs (get_recent_dedupe_keys 1000 (stored w))) in
       w_seen w' = seeded ++ new /\ fresh_keys seeded new /\ dget "events_persisted" payload = Some (VInt (Z.of_nat (length new)))).
Proof.
  unfold event_service, new_id_for. intros (st & w0 & [= <- <-] & H)%ebind_inv. cbv zeta in H.
  apply ebind_inv in H as ([] & w1 & [= <-] & H). apply ebind_inv in H as (session & w2 & H2 & H).
  assert (Hw2 := H2). apply seen_same in Hw2; [|moves]. apply ebind_inv in H as (span & w3 & H3 & H). apply seen_same in H3; [|moves].
  apply ebind_inv in H as ([] & w4 & H4 & H). apply seen_same in H4; [|moves].
  apply ebind_inv in H as (s1 & w5 & H5 & H). pose proof (lifecycle_persisted _ _ _ _ _ _ _ H5) as Hs1.
  apply seen_same in H5; [|moves]. apply ebind_inv in H as (s2 & w6 & H6 & H).
  assert (Hs2 : sv_persisted s2 = sv_persisted s1 /\ w_seen w6 = w_seen w5).
  { destruct (_ =? 0); [by apply eret_inv in H6 as [-> ->]|]. split; [by apply lifecycle_persisted in H6|].
    by apply seen_same in H6; [|moves]. }
  destruct Hs2 as [Hs2 Hw6]. apply ebind_inv in H as (outcome & w7 & Ho%cycles_outcome & H). exists span.
  destruct outcome as [s3|failed]; [|apply eret_inv in H as [-> ->]; by exists false].
  exists true. destruct Ho as (new & Hk & Hf & Hn). apply completed_ends in H as (He & Hp & Hw'). split; [done|]. intros _.
  assert (Hw : w_seen w6 = seed_dedupe_keys [] (vstrs (get_recent_dedupe_keys 1000 (stored w)))).
  { transitivity (w_seen w2); [congruence|]. rewrite Hw2. done. }
  exists new. cbv zeta. rewrite <- Hw. split_and!; [congruence|done|]. rewrite Hp, Hn, Hs2, Hs1. by cbn.
Qed.
End Ends.

(** ** Samples: a monitor that reports the same event each time, and one that does not answer *)

Definition sample_monitor : LiveMonitor nat := {|
  monitor_app_events _ _ _ _ := eraise (ValueError "no_reply");
  monitor_live_events _ _ _ := eret (dict_of [("events", VList [VDict (sample_event "user.input.query.apps" [])])]);
|}.
Definition sample_request (source app : string) : ServiceRequest :=
  {| sq_event_source := source; sq_app_id := app; sq_duration := 5; sq_max_events := 1; sq_cycles := 2; sq_ready_file := "" |}.
#[local] Notation sample_service source app := (
  event_service (Adapter := fake_unit sample_env) (Monitor := sample_monitor) (SQ := sample_sqlite) (FS := sample_files) sample_env
    memory_clock (fun _ _ => []) sample_workflow (sample_request source app) None sample_world).
Definition service_answer (r : result dict * World nat nat nat) : pyval * pyval * list pyval :=
  (match r.1 with Ok payload => dgetn "status" payload | Raise _ => VNone end,
   match r.1 with Ok payload => dgetn "events_persisted" payload | Raise _ => VNone end,
   map (fun f => dgetn "lifecycle_state" (fa_payload f))
     (List.filter (fun f => String.eqb (fa_type f) "event_service_lifecycle") (facts (stored r.2)))).

Example service_completes : service_answer (sample_service "unit" "") =
  (VStr "ok", VInt 1, map VStr ["start"; "ready"; "events_persisted"; "heartbeat"; "ready"; "heartbeat"; "clean_shutdown"]).
Proof. vm_compute. reflexivity. Qed.
Example service_fails : service_answer (sample_service "app" "demo") =
  (VStr "event_service_monitor_failed", VNone, map VStr ["start"; "ValueError"; "clean_shutdown"]).
Proof. vm_compute. reflexivity. Qed.

(** C10: a service that answers has ended: the answer names a span that the store has as "completed" when the answer is ok and as
    "failed" otherwise, with an entry of its lifecycle that says it shut down; and when it is ok the events it says were persisted
    are as many as the keys that its router learnt over all its cycles, none of which equals a key it was seeded with, or one
    learnt earlier.  It was seeded with the dedupe keys of the 1000 latest stored events that have one; an older event, or one
    stored without such a key, may come again. *)
Theorem event_service_ends {US MS CS} (Adapter : UnitAdapter US) (Monitor : LiveMonitor US) (SQ : Sqlite) (FS : Files) env clock
    recent_topics (wf : Workflow MS CS) q session_id (w : World US MS CS) payload w' :
  event_service env clock recent_topics wf q session_id w = (Ok payload, w') ->
  exists span ok, ended span ok payload (stored w') /\
    (ok = true -> exists new, let seeded := seed_dedupe_keys [] (vstrs (get_recent_dedupe_keys 1000 (stored w))) in
       w_seen w' = seeded ++ new /\ fresh_keys seeded new /\ dget "events_persisted" payload = Some (VInt (Z.of_nat (length new)))).
Proof. apply service_ends. Qed.

Definition answer_of (r : result dict * World nat nat nat) : dict := match r.1 with Ok payload => payload | Raise _ => [] end.

Lemma event_service_ends_witness :
  dgetn "ok" (answer_of (sample_service "unit" "")) = VBool true /\
  exists span ok, ended span ok (answer_of (sample_service "unit" "")) (stored (sample_service "unit" "").2).
Proof.
  split; [vm_compute; reflexivity|].
  assert (E : sample_service "unit" "" = (Ok (answer_of (sample_service "unit" "")), (sample_service "unit" "").2)).
  { apply run_eq. vm_compute. reflexivity. }
  destruct (event_service_ends (fake_unit sample_env) sample_monitor sample_sqlite sample_files sample_env memory_clock
    (fun _ _ => []) sample_workflow (sample_request "unit" "") None sample_world _ _ E) as (span & ok & He & _). by exists span, ok.
Defined.
