(* ===== verification/RunCommands.v ===== *)
(** * What the run commands may do ([workflow.py])

    The dry run, the event replay, the event daemon and the live event service:
    through any number of cycles they execute only tools that observe, read or
    suggest, they only ask for approvals, and without leave they never call a
    model. *)

From Stdlib Require Import ZArith Lia Bool List Ascii String.
From stdpp Require Import base gmap list option strings.
From S2P Require Import Prelude PyFloat Text PyValue Events Agents Contracts Policy Maf ModelAgents StateSync Store StoreTypes Memory Artifact Deploy PromptContext Catalog Skills Inference PlanQuality RunEvidence Workflow RunSafety RunRecords RunFrames AgentRun EventDaemon EventService.

#[local] Open Scope string_scope.
#[local] Open Scope Z_scope.
#[local] Open Scope list_scope.

(** ** The commands, step by step

    A relation that the runs of a workflow, the writes to the store and the
    monitors respect is respected by the commands. *)
Section Commands.
Context {US MS CS : Type} `{Adapter : UnitAdapter US} `{Monitor : LiveMonitor US} `{SQ : Sqlite} {FS : Files}.
Context (env : nat -> Env) (clock : nat -> Z) (recent_topics : RecentTopics).
#[local] Notation world := (World US MS CS).
Context (R : world -> world -> Prop) `{!PreOrder R}.
Hypothesis span_step : forall a b c d, moves R (store_do (persist_execution_span env a b c d)).
Hypothesis fact_step : forall a b c d, moves R (store_do (persist_fact env a b c d)).
Hypothesis time_step : moves R (store_do (utc_now env)).
Hypothesis read_step : moves R (store_do (read_env env)).
Hypothesis id_step : forall prefix, moves R (store_do (draw env prefix)).
Hypothesis seed_step : forall keys, moves R (seed_router keys).

#[local] Hint Resolve span_step fact_step time_step read_step id_step seed_step catch_part : moves.
#[local] Hint Extern 1 (moves _ (memory_runtime_metadata _)) => (apply reading_part; apply _) : moves.
#[local] Hint Extern 1 (moves _ the_store) => (apply reading_part; apply _) : moves.
#[local] Hint Extern 1 (moves _ seen_keys) => (apply reading_part; apply _) : moves.
#[local] Hint Extern 2 (moves _ (each _ _)) => (apply each_part; [apply _|intros ?; moves]) : moves.

Lemma run_payload_step wf r a b c d e f : moves R (build_workflow_run_payload recent_topics wf r a b c d e f).
Proof. unfold build_workflow_run_payload. moves. Qed.
#[local] Hint Resolve run_payload_step : moves.

(** The runs of the workflow that a command prepares respect the relation. *)
Definition runs_kept (wf : Workflow MS CS) : Prop := forall raws a b c d e f, moves R (run env clock wf raws a b c d e f).
Definition prepared_kept (su : Surroundings) (rr : RunRequest) : Prop :=
  forall env' wf, prepare_workflow su rr env' = Ok wf -> runs_kept wf.

Lemma dry_run_step su rr runtime_env a b c d e f g h :
  prepared_kept su rr -> moves R (run_no_model_dry_run env clock recent_topics su rr runtime_env a b c d e f g h).
Proof.
  intros Hruns. unfold run_no_model_dry_run. apply moves_bind; [apply _|moves|intros env'].
  apply moves_lift_bind; [apply _|]. intros wf Hwf. apply Hruns in Hwf. apply moves_bind; [apply _|apply Hwf|intros r]. moves.
Qed.
#[local] Hint Resolve dry_run_step : moves.

Lemma replay_step su rr runtime_env a b c d :
  prepared_kept su rr -> moves R (run_event_replay env clock recent_topics su rr runtime_env a b c d).
Proof. intros Hruns. unfold run_event_replay. moves. Qed.

Lemma daemon_step su rr dr batches a b c : prepared_kept su rr -> moves R (run_event_daemon_replay env clock su rr dr batches a b c).
Proof.
  intros Hruns. unfold run_event_daemon_replay. apply moves_lift_bind; [apply _|]. intros wf Hwf. apply Hruns in Hwf.
  assert (Hcycle : forall i batch s, moves R (daemon_cycle env clock wf dr i batch s)).
  { intros i batch s. unfold daemon_cycle. unfold runs_kept in Hwf. moves. }
  assert (Hcycles : forall i s, moves R (daemon_cycles env clock wf dr i batches s)).
  { clear -Hcycle PreOrder0. induction batches as [|batch rest IH]; intros i s; cbn [daemon_cycles]; moves. }
  unfold daemon, daemon_runs, daemon_payload. moves.
Qed.

Section Span.
Context (q : ServiceRequest) (span : string).
Lemma lifecycle_step state extra s : moves R (record_lifecycle env q span state extra s).
Proof. unfold record_lifecycle. moves. Qed.
#[local] Hint Resolve lifecycle_step : moves.
Lemma fail_step seeded status failure s : moves R (fail_event_service env q span seeded status failure s).
Proof. unfold fail_event_service. moves. Qed.
Lemma complete_step seeded s : moves R (complete_event_service env q span seeded s).
Proof. unfold complete_event_service. moves. Qed.
Lemma record_cycle_step a b c d e f s : moves R (record_cycle env q span a b c d e f s).
Proof. unfold record_cycle. moves. Qed.
Lemma probe_step events : moves R (probe env events).
Proof. unfold probe. moves. Qed.
#[local] Hint Resolve fail_step record_cycle_step probe_step : moves.

Lemma service_cycle_step wf seeded i s :
  runs_kept wf -> moves R (unit_do (collect_events q)) -> moves R (service_cycle env clock recent_topics wf q span seeded i s).
Proof. intros Hwf Hc. unfold service_cycle. unfold runs_kept in Hwf. moves. Qed.
#[local] Hint Resolve service_cycle_step : moves.
Lemma service_cycles_step wf seeded n i s :
  runs_kept wf -> moves R (unit_do (collect_events q)) -> moves R (service_cycles env clock recent_topics wf q span seeded n i s).
Proof. intros Hwf Hc. revert i s. induction n as [|n IH]; intros i s; cbn [service_cycles]; moves. Qed.
End Span.
#[local] Hint Resolve lifecycle_step complete_step service_cycles_step : moves.

Lemma service_step su rr q session_id : prepared_kept su rr -> moves R (unit_do (collect_events q)) ->
  moves R (run_live_event_service env clock recent_topics su rr q session_id).
Proof.
  intros Hruns Hc. unfold run_live_event_service. apply moves_bind; [apply _|moves|intros _].
  apply moves_lift_bind; [apply _|]. intros wf Hwf. apply Hruns in Hwf. unfold event_service, new_id_for. moves.
Qed.
End Commands.

(** ** Without leave, no model is called *)

Section Unallowed.
Context {US MS CS : Type}.

Lemma prepared_model_free (su : Surroundings) (rr : RunRequest (MS := MS) (CS := CS)) env' wf :
  rr_allow_model_call rr = false -> prepare_workflow su rr env' = Ok wf -> model_free wf.
Proof.
  unfold prepare_workflow. intros Hno H. apply rbind_ok in H as (profile & _ & H). apply rbind_ok in H as (client & Hc & H).
  destruct (_ && _) eqn:Hcopilot in H; [discriminate|]. rewrite Hno in Hcopilot. cbn in Hcopilot.
  apply rbind_ok in H as (memory & _ & H). apply rbind_ok in H as (affective & Ha & H). apply rbind_ok in H as (rational & Hr & [= <-]).
  unfold resolve_client in Hc. destruct (real_provider profile) eqn:Hreal; cbn [negb] in Hc; [by rewrite Hno in Hc|].
  unfold real_provider in Hreal. unfold build_affective_agent_adapter in Ha. rewrite Hreal in Ha. injection Ha as <-.
  unfold build_rational_agent_adapter in Hr. rewrite andb_true_r in Hcopilot. rewrite Hcopilot, Hreal in Hr.
  split; [done|]. cbn [wf_rational].
  assert (rational = maf_rational_agent profile DeterministicRationalBackend) as ->; [|done].
  destruct (String.eqb _ _) in Hr; [congruence|]. destruct (negb _) in Hr; [discriminate|congruence].
Qed.

Lemma store_same_model {A} (m : eff CoreDataStore A) : moves (same w_model) (store_do (US := US) (MS := MS) (CS := CS) m).
Proof. intros w. unfold store_do, core_do. by destruct (Memory.on_store m (w_core w)). Qed.
Lemma unit_same_model {A} (m : eff US A) : moves (same w_model) (unit_do (MS := MS) (CS := CS) m).
Proof. intros w. unfold unit_do. by destruct (m (w_unit w)). Qed.
End Unallowed.

(** Without leave to call a model, no command that runs the workflow touches the provider: whatever the provider mode, the
    rational backend, the client, the events and the unit, the state of the outside world behind the model's client is the same
    after a dry run, a replay, a daemon of any number of batches or a live event service, whether it answers or raises. *)
Theorem unallowed_commands_call_no_model {US MS CS} (Adapter : UnitAdapter US) (Monitor : LiveMonitor US) (SQ : Sqlite) (FS : Files)
    env clock recent_topics su (rr : RunRequest (MS := MS) (CS := CS)) (w : World US MS CS) :
  rr_allow_model_call rr = false ->
  (forall runtime_env a b c d e f g h,
     w_model (run_no_model_dry_run env clock recent_topics su rr runtime_env a b c d e f g h w).2 = w_model w) /\
  (forall runtime_env a b c d, w_model (run_event_replay env clock recent_topics su rr runtime_env a b c d w).2 = w_model w) /\
  (forall dr batches a b c, w_model (run_event_daemon_replay env clock su rr dr batches a b c w).2 = w_model w) /\
  (forall q session_id, w_model (run_live_event_service env clock recent_topics su rr q session_id w).2 = w_model w).
Proof.
  intros Hno.
  assert (Hk : prepared_kept env clock (same w_model) su rr).
  { intros env' wf Hwf raws a b c d e f. by apply run_model_free, (prepared_model_free su rr env' wf). }
  split_and!; intros.
  - apply (dry_run_step env clock recent_topics (same w_model)); auto using store_same_model.
  - apply (replay_step env clock recent_topics (same w_model)); auto using store_same_model.
  - apply (daemon_step env clock (same w_model)); auto using store_same_model. done.
  - apply (service_step env clock recent_topics (same w_model)); auto using store_same_model, unit_same_model. done.
Qed.

(** ** The tools and the approvals *)

Definition logging_monitor {US} (monitor : LiveMonitor US) : LiveMonitor (US * list call) := {|
  monitor_app_events a b c d u := let '(r, u') := @monitor_app_events US monitor a b c d u.1 in (r, (u', u.2));
  monitor_live_events a b c u := let '(r, u') := @monitor_live_events US monitor a b c u.1 in (r, (u', u.2));
|}.

(** What may have happened to the world: requests for approvals, and calls of tools that only observe, read or suggest. *)
Record governed {US MS CS} (adapter : UnitAdapter US) (w w' : World (US * list call) MS CS) : Prop := {
  gv_asks : only_asks (offers adapter) (stored w) (stored w');
  gv_calls : exists calls, log w' = log w ++ calls /\
    forall name args, In (name, args) calls -> exists c, offers adapter name c /\ read_only_tool c;
}.

Section Governed.
Context {US MS CS : Type} (adapter : UnitAdapter US) (monitor : LiveMonitor US) (SQ : Sqlite) (FS : Files).
Context (env : nat -> Env) (clock : nat -> Z).
#[local] Notation world := (World (US * list call) MS CS).
#[local] Notation governed := (governed (MS := MS) (CS := CS) adapter).

#[export] Instance governed_preorder : PreOrder governed.
Proof.
  split.
  - intros w. split; [reflexivity|]. exists []. rewrite app_nil_r. split; [done|]. intros ? ? [].
  - intros a b c [Ha (l & Hl & Hcl)] [Hb (l' & Hl' & Hcl')]. split; [by etrans|]. exists (l ++ l').
    rewrite Hl', Hl, app_assoc. split; [done|]. intros name args [H|H]%in_app_iff; eauto.
Qed.

Lemma governed_silent {A} (m : eff world A) : moves (same log) m -> moves (store_part (R := only_asks (offers adapter))) m -> moves governed m.
Proof.
  intros Hl Hs w. split; [apply Hs|]. exists []. rewrite app_nil_r. specialize (Hl w). split; [done|]. intros ? ? [].
Qed.
Lemma governed_store {A} (m : eff CoreDataStore A) : moves (only_asks (offers adapter)) m -> moves governed (store_do m).
Proof. intros Hm. apply governed_silent; [apply store_do_silent|by apply store_do_kept]. Qed.

Lemma offers_logged name c : offers (logging adapter) name c -> offers adapter name c.
Proof.
  intros (u & m & u' & Hm & Hf). change (@ua_manifest _ (logging adapter) u) with (let '(r, u') := @ua_manifest US adapter u.1 in (r, (u', u.2))) in Hm.
  destruct (@ua_manifest US adapter u.1) as [r u1] eqn:E. injection Hm as -> _.
  by exists u.1, m, u1.
Qed.

Lemma governed_run wf : runs_kept (Adapter := logging adapter) env clock governed wf.
Proof.
  intros raws a b c d e f w. split.
  - by apply (run_kept (offered := offers adapter) env clock wf offers_logged).
  - destruct (run_makes adapter SQ FS env clock wf raws a b c d e f w) as (calls & Hl & Hc). exists calls. split; [done|].
    intros name args. by apply (run_calls_read_only adapter FS wf).
Qed.

Lemma governed_writes : (forall a b c d, moves governed (store_do (persist_execution_span env a b c d))) /\
  (forall a b c d, moves governed (store_do (persist_fact env a b c d))) /\ moves governed (store_do (utc_now env)) /\
  moves governed (store_do (read_env env)) /\ (forall prefix, moves governed (store_do (draw env prefix))) /\
  (forall keys, moves governed (seed_router keys)).
Proof.
  split_and!; intros.
  - apply governed_store, (span_kept (RF := only_asks_frame (offers adapter))).
  - apply governed_store, (fact_kept (RF := only_asks_frame (offers adapter))).
  - apply governed_store. unfold utc_now. apply moves_bind; [apply _|apply (read_env_kept (RF := only_asks_frame (offers adapter)))|intros e; moves].
  - apply governed_store, (read_env_kept (RF := only_asks_frame (offers adapter))).
  - apply governed_store, (draw_kept (RF := only_asks_frame (offers adapter))).
  - apply governed_silent; [done|]. intros w. unfold store_part. cbn. reflexivity.
Qed.

Lemma governed_collect q : moves governed (unit_do (collect_events (Monitor := logging_monitor monitor) q)).
Proof.
  apply governed_silent; [|intros w; unfold unit_do, store_part, stored; by destruct (collect_events q (w_unit w))].
  apply unit_do_silent. intros [u l]. unfold collect_events. destruct (of_app q); cbn.
  - by destruct (@monitor_app_events US monitor _ _ _ _ u).
  - by destruct (@monitor_live_events US monitor _ _ _ u).
Qed.
End Governed.

(** C9: whatever the events, the models, the memory and the unit answer or raise, and over any number of batches and cycles, the
    commands that run the workflow stay within what the contracts and the policy allow: every tool they execute has a contract in
    the adapter's manifest that needs no approval and only observes, reads or suggests; they take no approval decision; and every
    request in the store was there before or waits for the operator, for a tool that needs approval. *)
Theorem commands_are_governed {US MS CS} (adapter : UnitAdapter US) (monitor : LiveMonitor US) (SQ : Sqlite) (FS : Files)
    env clock recent_topics su (rr : RunRequest (MS := MS) (CS := CS)) (w : World (US * list call) MS CS) :
  let Adapter := logging adapter in let Monitor := logging_monitor monitor in
  (forall runtime_env a b c d e f g h,
     governed adapter w (run_no_model_dry_run env clock recent_topics su rr runtime_env a b c d e f g h w).2) /\
  (forall runtime_env a b c d, governed adapter w (run_event_replay env clock recent_topics su rr runtime_env a b c d w).2) /\
  (forall dr batches a b c, governed adapter w (run_event_daemon_replay env clock su rr dr batches a b c w).2) /\
  (forall q session_id, governed adapter w (run_live_event_service env clock recent_topics su rr q session_id w).2).
Proof.
  cbv zeta.
  assert (Hk : prepared_kept (Adapter := logging adapter) env clock (governed adapter) su rr) by (intros env' wf _; apply governed_run).
  destruct (governed_writes (MS := MS) (CS := CS) adapter env) as (H1 & H2 & H3 & H4 & H5 & H6).
  split_and!; intros.
  - apply (dry_run_step env clock recent_topics (governed adapter)); auto.
  - apply (replay_step env clock recent_topics (governed adapter)); auto.
  - apply (daemon_step env clock (governed adapter)); auto.
  - apply (service_step env clock recent_topics (governed adapter)); auto using governed_collect.
Qed.

(** ** Samples: a provider that counts its calls *)

Definition sample_surroundings : Surroundings (MS := nat) (CS := nat) := {|
  su_environ := <["OPENAI_API_KEY" := "k"]> (<["OPENAI_MODEL" := "m"]> ∅); su_framework := true;
  su_run_agent _ _ _ _ := eraise (External "Unavailable"); su_copilot := None; su_mem0_installed := false;
  su_mem0_client _ := inr "ImportError"; su_skill_path := "SKILL.md"; su_catalog := default_catalog "catalog.py";
  su_exc_text := class_name_of |}.
Definition sample_rr (allow : bool) : RunRequest (MS := nat) (CS := nat) := {|
  rr_provider_mode := "real_provider"; rr_allow_model_call := allow; rr_memory := None; rr_memory_backend := "local";
  rr_mem0_client := None; rr_provider_client := Some (answering "system_query_apps"); rr_rational_backend := "auto";
  rr_copilot_agent_factory := None; rr_federation := None |}.
#[local] Notation sample_dry_run allow := (run_no_model_dry_run (Adapter := fake_unit sample_env) (SQ := sample_sqlite)
  (FS := sample_files) sample_env memory_clock (fun _ _ => []) sample_surroundings (sample_rr allow)
  (Ok (su_environ sample_surroundings)) false 100 0 None (Some [sample_event "user.input.query.apps" []]) None false None sample_world).
Definition dry_run_answer (r : result dict * World nat nat nat) : pyval * nat :=
  (match r.1 with Ok payload => dgetn "status" payload | Raise e => VStr (class_name_of e) end, w_model r.2).

Example allowed_run_calls_the_model : dry_run_answer (sample_dry_run true) = (VStr "ok", 2%nat).
Proof. vm_compute. reflexivity. Qed.
Example unallowed_run_raises : dry_run_answer (sample_dry_run false) = (VStr "ValueError", 0%nat).
Proof. vm_compute. reflexivity. Qed.

(** Every closure gate of the release holds for it. *)
Definition agent_run_ok (r : result dict * World nat nat nat) : pyval :=
  match r.1 with
  | Ok payload => match dgetn "agent_run_evidence" payload with VDict d => dgetn "ok" d | _ => VNone end
  | Raise _ => VNone
  end.
Example allowed_run_passes_the_gates : agent_run_ok (sample_dry_run true) = VBool true.
Proof. vm_compute. reflexivity. Qed.

Lemma unallowed_commands_call_no_model_witness : rr_allow_model_call (sample_rr false) = false /\
  w_model (sample_dry_run false).2 = 0%nat.
Proof.
  split; [reflexivity|].
  apply (proj1 (unallowed_commands_call_no_model (fake_unit sample_env) sample_monitor sample_sqlite sample_files sample_env
    memory_clock (fun _ _ => []) sample_surroundings (sample_rr false) sample_world eq_refl)).
Defined.
