(* ===== verification/UserPrompt.v ===== *)
(** * User prompts ([workflow.py]: [build_user_prompt_event], [_extract_explicit_app_id])

    A text a user sends becomes one perception event: its words choose the
    semantic topic, and an identifier in it the application it is about.  The
    two regular expressions read ASCII letters and digits only, so a text is
    scanned as its bytes. *)

From Stdlib Require Import ZArith Lia Bool List Ascii String.
From stdpp Require Import base list option strings.
From S2P Require Import Prelude PyFloat Text PyValue Events.

#[local] Open Scope string_scope.
#[local] Open Scope Z_scope.
#[local] Open Scope list_scope.

(** ** The regular expressions *)

(** [[a-z0-9]] and [[a-z0-9_-]] *)
Definition is_word_byte (b : Z) : bool := is_digit b || ((97 <=? b) && (b <=? 122)).
Definition is_id_byte (b : Z) : bool := is_word_byte b || (b =? 95) || (b =? 45).

(** [re.findall(r"[a-z0-9]+", text)]; [word] is the run being read. *)
Fixpoint find_words (word : list Z) (l : list Z) : list (list Z) :=
  let close ws := match word with [] => ws | _ => word :: ws end in
  match l with
  | [] => close []
  | b :: rest => if is_word_byte b then find_words (word ++ [b]) rest else close (find_words [] rest)
  end.
Definition words_of (lowered : string) : list string := map string_of_bytes (find_words [] (bytes_of_string lowered)).

Fixpoint id_prefix (l : list Z) : list Z :=
  match l with
  | b :: rest => if is_id_byte b then b :: id_prefix rest else []
  | [] => []
  end.

(** [re.compile(r"[a-z0-9][a-z0-9_-]{2,}").finditer]: leftmost, longest,
    without overlap; [skip] counts the bytes of a match left to pass. *)
Fixpoint find_ids (skip : nat) (l : list Z) : list (list Z) :=
  match l with
  | [] => []
  | b :: rest =>
      match skip with
      | S k => find_ids k rest
      | O =>
          let tail := id_prefix rest in
          if is_word_byte b && (2 <=? length tail)%nat then (b :: tail) :: find_ids (length tail) rest
          else find_ids 0 rest
      end
  end.

(** ** The application a text names *)

Definition app_id_stopwords : list string :=
  ["restart"; "start"; "stop"; "unload"; "app"; "apps"; "application"; "please"; "the"; "now"; "current"; "show";
   "query"; "device"; "status"; "lease"; "leases"; "unit"].
Definition explicit_app_id (candidate : string) : bool :=
  negb (str_in candidate app_id_stopwords) &&
  (startswith candidate "neuro" || py_contains candidate "_" || py_contains candidate "-").
Definition extract_explicit_app_id (input_text : string) : option string :=
  List.find explicit_app_id (map string_of_bytes (find_ids 0 (bytes_of_string (py_lower input_text)))).

(** ** The event *)

Definition user_prompt_topic (tokens : list string) : string :=
  let has w := str_in w tokens in
  let has_app_target := has "app" || has "apps" || has "application" in
  if has "restart" && has_app_target then "user.input.control.app.restart"
  else if has "start" && has_app_target then "user.input.control.app.start"
  else if has "stop" && has_app_target then "user.input.control.app.stop"
  else if has "unload" && has_app_target then "user.input.control.app.unload"
  else if has "lease" || has "leases" then "user.input.query.leases"
  else if has_app_target then "user.input.query.apps"
  else if has "device" || has "network" || has "status" then "user.input.query.device"
  else if has "capability" || has "capabilities" then "user.input.capabilities"
  else "user.input".

(** The one event of the list the code answers. *)
Definition build_user_prompt_event (e : Env) (input_text : string) : dict :=
  let target_app_id := extract_explicit_app_id input_text in
  dict_of
    [("event_id", VStr (new_id "evt" e)); ("source_kind", VStr "user"); ("source_app", opt_str target_app_id);
     ("event_type", VStr "user.input"); ("semantic_topic", VStr (user_prompt_topic (words_of (py_lower input_text))));
     ("timestamp_wall", VStr "2026-05-04T00:00:02Z"); ("priority", VInt 70);
     ("policy_tags", VList (vstrs ["user_input"; "agent_run"]));
     ("payload", VDict (dict_of ([("text", VStr input_text)] ++
                                 match target_app_id with Some app_id => [("target_app_id", VStr app_id)] | None => [] end)))].

Example prompt_topics :
  map (fun t => user_prompt_topic (words_of (py_lower t)))
    ["Please RESTART the app now"; "start lease"; "which applications?"; "show applications"; "the app-status"; "hello"] =
    ["user.input.control.app.restart"; "user.input.query.leases"; "user.input"; "user.input"; "user.input.query.apps";
     "user.input"]
  /\ map extract_explicit_app_id ["restart Neuro_Demo-2!"; "restart app -gw-1 now"; "ab_"; "a_ app"; "start network"] =
     [Some "neuro_demo-2"; Some "gw-1"; Some "ab_"; None; None].
Proof. vm_compute. auto. Qed.

(** ** What an identifier can be *)

(** At least three bytes, a letter or a digit first, and then those of an identifier. *)
Definition app_id_shape (s : string) : Prop :=
  exists b tail, bytes_of_string s = b :: tail /\ is_word_byte b = true /\
                 Forall (fun c => is_id_byte c = true) tail /\ (2 <= length tail)%nat.

Lemma bytes_of_string_of_bytes l : Forall (fun b => 0 <= b < 256) l -> bytes_of_string (string_of_bytes l) = l.
Proof. induction 1 as [|b l Hb _ IH]; cbn; [done|]. by rewrite byte_of_ascii_of, IH. Qed.

Lemma id_byte_range b : is_id_byte b = true -> 0 <= b < 256.
Proof. unfold is_id_byte, is_word_byte, is_digit. lia. Qed.

Lemma id_prefix_ids l : Forall (fun c => is_id_byte c = true) (id_prefix l).
Proof. induction l as [|b l IH]; cbn; [constructor|]. destruct (is_id_byte b) eqn:E; by constructor. Qed.

Lemma found_id_shape l : forall skip, Forall (fun bs => app_id_shape (string_of_bytes bs)) (find_ids skip l).
Proof.
  induction l as [|b l IH]; intros skip; cbn; [constructor|]. destruct skip as [|k]; [|apply IH].
  destruct (is_word_byte b && _)%bool eqn:E; [|apply IH]. bool_prop. constructor; [|apply IH].
  exists b, (id_prefix l). split_and!; [|done|apply id_prefix_ids|by apply Nat.leb_le].
  apply bytes_of_string_of_bytes. constructor.
  - apply id_byte_range. unfold is_id_byte. by rewrite H.
  - eapply Forall_impl; [apply id_prefix_ids|]. apply id_byte_range.
Qed.

Lemma explicit_app_id_found text app_id :
  extract_explicit_app_id text = Some app_id ->
  app_id_shape app_id /\ app_id ∉ app_id_stopwords /\
  (startswith app_id "neuro" || py_contains app_id "_" || py_contains app_id "-") = true.
Proof.
  intros H. apply find_some in H as [Hin H]. apply andb_true_iff in H as [Hs Hm].
  apply negb_true_iff, str_in_false in Hs. split_and!; [|done|done].
  apply in_map_iff in Hin as (bs & <- & Hin). pose proof (found_id_shape (bytes_of_string (py_lower text)) 0) as Hf.
  rewrite List.Forall_forall in Hf. by apply Hf.
Qed.
