(* ===== verification/Social.v ===== *)
(** * Social messages ([social.py])

    The envelope of a message received from a chat service, the perception
    event it becomes, the record of an answer delivered to it, and the
    approvals decided over a chat.  [MockSocialAdapter] keeps no state: its
    methods are functions, and the adapters of the services share them. *)

From Stdlib Require Import ZArith Lia Bool List Ascii String.
From stdpp Require Import base list option strings.
From S2P Require Import Prelude PyFloat Text PyValue Events.

#[local] Open Scope string_scope.
#[local] Open Scope Z_scope.
#[local] Open Scope list_scope.

Definition social_channel_kinds : list string := ["group"; "direct"; "channel"].
Definition normalize_channel_kind (channel_kind : string) : result string :=
  let normalized := py_lower (py_strip channel_kind) in
  if str_in normalized social_channel_kinds then Ok normalized
  else Raise (ValueError ("unsupported social channel kind: " +:+ channel_kind)).

(** ** Envelopes *)

Record SocialMessageEnvelope := {
  se_social_message_id : string;
  se_adapter_kind : string;
  se_channel_id : string;
  se_channel_kind : string;
  se_external_user_id : string;
  se_principal_id : string;
  se_message_kind : string;
  se_text : string;
  se_received_at : string;
  se_rate_limit_class : string;
  se_policy_tags : list string;
  se_metadata : dict;
}.

Definition envelope_from_dict (payload : dict) : result SocialMessageEnvelope :=
  let! channel_kind := normalize_channel_kind (str_or "channel_kind" "direct" payload) in
  let! policy_tags := str_items (por (dgetn "policy_tags" payload) (VList [])) in
  let! metadata := py_dict (por (dgetn "metadata" payload) (VDict [])) in
  Ok {| se_social_message_id := str_or "social_message_id" "social-unknown" payload;
        se_adapter_kind := str_or "adapter_kind" "mock_social" payload;
        se_channel_id := str_or "channel_id" "unknown-channel" payload; se_channel_kind := channel_kind;
        se_external_user_id := str_or "external_user_id" "unknown-user" payload;
        se_principal_id := str_or "principal_id" "user-unknown" payload;
        se_message_kind := str_or "message_kind" "text" payload; se_text := str_or "text" "" payload;
        se_received_at := str_or "received_at" "" payload;
        se_rate_limit_class := str_or "rate_limit_class" "normal_user" payload;
        se_policy_tags := policy_tags; se_metadata := metadata |}.

Definition envelope_to_dict (e : SocialMessageEnvelope) : dict :=
  dict_of
    [("social_message_id", VStr (se_social_message_id e)); ("adapter_kind", VStr (se_adapter_kind e));
     ("channel_id", VStr (se_channel_id e)); ("channel_kind", VStr (se_channel_kind e));
     ("external_user_id", VStr (se_external_user_id e)); ("principal_id", VStr (se_principal_id e));
     ("message_kind", VStr (se_message_kind e)); ("text", VStr (se_text e)); ("received_at", VStr (se_received_at e));
     ("rate_limit_class", VStr (se_rate_limit_class e)); ("policy_tags", VList (vstrs (se_policy_tags e)));
     ("metadata", VDict (se_metadata e))].

Record SocialDeliveryRecord := {
  sd_delivery_id : string;
  sd_adapter_kind : string;
  sd_channel_id : string;
  sd_principal_id : string;
  sd_speaker : string;
  sd_delivery_status : string;
  sd_delivered_text : string;
  sd_audit_tags : list string;
}.

Definition delivery_to_dict (r : SocialDeliveryRecord) : dict :=
  dict_of
    [("delivery_id", VStr (sd_delivery_id r)); ("adapter_kind", VStr (sd_adapter_kind r));
     ("channel_id", VStr (sd_channel_id r)); ("principal_id", VStr (sd_principal_id r)); ("speaker", VStr (sd_speaker r));
     ("delivery_status", VStr (sd_delivery_status r)); ("delivered_text", VStr (sd_delivered_text r));
     ("audit_tags", VList (vstrs (sd_audit_tags r)))].

Record SocialApprovalEnvelope := {
  sa_approval_request_id : string;
  sa_adapter_kind : string;
  sa_channel_id : string;
  sa_channel_kind : string;
  sa_external_user_id : string;
  sa_principal_id : string;
  sa_decision_text : string;
  sa_received_at : string;
}.

Definition approval_envelope_to_dict (e : SocialApprovalEnvelope) : dict :=
  dict_of
    [("approval_request_id", VStr (sa_approval_request_id e)); ("adapter_kind", VStr (sa_adapter_kind e));
     ("channel_id", VStr (sa_channel_id e)); ("channel_kind", VStr (sa_channel_kind e));
     ("external_user_id", VStr (sa_external_user_id e)); ("principal_id", VStr (sa_principal_id e));
     ("decision_text", VStr (sa_decision_text e)); ("received_at", VStr (sa_received_at e))].

(** [{value}] in an f-string *)
Definition shown (v : pyval) : string := py_str v.

Definition build_social_approval_summary (approval_request approval_context : dict) : result dict :=
  let! request_payload := py_dict (por (dgetn "payload" approval_request) (VDict [])) in
  let! requested_args := py_dict (por (dgetn "requested_args" request_payload) (VDict [])) in
  let! requirements := py_dict (por (dgetn "operator_requirements" approval_context) (VDict [])) in
  let! required := py_iter (por (dgetn "required_resources" requirements) (VList [])) in
  let! missing := py_iter (por (dgetn "missing_required_resources" requirements) (VList [])) in
  let none_if_empty l := por (VList l) (VList [VStr "none"]) in
  Ok (dict_of
    [("approval_request_id", dgetn "approval_request_id" approval_request); ("status", dgetn "status" approval_request);
     ("tool_name", dgetn "tool_name" approval_request); ("requested_args", VDict requested_args);
     ("required_resources", VList required); ("missing_required_resources", VList missing);
     ("human_summary", VStr
       ("Pending approval for " +:+ shown (dgetn "tool_name" approval_request) +:+ " with args " +:+ shown (VDict requested_args) +:+
        ". Required resources: " +:+ shown (none_if_empty required) +:+ ". Missing resources: " +:+ shown (none_if_empty missing) +:+
        "."))]).

(** ** The mock adapter *)

(** [f"{adapter_kind}:{external_user_id}"] *)
Definition principal_of (adapter_kind external_user_id : string) : string := adapter_kind +:+ ":" +:+ external_user_id.

Definition bind_principal (adapter_kind channel_id channel_kind external_user_id text received_at : string) (is_admin : bool)
    : result SocialMessageEnvelope :=
  let! resolved_channel_kind := normalize_channel_kind channel_kind in
  Ok {| se_social_message_id := "social-" +:+ adapter_kind +:+ "-" +:+ channel_id +:+ "-" +:+ external_user_id;
        se_adapter_kind := adapter_kind; se_channel_id := channel_id; se_channel_kind := resolved_channel_kind;
        se_external_user_id := external_user_id; se_principal_id := principal_of adapter_kind external_user_id;
        se_message_kind := "text"; se_text := text; se_received_at := received_at;
        se_rate_limit_class := if is_admin then "admin"
                               else if String.eqb resolved_channel_kind "group" then "group_user" else "normal_user";
        se_policy_tags := ["social_ingress"; "user_input"; "channel_" +:+ resolved_channel_kind];
        se_metadata := dict_of [("is_admin", VBool is_admin); ("channel_kind", VStr resolved_channel_kind)] |}.

Definition social_topic (channel_kind : string) : string :=
  if String.eqb channel_kind "group" then "user.input.social.group"
  else if String.eqb channel_kind "channel" then "user.input.social.channel" else "user.input.social.direct".
Definition social_priority (rate_limit_class : string) : Z := if String.eqb rate_limit_class "admin" then 70 else 55.

Definition to_perception_event (e : SocialMessageEnvelope) : dict :=
  dict_of
    [("event_id", VStr (se_social_message_id e)); ("source_kind", VStr "social"); ("source_node", VStr (se_adapter_kind e));
     ("event_type", VStr "user.input.social"); ("semantic_topic", VStr (social_topic (se_channel_kind e)));
     ("timestamp_wall", VStr (se_received_at e)); ("priority", VInt (social_priority (se_rate_limit_class e)));
     ("dedupe_key", VStr (se_social_message_id e)); ("policy_tags", VList (vstrs (se_policy_tags e)));
     ("payload", VDict (dict_of
       [("text", VStr (se_text e)); ("channel_id", VStr (se_channel_id e)); ("channel_kind", VStr (se_channel_kind e));
        ("external_user_id", VStr (se_external_user_id e)); ("principal_id", VStr (se_principal_id e));
        ("rate_limit_class", VStr (se_rate_limit_class e)); ("social_adapter", VStr (se_adapter_kind e))]))].

Definition deliver_affective_response (e : SocialMessageEnvelope) (response : dict) : result SocialDeliveryRecord :=
  let speaker := str_or "speaker" "" response in
  if negb (String.eqb speaker "affective") then Raise (ValueError "social_delivery_requires_affective_speaker")
  else Ok {| sd_delivery_id := "delivery-" +:+ se_social_message_id e; sd_adapter_kind := se_adapter_kind e;
             sd_channel_id := se_channel_id e; sd_principal_id := se_principal_id e; sd_speaker := speaker;
             sd_delivery_status := "delivered"; sd_delivered_text := str_or "text" "" response;
             sd_audit_tags := ["social_egress"; "affective_only"] |}.

Definition bind_approval_principal
    (approval_request_id adapter_kind channel_id channel_kind external_user_id decision_text received_at : string)
    : result SocialApprovalEnvelope :=
  let! resolved_channel_kind := normalize_channel_kind channel_kind in
  Ok {| sa_approval_request_id := approval_request_id; sa_adapter_kind := adapter_kind; sa_channel_id := channel_id;
        sa_channel_kind := resolved_channel_kind; sa_external_user_id := external_user_id;
        sa_principal_id := principal_of adapter_kind external_user_id; sa_decision_text := decision_text;
        sa_received_at := received_at |}.

Definition social_approval_metadata (e : SocialApprovalEnvelope) : dict :=
  dict_of
    [("approval_channel", VStr "social"); ("social_adapter", VStr (sa_adapter_kind e)); ("channel_id", VStr (sa_channel_id e));
     ("channel_kind", VStr (sa_channel_kind e)); ("external_user_id", VStr (sa_external_user_id e));
     ("principal_id", VStr (sa_principal_id e)); ("decision_text", VStr (sa_decision_text e));
     ("received_at", VStr (sa_received_at e))].

(** ** Envelopes read back *)

(** What a stored envelope keeps: the texts that have a default are not empty, and the channel kind is one of the three. *)
Record envelope_complete (e : SocialMessageEnvelope) : Prop := {
  ec_kind : se_channel_kind e ∈ social_channel_kinds;
  ec_texts : Forall (fun s => s <> "")
    [se_social_message_id e; se_adapter_kind e; se_channel_id e; se_external_user_id e; se_principal_id e; se_message_kind e;
     se_rate_limit_class e];
}.

Lemma normalize_known kind : kind ∈ social_channel_kinds -> normalize_channel_kind kind = Ok kind.
Proof. intros H%list_elem_of_In. repeat destruct H as [<-|H]; [reflexivity..|destruct H]. Qed.

Lemma normalize_channel_kind_ok kind kind' : normalize_channel_kind kind = Ok kind' -> kind' ∈ social_channel_kinds.
Proof. unfold normalize_channel_kind. intros H. destruct (str_in _ _) eqn:E; [|done]. inv_ok. by apply str_in_true. Qed.

Lemma str_items_or_vstrs l : str_items (por (VList (vstrs l)) (VList [])) = Ok l.
Proof.
  assert (H : map py_str (vstrs l) = l) by (unfold vstrs; rewrite map_map; apply map_id).
  unfold str_items, por. destruct l; [done|]. change (Ok (map py_str (vstrs (s :: l))) = Ok (s :: l)). by rewrite H.
Qed.

Lemma str_or_present k s default l : sget k l = Some (VStr s) -> s <> "" -> str_or k default (dict_of l) = s.
Proof. intros H Hs. unfold str_or. rewrite dgetn_eq, dget_dict_of, H. by rewrite por_str_nonempty. Qed.

Lemma str_or_empty k s l : sget k l = Some (VStr s) -> str_or k "" (dict_of l) = s.
Proof. intros H. unfold str_or. rewrite dgetn_eq, dget_dict_of, H. apply py_str_por_empty. Qed.

Lemma py_dict_or d : py_dict (por (VDict d) (VDict [])) = Ok d.
Proof. by destruct d. Qed.

(** An envelope whose fields are complete is read back as it was written. *)
Theorem envelope_round_trip e : envelope_complete e -> envelope_from_dict (envelope_to_dict e) = Ok e.
Proof.
  intros [Hk Ht]. rewrite !Forall_cons in Ht. destruct Ht as (H1 & H2 & H3 & H4 & H5 & H6 & H7 & _).
  assert (Hne : se_channel_kind e <> "") by (intros E; rewrite E in Hk; by apply str_in_true in Hk).
  unfold envelope_from_dict, envelope_to_dict.
  rewrite (str_or_present "channel_kind" (se_channel_kind e)), normalize_known by done. cbn [rbind].
  unfold str_or. rewrite !dgetn_eq, !dget_dict_of. cbn [sget]. cbn -[py_str por py_dict str_items].
  rewrite str_items_or_vstrs, py_dict_or. cbn [rbind]. rewrite !py_str_por_empty, !por_str_nonempty by done. by destruct e.
Qed.
