(* ===== verification/SocialAdapters.v ===== *)
(** * The adapters of the chat services ([social_adapters/])

    Each service's adapter turns the payload of a received message into an
    envelope; what follows is shared with the mock adapter.  An adapter is an
    instance of the class [SocialAdapter], and what it promises to its clients
    is the class [BindsSender]: the envelope is bound to the sender the payload
    names, under the adapter's own kind.

    [message_type] of a OneBot payload is kept in lower case as far as ASCII
    text can tell ([py_lower]). *)

From Stdlib Require Import ZArith Lia Bool List Ascii String.
From stdpp Require Import base list option strings.
From S2P Require Import Prelude PyFloat Text PyValue Events Social.

#[local] Open Scope string_scope.
#[local] Open Scope Z_scope.
#[local] Open Scope list_scope.

(** [str(payload.get(k1) or payload.get(k2) or ... or default)] *)
Definition first_of (keys : list string) (default : string) (d : dict) : string :=
  py_str (foldr (fun k v => por (dgetn (KStr k) d) v) (VStr default) keys).
(** [payload.get(k) if isinstance(payload.get(k), dict) else {}] *)
Definition dict_or_empty (k : string) (d : dict) : dict := match dgetn (KStr k) d with VDict x => x | _ => [] end.
Definition list_or_empty (k : string) (d : dict) : list pyval := match dgetn (KStr k) d with VList l => l | _ => [] end.
Definition nonempty_text (s : string) : bool := negb (String.eqb s "").
(** [s or t] *)
Definition or_text (s t : string) : string := if String.eqb s "" then t else s.

Definition group_or_direct (in_group : bool) : string := if in_group then "group" else "direct".
Definition group_rate (in_group : bool) : string := if in_group then "group_user" else "normal_user".
Definition session_scope (shared : bool) : string := if shared then "shared_group" else "per_user".
Definition session_scope_key (shared : bool) (channel_id external_user_id : string) : string :=
  if shared then channel_id else channel_id +:+ ":" +:+ external_user_id.

Class SocialAdapter := {
  adapter_kind : string;
  envelope_from_event : string -> dict -> SocialMessageEnvelope;  (* received_at, payload *)
}.

(** ** OneBot *)

Definition text_of_segment (raw_segment : pyval) : option string :=
  match raw_segment with
  | VDict segment =>
      if negb (String.eqb (str_or "type" "" segment) "text") then None
      else str_truthy (Some (py_strip (str_or "text" "" (dict_or_empty "data" segment))))
  | _ => None
  end.
Definition extract_onebot_text (message : pyval) : string :=
  match message with
  | VStr s => py_strip s
  | VList segments => py_strip (join " " (omap text_of_segment segments))
  | _ => ""
  end.

Definition mention_of_segment (raw_segment : pyval) : option string :=
  match raw_segment with
  | VDict segment =>
      if negb (String.eqb (str_or "type" "" segment) "at") then None
      else str_truthy (Some (py_strip (str_or "qq" "" (dict_or_empty "data" segment))))
  | _ => None
  end.
Definition extract_onebot_mentions (message : pyval) : list string :=
  match message with VList segments => omap mention_of_segment segments | _ => [] end.

Definition onebot_channel_id (in_group : bool) (external_user_id : string) (payload : dict) : string :=
  let channel_id := py_str (dgetn (if in_group then "group_id" else "user_id") payload) in
  if String.eqb channel_id "" || String.eqb channel_id "None" then "direct-" +:+ external_user_id else channel_id.

Definition onebot_envelope (received_at : string) (payload : dict) : SocialMessageEnvelope :=
  let message_type := py_lower (py_strip (str_or "message_type" "private" payload)) in
  let in_group := String.eqb message_type "group" in
  let channel_kind := group_or_direct in_group in
  let external_user_id := str_or "user_id" "unknown-onebot-user" payload in
  let channel_id := onebot_channel_id in_group external_user_id payload in
  let message := por (dgetn "message" payload) (por (dgetn "raw_message" payload) (VStr "")) in
  let mentioned := extract_onebot_mentions message in
  let self_id := str_or "self_id" "" payload in
  let share := py_truthy (dgetn "share_session_in_group" payload) in
  let shared := in_group && share in
  {| se_social_message_id := str_or "message_id" ("onebot-" +:+ channel_id +:+ "-" +:+ external_user_id) payload;
     se_adapter_kind := "onebot_qq"; se_channel_id := channel_id; se_channel_kind := channel_kind;
     se_external_user_id := external_user_id; se_principal_id := principal_of "onebot_qq" external_user_id;
     se_message_kind := "text"; se_text := extract_onebot_text message; se_received_at := received_at;
     se_rate_limit_class := group_rate in_group;
     se_policy_tags := ["social_ingress"; "user_input"; "channel_" +:+ channel_kind; "adapter_onebot_qq"; "lab_bridge";
                        if in_group then "mention_or_direct" else "direct_access"];
     se_metadata := dict_of
       [("source_payload_kind", VStr "onebot_v11"); ("message_type", VStr message_type); ("self_id", VStr self_id);
        ("is_self_message", VBool (nonempty_text self_id && String.eqb self_id external_user_id));
        ("mentioned_user_ids", VList (vstrs mentioned));
        ("mentioned_self", VBool (nonempty_text self_id && str_in self_id mentioned));
        ("mention_policy", VStr "mention_or_direct"); ("transport_kind", VStr "reverse_websocket");
        ("sender_role", VStr (str_or "role" "member" (dict_or_empty "sender" payload)));
        ("share_session_in_group", VBool share); ("session_scope", VStr (session_scope shared));
        ("session_scope_key", VStr (session_scope_key shared channel_id external_user_id));
        ("live_network_executed", VBool false)] |}.

Definition onebot_qq : SocialAdapter := {| adapter_kind := "onebot_qq"; envelope_from_event := onebot_envelope |}.

(** ** QQ, the official bot *)

(** [payload.get(..) or author.get("id") or member_user.get("id") or payload.get("openid") or ...] *)
Definition qq_user_id (payload : dict) : string :=
  let member_user := dict_or_empty "user" (dict_or_empty "member" payload) in
  py_str (por (dgetn "user_id" payload) (por (dgetn "id" (dict_or_empty "author" payload))
         (por (dgetn "id" member_user) (por (dgetn "openid" payload) (VStr "unknown-qq-user"))))).

Definition mentioned_id (item : pyval) : option string :=
  match item with VDict d => str_truthy (Some (str_or "id" "" d)) | _ => None end.

Definition qq_official_envelope (received_at : string) (payload : dict) : SocialMessageEnvelope :=
  let external_user_id := qq_user_id payload in
  let group_id := first_of ["group_id"; "guild_id"; "channel_id"] "" payload in
  let direct_id := str_or "direct_message_id" external_user_id payload in
  let in_group := nonempty_text group_id in
  let channel_kind := group_or_direct in_group in
  let channel_id := or_text group_id ("direct-" +:+ direct_id) in
  let mentioned := omap mentioned_id (list_or_empty "mentions" payload) in
  let social_message_id :=
    first_of ["id"; "message_id"] ("qq-official-" +:+ channel_id +:+ "-" +:+ external_user_id) payload in
  let is_admin := py_truthy (por (dgetn "is_admin" payload) (dgetn "operator_override" payload)) in
  let shared := in_group && negb (match mentioned with [] => true | _ => false end) in
  {| se_social_message_id := social_message_id;
     se_adapter_kind := "qq_official"; se_channel_id := channel_id; se_channel_kind := channel_kind;
     se_external_user_id := external_user_id; se_principal_id := principal_of "qq_official" external_user_id;
     se_message_kind := "text"; se_text := py_strip (first_of ["content"; "message"] "" payload); se_received_at := received_at;
     se_rate_limit_class := if is_admin then "admin" else group_rate in_group;
     se_policy_tags := ["social_ingress"; "user_input"; "channel_" +:+ channel_kind; "adapter_qq_official"; "official_api";
                        if in_group then "mention_required" else "direct_access"];
     se_metadata := dict_of
       [("source_payload_kind", VStr "qq_official_bot"); ("message_id", VStr social_message_id);
        ("mentions_present", VBool (negb (match mentioned with [] => true | _ => false end)));
        ("mentioned_user_ids", VList (vstrs mentioned)); ("mention_policy", VStr "mention_or_direct");
        ("transport_kind", VStr "https"); ("session_scope", VStr (session_scope shared));
        ("session_scope_key", VStr (session_scope_key shared channel_id external_user_id));
        ("group_scene", VStr (group_or_direct in_group)); ("live_network_executed", VBool false)] |}.

Definition qq_official : SocialAdapter := {| adapter_kind := "qq_official"; envelope_from_event := qq_official_envelope |}.

(** ** WeCom *)

Definition stripped_items (l : list pyval) : list string := omap (fun item => str_truthy (Some (py_strip (py_str item)))) l.

Definition wecom_envelope (received_at : string) (payload : dict) : SocialMessageEnvelope :=
  let external_user_id := first_of ["from"; "userid"; "user_id"] "unknown-wecom-user" payload in
  let in_group := str_in (str_or "conversation_type" "single" payload) ["group"; "room"] in
  let channel_kind := group_or_direct in_group in
  let channel_id := or_text (first_of ["roomid"; "chatid"] "" payload) ("direct-" +:+ external_user_id) in
  let social_message_id := first_of ["msgid"; "message_id"] ("wecom-" +:+ channel_id +:+ "-" +:+ external_user_id) payload in
  let mentioned := stripped_items (list_or_empty "mentioned_list" payload) in
  let shared := in_group && negb (match mentioned with [] => true | _ => false end) in
  {| se_social_message_id := social_message_id;
     se_adapter_kind := "wecom"; se_channel_id := channel_id; se_channel_kind := channel_kind;
     se_external_user_id := external_user_id; se_principal_id := principal_of "wecom" external_user_id;
     se_message_kind := "text"; se_text := py_strip (first_of ["text"; "content"] "" payload); se_received_at := received_at;
     se_rate_limit_class := group_rate in_group;
     se_policy_tags := ["social_ingress"; "user_input"; "channel_" +:+ channel_kind; "adapter_wecom"; "official_enterprise_api";
                        if in_group then "mention_or_direct" else "direct_access"];
     se_metadata := dict_of
       [("source_payload_kind", VStr "wecom_bot"); ("message_id", VStr social_message_id);
        ("mentioned_user_ids", VList (vstrs mentioned)); ("mention_policy", VStr "mention_or_direct");
        ("transport_kind", VStr "websocket"); ("session_scope", VStr (session_scope shared));
        ("session_scope_key", VStr (session_scope_key shared channel_id external_user_id));
        ("group_scene", VStr (group_or_direct in_group)); ("live_network_executed", VBool false)] |}.

Definition wecom : SocialAdapter := {| adapter_kind := "wecom"; envelope_from_event := wecom_envelope |}.

(** ** Plugins of an OpenClaw host *)

Definition OPENCLAW_SOCIAL_CONTRACT_SCHEMA_VERSION : string := "2.2.3-openclaw-social-contract-v1".

(** The first key with a value whose text is not blank. *)
Fixpoint first_text (payload : dict) (keys : list string) (default : string) : string :=
  match keys with
  | [] => default
  | key :: rest =>
      match dgetn (KStr key) payload with
      | VNone => first_text payload rest default
      | value => or_text (py_strip (py_str value)) (first_text payload rest default)
      end
  end.
Definition text_list (payload : dict) (key : string) : list string := stripped_items (list_or_empty key payload).

Record OpenClawAdapterDefaults := {
  od_platform_kind : string;
  od_plugin_id : string;
  od_plugin_package : string;
  od_installer_package : string;
  od_plugin_compliance_class : string;
}.

Definition build_openclaw_social_envelope (kind : string) (defaults : OpenClawAdapterDefaults) (received_at : string)
    (payload : dict) : SocialMessageEnvelope :=
  let external_user_id := first_text payload ["from_user"; "openid"; "user_id"] "unknown-openclaw-user" in
  let in_group := String.eqb (py_lower (first_text payload ["scene"] "direct")) "group" in
  let channel_kind := group_or_direct in_group in
  let channel_id := or_text (first_text payload ["room_id"; "chatroom"] "") ("direct-" +:+ external_user_id) in
  let social_message_id := first_text payload ["msg_id"; "message_id"]
    ("openclaw-" +:+ kind +:+ "-" +:+ channel_id +:+ "-" +:+ external_user_id) in
  let share := py_truthy (dgetn "share_session_in_group" payload) in
  let shared := in_group && share in
  {| se_social_message_id := social_message_id;
     se_adapter_kind := kind; se_channel_id := channel_id; se_channel_kind := channel_kind;
     se_external_user_id := external_user_id; se_principal_id := principal_of kind external_user_id;
     se_message_kind := "text"; se_text := first_text payload ["text"; "content"] ""; se_received_at := received_at;
     se_rate_limit_class := group_rate in_group;
     se_policy_tags := ["social_ingress"; "user_input"; "channel_" +:+ channel_kind; "adapter_" +:+ kind; "runtime_openclaw";
                        "hosted_plugin_bridge"; if in_group then "mention_or_direct" else "direct_access"];
     se_metadata := dict_of
       [("source_payload_kind", VStr "openclaw");
        ("social_contract_schema_version", VStr OPENCLAW_SOCIAL_CONTRACT_SCHEMA_VERSION);
        ("message_id", VStr social_message_id); ("mentioned_user_ids", VList (vstrs (text_list payload "mentioned_list")));
        ("mention_policy", VStr "mention_or_direct"); ("runtime_host", VStr "openclaw");
        ("transport_kind", VStr "openclaw_gateway"); ("platform_kind", VStr (od_platform_kind defaults));
        ("plugin_id", VStr (first_text payload ["plugin_id"] (od_plugin_id defaults)));
        ("plugin_package", VStr (first_text payload ["plugin_package"] (od_plugin_package defaults)));
        ("plugin_version", VStr (first_text payload ["plugin_version"] ""));
        ("installer_package", VStr (first_text payload ["installer_package"] (od_installer_package defaults)));
        ("host_version", VStr (first_text payload ["host_version"] ""));
        ("plugin_compliance_class", VStr (od_plugin_compliance_class defaults)); ("share_session_in_group", VBool share);
        ("session_scope", VStr (session_scope shared));
        ("session_scope_key", VStr (session_scope_key shared channel_id external_user_id));
        ("group_scene", VStr (group_or_direct in_group));
        ("raw_event_type", VStr (first_text payload ["event_type"; "raw_event_type"] "message"));
        ("live_network_executed", VBool false)] |}.

Definition QQ_OPENCLAW_DEFAULTS : OpenClawAdapterDefaults :=
  {| od_platform_kind := "qq"; od_plugin_id := "qq_openclaw"; od_plugin_package := ""; od_installer_package := "";
     od_plugin_compliance_class := "lab_compatibility" |}.
Definition WECHAT_ILINK_OPENCLAW_DEFAULTS : OpenClawAdapterDefaults :=
  {| od_platform_kind := "wechat"; od_plugin_id := "wechat_ilink"; od_plugin_package := "@tencent/openclaw-weixin";
     od_installer_package := "@tencent-weixin/openclaw-weixin-cli"; od_plugin_compliance_class := "lab_compatibility" |}.

Definition qq_openclaw : SocialAdapter :=
  {| adapter_kind := "qq_openclaw"; envelope_from_event := build_openclaw_social_envelope "qq_openclaw" QQ_OPENCLAW_DEFAULTS |}.
Definition wechat_ilink : SocialAdapter :=
  {| adapter_kind := "wechat_ilink";
     envelope_from_event := build_openclaw_social_envelope "wechat_ilink" WECHAT_ILINK_OPENCLAW_DEFAULTS |}.

Definition service_adapters : list SocialAdapter := [qq_official; onebot_qq; wecom; wechat_ilink; qq_openclaw].

(** ** Texts of values *)

Lemma app_nonempty_l s t : s <> "" -> s +:+ t <> "".
Proof. by destruct s. Qed.
Lemma app_nonempty_r s t : t <> "" -> s +:+ t <> "".
Proof. by destruct s. Qed.
#[local] Hint Resolve app_nonempty_l app_nonempty_r : texts.
#[local] Hint Extern 1 (_ <> _) => discriminate : texts.

Lemma digits_nonempty fuel z acc : acc <> "" -> digits_of fuel z acc <> "".
Proof. revert z acc. induction fuel as [|f IH]; intros z acc H; cbn [digits_of]; [done|]. destruct (z <? 10); [done|by apply IH]. Qed.

Lemma int_text_nonempty z : string_of_Z z <> "".
Proof.
  unfold string_of_Z. cbn [digits_of]. assert (H : forall f y, (if y <? 10 then String (ascii_of_N (Z.to_N (48 + y mod 10))) ""
    else digits_of f (y / 10) (String (ascii_of_N (Z.to_N (48 + y mod 10))) "")) <> "").
  { intros f y. destruct (y <? 10); [done|by apply digits_nonempty]. }
  destruct (z <? 0); [done|apply H].
Qed.

Lemma float_text_nonempty f : float_repr f <> "".
Proof.
  assert (Hl : forall ds q, layout ds q <> "").
  { intros ds q. unfold layout. destruct (_ || _); [auto 6 with texts|]. destruct (_ <? 0); [done|].
    destruct (_ <=? _); auto 6 with texts. }
  unfold float_repr. destruct f as [[]|[]| |s m e]; try done.
  destruct (frac_of m e), (shortest _ _ _ _ _ _), (strip_zeros _ _ _), s; auto with texts.
Qed.

(** A value that is true has a text. *)
Lemma truthy_str_nonempty v : py_truthy v = true -> py_str v <> "".
Proof.
  destruct v as [|[]|z|f|s|l|l|d]; try done; intros H; cbn [py_str py_repr].
  - apply int_text_nonempty.
  - apply float_text_nonempty.
  - intros ->. done.
  - by destruct l as [|x [|y l]].
Qed.

Lemma por_text v w : py_str w <> "" -> py_str (por v w) <> "".
Proof. intros H. unfold por. destruct (py_truthy v) eqn:E; [by apply truthy_str_nonempty|done]. Qed.

Lemma first_of_nonempty keys default d : default <> "" -> first_of keys default d <> "".
Proof. intros H. unfold first_of. induction keys as [|k keys IH]; cbn [foldr]; [done|by apply por_text]. Qed.

Lemma str_or_nonempty key default d : default <> "" -> str_or key default d <> "".
Proof. intros H. by apply por_text. Qed.

Lemma or_text_nonempty s t : t <> "" -> or_text s t <> "".
Proof. intros H. unfold or_text. by destruct (String.eqb_spec s ""). Qed.

Lemma first_text_nonempty payload keys default : default <> "" -> first_text payload keys default <> "".
Proof.
  intros H. induction keys as [|k keys IH]; cbn [first_text]; [done|]. destruct (dgetn _ _); [done|..]; by apply or_text_nonempty.
Qed.

Lemma qq_user_nonempty payload : qq_user_id payload <> "".
Proof. unfold qq_user_id. by do 4 apply por_text. Qed.
#[local] Hint Resolve first_of_nonempty str_or_nonempty or_text_nonempty first_text_nonempty qq_user_nonempty : texts.

(** ** What an adapter promises *)

Definition no_colon (s : string) : Prop := mem_char ":" s = false.

(** The message is bound to a sender under the adapter's kind, in a channel of
    one of two kinds; [grants_admin] says which payloads the service marks as an
    administrator's. *)
Class BindsSender (A : SocialAdapter) (grants_admin : dict -> bool) : Prop := {
  bs_kind : no_colon adapter_kind;
  bs_adapter t p : se_adapter_kind (envelope_from_event t p) = adapter_kind;
  bs_principal t p : se_principal_id (envelope_from_event t p) = principal_of adapter_kind (se_external_user_id (envelope_from_event t p));
  bs_channel t p : se_channel_kind (envelope_from_event t p) ∈ ["group"; "direct"];
  bs_rate t p : se_rate_limit_class (envelope_from_event t p) =
                if grants_admin p then "admin" else group_rate (String.eqb (se_channel_kind (envelope_from_event t p)) "group");
  bs_received t p : se_received_at (envelope_from_event t p) = t;
  bs_complete t p : envelope_complete (envelope_from_event t p);
}.

Definition never_admin (p : dict) : bool := false.
Definition qq_admin (p : dict) : bool := py_truthy (por (dgetn "is_admin" p) (dgetn "operator_override" p)).

Lemma group_or_direct_kind b : group_or_direct b ∈ ["group"; "direct"].
Proof. destruct b; cbn; [left|right; left]. Qed.
Lemma group_or_direct_social b : group_or_direct b ∈ social_channel_kinds.
Proof. destruct b; [left|right; left]. Qed.
Lemma group_or_direct_group b : String.eqb (group_or_direct b) "group" = b.
Proof. by destruct b. Qed.
Lemma group_rate_nonempty b : group_rate b <> "".
Proof. by destruct b. Qed.
#[local] Hint Resolve group_or_direct_kind group_or_direct_social group_rate_nonempty : texts.

Lemma onebot_channel_nonempty b u payload : onebot_channel_id b u payload <> "".
Proof.
  unfold onebot_channel_id. destruct (String.eqb_spec (py_str (dgetn (if b then "group_id" else "user_id") payload)) "") as [|H]; cbn [orb].
  - by apply app_nonempty_l.
  - destruct (String.eqb _ "None"); [by apply app_nonempty_l|done].
Qed.
#[local] Hint Resolve onebot_channel_nonempty : texts.

Lemma principal_nonempty k u : u <> "" -> principal_of k u <> "".
Proof. unfold principal_of. auto with texts. Qed.
Lemma admin_rate_nonempty (b g : bool) : (if b then "admin" else group_rate g) <> "".
Proof. by destruct b, g. Qed.
#[local] Hint Resolve principal_nonempty admin_rate_nonempty : texts.

(** Every field of [BindsSender] is read off the envelope. *)
Ltac read_envelope :=
  cbn [adapter_kind envelope_from_event se_adapter_kind se_social_message_id se_channel_id se_channel_kind se_external_user_id
       se_principal_id se_message_kind se_rate_limit_class se_received_at].
Ltac texts_present := repeat (apply List.Forall_cons; [solve [auto 8 with texts]|]); apply List.Forall_nil.
Ltac binds_sender :=
  split; intros; read_envelope; rewrite ?group_or_direct_group;
  first [reflexivity | solve [auto with texts] | split; read_envelope; [solve [auto with texts]|texts_present]].

#[export] Instance onebot_binds : BindsSender onebot_qq never_admin.
Proof. unfold onebot_qq, onebot_envelope. binds_sender. Qed.
#[export] Instance qq_official_binds : BindsSender qq_official qq_admin.
Proof. unfold qq_official, qq_official_envelope. binds_sender. Qed.
#[export] Instance wecom_binds : BindsSender wecom never_admin.
Proof. unfold wecom, wecom_envelope. binds_sender. Qed.
#[export] Instance wechat_binds : BindsSender wechat_ilink never_admin.
Proof. unfold wechat_ilink, build_openclaw_social_envelope. binds_sender. Qed.
#[export] Instance qq_openclaw_binds : BindsSender qq_openclaw never_admin.
Proof. unfold qq_openclaw, build_openclaw_social_envelope. binds_sender. Qed.

(** ** Who a payload says has sent what

    Each service names the sender and the text at places of its own, in an
    order; the first place that says something counts. *)

(** The value at the end of a path of keys. *)
Fixpoint at_path (path : list string) (d : dict) : pyval :=
  match path with
  | [] => VNone
  | [k] => dgetn (KStr k) d
  | k :: rest => at_path rest (dict_or_empty k d)
  end.
(** What a value says: an OpenClaw host's values count when their text is not blank, other values when they are true. *)
Definition said (hosted : bool) (v : pyval) : option string :=
  if hosted then match v with VNone => None | _ => str_truthy (Some (py_strip (py_str v))) end
  else if py_truthy v then Some (py_str v) else None.
Definition said_first (hosted : bool) (places : list (list string)) (p : dict) : option string :=
  hd_error (omap (fun path => said hosted (at_path path p)) places).

Definition named_sender (kind : string) (p : dict) : string :=
  if String.eqb kind "onebot_qq" then default "unknown-onebot-user" (said_first false [["user_id"]] p)
  else if String.eqb kind "qq_official" then
    default "unknown-qq-user" (said_first false [["user_id"]; ["author"; "id"]; ["member"; "user"; "id"]; ["openid"]] p)
  else if String.eqb kind "wecom" then default "unknown-wecom-user" (said_first false [["from"]; ["userid"]; ["user_id"]] p)
  else default "unknown-openclaw-user" (said_first true [["from_user"]; ["openid"]; ["user_id"]] p).
Definition named_text (kind : string) (p : dict) : string :=
  if String.eqb kind "onebot_qq" then
    extract_onebot_text (if py_truthy (dgetn "message" p) then dgetn "message" p
                         else if py_truthy (dgetn "raw_message" p) then dgetn "raw_message" p else VStr "")
  else if String.eqb kind "qq_official" then py_strip (default "" (said_first false [["content"]; ["message"]] p))
  else if String.eqb kind "wecom" then py_strip (default "" (said_first false [["text"]; ["content"]] p))
  else default "" (said_first true [["text"]; ["content"]] p).

Lemma str_por_said v w default_text r :
  py_str w = default default_text r -> py_str (por v w) = default default_text (match said false v with Some t => Some t | None => r end).
Proof. intros H. unfold por, said. by destruct (py_truthy v). Qed.

Lemma said_first_cons hosted path places p :
  said_first hosted (path :: places) p = match said hosted (at_path path p) with Some t => Some t | None => said_first hosted places p end.
Proof. unfold said_first. cbn. by destruct (said _ _). Qed.

Lemma first_text_said keys default_text p : first_text p keys default_text = default default_text (said_first true (map (fun k => [k]) keys) p).
Proof.
  induction keys as [|k keys IH]; [done|]. cbn [map first_text]. rewrite said_first_cons, IH. cbn [at_path].
  destruct (dgetn (KStr k) p) eqn:E; cbn [said]; [done|..]; unfold or_text, str_truthy; by case_match.
Qed.

Ltac said_places := rewrite ?said_first_cons; repeat (apply str_por_said; cbn [at_path]); done.

(** Each service's adapter binds the sender that its payload names, and keeps the text that it gives. *)
Lemma envelope_says A t p : A ∈ service_adapters ->
  se_external_user_id (@envelope_from_event A t p) = named_sender (@adapter_kind A) p /\
  se_text (@envelope_from_event A t p) = named_text (@adapter_kind A) p.
Proof.
  intros HA. repeat (apply elem_of_cons in HA as [->|HA]); [..|by apply elem_of_nil in HA];
    (split; [unfold named_sender|unfold named_text]); cbn [adapter_kind envelope_from_event onebot_qq qq_official wecom wechat_ilink qq_openclaw
      onebot_envelope qq_official_envelope wecom_envelope build_openclaw_social_envelope se_external_user_id se_text String.eqb Ascii.eqb Bool.eqb].
  - said_places.
  - f_equal. said_places.
  - said_places.
  - done.
  - said_places.
  - f_equal. said_places.
  - by rewrite first_text_said.
  - by rewrite first_text_said.
  - by rewrite first_text_said.
  - by rewrite first_text_said.
Qed.

Lemma service_binds A : A ∈ service_adapters -> exists ga, BindsSender A ga.
Proof.
  intros HA. repeat (apply elem_of_cons in HA as [->|HA]); [..|by apply elem_of_nil in HA]; eexists; apply _.
Qed.

(** ** Principals *)

Lemma principal_inj k k' u u' : no_colon k -> no_colon k' -> principal_of k u = principal_of k' u' -> k = k' /\ u = u'.
Proof.
  unfold principal_of, no_colon. revert k'. induction k as [|c k IH]; intros [|c' k'] H H'; cbn in *.
  - intros E. by injection E.
  - intros E. injection E as <- _. discriminate H'.
  - intros E. injection E as -> _. discriminate H.
  - apply orb_false_iff in H as [_ H], H' as [_ H']. intros E. injection E as -> E. by destruct (IH k' H H' E) as [-> ->].
Qed.

(** A principal names one user of one service: two messages, of the same service or of two, are bound to the same principal
    exactly when the adapters are of the same kind and the payloads name the same user; and the key of a session that is not
    shared tells two users of a channel apart. *)
Theorem principals_identify_senders (A B : SocialAdapter) ga gb (HA : BindsSender A ga) (HB : BindsSender B gb) t t' p p' :
  let m := @envelope_from_event A t p in
  let m' := @envelope_from_event B t' p' in
  (se_principal_id m = se_principal_id m' <->
   @adapter_kind A = @adapter_kind B /\ se_external_user_id m = se_external_user_id m') /\
  (se_channel_id m = se_channel_id m' ->
   session_scope_key false (se_channel_id m) (se_external_user_id m) =
   session_scope_key false (se_channel_id m') (se_external_user_id m') <-> se_external_user_id m = se_external_user_id m').
Proof.
  intros m m'. split.
  - unfold m, m'. rewrite (bs_principal t p), (bs_principal t' p'). split.
    + apply principal_inj; apply bs_kind.
    + by intros [-> ->].
  - intros ->. unfold session_scope_key. split; [|by intros ->]. generalize (se_channel_id m'). intros c.
    induction c as [|a c IH]; cbn; intros [= E]; [done|by apply IH].
Qed.

(** A OneBot sender and a WeCom sender of the same number are two principals. *)
Lemma principals_identify_senders_witness :
  let m := @envelope_from_event onebot_qq "t" [(KStr "user_id", VInt 7); (KStr "group_id", VInt 9)] in
  let m' := @envelope_from_event wecom "t" [(KStr "from", VStr "7")] in
  (se_principal_id m = se_principal_id m' <->
   @adapter_kind onebot_qq = @adapter_kind wecom /\ se_external_user_id m = se_external_user_id m') /\
  (se_channel_id m = se_channel_id m' ->
   session_scope_key false (se_channel_id m) (se_external_user_id m) =
   session_scope_key false (se_channel_id m') (se_external_user_id m') <-> se_external_user_id m = se_external_user_id m').
Proof.
  exact (principals_identify_senders onebot_qq wecom never_admin never_admin onebot_binds wecom_binds "t" "t"
    [(KStr "user_id", VInt 7); (KStr "group_id", VInt 9)] [(KStr "from", VStr "7")]).
Defined.
