(* ===== verification/SocialSamples.v ===== *)
(** * Sample messages ([social_adapters/samples.py])

    One payload per service and scenario, which the adapter test normalises.
    The functions of the file answer deep copies of these values. *)

From Stdlib Require Import ZArith Lia Bool List Ascii String.
From stdpp Require Import base list option strings.
From S2P Require Import Prelude PyFloat Text PyValue Events Social SocialAdapters.

#[local] Open Scope string_scope.
#[local] Open Scope Z_scope.
#[local] Open Scope list_scope.

#[local] Notation obj l := (VDict (dict_of l)).

(** ** QQ, the official bot *)

Definition qq_official_group_message_sample : dict := dict_of
  [("id", VStr "qq-msg-sample-001"); ("group_id", VStr "group-qq-001"); ("channel_id", VStr "group-qq-001");
   ("author", obj [("id", VStr "alice")]);
   ("member", obj [("user", obj [("id", VStr "alice")]); ("roles", VList [VStr "member"])]);
   ("content", VStr "@NeuroLink please check current status"); ("mentions", VList [obj [("id", VStr "bot-neurolink")]])].
Definition qq_official_group_message_no_mention_sample : dict := dict_of
  [("id", VStr "qq-msg-sample-002"); ("group_id", VStr "group-qq-001"); ("channel_id", VStr "group-qq-001");
   ("author", obj [("id", VStr "alice")]);
   ("member", obj [("user", obj [("id", VStr "alice")]); ("roles", VList [VStr "member"])]);
   ("content", VStr "please check current status"); ("mentions", VList [])].
Definition qq_official_direct_message_sample : dict := dict_of
  [("id", VStr "qq-dm-sample-001"); ("direct_message_id", VStr "dm-qq-001"); ("author", obj [("id", VStr "alice")]);
   ("content", VStr "please check my direct message status"); ("mentions", VList [])].

(** ** OneBot *)

Definition segment (kind : string) (data : list (string * pyval)) : pyval := obj [("type", VStr kind); ("data", obj data)].

Definition onebot_group_message_sample : dict := dict_of
  [("message_id", VStr "onebot-msg-sample-001"); ("message_type", VStr "group"); ("group_id", VInt 42); ("user_id", VInt 1001);
   ("self_id", VInt 2002); ("sender", obj [("role", VStr "admin"); ("nickname", VStr "alice")]);
   ("share_session_in_group", VBool true);
   ("message", VList [segment "at" [("qq", VStr "2002")]; segment "text" [("text", VStr " please")];
                      segment "text" [("text", VStr " check current status")]])].
Definition onebot_group_message_no_mention_sample : dict := dict_of
  [("message_id", VStr "onebot-msg-sample-002"); ("message_type", VStr "group"); ("group_id", VInt 42); ("user_id", VInt 1001);
   ("self_id", VInt 2002); ("sender", obj [("role", VStr "member"); ("nickname", VStr "alice")]);
   ("share_session_in_group", VBool false);
   ("message", VList [segment "text" [("text", VStr "please")]; segment "text" [("text", VStr "check current status")]])].
Definition onebot_direct_message_sample : dict := dict_of
  [("message_id", VStr "onebot-dm-sample-001"); ("message_type", VStr "private"); ("user_id", VInt 1001); ("self_id", VInt 2002);
   ("sender", obj [("role", VStr "friend"); ("nickname", VStr "alice")]); ("share_session_in_group", VBool false);
   ("message", VList [segment "text" [("text", VStr "please")]; segment "text" [("text", VStr "check my direct status")]])].

(** ** WeCom *)

Definition wecom_group_message_sample : dict := dict_of
  [("msgid", VStr "wecom-msg-sample-001"); ("conversation_type", VStr "group"); ("roomid", VStr "wecom-room-001");
   ("from", VStr "alice"); ("text", VStr "@NeuroLink please check current status"); ("mentioned_list", VList [VStr "neuro_bot"])].
Definition wecom_group_message_no_mention_sample : dict := dict_of
  [("msgid", VStr "wecom-msg-sample-002"); ("conversation_type", VStr "group"); ("roomid", VStr "wecom-room-001");
   ("from", VStr "alice"); ("text", VStr "please check current status"); ("mentioned_list", VList [])].
Definition wecom_direct_message_sample : dict := dict_of
  [("msgid", VStr "wecom-dm-sample-001"); ("conversation_type", VStr "single"); ("from", VStr "alice");
   ("text", VStr "please check my direct message status"); ("mentioned_list", VList [])].

(** ** WeChat and QQ behind an OpenClaw host *)

Definition wechat_ilink_group_message_sample : dict := dict_of
  [("msg_id", VStr "wechat-ilink-msg-sample-001"); ("scene", VStr "group"); ("room_id", VStr "wechat-room-001");
   ("from_user", VStr "alice"); ("text", VStr "please check current status"); ("mentioned_list", VList [VStr "neuro_bot"]);
   ("share_session_in_group", VBool true)].
Definition wechat_ilink_group_message_no_mention_sample : dict := dict_of
  [("msg_id", VStr "wechat-ilink-msg-sample-002"); ("scene", VStr "group"); ("room_id", VStr "wechat-room-001");
   ("from_user", VStr "alice"); ("text", VStr "please check current status"); ("mentioned_list", VList []);
   ("share_session_in_group", VBool false)].
Definition wechat_ilink_direct_message_sample : dict := dict_of
  [("msg_id", VStr "wechat-ilink-dm-sample-001"); ("scene", VStr "direct"); ("from_user", VStr "alice");
   ("text", VStr "please check my direct status"); ("mentioned_list", VList []); ("share_session_in_group", VBool false)].

Definition qq_openclaw_group_message_sample : dict := dict_of
  [("msg_id", VStr "qq-openclaw-msg-sample-001"); ("scene", VStr "group"); ("room_id", VStr "qq-openclaw-room-001");
   ("from_user", VStr "alice"); ("text", VStr "please check current status"); ("mentioned_list", VList [VStr "neuro_bot"]);
   ("share_session_in_group", VBool true); ("plugin_id", VStr "qq_openclaw");
   ("plugin_package", VStr "operator-supplied-qq-openclaw-package");
   ("installer_package", VStr "operator-supplied-qq-openclaw-installer")].
Definition qq_openclaw_group_message_no_mention_sample : dict := dict_of
  [("msg_id", VStr "qq-openclaw-msg-sample-002"); ("scene", VStr "group"); ("room_id", VStr "qq-openclaw-room-001");
   ("from_user", VStr "alice"); ("text", VStr "please check current status"); ("mentioned_list", VList []);
   ("share_session_in_group", VBool false); ("plugin_id", VStr "qq_openclaw")].
Definition qq_openclaw_direct_message_sample : dict := dict_of
  [("msg_id", VStr "qq-openclaw-dm-sample-001"); ("scene", VStr "direct"); ("from_user", VStr "alice");
   ("text", VStr "please check my direct status"); ("mentioned_list", VList []); ("share_session_in_group", VBool false);
   ("plugin_id", VStr "qq_openclaw"); ("plugin_package", VStr "operator-supplied-qq-openclaw-package")].

(** ** What the adapters make of them *)

Definition envelope_view (e : SocialMessageEnvelope) : list string :=
  [se_channel_kind e; se_channel_id e; se_principal_id e; se_text e; str_or "session_scope_key" "" (se_metadata e)].

Example onebot_samples :
  map envelope_view (map (onebot_envelope "t") [onebot_group_message_sample; onebot_direct_message_sample]) =
    [["group"; "42"; "onebot_qq:1001"; "please check current status"; "42"];
     ["direct"; "1001"; "onebot_qq:1001"; "please check my direct status"; "1001:1001"]]
  /\ dgetn "mentioned_self" (se_metadata (onebot_envelope "t" onebot_group_message_sample)) = VBool true.
Proof. vm_compute. auto. Qed.

Example service_samples :
  map envelope_view
    [qq_official_envelope "t" qq_official_direct_message_sample; wecom_envelope "t" wecom_group_message_no_mention_sample;
     @envelope_from_event wechat_ilink "t" wechat_ilink_group_message_sample] =
    [["direct"; "direct-dm-qq-001"; "qq_official:alice"; "please check my direct message status"; "direct-dm-qq-001:alice"];
     ["group"; "wecom-room-001"; "wecom:alice"; "please check current status"; "wecom-room-001:alice"];
     ["group"; "wechat-room-001"; "wechat_ilink:alice"; "please check current status"; "wechat-room-001"]].
Proof. vm_compute. reflexivity. Qed.
