(* ===== verification/SocialRegistry.v ===== *)
(** * The registry of chat adapters ([social_adapters/registry.py])

    The profiles of the adapters: the built-in ones and those of the
    configuration file, when a profile is ready for live input and output, and
    the commands that list, change and test them.

    The state of the configuration command is the file ([ConfigFile]); that of
    the test command is the list of the endpoints a connection was opened to.
    [urlparse] and the socket are outside: a section's variables. *)

From Stdlib Require Import ZArith Lia Bool List Ascii String.
From stdpp Require Import base gmap list option strings.
From S2P Require Import Prelude PyFloat Text PyValue Events Maf Store Inference ProviderProfiles Social SocialAdapters.

#[local] Open Scope string_scope.
#[local] Open Scope Z_scope.
#[local] Open Scope list_scope.

Definition SOCIAL_ADAPTER_PROFILE_SCHEMA_VERSION : string := "2.2.2-social-adapter-profile-v1".
Definition SOCIAL_ADAPTER_REGISTRY_SCHEMA_VERSION : string := "2.2.2-social-adapter-registry-v1".
Definition SOCIAL_ADAPTER_CONFIG_SCHEMA_VERSION : string := "2.2.2-social-adapter-config-v1".
Definition SOCIAL_ADAPTER_TEST_SCHEMA_VERSION : string := "2.2.2-social-adapter-test-v1".
Definition SOCIAL_ADAPTER_SAMPLE_SCENARIOS : list string := ["group"; "direct"; "group_no_mention"].
Definition DEFAULT_SUPPORTED_CHANNEL_KINDS : list string := ["direct"; "group"; "channel"].
Definition LAB_COMPLIANCE_CLASSES : list string := ["lab_bridge"; "personal_account_bridge"].

(** ** Values of the configuration *)

(** [_dedupe]: the values stripped, without the blank ones, the first of each. *)
Definition dedupe_stripped (values : list string) : list string := dedupe (List.filter nonempty_text (map py_strip values)).

Definition normalize_channel_kinds (raw_value : pyval) : list string :=
  match raw_value with
  | VList raw_items =>
      let kinds := map (fun item => py_lower (py_strip (py_str item))) raw_items in
      match dedupe_stripped (List.filter (fun k => str_in k DEFAULT_SUPPORTED_CHANNEL_KINDS) kinds) with
      | [] => DEFAULT_SUPPORTED_CHANNEL_KINDS
      | channels => channels
      end
  | _ => DEFAULT_SUPPORTED_CHANNEL_KINDS
  end.

Definition normalize_credential_env_vars (raw_value : pyval) : list string :=
  match raw_value with
  | VStr s => if nonempty_text (py_strip s) then [py_strip s] else []
  | VList items => dedupe_stripped (map py_str items)
  | _ => []
  end.

(** Every variable is set; so it is when none is named. *)
Definition credentials_present (env : environ) (credential_env_vars : list string) : bool :=
  forallb (variable_set env) credential_env_vars.

(** ** Profiles *)

Record SocialAdapterProfile := {
  ap_name : string;
  ap_adapter_kind : string;
  ap_enabled : bool;
  ap_runtime_host : string;
  ap_endpoint_url : option string;
  ap_webhook_url : option string;
  ap_host_url : option string;
  ap_credential_env_vars : list string;
  ap_supported_channel_kinds : list string;
  ap_default_channel_policy : string;
  ap_mention_policy : string;
  ap_transport_kind : string;
  ap_share_session_in_group : bool;
  ap_plugin_id : option string;
  ap_plugin_package : option string;
  ap_installer_package : option string;
  ap_plugin_installed : bool;
  ap_account_session_ready : bool;
  ap_compliance_class : string;
  ap_compliance_acknowledged : bool;
  ap_live_network_allowed : bool;
  ap_endpoint_configured : bool;
  ap_credential_configured : bool;
}.

Definition compliance_ready (p : SocialAdapterProfile) : bool :=
  negb (str_in (ap_compliance_class p) LAB_COMPLIANCE_CLASSES) || ap_compliance_acknowledged p.
Definition is_gateway (p : SocialAdapterProfile) : bool := String.eqb (ap_transport_kind p) "openclaw_gateway".

Definition ready_for_live_io (p : SocialAdapterProfile) : bool :=
  if is_gateway p then
    ap_enabled p && ap_endpoint_configured p && ap_credential_configured p && is_set (ap_plugin_package p) &&
    ap_plugin_installed p && ap_account_session_ready p && compliance_ready p
  else ap_enabled p && ap_endpoint_configured p && ap_credential_configured p && compliance_ready p.

(** The endpoint of a profile that is not a gateway's is named twice, as in the code. *)
Definition adapter_missing_requirements (p : SocialAdapterProfile) : list string :=
  let needs (b : bool) s := if b then [s] else [] in
  needs (negb (ap_enabled p)) "enabled_adapter" ++
  needs (negb (ap_endpoint_configured p)) (if is_gateway p then "host_endpoint_reference" else "endpoint_reference") ++
  needs (is_gateway p && negb (is_set (ap_plugin_package p))) "plugin_package_coordinate" ++
  needs (is_gateway p && negb (ap_plugin_installed p)) "plugin_installed_evidence" ++
  needs (is_gateway p && negb (ap_account_session_ready p)) "account_session_ready" ++
  needs (negb (ap_endpoint_configured p) && negb (is_gateway p)) "endpoint_reference" ++
  needs (negb (ap_credential_configured p)) "credential_reference" ++
  needs (negb (compliance_ready p)) "compliance_acknowledgement".

Definition adapter_profile_to_dict (p : SocialAdapterProfile) : dict :=
  dict_of
    [("schema_version", VStr SOCIAL_ADAPTER_PROFILE_SCHEMA_VERSION); ("name", VStr (ap_name p));
     ("adapter_kind", VStr (ap_adapter_kind p)); ("enabled", VBool (ap_enabled p));
     ("runtime_host", VStr (ap_runtime_host p)); ("endpoint_url", opt_str (ap_endpoint_url p));
     ("webhook_url", opt_str (ap_webhook_url p)); ("host_url", opt_str (ap_host_url p));
     ("endpoint_configured", VBool (ap_endpoint_configured p));
     ("credential_env_vars", VList (vstrs (ap_credential_env_vars p)));
     ("credential_configured", VBool (ap_credential_configured p));
     ("credential_values_masked",
      VList (if ap_credential_configured p then map (fun _ => VStr "***") (ap_credential_env_vars p) else []));
     ("supported_channel_kinds", VList (vstrs (ap_supported_channel_kinds p)));
     ("default_channel_policy", VStr (ap_default_channel_policy p)); ("mention_policy", VStr (ap_mention_policy p));
     ("transport_kind", VStr (ap_transport_kind p)); ("share_session_in_group", VBool (ap_share_session_in_group p));
     ("plugin_id", opt_str (ap_plugin_id p)); ("plugin_package", opt_str (ap_plugin_package p));
     ("installer_package", opt_str (ap_installer_package p)); ("plugin_installed", VBool (ap_plugin_installed p));
     ("account_session_ready", VBool (ap_account_session_ready p)); ("compliance_class", VStr (ap_compliance_class p));
     ("compliance_acknowledged", VBool (ap_compliance_acknowledged p)); ("compliance_ready", VBool (compliance_ready p));
     ("live_network_allowed", VBool (ap_live_network_allowed p)); ("ready_for_live_io", VBool (ready_for_live_io p));
     ("missing_requirements", VList (vstrs (adapter_missing_requirements p)))].

Record SocialAdapterRegistry := {
  ar_profiles : list SocialAdapterProfile;
  ar_active_adapter : string;
}.

Definition get_adapter_profile (name : string) (r : SocialAdapterRegistry) : option SocialAdapterProfile :=
  List.find (fun p => String.eqb (ap_name p) name) (ar_profiles r).
Definition adapter_registry_to_dict (r : SocialAdapterRegistry) : dict :=
  dict_of
    [("schema_version", VStr SOCIAL_ADAPTER_REGISTRY_SCHEMA_VERSION); ("active_adapter", VStr (ar_active_adapter r));
     ("profiles", VList (map (fun p => VDict (adapter_profile_to_dict p)) (ar_profiles r)));
     ("ready_adapter_names", VList (vstrs (map ap_name (List.filter ready_for_live_io (ar_profiles r)))))].

(** ** The configuration file *)

(** [path] is [str(resolved_path)]. *)
Definition load_social_adapter_config (path : string) (file : ConfigFile) : result dict :=
  match file with
  | None =>
      Ok (dict_of [("schema_version", VStr SOCIAL_ADAPTER_CONFIG_SCHEMA_VERSION); ("config_path", VStr path);
                   ("exists", VBool false); ("active_adapter", VStr "mock_social"); ("profiles", VList [])])
  | Some content =>
      let! payload := content in
      match payload with
      | VDict d =>
          let! profiles := py_iter (por (dgetn "profiles" d) (VList [])) in
          Ok (dict_of [("schema_version", VStr (str_or "schema_version" SOCIAL_ADAPTER_CONFIG_SCHEMA_VERSION d));
                       ("config_path", VStr path); ("exists", VBool true);
                       ("active_adapter", VStr (str_or "active_adapter" "mock_social" d)); ("profiles", VList profiles)])
      | _ => Raise (ValueError "social_adapter_config_invalid_payload")
      end
  end.

Definition write_social_adapter_config (path : string) (payload : dict) : eff ConfigFile dict :=
  do! profiles := elift (py_iter (por (dgetn "profiles" payload) (VList []))) in
  let write_payload := dict_of
    [("schema_version", VStr SOCIAL_ADAPTER_CONFIG_SCHEMA_VERSION);
     ("active_adapter", VStr (str_or "active_adapter" "mock_social" payload)); ("profiles", VList profiles)] in
  do! written := elift (json_norm (VDict write_payload)) in
  do! _ := emodify (fun _ => Some (Ok written)) in
  eret (dupdate write_payload (dict_of [("config_path", VStr path); ("exists", VBool true)])).

(** ** The registry *)

Definition mock_social_profile : SocialAdapterProfile :=
  {| ap_name := "mock_social"; ap_adapter_kind := "mock_social"; ap_enabled := true; ap_runtime_host := "direct";
     ap_endpoint_url := Some "local://mock-social"; ap_webhook_url := None; ap_host_url := None; ap_credential_env_vars := [];
     ap_supported_channel_kinds := DEFAULT_SUPPORTED_CHANNEL_KINDS; ap_default_channel_policy := "direct_and_group";
     ap_mention_policy := "optional"; ap_transport_kind := "local"; ap_share_session_in_group := false;
     ap_plugin_id := None; ap_plugin_package := None; ap_installer_package := None; ap_plugin_installed := false;
     ap_account_session_ready := false; ap_compliance_class := "deterministic_mock"; ap_compliance_acknowledged := true;
     ap_live_network_allowed := false; ap_endpoint_configured := true; ap_credential_configured := true |}.

(** A built-in profile of a service: off, without plugins evidence, and not allowed on the network. *)
Definition service_profile (env : environ) (name host : string) (endpoint : option string) (credentials : list string)
    (policy transport : string) (plugin_id plugin_package installer : option string) (compliance : string) (acknowledged : bool)
    : SocialAdapterProfile :=
  {| ap_name := name; ap_adapter_kind := name; ap_enabled := false; ap_runtime_host := host; ap_endpoint_url := endpoint;
     ap_webhook_url := None; ap_host_url := None; ap_credential_env_vars := credentials;
     ap_supported_channel_kinds := ["direct"; "group"]; ap_default_channel_policy := policy;
     ap_mention_policy := "mention_or_direct"; ap_transport_kind := transport; ap_share_session_in_group := false;
     ap_plugin_id := plugin_id; ap_plugin_package := plugin_package; ap_installer_package := installer;
     ap_plugin_installed := false; ap_account_session_ready := false; ap_compliance_class := compliance;
     ap_compliance_acknowledged := acknowledged; ap_live_network_allowed := false;
     ap_endpoint_configured := is_set endpoint; ap_credential_configured := credentials_present env credentials |}.

Definition adapters_by_name : Type := list (string * SocialAdapterProfile).

Definition default_adapter_profiles (env : environ) : adapters_by_name :=
  [("mock_social", mock_social_profile);
   ("qq_official", service_profile env "qq_official" "direct" (Some "https://api.sgroup.qq.com") ["QQ_BOT_TOKEN"; "QQ_BOT_SECRET"]
      "mention_or_direct" "https" None None None "official_api" true);
   ("onebot_qq", service_profile env "onebot_qq" "direct" None ["ONEBOT_ACCESS_TOKEN"]
      "lab_opt_in" "reverse_websocket" None None None "lab_bridge" false);
   ("wecom", service_profile env "wecom" "direct" None ["WECOM_BOT_TOKEN"]
      "mention_or_direct" "websocket" None None None "official_api" true);
   ("wechat_ilink", service_profile env "wechat_ilink" "openclaw" None ["WECHAT_ILINK_TOKEN"]
      "lab_opt_in" "openclaw_gateway" (Some "wechat_ilink") (Some "@tencent/openclaw-weixin")
      (Some "@tencent-weixin/openclaw-weixin-cli") "personal_account_bridge" false);
   ("qq_openclaw", service_profile env "qq_openclaw" "openclaw" None ["QQ_OPENCLAW_TOKEN"]
      "lab_opt_in" "openclaw_gateway" (Some "qq_openclaw") None None "personal_account_bridge" false)].

(** [str(config_entry.get(key) or current or "") or None] *)
Definition optional_field (key : string) (current : option string) (entry : dict) : option string :=
  str_truthy (Some (str_or key (default "" current) entry)).
(** [config_entry.get(key) if key in config_entry else list(current)] *)
Definition list_field (key : string) (current : list string) (entry : dict) : pyval :=
  if dmem (KStr key) entry then dgetn (KStr key) entry else VList (vstrs current).

Definition overlay_adapter_from_config (env : environ) (p : SocialAdapterProfile) (config_entry : dict) : SocialAdapterProfile :=
  let field key current := str_or key current config_entry in
  let switch key current := coerce_bool current (dgetn (KStr key) config_entry) in
  let credential_env_vars :=
    normalize_credential_env_vars (list_field "credential_env_vars" (ap_credential_env_vars p) config_entry) in
  let endpoint_url := optional_field "endpoint_url" (ap_endpoint_url p) config_entry in
  let webhook_url := optional_field "webhook_url" (ap_webhook_url p) config_entry in
  let host_url := optional_field "host_url" (ap_host_url p) config_entry in
  {| ap_name := field "name" (ap_name p); ap_adapter_kind := field "adapter_kind" (ap_adapter_kind p);
     ap_enabled := switch "enabled" (ap_enabled p); ap_runtime_host := field "runtime_host" (ap_runtime_host p);
     ap_endpoint_url := endpoint_url; ap_webhook_url := webhook_url; ap_host_url := host_url;
     ap_credential_env_vars := credential_env_vars;
     ap_supported_channel_kinds :=
       normalize_channel_kinds (list_field "supported_channel_kinds" (ap_supported_channel_kinds p) config_entry);
     ap_default_channel_policy := field "default_channel_policy" (ap_default_channel_policy p);
     ap_mention_policy := field "mention_policy" (ap_mention_policy p);
     ap_transport_kind := field "transport_kind" (ap_transport_kind p);
     ap_share_session_in_group := switch "share_session_in_group" (ap_share_session_in_group p);
     ap_plugin_id := optional_field "plugin_id" (ap_plugin_id p) config_entry;
     ap_plugin_package := optional_field "plugin_package" (ap_plugin_package p) config_entry;
     ap_installer_package := optional_field "installer_package" (ap_installer_package p) config_entry;
     ap_plugin_installed := switch "plugin_installed" (ap_plugin_installed p);
     ap_account_session_ready := switch "account_session_ready" (ap_account_session_ready p);
     ap_compliance_class := field "compliance_class" (ap_compliance_class p);
     ap_compliance_acknowledged := switch "compliance_acknowledged" (ap_compliance_acknowledged p);
     ap_live_network_allowed := switch "live_network_allowed" (ap_live_network_allowed p);
     ap_endpoint_configured := is_set host_url || is_set endpoint_url || is_set webhook_url;
     ap_credential_configured := credentials_present env credential_env_vars |}.

(** What a profile of the file starts from, when its name is new. *)
Definition new_adapter_profile (profile_name : string) (entry : dict) : SocialAdapterProfile :=
  {| ap_name := profile_name; ap_adapter_kind := str_or "adapter_kind" profile_name entry; ap_enabled := true;
     ap_runtime_host := "direct"; ap_endpoint_url := None; ap_webhook_url := None; ap_host_url := None;
     ap_credential_env_vars := normalize_credential_env_vars (dgetn "credential_env_vars" entry);
     ap_supported_channel_kinds := DEFAULT_SUPPORTED_CHANNEL_KINDS; ap_default_channel_policy := "direct_and_group";
     ap_mention_policy := "optional"; ap_transport_kind := "local"; ap_share_session_in_group := false;
     ap_plugin_id := None; ap_plugin_package := None; ap_installer_package := None; ap_plugin_installed := false;
     ap_account_session_ready := false; ap_compliance_class := str_or "compliance_class" "custom" entry;
     ap_compliance_acknowledged := true; ap_live_network_allowed := false; ap_endpoint_configured := false;
     ap_credential_configured := false |}.

Definition add_adapter_entry (env : environ) (profiles : adapters_by_name) (raw_entry : pyval) : adapters_by_name :=
  match raw_entry with
  | VDict entry =>
      let profile_name := str_or "name" "" entry in
      if String.eqb profile_name "" then profiles
      else
        let base := match od_get (fun k : string => k) profile_name profiles with
                    | Some p => p
                    | None => new_adapter_profile profile_name entry
                    end in
        od_set (fun k : string => k) profile_name (overlay_adapter_from_config env base entry) profiles
  | _ => profiles
  end.

Definition social_adapter_registry (env : environ) (path : string) (file : ConfigFile) : result SocialAdapterRegistry :=
  let! config := load_social_adapter_config path file in
  let! entries := py_iter (por (dgetn "profiles" config) (VList [])) in
  Ok {| ar_profiles := map snd (fold_left (add_adapter_entry env) entries (default_adapter_profiles env));
        ar_active_adapter := str_or "active_adapter" "mock_social" config |}.

Definition social_adapter_list (env : environ) (path : string) (file : ConfigFile) : result dict :=
  let! registry := social_adapter_registry env path file in
  let! config := load_social_adapter_config path file in
  Ok (dupdate (adapter_registry_to_dict registry) (dict_of
        [("command", VStr "social-adapter-list"); ("config_path", VStr (str_or "config_path" path config));
         ("config_exists", VBool (py_truthy (dget_or "exists" (VBool false) config)));
         ("config_schema_version", VStr (str_or "schema_version" SOCIAL_ADAPTER_CONFIG_SCHEMA_VERSION config));
         ("ok", VBool true)])).

(** ** Changing the configuration *)

(** The arguments of the command that are not [None]. *)
Record AdapterUpdate := {
  au_texts : string -> option string;
  au_flags : string -> option bool;
  au_credential_env_vars : option (list string);
  au_supported_channel_kinds : option (list string);
}.

(** The fields in the order the code sets them. *)
Definition updated_fields (u : AdapterUpdate) : list (string * option pyval) :=
  let text key := (key, VStr <$> au_texts u key) in
  let switch key := (key, VBool <$> au_flags u key) in
  [text "adapter_kind"; text "endpoint_url"; text "webhook_url"; text "host_url";
   ("credential_env_vars", (fun l => VList (vstrs (dedupe_stripped l))) <$> au_credential_env_vars u);
   ("supported_channel_kinds", (fun l => VList (vstrs (normalize_channel_kinds (VList (vstrs l))))) <$> au_supported_channel_kinds u);
   text "default_channel_policy"; text "mention_policy"; text "transport_kind"; switch "share_session_in_group";
   text "runtime_host"; text "plugin_id"; text "plugin_package"; text "installer_package"; switch "plugin_installed";
   switch "account_session_ready"; text "compliance_class"; switch "compliance_acknowledged"; switch "live_network_allowed";
   switch "enabled"].
Definition set_adapter_fields (u : AdapterUpdate) (entry : dict) : dict :=
  fold_left (fun d kv => match kv with (key, Some v) => dset (KStr key) v d | _ => d end) (updated_fields u) entry.

(** The first entry of the name is updated; a new one is added at the end. *)
Fixpoint update_adapter_entry (adapter_name : string) (u : AdapterUpdate) (profiles : list dict) : list dict :=
  match profiles with
  | [] => [set_adapter_fields u (dict_of [("name", VStr adapter_name)])]
  | entry :: rest => if is_named adapter_name entry then set_adapter_fields u entry :: rest
                     else entry :: update_adapter_entry adapter_name u rest
  end.

Definition social_adapter_config_update (env : environ) (path adapter_name : string) (u : AdapterUpdate) (active : bool)
    : eff ConfigFile dict :=
  do! config := (fun file => (load_social_adapter_config path file, file)) in
  do! entries := elift (py_iter (por (dgetn "profiles" config) (VList []))) in
  let active_adapter := if active then adapter_name else str_or "active_adapter" "mock_social" config in
  do! written := write_social_adapter_config path (dict_of
    [("active_adapter", VStr active_adapter);
     ("profiles", VList (map VDict (update_adapter_entry adapter_name u (dict_entries entries))))]) in
  do! listed := (fun file => (social_adapter_list env path file, file)) in
  eret (dict_of [("schema_version", VStr SOCIAL_ADAPTER_CONFIG_SCHEMA_VERSION); ("command", VStr "social-adapter-config");
                 ("config_path", VStr (str_or "config_path" path written)); ("updated_adapter", VStr adapter_name);
                 ("config", VDict written); ("social_adapter_registry", VDict listed); ("ok", VBool true)]).
