(* ===== verification/SocialTest.v ===== *)
(** * Testing the chat adapters ([social_adapters/registry.py]: [social_adapter_test])

    The test normalises a sample message of every selected adapter, delivers an
    answer to it and, when asked and allowed, opens a connection to the
    adapter's endpoint.  The state is the list of the endpoints a connection was
    opened to, in order. *)

From Stdlib Require Import ZArith Lia Bool List Ascii String.
From stdpp Require Import base gmap list option strings.
From S2P Require Import Prelude PyFloat Text PyValue Events Maf Store Inference ProviderProfiles Social SocialAdapters SocialSamples SocialRegistry.

#[local] Open Scope string_scope.
#[local] Open Scope Z_scope.
#[local] Open Scope list_scope.

(** ** The sample of a profile

    The adapters share the events and deliveries of the mock one. *)

Definition sample_received_at : string := "2026-05-11T12:00:00Z".

Definition sample_of {A} (scenario : string) (direct no_mention group : A) : A :=
  if String.eqb scenario "direct" then direct else if String.eqb scenario "group_no_mention" then no_mention else group.

Definition sample_envelope (p : SocialAdapterProfile) (scenario : string) : result SocialMessageEnvelope :=
  let kind := ap_adapter_kind p in
  let sharing payload := dset "share_session_in_group" (VBool (ap_share_session_in_group p)) payload in
  if String.eqb kind "qq_official" then
    Ok (qq_official_envelope sample_received_at (sample_of scenario qq_official_direct_message_sample
          qq_official_group_message_no_mention_sample qq_official_group_message_sample))
  else if String.eqb kind "onebot_qq" then
    Ok (onebot_envelope sample_received_at (sharing (sample_of scenario onebot_direct_message_sample
          onebot_group_message_no_mention_sample onebot_group_message_sample)))
  else if String.eqb kind "wecom" then
    Ok (wecom_envelope sample_received_at (sample_of scenario wecom_direct_message_sample
          wecom_group_message_no_mention_sample wecom_group_message_sample))
  else if String.eqb kind "wechat_ilink" then
    Ok (@envelope_from_event wechat_ilink sample_received_at (sharing (sample_of scenario wechat_ilink_direct_message_sample
          wechat_ilink_group_message_no_mention_sample wechat_ilink_group_message_sample)))
  else if String.eqb kind "qq_openclaw" then
    Ok (@envelope_from_event qq_openclaw sample_received_at (sharing (sample_of scenario qq_openclaw_direct_message_sample
          qq_openclaw_group_message_no_mention_sample qq_openclaw_group_message_sample)))
  else bind_principal kind "mock-social-001" "group" "alice" "please check current status" sample_received_at false.

(** ** The network *)

(** What [urlparse] tells of an address; reading the port can raise. *)
Record Url := { url_scheme : string; url_hostname : option string; url_port : result (option Z) }.

Definition Endpoint : Type := string * Z.

Definition probe_report (status reason : string) (target : option Endpoint) (error : option string) (ok : bool) : dict :=
  dict_of ([("status", VStr status); ("reason", VStr reason)] ++
           match target with Some (host, port) => [("host", VStr host); ("port", VInt port)] | None => [] end ++
           match error with Some e => [("error", VStr e)] | None => [] end ++ [("ok", VBool ok)]).

Section Network.
Context (urlparse : string -> result Url).
(** What a connection attempt answers after the earlier ones: nothing, or the
    text of an [OSError]; any other exception is raised. *)
Context (tcp_connect : list Endpoint -> Endpoint -> pyval -> result (option string)).

Definition endpoint_target (p : SocialAdapterProfile) : result (option Endpoint) :=
  let endpoint := or_text (default "" (ap_webhook_url p)) (default "" (ap_endpoint_url p)) in
  if String.eqb endpoint "" then Ok None
  else
    let! parsed := urlparse endpoint in
    let host := py_strip (default "" (url_hostname parsed)) in
    if String.eqb host "" then Ok None
    else
      let scheme := py_lower (py_strip (url_scheme parsed)) in
      let! port := url_port parsed in
      Ok (Some (host, match port with
                      | Some n => n
                      | None => if str_in scheme ["https"; "wss"] then 443
                                else if str_in scheme ["http"; "ws"] then 80
                                else if String.eqb (ap_transport_kind p) "https" then 443 else 80
                      end)).

Definition tcp_probe (target : Endpoint) (timeout : pyval) : eff (list Endpoint) (option string) :=
  fun opened => (tcp_connect opened target timeout, opened ++ [target]).

Definition transport_probe (p : SocialAdapterProfile) (timeout : pyval) : eff (list Endpoint) dict :=
  do! target := elift (endpoint_target p) in
  match target with
  | None => eret (probe_report "skipped" "transport_endpoint_not_configured" None None false)
  | Some target =>
      do! error := tcp_probe target timeout in
      eret (match str_truthy error with
            | Some e => probe_report "error" "transport_unreachable" (Some target) (Some e) false
            | None => probe_report "ready" "transport_reachable" (Some target) None true
            end)
  end.

(** ** The test *)

Definition probe_allowed (p : SocialAdapterProfile) : bool :=
  ap_live_network_allowed p && compliance_ready p && ap_endpoint_configured p.

Definition run_probe (p : SocialAdapterProfile) (probe : bool) (timeout : pyval) : eff (list Endpoint) dict :=
  if negb probe then eret (probe_report "not_requested" "transport_probe_not_requested" None None true)
  else if negb (probe_allowed p) then eret (probe_report "skipped" "transport_probe_blocked_by_policy" None None false)
  else transport_probe p timeout.

Definition test_gates (p : SocialAdapterProfile) (probe : bool) (envelope : SocialMessageEnvelope) (event : dict)
    (delivery : SocialDeliveryRecord) (report : dict) : list (string * bool) :=
  let respected := negb probe || probe_allowed p in
  [("readiness_reported", true);
   ("social_ingress_normalized", eq_str (dgetn "source_kind" event) "social");
   ("principal_bound", nonempty_text (se_principal_id envelope));
   ("affective_delivery_recorded",
    String.eqb (sd_speaker delivery) "affective" && String.eqb (sd_delivery_status delivery) "delivered");
   ("network_execution_policy_respected", respected);
   ("secrets_not_persisted", negb (dmem "credential_values" (adapter_profile_to_dict p)));
   ("transport_probe_policy_respected", respected);
   ("transport_probe_recorded", negb probe || str_in (str_or "status" "" report) ["ready"; "error"])].

Definition affective_sample : dict := dict_of [("speaker", VStr "affective"); ("text", VStr "I can help with that.")].

Definition build_test_result (probe : bool) (scenario : string) (timeout : pyval) (p : SocialAdapterProfile)
    : eff (list Endpoint) dict :=
  do! envelope := elift (sample_envelope p scenario) in
  let event := to_perception_event envelope in
  do! delivery := elift (deliver_affective_response envelope affective_sample) in
  let ready := ready_for_live_io p in
  do! report := run_probe p probe timeout in
  let gates := test_gates p probe envelope event delivery report in
  eret (dict_of
    [("adapter", VStr (ap_name p)); ("adapter_kind", VStr (ap_adapter_kind p)); ("status", VStr (if ready then "ready" else "skipped"));
     ("reason", VStr (if ready then "social_adapter_ready" else "social_adapter_requirements_missing"));
     ("sample_scenario", VStr scenario); ("profile", VDict (adapter_profile_to_dict p));
     ("social_envelope", VDict (envelope_to_dict envelope)); ("perception_event", VDict event);
     ("delivery_record", VDict (delivery_to_dict delivery)); ("probe_requested", VBool probe);
     ("transport_probe", VDict report); ("closure_gates", VDict (dict_of (map (fun g => (g.1, VBool g.2)) gates)));
     ("ok", VBool (forallb snd gates && py_truthy (dget_or "ok" (VBool false) report)))]).

Fixpoint test_each (probe : bool) (scenario : string) (timeout : pyval) (profiles : list SocialAdapterProfile)
    : eff (list Endpoint) (list dict) :=
  match profiles with
  | [] => eret []
  | p :: rest =>
      do! r := build_test_result probe scenario timeout p in
      do! rs := test_each probe scenario timeout rest in
      eret (r :: rs)
  end.

Definition selected_profiles (adapter_name : string) (r : SocialAdapterRegistry) : result (list SocialAdapterProfile) :=
  if String.eqb adapter_name "" then Ok (ar_profiles r)
  else match get_adapter_profile adapter_name r with
       | Some p => Ok [p]
       | None => Raise (ValueError "unknown_social_adapter_profile")
       end.

Definition gate_set (result : dict) (key : string) : bool :=
  match por (dgetn "closure_gates" result) (VDict []) with VDict gates => py_truthy (dgetn (KStr key) gates) | _ => false end.
Definition deterministic_ready (result : dict) : bool :=
  gate_set result "social_ingress_normalized" && gate_set result "principal_bound" && gate_set result "affective_delivery_recorded".
Definition count_results (f : dict -> bool) (results : list dict) : pyval := VInt (Z.of_nat (length (List.filter f results))).

(** How many probes ended in each status, in the order the statuses appear. *)
Definition probe_status (result : dict) : string :=
  match por (dgetn "transport_probe" result) (VDict []) with VDict probe => str_or "status" "unknown" probe | _ => "unknown" end.
Definition count_status (counts : list (string * Z)) (result : dict) : list (string * Z) :=
  let status := probe_status result in
  od_set (fun k : string => k) status (default 0 (od_get (fun k : string => k) status counts) + 1) counts.
Definition status_counts (results : list dict) : dict :=
  dict_of (map (fun kv => (kv.1, VInt kv.2)) (fold_left count_status results [])).

Definition social_adapter_test (env : environ) (path : string) (file : ConfigFile) (adapter_name : string) (probe : bool)
    (scenario : string) (timeout : pyval) : eff (list Endpoint) dict :=
  if negb (str_in scenario SOCIAL_ADAPTER_SAMPLE_SCENARIOS) then eraise (ValueError "unknown_social_adapter_sample_scenario")
  else
    do! registry := elift (social_adapter_registry env path file) in
    do! profiles := elift (selected_profiles adapter_name registry) in
    do! results := test_each probe scenario timeout profiles in
    let ready := List.filter (fun r => eq_str (dgetn "status" r) "ready") results in
    let tested := VInt (Z.of_nat (length results)) in
    do! config := elift (load_social_adapter_config path file) in
    eret (dict_of
      [("schema_version", VStr SOCIAL_ADAPTER_TEST_SCHEMA_VERSION); ("command", VStr "social-adapter-test");
       ("status", VStr (if is_empty ready then "skipped" else "ready")); ("reason", VStr "social_adapter_test_completed");
       ("config_path", VStr (str_or "config_path" path config)); ("adapter_filter", VStr adapter_name);
       ("sample_scenario", VStr scenario); ("ready_count", VInt (Z.of_nat (length ready)));
       ("deterministic_ready_count", count_results deterministic_ready results); ("tested_count", tested);
       ("probe_requested", VBool probe); ("executes_live_network", VBool probe); ("probe_timeout_seconds", timeout);
       ("evidence_summary", VDict (dict_of
          [("sample_scenario", VStr scenario);
           ("deterministic_normalization", VDict (dict_of
              [("ready_count", count_results deterministic_ready results); ("tested_count", tested)]));
           ("transport_reachability", VDict (dict_of
              [("probe_requested", VBool probe); ("status_counts", VDict (status_counts results))]))]));
       ("results", VList (map VDict results)); ("ok", VBool (forallb (fun r => py_truthy (dgetn "ok" r)) results))]).
End Network.

(** ** Readiness *)

Lemma is_empty_app {A} (l l' : list A) : is_empty (l ++ l') = is_empty l && is_empty l'.
Proof. by destruct l. Qed.

(** A profile is ready exactly when nothing is missing. *)
Lemma ready_nothing_missing p : is_empty (adapter_missing_requirements p) = ready_for_live_io p.
Proof.
  unfold adapter_missing_requirements, ready_for_live_io. rewrite !is_empty_app.
  destruct (is_gateway p), (ap_enabled p), (ap_endpoint_configured p), (is_set (ap_plugin_package p)), (ap_plugin_installed p),
    (ap_account_session_ready p), (ap_credential_configured p), (compliance_ready p); reflexivity.
Qed.

(** ** Connections *)

Section Probes.
Context (urlparse : string -> result Url) (tcp_connect : list Endpoint -> Endpoint -> pyval -> result (option string)).

(** The connections a profile can open: one, to its endpoint, when its policy allows it. *)
Definition may_connect (p : SocialAdapterProfile) (target : Endpoint) : Prop :=
  ap_live_network_allowed p = true /\ compliance_ready p = true /\ ap_endpoint_configured p = true /\
  endpoint_target urlparse p = Ok (Some target).

(** What a run over [profiles] opens: to each endpoint for a profile of its own, in their order. *)
Inductive opens_for : list SocialAdapterProfile -> list Endpoint -> Prop :=
  | opens_none : opens_for [] []
  | opens_skip p ps l : opens_for ps l -> opens_for (p :: ps) l
  | opens_one p ps target l : may_connect p target -> opens_for ps l -> opens_for (p :: ps) (target :: l).

Lemma opens_nothing ps : opens_for ps [].
Proof. induction ps; by constructor. Qed.

Lemma build_test_result_opens probe scenario timeout p opened :
  exists l, (build_test_result urlparse tcp_connect probe scenario timeout p opened).2 = opened ++ l /\ (l <> [] -> probe = true) /\
  forall ps rest, opens_for ps rest -> opens_for (p :: ps) (l ++ rest).
Proof.
  assert (Hno : exists l, opened = opened ++ l /\ (l <> [] -> probe = true) /\
            forall ps rest, opens_for ps rest -> opens_for (p :: ps) (l ++ rest)).
  { exists []. rewrite app_nil_r. split_and!; [done..|]. intros. by constructor. }
  unfold build_test_result, ebind, elift, eret. destruct (sample_envelope p scenario); [|exact Hno].
  destruct (deliver_affective_response _ _); [|exact Hno]. unfold run_probe.
  destruct probe; [|exact Hno]. cbn [negb]. destruct (probe_allowed p) eqn:Ha; [|exact Hno]. cbn [negb].
  unfold transport_probe, ebind, elift, tcp_probe, eret. destruct (endpoint_target urlparse p) as [[target|]|] eqn:Et; try exact Hno.
  apply andb_true_iff in Ha as [Ha He]. apply andb_true_iff in Ha as [Hl Hc].
  exists [target]. split_and!; [destruct (tcp_connect opened target timeout); cbn; by repeat destr_goal|done|].
  intros ps rest H. by constructor.
Qed.

Lemma test_each_opens probe scenario timeout profiles : forall opened,
  exists l, (test_each urlparse tcp_connect probe scenario timeout profiles opened).2 = opened ++ l /\ (l <> [] -> probe = true) /\
  opens_for profiles l.
Proof.
  induction profiles as [|p ps IH]; intros opened; cbn [test_each].
  { exists []. rewrite app_nil_r. split_and!; [done..|constructor]. }
  destruct (build_test_result_opens probe scenario timeout p opened) as (l & Hl & Hp & Ho). unfold ebind.
  destruct (build_test_result _ _ _ _ _ _ _) as [[r|e] w]; cbn in Hl; subst w.
  - destruct (IH (opened ++ l)) as (l' & Hl' & Hp' & Ho'). exists (l ++ l'). rewrite app_assoc.
    destruct (test_each _ _ _ _ _ _ _) as [[rs|e] w]; cbn in Hl'; subst w; cbn; split_and!; try done; try by apply Ho.
    all: intros H; destruct l; [by apply Hp'|by apply Hp].
  - exists l. cbn. split_and!; [done..|]. specialize (Ho _ _ (opens_nothing ps)). by rewrite app_nil_r in Ho.
Qed.
End Probes.

Lemma opens_only_allowed urlparse profiles l :
  opens_for urlparse profiles l -> Forall (fun p => ap_live_network_allowed p = false) profiles -> l = [].
Proof.
  induction 1 as [|p ps l _ IH|p ps target l (Hl & _) _ IH]; intros H; [done|..]; apply Forall_cons in H as [Hp H]; [by apply IH|].
  congruence.
Qed.

Lemma selected_from registry name profiles :
  selected_profiles name registry = Ok profiles -> profiles ⊆ ar_profiles registry.
Proof.
  unfold selected_profiles, get_adapter_profile. destruct (String.eqb name ""); [by intros [= ->]|].
  destruct (List.find _ _) as [p|] eqn:E; [|done]. intros [= <-] x ->%list_elem_of_singleton.
  apply find_some in E as [E _]. by apply list_elem_of_In.
Qed.

Lemma builtin_off env path registry :
  social_adapter_registry env path None = Ok registry -> Forall (fun p => ap_live_network_allowed p = false) (ar_profiles registry).
Proof. cbn. intros [= <-]. cbn [ar_profiles]. repeat constructor. Qed.

(** A test opens connections only when it is asked to, and only those the policy allows: each belongs to a profile of its own
    among the selected ones, one that allows the live network, is compliant and has an endpoint, and goes to that endpoint; without
    a configuration file nothing is ever opened, whatever the addresses are and the network answers. *)
Theorem probes_are_allowed urlparse tcp_connect env path file adapter_name probe scenario timeout opened :
  exists l, (social_adapter_test urlparse tcp_connect env path file adapter_name probe scenario timeout opened).2 = opened ++ l /\
  (l <> [] -> probe = true /\ exists registry profiles, social_adapter_registry env path file = Ok registry /\
     selected_profiles adapter_name registry = Ok profiles /\ opens_for urlparse profiles l) /\
  (file = None -> l = []).
Proof.
  assert (Hno : exists l, opened = opened ++ l /\ (l <> [] -> probe = true /\ exists registry profiles,
     social_adapter_registry env path file = Ok registry /\ selected_profiles adapter_name registry = Ok profiles /\
     opens_for urlparse profiles l) /\ (file = None -> l = [])) by (exists []; rewrite app_nil_r; by split_and!).
  unfold social_adapter_test. destruct (negb _); [exact Hno|]. unfold ebind, elift.
  destruct (social_adapter_registry env path file) as [registry|] eqn:Er; [|exact Hno].
  destruct (selected_profiles adapter_name registry) as [profiles|] eqn:Ep; [|exact Hno].
  destruct (test_each_opens urlparse tcp_connect probe scenario timeout profiles opened) as (l & Hl & Hp & Ho).
  exists l. split_and!.
  - destruct (test_each _ _ _ _ _ _ _) as [[rs|e] w]; cbn in Hl; subst w; [|done].
    by destruct (load_social_adapter_config path file).
  - intros Hn. split; [by apply Hp|]. by exists registry, profiles.
  - intros ->. apply (opens_only_allowed urlparse profiles l Ho). pose proof (builtin_off env path registry Er) as Hb.
    rewrite Forall_forall in Hb |- *. intros p Hin. apply Hb. by apply (selected_from _ _ _ Ep).
Qed.

(** ** A test without connections *)

Lemma principal_text p scenario :
  exists envelope, sample_envelope p scenario = Ok envelope /\ nonempty_text (se_principal_id envelope) = true.
Proof.
  unfold sample_envelope. destruct (String.eqb (ap_adapter_kind p) "qq_official"); [by eexists|].
  destruct (String.eqb (ap_adapter_kind p) "onebot_qq"); [by eexists|].
  destruct (String.eqb (ap_adapter_kind p) "wecom"); [by eexists|].
  destruct (String.eqb (ap_adapter_kind p) "wechat_ilink"); [by eexists|].
  destruct (String.eqb (ap_adapter_kind p) "qq_openclaw"); [by eexists|].
  eexists. split; [reflexivity|]. cbn. unfold principal_of, nonempty_text. by destruct (ap_adapter_kind p).
Qed.

(** What is read off the result of one adapter. *)
Record tested (p : SocialAdapterProfile) (r : dict) : Prop := {
  td_ok : dgetn "ok" r = VBool true;
  td_status : eq_str (dgetn "status" r) "ready" = is_empty (adapter_missing_requirements p);
  td_deterministic : deterministic_ready r = true;
}.

Lemma build_test_result_tested urlparse tcp_connect scenario timeout p opened :
  exists r, build_test_result urlparse tcp_connect false scenario timeout p opened = (Ok r, opened) /\ tested p r.
Proof.
  destruct (principal_text p scenario) as (envelope & He & Hp). eexists. split.
  - unfold build_test_result. rewrite (ebind_eq _ _ _ envelope opened) by (unfold elift; by rewrite He).
    erewrite ebind_eq by reflexivity. erewrite ebind_eq by reflexivity. reflexivity.
  - split.
    + cbn. by rewrite Hp.
    + rewrite ready_nothing_missing. cbn -[ready_for_live_io]. by destruct (ready_for_live_io p).
    + cbn. by rewrite Hp.
Qed.

Lemma test_each_tested urlparse tcp_connect scenario timeout profiles opened :
  exists rs, test_each urlparse tcp_connect false scenario timeout profiles opened = (Ok rs, opened) /\ Forall2 tested profiles rs.
Proof.
  induction profiles as [|p ps (rs & Hrs & IH)]; [by exists []|].
  destruct (build_test_result_tested urlparse tcp_connect scenario timeout p opened) as (r & Hr & Ht).
  exists (r :: rs). split; [|by constructor]. cbn [test_each]. by rewrite (ebind_eq _ _ _ _ _ Hr), (ebind_eq _ _ _ _ _ Hrs).
Qed.

Lemma tested_all profiles rs :
  Forall2 tested profiles rs ->
  forallb (fun r => py_truthy (dgetn "ok" r)) rs = true /\ List.filter deterministic_ready rs = rs /\
  length (List.filter (fun r => eq_str (dgetn "status" r) "ready") rs) =
  length (List.filter (fun p => is_empty (adapter_missing_requirements p)) profiles).
Proof.
  induction 1 as [|p r ps rs [Ho Hs Hd] _ (IH1 & IH2 & IH3)]; [done|].
  cbn [forallb List.filter]. rewrite Ho, Hd, Hs, IH1, IH2. split_and!; [done..|].
  destruct (is_empty _); cbn; by rewrite IH3.
Qed.

(** Without connections the test always succeeds: whatever profiles the configuration adds or changes, every selected adapter
    normalises its sample to an event bound to its sender and records the delivery, no endpoint is opened, and the adapters counted
    as ready are exactly those with no missing requirement. *)
Theorem adapter_test_succeeds urlparse tcp_connect env path file adapter_name scenario timeout opened registry profiles :
  scenario ∈ SOCIAL_ADAPTER_SAMPLE_SCENARIOS ->
  social_adapter_registry env path file = Ok registry ->
  selected_profiles adapter_name registry = Ok profiles ->
  exists payload,
    social_adapter_test urlparse tcp_connect env path file adapter_name false scenario timeout opened = (Ok payload, opened) /\
  dget "ok" payload = Some (VBool true) /\
  dget "tested_count" payload = Some (VInt (Z.of_nat (length profiles))) /\
  dget "deterministic_ready_count" payload = Some (VInt (Z.of_nat (length profiles))) /\
  dget "ready_count" payload =
      Some (VInt (Z.of_nat (length (List.filter (fun p => is_empty (adapter_missing_requirements p)) profiles)))).
Proof.
  intros Hs Hr Hp. unfold social_adapter_test. apply str_in_true in Hs. rewrite Hs. cbn [negb].
  destruct (load_social_adapter_config path file) as [config|] eqn:Ec; [|unfold social_adapter_registry in Hr; by rewrite Ec in Hr].
  destruct (test_each_tested urlparse tcp_connect scenario timeout profiles opened) as (rs & Hrs & Ht).
  destruct (tested_all _ _ Ht) as (Hok & Hdet & Hready). pose proof (Forall2_length _ _ _ Ht) as Hlen.
  unfold elift. eexists. split.
  { rewrite (ebind_eq _ _ _ registry opened), (ebind_eq _ _ _ profiles opened), (ebind_eq _ _ _ _ _ Hrs) by congruence.
    erewrite ebind_eq by reflexivity. reflexivity. }
  rewrite !dget_dict_of. cbn [sget]. cbn. unfold count_results. by rewrite Hok, Hdet, Hready, Hlen.
Qed.

Lemma adapter_test_succeeds_witness :
  let profiles := map snd (default_adapter_profiles ∅) in
  let test := social_adapter_test (fun _ => Raise (ValueError "")) (fun _ _ _ => Ok None) ∅ "c.json" None "" false "direct" (VInt 1) [] in
  exists payload, test = (Ok payload, []) /\ dget "ok" payload = Some (VBool true) /\
  dget "tested_count" payload = Some (VInt 6) /\ dget "deterministic_ready_count" payload = Some (VInt 6) /\
  dget "ready_count" payload = Some (VInt 1).
Proof.
  intros profiles test.
  exact (adapter_test_succeeds (fun _ => Raise (ValueError "")) (fun _ _ _ => Ok None) ∅ "c.json" None "" "direct" (VInt 1) []
           {| ar_profiles := profiles; ar_active_adapter := "mock_social" |} profiles
           ltac:(apply str_in_true; reflexivity) ltac:(reflexivity) ltac:(reflexivity)).
Defined.
