(* ===== verification/SocialGateway.v ===== *)
(** * The gateway clients of WeCom and OpenClaw ([social_adapters/wecom_gateway.py], [openclaw_gateway.py])

    A client opens a websocket, announces itself and hands every message it
    receives to the core, until its time is up, nothing more comes or it has
    dispatched enough.  What a turn of its loop finds is an input ([Turn]): the
    clock and the socket are outside.  The state of type [W] is the one the
    core's callback works on; what the client counts is [GatewayState], which an
    exception loses as it does in the code. *)

From Stdlib Require Import ZArith Lia Bool List Ascii String.
From stdpp Require Import base list option strings.
From S2P Require Import Prelude PyFloat Text PyValue Events Social SocialAdapters.

#[local] Open Scope string_scope.
#[local] Open Scope Z_scope.
#[local] Open Scope list_scope.

Definition OPENCLAW_GATEWAY_CLIENT_SCHEMA_VERSION : string := "2.2.3-openclaw-gateway-client-v1".
Definition WECOM_GATEWAY_CLIENT_SCHEMA_VERSION : string := "2.2.3-wecom-gateway-client-v1".

(** A turn of the loop: the deadline has passed, or no message came within it,
    or the socket failed, or a message came ([json.loads] of it). *)
Inductive Turn :=
  | TimeUp
  | Silence
  | Broken (e : pyerr)
  | Received (payload : result pyval).

(** What a client remembers of the host it is connected to. *)
Record HostInfo := { hi_bot_user_id : string; hi_host_version : string; hi_plugin_ready : bool }.

Record GatewayState := {
  gs_ready_event_count : Z;
  gs_dispatch_event_count : Z;
  gs_ignored_event_count : Z;
  gs_host : HostInfo;
  gs_events : list dict;
  gs_core_results : list dict;
}.

Definition initial_gateway_state : GatewayState :=
  {| gs_ready_event_count := 0; gs_dispatch_event_count := 0; gs_ignored_event_count := 0;
     gs_host := {| hi_bot_user_id := ""; hi_host_version := ""; hi_plugin_ready := false |}; gs_events := []; gs_core_results := [] |}.

(** What distinguishes the two clients: what they learn from READY, the envelope
    of a message and the event they record for it. *)
Record GatewayClient := {
  gc_ready : dict -> HostInfo -> HostInfo;
  gc_envelope : HostInfo -> string -> dict -> SocialMessageEnvelope;
  gc_event : string -> SocialMessageEnvelope -> dict;
}.

Definition event_type_of (payload : dict) : string := first_of ["event"; "type"] "" payload.
Definition is_message (event_type : string) : bool := str_in event_type ["message"; "MESSAGE"].

(** What is kept of the core's answer. *)
Definition core_result_summary (core_result : dict) : result dict :=
  let! persisted := py_int (por (dgetn "events_persisted" core_result) (VInt 0)) in
  Ok (dict_of
    [("ok", VBool (py_truthy (dget_or "ok" (VBool false) core_result))); ("status", VStr (str_or "status" "" core_result));
     ("events_persisted", VInt persisted);
     ("final_response_speaker", VStr (match dgetn "final_response" core_result with
                                      | VDict response => py_str (dgetn "speaker" response)
                                      | _ => ""
                                      end))]).

Section Client.
Context {W : Type} (client : GatewayClient) (ingest_callback : SocialMessageEnvelope -> string -> eff W dict).

Definition note_ready (payload : dict) (g : GatewayState) : GatewayState :=
  {| gs_ready_event_count := gs_ready_event_count g + 1; gs_dispatch_event_count := gs_dispatch_event_count g;
     gs_ignored_event_count := gs_ignored_event_count g; gs_host := gc_ready client payload (gs_host g);
     gs_events := gs_events g; gs_core_results := gs_core_results g |}.
Definition note_ignored (g : GatewayState) : GatewayState :=
  {| gs_ready_event_count := gs_ready_event_count g; gs_dispatch_event_count := gs_dispatch_event_count g;
     gs_ignored_event_count := gs_ignored_event_count g + 1; gs_host := gs_host g;
     gs_events := gs_events g; gs_core_results := gs_core_results g |}.
Definition note_dispatch (event_type : string) (envelope : SocialMessageEnvelope) (summary : dict) (g : GatewayState) : GatewayState :=
  {| gs_ready_event_count := gs_ready_event_count g; gs_dispatch_event_count := gs_dispatch_event_count g + 1;
     gs_ignored_event_count := gs_ignored_event_count g; gs_host := gs_host g;
     gs_events := gs_events g ++ [gc_event client event_type envelope]; gs_core_results := gs_core_results g ++ [summary] |}.

(** One received payload. *)
Definition handle_payload (payload : dict) (g : GatewayState) : eff W GatewayState :=
  let event_type := event_type_of payload in
  if String.eqb event_type "READY" then eret (note_ready payload g)
  else if negb (is_message event_type) then eret (note_ignored g)
  else
    let envelope := gc_envelope client (gs_host g) event_type (dict_or_empty "data" payload) in
    do! core_result := ingest_callback envelope event_type in
    do! summary := elift (core_result_summary core_result) in
    eret (note_dispatch event_type envelope summary g).

Definition enough (max_events : Z) (g : GatewayState) : bool := (0 <? max_events) && (max_events <=? gs_dispatch_event_count g).

(** The loop; the deadline has passed when the turns are used up. *)
Fixpoint gateway_loop (max_events : Z) (turns : list Turn) (g : GatewayState) : eff W GatewayState :=
  match turns with
  | [] | TimeUp :: _ => eret g
  | turn :: rest =>
      if enough max_events g then eret g
      else match turn with
           | TimeUp | Silence => eret g
           | Broken e => eraise e
           | Received payload =>
               do! value := elift payload in
               do! fields := elift (as_dict value) in
               do! g' := handle_payload fields g in
               gateway_loop max_events rest g'
           end
  end.
End Client.

Definition events_ingested (g : GatewayState) : bool :=
  existsb (fun item => py_truthy (dgetn "events_persisted" item)) (gs_core_results g).
Definition gate_values (gates : list (string * bool)) : pyval := VDict (dict_of (map (fun g => (g.1, VBool g.2)) gates)).

(** ** WeCom *)

Definition message_event (event_type : string) (e : SocialMessageEnvelope) : list (string * pyval) :=
  [("channel_kind", VStr (se_channel_kind e)); ("principal_id", VStr (se_principal_id e));
   ("social_message_id", VStr (se_social_message_id e))].

(** The adapters give the messages they receive this time. *)
Definition default_received_at : string := "2026-05-11T12:00:00Z".

Definition wecom_client : GatewayClient := {|
  gc_ready payload h := {| hi_bot_user_id := str_or "bot_user_id" "" payload; hi_host_version := hi_host_version h;
                           hi_plugin_ready := hi_plugin_ready h |};
  gc_envelope _ _ data := wecom_envelope default_received_at data;
  gc_event event_type e := dict_of (("event_type", VStr event_type) :: message_event event_type e);
|}.

Definition wecom_gates (g : GatewayState) : list (string * bool) :=
  [("gateway_connected", true); ("auth_sent", true); ("ready_recorded", 0 <? gs_ready_event_count g);
   ("dispatch_processed", 0 <? gs_dispatch_event_count g); ("core_ingress_recorded", events_ingested g);
   ("bounded_runtime", true)].

(** [connection] is what opening the websocket, sending the greeting and writing the ready file do: nothing, or an exception. *)
Definition run_wecom_gateway_client {W} (ingest_callback : SocialMessageEnvelope -> string -> eff W dict) (connection : result unit)
    (turns : list Turn) (gateway_url : string) (duration max_events : Z) : eff W dict :=
  do! _ := elift connection in
  do! g := gateway_loop wecom_client ingest_callback max_events turns initial_gateway_state in
  let ready := forallb snd (wecom_gates g) in
  eret (dict_of
    [("schema_version", VStr WECOM_GATEWAY_CLIENT_SCHEMA_VERSION); ("command", VStr "wecom-gateway-client");
     ("status", VStr (if ready then "ready" else "incomplete"));
     ("reason", VStr (if ready then "wecom_gateway_dispatch_processed" else "wecom_gateway_timeout"));
     ("gateway", VDict (dict_of [("url", VStr gateway_url); ("transport_kind", VStr "websocket")]));
     ("duration_seconds", VInt (Z.max duration 1)); ("max_events", VInt max_events);
     ("ready_event_count", VInt (gs_ready_event_count g)); ("dispatch_event_count", VInt (gs_dispatch_event_count g));
     ("ignored_event_count", VInt (gs_ignored_event_count g)); ("bot_user_id", VStr (hi_bot_user_id (gs_host g)));
     ("events", VList (map VDict (gs_events g))); ("core_results", VList (map VDict (gs_core_results g)));
     ("closure_gates", gate_values (wecom_gates g)); ("ok", VBool ready)]).

(** ** OpenClaw *)

Record OpenClawPlugin := {
  op_adapter_kind : string;
  op_plugin_id : string;
  op_plugin_package : string;
  op_installer_package : string;
  op_envelope_from_event : dict -> SocialMessageEnvelope;
}.

Definition openclaw_payload (plugin : OpenClawPlugin) (h : HostInfo) (event_type : string) (data : dict) : dict :=
  dupdate data (dict_of
    [("plugin_id", VStr (str_or "plugin_id" (op_plugin_id plugin) data));
     ("plugin_package", VStr (str_or "plugin_package" (op_plugin_package plugin) data));
     ("installer_package", VStr (str_or "installer_package" (op_installer_package plugin) data));
     ("host_version", VStr (str_or "host_version" (hi_host_version h) data)); ("raw_event_type", VStr event_type)]).

Definition openclaw_client (plugin : OpenClawPlugin) : GatewayClient := {|
  gc_ready payload h := {| hi_bot_user_id := hi_bot_user_id h; hi_host_version := str_or "host_version" "" payload;
                           hi_plugin_ready := match dgetn "plugin" payload with
                                              | VDict p => py_truthy (dgetn "ready" p)
                                              | _ => hi_plugin_ready h
                                              end |};
  gc_envelope h event_type data := op_envelope_from_event plugin (openclaw_payload plugin h event_type data);
  gc_event event_type e := dict_of
    ([("event_type", VStr event_type); ("adapter_kind", VStr (se_adapter_kind e))] ++ message_event event_type e ++
     [("plugin_package", VStr (str_or "plugin_package" (op_plugin_package plugin) (se_metadata e)))]);
|}.

Definition openclaw_gates (plugin : OpenClawPlugin) (g : GatewayState) : list (string * bool) :=
  [("gateway_connected", true); ("bind_sent", true); ("ready_recorded", 0 <? gs_ready_event_count g);
   ("plugin_identified", nonempty_text (op_plugin_package plugin)); ("dispatch_processed", 0 <? gs_dispatch_event_count g);
   ("core_ingress_recorded", events_ingested g); ("bounded_runtime", true)].

Definition run_openclaw_gateway_client {W} (plugin : OpenClawPlugin) (ingest_callback : SocialMessageEnvelope -> string -> eff W dict)
    (connection : result unit) (turns : list Turn) (gateway_url : string) (duration max_events : Z) : eff W dict :=
  do! _ := elift connection in
  do! g := gateway_loop (openclaw_client plugin) ingest_callback max_events turns initial_gateway_state in
  let gates := openclaw_gates plugin g in
  let ready := forallb snd gates in
  eret (dict_of
    [("schema_version", VStr OPENCLAW_GATEWAY_CLIENT_SCHEMA_VERSION); ("command", VStr "openclaw-gateway-client");
     ("status", VStr (if ready then "ready" else "incomplete"));
     ("reason", VStr (if ready then "openclaw_gateway_dispatch_processed" else "openclaw_gateway_timeout"));
     ("adapter_kind", VStr (op_adapter_kind plugin));
     ("gateway", VDict (dict_of [("url", VStr gateway_url); ("transport_kind", VStr "openclaw_gateway"); ("runtime_host", VStr "openclaw")]));
     ("plugin", VDict (dict_of
       [("plugin_id", VStr (op_plugin_id plugin)); ("plugin_package", VStr (op_plugin_package plugin));
        ("installer_package", VStr (op_installer_package plugin)); ("host_version", VStr (hi_host_version (gs_host g)));
        ("ready", VBool (hi_plugin_ready (gs_host g)))]));
     ("duration_seconds", VInt (Z.max duration 1)); ("max_events", VInt max_events);
     ("ready_event_count", VInt (gs_ready_event_count g)); ("dispatch_event_count", VInt (gs_dispatch_event_count g));
     ("ignored_event_count", VInt (gs_ignored_event_count g)); ("events", VList (map VDict (gs_events g)));
     ("core_results", VList (map VDict (gs_core_results g))); ("closure_gates", gate_values gates); ("ok", VBool ready)]).

(** ** What a client should do

    The messages of the payloads it hears, each with the envelope the client
    makes of it after the READY payloads before it; they are handed to the core
    one after the other. *)

Section Reference.
Context {W : Type} (client : GatewayClient) (ingest_callback : SocialMessageEnvelope -> string -> eff W dict).

Fixpoint messages (h : HostInfo) (payloads : list dict) : list (SocialMessageEnvelope * string) :=
  match payloads with
  | [] => []
  | p :: rest =>
      let event_type := event_type_of p in
      if String.eqb event_type "READY" then messages (gc_ready client p h) rest
      else if is_message event_type then (gc_envelope client h event_type (dict_or_empty "data" p), event_type) :: messages h rest
      else messages h rest
  end.

Fixpoint deliver_all (ms : list (SocialMessageEnvelope * string)) : eff W (list dict) :=
  match ms with
  | [] => eret []
  | (envelope, event_type) :: rest =>
      do! core_result := ingest_callback envelope event_type in
      do! summary := elift (core_result_summary core_result) in
      do! summaries := deliver_all rest in
      eret (summary :: summaries)
  end.

(** The messages a client still takes after [k] dispatches; no positive limit means all of them. *)
Definition taken {A} (max_events k : Z) (ms : list A) : list A :=
  if 0 <? max_events then take (Z.to_nat (max_events - k)) ms else ms.

(** What the loop leaves, given what delivering [ms] answers. *)
Definition delivered (g : GatewayState) (ms : list (SocialMessageEnvelope * string)) (spec : result (list dict) * W)
    (run : result GatewayState * W) : Prop :=
  run.2 = spec.2 /\
  match spec.1, run.1 with
  | Ok summaries, Ok g' =>
      gs_dispatch_event_count g' = gs_dispatch_event_count g + Z.of_nat (length ms) /\
      gs_events g' = gs_events g ++ map (fun m => gc_event client m.2 m.1) ms /\
      gs_core_results g' = gs_core_results g ++ summaries
  | Raise e, Raise e' => e' = e
  | _, _ => False
  end.

(** The loop ends there: nothing follows, the time is up, or nothing comes in time. *)
Definition ends (turns : list Turn) : Prop :=
  match turns with [] | TimeUp :: _ | Silence :: _ => True | _ => False end.
Definition received (payloads : list dict) : list Turn := map (fun p => Received (Ok (VDict p))) payloads.

Lemma taken_enough {A} max_events g (ms : list A) :
  enough max_events g = true -> taken max_events (gs_dispatch_event_count g) ms = [].
Proof.
  unfold enough, taken. intros [H1 H2]%andb_true_iff. rewrite H1. bool_prop.
  by replace (Z.to_nat _) with 0%nat by lia.
Qed.

Lemma taken_more {A} max_events g (m : A) ms :
  enough max_events g = false ->
  taken max_events (gs_dispatch_event_count g) (m :: ms) = m :: taken max_events (gs_dispatch_event_count g + 1) ms.
Proof.
  unfold enough, taken. intros H%andb_false_iff. destruct (Z.ltb_spec 0 max_events); [|done].
  destruct H as [H|H]; [done|]. bool_prop.
  replace (Z.to_nat (max_events - gs_dispatch_event_count g)) with (S (Z.to_nat (max_events - (gs_dispatch_event_count g + 1)))) by lia.
  done.
Qed.

Lemma delivered_nothing g w : delivered g [] (Ok [], w) (Ok g, w).
Proof. unfold delivered. cbn. rewrite !app_nil_r. split_and!; [done|lia|done..]. Qed.

Lemma taken_nil {A} max_events k : taken max_events k (@nil A) = [].
Proof. unfold taken. destruct (_ <? _); [apply take_nil|done]. Qed.

(** One more message before the others. *)
Lemma delivered_cons event_type envelope summary g ms spec run :
  delivered (note_dispatch client event_type envelope summary g) ms spec run ->
  delivered g ((envelope, event_type) :: ms)
    (match spec with (Ok summaries, w) => (Ok (summary :: summaries), w) | (Raise e, w) => (Raise e, w) end) run.
Proof.
  destruct spec as [[summaries|e] w], run as [[g'|e'] w']; unfold delivered; cbn; intros [Hw H]; try done.
  destruct H as (H1 & H2 & H3). rewrite <- !app_assoc in *. split_and!; [done|lia|done..].
Qed.

(** The loop refines the delivery of the messages it is due. *)
Lemma gateway_loop_refines max_events stop payloads : ends stop -> forall g w,
  let ms := taken max_events (gs_dispatch_event_count g) (messages (gs_host g) payloads) in
  delivered g ms (deliver_all ms w) (gateway_loop client ingest_callback max_events (received payloads ++ stop) g w).
Proof.
  intros Hstop. induction payloads as [|p payloads IH]; intros g w ms; subst ms.
  - cbn [messages received map app]. rewrite taken_nil. destruct stop as [|[]]; try done; cbn; try apply delivered_nothing.
    destruct (enough max_events g); apply delivered_nothing.
  - cbn [received map app gateway_loop]. destruct (enough max_events g) eqn:He.
    { rewrite (taken_enough _ _ _ He). apply delivered_nothing. }
    unfold elift, ebind at 1 2 3. cbn [as_dict messages]. unfold handle_payload.
    destruct (String.eqb (event_type_of p) "READY") eqn:Er; [exact (IH (note_ready client p g) w)|].
    destruct (is_message (event_type_of p)) eqn:Em; cbn [negb]; [|exact (IH (note_ignored g) w)].
    rewrite (taken_more _ _ _ _ He). cbn [deliver_all]. unfold ebind, elift, eret.
    destruct (ingest_callback _ _ w) as [[core_result|e] w1]; [|done].
    destruct (core_result_summary core_result) as [summary|e]; [|done].
    exact (delivered_cons _ _ _ _ _ _ _ (IH (note_dispatch client _ _ summary g) w1)).
Qed.
End Reference.

(** A gateway client hands the core exactly the messages it hears, in order and each once, up to its limit: whatever the core
    does or raises, the loop leaves the world as delivering those messages one after the other does, records one event and one
    result for each, and never dispatches more than a positive limit allows. *)
Theorem gateway_delivers_in_order {W} client (ingest_callback : SocialMessageEnvelope -> string -> eff W dict) max_events payloads stop w :
  ends stop ->
  let ms := taken max_events 0 (messages client (gs_host initial_gateway_state) payloads) in
  let run := gateway_loop client ingest_callback max_events (received payloads ++ stop) initial_gateway_state w in
  delivered client initial_gateway_state ms (deliver_all ingest_callback ms w) run /\
  (forall g, run.1 = Ok g -> 0 < max_events -> gs_dispatch_event_count g <= max_events).
Proof.
  intros Hstop ms run.
  pose proof (gateway_loop_refines client ingest_callback max_events stop payloads Hstop initial_gateway_state w) as H.
  split; [exact H|]. intros g Hg Hm. fold run in H. destruct H as [_ H]. rewrite Hg in H.
  destruct (_.1) in H; [|done]. destruct H as [-> _]. cbn. unfold taken. rewrite (proj2 (Z.ltb_lt _ _) Hm), length_take. lia.
Qed.

(** A core that counts the messages it is given. *)
Definition counting_core (e : SocialMessageEnvelope) (event_type : string) : eff (list string) dict :=
  fun seen => (Ok (dict_of [("ok", VBool true); ("events_persisted", VInt 1)]), seen ++ [se_social_message_id e]).
Definition wecom_payload (kind id : string) : dict :=
  dict_of [("event", VStr kind); ("data", VDict (dict_of [("from", VStr "alice"); ("msgid", VStr id)]))].

Lemma gateway_delivers_in_order_witness :
  let payloads := [wecom_payload "READY" ""; wecom_payload "message" "m1"; wecom_payload "typing" ""; wecom_payload "MESSAGE" "m2";
                   wecom_payload "message" "m3"] in
  let run := gateway_loop wecom_client counting_core 2 (received payloads ++ [Silence]) initial_gateway_state [] in
  run.2 = ["m1"; "m2"] /\ (forall g, run.1 = Ok g -> 0 < 2 -> gs_dispatch_event_count g <= 2).
Proof.
  intros payloads run. destruct (gateway_delivers_in_order wecom_client counting_core 2 payloads [Silence] [] I) as [[Hw _] H].
  split; [exact Hw|exact H].
Defined.
