(* ===== verification/QQWebhook.v ===== *)
(** * The webhook of the QQ bot ([social_adapters/qq_official_webhook.py])

    The platform posts requests: one to validate the address, answered with a
    signature, and one for every message.  The server runs a thread for each
    request, so the handler is modelled as the steps of a thread over the
    state the threads share; a section under the lock is one step, and writing
    the response, which may fail, is another one after it.

    The signatures (Ed25519) and what the core answers to a message are outside:
    variables of the sections. *)

From Stdlib Require Import ZArith Lia Bool List Ascii String.
From stdpp Require Import base list option strings relations.
From S2P Require Import Prelude PyFloat Text PyValue JsonParse Events Social SocialAdapters SocialGateway.

#[local] Open Scope string_scope.
#[local] Open Scope Z_scope.
#[local] Open Scope list_scope.

Definition QQ_OFFICIAL_WEBHOOK_SERVER_SCHEMA_VERSION : string := "2.2.2-qq-official-webhook-server-v1".
Definition QQ_OFFICIAL_DISPATCH_EVENT_TYPES : list string :=
  ["AT_MESSAGE_CREATE"; "GROUP_AT_MESSAGE_CREATE"; "DIRECT_MESSAGE_CREATE"; "C2C_MESSAGE_CREATE"].

(** ** Signatures *)

(** [while len(seed) < 32: seed = seed + seed]; five rounds are enough for a seed that is not empty. *)
Fixpoint extend_seed (fuel : nat) (seed : list Z) : option (list Z) :=
  if (32 <=? length seed)%nat then Some seed
  else match fuel with O => None | S f => extend_seed f (seed ++ seed) end.

(** [seed[:32].encode("utf-8")], the characters of the secret repeated. *)
Definition signing_seed (app_secret : string) : result (list Z) :=
  match extend_seed 5 (code_points app_secret) with
  | Some seed => encode_utf8 (of_code_points (take 32 seed))
  | None => Raise OutOfFuel
  end.

(** [binascii.unhexlify] of ASCII text *)
Fixpoint unhexlify (l : list Z) : option (list Z) :=
  match l with
  | [] => Some []
  | a :: b :: rest =>
      match hex_value a, hex_value b, unhexlify rest with
      | Some x, Some y, Some bytes => Some (16 * x + y :: bytes)
      | _, _, _ => None
      end
  | _ => None
  end.

Section Signatures.
(** The key made of 32 bytes signs a message; its public key accepts a
    signature.  A seed of another length, or a signature of one, is refused. *)
Context (ed25519_sign : list Z -> list Z -> result (list Z)) (ed25519_accepts : list Z -> list Z -> list Z -> result bool).

Definition qq_official_validation_response (app_secret plain_token event_ts : string) : result dict :=
  if String.eqb app_secret "" then Raise (ValueError "qq_official_app_secret_missing")
  else
    let! seed := signing_seed app_secret in
    let! message := encode_utf8 (event_ts +:+ plain_token) in
    let! signature := ed25519_sign seed message in
    Ok (dict_of [("plain_token", VStr plain_token); ("signature", VStr (hex_of_bytes signature))]).

Definition qq_official_verify_request_signature (app_secret signature_hex signature_timestamp : string) (body : list Z) : result bool :=
  if String.eqb app_secret "" || String.eqb signature_hex "" || String.eqb signature_timestamp "" then Ok false
  else
    let! seed := signing_seed app_secret in
    match unhexlify (bytes_of_string signature_hex) with
    | None => Ok false
    | Some signature =>
        let! stamp := encode_utf8 signature_timestamp in
        ed25519_accepts seed signature (stamp ++ body)
    end.
End Signatures.

(** ** The message of a payload *)

(** [payload.pop(key, None)] *)
Definition dict_without (key : string) (d : dict) : dict :=
  List.filter (fun kv => negb (bool_decide (key_norm kv.1 = key_norm (KStr key)))) d.

Definition direct_message_id (event_payload : dict) : result string :=
  let direct := por (dgetn "id" event_payload) (por (dgetn "message_id" event_payload) (dgetn "user_id" event_payload)) in
  if py_truthy direct then Ok (py_str direct)
  else
    let! author := as_dict (por (dgetn "author" event_payload) (VDict [])) in
    Ok (str_or "id" "qq-direct-message" author).

Definition qq_official_extract_dispatch_payload (payload : dict) : result (option (string * dict)) :=
  let! op := py_int (por (dgetn "op" payload) (VInt 0)) in
  if negb (op =? 0) then Ok None
  else
    let event_type := py_strip (str_or "t" "" payload) in
    if negb (str_in event_type QQ_OFFICIAL_DISPATCH_EVENT_TYPES) then Ok None
    else
      let event_payload := dset "event_type" (VStr event_type) (dict_or_empty "d" payload) in
      if str_in event_type ["DIRECT_MESSAGE_CREATE"; "C2C_MESSAGE_CREATE"] then
        let! event_payload :=
          (if py_truthy (dgetn "direct_message_id" event_payload) then Ok event_payload
           else let! id := direct_message_id event_payload in Ok (dset "direct_message_id" (VStr id) event_payload)) in
        Ok (Some (event_type, dict_without "group_id" event_payload))
      else
        let group_openid := py_strip (str_or "group_openid" "" event_payload) in
        Ok (Some (event_type,
              if negb (py_truthy (dgetn "group_id" event_payload)) && nonempty_text group_openid
              then dset "group_id" (VStr group_openid) event_payload else event_payload)).

(** ** The server *)

(** A request: the path and body it posts, the JSON of the body ([None] when it
    is not UTF-8 or not JSON) and the headers the handler reads. *)
Record Request := {
  rq_path : string;
  rq_body : list Z;
  rq_json : option pyval;
  rq_signature : string;
  rq_timestamp : string;
  rq_bot_appid : string;
  rq_user_agent : string;
  rq_length_given : bool;  (* Content-Length is absent or a number *)
}.

Record WebhookState := {
  ws_received : Z;
  ws_validated : Z;
  ws_validations : list dict;
  ws_dispatched : Z;
  ws_ignored : Z;
  ws_events : list dict;
  ws_core_results : list dict;
}.
Definition initial_webhook_state : WebhookState :=
  {| ws_received := 0; ws_validated := 0; ws_validations := []; ws_dispatched := 0; ws_ignored := 0; ws_events := []; ws_core_results := [] |}.

(** What a thread has done to the shared state: nothing before it has counted the request, or only that; a validation, or only
    the count of one, when the check of its signature raised; a request counted as ignored; or a message and what the core
    made of it. *)
Inductive Work :=
  | Uncounted
  | Accepted
  | Validated (validation : dict)
  | Half_validated
  | Ignored
  | Dispatched (event_type : string) (envelope : SocialMessageEnvelope) (core_result : dict).

(** Where the thread is. *)
Inductive Stage :=
  | Arrived
  | Counted
  | Validating (payload response : dict)
  | Reporting (validation response : dict)
  | Ignoring
  | Ingesting (event_type : string) (envelope : SocialMessageEnvelope)
  | Ingested (event_type : string) (envelope : SocialMessageEnvelope) (core_result : dict)
  | Writing (work : Work) (status : Z) (body : dict)
  | Answered (work : Work) (status : Z) (body : dict)
  | Raised (work : Work).

Record Handler := { hd_request : Request; hd_stage : Stage }.

Section Server.
Context (sign : list Z -> list Z -> result (list Z)) (accepts : list Z -> list Z -> list Z -> result bool).
Context (ingest_answers : string -> SocialMessageEnvelope -> result dict -> Prop) (exc_text : pyerr -> string).
Context (app_secret path : string).

Definition normalized_path : string := if startswith path "/" then path else "/" +:+ path.
Definition refused (reason : string) : dict := dict_of [("ok", VBool false); ("reason", VStr reason)].

Definition count_received (s : WebhookState) : WebhookState :=
  {| ws_received := ws_received s + 1; ws_validated := ws_validated s; ws_validations := ws_validations s; ws_dispatched := ws_dispatched s;
     ws_ignored := ws_ignored s; ws_events := ws_events s; ws_core_results := ws_core_results s |}.
Definition count_ignored (s : WebhookState) : WebhookState :=
  {| ws_received := ws_received s; ws_validated := ws_validated s; ws_validations := ws_validations s; ws_dispatched := ws_dispatched s;
     ws_ignored := ws_ignored s + 1; ws_events := ws_events s; ws_core_results := ws_core_results s |}.
Definition add_validation (recorded : list dict) (s : WebhookState) : WebhookState :=
  {| ws_received := ws_received s; ws_validated := ws_validated s + 1; ws_validations := ws_validations s ++ recorded; ws_dispatched := ws_dispatched s;
     ws_ignored := ws_ignored s; ws_events := ws_events s; ws_core_results := ws_core_results s |}.
(** The count and the event are recorded before the core's answer is read. *)
Definition add_dispatch (event : dict) (summaries : list dict) (s : WebhookState) : WebhookState :=
  {| ws_received := ws_received s; ws_validated := ws_validated s; ws_validations := ws_validations s; ws_dispatched := ws_dispatched s + 1;
     ws_ignored := ws_ignored s; ws_events := ws_events s ++ [event]; ws_core_results := ws_core_results s ++ summaries |}.

(** A request that validates the address: its answer is computed first. *)
Definition validation_token (payload : dict) : string * string :=
  let data := dict_or_empty "d" payload in (str_or "plain_token" "" data, str_or "event_ts" "" data).
Definition handle_validation (payload : dict) : Stage :=
  match qq_official_validation_response sign app_secret (validation_token payload).1 (validation_token payload).2 with
  | Raise _ => Raised Accepted
  | Ok response => Validating payload response
  end.

(** Then, under the lock, it is counted, and recorded with what the check of its signature says, which may raise in between. *)
Definition validation_record (rq : Request) (payload response : dict) (valid : bool) : dict :=
  dict_of
    [("path", VStr (rq_path rq)); ("x_bot_appid", VStr (rq_bot_appid rq)); ("user_agent", VStr (rq_user_agent rq));
     ("x_signature_timestamp", VStr (rq_timestamp rq));
     ("x_signature_ed25519_present", VBool (nonempty_text (rq_signature rq)));
     ("request_signature_valid", VBool valid); ("plain_token", VStr (validation_token payload).1);
     ("event_ts", VStr (validation_token payload).2); ("response_signature", VStr (str_or "signature" "" response))].
Definition signature_valid (rq : Request) : result bool :=
  qq_official_verify_request_signature accepts app_secret (rq_signature rq) (rq_timestamp rq) (rq_body rq).
Definition record_validation (rq : Request) (payload response : dict) (s : WebhookState) : Stage * WebhookState :=
  match signature_valid rq with
  | Raise _ => (Raised Half_validated, add_validation [] s)
  | Ok valid =>
      let validation := validation_record rq payload response valid in (Reporting validation response, add_validation [validation] s)
  end.

(** What the thread does after it has counted the request, up to its next shared step: the state is not looked at. *)
Definition after_count (rq : Request) : Stage :=
  match rq_json rq with
  | None => Writing Accepted 400 (refused "invalid_json_payload")
  | Some (VDict payload) =>
      match py_int (por (dgetn "op" payload) (VInt 0)) with
      | Raise _ => Raised Accepted
      | Ok op =>
          if op =? 13 then handle_validation payload
          else match qq_official_extract_dispatch_payload payload with
               | Raise _ => Raised Accepted
               | Ok None => Ignoring
               | Ok (Some (event_type, data)) => Ingesting event_type (qq_official_envelope default_received_at data)
               end
      end
  | Some _ => Writing Accepted 400 (refused "invalid_payload_shape")
  end.

Definition dispatch_event (event_type : string) (e : SocialMessageEnvelope) : dict :=
  dict_of (("event_type", VStr event_type) :: message_event event_type e).

(** The dispatch is recorded under the lock; the core's answer is read after the event is there, and may not be what it should. *)
Definition record_dispatch (event_type : string) (e : SocialMessageEnvelope) (core_result : dict) (s : WebhookState) : Stage * WebhookState :=
  let work := Dispatched event_type e core_result in
  match core_result_summary core_result with
  | Ok summary => (Writing work 200 (dict_of [("op", VInt 12)]), add_dispatch (dispatch_event event_type e) [summary] s)
  | Raise _ => (Raised work, add_dispatch (dispatch_event event_type e) [] s)
  end.

(** A step of the thread of a request: on its own, under the lock, in the core, or on the connection, where it may fail. *)
Inductive handler_step (rq : Request) : Stage -> WebhookState -> Stage -> WebhookState -> Prop :=
  | step_wrong_path s : rq_path rq <> normalized_path ->
      handler_step rq Arrived s (Writing Uncounted 404 (refused "path_not_found")) s
  | step_unread s : rq_path rq = normalized_path ->
      handler_step rq Arrived s (Raised Uncounted) s
  | step_count s : rq_path rq = normalized_path -> rq_length_given rq = true ->
      handler_step rq Arrived s Counted (count_received s)
  | step_read s : handler_step rq Counted s (after_count rq) s
  | step_validation payload response s h s' : record_validation rq payload response s = (h, s') ->
      handler_step rq (Validating payload response) s h s'
  | step_reported validation response s :
      handler_step rq (Reporting validation response) s (Writing (Validated validation) 200 response) s
  | step_report_failed validation response s :
      handler_step rq (Reporting validation response) s (Raised (Validated validation)) s
  | step_ignored s :
      handler_step rq Ignoring s (Writing Ignored 202 (dict_of [("ok", VBool true); ("reason", VStr "ignored_event_type")])) (count_ignored s)
  | step_ingested event_type e s core_result : ingest_answers event_type e (Ok core_result) ->
      handler_step rq (Ingesting event_type e) s (Ingested event_type e core_result) s
  | step_ingest_failed event_type e s exc : ingest_answers event_type e (Raise exc) ->
      handler_step rq (Ingesting event_type e) s
        (Writing Accepted 500 (dset "error" (VStr (exc_text exc)) (refused "qq_official_dispatch_failed"))) s
  | step_recorded event_type e core_result s h s' : record_dispatch event_type e core_result s = (h, s') ->
      handler_step rq (Ingested event_type e core_result) s h s'
  | step_written work status body s :
      handler_step rq (Writing work status body) s (Answered work status body) s
  | step_write_failed work status body s :
      handler_step rq (Writing work status body) s (Raised work) s.

(** The server: the shared state, the threads it has started, and where its loop is. *)
Inductive Loop := Checking | Waiting | Closed.
Record Server := { sv_state : WebhookState; sv_threads : list Handler; sv_loop : Loop }.

Context (max_events : Z).
Definition enough_dispatched (s : WebhookState) : bool := (0 <? max_events) && (max_events <=? ws_dispatched s).

(** The main loop looks at the count, without the lock, and then waits for a request, for a while; any thread may take its next
    step, also after the loop has ended. *)
Inductive server_step : Server -> Server -> Prop :=
  | step_check s threads : enough_dispatched s = false ->
      server_step {| sv_state := s; sv_threads := threads; sv_loop := Checking |} {| sv_state := s; sv_threads := threads; sv_loop := Waiting |}
  | step_accept s threads rq :
      server_step {| sv_state := s; sv_threads := threads; sv_loop := Waiting |}
                  {| sv_state := s; sv_threads := threads ++ [{| hd_request := rq; hd_stage := Arrived |}]; sv_loop := Checking |}
  | step_no_request s threads :
      server_step {| sv_state := s; sv_threads := threads; sv_loop := Waiting |} {| sv_state := s; sv_threads := threads; sv_loop := Checking |}
  | step_close s threads :
      server_step {| sv_state := s; sv_threads := threads; sv_loop := Checking |} {| sv_state := s; sv_threads := threads; sv_loop := Closed |}
  | step_thread s s' before rq h h' after loop : handler_step rq h s h' s' ->
      server_step {| sv_state := s; sv_threads := before ++ {| hd_request := rq; hd_stage := h |} :: after; sv_loop := loop |}
                  {| sv_state := s'; sv_threads := before ++ {| hd_request := rq; hd_stage := h' |} :: after; sv_loop := loop |}.

Definition initial_server : Server := {| sv_state := initial_webhook_state; sv_threads := []; sv_loop := Checking |}.
Definition reachable : Server -> Prop := rtc server_step initial_server.

(** What the server reports when its loop ends. *)
Definition webhook_gates (s : WebhookState) : list (string * bool) :=
  [("listener_ready", true); ("dispatch_processed", 0 <? ws_dispatched s);
   ("core_ingress_recorded", existsb (fun item => py_truthy (dgetn "events_persisted" item)) (ws_core_results s));
   ("bounded_runtime", true)].
Definition webhook_report (host : string) (port duration : Z) (s : WebhookState) : dict :=
  let ready := forallb snd (webhook_gates s) in
  dict_of
    [("schema_version", VStr QQ_OFFICIAL_WEBHOOK_SERVER_SCHEMA_VERSION); ("command", VStr "qq-official-webhook-server");
     ("status", VStr (if ready then "ready" else "incomplete"));
     ("reason", VStr (if ready then "qq_official_webhook_dispatch_processed" else "qq_official_webhook_timeout"));
     ("listen_address", VDict (dict_of [("host", VStr host); ("port", VInt port); ("path", VStr normalized_path)]));
     ("duration_seconds", VInt (Z.max duration 1)); ("max_events", VInt max_events); ("received_request_count", VInt (ws_received s));
     ("validation_request_count", VInt (ws_validated s));
     ("validation_requests", VList (map VDict (ws_validations s))); ("dispatch_event_count", VInt (ws_dispatched s));
     ("ignored_event_count", VInt (ws_ignored s)); ("events", VList (map VDict (ws_events s)));
     ("core_results", VList (map VDict (ws_core_results s))); ("closure_gates", gate_values (webhook_gates s)); ("ok", VBool ready)].
End Server.

(** ** The seed *)

Lemma extend_seed_long seed : (32 <= length seed)%nat -> forall fuel, extend_seed fuel seed = Some seed.
Proof. intros H [|f]; cbn [extend_seed]; by rewrite (proj2 (Nat.leb_le _ _) H). Qed.

(** Five rounds are enough: every round doubles the seed. *)
Lemma extend_seed_ends fuel seed :
  (32 <= length seed * 2 ^ fuel)%nat -> exists k, extend_seed fuel seed = Some (concat (replicate (2 ^ k) seed)) /\
  (32 <= length (concat (replicate (2 ^ k) seed)))%nat.
Proof.
  revert seed. induction fuel as [|f IH]; intros seed H.
  - exists 0%nat. cbn [Nat.pow replicate concat]. rewrite app_nil_r. rewrite extend_seed_long by (cbn in H; lia).
    split; [done|cbn in H; lia].
  - cbn [extend_seed]. destruct (Nat.leb_spec 32 (length seed)) as [Hl|Hl].
    { exists 0%nat. cbn. rewrite app_nil_r. by split. }
    destruct (IH (seed ++ seed)) as (k & -> & Hk); [rewrite length_app; cbn [Nat.pow] in H; lia|].
    exists (S k). assert (E : concat (replicate (2 ^ k) (seed ++ seed)) = concat (replicate (2 ^ S k) seed)).
    { replace (2 ^ S k)%nat with (2 ^ k + 2 ^ k)%nat by (cbn; lia). generalize (2 ^ k)%nat. intros n. induction n as [|n IHn]; [done|].
      rewrite Nat.add_succ_r. cbn [replicate concat Nat.add]. rewrite IHn, <- app_assoc. reflexivity. }
    by rewrite <- E.
Qed.

Lemma code_points_nonempty s : s <> "" -> code_points s <> [].
Proof.
  intros H. unfold code_points, code_points_of_bytes. destruct s as [|c s]; [done|]. cbn [bytes_of_string length utf8_scan].
  destruct (utf8_next _) as [[x r]|]; [|done]. by destruct (utf8_scan _ r).
Qed.

(** The loop that extends the seed ends, so a secret that is not empty gives a
    seed or is refused by the encoder. *)
Lemma signing_seed_ends app_secret : app_secret <> "" -> signing_seed app_secret <> Raise OutOfFuel.
Proof.
  intros H%code_points_nonempty. unfold signing_seed. destruct (extend_seed_ends 5 (code_points app_secret)) as (k & -> & _).
  - destruct (code_points app_secret); [done|cbn; lia].
  - unfold encode_utf8. by destruct (utf8_valid _).
Qed.

(** ** What the threads have done *)

Section Accounts.
Context (sign : list Z -> list Z -> result (list Z)) (accepts : list Z -> list Z -> list Z -> result bool).
Context (ingest_answers : string -> SocialMessageEnvelope -> result dict -> Prop) (exc_text : pyerr -> string).
Context (app_secret path : string) (max_events : Z).
#[local] Notation reachable := (reachable sign accepts ingest_answers exc_text app_secret path max_events).
#[local] Notation handler_step := (handler_step sign accepts ingest_answers exc_text app_secret path).

Definition work_of (h : Handler) : Work :=
  match hd_stage h with
  | Arrived => Uncounted
  | Counted | Validating _ _ | Ignoring | Ingesting _ _ | Ingested _ _ _ => Accepted
  | Reporting validation _ => Validated validation
  | Writing work _ _ | Answered work _ _ | Raised work => work
  end.

(** *** What a work leaves in the shared state *)

Definition counts_received (w : Work) : bool := match w with Uncounted => false | _ => true end.
Definition counts_ignored (w : Work) : bool := match w with Ignored => true | _ => false end.
Definition counts_validated (w : Work) : bool := match w with Validated _ | Half_validated => true | _ => false end.
Definition counts_dispatched (w : Work) : bool := match w with Dispatched _ _ _ => true | _ => false end.
Definition work_validations (w : Work) : list dict := match w with Validated validation => [validation] | _ => [] end.
Definition work_events (w : Work) : list dict := match w with Dispatched event_type e _ => [dispatch_event event_type e] | _ => [] end.
Definition work_results (w : Work) : list dict :=
  match w with
  | Dispatched _ _ core_result => match core_result_summary core_result with Ok summary => [summary] | Raise _ => [] end
  | _ => []
  end.

Definition total (f : Work -> bool) (threads : list Handler) : Z := Z.of_nat (length (List.filter (fun h => f (work_of h)) threads)).
Definition all_of (f : Work -> list dict) (threads : list Handler) : list dict := concat (map (fun h => f (work_of h)) threads).

(** *** What a request calls for *)

(** The message that a request posts. *)
Definition message_of (rq : Request) (event_type : string) (e : SocialMessageEnvelope) : Prop :=
  exists payload data, rq_json rq = Some (VDict payload) /\
    qq_official_extract_dispatch_payload payload = Ok (Some (event_type, data)) /\ e = qq_official_envelope default_received_at data.
(** It asks for a validation, which has an answer. *)
Definition validation_of (rq : Request) (payload response : dict) : Prop :=
  rq_json rq = Some (VDict payload) /\ py_int (por (dgetn "op" payload) (VInt 0)) = Ok 13 /\
  qq_official_validation_response sign app_secret (validation_token payload).1 (validation_token payload).2 = Ok response.

(** It is neither a validation nor a message that is dispatched. *)
Definition ignorable (rq : Request) : Prop :=
  exists payload op, rq_json rq = Some (VDict payload) /\ py_int (por (dgetn "op" payload) (VInt 0)) = Ok op /\ op <> 13 /\
    qq_official_extract_dispatch_payload payload = Ok None.

Definition was_read (rq : Request) : Prop := rq_path rq = normalized_path path /\ rq_length_given rq = true.

(** The work on a request that was read is what the request calls for. *)
Definition done_for (rq : Request) (w : Work) : Prop :=
  match w with
  | Uncounted => True
  | Accepted => was_read rq
  | Validated validation =>
      was_read rq /\ exists payload response valid, validation_of rq payload response /\ signature_valid accepts app_secret rq = Ok valid /\
        validation = validation_record rq payload response valid
  | Half_validated => was_read rq /\ exists payload response e, validation_of rq payload response /\ signature_valid accepts app_secret rq = Raise e
  | Ignored => was_read rq /\ ignorable rq
  | Dispatched event_type e core_result => was_read rq /\ message_of rq event_type e /\ ingest_answers event_type e (Ok core_result)
  end.

(** The answer to a request is that of the work on it: {"op": 12} when the event and the result of its message are recorded. *)
Definition answer_for (rq : Request) (w : Work) (status : Z) (body : dict) : Prop :=
  match w with
  | Uncounted => status = 404 /\ rq_path rq <> normalized_path path
  | Accepted =>
      (status = 400 /\ forall payload, rq_json rq <> Some (VDict payload)) \/
      (status = 500 /\ exists event_type e exc, message_of rq event_type e /\ ingest_answers event_type e (Raise exc))
  | Validated _ => status = 200 /\ exists payload, validation_of rq payload body
  | Half_validated => False
  | Ignored => status = 202
  | Dispatched _ _ core_result => status = 200 /\ body = dict_of [("op", VInt 12)] /\ exists summary, core_result_summary core_result = Ok summary
  end.

(** A thread is where its own request has brought it. *)
Definition justified (h : Handler) : Prop :=
  let rq := hd_request h in
  done_for rq (work_of h) /\
  match hd_stage h with
  | Validating payload response => validation_of rq payload response
  | Reporting _ response => exists payload, validation_of rq payload response
  | Ignoring => ignorable rq
  | Ingesting event_type e => message_of rq event_type e
  | Ingested event_type e core_result => message_of rq event_type e /\ ingest_answers event_type e (Ok core_result)
  | Writing work status body | Answered work status body => answer_for rq work status body
  | _ => True
  end.

(** What the shared state says of the threads. *)
Record accounts (sv : Server) : Prop := {
  ac_received : ws_received (sv_state sv) = total counts_received (sv_threads sv);
  ac_ignored : ws_ignored (sv_state sv) = total counts_ignored (sv_threads sv);
  ac_validated : ws_validated (sv_state sv) = total counts_validated (sv_threads sv);
  ac_validations : ws_validations (sv_state sv) ≡ₚ all_of work_validations (sv_threads sv);
  ac_dispatched : ws_dispatched (sv_state sv) = total counts_dispatched (sv_threads sv);
  ac_events : ws_events (sv_state sv) ≡ₚ all_of work_events (sv_threads sv);
  ac_results : ws_core_results (sv_state sv) ≡ₚ all_of work_results (sv_threads sv);
  ac_threads : Forall justified (sv_threads sv);
}.

(** *** A step *)

Lemma total_app f l l' : total f (l ++ l') = total f l + total f l'.
Proof. unfold total. rewrite List.filter_app, length_app. lia. Qed.
Lemma total_cons f h l : total f (h :: l) = Z.b2z (f (work_of h)) + total f l.
Proof. unfold total. cbn. destruct (f (work_of h)); cbn; lia. Qed.
Lemma total_thread f before h h' after :
  total f (before ++ h' :: after) = total f (before ++ h :: after) + (Z.b2z (f (work_of h')) - Z.b2z (f (work_of h))).
Proof. rewrite !total_app, !total_cons. lia. Qed.

Lemma all_of_thread f before h h' after (l l' : list dict) :
  l ≡ₚ all_of f (before ++ h :: after) ->
  (exists new, l' = l ++ new /\ f (work_of h') = f (work_of h) ++ new) -> l' ≡ₚ all_of f (before ++ h' :: after).
Proof.
  intros Hl (new & -> & Hf). rewrite Hl. unfold all_of. rewrite !map_app, !concat_app. cbn [map concat]. rewrite Hf, <- !app_assoc.
  do 2 f_equiv. apply Permutation_app_comm.
Qed.

(** The state changes as the work of the thread does. *)
Record matches (w : Work) (s : WebhookState) (w' : Work) (s' : WebhookState) : Prop := {
  mt_received : ws_received s' = ws_received s + (Z.b2z (counts_received w') - Z.b2z (counts_received w));
  mt_ignored : ws_ignored s' = ws_ignored s + (Z.b2z (counts_ignored w') - Z.b2z (counts_ignored w));
  mt_validated : ws_validated s' = ws_validated s + (Z.b2z (counts_validated w') - Z.b2z (counts_validated w));
  mt_validations : exists new, ws_validations s' = ws_validations s ++ new /\ work_validations w' = work_validations w ++ new;
  mt_dispatched : ws_dispatched s' = ws_dispatched s + (Z.b2z (counts_dispatched w') - Z.b2z (counts_dispatched w));
  mt_events : exists new, ws_events s' = ws_events s ++ new /\ work_events w' = work_events w ++ new;
  mt_results : exists new, ws_core_results s' = ws_core_results s ++ new /\ work_results w' = work_results w ++ new;
}.

Lemma matches_same w s : matches w s w s.
Proof. split; try lia; exists []; by rewrite !app_nil_r. Qed.

#[local] Notation at_stage rq h := {| hd_request := rq; hd_stage := h |}.

Ltac same_lists := first [by exists []; rewrite !app_nil_r | by eexists].

Lemma step_matches rq h s h' s' : handler_step rq h s h' s' -> matches (work_of (at_stage rq h)) s (work_of (at_stage rq h')) s'.
Proof.
  intros [t|t|t|t|p r t k t' H|v r t|v r t|t|et e t r|et e t exc|et e r t k t' H|w st b t|w st b t]; try apply matches_same.
  - split; try (cbn; lia); same_lists.
  - enough (work_of (at_stage rq (after_count sign app_secret rq)) = Accepted) as -> by apply matches_same. unfold after_count, handle_validation.
    repeat case_match; done.
  - unfold record_validation in H. destruct (signature_valid accepts app_secret rq); injection H as <- <-; split; try (cbn; lia); same_lists.
  - split; try (cbn; lia); same_lists.
  - unfold record_dispatch in H.
    destruct (core_result_summary r) eqn:Hs; injection H as <- <-; (split; [cbn; lia..| |cbn; lia| |]); cbn; rewrite ?Hs; same_lists.
Qed.

Lemma after_count_justified rq : was_read rq -> justified (at_stage rq (after_count sign app_secret rq)).
Proof.
  intros Hr. unfold after_count. destruct (rq_json rq) as [[| | | | | | |payload]|] eqn:Hj; try (split; [exact Hr|left; split; [done|cbn [hd_request]; intros p'; congruence]]).
  destruct (py_int _) as [op|] eqn:Hop; [|by split]. destruct (Z.eqb_spec op 13) as [->|Hop13].
  - unfold handle_validation. destruct (qq_official_validation_response _ _ _ _) eqn:Hv; by split.
  - destruct (qq_official_extract_dispatch_payload payload) as [[[et data]|]|] eqn:He; [| |by split]; (split; [exact Hr|]).
    + by exists payload, data.
    + by exists payload, op.
Qed.

Lemma step_justified rq h s h' s' : handler_step rq h s h' s' -> justified (at_stage rq h) -> justified (at_stage rq h').
Proof.
  intros [t Hp|t Hp|t Hp Hl|t|p r t k t' H|v r t|v r t|t|et e t r Ha|et e t exc Ha|et e r t k t' H|w st b t|w st b t] [Hd Hj];
    cbn [hd_request hd_stage work_of] in *; try (split; cbn; done).
  - by apply after_count_justified.
  - unfold record_validation in H. destruct (signature_valid accepts app_secret rq) as [valid|exc] eqn:Hs; injection H as <- _.
    + split; [split; [exact Hd|by exists p, r, valid]|by exists p].
    + split; [split; [exact Hd|by exists p, r, exc]|done].
  - split; [exact Hd|]. right. split; [done|by exists et, e, exc].
  - destruct Hj as [Hm Ha]. unfold record_dispatch in H. destruct (core_result_summary r) as [summary|] eqn:Hs; injection H as <- _.
    + split; [by split_and!|]. split; [done|]. split; [done|by exists summary].
    + split; [by split_and!|done].
Qed.

Lemma server_step_accounts sv sv' : server_step sign accepts ingest_answers exc_text app_secret path max_events sv sv' -> accounts sv -> accounts sv'.
Proof.
  intros [s threads _|s threads rq|s threads|s threads|s s' before rq h h' after loop Hs] [H1 H2 H3 H4 H5 H6 H7 H8];
    cbn [sv_state sv_threads] in *; try by split.
  - assert (Ht : forall f, f Uncounted = false -> total f (threads ++ [at_stage rq Arrived]) = total f threads).
    { intros f Hf. rewrite total_app, total_cons. cbn [work_of hd_stage]. rewrite Hf. unfold total. cbn. lia. }
    assert (Ha : forall f, f Uncounted = [] -> all_of f (threads ++ [at_stage rq Arrived]) = all_of f threads).
    { intros f Hf. unfold all_of. rewrite map_app, concat_app. cbn. by rewrite Hf, !app_nil_r. }
    split; cbn [sv_state sv_threads]; rewrite ?Ht, ?Ha by reflexivity; try done. apply Forall_app. split; [done|]. by repeat constructor.
  - pose proof (step_matches _ _ _ _ _ Hs) as []. apply Forall_app in H8 as [Hb [Hh Haf]%Forall_cons].
    split; cbn [sv_state sv_threads]; try (rewrite (total_thread _ before (at_stage rq h) (at_stage rq h')); lia);
      try (eapply all_of_thread; eassumption).
    apply Forall_app. split; [done|]. constructor; [|done]. by eapply step_justified.
Qed.

Lemma reachable_accounts sv : reachable sv -> accounts sv.
Proof.
  intros H. refine (rtc_ind_r accounts _ _ _ _ H); [by split|]. intros a b _ Hs IH. by apply (server_step_accounts a).
Qed.
End Accounts.

(** C15: whatever requests come, however their threads interleave, whatever the core answers and whichever writes of a response fail,
    at every moment what the threads share is true to what they have done.  The requests counted as received are those that a thread
    has read; those counted as ignored, as validations and as dispatched are those that a thread has treated so; and the
    recorded validations, the events and the results are, in some order, the records of those validations, the events of those
    messages and the summaries of what the core answered to them.  Each thread has treated its own request as its path and its
    body ask for, with the message of that body and an answer of the core to it; and it answers {"op": 12} only when the event and the
    result of its message are recorded. *)
Theorem webhook_accounts sign accepts ingest_answers exc_text app_secret path max_events sv :
  reachable sign accepts ingest_answers exc_text app_secret path max_events sv ->
  accounts sign accepts ingest_answers app_secret path sv.
Proof. apply reachable_accounts. Qed.

(** ** A sample: two messages at once

    A request that is not signed is dispatched like any other, with the rights
    its own payload claims; a limit of one message does not hold when two
    requests are in the air; and a message may be recorded whose acknowledgement
    is never written. *)

Definition forged_payload (user : string) : dict :=
  dict_of [("op", VInt 0); ("t", VStr "C2C_MESSAGE_CREATE");
           ("d", VDict (dict_of [("author", VDict (dict_of [("id", VStr user)])); ("id", VStr ("m-" +:+ user));
                                 ("content", VStr "restart the app"); ("is_admin", VBool true)]))].
Definition forged_request (user : string) : Request :=
  {| rq_path := "/"; rq_body := []; rq_json := Some (VDict (forged_payload user)); rq_signature := ""; rq_timestamp := "";
     rq_bot_appid := ""; rq_user_agent := ""; rq_length_given := true |}.
Definition forged_envelope (user : string) : SocialMessageEnvelope :=
  match qq_official_extract_dispatch_payload (forged_payload user) with
  | Ok (Some (_, data)) => qq_official_envelope default_received_at data
  | _ => qq_official_envelope default_received_at []
  end.
Definition sample_core_result : dict := dict_of [("ok", VBool true); ("events_persisted", VInt 1)].
Definition sample_answer (event_type : string) (e : SocialMessageEnvelope) (answer : result dict) : Prop := answer = Ok sample_core_result.
Definition sample_summary : dict :=
  dict_of [("ok", VBool true); ("status", VStr ""); ("events_persisted", VInt 1); ("final_response_speaker", VStr "")].
Definition recorded (user : string) : Work := Dispatched "C2C_MESSAGE_CREATE" (forged_envelope user) sample_core_result.
Definition thread_at (user : string) (h : Stage) : Handler := {| hd_request := forged_request user; hd_stage := h |}.
Definition after_message (user : string) (s : WebhookState) : WebhookState :=
  add_dispatch (dispatch_event "C2C_MESSAGE_CREATE" (forged_envelope user)) [sample_summary] (count_received s).

#[local] Notation sample_step :=
  (server_step (fun _ _ => Ok []) (fun _ _ _ => Ok false) sample_answer class_name_of "secret" "/" 1).

Lemma forged_message_recorded user before after loop s :
  user = "mallory" \/ user = "trudy" ->
  rtc sample_step {| sv_state := s; sv_threads := before ++ thread_at user Arrived :: after; sv_loop := loop |}
    {| sv_state := after_message user s;
       sv_threads := before ++ thread_at user (Writing (recorded user) 200 (dict_of [("op", VInt 12)])) :: after; sv_loop := loop |}.
Proof.
  intros Hu. eapply rtc_l; [apply step_thread, step_count; reflexivity|].
  eapply rtc_l; [eapply step_thread, step_read|].
  eapply (rtc_l _ _ {| sv_state := count_received s; sv_loop := loop;
    sv_threads := before ++ thread_at user (Ingested "C2C_MESSAGE_CREATE" (forged_envelope user) sample_core_result) :: after |}).
  { destruct Hu as [-> | ->]; apply step_thread, step_ingested; reflexivity. }
  eapply rtc_l; [apply step_thread, step_recorded; reflexivity|]. reflexivity.
Qed.

(** The acknowledgement of the second message is not written. *)
Definition two_messages : Server :=
  {| sv_state := after_message "trudy" (after_message "mallory" initial_webhook_state);
     sv_threads := [thread_at "mallory" (Answered (recorded "mallory") 200 (dict_of [("op", VInt 12)])); thread_at "trudy" (Raised (recorded "trudy"))];
     sv_loop := Checking |}.
Lemma two_messages_reachable :
  reachable (fun _ _ => Ok []) (fun _ _ _ => Ok false) sample_answer class_name_of "secret" "/" 1 two_messages.
Proof.
  eapply rtc_l; [apply step_check; reflexivity|].
  eapply rtc_l; [apply (step_accept _ _ _ _ _ _ _ _ [] (forged_request "mallory"))|].
  eapply rtc_l; [apply step_check; reflexivity|].
  eapply rtc_l; [apply (step_accept _ _ _ _ _ _ _ _ [_] (forged_request "trudy"))|].
  etrans; [apply (forged_message_recorded "mallory" [] [thread_at "trudy" Arrived]); by left|].
  eapply rtc_l; [eapply (step_thread _ _ _ _ _ _ _ _ _ []), step_written|].
  etrans; [apply (forged_message_recorded "trudy" [_] []); by right|].
  eapply rtc_l; [eapply (step_thread _ _ _ _ _ _ _ _ _ [_]), step_write_failed|]. reflexivity.
Qed.

(** The unsigned messages carry an administrator's rights, and both are dispatched under a limit of one. *)
Theorem unsigned_messages_pass_the_limit :
  reachable (fun _ _ => Ok []) (fun _ _ _ => Ok false) sample_answer class_name_of "secret" "/" 1 two_messages /\
  ws_dispatched (sv_state two_messages) = 2 /\ rq_signature (forged_request "mallory") = "" /\
  se_rate_limit_class (forged_envelope "mallory") = "admin".
Proof. split; [exact two_messages_reachable|]. vm_compute. auto. Qed.

Lemma webhook_accounts_witness :
  accounts (fun _ _ => Ok []) (fun _ _ _ => Ok false) sample_answer "secret" "/" two_messages /\ ws_received (sv_state two_messages) = 2.
Proof.
  split; [|reflexivity].
  exact (webhook_accounts (fun _ _ => Ok []) (fun _ _ _ => Ok false) sample_answer class_name_of "secret" "/" 1 two_messages
           two_messages_reachable).
Defined.
