(* ===== verification/QQGateway.v ===== *)
(** * The gateway client of the QQ bot ([social_adapters/qq_official_gateway.py])

    The client connects again and again until its time is up or it has
    dispatched enough, resumes its session when it can, and keeps the session in
    a file so that a later run can resume it.  Each connection and each turn of
    its loop is an input, as the clock and the socket are outside.  The task that
    sends heartbeats changes nothing and is left out.

    The state is the session file, what was sent on the websockets and the state
    of type [W] the core's callback works on. *)

From Stdlib Require Import ZArith Lia Bool List Ascii String.
From stdpp Require Import base list option strings sets.
From S2P Require Import Prelude PyFloat Text PyValue Events Store ProviderProfiles Social SocialAdapters SocialGateway QQWebhook.

#[local] Open Scope string_scope.
#[local] Open Scope Z_scope.
#[local] Open Scope list_scope.

Definition QQ_OFFICIAL_GATEWAY_CLIENT_SCHEMA_VERSION : string := "2.2.2-qq-official-gateway-client-v1".
Definition QQ_OFFICIAL_DEFAULT_GATEWAY_INTENTS : Z := Z.lor (Z.lor (Z.shiftl 1 12) (Z.shiftl 1 25)) (Z.shiftl 1 30).

(** ** What the platform's two services answer *)

Definition access_token_of (response : result pyval) : result (string * Z) :=
  let! payload := response in
  match payload with
  | VDict d =>
      let access_token := str_or "access_token" "" d in
      if String.eqb access_token "" then Raise (ValueError "qq_official_access_token_missing")
      else let! expires_in := py_int (por (dgetn "expires_in" d) (VInt 0)) in Ok (access_token, expires_in)
  | _ => Raise (ValueError "qq_official_access_token_invalid_payload")
  end.

Record GatewayAddress := { ga_url : string; ga_shards : Z; ga_session_start_limit : dict }.
Definition gateway_url_of (response : result pyval) : result GatewayAddress :=
  let! payload := response in
  match payload with
  | VDict d =>
      let url := str_or "url" "" d in
      if String.eqb url "" then Raise (ValueError "qq_official_gateway_url_missing")
      else let! shards := py_int (por (dgetn "shards" d) (VInt 0)) in
           Ok {| ga_url := url; ga_shards := shards; ga_session_start_limit := dict_or_empty "session_start_limit" d |}
  | _ => Raise (ValueError "qq_official_gateway_invalid_payload")
  end.

(** ** The state of a client *)

Inductive QQCounter :=
  | hello | heartbeat_ack | ready_event | resumed_event | dispatch_event_count | ignored_event | resume_attempt | resume_success
  | reconnect | invalid_session.
#[export] Instance QQCounter_eq_dec : EqDecision QQCounter.
Proof. solve_decision. Defined.

(** The counters of the code's [state], and its other fields. *)
Record QQState := {
  qs_count : QQCounter -> Z;
  qs_events : list dict;
  qs_core_results : list dict;
  qs_session_id : string;
  qs_sequence : pyval;
  qs_heartbeat_interval_ms : Z;
  qs_bot_user_id : string;
  qs_can_resume : bool;
}.

(** The session file as reading it would find it, and how often it was written. *)
Record Outside (W : Type) := { os_file : ConfigFile; os_writes : nat; os_sent : list dict; os_core : W }.
Arguments os_file {W}. Arguments os_writes {W}. Arguments os_sent {W}. Arguments os_core {W}.

Section Client.
Context {W : Type} (ingest_callback : SocialMessageEnvelope -> string -> eff W dict).
Context (clock : nat -> Z).
(** The arguments of the client. *)
Context (session_state_file access_token gateway_url : string) (intents max_events max_resume_attempts : Z).
#[local] Notation outside := (Outside W).

Definition load_gateway_session_state : eff outside dict := fun o =>
  (if String.eqb session_state_file "" then Ok []
   else match os_file o with
        | None => Ok []
        | Some content => let! payload := content in Ok (match payload with VDict d => d | _ => [] end)
        end, o).

(** [persist_session_state(can_resume=...)] *)
Definition persist_session_state (q : QQState) (can_resume : bool) : eff outside unit :=
  if String.eqb session_state_file "" then eret tt
  else
    do! o := eget in
    do! written := elift (json_norm (VDict (dict_of
      [("session_id", VStr (qs_session_id q)); ("sequence", qs_sequence q); ("gateway_url", VStr gateway_url);
       ("can_resume", VBool can_resume); ("updated_at", VInt (clock (os_writes o)))]))) in
    emodify (fun o => {| os_file := Some (Ok written); os_writes := S (os_writes o); os_sent := os_sent o; os_core := os_core o |}).

Definition send_frame (frame : dict) : eff outside unit :=
  emodify (fun o => {| os_file := os_file o; os_writes := os_writes o; os_sent := os_sent o ++ [frame]; os_core := os_core o |}).
Definition in_core {A} (m : eff W A) : eff outside A := fun o =>
  let '(r, w) := m (os_core o) in
  (r, {| os_file := os_file o; os_writes := os_writes o; os_sent := os_sent o; os_core := w |}).

Definition initial_qq_state (loaded : dict) : QQState :=
  {| qs_count _ := 0; qs_events := []; qs_core_results := []; qs_session_id := str_or "session_id" "" loaded;
     qs_sequence := dgetn "sequence" loaded; qs_heartbeat_interval_ms := 0; qs_bot_user_id := "";
     qs_can_resume := py_truthy (dgetn "can_resume" loaded) |}.

(** ** Updates of the state *)

Definition bump (c : QQCounter) (q : QQState) : QQState :=
  {| qs_count c' := if decide (c' = c) then qs_count q c' + 1 else qs_count q c'; qs_events := qs_events q;
     qs_core_results := qs_core_results q; qs_session_id := qs_session_id q; qs_sequence := qs_sequence q;
     qs_heartbeat_interval_ms := qs_heartbeat_interval_ms q; qs_bot_user_id := qs_bot_user_id q; qs_can_resume := qs_can_resume q |}.

(** The session: its id, the last sequence number, and whether it can be resumed. *)
Definition with_session (session_id : string) (sequence : pyval) (can_resume : bool) (q : QQState) : QQState :=
  {| qs_count := qs_count q; qs_events := qs_events q; qs_core_results := qs_core_results q; qs_session_id := session_id;
     qs_sequence := sequence; qs_heartbeat_interval_ms := qs_heartbeat_interval_ms q; qs_bot_user_id := qs_bot_user_id q;
     qs_can_resume := can_resume |}.
Definition set_sequence (sequence : pyval) (q : QQState) : QQState := with_session (qs_session_id q) sequence (qs_can_resume q) q.
Definition set_can_resume (b : bool) (q : QQState) : QQState := with_session (qs_session_id q) (qs_sequence q) b q.
Definition with_link (interval : Z) (bot_user_id : string) (q : QQState) : QQState :=
  {| qs_count := qs_count q; qs_events := qs_events q; qs_core_results := qs_core_results q; qs_session_id := qs_session_id q;
     qs_sequence := qs_sequence q; qs_heartbeat_interval_ms := interval; qs_bot_user_id := bot_user_id; qs_can_resume := qs_can_resume q |}.
Definition record_dispatch (event_type : string) (e : SocialMessageEnvelope) (summary : dict) (q : QQState) : QQState :=
  let q := bump dispatch_event_count q in
  {| qs_count := qs_count q; qs_events := qs_events q ++ [dispatch_event event_type e]; qs_core_results := qs_core_results q ++ [summary];
     qs_session_id := qs_session_id q; qs_sequence := qs_sequence q; qs_heartbeat_interval_ms := qs_heartbeat_interval_ms q;
     qs_bot_user_id := qs_bot_user_id q; qs_can_resume := qs_can_resume q |}.

Definition has_session (q : QQState) : bool := nonempty_text (qs_session_id q).
(** [can_resume and session_id and sequence is not None] *)
Definition should_resume (q : QQState) : bool := qs_can_resume q && has_session q && negb (is_none (qs_sequence q)).
Definition enough_events (q : QQState) : bool := (0 <? max_events) && (max_events <=? qs_count q dispatch_event_count).

(** ** One connection *)

(** [persist_session_state(can_resume=bool(state["session_id"]))] *)
Definition persist_current (q : QQState) : eff outside unit := persist_session_state q (has_session q).

(** One message that is not the hello: the new state, and whether the loop goes on. *)
Definition handle_frame (payload : dict) (q : QQState) : eff outside (QQState * bool) :=
  do! q := (if dmem "s" payload then
              let q := set_sequence (dgetn "s" payload) q in do! _ := persist_current q in eret q
            else eret q) in
  do! op := elift (py_int (por (dgetn "op" payload) (VInt 0))) in
  if op =? 7 then
    let q := set_can_resume true q in do! _ := persist_session_state q true in eret (q, false)
  else if op =? 9 then
    let q := with_session "" (qs_sequence q) false (bump invalid_session q) in do! _ := persist_session_state q false in eret (q, false)
  else if op =? 11 then eret (bump heartbeat_ack q, true)
  else if negb (op =? 0) then eret (bump ignored_event q, true)
  else
    let event_type := str_or "t" "" payload in
    let data := dict_or_empty "d" payload in
    if String.eqb event_type "READY" then
      let session_id := str_or "session_id" "" data in
      let q := with_session session_id (qs_sequence q) (nonempty_text session_id) (bump ready_event q) in
      let q := with_link (qs_heartbeat_interval_ms q) (str_or "id" "" (dict_or_empty "user" data)) q in
      do! _ := persist_current q in eret (q, true)
    else if String.eqb event_type "RESUMED" then
      let q := set_can_resume true (bump resume_success (bump resumed_event q)) in
      do! _ := persist_session_state q true in eret (q, true)
    else
      do! dispatch := elift (qq_official_extract_dispatch_payload payload) in
      match dispatch with
      | None => eret (bump ignored_event q, true)
      | Some (normalized_event_type, event_payload) =>
          let envelope := qq_official_envelope default_received_at event_payload in
          do! core_result := in_core (ingest_callback envelope normalized_event_type) in
          do! summary := elift (core_result_summary core_result) in
          let q := record_dispatch normalized_event_type envelope summary q in
          do! _ := persist_current q in eret (q, true)
      end.

(** How a connection ends for the loop around it: with its state; a closed
    socket keeps what the loop had recorded. *)
Definition is_closed (e : pyerr) : bool := match e with External name => String.eqb name "ConnectionClosed" | _ => false end.

(** ["s" in payload] and [payload.get(...)] on a message that is not an object. *)
Definition frame_fields (v : pyval) : result dict :=
  match v with
  | VDict d => Ok d
  | VList _ | VTuple _ | VStr _ => Raise (AttributeError "object has no attribute 'get'")
  | _ => Raise (TypeError "argument is not iterable")
  end.

Fixpoint receive_loop (turns : list Turn) (q : QQState) : eff outside QQState :=
  match turns with
  | [] | TimeUp :: _ => eret q
  | turn :: rest =>
      if enough_events q then eret q
      else match turn with
           | TimeUp | Silence => eret q
           | Broken e => if is_closed e then eret q else eraise e
           | Received payload =>
               do! value := elift payload in
               do! fields := elift (frame_fields value) in
               do! (q, go_on) := handle_frame fields q in
               if go_on then receive_loop rest q else eret q
           end
  end.

Definition resume_frame (q : QQState) : dict :=
  dict_of [("op", VInt 6);
           ("d", VDict (dict_of [("token", VStr ("QQBot " +:+ access_token)); ("session_id", VStr (qs_session_id q));
                                 ("seq", qs_sequence q)]))].
Definition identify_frame : dict :=
  dict_of [("op", VInt 2);
           ("d", VDict (dict_of [("token", VStr ("QQBot " +:+ access_token)); ("intents", VInt intents);
                                 ("shard", VList [VInt 0; VInt 1]);
                                 ("properties", VDict (dict_of [("$os", VStr "linux"); ("$browser", VStr "neurolink_core");
                                                                ("$device", VStr "neurolink_core")]))]))].

(** A connection: whether the deadline has passed when it would be made, what
    opening it does, the first message, the other turns, and whether the
    deadline has passed after it. *)
Record Connection := {
  cn_late : bool;
  cn_open : result unit;
  cn_hello : result pyval;
  cn_turns : list Turn;
  cn_late_after : bool;
}.

Definition hello_interval (payload : pyval) : result Z :=
  let! d := as_dict payload in
  let! op := py_int (por (dgetn "op" d) (VInt 0)) in
  if negb (op =? 10) then Raise (ValueError "qq_official_gateway_hello_missing")
  else
    let! interval := py_int (por (dgetn "heartbeat_interval" (dict_or_empty "d" d)) (VInt 0)) in
    if interval <=? 0 then Raise (ValueError "qq_official_gateway_heartbeat_interval_missing") else Ok interval.

(** The body of [async with websockets.connect(...)]. *)
Definition connected (c : Connection) (resuming : bool) (q : QQState) : eff outside QQState :=
  do! interval := elift (let! payload := cn_hello c in hello_interval payload) in
  let q := with_link interval (qs_bot_user_id q) (bump hello q) in
  do! _ := send_frame (if resuming then resume_frame q else identify_frame) in
  receive_loop (cn_turns c) q.

(** A closed connection is not an error; what it had not recorded stays as it was. *)
Definition connect (c : Connection) (resuming : bool) (q : QQState) : eff outside QQState := fun o =>
  match cn_open c with
  | Raise e => if is_closed e then (Ok q, o) else (Raise e, o)
  | Ok _ =>
      match cn_hello c with
      | Raise e => if is_closed e then (Ok q, o) else (Raise e, o)
      | Ok _ => connected c resuming q o
      end
  end.

(** ** The client *)

(** The loop of connections; the deadline has passed when they are used up. *)
Fixpoint connection_loop (connections : list Connection) (q : QQState) : eff outside QQState :=
  match connections with
  | [] => eret q
  | c :: rest =>
      if cn_late c || enough_events q then eret q
      else
        let resuming := should_resume q in
        let q := if resuming then bump resume_attempt q else q in
        do! q := connect c resuming q in
        if enough_events q || cn_late_after c then eret q
        else if resuming && (Z.max max_resume_attempts 0 <=? qs_count q resume_attempt) then
          let q := set_can_resume false q in do! _ := persist_session_state q false in eret q
        else connection_loop rest (if 0 <? qs_count q hello then bump reconnect q else q)
  end.

Definition qq_gateway_gates (q : QQState) : list (string * bool) :=
  [("gateway_connected", 0 <? qs_count q hello); ("hello_recorded", 0 <? qs_count q hello);
   ("ready_recorded", 0 <? qs_count q ready_event); ("dispatch_processed", 0 <? qs_count q dispatch_event_count);
   ("core_ingress_recorded", existsb (fun item => py_truthy (dgetn "events_persisted" item)) (qs_core_results q));
   ("bounded_runtime", true)].

Definition qq_gateway_report (address : GatewayAddress) (expires_in duration : Z) (file : ConfigFile) (q : QQState) : dict :=
  let ready := forallb snd (qq_gateway_gates q) in
  let counts := map (fun kc => (kc.1 +:+ "_count", VInt (qs_count q kc.2)))
    [("hello", hello); ("heartbeat_ack", heartbeat_ack); ("ready_event", ready_event); ("resumed_event", resumed_event);
     ("resume_attempt", resume_attempt); ("resume_success", resume_success); ("reconnect", reconnect);
     ("invalid_session", invalid_session); ("dispatch_event", dispatch_event_count); ("ignored_event", ignored_event)] in
  dict_of
    ([("schema_version", VStr QQ_OFFICIAL_GATEWAY_CLIENT_SCHEMA_VERSION); ("command", VStr "qq-official-gateway-client");
      ("status", VStr (if ready then "ready" else "incomplete"));
      ("reason", VStr (if ready then "qq_official_gateway_dispatch_processed" else "qq_official_gateway_timeout"));
      ("gateway", VDict (dict_of
         [("url", VStr (ga_url address)); ("shards", VInt (ga_shards address));
          ("session_start_limit", VDict (ga_session_start_limit address))]));
      ("access_token_expires_in", VInt expires_in); ("intents", VInt intents); ("duration_seconds", VInt (Z.max duration 1));
      ("max_events", VInt max_events)] ++ counts ++
     [("heartbeat_interval_ms", VInt (qs_heartbeat_interval_ms q)); ("session_id", VStr (qs_session_id q));
      ("sequence", qs_sequence q); ("bot_user_id", VStr (qs_bot_user_id q)); ("session_state_file", VStr session_state_file);
      ("session_state_persisted",
       VBool (nonempty_text session_state_file && match file with Some _ => true | None => false end));
      ("events", VList (map VDict (qs_events q))); ("core_results", VList (map VDict (qs_core_results q)));
      ("closure_gates", gate_values (qq_gateway_gates q)); ("ok", VBool ready)]).

Definition run_gateway (address : GatewayAddress) (expires_in duration : Z) (connections : list Connection) : eff outside dict :=
  do! loaded := load_gateway_session_state in
  do! q := connection_loop connections (initial_qq_state loaded) in
  do! o := eget in
  eret (qq_gateway_report address expires_in duration (os_file o) q).
End Client.

(** The whole client: the token, the address of the gateway unless one is given, and the connections. *)
Definition run_qq_official_gateway_client {W} (ingest_callback : SocialMessageEnvelope -> string -> eff W dict) (clock : nat -> Z)
    (token_response gateway_response : result pyval) (gateway_url session_state_file : string)
    (intents max_events max_resume_attempts duration : Z) (connections : list Connection) : eff (Outside W) dict :=
  do! (access_token, expires_in) := elift (access_token_of token_response) in
  do! address := elift (if String.eqb gateway_url "" then gateway_url_of gateway_response
                        else Ok {| ga_url := gateway_url; ga_shards := 0; ga_session_start_limit := [] |}) in
  run_gateway ingest_callback clock session_state_file access_token (ga_url address) intents max_events max_resume_attempts
    address expires_in duration connections.

(** ** The session *)

Section Session.
Context {W : Type} (ingest_callback : SocialMessageEnvelope -> string -> eff W dict) (clock : nat -> Z).
Context (file_name access_token gateway_url : string) (intents max_events max_resume_attempts : Z).
#[local] Notation outside := (Outside W).
#[local] Notation load := (load_gateway_session_state (W := W) file_name).
#[local] Notation persist := (persist_session_state (W := W) clock file_name gateway_url).

(** A sequence number and what a JSON file keeps of it. *)
Definition same_sequence (v kept : pyval) : Prop := kept = v \/ json_norm v = Ok kept.

(** A client that starts from the file has the session of this one. *)
Definition tracks (q : QQState) (o : outside) : Prop :=
  file_name <> "" -> exists loaded, (load o).1 = Ok loaded /\ qs_session_id (initial_qq_state loaded) = qs_session_id q /\
  same_sequence (qs_sequence q) (qs_sequence (initial_qq_state loaded)).

(** What a part of the client does that answers a state, among other things:
    it sends nothing, attempts no other resume, and leaves in the file the
    session of the state it answers. *)
Definition keeps_session {A} (state : A -> QQState) (q : QQState) (m : eff outside A) : Prop := forall o,
  os_sent (m o).2 = os_sent o /\
  forall a, (m o).1 = Ok a -> qs_count (state a) resume_attempt = qs_count q resume_attempt /\ (tracks q o -> tracks (state a) (m o).2).

Lemma persist_tracks (q q' : QQState) b o o' :
  persist q b o = (Ok tt, o') -> qs_session_id q' = qs_session_id q -> qs_sequence q' = qs_sequence q -> tracks q' o'.
Proof.
  unfold persist_session_state. intros H Hid Hseq Hn. destruct (String.eqb_spec file_name ""); [done|].
  apply ebind_inv in H as (x & o1 & [= <- <-] & H). apply ebind_inv in H as (v & o2 & Hv & H). apply elift_inv in Hv as [Hv ->].
  injection H as <-. unfold load_gateway_session_state. cbn [os_file].
  destruct (String.eqb_spec file_name ""); [done|]. cbn [rbind]. pose proof Hv as Hd. apply json_norm_dict in Hd as (kvs & -> & _).
  eexists. split; [reflexivity|].
  assert (Hw : dwf (dict_of [("session_id", VStr (qs_session_id q)); ("sequence", qs_sequence q); ("gateway_url", VStr gateway_url);
     ("can_resume", VBool b); ("updated_at", VInt (clock (os_writes o)))])) by (apply dwf_dict_of; vm_compute; repeat (apply NoDup_cons_2; [set_solver|]); apply NoDup_nil_2).
  destruct (json_norm_get _ _ "session_id" (VStr (qs_session_id q)) Hw Hv eq_refl) as (i & [= <-] & Hi).
  destruct (json_norm_get _ _ "sequence" (qs_sequence q) Hw Hv eq_refl) as (kept & Hk1 & Hk2). cbn [initial_qq_state qs_session_id qs_sequence].
  unfold str_or. rewrite !dgetn_eq, Hi, Hk2, Hid, Hseq. split; [by rewrite py_str_por_empty|by right].
Qed.

Lemma persist_sends_nothing q b o : os_sent (persist q b o).2 = os_sent o.
Proof.
  unfold persist_session_state. destruct (String.eqb _ _); [done|]. unfold ebind, eget, elift. by destruct (json_norm _).
Qed.

Definition same_session (q q' : QQState) : Prop :=
  qs_count q' resume_attempt = qs_count q resume_attempt /\ qs_session_id q' = qs_session_id q /\ qs_sequence q' = qs_sequence q.

Lemma tracks_same q q' o : same_session q q' -> tracks q o -> tracks q' o.
Proof. intros (_ & Hi & Hs) H Hn. destruct (H Hn) as (d & Hd & Hid & Hseq). exists d. by rewrite Hi, Hs. Qed.

Lemma keeps_ret {A} (state : A -> QQState) q a : same_session q (state a) -> keeps_session state q (eret a).
Proof. intros H o. split; [done|]. intros ? [= <-]. split; [apply H|]. by apply tracks_same. Qed.

Lemma keeps_raise {A} (state : A -> QQState) q e : keeps_session state q (eraise e).
Proof. intros o. by split. Qed.

(** The session is written as it is answered. *)
Lemma keeps_persisted {A} (state : A -> QQState) q b a :
  qs_count (state a) resume_attempt = qs_count q resume_attempt ->
  keeps_session state q (do! _ := persist (state a) b in eret a).
Proof.
  intros Hc o. unfold ebind. pose proof (persist_sends_nothing (state a) b o) as Hs. destruct (persist (state a) b o) as [[[]|e] o'] eqn:E.
  - split; [exact Hs|]. intros ? [= <-]. split; [done|]. intros _. by apply (persist_tracks (state a) (state a) b o).
  - split; [exact Hs|]. by intros ? [=].
Qed.

(** A part that leaves the file and the frames alone. *)
Definition apart {A} (m : eff outside A) : Prop := forall o, os_sent (m o).2 = os_sent o /\ os_file (m o).2 = os_file o.

Lemma apart_lift {A} (r : result A) : apart (elift r).
Proof. done. Qed.
Lemma apart_core {A} (m : eff W A) : apart (in_core m).
Proof. intros o. unfold in_core. by destruct (m (os_core o)). Qed.

Lemma keeps_apart {A B} (state : B -> QQState) q (m : eff outside A) k :
  apart m -> (forall a, keeps_session state q (k a)) -> keeps_session state q (ebind m k).
Proof.
  intros Hm Hk o. destruct (Hm o) as [H1 H2]. unfold ebind. destruct (m o) as [[a|e] o']; cbn in *; [|by split].
  destruct (Hk a o') as [H3 H4]. split; [congruence|]. intros b Hb. destruct (H4 b Hb) as [H5 H6]. split; [done|].
  intros Ht. apply H6. intros Hn. destruct (Ht Hn) as (d & Hd & H). exists d. split; [|done].
  unfold load_gateway_session_state in *. by rewrite H2.
Qed.

Lemma keeps_then {A B} (state : A -> QQState) (state' : B -> QQState) q m k :
  keeps_session state q m -> (forall a, keeps_session state' (state a) (k a)) -> keeps_session state' q (ebind m k).
Proof.
  intros Hm Hk o. destruct (Hm o) as [H1 H2]. unfold ebind. destruct (m o) as [[a|e] o']; cbn in *; [|by split].
  destruct (H2 a eq_refl) as [H3 H4]. destruct (Hk a o') as [H5 H6]. split; [congruence|]. intros b Hb.
  destruct (H6 b Hb) as [H7 H8]. split; [congruence|auto].
Qed.

Lemma keeps_match {A} (state : A -> QQState) q (b : bool) m m' :
  keeps_session state q m -> keeps_session state q m' -> keeps_session state q (if b then m else m').
Proof. by destruct b. Qed.

#[local] Hint Resolve keeps_raise apart_lift apart_core : session.
#[local] Hint Extern 1 (keeps_session _ _ (eret _)) => (apply keeps_ret; by repeat split) : session.
#[local] Notation handle := (handle_frame ingest_callback clock file_name gateway_url).

(** A part that answers its state with a flag. *)
Lemma keeps_flagged q b (a : QQState * bool) :
  qs_count a.1 resume_attempt = qs_count q resume_attempt -> keeps_session fst q (do! _ := persist a.1 b in eret a).
Proof. apply (keeps_persisted fst). Qed.

Lemma handle_frame_keeps payload q : keeps_session fst q (handle payload q).
Proof.
  unfold handle_frame. apply (keeps_then (fun q => q)).
  { destruct (dmem "s" payload); [|auto with session]. by apply (keeps_persisted (fun q => q)). }
  intros q1. apply keeps_apart; [auto with session|intros op].
  destruct (op =? 7); [by apply (keeps_flagged _ _ (_, false))|].
  destruct (op =? 9); [by apply (keeps_flagged _ _ (_, false))|].
  destruct (op =? 11); [auto with session|]. destruct (negb (op =? 0)); [auto with session|].
  destruct (String.eqb _ "READY"); [by apply (keeps_flagged _ _ (_, true))|].
  destruct (String.eqb _ "RESUMED"); [by apply (keeps_flagged _ _ (_, true))|].
  apply keeps_apart; [auto with session|intros [[et data]|]]; [|auto with session].
  do 2 (apply keeps_apart; [auto with session|intros ?]). by apply (keeps_flagged _ _ (_, true)).
Qed.

Lemma receive_loop_keeps turns : forall q,
  keeps_session (fun q => q) q (receive_loop ingest_callback clock file_name gateway_url max_events turns q).
Proof.
  induction turns as [|t turns IH]; intros q; cbn [receive_loop]; [auto with session|].
  destruct t as [| |e|payload]; [auto with session|..]; (apply keeps_match; [auto with session|]); [auto with session|..].
  - apply keeps_match; auto with session.
  - do 2 (apply keeps_apart; [auto with session|intros ?]). apply (keeps_then fst); [apply handle_frame_keeps|intros [q1 go_on]].
    apply keeps_match; [apply IH|auto with session].
Qed.

(** ** The connections *)

Definition is_resume (frame : dict) : bool := eq_int (dgetn "op" frame) 6.
Definition resumes (frames : list dict) : Z := Z.of_nat (length (List.filter is_resume frames)).
(** What is sent first on a connection: a new session is asked for, or one that
    can be resumed, by its id and its last sequence number. *)
Definition greeting (frame : dict) : Prop :=
  frame = identify_frame access_token intents \/ exists q, should_resume q = true /\ frame = resume_frame access_token q.

(** What the client does from a state [q]: it sends greetings, at most [budget]
    of them to resume, and answers a state whose session is the file's. *)
Record greets (budget : Z) (q : QQState) (o : outside) (run : result QQState * outside) : Prop := {
  gr_sent : exists frames, os_sent run.2 = os_sent o ++ frames /\ Forall greeting frames /\ resumes frames <= budget;
  gr_state : forall q', run.1 = Ok q' -> (tracks q o -> tracks q' run.2);
}.

Lemma resumes_app l l' : resumes (l ++ l') = resumes l + resumes l'.
Proof. unfold resumes. rewrite List.filter_app, length_app. lia. Qed.

Lemma greets_stays budget q q' o : 0 <= budget -> same_session q q' -> greets budget q o (Ok q', o).
Proof.
  intros Hb Hq. split; cbn.
  - exists []. rewrite app_nil_r. by split_and!.
  - intros ? [= <-]. by apply tracks_same.
Qed.

Lemma greets_raise budget q e o : 0 <= budget -> greets budget q o (Raise e, o).
Proof. intros Hb. split; cbn; [|by intros ? [=]]. exists []. rewrite app_nil_r. by split_and!. Qed.

Lemma connect_greets c (resuming : bool) q o :
  (resuming = true -> should_resume q = true) ->
  let run := connect ingest_callback clock file_name access_token gateway_url intents max_events c resuming q o in
  greets (Z.b2z resuming) q o run /\ (forall q', run.1 = Ok q' -> qs_count q' resume_attempt = qs_count q resume_attempt).
Proof.
  intros Hr run. subst run. assert (Hb : 0 <= Z.b2z resuming) by (destruct resuming; cbn; lia).
  assert (Hstay : greets (Z.b2z resuming) q o (Ok q, o)) by (by apply greets_stays).
  assert (Hfail : forall e, greets (Z.b2z resuming) q o (Raise e, o)) by (intros e; by apply greets_raise).
  unfold connect. destruct (cn_open c) as [u|e]; [|destruct (is_closed e); [split; [exact Hstay|by intros ? [= <-]]|split; [apply Hfail|by intros ? [=]]]].
  destruct (cn_hello c) as [payload|e] eqn:Eh; [|destruct (is_closed e); [split; [exact Hstay|by intros ? [= <-]]|split; [apply Hfail|by intros ? [=]]]].
  unfold connected, ebind at 1, elift. rewrite Eh. cbn [rbind].
  destruct (hello_interval payload) as [interval|e]; [|split; [apply Hfail|by intros ? [=]]].
  set (q1 := with_link interval (qs_bot_user_id q) (bump hello q)). unfold ebind at 1, send_frame, emodify. cbn [fst snd].
  set (frame := if resuming then resume_frame access_token q1 else identify_frame access_token intents).
  set (o1 := {| os_file := os_file o; os_writes := os_writes o; os_sent := os_sent o ++ [frame]; os_core := os_core o |}).
  destruct (receive_loop_keeps (cn_turns c) q1 o1) as [Hs Hk]. split.
  - split.
    + exists [frame]. split_and!; [exact Hs| |].
      * apply Forall_singleton. subst frame. destruct resuming; [right|by left]. exists q1. by rewrite <- (Hr eq_refl).
      * subst frame. unfold resumes. destruct resuming; vm_compute; [discriminate..].
    + intros q' Hq'. destruct (Hk q' Hq') as [_ Ht]. intros H. apply Ht. by apply (tracks_same q).
  - intros q' Hq'. by destruct (Hk q' Hq') as [Hc _].
Qed.

(** At most one attempt beyond the limit, which is then the last. *)
Definition attempts_left (q : QQState) : Z := Z.max 1 max_resume_attempts - qs_count q resume_attempt.

Lemma greets_weaken b b' q o run : b <= b' -> greets b q o run -> greets b' q o run.
Proof. intros H [(l & H1 & H2 & H3) H4]. split; [|done]. exists l. split_and!; [done..|lia]. Qed.

Lemma greets_then b b' q q1 o o1 run :
  greets b q o (Ok q1, o1) -> greets b' q1 o1 run -> greets (b + b') q o run.
Proof.
  intros [(l & H1 & H2 & H3) H4] [(l' & H5 & H6 & H7) H8]. split.
  - exists (l ++ l'). cbn in H1. rewrite H5, H1, app_assoc, resumes_app. split_and!; [done|by apply Forall_app|lia].
  - intros q' Hq' Ht. apply (H8 q' Hq'). by apply (H4 q1 eq_refl).
Qed.

Lemma connection_loop_greets connections : forall q o, 0 < attempts_left q ->
  greets (attempts_left q) q o
    (connection_loop ingest_callback clock file_name access_token gateway_url intents max_events max_resume_attempts connections q o).
Proof.
  induction connections as [|c rest IH]; intros q o Ha; cbn [connection_loop]; [apply greets_stays; [lia|by split_and!]|].
  destruct (_ || _); [apply greets_stays; [lia|by split_and!]|].
  set (resuming := should_resume q). set (q1 := if resuming then bump resume_attempt q else q).
  assert (Hq1 : qs_count q1 resume_attempt = qs_count q resume_attempt + Z.b2z resuming).
  { subst q1. destruct resuming; cbn; [done|lia]. }
  assert (Hr : resuming = true -> should_resume q1 = true) by (subst q1; intros H; by rewrite H; cbn).
  assert (Ht : forall o, tracks q o -> tracks q1 o) by (subst q1; destruct resuming; auto).
  destruct (connect_greets c resuming q1 o Hr) as [Hg Hc]. unfold ebind.
  set (run := connect _ _ _ _ _ _ _ c resuming q1 o) in *. assert (Hb : Z.b2z resuming <= attempts_left q) by (destruct resuming; cbn; lia).
  assert (Hg' : greets (Z.b2z resuming) q o run) by (destruct Hg as [H1 H2]; split; auto).
  destruct run as [[q2|e] o2] eqn:Erun; [|by apply (greets_weaken _ _ _ _ _ Hb)].
  specialize (Hc q2 eq_refl). destruct (_ || _); [by apply (greets_weaken _ _ _ _ _ Hb)|].
  destruct (resuming && _) eqn:El.
  - apply (greets_weaken (Z.b2z resuming + 0)); [lia|]. eapply (greets_then _ _ _ _ _ _ _ Hg').
    destruct (keeps_persisted (fun q => q) q2 false (set_can_resume false q2) eq_refl o2) as [Hs Hk]. split.
    + exists []. rewrite app_nil_r. by split_and!.
    + intros q' Hq'. by destruct (Hk q' Hq') as [_ H].
  - set (q3 := if 0 <? qs_count q2 hello then bump reconnect q2 else q2).
    assert (H3 : same_session q2 q3) by (subst q3; destruct (0 <? _); by split_and!).
    assert (Ha3 : attempts_left q3 = attempts_left q - Z.b2z resuming).
    { unfold attempts_left. rewrite (proj1 H3), Hc, Hq1. lia. }
    apply (greets_weaken (Z.b2z resuming + attempts_left q3)); [lia|]. eapply (greets_then _ _ _ _ _ _ _ Hg').
    assert (Hpos : 0 < attempts_left q3).
    { destruct resuming; cbn in *; [|lia]. apply Z.leb_gt in El. unfold attempts_left in *. rewrite (proj1 H3), Hc, Hq1 in *. lia. }
    destruct (IH q3 o2 Hpos) as [H5 H6]. split; [exact H5|]. intros q' Hq' H. apply (H6 q' Hq'). by apply (tracks_same q2).
Qed.
End Session.

(** C14: over any number of connections, whatever the gateway sends, the core does and the file holds: the client greets each
    connection either by asking for a new session or by resuming one it has an id and a sequence number for, and tries to resume at
    most as often as it may (once at least); and when it ends, the file gives the next run the session it reports, so that the next
    run goes on where this one stopped. *)
Theorem gateway_session_kept {W} (ingest_callback : SocialMessageEnvelope -> string -> eff W dict) clock file_name access_token gateway_url
    intents max_events max_resume_attempts address expires_in duration connections o :
  let run := run_gateway ingest_callback clock file_name access_token gateway_url intents max_events max_resume_attempts address
               expires_in duration connections o in
  (exists frames, os_sent run.2 = os_sent o ++ frames /\ Forall (greeting access_token intents) frames /\
     resumes frames <= Z.max 1 max_resume_attempts) /\
  (forall report, run.1 = Ok report -> file_name <> "" ->
     exists loaded kept, (load_gateway_session_state file_name run.2).1 = Ok loaded /\
       dget "session_id" report = Some (VStr (str_or "session_id" "" loaded)) /\
       dget "sequence" report = Some kept /\ same_sequence kept (dgetn "sequence" loaded)).
Proof.
  intros run. subst run. unfold run_gateway, ebind, eget.
  destruct (load_gateway_session_state file_name o) as [[loaded|e] o0] eqn:El;
    (assert (o0 = o) as -> by (unfold load_gateway_session_state in El; congruence)).
  2: { cbn. split; [|by intros ? [=]]. exists []. rewrite app_nil_r. split_and!; [done|by apply List.Forall_nil|unfold resumes; cbn; lia]. }
  destruct (connection_loop_greets ingest_callback clock file_name access_token gateway_url intents max_events max_resume_attempts
              connections (initial_qq_state loaded) o ltac:(unfold attempts_left; cbn; lia)) as [Hs Ht].
  assert (H0 : tracks file_name (initial_qq_state loaded) o).
  { intros Hn. exists loaded. rewrite El. by split_and!; [..|left]. }
  destruct (connection_loop _ _ _ _ _ _ _ _ _ _ _) as [[q|e] o'] eqn:Erun; cbn [fst snd] in *; unfold attempts_left in Hs; cbn in Hs;
    rewrite Z.sub_0_r in Hs; (split; [exact Hs|]).
  - intros ? [= <-] Hn. destruct (Ht q eq_refl H0 Hn) as (kept & Hk & Hid & Hseq). exists kept, (qs_sequence q).
    cbn in Hid, Hseq. split_and!; [done| |reflexivity|exact Hseq]. rewrite Hid. reflexivity.
  - by intros ? [=].
Qed.

(** A gateway that says READY, sends a message and asks to reconnect; then, resumed, sends another. *)
Definition frame_of (op : Z) (t : string) (s : pyval) (d : dict) : Turn :=
  Received (Ok (VDict (dict_of [("op", VInt op); ("t", VStr t); ("s", s); ("d", VDict d)]))).
Definition sample_hello : result pyval :=
  Ok (VDict (dict_of [("op", VInt 10); ("d", VDict (dict_of [("heartbeat_interval", VInt 41250)]))])).
Definition sample_connection (turns : list Turn) : Connection :=
  {| cn_late := false; cn_open := Ok tt; cn_hello := sample_hello; cn_turns := turns; cn_late_after := false |}.
Definition sample_connections : list Connection :=
  [sample_connection
     [frame_of 0 "READY" (VInt 1) (dict_of [("session_id", VStr "s-1"); ("user", VDict (dict_of [("id", VStr "bot")]))]);
      frame_of 0 "C2C_MESSAGE_CREATE" (VInt 2) (dict_of [("id", VStr "m-1"); ("author", VDict (dict_of [("id", VStr "alice")]))]);
      frame_of 7 "" (VInt 2) []];
   sample_connection
     [frame_of 0 "RESUMED" (VInt 3) [];
      frame_of 0 "C2C_MESSAGE_CREATE" (VInt 4) (dict_of [("id", VStr "m-2"); ("author", VDict (dict_of [("id", VStr "alice")]))]);
      Broken (External "ConnectionClosed")]].
Definition sample_outside : Outside (list string) := {| os_file := None; os_writes := 0; os_sent := []; os_core := [] |}.
#[local] Notation sample_run :=
  (run_gateway counting_core (fun n => Z.of_nat n) "session.json" "token" "wss://gw" QQ_OFFICIAL_DEFAULT_GATEWAY_INTENTS 0 2
     {| ga_url := "wss://gw"; ga_shards := 0; ga_session_start_limit := [] |} 7200 30 sample_connections sample_outside).

Example sample_gateway_run :
  os_core sample_run.2 = ["m-1"; "m-2"] /\
  map (fun f => dgetn "op" f) (os_sent sample_run.2) = [VInt 2; VInt 6] /\
  (load_gateway_session_state "session.json" sample_run.2).1 =
    Ok (dict_of [("can_resume", VBool true); ("gateway_url", VStr "wss://gw"); ("sequence", VInt 4); ("session_id", VStr "s-1");
                 ("updated_at", VInt 9)]).
Proof. vm_compute. auto. Qed.

Lemma gateway_session_kept_witness :
  exists report loaded kept, sample_run.1 = Ok report /\ (load_gateway_session_state "session.json" sample_run.2).1 = Ok loaded /\
    dget "session_id" report = Some (VStr (str_or "session_id" "" loaded)) /\
    dget "sequence" report = Some kept /\ same_sequence kept (dgetn "sequence" loaded).
Proof.
  assert (Hok : is_ok sample_run.1 = true) by (vm_compute; reflexivity). revert Hok.
  pose proof (gateway_session_kept counting_core (fun n => Z.of_nat n) "session.json" "token" "wss://gw" QQ_OFFICIAL_DEFAULT_GATEWAY_INTENTS
    0 2 {| ga_url := "wss://gw"; ga_shards := 0; ga_session_start_limit := [] |} 7200 30 sample_connections sample_outside) as [_ H].
  destruct (sample_run.1) as [report|e]; [intros _|discriminate].
  destruct (H report eq_refl ltac:(discriminate)) as (loaded & kept & H'). by exists report, loaded, kept.
Defined.
