(* ===== verification/SocialIngress.v ===== *)
(** * Chat messages into the core ([cli.py]: the social ingress)

    A message of a chat adapter becomes the event of its text, as a user's
    prompt would, bound to its sender; the gateways' callbacks run the workflow
    on it.  A gateway is only opened through a profile that is ready.

    Every run has a router of its own.  The identifier the classified event
    draws is not kept, so what it is drawn from is a variable. *)

From Stdlib Require Import ZArith Lia Bool List Ascii String.
From stdpp Require Import base gmap list option strings.
From S2P Require Import Prelude PyFloat Text PyValue Events Agents Contracts Policy Maf ModelAgents StateSync Store StoreTypes Memory Artifact Deploy PromptContext Catalog Skills Inference ProviderProfiles PlanQuality RunEvidence Workflow RunSafety RunRecords RunFrames AgentRun EventDaemon EventService RunCommands UserPrompt Social SocialAdapters SocialRegistry SocialGateway QQWebhook QQGateway.

#[local] Open Scope string_scope.
#[local] Open Scope Z_scope.
#[local] Open Scope list_scope.

(** ** The event of a message *)

(** [list(dict.fromkeys(values))] *)
Fixpoint fromkeys (seen values : list pyval) : result (list pyval) :=
  match values with
  | [] => Ok []
  | v :: rest =>
      if negb (hashable v) then Raise (TypeError "unhashable type")
      else if py_in v seen then fromkeys seen rest
      else let! kept := fromkeys (seen ++ [v]) rest in Ok (v :: kept)
  end.

(** The assignments in the code's order; the event is changed in place and answered. *)
Definition merge_social_prompt_event (prompt_env : Env) (social_event : dict) (social_text social_adapter_kind : string)
    (social_metadata : dict) : result dict :=
  let classified := build_user_prompt_event prompt_env social_text in
  let! social_tags := py_iter (por (dgetn "policy_tags" social_event) (VList [])) in
  let! classified_tags := py_iter (por (dgetn "policy_tags" classified) (VList [])) in
  let! merged_policy_tags := fromkeys [] (social_tags ++ classified_tags) in
  let event := dset "event_type" (VStr (str_or "event_type" "user.input" classified)) social_event in
  let event := dset "semantic_topic" (VStr (py_str (por (dgetn "semantic_topic" classified) (dgetn "semantic_topic" event)))) event in
  let event := dset "source_app" (dgetn "source_app" classified) event in
  let! own := py_int (por (dgetn "priority" event) (VInt 0)) in
  let! prompted := py_int (por (dgetn "priority" classified) (VInt 0)) in
  let event := dset "priority" (VInt (Z.max own prompted)) event in
  let event := dset "policy_tags" (VList merged_policy_tags) event in
  let! own_payload := as_dict (por (dgetn "payload" event) (VDict [])) in
  let! classified_payload := as_dict (por (dgetn "payload" classified) (VDict [])) in
  Ok (dset "payload" (VDict (dupdate (dupdate own_payload classified_payload)
        (dict_of [("social_adapter", VStr social_adapter_kind); ("social_metadata", VDict social_metadata)]))) event).

Definition build_social_user_prompt_event (prompt_env : Env)
    (social_text social_adapter_kind social_channel_id social_channel_kind social_user_id : string) (social_admin : bool)
    (received_at : string) : result dict :=
  let! envelope := bind_principal social_adapter_kind social_channel_id social_channel_kind social_user_id social_text received_at
                     social_admin in
  merge_social_prompt_event prompt_env (to_perception_event envelope) social_text social_adapter_kind (se_metadata envelope).

Definition build_social_event_from_envelope (prompt_env : Env) (envelope : SocialMessageEnvelope) : result dict :=
  merge_social_prompt_event prompt_env (to_perception_event envelope) (se_text envelope) (se_adapter_kind envelope)
    (se_metadata envelope).

(** ** Credentials *)

(** [s.upper()] as far as ASCII letters go: the names of variables are ASCII. *)
Definition upper_byte (b : Z) : Z := if (97 <=? b) && (b <=? 122) then b - 32 else b.
Definition py_upper (s : string) : string := string_of_bytes (map upper_byte (bytes_of_string s)).

(** The variables that are set among those whose name has the fragment. *)
Definition with_fragment (env : environ) (fragment : string) (env_vars : list string) : option (string * string) :=
  first_present_env_var env (List.filter (fun name => py_contains (py_upper name) fragment) env_vars).
Fixpoint preferred_variable (env : environ) (fragments env_vars : list string) : option (string * string) :=
  match fragments with
  | [] => None
  | fragment :: rest =>
      match with_fragment env fragment env_vars with
      | Some found => Some found
      | None => preferred_variable env rest env_vars
      end
  end.
Definition pick_profile_env_value (env : environ) (p : SocialAdapterProfile) (preferred_fragments : list string)
    : result (string * string) :=
  match preferred_variable env preferred_fragments (ap_credential_env_vars p) with
  | Some found => Ok found
  | None => match first_present_env_var env (ap_credential_env_vars p) with
            | Some found => Ok found
            | None => Raise (ValueError "qq_official_credential_env_missing")
            end
  end.

(** ** The gateways' profiles *)

Definition ready_profile (service name : string) (registry : SocialAdapterRegistry) : result SocialAdapterProfile :=
  match get_adapter_profile name registry with
  | None => Raise (ValueError (service +:+ "_profile_missing"))
  | Some p => if negb (ready_for_live_io p) then Raise (ValueError (service +:+ "_profile_not_ready")) else Ok p
  end.

(** What a client is opened with. *)
Record QQCredentials := { qc_app_id : string; qc_app_secret : string }.
Record GatewayAccess := { gx_access_token : string; gx_gateway_url : string }.

Section Setup.
Context (env : environ) (path : string) (file : ConfigFile).

Definition secret_fragments : list string := ["APP_SECRET"; "SECRET"; "TOKEN"].
Definition token_fragments : list string := ["TOKEN"; "KEY"; "SECRET"].

Definition qq_webhook_setup : result string :=
  let! registry := social_adapter_registry env path file in
  let! profile := ready_profile "qq_official" "qq_official" registry in
  let! (_, app_secret) := pick_profile_env_value env profile secret_fragments in
  Ok app_secret.

Definition qq_gateway_setup : result QQCredentials :=
  let! registry := social_adapter_registry env path file in
  let! profile := ready_profile "qq_official" "qq_official" registry in
  let! (_, app_id) := pick_profile_env_value env profile ["APP_ID"] in
  let! (_, app_secret) := pick_profile_env_value env profile secret_fragments in
  Ok {| qc_app_id := app_id; qc_app_secret := app_secret |}.

Definition wecom_gateway_setup (gateway_url : string) : result GatewayAccess :=
  let! registry := social_adapter_registry env path file in
  let! profile := ready_profile "wecom" "wecom" registry in
  let! (_, access_token) := pick_profile_env_value env profile token_fragments in
  let url := or_text gateway_url (default "" (ap_endpoint_url profile)) in
  if String.eqb url "" then Raise (ValueError "wecom_gateway_url_missing")
  else Ok {| gx_access_token := access_token; gx_gateway_url := url |}.

(** The profile is looked at in the code's order: there, an OpenClaw gateway's, ready, of a kind the client knows. *)
Definition openclaw_profile (adapter_name : string) (registry : SocialAdapterRegistry) : result SocialAdapterProfile :=
  match get_adapter_profile adapter_name registry with
  | None => Raise (ValueError "openclaw_profile_missing")
  | Some p =>
      if negb (is_gateway p) then Raise (ValueError "openclaw_profile_transport_unsupported")
      else if negb (ready_for_live_io p) then Raise (ValueError "openclaw_profile_not_ready")
      else if negb (str_in (ap_adapter_kind p) ["wechat_ilink"; "qq_openclaw"]) then
        Raise (ValueError "openclaw_adapter_not_supported")
      else Ok p
  end.
Definition openclaw_gateway_setup (adapter_name gateway_url plugin_package : string) : result (GatewayAccess * OpenClawPlugin) :=
  let! registry := social_adapter_registry env path file in
  let! profile := openclaw_profile adapter_name registry in
  let! (_, access_token) := pick_profile_env_value env profile token_fragments in
  let url := or_text gateway_url (or_text (default "" (ap_host_url profile)) (default "" (ap_endpoint_url profile))) in
  if String.eqb url "" then Raise (ValueError "openclaw_gateway_url_missing")
  else
    let package := or_text plugin_package (default "" (ap_plugin_package profile)) in
    if String.eqb package "" then Raise (ValueError "openclaw_plugin_package_missing")
    else
      let adapter := if String.eqb (ap_adapter_kind profile) "wechat_ilink" then wechat_ilink else qq_openclaw in
      Ok ({| gx_access_token := access_token; gx_gateway_url := url |},
          {| op_adapter_kind := ap_adapter_kind profile;
             op_plugin_id := or_text (default "" (ap_plugin_id profile)) (ap_adapter_kind profile); op_plugin_package := package;
             op_installer_package := default "" (ap_installer_package profile);
             op_envelope_from_event := @envelope_from_event adapter default_received_at |}).
End Setup.

(** ** The ingress commands *)

Section Ingress.
Context {US MS CS : Type} `{Adapter : UnitAdapter US} `{SQ : Sqlite} {FS : Files}.
Context (env : nat -> Env) (clock : nat -> Z) (recent_topics : RecentTopics) (prompt_env : Env).
Context (su : Surroundings (MS := MS) (CS := CS)) (rr : RunRequest (MS := MS) (CS := CS)) (runtime_env : result environ)
        (session_id : option string) (require_real_tool_adapter : bool).
#[local] Notation world := (World US MS CS).

(** A run of the workflow on one event, with a new router. *)
Definition run_on_event (label : string) (event : dict) : eff world dict :=
  do! _ := seed_router [] in
  run_no_model_dry_run env clock recent_topics su rr runtime_env false 100 0 None (Some [event]) session_id
    require_real_tool_adapter (Some label).

(** The callback of a gateway: the event of the message, with what the gateway
    knows of it added to its payload. *)
Definition ingest_message (label : string) (noted : string -> list (string * pyval)) (envelope : SocialMessageEnvelope)
    (event_type : string) : eff world dict :=
  do! event := elift (build_social_event_from_envelope prompt_env envelope) in
  do! payload := elift (as_dict (por (dgetn "payload" event) (VDict []))) in
  run_on_event label (dset "payload" (VDict (dupdate payload (dict_of (noted event_type)))) event).

Definition qq_noted (event_type : string) : list (string * pyval) := [("qq_event_type", VStr event_type)].
Definition wecom_noted (event_type : string) : list (string * pyval) := [("wecom_event_type", VStr event_type)].
Definition openclaw_noted (package event_type : string) : list (string * pyval) :=
  [("openclaw_event_type", VStr event_type); ("openclaw_plugin_package", VStr package)].

Definition qq_webhook_ingest := ingest_message "qq_official_webhook" qq_noted.

Definition run_social_agent_payload (social_text social_adapter_kind social_channel_id social_channel_kind social_user_id : string)
    (social_admin : bool) : eff world dict :=
  do! event := elift (build_social_user_prompt_event prompt_env social_text social_adapter_kind social_channel_id social_channel_kind
                        social_user_id social_admin "2026-05-10T12:30:00Z") in
  run_on_event "mock_social" event.

Definition run_wecom_gateway_ingress (path : string) (file : ConfigFile) (gateway_url : string) (connection : GatewayAccess -> result unit)
    (turns : list Turn) (duration max_events : Z) : eff world dict :=
  do! access := elift (wecom_gateway_setup (su_environ su) path file gateway_url) in
  run_wecom_gateway_client (ingest_message "wecom_gateway" wecom_noted) (connection access) turns (gx_gateway_url access) duration max_events.

Definition run_openclaw_gateway_ingress (path : string) (file : ConfigFile) (adapter_name gateway_url plugin_package : string)
    (connection : GatewayAccess -> result unit) (turns : list Turn) (duration max_events : Z) : eff world dict :=
  do! (access, plugin) := elift (openclaw_gateway_setup (su_environ su) path file adapter_name gateway_url plugin_package) in
  run_openclaw_gateway_client plugin (ingest_message "openclaw_gateway" (openclaw_noted (op_plugin_package plugin)))
    (connection access) turns (gx_gateway_url access) duration max_events.

(** [token_response] and [gateway_response] are what the platform answers the
    credentials, and [wall] the times the session file is stamped with. *)
Definition run_qq_official_gateway_ingress (wall : nat -> Z) (path : string) (file : ConfigFile) (token_response gateway_response : QQCredentials -> result pyval)
    (gateway_url session_state_file : string) (max_resume_attempts duration max_events : Z) (connections : list Connection)
    : eff (Outside world) dict :=
  do! credentials := elift (qq_gateway_setup (su_environ su) path file) in
  run_qq_official_gateway_client (ingest_message "qq_official_gateway" qq_noted) wall (token_response credentials)
    (gateway_response credentials) gateway_url session_state_file QQ_OFFICIAL_DEFAULT_GATEWAY_INTENTS max_events max_resume_attempts
    duration connections.
End Ingress.

(** ** The event is the user's prompt, bound to the sender *)

Lemma fromkeys_texts l : forall seen, exists l', fromkeys seen (vstrs l) = Ok (vstrs l').
Proof.
  induction l as [|s l IH]; intros seen; [by exists []|].
  change (vstrs (s :: l)) with (VStr s :: vstrs l). cbn [fromkeys hashable negb]. destruct (py_in (VStr s) seen); [apply IH|].
  destruct (IH (seen ++ [VStr s])) as [l' ->]. by exists (s :: l').
Qed.

Lemma por_vlist l : por (VList l) (VList []) = VList l.
Proof. by destruct l. Qed.

Definition prompted_payload (m : SocialMessageEnvelope) : dict :=
  dict_of ([("text", VStr (se_text m)); ("channel_id", VStr (se_channel_id m)); ("channel_kind", VStr (se_channel_kind m));
            ("external_user_id", VStr (se_external_user_id m)); ("principal_id", VStr (se_principal_id m));
            ("rate_limit_class", VStr (se_rate_limit_class m)); ("social_adapter", VStr (se_adapter_kind m))] ++
           match extract_explicit_app_id (se_text m) with Some app_id => [("target_app_id", VStr app_id)] | None => [] end ++
           [("social_metadata", VDict (se_metadata m))]).
Definition prompted_event (m : SocialMessageEnvelope) (tags : list string) : dict :=
  dict_of
    [("event_id", VStr (se_social_message_id m)); ("source_kind", VStr "social"); ("source_node", VStr (se_adapter_kind m));
     ("event_type", VStr "user.input"); ("semantic_topic", VStr (user_prompt_topic (words_of (py_lower (se_text m)))));
     ("timestamp_wall", VStr (se_received_at m)); ("priority", VInt 70); ("dedupe_key", VStr (se_social_message_id m));
     ("policy_tags", VList (vstrs tags)); ("payload", VDict (prompted_payload m));
     ("source_app", opt_str (extract_explicit_app_id (se_text m)))].

Lemma topic_nonempty tokens : user_prompt_topic tokens <> "".
Proof. unfold user_prompt_topic. by repeat destr_goal. Qed.

Lemma social_event_prompted prompt_env m :
  exists tags, build_social_event_from_envelope prompt_env m = Ok (prompted_event m tags).
Proof.
  destruct (fromkeys_texts (se_policy_tags m ++ ["user_input"; "agent_run"]) []) as [tags Ht]. exists tags.
  unfold build_social_event_from_envelope, merge_social_prompt_event.
  assert (Hs : py_iter (por (dgetn "policy_tags" (to_perception_event m)) (VList [])) = Ok (vstrs (se_policy_tags m)))
    by (rewrite dgetn_eq; unfold to_perception_event; rewrite dget_dict_of; cbn [sget String.eqb Ascii.eqb Bool.eqb]; by rewrite por_vlist).
  assert (Hc : py_iter (por (dgetn "policy_tags" (build_user_prompt_event prompt_env (se_text m))) (VList [])) =
               Ok (vstrs ["user_input"; "agent_run"])) by (by cbn).
  rewrite Hs, Hc. cbn [rbind]. unfold vstrs in Ht |- *. rewrite <- map_app, Ht. cbn [rbind].
  pose proof (topic_nonempty (words_of (py_lower (se_text m)))) as Htopic.
  unfold prompted_event, prompted_payload, build_user_prompt_event, to_perception_event, social_priority.
  destruct (user_prompt_topic _) as [|c topic]; [done|].
  destruct (extract_explicit_app_id _), (String.eqb (se_rate_limit_class m) "admin"); reflexivity.
Qed.

Definition prompted_perception (m : SocialMessageEnvelope) (tags : list string) : PerceptionEvent :=
  {| Events.event_id := se_social_message_id m; Events.source_kind := "social"; Events.event_type := "user.input"; Events.timestamp_wall := se_received_at m;
     Events.source_node := VStr (se_adapter_kind m); Events.source_app := opt_str (extract_explicit_app_id (se_text m));
     Events.semantic_topic := VStr (user_prompt_topic (words_of (py_lower (se_text m)))); Events.timestamp_mono := VNone; Events.priority := 70;
     Events.dedupe_key := VStr (se_social_message_id m); Events.causality_id := VStr (se_social_message_id m); Events.raw_payload_ref := VNone;
     Events.policy_tags := vstrs tags; Events.ev_payload := prompted_payload m |}.

Lemma prompted_normalized e m tags :
  envelope_complete m -> se_received_at m <> "" -> normalize_one (e, prompted_event m tags) = Ok (prompted_perception m tags).
Proof.
  intros [_ Ht] Hr. apply Forall_cons in Ht as [Hid Ht]. unfold prompted_perception, prompted_event.
  destruct (se_social_message_id m) as [|c id]; [done|]. destruct (se_received_at m) as [|c' r]; [done|].
  unfold normalize_one, from_payload.
  assert (Htags : forall d, dget "policy_tags" d = Some (VList (vstrs tags)) ->
            py_iter (por (dgetn "policy_tags" d) (VTuple [])) = Ok (vstrs tags)).
  { intros d Hd. rewrite dgetn_eq, Hd. by destruct tags. }
  erewrite Htags; [reflexivity|]. cbn [snd]. reflexivity.
Qed.

Lemma prompted_target m : dget "target_app_id" (prompted_payload m) = VStr <$> extract_explicit_app_id (se_text m).
Proof. unfold prompted_payload. rewrite dget_dict_of. by destruct (extract_explicit_app_id (se_text m)). Qed.

(** C12: a message of any chat adapter reaches the router as its user's prompt.  Its event carries the text that the payload gives,
    the sender whom the payload names, at the places where the service of the adapter puts them, and the principal of that
    sender; the topic is the one the words of the text choose and the priority is fixed; the application, both as the
    target of the payload and as the source of the event, is the identifier that is found in the text, and there is none when none
    is found; such an identifier has the shape of one and is no stop word; and the router keeps the message once, whatever
    keys it has seen. *)
Theorem social_message_routed (A : SocialAdapter) prompt_env e t p seen :
  A ∈ service_adapters -> t <> "" ->
  let m := envelope_from_event t p in
  let text := named_text adapter_kind p in
  let sender := named_sender adapter_kind p in
  exists event ev, build_social_event_from_envelope prompt_env m = Ok event /\ normalize_one (e, event) = Ok ev /\
    Events.source_kind ev = "social" /\ Events.source_node ev = VStr adapter_kind /\ Events.priority ev = 70 /\
    Events.semantic_topic ev = VStr (user_prompt_topic (words_of (py_lower text))) /\
    dget "text" (ev_payload ev) = Some (VStr text) /\
    dget "external_user_id" (ev_payload ev) = Some (VStr sender) /\
    dget "principal_id" (ev_payload ev) = Some (VStr (principal_of adapter_kind sender)) /\
    Events.source_app ev = opt_str (extract_explicit_app_id text) /\
    dget "target_app_id" (ev_payload ev) = VStr <$> extract_explicit_app_id text /\
    (forall app_id, extract_explicit_app_id text = Some app_id -> app_id_shape app_id /\ app_id ∉ app_id_stopwords) /\
    normalize seen [(e, event)] =
      if py_in (VStr (se_social_message_id m)) seen then Ok ([], seen) else Ok ([ev], seen ++ [VStr (se_social_message_id m)]).
Proof.
  intros HA Ht m text sender. destruct (service_binds A HA) as [ga Hbinds]. destruct (envelope_says A t p HA) as [Hsender Htext].
  destruct (social_event_prompted prompt_env m) as [tags Hevent].
  assert (Hn : normalize_one (e, prompted_event m tags) = Ok (prompted_perception m tags)).
  { apply prompted_normalized; [apply bs_complete|]. unfold m. by rewrite bs_received. }
  assert (Hid : se_social_message_id m <> "").
  { pose proof (ec_texts _ (bs_complete (A := A) t p)) as H. by apply Forall_cons in H as [H _]. }
  exists (prompted_event m tags), (prompted_perception m tags). unfold text, sender. rewrite <- Hsender, <- Htext.
  split_and!; try done.
  - cbn. unfold m. by rewrite bs_adapter.
  - change (Some (VStr (se_principal_id m)) = Some (VStr (principal_of adapter_kind (se_external_user_id m)))). unfold m.
    by rewrite bs_principal.
  - apply prompted_target.
  - intros app_id Ha. destruct (explicit_app_id_found _ _ Ha) as (Hs & Hw & _). by split.
  - unfold normalize. cbn [collect]. rewrite Hn. cbn [rbind].
    assert (Hk : event_key (prompted_perception m tags) = VStr (se_social_message_id m)) by (by apply por_str_nonempty).
    rewrite Hk. cbn [hashable negb]. by destruct (py_in _ seen).
Qed.

Definition sample_chat_payload : dict :=
  dict_of [("from_user", VStr "alice"); ("scene", VStr "group"); ("room_id", VStr "r-1"); ("msg_id", VStr "m-1");
           ("text", VStr "please restart app neuro_demo_gpio")].

Lemma social_message_routed_witness :
  let m := @envelope_from_event wechat_ilink "2026-05-11T12:00:00Z" sample_chat_payload in
  exists event ev, build_social_event_from_envelope Events.sample_env m = Ok event /\ normalize_one (Events.sample_env, event) = Ok ev /\
    Events.semantic_topic ev = VStr "user.input.control.app.restart" /\ Events.source_app ev = VStr "neuro_demo_gpio" /\
    dget "principal_id" (ev_payload ev) = Some (VStr "wechat_ilink:alice") /\
    normalize [] [(Events.sample_env, event)] = Ok ([ev], [VStr "m-1"]).
Proof.
  intros m.
  destruct (social_message_routed wechat_ilink Events.sample_env Events.sample_env "2026-05-11T12:00:00Z" sample_chat_payload []
              ltac:(do 3 right; left) ltac:(discriminate)) as (event & ev & He & Hn & _ & _ & _ & Ht & _ & _ & Hp & Ha & _ & _ & Hr).
  exists event, ev. split_and!; [exact He|exact Hn|exact Ht|exact Ha|exact Hp|exact Hr].
Defined.
