(* ===== verification/SocialSafety.v ===== *)
(** * What a chat message may do ([cli.py]: the social ingress)

    The commands that take messages from a chat open a gateway only through a
    profile that is ready, and whatever comes over it stays within what the
    contracts, the policy and the leave to call a model allow. *)

From Stdlib Require Import ZArith Lia Bool List Ascii String.
From stdpp Require Import base gmap list option strings.
From S2P Require Import Prelude PyFloat Text PyValue Events Agents Contracts Policy Maf ModelAgents StateSync Store StoreTypes Memory Artifact Deploy PromptContext Catalog Skills Inference ProviderProfiles PlanQuality RunEvidence Workflow RunSafety RunRecords RunFrames AgentRun EventDaemon EventService RunCommands UserPrompt Social SocialAdapters SocialRegistry SocialTest SocialGateway QQWebhook QQGateway SocialIngress.

#[local] Open Scope string_scope.
#[local] Open Scope Z_scope.
#[local] Open Scope list_scope.

(** ** The clients keep what their callback keeps *)

Section Clients.
Context {W : Type} (R : W -> W -> Prop) `{!PreOrder R}.
Context (ingest_callback : SocialMessageEnvelope -> string -> eff W dict).
Hypothesis ingest_kept : forall envelope event_type, moves R (ingest_callback envelope event_type).
#[local] Hint Resolve ingest_kept : moves.

Lemma gateway_loop_kept client max_events turns : forall g, moves R (gateway_loop client ingest_callback max_events turns g).
Proof.
  induction turns as [|turn turns IH]; intros g; cbn [gateway_loop]; [moves|]. destruct turn as [| |e|payload]; [moves..|].
  destruct (enough max_events g); [moves|]. unfold handle_payload. moves.
Qed.
#[local] Hint Resolve gateway_loop_kept : moves.

Lemma wecom_client_kept connection turns url duration max_events :
  moves R (run_wecom_gateway_client ingest_callback connection turns url duration max_events).
Proof. unfold run_wecom_gateway_client. moves. Qed.
Lemma openclaw_client_kept plugin connection turns url duration max_events :
  moves R (run_openclaw_gateway_client plugin ingest_callback connection turns url duration max_events).
Proof. unfold run_openclaw_gateway_client. moves. Qed.

(** The core behind a client that keeps a session file. *)
Definition core_kept (o o' : Outside W) : Prop := R (os_core o) (os_core o').
#[export] Instance core_kept_preorder : PreOrder core_kept.
Proof. unfold core_kept. split; [by intros o|by intros a b c H H'; etrans]. Qed.

Lemma in_core_kept {A} (m : eff W A) : moves R m -> moves core_kept (in_core m).
Proof. intros H o. unfold in_core, core_kept. specialize (H (os_core o)). by destruct (m (os_core o)). Qed.
Lemma same_core_kept f : (forall o, os_core (f o) = os_core o) -> moves core_kept (emodify f).
Proof. intros H. apply moves_modify. intros o. unfold core_kept. by rewrite H. Qed.
#[local] Hint Resolve in_core_kept same_core_kept : moves.
#[local] Hint Extern 1 (forall o, os_core _ = _) => (intros o; reflexivity) : moves.

Section Session.
Context (wall : nat -> Z) (file_name access_token gateway_url : string) (intents max_events max_resume_attempts : Z).

Lemma persist_kept q b : moves core_kept (persist_session_state wall file_name gateway_url q b).
Proof. unfold persist_session_state. moves. Qed.
#[local] Hint Resolve persist_kept : moves.

Lemma handle_frame_kept payload q : moves core_kept (handle_frame ingest_callback wall file_name gateway_url payload q).
Proof. unfold handle_frame, persist_current. moves. Qed.
#[local] Hint Resolve handle_frame_kept : moves.

Lemma receive_loop_kept turns : forall q,
  moves core_kept (receive_loop ingest_callback wall file_name gateway_url max_events turns q).
Proof.
  induction turns as [|turn turns IH]; intros q; cbn [receive_loop]; [moves|]. destruct turn as [| |e|payload]; moves.
Qed.

Lemma connect_kept c resuming q :
  moves core_kept (connect ingest_callback wall file_name access_token gateway_url intents max_events c resuming q).
Proof.
  assert (H : moves core_kept (connected ingest_callback wall file_name access_token gateway_url intents max_events c resuming q)).
  { unfold connected, send_frame. pose proof receive_loop_kept. moves. }
  intros o. unfold connect. destruct (cn_open c) as [u|e]; [|by destruct (is_closed e)].
  destruct (cn_hello c) as [p|e]; [apply H|by destruct (is_closed e)].
Qed.
#[local] Hint Resolve connect_kept : moves.

Lemma connection_loop_kept connections : forall q,
  moves core_kept (connection_loop ingest_callback wall file_name access_token gateway_url intents max_events max_resume_attempts connections q).
Proof. induction connections as [|c rest IH]; intros q; cbn [connection_loop]; moves. Qed.
End Session.

Lemma qq_client_kept wall token address url file_name intents max_events attempts duration connections :
  moves core_kept (run_qq_official_gateway_client ingest_callback wall token address url file_name intents max_events attempts duration
                     connections).
Proof.
  pose proof connection_loop_kept. unfold run_qq_official_gateway_client, run_gateway. moves.
Qed.
End Clients.

(** ** A gateway is opened through a ready profile *)

(** The profile the command names is in the registry and misses nothing. *)
Definition ready_in (env : environ) (path : string) (file : ConfigFile) (name : string) : Prop :=
  exists registry p, social_adapter_registry env path file = Ok registry /\ get_adapter_profile name registry = Some p /\
    adapter_missing_requirements p = [] /\ credentials_present env (ap_credential_env_vars p) = true.

Section Ready.
Context (env : environ) (path : string) (file : ConfigFile).

(** Every profile's credentials are looked up in the environment. *)
Definition credentials_true (p : SocialAdapterProfile) : Prop :=
  ap_credential_configured p = credentials_present env (ap_credential_env_vars p).

Lemma added_entry_true profiles entry :
  Forall (fun kp => credentials_true kp.2) profiles -> Forall (fun kp => credentials_true kp.2) (add_adapter_entry env profiles entry).
Proof.
  intros H. destruct entry; try done. unfold add_adapter_entry. destruct (String.eqb _ ""); [done|].
  assert (Hset : forall p l, credentials_true p -> Forall (fun kp : string * SocialAdapterProfile => credentials_true kp.2) l ->
            Forall (fun kp => credentials_true kp.2) (od_set (fun k : string => k) (str_or "name" "" d) p l)).
  { intros p l Hp. induction 1 as [|[k q] l Hq Hl IH]; cbn; [by repeat constructor|]. destruct (decide _); by constructor. }
  by apply Hset.
Qed.

Lemma registry_true registry :
  social_adapter_registry env path file = Ok registry -> Forall credentials_true (ar_profiles registry).
Proof.
  unfold social_adapter_registry. intros H. inv_ok. cbn [ar_profiles]. apply List.Forall_map.
  assert (Hl : forall l profiles, Forall (fun kp : string * SocialAdapterProfile => credentials_true kp.2) profiles ->
             Forall (fun kp => credentials_true kp.2) (fold_left (add_adapter_entry env) l profiles)).
  { induction l as [|e l IH]; intros profiles Hp; cbn; [done|]. by apply IH, added_entry_true. }
  apply Hl. repeat constructor.
Qed.

Lemma ready_profile_in registry name p :
  social_adapter_registry env path file = Ok registry -> get_adapter_profile name registry = Some p ->
  ready_for_live_io p = true -> ready_in env path file name.
Proof.
  intros Hr Hp Hready. exists registry, p. split_and!; [done..| |].
  - rewrite <- ready_nothing_missing in Hready. by destruct (adapter_missing_requirements p).
  - pose proof (registry_true registry Hr) as H. rewrite Forall_forall in H. apply find_some in Hp as [Hin _].
    rewrite <- H by (by apply list_elem_of_In). unfold ready_for_live_io in Hready. destruct (is_gateway p); by bool_prop.
Qed.

Lemma ready_profile_ok service name registry p :
  social_adapter_registry env path file = Ok registry -> ready_profile service name registry = Ok p -> ready_in env path file name.
Proof.
  unfold ready_profile. intros Hr H. destruct (get_adapter_profile name registry) as [q|] eqn:Eq; [|done].
  destruct (ready_for_live_io q) eqn:Ereq; [|done]. by apply (ready_profile_in registry name q).
Qed.

Lemma wecom_setup_ready url access : wecom_gateway_setup env path file url = Ok access -> ready_in env path file "wecom".
Proof.
  unfold wecom_gateway_setup. intros H. apply rbind_ok in H as (registry & Hr & H). apply rbind_ok in H as (p & Hp & _).
  by apply (ready_profile_ok "wecom" "wecom" registry p).
Qed.
Lemma qq_setup_ready credentials : qq_gateway_setup env path file = Ok credentials -> ready_in env path file "qq_official".
Proof.
  unfold qq_gateway_setup. intros H. apply rbind_ok in H as (registry & Hr & H). apply rbind_ok in H as (p & Hp & _).
  by apply (ready_profile_ok "qq_official" "qq_official" registry p).
Qed.
Lemma webhook_setup_ready secret : qq_webhook_setup env path file = Ok secret -> ready_in env path file "qq_official".
Proof.
  unfold qq_webhook_setup. intros H. apply rbind_ok in H as (registry & Hr & H). apply rbind_ok in H as (p & Hp & _).
  by apply (ready_profile_ok "qq_official" "qq_official" registry p).
Qed.
Lemma openclaw_setup_ready name url package r : openclaw_gateway_setup env path file name url package = Ok r -> ready_in env path file name.
Proof.
  unfold openclaw_gateway_setup. intros H. apply rbind_ok in H as (registry & Hr & H). apply rbind_ok in H as (p & Hp & _).
  unfold openclaw_profile in Hp. destruct (get_adapter_profile name registry) as [q|] eqn:Eq; [|done].
  destruct (negb (is_gateway q)); [done|]. destruct (ready_for_live_io q) eqn:Ereq; [|done].
  by apply (ready_profile_in registry name q).
Qed.
End Ready.

(** What fails before anything is opened leaves the world alone. *)
Lemma setup_first {W A B} (setup : result A) (k : A -> eff W B) (P : Prop) w :
  (forall a, setup = Ok a -> P) -> P \/ exists e, (do! a := elift setup in k a) w = (Raise e, w).
Proof. intros H. destruct setup as [a|e]; [left; by apply (H a)|right; by exists e]. Qed.

(** No chat gateway is opened unless the registry has the profile the command names and the profile misses nothing: it is
    enabled, has an endpoint, its credentials are set in the environment, a lab bridge is acknowledged and a plugin is installed and
    signed in; otherwise the command raises, and neither the core nor the session file has changed.  A webhook has no secret to
    answer with either. *)
Theorem gateways_need_ready_profile {US MS CS} (Adapter : UnitAdapter US) (SQ : Sqlite) (FS : Files) env clock recent_topics prompt_env
    su (rr : RunRequest (MS := MS) (CS := CS)) runtime_env session_id require path file (w : World US MS CS) (o : Outside (World US MS CS)) :
  let ready := ready_in (su_environ su) path file in
  (forall url connection turns duration max_events,
     ready "wecom" \/ exists e, run_wecom_gateway_ingress env clock recent_topics prompt_env su rr runtime_env session_id require path file
                                 url connection turns duration max_events w = (Raise e, w)) /\
  (forall name url package connection turns duration max_events,
     ready name \/ exists e, run_openclaw_gateway_ingress env clock recent_topics prompt_env su rr runtime_env session_id require path file
                              name url package connection turns duration max_events w = (Raise e, w)) /\
  (forall wall token address url file_name attempts duration max_events connections,
     ready "qq_official" \/ exists e, run_qq_official_gateway_ingress env clock recent_topics prompt_env su rr runtime_env session_id require
                                       wall path file token address url file_name attempts duration max_events connections o = (Raise e, o)) /\
  (forall secret, qq_webhook_setup (su_environ su) path file = Ok secret -> ready "qq_official").
Proof.
  split_and!; intros.
  - apply setup_first. intros access. apply wecom_setup_ready.
  - apply setup_first. intros r. apply openclaw_setup_ready.
  - apply setup_first. intros credentials. apply qq_setup_ready.
  - by apply (webhook_setup_ready _ _ _ secret).
Qed.

(** ** What the messages may do *)

Section Ingress.
Context {US MS CS : Type} `{Adapter : UnitAdapter US} `{SQ : Sqlite} {FS : Files}.
Context (env : nat -> Env) (clock : nat -> Z) (recent_topics : RecentTopics) (prompt_env : Env).
Context (su : Surroundings (MS := MS) (CS := CS)) (rr : RunRequest (MS := MS) (CS := CS)) (runtime_env : result environ)
        (session_id : option string) (require_real_tool_adapter : bool).
#[local] Notation world := (World US MS CS).
Context (R : world -> world -> Prop) `{!PreOrder R}.
Hypothesis run_kept : forall label event,
  moves R (run_on_event env clock recent_topics su rr runtime_env session_id require_real_tool_adapter label event).
#[local] Hint Resolve run_kept : moves.

Lemma ingest_kept label noted envelope event_type :
  moves R (ingest_message env clock recent_topics prompt_env su rr runtime_env session_id require_real_tool_adapter label noted envelope event_type).
Proof. unfold ingest_message. moves. Qed.
#[local] Hint Resolve ingest_kept wecom_client_kept openclaw_client_kept : moves.

Lemma social_run_kept text adapter channel kind user admin :
  moves R (run_social_agent_payload env clock recent_topics prompt_env su rr runtime_env session_id require_real_tool_adapter
             text adapter channel kind user admin).
Proof. unfold run_social_agent_payload. moves. Qed.
Lemma wecom_ingress_kept path file url connection turns duration max_events :
  moves R (run_wecom_gateway_ingress env clock recent_topics prompt_env su rr runtime_env session_id require_real_tool_adapter
             path file url connection turns duration max_events).
Proof. unfold run_wecom_gateway_ingress. moves. Qed.
Lemma openclaw_ingress_kept path file name url package connection turns duration max_events :
  moves R (run_openclaw_gateway_ingress env clock recent_topics prompt_env su rr runtime_env session_id require_real_tool_adapter
             path file name url package connection turns duration max_events).
Proof. unfold run_openclaw_gateway_ingress. moves. Qed.
Lemma qq_ingress_kept wall path file token address url file_name attempts duration max_events connections :
  moves (core_kept R) (run_qq_official_gateway_ingress env clock recent_topics prompt_env su rr runtime_env session_id
             require_real_tool_adapter wall path file token address url file_name attempts duration max_events connections).
Proof.
  unfold run_qq_official_gateway_ingress. apply moves_bind; [apply _|moves|intros c]. apply qq_client_kept; [done|].
  intros envelope event_type. apply ingest_kept.
Qed.
End Ingress.

Lemma event_run_kept {US MS CS} `{Adapter : UnitAdapter US} `{SQ : Sqlite} {FS : Files} env clock recent_topics su
    (rr : RunRequest (MS := MS) (CS := CS)) runtime_env session_id require (R : World US MS CS -> World US MS CS -> Prop) `{!PreOrder R} :
  (forall a b c d, moves R (run_no_model_dry_run env clock recent_topics su rr runtime_env false 100 0 None a b c d)) ->
  (forall keys, moves R (seed_router keys)) ->
  forall label event, moves R (run_on_event env clock recent_topics su rr runtime_env session_id require label event).
Proof. intros Hrun Hseed label event. unfold run_on_event. apply moves_bind; [apply _|apply Hseed|intros _; apply Hrun]. Qed.

Lemma dry_run_governed {US MS CS} (adapter : UnitAdapter US) (SQ : Sqlite) (FS : Files) env clock recent_topics su
    (rr : RunRequest (MS := MS) (CS := CS)) runtime_env a b c d e f g h :
  moves (governed adapter) (run_no_model_dry_run (Adapter := logging adapter) env clock recent_topics su rr runtime_env a b c d e f g h).
Proof.
  destruct (governed_writes (MS := MS) (CS := CS) adapter env) as (H1 & H2 & H3 & H4 & H5 & H6).
  apply (dry_run_step env clock recent_topics (governed adapter)); auto. intros env' wf _. apply governed_run.
Qed.

Lemma dry_run_unallowed {US MS CS} (Adapter : UnitAdapter US) (SQ : Sqlite) (FS : Files) env clock recent_topics su
    (rr : RunRequest (MS := MS) (CS := CS)) runtime_env a b c d e f g h (w : World US MS CS) :
  rr_allow_model_call rr = false ->
  w_model (run_no_model_dry_run env clock recent_topics su rr runtime_env a b c d e f g h w).2 = w_model w.
Proof.
  intros Hno. apply (dry_run_step env clock recent_topics (same w_model)); auto using store_same_model.
  intros env' wf Hwf raws i j k l m n. by apply run_model_free, (prepared_model_free su rr env' wf).
Qed.

(** C13: whatever comes over a chat, from any number of connections and messages and whoever claims to have sent it: the tools that run
    have contracts that need no approval and only observe, read or suggest, no approval is decided, every request waits for the
    operator; and without leave to call a model none is called. *)
Theorem chat_messages_governed {US MS CS} (adapter : UnitAdapter US) (SQ : Sqlite) (FS : Files) env clock recent_topics prompt_env
    su (rr : RunRequest (MS := MS) (CS := CS)) runtime_env session_id require (w : World (US * list call) MS CS)
    (o : Outside (World (US * list call) MS CS)) :
  let Adapter := logging adapter in
  let within w w' := governed adapter w w' /\ (rr_allow_model_call rr = false -> w_model w' = w_model w) in
  (forall text kind channel channel_kind user admin,
     within w (run_social_agent_payload env clock recent_topics prompt_env su rr runtime_env session_id require
                 text kind channel channel_kind user admin w).2) /\
  (forall path file url connection turns duration max_events,
     within w (run_wecom_gateway_ingress env clock recent_topics prompt_env su rr runtime_env session_id require path file
                 url connection turns duration max_events w).2) /\
  (forall path file name url package connection turns duration max_events,
     within w (run_openclaw_gateway_ingress env clock recent_topics prompt_env su rr runtime_env session_id require path file
                 name url package connection turns duration max_events w).2) /\
  (forall wall path file token address url file_name attempts duration max_events connections,
     within (os_core o) (os_core (run_qq_official_gateway_ingress env clock recent_topics prompt_env su rr runtime_env session_id require
                 wall path file token address url file_name attempts duration max_events connections o).2)) /\
  (forall envelope event_type,
     within w (qq_webhook_ingest env clock recent_topics prompt_env su rr runtime_env session_id require envelope event_type w).2).
Proof.
  intros Adapter within. assert (Hpre : PreOrder within).
  { split.
    - intros a. split; [reflexivity|done].
    - intros a b c [H1 H2] [H3 H4]. split; [by etrans|]. intros Hno. by rewrite H4, H2. }
  assert (Hrun : forall label event, moves within (run_on_event env clock recent_topics su rr runtime_env session_id require label event)).
  { apply event_run_kept; [done| |].
    - intros a b c d x. split; [apply dry_run_governed|apply dry_run_unallowed].
    - intros keys x. split; [|done]. destruct (governed_writes (MS := MS) (CS := CS) adapter env) as (_ & _ & _ & _ & _ & H). apply H. }
  split_and!; intros.
  - by apply (social_run_kept _ _ _ _ _ _ _ _ _ within).
  - by apply (wecom_ingress_kept _ _ _ _ _ _ _ _ _ within).
  - by apply (openclaw_ingress_kept _ _ _ _ _ _ _ _ _ within).
  - by apply (qq_ingress_kept _ _ _ _ _ _ _ _ _ within).
  - by apply (ingest_kept _ _ _ _ _ _ _ _ _ within).
Qed.

(** ** A profile that opens a gateway *)

Definition wecom_config : ConfigFile := Some (Ok (VDict (dict_of
  [("profiles", VList [VDict (dict_of
     [("name", VStr "wecom"); ("enabled", VBool true); ("endpoint_url", VStr "wss://wecom")])])]))).
Example wecom_opens :
  wecom_gateway_setup (<["WECOM_BOT_TOKEN" := "t"]> ∅) "c.json" wecom_config "" =
    Ok {| gx_access_token := "t"; gx_gateway_url := "wss://wecom" |} /\
  wecom_gateway_setup ∅ "c.json" wecom_config "" = Raise (ValueError "wecom_profile_not_ready") /\
  wecom_gateway_setup (<["WECOM_BOT_TOKEN" := "t"]> ∅) "c.json" None "" = Raise (ValueError "wecom_profile_not_ready").
Proof. vm_compute. auto. Qed.
