(* ===== verification/Reply.v ===== *)
(** * What comes over the wire ([neuro_cli/src/neuro_protocol.py], the receiving half)

    The bytes of a received payload, the encoding they are read in, and the
    dictionary made of a reply.  Payloads and replies are objects of the Zenoh
    library: [PayloadObj] says which of the conversions the code tries an object
    has and what they give, [Reply] what reading the two sides of a reply gives. *)

From Stdlib Require Import ZArith Lia Bool List Ascii String.
From stdpp Require Import base list option strings.
From S2P Require Import Prelude PyFloat Text PyValue JsonParse CborCodec Protocol.

#[local] Open Scope string_scope.
#[local] Open Scope Z_scope.
#[local] Open Scope list_scope.

Inductive PayloadObj :=
  | NoPayload
  | Bytes (b : list Z)
  | Convertible (to_bytes : option (result (list Z))) (to_string : option (result string)) (text : string).

Record Reply := {
  rp_ok : result (PayloadObj * string);  (* [reply.ok.payload], [str(reply.ok.key_expr)] *)
  rp_err : result string;                (* [reply.err.payload.to_string()] *)
}.

Definition payload_obj_to_bytes (payload_obj : PayloadObj) : result (list Z) :=
  match payload_obj with
  | NoPayload => Ok []
  | Bytes b => Ok b
  | Convertible (Some b) _ _ => b
  | Convertible None (Some s) _ => let! text := s in encode_utf8 text
  | Convertible None None text => encode_utf8 text
  end.

(** [raw_payload[:1] not in (b"{", b"[")] for a payload that is not empty *)
Definition cbor_first (raw_payload : list Z) : bool :=
  match raw_payload with [] => false | b :: _ => negb ((b =? 123) || (b =? 91)) end.

(** The value, the encoding and the hexadecimal text of the bytes. *)
Definition parse_wire_payload (payload_obj : PayloadObj) : result (pyval * string * string) :=
  let! raw_payload := payload_obj_to_bytes payload_obj in
  if cbor_first raw_payload then
    let! value := decode_payload_cbor raw_payload in Ok (value, "cbor-v2", hex_of_bytes raw_payload)
  else
    let! payload_text := decode_utf8 raw_payload in
    match json_loads payload_text with
    | Ok value => Ok (value, "json-v2", hex_of_bytes raw_payload)
    | Raise JSONDecodeError => Ok (VStr payload_text, "text", hex_of_bytes raw_payload)
    | Raise e => Raise e
    end.

Section Replies.
Context (exc_text : pyerr -> string).  (* [str(exc)] *)

Definition error_reply (text : string) : dict := dict_of [("ok", VBool false); ("payload", VStr text)].

Definition parse_reply (reply : Reply) : dict :=
  match rp_ok reply with
  | Raise _ => error_reply (match rp_err reply with Ok text => text | Raise _ => "<unreadable error payload>" end)
  | Ok (payload_obj, keyexpr) =>
      match parse_wire_payload payload_obj with
      | Ok (parsed_payload, payload_encoding, payload_hex) =>
          dict_of
            [("ok", VBool true); ("keyexpr", VStr keyexpr); ("payload", parsed_payload);
             ("payload_encoding", VStr payload_encoding);
             ("payload_hex", VStr (if String.eqb payload_encoding "cbor-v2" then payload_hex else ""))]
      | Raise exc =>
          dict_of
            [("ok", VBool false); ("status", VStr "parse_failed"); ("keyexpr", VStr keyexpr);
             ("payload", VStr "<unreadable ok payload>"); ("error", VStr (exc_text exc))]
      end
  end.
End Replies.

(** ** Facts *)

(** The first byte of an encoded map is none of the two that announce JSON. *)
Lemma encoded_map_first d bs : cbor_encode (VDict d) = Ok bs -> cbor_first bs = true.
Proof.
  cbn [cbor_encode]. intros H. inv_ok. unfold cbor_encode_uint in E0.
  repeat (destr_match E0; [inv_ok; cbn [app cbor_first];
    rewrite ?header_value by (bool_prop; lia); bool_prop; rewrite negb_true_iff, orb_false_iff, !Z.eqb_neq; lia|]).
  discriminate.
Qed.

(** A message that the codec wrote is read in the codec's encoding, as what [decode_payload_cbor] makes of it. *)
Lemma encoded_payload_read payload kind bs :
  encode_payload_cbor payload kind = Ok bs ->
  parse_wire_payload (Bytes bs) =
  let! value := decode_payload_cbor bs in Ok (value, "cbor-v2", hex_of_bytes bs).
Proof.
  intros H. unfold parse_wire_payload. cbn [payload_obj_to_bytes rbind].
  unfold encode_payload_cbor in H. inv_ok. by rewrite (encoded_map_first _ _ H).
Qed.

(** Only an empty payload or one that begins like JSON is ever read as text: any other text is taken for CBOR. *)
Theorem text_begins_like_json o value hex :
  parse_wire_payload o = Ok (value, "text", hex) ->
  exists raw, payload_obj_to_bytes o = Ok raw /\ cbor_first raw = false.
Proof.
  unfold parse_wire_payload. intros H. inv_ok. exists a. split; [done|].
  destruct (cbor_first a); [|done]. inv_ok.
Qed.

Example plain_text_refused :
  parse_reply (fun _ => "text") {| rp_ok := Ok (Bytes (bytes_of_string "hello"), "k"); rp_err := Raise (TypeError "") |} =
  dict_of [("ok", VBool false); ("status", VStr "parse_failed"); ("keyexpr", VStr "k");
           ("payload", VStr "<unreadable ok payload>"); ("error", VStr "text")].
Proof. vm_compute. reflexivity. Qed.
