(* ===== verification/UnitQuery.v ===== *)
(** * Queries to a unit ([neuro_cli/src/neuro_cli.py]: retries, replies, [send_query])

    A command of the unit's command line sends a query over a Zenoh session,
    waits and tries again when nothing came of it, and prints what was answered.
    The session is outside the source ([Zenoh]); the state a command works on
    ([CliWorld]) adds what it sends, prints and waits to the session's own, and
    counts the random ids it draws.  The arguments are those the parser gives
    every command, so the defaults of [getattr] are not reached. *)

From Stdlib Require Import ZArith Lia Bool List Ascii String.
From Stdlib.Floats Require Import SpecFloat.
From stdpp Require Import base list option strings.
From S2P Require Import Prelude PyFloat Text PyValue JsonParse CborCodec Protocol Reply.

#[local] Open Scope string_scope.
#[local] Open Scope Z_scope.
#[local] Open Scope list_scope.

(** [session.get(keyexpr, payload, timeout)] with the iteration over its replies, and [zenoh.open]. *)
Class Zenoh (S : Type) := {
  zenoh_get : string -> list Z -> spec_float -> eff S (list Reply);
  zenoh_open : eff S unit;
}.

Inductive Output :=
  | Printed (text : string)
  | PrintedJson (value : pyval).

Record CliWorld (S : Type) := {
  cw_session : S;
  cw_sent : list (string * dict);
  cw_out : list Output;
  cw_slept : list spec_float;
  cw_drawn : nat;
}.
Arguments cw_session {S}.
Arguments cw_sent {S}.
Arguments cw_out {S}.
Arguments cw_slept {S}.
Arguments cw_drawn {S}.

Record CommonArgs := {
  ca_request : args;
  ca_output : string;
  ca_dry_run : bool;
  ca_session_open_retries : Z;
  ca_session_open_backoff_ms : Z;
  ca_query_retries : Z;
  ca_query_retry_backoff_ms : Z;
  ca_query_retry_backoff_max_ms : Z;
  ca_event_pump_interval_sec : spec_float;
}.

Definition PAYLOAD_FAILURE_STATUSES : list string :=
  ["error"; "not_implemented"; "invalid_input"; "query_failed"; "no_reply"; "error_reply"; "parse_failed";
   "session_open_failed"; "handler_failed"; "serial_dependency_missing"; "serial_device_missing"; "serial_open_failed";
   "serial_timeout"; "shell_error"; "endpoint_verify_failed"].

(** ** Retry policies *)

Record RetryPolicy := { max_attempts : Z; initial_backoff_sec : spec_float; max_backoff_sec : spec_float }.

Definition fzero : spec_float := S754_zero false.

(** [policy.initial_backoff_sec * (2 ** attempt_index)]: the power is an int that is converted to a float. *)
Definition compute_backoff (policy : RetryPolicy) (attempt_index : Z) : result spec_float :=
  if max_attempts policy <=? 1 then Ok fzero
  else
    let! power := float_of_Z (2 ^ Z.max 0 attempt_index) in
    Ok (fmin (max_backoff_sec policy) (fmul (initial_backoff_sec policy) power)).

(** [max(0.0, float(ms) / 1000.0)] *)
Definition seconds (ms : Z) : result spec_float :=
  let! x := float_of_Z ms in Ok (fmax fzero (fdiv x (flit 1000 0))).

Definition query_retry_policy_from_args (a : CommonArgs) : result RetryPolicy :=
  let! initial := seconds (ca_query_retry_backoff_ms a) in
  let! longest := float_of_Z (ca_query_retry_backoff_max_ms a) in
  Ok {| max_attempts := Z.max 1 (ca_query_retries a); initial_backoff_sec := initial;
        max_backoff_sec := fmax initial (fdiv longest (flit 1000 0)) |}.

Definition session_open_retry_policy_from_args (a : CommonArgs) : result RetryPolicy :=
  let! initial := seconds (ca_session_open_backoff_ms a) in
  Ok {| max_attempts := Z.max 1 (ca_session_open_retries a); initial_backoff_sec := initial;
        max_backoff_sec := initial |}.

(** [f"{x:.2f}"] *)
Definition two_digits (n : Z) : string := if n <? 10 then "0" +:+ string_of_Z n else string_of_Z n.
Definition fixed2 (x : spec_float) : string :=
  match x with
  | S754_finite s m e =>
      let (num, den) := frac_of m e in
      let cents := div_half_even (num * 100) den in
      (if s then "-" else "") +:+ string_of_Z (cents / 100) +:+ "." +:+ two_digits (cents mod 100)
  | S754_zero s => (if s then "-" else "") +:+ "0.00"
  | S754_infinity s => if s then "-inf" else "inf"
  | S754_nan => "nan"
  end.

Example fixed2_ex : map fixed2 [flit 5 1; flit 12345 3; flit 2 0; flit (-1) 3] = ["0.50"; "12.35"; "2.00"; "-0.00"].
Proof. vm_compute. reflexivity. Qed.

(** ** The answers *)

(** [payload_status_is_failure]: [str(status)] of anything but [None]. *)
Definition payload_status_is_failure (status : pyval) : bool :=
  if is_none status then false else str_in (py_str status) PAYLOAD_FAILURE_STATUSES.

(** The failing status among the payloads of the replies. *)
Fixpoint reply_failure_status (replies : list dict) : option string :=
  match replies with
  | [] => None
  | reply :: rest =>
      if negb (py_truthy (dget_or "ok" (VBool true) reply)) then Some "error_reply"
      else
        let status := match dgetn "payload" reply with VDict payload => dgetn "status" payload | _ => VNone end in
        if payload_status_is_failure status then Some (py_str status) else reply_failure_status rest
  end.

(** The replies of a result; [collect_query_result] puts dictionaries there. *)
Definition replies_of (result : dict) : list dict :=
  match dgetn "replies" result with VList l => omap (fun v => match v with VDict d => Some d | _ => None end) l | _ => [] end.

Definition result_ok (result : dict) : bool := py_truthy (dget_or "ok" (VBool false) result).

Definition result_failure_status (result : dict) : option string :=
  if negb (result_ok result) then
    let status := dgetn "status" result in
    Some (if payload_status_is_failure status then py_str status else "payload_not_ok")
  else reply_failure_status (replies_of result).

Definition result_has_reply_error (result : dict) : bool :=
  match result_failure_status result with Some _ => true | None => false end.

Definition reply_echoes (expected_echo : string) (reply : dict) : bool :=
  match dgetn "payload" reply with VDict payload => eq_str (dgetn "echo" payload) expected_echo | _ => false end.

(** [result_has_expected_app_echo]: the verdict and the result, which a missing echo marks. *)
Definition result_has_expected_app_echo (result : dict) (expected_echo : string) : bool * dict :=
  if String.eqb expected_echo "" then (true, result)
  else if existsb (reply_echoes expected_echo) (replies_of result) then (true, result)
  else (false, dset "app_echo_match" (VBool false) (dset "expected_app_echo" (VStr expected_echo) result)).

(** [status in ("no_reply", "query_failed")] *)
Definition transient (result : dict) : bool :=
  match dget_or "status" (VStr "") result with VStr s => str_in s ["no_reply"; "query_failed"] | _ => false end.
Definition unanswered (result : dict) : bool :=
  match dgetn "status" result with VStr s => str_in s ["no_reply"; "query_failed"; "parse_failed"] | _ => false end.

Section Commands.
Context {S : Type} `{!Zenoh S} (exc_text : pyerr -> string) (hex : nat -> string).
Notation W := (CliWorld S).

(** ** Effects *)

Definition session_do {A} (m : eff S A) : eff W A := fun w =>
  let (r, s) := m (cw_session w) in
  (r, {| cw_session := s; cw_sent := cw_sent w; cw_out := cw_out w; cw_slept := cw_slept w; cw_drawn := cw_drawn w |}).
Definition sending (keyexpr : string) (payload : dict) : eff W unit := emodify (fun w =>
  {| cw_session := cw_session w; cw_sent := cw_sent w ++ [(keyexpr, payload)]; cw_out := cw_out w; cw_slept := cw_slept w;
     cw_drawn := cw_drawn w |}).
Definition put (o : Output) : eff W unit := emodify (fun w =>
  {| cw_session := cw_session w; cw_sent := cw_sent w; cw_out := cw_out w ++ [o]; cw_slept := cw_slept w;
     cw_drawn := cw_drawn w |}).
Definition sleep (sec : spec_float) : eff W unit := emodify (fun w =>
  {| cw_session := cw_session w; cw_sent := cw_sent w; cw_out := cw_out w; cw_slept := cw_slept w ++ [sec];
     cw_drawn := cw_drawn w |}).
(** [uuid.uuid4().hex] *)
Definition draw_hex : eff W string := fun w =>
  (Ok (hex (cw_drawn w)),
   {| cw_session := cw_session w; cw_sent := cw_sent w; cw_out := cw_out w; cw_slept := cw_slept w;
      cw_drawn := Datatypes.S (cw_drawn w) |}).
Definition print (text : string) : eff W unit := put (Printed text).
Definition print_json (data : dict) : eff W unit := put (PrintedJson (VDict data)).
Definition when (b : bool) (m : eff W unit) : eff W unit := if b then m else eret tt.

Definition human (a : CommonArgs) : bool := String.eqb (ca_output a) "human".
Definition json_output (a : CommonArgs) : bool := String.eqb (ca_output a) "json".
Definition slash_count (attempt attempts : Z) : string := string_of_Z attempt +:+ "/" +:+ string_of_Z attempts.

(** ** Opening the session *)

Fixpoint open_attempts (a : CommonArgs) (policy : RetryPolicy) (left : nat) (attempt : Z) : eff W unit :=
  match left with
  | O => eraise (RuntimeError "RuntimeError" "failed to open zenoh session")
  | Datatypes.S left' =>
      do! opened := etry (session_do zenoh_open) in
      match opened with
      | Ok _ => eret tt
      | Raise exc =>
          if max_attempts policy <=? attempt + 1 then eraise exc
          else
            do! backoff := elift (compute_backoff policy attempt) in
            do! _ := when (human a) (print
              (".. zenoh session open failed (attempt " +:+ slash_count (attempt + 1) (max_attempts policy) +:+ "): " +:+
               exc_text exc +:+ "; retrying in " +:+ fixed2 backoff +:+ "s")) in
            do! _ := when (fltb fzero backoff) (sleep backoff) in
            open_attempts a policy left' (attempt + 1)
      end
  end.

Definition open_session_with_retry (a : CommonArgs) : eff W unit :=
  do! policy := elift (session_open_retry_policy_from_args a) in
  open_attempts a policy (Z.to_nat (max_attempts policy)) 0.

(** ** One query *)

(** The result made of the parsed replies. *)
Definition query_result (keyexpr : string) (payload : dict) (parsed_replies : list dict) : dict :=
  let ok := forallb (fun item => py_truthy (dgetn "ok" item)) parsed_replies in
  let result := dict_of [("ok", VBool ok); ("keyexpr", VStr keyexpr); ("payload", VDict payload);
                         ("replies", VList (map VDict parsed_replies))] in
  if ok then result
  else dset "status" (VStr (if existsb (fun item => eq_str (dgetn "status" item) "parse_failed") parsed_replies
                            then "parse_failed" else "error_reply")) result.

(** The result made of what the session gave. *)
Definition result_of (keyexpr : string) (payload : dict) (replies : result (list Reply)) : dict :=
  match replies with
  | Raise exc =>
      dict_of [("ok", VBool false); ("status", VStr "query_failed"); ("keyexpr", VStr keyexpr); ("error", VStr (exc_text exc))]
  | Ok [] =>
      dict_of [("ok", VBool false); ("status", VStr "no_reply"); ("keyexpr", VStr keyexpr); ("payload", VDict payload);
               ("replies", VList [])]
  | Ok replies => query_result keyexpr payload (map (parse_reply exc_text) replies)
  end.

Definition collect_query_result (keyexpr : string) (payload : dict) (timeout : spec_float) : eff W dict :=
  do! payload_bytes := elift (encode_query_payload keyexpr payload) in
  do! _ := sending keyexpr payload in
  do! replies := etry (session_do (zenoh_get keyexpr payload_bytes timeout)) in
  eret (result_of keyexpr payload replies).

(** ** Retries *)

Definition set_retried (attempt : Z) (result : dict) : dict := dset "retried" (VBool (0 <? attempt)) result.

(** The attempts from number [attempt] on. *)
Fixpoint query_attempts (a : CommonArgs) (keyexpr : string) (payload : dict) (timeout : spec_float) (policy : RetryPolicy)
    (attempts : Z) (left : nat) (attempt : Z) : eff W dict :=
  match left with
  | O =>
      eret (dict_of [("ok", VBool false); ("status", VStr "query_failed"); ("keyexpr", VStr keyexpr);
                     ("payload", VDict payload); ("error", VStr "retry logic exhausted without result");
                     ("attempt", VInt attempts); ("max_attempts", VInt attempts); ("retried", VBool (1 <? attempts))])
  | Datatypes.S left' =>
      do! answer := collect_query_result keyexpr payload timeout in
      let result := dset "max_attempts" (VInt attempts) (dset "attempt" (VInt (attempt + 1)) answer) in
      let failure_status := result_failure_status result in
      let failed := match failure_status with Some status => dset "failure_status" (VStr status) | None => fun r => r end in
      if result_has_reply_error result && negb (unanswered result) then
        eret (set_retried attempt (failed (dset "status" (VStr "error_reply") (dset "ok" (VBool false) result))))
      else if result_ok result then eret (set_retried attempt result)
      else if negb (transient result) || (attempts <=? attempt + 1) then eret (set_retried attempt (failed result))
      else
        do! backoff := elift (compute_backoff policy attempt) in
        do! _ := when (human a) (print
          (".. query retry due to transient status '" +:+ py_str (dget_or "status" (VStr "") result) +:+ "' (" +:+
           slash_count (attempt + 1) attempts +:+ ") for " +:+ keyexpr +:+ "; backoff=" +:+ fixed2 backoff +:+ "s")) in
        do! _ := when (fltb fzero backoff) (sleep backoff) in
        query_attempts a keyexpr payload timeout policy attempts left' (attempt + 1)
  end.

Definition collect_query_result_with_retry (keyexpr : string) (payload : dict) (timeout : spec_float) (policy : RetryPolicy)
    (a : CommonArgs) : eff W dict :=
  let attempts := Z.max 1 (max_attempts policy) in
  query_attempts a keyexpr payload timeout policy attempts (Z.to_nat attempts) 0.

(** ** [send_query] *)

Definition print_value (v : pyval) : eff W unit :=
  match v with VDict _ | VList _ => put (PrintedJson v) | _ => print (py_str v) end.

Definition print_reply (item : dict) : eff W unit :=
  do! ok := elift (dindex "ok" item) in
  if py_truthy ok then
    do! key := elift (dindex "keyexpr" item) in
    do! _ := print ("<< OK  " +:+ py_str key) in
    do! payload := elift (dindex "payload" item) in print_value payload
  else
    do! _ := print "<< ERR" in
    do! payload := elift (dindex "payload" item) in print (py_str payload).

Fixpoint print_replies (items : list dict) : eff W unit :=
  match items with
  | [] => eret tt
  | item :: rest => do! _ := print_reply item in print_replies rest
  end.

Definition exit_of (ok : bool) : Z := if ok then 0 else 2.
Definition has_status (status : string) (result : dict) : bool := eq_str (dgetn "status" result) status.

Definition dry_run_query (a : CommonArgs) (keyexpr : string) (payload : dict) (timeout : spec_float) : eff W Z :=
  do! encoded := elift (encode_query_payload keyexpr payload) in
  do! _ :=
    (if json_output a then
       print_json (dict_of
         [("ok", VBool true); ("dry_run", VBool true); ("keyexpr", VStr keyexpr); ("payload", VDict payload);
          ("wire_encoding", VStr "cbor-v2"); ("encoded_payload_hex", VStr (hex_of_bytes encoded)); ("timeout", VFloat timeout)])
     else do! _ := print (">> DRY-RUN GET " +:+ keyexpr) in print_json payload) in
  eret 0.

Definition report_result (a : CommonArgs) (keyexpr : string) (payload : dict) (result : dict) : eff W Z :=
  if negb (result_ok result) && has_status "query_failed" result then
    do! _ := (if json_output a then print_json result
              else do! error := elift (dindex "error" result) in print ("<< ERR query failed: " +:+ py_str error)) in
    eret 2
  else if has_status "no_reply" result then
    do! _ := (if json_output a then print_json result
              else do! _ := print ("<< ERR no reply for " +:+ keyexpr) in print_json payload) in
    eret 2
  else if json_output a then do! _ := print_json result in eret (exit_of (result_ok result))
  else do! _ := print_replies (replies_of result) in eret (exit_of (result_ok result)).

Definition send_query (keyexpr : string) (payload : dict) (timeout : spec_float) (a : CommonArgs) : eff W Z :=
  if ca_dry_run a then dry_run_query a keyexpr payload timeout
  else
    do! _ := when (human a) (do! _ := print (">> GET " +:+ keyexpr) in print_json payload) in
    do! policy := elift (query_retry_policy_from_args a) in
    do! result := collect_query_result_with_retry keyexpr payload timeout policy a in
    report_result a keyexpr payload result.
End Commands.

(** ** Facts *)

Lemma fltb_asym x y : fltb x y = true -> fltb y x = false.
Proof.
  unfold fltb, SFltb. destruct x as [[]|[]| |[] m e], y as [[]|[]| |[] m' e']; cbn; try done;
    rewrite (Z.compare_antisym e' e); destruct (Z.compare e' e); cbn; try done;
    change (Pos.compare_cont Eq) with Pos.compare; rewrite (Pos.compare_antisym m' m); by destruct (Pos.compare m' m).
Qed.

Lemma fltb_irrefl x : fltb x x = false.
Proof. destruct (fltb x x) eqn:E; [|done]. by pose proof (fltb_asym _ _ E); congruence. Qed.

Lemma fmin_no_more m x : fltb m (fmin m x) = false.
Proof. unfold fmin. destruct (fltb x m) eqn:E; [by apply fltb_asym|apply fltb_irrefl]. Qed.

(** A power of two is a float up to the exponent 1023. *)
Lemma power_of_two i : 0 <= i <= 1023 -> exists x, float_of_Z (2 ^ i) = Ok x.
Proof.
  intros H. assert (Hall : forallb (fun n => is_ok (float_of_Z (2 ^ Z.of_nat n))) (seq 0 1024) = true) by (vm_compute; reflexivity).
  rewrite forallb_forall in Hall. specialize (Hall (Z.to_nat i)). rewrite in_seq in Hall. specialize (Hall ltac:(lia)).
  rewrite Z2Nat.id in Hall by lia. destruct (float_of_Z (2 ^ i)) as [x|]; [by exists x|done].
Qed.

Lemma backoff_bounded policy i b :
  1 < max_attempts policy -> compute_backoff policy i = Ok b -> fltb (max_backoff_sec policy) b = false.
Proof.
  unfold compute_backoff. intros Hm H. replace (max_attempts policy <=? 1) with false in H by (symmetry; apply Z.leb_gt; lia).
  inv_ok. apply fmin_no_more.
Qed.

Lemma backoff_total policy i : 0 <= i <= 1023 -> exists b, compute_backoff policy i = Ok b.
Proof.
  intros H. unfold compute_backoff. destruct (max_attempts policy <=? 1); [by eexists|].
  rewrite Z.max_r by lia. destruct (power_of_two i H) as [x ->]. by eexists.
Qed.

(** The 1026th attempt is never made: the power of the wait before it does not fit a float. *)
Example backoff_overflows :
  compute_backoff {| max_attempts := 2000; initial_backoff_sec := flit 25 2; max_backoff_sec := flit 2 0 |} 1024 =
  Raise (OverflowError "int too large to convert to float").
Proof. vm_compute. reflexivity. Qed.

Section Retrying.
Context {S : Type} `{!Zenoh S} (exc_text : pyerr -> string).
Notation W := (CliWorld S).
Implicit Types (w : W).

(** Nothing came of an attempt. *)
Definition unreplied (out : result (list Reply)) : bool := match out with Ok [] | Raise _ => true | Ok _ => false end.

(** An attempt that is not answered at all: an interrupt goes through. *)
Definition interrupt (out : result (list Reply)) : option pyerr :=
  match out with Raise e => if is_exception e then None else Some e | Ok _ => None end.

(** What the session gives to [n] gets in a row. *)
Fixpoint gets (keyexpr : string) (bytes : list Z) (timeout : spec_float) (n : nat) (s : S) : list (result (list Reply)) * S :=
  match n with
  | O => ([], s)
  | Datatypes.S n' =>
      let (out, s1) := zenoh_get keyexpr bytes timeout s in
      let (outs, s2) := gets keyexpr bytes timeout n' s1 in (out :: outs, s2)
  end.

(** What an attempt sends; it neither prints nor waits. *)
Lemma one_query keyexpr payload timeout bytes w :
  encode_query_payload keyexpr payload = Ok bytes ->
  exists out w', collect_query_result exc_text keyexpr payload timeout w =
      (match interrupt out with Some e => Raise e | None => Ok (result_of exc_text keyexpr payload out) end, w') /\
    zenoh_get keyexpr bytes timeout (cw_session w) = (out, cw_session w') /\
    cw_sent w' = cw_sent w ++ [(keyexpr, payload)] /\ cw_slept w' = cw_slept w.
Proof.
  intros H. unfold collect_query_result, elift, ebind at 1 2, sending, emodify. rewrite H.
  unfold etry, eoutcome, ebind, session_do, interrupt. cbn.
  destruct (zenoh_get keyexpr bytes timeout (cw_session w)) as [[l|e] s]; [by eexists (Ok l), _|].
  destruct (is_exception e) eqn:Ee; eexists (Raise e), _; rewrite Ee; by split_and!.
Qed.

Lemma ok_no_status keyexpr payload out :
  result_ok (result_of exc_text keyexpr payload out) = true -> dget "status" (result_of exc_text keyexpr payload out) = None.
Proof.
  destruct out as [[|x l]|e]; [done| |done]. unfold result_of, query_result. destruct (forallb _ _); [done|].
  unfold result_ok. by dict_simpl.
Qed.

Lemma verdict_bool keyexpr payload out :
  dget "ok" (result_of exc_text keyexpr payload out) = Some (VBool (result_ok (result_of exc_text keyexpr payload out))).
Proof.
  destruct out as [[|x l]|e]; [done| |done]. unfold result_of, query_result, result_ok. destruct (forallb _ _); by dict_simpl.
Qed.

Lemma transient_unreplied keyexpr payload out : transient (result_of exc_text keyexpr payload out) = unreplied out.
Proof.
  destruct out as [[|x l]|e]; [done| |done]. unfold result_of, query_result, transient. destruct (forallb _ _); [done|].
  dict_simpl. by destruct (existsb _ _).
Qed.

Lemma replies_kept keyexpr payload x l :
  dget "replies" (result_of exc_text keyexpr payload (Ok (x :: l))) = Some (VList (map VDict (map (parse_reply exc_text) (x :: l)))).
Proof. unfold result_of, query_result. destruct (forallb _ _); by dict_simpl. Qed.

Lemma wait_step (b : bool) text backoff w :
  exists w', (do! _ := when b (print text) in when (fltb fzero backoff) (sleep backoff)) w = (Ok tt, w') /\ cw_session w' = cw_session w /\
    cw_sent w' = cw_sent w /\ cw_slept w' = cw_slept w ++ List.filter (fltb fzero) [backoff].
Proof.
  unfold when, print, put, sleep, ebind, emodify, eret. destruct b; cbn; destruct (fltb fzero backoff); cbn;
    eexists; split; try reflexivity; cbn; by rewrite ?app_nil_r.
Qed.

Lemma wait_then {A} (b : bool) text backoff (k : eff W A) w :
  exists w1, (do! _ := when b (print text) in do! _ := when (fltb fzero backoff) (sleep backoff) in k) w = k w1 /\ cw_session w1 = cw_session w /\
    cw_sent w1 = cw_sent w /\ cw_slept w1 = cw_slept w ++ List.filter (fltb fzero) [backoff].
Proof.
  destruct (wait_step b text backoff w) as (w1 & H & Hs). exists w1. split; [|done].
  unfold ebind in *. destruct (when b (print text) w) as [[u|e] w2]; [|done].
  by destruct (when (fltb fzero backoff) (sleep backoff) w2) as [[u'|e] w3]; simplify_eq.
Qed.

(** What the query answers after [k] attempts, the last of which gave [out]. *)
Record Answer (attempts k : Z) (out : result (list Reply)) (r : dict) : Prop := {
  an_attempt : dget "attempt" r = Some (VInt k);
  an_max_attempts : dget "max_attempts" r = Some (VInt attempts);
  an_exhausted : unreplied out = true -> k = attempts;
  an_replies : forall x l, out = Ok (x :: l) -> dgetn "replies" r = VList (map VDict (map (parse_reply exc_text) (x :: l)));
  an_verdict : dget "ok" r = Some (VBool (result_ok r));
  an_unreplied : unreplied out = true -> result_ok r = false;
  an_ok : result_ok r = true -> reply_failure_status (replies_of r) = None /\ dget "status" r = None;
}.

(** How a query ends, whose last attempt gave [out]: with such an answer, or with the interrupt. *)
Definition ends (attempts k : Z) (out : result (list Reply)) (r : result dict) : Prop :=
  match interrupt out with Some e => r = Raise e | None => exists answer, r = Ok answer /\ Answer attempts k out answer end.

(** How the attempts from number [attempt] on went. *)
Record Attempts (keyexpr : string) (payload : dict) (bytes : list Z) (timeout : spec_float) (policy : RetryPolicy)
    (attempts attempt k : Z) (w : W) (r : result dict) (w' : W) : Prop := {
  at_number : attempt < k <= attempts;
  at_replies : exists before out, gets keyexpr bytes timeout (Z.to_nat (k - attempt)) (cw_session w) = (before ++ [out], cw_session w') /\
    Forall (fun o => unreplied o = true /\ interrupt o = None) before /\ ends attempts k out r;
  at_sent : cw_sent w' = cw_sent w ++ repeat (keyexpr, payload) (Z.to_nat (k - attempt));
  at_waits : exists waits, rmap (compute_backoff policy) (seqZ attempt (k - 1 - attempt)) = Ok waits /\
    cw_slept w' = cw_slept w ++ List.filter (fltb fzero) waits;
}.

Lemma lookups_kept key r v (k : string) :
  k <> key -> dget (KStr key) (dset (KStr k) v r) = dget (KStr key) r.
Proof. intros H. rewrite dget_dset_str. by apply String.eqb_neq in H as ->. Qed.

Ltac kept := unfold set_retried; rewrite ?lookups_kept by done.

Lemma transient_unanswered d : transient d = true -> unanswered d = true.
Proof.
  unfold transient, unanswered, dgetn, dget_or. destruct (dget "status" d) as [[]|]; try done. cbn.
  rewrite !orb_false_r. intros [->| ->]%orb_prop; [done|by rewrite orb_true_r].
Qed.

(** The result of an attempt with its number on it. *)
Definition numbered (attempts attempt : Z) (r : dict) : dict := dset "max_attempts" (VInt attempts) (dset "attempt" (VInt (attempt + 1)) r).

Section Numbered.
Context (keyexpr : string) (payload : dict) (attempts attempt : Z) (out : result (list Reply)).
Let r := result_of exc_text keyexpr payload out.
Let result := numbered attempts attempt r.

Lemma numbered_other key : key <> "attempt" -> key <> "max_attempts" -> dget (KStr key) result = dget (KStr key) r.
Proof. intros H1 H2. unfold result, numbered. by rewrite !lookups_kept. Qed.

Lemma numbered_attempt : dget "attempt" result = Some (VInt (attempt + 1)).
Proof. unfold result, numbered. by rewrite !dget_dset_str. Qed.

Lemma numbered_max : dget "max_attempts" result = Some (VInt attempts).
Proof. unfold result, numbered. by rewrite !dget_dset_str. Qed.

Lemma numbered_verdict : dget "ok" result = Some (VBool (result_ok result)).
Proof. unfold result_ok, dget_or. rewrite numbered_other by done. apply verdict_bool. Qed.

Lemma numbered_transient : transient result = unreplied out.
Proof. rewrite <- (transient_unreplied keyexpr payload out). unfold transient, dget_or. by rewrite numbered_other. Qed.

Lemma numbered_replies x l :
  out = Ok (x :: l) -> dget "replies" result = Some (VList (map VDict (map (parse_reply exc_text) (x :: l)))).
Proof. intros E. rewrite numbered_other by done. unfold r. rewrite E. apply replies_kept. Qed.

(** The mark that a failing answer gets leaves the rest alone. *)
Definition mark (status : option string) : dict -> dict :=
  match status with Some s => dset "failure_status" (VStr s) | None => fun d => d end.

Lemma mark_other status key d : key <> "failure_status" -> dget (KStr key) (mark status d) = dget (KStr key) d.
Proof. intros H. destruct status; cbn; by rewrite ?lookups_kept. Qed.

Ltac marked := unfold set_retried, dgetn, dget_or; rewrite ?lookups_kept, ?mark_other by done; rewrite ?lookups_kept by done.

Lemma answer_refused status :
  result_has_reply_error result && negb (unanswered result) = true ->
  Answer attempts (attempt + 1) out
    (set_retried attempt (mark status (dset "status" (VStr "error_reply") (dset "ok" (VBool false) result)))).
Proof.
  intros H. assert (Hrep : unreplied out = false).
  { rewrite <- numbered_transient. destruct (transient result) eqn:E; [|done].
    rewrite (transient_unanswered _ E), andb_false_r in H. done. }
  split; rewrite ?Hrep; try done.
  - marked. by rewrite numbered_attempt.
  - marked. by rewrite numbered_max.
  - intros x l E. marked. by rewrite (numbered_replies x l E).
  - unfold result_ok. marked. by rewrite dget_dset_eq.
  - unfold result_ok. marked. by rewrite dget_dset_eq.
Qed.

Lemma answer_good :
  result_has_reply_error result && negb (unanswered result) = false -> result_ok result = true ->
  Answer attempts (attempt + 1) out (set_retried attempt result).
Proof.
  intros Herr Hok. assert (Hr : result_ok r = true) by (unfold result_ok, dget_or in *; by rewrite numbered_other in Hok).
  pose proof (ok_no_status _ _ _ Hr) as Hnone. assert (Hstatus : dget "status" result = None) by (by rewrite numbered_other).
  assert (Hrep : unreplied out = false).
  { rewrite <- numbered_transient. unfold transient, dget_or. by rewrite Hstatus. }
  split; rewrite ?Hrep; try done.
  - marked. by rewrite numbered_attempt.
  - marked. by rewrite numbered_max.
  - intros x l E. marked. by rewrite (numbered_replies x l E).
  - unfold result_ok. marked. apply numbered_verdict.
  - intros _. split; [|by marked]. unfold replies_of. marked. change (reply_failure_status (replies_of result) = None).
    revert Herr. unfold result_has_reply_error, result_failure_status, unanswered, dgetn, dget_or. rewrite Hok, Hstatus. cbn [negb].
    by destruct (reply_failure_status (replies_of result)).
Qed.

Lemma answer_given_up status :
  result_ok result = false -> negb (transient result) || (attempts <=? attempt + 1) = true -> attempt < attempts ->
  Answer attempts (attempt + 1) out (set_retried attempt (mark status result)).
Proof.
  intros Hok Hend Hlt. assert (Hbad : result_ok (set_retried attempt (mark status result)) = false)
    by (revert Hok; unfold result_ok; by marked).
  split; rewrite ?Hbad; try done.
  - marked. by rewrite numbered_attempt.
  - marked. by rewrite numbered_max.
  - rewrite numbered_transient in Hend. intros Ht. rewrite Ht in Hend. cbn in Hend. apply Z.leb_le in Hend. lia.
  - intros x l E. marked. by rewrite (numbered_replies x l E).
  - marked. by rewrite numbered_verdict, Hok.
Qed.
End Numbered.

Lemma query_attempts_spec a keyexpr payload timeout policy attempts bytes left attempt w :
  encode_query_payload keyexpr payload = Ok bytes -> attempts <= 1025 -> 0 <= attempt < attempts ->
  Z.of_nat left = attempts - attempt ->
  exists r w' k,
    query_attempts exc_text a keyexpr payload timeout policy attempts left attempt w = (r, w') /\
    Attempts keyexpr payload bytes timeout policy attempts attempt k w r w'.
Proof.
  intros Hb Hmax. revert attempt w. induction left as [|left IH]; intros attempt w Ha Hl; [lia|].
  cbn [query_attempts]. destruct (one_query keyexpr payload timeout bytes w Hb) as (out & w1 & Hr & Hout & Hs1 & Hp1).
  assert (Hlast : forall r', ends attempts (attempt + 1) out r' ->
    exists r0 w' k, (r', w1) = (r0, w') /\ Attempts keyexpr payload bytes timeout policy attempts attempt k w r0 w').
  { intros r' Hr'. exists r', w1, (attempt + 1). split; [done|].
    assert (H1 : Z.to_nat (attempt + 1 - attempt) = 1%nat) by lia. split; rewrite ?H1; [lia| |done|].
    - exists [], out. cbn [gets]. by rewrite Hout.
    - exists []. replace (attempt + 1 - 1 - attempt) with 0 by lia. cbn [List.filter]. by rewrite app_nil_r. }
  destruct (interrupt out) as [e|] eqn:Ei.
  { unfold ebind. rewrite Hr. apply Hlast. unfold ends. by rewrite Ei. }
  rewrite (ebind_eq _ _ _ _ _ Hr). fold (numbered attempts attempt (result_of exc_text keyexpr payload out)).
  set (result := numbered _ _ _). fold (mark (result_failure_status result)).
  assert (Hnow : forall r', Answer attempts (attempt + 1) out r' ->
    exists r0 w' k, eret r' w1 = (r0, w') /\ Attempts keyexpr payload bytes timeout policy attempts attempt k w r0 w').
  { intros r' Hr'. apply Hlast. unfold ends. rewrite Ei. by exists r'. }
  destruct (result_has_reply_error result && negb (unanswered result)) eqn:Eerr; [apply Hnow; by apply answer_refused|].
  destruct (result_ok result) eqn:Eok; [apply Hnow; by apply answer_good|].
  destruct (negb (transient result) || (attempts <=? attempt + 1)) eqn:Eend; [apply Hnow; apply answer_given_up; [done..|lia]|].
  apply orb_false_iff in Eend as [Hun Eend]. apply Z.leb_gt in Eend. apply negb_false_iff in Hun.
  unfold result in Hun. rewrite numbered_transient in Hun. destruct (backoff_total policy attempt ltac:(lia)) as [b Hbo].
  rewrite (ebind_eq _ _ w1 b w1) by (by unfold elift; rewrite Hbo).
  match goal with |- context [ebind (when (human a) (print ?t)) (fun _ => ebind (when (fltb fzero b) (sleep b)) (fun _ => ?k))] =>
    destruct (wait_then (human a) t b k w1) as (w2 & Hw & Hse2 & Hs2 & Hp2) end.
  destruct (IH (attempt + 1) w2 ltac:(lia) ltac:(lia)) as (r' & w' & k & Hrun & [Hk (before & o & Hg & Hbf & Han) Hsent (waits & Hwaits & Hslept)]).
  assert (Hn : Z.to_nat (k - attempt) = Datatypes.S (Z.to_nat (k - (attempt + 1)))) by lia.
  exists r', w', k. split; [by rewrite Hw|]. split; rewrite ?Hn; [lia|..].
  - exists (out :: before), o. cbn [gets]. rewrite Hout, <- Hse2, Hg. split; [done|]. split; [by constructor|done].
  - by rewrite Hsent, Hs2, Hs1, <- app_assoc.
  - exists (b :: waits). rewrite seqZ_cons by lia. unfold rmap in *. cbn [map sequence]. rewrite Hbo. cbn [rbind].
    replace (Z.succ attempt) with (attempt + 1) by lia. replace (Z.pred (k - 1 - attempt)) with (k - 1 - (attempt + 1)) by lia.
    rewrite Hwaits. split; [done|]. rewrite Hslept, Hp2, Hp1, <- app_assoc. f_equal. cbn [List.filter]. by destruct (fltb fzero b).
Qed.

(** What a query returns is such an answer, to gets that its session answered. *)
Lemma retry_answer a keyexpr payload timeout policy w r w' :
  max_attempts policy <= 1025 ->
  collect_query_result_with_retry exc_text keyexpr payload timeout policy a w = (Ok r, w') ->
  exists bytes k before out, encode_query_payload keyexpr payload = Ok bytes /\
    gets keyexpr bytes timeout (Z.to_nat k) (cw_session w) = (before ++ [out], cw_session w') /\
    cw_sent w' = cw_sent w ++ repeat (keyexpr, payload) (Z.to_nat k) /\
    Forall (fun o => unreplied o = true) before /\ Answer (Z.max 1 (max_attempts policy)) k out r.
Proof.
  unfold collect_query_result_with_retry. set (attempts := Z.max 1 (max_attempts policy)). intros Hmax H.
  destruct (encode_query_payload keyexpr payload) as [bytes|e] eqn:Hb.
  - destruct (query_attempts_spec a keyexpr payload timeout policy attempts bytes (Z.to_nat attempts) 0 w Hb
      ltac:(lia) ltac:(lia) ltac:(lia)) as (r' & w1 & k & Hrun & [Hk (before & out & Hg & Hbf & Hends) Hsent _]).
    rewrite Hrun in H. injection H as -> ->. rewrite Z.sub_0_r in *. exists bytes, k, before, out. split_and!; try done.
    + eapply Forall_impl; [exact Hbf|]. by intros o [Ho _].
    + unfold ends in Hends. destruct (interrupt out); [done|]. by destruct Hends as (r' & [= <-] & Hr').
  - destruct (Z.to_nat attempts) eqn:E; [lia|]. cbn [query_attempts] in H.
    unfold collect_query_result, elift, ebind in H. by rewrite Hb in H.
Qed.

(** C24: a query whose payload can be encoded always ends, whatever the session does, as long as the wait times fit a float
    (up to 1025 attempts): it is sent once per attempt, at most as often as the policy says; every attempt but the last came to
    nothing, and the last one is answered by what the unit replied to it - or it came to nothing too, the attempts are used up,
    and the answer is not ok; only an interrupt of the last attempt ends it without an answer, with that interrupt.
    Between two attempts it waits exactly as long as the backoff of the policy, never longer than its maximum; and an answer
    is ok only if no reply failed. *)
Theorem query_is_retried a keyexpr payload timeout policy bytes w :
  encode_query_payload keyexpr payload = Ok bytes -> max_attempts policy <= 1025 ->
  exists r w' k before out waits, let attempts := Z.max 1 (max_attempts policy) in
    collect_query_result_with_retry exc_text keyexpr payload timeout policy a w = (r, w') /\
    1 <= k <= attempts /\ cw_sent w' = cw_sent w ++ repeat (keyexpr, payload) (Z.to_nat k) /\
    gets keyexpr bytes timeout (Z.to_nat k) (cw_session w) = (before ++ [out], cw_session w') /\
    Forall (fun o => unreplied o = true /\ interrupt o = None) before /\
    match interrupt out with Some e => r = Raise e | None => exists answer, r = Ok answer /\ Answer attempts k out answer end /\
    rmap (compute_backoff policy) (seqZ 0 (k - 1)) = Ok waits /\ cw_slept w' = cw_slept w ++ List.filter (fltb fzero) waits /\
    Forall (fun b => fltb (max_backoff_sec policy) b = false) waits.
Proof.
  intros Hb Hmax. unfold collect_query_result_with_retry. set (attempts := Z.max 1 (max_attempts policy)).
  destruct (query_attempts_spec a keyexpr payload timeout policy attempts bytes (Z.to_nat attempts) 0 w Hb
    ltac:(lia) ltac:(lia) ltac:(lia)) as (r & w' & k & Hrun & [Hk (before & out & Hg & Hbf & Han) Hsent (waits & Hwaits & Hslept)]).
  rewrite Z.sub_0_r in *. exists r, w', k, before, out, waits. cbn zeta. split_and!; try done; [lia..|].
  apply rmap_ok_Forall2 in Hwaits. apply Forall_forall. intros b Hbi.
  apply list_elem_of_lookup in Hbi as [i Hi].
  destruct (Forall2_lookup_r _ _ _ _ _ Hwaits Hi) as (n & Hn & Hbo). apply lookup_seqZ in Hn. refine (backoff_bounded _ _ _ _ Hbo). lia.
Qed.
End Retrying.

(** ** A scripted session *)

Definition Script : Type := list (result (list Reply)).

#[export] Instance scripted : Zenoh Script := {|
  zenoh_get _ _ _ s := match s with [] => (Ok [], []) | out :: rest => (out, rest) end;
  zenoh_open := eret tt;
|}.

Definition start {S} (s : S) : CliWorld S := {| cw_session := s; cw_sent := []; cw_out := []; cw_slept := []; cw_drawn := 0 |}.

Definition sample_common : CommonArgs := {|
  ca_request := {| a_request_id := ""; a_source_core := "core-cli"; a_source_agent := "rational"; a_node := "unit-01";
                   a_timeout := flit 10 0; a_priority := 50; a_idempotency_key := ""; a_lease_id := ""; a_mode := "on";
                   a_trigger_every := 2; a_event_name := "callback" |};
  ca_output := "json"; ca_dry_run := false; ca_session_open_retries := 3; ca_session_open_backoff_ms := 500;
  ca_query_retries := 3; ca_query_retry_backoff_ms := 250; ca_query_retry_backoff_max_ms := 2000;
  ca_event_pump_interval_sec := flit 1 0;
|}.

Definition json_reply (text : string) : Reply := {| rp_ok := Ok (Bytes (bytes_of_string text), "k"); rp_err := Raise (TypeError "") |}.
Definition quote (s : string) : string := replace_char "'"%char (String "034"%char "") s.

Definition sample_policy : RetryPolicy :=
  {| max_attempts := 3; initial_backoff_sec := flit 25 2; max_backoff_sec := flit 2 0 |}.
Definition sample_request : dict := dict_of [("request_id", VStr "req-1"); ("target_node", VStr "unit-01")].
Definition sample_script : Script := [Raise (External "ZError"); Ok []; Ok [json_reply (quote "{'status': 'ok'}")]].

Example third_attempt_answers :
  let out := collect_query_result_with_retry (fun _ => "z") "neuro/unit-01/query/device" sample_request (flit 10 0) sample_policy
    sample_common (start sample_script) in
  match out with
  | (Ok r, w) => (result_ok r, dgetn "attempt" r, cw_slept w, length (cw_sent w)) = (true, VInt 3, [flit 25 2; flit 5 1], 3%nat)
  | _ => False
  end.
Proof. vm_compute. reflexivity. Qed.

Lemma query_is_retried_witness :
  exists r w' k before out waits, let attempts := 3 in
    collect_query_result_with_retry (fun _ => "z") "neuro/unit-01/query/device" sample_request (flit 10 0) sample_policy
      sample_common (start sample_script) = (r, w') /\
    1 <= k <= attempts /\ cw_sent w' = repeat ("neuro/unit-01/query/device", sample_request) (Z.to_nat k) /\
    (exists bytes, gets "neuro/unit-01/query/device" bytes (flit 10 0) (Z.to_nat k) sample_script = (before ++ [out], cw_session w')) /\
    Forall (fun o => unreplied o = true /\ interrupt o = None) before /\
    match interrupt out with Some e => r = Raise e | None => exists answer, r = Ok answer /\ Answer (fun _ => "z") attempts k out answer end /\
    rmap (compute_backoff sample_policy) (seqZ 0 (k - 1)) = Ok waits /\ cw_slept w' = List.filter (fltb fzero) waits /\
    Forall (fun b => fltb (max_backoff_sec sample_policy) b = false) waits.
Proof.
  destruct (query_is_retried (fun _ => "z") sample_common "neuro/unit-01/query/device" sample_request (flit 10 0) sample_policy
    _ (start sample_script) ltac:(vm_compute; reflexivity) ltac:(discriminate))
    as (r & w' & k & before & out & waits & Hrun & Hk & Hs & Hg & Hb & Ha & Hw & Hp & Hf).
  change (1 <= k <= 3) in Hk. exists r, w', k, before, out, waits. cbn zeta. split_and!; try done; try lia. by eexists.
Defined.
