(* ===== verification/UnitCommands.v ===== *)
(** * The commands of the unit's command line ([neuro_cli/src/neuro_cli.py])

    The handlers that query a unit, take and give back leases, control, invoke
    and update an application, the provider that serves an artifact in chunks,
    and [main], which opens the session and turns exceptions into exit codes.
    Files are those of [Artifact]; they are taken not to change between two looks
    at them. *)

From Stdlib Require Import ZArith Lia Bool List Ascii String.
From Stdlib.Floats Require Import SpecFloat.
From stdpp Require Import base list option strings.
From S2P Require Import Prelude PyFloat Text PyValue JsonParse Json CborCodec Protocol Artifact Reply UnitQuery.

#[local] Open Scope string_scope.
#[local] Open Scope Z_scope.
#[local] Open Scope list_scope.

(** ** The artifact provider *)

(** The payload of a query a provider receives: what [bytes()] of an object gives, and its text. *)
Inductive QueryPayload :=
  | QNone
  | QBytes (b : list Z)
  | QConvertible (to_bytes : option (result (list Z))) (bytes_of : result (list Z)) (text : string).

Definition query_payload_bytes (payload : QueryPayload) : result (list Z) :=
  match payload with
  | QNone => Ok []
  | QBytes b => Ok b
  | QConvertible (Some b) _ _ => b
  | QConvertible None (Raise (TypeError _)) text => encode_utf8 text
  | QConvertible None b _ => b
  end.

Definition query_payload_json (payload : QueryPayload) : result pyval :=
  let! data := query_payload_bytes payload in
  match data with
  | [] => Ok (VDict [])
  | _ => let! text := decode_utf8 data in json_loads text
  end.

Definition build_artifact_key (node app_id : string) : string := artifact_route node app_id.

Record ArtifactProvider := { ap_keyexpr : string; ap_file_path : string; ap_chunk_size : Z }.

(** What the provider replies to a query. *)
Inductive ArtifactAnswer :=
  | Chunk (data : list Z)
  | Refused (message : string).

Section Provider.
Context {FS : Files} (exc_text : pyerr -> string).

(** [path.stat().st_size] *)
Definition file_size (path : string) : result Z :=
  match file_at path with Some content => Ok (Z.of_nat (length content)) | None => Raise (External "FileNotFoundError") end.
(** [fp.seek(offset); fp.read(length)] *)
Definition read_at (path : string) (offset length : Z) : result (list Z) :=
  match file_at path with
  | Some content => Ok (take (Z.to_nat length) (drop (Z.to_nat offset) content))
  | None => Raise (External "FileNotFoundError")
  end.

Definition serve_chunk (p : ArtifactProvider) (offset requested : Z) : result ArtifactAnswer :=
  if (offset <? 0) || (requested <=? 0) then Ok (Refused "invalid offset or chunk_size")
  else
    let! total_size := file_size (ap_file_path p) in
    if total_size <? offset then Ok (Refused "offset out of range")
    else
      let! data := read_at (ap_file_path p) offset (Z.min requested (total_size - offset)) in Ok (Chunk data).

(** [handle_query] *)
Definition provider_handle_query (p : ArtifactProvider) (query : QueryPayload) : ArtifactAnswer :=
  let answer :=
    let! value := query_payload_json query in
    let! request := as_dict value in
    let! offset := py_int (dget_or "offset" (VInt 0) request) in
    let! requested := py_int (dget_or "chunk_size" (VInt (ap_chunk_size p)) request) in
    serve_chunk p offset requested in
  match answer with Ok a => a | Raise exc => Refused (exc_text exc) end.

(** The payload of a prepare request and the provider of its file; [resolve] is what [expanduser] and, for a path that is
    not absolute, [resolve] make of a path. *)
Definition build_prepare_payload (resolve : string -> string) (payload : dict) (node app_id file : string) (chunk : Z)
    : result (dict * ArtifactProvider) :=
  let file_path := resolve file in
  match file_at file_path with
  | None => Raise (External "FileNotFoundError")
  | Some content =>
      let chunk_size := Z.max 1 chunk in
      let keyexpr := build_artifact_key node app_id in
      Ok (dupdate payload (dict_of
            [("transport", VStr "zenoh"); ("artifact_key", VStr keyexpr); ("size", VInt (Z.of_nat (length content)));
             ("chunk_size", VInt chunk_size)]),
          {| ap_keyexpr := keyexpr; ap_file_path := file_path; ap_chunk_size := chunk_size |})
  end.
End Provider.

(** Declaring a queryable over a session of its own, and taking it back. *)
Class Provides (S : Type) := {
  provide : ArtifactProvider -> eff S unit;
  withdraw : ArtifactProvider -> eff S unit;
}.

Record UpdateArgs := {
  ua_stage : string;
  ua_app_id : string;
  ua_file : string;
  ua_chunk_size : Z;
  ua_start_args : option string;
  ua_reason : option string;
}.

Section Handlers.
Context {S : Type} `{!Zenoh S, !Provides S} {FS : Files} (exc_text : pyerr -> string) (hex : nat -> string).
Context (resolve : string -> string).
Notation W := (CliWorld S).
Notation send := (send_query exc_text).

(** ** Request metadata: a random id is drawn where the command line gives none. *)

Definition draw_unless (given : string) : eff W string := if String.eqb given "" then draw_hex hex else eret "".

Definition base_request (a : args) : eff W dict := do! h := draw_unless (a_request_id a) in elift (base_payload h a).
Definition write_request (a : args) : eff W dict :=
  do! payload := base_request a in
  let payload := dset "priority" (VInt (a_priority a)) payload in
  do! h := draw_unless (a_idempotency_key a) in
  eret (dset "idempotency_key" (VStr (if String.eqb (a_idempotency_key a) "" then make_idempotency_key h else a_idempotency_key a)) payload).
Definition protected_request (a : args) : eff W dict :=
  do! payload := write_request a in eret (dset "lease_id" (VStr (a_lease_id a)) payload).
Definition callback_config_request (a : args) (enabled : option bool) : eff W dict :=
  do! payload := protected_request a in
  let callback_enabled := match enabled with None => String.eqb (a_mode a) "on" | Some b => b end in
  eret (dset "event_name" (VStr (a_event_name a))
    (dset "trigger_every" (VInt (Z.max 0 (a_trigger_every a))) (dset "callback_enabled" (VBool callback_enabled) payload))).

Definition node_of (c : CommonArgs) : string := a_node (ca_request c).
Definition timeout_of (c : CommonArgs) : spec_float := a_timeout (ca_request c).

(** ** Handlers *)

Definition checked (payload : dict) (mode keyexpr : string) (c : CommonArgs) : eff W Z :=
  do! _ := elift (validate_payload payload mode) in send keyexpr payload (timeout_of c) c.

Definition handle_query (kind : string) (c : CommonArgs) : eff W Z :=
  do! payload := base_request (ca_request c) in checked payload "common" (query_route (node_of c) kind) c.

Definition lease_fields (resource lease_id : string) (priority ttl_ms : Z) : dict :=
  dict_of [("resource", VStr resource); ("lease_id", VStr lease_id); ("priority", VInt priority); ("ttl_ms", VInt ttl_ms)].

Definition handle_lease_acquire (resource : string) (ttl_ms : Z) (c : CommonArgs) : eff W Z :=
  do! payload := write_request (ca_request c) in
  let a := ca_request c in
  checked (dupdate payload (lease_fields resource (a_lease_id a) (a_priority a) ttl_ms)) "write" (lease_route (node_of c) "acquire") c.

Definition handle_lease_release (c : CommonArgs) : eff W Z :=
  do! payload := protected_request (ca_request c) in checked payload "protected" (lease_route (node_of c) "release") c.

Definition with_text (key : string) (o : option string) (payload : dict) : dict :=
  match o with Some s => if String.eqb s "" then payload else dset (KStr key) (VStr s) payload | None => payload end.

Definition handle_app_control (app_id action : string) (start_args : option string) (c : CommonArgs) : eff W Z :=
  do! payload := protected_request (ca_request c) in
  checked (with_text "start_args" start_args payload) "protected" (app_command_route (node_of c) app_id action) c.

(** [json.loads(args.args_json)], its decoding error as a [ValueError] *)
Definition parse_args_json (args_json : string) : result pyval :=
  match json_loads args_json with
  | Raise JSONDecodeError => Raise (ValueError ("--args-json is not valid JSON: " +:+ exc_text JSONDecodeError))
  | r => r
  end.

Definition handle_app_invoke (app_id command args_json : string) (c : CommonArgs) : eff W Z :=
  do! payload := protected_request (ca_request c) in
  do! payload :=
    (if String.eqb args_json "" then eret payload
     else do! value := elift (parse_args_json args_json) in eret (dset "args" value payload)) in
  checked payload "protected" (app_command_route (node_of c) app_id command) c.

Definition app_callback_invoke_key (node app_id : string) : string := app_command_route node app_id "invoke".

Definition handle_app_callback_config (app_id : string) (c : CommonArgs) : eff W Z :=
  do! payload := callback_config_request (ca_request c) None in
  checked payload "protected" (app_callback_invoke_key (node_of c) app_id) c.

Definition update_mode (stage : string) : string :=
  if String.eqb stage "prepare" then "write"
  else if str_in stage ["activate"; "rollback"; "delete"] then "protected" else "common".

Definition update_request (mode : string) (a : args) : eff W dict :=
  if String.eqb mode "write" then write_request a
  else if String.eqb mode "protected" then protected_request a else base_request a.

(** [with provider:] its session is opened and its queryable declared first, and taken back however the query ends. *)
Definition with_provider (p : ArtifactProvider) (c : CommonArgs) (body : eff W Z) : eff W Z :=
  do! _ := when (human c) (print
    (">> PROVIDE " +:+ ap_keyexpr p +:+ " from " +:+ ap_file_path p +:+ " chunk=" +:+ string_of_Z (ap_chunk_size p))) in
  do! _ := session_do (provide p) in
  do! _ := print (">> PROVIDER READY " +:+ ap_keyexpr p) in
  do! _ := sleep (flit 1 0) in
  efinally body (session_do (withdraw p)).

Definition handle_update (u : UpdateArgs) (c : CommonArgs) : eff W Z :=
  let mode := update_mode (ua_stage u) in
  do! payload := update_request mode (ca_request c) in
  do! prepared :=
    (if String.eqb (ua_stage u) "prepare" then
       do! r := elift (build_prepare_payload resolve payload (node_of c) (ua_app_id u) (ua_file u) (ua_chunk_size u)) in
       eret (r.1, Some r.2)
     else eret (payload, None)) in
  let '(payload, provider) := prepared in
  let payload := with_text "reason" (ua_reason u) (with_text "start_args" (ua_start_args u) payload) in
  do! _ := elift (validate_payload payload mode) in
  let query := send (update_route (node_of c) (ua_app_id u) (ua_stage u)) payload (timeout_of c) c in
  match provider with Some p => with_provider p c query | None => query end.

Definition emit_placeholder (capability_matrix : dict) (capability command_name : string) (c : CommonArgs) : eff W Z :=
  let item := match dget (KStr capability) capability_matrix with Some (VDict d) => d | _ => [] end in
  let result := dict_of
    [("ok", VBool false); ("status", VStr "not_implemented"); ("command", VStr command_name); ("capability", VStr capability);
     ("resource", dget_or "resource" (VStr "unknown") item);
     ("message", dget_or "note" (VStr "not implemented on Unit yet") item)] in
  do! _ := when (negb (json_output c)) (print ("!! " +:+ command_name +:+ " not implemented")) in
  do! _ := print_json result in
  eret 3.

(** [emit_result] *)
Definition emit_result (c : CommonArgs) (result : dict) (success_message : string) : eff W Z :=
  do! _ :=
    (if json_output c then print_json result
     else if py_truthy (dgetn "ok" result) then print success_message
     else print ("error: " +:+ py_str (dget_or "status" (VStr "error") result) +:+ ": " +:+
                 py_str (dget_or "error" (VStr "") result))) in
  eret (exit_of (result_ok result)).

(** ** [main], once the command line is parsed: [close] closes the session. *)

Definition report_exception (c : CommonArgs) (status : string) (human_text : string) (exc : pyerr) : eff W Z :=
  do! _ :=
    (if json_output c then print_json (dict_of [("ok", VBool false); ("status", VStr status); ("error", VStr (exc_text exc))])
     else print (human_text +:+ ": " +:+ exc_text exc)) in
  eret 2.

Definition on_exception (c : CommonArgs) (opened : bool) (exc : pyerr) : eff W Z :=
  if is_value_error exc then report_exception c "invalid_input" "invalid input" exc
  else
    let status := if opened then "handler_failed" else "session_open_failed" in report_exception c status status exc.

Definition main (requires_session : bool) (handler : CommonArgs -> eff W Z) (close : eff S unit) (c : CommonArgs) : eff W Z :=
  if negb requires_session then
    do! r := etry (handler c) in match r with Ok code => eret code | Raise exc => on_exception c false exc end
  else
    do! opened := etry (open_session_with_retry exc_text c) in
    match opened with
    | Raise exc => on_exception c false exc
    | Ok _ =>
        efinally (do! r := etry (handler c) in match r with Ok code => eret code | Raise exc => on_exception c true exc end)
          (session_do close)
    end.
End Handlers.

(** ** Artifacts come back whole *)

Lemma take_min_drop {A} (a : nat) (off : nat) (l : list A) :
  take (Nat.min a (length l - off)) (drop off l) = take a (drop off l).
Proof.
  destruct (Nat.le_gt_cases a (length l - off)) as [H|H]; [by rewrite Nat.min_l|].
  rewrite Nat.min_r by lia. rewrite !take_ge; [done|rewrite length_drop; lia..].
Qed.

(** Consecutive chunks of [c] items from [off] on. *)
Fixpoint chunks_of {A} (c n off : nat) (l : list A) : list (list A) :=
  match n with O => [] | Datatypes.S n' => take c (drop off l) :: chunks_of c n' (off + c) l end.

Lemma concat_chunks {A} c n off (l : list A) : List.concat (chunks_of c n off l) = take (n * c) (drop off l).
Proof.
  revert off. induction n as [|n IH]; intros off; [done|]. cbn [chunks_of List.concat]. rewrite IH.
  change (Datatypes.S n * c)%nat with (c + n * c)%nat. rewrite <- (take_take_drop (drop off l) c (n * c)). by rewrite drop_drop.
Qed.

Lemma chunks_sizes {A} c n off (l : list A) :
  (0 < c -> 0 < n -> off + (n - 1) * c < length l)%nat -> (0 < c)%nat ->
  Forall (fun d => (1 <= length d <= c)%nat) (chunks_of c n off l).
Proof.
  revert off. induction n as [|n IH]; intros off H Hc; [constructor|]. cbn [chunks_of]. constructor.
  - rewrite length_take, length_drop. specialize (H Hc). lia.
  - apply IH; [|done]. intros _ Hn. specialize (H Hc). cbn in H. destruct n; cbn in *; lia.
Qed.

Section Artifacts.
Context {FS : Files} (exc_text : pyerr -> string).

(** What the provider answers to a well-formed request within the file. *)
Lemma chunk_served p content query o c :
  file_at (ap_file_path p) = Some content ->
  query_payload_json query = Ok (VDict (dict_of [("offset", VInt o); ("chunk_size", VInt c)])) ->
  0 <= o <= Z.of_nat (length content) -> 0 < c ->
  provider_handle_query exc_text p query = Chunk (take (Z.to_nat c) (drop (Z.to_nat o) content)).
Proof.
  intros Hf Hq Ho Hc. unfold provider_handle_query. rewrite Hq. cbn [rbind as_dict]. dict_simpl. cbn [py_int rbind].
  unfold serve_chunk, file_size, read_at. rewrite Hf. cbn [rbind].
  replace (o <? 0) with false by (symmetry; apply Z.ltb_ge; lia). replace (c <=? 0) with false by (symmetry; apply Z.leb_gt; lia).
  replace (Z.of_nat (length content) <? o) with false by (symmetry; apply Z.ltb_ge; lia). cbn [orb]. apply f_equal.
  rewrite <- (take_min_drop (Z.to_nat c)). f_equal. lia.
Qed.

Lemma past_the_end p content query o c :
  file_at (ap_file_path p) = Some content ->
  query_payload_json query = Ok (VDict (dict_of [("offset", VInt o); ("chunk_size", VInt c)])) ->
  Z.of_nat (length content) < o -> 0 < c -> provider_handle_query exc_text p query = Refused "offset out of range".
Proof.
  intros Hf Hq Ho Hc. unfold provider_handle_query. rewrite Hq. cbn [rbind as_dict]. dict_simpl. cbn [py_int rbind].
  unfold serve_chunk, file_size. rewrite Hf. cbn [rbind].
  replace (o <? 0) with false by (symmetry; apply Z.ltb_ge; lia). replace (c <=? 0) with false by (symmetry; apply Z.leb_gt; lia).
  by replace (Z.of_nat (length content) <? o) with true by (symmetry; apply Z.ltb_lt; lia).
Qed.

Lemma served_chunks p content c (ask : Z -> QueryPayload) n off :
  file_at (ap_file_path p) = Some content -> (0 < c)%nat ->
  (forall i, (i < n)%nat -> let o := Z.of_nat (off + i * c) in
     query_payload_json (ask o) = Ok (VDict (dict_of [("offset", VInt o); ("chunk_size", VInt (Z.of_nat c))]))) ->
  (0 < n -> off + (n - 1) * c < length content)%nat ->
  map (fun i => provider_handle_query exc_text p (ask (Z.of_nat (off + i * c)))) (seq 0 n) = map Chunk (chunks_of c n off content).
Proof.
  intros Hf Hc. revert off. induction n as [|n IH]; intros off Ha Hn; [done|]. cbn [seq map chunks_of]. f_equal.
  - rewrite (chunk_served p content _ (Z.of_nat (off + 0 * c)) (Z.of_nat c) Hf (Ha 0%nat ltac:(lia))) by lia.
    do 2 f_equal; [lia|f_equal; lia].
  - rewrite <- seq_shift, map_map. rewrite <- IH.
    + apply map_ext. intros i. do 3 f_equal. lia.
    + intros i Hi. specialize (Ha (Datatypes.S i) ltac:(lia)). cbn zeta in *. by replace (off + c + i * c)%nat with (off + Datatypes.S i * c)%nat by lia.
    + intros H. specialize (Hn ltac:(lia)). destruct n; cbn in *; lia.
Qed.

(** C25: an artifact comes back whole: the size and the chunk size a prepare request announces are those of the file it names,
    the chunk size is positive, and a unit that asks for the chunks one after the other, as many as the size takes, gets the
    file piece by piece - no piece empty or longer than the chunk size - and is refused beyond its end. *)
Theorem artifact_reassembled resolve payload node app_id file chunk payload' p :
  build_prepare_payload resolve payload node app_id file chunk = Ok (payload', p) ->
  exists content c, let size := Z.of_nat (length content) in let n := (size + c - 1) / c in
    file_at (resolve file) = Some content /\ dget "size" payload' = Some (VInt size) /\
    dget "chunk_size" payload' = Some (VInt c) /\ 1 <= c /\ dget "artifact_key" payload' = Some (VStr (ap_keyexpr p)) /\
    forall ask : Z -> QueryPayload,
      (forall i, 0 <= i <= n + 1 -> query_payload_json (ask (i * c)) =
         Ok (VDict (dict_of [("offset", VInt (i * c)); ("chunk_size", VInt c)]))) ->
      (exists pieces, map (fun i => provider_handle_query exc_text p (ask (i * c))) (seqZ 0 n) = map Chunk pieces /\
         List.concat pieces = content /\ Forall (fun d => 1 <= Z.of_nat (length d) <= c) pieces) /\
      provider_handle_query exc_text p (ask ((n + 1) * c)) = Refused "offset out of range".
Proof.
  unfold build_prepare_payload. destruct (file_at (resolve file)) as [content|] eqn:Hf; [|done].
  intros H%Ok_inj%pair_equal_spec. destruct H as [<- <-].
  set (c := Z.max 1 chunk). set (p := {| ap_keyexpr := _ |}). exists content, c.
  set (size := Z.of_nat (length content)). set (n := (size + c - 1) / c). cbn zeta.
  assert (Hc : 1 <= c) by (unfold c; lia).
  assert (Hn : size <= n * c < size + c) by (unfold n; pose proof (Z.div_mod (size + c - 1) c); pose proof (Z.mod_pos_bound (size + c - 1) c); lia).
  assert (Hn0 : 0 <= n) by (unfold n; apply Z.div_pos; unfold size; lia).
  split_and!; try done; try (rewrite dget_dupdate by nodup_lits; by dict_simpl). intros ask Hask. split.
  - exists (chunks_of (Z.to_nat c) (Z.to_nat n) 0 content). split_and!.
    + rewrite <- (served_chunks p content (Z.to_nat c) ask (Z.to_nat n) 0 Hf).
      * unfold seqZ. rewrite map_map. apply map_ext. intros i. do 2 f_equal. lia.
      * lia.
      * intros i Hi. cbn zeta. rewrite Z2Nat.id by lia. specialize (Hask (Z.of_nat i) ltac:(lia)).
        replace (Z.of_nat (0 + i * Z.to_nat c)) with (Z.of_nat i * c) by lia. exact Hask.
      * unfold size in Hn. nia.
    + rewrite concat_chunks, drop_0, take_ge; [done|]. unfold size in Hn. nia.
    + eapply Forall_impl; [apply chunks_sizes|].
      * intros. unfold size in Hn. nia.
      * lia.
      * cbn. intros d Hd. lia.
  - apply (past_the_end p content _ ((n + 1) * c) c Hf (Hask (n + 1) ltac:(lia))); [|lia]. unfold size in Hn. nia.
Qed.
End Artifacts.

(** ** Examples *)

#[export] Instance scripted_provides : Provides Script := {| provide _ := eret tt; withdraw _ := eret tt |}.
Definition five_bytes : Files := fun path => if String.eqb path "/a.llext" then Some [10; 20; 30; 40; 50] else None.
Definition chunk_request (o : Z) : QueryPayload :=
  QBytes (bytes_of_string (quote ("{'offset': " +:+ string_of_Z o +:+ ", 'chunk_size': 2}"))).
Definition sample_update : UpdateArgs :=
  {| ua_stage := "prepare"; ua_app_id := "demo"; ua_file := "/a.llext"; ua_chunk_size := 2; ua_start_args := None; ua_reason := None |}.

(** With [--output json] the result of a prepare command is not alone on the standard output: the provider's line comes first. *)
Example prepare_output_is_not_json :
  let out := handle_update (FS := five_bytes) (fun _ => "z") (fun _ => "0123456789ab") id sample_update sample_common
    (start [Ok [json_reply (quote "{'status': 'ok'}")]]) in
  match out with
  | (Ok code, w) => code = 0 /\ head (cw_out w) = Some (Printed ">> PROVIDER READY neuro/artifact/unit-01/demo") /\ length (cw_out w) = 2%nat
  | _ => False
  end.
Proof. vm_compute. auto. Qed.

Lemma artifact_reassembled_witness :
  exists content c, let size := Z.of_nat (length content) in let n := (size + c - 1) / c in
    content = [10; 20; 30; 40; 50] /\ c = 2 /\
    let p := {| ap_keyexpr := "neuro/artifact/unit-01/demo"; ap_file_path := "/a.llext"; ap_chunk_size := 2 |} in
    exists pieces, map (fun i => provider_handle_query (FS := five_bytes) (fun _ => "z") p (chunk_request (i * c))) (seqZ 0 n) = map Chunk pieces /\
      List.concat pieces = content.
Proof.
  destruct (@artifact_reassembled five_bytes (fun _ => "z") id [] "unit-01" "demo" "/a.llext" 2 _ _ ltac:(reflexivity))
    as (content & c & Hf & Hs & Hc & Hpos & Hk & Hask).
  assert (content = [10; 20; 30; 40; 50]) as -> by (vm_compute in Hf; congruence).
  assert (c = 2) as -> by (vm_compute in Hc; congruence).
  exists [10; 20; 30; 40; 50], 2. cbn zeta. split; [reflexivity|]. split; [reflexivity|].
  destruct (Hask chunk_request) as [(pieces & Hp & Hl & _) _].
  - intros i Hi. change (0 <= i <= 4) in Hi.
    assert (i = 0 \/ i = 1 \/ i = 2 \/ i = 3 \/ i = 4) as [-> |[-> |[-> |[-> | ->]]]] by lia; vm_compute; reflexivity.
  - exists pieces. split; [exact Hp|exact Hl].
Defined.
