(* ===== verification/Workspace.v ===== *)
(** * The workspace and the contracts of the command line ([neuro_agent_contracts.py], [neuro_workflow_contracts.py], [neuro_cli.py])

    Where the repository lies, what [system init] and [system capabilities]
    report of it, the tool manifest and the event rows the command line offers an
    agent, and the plans of the workflow catalogue as it prints them.  Files are
    those of [Artifact]; [Path.resolve] and the rest of the process's surroundings
    are parameters. *)

From Stdlib Require Import ZArith Lia Bool List Ascii String.
From stdpp Require Import base list option strings.
From S2P Require Import Prelude PyFloat Text PyValue Contracts Policy Protocol Artifact Catalog.

#[local] Open Scope string_scope.
#[local] Open Scope Z_scope.
#[local] Open Scope list_scope.

(** ** Capabilities ([neuro_protocol.py]) *)

Definition implemented (name resource : string) : string * pyval :=
  (name, VDict (dict_of [("resource", VStr resource); ("implemented", VBool true)])).
Definition planned (name resource : string) : string * pyval :=
  (name, VDict (dict_of [("resource", VStr resource); ("implemented", VBool false);
                         ("note", VStr "LLD defined, Unit runtime not implemented yet")])).

Definition CAPABILITY_MATRIX : dict := dict_of
  [implemented "query_device" "neuro/<node>/query/device";
   implemented "query_apps" "neuro/<node>/query/apps";
   implemented "query_leases" "neuro/<node>/query/leases";
   implemented "cmd_lease_acquire" "neuro/<node>/cmd/lease/acquire";
   implemented "cmd_lease_release" "neuro/<node>/cmd/lease/release";
   implemented "cmd_app" "neuro/<node>/cmd/app/<app-id>/<command-name>";
   implemented "update_prepare" "neuro/<node>/update/app/<app-id>/prepare";
   implemented "update_verify" "neuro/<node>/update/app/<app-id>/verify";
   implemented "update_activate" "neuro/<node>/update/app/<app-id>/activate";
   implemented "update_rollback" "neuro/<node>/update/app/<app-id>/rollback";
   implemented "event_stream" "neuro/<node>/event/**";
   implemented "app_event_stream" "neuro/<node>/event/app/<app-id>/**";
   planned "recovery" "recovery lifecycle";
   planned "gateway" "gateway route and relay";
   planned "state_registry" "state registry management"].

(** [CAPABILITY_MATRIX[name]["resource"]] *)
Definition capability_resource (name : string) : pyval :=
  match dgetn (KStr name) CAPABILITY_MATRIX with VDict item => dgetn "resource" item | _ => VNone end.

(** The rows of [system capabilities]. *)
Definition capability_row (name : string) (item : dict) : dict :=
  dict_of [("name", VStr name); ("resource", dget_or "resource" (VStr "") item);
           ("implemented", VBool (py_truthy (dget_or "implemented" (VBool false) item)));
           ("note", dget_or "note" (VStr "") item)].
Definition capability_rows : list dict :=
  omap (fun kv => match kv with (KStr name, VDict item) => Some (capability_row name item) | _ => None end) CAPABILITY_MATRIX.

(** ** Contracts for agents *)

Definition RELEASE_TARGET : string := "2.2.5".
Definition CANONICAL_SKILL_RELATIVE_PATH : string := "neuro_cli/skill/SKILL.md".
Definition PROJECT_SHARED_SKILL_RELATIVE_PATH : string := ".github/skills/neuro-cli/SKILL.md".
Definition NEURO_CLI_WRAPPER_RELATIVE_PATH : string := "neuro_cli/scripts/invoke_neuro_cli.py".
Definition AGENT_RUNTIME_SCHEMA_VERSION : string := "1.2.0-agent-runtime-v1".
Definition AGENT_EVENTS_SCHEMA_VERSION : string := "1.2.0-agent-events-v1".
Definition WORKFLOW_PLAN_SCHEMA_VERSION : string := "1.1.8-workflow-plan-v1".

Definition build_protocol_metadata : dict :=
  dict_of [("version", VStr "2.0"); ("wire_encoding", VStr "cbor-v2"); ("supported_wire_encodings", VList (vstrs ["cbor-v2"]));
           ("planned_wire_encodings", VList []); ("cbor_v2_enabled", VBool true)].

Definition common_failures : list string := ["no_reply"; "query_failed"; "error_reply"; "parse_failed"].
Definition control_failure_statuses : list string :=
  ["approval_required"; "lease_missing"; "control_failed"; "parse_failed"] ++ common_failures.
Definition failing (statuses : list string) : pyval :=
  VDict (dict_of [("format", VStr "json"); ("top_level_ok", VBool true); ("failure_statuses", VList (vstrs statuses))]).

(** An entry of the manifest: a command run through the wrapper, with JSON output. *)
Definition manifest_tool (name description : string) (command : list string) (resource : pyval) (required_arguments : list string)
    (side_effect_level : string) (timeout_seconds : Z) (retryable approval_required : bool)
    (lease_requirements cleanup_hints : list string) (output_contract : pyval) : dict :=
  dict_of
    [("name", VStr name); ("description", VStr description);
     ("argv_template", VList (vstrs (["python"; NEURO_CLI_WRAPPER_RELATIVE_PATH] ++ command ++ ["--output"; "json"])));
     ("resource", resource); ("required_arguments", VList (vstrs required_arguments));
     ("side_effect_level", VStr side_effect_level); ("timeout_seconds", VInt timeout_seconds); ("retryable", VBool retryable);
     ("approval_required", VBool approval_required); ("lease_requirements", VList (vstrs lease_requirements));
     ("cleanup_hints", VList (vstrs cleanup_hints)); ("output_contract", output_contract)].

Definition observation_tools : list dict :=
  [manifest_tool "system_query_device"
     "Read current Unit device/network state through the query plane."
     ["query"; "device"] (capability_resource "query_device") ["--node"] "read_only" 10 true false []
     []
     (failing common_failures);
   manifest_tool "system_query_apps"
     "Read current Unit application lifecycle state through the query plane."
     ["query"; "apps"] (capability_resource "query_apps") ["--node"] "read_only" 10 true false []
     []
     (failing common_failures);
   manifest_tool "system_query_leases"
     "Read current active leases before any side-effecting action."
     ["query"; "leases"] (capability_resource "query_leases") ["--node"] "read_only" 10 true false []
     []
     (failing common_failures);
   manifest_tool "system_state_sync"
     "Aggregate device, apps, leases, protocol, and agent runtime metadata into one read-only sync snapshot."
     ["system"; "state-sync"] (VStr "state sync aggregate") ["--node"] "read_only" 10 true false []
     ["review active leases before side-effecting commands"]
     (failing (["partial_failure"] ++ common_failures));
   manifest_tool "system_activation_health_guard"
     "Classify post-activation health from read-only state sync evidence before any recovery action."
     ["system"; "state-sync"] (VStr "post-activation health observation") ["--node"; "--app-id"] "read_only" 10 true false []
     ["treat rollback as an operator decision after reviewing health evidence"]
     (VDict (dict_of [("format", VStr "json"); ("top_level_ok", VBool true); ("classification_statuses", VList (vstrs
       ["healthy"; "degraded"; "no_reply"; "rollback_required"]))]))].
Definition operation_tools : list dict :=
  [manifest_tool "system_rollback_app"
     "Rollback a staged app update after explicit operator approval."
     ["deploy"; "rollback"] (capability_resource "update_rollback") ["--node"; "--app-id"; "--lease-id"] "approval_required"
       15 false true ["update_rollback_lease"]
     ["confirm rollback evidence, lease ownership, and target app identity before resume"]
     (failing control_failure_statuses);
   manifest_tool "system_capabilities"
     "Read stable Neuro CLI protocol, workflow, and agent runtime metadata."
     ["system"; "capabilities"] (VStr "capability map") [] "observe_only" 5 false false []
     []
     (failing ["workspace_not_found"; "handler_failed"]);
   manifest_tool "system_restart_app"
     "Restart a Unit application through the command plane after explicit approval."
     ["app"; "stop"] (VStr "app control plane") ["--node"; "--app-id"; "--lease-id"] "approval_required" 15 false true
       ["app_control_lease"]
     ["confirm target app identity and active leases before restart"]
     (failing control_failure_statuses);
   manifest_tool "system_start_app"
     "Start a Unit application through the command plane after explicit approval."
     ["app"; "start"] (VStr "app control plane") ["--node"; "--app-id"; "--lease-id"] "approval_required" 15 false true
       ["app_control_lease"]
     ["confirm target app identity and active leases before start"]
     (failing control_failure_statuses);
   manifest_tool "system_stop_app"
     "Stop a Unit application through the command plane after explicit approval."
     ["app"; "stop"] (VStr "app control plane") ["--node"; "--app-id"; "--lease-id"] "approval_required" 15 false true
       ["app_control_lease"]
     ["confirm target app identity and active leases before stop"]
     (failing control_failure_statuses);
   manifest_tool "system_unload_app"
     "Unload a Unit application through the command plane after explicit approval."
     ["app"; "unload"] (VStr "app control plane") ["--node"; "--app-id"; "--lease-id"] "approval_required" 15 false true
       ["app_control_lease"]
     ["confirm target app identity and active leases before unload"]
     (failing control_failure_statuses)].
Definition unit_manifest_tools : list dict := observation_tools ++ operation_tools.

Definition agent_event_rows (node : string) : list dict :=
  [dict_of
     [("schema_version", VStr AGENT_EVENTS_SCHEMA_VERSION); ("mode", VStr "bounded_equivalent");
      ("live_subscription", VBool false); ("event_id", VStr "evt-demo-callback-001");
      ("source_kind", VStr "unit_app"); ("source_node", VStr node); ("source_app", VStr "neuro_demo_gpio");
      ("event_type", VStr "callback"); ("semantic_topic", VStr "unit.callback");
      ("timestamp_mono", VFloat (flit 0 0)); ("timestamp_wall", VStr "2026-05-04T00:00:00Z"); ("priority", VInt 80);
      ("dedupe_key", VStr "demo-callback-001"); ("causality_id", VStr "demo-callback-001");
      ("raw_payload_ref", VStr "bounded_equivalent://agent-events/demo-callback-001");
      ("policy_tags", VList (vstrs ["bounded_equivalent"; "read_only_ingress"])); ("payload_encoding", VStr "json");
      ("payload_hex", VStr ""); ("payload", VDict (dict_of [("callback_enabled", VBool true)]))];
   dict_of
     [("schema_version", VStr AGENT_EVENTS_SCHEMA_VERSION); ("mode", VStr "bounded_equivalent");
      ("live_subscription", VBool false); ("event_id", VStr "evt-time-tick-001"); ("source_kind", VStr "clock");
      ("source_node", VStr node); ("source_app", VStr ""); ("event_type", VStr "time.tick");
      ("semantic_topic", VStr "time.tick"); ("timestamp_mono", VFloat (flit 1 0));
      ("timestamp_wall", VStr "2026-05-04T00:00:01Z"); ("priority", VInt 10); ("dedupe_key", VStr "time-tick-001");
      ("causality_id", VStr "time-tick-001");
      ("raw_payload_ref", VStr "bounded_equivalent://agent-events/time-tick-001");
      ("policy_tags", VList (vstrs ["bounded_equivalent"; "clock"])); ("payload_encoding", VStr "json");
      ("payload_hex", VStr ""); ("payload", VDict (dict_of [("period_ms", VInt 1000)]))]].

(** [rows[:max_events]] when [max_events] is positive *)
Definition build_agent_event_rows (node : string) (max_events : Z) : list dict :=
  let limit := Z.max 0 max_events in
  if 0 <? limit then take (Z.to_nat limit) (agent_event_rows node) else agent_event_rows node.

(** ** Workflow plans ([neuro_workflow_contracts.py]) *)

Definition build_workflow_agent_metadata (workflow_name : string) (metadata_defaults : dict) (plan_metadata : list (string * dict)) : dict :=
  dupdate metadata_defaults (default [] (assoc_s workflow_name plan_metadata)).

(** The fields a plan's row and its payload share. *)
Definition metadata_fields : list string :=
  ["host_support"; "requires_hardware"; "requires_serial"; "requires_router"; "requires_network"; "destructive"].

Fixpoint pick (fields : list string) (d : dict) : result (list (string * pyval)) :=
  match fields with
  | [] => Ok []
  | f :: rest => let! v := dindex f d in let! l := pick rest d in Ok ((f, v) :: l)
  end.

Definition surface_row (metadata_defaults : dict) (plan_metadata : list (string * dict)) (plan : string * dict) : result dict :=
  let metadata := build_workflow_agent_metadata plan.1 metadata_defaults plan_metadata in
  let! shown := pick ["category"; "description"] plan.2 in
  let! marks := pick metadata_fields metadata in
  Ok (dict_of ([("workflow", VStr plan.1)] ++ shown ++ marks ++ [("plan_command", VStr ("workflow plan " +:+ plan.1))])).

Definition name_leb {A} (a b : string * A) : bool := String.leb a.1 b.1.
(** [sorted({row["category"] ...})]; a category is a text. *)
Definition categories_of (rows : list dict) : list string :=
  sorted_strings (remove_dups (map (fun row => py_str (dgetn "category" row)) rows)).

Definition build_workflow_surface_payload (workflow_plans : list (string * dict)) (metadata_defaults : dict)
    (plan_metadata : list (string * dict)) (schema_version : string) : result dict :=
  let! rows := rmap (surface_row metadata_defaults plan_metadata) (py_sorted name_leb workflow_plans) in
  Ok (dict_of
    [("schema_version", VStr schema_version); ("plan_command", VStr "workflow plan <name>");
     ("system_plan_command", VStr "system workflow plan <name>"); ("categories", VList (vstrs (categories_of rows)));
     ("plans", VList (map VDict rows))]).

Definition build_workflow_plan_payload (workflow_name : string) (workflow_plans : list (string * dict)) (metadata_defaults : dict)
    (plan_metadata : list (string * dict)) (schema_version release_target : string) (protocol_metadata : dict)
    (workspace_root : string) (agent_skill : dict) : result dict :=
  match assoc_s workflow_name workflow_plans with
  | None => Raise (KeyError workflow_name)
  | Some workflow =>
      let metadata := build_workflow_agent_metadata workflow_name metadata_defaults plan_metadata in
      let! shown := pick ["category"; "description"] workflow in
      let! marks := pick metadata_fields metadata in
      let! conditions := pick ["preconditions"; "expected_success"; "failure_statuses"; "cleanup"] metadata in
      let! steps := pick ["commands"; "artifacts"] workflow in
      Ok (dict_of
        ([("ok", VBool true); ("workflow", VStr workflow_name); ("schema_version", VStr schema_version)] ++ shown ++
         [("release_target", VStr release_target)] ++ marks ++ conditions ++
         [("protocol", VDict protocol_metadata); ("executes_commands", VBool false); ("workspace_root", VStr workspace_root);
          ("agent_skill", VDict agent_skill)] ++ steps ++
         [("json_contract", dget_or "json_contract" (VDict []) workflow);
          ("next_step", VStr "run the listed command explicitly after reviewing it")]))
  end.

Definition build_workflow_surface : result dict :=
  build_workflow_surface_payload WORKFLOW_PLANS WORKFLOW_METADATA_DEFAULTS WORKFLOW_PLAN_METADATA WORKFLOW_PLAN_SCHEMA_VERSION.

(** ** The repository *)

(** [base / relative] *)
Definition path_join (base relative : string) : string :=
  if String.eqb (path_root relative) "" then as_posix base (path_parts relative) else as_posix relative [].

(** A path and its parents, from the path upwards. *)
Definition path_and_parents (p : string) : list string :=
  let parts := path_parts p in
  map (fun n => as_posix (path_root p +:+ join "/" (take n parts)) []) (rev (seq 0 (S (length parts)))).

Definition path_parent (p : string) : string :=
  match path_parts p with
  | [] => as_posix p []
  | parts => as_posix (path_root p +:+ join "/" (removelast parts)) []
  end.

Definition is_prefix (a b : list string) : bool := bool_decide (take (length a) b = a).
(** [path.relative_to(base)]: [None] when it raises. *)
Definition relative_to (base path : string) : option string :=
  if String.eqb (path_root base) (path_root path) && is_prefix (path_parts base) (path_parts path)
  then Some (as_posix (join "/" (drop (length (path_parts base)) (path_parts path))) []) else None.

Example path_ex :
  (path_and_parents "/a/b", path_parent "/a/b", path_parent "/", relative_to "/a" "/a/b/c", relative_to "/a" "/ab", path_join "/a" "b/c",
   relative_to "/a" "/a") =
  (["/a/b"; "/a"; "/"], "/a", "/", Some "b/c", None, "/a/b/c", Some ".").
Proof. vm_compute. reflexivity. Qed.

Section Workspace.
Context {FS : Files}.
Context (cwd : string).  (* [Path.cwd().resolve()] *)

Definition is_file (p : string) : bool := match file_at p with Some _ => true | None => false end.

Definition is_neurolink (p : string) : bool :=
  is_file (path_join p "neuro_cli/src/neuro_cli.py") && is_file (path_join p "scripts/setup_neurolink_env.sh").

Fixpoint first_root (candidates : list string) : option string :=
  match candidates with
  | [] => None
  | candidate :: rest =>
      let nested := path_join candidate "applocation/NeuroLink" in
      if is_neurolink candidate then Some candidate
      else if is_neurolink nested then Some nested else first_root rest
  end.

Definition find_neurolink_root : option string := first_root (path_and_parents cwd).

(** [neurolink_root.parent.parent if neurolink_root else Path.cwd()] *)
Definition workspace_root_of (neurolink_root : option string) : string :=
  match neurolink_root with Some root => path_parent (path_parent root) | None => cwd end.

Definition resolve_neurolink_path (neurolink_root : option string) (relative_path : string) : string :=
  match neurolink_root with Some root => path_join root relative_path | None => as_posix relative_path [] end.

Definition resolve_workspace_path (workspace_root value : string) : string := path_join workspace_root value.
Definition relative_workspace_path (workspace_root path : string) : string := default path (relative_to workspace_root path).

Definition path_fields (key exists_key : string) (path : string) : list (string * pyval) :=
  [(key, VStr path); (exists_key, VBool (is_file path))].

Definition build_agent_skill_metadata (neurolink_root : option string) : dict :=
  let canonical_path := resolve_neurolink_path neurolink_root CANONICAL_SKILL_RELATIVE_PATH in
  let project_shared_path := resolve_neurolink_path neurolink_root PROJECT_SHARED_SKILL_RELATIVE_PATH in
  let wrapper_path := resolve_neurolink_path neurolink_root NEURO_CLI_WRAPPER_RELATIVE_PATH in
  dict_of
    ([("name", VStr "neuro-cli")] ++ path_fields "canonical_path" "canonical_exists" canonical_path ++
     path_fields "project_shared_path" "project_shared_exists" project_shared_path ++
     [("discovery_adapter_path", VStr project_shared_path)] ++ path_fields "wrapper" "wrapper_exists" wrapper_path ++
     [("structured_stdout", VBool true); ("source_of_truth", VStr "canonical");
      ("callback_handler_execution", VStr "explicit_audited_runner")]).

Definition build_agent_runtime_metadata (neurolink_root : option string) : dict :=
  let wrapper_path := resolve_neurolink_path neurolink_root NEURO_CLI_WRAPPER_RELATIVE_PATH in
  dict_of
    ([("schema_version", VStr AGENT_RUNTIME_SCHEMA_VERSION); ("wrapper_relative_path", VStr NEURO_CLI_WRAPPER_RELATIVE_PATH)] ++
     path_fields "wrapper_path" "wrapper_exists" wrapper_path ++
     [("tool_manifest_command", VStr "system tool-manifest --output json");
      ("state_sync_command", VStr "system state-sync --output json");
      ("agent_events_command", VStr "monitor agent-events --output jsonl");
      ("supports", VDict (dict_of [("tool_manifest", VBool true); ("state_sync", VBool true); ("agent_events_jsonl", VBool true)]));
      ("agent_events_mode", VStr "bounded_equivalent");
      ("side_effect_levels", VList (vstrs ["observe_only"; "read_only"; "suggest_only"; "low_risk_execute"; "approval_required";
                                           "destructive"]))]).

Definition build_tool_manifest_payload (neurolink_root : option string) (release_target : string) : dict :=
  dict_of
    [("ok", VBool true); ("status", VStr "ok"); ("schema_version", VStr "1.2.0-tool-manifest-v1");
     ("release_target", VStr release_target); ("agent_runtime", VDict (build_agent_runtime_metadata neurolink_root));
     ("tools", VList (map VDict unit_manifest_tools))].

Definition script_names : list string :=
  ["setup_neurolink_env.sh"; "build_neurolink.sh"; "preflight_neurolink_linux.sh"; "smoke_neurolink_linux.sh"].
Definition script_entry (neurolink_root : option string) (name : string) : string * pyval :=
  let path := match neurolink_root with Some root => path_join root ("scripts/" +:+ name) | None => name end in
  (name, VDict (dict_of (path_fields "path" "exists" path))).

Definition agent_workflows : list string :=
    ["system tool-manifest --output json"; "system state-sync --output json"; "system capabilities --output json";
     "system init --output json"; "monitor agent-events --output jsonl"; "workflow plan setup-linux --output json";
     "workflow plan setup-windows --output json"; "workflow plan discover-host --output json";
     "workflow plan discover-router --output json"; "workflow plan discover-serial --output json";
     "workflow plan serial-discover --output json"; "workflow plan serial-zenoh-config --output json";
     "workflow plan serial-zenoh-recover --output json"; "workflow plan discover-device --output json";
     "workflow plan discover-apps --output json"; "workflow plan discover-leases --output json";
     "workflow plan control-health --output json"; "workflow plan control-deploy --output json";
     "workflow plan control-app-invoke --output json"; "workflow plan control-callback --output json";
     "workflow plan control-monitor --output json"; "workflow plan control-cleanup --output json";
     "workflow plan app-build --output json"; "workflow plan preflight --output json";
     "deploy prepare --app-id <app> --file <artifact>"; "lease acquire --resource app/<app>/control";
     "app invoke --app-id <app> --lease-id <lease>"; "monitor app-events --app-id <app> --output json"].
Definition init_checks : list (string * pyval) :=
        [("run_unit_tests", VStr "west build -b native_sim applocation/NeuroLink/neuro_unit/tests/unit --build-dir build/neurolink_unit_ut_check -p always -t run");
         ("run_cli_tests", VStr "/home/emb/project/zephyrproject/.venv/bin/python -m pytest applocation/NeuroLink/neuro_cli/tests/test_neuro_cli.py -q");
         ("build_unit_app", VStr "bash applocation/NeuroLink/scripts/build_neurolink.sh --preset unit-app --no-c-style-check");
         ("preflight", VStr "bash applocation/NeuroLink/scripts/preflight_neurolink_linux.sh --node unit-01 --auto-start-router --require-serial --install-missing-cli-deps --output text")].

(** [python] is [sys.executable]. *)
Definition build_init_diagnostics (python : string) : dict :=
  let neurolink_root := find_neurolink_root in
  let found := match neurolink_root with Some _ => true | None => false end in
  dict_of
    [("ok", VBool found); ("status", VStr (if found then "ready" else "workspace_not_found")); ("release_target", VStr RELEASE_TARGET);
     ("protocol", VDict build_protocol_metadata); ("workspace_root", VStr (workspace_root_of neurolink_root));
     ("neurolink_root", VStr (default "" neurolink_root)); ("python", VStr python);
     ("scripts", VDict (dict_of (map (script_entry neurolink_root) script_names)));
     ("shell_setup", VDict (dict_of
        [("can_modify_parent_shell", VBool false);
         ("recommended_command", VStr "source applocation/NeuroLink/scripts/setup_neurolink_env.sh")]));
     ("agent_skill", VDict (build_agent_skill_metadata neurolink_root));
     ("agent_runtime", VDict (build_agent_runtime_metadata neurolink_root));
     ("agent_workflows", VList (vstrs agent_workflows)); ("checks", VDict (dict_of init_checks))].

Definition build_workflow_plan (workflow : string) : result dict :=
  let neurolink_root := find_neurolink_root in
  build_workflow_plan_payload workflow WORKFLOW_PLANS WORKFLOW_METADATA_DEFAULTS WORKFLOW_PLAN_METADATA WORKFLOW_PLAN_SCHEMA_VERSION
    RELEASE_TARGET build_protocol_metadata (workspace_root_of neurolink_root) (build_agent_skill_metadata neurolink_root).

Definition capabilities_payload : result dict :=
  let neurolink_root := find_neurolink_root in
  let! surface := build_workflow_surface in
  Ok (dict_of
    [("ok", VBool true); ("release_target", VStr RELEASE_TARGET); ("protocol", VDict build_protocol_metadata);
     ("agent_skill", VDict (dset "init_diagnostics_command" (VStr "system init --output json") (build_agent_skill_metadata neurolink_root)));
     ("agent_runtime", VDict (build_agent_runtime_metadata neurolink_root)); ("workflow_surface", VDict surface);
     ("capabilities", VList (map VDict capability_rows))]).
End Workspace.

(** ** The root is the nearest candidate *)

Section Roots.
Context {FS : Files} (cwd : string).

(** What is taken for the root contains the command line and the setup script, and is the first place to do so among the
    current directory and its parents, each before its nested copy. *)
Theorem root_is_nearest root :
  find_neurolink_root cwd = Some root <->
  exists before candidate after, path_and_parents cwd = before ++ candidate :: after /\
    Forall (fun p => is_neurolink p = false /\ is_neurolink (path_join p "applocation/NeuroLink") = false) before /\
    (root = candidate /\ is_neurolink candidate = true \/
     root = path_join candidate "applocation/NeuroLink" /\ is_neurolink candidate = false /\ is_neurolink root = true).
Proof.
  unfold find_neurolink_root. generalize (path_and_parents cwd) as l. induction l as [|p l IH]; cbn [first_root].
  - split; [done|]. intros (before & c & after & E & _). by destruct before.
  - cbn zeta. destruct (is_neurolink p) eqn:E1; [|destruct (is_neurolink (path_join p _)) eqn:E2].
    + split.
      * intros [= <-]. exists [], p, l. split; [done|]. split; [constructor|]. by left.
      * intros ([|b before] & c & after & [= -> ->] & Hb & Hr).
        { destruct Hr as [[-> _]|(_ & Hn & _)]; [done|congruence]. }
        apply Forall_cons in Hb as [[Hb _] _]. congruence.
    + split.
      * intros [= <-]. exists [], p, l. split; [done|]. split; [constructor|]. by right.
      * intros ([|b before] & c & after & [= -> ->] & Hb & Hr).
        { destruct Hr as [[_ Hn]|(-> & _)]; [congruence|done]. }
        apply Forall_cons in Hb as [[_ Hb] _]. congruence.
    + rewrite IH. split.
      * intros (before & c & after & -> & Hb & Hr). exists (p :: before), c, after. split; [done|]. split; [by constructor|done].
      * intros ([|b before] & c & after & [= -> ->] & Hb & Hr).
        { destruct Hr as [[_ Hn]|(-> & _ & Hn)]; congruence. }
        apply Forall_cons in Hb as [_ Hb]. by exists before, c, after.
Qed.
End Roots.

(** ** The manifest of the command line and that of the core's adapter *)

Definition governance (c : ToolContract) : string * SideEffectLevel * list string * bool * Z * bool :=
  (tool_name c, side_effect_level c, required_resources c, approval_required c, timeout_seconds c, retryable c).

Definition core_reads_manifest : result (list ToolContract) := rmap contract_from_dict unit_manifest_tools.

Lemma parse_unit_manifest {FS : Files} root release :
  parse_tool_manifest_payload (build_tool_manifest_payload root release) = core_reads_manifest.
Proof.
  unfold parse_tool_manifest_payload, build_tool_manifest_payload. dict_simpl.
  replace (py_iter _) with (Ok (map VDict unit_manifest_tools)) by done. cbn [rbind]. unfold core_reads_manifest, rmap.
  by rewrite map_map.
Qed.

(** The core governs a unit it reaches through the command line like its own deterministic adapter: the manifest
    [system tool-manifest] prints is read without error, names the same tools in the same order with the same side effect
    levels, resources, approval flags, time limits and retry flags, and the policy decides alike on each of them. *)
Theorem manifests_govern_alike {FS : Files} root release :
  exists contracts, parse_tool_manifest_payload (build_tool_manifest_payload root release) = Ok contracts /\
    map governance contracts = map governance tool_manifest /\
    map evaluate_contract contracts = map evaluate_contract tool_manifest.
Proof.
  rewrite parse_unit_manifest. destruct core_reads_manifest as [contracts|e] eqn:E; [|vm_compute in E; discriminate].
  exists contracts. split; [done|]. vm_compute in E. injection E as <-. split; vm_compute; reflexivity.
Qed.

(** The arguments a tool requires differ in one place: a restart asks for [--app] in one manifest, for [--app-id] and
    [--lease-id] in the other. *)
Example restart_arguments_differ :
  match core_reads_manifest with
  | Ok contracts =>
      omap (fun cc => if bool_decide (required_arguments cc.1 = required_arguments cc.2) then None
                      else Some (tool_name cc.1, required_arguments cc.1, required_arguments cc.2)) (zip contracts tool_manifest)
      = [("system_restart_app", ["--node"; "--app-id"; "--lease-id"], ["--node"; "--app"])]
  | Raise _ => False
  end.
Proof. vm_compute. reflexivity. Qed.

(** ** Plans and their rows *)

Lemma row_matches_plan name plan plans defaults metadata schema release protocol root skill row payload :
  assoc_s name plans = Some plan -> surface_row defaults metadata (name, plan) = Ok row ->
  build_workflow_plan_payload name plans defaults metadata schema release protocol root skill = Ok payload ->
  Forall (fun f : string => dgetn f row = dgetn f payload) (["workflow"; "category"; "description"] ++ metadata_fields) /\
  dgetn "executes_commands" payload = VBool false /\ Ok (dgetn "commands" payload) = dindex "commands" plan.
Proof.
  intros Hn Hr Hp. unfold surface_row in Hr. unfold build_workflow_plan_payload in Hp. rewrite Hn in Hp. cbn [fst snd] in Hr.
  cbn [pick metadata_fields] in *. inv_ok. split_and!.
  - repeat constructor; by dict_simpl.
  - by dict_simpl.
  - revert E10. by dict_simpl.
Qed.


Lemma plans_complete :
  Forall (fun plan => assoc_s plan.1 WORKFLOW_PLANS = Some plan.2 /\
    is_ok (build_workflow_plan_payload plan.1 WORKFLOW_PLANS WORKFLOW_METADATA_DEFAULTS WORKFLOW_PLAN_METADATA "" "" [] "" []) = true)
    WORKFLOW_PLANS.
Proof. repeat (apply List.Forall_cons; [split; vm_compute; reflexivity|]). apply List.Forall_nil. Qed.

Lemma surface_complete : exists rows,
  rmap (surface_row WORKFLOW_METADATA_DEFAULTS WORKFLOW_PLAN_METADATA) (py_sorted name_leb WORKFLOW_PLANS) = Ok rows.
Proof.
  destruct (rmap _ _) as [rows|e] eqn:E; [by exists rows|]. vm_compute in E. discriminate E.
Qed.

(** Every plan of the catalogue can be printed, wherever the repository is: the command line answers with a payload that runs
    nothing and lists the plan's commands, and [system capabilities] shows one row for it that says the same of it. *)
Theorem catalogue_printed : exists surface rows,
  build_workflow_surface = Ok surface /\ dgetn "plans" surface = VList (map VDict rows) /\ length rows = length WORKFLOW_PLANS /\
  forall (FS : Files) cwd name plan, (name, plan) ∈ WORKFLOW_PLANS -> exists payload row,
    build_workflow_plan cwd name = Ok payload /\ row ∈ rows /\
    Forall (fun f : string => dgetn f row = dgetn f payload) (["workflow"; "category"; "description"] ++ metadata_fields) /\
    dgetn "executes_commands" payload = VBool false /\ Ok (dgetn "commands" payload) = dindex "commands" plan.
Proof.
  destruct surface_complete as [rows Hrows]. unfold build_workflow_surface, build_workflow_surface_payload. rewrite Hrows. cbn [rbind].
  eexists _, rows. split; [done|]. split; [by dict_simpl|].
  split; [by rewrite (rmap_length _ _ _ Hrows), length_py_sorted|]. intros FS cwd name plan Hin.
  pose proof plans_complete as Hall. rewrite Forall_forall in Hall. destruct (Hall _ Hin) as [Hn Hok]. cbn [fst snd] in *.
  assert (Hin' : (name, plan) ∈ py_sorted name_leb WORKFLOW_PLANS) by (by apply elem_of_py_sorted).
  apply rmap_ok_Forall2 in Hrows. apply list_elem_of_lookup in Hin' as [i Hi].
  destruct (Forall2_lookup_l _ _ _ _ _ Hrows Hi) as (row & Hri & Hrow).
  unfold build_workflow_plan.
  assert (Hpay : exists payload, build_workflow_plan_payload name WORKFLOW_PLANS WORKFLOW_METADATA_DEFAULTS WORKFLOW_PLAN_METADATA
    WORKFLOW_PLAN_SCHEMA_VERSION RELEASE_TARGET build_protocol_metadata (workspace_root_of cwd (find_neurolink_root cwd))
    (build_agent_skill_metadata (find_neurolink_root cwd)) = Ok payload).
  { clear -Hok Hn. revert Hok. unfold build_workflow_plan_payload. rewrite Hn. cbn zeta.
    repeat match goal with |- context [rbind ?m _] => destruct m; cbn [rbind]; [|done] end. intros _. by eexists. }
  destruct Hpay as [payload Hp]. exists payload, row. split; [done|]. split; [by apply list_elem_of_lookup; exists i|].
  exact (row_matches_plan _ _ _ _ _ _ _ _ _ _ _ _ Hn Hrow Hp).
Qed.
