(* ===== verification/UnitState.v ===== *)
(** * State synchronisation and the commands without a session ([neuro_cli/src/neuro_cli.py])

    [system state-sync] asks a unit for its device, applications and leases and
    prints one snapshot of the three; the other handlers print what [Workspace]
    builds.  The snapshot is what the activation guard of the core judges an
    application by ([StateSync]), so the two ends are held against each other here. *)

From Stdlib Require Import ZArith Lia Bool List Ascii String.
From Stdlib.Floats Require Import SpecFloat.
From stdpp Require Import base list option strings.
From S2P Require Import Prelude PyFloat Text PyValue Protocol Artifact Workspace StateSync Reply UnitQuery UnitCommands.

#[local] Open Scope string_scope.
#[local] Open Scope Z_scope.
#[local] Open Scope list_scope.

Fixpoint first_payload (replies : list dict) : dict :=
  match replies with
  | [] => []
  | reply :: rest => match dgetn "payload" reply with VDict payload => payload | _ => first_payload rest end
  end.
Definition extract_first_reply_payload (answer : dict) : dict := first_payload (replies_of answer).

Definition summarize_state_sync_query (answer : dict) : result dict :=
  let! attempt := py_int (dget_or "attempt" (VInt 1) answer) in
  let! max_attempts := py_int (dget_or "max_attempts" (VInt 1) answer) in
  Ok (dict_of
    [("ok", VBool (result_ok answer)); ("status", VStr (py_str (dget_or "status" (VStr "unknown") answer)));
     ("attempt", VInt attempt); ("max_attempts", VInt max_attempts);
     ("retried", VBool (py_truthy (dget_or "retried" (VBool false) answer)));
     ("failure_status", dget_or "failure_status" (VStr "") answer); ("payload", VDict (extract_first_reply_payload answer))]).

(** The state: the summaries of the three queries. *)
Record SyncState := { sy_device : dict; sy_apps : dict; sy_leases : dict }.
Definition sync_surfaces (state : SyncState) : list (string * dict) :=
  [("device", sy_device state); ("apps", sy_apps state); ("leases", sy_leases state)].

Definition summary_ok (summary : dict) : bool := py_truthy (dgetn "ok" summary).
Definition summary_payload (summary : dict) : dict := match dgetn "payload" summary with VDict d => d | _ => [] end.

Definition build_state_sync_recommendations (state : SyncState) : list string :=
  let network_state := dgetn "network_state" (summary_payload (sy_device state)) in
  let actions :=
    (if negb (summary_ok (sy_device state)) then
       ["rerun query device and verify router or Unit reachability before delegated control"]
     else if negb (is_none network_state || eq_str network_state "" || eq_str network_state "NETWORK_READY") then
       ["wait for NETWORK_READY before any side-effecting Unit workflow"]
     else []) ++
    (if negb (summary_ok (sy_apps state)) then ["rerun query apps before app lifecycle or invoke operations"] else []) ++
    (if negb (summary_ok (sy_leases state)) then ["rerun query leases before any lease-aware side-effecting command"]
     else if py_truthy (dgetn "leases" (summary_payload (sy_leases state))) then
       ["review and release active leases before destructive or approval-required commands"]
     else []) in
  match actions with [] => ["state sync is clean; read-only delegated reasoning may continue"] | _ => actions end.

Definition sync_failures (state : SyncState) : list dict :=
  map (fun kv => dict_of [("surface", VStr kv.1); ("status", dgetn "status" kv.2);
                          ("failure_status", dget_or "failure_status" (VStr "") kv.2)])
    (List.filter (fun kv => negb (summary_ok kv.2)) (sync_surfaces state)).

Section Handlers.
Context {S : Type} `{!Zenoh S, !Provides S} {FS : Files} (exc_text : pyerr -> string) (hex : nat -> string) (cwd : string).
Notation W := (CliWorld S).

Definition collect_state_sync_query (c : CommonArgs) (kind : string) : eff W dict :=
  do! payload := base_request hex (ca_request c) in
  do! _ := elift (validate_payload payload "common") in
  do! policy := elift (query_retry_policy_from_args c) in
  collect_query_result_with_retry exc_text (query_route (node_of c) kind) payload (timeout_of c) policy c.

Definition sync_query (c : CommonArgs) (kind : string) : eff W dict :=
  do! answer := collect_state_sync_query c kind in elift (summarize_state_sync_query answer).

Definition state_sync_payload (state : SyncState) : dict :=
  let failures := sync_failures state in
  let ok := match failures with [] => true | _ => false end in
  dict_of
    [("ok", VBool ok); ("status", VStr (if ok then "ok" else "partial_failure")); ("schema_version", VStr STATE_SYNC_SCHEMA_VERSION);
     ("release_target", VStr RELEASE_TARGET); ("protocol", VDict build_protocol_metadata);
     ("agent_runtime", VDict (build_agent_runtime_metadata (find_neurolink_root cwd)));
     ("state", VDict (dict_of (map (fun kv => (kv.1, VDict kv.2)) (sync_surfaces state))));
     ("failures", VList (map VDict failures)); ("recommended_next_actions", VList (vstrs (build_state_sync_recommendations state)))].

Definition state_sync_dry_run : dict :=
  dict_of
    [("ok", VBool true); ("status", VStr "dry_run"); ("schema_version", VStr STATE_SYNC_SCHEMA_VERSION);
     ("queries", VList (vstrs ["query device --output json"; "query apps --output json"; "query leases --output json"]))].

Definition handle_state_sync (c : CommonArgs) : eff W Z :=
  if ca_dry_run c then do! _ := print_json state_sync_dry_run in eret 0
  else
    do! device := sync_query c "device" in
    do! apps := sync_query c "apps" in
    do! leases := sync_query c "leases" in
    let state := {| sy_device := device; sy_apps := apps; sy_leases := leases |} in
    do! _ := print_json (state_sync_payload state) in
    eret (exit_of (match sync_failures state with [] => true | _ => false end)).

(** ** The commands that need no session *)

Definition handle_init (python : string) (c : CommonArgs) : eff W Z :=
  let result := build_init_diagnostics cwd python in
  do! _ := when (negb (json_output c))
    (do! _ := print ("NeuroLink workspace: " +:+ py_str (por (dgetn "neurolink_root" result) (VStr "not found"))) in
     print ("status: " +:+ py_str (dgetn "status" result))) in
  do! _ := print_json result in
  eret (exit_of (result_ok result)).

Fixpoint print_all (lines : list string) : eff W unit :=
  match lines with [] => eret tt | line :: rest => do! _ := print line in print_all rest end.

Definition handle_workflow_plan (workflow : string) (c : CommonArgs) : eff W Z :=
  do! result := elift (build_workflow_plan cwd workflow) in
  do! _ :=
    (if json_output c then print_json result
     else
       do! _ := print ("workflow: " +:+ py_str (dgetn "workflow" result) +:+ " (" +:+ py_str (dgetn "category" result) +:+ ")") in
       do! commands := elift (py_iter (dgetn "commands" result)) in print_all (map py_str commands)) in
  eret 0.

Fixpoint print_capabilities (rows : list dict) : eff W unit :=
  match rows with
  | [] => eret tt
  | item :: rest =>
      let status := if py_truthy (dgetn "implemented" item) then "implemented" else "planned" in
      do! _ := print ("- " +:+ py_str (dgetn "name" item) +:+ ": " +:+ status +:+ " (" +:+ py_str (dgetn "resource" item) +:+ ")") in
      do! _ := when (py_truthy (dgetn "note" item)) (print ("  note: " +:+ py_str (dgetn "note" item))) in
      print_capabilities rest
  end.

Definition handle_capabilities (c : CommonArgs) : eff W Z :=
  do! _ :=
    (if json_output c then do! payload := elift (capabilities_payload cwd) in print_json payload
     else
       do! _ := print ("## NeuroLink Unit capability map (release " +:+ RELEASE_TARGET +:+ ")") in
       print_capabilities capability_rows) in
  eret 0.

(** [build_tool_manifest_payload] is called with its default release target. *)
Definition handle_tool_manifest (c : CommonArgs) : eff W Z :=
  do! _ := print_json (build_tool_manifest_payload (find_neurolink_root cwd) "1.2.0") in eret 0.

Fixpoint print_rows (rows : list dict) : eff W unit :=
  match rows with [] => eret tt | row :: rest => do! _ := print_json row in print_rows rest end.

Definition handle_agent_events (max_events : Z) (c : CommonArgs) : eff W Z :=
  let rows := build_agent_event_rows (node_of c) max_events in
  do! _ :=
    (if String.eqb (ca_output c) "jsonl" then print_rows rows
     else print_json (dict_of
       [("ok", VBool true); ("status", VStr "bounded_equivalent"); ("schema_version", VStr AGENT_EVENTS_SCHEMA_VERSION);
        ("mode", VStr "bounded_equivalent"); ("live_subscription", VBool false); ("events", VList (map VDict rows))])) in
  eret 0.

Definition handle_placeholder (capability command_name : string) (c : CommonArgs) : eff W Z :=
  emit_placeholder CAPABILITY_MATRIX capability command_name c.
End Handlers.

(** ** The core's reading *)

Section Reading.
Context {S : Type} `{!Zenoh S, !Provides S} {FS : Files} (exc_text : pyerr -> string) (hex : nat -> string) (cwd : string).
Notation W := (CliWorld S).

(** A query of a kind, from one world to the next: what was sent, what the session gave, and the answer it came to. *)
Record Queried (c : CommonArgs) (kind : string) (w w' : W) (answer : dict) : Prop := {
  qu_answered : exists payload w0 bytes k before out,
    base_request hex (ca_request c) w = (Ok payload, w0) /\ cw_session w0 = cw_session w /\
    encode_query_payload (query_route (node_of c) kind) payload = Ok bytes /\
    gets (query_route (node_of c) kind) bytes (timeout_of c) (Z.to_nat k) (cw_session w) = (before ++ [out], cw_session w') /\
    cw_sent w' = cw_sent w ++ repeat (query_route (node_of c) kind, payload) (Z.to_nat k) /\
    Forall (fun o => unreplied o = true) before /\ Answer exc_text (Z.max 1 (ca_query_retries c)) k out answer;
}.

(** A surface the core reads, and the answer it was printed from. *)
Record Surface (answer : dict) (sf : StateSyncSurface) : Prop := {
  su_attempt : dget "attempt" answer = Some (VInt (sf_attempt sf)) /\ dget "max_attempts" answer = Some (VInt (sf_max_attempts sf));
  su_ok : sf_ok sf = result_ok answer;
  su_payload : sf_payload sf = extract_first_reply_payload answer;
  su_status : sf_ok sf = true -> sf_status sf = "unknown";
}.

Lemma base_request_quiet a (w : W) r w' : base_request hex a w = (r, w') -> cw_session w' = cw_session w /\ cw_sent w' = cw_sent w.
Proof.
  unfold base_request, draw_unless, draw_hex, ebind, eret, elift. destruct (String.eqb _ _); cbn; intros [= _ <-]; done.
Qed.

Lemma sync_query_surface c kind (w : W) summary w' :
  ca_query_retries c <= 1025 -> sync_query exc_text hex c kind w = (Ok summary, w') ->
  exists answer sf, Queried c kind w w' answer /\ surface_from_dict summary = Ok sf /\ Surface answer sf /\ summary_ok summary = sf_ok sf.
Proof.
  intros Hr H. unfold sync_query in H. apply ebind_inv in H as (answer & w1 & Hq & Hs). apply elift_inv in Hs as [Hs ->].
  unfold collect_state_sync_query in Hq. apply ebind_inv in Hq as (payload & w2 & Hpay & Hq).
  apply ebind_inv in Hq as ([] & w3 & [_ ->]%elift_inv & Hq). apply ebind_inv in Hq as (policy & w4 & Hp & Hq).
  apply elift_inv in Hp as [Hp ->]. unfold query_retry_policy_from_args in Hp. inv_ok.
  apply retry_answer in Hq as (bytes & k & before & out & Hb & Hg & Hsent & Hbf & Han); [|cbn; lia]. cbn [max_attempts] in Han.
  replace (Z.max 1 (Z.max 1 (ca_query_retries c))) with (Z.max 1 (ca_query_retries c)) in Han by lia.
  destruct (base_request_quiet _ _ _ _ Hpay) as [Hse Hst].
  unfold summarize_state_sync_query, dget_or in Hs. rewrite (an_attempt _ _ _ _ _ Han), (an_max_attempts _ _ _ _ _ Han) in Hs.
  cbn [py_int rbind] in Hs. apply Ok_inj in Hs as <-. eexists answer, _. split; [|split; [|split]].
  - rewrite Hse in Hg. rewrite Hst in Hsent. split. eexists payload, _, bytes, k, before, out. by split_and!.
  - unfold surface_from_dict, str_or. dict_simpl. cbn [py_int rbind].
    replace (py_dict (por (VDict (extract_first_reply_payload answer)) (VDict []))) with (Ok (extract_first_reply_payload answer))
      by (unfold por; by destruct (extract_first_reply_payload answer)).
    cbn [rbind]. reflexivity.
  - split; cbn [sf_ok sf_status sf_payload sf_attempt sf_max_attempts py_truthy]; try done.
    + split; [exact (an_attempt _ _ _ _ _ Han)|exact (an_max_attempts _ _ _ _ _ Han)].
    + intros Hok. destruct (an_ok _ _ _ _ _ Han Hok) as [_ ->]. reflexivity.
  - unfold summary_ok. dict_simpl. done.
Qed.

Definition all_ok (device apps leases : StateSyncSurface) : bool := sf_ok device && sf_ok apps && sf_ok leases.

Lemma no_failures state device apps leases :
  summary_ok (sy_device state) = sf_ok device -> summary_ok (sy_apps state) = sf_ok apps ->
  summary_ok (sy_leases state) = sf_ok leases ->
  (match sync_failures state with [] => true | _ => false end) = all_ok device apps leases.
Proof.
  intros H1 H2 H3. unfold sync_failures, sync_surfaces, all_ok. cbn [List.filter snd]. rewrite H1, H2, H3.
  by destruct (sf_ok device), (sf_ok apps), (sf_ok leases).
Qed.

Lemma snapshot_read state device apps leases :
  surface_from_dict (sy_device state) = Ok device -> surface_from_dict (sy_apps state) = Ok apps ->
  surface_from_dict (sy_leases state) = Ok leases ->
  exists snapshot, snapshot_from_dict (state_sync_payload cwd state) = Ok snapshot /\
    sn_state snapshot = [(KStr "device", device); (KStr "apps", apps); (KStr "leases", leases)] /\
    sn_status snapshot = (if match sync_failures state with [] => true | _ => false end then "ok" else "partial_failure") /\
    sn_recommended_next_actions snapshot = build_state_sync_recommendations state.
Proof.
  intros H1 H2 H3. unfold snapshot_from_dict, state_sync_payload, str_or. dict_simpl. eexists. split.
  - replace (py_dict _) with (Ok (dict_of (map (fun kv => (kv.1, VDict kv.2)) (sync_surfaces state)))) by done. cbn [rbind].
    unfold rmap, sync_surfaces. cbn [map dict_of fst snd sequence py_dict rbind]. rewrite H1, H2, H3. cbn [rbind].
    replace (str_items _) with (Ok (build_state_sync_recommendations state)); [reflexivity|].
    unfold str_items. replace (py_iter _) with (Ok (vstrs (build_state_sync_recommendations state))).
    + cbn [rbind]. unfold vstrs. rewrite map_map. by rewrite map_id.
    + unfold por. destruct (build_state_sync_recommendations state); done.
  - cbn [sn_state sn_status sn_recommended_next_actions]. split; [done|]. split; [|done]. by destruct (sync_failures state).
Qed.


(** The guard over the command line: the summary of an answer that is ok has no status of its own and prints "unknown", which the
    activation guard takes for a unit that did not reply: it never calls an application healthy, however well the unit does. *)
Theorem guard_never_satisfied c (w : W) code w' :
  ca_dry_run c = false -> ca_query_retries c <= 1025 -> handle_state_sync exc_text hex cwd c w = (Ok code, w') ->
  exists state, last (cw_out w') = Some (PrintedJson (VDict (state_sync_payload cwd state))) /\
    forall snapshot app_id o, snapshot_from_dict (state_sync_payload cwd state) = Ok snapshot ->
      observe_snapshot app_id snapshot = Ok o -> ah_classification o = "no_reply".
Proof.
  intros Hd Hr H. unfold handle_state_sync in H. rewrite Hd in H.
  apply ebind_inv in H as (s1 & w1 & H1 & H). apply ebind_inv in H as (s2 & w2 & H2 & H). apply ebind_inv in H as (s3 & w3 & H3 & H).
  cbn zeta in H. set (state := {| sy_device := s1; sy_apps := s2; sy_leases := s3 |}) in *.
  apply ebind_inv in H as ([] & w4 & Hp & H). apply eret_inv in H as [-> ->].
  exists state. split; [unfold print_json, put, emodify in Hp; injection Hp as <-; apply last_snoc|].
  intros snapshot app_id o Hs Ho.
  destruct (sync_query_surface _ _ _ _ _ Hr H1) as (a1 & device & _ & E1 & S1 & O1).
  destruct (sync_query_surface _ _ _ _ _ Hr H2) as (a2 & apps & _ & E2 & S2 & O2).
  destruct (sync_query_surface _ _ _ _ _ Hr H3) as (a3 & leases & _ & E3 & S3 & O3).
  destruct (snapshot_read state device apps leases E1 E2 E3) as (snapshot' & Hs' & Hst & _).
  rewrite Hs' in Hs. apply Ok_inj in Hs as ->. unfold observe_snapshot, surface_or, surface_get in Ho. rewrite Hst in Ho.
  change (od_get key_norm (KStr "device") _) with (Some device) in Ho. change (od_get key_norm (KStr "apps") _) with (Some apps) in Ho.
  cbv match zeta in Ho.
  destruct (py_iter _) as [observed|]; cbn [rbind] in Ho; [|done]. unfold classify in Ho.
  destruct (sf_ok device) eqn:Eok; cbn [negb orb] in Ho; [rewrite (su_status _ _ S1 Eok) in Ho; cbn in Ho|];
    apply Ok_inj in Ho as <-; done.
Qed.
End Reading.

(** ** A healthy unit *)

Definition healthy_unit : Script :=
  [Ok [json_reply (quote "{'status': 'ok', 'network_state': 'NETWORK_READY'}")];
   Ok [json_reply (quote "{'status': 'ok', 'apps': [{'app_id': 'demo', 'state': 'RUNNING'}]}")];
   Ok [json_reply (quote "{'status': 'ok', 'leases': []}")]].

Definition healthy_sync : result Z * CliWorld Script :=
  handle_state_sync (FS := fun _ => None) (fun _ => "z") (fun _ => "0123456789ab") "/" sample_common (start healthy_unit).

(** The application runs and the network is ready; the guard reads "no_reply", and gives "unknown" as the reason. *)
Example healthy_unit_judged :
  match last (cw_out healthy_sync.2) with
  | Some (PrintedJson (VDict payload)) =>
      match (let! snapshot := snapshot_from_dict payload in observe_snapshot "demo" snapshot) with
      | Ok o => (ah_classification o, ah_reason o, ah_network_state o, ah_observed_app_state o) = ("no_reply", "unknown", "NETWORK_READY", "RUNNING")
      | Raise _ => False
      end
  | _ => False
  end.
Proof. vm_compute. reflexivity. Qed.

