(* ===== verification/Wrapper.v ===== *)
(** * The wrapper of the command line ([neuro_cli/scripts/invoke_neuro_cli.py])

    The core and its skills run the command line through this script: it forwards
    the arguments, prints what the command printed, and turns the payload into an
    exit code of its own.  Running the process is outside: [proc] is what it left. *)

From Stdlib Require Import ZArith Lia Bool List Ascii String.
From Stdlib.Floats Require Import SpecFloat.
From stdpp Require Import base list option strings.
From S2P Require Import Prelude PyFloat Text PyValue JsonParse Protocol Artifact CliAdapter Reply UnitQuery.

#[local] Open Scope string_scope.
#[local] Open Scope Z_scope.
#[local] Open Scope list_scope.

Definition EXIT_COMMAND_FAILED : Z := 2.
Definition EXIT_NOT_IMPLEMENTED : Z := 3.

(** The wrapper's own copy of the statuses that are failures, and of the test; the command line has another ([UnitQuery]). *)
Definition PAYLOAD_FAILURE_STATUSES : list string :=
  ["error"; "not_implemented"; "invalid_input"; "query_failed"; "no_reply"; "error_reply"; "parse_failed"; "session_open_failed";
   "handler_failed"; "serial_dependency_missing"; "serial_device_missing"; "serial_open_failed"; "serial_timeout"; "shell_error";
   "endpoint_verify_failed"].

Definition payload_status_is_failure (status : pyval) : bool :=
  if is_none status then false else str_in (py_str status) PAYLOAD_FAILURE_STATUSES.

(** The verdict over the replies: the first payload with a failing status. *)
Fixpoint classify_replies (replies : list pyval) : option (Z * string) :=
  match replies with
  | [] => None
  | reply :: rest =>
      match (match reply with VDict d => dget_or "payload" (VDict []) d | _ => VDict [] end) with
      | VDict reply_payload =>
          let reply_status := py_str (dget_or "status" (VStr "") reply_payload) in
          if String.eqb reply_status "not_implemented" then Some (EXIT_NOT_IMPLEMENTED, reply_status)
          else if payload_status_is_failure (VStr reply_status) then Some (EXIT_COMMAND_FAILED, "reply_status_" +:+ reply_status)
          else classify_replies rest
      | _ => classify_replies rest
      end
  end.

Definition classify_payload (payload : pyval) (process_returncode : Z) : Z * string :=
  match payload with
  | VDict d =>
      let status := py_str (dget_or "status" (VStr "") d) in
      let status_or default := if String.eqb status "" then default else status in
      if String.eqb status "not_implemented" then (EXIT_NOT_IMPLEMENTED, status)
      else match classify_replies (match dgetn "replies" d with VList l => l | _ => [] end) with
      | Some verdict => verdict
      | None =>
          if match dgetn "ok" d with VBool false => true | _ => false end then (EXIT_COMMAND_FAILED, status_or "payload_not_ok")
          else if payload_status_is_failure (VStr status) then (EXIT_COMMAND_FAILED, status)
          else if negb (process_returncode =? 0) then (process_returncode, status_or "process_failed")
          else (0, status_or "ok")
      end
  | _ => (EXIT_COMMAND_FAILED, "json_payload_not_object")
  end.

Record WrapperArgs := {
  wa_python : string;
  wa_node : string;
  wa_source_core : string;
  wa_source_agent : string;
  wa_output : string;
  wa_timeout : option spec_float;
  wa_query_retries : option Z;
  wa_query_retry_backoff_ms : option Z;
  wa_query_retry_backoff_max_ms : option Z;
  wa_cli_args : list string;
}.

Definition forwarded (option_name : string) (value : option string) : list string :=
  match value with Some v => [option_name; v] | None => [] end.
Definition build_forwarded_global_args (a : WrapperArgs) : list string :=
  forwarded "--timeout" (option_map float_repr (wa_timeout a)) ++
  forwarded "--query-retries" (option_map string_of_Z (wa_query_retries a)) ++
  forwarded "--query-retry-backoff-ms" (option_map string_of_Z (wa_query_retry_backoff_ms a)) ++
  forwarded "--query-retry-backoff-max-ms" (option_map string_of_Z (wa_query_retry_backoff_max_ms a)).

Definition wrapper_command (cli_path : string) (a : WrapperArgs) : list string :=
  [wa_python a; cli_path; "--output"; wa_output a; "--node"; wa_node a; "--source-core"; wa_source_core a; "--source-agent";
   wa_source_agent a] ++ build_forwarded_global_args a ++ wa_cli_args a.

(** What the wrapper printed on its two streams, and its exit code. *)
Record Report := { rt_stdout : list Output; rt_stderr : list string; rt_exit : Z }.

Definition error_lines (proc : CommandExecutionResult) : list string :=
  let text := py_strip (stderr proc) in if String.eqb text "" then [] else [text].

(** The payload made of the standard output of a JSON command, as it is printed. *)
Definition payload_of_stdout (proc : CommandExecutionResult) : result pyval :=
  let text := py_strip (stdout proc) in
  if String.eqb text "" then
    Ok (VDict (dict_of
      [("ok", VBool (exit_code proc =? 0)); ("status", VStr (if exit_code proc =? 0 then "ok" else "empty_stdout"));
       ("returncode", VInt (exit_code proc))]))
  else
    match json_loads text with
    | Raise JSONDecodeError =>
        Ok (VDict (dict_of
          [("ok", VBool false); ("status", VStr "invalid_json_stdout"); ("returncode", VInt (exit_code proc)); ("stdout", VStr text)]))
    | r => r
    end.

(** [main] after the process has ended; [wrapper_command] is what was run. *)
Definition wrapper_main (a : WrapperArgs) (proc : CommandExecutionResult) : result Report :=
  match wa_cli_args a with
  | [] => Ok {| rt_stdout := []; rt_stderr := ["missing CLI command arguments"]; rt_exit := 2 |}
  | _ =>
      if String.eqb (wa_output a) "jsonl" then
        let text := py_strip (stdout proc) in
        Ok {| rt_stdout := if String.eqb text "" then [] else [Printed text]; rt_stderr := error_lines proc; rt_exit := exit_code proc |}
      else
        let! payload := payload_of_stdout proc in
        let '(code, classification) := classify_payload payload (exit_code proc) in
        Ok {| rt_stdout := [PrintedJson payload];
              rt_stderr := error_lines proc ++
                (if code =? 0 then [] else ["neuro_cli wrapper failure: " +:+ classification]);
              rt_exit := code |}
  end.

(** ** What the exit code says *)

#[local] Arguments str_in : simpl never.

(** The status a payload or a reply names, and whether it stands for a failure. *)
Definition named (d : dict) : string := py_str (dget_or "status" (VStr "") d).
Definition failing (status : string) : Prop := str_in status PAYLOAD_FAILURE_STATUSES = true.
Definition replies_in (d : dict) : list pyval := match dgetn "replies" d with VList l => l | _ => [] end.
Definition reply_named (reply : pyval) : option string :=
  match reply with VDict d => match dget_or "payload" (VDict []) d with VDict p => Some (named p) | _ => None end | _ => None end.
Definition harmless (reply : pyval) : Prop := forall s, reply_named reply = Some s -> ~ failing s.
Definition refused (d : dict) : Prop := dget "ok" d = Some (VBool false).

(** The exit code for a payload [d] of a command that ended with [rc]. *)
Inductive Verdict (d : dict) (rc : Z) : Z -> Prop :=
  | vd_missing : named d = "not_implemented" -> Verdict d rc 3
  | vd_reply before reply after s : named d <> "not_implemented" -> replies_in d = before ++ reply :: after -> Forall harmless before ->
      reply_named reply = Some s -> failing s -> Verdict d rc (if String.eqb s "not_implemented" then 3 else 2)
  | vd_refused : named d <> "not_implemented" -> Forall harmless (replies_in d) -> refused d \/ failing (named d) -> Verdict d rc 2
  | vd_process : Forall harmless (replies_in d) -> ~ refused d -> ~ failing (named d) -> Verdict d rc rc.

(** The exit code for a command that printed [text] and ended with [rc]. *)
Inductive Exits (text : string) (rc : Z) : Z -> Prop :=
  | ex_silent : text = "" -> Exits text rc (if rc =? 0 then 0 else 2)
  | ex_unreadable : text <> "" -> json_loads text = Raise JSONDecodeError -> Exits text rc 2
  | ex_no_object v : text <> "" -> json_loads text = Ok v -> (forall d, v <> VDict d) -> Exits text rc 2
  | ex_read d code : text <> "" -> json_loads text = Ok (VDict d) -> Verdict d rc code -> Exits text rc code.

Lemma missing_fails : failing "not_implemented".
Proof. reflexivity. Qed.

Lemma status_fails s : payload_status_is_failure (VStr s) = true <-> failing s.
Proof. reflexivity. Qed.

Lemma refused_flag d : match dgetn "ok" d with VBool false => true | _ => false end = true <-> refused d.
Proof.
  unfold refused, dgetn, dget_or. destruct (dget "ok" d) as [[|[]| | | | | |]|]; split; congruence || done.
Qed.

(** One reply: its verdict, or the verdict of the others. *)
Lemma classify_reply reply rest :
  (harmless reply /\ classify_replies (reply :: rest) = classify_replies rest) \/
  (exists s text, reply_named reply = Some s /\ failing s /\
    classify_replies (reply :: rest) = Some (if String.eqb s "not_implemented" then 3 else 2, text)).
Proof.
  assert (Hn : ~ failing "") by (intros E; vm_compute in E; discriminate).
  cbn [classify_replies]. unfold harmless, reply_named. destruct reply as [| | | | | | |d]; try by left.
  destruct (dget_or "payload" (VDict []) d) as [| | | | | | |p]; try by left. fold (named p).
  destruct (String.eqb_spec (named p) "not_implemented") as [E|E].
  { right. exists (named p), (named p). rewrite E. by split. }
  unfold payload_status_is_failure. cbn [is_none py_str]. destruct (str_in (named p) PAYLOAD_FAILURE_STATUSES) eqn:Ef.
  - right. eexists (named p), _. split; [done|]. split; [exact Ef|]. by apply String.eqb_neq in E as ->.
  - left. split; [|done]. intros s [= <-]. unfold failing. by rewrite Ef.
Qed.

Lemma classify_none l : classify_replies l = None <-> Forall harmless l.
Proof.
  induction l as [|reply l IH]; [by split|]. rewrite Forall_cons.
  destruct (classify_reply reply l) as [[Hh ->]|(s & text & Hs & Hf & ->)]; [tauto|].
  split; [done|]. intros [Hh _]. destruct (Hh s Hs Hf).
Qed.

Lemma classify_first before reply after s :
  Forall harmless before -> reply_named reply = Some s -> failing s ->
  exists text, classify_replies (before ++ reply :: after) = Some (if String.eqb s "not_implemented" then 3 else 2, text).
Proof.
  intros Hb Hs Hf. induction Hb as [|r before Hr _ IH]; cbn [app].
  - destruct (classify_reply reply after) as [[Hh _]|(s' & text & Hs' & _ & ->)]; [destruct (Hh s Hs Hf)|].
    exists text. by replace s' with s by congruence.
  - destruct (classify_reply r (before ++ reply :: after)) as [[_ ->]|(s' & text & Hs' & Hf' & _)]; [exact IH|destruct (Hr s' Hs' Hf')].
Qed.

Lemma classify_some l code text :
  classify_replies l = Some (code, text) ->
  exists before reply after s, l = before ++ reply :: after /\ Forall harmless before /\ reply_named reply = Some s /\ failing s /\
    code = (if String.eqb s "not_implemented" then 3 else 2).
Proof.
  induction l as [|r l IH]; [done|]. destruct (classify_reply r l) as [[Hh ->]|(s & text' & Hs & Hf & ->)].
  - intros E. destruct (IH E) as (before & reply & after & s & -> & Hb & Hs). exists (r :: before), reply, after, s.
    split; [done|]. split; [by constructor|done].
  - intros [= <- <-]. by exists [], r, l, s.
Qed.

(** Only one verdict holds, and it is the wrapper's. *)
Lemma classify_verdict d rc code : (classify_payload (VDict d) rc).1 = code <-> Verdict d rc code.
Proof.
  unfold classify_payload. fold (named d) (replies_in d). destruct (String.eqb_spec (named d) "not_implemented") as [E|E].
  { split; [intros <-; by constructor|]. destruct 1 as [| | |_ _ Hf]; try done. destruct Hf. rewrite E. exact missing_fails. }
  pose proof (refused_flag d) as Hok. pose proof (status_fails (named d)) as Hst.
  destruct (classify_replies (replies_in d)) as [[code' text]|] eqn:Ec.
  - destruct (classify_some _ _ _ Ec) as (before & reply & after & s & El & Hb & Hs & Hf & ->). split.
    { intros <-. by apply (vd_reply _ _ before reply after s). }
    assert (Hno : ~ Forall harmless (replies_in d)) by (rewrite <- classify_none, Ec; done).
    destruct 1 as [|before' reply' after' s' _ El' Hb' Hs' Hf'| |]; try tauto.
    rewrite El' in Ec. destruct (classify_first before' reply' after' s' Hb' Hs' Hf') as [text' E']. rewrite E' in Ec. by injection Ec as ->.
  - pose proof (proj1 (classify_none _) Ec) as Hall. split.
    + destruct (match dgetn "ok" d with VBool false => true | _ => false end) eqn:Ek; [intros <-; apply vd_refused; tauto|].
      destruct (payload_status_is_failure (VStr (named d))) eqn:Ep; [intros <-; apply vd_refused; tauto|].
      intros Hc. replace code with rc by (destruct (Z.eqb_spec rc 0); cbn in Hc; congruence).
      apply vd_process; [done|intros ?%Hok; congruence|intros ?%Hst; congruence].
    + destruct 1 as [|before reply after s _ El Hb Hs Hf|_ _ Hr|_ Hr Hf]; [done|..].
      * destruct (classify_first before reply after s Hb Hs Hf) as [text E']. rewrite El, E' in Ec. done.
      * destruct (match dgetn "ok" d with VBool false => true | _ => false end) eqn:Ek; [done|].
        destruct Hr as [Hr%Hok|Hf%Hst]; [congruence|]. by rewrite Hf.
      * destruct (match dgetn "ok" d with VBool false => true | _ => false end); [tauto|].
        destruct (payload_status_is_failure (VStr (named d))); [tauto|]. by destruct (Z.eqb_spec rc 0) as [->|].
Qed.

(** ** The wrapper and the command line agree on a query *)

Lemma no_failing_reply l :
  reply_failure_status (omap (fun v => match v with VDict d => Some d | _ => None end) l) = None -> Forall harmless l.
Proof.
  rewrite <- classify_none. induction l as [|v l IH]; [done|].
  destruct v as [| | | | | | |d]; cbn [omap list_omap classify_replies]; try exact IH. cbn.
  destruct (negb (py_truthy (dget_or "ok" (VBool true) d))); [done|]. unfold dgetn, dget_or.
  destruct (dget "payload" d) as [[| | | | | | |p]|]; cbn; try exact IH.
  unfold dgetn, dget_or. destruct (dget "status" p) as [v|]; cbn; [|exact IH].
  destruct (is_none v) eqn:Hn.
  { apply is_none_true in Hn as ->. cbn. exact IH. }
  unfold UnitQuery.payload_status_is_failure, payload_status_is_failure. rewrite Hn. cbn [is_none py_str].
  change UnitQuery.PAYLOAD_FAILURE_STATUSES with PAYLOAD_FAILURE_STATUSES.
  destruct (str_in (py_str v) PAYLOAD_FAILURE_STATUSES) eqn:E; [done|]. intros H.
  destruct (String.eqb_spec (py_str v) "not_implemented") as [En|]; [|by apply IH].
  rewrite En in E. vm_compute in E. discriminate.
Qed.

(** The verdict on the answer of a query. *)
Lemma verdict_of_answer exc_text attempts k out answer code :
  Answer exc_text attempts k out answer -> Verdict answer (exit_of (result_ok answer)) code ->
  (code = 0 <-> result_ok answer = true) /\ (result_ok answer = false -> code = 2 \/ code = 3).
Proof.
  intros Han Hv. destruct (result_ok answer) eqn:Hok.
  - destruct (an_ok _ _ _ _ _ Han Hok) as [Hrep Hst].
    assert (Hn : named answer = "") by (unfold named, dget_or; by rewrite Hst).
    assert (H0 : Verdict answer 0 0).
    { apply vd_process; [|unfold refused; rewrite (an_verdict _ _ _ _ _ Han), Hok; done|rewrite Hn; intros E; vm_compute in E; discriminate].
      unfold replies_of, replies_in, dgetn, dget_or in *. destruct (dget "replies" answer) as [[]|]; try by constructor.
      by apply no_failing_reply. }
    apply classify_verdict in Hv, H0. cbn [exit_of] in Hv. rewrite H0 in Hv. done.
  - assert (Href : refused answer) by (unfold refused; rewrite (an_verdict _ _ _ _ _ Han), Hok; done).
    destruct Hv; [lia| |lia|done]. destruct (String.eqb _ _); lia.
Qed.

Lemma pyval_dict v : (exists d, v = VDict d) \/ (forall d, v <> VDict d).
Proof. destruct v; [right; done..|left; by eexists]. Qed.

(** The ways of [main]. *)
Lemma wrapper_main_cases a proc :
  wa_cli_args a <> [] ->
  let text := py_strip (stdout proc) in
  (exists r, wrapper_main a proc = Ok r /\ String.eqb (wa_output a) "jsonl" = true /\
     rt_exit r = exit_code proc /\ rt_stdout r = (if String.eqb text "" then [] else [Printed text])) \/
  (exists r, wrapper_main a proc = Ok r /\ String.eqb (wa_output a) "jsonl" = false /\
     exists payload, payload_of_stdout proc = Ok payload /\
       rt_exit r = (classify_payload payload (exit_code proc)).1 /\ rt_stdout r = [PrintedJson payload]) \/
  (exists e, wrapper_main a proc = Raise e /\ wa_output a <> "jsonl" /\ text <> "" /\ json_loads text = Raise e /\ e <> JSONDecodeError).
Proof.
  intros Hargs text. unfold wrapper_main. destruct (wa_cli_args a); [done|].
  destruct (String.eqb_spec (wa_output a) "jsonl") as [E|E]; [left; by eexists|right].
  destruct (payload_of_stdout proc) as [payload|e] eqn:Ep; cbn [rbind].
  - left. destruct (classify_payload payload (exit_code proc)) as [code c] eqn:Ec. eexists. split; [reflexivity|]. split; [done|].
    exists payload. by rewrite Ec.
  - right. exists e. unfold payload_of_stdout in Ep. fold text in Ep.
    destruct (String.eqb_spec text "") as [|Hne]; [done|]. split_and!; try done.
    + destruct (json_loads text) as [|e']; [done|]. destruct e'; congruence.
    + intros ->. destruct (json_loads text) as [|e']; [done|]. destruct e'; congruence.
Qed.

Lemma payload_exits proc payload code :
  payload_of_stdout proc = Ok payload ->
  (classify_payload payload (exit_code proc)).1 = code <-> Exits (py_strip (stdout proc)) (exit_code proc) code.
Proof.
  unfold payload_of_stdout. set (text := py_strip (stdout proc)). clearbody text. generalize (exit_code proc) as rc. intros rc Hp.
  destruct (String.eqb_spec text "") as [Ht|Ht].
  - injection Hp as <-. assert (Hc : forall code', (if rc =? 0 then 0 else 2) = code' <-> Exits text rc code').
    { intros code'. split; [intros <-; by apply ex_silent|by destruct 1]. }
    rewrite <- Hc. destruct (Z.eqb_spec rc 0) as [->|]; reflexivity.
  - destruct (json_loads text) as [v|e] eqn:El.
    + injection Hp as <-. destruct (pyval_dict v) as [[d ->]|Hv].
      * rewrite classify_verdict. split; [intros H; by apply (ex_read _ _ d)|]. destruct 1; congruence.
      * assert (classify_payload v rc = (2, "json_payload_not_object")) as -> by (destruct v as [| | | | | | |d]; [done..|by destruct (Hv d)]).
        cbn [fst]. split; [intros <-; by apply (ex_no_object _ _ v)|]. destruct 1 as [| | |d c ? Hl]; [congruence|congruence|done|]. destruct (Hv d). congruence.
    + destruct e; try congruence. injection Hp as <-. change (classify_payload _ rc).1 with 2. split; [intros <-; by apply ex_unreadable|]. destruct 1; congruence.
Qed.

(** C30: for every invocation that names a command, and every output and exit code of that command, the wrapper's [main] does this.
    With jsonl output it prints the standard output as it is and passes the exit code on. With json output it raises only what
    [json.loads] raises other than a decoding error; otherwise its exit code is the one [Exits] gives, and no other: for an empty
    output 0 or 2 as the command succeeded or not; 2 for a text that is not JSON or not an object; and for an object 3 when it names
    "not_implemented", else the code of the first reply that names a failing status, else 2 when its ok is False or its own status is
    failing, else the exit code of the command. It prints the object it read; and when that is the answer of a query, of a command that
    ended with the exit code of that answer, the wrapper exits with 0 exactly when the answer is ok, and otherwise with 2 or 3.
    The two copies of the failing statuses name the same ones. *)
Theorem wrapper_agrees a proc :
  wa_cli_args a <> [] ->
  let text := py_strip (stdout proc) in
  (forall s, str_in s PAYLOAD_FAILURE_STATUSES = str_in s UnitQuery.PAYLOAD_FAILURE_STATUSES) /\
  match wrapper_main a proc with
  | Raise e => wa_output a <> "jsonl" /\ text <> "" /\ json_loads text = Raise e /\ e <> JSONDecodeError
  | Ok r =>
      if String.eqb (wa_output a) "jsonl" then
        rt_exit r = exit_code proc /\ rt_stdout r = (if String.eqb text "" then [] else [Printed text])
      else
        (forall code, rt_exit r = code <-> Exits text (exit_code proc) code) /\
        (forall v, text <> "" -> json_loads text = Ok v -> rt_stdout r = [PrintedJson v]) /\
        (forall exc_text attempts k out answer,
           text <> "" -> json_loads text = Ok (VDict answer) -> Answer exc_text attempts k out answer ->
           exit_code proc = exit_of (result_ok answer) ->
           (rt_exit r = 0 <-> result_ok answer = true) /\ (result_ok answer = false -> rt_exit r = 2 \/ rt_exit r = 3))
  end.
Proof.
  intros Hargs text. split; [reflexivity|]. destruct (wrapper_main_cases a proc Hargs) as [(r & -> & Hj & Hx)|[(r & -> & Hj & payload & Hp & Hx)|(e & -> & He)]].
  - rewrite Hj. exact Hx.
  - rewrite Hj. destruct Hx as [Hx Hout]. fold text in Hp, Hout, Hx. split; [intros code; rewrite Hx; by apply payload_exits|].
    assert (Hread : forall v, text <> "" -> json_loads text = Ok v -> payload = v).
    { intros v Hne Hl. unfold payload_of_stdout in Hp. fold text in Hp. apply String.eqb_neq in Hne. rewrite Hne, Hl in Hp. by injection Hp. }
    split; [intros v Hne Hl; by rewrite Hout, (Hread v Hne Hl)|].
    intros exc_text attempts k out answer Hne Hl Han Hc. rewrite (Hread _ Hne Hl), Hc in Hx.
    rewrite Hx. eapply verdict_of_answer; [exact Han|]. by apply classify_verdict.
  - exact He.
Qed.

(** A prepare command with JSON output prints the provider's line first, and the wrapper refuses the whole. *)
Example prepare_refused :
  wrapper_main {| wa_python := "python"; wa_node := "unit-01"; wa_source_core := "core-cli"; wa_source_agent := "skills";
                  wa_output := "json"; wa_timeout := None; wa_query_retries := Some 1; wa_query_retry_backoff_ms := None;
                  wa_query_retry_backoff_max_ms := None; wa_cli_args := ["deploy"; "prepare"] |}
    {| exit_code := 0; stdout := ">> PROVIDER READY k" +:+ String newline (quote "{'ok': true}"); stderr := "" |} =
  Ok {| rt_stdout := [PrintedJson (VDict (dict_of [("ok", VBool false); ("status", VStr "invalid_json_stdout"); ("returncode", VInt 0);
          ("stdout", VStr (">> PROVIDER READY k" +:+ String newline (quote "{'ok': true}")))]))];
        rt_stderr := ["neuro_cli wrapper failure: invalid_json_stdout"]; rt_exit := 2 |}.
Proof. vm_compute. reflexivity. Qed.

Definition sample_run : result dict * CliWorld Script :=
  collect_query_result_with_retry (fun _ => "z") "neuro/unit-01/query/device" sample_request (flit 10 0) sample_policy sample_common
    (start sample_script).
Definition sample_answer : dict := match sample_run.1 with Ok r => r | Raise _ => [] end.

(** [print_json] of the command line, for the texts of the sample: [json.dumps] with an indent of two. *)
Fixpoint indented (margin : string) (v : pyval) : string :=
  let inner := margin +:+ "  " in
  let block opening closing items :=
    match items with [] => opening +:+ closing
    | _ => opening +:+ inner +:+ join ("," +:+ inner) items +:+ margin +:+ closing end in
  match v with
  | VNone => "null"
  | VBool b => if b then "true" else "false"
  | VInt z => string_of_Z z
  | VFloat f => float_repr f
  | VStr s => quoted s
  | VList l | VTuple l => block "[" "]" (map (indented inner) l)
  | VDict d => block "{" "}" (map (fun kv => match kv with (k, x) => quoted (match k with KStr s => s | _ => "" end) +:+ ": " +:+ indented inner x end) d)
  end.

Definition sample_args : WrapperArgs :=
  {| wa_python := "python"; wa_node := "unit-01"; wa_source_core := "core-cli"; wa_source_agent := "skills";
     wa_output := "json"; wa_timeout := None; wa_query_retries := Some 1; wa_query_retry_backoff_ms := None;
     wa_query_retry_backoff_max_ms := None; wa_cli_args := ["query"; "device"] |}.
Definition sample_proc : CommandExecutionResult :=
  {| exit_code := exit_of (result_ok sample_answer); stderr := "";
     stdout := indented (String newline "") (VDict sample_answer) +:+ String newline "" |}.

Lemma sample_read : json_loads (py_strip (stdout sample_proc)) = Ok (VDict sample_answer).
Proof. vm_compute. reflexivity. Qed.

Lemma wrapper_agrees_witness :
  exists r, wrapper_main sample_args sample_proc = Ok r /\ rt_stdout r = [PrintedJson (VDict sample_answer)] /\ rt_exit r = 0.
Proof.
  assert (E : sample_run = (Ok sample_answer, sample_run.2)) by (vm_compute; reflexivity).
  destruct (retry_answer (fun _ => "z") sample_common "neuro/unit-01/query/device" sample_request (flit 10 0) sample_policy
    (start sample_script) sample_answer sample_run.2 ltac:(vm_compute; discriminate) E)
    as (bytes & k & before & out & _ & _ & _ & _ & Han).
  pose proof (wrapper_agrees sample_args sample_proc ltac:(discriminate)) as [_ H].
  assert (Hne : py_strip (stdout sample_proc) <> "") by (vm_compute; discriminate).
  assert (Hm : exists r, wrapper_main sample_args sample_proc = Ok r) by (vm_compute; eexists; reflexivity).
  destruct Hm as [r Hr]. rewrite Hr in H. change (String.eqb (wa_output sample_args) "jsonl") with false in H. cbv iota in H.
  destruct H as (_ & Hout & Hans). exists r. split; [exact Hr|]. split; [exact (Hout _ Hne sample_read)|].
  apply (Hans _ _ _ _ _ Hne sample_read Han eq_refl). vm_compute. reflexivity.
Defined.
