(* ===== verification/UnitEvents.v ===== *)
(** * Events of a unit and the handlers run on them ([neuro_cli/src/neuro_cli.py])

    A subscription turns every sample it receives into a row, and may run a local
    command on it: within the workspace, without a shell, with bounds on the event
    and on the output that is kept.  Running a process is outside
    ([HandlerRunner]); so are the directory of the process and the resolution of
    paths. *)

From Stdlib Require Import ZArith Lia Bool List Ascii String.
From Stdlib.Floats Require Import SpecFloat.
From stdpp Require Import base list option strings.
From S2P Require Import Prelude PyFloat Text PyValue JsonParse Json CborCodec Protocol Artifact Skills Workspace Reply UnitQuery UnitCommands.

#[local] Open Scope string_scope.
#[local] Open Scope Z_scope.
#[local] Open Scope list_scope.

(** ** [bytes.decode("utf-8", errors="replace")] *)

(** The ranges of the bytes that may follow a lead byte. *)
Definition continuation (b : Z) : option (list (Z * Z)) :=
  if b <? 128 then Some []
  else if (194 <=? b) && (b <=? 223) then Some [(128, 191)]
  else if b =? 224 then Some [(160, 191); (128, 191)]
  else if b =? 237 then Some [(128, 159); (128, 191)]
  else if (225 <=? b) && (b <=? 239) then Some [(128, 191); (128, 191)]
  else if b =? 240 then Some [(144, 191); (128, 191); (128, 191)]
  else if (241 <=? b) && (b <=? 243) then Some [(128, 191); (128, 191); (128, 191)]
  else if b =? 244 then Some [(128, 143); (128, 191); (128, 191)]
  else None.

(** The bytes within the ranges, and whether they are all there. *)
Fixpoint conts (ranges : list (Z * Z)) (l : list Z) : list Z * bool :=
  match ranges, l with
  | [], _ => ([], true)
  | (lo, hi) :: rest, b :: r => if (lo <=? b) && (b <=? hi) then let (got, all) := conts rest r in (b :: got, all) else ([], false)
  | _, [] => ([], false)
  end.

(** U+FFFD stands for every longest prefix of a character that is not completed, and for every other byte out of place. *)
Definition replacement : list Z := [239; 191; 189].
Fixpoint replace_scan (fuel : nat) (l : list Z) : list Z :=
  match fuel, l with
  | S fuel', b :: r =>
      match continuation b with
      | None => replacement ++ replace_scan fuel' r
      | Some ranges =>
          let (got, all) := conts ranges r in
          (if all then b :: got else replacement) ++ replace_scan fuel' (drop (length got) r)
      end
  | _, _ => []
  end.
Definition decode_replace (l : list Z) : string := string_of_bytes (replace_scan (length l) l).

Example decode_replace_ex :
  map (fun l => bytes_of_string (decode_replace l)) [[65; 195; 169]; [195]; [226; 130; 65]; [255; 65]; [237; 160; 128]] =
  [[65; 195; 169]; replacement; replacement ++ [65]; replacement ++ [65]; replacement ++ replacement ++ replacement].
Proof. vm_compute. reflexivity. Qed.

(** ** Text kept of an output *)

Inductive StreamText := Absent | AsText (s : string) | AsBytes (b : list Z).

(** The text, whether it was cut, and the size of the whole in bytes. *)
Definition bounded_text (value : StreamText) (max_bytes : Z) : result (string * bool * Z) :=
  match value with
  | Absent => Ok ("", false, 0)
  | AsText s =>
      let! raw := encode_utf8 s in
      let size := Z.of_nat (length raw) in
      if size <=? max_bytes then Ok (s, false, size) else Ok (decode_replace (take (Z.to_nat (Z.max 0 max_bytes)) raw), true, size)
  | AsBytes raw =>
      let size := Z.of_nat (length raw) in
      if size <=? max_bytes then Ok (decode_replace raw, false, size)
      else Ok (decode_replace (take (Z.to_nat (Z.max 0 max_bytes)) raw), true, size)
  end.

(** A cut through a character keeps more bytes than the limit: its replacement takes three. *)
Example cut_exceeds_limit :
  match bounded_text (AsText (string_of_bytes [195; 169])) 1 with
  | Ok (text, cut, size) => (length (bytes_of_string text), cut, size) = (3%nat, true, 2)
  | Raise _ => False
  end.
Proof. vm_compute. reflexivity. Qed.

(** ** [json.dumps(value, ensure_ascii=False)] *)

Definition plain_escape_char (c : ascii) : string :=
  let b := byte_of c in
  if (b <? 32) || (b =? 34) || (b =? 92) then json_escape b else String c "".
Definition plain_json_str (s : string) : string :=
  quote_mark +:+ join "" (map plain_escape_char (list_ascii_of_string s)) +:+ quote_mark.
Definition plain_json_key (k : pykey) : string :=
  plain_json_str (match k with KStr s => s | KInt z => string_of_Z z | KBool b => if b then "true" else "false" end).

Fixpoint plain_json (v : pyval) : string :=
  match v with
  | VNone => "null"
  | VBool b => if b then "true" else "false"
  | VInt z => string_of_Z z
  | VFloat f => json_float f
  | VStr s => plain_json_str s
  | VList l | VTuple l => "[" +:+ join ", " (map plain_json l) +:+ "]"
  | VDict d => "{" +:+ join ", " (map (fun kv => match kv with (k, x) => plain_json_key k +:+ ": " +:+ plain_json x end) d) +:+ "}"
  end.

(** ** Handlers *)

Record HandlerArgs := {
  ha_python : string;
  ha_command : string;
  ha_timeout : spec_float;
  ha_cwd : string;
  ha_max_event_bytes : Z;
  ha_max_output_bytes : Z;
  ha_max_events : Z;
}.

(** What became of a process; with it comes the time it took in milliseconds, of which one reading is taken. *)
Inductive HandlerOutcome :=
  | Completed (returncode : Z) (out err : string)
  | TimedOut (out err : StreamText)
  | NotRun (exc : pyerr).

Class HandlerRunner (S : Type) := run_handler : list string -> string -> spec_float -> string -> eff S (HandlerOutcome * Z).

Record Sample := { sm_key_expr : string; sm_payload : PayloadObj }.

Definition handler_audit_row (row : dict) : option dict := match dgetn "handler" row with VDict h => Some h | _ => None end.
Definition count_status (counts : list (string * Z)) (status : string) : list (string * Z) :=
  od_set (fun s => s) status (default 0 (assoc_s status counts) + 1) counts.

Definition build_handler_audit (event_rows : list dict) : dict :=
  let rows := omap handler_audit_row event_rows in
  let status_of (row : dict) := py_str (dget_or "status" (VStr "unknown") row) in
  match rows with
  | [] => dict_of [("enabled", VBool false); ("executions", VInt 0); ("failures", VInt 0); ("statuses", VDict [])]
  | _ =>
      dict_of
        [("enabled", VBool true); ("executions", VInt (Z.of_nat (length rows)));
         ("failures", VInt (Z.of_nat (length (List.filter (fun row => negb (String.eqb (status_of row) "ok")) rows))));
         ("statuses", VDict (map (fun kv => (KStr kv.1, VInt kv.2)) (foldl count_status [] (map status_of rows))))]
  end.

Definition event_limit_reached (event_rows : list dict) (max_events : Z) : bool :=
  (0 <? max_events) && (max_events <=? Z.of_nat (length event_rows)).

Section Events.
Context {S : Type} `{!Zenoh S, !HandlerRunner S} {FS : Files} (exc_text : pyerr -> string).
Context (cwd executable : string) (expanduser : string -> result string) (resolve : string -> string).
Notation W := (CliWorld S).

Definition is_absolute (p : string) : bool := negb (String.eqb (path_root p) "").

Definition resolve_handler_cwd (h : HandlerArgs) : result string :=
  let workspace_root := workspace_root_of cwd (find_neurolink_root cwd) in
  let configured := if String.eqb (ha_cwd h) "" then workspace_root else ha_cwd h in
  let! dir := expanduser configured in
  let resolved := if is_absolute dir then resolve dir else resolve (path_join workspace_root dir) in
  match relative_to (resolve workspace_root) resolved with
  | Some _ => Ok resolved
  | None => Raise (ValueError "handler cwd must stay within workspace root")
  end.

Definition build_handler_argv (h : HandlerArgs) : result (list string) :=
  if negb (String.eqb (ha_python h) "") then Ok [executable; ha_python h]
  else if negb (String.eqb (ha_command h) "") then shlex_split (ha_command h) else Ok [].

Definition handler_fields (status : string) (executed : bool) (argv : list string) (dir : string) : list (string * pyval) :=
  [("enabled", VBool true); ("executed", VBool executed); ("status", VStr status); ("argv", VList (vstrs argv)); ("cwd", VStr dir)].
Definition event_size (event_bytes max_bytes : Z) : list (string * pyval) :=
  [("event_bytes", VInt event_bytes); ("max_event_bytes", VInt max_bytes)].

(** The row of a handler that ran. *)
Definition handler_ran (h : HandlerArgs) (argv : list string) (dir : string) (event_bytes duration : Z) (status : string)
    (returncode : pyval) (out err : StreamText) (timed_out : bool) : result dict :=
  let! o := bounded_text out (ha_max_output_bytes h) in
  let! e := bounded_text err (ha_max_output_bytes h) in
  let '(out, out_cut, out_size) := o in
  let '(err, err_cut, err_size) := e in
  Ok (dict_of
    (handler_fields status true argv dir ++ [("returncode", returncode); ("duration_ms", VInt duration)] ++
     event_size event_bytes (ha_max_event_bytes h) ++
     [("timeout_sec", VFloat (ha_timeout h)); ("stdout", VStr out); ("stderr", VStr err); ("stdout_bytes", VInt out_size);
      ("stderr_bytes", VInt err_size); ("stdout_truncated", VBool out_cut); ("stderr_truncated", VBool err_cut);
      ("max_output_bytes", VInt (ha_max_output_bytes h)); ("timeout", VBool timed_out)])).

Definition handler_failed (h : HandlerArgs) (argv : list string) (dir : string) (event_bytes duration : Z) (exc : pyerr) : dict :=
  dict_of
    (handler_fields "handler_error" false argv dir ++ [("duration_ms", VInt duration)] ++
     event_size event_bytes (ha_max_event_bytes h) ++ [("error", VStr (exc_text exc))]).

(** What is reported of a process: an output that cannot be encoded counts as an error of the handler - after a time-out it is
    raised. *)
Definition handler_report (h : HandlerArgs) (argv : list string) (dir : string) (event_bytes : Z) (o : HandlerOutcome * Z) : result dict :=
  let '(outcome, duration) := o in
  match outcome with
  | Completed returncode out err =>
      match handler_ran h argv dir event_bytes duration (if returncode =? 0 then "ok" else "nonzero_exit") (VInt returncode)
              (AsText out) (AsText err) false with
      | Ok row => Ok row
      | Raise exc => Ok (handler_failed h argv dir event_bytes duration exc)
      end
  | TimedOut out err => handler_ran h argv dir event_bytes duration "timeout" VNone out err true
  | NotRun exc => Ok (handler_failed h argv dir event_bytes duration exc)
  end.

Definition execute_event_handler (h : HandlerArgs) (event : dict) : eff W (option dict) :=
  do! argv := elift (build_handler_argv h) in
  match argv with
  | [] => eret None
  | _ =>
      let event_text := plain_json (VDict event) in
      do! encoded := elift (encode_utf8 event_text) in
      let event_bytes := Z.of_nat (length encoded) in
      match resolve_handler_cwd h with
      | Raise exc => eret (Some (dict_of (handler_fields "handler_error" false argv "" ++ [("error", VStr (exc_text exc))])))
      | Ok dir =>
          if ha_max_event_bytes h <? event_bytes then
            eret (Some (dict_of (handler_fields "payload_too_large" false argv dir ++ event_size event_bytes (ha_max_event_bytes h))))
          else
            do! outcome := session_do (run_handler argv event_text (ha_timeout h) dir) in
            do! row := elift (handler_report h argv dir event_bytes outcome) in
            eret (Some row)
      end
  end.

(** [append_event_row]: the row that is appended, if any; with human output the sample is printed instead. *)
Definition append_event_row (c : CommonArgs) (h : HandlerArgs) (label : string) (sample : Sample) : eff W (option dict) :=
  do! parsed := elift (parse_wire_payload (sm_payload sample)) in
  let '(parsed_payload, payload_encoding, payload_hex) := parsed in
  let row := dict_of [("keyexpr", VStr (sm_key_expr sample)); ("payload", parsed_payload); ("payload_encoding", VStr payload_encoding)] in
  if json_output c then
    let row := if String.eqb payload_encoding "cbor-v2" then dset "payload_hex" (VStr payload_hex) row else row in
    do! handler := execute_event_handler h row in
    eret (Some (match handler with Some report => dset "handler" (VDict report) row | None => row end))
  else
    do! _ := print ("<< " +:+ label +:+ " " +:+ sm_key_expr sample) in
    do! _ := print_value parsed_payload in
    do! handler := execute_event_handler h row in
    do! _ := (match handler with Some report => print_json (dict_of [("handler", VDict report)]) | None => eret tt end) in
    eret None.

(** The rows after a sample. *)
Definition append_row (c : CommonArgs) (h : HandlerArgs) (label : string) (rows : list dict) (sample : Sample) : eff W (list dict) :=
  do! row := append_event_row c h label sample in eret (rows ++ match row with Some r => [r] | None => [] end).

(** [collect_subscriber_events]: each turn gives what [try_recv] (or [recv]) gave; the deadline has passed when they are used up. *)
Fixpoint collect_subscriber_events (c : CommonArgs) (h : HandlerArgs) (label : string) (turns : list (option Sample)) (rows : list dict)
    : eff W (list dict) :=
  match turns with
  | [] => eret rows
  | None :: rest => collect_subscriber_events c h label rest rows
  | Some sample :: rest =>
      do! rows' := append_row c h label rows sample in
      if event_limit_reached rows' (ha_max_events h) then eret rows' else collect_subscriber_events c h label rest rows'
  end.

(** ** Handlers stay within their bounds *)

(** C29: a handler is confined: whatever the event and the command line, either no process is run and the session is left alone,
    or one is run, on the command's own words, with the event's JSON within the size allowed, in a directory within the
    workspace. *)
Theorem handler_confined h event (w : W) :
  let w' := (execute_event_handler h event w).2 in
  cw_session w' = cw_session w \/
  exists argv dir bytes relative outcome, build_handler_argv h = Ok argv /\ argv <> [] /\
    encode_utf8 (plain_json (VDict event)) = Ok bytes /\ Z.of_nat (length bytes) <= ha_max_event_bytes h /\
    resolve_handler_cwd h = Ok dir /\ relative_to (resolve (workspace_root_of cwd (find_neurolink_root cwd))) dir = Some relative /\
    run_handler argv (plain_json (VDict event)) (ha_timeout h) dir (cw_session w) = (outcome, cw_session w').
Proof.
  cbn zeta. destruct (execute_event_handler h event w) as [out w'] eqn:H. cbn [snd].
  unfold execute_event_handler, ebind, elift in H. destruct (build_handler_argv h) as [argv|e] eqn:Ea; [|injection H as _ <-; by left].
  destruct argv as [|a argv]; [injection H as _ <-; by left|].
  destruct (encode_utf8 (plain_json (VDict event))) as [bytes|e] eqn:Eb; [|injection H as _ <-; by left].
  destruct (resolve_handler_cwd h) as [dir|e] eqn:Ed; [|injection H as _ <-; by left].
  destruct (ha_max_event_bytes h <? Z.of_nat (length bytes)) eqn:El; [injection H as _ <-; by left|]. apply Z.ltb_ge in El.
  unfold session_do in H. destruct (run_handler (a :: argv) _ _ dir (cw_session w)) as [outcome s] eqn:Er.
  assert (Hr : exists relative, relative_to (resolve (workspace_root_of cwd (find_neurolink_root cwd))) dir = Some relative).
  { unfold resolve_handler_cwd in Ed. destruct (expanduser _) as [d|]; [|done]. cbn [rbind] in Ed. cbv zeta in Ed.
    destruct (relative_to (resolve _) _) as [relative|] eqn:E in Ed; [|done]. apply Ok_inj in Ed as <-. by eexists. }
  destruct Hr as [relative Hr]. right. exists (a :: argv), dir, bytes, relative, outcome. split_and!; try done.
  destruct outcome as [o|e]; [|by injection H as _ <-]. destruct (handler_report _ _ _ _ _); by injection H as _ <-.
Qed.
End Events.
