(* ===== verification/Listener.v ===== *)
(** * Subscriptions ([neuro_cli/src/neuro_cli.py]: the event listener)

    Declaring a subscriber, keeping its session alive, and collecting its samples
    in a thread of their own.  The two threads are a step relation on what they
    share: the worker takes samples from the channel and appends rows until it
    sees the stop event, the limit or an error; the main thread pumps the session
    until its time is up or the worker has stopped.  A step of the worker that
    appends a row, and a pump, are taken as one. *)

From Stdlib Require Import ZArith Lia Bool List Ascii String.
From Stdlib.Floats Require Import SpecFloat.
From stdpp Require Import base list option strings relations.
From S2P Require Import Prelude PyFloat Text PyValue Protocol Artifact Workspace Reply UnitQuery UnitCommands UnitEvents.

#[local] Open Scope string_scope.
#[local] Open Scope Z_scope.
#[local] Open Scope list_scope.


(** How a subscriber is declared: with a channel of 64 samples, with a callback (wrapped or not), or with neither. *)
Inductive ListenerKind := FifoChannel | CallbackIndirect | CallbackPlain | NoHandler.

(** What the Zenoh library at hand offers. *)
Class Subscribes (S : Type) := {
  has_fifo : bool;                 (* [zenoh.handlers.FifoChannel] *)
  has_callback : bool;             (* [zenoh.handlers.Callback] *)
  takes_indirect : bool;           (* it takes the argument [indirect] *)
  declare_subscriber : string -> ListenerKind -> eff S unit;
  undeclare : eff S unit;
}.

Definition is_type_error (e : pyerr) : bool := match e with TypeError _ => true | _ => false end.

Section Subscription.
Context {S : Type} `{!Zenoh S, !Subscribes S} (exc_text : pyerr -> string) (hex : nat -> string).
Notation W := (CliWorld S).

(** [except TypeError] *)
Definition or_on_type_error {A} (m : eff W A) (otherwise : eff W A) : eff W A :=
  do! r := eoutcome m in match r with Ok a => eret a | Raise e => if is_type_error e then otherwise else eraise e end.

(** Whether rows come by callback, and the mode that is reported. *)
Definition declare_event_subscriber (keyexpr : string) (prefer_callback : bool) : eff W (bool * string) :=
  let by_callback :=
    let '(kind, mode) := if has_callback && takes_indirect then (CallbackIndirect, "callback_indirect_false") else (CallbackPlain, "callback") in
    or_on_type_error (do! _ := session_do (declare_subscriber keyexpr kind) in eret (true, mode))
      (do! _ := session_do (declare_subscriber keyexpr NoHandler) in eret (false, "plain_subscriber")) in
  if negb prefer_callback && has_fifo then
    or_on_type_error (do! _ := session_do (declare_subscriber keyexpr FifoChannel) in eret (false, "fifo_channel")) by_callback
  else by_callback.

(** [pump_event_listener_session]: one query to the device, whatever becomes of it. *)
Definition pump_event_listener_session (c : CommonArgs) : eff W unit :=
  do! _ := etry (
    do! payload := base_request hex (ca_request c) in
    do! _ := elift (validate_payload payload "common") in
    collect_query_result exc_text (query_route (node_of c) "device") payload (timeout_of c)) in
  eret tt.

Definition pump_interval_sec (c : CommonArgs) : spec_float := fmax (flit 1 1) (ca_event_pump_interval_sec c).

(** [wait_for_callback_events] with a duration: the readings are the time that remains at each turn. *)
Fixpoint wait_for_callback_events (c : CommonArgs) (readings : list spec_float) : eff W unit :=
  match readings with
  | [] => eret tt
  | remaining :: rest =>
      if fleb remaining fzero then eret tt
      else
        do! _ := sleep (fmin (pump_interval_sec c) remaining) in
        do! _ := pump_event_listener_session c in
        wait_for_callback_events c rest
  end.

(** Without a duration: as many turns as there are before it is interrupted. *)
Fixpoint wait_until_interrupted (c : CommonArgs) (turns : nat) : eff W unit :=
  match turns with
  | O => eraise KeyboardInterrupt
  | Datatypes.S turns' =>
      do! _ := sleep (pump_interval_sec c) in
      do! _ := pump_event_listener_session c in
      wait_until_interrupted c turns'
  end.

Definition EVENT_SUBSCRIPTION_READY_DELAY_SEC : spec_float := flit 1 0.

(** What collecting does and leaves: [gather] by callback or by thread, [write_text] writes a file, [received] the rows there are. *)
Context (gather : bool -> eff W unit) (write_text : string -> string -> eff W unit) (received : S -> list dict).

Definition write_subscription_ready (ready_file keyexpr : string) : eff W unit :=
  when (negb (String.eqb ready_file ""))
    (write_text ready_file (plain_json (VDict (dict_of [("subscription", VStr keyexpr); ("ready", VBool true)])))).

Definition run_event_subscription (use_callback_collection : bool) (ready_file keyexpr : string) : eff W unit :=
  do! _ := sleep EVENT_SUBSCRIPTION_READY_DELAY_SEC in
  do! _ := write_subscription_ready ready_file keyexpr in
  gather use_callback_collection.

Definition emit_event_subscription_result (c : CommonArgs) (keyexpr listener_mode : string) (event_rows : list dict) : eff W unit :=
  when (json_output c) (print_json (dict_of
    [("ok", VBool true); ("subscription", VStr keyexpr); ("listener_mode", VStr listener_mode);
     ("handler_audit", VDict (build_handler_audit event_rows)); ("events", VList (map VDict event_rows))])).

Definition ignore_interrupt {A} (m : eff W A) (a : A) : eff W A :=
  do! r := eoutcome m in match r with Ok x => eret x | Raise e => if bool_decide (e = KeyboardInterrupt) then eret a else eraise e end.

Definition subscribe_to_events (c : CommonArgs) (duration : Z) (ready_file keyexpr : string) (prefer_callback : bool) : eff W Z :=
  do! _ := when (human c) (print (">> SUB " +:+ keyexpr +:+ " for " +:+ string_of_Z duration +:+ "s")) in
  do! declared := ignore_interrupt (do! d := declare_event_subscriber keyexpr prefer_callback in eret (Some d)) None in
  do! listener_mode :=
    match declared with
    | None => eret "unknown"
    | Some (use_callback_collection, mode) =>
        do! _ := efinally (ignore_interrupt (run_event_subscription use_callback_collection ready_file keyexpr) tt) (session_do undeclare) in eret mode
    end in
  do! w := eget in
  do! _ := emit_event_subscription_result c keyexpr listener_mode (received (cw_session w)) in
  eret 0.

Definition handle_events (c : CommonArgs) (duration : Z) (ready_file : string) : eff W Z :=
  subscribe_to_events c duration ready_file (event_subscription_route (node_of c)) false.
Definition handle_app_events (c : CommonArgs) (app_id : string) (duration : Z) (ready_file : string) : eff W Z :=
  subscribe_to_events c duration ready_file (app_event_subscription_route (node_of c) app_id) true.
End Subscription.

(** ** The two threads *)

Inductive WorkerPc := AtTop | Checked | Finished.
Inductive MainPc := Waiting | Ended (r : result unit).

Record Listening (S : Type) := {
  li_world : CliWorld S;
  li_channel : list Sample;
  li_taken : list Sample;
  li_rows : list dict;
  li_stop : bool;
  li_error : option pyerr;
  li_worker : WorkerPc;
  li_main : MainPc;
}.
Arguments li_world {S}.
Arguments li_channel {S}.
Arguments li_taken {S}.
Arguments li_rows {S}.
Arguments li_stop {S}.
Arguments li_error {S}.
Arguments li_worker {S}.
Arguments li_main {S}.

Definition listening {S} (w : CliWorld S) (channel : list Sample) : Listening S :=
  {| li_world := w; li_channel := channel; li_taken := []; li_rows := []; li_stop := false; li_error := None;
     li_worker := AtTop; li_main := Waiting |}.

Section Threads.
Context {S : Type} `{!Zenoh S, !HandlerRunner S} {FS : Files} (exc_text : pyerr -> string) (hex : nat -> string).
Context (cwd executable : string) (expanduser : string -> result string) (resolve : string -> string).
Context (c : CommonArgs) (h : HandlerArgs) (label : string) (duration : Z).
Notation append := (append_row exc_text cwd executable expanduser resolve c h label).

Definition set_worker (pc : WorkerPc) (s : Listening S) : Listening S :=
  {| li_world := li_world s; li_channel := li_channel s; li_taken := li_taken s; li_rows := li_rows s; li_stop := li_stop s;
     li_error := li_error s; li_worker := pc; li_main := li_main s |}.
(** [finally: stop_event.set()] on the way out of the main thread. *)
Definition main_ends (r : result unit) (s : Listening S) : Listening S :=
  {| li_world := li_world s; li_channel := li_channel s; li_taken := li_taken s; li_rows := li_rows s; li_stop := true;
     li_error := li_error s; li_worker := li_worker s; li_main := Ended r |}.
Definition set_world (w : CliWorld S) (s : Listening S) : Listening S :=
  {| li_world := w; li_channel := li_channel s; li_taken := li_taken s; li_rows := li_rows s; li_stop := li_stop s;
     li_error := li_error s; li_worker := li_worker s; li_main := li_main s |}.

(** [except Exception as exc] in the worker; an interrupt only comes to the main thread. *)
Definition worker_fails (exc : pyerr) (s : Listening S) : Listening S :=
  {| li_world := li_world s; li_channel := li_channel s; li_taken := li_taken s; li_rows := li_rows s; li_stop := true;
     li_error := Some exc; li_worker := Finished; li_main := li_main s |}.

(** The worker after it took a sample. *)
Definition after_sample (sample : Sample) (rest : list Sample) (s : Listening S) : Listening S :=
  match append (li_rows s) sample (li_world s) with
  | (Ok rows, w) =>
      let full := event_limit_reached rows (ha_max_events h) in
      {| li_world := w; li_channel := rest; li_taken := li_taken s ++ [sample]; li_rows := rows; li_stop := li_stop s || full;
         li_error := li_error s; li_worker := if full then Finished else AtTop; li_main := li_main s |}
  | (Raise exc, w) =>
      {| li_world := w; li_channel := rest; li_taken := li_taken s ++ [sample]; li_rows := li_rows s; li_stop := true;
         li_error := Some exc; li_worker := Finished; li_main := li_main s |}
  end.

Definition ended_with (s : Listening S) : result unit := match li_error s with Some exc => Raise exc | None => Ok tt end.

Inductive listen_step : Listening S -> Listening S -> Prop :=
  | worker_checks s : li_worker s = AtTop -> li_stop s = false -> listen_step s (set_worker Checked s)
  | worker_stops s : li_worker s = AtTop -> li_stop s = true -> listen_step s (set_worker Finished s)
  | worker_idles s : li_worker s = Checked -> listen_step s (set_worker AtTop s)  (* nothing came *)
  | worker_appends s sample rest : li_worker s = Checked -> li_channel s = sample :: rest ->
      listen_step s (after_sample sample rest s)
  | worker_receive_fails s exc : li_worker s = Checked -> is_exception exc = true ->  (* [try_recv] or [recv] raises *)
      listen_step s (worker_fails exc s)
  | main_pumps s w : li_main s = Waiting -> pump_event_listener_session exc_text hex c (li_world s) = (Ok tt, w) ->
      listen_step s (set_world w s)
  | main_returns s : li_main s = Waiting -> 0 < duration -> listen_step s (main_ends (ended_with s) s)  (* time up, or stopped *)
  | main_raises s exc : li_main s = Waiting -> duration <= 0 -> li_stop s = true -> li_error s = Some exc ->
      listen_step s (main_ends (Raise exc) s).

(** Ctrl-C in the main thread, while it waits or while it pumps the session. *)
Inductive interrupted_step : Listening S -> Listening S -> Prop :=
  | step_of s s' : listen_step s s' -> interrupted_step s s'
  | main_interrupted s : li_main s = Waiting -> interrupted_step s (main_ends (Raise KeyboardInterrupt) s)
  | pump_interrupted s e w : li_main s = Waiting -> pump_event_listener_session exc_text hex c (li_world s) = (Raise e, w) ->
      interrupted_step s (main_ends (Raise e) (set_world w s)).

(** ** What the threads keep *)

(** The row of a sample. *)
Definition row_of (row : dict) (sample : Sample) : Prop :=
  dget "keyexpr" row = Some (VStr (sm_key_expr sample)) /\
  exists value encoding text, parse_wire_payload (sm_payload sample) = Ok (value, encoding, text) /\
    dget "payload" row = Some value /\ dget "payload_encoding" row = Some (VStr encoding).

Lemma appended_row rows sample (w : CliWorld S) rows' w' :
  json_output c = true -> append rows sample w = (Ok rows', w') -> exists row, rows' = rows ++ [row] /\ row_of row sample.
Proof.
  intros Hj H. unfold append_row in H. apply ebind_inv in H as (row & w1 & H & Hr). apply eret_inv in Hr as [-> ->].
  unfold append_event_row in H. apply ebind_inv in H as ([[value encoding] text] & w2 & Hp & H). apply elift_inv in Hp as [Hp ->].
  rewrite Hj in H. apply ebind_inv in H as (handler & w3 & _ & H). apply eret_inv in H as [-> _]. eexists. split; [done|].
  unfold row_of. split; [|exists value, encoding, text; split; [done|]];
    destruct (String.eqb encoding "cbor-v2"), handler as [report|]; by dict_simpl.
Qed.

(** [late] bounds the rows that may still come once the stop event is set. *)
Record Sound (channel : list Sample) (s : Listening S) : Prop := {
  so_order : li_taken s ++ li_channel s = channel;
  so_rows : exists kept, Forall2 row_of (li_rows s) kept /\
    (li_taken s = kept \/ exists bad, li_taken s = kept ++ [bad] /\ li_worker s = Finished /\ li_error s <> None);
  so_limit : 0 < ha_max_events h -> Z.of_nat (length (li_rows s)) <= ha_max_events h;
  so_more : li_worker s <> Finished -> event_limit_reached (li_rows s) (ha_max_events h) = false /\ li_error s = None;
  so_stop : li_stop s = false -> li_worker s <> Finished /\ li_main s = Waiting;
}.

Lemma limit_reached_spec (rows : list dict) max :
  event_limit_reached rows max = true <-> 0 < max /\ max <= Z.of_nat (length rows).
Proof. unfold event_limit_reached. rewrite andb_true_iff, Z.ltb_lt, Z.leb_le; done. Qed.

Lemma sound_start channel w : Sound channel (listening w channel).
Proof.
  split; cbn; try done; [exists []; eauto|lia|]. split; [|done].
  destruct (event_limit_reached [] (ha_max_events h)) eqn:E; [|done]. apply limit_reached_spec in E. cbn in E. lia.
Qed.

Section WithRows.
Context (json : json_output c = true).

Lemma sound_after_sample channel s sample rest : li_worker s = Checked -> li_channel s = sample :: rest ->
  Sound channel s -> Sound channel (after_sample sample rest s).
Proof.
  intros Hw Hc [Ho (kept & Hk & Hf) Hl Hm Hs]. destruct Hm as [Hfull Herr]; [by rewrite Hw|].
  destruct Hf as [Hf|(? & _ & ? & _)]; [|congruence]. rewrite Hc in Ho.
  unfold after_sample. destruct (append (li_rows s) sample (li_world s)) as [[rows|exc] w] eqn:Ha; split; cbn;
    rewrite <- ?app_assoc; try done.
  - destruct (appended_row _ _ _ _ _ json Ha) as (row & -> & Hr). exists (kept ++ [sample]). split; [|left; by rewrite Hf].
    apply Forall2_app; [done|by constructor].
  - destruct (appended_row _ _ _ _ _ json Ha) as (row & -> & Hr). intros Hmax. specialize (Hl Hmax).
    rewrite length_app. cbn. unfold event_limit_reached in Hfull. lia.
  - by destruct (event_limit_reached rows (ha_max_events h)).
  - intros [Hstop ->]%orb_false_elim. split; [done|]. by apply Hs.
  - exists kept. split; [done|]. right. exists sample. by rewrite Hf.
Qed.

Lemma sound_step channel s s' : interrupted_step s s' -> Sound channel s -> Sound channel s'.
Proof.
  intros H HS. destruct H as [s s' H|s Hmain|s e w Hmain _].
  - destruct H as [s Hw Hstop|s Hw Hstop|s Hw|s sample rest Hw Hc|s exc Hw _|s w Hmain _|s Hmain _|s exc Hmain _ Hstop _];
      [| | |by apply sound_after_sample| | | |];
      destruct HS as [Ho (kept & Hk & Hf) Hl Hm Hs]; split; cbn; try done.
    all: try (exists kept; split; [done|]; destruct Hf as [Hf|(bad & Hf & Hfin & ?)]; [by left|]; try congruence; right; by exists bad).
    all: try (intros _; apply Hm; congruence).
    all: try (intros H; split; [done|by apply Hs]).
    intros H. congruence.
  - destruct HS as [Ho (kept & Hk & Hf) Hl Hm Hs]; split; cbn; try done.
    exists kept; split; [done|]; destruct Hf as [Hf|(bad & Hf & Hfin & ?)]; [by left|]; right; by exists bad.
  - destruct HS as [Ho (kept & Hk & Hf) Hl Hm Hs]; split; cbn; try done.
    exists kept; split; [done|]; destruct Hf as [Hf|(bad & Hf & Hfin & ?)]; [by left|]; right; by exists bad.
Qed.

(** Once the stop event is set, the row the worker has already begun is the last one. *)
Definition may_append (s : Listening S) : nat := match li_worker s with Checked => 1 | _ => 0 end.

Lemma stopped_step s s' : interrupted_step s s' -> li_stop s = true ->
  li_stop s' = true /\ (length (li_rows s') + may_append s' <= length (li_rows s) + may_append s)%nat.
Proof.
  intros H Hstop. destruct H as [s s' H|s Hmain|s e w Hmain _]; [|split; [done|unfold may_append; cbn; lia]..].
  destruct H as [s Hw Hst|s Hw Hst|s Hw|s sample rest Hw Hc|s exc Hw _|s w Hmain _|s Hmain _|s exc Hmain _ _ _]; try (split; [done|cbn; unfold may_append; cbn; rewrite ?Hw; lia]).
  - congruence.
  - unfold after_sample, may_append. rewrite Hw. destruct (append (li_rows s) sample (li_world s)) as [[rows|exc] w] eqn:Ha; cbn.
    + destruct (appended_row _ _ _ _ _ json Ha) as (row & -> & _). rewrite Hstop, length_app. cbn.
      split; [done|]. destruct (event_limit_reached _ _); cbn; lia.
    + split; [done|lia].
Qed.
End WithRows.

(** C28: with JSON output (the other outputs print events and keep no rows), however the two threads interleave, whatever receiving
    a sample or writing its row raises, and whenever the main thread is interrupted, the rows are those of the samples taken, in
    the order they came, one sample at most being lost and only with the error that ends the worker; a limit is never
    exceeded; as long as the stop event is not set both threads run; and once it is set, one row at most is still to come. *)
Theorem listener_sound channel w s s' : json_output c = true ->
  rtc interrupted_step (listening w channel) s -> rtc interrupted_step s s' ->
  Sound channel s /\
  (li_stop s = true -> li_stop s' = true /\ (length (li_rows s') <= length (li_rows s) + 1)%nat).
Proof.
  intros Hj H0 H1. split.
  - assert (Sound channel (listening w channel)) as HS by apply sound_start. induction H0; [done|]. eauto using sound_step.
  - intros Hstop. enough (li_stop s' = true /\ (length (li_rows s') + may_append s' <= length (li_rows s) + may_append s)%nat).
    { split; [tauto|]. enough (may_append s <= 1)%nat by lia. unfold may_append. destruct (li_worker s); lia. }
    induction H1 as [s|s s1 s' Hstep _ IH]; [done|]. destruct (stopped_step Hj _ _ Hstep Hstop) as [Hs1 Hr].
    destruct (IH ltac:(by eapply rtc_r) Hs1) as [Hs' Hr']. split; [done|lia].
Qed.

(** Without a duration the main thread has no way to return, the limit of [--max-events] being reached or not: it ends by an error
    or an interrupt. *)
Theorem forever_never_returns w channel s : duration <= 0 -> rtc interrupted_step (listening w channel) s -> li_main s <> Ended (Ok tt).
Proof.
  intros Hd H. assert (li_main (listening w channel) <> Ended (Ok tt)) as H0 by done.
  induction H as [s|s s1 s' Hstep _ IH]; [done|]. apply IH. destruct Hstep as [s s1 Hstep|s|s e w1]; [|done..].
  destruct Hstep; cbn; try done; [|lia]. unfold after_sample. destruct (append _ _ _) as [[|] ]; done.
Qed.
End Threads.

(** ** A limit of one row *)

#[local] Instance no_handlers : HandlerRunner Script := fun _ _ _ _ => eret (NotRun (External "OSError"), 0).
#[local] Instance no_files : Files := fun _ => None.

Definition one_row : HandlerArgs := {|
  ha_python := ""; ha_command := ""; ha_timeout := flit 5 0; ha_cwd := ""; ha_max_event_bytes := 4096; ha_max_output_bytes := 4096;
  ha_max_events := 1;
|}.
Definition text_sample (text : string) : Sample :=
  {| sm_key_expr := "neuro/unit-01/event/lease"; sm_payload := Bytes (bytes_of_string text) |}.
Definition two_samples : list Sample := [text_sample (quote "{'action': 'acquired'}"); text_sample (quote "{'action': 'released'}")].

Definition sample_after : Listening Script :=
  after_sample (fun _ => "z") "/" "python" (fun p => Ok p) (fun p => p) sample_common one_row "event"
    (text_sample (quote "{'action': 'acquired'}")) [text_sample (quote "{'action': 'released'}")]
    (set_worker Checked (listening (start []) two_samples)).
Notation sample_steps := (rtc (interrupted_step (fun _ => "z") (fun _ => "0123456789ab") "/" "python" (fun p => Ok p) (fun p => p)
  sample_common one_row "event" 0)).

Lemma one_row_run : sample_steps (listening (start []) two_samples) sample_after.
Proof.
  eapply rtc_l; [apply step_of, worker_checks; reflexivity|]. apply rtc_once, step_of, worker_appends; reflexivity.
Qed.

(** The first sample reaches the limit: the second stays in the channel, and the main thread has not returned. *)
Lemma listener_sound_witness :
  json_output sample_common = true /\ sample_steps (listening (start []) two_samples) sample_after /\
  length (li_rows sample_after) = 1%nat /\ li_stop sample_after = true /\ li_main sample_after = Waiting /\
  Sound one_row two_samples sample_after.
Proof.
  split_and!; [reflexivity|exact one_row_run|vm_compute; reflexivity|vm_compute; reflexivity|vm_compute; reflexivity|].
  apply (listener_sound (fun _ => "z") (fun _ => "0123456789ab") "/" "python" (fun p => Ok p) (fun p => p) sample_common one_row "event" 0
    two_samples (start []) sample_after sample_after); [reflexivity|exact one_row_run|apply rtc_refl].
Defined.
