(* ===== verification/CallbackSmoke.v ===== *)
(** * The callback smoke test ([neuro_cli/src/neuro_cli.py]: [handle_app_callback_smoke])

    One run over a live unit: a subscriber is declared, the device is queried, a
    lease acquired, the callback configured and the application invoked; the
    events are collected; and whatever happens the lease is released and the
    subscriber undeclared.  The steps are kept in the order they were taken, with
    the result of each; a result whose echo is missing is marked where it stands
    in that list, the source holding the same object twice. *)

From Stdlib Require Import ZArith Lia Bool List Ascii String.
From Stdlib.Floats Require Import SpecFloat.
From stdpp Require Import base list option strings.
From S2P Require Import Prelude PyFloat Text PyValue Protocol Artifact Workspace Reply UnitQuery UnitCommands UnitEvents Listener.

#[local] Open Scope string_scope.
#[local] Open Scope Z_scope.
#[local] Open Scope list_scope.

Record SmokeArgs := {
  sa_app_id : string;
  sa_ttl_ms : Z;
  sa_settle_sec : spec_float;
  sa_invoke_count : Z;
  sa_expected_app_echo : string;
}.

Record Smoke (S : Type) := { sk_world : CliWorld S; sk_steps : list dict }.
Arguments sk_world {S}.
Arguments sk_steps {S}.

Definition args_with_lease_id (c : CommonArgs) (lease_id : string) : CommonArgs :=
  let a := ca_request c in
  {| ca_request := {| a_request_id := a_request_id a; a_source_core := a_source_core a; a_source_agent := a_source_agent a;
       a_node := a_node a; a_timeout := a_timeout a; a_priority := a_priority a; a_idempotency_key := a_idempotency_key a;
       a_lease_id := lease_id; a_mode := a_mode a; a_trigger_every := a_trigger_every a; a_event_name := a_event_name a |};
     ca_output := ca_output c; ca_dry_run := ca_dry_run c; ca_session_open_retries := ca_session_open_retries c;
     ca_session_open_backoff_ms := ca_session_open_backoff_ms c; ca_query_retries := ca_query_retries c;
     ca_query_retry_backoff_ms := ca_query_retry_backoff_ms c; ca_query_retry_backoff_max_ms := ca_query_retry_backoff_max_ms c;
     ca_event_pump_interval_sec := ca_event_pump_interval_sec c |}.

Definition step_row (name : string) (result : dict) : dict := dict_of [("step", VStr name); ("result", VDict result)].
Definition step_refused (row : dict) : bool :=
  match dgetn "result" row with VDict r => result_has_reply_error r | _ => false end.

Definition build_app_callback_smoke_result (subscription : string) (event_rows step_results : list dict) (forced_ok : option bool) : dict :=
  let ok := match forced_ok with
            | None => (0 <? Z.of_nat (length event_rows)) && negb (existsb step_refused step_results)
            | Some b => b
            end in
  dict_of [("ok", VBool ok); ("subscription", VStr subscription); ("handler_audit", VDict (build_handler_audit event_rows));
           ("events", VList (map VDict event_rows)); ("steps", VList (map VDict step_results))].

Section Smoking.
Context {S : Type} `{!Zenoh S, !Subscribes S} (exc_text : pyerr -> string) (hex : nat -> string).
(** As in [Listener]: what collecting does for so many seconds, and the rows that came. *)
Context (gather : bool -> spec_float -> eff (CliWorld S) unit) (received : S -> list dict).
Context (c : CommonArgs) (a : SmokeArgs).
Notation W := (CliWorld S).
Notation SW := (Smoke S).

Definition in_world {A} (m : eff W A) : eff SW A := fun s =>
  let (r, w) := m (sk_world s) in (r, {| sk_world := w; sk_steps := sk_steps s |}).
Definition add_step (row : dict) : eff SW unit := emodify (fun s => {| sk_world := sk_world s; sk_steps := sk_steps s ++ [row] |}).
(** The result of the last step, marked. *)
Definition mark_last (result : dict) : eff SW unit := emodify (fun s =>
  {| sk_world := sk_world s;
     sk_steps := match last (sk_steps s) with
                 | Some row => removelast (sk_steps s) ++ [dset "result" (VDict result) row]
                 | None => [] end |}).

Definition emit_app_callback_smoke_result (subscription : string) (event_rows step_results : list dict) (forced_ok : option bool)
    : eff W Z :=
  let result := build_app_callback_smoke_result subscription event_rows step_results forced_ok in
  do! _ := print_json result in eret (exit_of (result_ok result)).

Definition build_app_callback_lease_payload (lease_id : string) : eff W dict :=
  do! payload := write_request hex (ca_request (args_with_lease_id c lease_id)) in
  eret (dupdate payload (lease_fields ("app/" +:+ sa_app_id a +:+ "/control") lease_id (a_priority (ca_request c)) (sa_ttl_ms a))).

Definition collect_app_callback_smoke_step (name keyexpr : string) (payload : dict) : eff SW dict :=
  do! policy := elift (query_retry_policy_from_args c) in
  do! result := in_world (collect_query_result_with_retry exc_text keyexpr payload (timeout_of c) policy c) in
  do! _ := add_step (step_row name result) in
  eret result.

Definition release_app_callback_smoke_lease (lease_id : string) : eff SW unit :=
  do! payload := in_world (protected_request hex (ca_request (args_with_lease_id c lease_id))) in
  do! _ := elift (validate_payload payload "protected") in
  do! _ := collect_app_callback_smoke_step "lease_release" (lease_route (node_of c) "release") payload in
  eret tt.

(** [result_has_reply_error(result) or not result_has_expected_app_echo(result, ...)] *)
Definition app_refused (result : dict) : eff SW bool :=
  if result_has_reply_error result then eret true
  else
    let '(echoed, result') := result_has_expected_app_echo result (sa_expected_app_echo a) in
    do! _ := (if echoed then eret tt else mark_last result') in
    eret (negb echoed).

Fixpoint app_invokes (payload : dict) (left : nat) (index : Z) : eff SW bool :=
  match left with
  | O => eret false
  | Datatypes.S left' =>
      do! result := collect_app_callback_smoke_step ("app_invoke_" +:+ string_of_Z (index + 1))
        (app_callback_invoke_key (node_of c) (sa_app_id a)) payload in
      do! refused := app_refused result in
      if refused then eret true else app_invokes payload left' (index + 1)
  end.

(** The blocks guarded by [forced_ok is None]; the answer is whether it was set to [False]. *)
Definition smoke_steps (lease_id : string) : eff SW bool :=
  let lease_args := ca_request (args_with_lease_id c lease_id) in
  do! payload := in_world (base_request hex (ca_request c)) in
  do! _ := elift (validate_payload payload "common") in
  do! device := collect_app_callback_smoke_step "query_device" (query_route (node_of c) "device") payload in
  do! lease_payload := in_world (build_app_callback_lease_payload lease_id) in
  if result_has_reply_error device then eret true
  else
    do! _ := elift (validate_payload lease_payload "write") in
    do! lease := collect_app_callback_smoke_step "lease_acquire" (lease_route (node_of c) "acquire") lease_payload in
    if result_has_reply_error lease then eret true
    else
      do! config_payload := in_world (callback_config_request hex lease_args (Some true)) in
      do! _ := elift (validate_payload config_payload "protected") in
      do! config := collect_app_callback_smoke_step "app_callback_config" (app_callback_invoke_key (node_of c) (sa_app_id a)) config_payload in
      do! refused := app_refused config in
      if refused then eret true
      else
        do! invoke_payload := in_world (protected_request hex lease_args) in
        let invoke_payload := dset "args" (VDict []) invoke_payload in
        do! _ := elift (validate_payload invoke_payload "protected") in
        app_invokes invoke_payload (Z.to_nat (sa_invoke_count a)) 0.

Definition smoke_body (use_callback_collection : bool) (lease_id : string) : eff SW (option bool) :=
  do! _ := in_world (sleep (fadd EVENT_SUBSCRIPTION_READY_DELAY_SEC (sa_settle_sec a))) in
  do! refused := smoke_steps lease_id in
  if refused then eret (Some false)
  else
    do! _ := in_world (gather use_callback_collection (fmax EVENT_SUBSCRIPTION_READY_DELAY_SEC (sa_settle_sec a))) in
    eret None.

(** [except Exception: pass] *)
Definition passing_over {A} (m : eff SW A) : eff SW unit :=
  do! _ := etry m in eret tt.

Definition smoke_finally (lease_id : string) : eff SW unit :=
  do! _ := passing_over (release_app_callback_smoke_lease lease_id) in in_world (session_do undeclare).

Definition draw_lease_id : eff W string :=
  if String.eqb (a_lease_id (ca_request c)) "" then do! h := draw_hex hex in eret ("smoke-" +:+ String.substring 0 8 h)
  else eret (a_lease_id (ca_request c)).

Definition handle_app_callback_smoke : eff W Z :=
  let subscription := app_event_subscription_route (node_of c) (sa_app_id a) in
  do! lease_id := draw_lease_id in
  do! declared := declare_event_subscriber subscription true in
  fun w =>
    match efinally (smoke_body declared.1 lease_id) (smoke_finally lease_id) {| sk_world := w; sk_steps := [] |} with
    | (Ok forced_ok, s) =>
        emit_app_callback_smoke_result subscription (received (cw_session (sk_world s))) (sk_steps s) forced_ok (sk_world s)
    | (Raise e, s) => (Raise e, sk_world s)
    end.

(** ** A run that passes *)

Definition step_names (count : Z) : list string :=
  ["query_device"; "lease_acquire"; "app_callback_config"] ++
  map (fun index => "app_invoke_" +:+ string_of_Z (index + 1)) (seqZ 0 count).

(** The step of that name, whose answer has no error and, if it is one of the application's, the expected echo. *)
Definition step_passed (name : string) (row : dict) : Prop :=
  exists result, row = step_row name result /\ result_has_reply_error result = false /\
    (String.prefix "app_" name = true -> (result_has_expected_app_echo result (sa_expected_app_echo a)).1 = true).

Lemma in_world_steps {A} (m : eff W A) s r s' : in_world m s = (r, s') -> sk_steps s' = sk_steps s.
Proof. unfold in_world. destruct (m (sk_world s)). by intros [= <- <-]. Qed.

Lemma step_taken name keyexpr payload s r s' : collect_app_callback_smoke_step name keyexpr payload s = (r, s') ->
  sk_steps s' = sk_steps s ++ match r with Ok result => [step_row name result] | Raise _ => [] end.
Proof.
  unfold collect_app_callback_smoke_step, ebind, elift. destruct (query_retry_policy_from_args c) as [policy|e].
  - destruct (in_world _ s) as [[result|e] s1] eqn:H; apply in_world_steps in H; intros [= <- <-]; cbn; rewrite ?app_nil_r; congruence.
  - intros [= <- <-]. by rewrite app_nil_r.
Qed.

Lemma app_accepted result s s' : app_refused result s = (Ok false, s') ->
  s' = s /\ result_has_reply_error result = false /\ (result_has_expected_app_echo result (sa_expected_app_echo a)).1 = true.
Proof.
  unfold app_refused. destruct (result_has_reply_error result); [done|].
  destruct (result_has_expected_app_echo _ _) as [[] r]; unfold ebind, eret; cbn; [by intros [= <-]|done].
Qed.

Lemma invokes_passed payload left index s s' : app_invokes payload left index s = (Ok false, s') ->
  exists rows, sk_steps s' = sk_steps s ++ rows /\
    Forall2 step_passed (map (fun i => "app_invoke_" +:+ string_of_Z (i + 1)) (seqZ index (Z.of_nat left))) rows.
Proof.
  revert index s. induction left as [|left IH]; intros index s H.
  - injection H as <-. exists []. rewrite app_nil_r. by cbn.
  - cbn [app_invokes] in H. apply ebind_inv in H as (result & s1 & Hr%step_taken & H).
    apply ebind_inv in H as ([] & s2 & Ha & H); [done|]. apply app_accepted in Ha as (-> & He & Hecho).
    apply IH in H as (rows & Hs & Hrows). exists (step_row ("app_invoke_" +:+ string_of_Z (index + 1)) result :: rows).
    rewrite Hs, Hr, <- app_assoc. split; [done|]. rewrite seqZ_cons by lia.
    replace (Z.pred (Z.of_nat (Datatypes.S left))) with (Z.of_nat left) by lia. constructor; [|done]. by exists result.
Qed.

Lemma steps_passed lease_id s s' : smoke_steps lease_id s = (Ok false, s') ->
  exists rows, sk_steps s' = sk_steps s ++ rows /\ Forall2 step_passed (step_names (sa_invoke_count a)) rows.
Proof.
  unfold smoke_steps. cbv zeta. intros H. apply ebind_inv in H as (p & s1 & H1%in_world_steps & H).
  apply ebind_inv in H as (_ & s2 & [_ ->]%elift_inv & H). apply ebind_inv in H as (device & s3 & Hd%step_taken & H).
  apply ebind_inv in H as (lp & s4 & H4%in_world_steps & H). destruct (result_has_reply_error device) eqn:Ed; [done|].
  apply ebind_inv in H as (_ & s5 & [_ ->]%elift_inv & H). apply ebind_inv in H as (lease & s6 & Hl%step_taken & H).
  destruct (result_has_reply_error lease) eqn:El; [done|].
  apply ebind_inv in H as (cp & s7 & H7%in_world_steps & H). apply ebind_inv in H as (_ & s8 & [_ ->]%elift_inv & H).
  apply ebind_inv in H as (config & s9 & Hc%step_taken & H). apply ebind_inv in H as ([] & s10 & Ha & H); [done|].
  apply app_accepted in Ha as (-> & Ec & Hecho). apply ebind_inv in H as (ip & s11 & H11%in_world_steps & H).
  apply ebind_inv in H as (_ & s12 & [_ ->]%elift_inv & H). apply invokes_passed in H as (rows & Hs & Hrows).
  exists ([step_row "query_device" device; step_row "lease_acquire" lease; step_row "app_callback_config" config] ++ rows). split.
  - rewrite Hs, H11, Hc, H7, Hl, H4, Hd, H1, <- !app_assoc. done.
  - unfold step_names. apply Forall2_app; [repeat constructor; eexists; split_and!; done|].
    replace (seqZ 0 (sa_invoke_count a)) with (seqZ 0 (Z.of_nat (Z.to_nat (sa_invoke_count a)))); [done|].
    unfold seqZ. by rewrite Nat2Z.id.
Qed.

Lemma finally_steps lease_id s r s' : smoke_finally lease_id s = (r, s') ->
  exists released, sk_steps s' = sk_steps s ++ released /\ (released = [] \/ exists result, released = [step_row "lease_release" result]).
Proof.
  unfold smoke_finally, passing_over. unfold ebind at 1 2. destruct (etry _ s) as [r1 s1] eqn:H. intros Hf.
  apply etry_inv in H as (x & H & ->). unfold release_app_callback_smoke_lease in H.
  assert (exists released, sk_steps s1 = sk_steps s ++ released /\ (released = [] \/ exists result, released = [step_row "lease_release" result]))
    as (released & Hs & Hr).
  { unfold ebind, elift in H. destruct (in_world _ s) as [[p|e] s2] eqn:H2; apply in_world_steps in H2;
      [|injection H as <- <-; exists []; rewrite app_nil_r; eauto].
    destruct (validate_payload p "protected"); [|injection H as <- <-; exists []; rewrite app_nil_r; eauto].
    destruct (collect_app_callback_smoke_step _ _ _ s2) as [[result|e] s3] eqn:H3; apply step_taken in H3; injection H as <- <-;
      rewrite H2 in H3; eauto. }
  exists released. split; [|done]. rewrite <- Hs. destruct x as [|e]; [|destruct (is_exception e)];
    cbn in Hf; try (by injection Hf as <- <-); by apply in_world_steps in Hf.
Qed.

(** The smoke test only passes (exit code 0) if an event came and every step was taken, in the canonical order - the device, the
    lease, the configuration, then as many invocations as asked for - none being answered with an error, and those of the
    application with the echo expected of them; the release that follows, if it could be sent at all, was not refused either; and
    it is these steps that are printed. *)
Theorem smoke_passes w w' : handle_app_callback_smoke w = (Ok 0, w') ->
  exists rows steps released, Forall2 step_passed (step_names (sa_invoke_count a)) steps /\
    (released = [] \/ exists result, released = [step_row "lease_release" result] /\ result_has_reply_error result = false) /\
    rows <> [] /\ let report := build_app_callback_smoke_result (app_event_subscription_route (node_of c) (sa_app_id a)) rows (steps ++ released) None in
    dget "ok" report = Some (VBool true) /\ last (cw_out w') = Some (PrintedJson (VDict report)).
Proof.
  unfold handle_app_callback_smoke. intros H. apply ebind_inv in H as (lease_id & w1 & _ & H).
  apply ebind_inv in H as (declared & w2 & _ & H). destruct (efinally _ _ _) as [[forced|e] s] eqn:Hf; [|done].
  unfold efinally in Hf. apply ebind_inv in Hf as (r & s1 & Hbody & Hf). apply ebind_inv in Hf as (u & s2 & Hfin & Hf).
  apply elift_inv in Hf as [-> ->]. unfold eoutcome in Hbody. destruct (smoke_body _ _ _) as [r s1'] eqn:Hb. injection Hbody as -> ->.
  unfold emit_app_callback_smoke_result in H. apply ebind_inv in H as (u' & w3 & Hp & H). apply eret_inv in H as [Hok ->].
  set (rows := received _) in *. exists rows. unfold smoke_body in Hb. apply ebind_inv in Hb as (u1 & s3 & Hsl%in_world_steps & Hb).
  apply ebind_inv in Hb as ([] & s4 & Hst & Hb).
  { apply eret_inv in Hb as [-> _]. done. }
  apply steps_passed in Hst as (steps & Hs & Hsteps). apply ebind_inv in Hb as (u2 & s5 & Hg%in_world_steps & Hb).
  apply eret_inv in Hb as [-> ->]. apply finally_steps in Hfin as (released & Hr & Hrel).
  rewrite Hr, Hg, Hs, Hsl in *. cbn [sk_steps app] in *. exists steps, released.
  assert (Hyes : (0 <? Z.of_nat (length rows)) && negb (existsb step_refused (steps ++ released)) = true).
  { unfold result_ok, build_app_callback_smoke_result in Hok. cbn in Hok.
    destruct ((0 <? Z.of_nat (length rows)) && _); [done|]. done. }
  assert (Hp' : cw_out w3 = cw_out (sk_world s2) ++ [PrintedJson (VDict (build_app_callback_smoke_result
    (app_event_subscription_route (node_of c) (sa_app_id a)) rows (steps ++ released) None))]) by by injection Hp as _ <-.
  apply andb_true_iff in Hyes as Hyes'. destruct Hyes' as [Hlen Hno]. apply Z.ltb_lt in Hlen.
  apply negb_true_iff in Hno. rewrite existsb_app in Hno. apply orb_false_iff in Hno as [_ Hno].
  split_and!; [done| |intros E; rewrite E in Hlen; cbn in Hlen; lia| |].
  - destruct Hrel as [->|[result ->]]; [by left|]. right. exists result. split; [done|]. cbn in Hno. by rewrite orb_false_r in Hno.
  - unfold build_app_callback_smoke_result. by rewrite Hyes.
  - by rewrite Hp', last_snoc.
Qed.

(** ** The lease is given back *)

(** The release of that lease can be sent, whatever ids are drawn for it. *)
Record Releasable (lease_id : string) : Prop := {
  rl_policy : exists policy, query_retry_policy_from_args c = Ok policy /\ max_attempts policy <= 1025;
  rl_request : forall w : W, exists payload w' bytes, protected_request hex (ca_request (args_with_lease_id c lease_id)) w = (Ok payload, w') /\
    validate_payload payload "protected" = Ok tt /\ encode_query_payload (lease_route (node_of c) "release") payload = Ok bytes;
}.

Lemma protected_lease lease_id (w : W) payload w' :
  protected_request hex (ca_request (args_with_lease_id c lease_id)) w = (Ok payload, w') -> dget "lease_id" payload = Some (VStr lease_id).
Proof.
  intros H. unfold protected_request in H. apply ebind_inv in H as (p & w1 & _ & H). apply eret_inv in H as [-> _]. by dict_simpl.
Qed.

(** A request is sent at least once. *)
Lemma step_sent name keyexpr payload policy bytes s :
  query_retry_policy_from_args c = Ok policy -> max_attempts policy <= 1025 -> encode_query_payload keyexpr payload = Ok bytes ->
  exists r s' k, collect_app_callback_smoke_step name keyexpr payload s = (r, s') /\ (1 <= k)%nat /\
    cw_sent (sk_world s') = cw_sent (sk_world s) ++ repeat (keyexpr, payload) k.
Proof.
  intros Hp Hmax Hb. set (attempts := Z.max 1 (max_attempts policy)).
  destruct (query_attempts_spec exc_text c keyexpr payload (timeout_of c) policy attempts bytes (Z.to_nat attempts) 0 (sk_world s) Hb
    ltac:(lia) ltac:(lia) ltac:(lia)) as (r & w' & k & Hrun & [Hk _ Hsent _]).
  unfold collect_app_callback_smoke_step. rewrite Hp. unfold ebind, elift, in_world, collect_query_result_with_retry. cbv zeta.
  fold attempts. rewrite Hrun. destruct r; cbn; eexists _, _, (Z.to_nat (k - 0)); (split; [done|]; split; [lia|done]).
Qed.

Lemma undeclare_sent (w : W) : cw_sent (session_do undeclare w).2 = cw_sent w.
Proof. unfold session_do. by destruct (undeclare (cw_session w)). Qed.

Lemma finally_sends lease_id s : Releasable lease_id ->
  exists before payload k, cw_sent (sk_world (smoke_finally lease_id s).2) =
    before ++ repeat (lease_route (node_of c) "release", payload) k /\ (1 <= k)%nat /\ dget "lease_id" payload = Some (VStr lease_id).
Proof.
  intros [(policy & Hp & Hmax) Hreq]. destruct (Hreq (sk_world s)) as (payload & w1 & bytes & Hpay & Hv & Hb).
  destruct (step_sent "lease_release" (lease_route (node_of c) "release") payload policy bytes {| sk_world := w1; sk_steps := sk_steps s |}
    Hp Hmax Hb) as (r & s2 & k & Hrun & Hk & Hsent).
  exists (cw_sent w1), payload, k. split_and!; [|done|by eapply protected_lease]. cbn [sk_world] in Hsent. rewrite <- Hsent.
  assert (Hrel : (release_app_callback_smoke_lease lease_id s).2 = s2).
  { unfold release_app_callback_smoke_lease.
    rewrite (ebind_eq _ _ _ payload {| sk_world := w1; sk_steps := sk_steps s |}) by (unfold in_world; by rewrite Hpay).
    rewrite (ebind_eq _ _ _ tt {| sk_world := w1; sk_steps := sk_steps s |}) by (unfold elift; by rewrite Hv).
    unfold ebind. rewrite Hrun. by destruct r. }
  rewrite <- Hrel, <- (etry_state (release_app_callback_smoke_lease lease_id) s). unfold smoke_finally, passing_over. unfold ebind at 1 2.
  destruct (etry _ s) as [[x|e] s3]; [|done]. cbn. rewrite <- (undeclare_sent (sk_world s3)). unfold in_world.
  by destruct (session_do undeclare (sk_world s3)).
Qed.

Lemma finally_state (body : eff SW (option bool)) last s : (efinally body last s).2 = (last (body s).2).2.
Proof. unfold efinally, ebind, eoutcome, elift. destruct (body s) as [r s1]. cbn. by destruct (last s1) as [[u|e] s2]. Qed.

(** C27: once the subscriber is declared, the lease that was (or might have been) acquired is given back, provided that its release can
    be sent: the settings give a retry policy of at most 1025 attempts, and the request of the release is valid and can be
    encoded, whatever ids are drawn for it.  Whatever the steps answered, whether the body ended or raised, and also when an
    interrupt came while a step waited for its answer, or while the events were collected, the last thing sent is the release
    of that very lease.  (That a sleep of the program is interrupted is not modelled.) *)
Theorem lease_given_back w lease_id w1 declared w2 : draw_lease_id w = (Ok lease_id, w1) ->
  declare_event_subscriber (app_event_subscription_route (node_of c) (sa_app_id a)) true w1 = (Ok declared, w2) ->
  Releasable lease_id ->
  exists payload, last (cw_sent (handle_app_callback_smoke w).2) = Some (lease_route (node_of c) "release", payload) /\
    dget "lease_id" payload = Some (VStr lease_id).
Proof.
  intros Hl Hd Hr. unfold handle_app_callback_smoke. rewrite (ebind_eq _ _ _ _ _ Hl), (ebind_eq _ _ _ _ _ Hd).
  destruct (efinally _ _ _) as [r s] eqn:Hf. pose proof (f_equal snd Hf) as Hs. rewrite finally_state in Hs. cbn [snd] in Hs.
  set (s0 := (smoke_body _ _ _).2) in Hs. destruct (finally_sends lease_id s0 Hr) as (before & payload & k & Hsent & Hk & Hlease).
  rewrite Hs in Hsent. exists payload. split; [|done].
  enough (Hlast : last (cw_sent (sk_world s)) = Some (lease_route (node_of c) "release", payload)).
  { destruct r; [|done]. unfold emit_app_callback_smoke_result. cbn. done. }
  rewrite Hsent. destruct k as [|k]; [lia|].
  replace (Datatypes.S k) with (k + 1)%nat by lia. rewrite repeat_app. cbn [repeat]. by rewrite app_assoc, last_snoc.
Qed.
End Smoking.

(** ** A unit that answers, and one that refuses the lease *)

#[local] Instance plain_subscriber : Subscribes Script := {|
  has_fifo := true; has_callback := true; takes_indirect := true; declare_subscriber _ _ := eret tt; undeclare := eret tt |}.

Definition sample_smoke : SmokeArgs :=
  {| sa_app_id := "demo"; sa_ttl_ms := 60000; sa_settle_sec := flit 5 1; sa_invoke_count := 1; sa_expected_app_echo := "hello" |}.
Definition answer (text : string) : result (list Reply) := Ok [json_reply (quote text)].
Definition answering : Script :=
  [answer "{'status': 'ok'}"; answer "{'status': 'ok'}"; answer "{'status': 'ok', 'echo': 'hello'}"; answer "{'status': 'ok', 'echo': 'hello'}"; answer "{'status': 'ok'}"].
Definition refusing : Script := [answer "{'status': 'ok'}"; answer "{'status': 'error', 'message': 'lease conflict'}"; answer "{'status': 'ok'}"].
Notation smoke_run script := (
  handle_app_callback_smoke (fun _ => "z") (fun _ => "0123456789ab") (fun _ _ => eret tt)
    (fun _ => [dict_of [("keyexpr", VStr "neuro/unit-01/event/app/demo/callback")]]) sample_common sample_smoke (start script)) (only parsing).

Lemma smoke_passes_witness :
  (smoke_run answering).1 = Ok 0 /\
  exists steps, Forall2 (step_passed sample_smoke) ["query_device"; "lease_acquire"; "app_callback_config"; "app_invoke_1"] steps.
Proof.
  split; [vm_compute; reflexivity|].
  assert (H : smoke_run answering = (Ok 0, (smoke_run answering).2)) by (vm_compute; reflexivity).
  destruct (smoke_passes _ _ _ _ _ _ _ _ H) as (rows & steps & released & Hsteps & _). exists steps.
  change (step_names _) with ["query_device"; "lease_acquire"; "app_callback_config"; "app_invoke_1"] in Hsteps. exact Hsteps.
Defined.

(** An interrupt while the lease is asked for ends the command; the lease is released before. *)
Example interrupted_smoke :
  let out := smoke_run [answer "{'status': 'ok'}"; Raise KeyboardInterrupt; answer "{'status': 'ok'}"] in
  (out.1, map fst (cw_sent out.2)) =
  (Raise KeyboardInterrupt, [query_route "unit-01" "device"; lease_route "unit-01" "acquire"; lease_route "unit-01" "release"]).
Proof. vm_compute. reflexivity. Qed.

(** The lease being refused, the test fails, and the lease is released all the same. *)
Lemma lease_given_back_witness :
  (smoke_run refusing).1 = Ok 2 /\
  exists payload, last (cw_sent (smoke_run refusing).2) = Some (lease_route (node_of sample_common) "release", payload) /\
    dget "lease_id" payload = Some (VStr "smoke-01234567").
Proof.
  split; [vm_compute; reflexivity|].
  assert (Hr : Releasable (S := Script) (fun _ => "0123456789ab") sample_common "smoke-01234567").
  { split; [eexists; split; [vm_compute; reflexivity|vm_compute; discriminate]|].
    intros w. do 3 eexists. split_and!; [vm_compute; reflexivity..]. }
  refine (lease_given_back (fun _ => "z") (fun _ => "0123456789ab") (fun _ _ => eret tt) _ sample_common sample_smoke (start refusing)
    "smoke-01234567" _ _ _ _ _ Hr); vm_compute; reflexivity.
Defined.
