(* ===== verification/SerialShell.v ===== *)
(** * The serial console ([neuro_cli/src/neuro_cli.py]: the serial commands)

    Finding a serial port, running one command of the unit's shell over it, and
    setting the Zenoh endpoint of the unit that way.  The serial library is
    outside ([Serial]). *)

From Stdlib Require Import ZArith Lia Bool List Ascii String.
From Stdlib.Floats Require Import SpecFloat.
From stdpp Require Import base list option strings.
From S2P Require Import Prelude PyFloat Text PyValue CliAdapter Protocol Artifact Skills Workspace Reply UnitQuery UnitCommands UnitEvents.

#[local] Open Scope string_scope.
#[local] Open Scope Z_scope.
#[local] Open Scope list_scope.

Record PortInfo := { pi_device : string; pi_description : pyval; pi_hwid : pyval }.

(** [pyserial] and [glob]. *)
Class Serial (S : Type) := {
  import_error : option string;                            (* why it cannot be imported, if so *)
  comports : option (eff S (list PortInfo));
  glob_paths : string -> eff S (list string);
  serial_open : string -> Z -> spec_float -> eff S unit;   (* port, baudrate, write timeout *)
  reset_input : eff S unit;
  serial_write : list Z -> eff S unit;
  serial_flush : eff S unit;
  serial_reads : spec_float -> eff S (list (list Z));      (* what each [read(256)] gave until that much time had passed *)
  serial_close : eff S unit;
}.

Record SerialArgs := { sp_port : string; sp_baudrate : Z; sp_timeout : spec_float; sp_settle_sec : spec_float }.

Inductive SerialAction := Show | Set_ (endpoint : string) | Clear.

Definition nl : string := String "010"%char "".
Definition crlf : string := String "013"%char nl.
(** [a or b] *)
Definition or_value (a b : pyval) : pyval := if py_truthy a then a else b.

(** ** Reading the shell's answer *)

Definition endpoint_patterns : list string :=
  ["zenoh connect endpoint:"; "zenoh connect override applied:"; "zenoh connect override cleared:"].

(** [s.split(":", 1)[1]] *)
Definition after_colon (s : string) : string := join ":" (tail (split_on ":"%char s)).

Fixpoint first_endpoint (lines : list string) : string :=
  match lines with
  | [] => ""
  | line :: rest =>
      let stripped := py_strip line in
      if existsb (py_contains (py_lower stripped)) endpoint_patterns then py_strip (after_colon stripped) else first_endpoint rest
  end.
Definition parse_zenoh_endpoint_from_shell (output : string) : string := first_endpoint (splitlines output).

Example endpoint_ex :
  parse_zenoh_endpoint_from_shell ("app zenoh_connect_show" +:+ nl +:+ " Zenoh connect endpoint: tcp/192.168.1.2:7447 " +:+ nl) =
  "tcp/192.168.1.2:7447".
Proof. vm_compute. reflexivity. Qed.

(** The line is cut at its first colon, not after the pattern: behind the prompt of the shell the endpoint is not found. *)
Example prompt_hides_endpoint :
  parse_zenoh_endpoint_from_shell "uart:~$ zenoh connect endpoint: tcp/192.168.1.2:7447" =
  "~$ zenoh connect endpoint: tcp/192.168.1.2:7447".
Proof. vm_compute. reflexivity. Qed.

Definition serial_command (action : SerialAction) : string :=
  match action with
  | Show => "app zenoh_connect_show"
  | Set_ endpoint => "app zenoh_connect_set " +:+ endpoint
  | Clear => "app zenoh_connect_clear"
  end.

Definition merge (result : dict) (fields : list (string * pyval)) : dict := dupdate result (dict_of fields).

(** What [handle_serial_zenoh] makes of the shell's answer. *)
Definition serial_zenoh_verdict (action : SerialAction) (result : dict) : dict :=
  let output := py_str (dget_or "output" (VStr "") result) in
  let endpoint := parse_zenoh_endpoint_from_shell output in
  let result := if String.eqb endpoint "" then result else dset "endpoint" (VStr endpoint) result in
  let result :=
    if negb (result_ok result) && eq_str (dgetn "status" result) "shell_error" && negb (String.eqb endpoint "")
    then merge result [("ok", VBool true); ("status", VStr "ok")] else result in
  if result_ok result then
    match action with
    | Set_ expected =>
        if String.eqb endpoint expected then result
        else merge result [("ok", VBool false); ("status", VStr "endpoint_verify_failed"); ("expected_endpoint", VStr expected);
                           ("error", VStr "serial shell output did not confirm the requested endpoint")]
    | Show | Clear =>
        if String.eqb endpoint "" then
          merge result [("ok", VBool false); ("status", VStr "endpoint_verify_failed");
                        ("error", VStr "serial shell output did not include a Zenoh endpoint")]
        else result
    end
  else result.

Section Shell.
Context {S : Type} `{!Serial S} (exc_text : pyerr -> string).
Notation W := (CliWorld S).

(** ** Ports *)

Definition device_row (device : string) (description hwid : pyval) (source : string) : dict :=
  dict_of [("device", VStr device); ("description", description); ("hwid", hwid); ("source", VStr source)].

Definition listed_device (p : PortInfo) : option (string * dict) :=
  if String.eqb (pi_device p) "" then None else Some (pi_device p, device_row (pi_device p) (pi_description p) (pi_hwid p) "pyserial").

Definition pyserial_devices : eff W (list (string * dict)) :=
  match import_error, comports with
  | None, Some ports =>
      do! r := etry (session_do ports) in eret (match r with Ok l => omap listed_device l | Raise _ => [] end)
  | _, _ => eret []
  end.

Definition globbed (pattern : string) : eff W (list (string * dict)) :=
  do! paths := session_do (glob_paths pattern) in
  eret (map (fun path => (path, device_row path (VStr "") (VStr "") "glob")) paths).

(** One row per device, the last one found, in the order of their names. *)
Definition unique_devices (devices : list (string * dict)) : list (string * dict) :=
  py_sorted name_leb (fold_left (fun unique d => od_set (fun s => s) d.1 d.2 unique) devices []).

Definition discover_serial_devices : eff W (list (string * dict)) :=
  do! devices := pyserial_devices in
  do! devices :=
    (match devices return eff W (list (string * dict)) with
     | [] => do! acm := globbed "/dev/ttyACM*" in do! usb := globbed "/dev/ttyUSB*" in eret (acm ++ usb)
     | _ => eret devices
     end) in
  eret (unique_devices devices).

Definition failed_row (status error : string) (fields : list (string * pyval)) : dict :=
  dict_of ([("ok", VBool false); ("status", VStr status)] ++ fields ++ [("error", VStr error)]).

Definition resolve_serial_port (p : SerialArgs) : eff W (string + dict) :=
  if negb (String.eqb (sp_port p) "") then eret (inl (sp_port p))
  else
    do! devices := discover_serial_devices in
    eret (match devices with
          | [] => inr (dict_of [("ok", VBool false); ("status", VStr "serial_device_missing");
                                ("error", VStr "no serial device found; pass --port or attach a Unit UART device"); ("devices", VList [])])
          | (device, _) :: _ => inl device
          end).

(** ** One command *)

Fixpoint gather_chunks (reads : list (list Z)) : eff W (list Z) :=
  match reads with
  | [] => eret []
  | [] :: rest => do! _ := sleep (flit 5 2) in gather_chunks rest
  | chunk :: rest => do! tail := gather_chunks rest in eret (chunk ++ tail)
  end.

Definition serial_read_text (timeout_sec : spec_float) : eff W string :=
  do! reads := session_do (serial_reads (fmax (flit 1 1) timeout_sec)) in
  do! bytes := gather_chunks reads in
  eret (decode_replace bytes).

Definition exchange (p : SerialArgs) (command : string) : eff W string :=
  efinally
    (do! _ := session_do reset_input in
     do! _ := when (fltb fzero (sp_settle_sec p)) (sleep (sp_settle_sec p)) in
     do! bytes := elift (encode_utf8 (command +:+ crlf)) in
     do! _ := session_do (serial_write bytes) in
     do! _ := session_do serial_flush in
     serial_read_text (sp_timeout p))
    (session_do serial_close).

Definition shell_failed (output : string) : bool :=
  let lowered := py_lower output in py_contains lowered "error" || py_contains lowered "failed".

(** The answer made of the output of the shell. *)
Definition shell_answer (p : SerialArgs) (port command output : string) : dict :=
  let where_ := [("port", VStr port); ("baudrate", VInt (sp_baudrate p)); ("command", VStr command)] in
  if String.eqb (py_strip output) "" then
    failed_row "serial_timeout" "no shell output received before timeout" (where_ ++ [("timeout_sec", VFloat (sp_timeout p))])
  else if shell_failed output then
    failed_row "shell_error" "serial shell reported an error" (where_ ++ [("output", VStr output)])
  else dict_of ([("ok", VBool true); ("status", VStr "ok")] ++ where_ ++ [("output", VStr output)]).

Definition run_serial_shell_command (p : SerialArgs) (command : string) : eff W dict :=
  match import_error with
  | Some error => eret (failed_row "serial_dependency_missing" ("pyserial is required for serial commands: " +:+ error) [])
  | None =>
      do! resolved := resolve_serial_port p in
      match resolved with
      | inr error => eret error
      | inl port =>
          do! opened := etry (session_do (serial_open port (sp_baudrate p) (sp_timeout p))) in
          match opened with
          | Raise exc => eret (failed_row "serial_open_failed" (exc_text exc) [("port", VStr port); ("baudrate", VInt (sp_baudrate p))])
          | Ok _ =>
              do! exchanged := etry (exchange p command) in
              eret (match exchanged with
                    | Raise exc => failed_row "serial_open_failed" (exc_text exc)
                        [("port", VStr port); ("baudrate", VInt (sp_baudrate p)); ("command", VStr command)]
                    | Ok output => shell_answer p port command output
                    end)
          end
      end
  end.

(** ** Handlers *)

Definition handle_serial_list (c : CommonArgs) : eff W Z :=
  do! devices := discover_serial_devices in
  let found := match devices with [] => false | _ => true end in
  let result := dict_of ([("ok", VBool found); ("status", VStr (if found then "ok" else "serial_device_missing"));
                          ("devices", VList (map (fun d => VDict d.2) devices))] ++
                         (if found then [] else [("error", VStr "no serial devices found")])) in
  emit_result c result (join nl (map fst devices)).

Definition handle_serial_zenoh (p : SerialArgs) (action : SerialAction) (c : CommonArgs) : eff W Z :=
  do! result := run_serial_shell_command p (serial_command action) in
  let result := serial_zenoh_verdict action result in
  let message := or_value (dgetn "endpoint" result) (or_value (dgetn "output" result) (VStr "ok")) in
  emit_result c result (py_str message).
End Shell.

(** ** What the verdict rests on *)

Section Confirmed.
Context {S : Type} `{!Serial S} (exc_text : pyerr -> string) (p : SerialArgs).
Notation W := (CliWorld S).
Implicit Types w : W.

(** A result of a command that got no answer: it is not ok, and not an error of the shell. *)
Definition unanswered_row (r : dict) : Prop :=
  dget "output" r = None /\ result_ok r = false /\ eq_str (dgetn "status" r) "shell_error" = false.

Lemma shell_answer_cases port command output :
  let r := shell_answer p port command output in
  unanswered_row r /\ py_strip output = "" \/
  dget "output" r = Some (VStr output) /\ py_strip output <> "" /\
  (result_ok r = negb (shell_failed output)) /\ eq_str (dgetn "status" r) "shell_error" = shell_failed output.
Proof.
  cbv zeta. unfold shell_answer. destruct (String.eqb_spec (py_strip output) ""); [by left|right].
  by destruct (shell_failed output).
Qed.

(** The answer of a command: none, or what the shell printed when it was sent. *)
Lemma command_answered command w r w' : run_serial_shell_command exc_text p command w = (Ok r, w') ->
  unanswered_row r \/ exists port output w0, r = shell_answer p port command output /\ exchange p command w0 = (Ok output, w').
Proof.
  unfold run_serial_shell_command. destruct import_error; [intros [-> _]%eret_inv; by left|].
  intros H. apply ebind_inv in H as ([port|row] & w1 & Hp & H).
  - apply ebind_inv in H as ([u|e] & w2 & _ & H); [|apply eret_inv in H as [-> _]; by left].
    apply ebind_inv in H as (out & w3 & Hx & H). apply eret_inv in H as [-> ->]. apply etry_inv in Hx as ([output|e] & Hx & Ho).
    + injection Ho as ->. right. by exists port, output, w2.
    + destruct (is_exception e); [|done]. injection Ho as ->. by left.
  - apply eret_inv in H as [-> _]. unfold resolve_serial_port in Hp. destruct (negb (String.eqb (sp_port p) "")); [done|].
    apply ebind_inv in Hp as ([|[] ?] & w2 & _ & Hp); apply eret_inv in Hp as [Hp _]; [|done]. injection Hp as ->. by left.
Qed.

Ltac merged := unfold merge, result_ok, dget_or; rewrite dget_dupdate by nodup_lits; reflexivity.
Lemma endpoint_kept v key r : "endpoint" <> key -> dget (KStr key) (dset "endpoint" v r) = dget (KStr key) r.
Proof. intros H. rewrite dget_dset_str. by apply String.eqb_neq in H as ->. Qed.

Lemma verdict_unanswered endpoint r : unanswered_row r -> result_ok (serial_zenoh_verdict (Set_ endpoint) r) = false.
Proof.
  intros (Ho & Hok & Hst). assert (Hout : dget_or "output" (VStr "") r = VStr "") by (unfold dget_or; by rewrite Ho).
  unfold serial_zenoh_verdict. rewrite Hout. change (parse_zenoh_endpoint_from_shell (py_str (VStr ""))) with "".
  change (String.eqb "" "") with true. cbn iota. cbn [negb]. by rewrite andb_false_r, !Hok.
Qed.

Lemma verdict_answered endpoint r output : endpoint <> "" -> dget "output" r = Some (VStr output) ->
  (result_ok r || eq_str (dgetn "status" r) "shell_error") = true ->
  result_ok (serial_zenoh_verdict (Set_ endpoint) r) = bool_decide (parse_zenoh_endpoint_from_shell output = endpoint).
Proof.
  intros He Ho Hr. assert (Hout : dget_or "output" (VStr "") r = VStr output) by (unfold dget_or; by rewrite Ho).
  unfold serial_zenoh_verdict. rewrite Hout. cbn [py_str].
  generalize (parse_zenoh_endpoint_from_shell output) as found. intros found.
  assert (Hset : forall r', result_ok r' = true -> result_ok
    (if String.eqb found endpoint then r'
     else merge r' [("ok", VBool false); ("status", VStr "endpoint_verify_failed"); ("expected_endpoint", VStr endpoint);
                    ("error", VStr "serial shell output did not confirm the requested endpoint")]) = bool_decide (found = endpoint)).
  { intros r' Hr'. destruct (String.eqb_spec found endpoint) as [E|E]; [by rewrite bool_decide_true|].
    rewrite bool_decide_false by done. merged. }
  destruct (String.eqb_spec found "") as [->|Hf]; cbn [negb]; rewrite ?andb_false_r, ?andb_true_r.
  - destruct (result_ok r) eqn:Hok; [by apply Hset|]. rewrite Hok. by rewrite bool_decide_false by congruence.
  - set (r1 := dset "endpoint" (VStr found) r).
    assert (Hok : result_ok r1 = result_ok r) by (unfold result_ok, dget_or, r1; by rewrite endpoint_kept).
    assert (Hst : dgetn "status" r1 = dgetn "status" r) by (unfold dgetn, dget_or, r1; by rewrite endpoint_kept).
    rewrite Hst, Hok. destruct (result_ok r); cbn [negb andb orb] in *; [rewrite Hok; by apply Hset|].
    rewrite Hr. assert (H : result_ok (merge r1 [("ok", VBool true); ("status", VStr "ok")]) = true) by merged.
    rewrite H. by apply Hset.
Qed.

(** Setting the endpoint of the unit succeeds exactly when the shell, sent that very command, printed the endpoint that was
    asked for: no answer, a wrong endpoint or none is a failure, whatever else was printed; and printing it is enough, even in an
    output that mentions an error. *)
Theorem serial_set_confirmed endpoint c w code w' : endpoint <> "" ->
  handle_serial_zenoh exc_text p (Set_ endpoint) c w = (Ok code, w') ->
  let command := "app zenoh_connect_set " +:+ endpoint in
  (code = 0 \/ code = 2) /\
  (code = 0 <-> exists port output w0 w1, run_serial_shell_command exc_text p command w = (Ok (shell_answer p port command output), w1) /\
     exchange p command w0 = (Ok output, w1) /\ py_strip output <> "" /\ parse_zenoh_endpoint_from_shell output = endpoint).
Proof.
  intros He H command. unfold handle_serial_zenoh in H. apply ebind_inv in H as (r & w1 & Hr & H). cbn [serial_command] in Hr.
  fold command in Hr. unfold emit_result in H. apply ebind_inv in H as (u & w2 & _ & H). apply eret_inv in H as [-> _].
  split; [by destruct (result_ok _); [left|right]|].
  transitivity (result_ok (serial_zenoh_verdict (Set_ endpoint) r) = true); [by destruct (result_ok _)|]. rewrite Hr. split.
  - intros Hv. destruct (command_answered _ _ _ _ Hr) as [Hu|(port & output & w0 & -> & Hx)];
      [rewrite (verdict_unanswered _ _ Hu) in Hv; done|]. exists port, output, w0, w1.
    destruct (shell_answer_cases port command output) as [[Hu _]|(Ho & Hne & Hok & Hst)];
      [rewrite (verdict_unanswered _ _ Hu) in Hv; done|].
    rewrite (verdict_answered endpoint _ output He Ho) in Hv by (rewrite Hok, Hst; by destruct (shell_failed output)).
    apply bool_decide_eq_true in Hv. done.
  - intros (port & output & w0 & w1' & [= -> _] & _ & Hne & Hp).
    destruct (shell_answer_cases port command output) as [[_ ?]|(Ho & _ & Hok & Hst)]; [done|].
    rewrite (verdict_answered endpoint _ output He Ho) by (rewrite Hok, Hst; by destruct (shell_failed output)).
    by rewrite bool_decide_true.
Qed.
End Confirmed.

(** ** A unit on the console *)

(** The port answers what it is told to. *)
#[local] Instance console : Serial string := {|
  import_error := None; comports := Some (eret [{| pi_device := "/dev/ttyACM0"; pi_description := VStr "CDC"; pi_hwid := VStr "" |}]);
  glob_paths _ := eret []; serial_open _ _ _ := eret tt; reset_input := eret tt; serial_write _ := eret tt; serial_flush := eret tt;
  serial_reads _ := do! printed := eget in eret [[]; bytes_of_string printed]; serial_close := eret tt |}.
Definition sample_serial : SerialArgs := {| sp_port := ""; sp_baudrate := 115200; sp_timeout := flit 20 1; sp_settle_sec := flit 5 1 |}.
Notation set_endpoint printed := (handle_serial_zenoh (fun _ => "z") sample_serial (Set_ "tcp/10.0.0.1:7447") sample_common (start printed)).

Lemma serial_set_confirmed_witness :
  (set_endpoint "zenoh connect override applied: tcp/10.0.0.1:7447").1 = Ok 0 /\
  (set_endpoint "zenoh connect endpoint: tcp/10.0.0.2:7447").1 = Ok 2 /\
  exists port output w1, run_serial_shell_command (fun _ => "z") sample_serial "app zenoh_connect_set tcp/10.0.0.1:7447"
      (start "zenoh connect override applied: tcp/10.0.0.1:7447") =
    (Ok (shell_answer sample_serial port "app zenoh_connect_set tcp/10.0.0.1:7447" output), w1).
Proof.
  split; [vm_compute; reflexivity|]. split; [vm_compute; reflexivity|].
  assert (H : (set_endpoint "zenoh connect override applied: tcp/10.0.0.1:7447") =
    (Ok 0, (set_endpoint "zenoh connect override applied: tcp/10.0.0.1:7447").2)) by (vm_compute; reflexivity).
  destruct (serial_set_confirmed (fun _ => "z") sample_serial "tcp/10.0.0.1:7447" _ _ _ _ ltac:(discriminate) H) as [_ Hiff].
  destruct (proj1 Hiff eq_refl) as (port & output & w0 & w1 & Hrun & _). exists port, output, w1. exact Hrun.
Defined.

(** A confirmation next to an error is taken, and the error stays in the row that says ok. *)
Example error_stays :
  match (set_endpoint ("previous apply failed" +:+ nl +:+ "zenoh connect override applied: tcp/10.0.0.1:7447")).2 with
  | w => match cw_out w with
         | [PrintedJson (VDict row)] => (dgetn "ok" row, dgetn "error" row) = (VBool true, VStr "serial shell reported an error")
         | _ => False
         end
  end.
Proof. vm_compute. reflexivity. Qed.
