(* ===== verification/Regex.v ===== *)
(** * Regular expressions

    The part of Python's [re] the sources use: literals, classes, greedy
    repetition of a class, alternatives and named groups, matched by
    backtracking in the order [re] tries them.  Matching is total, since only
    classes are repeated; [matches] is what a match is, and [rmatch_iff] says the
    matcher finds one exactly when there is one. *)

From Stdlib Require Import ZArith Lia Bool List Ascii String.
From stdpp Require Import base list option strings.
From S2P Require Import Prelude Text.

#[local] Open Scope string_scope.
#[local] Open Scope Z_scope.
#[local] Open Scope list_scope.

(** The groups matched so far, the last one first. *)
Definition captures : Type := list (string * list Z).

Inductive regex :=
  | Empty
  | AtEnd                             (* [$], on a text without line feeds *)
  | Chars (f : Z -> bool)
  | Word (w : list Z)
  | Seq (a b : regex)
  | Alt (a b : regex)
  | Many (f : Z -> bool)              (* [[...]*] *)
  | Named (name : string) (a : regex).

Definition lit (s : string) : regex := Word (code_points s).
Definition some (f : Z -> bool) : regex := Seq (Chars f) (Many f).
Definition optional (a : regex) : regex := Alt a Empty.
Fixpoint seq_of (l : list regex) : regex := match l with [] => Empty | [a] => a | a :: r => Seq a (seq_of r) end.

Fixpoint strip_word (w s : list Z) : option (list Z) :=
  match w, s with
  | [], _ => Some s
  | a :: w', b :: s' => if a =? b then strip_word w' s' else None
  | _ :: _, [] => None
  end.

Fixpoint many {B} (f : Z -> bool) (s : list Z) (k : list Z -> option B) : option B :=
  match s with
  | c :: s' => if f c then match many f s' k with Some x => Some x | None => k s end else k s
  | [] => k []
  end.

(** What was consumed between two suffixes of a text. *)
Definition consumed (s s' : list Z) : list Z := take (length s - length s') s.

Fixpoint rmatch {B} (r : regex) (s : list Z) (cs : captures) (k : list Z -> captures -> option B) : option B :=
  match r with
  | Empty => k s cs
  | AtEnd => match s with [] => k [] cs | _ => None end
  | Chars f => match s with c :: s' => if f c then k s' cs else None | [] => None end
  | Word w => match strip_word w s with Some s' => k s' cs | None => None end
  | Seq a b => rmatch a s cs (fun s' cs' => rmatch b s' cs' k)
  | Alt a b => match rmatch a s cs k with Some x => Some x | None => rmatch b s cs k end
  | Many f => many f s (fun s' => k s' cs)
  | Named name a => rmatch a s cs (fun s' cs' => k s' ((name, consumed s s') :: cs'))
  end.

Definition found (s' : list Z) (cs : captures) : option (captures * list Z) := Some (cs, s').
(** [re.match] *)
Definition re_match (r : regex) (s : list Z) : option captures := option_map fst (rmatch r s [] found).
(** [re.search] *)
Fixpoint re_search (r : regex) (s : list Z) : option captures :=
  match re_match r s with
  | Some cs => Some cs
  | None => match s with [] => None | _ :: s' => re_search r s' end
  end.
(** [re.sub] with a pattern that matches no empty text. *)
Fixpoint sub_from (r : regex) (new : list Z) (skip : nat) (s : list Z) : list Z :=
  match s, skip with
  | [], _ => []
  | _ :: s', S n => sub_from r new n s'
  | c :: s', O =>
      match rmatch r s [] found with
      | Some (_, rest) => new ++ sub_from r new (length s - length rest - 1) s'
      | None => c :: sub_from r new 0 s'
      end
  end.
Definition re_sub (r : regex) (new : string) (s : list Z) : list Z := sub_from r (code_points new) 0 s.

Definition group (name : string) (cs : captures) : option string :=
  option_map (fun c => of_code_points c.2) (List.find (fun c => String.eqb c.1 name) cs).
Definition group_text (name : string) (cs : captures) : string := default "" (group name cs).

(** Classes *)
Definition ascii_digit (c : Z) : bool := (48 <=? c) && (c <=? 57).
Definition letter (c : Z) : bool := ((65 <=? c) && (c <=? 90)) || ((97 <=? c) && (c <=? 122)).
Definition hexadecimal (c : Z) : bool := ascii_digit c || ((65 <=? c) && (c <=? 70)) || ((97 <=? c) && (c <=? 102)).
Definition one_of (s : string) (c : Z) : bool := existsb (Z.eqb c) (code_points s).
Definition none_of (s : string) (c : Z) : bool := negb (one_of s c).
Definition non_space (c : Z) : bool := negb (is_space c).
Definition within (lo hi : ascii) (c : Z) : bool := (byte_of lo <=? c) && (c <=? byte_of hi).
Definition spaces0 : regex := Many is_space.
Definition spaces : regex := some is_space.

(** ** What a match is *)

Inductive matches : regex -> list Z -> captures -> list Z -> captures -> Prop :=
  | m_empty s cs : matches Empty s cs s cs
  | m_end cs : matches AtEnd [] cs [] cs
  | m_chars f c s cs : f c = true -> matches (Chars f) (c :: s) cs s cs
  | m_word w s cs : matches (Word w) (w ++ s) cs s cs
  | m_seq a b s1 cs1 s2 cs2 s3 cs3 : matches a s1 cs1 s2 cs2 -> matches b s2 cs2 s3 cs3 -> matches (Seq a b) s1 cs1 s3 cs3
  | m_left a b s cs s' cs' : matches a s cs s' cs' -> matches (Alt a b) s cs s' cs'
  | m_right a b s cs s' cs' : matches b s cs s' cs' -> matches (Alt a b) s cs s' cs'
  | m_many f w s cs : Forall (fun c => f c = true) w -> matches (Many f) (w ++ s) cs s cs
  | m_named name a s cs s' cs' : matches a s cs s' cs' -> matches (Named name a) s cs s' ((name, consumed s s') :: cs').

Lemma strip_word_spec w s s' : strip_word w s = Some s' <-> s = w ++ s'.
Proof.
  revert s. induction w as [|a w IH]; intros [|b s]; cbn; try (split; congruence).
  destruct (Z.eqb_spec a b) as [->|Hab]; [rewrite IH; split; congruence|split; congruence].
Qed.

Lemma many_iff {B} f s (k : list Z -> option B) :
  many f s k <> None <-> exists w s', s = w ++ s' /\ Forall (fun c => f c = true) w /\ k s' <> None.
Proof.
  induction s as [|c s IH]; cbn.
  - split; [intros H; by exists [], []|]. intros ([|] & [|] & ? & _ & ?); naive_solver.
  - destruct (f c) eqn:Hc.
    + destruct (many f s k) as [x|] eqn:Hm.
      * split; [|done]. intros _. destruct (proj1 IH ltac:(done)) as (w & s' & -> & Hw & Hk). exists (c :: w), s'. by repeat constructor.
      * split; [intros H; by exists [], (c :: s)|]. intros ([|d w] & s' & Hs & Hw & Hk); [cbn in Hs; by subst s'|].
        injection Hs as <- Hs. inversion Hw; subst. destruct (proj2 IH); [by exists w, s'|done].
    + split; [intros H; by exists [], (c :: s)|]. intros ([|d w] & s' & Hs & Hw & Hk); [cbn in Hs; by subst s'|].
      injection Hs as <- Hs. inversion Hw; congruence.
Qed.

(** The matcher succeeds exactly if a match is followed by what the continuation accepts. *)
Lemma rmatch_iff {B} r s cs (k : list Z -> captures -> option B) :
  rmatch r s cs k <> None <-> exists s' cs', matches r s cs s' cs' /\ k s' cs' <> None.
Proof.
  revert s cs k. induction r as [| |f|w|a IHa b IHb|a IHa b IHb|f|name a IHa]; intros s cs k; cbn.
  - split; [intros H; by exists s, cs; repeat constructor|]. by intros (s' & cs' & Hm & Hk); inversion Hm; subst.
  - destruct s as [|c s]; (split; [intros H|intros (s' & cs' & Hm & Hk); inversion Hm; by subst]); [|done].
    exists [], cs. by repeat constructor.
  - destruct s as [|c s]; [split; [done|]; intros (s' & cs' & Hm & Hk); inversion Hm|]. destruct (f c) eqn:Hc.
    + split; [intros H; exists s, cs; by repeat constructor|]. by intros (s' & cs' & Hm & Hk); inversion Hm; subst.
    + split; [done|]. intros (s' & cs' & Hm & Hk); inversion Hm; congruence.
  - destruct (strip_word w s) as [s1|] eqn:Hw.
    + apply strip_word_spec in Hw as ->. split; [intros H; exists s1, cs; by repeat constructor|].
      intros (s' & cs' & Hm & Hk); inversion Hm; subst. by simplify_list_eq.
    + split; [done|]. intros (s' & cs' & Hm & Hk); inversion Hm; subst. by rewrite (proj2 (strip_word_spec w _ s')) in Hw.
  - rewrite IHa. split.
    + intros (s1 & cs1 & H1 & H2). apply IHb in H2 as (s2 & cs2 & H2 & Hk). exists s2, cs2. split; [by econstructor|done].
    + intros (s' & cs' & Hm & Hk). inversion Hm; subst. do 2 eexists. split; [done|]. apply IHb. by do 2 eexists.
  - destruct (rmatch a s cs k) eqn:Ha.
    + split; [|done]. intros _. destruct (proj1 (IHa s cs k)) as (s' & cs' & Hm & Hk); [by rewrite Ha|].
      exists s', cs'. split; [by apply m_left|done].
    + rewrite IHb. split; intros (s' & cs' & Hm & Hk); [exists s', cs'; split; [by apply m_right|done]|].
      inversion Hm; subst; [|by exists s', cs']. exfalso. apply (proj2 (IHa s cs k)); [by exists s', cs'|done].
  - rewrite many_iff. split.
    + intros (w & s' & -> & Hw & Hk). exists s', cs. split; [by constructor|done].
    + intros (s' & cs' & Hm & Hk). inversion Hm; subst. by exists w, s'.
  - rewrite IHa. split.
    + intros (s' & cs' & Hm & Hk). exists s', ((name, consumed s s') :: cs'). split; [by constructor|done].
    + intros (s' & cs' & Hm & Hk). inversion Hm; subst. by do 2 eexists.
Qed.

Lemma matches_iff r s : is_Some (re_match r s) <-> exists s' cs, matches r s [] s' cs.
Proof.
  unfold re_match. transitivity (rmatch r s [] found <> None).
  - destruct (rmatch r s [] found) as [[cs rest]|]; cbn; split; intros H; try done; by destruct H.
  - rewrite rmatch_iff. split; [intros (s' & cs & H & _); eauto|intros (s' & cs & H); exists s', cs; done].
Qed.

(** ** Reading along a text

    Where the next character cannot belong to it, a repetition takes the whole word and never gives it back. *)

Definition stops (f : Z -> bool) (s : list Z) : Prop := match s with c :: _ => f c = false | [] => True end.

Lemma many_word {B} f w s (k : list Z -> option B) x :
  Forall (fun c => f c = true) w -> stops f s -> k s = Some x -> many f (w ++ s) k = Some x.
Proof.
  intros Hw Hs Hk. induction Hw as [|c w Hc _ IH]; cbn; [|by rewrite Hc, IH].
  destruct s as [|c s]; cbn in *; [done|by rewrite Hs].
Qed.

Lemma some_word {B} f c w s cs (k : list Z -> captures -> option B) x :
  Forall (fun c => f c = true) (c :: w) -> stops f s -> k s cs = Some x -> rmatch (some f) ((c :: w) ++ s) cs k = Some x.
Proof. intros [Hc Hw]%Forall_cons Hs Hk. cbn. rewrite Hc. by apply (many_word f w s (fun s' => k s' cs)). Qed.

Lemma named_word {B} name f c w s cs (k : list Z -> captures -> option B) x :
  Forall (fun c => f c = true) (c :: w) -> stops f s -> k s ((name, c :: w) :: cs) = Some x ->
  rmatch (Named name (some f)) ((c :: w) ++ s) cs k = Some x.
Proof.
  intros Hw Hs Hk. change (rmatch (some f) ((c :: w) ++ s) cs (fun s' cs' => k s' ((name, consumed ((c :: w) ++ s) s') :: cs')) = Some x).
  apply some_word; [done..|]. unfold consumed. rewrite length_app, Nat.add_sub, take_app_length. done.
Qed.

Lemma word_read {B} w s cs (k : list Z -> captures -> option B) : rmatch (Word w) (w ++ s) cs k = k s cs.
Proof. cbn. by rewrite (proj2 (strip_word_spec w (w ++ s) s)). Qed.

Lemma consumed_app w s : consumed (w ++ s) s = w.
Proof. unfold consumed. by rewrite length_app, Nat.add_sub, take_app_length. Qed.

Lemma alt_left {B} a b s cs (k : list Z -> captures -> option B) x : rmatch a s cs k = Some x -> rmatch (Alt a b) s cs k = Some x.
Proof. cbn. by intros ->. Qed.
Lemma alt_right {B} a b s cs (k : list Z -> captures -> option B) : rmatch a s cs k = None -> rmatch (Alt a b) s cs k = rmatch b s cs k.
Proof. cbn. by intros ->. Qed.
