(* ===== verification/MemoryEvidence.v ===== *)
(** * The memory evidence of a firmware build ([scripts/collect_neurolink_memory_evidence.py])

    What the collector reads from a build directory and from logs - the
    configuration, the sections, the build summary, heap snapshots, staging
    allocations, dropped messages and fatal exceptions - the gates it decides,
    and the report it writes.  Digits are ASCII digits, as Zephyr prints them.
    The build and the clock are outside. *)

From Stdlib Require Import ZArith Lia ZifyBool Bool List Ascii String.
From Stdlib.Floats Require Import SpecFloat.
From stdpp Require Import base list option strings.
From S2P Require Import Prelude PyFloat Text PyValue Json JsonNumbers JsonRoundTrip CliAdapter Protocol Artifact Skills Workspace Reply UnitQuery UnitCommands UnitEvents Regex.

#[local] Open Scope string_scope.
#[local] Open Scope Z_scope.
#[local] Open Scope list_scope.

Definition CONFIG_KEYS : list string :=
  ["CONFIG_BOARD"; "CONFIG_BOARD_TARGET"; "CONFIG_BOARD_QUALIFIERS"; "CONFIG_SOC"; "CONFIG_SOC_SERIES_ESP32S3";
   "CONFIG_HEAP_MEM_POOL_SIZE"; "CONFIG_NEUROLINK_APP_STATIC_ELF_BUFFER_SIZE"; "CONFIG_NEUROLINK_APP_PREFER_EXTERNAL_ELF_BUFFER";
   "CONFIG_NEUROLINK_APP_PREFER_PSRAM_ELF_BUFFER"; "CONFIG_MAIN_STACK_SIZE"; "CONFIG_SYSTEM_WORKQUEUE_STACK_SIZE";
   "CONFIG_SHELL_STACK_SIZE"; "CONFIG_NET_PKT_RX_COUNT"; "CONFIG_NET_PKT_TX_COUNT"; "CONFIG_NET_BUF_RX_COUNT";
   "CONFIG_NET_BUF_TX_COUNT"; "CONFIG_ESP_SPIRAM"; "CONFIG_ESP_SPIRAM_HEAP_SIZE"; "CONFIG_ESP_WIFI_HEAP_SPIRAM";
   "CONFIG_ESP32_WIFI_NET_ALLOC_SPIRAM"; "CONFIG_SHARED_MULTI_HEAP"; "CONFIG_LLEXT_HEAP_DYNAMIC"; "CONFIG_LLEXT_HEAP_SIZE";
   "CONFIG_LLEXT_LOG_LEVEL_DBG"; "CONFIG_NEUROLINK_ZENOH_PICO_DEBUG"; "CONFIG_NEUROLINK_ZENOH_PICO_DEBUG_LEVEL";
   "CONFIG_SYS_HEAP_RUNTIME_STATS"; "CONFIG_ZENOH_PICO_MULTI_THREAD"].

Definition SECTION_PREFIXES : list (string * string) :=
  [("dram0", ".dram0"); ("iram0", ".iram0"); ("flash", ".flash"); ("ext_ram", ".ext_ram")].

(** ** Patterns *)

(** [\x1b\[[0-?]*[ -/]*[@-~]] *)
Definition ANSI_ESCAPE_PATTERN : regex :=
  seq_of [Word [27; 91]; Many (within "0" "?"); Many (within " " "/"); Chars (within "@" "~")].
Definition clean_log_line (line : list Z) : list Z := re_sub ANSI_ESCAPE_PATTERN "" line.

Definition config_name : regex := seq_of [lit "CONFIG_"; some (fun c => letter c || ascii_digit c || (c =? 95))].
Definition unset_pattern : regex := seq_of [lit "# "; Named "name" config_name; lit " is not set"; AtEnd].
Definition set_pattern : regex := seq_of [Named "name" config_name; lit "="; Named "value" (Many (fun c => negb (c =? 10))); AtEnd].

Definition quotes : string := String "039"%char quote_mark.
Definition release_pattern : regex :=
  seq_of [lit "RELEASE_TARGET"; spaces0; lit "="; spaces0; Chars (one_of quotes); Named "value" (some (none_of quotes)); Chars (one_of quotes)].

Definition number (name : string) : regex := Named name (some ascii_digit).
Definition token (name : string) : regex := Named name (some non_space).
Definition hexes : regex := some hexadecimal.

Definition section_pattern : regex :=
  seq_of [spaces0; lit "["; spaces0; number "index"; lit "]"; spaces; token "name"; spaces; some non_space; spaces; hexes; spaces; hexes;
          spaces; Named "size" hexes; spaces].

Definition region_name : regex := Named "region" (some (fun c => letter c || ascii_digit c || one_of "_. -" c)).
Definition percent : regex := Named "percent" (some (fun c => ascii_digit c || (c =? 46))).
Definition normalized_pattern : regex :=
  seq_of [spaces0; region_name; lit ":"; spaces; number "used"; spaces; lit "B"; spaces; lit "("; percent; lit "%)"; spaces; lit "of"; spaces;
          number "capacity"; spaces; lit "B"].
Definition zephyr_table_pattern : regex :=
  seq_of [spaces0; region_name; lit ":"; spaces; number "used"; spaces; lit "B"; spaces; number "capacity"; spaces; lit "B"; spaces; percent; lit "%"].

(** A level such as [<inf>] that may come first. *)
Definition log_level : regex := optional (seq_of [lit "<"; some (none_of ">"); lit ">"; spaces0]).
Definition heap_pattern : regex :=
  seq_of [log_level; Named "scope" (Alt (lit "update") (lit "app-runtime")); lit " heap snapshot stage="; token "stage";
          optional (seq_of [lit " path="; token "path"]); lit " free="; number "free"; lit " allocated="; number "allocated";
          lit " max_allocated="; number "max_allocated"].
Definition staging_pattern : regex :=
  seq_of [log_level; lit "app-runtime ELF staging allocation path="; token "path"; lit " bytes="; number "bytes"; lit " source="; token "source";
          lit " provider="; token "provider"].
Definition drop_pattern : regex := seq_of [lit "---"; spaces0; number "count"; spaces; lit "messages dropped"; spaces0; lit "---"].
Definition fatal_pattern : regex := lit "FATAL EXCEPTION".
Definition cause_pattern : regex := seq_of [lit "EXCCAUSE"; spaces; number "cause"; spaces; lit "("; Named "detail" (some (none_of ")")); lit ")"].
Definition address (name : string) : regex := Named name (seq_of [lit "0x"; hexes]).
Definition pc_pattern : regex := seq_of [lit "PC"; spaces; address "pc"; spaces; lit "VADDR"; spaces; address "vaddr"].

(** [\n\s+<key>:\s+'?([^'\n]+)'?] *)
Definition info_pattern (key : string) (value : regex) : regex :=
  seq_of [Word [10]; spaces; lit key; lit ":"; spaces; optional (lit "'"); Named "value" value; optional (lit "'")].
Definition info_char (c : Z) : bool := negb ((c =? 39) || (c =? 10)).

(** [int(m.group(name))] for a group of digits. *)
Definition group_int (name : string) (cs : captures) : Z := default 0 (parse_int (group_text name cs)).
Definition hex_int (s : string) : Z :=
  fold_left (fun acc c => acc * 16 + (if ascii_digit c then c - 48 else if c <? 97 then c - 55 else c - 87)) (code_points s) 0.
Definition text (name : string) (cs : captures) : pyval := VStr (group_text name cs).
Definition opt_text (name : string) (cs : captures) : pyval := match group name cs with Some s => VStr s | None => VNone end.

(** [s.strip(c)] for a set of characters *)
Definition strip_of (chars s : string) : string :=
  let fix drop l := match l with c :: r => if one_of chars c then drop r else l | [] => [] end in
  of_code_points (rev (drop (rev (drop (code_points s))))).

Section Reading.
Context {FS : Files}.

(** [path.read_text(encoding="utf-8", errors="replace")], if it is a file. *)
Definition log_text (path : string) : option string :=
  option_map (fun bytes => decode_replace (unix_newlines bytes)) (file_at path).
Definition lines_at (path : string) : option (list (list Z)) :=
  option_map (fun text => CliAdapter.split_lines [] (code_points text)) (log_text path).

(** ** The build directory *)

Definition config_value (raw_value : string) : pyval :=
  if String.eqb raw_value "y" || String.eqb raw_value "n" then VStr raw_value
  else if negb (String.eqb raw_value "") && forallb ascii_digit (code_points raw_value) then
    VInt (default 0 (parse_int raw_value))
  else VStr (strip_of quote_mark raw_value).

Definition config_line (values : dict) (line : list Z) : dict :=
  match re_match unset_pattern line with
  | Some cs => if str_in (group_text "name" cs) CONFIG_KEYS then dset (KStr (group_text "name" cs)) (VStr "n") values else values
  | None =>
      match re_match set_pattern line with
      | Some cs =>
          if str_in (group_text "name" cs) CONFIG_KEYS
          then dset (KStr (group_text "name" cs)) (config_value (py_strip (group_text "value" cs))) values else values
      | None => values
      end
  end.
Definition parse_config (config_path : string) : dict := fold_left config_line (default [] (lines_at config_path)) [].

Definition parse_release_target (cli_path : string) : pyval :=
  match omap (fun line => re_match release_pattern (code_points (py_strip (of_code_points line)))) (default [] (lines_at cli_path)) with
  | cs :: _ => text "value" cs
  | [] => VNone
  end.

Definition build_info_patterns : list (string * regex) :=
  [("board", info_pattern "name" (some info_char)); ("board_qualifiers", info_pattern "qualifiers" (Many info_char));
   ("west_command", info_pattern "command" (some info_char)); ("zephyr_version", info_pattern "version" (some info_char))].
Definition parse_build_info (build_info_path : string) : dict :=
  match log_text build_info_path with
  | None => []
  | Some content =>
      dict_of (omap (fun kp => option_map (fun cs => (kp.1, text "value" cs)) (re_search kp.2 (code_points content))) build_info_patterns)
  end.

Definition infer_platform (config build_info : dict) : dict := dict_of
  [("board", por (dgetn "CONFIG_BOARD" config) (dgetn "board" build_info)); ("board_target", dgetn "CONFIG_BOARD_TARGET" config);
   ("board_qualifiers", por (dgetn "CONFIG_BOARD_QUALIFIERS" config) (dgetn "board_qualifiers" build_info));
   ("soc", dgetn "CONFIG_SOC" config)].

Definition config_on (key : string) (config : dict) : bool := eq_str (dgetn (KStr key) config) "y".

Definition infer_memory_capability (config : dict) (memory_provider : option string) : dict :=
  let esp_spiram_enabled := config_on "CONFIG_ESP_SPIRAM" config in
  let shared_multi_heap_enabled := config_on "CONFIG_SHARED_MULTI_HEAP" config in
  let external_heap_size_bytes := match dgetn "CONFIG_ESP_SPIRAM_HEAP_SIZE" config with VInt n => n | _ => 0 end in
  let provider :=
    match str_truthy memory_provider with
    | Some provider => provider
    | None => if esp_spiram_enabled then "esp-spiram" else if shared_multi_heap_enabled then "zephyr-shared-multi-heap" else "none"
    end in
  let prefer_external_staging :=
    config_on "CONFIG_NEUROLINK_APP_PREFER_EXTERNAL_ELF_BUFFER" config || config_on "CONFIG_NEUROLINK_APP_PREFER_PSRAM_ELF_BUFFER" config in
  dict_of
    [("provider", VStr provider);
     ("external_memory_configured", VBool (esp_spiram_enabled || shared_multi_heap_enabled || (0 <? external_heap_size_bytes)));
     ("external_heap_size_bytes", VInt external_heap_size_bytes); ("shared_multi_heap_enabled", VBool shared_multi_heap_enabled);
     ("esp_spiram_enabled", VBool esp_spiram_enabled); ("wifi_heap_external_enabled", VBool (config_on "CONFIG_ESP_WIFI_HEAP_SPIRAM" config));
     ("network_alloc_external_enabled", VBool (config_on "CONFIG_ESP32_WIFI_NET_ALLOC_SPIRAM" config));
     ("external_elf_staging_preferred", VBool prefer_external_staging);
     ("static_elf_staging_size_bytes", dget_or "CONFIG_NEUROLINK_APP_STATIC_ELF_BUFFER_SIZE" (VInt 0) config);
     ("policy_note", VStr (if prefer_external_staging then "external staging preferred by config"
                           else "external staging not preferred; static or malloc fallback remains active"))].

Record Section_ := { sc_index : Z; sc_name : string; sc_size : Z }.
Definition section_row (s : Section_) : dict :=
  dict_of [("index", VInt (sc_index s)); ("name", VStr (sc_name s)); ("size_bytes", VInt (sc_size s))].
Definition section_line (line : list Z) : option Section_ :=
  option_map (fun cs => {| sc_index := group_int "index" cs; sc_name := group_text "name" cs; sc_size := hex_int (group_text "size" cs) |})
    (re_match section_pattern line).
Definition section_total (sections : list Section_) (prefix : string) : Z :=
  fold_left (fun total s => if startswith (sc_name s) prefix then total + sc_size s else total) sections 0.
Definition parse_stat_sections (stat_path : string) : list Section_ * list (string * Z) :=
  let sections := omap section_line (default [] (lines_at stat_path)) in
  (sections, map (fun np => (np.1, section_total sections np.2)) SECTION_PREFIXES).

(** ** Logs *)

Definition build_row (cs : captures) : result dict :=
  let! used_percent := py_float (text "percent" cs) in
  Ok (dict_of [("region", VStr (py_strip (group_text "region" cs))); ("used_bytes", VInt (group_int "used" cs)); ("used_percent", VFloat used_percent);
               ("capacity_bytes", VInt (group_int "capacity" cs))]).
Definition build_line (line : list Z) : option captures :=
  match re_match normalized_pattern line with Some cs => Some cs | None => re_match zephyr_table_pattern line end.
Definition log_lines (log_path : option string) : list (list Z) :=
  match log_path with Some path => default [] (lines_at path) | None => [] end.
Definition parse_build_log (log_path : option string) : result (list dict) := rmap build_row (omap build_line (log_lines log_path)).

(** Each found item with the log it is from. *)
Definition items_of {A} (parse : list Z -> option A) (log_path : option string) : list (A * string) :=
  omap (fun line => option_map (fun item => (item, default "" log_path)) (parse (clean_log_line line))) (log_lines log_path).
(** The first of those with the same key. *)
Fixpoint first_seen {A} `{EqDecision A} (seen : list A) (l : list (A * string)) : list (A * string) :=
  match l with
  | [] => []
  | (item, source) :: r =>
      if bool_decide (item ∈ seen) then first_seen seen r else (item, source) :: first_seen (item :: seen) r
  end.

Record HeapSnapshot := { hs_scope : string; hs_stage : string; hs_path : option string; hs_free : Z; hs_allocated : Z; hs_max_allocated : Z }.
#[export] Instance HeapSnapshot_eq : EqDecision HeapSnapshot.
Proof. solve_decision. Defined.
Definition heap_snapshot (cs : captures) : HeapSnapshot :=
  {| hs_scope := group_text "scope" cs; hs_stage := group_text "stage" cs; hs_path := group "path" cs; hs_free := group_int "free" cs;
     hs_allocated := group_int "allocated" cs; hs_max_allocated := group_int "max_allocated" cs |}.
Definition snapshot_row (s : HeapSnapshot * string) : dict :=
  dict_of [("scope", VStr (hs_scope s.1)); ("stage", VStr (hs_stage s.1)); ("path", opt_str (hs_path s.1)); ("free_bytes", VInt (hs_free s.1));
           ("allocated_bytes", VInt (hs_allocated s.1)); ("max_allocated_bytes", VInt (hs_max_allocated s.1)); ("source_log", VStr s.2)].
Definition heap_line (line : list Z) : option HeapSnapshot := option_map heap_snapshot (re_search heap_pattern line).
Definition parse_runtime_heap_snapshots (log_paths : list (option string)) : list dict :=
  map snapshot_row (first_seen [] (List.concat (map (items_of heap_line) log_paths))).

Record StagingAllocation := { sa_path : string; sa_bytes : Z; sa_source : string; sa_provider : string }.
#[export] Instance StagingAllocation_eq : EqDecision StagingAllocation.
Proof. solve_decision. Defined.
Definition staging_line (line : list Z) : option StagingAllocation :=
  option_map (fun cs => {| sa_path := group_text "path" cs; sa_bytes := group_int "bytes" cs; sa_source := group_text "source" cs;
                           sa_provider := group_text "provider" cs |}) (re_search staging_pattern line).
Definition staging_row (s : StagingAllocation * string) : dict :=
  dict_of [("path", VStr (sa_path s.1)); ("size_bytes", VInt (sa_bytes s.1)); ("source", VStr (sa_source s.1)); ("provider", VStr (sa_provider s.1));
           ("source_log", VStr s.2)].
Definition parse_runtime_staging_allocations (log_paths : list (option string)) : list dict :=
  map staging_row (first_seen [] (List.concat (map (items_of staging_line) log_paths))).

Definition drop_notice (source_log : string) (line_no : Z) (line : list Z) : option dict :=
  option_map (fun cs => dict_of
    [("count", VInt (group_int "count" cs)); ("line", VInt line_no); ("source_log", VStr source_log);
     ("interpretation", VStr "zenoh_runtime_pressure_notice_not_evidence_loss")]) (re_search drop_pattern (clean_log_line line)).
Fixpoint numbered_lines {A} (f : Z -> list Z -> option A) (line_no : Z) (lines : list (list Z)) : list A :=
  match lines with
  | [] => []
  | line :: r => match f line_no line with Some x => x :: numbered_lines f (line_no + 1) r | None => numbered_lines f (line_no + 1) r end
  end.
Definition parse_runtime_drop_notices (log_paths : list (option string)) : list dict :=
  List.concat (map (fun log_path => numbered_lines (drop_notice (default "" log_path)) 1 (log_lines log_path)) log_paths).

(** The last line of the window that a pattern is found in. *)
Definition last_found (r : regex) (window : list (list Z)) : option captures := last (omap (re_search r) window).
Definition found_text (name : string) (o : option captures) : pyval := match o with Some cs => text name cs | None => VNone end.
Definition fatal_row (source_log : string) (line_no : Z) (window : list (list Z)) : dict :=
  let cause := last_found cause_pattern window in
  let pc := last_found pc_pattern window in
  dict_of [("line", VInt line_no); ("source_log", VStr source_log);
           ("cause", match cause with Some cs => VInt (group_int "cause" cs) | None => VNone end);
           ("cause_detail", found_text "detail" cause); ("pc", found_text "pc" pc); ("vaddr", found_text "vaddr" pc)].
Fixpoint fatal_rows (source_log : string) (line_no : Z) (lines : list (list Z)) : list dict :=
  match lines with
  | [] => []
  | line :: r =>
      match re_search fatal_pattern (clean_log_line line) with
      | Some _ => fatal_row source_log line_no (map clean_log_line (take 8 lines)) :: fatal_rows source_log (line_no + 1) r
      | None => fatal_rows source_log (line_no + 1) r
      end
  end.
Definition parse_runtime_fatal_exceptions (log_paths : list (option string)) : list dict :=
  List.concat (map (fun log_path => fatal_rows (default "" log_path) 1 (log_lines log_path)) log_paths).
End Reading.

(** ** Gates *)

Definition unless (b : bool) (name : string) : list string := if b then [] else [name].
Definition has_scope (scope : string) (snapshot : dict) : bool := eq_str (dgetn "scope" snapshot) scope.

Definition evaluate_runtime_evidence_gate (heap_snapshots staging_allocations : list dict) (required : bool) : dict :=
  let has_update_heap_snapshot := existsb (has_scope "update") heap_snapshots in
  let has_app_runtime_heap_snapshot := existsb (has_scope "app-runtime") heap_snapshots in
  let has_staging_allocation := (0 <? length staging_allocations)%nat in
  let missing := unless has_update_heap_snapshot "update_heap_snapshot" ++ unless has_app_runtime_heap_snapshot "app_runtime_heap_snapshot" ++
                 unless has_staging_allocation "staging_allocation" in
  dict_of [("required", VBool required); ("passed", VBool (length missing =? 0)%nat); ("missing", VList (vstrs missing));
           ("has_update_heap_snapshot", VBool has_update_heap_snapshot); ("has_app_runtime_heap_snapshot", VBool has_app_runtime_heap_snapshot);
           ("has_staging_allocation", VBool has_staging_allocation)].

Definition runtime_gate_missing_values (runtime_gate : dict) : list string :=
  match dget_or "missing" (VList []) runtime_gate with VList missing => map py_str missing | missing => [py_str missing] end.

Definition evaluate_external_staging_candidate_gate (memory_capability : dict) (staging_allocations : list dict) (required : bool) : dict :=
  let external_memory_configured := py_truthy (dgetn "external_memory_configured" memory_capability) in
  let external_staging_preferred := py_truthy (dgetn "external_elf_staging_preferred" memory_capability) in
  let external_allocations := List.filter (fun row => eq_str (dgetn "source" row) "external") staging_allocations in
  let has_external_staging_allocation := (0 <? length external_allocations)%nat in
  let providers := sorted_strings (remove_dups (omap (fun row =>
    let provider := dgetn "provider" row in if is_none provider then None else Some (py_str provider)) external_allocations)) in
  let missing := unless external_memory_configured "external_memory_configured" ++ unless external_staging_preferred "external_staging_preference" ++
                 unless has_external_staging_allocation "external_staging_allocation" in
  dict_of [("required", VBool required); ("passed", VBool (length missing =? 0)%nat); ("missing", VList (vstrs missing));
           ("external_memory_configured", VBool external_memory_configured); ("external_staging_preferred", VBool external_staging_preferred);
           ("has_external_staging_allocation", VBool has_external_staging_allocation); ("providers", VList (vstrs providers))].

(** ** The lines the firmware prints are read back *)

(** A printable text without spaces. *)
Definition printable (s : string) : Prop := s <> "" /\ Forall (fun b => 33 <= b <= 126) (bytes_of_string s).

Lemma scan_ascii l : Forall (fun b => 0 <= b < 128) l -> utf8_scan (length l) l = Some l.
Proof. induction 1 as [|b l Hb _ IH]; [done|]. cbn. rewrite (proj2 (Z.ltb_lt b 128)) by lia. by rewrite IH. Qed.
Lemma code_points_ascii s : ascii_str s -> code_points s = bytes_of_string s.
Proof. intros H. unfold code_points, code_points_of_bytes. by rewrite (scan_ascii _ H). Qed.
Lemma of_ascii s : ascii_str s -> of_code_points (bytes_of_string s) = s.
Proof.
  intros H. unfold of_code_points. replace (flat_map utf8_of_cp (bytes_of_string s)) with (bytes_of_string s);
    [apply string_of_bytes_of_string|]. induction H as [|b l Hb _ IH]; [done|]. cbn. unfold utf8_of_cp at 1.
  rewrite (proj2 (Z.ltb_lt b 128)) by lia. cbn. by f_equal.
Qed.

Lemma printable_ascii s : printable s -> ascii_str s.
Proof. intros [_ H]. eapply Forall_impl; [exact H|]. cbn. lia. Qed.
Lemma printable_token s : printable s -> exists c w, bytes_of_string s = c :: w /\ Forall (fun c => non_space c = true) (c :: w).
Proof.
  intros [Hne H]. destruct (bytes_of_string s) as [|c w] eqn:E.
  - destruct Hne. by rewrite <- (string_of_bytes_of_string s), E.
  - exists c, w. split; [done|]. eapply Forall_impl; [exact H|]. cbn beta. intros b Hb. unfold non_space, is_space. lia.
Qed.
Lemma numeral_digits z : 0 <= z -> exists c w, bytes_of_string (string_of_Z z) = c :: w /\ Forall (fun c => ascii_digit c = true) (c :: w).
Proof.
  intros (l & Hl & Hd & _ & Hlead)%string_of_nonneg. rewrite Hl. destruct l as [|c w]; [done|]. exists c, w. split; [done|].
  eapply Forall_impl; [exact Hd|]. cbn beta. intros b Hb. unfold ascii_digit. lia.
Qed.
Lemma printed_int z : 0 <= z -> parse_int (string_of_Z z) = Some z.
Proof.
  intros (l & Hl & Hn)%string_of_nonneg. rewrite <- (string_of_bytes_of_string (string_of_Z z)), Hl.
  exact (parse_int_numeral [] l z (or_introl eq_refl) Hn).
Qed.

Lemma token_read {B} name s rest cs (k : list Z -> captures -> option B) x : printable s -> stops non_space rest ->
  k rest ((name, bytes_of_string s) :: cs) = Some x -> rmatch (token name) (bytes_of_string s ++ rest) cs k = Some x.
Proof. intros (c & w & -> & Hw)%printable_token. by apply named_word. Qed.
Lemma number_read {B} name z rest cs (k : list Z -> captures -> option B) x : 0 <= z -> stops ascii_digit rest ->
  k rest ((name, bytes_of_string (string_of_Z z)) :: cs) = Some x ->
  rmatch (number name) (bytes_of_string (string_of_Z z) ++ rest) cs k = Some x.
Proof. intros (c & w & -> & Hw)%numeral_digits. by apply named_word. Qed.
Lemma lit_read {B} t rest cs (k : list Z -> captures -> option B) x : ascii_strb t = true -> k rest cs = Some x ->
  rmatch (lit t) (bytes_of_string t ++ rest) cs k = Some x.
Proof. intros Ht%ascii_strb_ok Hk. unfold lit. rewrite (code_points_ascii _ Ht). by rewrite word_read. Qed.

(** Read the next part of a pattern. *)
Ltac read_part :=
  lazymatch goal with
  | |- rmatch (Seq ?a ?b) ?s ?cs ?k = ?x => change (rmatch a s cs (fun s' cs' => rmatch b s' cs' k) = x)
  | |- rmatch (token _) _ _ _ = _ => apply token_read; [done|done|]
  | |- rmatch (number _) _ _ _ = _ => apply number_read; [done|done|]
  | |- rmatch (lit _) _ _ _ = _ => apply lit_read; [reflexivity|]
  end; cbv beta.

(** As [neuro_unit.c] and [app_runtime.c] format them. *)
Definition snapshot_line (s : HeapSnapshot) : string :=
  hs_scope s +:+ " heap snapshot stage=" +:+ hs_stage s +:+ match hs_path s with Some path => " path=" +:+ path | None => "" end +:+
  " free=" +:+ string_of_Z (hs_free s) +:+ " allocated=" +:+ string_of_Z (hs_allocated s) +:+
  " max_allocated=" +:+ string_of_Z (hs_max_allocated s).
Definition allocation_line (a : StagingAllocation) : string :=
  "app-runtime ELF staging allocation path=" +:+ sa_path a +:+ " bytes=" +:+ string_of_Z (sa_bytes a) +:+ " source=" +:+ sa_source a +:+
  " provider=" +:+ sa_provider a.

Record PrintedSnapshot (s : HeapSnapshot) : Prop := {
  ps_scope : hs_scope s = "update" \/ hs_scope s = "app-runtime";
  ps_stage : printable (hs_stage s);
  ps_path : forall path, hs_path s = Some path -> printable path;
  ps_numbers : 0 <= hs_free s /\ 0 <= hs_allocated s /\ 0 <= hs_max_allocated s;
}.
Record PrintedAllocation (a : StagingAllocation) : Prop := {
  pa_texts : printable (sa_path a) /\ printable (sa_source a) /\ printable (sa_provider a);
  pa_bytes : 0 <= sa_bytes a;
}.

Lemma search_first r s cs rest : rmatch r s [] found = Some (cs, rest) -> re_search r s = Some cs.
Proof. intros H. destruct s; cbn [re_search]; unfold re_match; by rewrite H. Qed.

(** No level comes first. *)
Lemma no_level r s cs (k : list Z -> captures -> option (captures * list Z)) x : head s <> Some 60 ->
  rmatch r s cs k = Some x -> rmatch (Seq log_level r) s cs k = Some x.
Proof.
  intros Hc H. assert (Hw : strip_word (code_points "<") s = None).
  { change (code_points "<") with [60]. destruct s as [|c s]; [done|]. cbn [strip_word head] in *.
    by rewrite (proj2 (Z.eqb_neq 60 c)) by congruence. }
  unfold log_level, optional, lit. cbn [seq_of rmatch]. by rewrite Hw.
Qed.

Ltac cbn_texts := cbn -[ascii_str of_code_points parse_int bytes_of_string string_of_Z].
Ltac read_groups :=
  cbn_texts; unfold group_int, group_text, group; cbn_texts; rewrite ?of_ascii by auto using printable_ascii, ascii_string_of_Z;
  rewrite ?printed_int by assumption; cbn_texts.

Lemma staging_line_read a : PrintedAllocation a -> staging_line (bytes_of_string (allocation_line a)) = Some a.
Proof.
  intros [(Hp & Hs & Hv) Hb]. destruct a as [path bytes source provider]; cbn in Hp, Hs, Hv, Hb.
  unfold staging_line. erewrite search_first.
  2:{ unfold allocation_line. cbn [sa_path sa_bytes sa_source sa_provider]. rewrite !bytes_of_string_app.
      rewrite <- (app_nil_r (bytes_of_string provider)). unfold staging_pattern. cbn [seq_of].
      apply no_level; [by vm_compute|]. repeat read_part. reflexivity. }
  read_groups. reflexivity.
Qed.

Lemma scope_read scope rest (k : list Z -> captures -> option (captures * list Z)) x :
  scope = "update" \/ scope = "app-runtime" -> k rest [("scope", bytes_of_string scope)] = Some x ->
  rmatch (Named "scope" (Alt (lit "update") (lit "app-runtime"))) (bytes_of_string scope ++ rest) [] k = Some x.
Proof.
  intros Hs Hk. change (rmatch (Alt (lit "update") (lit "app-runtime")) (bytes_of_string scope ++ rest) []
    (fun s' cs' => k s' (("scope", consumed (bytes_of_string scope ++ rest) s') :: cs')) = Some x).
  destruct Hs as [-> | ->]; [apply alt_left|rewrite alt_right by reflexivity]; (apply lit_read; [reflexivity|]); by rewrite consumed_app.
Qed.

Lemma path_read path rest cs (k : list Z -> captures -> option (captures * list Z)) x :
  (forall p, path = Some p -> printable p) ->
  k (bytes_of_string " free=" ++ rest) (match path with Some p => [("path", bytes_of_string p)] | None => [] end ++ cs) = Some x ->
  rmatch (optional (seq_of [lit " path="; token "path"]))
    (bytes_of_string (match path with Some p => " path=" +:+ p | None => "" end) ++ bytes_of_string " free=" ++ rest) cs k = Some x.
Proof.
  intros Hp Hk. unfold optional. destruct path as [p|].
  - apply alt_left. rewrite bytes_of_string_app, <- app_assoc. cbn [seq_of]. specialize (Hp p eq_refl). by repeat read_part.
  - rewrite alt_right by reflexivity. exact Hk.
Qed.

Lemma heap_line_read s : PrintedSnapshot s -> heap_line (bytes_of_string (snapshot_line s)) = Some s.
Proof.
  intros [Hscope Hst Hp (Hf & Ha & Hm)]. destruct s as [scope stage path free allocated max_allocated]; cbn in Hscope, Hst, Hp, Hf, Ha, Hm.
  unfold heap_line. erewrite search_first.
  2:{ unfold snapshot_line. cbn [hs_scope hs_stage hs_path hs_free hs_allocated hs_max_allocated]. rewrite !bytes_of_string_app.
      rewrite <- (app_nil_r (bytes_of_string (string_of_Z max_allocated))). unfold heap_pattern. cbn [seq_of].
      apply no_level; [by destruct Hscope as [-> | ->]; vm_compute|]. read_part. apply scope_read; [done|]. do 3 read_part.
      apply token_read; [done|by destruct path|]. read_part. apply path_read; [done|]. repeat read_part. reflexivity. }
  assert (ascii_str scope) by (destruct Hscope as [-> | ->]; ascii_lit). unfold heap_snapshot.
  destruct path as [path|]; [assert (printable path) by auto|]; read_groups; reflexivity.
Qed.

(** What the firmware prints about its heap and its staging buffers is what the collector reads: a printed line, parsed, gives
    back every field of the snapshot or of the allocation. *)
Theorem firmware_lines_read s a : PrintedSnapshot s -> PrintedAllocation a ->
  heap_line (code_points (snapshot_line s)) = Some s /\ staging_line (code_points (allocation_line a)) = Some a.
Proof.
  intros Hs Ha. assert (ascii_str (snapshot_line s) /\ ascii_str (allocation_line a)) as [Hs1 Ha1].
  { destruct Hs as [Hscope Hst Hp _], Ha as [(H1 & H2 & H3) _]. unfold snapshot_line, allocation_line.
    assert (ascii_str (hs_scope s)) by (destruct Hscope as [-> | ->]; ascii_lit). split.
    - repeat apply ascii_app; auto using printable_ascii, ascii_string_of_Z; try ascii_lit.
      destruct (hs_path s); [apply ascii_app; [ascii_lit|auto using printable_ascii]|ascii_lit].
    - repeat apply ascii_app; auto using printable_ascii, ascii_string_of_Z; ascii_lit. }
  rewrite !code_points_ascii by done. split; [by apply heap_line_read|by apply staging_line_read].
Qed.

Definition sample_snapshot : HeapSnapshot :=
  {| hs_scope := "app-runtime"; hs_stage := "after_load"; hs_path := Some "/SD:/demo.llext"; hs_free := 4096; hs_allocated := 128; hs_max_allocated := 256 |}.
Definition sample_allocation : StagingAllocation :=
  {| sa_path := "/SD:/demo.llext"; sa_bytes := 20480; sa_source := "external"; sa_provider := "esp-spiram" |}.

Lemma firmware_lines_read_witness :
  heap_line (code_points "app-runtime heap snapshot stage=after_load path=/SD:/demo.llext free=4096 allocated=128 max_allocated=256") =
    Some sample_snapshot /\
  staging_line (code_points "app-runtime ELF staging allocation path=/SD:/demo.llext bytes=20480 source=external provider=esp-spiram") =
    Some sample_allocation.
Proof.
  assert (Hp : forall s, forallb (fun b => (33 <=? b) && (b <=? 126)) (bytes_of_string s) = true -> s <> "" -> printable s).
  { intros s H Hne. split; [done|]. rewrite forallb_forall in H. apply Forall_forall. intros b Hb%list_elem_of_In%H. lia. }
  apply (firmware_lines_read sample_snapshot sample_allocation).
  - split; cbn [hs_scope hs_stage hs_path hs_free hs_allocated hs_max_allocated sample_snapshot];
      [by right|by apply Hp|intros p [= <-]; by apply Hp|lia].
  - split; cbn [sa_path sa_bytes sa_source sa_provider sample_allocation]; [split_and!; by apply Hp|lia].
Defined.

(** ** The report *)

Definition show_or_missing (key : string) (d : dict) : string := py_str (dget_or (KStr key) (VStr "missing") d).
Definition shown (key : string) (d : dict) : string := py_str (dgetn (KStr key) d).
Definition field (name value : string) : string := name +:+ "=" +:+ value.
Definition missing_field (name : string) (d : dict) : string := field name (show_or_missing name d).
Definition or_dash (s : string) : string := if String.eqb s "" then "-" else s.
Definition section_of (title absent : string) (rows : list string) : list string :=
  [""; "[" +:+ title +:+ "]"] ++ match rows with [] => [absent] | _ => rows end.
Definition sub_dict (key : string) (evidence : dict) : dict := match dgetn (KStr key) evidence with VDict d => d | _ => [] end.
Definition sub_rows (key : string) (evidence : dict) : list dict :=
  match dgetn (KStr key) evidence with VList l => omap (fun v => match v with VDict d => Some d | _ => None end) l | _ => [] end.

Definition build_summary_line (row : dict) : string :=
  shown "region" row +:+ "=" +:+ shown "used_bytes" row +:+ "B/" +:+ shown "capacity_bytes" row +:+ "B (" +:+
  match dgetn "used_percent" row with VFloat f => fixed2 f | v => py_str v end +:+ "%)".
Definition snapshot_summary_line (row : dict) : string :=
  shown "scope" row +:+ ":" +:+ shown "stage" row +:+ ":path=" +:+ py_str (por (dgetn "path" row) (VStr "-")) +:+ ":free=" +:+ shown "free_bytes" row +:+
  ":allocated=" +:+ shown "allocated_bytes" row +:+ ":max_allocated=" +:+ shown "max_allocated_bytes" row.
Definition staging_summary_line (row : dict) : string :=
  "path=" +:+ shown "path" row +:+ ":bytes=" +:+ shown "size_bytes" row +:+ ":source=" +:+ shown "source" row +:+ ":provider=" +:+ shown "provider" row.
Definition drop_count (row : dict) : Z := match dget_or "count" (VInt 0) row with VInt n => n | _ => 0 end.
Definition drop_summary_lines (rows : list dict) : list string :=
  match rows with
  | [] => []
  | _ => [field "count" (string_of_Z (Z.of_nat (length rows))); field "total_dropped_messages" (string_of_Z (fold_right Z.add 0 (map drop_count rows)));
          "interpretation=zenoh_runtime_pressure_notice_not_evidence_loss"] ++
         map (fun row => "line=" +:+ shown "line" row +:+ ":messages=" +:+ shown "count" row +:+ ":source_log=" +:+ shown "source_log" row) rows
  end.
Definition fatal_summary_lines (rows : list dict) : list string :=
  match rows with
  | [] => []
  | _ => field "count" (string_of_Z (Z.of_nat (length rows))) ::
         map (fun row => "line=" +:+ shown "line" row +:+ ":cause=" +:+ shown "cause" row +:+ ":detail=" +:+ shown "cause_detail" row +:+
           ":pc=" +:+ shown "pc" row +:+ ":vaddr=" +:+ shown "vaddr" row +:+ ":source_log=" +:+ shown "source_log" row) rows
  end.
Definition gate_lines (gate : dict) (verdicts : list string) : list string :=
  [missing_field "required" gate; missing_field "passed" gate; field "missing" (or_dash (join "," (runtime_gate_missing_values gate)))] ++
  map (fun name => missing_field name gate) verdicts.

(** [write_summary]: the lines of the summary. *)
Definition summary_lines (evidence : dict) (totals : list (string * Z)) : list string :=
  let config := sub_dict "config" evidence in
  let platform := sub_dict "platform" evidence in
  let memory_capability := sub_dict "memory_capability" evidence in
  let external_gate := sub_dict "external_staging_candidate_gate" evidence in
  [field "label" (shown "label" evidence); field "release_target" (shown "release_target" evidence); field "build_dir" (shown "build_dir" evidence); "";
   "[platform]"] ++ map (fun name => missing_field name platform) ["board"; "board_target"; "board_qualifiers"; "soc"] ++
  [""; "[memory_capability]"] ++
  map (fun name => missing_field name memory_capability)
    ["provider"; "external_memory_configured"; "external_heap_size_bytes"; "external_elf_staging_preferred"; "static_elf_staging_size_bytes"] ++
  [""; "[config]"] ++ map (fun key => missing_field key config) CONFIG_KEYS ++
  [""; "[section_totals_bytes]"] ++ map (fun kt => field kt.1 (string_of_Z kt.2)) (py_sorted name_leb totals) ++
  section_of "build_memory_summary" "not_available=provide --build-log or collect with --run-build"
    (map build_summary_line (sub_rows "build_memory_summary" evidence)) ++
  section_of "runtime_heap_snapshots" "not_available=provide --runtime-log or a build log with heap snapshots"
    (map snapshot_summary_line (sub_rows "runtime_heap_snapshots" evidence)) ++
  section_of "runtime_staging_allocations" "not_available=provide --runtime-log or a build log with staging allocation lines"
    (map staging_summary_line (sub_rows "runtime_staging_allocations" evidence)) ++
  section_of "runtime_drop_notices" "not_available=no dropped-message notices found in supplied logs"
    (drop_summary_lines (sub_rows "runtime_drop_notices" evidence)) ++
  section_of "runtime_fatal_exceptions" "not_available=no fatal exceptions found in supplied logs"
    (fatal_summary_lines (sub_rows "runtime_fatal_exceptions" evidence)) ++
  [""; "[runtime_evidence_gate]"] ++
  gate_lines (sub_dict "runtime_evidence_gate" evidence) ["has_update_heap_snapshot"; "has_app_runtime_heap_snapshot"; "has_staging_allocation"] ++
  [""; "[external_staging_candidate_gate]"] ++
  gate_lines external_gate ["external_memory_configured"; "external_staging_preferred"; "has_external_staging_allocation"] ++
  [field "providers" (match dget_or "providers" (VList []) external_gate with
                      | VList l => or_dash (join "," (map py_str l)) | v => py_str v end)].

(** ** The run *)

Record CollectArgs := {
  ga_build_dir : string; ga_output_dir : string; ga_label : string; ga_preset : string; ga_build_log : option string;
  ga_runtime_log : list string; ga_run_build : bool; ga_pristine_always : bool; ga_no_c_style_check : bool; ga_overlay_config : list string;
  ga_memory_provider : option string; ga_require_runtime_evidence : bool; ga_require_external_staging_evidence : bool;
}.

Definition build_command (a : CollectArgs) : list string :=
  ["bash"; "applocation/NeuroLink/scripts/build_neurolink.sh"; "--preset"; ga_preset a; "--build-dir"; ga_build_dir a] ++
  (if ga_no_c_style_check a then ["--no-c-style-check"] else []) ++ (if ga_pristine_always a then ["--pristine-always"] else []) ++
  flat_map (fun overlay_config => ["--overlay-config"; overlay_config]) (ga_overlay_config a).

Inductive Document := JsonDocument (v : dict) | TextDocument (s : string).
Record Collected := { cl_written : list (string * Document); cl_stdout : list string; cl_stderr : list string; cl_exit : Z }.

Definition safe_label (label : string) : string :=
  let kept := strip_of "-" (of_code_points (re_sub (some (fun c => negb (letter c || ascii_digit c || one_of "_.-" c))) "-" (code_points label))) in
  if String.eqb kept "" then "evidence" else kept.

Section Collecting.
Context {FS : Files} (resolve : string -> string) (root neuro_root now : string).

Definition display_path (path : option string) : pyval :=
  match path with None => VNone | Some path => VStr (default path (relative_to root path)) end.

(** The evidence of a build directory and logs. *)
Definition evidence_of (a : CollectArgs) (build_dir : string) (build_log_path : option string) (runtime_log_paths : list (option string))
    : result (dict * list (string * Z)) :=
  let config_path := path_join build_dir "zephyr/.config" in
  let stat_path := path_join build_dir "zephyr/zephyr.stat" in
  let build_info_path := path_join build_dir "build_info.yml" in
  let '(sections, totals) := parse_stat_sections stat_path in
  let build_info := parse_build_info build_info_path in
  let config := parse_config config_path in
  let heap_snapshots := parse_runtime_heap_snapshots runtime_log_paths in
  let staging_allocations := parse_runtime_staging_allocations runtime_log_paths in
  let memory_capability := infer_memory_capability config (ga_memory_provider a) in
  let! build_rows := parse_build_log build_log_path in
  Ok (dict_of
    [("schema_version", VInt 1); ("generated_at", VStr now); ("label", VStr (ga_label a));
     ("release_target", parse_release_target (path_join neuro_root "neuro_cli/src/neuro_cli.py")); ("build_dir", display_path (Some build_dir));
     ("paths", VDict (dict_of
        [("config", display_path (Some config_path)); ("zephyr_stat", display_path (Some stat_path)); ("build_info", display_path (Some build_info_path));
         ("build_log", display_path build_log_path); ("runtime_logs", VList (map display_path runtime_log_paths))]));
     ("build_info", VDict build_info); ("platform", VDict (infer_platform config build_info)); ("memory_capability", VDict memory_capability);
     ("config", VDict config); ("section_totals", VDict (dict_of (map (fun kt => (kt.1, VInt kt.2)) totals)));
     ("sections", VList (map (fun s => VDict (section_row s)) sections)); ("build_memory_summary", VList (map VDict build_rows));
     ("runtime_heap_snapshots", VList (map VDict heap_snapshots)); ("runtime_staging_allocations", VList (map VDict staging_allocations));
     ("runtime_drop_notices", VList (map VDict (parse_runtime_drop_notices runtime_log_paths)));
     ("runtime_fatal_exceptions", VList (map VDict (parse_runtime_fatal_exceptions runtime_log_paths)));
     ("runtime_evidence_gate", VDict (evaluate_runtime_evidence_gate heap_snapshots staging_allocations (ga_require_runtime_evidence a)));
     ("external_staging_candidate_gate", VDict (evaluate_external_staging_candidate_gate memory_capability staging_allocations
        (ga_require_external_staging_evidence a)))], totals).

Definition gate_passed (key : string) (evidence : dict) : bool := py_truthy (dgetn "passed" (sub_dict key evidence)).
Definition gate_failure (key : string) (evidence : dict) : string :=
  key +:+ "=failed missing=" +:+ join "," (runtime_gate_missing_values (sub_dict key evidence)).

(** [main], after the build; [log_path] is the log a build is written to. *)
Definition collect_evidence (a : CollectArgs) (build_dir output_dir log_path : string) : result Collected :=
  let build_log_path := match str_truthy (ga_build_log a) with Some path => resolve path | None => log_path end in
  let build_log_path :=
    match file_at build_log_path with None => if ga_run_build a then Some build_log_path else None | Some _ => Some build_log_path end in
  let runtime_log_paths := map (fun path => Some (resolve path)) (ga_runtime_log a) ++
                           match build_log_path with Some path => [Some path] | None => [] end in
  let! evidence := evidence_of a build_dir build_log_path runtime_log_paths in
  let '(evidence, totals) := evidence in
  let json_path := path_join output_dir (safe_label (ga_label a) +:+ ".json") in
  let summary_path := path_join output_dir (safe_label (ga_label a) +:+ ".summary.txt") in
  let nl := String newline "" in
  let refused :=
    if ga_require_runtime_evidence a && negb (gate_passed "runtime_evidence_gate" evidence) then Some "runtime_evidence_gate"
    else if ga_require_external_staging_evidence a && negb (gate_passed "external_staging_candidate_gate" evidence)
    then Some "external_staging_candidate_gate" else None in
  Ok {| cl_written := [(json_path, JsonDocument evidence); (summary_path, TextDocument (join nl (summary_lines evidence totals) +:+ nl))];
        cl_stdout := ["memory_evidence_json=" +:+ json_path; "memory_evidence_summary=" +:+ summary_path; "release_target=" +:+ shown "release_target" evidence;
                      "section_total_dram0=" +:+ string_of_Z (default 0 (assoc_s "dram0" totals))];
        cl_stderr := match refused with Some key => [gate_failure key evidence] | None => [] end;
        cl_exit := match refused with Some _ => 2 | None => 0 end |}.
End Collecting.

(** [main]; [run] is what the build prints and its return code. *)
Definition collect_main {FS : Files} (resolve : string -> string) (root neuro_root now : string) (run : list string -> string * Z) (a : CollectArgs)
    : result Collected :=
  let build_dir := resolve (path_join root (ga_build_dir a)) in
  let output_dir := resolve (path_join root (ga_output_dir a)) in
  let log_path := path_join output_dir (safe_label (ga_label a) +:+ ".build.log") in
  if ga_run_build a then
    let '(stdout, returncode) := run (build_command a) in
    if returncode =? 0 then
      let! report := collect_evidence (FS := fun path => if String.eqb path log_path then Some (bytes_of_string stdout) else file_at path)
        resolve root neuro_root now a build_dir output_dir log_path in
      Ok {| cl_written := (log_path, TextDocument stdout) :: cl_written report; cl_stdout := cl_stdout report; cl_stderr := cl_stderr report;
            cl_exit := cl_exit report |}
    else Ok {| cl_written := [(log_path, TextDocument stdout)]; cl_stdout := []; cl_stderr := [stdout]; cl_exit := returncode |}
  else collect_evidence resolve root neuro_root now a build_dir output_dir log_path.

(** A log given twice - a runtime log that is the build log too - is read twice: snapshots are kept once, but the notices of dropped
    messages and their total are counted again. *)
Example notices_counted_twice :
  let fs path := if String.eqb path "/run.log" then Some (bytes_of_string "--- 12 messages dropped ---") else None in
  map drop_count (parse_runtime_drop_notices (FS := fs) [Some "/run.log"; Some "/run.log"]) = [12; 12].
Proof. vm_compute. reflexivity. Qed.
