(* ===== verification/MemoryPlan.v ===== *)
(** * Memory layouts compared ([neuro_cli/src/neuro_cli.py]: the memory commands)

    Dumping the static layout of a build through the evidence collector, and
    planning an LLEXT memory configuration: a candidate layout against a
    baseline, with the runtime evidence the candidate carries.  The collector
    runs as a process of its own. *)

From Stdlib Require Import ZArith Lia Bool List Ascii String.
From Stdlib.Floats Require Import SpecFloat.
From stdpp Require Import base list option strings.
From S2P Require Import Prelude PyFloat Text PyValue JsonParse Json Store CliAdapter Protocol Artifact Workspace Reply UnitQuery UnitCommands MemoryEvidence.

#[local] Open Scope string_scope.
#[local] Open Scope Z_scope.
#[local] Open Scope list_scope.

(** ** The plan *)

Definition key_text (k : pykey) : option string := match k with KStr s => Some s | _ => None end.
Definition region_names (totals : dict) : list string := omap (fun kv => key_text kv.1) totals.
(** [int(totals.get(region, 0) or 0)] *)
Definition region_bytes (totals : dict) (region : string) : result Z := py_int (por (dget_or (KStr region) (VInt 0) totals) (VInt 0)).

Record Delta := { de_region : string; de_baseline : Z; de_candidate : Z }.
Definition delta_bytes (d : Delta) : Z := de_candidate d - de_baseline d.
Definition delta_row (d : Delta) : dict :=
  dict_of [("baseline_bytes", VInt (de_baseline d)); ("candidate_bytes", VInt (de_candidate d)); ("delta_bytes", VInt (delta_bytes d))].
Definition section_delta (baseline_totals candidate_totals : dict) (region : string) : result Delta :=
  let! baseline_value := region_bytes baseline_totals region in
  let! candidate_value := region_bytes candidate_totals region in
  Ok {| de_region := region; de_baseline := baseline_value; de_candidate := candidate_value |}.
Definition memory_section_deltas (baseline_totals candidate_totals : dict) : result (list Delta) :=
  rmap (section_delta baseline_totals candidate_totals)
    (sorted_strings (remove_dups (region_names baseline_totals ++ region_names candidate_totals))).

Definition internal_regions : list string := ["dram0"; "iram0"].
Definition find_delta (deltas : list Delta) (region : string) : option Delta := List.find (fun d => String.eqb (de_region d) region) deltas.
Definition regression_of (deltas : list Delta) (region : string) : option dict :=
  match find_delta deltas region with
  | Some d =>
      if 0 <? delta_bytes d then
        Some (dict_of [("region", VStr region); ("delta_bytes", VInt (delta_bytes d)); ("status", VStr "memory_regression")])
      else None
  | None => None
  end.

Definition layout_row (layout : dict) : dict :=
  dict_of [("status", VStr "ok"); ("label", dgetn "label" layout); ("release_target", dgetn "release_target" layout)].
Definition is_true (v : pyval) : bool := match v with VBool b => b | _ => false end.
Definition as_object (v : pyval) : option dict := match v with VDict d => Some d | _ => None end.
Definition gate_is_passed (candidate : dict) : bool :=
  match dget_or "runtime_evidence_gate" (VDict []) candidate with VDict gate => is_true (dgetn "passed" gate) | _ => false end.

(** What the plan decides. *)
Record Verdict := { ve_regressions : list dict; ve_dynamic_heap : bool; ve_gate_passed : bool }.
Definition static_layout_ok (v : Verdict) : bool := match ve_regressions v with [] => true | _ => false end.
Definition dynamic_heap_safe (v : Verdict) : bool := negb (ve_dynamic_heap v) || ve_gate_passed v.
Definition promotion_allowed (v : Verdict) : bool := static_layout_ok v && ve_gate_passed v && dynamic_heap_safe v.
Definition plan_status (v : Verdict) : string :=
  if negb (static_layout_ok v) then "memory_regression"
  else if ve_dynamic_heap v && negb (ve_gate_passed v) then "runtime_heap_dynamic_unsafe" else "ok".
Definition plan_next_action (v : Verdict) : string :=
  if ve_dynamic_heap v && negb (ve_gate_passed v) then "add explicit llext_heap_init wiring before hardware promotion"
  else if static_layout_ok v then "candidate can proceed to hardware runtime validation"
  else "reject or revise the candidate before hardware runtime validation".
Definition promotion_blockers (v : Verdict) : list string :=
  if promotion_allowed v then []
  else unless (static_layout_ok v) "memory_regression" ++ unless (dynamic_heap_safe v) "runtime_heap_dynamic_unsafe" ++
       unless (ve_gate_passed v) "runtime_evidence_required".

Definition verdict_of (deltas : list Delta) (candidate : dict) : Verdict :=
  let candidate_config := default [] (as_object (dget_or "config" (VDict []) candidate)) in
  {| ve_regressions := omap (regression_of deltas) internal_regions;
     ve_dynamic_heap := eq_str (dgetn "CONFIG_LLEXT_HEAP_DYNAMIC" candidate_config) "y"; ve_gate_passed := gate_is_passed candidate |}.

Definition build_llext_memory_config_plan (baseline candidate : dict) : result (Verdict * dict) :=
  match dget_or "section_totals" (VDict []) baseline, dget_or "section_totals" (VDict []) candidate with
  | VDict baseline_totals, VDict candidate_totals =>
      let! deltas := memory_section_deltas baseline_totals candidate_totals in
      let v := verdict_of deltas candidate in
      let candidate_config := default [] (as_object (dget_or "config" (VDict []) candidate)) in
      Ok (v, dict_of
        [("ok", VBool true); ("status", VStr (plan_status v)); ("baseline_layout", VDict (layout_row baseline));
         ("candidate_layout", VDict (layout_row candidate));
         ("section_deltas", VDict (dict_of (map (fun d => (de_region d, VDict (delta_row d))) deltas)));
         ("static_regressions", VList (map VDict (ve_regressions v))); ("memory_capability", dget_or "memory_capability" (VDict []) candidate);
         ("config", VDict candidate_config); ("dynamic_heap_enabled", VBool (ve_dynamic_heap v));
         ("runtime_evidence_gate", dget_or "runtime_evidence_gate" (VDict []) candidate); ("promotion_allowed", VBool (promotion_allowed v));
         ("promotion_blockers", VList (vstrs (promotion_blockers v))); ("next_action", VStr (plan_next_action v))])
  | _, _ => Raise (ValueError "parse_failed:section_totals must be objects")
  end.

(** ** Commands *)

Record LayoutArgs := {
  la_build_dir : string; la_output_dir : string; la_label : string; la_build_log : string; la_run_build : bool; la_no_c_style_check : bool }.

Definition partition (s : string) : string * string :=
  match split_on "="%char s with [] => ("", "") | key :: rest => (key, join "=" rest) end.
(** The paths the collector printed; the last of each counts. *)
Definition artifact_line (artifacts : dict) (line : string) : dict :=
  let '(key, value) := partition line in
  if String.eqb key "memory_evidence_json" then dset "json" (VStr value) artifacts
  else if String.eqb key "memory_evidence_summary" then dset "summary" (VStr value) artifacts else artifacts.
Definition artifact_paths (stdout : string) : dict := fold_left artifact_line (splitlines stdout) [].

Definition len_of (v : pyval) : result Z :=
  match v with
  | VList l => Ok (Z.of_nat (length l))
  | VDict d => Ok (Z.of_nat (length d))
  | VStr s => Ok (Z.of_nat (length (code_points s)))
  | _ => Raise (TypeError "object has no len()")
  end.

Section Commands.
Context {S : Type} {FS : Files} (exc_text : pyerr -> string) (cwd executable : string) (resolve : string -> string) (is_dir : string -> bool).
Context (run_collector : list string -> CommandExecutionResult).
Notation W := (CliWorld S).

Definition refuse (c : CommonArgs) (result : dict) (human_text : string) (code : Z) : eff W Z :=
  do! _ := (if json_output c then print_json result else print human_text) in eret code.

Definition collector_command (workspace_root neurolink_root build_dir output_dir : string) (l : LayoutArgs) : list string :=
  [executable; path_join neurolink_root "scripts/collect_neurolink_memory_evidence.py"; "--build-dir"; relative_workspace_path workspace_root build_dir;
   "--output-dir"; relative_workspace_path workspace_root output_dir; "--label"; la_label l] ++
  (if String.eqb (la_build_log l) "" then [] else ["--build-log"; la_build_log l]) ++
  (if la_run_build l then ["--run-build"] else []) ++ (if la_no_c_style_check l then ["--no-c-style-check"] else []).

Definition missing_inputs (workspace_root build_dir : string) : list dict :=
  omap (fun sp => if is_file sp.2 then None
                  else Some (dict_of [("status", VStr sp.1); ("path", VStr (relative_workspace_path workspace_root sp.2))]))
    [("config_missing", path_join build_dir "zephyr/.config"); ("zephyr_stat_missing", path_join build_dir "zephyr/zephyr.stat")].

Definition layout_row_of (workspace_root : string) (evidence artifacts : dict) : result dict :=
  let! section_count := len_of (dget_or "sections" (VList []) evidence) in
  Ok (dict_of
    [("ok", VBool true); ("status", VStr "ok"); ("label", dgetn "label" evidence); ("release_target", dgetn "release_target" evidence);
     ("build_dir", dgetn "build_dir" evidence); ("platform", dget_or "platform" (VDict []) evidence);
     ("memory_capability", dget_or "memory_capability" (VDict []) evidence); ("section_totals", dget_or "section_totals" (VDict []) evidence);
     ("section_count", VInt section_count);
     ("artifacts", VDict (map (fun kv => (kv.1, VStr (relative_workspace_path workspace_root (py_str kv.2)))) artifacts))]).

Definition read_evidence (path : string) : result dict :=
  match file_at path with
  | None => Raise (External "FileNotFoundError")
  | Some bytes =>
      let! text := read_text bytes in
      let! evidence := json_loads text in
      match evidence with VDict d => Ok d | _ => Raise (AttributeError "object has no attribute 'get'") end
  end.

Definition handle_memory_layout_dump (l : LayoutArgs) (c : CommonArgs) : eff W Z :=
  let workspace_root := workspace_root_of cwd (find_neurolink_root cwd) in
  let build_dir := resolve (resolve_workspace_path workspace_root (la_build_dir l)) in
  let output_dir := resolve (resolve_workspace_path workspace_root (la_output_dir l)) in
  match find_neurolink_root cwd with
  | None => eraise (TypeError "unsupported operand type(s) for /: 'NoneType' and 'str'")
  | Some neurolink_root =>
      if negb (is_dir build_dir) && negb (la_run_build l) then
        let next_action := "run workflow plan unit-build before dumping static layout" in
        refuse c (dict_of [("ok", VBool false); ("status", VStr "build_dir_missing");
                           ("build_dir", VStr (relative_workspace_path workspace_root build_dir)); ("next_action", VStr next_action)]) next_action 2
      else
        let missing := if la_run_build l then [] else missing_inputs workspace_root build_dir in
        match missing with
        | first :: _ =>
            let next_action := "inspect the Unit build output and rebuild if needed" in
            refuse c (dict_of [("ok", VBool false); ("status", dgetn "status" first); ("missing_inputs", VList (map VDict missing));
                               ("build_dir", VStr (relative_workspace_path workspace_root build_dir)); ("next_action", VStr next_action)]) next_action 2
        | [] =>
            let proc := run_collector (collector_command workspace_root neurolink_root build_dir output_dir l) in
            if negb (exit_code proc =? 0) then
              refuse c (dict_of [("ok", VBool false); ("status", VStr "collector_failed"); ("returncode", VInt (exit_code proc));
                                 ("stdout", VStr (stdout proc)); ("stderr", VStr (stderr proc))])
                (if String.eqb (stderr proc) "" then stdout proc else stderr proc) (exit_code proc)
            else
              let artifacts := artifact_paths (stdout proc) in
              match dgetn "json" artifacts with
              | VStr json_path =>
                  if String.eqb json_path "" then
                    refuse c (dict_of [("ok", VBool false); ("status", VStr "collector_output_missing"); ("stdout", VStr (stdout proc))])
                      "collector did not report memory_evidence_json" 2
                  else
                    do! evidence := elift (read_evidence json_path) in
                    do! result := elift (layout_row_of workspace_root evidence artifacts) in
                    do! _ := (if json_output c then print_json result
                              else
                                do! _ := print ("memory layout: " +:+ py_str (dgetn "status" result)) in
                                do! _ := print ("json: " +:+ py_str (dgetn "json" (sub_dict "artifacts" result))) in
                                print ("summary: " +:+ py_str (dgetn "summary" (sub_dict "artifacts" result)))) in
                    eret 0
              | _ => refuse c (dict_of [("ok", VBool false); ("status", VStr "collector_output_missing"); ("stdout", VStr (stdout proc))])
                       "collector did not report memory_evidence_json" 2
              end
        end
  end.

Definition load_memory_evidence_json (path : string) : result dict :=
  match file_at path with
  | None => Raise (External "FileNotFoundError")
  | Some bytes =>
      let! text := read_text bytes in
      match json_loads text with
      | Raise JSONDecodeError => Raise (ValueError ("parse_failed:" +:+ path +:+ ":" +:+ exc_text JSONDecodeError))
      | Raise e => Raise e
      | Ok (VDict payload) => Ok payload
      | Ok _ => Raise (ValueError ("parse_failed:" +:+ path +:+ ":expected object"))
      end
  end.

Definition first_missing (baseline_path candidate_path : string) : option (string * string) :=
  List.find (fun sp => negb (is_file sp.2)) [("baseline_layout_missing", baseline_path); ("candidate_layout_missing", candidate_path)].

Definition plan_of_files (baseline_path candidate_path : string) : result (Verdict * dict) :=
  let! baseline := load_memory_evidence_json baseline_path in
  let! candidate := load_memory_evidence_json candidate_path in
  build_llext_memory_config_plan baseline candidate.

Definition handle_llext_memory_config_plan (baseline_json candidate_json : string) (c : CommonArgs) : eff W Z :=
  let workspace_root := workspace_root_of cwd (find_neurolink_root cwd) in
  let baseline_path := resolve (resolve_workspace_path workspace_root baseline_json) in
  let candidate_path := resolve (resolve_workspace_path workspace_root candidate_json) in
  match first_missing baseline_path candidate_path with
  | Some (status, path) =>
      let next_action := "run memory layout-dump for the missing layout evidence" in
      refuse c (dict_of [("ok", VBool false); ("status", VStr status); ("path", VStr (relative_workspace_path workspace_root path));
                         ("next_action", VStr next_action)]) next_action 2
  | None =>
      match plan_of_files baseline_path candidate_path with
      | Raise exc =>
          if is_value_error exc then
            refuse c (dict_of [("ok", VBool false); ("status", VStr "parse_failed"); ("error", VStr (exc_text exc))])
              ("parse failed: " +:+ exc_text exc) 2
          else eraise exc
      | Ok (v, plan) =>
          let result := dset "artifacts" (VDict (dict_of
            [("baseline_json", VStr (relative_workspace_path workspace_root baseline_path));
             ("candidate_json", VStr (relative_workspace_path workspace_root candidate_path))])) plan in
          do! _ := (if json_output c then print_json result
                    else
                      do! _ := print ("llext memory config: " +:+ plan_status v) in
                      print ("promotion_allowed: " +:+ py_str (VBool (promotion_allowed v)))) in
          eret (exit_of (String.eqb (plan_status v) "ok"))
      end
  end.
End Commands.

(** ** What a promotion rests on *)

Lemma region_named totals region v : dget (KStr region) totals = Some v -> region ∈ region_names totals.
Proof.
  intros (k & Hk & Hin)%od_get_elem_of. apply list_elem_of_omap. exists (k, v). split; [done|].
  destruct k; cbn in *; congruence.
Qed.

Lemma region_absent totals region : region ∉ region_names totals -> region_bytes totals region = Ok 0.
Proof.
  intros H. unfold region_bytes, dget_or. destruct (dget (KStr region) totals) as [v|] eqn:E; [|done].
  by destruct H; eapply region_named.
Qed.

(** The delta of a region is found, unless neither layout names it. *)
Lemma delta_found baseline candidate deltas region : memory_section_deltas baseline candidate = Ok deltas ->
  exists b c, region_bytes baseline region = Ok b /\ region_bytes candidate region = Ok c /\
    match find_delta deltas region with Some d => d = {| de_region := region; de_baseline := b; de_candidate := c |} | None => b = 0 /\ c = 0 end.
Proof.
  intros H%rmap_ok_Forall2. unfold find_delta. destruct (List.find _ deltas) as [d|] eqn:E.
  - apply find_some in E as [Hin%list_elem_of_In Hr%String.eqb_eq]. apply list_elem_of_lookup in Hin as [i Hi].
    destruct (Forall2_lookup_r _ _ _ _ _ H Hi) as (r & _ & Hd). unfold section_delta in Hd.
    destruct (region_bytes baseline r) as [b|] eqn:Hb; [|done]. destruct (region_bytes candidate r) as [c|] eqn:Hc; [|done].
    cbn in Hd. injection Hd as <-. cbn in Hr. subst r. by exists b, c.
  - exists 0, 0. split_and!; [| |done..]; apply region_absent; intros Hin.
    all: assert (region ∈ sorted_strings (remove_dups (region_names baseline ++ region_names candidate))) as Hs
      by (unfold sorted_strings; rewrite elem_of_py_sorted, elem_of_remove_dups, elem_of_app; auto).
    all: apply list_elem_of_lookup in Hs as [i Hi]; destruct (Forall2_lookup_l _ _ _ _ _ H Hi) as (d & Hd & Hsd);
      pose proof (find_none _ _ E d ltac:(apply list_elem_of_In, list_elem_of_lookup; by exists i)) as Hne; cbn in Hne;
      unfold section_delta in Hsd; destruct (region_bytes baseline region); [|done]; destruct (region_bytes candidate region); [|done];
      cbn in Hsd; injection Hsd as <-; cbn in Hne; by rewrite String.eqb_refl in Hne.
Qed.

Definition layout_totals (layout : dict) : dict := match dget_or "section_totals" (VDict []) layout with VDict totals => totals | _ => [] end.
(** The region did not grow. *)
Definition no_growth (baseline candidate : dict) (region : string) : Prop :=
  exists b c, region_bytes (layout_totals baseline) region = Ok b /\ region_bytes (layout_totals candidate) region = Ok c /\ c <= b.

Lemma regressions_nil deltas baseline candidate : memory_section_deltas (layout_totals baseline) (layout_totals candidate) = Ok deltas ->
  omap (regression_of deltas) internal_regions = [] <-> Forall (no_growth baseline candidate) internal_regions.
Proof.
  intros Hd. assert (Hr : forall region, regression_of deltas region = None <-> no_growth baseline candidate region).
  { intros region. destruct (delta_found _ _ _ region Hd) as (b & c & Hb & Hc & Hf). unfold regression_of.
    transitivity (c <= b).
    - destruct (find_delta deltas region) as [d|]; [|destruct Hf as [-> ->]; done]. subst d. unfold delta_bytes. cbn [de_baseline de_candidate].
      destruct (Z.ltb_spec 0 (c - b)); split; (done || lia).
    - unfold no_growth. rewrite Hb, Hc. split; [intros; by exists b, c|intros (? & ? & [= ->] & [= ->] & ?); done]. }
  unfold internal_regions. cbn. rewrite !Forall_cons, <- !Hr. destruct (regression_of deltas "dram0"), (regression_of deltas "iram0"); naive_solver.
Qed.

Lemma gate_passed_iff snapshots allocations required :
  is_true (dgetn "passed" (evaluate_runtime_evidence_gate snapshots allocations required)) = true <->
  existsb (has_scope "update") snapshots = true /\ existsb (has_scope "app-runtime") snapshots = true /\ allocations <> [].
Proof.
  unfold evaluate_runtime_evidence_gate. destruct (existsb (has_scope "update") snapshots), (existsb (has_scope "app-runtime") snapshots), allocations;
    cbn; naive_solver.
Qed.

(** What the plan says, for any two layouts that have totals. *)
Lemma plan_verdict baseline candidate v plan :
  build_llext_memory_config_plan baseline candidate = Ok (v, plan) ->
  ve_gate_passed v = gate_is_passed candidate /\
  (promotion_allowed v = true <-> Forall (no_growth baseline candidate) internal_regions /\ gate_is_passed candidate = true) /\
  (promotion_allowed v = true <-> promotion_blockers v = []) /\ (promotion_allowed v = true -> plan_status v = "ok") /\
  dget "promotion_allowed" plan = Some (VBool (promotion_allowed v)).
Proof.
  intros H. assert (exists deltas, memory_section_deltas (layout_totals baseline) (layout_totals candidate) = Ok deltas /\
    v = verdict_of deltas candidate /\ dget "promotion_allowed" plan = Some (VBool (promotion_allowed v))) as (deltas & Hd & -> & Hplan).
  { unfold build_llext_memory_config_plan in H. unfold layout_totals. destruct (dget_or "section_totals" (VDict []) baseline); try done.
    destruct (dget_or "section_totals" (VDict []) candidate); try done. destruct (memory_section_deltas _ _) as [deltas|]; [|done].
    cbn [rbind] in H. apply Ok_inj, pair_equal_spec in H as [<- <-]. by exists deltas. }
  set (v := verdict_of deltas candidate) in *. change (gate_is_passed candidate) with (ve_gate_passed v).
  rewrite <- (regressions_nil _ _ _ Hd). change (omap (regression_of deltas) internal_regions) with (ve_regressions v).
  unfold promotion_blockers, plan_status. unfold promotion_allowed, static_layout_ok, dynamic_heap_safe in *.
  destruct (ve_regressions v), (ve_dynamic_heap v), (ve_gate_passed v); cbn in *; naive_solver.
Qed.

(** A layout as the plan reads it from the file that the collector wrote: [json.loads] of [json.dumps(evidence, sort_keys=True)]. *)
Section Collected.
Context {FS : Files} (root neuro_root now : string).

Definition collected (a : CollectArgs) (build_dir : string) (build_log : option string) (logs : list (option string)) (layout : dict) : Prop :=
  exists evidence totals, evidence_of root neuro_root now a build_dir build_log logs = Ok (evidence, totals) /\
    json_norm (VDict evidence) = Ok (VDict layout).

(** The bytes of the sections of a region in the linker's report of a build. *)
Definition region_size (build_dir prefix : string) : Z :=
  section_total (parse_stat_sections (path_join build_dir "zephyr/zephyr.stat")).1 prefix.

Lemma collected_gate a build_dir build_log logs layout : collected a build_dir build_log logs layout ->
  gate_is_passed layout = true <->
  existsb (has_scope "update") (parse_runtime_heap_snapshots logs) = true /\
  existsb (has_scope "app-runtime") (parse_runtime_heap_snapshots logs) = true /\ parse_runtime_staging_allocations logs <> [].
Proof.
  intros (evidence & totals & He & Hn). unfold evidence_of in He. destruct (parse_build_log build_log) as [rows|]; [|done].
  cbn [rbind] in He. destruct (parse_stat_sections _) as [sections sums]. apply Ok_inj, pair_equal_spec in He as [<- _].
  eapply (json_norm_get _ _ "runtime_evidence_gate") in Hn as (gate & Hg & Hl); [|nodup_lits|by dict_simpl].
  rewrite <- (gate_passed_iff _ _ (ga_require_runtime_evidence a)). unfold gate_is_passed, dget_or. rewrite Hl.
  pose proof (json_norm_dict _ _ Hg) as (kvs & -> & _).
  eapply (json_norm_get _ _ "passed") in Hg as (passed & Hp & Hgl); [|nodup_lits|unfold evaluate_runtime_evidence_gate; by dict_simpl].
  apply Ok_inj in Hp as <-. rewrite dgetn_eq, Hgl. unfold evaluate_runtime_evidence_gate. rewrite dgetn_eq. by dict_simpl.
Qed.

Lemma collected_region a build_dir build_log logs layout region prefix : collected a build_dir build_log logs layout ->
  (region, prefix) ∈ SECTION_PREFIXES -> region_bytes (layout_totals layout) region = Ok (region_size build_dir prefix).
Proof.
  intros (evidence & totals & He & Hn) Hin. unfold evidence_of in He. destruct (parse_build_log build_log) as [rows|]; [|done].
  unfold region_size. cbn [rbind] in He. destruct (parse_stat_sections _) as [sections sums] eqn:Est. cbn [fst].
  unfold parse_stat_sections in Est. apply pair_equal_spec in Est as [<- <-]. set (sections := omap _ _) in *.
  apply Ok_inj, pair_equal_spec in He as [<- _].
  eapply (json_norm_get _ _ "section_totals") in Hn as (t & Ht & Hl); [|nodup_lits|by dict_simpl].
  pose proof (json_norm_dict _ _ Ht) as (kvs & -> & _). unfold layout_totals, dget_or. rewrite Hl.
  assert (Hread : forall z, dget region (dict_of (map (fun kt => (kt.1, VInt kt.2))
                             (map (fun np => (np.1, section_total sections np.2)) SECTION_PREFIXES))) = Some (VInt z) ->
                           region_bytes (dupdate [] kvs) region = Ok z).
  { intros z Hz. eapply json_norm_get in Ht as (v & Hv & Hgl); [|unfold SECTION_PREFIXES; cbn [map]; nodup_lits|exact Hz].
    apply Ok_inj in Hv as <-. unfold region_bytes, dget_or. rewrite Hgl. unfold por. by destruct z. }
  apply Hread. unfold SECTION_PREFIXES in *. cbn [map fst snd].
  repeat (apply elem_of_cons in Hin as [[= -> ->]|Hin]; [by dict_simpl|]). by apply elem_of_nil in Hin.
Qed.
End Collected.

(** C39: for a baseline and a candidate layout as the plan reads them from the files the collector wrote for two builds, the candidate
    may be promoted exactly when neither internal region, dram0 nor iram0, takes more bytes in the linker's report than it did in the
    baseline, and the candidate's logs have all three kinds of evidence: a heap snapshot of an update, one of the application runtime,
    and a staging allocation. A promotion is the absence of blockers, its status is ok, and the plan says so. *)
Theorem promotion_needs_evidence FS1 FS2 root neuro_root now1 now2 a1 a2 build1 build2 log1 log2 logs1 logs2 baseline candidate v plan :
  collected (FS := FS1) root neuro_root now1 a1 build1 log1 logs1 baseline ->
  collected (FS := FS2) root neuro_root now2 a2 build2 log2 logs2 candidate ->
  build_llext_memory_config_plan baseline candidate = Ok (v, plan) ->
  (promotion_allowed v = true <->
     region_size (FS := FS2) build2 ".dram0" <= region_size (FS := FS1) build1 ".dram0" /\
     region_size (FS := FS2) build2 ".iram0" <= region_size (FS := FS1) build1 ".iram0" /\
     existsb (has_scope "update") (parse_runtime_heap_snapshots (FS := FS2) logs2) = true /\
     existsb (has_scope "app-runtime") (parse_runtime_heap_snapshots (FS := FS2) logs2) = true /\
     parse_runtime_staging_allocations (FS := FS2) logs2 <> []) /\
  (promotion_allowed v = true <-> promotion_blockers v = []) /\
  (promotion_allowed v = true -> plan_status v = "ok") /\
  dget "promotion_allowed" plan = Some (VBool (promotion_allowed v)).
Proof.
  intros Hb Hc H. apply plan_verdict in H as (_ & Hp & Hrest). split; [|exact Hrest]. rewrite Hp.
  rewrite (collected_gate _ _ _ _ _ _ _ _ Hc). unfold internal_regions. rewrite !Forall_cons, Forall_nil.
  assert (Hr : forall region prefix, (region, prefix) ∈ SECTION_PREFIXES ->
            no_growth baseline candidate region <-> region_size (FS := FS2) build2 prefix <= region_size (FS := FS1) build1 prefix).
  { intros region prefix Hin. unfold no_growth. rewrite (collected_region _ _ _ _ _ _ _ _ _ _ Hb Hin), (collected_region _ _ _ _ _ _ _ _ _ _ Hc Hin).
    split; [intros (? & ? & [= <-] & [= <-] & ?); done|intros; by eexists _, _]. }
  rewrite (Hr "dram0" ".dram0"), (Hr "iram0" ".iram0") by (unfold SECTION_PREFIXES; repeat first [left|right]; fail). tauto.
Qed.

(** ** A candidate that moved its staging buffer out *)

Definition lines_text (lines : list string) : option (list Z) := Some (bytes_of_string (join (String newline "") lines)).
Definition stat_line (index name size : string) : string :=
  "  [" +:+ index +:+ "] " +:+ name +:+ "   PROGBITS  3ffb0000 001000 " +:+ size +:+ " 00  WA  0   0  4".
(** The files of a build whose dram0 has [size] bytes (in hexadecimal), with the log of a run. *)
Definition build_files (size : string) (log : list string) : Files := fun path =>
  if String.eqb path "b/zephyr/.config" then lines_text ["CONFIG_LLEXT_HEAP_DYNAMIC=y"]
  else if String.eqb path "b/zephyr/zephyr.stat" then lines_text [stat_line " 1" ".iram0.text" "000400"; stat_line " 2" ".dram0.bss" size]
  else if String.eqb path "run.log" then lines_text log else None.
Definition sample_log : list string :=
  [snapshot_line {| hs_scope := "update"; hs_stage := "post"; hs_path := None; hs_free := 10; hs_allocated := 5; hs_max_allocated := 5 |};
   snapshot_line sample_snapshot; allocation_line sample_allocation].
Definition sample_collect : CollectArgs :=
  {| ga_build_dir := "b"; ga_output_dir := "o"; ga_label := "l"; ga_preset := "unit"; ga_build_log := None; ga_runtime_log := ["run.log"];
     ga_run_build := false; ga_pristine_always := false; ga_no_c_style_check := false; ga_overlay_config := []; ga_memory_provider := None;
     ga_require_runtime_evidence := true; ga_require_external_staging_evidence := false |}.
Definition layout_of_build (files : Files) : dict :=
  match evidence_of (FS := files) "" "" "now" sample_collect "b" None [Some "run.log"] with
  | Ok (evidence, _) => match json_norm (VDict evidence) with Ok (VDict layout) => layout | _ => [] end
  | Raise _ => []
  end.

Lemma layout_collected files : layout_of_build files <> [] ->
  collected (FS := files) "" "" "now" sample_collect "b" None [Some "run.log"] (layout_of_build files).
Proof.
  unfold layout_of_build, collected. destruct (evidence_of (FS := files) "" "" "now" sample_collect "b" None [Some "run.log"]) as [[evidence totals]|]; [|done].
  intros H. exists evidence, totals. split; [done|]. destruct (json_norm (VDict evidence)) as [[| | | | | | |layout]|]; done.
Qed.

Lemma promotion_needs_evidence_witness :
  match build_llext_memory_config_plan (layout_of_build (build_files "0007d0" [])) (layout_of_build (build_files "0003e8" sample_log)) with
  | Ok (v, plan) => promotion_allowed v = true /\ dget "promotion_allowed" plan = Some (VBool true)
  | Raise _ => False
  end /\
  match build_llext_memory_config_plan (layout_of_build (build_files "0007d0" [])) (layout_of_build (build_files "000bb8" [])) with
  | Ok (v, plan) => promotion_blockers v = ["memory_regression"; "runtime_heap_dynamic_unsafe"; "runtime_evidence_required"]
  | Raise _ => False
  end.
Proof.
  split; [|vm_compute; reflexivity].
  pose proof (layout_collected (build_files "0007d0" []) ltac:(vm_compute; discriminate)) as Hb.
  pose proof (layout_collected (build_files "0003e8" sample_log) ltac:(vm_compute; discriminate)) as Hc.
  destruct (build_llext_memory_config_plan _ _) as [[v plan]|e] eqn:E; [|exfalso; revert E; vm_compute; discriminate].
  destruct (promotion_needs_evidence _ _ _ _ _ _ _ _ _ _ _ _ _ _ _ _ v plan Hb Hc E) as ([_ Hp] & _ & _ & Hplan).
  assert (Hv : promotion_allowed v = true).
  { apply Hp. split; [vm_compute; discriminate|]. split; [vm_compute; discriminate|]. split; [vm_compute; reflexivity|].
    split; [vm_compute; reflexivity|]. vm_compute. discriminate. }
  rewrite Hplan, Hv. split; reflexivity.
Defined.
