(* ===== verification/ArgParse.v ===== *)
(** * Command lines ([argparse])

    What the command lines of [src/neuro_cli] use of Python's [argparse]: long
    options with a type, a choice or a switch, one positional argument or a table of
    subcommands, defaults, [set_defaults] and unambiguous abbreviations.  A parser is
    a value; parsing reads the tokens from left to right, as [parse_known_args]
    does, and ends with a namespace, the help text or a refusal, which exits with
    2.  Up to Python 3.11 every token is checked for ambiguity first, later ones
    only those that are consumed ([eager]).  A line with the token "--" is left
    open ([separated]): versions differ in where they drop it. *)

From Stdlib Require Import ZArith Lia Bool List Ascii String.
From Stdlib.Floats Require Import SpecFloat.
From stdpp Require Import base list option strings.
From S2P Require Import Prelude PyFloat Text PyValue.

#[local] Open Scope string_scope.
#[local] Open Scope Z_scope.
#[local] Open Scope list_scope.

(** ** Parsers *)

Inductive OptionKind := Text | Int | Float | Choice (choices : list string) | Switch.

Record CliOption := { op_flag : string; op_kind : OptionKind; op_required : bool; op_default : pyval }.

Definition opt (flag : string) (default : string) : CliOption :=
  {| op_flag := flag; op_kind := Text; op_required := false; op_default := VStr default |}.
Definition needs (flag : string) : CliOption :=
  {| op_flag := flag; op_kind := Text; op_required := true; op_default := VNone |}.
Definition opt_int (flag : string) (default : Z) : CliOption :=
  {| op_flag := flag; op_kind := Int; op_required := false; op_default := VInt default |}.
Definition opt_float (flag : string) (default : spec_float) : CliOption :=
  {| op_flag := flag; op_kind := Float; op_required := false; op_default := VFloat default |}.
Definition switch (flag : string) : CliOption :=
  {| op_flag := flag; op_kind := Switch; op_required := false; op_default := VBool false |}.

(** The attribute an option is stored under: its flag without the dashes, with "_" for "-". *)
Definition op_dest (o : CliOption) : string := replace_char "-"%char "_" (String.substring 2 (String.length (op_flag o)) (op_flag o)).

Inductive Parser :=
  | Parser_ (options : list CliOption) (positional : Positional) (set_defaults : list (string * pyval))
with Positional :=
  | NoPositional
  | OneOf (dest : string) (choices : list string)
  | Free (dest : string)
  | Remainder (dest : string)
  | Commands (dest : string) (table : list (string * Parser)).

Definition pa_options (p : Parser) : list CliOption := match p with Parser_ options _ _ => options end.
Definition pa_positional (p : Parser) : Positional := match p with Parser_ _ positional _ => positional end.
Definition pa_defaults (p : Parser) : list (string * pyval) := match p with Parser_ _ _ set_defaults => set_defaults end.

(** ** Tokens *)

(** [^-\d+$|^-\d*\.\d+$], for ASCII digits; [$] matches before a last newline. *)
Definition all_digits (l : list Z) : bool := forallb is_digit l.
Definition nonempty {A} (l : list A) : bool := match l with [] => false | _ => true end.
Fixpoint span (p : Z -> bool) (l : list Z) : list Z * list Z :=
  match l with b :: r => if p b then let '(a, c) := span p r in (b :: a, c) else ([], l) | [] => ([], []) end.
Definition drop_newline (l : list Z) : list Z :=
  match rev l with 10 :: r => rev r | _ => l end.
Definition negative_number (token : string) : bool :=
  match drop_newline (bytes_of_string token) with
  | 45 :: l =>
      let '(whole, rest) := span is_digit l in
      match rest with
      | [] => nonempty whole
      | 46 :: decimals => nonempty decimals && all_digits decimals
      | _ => false
      end
  | _ => false
  end.

(** [token.split("=", 1)] *)
Fixpoint split_eq (s : string) : option (string * string) :=
  match s with
  | EmptyString => None
  | String a s' =>
      if Ascii.eqb a "="%char then Some ("", s')
      else match split_eq s' with Some (flag, value) => Some (String a flag, value) | None => None end
  end.

Inductive Token :=
  | Argument                                             (* "A" *)
  | Known (o : CliOption) (explicit : option string)     (* an option, and what follows its "=" *)
  | HelpFlag (short : bool) (explicit : option string)
  | Unknown                                              (* looks like an option, but is none *)
  | Ambiguous.

Definition find_option (flag : string) (options : list CliOption) : option CliOption :=
  List.find (fun o => String.eqb (op_flag o) flag) options.

(** The option a flag names in full. *)
Definition exact (options : list CliOption) (flag : string) (explicit : option string) : option Token :=
  if String.eqb flag "-h" then Some (HelpFlag true explicit)
  else if String.eqb flag "--help" then Some (HelpFlag false explicit)
  else option_map (fun o => Known o explicit) (find_option flag options).

(** The options that begin with [flag]. *)
Definition abbreviated (options : list CliOption) (flag : string) (explicit : option string) : list Token :=
  (if startswith "--help" flag then [HelpFlag false explicit] else []) ++
  map (fun o => Known o explicit) (List.filter (fun o => startswith (op_flag o) flag) options).

(** [_get_option_tuples]: two dashes abbreviate, "-h" takes what follows as its argument. *)
Definition option_tuples (options : list CliOption) (token : string) : list Token :=
  if startswith token "--" then
    match split_eq token with
    | Some (flag, value) => abbreviated options flag (Some value)
    | None => abbreviated options token None
    end
  else if startswith token "-h" then [HelpFlag true (Some (String.substring 2 (String.length token) token))]
  else [].

(** [_parse_optional] *)
Definition classify (options : list CliOption) (token : string) : Token :=
  if negb (startswith token "-") then Argument
  else match exact options token None with
  | Some t => t
  | None =>
      if String.eqb token "-" then Argument
      else match (match split_eq token with Some (flag, value) => exact options flag (Some value) | None => None end) with
      | Some t => t
      | None =>
          match option_tuples options token with
          | [t] => t
          | _ :: _ :: _ => Ambiguous
          | [] => if negative_number token || py_contains token " " then Argument else Unknown
          end
      end
  end.

Definition is_argument (options : list CliOption) (token : string) : bool :=
  match classify options token with Argument => true | _ => false end.
Definition is_ambiguous (options : list CliOption) (token : string) : bool :=
  match classify options token with Ambiguous => true | _ => false end.

(** The value of an option: [type(text)], in its choices. *)
Definition convert (kind : OptionKind) (text : string) : option pyval :=
  match kind with
  | Text => Some (VStr text)
  | Int => match py_int (VStr text) with Ok z => Some (VInt z) | Raise _ => None end
  | Float => match py_float (VStr text) with Ok f => Some (VFloat f) | Raise _ => None end
  | Choice choices => if str_in text choices then Some (VStr text) else None
  | Switch => None
  end.

(** "-hhh" repeats the switch; anything else after a help flag is refused. *)
Definition help_granted (short : bool) (explicit : option string) : bool :=
  match explicit with
  | None => true
  | Some text => short && negb (String.eqb text "") && forallb (fun b => b =? 104) (bytes_of_string text)
  end.

(** ** Parsing *)

Inductive Outcome :=
  | Parsed (ns : dict) (extras : list string)
  | Help
  | Refused.

Record Scan := { sc_ns : dict; sc_seen : list string; sc_placed : bool; sc_extras : list string }.

(** The namespace before the first token: the defaults of the options, then those of [set_defaults]. *)
Definition positional_default (p : Positional) : list (string * pyval) :=
  match p with
  | NoPositional => []
  | OneOf dest _ | Free dest | Remainder dest | Commands dest _ => [(dest, VNone)]
  end.
Definition defaults_of (p : Parser) : dict :=
  fold_left (fun ns kv => dsetdefault (KStr kv.1) kv.2 ns)
    (map (fun o => (op_dest o, op_default o)) (pa_options p) ++ positional_default (pa_positional p) ++ pa_defaults p) [].
Definition start (p : Parser) : Scan :=
  {| sc_ns := defaults_of p; sc_seen := []; sc_placed := false; sc_extras := [] |}.

Definition stored (o : CliOption) (v : pyval) (s : Scan) : Scan :=
  {| sc_ns := dset (KStr (op_dest o)) v (sc_ns s); sc_seen := op_flag o :: sc_seen s; sc_placed := sc_placed s; sc_extras := sc_extras s |}.
Definition placed (dest : string) (v : pyval) (s : Scan) : Scan :=
  {| sc_ns := dset (KStr dest) v (sc_ns s); sc_seen := sc_seen s; sc_placed := true; sc_extras := sc_extras s |}.
Definition left_over (token : string) (s : Scan) : Scan :=
  {| sc_ns := sc_ns s; sc_seen := sc_seen s; sc_placed := sc_placed s; sc_extras := sc_extras s ++ [token] |}.

(** After the last token: the required arguments must have been seen; a remainder may be empty. *)
Definition finish (p : Parser) (s : Scan) : Outcome :=
  if forallb (fun o => negb (op_required o) || str_in (op_flag o) (sc_seen s)) (pa_options p) then
    if sc_placed s then Parsed (sc_ns s) (sc_extras s)
    else match pa_positional p with
         | NoPositional => Parsed (sc_ns s) (sc_extras s)
         | Remainder dest => Parsed (dset (KStr dest) (VList []) (sc_ns s)) (sc_extras s)
         | _ => Refused
         end
  else Refused.

Definition command_of (token : string) (table : list (string * Parser)) : option Parser :=
  option_map snd (List.find (fun kv => String.eqb kv.1 token) table).

(** The namespace of a subcommand is copied over that of its parent, with what it left over. *)
Definition adopted (ns : dict) (extras : list string) (s : Scan) : Scan :=
  {| sc_ns := dupdate (sc_ns s) ns; sc_seen := sc_seen s; sc_placed := true; sc_extras := sc_extras s ++ extras |}.

Section Scanning.
Context (eager : bool) (separated : list string -> Outcome).

Definition refused_early (p : Parser) (tokens : list string) : bool := eager && existsb (is_ambiguous (pa_options p)) tokens.

Fixpoint scan (p : Parser) (s : Scan) (tokens : list string) {struct tokens} : Outcome :=
  match tokens with
  | [] => finish p s
  | token :: rest =>
      match classify (pa_options p) token with
      | Argument =>
          if sc_placed s then scan p (left_over token s) rest
          else match pa_positional p with
          | NoPositional => scan p (left_over token s) rest
          | OneOf dest choices => if str_in token choices then scan p (placed dest (VStr token) s) rest else Refused
          | Free dest => scan p (placed dest (VStr token) s) rest
          | Remainder dest => finish p (placed dest (VList (map VStr (token :: rest))) s)
          | Commands dest table =>
              match command_of token table with
              | None => Refused
              | Some q =>
                  if refused_early q rest then Refused
                  else match scan q (start q) rest with
                       | Parsed ns extras => finish p (adopted ns extras (placed dest (VStr token) s))
                       | other => other
                       end
              end
          end
      | Known o explicit =>
          match op_kind o with
          | Switch => match explicit with None => scan p (stored o (VBool true) s) rest | Some _ => Refused end
          | kind =>
              match explicit with
              | Some text => match convert kind text with Some v => scan p (stored o v s) rest | None => Refused end
              | None =>
                  match rest with
                  | text :: rest' =>
                      if is_argument (pa_options p) text then
                        match convert kind text with Some v => scan p (stored o v s) rest' | None => Refused end
                      else Refused
                  | [] => Refused
                  end
              end
          end
      | HelpFlag short explicit => if help_granted short explicit then Help else Refused
      | Unknown => scan p (left_over token s) rest
      | Ambiguous => Refused
      end
  end.

(** [parser.parse_args(argv)]: nothing may be left over. *)
Definition parse_args (p : Parser) (argv : list string) : Outcome :=
  if str_in "--" argv then separated argv
  else if refused_early p argv then Refused
  else match scan p (start p) argv with
       | Parsed _ (_ :: _) => Refused
       | other => other
       end.
End Scanning.

(** ** The shape of a namespace

    Parsing never adds or removes a key: the namespace of a command line has the
    keys of the parsers on its path, each with a value of its kind. *)

Inductive Slot := Is (kind : OptionKind) | Exactly (v : pyval) | Texts.

Definition typed (kind : OptionKind) (v : pyval) : Prop :=
  match kind, v with
  | Text, VStr _ | Int, VInt _ | Float, VFloat _ | Switch, VBool _ => True
  | Choice choices, VStr t => str_in t choices = true
  | _, _ => False
  end.
#[export] Instance typed_dec kind v : Decision (typed kind v).
Proof. destruct kind, v; cbn; apply _. Defined.

Definition slot_ok (slot : Slot) (v : pyval) : Prop :=
  match slot with Is kind => typed kind v | Exactly w => v = w | Texts => exists l, v = VList (map VStr l) end.

Abbreviation Shape := (list (string * Slot)).
Definition shape_set (k : string) (slot : Slot) (sh : Shape) : Shape := od_set (fun s => s) k slot sh.
Definition shape_update (sh sh2 : Shape) : Shape := od_update (fun s => s) sh sh2.
Abbreviation shape_wf := (od_wf (fun s : string => s)).

Definition positional_shape (p : Positional) : Shape :=
  match p with
  | NoPositional => []
  | OneOf dest choices => [(dest, Is (Choice choices))]
  | Free dest | Commands dest _ => [(dest, Is Text)]
  | Remainder dest => [(dest, Texts)]
  end.
Definition own_shape (p : Parser) : Shape :=
  map (fun o => (op_dest o, Is (op_kind o))) (pa_options p) ++ positional_shape (pa_positional p) ++
  map (fun kv => (kv.1, Exactly kv.2)) (pa_defaults p).

(** The shapes of the lines a parser accepts, one for each path of commands. *)
Fixpoint shapes (p : Parser) : list Shape :=
  match p with
  | Parser_ options positional set_defaults =>
      let own := own_shape (Parser_ options positional set_defaults) in
      match positional with
      | Commands dest table =>
          flat_map (fun '(name, q) => map (shape_update (shape_set dest (Exactly (VStr name)) own)) (shapes q)) table
      | _ => [own]
      end
  end.

(** What the shapes rest on: no attribute has two owners, and defaults have the type of their option. *)
Definition own_wf (p : Parser) : bool :=
  bool_decide (NoDup (map fst (own_shape p))) &&
  forallb (fun o => op_required o || bool_decide (typed (op_kind o) (op_default o))) (pa_options p).
Fixpoint parser_wf (p : Parser) : bool :=
  match p with
  | Parser_ options positional set_defaults =>
      own_wf (Parser_ options positional set_defaults) &&
      match positional with Commands _ table => forallb (fun '(_, q) => parser_wf q) table | _ => true end
  end.

(** The entries of a namespace are those of the shape; [open k] excuses the value of [k]. *)
Definition Fits (open : string -> Prop) (sh : Shape) (ns : dict) : Prop :=
  Forall2 (fun slot entry => entry.1 = KStr slot.1 /\ (slot_ok slot.2 entry.2 \/ open slot.1)) sh ns.
Abbreviation Shaped := (Fits (fun _ => False)).

Lemma fits_weaken (open open' : string -> Prop) sh ns :
  (forall k, k ∈ map fst sh -> open k -> open' k) -> Fits open sh ns -> Fits open' sh ns.
Proof.
  intros H F. induction F as [|[k slot] entry sh ns [Hk Hv] F IH]; [constructor|]. constructor.
  - split; [done|]. destruct Hv as [?|Ho]; [by left|right]. apply H; [|done]. left.
  - apply IH. intros k' Hin. apply H. by right.
Qed.

Lemma fits_set (open open' : string -> Prop) sh ns k slot v :
  shape_wf sh -> Fits open sh ns -> slot_ok slot v -> (forall k', k' <> k -> open k' -> open' k') ->
  Fits open' (shape_set k slot sh) (dset (KStr k) v ns).
Proof.
  intros Hwf F Hv Ho. unfold shape_set, dset. induction F as [|[k1 slot1] [key v1] sh ns [Hk H1] F IH]; cbn in *.
  { constructor; [|constructor]. split; [done|by left]. }
  subst key. cbn. inversion_clear Hwf as [|? ? Hn Hnd]. destruct (decide (k1 = k)) as [->|Hne].
  - rewrite decide_True by done. constructor; [split; [done|by left]|].
    eapply fits_weaken; [|exact F]. intros k' Hin. apply Ho. intros ->. apply Hn. unfold od_keys.
    clear -Hin. induction sh as [|[a b] sh IH]; cbn in *; [by apply elem_of_nil in Hin|]. apply elem_of_cons in Hin as [->|Hin]; [left|right; auto].
  - rewrite decide_False by (cbn; congruence). constructor; [|by apply IH].
    split; [done|]. destruct H1 as [?|H1]; [by left|right; by apply Ho].
Qed.

Lemma fits_update (open : string -> Prop) sh ns sh2 ns2 :
  shape_wf sh -> Fits open sh ns -> Shaped sh2 ns2 -> Fits open (shape_update sh sh2) (dupdate ns ns2).
Proof.
  intros Hwf F F2. unfold shape_update, dupdate, od_update. revert sh ns Hwf F.
  induction F2 as [|[k slot] [key v] sh2 ns2 [Hk Hv] F2 IH]; intros sh ns Hwf F; [done|]. cbn in *. subst key.
  destruct Hv as [Hv|[]]. apply IH; [by apply od_set_wf|]. eapply (fits_set open open); eauto.
Qed.

(** ** Parsing keeps the shape *)

(** What may still be missing: a required option that was not seen, and the positional argument. *)
Definition pending (p : Parser) (s : Scan) (k : string) : Prop :=
  (exists o, o ∈ pa_options p /\ op_dest o = k /\ op_required o = true /\ str_in (op_flag o) (sc_seen s) = false) \/
  (sc_placed s = false /\ pa_positional p <> NoPositional /\ k ∈ map fst (positional_shape (pa_positional p))).

Definition InShape (p : Parser) (s : Scan) : Prop := Fits (pending p s) (own_shape p) (sc_ns s).

Lemma own_wf_inv p :
  own_wf p = true ->
  shape_wf (own_shape p) /\ forall o, o ∈ pa_options p -> op_required o = false -> typed (op_kind o) (op_default o).
Proof.
  intros [Hn Ht]%andb_prop. apply bool_decide_eq_true in Hn. split.
  - unfold od_wf, od_keys. by rewrite (map_ext _ fst).
  - intros o Ho Hr. rewrite forallb_forall in Ht. specialize (Ht o (proj1 (list_elem_of_In _ _) Ho)).
    rewrite Hr in Ht. by apply bool_decide_eq_true in Ht.
Qed.

Lemma parser_wf_own p : parser_wf p = true -> own_wf p = true.
Proof. destruct p. cbn. by intros [? _]%andb_prop. Qed.

Lemma parser_wf_sub p dest table token q :
  parser_wf p = true -> pa_positional p = Commands dest table -> command_of token table = Some q ->
  parser_wf q = true /\ (token, q) ∈ table.
Proof.
  intros Hw Hp Hc. destruct p as [options positional set_defaults]. cbn in Hp. subst positional. cbn in Hw.
  apply andb_prop in Hw as [_ Hw]. rewrite forallb_forall in Hw. unfold command_of in Hc.
  destruct (List.find _ table) as [[n q']|] eqn:E; [|done]. injection Hc as [= <-].
  apply find_some in E as [Hin Hn]. apply String.eqb_eq in Hn. cbn in Hn |- *. subst n.
  split; [exact (Hw _ Hin)|by apply list_elem_of_In].
Qed.

(** Defaults with different keys are set one after the other. *)
Lemma defaults_appended (l : list (string * pyval)) ns :
  NoDup (map fst l) -> (forall k, k ∈ map fst l -> dget (KStr k) ns = None) ->
  fold_left (fun ns kv => dsetdefault (KStr kv.1) kv.2 ns) l ns = ns ++ dict_of l.
Proof.
  revert ns. induction l as [|[k v] l IH]; intros ns Hn Hk; cbn; [by rewrite app_nil_r|]. cbn in Hn. inversion_clear Hn as [|? ? Hnin Hn'].
  assert (dget (KStr k) ns = None) as Hkn by (apply Hk; left).
  unfold dsetdefault at 2, dmem. rewrite Hkn.
  assert (dset (KStr k) v ns = ns ++ [(KStr k, v)]) as ->.
  { unfold dset. apply od_set_fresh, (proj1 (od_get_None _ _ _)), Hkn. }
  rewrite IH; [by rewrite <- app_assoc|done|]. intros k' Hin. unfold dget. rewrite od_get_app.
  fold (dget (KStr k') ns). rewrite Hk by (by right). change (dget (KStr k') [(KStr k, v)] = None).
  rewrite dget_cons_str. destruct (String.eqb_spec k k') as [->|]; [done|by rewrite dget_nil].
Qed.

Lemma own_keys p :
  map fst (map (fun o => (op_dest o, op_default o)) (pa_options p) ++ positional_default (pa_positional p) ++ pa_defaults p) =
  map fst (own_shape p).
Proof.
  unfold own_shape. rewrite !map_app, !map_map. f_equal. f_equal. by destruct (pa_positional p).
Qed.

Lemma start_in_shape p : own_wf p = true -> InShape p (start p).
Proof.
  intros Hw. destruct (own_wf_inv p Hw) as [_ Ht]. apply andb_prop in Hw as [Hn _]. apply bool_decide_eq_true in Hn.
  unfold InShape, start, defaults_of. cbn [sc_ns]. rewrite defaults_appended by (rewrite ?own_keys; done).
  cbn [app]. unfold own_shape, dict_of. rewrite !map_app. repeat apply Forall2_app.
  - rewrite map_map. apply Forall2_fmap_2, Forall_Forall2_diag, Forall_forall. intros o Ho. split; [done|]. cbn.
    destruct (op_required o) eqn:Hr; [right; left; by exists o|left; auto].
  - destruct (pa_positional p) eqn:E; cbn; [constructor|..]; (constructor; [|constructor]); (split; [done|]); right; right; rewrite E;
    (split_and!; [done..|left]).
  - apply Forall2_fmap_2, Forall_Forall2_diag, Forall_forall. intros kv _. split; [done|by left].
Qed.

Lemma own_slot p o : own_wf p = true -> o ∈ pa_options p -> shape_set (op_dest o) (Is (op_kind o)) (own_shape p) = own_shape p.
Proof.
  intros Hw Ho. destruct (own_wf_inv p Hw) as [Hs _].
  assert ((op_dest o, Is (op_kind o)) ∈ own_shape p) as Hin.
  { unfold own_shape. apply elem_of_app. left. apply (list_elem_of_fmap_2 (fun o => (op_dest o, Is (op_kind o)))). done. }
  revert Hin Hs. generalize (own_shape p). intros sh Hin. unfold shape_set. induction sh as [|[k slot] sh IH]; [by apply elem_of_nil in Hin|].
  intros Hs. inversion_clear Hs as [|? ? Hn Hs']. cbn. apply elem_of_cons in Hin as [[= <- <-]|Hin].
  - by rewrite decide_True.
  - rewrite decide_False; [by rewrite IH|]. intros ->. apply Hn. unfold od_keys.
    apply (list_elem_of_fmap_2 ((fun s : string => s) ∘ fst) _ _ Hin).
Qed.

Lemma stored_in_shape p s o v :
  own_wf p = true -> o ∈ pa_options p -> typed (op_kind o) v -> InShape p s -> InShape p (stored o v s).
Proof.
  intros Hw Ho Hv H. unfold InShape. rewrite <- (own_slot p o Hw Ho). cbn [stored sc_ns].
  eapply (fits_set (pending p s)); [apply own_wf_inv, Hw|exact H|exact Hv|]. intros k Hk [(o' & Hin & Hd & Hr & Hs)|Hp]; [left|by right].
  exists o'. split_and!; try done. cbn [stored sc_seen str_in existsb]. rewrite (proj2 (String.eqb_neq _ _)); [exact Hs|].
  intros Hf. apply Hk. rewrite <- Hd. unfold op_dest. by rewrite Hf.
Qed.

Lemma placed_in_shape (open' : string -> Prop) p s dest slot v sh :
  own_wf p = true -> slot_ok slot v -> InShape p s -> sh = shape_set dest slot (own_shape p) ->
  (forall k, k <> dest -> pending p s k -> open' k) -> Fits open' sh (sc_ns (placed dest v s)).
Proof. intros Hw Hv H -> Ho. cbn [placed sc_ns]. eapply fits_set; [apply own_wf_inv, Hw|exact H|exact Hv|exact Ho]. Qed.

Lemma positional_slot p dest slot :
  own_wf p = true -> (dest, slot) ∈ positional_shape (pa_positional p) -> shape_set dest slot (own_shape p) = own_shape p.
Proof.
  intros Hw Ho. destruct (own_wf_inv p Hw) as [Hs _].
  assert ((dest, slot) ∈ own_shape p) as Hin by (unfold own_shape; apply elem_of_app; right; apply elem_of_app; by left).
  revert Hin Hs. generalize (own_shape p). intros sh Hin. unfold shape_set. induction sh as [|[k slot'] sh IH]; [by apply elem_of_nil in Hin|].
  intros Hs. inversion_clear Hs as [|? ? Hn Hs']. cbn. apply elem_of_cons in Hin as [[= <- <-]|Hin].
  - by rewrite decide_True.
  - rewrite decide_False; [by rewrite IH|]. intros ->. apply Hn. unfold od_keys.
    apply (list_elem_of_fmap_2 ((fun s : string => s) ∘ fst) _ _ Hin).
Qed.

(** Nothing is missing from a line that is accepted. *)
Lemma finish_shaped p s sh ns extras :
  finish p s = Parsed ns extras -> Fits (pending p s) sh (sc_ns s) -> sc_placed s = true \/ pa_positional p = NoPositional ->
  ns = sc_ns s /\ Shaped sh ns.
Proof.
  unfold finish. intros H F Hp. destruct (forallb _ _) eqn:Hall; [|done]. rewrite forallb_forall in Hall.
  assert (ns = sc_ns s) as ->.
  { destruct Hp as [Hp|Hp]; rewrite Hp in H; [congruence|]. by destruct (sc_placed s); injection H. }
  split; [done|]. eapply fits_weaken; [|exact F]. intros k _ [(o & Hin & _ & Hr & Hs)|(Hpl & Hno & _)].
  - specialize (Hall o (proj1 (list_elem_of_In _ _) Hin)). by rewrite Hr, Hs in Hall.
  - by destruct Hp as [Hp|Hp]; [rewrite Hp in Hpl|].
Qed.

Definition commands_open (p : Parser) (s : Scan) : Prop :=
  match pa_positional p with Commands _ _ => sc_placed s = false | _ => True end.

Lemma shapes_own p : (match pa_positional p with Commands _ _ => False | _ => True end) -> shapes p = [own_shape p].
Proof. destruct p as [? [] ?]; done. Qed.

Lemma shapes_command p dest table name q sub :
  pa_positional p = Commands dest table -> (name, q) ∈ table -> sub ∈ shapes q ->
  shape_update (shape_set dest (Exactly (VStr name)) (own_shape p)) sub ∈ shapes p.
Proof.
  destruct p as [options positional set_defaults]. cbn [pa_positional]. intros -> Hin Hs. cbn [shapes].
  apply list_elem_of_In, in_flat_map. exists (name, q). split; [by apply list_elem_of_In|]. apply in_map. by apply list_elem_of_In.
Qed.

Lemma exact_option options flag e o e' : exact options flag e = Some (Known o e') -> o ∈ options.
Proof.
  unfold exact. destruct (String.eqb flag "-h"); [done|]. destruct (String.eqb flag "--help"); [done|].
  destruct (find_option flag options) as [o'|] eqn:E; [|done]. intros [= <- _]. by apply find_some in E as [Hin%list_elem_of_In _].
Qed.

Lemma abbreviated_option options flag e o e' : Known o e' ∈ abbreviated options flag e -> o ∈ options.
Proof.
  unfold abbreviated. rewrite elem_of_app. intros [H|H].
  - destruct (startswith _ _); [by apply list_elem_of_singleton in H|by apply elem_of_nil in H].
  - apply list_elem_of_fmap_1 in H as (o' & [= <- _] & Hin). apply list_elem_of_In, filter_In in Hin as [Hin _]. by apply list_elem_of_In.
Qed.

Lemma known_option options token o explicit : classify options token = Known o explicit -> o ∈ options.
Proof.
  unfold classify. destruct (negb _); [done|]. destruct (exact options token None) as [t|] eqn:E1.
  { intros ->. by apply exact_option in E1. }
  destruct (String.eqb token "-"); [done|].
  destruct (match split_eq token with Some (flag, value) => exact options flag (Some value) | None => None end) as [t|] eqn:E2.
  { intros ->. destruct (split_eq token) as [[flag value]|]; [|done]. by apply exact_option in E2. }
  destruct (option_tuples options token) as [|t [|t' l]] eqn:E3; [by destruct (_ || _)| |done].
  intros ->. assert (Known o explicit ∈ option_tuples options token) as Hin by (rewrite E3; left).
  unfold option_tuples in Hin. destruct (startswith token "--").
  - destruct (split_eq token) as [[flag value]|]; by apply abbreviated_option in Hin.
  - destruct (startswith token "-h"); [by apply list_elem_of_singleton in Hin|by apply elem_of_nil in Hin].
Qed.

Lemma converted kind text v : convert kind text = Some v -> typed kind v.
Proof.
  destruct kind; cbn; [by intros [= <-]|..|done].
  - destruct (match parse_int text with Some z => _ | None => _ end) as [z|e]; by intros [= <-].
  - destruct (match with_sign _ _ _ with Some f => _ | None => _ end) as [f|e]; by intros [= <-].
  - destruct (str_in text choices) eqn:E; [|done]. by intros [= <-].
Qed.

Lemma commands_stored p s o v : commands_open p s -> commands_open p (stored o v s).
Proof. unfold commands_open. by destruct (pa_positional p). Qed.

Lemma positional_dest p dest slot k :
  (dest, slot) ∈ positional_shape p -> k ∈ map fst (positional_shape p) -> k = dest.
Proof.
  destruct p; cbn; intros H Hk; [by apply elem_of_nil in H|..];
    apply list_elem_of_singleton in H as [= -> ->]; by apply list_elem_of_singleton in Hk.
Qed.

Lemma pending_placed p s dest slot v k :
  (dest, slot) ∈ positional_shape (pa_positional p) -> k <> dest -> pending p s k -> pending p (placed dest v s) k.
Proof. intros Hd Hk [?|(_ & _ & Hin)]; [by left|]. by destruct Hk; eapply positional_dest. Qed.

Lemma place_in_shape p s dest slot v :
  own_wf p = true -> (dest, slot) ∈ positional_shape (pa_positional p) -> slot_ok slot v -> InShape p s -> InShape p (placed dest v s).
Proof.
  intros Hw Hd Hv H. eapply placed_in_shape; [exact Hw|exact Hv|exact H| |].
  - symmetry. by apply positional_slot.
  - intros k Hk. by eapply pending_placed.
Qed.

Lemma finish_own p s ns extras :
  own_wf p = true -> InShape p s -> commands_open p s -> finish p s = Parsed ns extras -> exists sh, sh ∈ shapes p /\ Shaped sh ns.
Proof.
  intros Hw Hs Hc H.
  assert (forall s', InShape p s' -> sc_placed s' = true \/ pa_positional p = NoPositional -> finish p s' = Parsed ns extras ->
          (match pa_positional p with Commands _ _ => False | _ => True end) -> exists sh, sh ∈ shapes p /\ Shaped sh ns) as Hend.
  { intros s' Hs' Hp H' Hn. exists (own_shape p). rewrite shapes_own by done. split; [left|]. by eapply finish_shaped. }
  unfold commands_open in Hc. destruct (pa_positional p) as [|dest choices|dest|dest|dest table] eqn:Ep; [by eapply Hend; eauto|..];
    destruct (sc_placed s) eqn:Epl; try done; try (by eapply Hend; eauto);
    unfold finish in H; rewrite Epl, Ep in H; destruct (forallb _ _) eqn:Hall; try done.
  apply (Hend (placed dest (VList []) s)); [|by left| |done].
  - eapply (place_in_shape p s dest Texts); [done|rewrite Ep; left|by exists []|done].
  - unfold finish. cbn [placed sc_seen sc_placed sc_ns sc_extras]. by rewrite Hall.
Qed.

Section Shapes.
Context (eager : bool).

Definition shaped_from (n : nat) : Prop := forall tokens p s ns extras,
  (length tokens <= n)%nat -> parser_wf p = true -> InShape p s -> commands_open p s -> scan eager p s tokens = Parsed ns extras ->
  exists sh, sh ∈ shapes p /\ Shaped sh ns.

(** A subcommand: the rest of the line belongs to its parser. *)
Lemma command_shaped n rest p s dest table token ns extras :
  shaped_from n -> (length rest <= n)%nat -> parser_wf p = true -> InShape p s -> pa_positional p = Commands dest table ->
  match command_of token table with
  | None => Refused
  | Some q =>
      if refused_early eager q rest then Refused
      else match scan eager q (start q) rest with
           | Parsed ns extras => finish p (adopted ns extras (placed dest (VStr token) s))
           | other => other
           end
  end = Parsed ns extras ->
  exists sh, sh ∈ shapes p /\ Shaped sh ns.
Proof.
  intros IH Hlen Hw Hs Hp H. pose proof (parser_wf_own p Hw) as Hown.
  destruct (command_of token table) as [q|] eqn:Eq; [|done]. destruct (refused_early eager q rest); [done|].
  destruct (parser_wf_sub p dest table token q Hw Hp Eq) as [Hq Hin].
  destruct (scan eager q (start q) rest) as [ns' extras'| |] eqn:Es; [|done..].
  apply IH in Es as (sub & Hsub & Fsub); [|done|done|by apply start_in_shape, parser_wf_own|by unfold commands_open; destruct (pa_positional q)].
  eexists. split; [by eapply shapes_command|]. eapply finish_shaped; [exact H| |by left].
  cbn [adopted sc_ns]. apply fits_update; [by apply od_set_wf, own_wf_inv| |exact Fsub].
  eapply (placed_in_shape _ p s dest (Exactly (VStr token))); [exact Hown|done|exact Hs|done|]. intros k Hk Hpend.
  eapply (pending_placed p s dest (Is Text)); [rewrite Hp; left|exact Hk|exact Hpend].
Qed.

(** Whatever the tokens, the namespace has one of the shapes of its parser. *)
Lemma scan_shaped n : shaped_from n.
Proof.
  induction n as [n IHn] using lt_wf_ind. intros tokens p s ns extras Hlen Hw Hs Hc H.
  pose proof (parser_wf_own p Hw) as Hown.
  assert (forall rest s', (length rest < length tokens)%nat -> InShape p s' -> commands_open p s' -> scan eager p s' rest = Parsed ns extras ->
          exists sh, sh ∈ shapes p /\ Shaped sh ns) as Next.
  { intros rest s' Hl Hs' Hc' H'. eapply (IHn (length rest)); eauto; lia. }
  destruct tokens as [|token rest]; cbn [scan] in H; [by eapply finish_own|]. cbn [length] in *.
  destruct (classify (pa_options p) token) as [|o explicit|short explicit| |] eqn:Ecl.
  - destruct (sc_placed s) eqn:Epl; [by apply (Next rest (left_over token s)); [lia|..]|].
    destruct (pa_positional p) as [|dest choices|dest|dest|dest table] eqn:Ep.
    + by apply (Next rest (left_over token s)); [lia| | |].
    + destruct (str_in token choices) eqn:Ein; [|done]. apply (Next rest (placed dest (VStr token) s)); [lia| |by unfold commands_open; rewrite Ep|done].
      by eapply place_in_shape; [|rewrite Ep; left| |].
    + apply (Next rest (placed dest (VStr token) s)); [lia| |by unfold commands_open; rewrite Ep|done].
      by eapply place_in_shape; [|rewrite Ep; left| |].
    + eapply finish_own; [done| |by unfold commands_open; rewrite Ep|exact H].
      eapply (place_in_shape p s dest Texts); [done|rewrite Ep; left|by exists (token :: rest)|done].
    + eapply (command_shaped (length rest)); [apply IHn; lia|done..|exact H].
  - pose proof (known_option _ _ _ _ Ecl) as Ho.
    assert (forall text v rest', (length rest' < S (length rest))%nat -> convert (op_kind o) text = Some v ->
            scan eager p (stored o v s) rest' = Parsed ns extras -> exists sh, sh ∈ shapes p /\ Shaped sh ns) as Value.
    { intros text v rest' Hl Hv H'. eapply Next; [exact Hl| |by apply commands_stored|exact H'].
      apply stored_in_shape; [done|done|by eapply converted|done]. }
    assert (op_kind o = Switch \/ op_kind o <> Switch) as [Hk|Hk] by (destruct (op_kind o); [by right..|by left]).
    + rewrite Hk in H. destruct explicit; [done|]. eapply Next; [| |by apply commands_stored|exact H]; [lia|].
      apply stored_in_shape; [done|done|by rewrite Hk|done].
    + assert (match explicit with
              | Some text => match convert (op_kind o) text with Some v => scan eager p (stored o v s) rest | None => Refused end
              | None => match rest with
                        | text :: rest' => if is_argument (pa_options p) text then
                            match convert (op_kind o) text with Some v => scan eager p (stored o v s) rest' | None => Refused end else Refused
                        | [] => Refused
                        end
              end = Parsed ns extras) as H' by (destruct (op_kind o); done). clear H.
      destruct explicit as [text|].
      * destruct (convert (op_kind o) text) eqn:Ev; [|done]. eapply (Value text _ rest); [lia|exact Ev|exact H'].
      * destruct rest as [|text rest']; [done|]. destruct (is_argument _ _); [|done].
        destruct (convert (op_kind o) text) eqn:Ev; [|done]. eapply (Value text _ rest'); [cbn; lia|exact Ev|exact H'].
  - by destruct (help_granted short explicit).
  - by apply (Next rest (left_over token s)); [lia|..].
  - done.
Qed.
End Shapes.

Lemma parsed_shaped eager separated p argv ns extras :
  parser_wf p = true -> str_in "--" argv = false -> parse_args eager separated p argv = Parsed ns extras ->
  exists sh, sh ∈ shapes p /\ Shaped sh ns.
Proof.
  intros Hw Hsep H. unfold parse_args in H. rewrite Hsep in H. destruct (refused_early eager p argv); [done|].
  destruct (scan eager p (start p) argv) as [ns' [|? ?]| |] eqn:Es; [|done..]. injection H as [= -> <-].
  eapply (scan_shaped eager (length argv)); [done|exact Hw|by apply start_in_shape, parser_wf_own| |exact Es].
  unfold commands_open. by destruct (pa_positional p).
Qed.

Lemma parsed_whole eager separated p argv ns extras :
  str_in "--" argv = false -> parse_args eager separated p argv = Parsed ns extras -> extras = [].
Proof.
  intros Hsep H. unfold parse_args in H. rewrite Hsep in H. destruct (refused_early eager p argv); [done|].
  destruct (scan eager p (start p) argv) as [ns' [|? ?]| |]; [|done..]. by injection H as [= _ <-].
Qed.

(** [P] for every namespace of a shape, as a statement on the values in its slots. *)
Fixpoint every (sh : Shape) (P : dict -> Prop) : Prop :=
  match sh with
  | [] => P []
  | (k, slot) :: sh' =>
      let rest v := every sh' (fun ns => P ((KStr k, v) :: ns)) in
      match slot with
      | Is (Text | Choice _) => forall t, rest (VStr t)
      | Is Int => forall z, rest (VInt z)
      | Is Float => forall f, rest (VFloat f)
      | Is Switch => forall b, rest (VBool b)
      | Exactly v => rest v
      | Texts => forall l, rest (VList (map VStr l))
      end
  end.

Lemma every_shaped sh (P : dict -> Prop) ns : every sh P -> Shaped sh ns -> P ns.
Proof.
  intros H F. revert P H. induction F as [|[k slot] [key v] sh ns [Hk Hv] F IH]; intros P H; [exact H|]. cbn in Hk, Hv. subst key.
  destruct Hv as [Hv|[]]. apply (IH (fun ns => P ((KStr k, v) :: ns))). cbn [every] in H.
  destruct slot as [[]|w|]; cbn in Hv; [destruct v; try done; apply H..|by subst v|]. destruct Hv as [l ->]. apply H.
Qed.

(** It is enough to look at each shape of a parser. *)
Definition every_shape (p : Parser) (P : dict -> Prop) : Prop := foldr (fun sh Q => every sh P /\ Q) True (shapes p).

Lemma every_parsed (P : dict -> Prop) p sh ns : every_shape p P -> sh ∈ shapes p -> Shaped sh ns -> P ns.
Proof.
  unfold every_shape. induction (shapes p) as [|sh' l IH]; intros H Hin F; [by apply elem_of_nil in Hin|]. cbn in H. destruct H as [H Hl].
  apply elem_of_cons in Hin as [->|Hin]; [by eapply every_shaped|by apply IH].
Qed.

(** ** Walking down the tables *)

Section Walking.
Context (eager : bool).

(** The rest of a line, given to the parser of a subcommand. *)
Definition enter (p : Parser) (tokens : list string) : Outcome :=
  if refused_early eager p tokens then Refused else scan eager p (start p) tokens.

Definition outcome_map (w : dict -> dict) (o : Outcome) : Outcome :=
  match o with Parsed ns extras => Parsed (w ns) extras | other => other end.

(** The parser at the end of a path through groups, and what the path makes of its namespace. *)
Fixpoint follow (p : Parser) (path : list string) : option (Parser * (dict -> dict)) :=
  match path with
  | [] => Some (p, fun ns => ns)
  | name :: path' =>
      match p with
      | Parser_ [] (Commands dest table) [] =>
          if startswith name "-" then None
          else match command_of name table with
               | Some q =>
                   match follow q path' with
                   | Some (leaf, w) => Some (leaf, fun ns => dupdate [(KStr dest, VStr name)] (w ns))
                   | None => None
                   end
               | None => None
               end
      | _ => None
      end
  end.

Lemma classify_plain options token : startswith token "-" = false -> classify options token = Argument.
Proof. intros H. unfold classify. by rewrite H. Qed.

Lemma no_options_unambiguous token : is_ambiguous [] token = false.
Proof.
  unfold is_ambiguous, classify. destruct (negb _); [done|]. destruct (exact [] token None) as [t|] eqn:E.
  { unfold exact in E. destruct (String.eqb token "-h"); [by injection E as [= <-]|]. destruct (String.eqb token "--help"); [by injection E as [= <-]|done]. }
  clear E. destruct (String.eqb token "-"); [done|].
  destruct (match split_eq token with Some (flag, value) => exact [] flag (Some value) | None => None end) as [t|] eqn:E.
  { destruct (split_eq token) as [[flag value]|]; [|done]. unfold exact in E. destruct (String.eqb flag "-h"); [by injection E as [= <-]|].
    destruct (String.eqb flag "--help"); [by injection E as [= <-]|done]. }
  unfold option_tuples. destruct (startswith token "--").
  - destruct (split_eq token) as [[flag value]|]; unfold abbreviated; destruct (startswith _ _); cbn; try done; by destruct (_ || _).
  - destruct (startswith token "-h"); [done|]. by destruct (_ || _).
Qed.

Lemma refused_early_none dest table defaults tokens : refused_early eager (Parser_ [] (Commands dest table) defaults) tokens = false.
Proof.
  unfold refused_early. apply andb_false_iff. right. cbn [pa_options]. induction tokens as [|token tokens IH]; [done|]. cbn [existsb].
  by rewrite no_options_unambiguous.
Qed.

(** A plain token where a command is expected. *)
Lemma scan_command p s dest table name q rest :
  pa_positional p = Commands dest table -> sc_placed s = false -> startswith name "-" = false -> command_of name table = Some q ->
  scan eager p s (name :: rest) =
  match enter q rest with
  | Parsed ns extras => finish p (adopted ns extras (placed dest (VStr name) s))
  | other => other
  end.
Proof.
  intros Hp Hs Hn Hq. cbn [scan]. rewrite classify_plain, Hs, Hp, Hq by done. unfold enter. by destruct (refused_early eager q rest).
Qed.

Lemma follow_enter p path q w rest :
  follow p path = Some (q, w) -> enter p (path ++ rest) = outcome_map w (enter q rest).
Proof.
  revert p w. induction path as [|name path IH]; intros p w H.
  { injection H as [= -> <-]. cbn. by destruct (enter q rest). }
  destruct p as [[|] [| | | |dest table] [|]]; try done. cbn [follow] in H. destruct (startswith name "-") eqn:En; [done|].
  destruct (command_of name table) as [q'|] eqn:Eq; [|done]. destruct (follow q' path) as [[leaf w']|] eqn:Ef; [|done].
  injection H as [= -> <-]. unfold enter at 1. rewrite refused_early_none. cbn [app].
  rewrite (scan_command _ _ dest table name q') by done. rewrite (IH _ _ Ef). destruct (enter q rest) as [ns extras| |]; [|done..].
  assert (sc_ns (placed dest (VStr name) (start (Parser_ [] (Commands dest table) []))) = [(KStr dest, VStr name)]) as E.
  { cbn [placed start sc_ns]. unfold defaults_of, dset. cbn. by rewrite decide_True. }
  cbn [outcome_map]. unfold finish, adopted. cbn [sc_ns sc_placed sc_extras forallb pa_options]. by rewrite E.
Qed.

(** Options with their values, in front of a command. *)
Inductive Given (options : list CliOption) : list string -> Prop :=
  | given_none : Given options []
  | given_value flag value o tokens :
      classify options flag = Known o None -> op_kind o <> Switch -> is_argument options value = true -> Given options tokens ->
      Given options (flag :: value :: tokens)
  | given_inline token text o tokens : classify options token = Known o (Some text) -> Given options tokens -> Given options (token :: tokens)
  | given_switch flag o tokens : classify options flag = Known o None -> op_kind o = Switch -> Given options tokens -> Given options (flag :: tokens).

(** They are read, or refused, before what follows is looked at. *)
Lemma given_read p s tokens :
  own_wf p = true -> InShape p s -> Given (pa_options p) tokens ->
  (forall rest, scan eager p s (tokens ++ rest) = Refused) \/
  exists s', InShape p s' /\ sc_placed s' = sc_placed s /\ sc_extras s' = sc_extras s /\ (forall rest, scan eager p s (tokens ++ rest) = scan eager p s' rest).
Proof.
  intros Hw Hs G. revert s Hs. induction G as [|flag value o tokens Hc Hk Ha G IH|token text o tokens Hc G IH|flag o tokens Hc Hk G IH]; intros s Hs;
    [right; by exists s|..]; pose proof (known_option _ _ _ _ Hc) as Ho.
  - destruct (convert (op_kind o) value) as [v|] eqn:Ev.
    + destruct (IH (stored o v s)) as [H|(s' & H1 & H2 & H3 & H4)]; [by apply stored_in_shape; [| |eapply converted|]|left|right; exists s'; split_and!; try done];
        intros rest; cbn [app scan]; rewrite Hc; destruct (op_kind o) eqn:E; try done; rewrite Ha, Ev; auto.
    + left. intros rest. cbn [app scan]. rewrite Hc. destruct (op_kind o) eqn:E; try done; by rewrite Ha, Ev.
  - destruct (op_kind o) eqn:Ek; destruct (convert (op_kind o) text) as [v|] eqn:Ev; rewrite Ek in Ev;
      try (left; intros rest; cbn [app scan]; rewrite Hc, Ek; try rewrite Ev; done);
      (destruct (IH (stored o v s)) as [H|(s' & H1 & H2 & H3 & H4)];
       [apply stored_in_shape; try done; rewrite Ek; by eapply converted
       |left; intros rest; cbn [app scan]; rewrite Hc, Ek, Ev; auto
       |right; exists s'; split_and!; try done; intros rest; cbn [app scan]; rewrite Hc, Ek, Ev; auto]).
  - destruct (IH (stored o (VBool true) s)) as [H|(s' & H1 & H2 & H3 & H4)]; [by apply stored_in_shape; rewrite ?Hk|left|right; exists s'; split_and!; try done];
      intros rest; cbn [app scan]; rewrite Hc, Hk; auto.
Qed.
End Walking.
