(* ===== verification/CommandTables.v ===== *)
(** * The argument tables of the command lines

    The parsers that [neuro_cli.py] and [invoke_neuro_cli.py] build, command by
    command: [add_legacy_commands] and [add_grouped_alias_commands] write most
    commands twice, and so does this file.  A handler is named in the namespace
    by its function, under "handler". *)

From Stdlib Require Import ZArith Lia Bool List Ascii String.
From Stdlib.Floats Require Import SpecFloat.
From stdpp Require Import base list option strings.
From S2P Require Import Prelude PyFloat Text PyValue Catalog ArgParse.

#[local] Open Scope string_scope.
#[local] Open Scope Z_scope.
#[local] Open Scope list_scope.

Definition DEFAULT_CHUNK_SIZE : Z := 1024.
Definition DEFAULT_PRIORITY : Z := 50.
Definition DEFAULT_SESSION_OPEN_RETRIES : Z := 3.
Definition DEFAULT_SESSION_OPEN_BACKOFF_MS : Z := 500.
Definition DEFAULT_QUERY_RETRIES : Z := 3.
Definition DEFAULT_QUERY_RETRY_BACKOFF_MS : Z := 250.
Definition DEFAULT_QUERY_RETRY_BACKOFF_MAX_MS : Z := 2000.
Definition DEFAULT_HANDLER_MAX_EVENT_BYTES : Z := 65536.
Definition DEFAULT_HANDLER_MAX_OUTPUT_BYTES : Z := 16384.
Definition DEFAULT_SERIAL_BAUDRATE : Z := 115200.
Definition EVENT_SUBSCRIPTION_PUMP_INTERVAL_SEC : spec_float := flit 1 0.
Definition DEFAULT_HANDLER_TIMEOUT_SEC : spec_float := flit 5 0.
Definition DEFAULT_SERIAL_TIMEOUT_SEC : spec_float := flit 5 0.
Definition DEFAULT_SERIAL_SETTLE_SEC : spec_float := flit 2 1.

(** [set_defaults(handler=...)], for a command that opens a session and for one that opens none. *)
Definition handled_by (handler : string) : list (string * pyval) := [("handler", VStr handler)].
Definition without_session (handler : string) : list (string * pyval) := handled_by handler ++ [("requires_session", VBool false)].

Definition group (dest : string) (table : list (string * Parser)) : Parser := Parser_ [] (Commands dest table) [].
Definition plain (options : list CliOption) (defaults : list (string * pyval)) : Parser := Parser_ options NoPositional defaults.

Definition choice_of (flag : string) (choices : list string) (required : bool) (default : pyval) : CliOption :=
  {| op_flag := flag; op_kind := Choice choices; op_required := required; op_default := default |}.

Definition add_serial_parser_arguments : list CliOption :=
  [opt "--port" ""; opt_int "--baudrate" DEFAULT_SERIAL_BAUDRATE; opt_float "--serial-timeout" DEFAULT_SERIAL_TIMEOUT_SEC;
   opt_float "--serial-settle-sec" DEFAULT_SERIAL_SETTLE_SEC].

Definition add_common_parser_arguments : list CliOption :=
  [opt "--node" "unit-01"; opt "--source-core" "core-cli"; opt "--source-agent" "rational"; opt_float "--timeout" (flit 10 0);
   opt "--request-id" ""; opt_int "--priority" DEFAULT_PRIORITY; opt "--idempotency-key" "";
   choice_of "--output" ["human"; "json"; "jsonl"] false (VStr "human"); switch "--dry-run"; opt "--zenoh-log-level" "";
   opt_int "--session-open-retries" DEFAULT_SESSION_OPEN_RETRIES;
   opt_int "--session-open-backoff-ms" DEFAULT_SESSION_OPEN_BACKOFF_MS; opt_int "--query-retries" DEFAULT_QUERY_RETRIES;
   opt_int "--query-retry-backoff-ms" DEFAULT_QUERY_RETRY_BACKOFF_MS;
   opt_int "--query-retry-backoff-max-ms" DEFAULT_QUERY_RETRY_BACKOFF_MAX_MS;
   opt_float "--event-pump-interval-sec" EVENT_SUBSCRIPTION_PUMP_INTERVAL_SEC].

Definition add_event_handler_arguments : list CliOption :=
  [opt "--handler-command" ""; opt "--handler-python" ""; opt_float "--handler-timeout" DEFAULT_HANDLER_TIMEOUT_SEC;
   opt "--handler-cwd" ""; opt_int "--handler-max-event-bytes" DEFAULT_HANDLER_MAX_EVENT_BYTES;
   opt_int "--handler-max-output-bytes" DEFAULT_HANDLER_MAX_OUTPUT_BYTES; opt_int "--max-events" 0].

(** ** [add_legacy_commands] *)

Definition query : Parser := Parser_ [] (OneOf "kind" ["device"; "apps"; "leases"]) (handled_by "handle_query").
Definition lease_acquire : Parser :=
  plain [needs "--resource"; opt "--lease-id" ""; opt_int "--priority" 50; opt_int "--ttl-ms" 30000] (handled_by "handle_lease_acquire").
Definition lease_release : Parser := plain [needs "--lease-id"; opt "--resource" ""] (handled_by "handle_lease_release").
Definition app_start : Parser :=
  plain [needs "--app-id"; needs "--lease-id"; opt "--start-args" ""] (handled_by "handle_app_control" ++ [("action", VStr "start")]).
Definition app_stop : Parser :=
  plain [needs "--app-id"; needs "--lease-id"] (handled_by "handle_app_control" ++ [("action", VStr "stop")]).
Definition prepare : Parser :=
  plain [needs "--app-id"; needs "--file"; opt_int "--chunk-size" DEFAULT_CHUNK_SIZE]
    (handled_by "handle_update" ++ [("stage", VStr "prepare")]).
Definition verify : Parser := plain [needs "--app-id"] (handled_by "handle_update" ++ [("stage", VStr "verify")]).
Definition activate : Parser :=
  plain [needs "--app-id"; needs "--lease-id"; opt "--start-args" ""] (handled_by "handle_update" ++ [("stage", VStr "activate")]).
Definition rollback : Parser :=
  plain [needs "--app-id"; needs "--lease-id"; opt "--reason" ""] (handled_by "handle_update" ++ [("stage", VStr "rollback")]).
Definition events : Parser :=
  plain ([opt_int "--duration" 30; opt "--ready-file" ""] ++ add_event_handler_arguments) (handled_by "handle_events").
Definition app_invoke : Parser :=
  plain [needs "--app-id"; needs "--lease-id"; opt "--command" "invoke"; opt "--args-json" "{}"] (handled_by "handle_app_invoke").
Definition app_callback_config : Parser :=
  plain [needs "--app-id"; needs "--lease-id"; choice_of "--mode" ["on"; "off"] true VNone; opt_int "--trigger-every" 0;
         opt "--event-name" "callback"] (handled_by "handle_app_callback_config").
Definition app_events : Parser :=
  plain ([needs "--app-id"; opt_int "--duration" 0; opt "--ready-file" ""] ++ add_event_handler_arguments) (handled_by "handle_app_events").
Definition app_callback_smoke : Parser :=
  plain ([needs "--app-id"; opt "--lease-id" ""; opt_int "--ttl-ms" 60000; opt_int "--trigger-every" 2; opt "--event-name" "callback";
          opt_int "--invoke-count" 2; opt_float "--settle-sec" (flit 1 0); opt "--expected-app-echo" ""] ++ add_event_handler_arguments)
    (handled_by "handle_app_callback_smoke").
Definition capability : Parser := plain [] (without_session "handle_capabilities").
Definition init : Parser := plain [] (without_session "handle_init").
Definition workflow_plan : Parser := Parser_ [] (OneOf "workflow" (map fst WORKFLOW_PLANS)) (without_session "handle_workflow_plan").
Definition workflow : Parser := group "workflow_command" [("plan", workflow_plan)].
Definition memory_layout_dump : Parser :=
  plain [opt "--build-dir" "build/neurolink_unit"; opt "--output-dir" "applocation/NeuroLink/memory-evidence";
         opt "--label" (release_label "static-layout-baseline"); opt "--build-log" ""; switch "--run-build"; switch "--no-c-style-check"]
    (without_session "handle_memory_layout_dump").
Definition memory_config_plan : Parser :=
  plain [needs "--baseline-json"; needs "--candidate-json"] (without_session "handle_llext_memory_config_plan").
Definition recovery : Parser :=
  plain [] (handled_by "handle_placeholder" ++ [("placeholder_capability", VStr "recovery"); ("placeholder_name", VStr "recovery")]).
Definition gateway : Parser :=
  plain [] (handled_by "handle_placeholder" ++ [("placeholder_capability", VStr "gateway"); ("placeholder_name", VStr "gateway")]).
Definition tool_manifest_parser : Parser := plain [] (without_session "handle_tool_manifest").
Definition state_sync_parser : Parser := plain [] (handled_by "handle_state_sync").

Definition add_legacy_commands : list (string * Parser) :=
  [("query", query); ("lease-acquire", lease_acquire); ("lease-release", lease_release);
   ("app-start", app_start); ("app-stop", app_stop); ("prepare", prepare); ("verify", verify);
   ("activate", activate); ("rollback", rollback); ("events", events); ("app-invoke", app_invoke);
   ("app-callback-config", app_callback_config); ("app-events", app_events);
   ("app-callback-smoke", app_callback_smoke); ("capabilities", capability); ("init", init);
   ("workflow", workflow); ("memory-layout-dump", memory_layout_dump);
   ("llext-memory-config-plan", memory_config_plan); ("recovery", recovery); ("gateway", gateway);
   ("tool-manifest", tool_manifest_parser); ("state-sync", state_sync_parser)].

(** ** [add_grouped_alias_commands] *)

Definition system_query : Parser := Parser_ [] (OneOf "kind" ["device"; "apps"; "leases"]) (handled_by "handle_query").
Definition system_workflow_plan : Parser :=
  Parser_ [] (OneOf "workflow" (map fst WORKFLOW_PLANS)) (without_session "handle_workflow_plan").
Definition system_group : Parser :=
  group "system_command"
    [("query", system_query); ("capabilities", plain [] (without_session "handle_capabilities"));
     ("tool-manifest", plain [] (without_session "handle_tool_manifest")); ("state-sync", plain [] (handled_by "handle_state_sync"));
     ("init", plain [] (without_session "handle_init")); ("workflow", group "system_workflow_command" [("plan", system_workflow_plan)])].

Definition lease_acquire_v2 : Parser :=
  plain [needs "--resource"; opt "--lease-id" ""; opt_int "--ttl-ms" 30000] (handled_by "handle_lease_acquire").
Definition lease_release_v2 : Parser := plain [needs "--lease-id"; opt "--resource" ""] (handled_by "handle_lease_release").
Definition lease_group : Parser := group "lease_command" [("acquire", lease_acquire_v2); ("release", lease_release_v2)].

Definition app_start_v2 : Parser :=
  plain [needs "--app-id"; needs "--lease-id"; opt "--start-args" ""] (handled_by "handle_app_control" ++ [("action", VStr "start")]).
Definition app_stop_v2 : Parser :=
  plain [needs "--app-id"; needs "--lease-id"] (handled_by "handle_app_control" ++ [("action", VStr "stop")]).
Definition app_unload_v2 : Parser :=
  plain [needs "--app-id"; needs "--lease-id"] (handled_by "handle_app_control" ++ [("action", VStr "unload")]).
Definition app_delete_v2 : Parser :=
  plain [needs "--app-id"; needs "--lease-id"] (handled_by "handle_update" ++ [("stage", VStr "delete")]).
Definition app_invoke_v2 : Parser :=
  plain [needs "--app-id"; needs "--lease-id"; opt "--command" "invoke"; opt "--args-json" "{}"] (handled_by "handle_app_invoke").
Definition app_callback_config_v2 : Parser :=
  plain [needs "--app-id"; needs "--lease-id"; choice_of "--mode" ["on"; "off"] true VNone; opt_int "--trigger-every" 0;
         opt "--event-name" "callback"] (handled_by "handle_app_callback_config").
Definition app_group : Parser :=
  group "app_command"
    [("start", app_start_v2); ("stop", app_stop_v2); ("unload", app_unload_v2); ("delete", app_delete_v2); ("invoke", app_invoke_v2);
     ("callback-config", app_callback_config_v2)].

Definition prepare_v2 : Parser :=
  plain [needs "--app-id"; needs "--file"; opt_int "--chunk-size" DEFAULT_CHUNK_SIZE]
    (handled_by "handle_update" ++ [("stage", VStr "prepare")]).
Definition verify_v2 : Parser := plain [needs "--app-id"] (handled_by "handle_update" ++ [("stage", VStr "verify")]).
Definition activate_v2 : Parser :=
  plain [needs "--app-id"; needs "--lease-id"; opt "--start-args" ""] (handled_by "handle_update" ++ [("stage", VStr "activate")]).
Definition rollback_v2 : Parser :=
  plain [needs "--app-id"; needs "--lease-id"; opt "--reason" ""] (handled_by "handle_update" ++ [("stage", VStr "rollback")]).
Definition deploy_group : Parser :=
  group "deploy_command" [("prepare", prepare_v2); ("verify", verify_v2); ("activate", activate_v2); ("rollback", rollback_v2)].

Definition monitor_events : Parser :=
  plain ([opt_int "--duration" 30; opt "--ready-file" ""] ++ add_event_handler_arguments) (handled_by "handle_events").
Definition monitor_app_events : Parser :=
  plain ([needs "--app-id"; opt_int "--duration" 0; opt "--ready-file" ""] ++ add_event_handler_arguments) (handled_by "handle_app_events").
Definition monitor_agent_events : Parser := plain [opt_int "--max-events" 0] (without_session "handle_agent_events").
Definition monitor_group : Parser :=
  group "monitor_command" [("events", monitor_events); ("app-events", monitor_app_events); ("agent-events", monitor_agent_events)].

Definition serial_zenoh_show : Parser := plain add_serial_parser_arguments (without_session "handle_serial_zenoh").
Definition serial_zenoh_set : Parser := Parser_ add_serial_parser_arguments (Free "endpoint") (without_session "handle_serial_zenoh").
Definition serial_zenoh_clear : Parser := plain add_serial_parser_arguments (without_session "handle_serial_zenoh").
Definition serial_group : Parser :=
  group "serial_command"
    [("list", plain [] (without_session "handle_serial_list"));
     ("zenoh", group "serial_zenoh_command" [("show", serial_zenoh_show); ("set", serial_zenoh_set); ("clear", serial_zenoh_clear)])].

Definition memory_layout_dump_v2 : Parser :=
  plain [opt "--build-dir" "build/neurolink_unit"; opt "--output-dir" "applocation/NeuroLink/memory-evidence";
         opt "--label" (release_label "static-layout-baseline"); opt "--build-log" ""; switch "--run-build"; switch "--no-c-style-check"]
    (without_session "handle_memory_layout_dump").
Definition memory_config_plan_v2 : Parser :=
  plain [needs "--baseline-json"; needs "--candidate-json"] (without_session "handle_llext_memory_config_plan").
Definition memory_group : Parser := group "memory_command" [("layout-dump", memory_layout_dump_v2); ("config-plan", memory_config_plan_v2)].

Definition add_grouped_alias_commands : list (string * Parser) :=
  [("system", system_group); ("lease", lease_group); ("app", app_group); ("deploy", deploy_group);
   ("monitor", monitor_group); ("serial", serial_group); ("memory", memory_group)].

Definition build_parser : Parser :=
  Parser_ add_common_parser_arguments (Commands "command" (add_legacy_commands ++ add_grouped_alias_commands)) [].

(** ** The wrapper ([invoke_neuro_cli.py]); [executable] is [sys.executable]. *)

Definition unset_option (flag : string) (kind : OptionKind) : CliOption :=
  {| op_flag := flag; op_kind := kind; op_required := false; op_default := VNone |}.

Definition wrapper_parser (executable : string) : Parser :=
  Parser_
    [opt "--python" executable; opt "--node" "unit-01"; opt "--source-core" "core-cli"; opt "--source-agent" "skills";
     choice_of "--output" ["json"; "jsonl"] false (VStr "json"); unset_option "--timeout" Float; unset_option "--query-retries" Int;
     unset_option "--query-retry-backoff-ms" Int; unset_option "--query-retry-backoff-max-ms" Int]
    (Remainder "cli_args") [].
