(* ===== verification/CommandLine.v ===== *)
(** * The unit command line, from its tokens to its exit code ([neuro_cli.py])

    [build_parser] reads the tokens into a namespace; the handler the namespace
    names takes its arguments from there ([Command]) and runs under [main].  Here
    every command line is shown to be refused, to ask for help, or to name one
    operation with all the arguments it reads; and the lines the core sends
    through the wrapper are shown to be the operations they are meant to be. *)

From Stdlib Require Import ZArith Lia Bool List Ascii String.
From Stdlib.Floats Require Import SpecFloat.
From stdpp Require Import base list option strings.
From S2P Require Import Prelude PyFloat Text PyValue Protocol Contracts Artifact CliAdapter Workspace Reply UnitQuery UnitCommands UnitState Wrapper UnitEvents Listener CallbackSmoke SerialShell MemoryPlan ArgParse CommandTables.

#[local] Open Scope string_scope.
#[local] Open Scope Z_scope.
#[local] Open Scope list_scope.

(** ** Attributes of a namespace *)

Definition attr (k : string) (ns : dict) : result pyval :=
  match dget (KStr k) ns with
  | Some v => Ok v
  | None => Raise (AttributeError ("'Namespace' object has no attribute '" +:+ k +:+ "'"))
  end.
Definition wrong_type : pyerr := TypeError "argument of another type".
Definition attr_str (k : string) (ns : dict) : result string :=
  let! v := attr k ns in match v with VStr s => Ok s | _ => Raise wrong_type end.
Definition attr_int (k : string) (ns : dict) : result Z :=
  let! v := attr k ns in match v with VInt z => Ok z | _ => Raise wrong_type end.
Definition attr_float (k : string) (ns : dict) : result spec_float :=
  let! v := attr k ns in match v with VFloat f => Ok f | _ => Raise wrong_type end.
Definition attr_bool (k : string) (ns : dict) : result bool :=
  let! v := attr k ns in match v with VBool b => Ok b | _ => Raise wrong_type end.

(** [getattr(args, k, None)] of a text, and with "" for none. *)
Definition text_of (k : string) (ns : dict) : option string :=
  match dget (KStr k) ns with Some (VStr s) => Some s | _ => None end.
Definition int_of (k : string) (ns : dict) : Z := match dget (KStr k) ns with Some (VInt z) => z | _ => 0 end.

(** The arguments of every command; the last four are read by the handlers whose options they are. *)
Definition request_of (ns : dict) : result args :=
  let! node := attr_str "node" ns in
  let! source_core := attr_str "source_core" ns in
  let! source_agent := attr_str "source_agent" ns in
  let! timeout := attr_float "timeout" ns in
  let! request_id := attr_str "request_id" ns in
  let! priority := attr_int "priority" ns in
  let! idempotency_key := attr_str "idempotency_key" ns in
  Ok {| a_request_id := request_id; a_source_core := source_core; a_source_agent := source_agent; a_node := node;
        a_timeout := timeout; a_priority := priority; a_idempotency_key := idempotency_key;
        a_lease_id := default "" (text_of "lease_id" ns); a_mode := default "" (text_of "mode" ns);
        a_trigger_every := int_of "trigger_every" ns; a_event_name := default "" (text_of "event_name" ns) |}.

Definition common_of (ns : dict) : result CommonArgs :=
  let! request := request_of ns in
  let! output := attr_str "output" ns in
  let! dry_run := attr_bool "dry_run" ns in
  let! session_open_retries := attr_int "session_open_retries" ns in
  let! session_open_backoff_ms := attr_int "session_open_backoff_ms" ns in
  let! query_retries := attr_int "query_retries" ns in
  let! query_retry_backoff_ms := attr_int "query_retry_backoff_ms" ns in
  let! query_retry_backoff_max_ms := attr_int "query_retry_backoff_max_ms" ns in
  let! event_pump_interval_sec := attr_float "event_pump_interval_sec" ns in
  Ok {| ca_request := request; ca_output := output; ca_dry_run := dry_run; ca_session_open_retries := session_open_retries;
        ca_session_open_backoff_ms := session_open_backoff_ms; ca_query_retries := query_retries;
        ca_query_retry_backoff_ms := query_retry_backoff_ms; ca_query_retry_backoff_max_ms := query_retry_backoff_max_ms;
        ca_event_pump_interval_sec := event_pump_interval_sec |}.

Definition handler_args_of (ns : dict) : result HandlerArgs :=
  let! command := attr_str "handler_command" ns in
  let! python := attr_str "handler_python" ns in
  let! timeout := attr_float "handler_timeout" ns in
  let! dir := attr_str "handler_cwd" ns in
  let! max_event_bytes := attr_int "handler_max_event_bytes" ns in
  let! max_output_bytes := attr_int "handler_max_output_bytes" ns in
  let! max_events := attr_int "max_events" ns in
  Ok {| ha_python := python; ha_command := command; ha_timeout := timeout; ha_cwd := dir;
        ha_max_event_bytes := max_event_bytes; ha_max_output_bytes := max_output_bytes; ha_max_events := max_events |}.

Definition serial_args_of (ns : dict) : result SerialArgs :=
  let! port := attr_str "port" ns in
  let! baudrate := attr_int "baudrate" ns in
  let! timeout := attr_float "serial_timeout" ns in
  let! settle_sec := attr_float "serial_settle_sec" ns in
  Ok {| sp_port := port; sp_baudrate := baudrate; sp_timeout := timeout; sp_settle_sec := settle_sec |}.

Definition serial_action_of (ns : dict) : result SerialAction :=
  let! action := attr_str "serial_zenoh_command" ns in
  if String.eqb action "show" then Ok Show
  else if String.eqb action "set" then let! endpoint := attr_str "endpoint" ns in Ok (Set_ endpoint)
  else if String.eqb action "clear" then Ok Clear
  else Raise (ValueError ("unsupported serial zenoh action: " +:+ action)).

(** ** Commands *)

Inductive Command :=
  | Query (kind : string)
  | LeaseAcquire (lease_resource : string) (ttl_ms : Z)
  | LeaseRelease
  | AppControl (app_id action : string) (start_args : option string)
  | AppInvoke (app_id command args_json : string)
  | AppCallbackConfig (app_id : string)
  | Update (u : UpdateArgs)
  | Events (duration : Z) (ready_file : string) (h : HandlerArgs)
  | AppEvents (app_id : string) (duration : Z) (ready_file : string) (h : HandlerArgs)
  | AppCallbackSmoke (s : SmokeArgs) (h : HandlerArgs)
  | AgentEvents (max_events : Z)
  | Capabilities
  | Init
  | WorkflowPlan (workflow : string)
  | MemoryLayoutDump (l : LayoutArgs)
  | LlextMemoryConfigPlan (baseline_json candidate_json : string)
  | Placeholder (capability command_name : string)
  | ToolManifest
  | StateSync_
  | SerialList
  | SerialZenoh (p : SerialArgs) (action : SerialAction).

Definition update_of (ns : dict) : result UpdateArgs :=
  let! stage := attr_str "stage" ns in
  let! app_id := attr_str "app_id" ns in
  let! file := (if String.eqb stage "prepare" then attr_str "file" ns else Ok "") in
  let! chunk_size := (if String.eqb stage "prepare" then attr_int "chunk_size" ns else Ok 0) in
  Ok {| ua_stage := stage; ua_app_id := app_id; ua_file := file; ua_chunk_size := chunk_size;
        ua_start_args := text_of "start_args" ns; ua_reason := text_of "reason" ns |}.

Definition smoke_of (ns : dict) : result SmokeArgs :=
  let! app_id := attr_str "app_id" ns in
  let! ttl_ms := attr_int "ttl_ms" ns in
  let! settle_sec := attr_float "settle_sec" ns in
  let! invoke_count := attr_int "invoke_count" ns in
  let! expected_app_echo := attr_str "expected_app_echo" ns in
  Ok {| sa_app_id := app_id; sa_ttl_ms := ttl_ms; sa_settle_sec := settle_sec; sa_invoke_count := invoke_count;
        sa_expected_app_echo := expected_app_echo |}.

Definition layout_of (ns : dict) : result LayoutArgs :=
  let! build_dir := attr_str "build_dir" ns in
  let! output_dir := attr_str "output_dir" ns in
  let! label := attr_str "label" ns in
  let! build_log := attr_str "build_log" ns in
  let! run_build := attr_bool "run_build" ns in
  let! no_c_style_check := attr_bool "no_c_style_check" ns in
  Ok {| la_build_dir := build_dir; la_output_dir := output_dir; la_label := label; la_build_log := build_log;
        la_run_build := run_build; la_no_c_style_check := no_c_style_check |}.

(** What each handler reads from its namespace. *)
Definition handlers : list (string * (dict -> result Command)) :=
  [("handle_query", fun ns => let! kind := attr_str "kind" ns in Ok (Query kind));
   ("handle_lease_acquire", fun ns =>
      let! lease_resource := attr_str "resource" ns in let! ttl_ms := attr_int "ttl_ms" ns in
      let! _ := attr_str "lease_id" ns in Ok (LeaseAcquire lease_resource ttl_ms));
   ("handle_lease_release", fun ns => let! _ := attr_str "lease_id" ns in Ok LeaseRelease);
   ("handle_app_control", fun ns =>
      let! app_id := attr_str "app_id" ns in let! action := attr_str "action" ns in
      let! _ := attr_str "lease_id" ns in Ok (AppControl app_id action (text_of "start_args" ns)));
   ("handle_app_invoke", fun ns =>
      let! app_id := attr_str "app_id" ns in let! command := attr_str "command" ns in let! args_json := attr_str "args_json" ns in
      let! _ := attr_str "lease_id" ns in Ok (AppInvoke app_id command args_json));
   ("handle_app_callback_config", fun ns =>
      let! app_id := attr_str "app_id" ns in let! _ := attr_str "lease_id" ns in let! _ := attr_str "mode" ns in
      let! _ := attr_int "trigger_every" ns in let! _ := attr_str "event_name" ns in Ok (AppCallbackConfig app_id));
   ("handle_update", fun ns =>
      let! u := update_of ns in
      let! _ := (if String.eqb (update_mode (ua_stage u)) "protected" then attr_str "lease_id" ns else Ok "") in Ok (Update u));
   ("handle_events", fun ns =>
      let! duration := attr_int "duration" ns in let! ready_file := attr_str "ready_file" ns in
      let! h := handler_args_of ns in Ok (Events duration ready_file h));
   ("handle_app_events", fun ns =>
      let! app_id := attr_str "app_id" ns in let! duration := attr_int "duration" ns in
      let! ready_file := attr_str "ready_file" ns in let! h := handler_args_of ns in Ok (AppEvents app_id duration ready_file h));
   ("handle_app_callback_smoke", fun ns =>
      let! s := smoke_of ns in let! h := handler_args_of ns in let! _ := attr_str "lease_id" ns in
      let! _ := attr_int "trigger_every" ns in let! _ := attr_str "event_name" ns in Ok (AppCallbackSmoke s h));
   ("handle_agent_events", fun ns => let! max_events := attr_int "max_events" ns in Ok (AgentEvents max_events));
   ("handle_capabilities", fun _ => Ok Capabilities);
   ("handle_init", fun _ => Ok Init);
   ("handle_workflow_plan", fun ns => let! workflow := attr_str "workflow" ns in Ok (WorkflowPlan workflow));
   ("handle_memory_layout_dump", fun ns => let! l := layout_of ns in Ok (MemoryLayoutDump l));
   ("handle_llext_memory_config_plan", fun ns =>
      let! baseline_json := attr_str "baseline_json" ns in let! candidate_json := attr_str "candidate_json" ns in
      Ok (LlextMemoryConfigPlan baseline_json candidate_json));
   ("handle_placeholder", fun ns =>
      let! capability := attr_str "placeholder_capability" ns in let! name := attr_str "placeholder_name" ns in
      Ok (Placeholder capability name));
   ("handle_tool_manifest", fun _ => Ok ToolManifest);
   ("handle_state_sync", fun _ => Ok StateSync_);
   ("handle_serial_list", fun _ => Ok SerialList);
   ("handle_serial_zenoh", fun ns => let! p := serial_args_of ns in let! action := serial_action_of ns in Ok (SerialZenoh p action))].

Fixpoint handler_named (name : string) (table : list (string * (dict -> result Command))) : option (dict -> result Command) :=
  match table with
  | [] => None
  | (n, h) :: rest => if String.eqb n name then Some h else handler_named name rest
  end.

Definition command_of_namespace (ns : dict) : result Command :=
  let! name := attr_str "handler" ns in
  match handler_named name handlers with Some h => h ns | None => Raise (TypeError "handler is not callable") end.

Definition requires_session (ns : dict) : bool := py_truthy (dget_or "requires_session" (VBool true) ns).

(** ** Running a command *)

Section Running.
Context {S : Type} `{!Zenoh S, !Provides S, !Subscribes S, !Serial S} {FS : Files}.
Context (exc_text : pyerr -> string) (hex : nat -> string) (cwd executable : string) (resolve : string -> string) (is_dir : string -> bool).
Context (run_collector : list string -> CommandExecutionResult).
(** As in [Listener]: what a subscriber collects for a while, the ready file, and the rows that came. *)
Context (gather : HandlerArgs -> Z -> bool -> eff (CliWorld S) unit) (smoke_gather : HandlerArgs -> bool -> spec_float -> eff (CliWorld S) unit).
Context (write_text : string -> string -> eff (CliWorld S) unit) (received : S -> list dict).
(** The log of the Zenoh library, its environment variable, and the end of a session. *)
Context (init_log_from_env_or : string -> eff S unit) (neurolink_zenoh_log : string) (close : eff S unit).
Notation W := (CliWorld S).

Definition handle (command : Command) (c : CommonArgs) : eff W Z :=
  match command with
  | Query kind => handle_query exc_text hex kind c
  | LeaseAcquire lease_resource ttl_ms => handle_lease_acquire exc_text hex lease_resource ttl_ms c
  | LeaseRelease => handle_lease_release exc_text hex c
  | AppControl app_id action start_args => handle_app_control exc_text hex app_id action start_args c
  | AppInvoke app_id command args_json => handle_app_invoke exc_text hex app_id command args_json c
  | AppCallbackConfig app_id => handle_app_callback_config exc_text hex app_id c
  | Update u => handle_update exc_text hex resolve u c
  | Events duration ready_file h => handle_events (gather h duration) write_text received c duration ready_file
  | AppEvents app_id duration ready_file h => handle_app_events (gather h duration) write_text received c app_id duration ready_file
  | AppCallbackSmoke s h => handle_app_callback_smoke exc_text hex (smoke_gather h) received c s
  | AgentEvents max_events => handle_agent_events max_events c
  | Capabilities => handle_capabilities cwd c
  | Init => handle_init cwd executable c
  | WorkflowPlan workflow => handle_workflow_plan cwd workflow c
  | MemoryLayoutDump l => handle_memory_layout_dump cwd executable resolve is_dir run_collector l c
  | LlextMemoryConfigPlan baseline_json candidate_json => handle_llext_memory_config_plan exc_text cwd resolve baseline_json candidate_json c
  | Placeholder capability command_name => handle_placeholder capability command_name c
  | ToolManifest => handle_tool_manifest cwd c
  | StateSync_ => handle_state_sync exc_text hex cwd c
  | SerialList => handle_serial_list c
  | SerialZenoh p action => handle_serial_zenoh exc_text p action c
  end.

Definition start_log (ns : dict) : eff W unit :=
  do! level := elift (attr_str "zenoh_log_level" ns) in
  let level := py_strip level in
  let level := if String.eqb level "" then py_strip neurolink_zenoh_log else level in
  when (negb (String.eqb level "")) (session_do (init_log_from_env_or level)).

(** [main] from the parsed arguments on; the command is read where its handler is called. *)
Definition run_namespace (ns : dict) : eff W Z :=
  do! _ := start_log ns in
  do! c := elift (common_of ns) in
  main exc_text (requires_session ns) (fun c => do! command := elift (command_of_namespace ns) in handle command c) close c.

(** [neuro_cli.py] with [sys.argv[1:]] *)
Definition neuro_cli (eager : bool) (separated : list string -> Outcome) (argv : list string) : eff W Z :=
  match parse_args eager separated build_parser argv with
  | Parsed ns _ => run_namespace ns
  | Help => eret 0
  | Refused => eret 2
  end.
End Running.

(** ** Every line is one operation *)

Lemma build_parser_wf : parser_wf build_parser = true.
Proof. vm_compute. reflexivity. Qed.

Definition readable (ns : dict) : Prop :=
  is_ok (common_of ns) = true /\ is_ok (command_of_namespace ns) = true /\ is_ok (attr_str "zenoh_log_level" ns) = true.

Lemma shapes_readable sh ns : sh ∈ shapes build_parser -> Shaped sh ns -> readable ns.
Proof. apply every_parsed. vm_compute. repeat split. Qed.

(** What a line means: the common arguments, its command, whether it opens a session, and the log level; read when they are used. *)
Inductive Meaning :=
  | Operates (c : result CommonArgs) (command : result Command) (session : bool) (level : result string)
  | ShowsHelp
  | IsRefused.

Definition meaning (o : Outcome) : Meaning :=
  match o with
  | Parsed ns _ => Operates (common_of ns) (command_of_namespace ns) (requires_session ns) (attr_str "zenoh_log_level" ns)
  | Help => ShowsHelp
  | Refused => IsRefused
  end.

Section Lines.
Context {S : Type} `{!Zenoh S, !Provides S, !Subscribes S, !Serial S} {FS : Files}.
Context (exc_text : pyerr -> string) (hex : nat -> string) (cwd executable : string) (resolve : string -> string) (is_dir : string -> bool).
Context (run_collector : list string -> CommandExecutionResult).
Context (gather : HandlerArgs -> Z -> bool -> eff (CliWorld S) unit) (smoke_gather : HandlerArgs -> bool -> spec_float -> eff (CliWorld S) unit).
Context (write_text : string -> string -> eff (CliWorld S) unit) (received : S -> list dict).
Context (init_log_from_env_or : string -> eff S unit) (neurolink_zenoh_log : string) (close : eff S unit).
Context (eager : bool) (separated : list string -> Outcome).
Notation W := (CliWorld S).
Notation run_line := (neuro_cli exc_text hex cwd executable resolve is_dir run_collector gather smoke_gather write_text received
  init_log_from_env_or neurolink_zenoh_log close eager separated).
Notation handle_command := (handle exc_text hex cwd executable resolve is_dir run_collector gather smoke_gather write_text received).

(** The log level is the option's or, without it, the environment's. *)
Definition opened_log (level : string) : eff W unit :=
  let level := if String.eqb (py_strip level) "" then py_strip neurolink_zenoh_log else py_strip level in
  when (negb (String.eqb level "")) (session_do (init_log_from_env_or level)).

(** C22: every command line without a bare "--" is refused, asks for help, or is one operation whose handler finds each
    attribute it reads, of the type it has there: the first two end with 2 and 0 and touch nothing, the last is that
    operation's handler, run under [main] with the common arguments of the line. *)
Theorem command_lines_understood argv (w : W) :
  str_in "--" argv = false ->
  run_line argv w = (Ok 2, w) \/ run_line argv w = (Ok 0, w) \/
  exists ns c command level,
    parse_args eager separated build_parser argv = Parsed ns [] /\ common_of ns = Ok c /\ command_of_namespace ns = Ok command /\
    run_line argv w =
      (do! _ := opened_log level in main exc_text (requires_session ns) (handle_command command) close c) w.
Proof.
  intros Hsep. unfold neuro_cli. destruct (parse_args eager separated build_parser argv) as [ns extras| |] eqn:E; [|by right; left|by left].
  right; right. destruct (parsed_shaped _ _ _ _ _ _ build_parser_wf Hsep E) as (sh & Hin & F).
  apply parsed_whole in E as Hx; [|done]. subst extras.
  destruct (shapes_readable sh ns Hin F) as (Hc & Hm & Hl).
  destruct (common_of ns) as [c|] eqn:Ec; [|done]. destruct (command_of_namespace ns) as [command|] eqn:Em; [|done].
  destruct (attr_str "zenoh_log_level" ns) as [level|] eqn:El; [|done].
  exists ns, c, command, level. split_and!; try done. unfold run_namespace, start_log. rewrite Ec, Em, El. reflexivity.
Qed.

(** Two lines that mean the same run the same. *)
Lemma same_meaning a b w :
  meaning (parse_args eager separated build_parser a) = meaning (parse_args eager separated build_parser b) -> run_line a w = run_line b w.
Proof.
  unfold neuro_cli, meaning. destruct (parse_args eager separated build_parser a) as [ns ex| |], (parse_args eager separated build_parser b) as [ns' ex'| |];
    try done. intros [= Hc Hm Hs Hl]. unfold run_namespace, start_log. by rewrite Hc, Hm, Hs, Hl.
Qed.
End Lines.

(** ** The grouped commands are aliases *)

Definition aliases : list (list string * list string) :=
  [(["query"], ["system"; "query"]); (["capabilities"], ["system"; "capabilities"]); (["tool-manifest"], ["system"; "tool-manifest"]);
   (["state-sync"], ["system"; "state-sync"]); (["init"], ["system"; "init"]);
   (["workflow"; "plan"], ["system"; "workflow"; "plan"]); (["lease-release"], ["lease"; "release"]);
   (["app-start"], ["app"; "start"]); (["app-stop"], ["app"; "stop"]); (["app-invoke"], ["app"; "invoke"]);
   (["app-callback-config"], ["app"; "callback-config"]); (["prepare"], ["deploy"; "prepare"]); (["verify"], ["deploy"; "verify"]);
   (["activate"], ["deploy"; "activate"]); (["rollback"], ["deploy"; "rollback"]); (["events"], ["monitor"; "events"]);
   (["app-events"], ["monitor"; "app-events"]); (["memory-layout-dump"], ["memory"; "layout-dump"]);
   (["llext-memory-config-plan"], ["memory"; "config-plan"])].

Definition commands_table : list (string * Parser) := add_legacy_commands ++ add_grouped_alias_commands.
Definition reading (ns : dict) := (common_of ns, command_of_namespace ns, requires_session ns, attr_str "zenoh_log_level" ns).

Lemma dset_twice (k : string) v v' d : dset k v (dset k v' d) = dset k v d.
Proof.
  unfold dset. induction d as [|[k1 v1] d IH]; cbn; [by rewrite decide_True|].
  destruct (decide (key_norm k1 = inl k)) as [E|E]; cbn.
  - by rewrite decide_True.
  - rewrite decide_False by done. by rewrite IH.
Qed.

Lemma top_finished s name ns extras :
  finish build_parser (adopted ns extras (placed "command" (VStr name) s)) =
  Parsed (dupdate (dset "command" (VStr name) (sc_ns s)) ns) (sc_extras s ++ extras).
Proof. reflexivity. Qed.

(** The common arguments before a command, with a place for its name. *)
Lemma top_shaped s : InShape build_parser s -> Shaped (own_shape build_parser) (dset "command" (VStr "") (sc_ns s)).
Proof.
  intros H. apply (place_in_shape build_parser s "command" (Is Text) (VStr "")) in H; [|by apply parser_wf_own, build_parser_wf|left|done].
  eapply fits_weaken; [|exact H]. intros k _ [(o & Hin & _ & Hr & _)|(Hp & _)]; [|done].
  assert (forallb (fun o => negb (op_required o)) (pa_options build_parser) = true) as Hall by reflexivity.
  rewrite forallb_forall in Hall. specialize (Hall o (proj1 (list_elem_of_In _ _) Hin)). by rewrite Hr in Hall.
Qed.

Lemma Forall_forall2 {A B} (P : A -> B -> Prop) l : Forall (fun ab => P ab.1 ab.2) l -> forall a b, (a, b) ∈ l -> P a b.
Proof. intros H a b Hin. exact (proj1 (Forall_forall _ _) H (a, b) Hin). Qed.

Section Aliases.
Context (eager : bool) (separated : list string -> Outcome).

Lemma leaf_shaped q rest ns extras :
  parser_wf q = true -> enter eager q rest = Parsed ns extras -> exists sh, sh ∈ shapes q /\ Shaped sh ns.
Proof.
  intros Hw H. unfold enter in H. destruct (refused_early eager q rest); [done|].
  eapply (scan_shaped eager (length rest)); [done|exact Hw|by apply start_in_shape, parser_wf_own| |exact H].
  unfold commands_open. by destruct (pa_positional q).
Qed.

(** A line through the table of commands, to the parser at the end of its path. *)
Lemma line_meaning given name path rest q leaf w s :
  str_in "--" (given ++ (name :: path) ++ rest) = false -> refused_early eager build_parser (given ++ (name :: path) ++ rest) = false ->
  (forall more, scan eager build_parser (start build_parser) (given ++ more) = scan eager build_parser s more) ->
  sc_placed s = false -> sc_extras s = [] -> startswith name "-" = false -> command_of name commands_table = Some q ->
  follow q path = Some (leaf, w) ->
  meaning (parse_args eager separated build_parser (given ++ (name :: path) ++ rest)) =
  match enter eager leaf rest with
  | Parsed ns [] => let '(c, command, session, level) := reading (dupdate (dset "command" (VStr name) (sc_ns s)) (w ns)) in
                    Operates c command session level
  | Help => ShowsHelp
  | _ => IsRefused
  end.
Proof.
  intros Hsep Hr Hs Hp Hx Hn Hq Hf. unfold parse_args. rewrite Hsep, Hr, Hs. cbn [app].
  rewrite (scan_command eager build_parser s "command" commands_table name q) by done.
  rewrite (follow_enter eager q path leaf w rest Hf). destruct (enter eager leaf rest) as [ns extras| |]; [|done..].
  cbn [outcome_map]. rewrite top_finished, Hx. cbn [app]. by destruct extras.
Qed.

Lemma plain_separator given path rest :
  str_in "--" path = false -> str_in "--" (given ++ path ++ rest) = str_in "--" given || str_in "--" rest.
Proof. intros H. unfold str_in in *. by rewrite !existsb_app, H. Qed.

Lemma plain_unambiguous p given path rest :
  existsb (is_ambiguous (pa_options p)) path = false ->
  refused_early eager p (given ++ path ++ rest) = eager && (existsb (is_ambiguous (pa_options p)) given || existsb (is_ambiguous (pa_options p)) rest).
Proof. intros H. unfold refused_early. by rewrite !existsb_app, H. Qed.

Definition plain_path (path : list string) : bool :=
  negb (str_in "--" path) && negb (existsb (is_ambiguous (pa_options build_parser)) path).

(** Two paths to the same parser mean the same, if the namespaces read the same. *)
Lemma alias_meaning l lpath ql wl g gpath qg wg leaf given rest :
  plain_path (l :: lpath) = true -> plain_path (g :: gpath) = true -> startswith l "-" = false -> startswith g "-" = false ->
  command_of l commands_table = Some ql -> command_of g commands_table = Some qg ->
  follow ql lpath = Some (leaf, wl) -> follow qg gpath = Some (leaf, wg) -> parser_wf leaf = true ->
  every_shape leaf (fun ns => every (own_shape build_parser) (fun top =>
    reading (dupdate (dset "command" (VStr l) top) (wl ns)) = reading (dupdate (dset "command" (VStr g) top) (wg ns)))) ->
  Given (pa_options build_parser) given -> str_in "--" (given ++ (l :: lpath) ++ rest) = false ->
  meaning (parse_args eager separated build_parser (given ++ (l :: lpath) ++ rest)) =
  meaning (parse_args eager separated build_parser (given ++ (g :: gpath) ++ rest)).
Proof.
  intros [Hl1%negb_true_iff Hl2%negb_true_iff]%andb_prop [Hg1%negb_true_iff Hg2%negb_true_iff]%andb_prop Hnl Hng Hql Hqg Hfl Hfg Hw Heq HG Hsep.
  assert (str_in "--" (given ++ (g :: gpath) ++ rest) = false) as Hsep' by (rewrite plain_separator in Hsep |- *; done).
  assert (refused_early eager build_parser (given ++ (g :: gpath) ++ rest) = refused_early eager build_parser (given ++ (l :: lpath) ++ rest)) as Hr
    by (by rewrite !plain_unambiguous).
  destruct (refused_early eager build_parser (given ++ (l :: lpath) ++ rest)) eqn:Er.
  { unfold parse_args. by rewrite Hsep, Hsep', Er, Hr. }
  destruct (given_read eager build_parser (start build_parser) given) as [H|(s & Hs & Hp & Hx & H)];
    [by apply parser_wf_own, build_parser_wf|by apply start_in_shape, parser_wf_own, build_parser_wf|done|..].
  { unfold parse_args. by rewrite Hsep, Hsep', Er, Hr, !H. }
  erewrite !line_meaning by done. destruct (enter eager leaf rest) as [ns [|? ?]| |] eqn:E; [|done..].
  apply leaf_shaped in E as (sh & Hin & F); [|done]. pose proof (every_parsed _ _ _ _ Heq Hin F) as Htop.
  pose proof (every_shaped _ _ _ Htop (top_shaped s Hs)) as R. cbn beta in R. rewrite !dset_twice in R. by rewrite R.
Qed.

Lemma aliases_mean_alike legacy grouped given rest :
  (legacy, grouped) ∈ aliases -> Given (pa_options build_parser) given -> str_in "--" (given ++ legacy ++ rest) = false ->
  meaning (parse_args eager separated build_parser (given ++ legacy ++ rest)) =
  meaning (parse_args eager separated build_parser (given ++ grouped ++ rest)).
Proof.
  intros Hin HG. revert legacy grouped Hin.
  apply (Forall_forall2 (fun legacy grouped => str_in "--" (given ++ legacy ++ rest) = false ->
    meaning (parse_args eager separated build_parser (given ++ legacy ++ rest)) =
    meaning (parse_args eager separated build_parser (given ++ grouped ++ rest)))).
  repeat (apply Forall_cons; split; [intros Hsep; eapply alias_meaning; [..|exact HG|exact Hsep]; [reflexivity..|vm_compute; repeat split]|]).
  apply Forall_nil. done.
Qed.
End Aliases.

Section AliasRuns.
Context {S : Type} `{!Zenoh S, !Provides S, !Subscribes S, !Serial S} {FS : Files}.
Context (exc_text : pyerr -> string) (hex : nat -> string) (cwd executable : string) (resolve : string -> string) (is_dir : string -> bool).
Context (run_collector : list string -> CommandExecutionResult).
Context (gather : HandlerArgs -> Z -> bool -> eff (CliWorld S) unit) (smoke_gather : HandlerArgs -> bool -> spec_float -> eff (CliWorld S) unit).
Context (write_text : string -> string -> eff (CliWorld S) unit) (received : S -> list dict).
Context (init_log_from_env_or : string -> eff S unit) (neurolink_zenoh_log : string) (close : eff S unit).
Context (eager : bool) (separated : list string -> Outcome).
Notation run_line := (neuro_cli exc_text hex cwd executable resolve is_dir run_collector gather smoke_gather write_text received
  init_log_from_env_or neurolink_zenoh_log close eager separated).

(** C23: of the twenty grouped commands that have an older form, nineteen are the command they stand for: all but "lease acquire",
    whose older form has a "--priority" of its own.  On a line that has no bare "--", after any common options with their values and before any
    rest, both are refused, or ask for help, or do the same to the same world and end with the same code. *)
Theorem grouped_commands_are_aliases legacy grouped given rest (w : CliWorld S) :
  (legacy, grouped) ∈ aliases -> Given add_common_parser_arguments given -> str_in "--" (given ++ legacy ++ rest) = false ->
  run_line (given ++ legacy ++ rest) w = run_line (given ++ grouped ++ rest) w.
Proof. intros Hin HG Hsep. apply same_meaning. by apply aliases_mean_alike. Qed.
End AliasRuns.

(** ** Lines as pairs of options and values *)

Definition plain_text (t : string) : Prop := startswith t "-" = false.

Record Pair := { pr_option : CliOption; pr_text : string; pr_value : pyval }.
Definition tokens_of (pairs : list Pair) : list string := flat_map (fun x => [op_flag (pr_option x); pr_text x]) pairs.
Definition all_stored (pairs : list Pair) (s : Scan) : Scan := fold_left (fun s x => stored (pr_option x) (pr_value x) s) pairs s.

(** The option takes a value, and the text is one, for the options of a parser. *)
Definition takes (options : list CliOption) (x : Pair) : Prop :=
  classify options (op_flag (pr_option x)) = Known (pr_option x) None /\ op_kind (pr_option x) <> Switch /\
  plain_text (pr_text x) /\ convert (op_kind (pr_option x)) (pr_text x) = Some (pr_value x).

Lemma plain_argument options t : plain_text t -> is_argument options t = true.
Proof. intros H. unfold is_argument. by rewrite classify_plain. Qed.
Lemma plain_not_ambiguous options t : plain_text t -> is_ambiguous options t = false.
Proof. intros H. unfold is_ambiguous. by rewrite classify_plain. Qed.
Lemma plain_no_separator t : plain_text t -> String.eqb "--" t = false.
Proof. intros H. apply String.eqb_neq. by intros <-. Qed.

Lemma scan_pairs eager p s pairs rest :
  Forall (takes (pa_options p)) pairs -> scan eager p s (tokens_of pairs ++ rest) = scan eager p (all_stored pairs s) rest.
Proof.
  intros H. revert s. induction H as [|x pairs (Hc & Hk & Ht & Hv) H IH]; intros s; [done|]. cbn [tokens_of flat_map app all_stored fold_left].
  rewrite <- IH. cbn [scan]. rewrite Hc.
  destruct (op_kind (pr_option x)) eqn:E; try done; by rewrite plain_argument, Hv by done.
Qed.

(** What the classification of a line rests on: no separator, no ambiguous token. *)
Definition clear_line (options : list CliOption) (tokens : list string) : Prop :=
  Forall (fun t => String.eqb "--" t = false /\ is_ambiguous options t = false) tokens.

Lemma clear_app options a b : clear_line options a -> clear_line options b -> clear_line options (a ++ b).
Proof. intros. by apply Forall_app. Qed.

Lemma clear_pairs options pairs :
  Forall (fun x => String.eqb "--" (op_flag (pr_option x)) = false /\ is_ambiguous options (op_flag (pr_option x)) = false /\ plain_text (pr_text x)) pairs ->
  clear_line options (tokens_of pairs).
Proof.
  induction 1 as [|x pairs (H1 & H2 & H3) H IH]; [constructor|]. cbn. repeat constructor; try done.
  - by apply plain_no_separator.
  - by apply plain_not_ambiguous.
Qed.

Lemma clear_not_separated options tokens : clear_line options tokens -> str_in "--" tokens = false.
Proof. induction 1 as [|t tokens [H _] F IH]; [done|]. unfold str_in in *. cbn [existsb]. by rewrite H, IH. Qed.
Lemma clear_not_refused eager p tokens : clear_line (pa_options p) tokens -> refused_early eager p tokens = false.
Proof.
  intros H. unfold refused_early. apply andb_false_iff. right. induction H as [|t tokens [_ H] F IH]; [done|]. cbn [existsb]. by rewrite H, IH.
Qed.

(** ** Witnesses *)

#[local] Instance no_subscriber : Subscribes Script := {|
  has_fifo := true; has_callback := false; takes_indirect := false;
  declare_subscriber _ _ := eret tt; undeclare := eret tt |}.
#[local] Instance no_serial : Serial Script := {|
  import_error := Some "No module named 'serial'"; comports := None; glob_paths _ := eret []; serial_open _ _ _ := eret tt;
  reset_input := eret tt; serial_write _ := eret tt; serial_flush := eret tt; serial_reads _ := eret []; serial_close := eret tt |}.
#[local] Instance no_files : Files := fun _ => None.

Notation sample_cli := (neuro_cli (S := Script) (fun _ => "") (fun _ => "00") "/work" "python" (fun p => p) (fun _ => false)
  (fun _ => {| exit_code := 0; stdout := ""; stderr := "" |}) (fun _ _ _ => eret tt) (fun _ _ _ => eret tt) (fun _ _ => eret tt)
  (fun _ => []) (fun _ => eret tt) "" (eret tt) true (fun _ => Refused)).

Lemma str_pair_in (legacy grouped : list string) : bool_decide ((legacy, grouped) ∈ aliases) = true -> (legacy, grouped) ∈ aliases.
Proof. apply bool_decide_eq_true. Qed.

(** A line that is understood, and two that are not. *)
Lemma command_lines_understood_witness :
  sample_cli ["query"; "device"; "--output"; "json"] (UnitQuery.start []) = (Ok 2, UnitQuery.start []) /\
  sample_cli ["--help"] (UnitQuery.start []) = (Ok 0, UnitQuery.start []) /\
  exists ns c command,
    parse_args true (fun _ => Refused) build_parser ["--output"; "json"; "--query-retries=1"; "app"; "stop"; "--app-id"; "demo"; "--lease-id"; "l7"] = Parsed ns [] /\
    common_of ns = Ok c /\ command_of_namespace ns = Ok command /\ command = AppControl "demo" "stop" None.
Proof.
  split; [vm_compute; reflexivity|]. split; [vm_compute; reflexivity|].
  destruct (command_lines_understood (S := Script) (fun _ => "") (fun _ => "00") "/work" "python" (fun p => p) (fun _ => false)
    (fun _ => {| exit_code := 0; stdout := ""; stderr := "" |}) (fun _ _ _ => eret tt) (fun _ _ _ => eret tt) (fun _ _ => eret tt)
    (fun _ => []) (fun _ => eret tt) "" (eret tt) true (fun _ => Refused)
    ["--output"; "json"; "--query-retries=1"; "app"; "stop"; "--app-id"; "demo"; "--lease-id"; "l7"] (UnitQuery.start [])
    ltac:(vm_compute; reflexivity)) as [H|[H|(ns & c & command & level & Hp & Hc & Hm & _)]].
  - apply (f_equal (fun r => length (cw_sent r.2))) in H. vm_compute in H. discriminate H.
  - apply (f_equal (fun r => length (cw_sent r.2))) in H. vm_compute in H. discriminate H.
  - exists ns, c, command. split; [exact Hp|]. split; [exact Hc|]. split; [exact Hm|].
    vm_compute in Hp. injection Hp as <-. vm_compute in Hm. injection Hm as <-. reflexivity.
Defined.

Lemma grouped_commands_are_aliases_witness :
  sample_cli (["--node=u7"; "--dry-run"] ++ ["app-stop"] ++ ["--app-id"; "demo"; "--lease-id"; "l7"]) (UnitQuery.start []) =
  sample_cli (["--node=u7"; "--dry-run"] ++ ["app"; "stop"] ++ ["--app-id"; "demo"; "--lease-id"; "l7"]) (UnitQuery.start []).
Proof.
  apply grouped_commands_are_aliases.
  - apply str_pair_in. vm_compute. reflexivity.
  - eapply given_inline; [vm_compute; reflexivity|]. eapply given_switch; [vm_compute; reflexivity|reflexivity|constructor].
  - vm_compute. reflexivity.
Defined.

(** The one command that is no alias: the older one has a "--priority" of its own, whose default hides the common one. *)
Definition priority_of (argv : list string) : option Z :=
  match parse_args true (fun _ => Refused) build_parser argv with
  | Parsed ns _ => match common_of ns with Ok c => Some (a_priority (ca_request c)) | Raise _ => None end
  | _ => None
  end.
Example priority_hidden :
  priority_of ["--priority"; "80"; "lease"; "acquire"; "--resource"; "r"] = Some 80 /\
  priority_of ["--priority"; "80"; "lease-acquire"; "--resource"; "r"] = Some 50.
Proof. vm_compute. done. Qed.

(** The commands the manifest and the workflow plans print end with "--output json", which only the parser before the command knows. *)
Example advertised_output_refused :
  forallb (fun argv => match parse_args true (fun _ => Refused) build_parser (drop 2 argv) with Refused => true | _ => false end)
    (map argv_template tool_manifest) = true.
Proof. vm_compute. reflexivity. Qed.
