(* ===== verification/CoreLines.v ===== *)
(** * The command lines of the core

    The core never calls the unit command line but through text: its adapter
    ([CliAdapter]) runs the wrapper, which writes a line of its own for
    [neuro_cli.py], and a deployment plan ([Deploy]) lists lines for
    [neuro_cli.py] itself.  Here those lines are parsed by the tables of the other side,
    and shown to be the operations the core means. *)

From Stdlib Require Import ZArith Lia Bool List Ascii String.
From Stdlib.Floats Require Import SpecFloat.
From stdpp Require Import base list option strings.
From S2P Require Import Prelude PyFloat Text PyValue Protocol Contracts JsonRoundTrip LiveEvents Artifact CliAdapter Deploy Reply UnitQuery UnitCommands UnitState Wrapper Regex MemoryEvidence ArgParse CommandTables CommandLine.

#[local] Open Scope string_scope.
#[local] Open Scope Z_scope.
#[local] Open Scope list_scope.

(** ** The wrapper's line *)

Definition attr_opt {A} (of_value : pyval -> option A) (k : string) (ns : dict) : result (option A) :=
  let! v := attr k ns in
  match v with VNone => Ok None | _ => match of_value v with Some a => Ok (Some a) | None => Raise wrong_type end end.
Definition as_int (v : pyval) : option Z := match v with VInt z => Some z | _ => None end.
Definition as_float (v : pyval) : option spec_float := match v with VFloat f => Some f | _ => None end.
Definition attr_texts (k : string) (ns : dict) : result (list string) :=
  let! v := attr k ns in
  match v with VList l => rmap (fun item => match item with VStr s => Ok s | _ => Raise wrong_type end) l | _ => Raise wrong_type end.

(** What [main] of the wrapper reads from its namespace. *)
Definition wrapper_args_of (ns : dict) : result WrapperArgs :=
  let! python := attr_str "python" ns in
  let! node := attr_str "node" ns in
  let! source_core := attr_str "source_core" ns in
  let! source_agent := attr_str "source_agent" ns in
  let! output := attr_str "output" ns in
  let! timeout := attr_opt as_float "timeout" ns in
  let! query_retries := attr_opt as_int "query_retries" ns in
  let! query_retry_backoff_ms := attr_opt as_int "query_retry_backoff_ms" ns in
  let! query_retry_backoff_max_ms := attr_opt as_int "query_retry_backoff_max_ms" ns in
  let! cli_args := attr_texts "cli_args" ns in
  Ok {| wa_python := python; wa_node := node; wa_source_core := source_core; wa_source_agent := source_agent; wa_output := output;
        wa_timeout := timeout; wa_query_retries := query_retries; wa_query_retry_backoff_ms := query_retry_backoff_ms;
        wa_query_retry_backoff_max_ms := query_retry_backoff_max_ms; wa_cli_args := cli_args |}.

Section Wrapping.
Context (eager : bool) (separated : list string -> Outcome) (executable cli_path : string).

(** The command the wrapper runs for its own command line, if it runs one. *)
Definition wrapper_runs (argv : list string) : option (list string) :=
  match parse_args eager separated (wrapper_parser executable) argv with
  | Parsed ns _ =>
      match wrapper_args_of ns with
      | Ok a => match wa_cli_args a with [] => None | _ => Some (wrapper_command cli_path a) end
      | Raise _ => None
      end
  | _ => None
  end.

(** What the unit command line makes of what the adapter runs: [argv] starts with the interpreter and the wrapper. *)
Definition sent_meaning (argv : list string) : option Meaning :=
  match wrapper_runs (drop 2 argv) with
  | Some command => Some (meaning (parse_args eager separated build_parser (drop 2 command)))
  | None => None
  end.
End Wrapping.

(** ** Texts that are values *)

Lemma id_text_head s : 0 <= s -> plain_text (string_of_Z s).
Proof.
  intros (c & w & H & F)%numeral_digits. unfold plain_text, startswith. apply Forall_cons in F as [Hc _].
  rewrite <- (string_of_bytes_of_string (string_of_Z s)), H. unfold ascii_digit in Hc. cbn [string_of_bytes map].
  assert (48 <= c <= 57) as Hb by lia.
  assert (c = 48 \/ c = 49 \/ c = 50 \/ c = 51 \/ c = 52 \/ c = 53 \/ c = 54 \/ c = 55 \/ c = 56 \/ c = 57) as Hcs by lia.
  decompose [or] Hcs; subst c; reflexivity.
Qed.

Lemma int_converted z : 0 <= z -> convert Int (string_of_Z z) = Some (VInt z).
Proof. intros H. unfold convert, py_int. by rewrite printed_int. Qed.

(** The timeout: a number of seconds, which the wrapper reads as a float and writes again. *)
Definition survives (n : Z) : bool :=
  match float_of_Z n with
  | Ok f => bool_decide (py_float (VStr (string_of_Z n)) = Ok f) && bool_decide (py_float (VStr (float_repr f)) = Ok f) &&
            negb (startswith (float_repr f) "-")
  | Raise _ => false
  end.

Lemma timeouts_survive n : 0 <= n <= 600 ->
  exists f, float_of_Z n = Ok f /\ convert Float (string_of_Z n) = Some (VFloat f) /\ convert Float (float_repr f) = Some (VFloat f) /\
            plain_text (float_repr f).
Proof.
  intros Hn. assert (forallb (fun i => survives (Z.of_nat i)) (seq 0 601) = true) as H by (vm_compute; reflexivity).
  rewrite forallb_forall in H. specialize (H (Z.to_nat n)). rewrite Z2Nat.id in H by lia.
  assert (survives n = true) as Hs by (apply H, in_seq; lia). clear H. unfold survives in Hs.
  destruct (float_of_Z n) as [f|]; [|done]. apply andb_prop in Hs as [[H1%bool_decide_eq_true H2%bool_decide_eq_true]%andb_prop H3%negb_true_iff].
  exists f. unfold convert. by rewrite H1, H2.
Qed.

(** ** From the adapter's line to the unit's *)

Ltac each := repeat (apply Forall_cons; split); try (apply Forall_nil; done).

Section Arriving.
Context (eager : bool) (separated : list string -> Outcome) (executable cli_path : string).

Definition output_option (choices : list string) (default output : string) : Pair :=
  {| pr_option := choice_of "--output" choices false (VStr default); pr_text := output; pr_value := VStr output |}.
Definition text_pair (o : CliOption) (text : string) : Pair := {| pr_option := o; pr_text := text; pr_value := VStr text |}.

Definition wrapper_pairs (output node source_core source_agent : string) (timeout : Z) (f : spec_float) : list Pair :=
  [output_option ["json"; "jsonl"] "json" output; text_pair (opt "--node" "unit-01") node; text_pair (opt "--source-core" "core-cli") source_core;
   text_pair (opt "--source-agent" "skills") source_agent;
   {| pr_option := unset_option "--timeout" Float; pr_text := string_of_Z timeout; pr_value := VFloat f |}].

Definition unit_pairs (output node source_core source_agent : string) (f : spec_float) : list Pair :=
  [output_option ["human"; "json"; "jsonl"] "human" output; text_pair (opt "--node" "unit-01") node;
   text_pair (opt "--source-core" "core-cli") source_core; text_pair (opt "--source-agent" "rational") source_agent;
   {| pr_option := opt_float "--timeout" (flit 10 0); pr_text := float_repr f; pr_value := VFloat f |}].

Lemma cli_texts_read l : rmap (fun item => match item with VStr s => Ok s | _ => Raise wrong_type end) (map VStr l) = Ok l.
Proof. induction l as [|s l IH]; [done|]. unfold rmap in *. cbn. by rewrite IH. Qed.

Lemma scan_remainder p s dest token rest :
  pa_positional p = Remainder dest -> sc_placed s = false -> plain_text token ->
  scan eager p s (token :: rest) = finish p (placed dest (VList (map VStr (token :: rest))) s).
Proof. intros Hp Hs Ht. cbn [scan]. by rewrite classify_plain, Hs, Hp. Qed.

Lemma output_taken choices default output options :
  classify options "--output" = Known (choice_of "--output" choices false (VStr default)) None ->
  str_in output choices = true -> plain_text output -> takes options (output_option choices default output).
Proof. intros Hc Ho Ht. split_and!; [exact Hc|done|exact Ht|]. cbn. by rewrite Ho. Qed.

Lemma text_taken options flag default text :
  classify options flag = Known (opt flag default) None -> plain_text text -> takes options (text_pair (opt flag default) text).
Proof. intros Hc Ht. by split_and!. Qed.

Lemma output_plain choices output : str_in output choices = true -> forallb (fun c => negb (startswith c "-")) choices = true -> plain_text output.
Proof.
  intros H%str_in_true Hall. rewrite forallb_forall in Hall. apply list_elem_of_In in H. by apply negb_true_iff, Hall.
Qed.

Lemma wrapper_args_read python node source_core source_agent output f texts (ns : dict) :
  ns = dict_of [("python", VStr python); ("node", VStr node); ("source_core", VStr source_core); ("source_agent", VStr source_agent);
    ("output", VStr output); ("timeout", VFloat f); ("query_retries", VNone); ("query_retry_backoff_ms", VNone);
    ("query_retry_backoff_max_ms", VNone); ("cli_args", VList (map VStr texts))] ->
  wrapper_args_of ns = Ok
    {| wa_python := python; wa_node := node; wa_source_core := source_core; wa_source_agent := source_agent; wa_output := output;
       wa_timeout := Some f; wa_query_retries := None; wa_query_retry_backoff_ms := None; wa_query_retry_backoff_max_ms := None;
       wa_cli_args := texts |}.
Proof.
  intros ->. unfold wrapper_args_of.
  assert (forall l d, dget (KStr "cli_args") d = Some (VList (map VStr l)) -> attr_texts "cli_args" d = Ok l) as H.
  { intros l d Hd. unfold attr_texts, attr. rewrite Hd. apply cli_texts_read. }
  erewrite H by reflexivity. reflexivity.
Qed.

Lemma wrapper_hands_on (config : CliConfig) output command rest f :
  str_in output ["json"; "jsonl"] = true -> plain_text (cli_node config) -> plain_text (cli_source_core config) ->
  plain_text (cli_source_agent config) -> 0 <= cli_timeout_seconds config <= 600 -> float_of_Z (cli_timeout_seconds config) = Ok f ->
  plain_text command -> clear_line (pa_options (wrapper_parser executable)) (command :: rest) ->
  wrapper_runs eager separated executable cli_path (drop 2 (base_command config output ++ command :: rest)) =
  Some ([executable; cli_path] ++
        tokens_of (unit_pairs output (cli_node config) (cli_source_core config) (cli_source_agent config) f) ++ command :: rest).
Proof.
  intros Ho Hn Hc Ha Ht Hf Hcmd Hline. destruct (timeouts_survive _ Ht) as (f' & Hf' & Hcv & _). rewrite Hf in Hf'. injection Hf' as [= <-].
  set (pairs := wrapper_pairs output (cli_node config) (cli_source_core config) (cli_source_agent config) (cli_timeout_seconds config) f).
  assert (drop 2 (base_command config output ++ command :: rest) = tokens_of pairs ++ command :: rest) as -> by reflexivity.
  assert (plain_text output) as Hop by (by eapply output_plain).
  assert (plain_text (string_of_Z (cli_timeout_seconds config))) as Htp by (apply id_text_head; lia).
  unfold wrapper_runs, parse_args. rewrite clear_not_separated with (options := pa_options (wrapper_parser executable)).
  2: { apply clear_app; [|exact Hline]. apply clear_pairs. repeat constructor; done. }
  rewrite clear_not_refused. 2: { apply clear_app; [|exact Hline]. apply clear_pairs. repeat constructor; done. }
  rewrite scan_pairs.
  2: { each; [by apply output_taken|by apply text_taken..|by split_and!]. }
  rewrite (scan_remainder _ _ "cli_args") by done.
  assert (finish (wrapper_parser executable) (placed "cli_args" (VList (map VStr (command :: rest))) (all_stored pairs (start (wrapper_parser executable)))) =
    Parsed (sc_ns (placed "cli_args" (VList (map VStr (command :: rest))) (all_stored pairs (start (wrapper_parser executable))))) []) as -> by reflexivity.
  cbn [placed sc_ns].
  rewrite (wrapper_args_read executable (cli_node config) (cli_source_core config) (cli_source_agent config) output f (command :: rest))
    by (vm_compute; reflexivity).
  reflexivity.
Qed.

Lemma stored_kept pairs s : sc_placed (all_stored pairs s) = sc_placed s /\ sc_extras (all_stored pairs s) = sc_extras s.
Proof. revert s. induction pairs as [|x pairs IH]; intros s; [done|]. cbn [all_stored fold_left]. by apply (IH (stored _ _ s)). Qed.

(** A line for the unit command line: its common arguments, the path of a command, and the rest for that command's parser. *)
Lemma unit_line pairs name path rest q leaf w ns :
  Forall (takes (pa_options build_parser)) pairs -> clear_line (pa_options build_parser) (tokens_of pairs ++ (name :: path) ++ rest) ->
  plain_text name -> command_of name commands_table = Some q -> follow q path = Some (leaf, w) -> enter eager leaf rest = Parsed ns [] ->
  meaning (parse_args eager separated build_parser (tokens_of pairs ++ (name :: path) ++ rest)) =
  let '(c, command, session, level) :=
    reading (dupdate (dset "command" (VStr name) (sc_ns (all_stored pairs (start build_parser)))) (w ns)) in
  Operates c command session level.
Proof.
  intros Hp Hline Hn Hq Hf He. destruct (stored_kept pairs (start build_parser)) as [H1 H2].
  rewrite (line_meaning eager separated (tokens_of pairs) name path rest q leaf w (all_stored pairs (start build_parser)));
    [by rewrite He|by eapply clear_not_separated|by apply clear_not_refused|intros more; by apply scan_pairs|done..].
Qed.

Lemma enter_pairs leaf pairs :
  Forall (takes (pa_options leaf)) pairs -> clear_line (pa_options leaf) (tokens_of pairs) ->
  enter eager leaf (tokens_of pairs) = finish leaf (all_stored pairs (start leaf)).
Proof.
  intros Hp Hc. unfold enter. rewrite clear_not_refused by done.
  pose proof (scan_pairs eager leaf (start leaf) pairs [] Hp) as H. by rewrite app_nil_r in H.
Qed.

(** The common arguments the core gives: the defaults, but for these. *)
Definition core_common (output node source_core source_agent : string) (timeout : spec_float) (lease_id : string) : CommonArgs :=
  {| ca_request := {| a_request_id := ""; a_source_core := source_core; a_source_agent := source_agent; a_node := node;
       a_timeout := timeout; a_priority := DEFAULT_PRIORITY; a_idempotency_key := ""; a_lease_id := lease_id; a_mode := "";
       a_trigger_every := 0; a_event_name := "" |};
     ca_output := output; ca_dry_run := false; ca_session_open_retries := DEFAULT_SESSION_OPEN_RETRIES;
     ca_session_open_backoff_ms := DEFAULT_SESSION_OPEN_BACKOFF_MS; ca_query_retries := DEFAULT_QUERY_RETRIES;
     ca_query_retry_backoff_ms := DEFAULT_QUERY_RETRY_BACKOFF_MS; ca_query_retry_backoff_max_ms := DEFAULT_QUERY_RETRY_BACKOFF_MAX_MS;
     ca_event_pump_interval_sec := EVENT_SUBSCRIPTION_PUMP_INTERVAL_SEC |}.

(** The adapter's settings can be given on a command line. *)
Record Sendable (config : CliConfig) : Prop := {
  sd_node : plain_text (cli_node config);
  sd_source_core : plain_text (cli_source_core config);
  sd_source_agent : plain_text (cli_source_agent config);
  sd_timeout : 0 <= cli_timeout_seconds config <= 600;
}.

(** What the adapter sends arrives as the line it means. *)
Lemma line_arrives config output name path rest q leaf w ns f :
  Sendable config -> str_in output ["json"; "jsonl"] = true -> float_of_Z (cli_timeout_seconds config) = Ok f ->
  plain_text name -> clear_line (pa_options (wrapper_parser executable)) (name :: path ++ rest) ->
  clear_line (pa_options build_parser) (name :: path ++ rest) ->
  command_of name commands_table = Some q -> follow q path = Some (leaf, w) -> enter eager leaf rest = Parsed ns [] ->
  sent_meaning eager separated executable cli_path (base_command config output ++ name :: path ++ rest) =
  Some (let '(c, command, session, level) := reading (dupdate (dset "command" (VStr name) (sc_ns (all_stored
          (unit_pairs output (cli_node config) (cli_source_core config) (cli_source_agent config) f) (start build_parser)))) (w ns)) in
        Operates c command session level).
Proof.
  intros [Hnode Hcore Hagent Ht] Ho Hf Hn Hw Hu Hq Hfo He. unfold sent_meaning. rewrite (wrapper_hands_on config output name (path ++ rest) f) by done.
  f_equal. cbn [app drop]. destruct (timeouts_survive _ Ht) as (f' & Hf' & _ & Hcv & Hp). rewrite Hf in Hf'. injection Hf' as [= <-].
  assert (plain_text output) as Hop by (by eapply output_plain).
  apply (unit_line _ name path rest q leaf w ns); try done.
  - each; [by apply output_taken; [|apply str_in_true; right; apply str_in_true|]|by apply text_taken..|by split_and!].
  - apply clear_app; [|exact Hu]. apply clear_pairs. each; done.
Qed.
End Arriving.

(** ** The tools of the adapter *)

(** What the adapter runs for a tool: the arguments are added where a lease is needed, as in [cli_execute]. *)
Definition takes_lease (contract : ToolContract) : bool := str_in "--lease-id" (required_arguments contract).
Definition line_sent (config : CliConfig) (contract : ToolContract) (resolved_args : dict) : list string :=
  if takes_lease contract then build_contract_command_with_args config contract resolved_args
  else base_command config "json" ++ contract_command_suffix contract.

(** The operation of the unit a tool stands for, and whether it opens a session. *)
Definition tool_command (app_id : string) (name : string) : option (Command * bool) :=
  let control action := Some (AppControl app_id action (if String.eqb action "start" then Some "" else None), true) in
  if String.eqb name "system_query_device" then Some (Query "device", true)
  else if String.eqb name "system_query_apps" then Some (Query "apps", true)
  else if String.eqb name "system_query_leases" then Some (Query "leases", true)
  else if str_in name ["system_state_sync"; "system_activation_health_guard"] then Some (StateSync_, true)
  else if String.eqb name "system_capabilities" then Some (Capabilities, false)
  else if String.eqb name "system_start_app" then control "start"
  else if String.eqb name "system_stop_app" then control "stop"
  else if String.eqb name "system_unload_app" then control "unload"
  else if String.eqb name "system_rollback_app" then
    Some (Update {| ua_stage := "rollback"; ua_app_id := app_id; ua_file := ""; ua_chunk_size := 0; ua_start_args := None;
                    ua_reason := Some "" |}, true)
  else None.

Lemma sent_with_lease config contract args ra app lease :
  required_arguments contract = ["--node"; "--app-id"; "--lease-id"] -> resolved_to args ra app lease -> present (dgetn "start_args" args) = false ->
  line_sent config contract ra =
  base_command config "json" ++ contract_command_suffix contract ++ ["--app-id"; app; "--lease-id"; lease].
Proof.
  intros Hr (Happ & Hlease & Ha & Hl & Hs) Hst. unfold line_sent, takes_lease. rewrite Hr. cbn [str_in existsb String.eqb Ascii.eqb Bool.eqb orb].
  assert (forall t, t <> "" -> present (VStr t) = true) as Hp.
  { intros t Ht. unfold present. cbn. by apply negb_true_iff, String.eqb_neq. }
  unfold build_contract_command_with_args. rewrite Hr, (dgetn_eq "start_args"), Hs, <- dgetn_eq, Hst, app_nil_r.
  cbn [flat_map]. unfold argument_tokens, candidate_keys. cbn [String.eqb Ascii.eqb Bool.eqb Datatypes.app].
  change (argument_key "--app-id") with "app_id". change (argument_key "--lease-id") with "lease_id". cbn [argument_value].
  rewrite (dgetn_eq "app_id"), Ha, (dgetn_eq "lease_id"), Hl, !Hp by done. reflexivity.
Qed.

Section Tools.
Context (eager : bool) (separated : list string -> Outcome) (executable cli_path : string).
Context (config : CliConfig) (Hconfig : Sendable config) (f : spec_float) (Hf : float_of_Z (cli_timeout_seconds config) = Ok f).
Notation arrived argv := (sent_meaning eager separated executable cli_path argv).
Notation common := (core_common "json" (cli_node config) (cli_source_core config) (cli_source_agent config) f).

Definition lease_pairs (app lease : string) : list Pair := [text_pair (needs "--app-id") app; text_pair (needs "--lease-id") lease].

Lemma needed_taken options flag text :
  classify options flag = Known (needs flag) None -> plain_text text -> takes options (text_pair (needs flag) text).
Proof. intros Hc Ht. by split_and!. Qed.

Lemma concrete_clear options tokens :
  forallb (fun t => negb (String.eqb "--" t) && negb (is_ambiguous options t)) tokens = true -> clear_line options tokens.
Proof.
  rewrite forallb_forall. intros H. apply Forall_forall. intros t Ht%list_elem_of_In. specialize (H t Ht).
  by apply andb_prop in H as [?%negb_true_iff ?%negb_true_iff].
Qed.

(** A command without arguments of the call. *)
Lemma bare_line_arrives name path rest q leaf w ns command session :
  plain_text name -> command_of name commands_table = Some q -> follow q path = Some (leaf, w) -> 
  (forall e, enter e leaf rest = Parsed ns []) ->
  clear_line (pa_options (wrapper_parser executable)) (name :: path ++ rest) -> clear_line (pa_options build_parser) (name :: path ++ rest) ->
  reading (dupdate (dset "command" (VStr name) (sc_ns (all_stored
     (unit_pairs "json" (cli_node config) (cli_source_core config) (cli_source_agent config) f) (start build_parser)))) (w ns)) =
    (Ok (common ""), Ok command, session, Ok "") ->
  arrived (base_command config "json" ++ name :: path ++ rest) = Some (Operates (Ok (common "")) (Ok command) session (Ok "")).
Proof. intros Hn Hq Hfo He Hw Hu Hr. rewrite (line_arrives eager separated executable cli_path config "json" name path rest q leaf w ns f) by done. by rewrite Hr. Qed.

(** A command with an application and a lease. *)
Lemma lease_line_arrives name path app lease q leaf w ns command :
  plain_text app -> plain_text lease -> plain_text name -> command_of name commands_table = Some q -> follow q path = Some (leaf, w) ->
  Forall (takes (pa_options leaf)) (lease_pairs app lease) ->
  clear_line (pa_options leaf) ["--app-id"; "--lease-id"] ->
  clear_line (pa_options (wrapper_parser executable)) (name :: path ++ ["--app-id"; "--lease-id"]) ->
  clear_line (pa_options build_parser) (name :: path ++ ["--app-id"; "--lease-id"]) ->
  finish leaf (all_stored (lease_pairs app lease) (start leaf)) = Parsed ns [] ->
  reading (dupdate (dset "command" (VStr name) (sc_ns (all_stored
     (unit_pairs "json" (cli_node config) (cli_source_core config) (cli_source_agent config) f) (start build_parser)))) (w ns)) =
    (Ok (common lease), Ok command, true, Ok "") ->
  arrived (base_command config "json" ++ (name :: path) ++ ["--app-id"; app; "--lease-id"; lease]) =
  Some (Operates (Ok (common lease)) (Ok command) true (Ok "")).
Proof.
  intros Ha Hl Hn Hq Hfo Hp Hc Hw Hu Hfin Hr.
  assert (forall options head, clear_line options (head ++ ["--app-id"; "--lease-id"]) ->
          clear_line options (head ++ ["--app-id"; app; "--lease-id"; lease])) as Hclear.
  { intros options head [H1 H2]%Forall_app. apply Forall_app. split; [exact H1|].
    apply Forall_cons in H2 as [H2 H3]. apply Forall_cons in H3 as [H3 _].
    each; [exact H2|split; [by apply plain_no_separator|by apply plain_not_ambiguous]|exact H3|split; [by apply plain_no_separator|by apply plain_not_ambiguous]]. }
  change (["--app-id"; app; "--lease-id"; lease]) with (tokens_of (lease_pairs app lease)). cbn [Datatypes.app].
  rewrite (line_arrives eager separated executable cli_path config "json" name path (tokens_of (lease_pairs app lease)) q leaf w ns f); try done.
  - by rewrite Hr.
  - exact (Hclear _ (name :: path) Hw).
  - exact (Hclear _ (name :: path) Hu).
  - rewrite enter_pairs; [exact Hfin|exact Hp|exact (Hclear _ [] Hc)].
Qed.

(** The path of a tool's command and its parser at the other end. *)
Ltac clear_tokens := apply concrete_clear; reflexivity.
Ltac bare name path rest command session :=
  exists command, session; split; [reflexivity|];
  change (arrived (base_command config "json" ++ name :: path ++ rest) = Some (Operates (Ok (common "")) (Ok command) session (Ok "")));
  eapply (bare_line_arrives name path rest); [reflexivity|reflexivity|reflexivity|intros []; reflexivity|clear_tokens|clear_tokens|reflexivity].
Ltac with_lease name path command :=
  exists command, true; split; [reflexivity|]; erewrite sent_with_lease by done;
  match goal with |- context [["--app-id"; ?app; "--lease-id"; ?lease]] =>
    change (arrived (base_command config "json" ++ (name :: path) ++ ["--app-id"; app; "--lease-id"; lease]) =
            Some (Operates (Ok (common lease)) (Ok command) true (Ok "")));
    eapply (lease_line_arrives name path app lease)
  end;
  [done|done|reflexivity|reflexivity|reflexivity|each; by apply needed_taken|clear_tokens|clear_tokens|clear_tokens|reflexivity|reflexivity].

(** C21: where the settings of the adapter (node, source core, source agent) and the application and lease it resolved do not begin
    with a dash, its timeout is between 0 and 600 seconds and the call gives no start arguments, every tool of the manifest but the
    restart, which the adapter runs as two lines of other tools, reaches the unit as the operation it stands for: the line
    the adapter runs is accepted by the wrapper, whose line is accepted by the unit command line, under the handler, the
    arguments and the common arguments the core meant, with the application and the lease it resolved.  (Start arguments
    are left out because they break lines: those of a restart go to the line of the stop too, which is refused for them.) *)
Theorem tool_lines_arrive contract args ra app lease :
  contract ∈ tool_manifest -> tool_name contract <> "system_restart_app" ->
  resolved_to args ra app lease -> present (dgetn "start_args" args) = false -> plain_text app -> plain_text lease ->
  exists command session, tool_command app (tool_name contract) = Some (command, session) /\
    arrived (line_sent config contract ra) =
    Some (Operates (Ok (common (if takes_lease contract then lease else ""))) (Ok command) session (Ok "")).
Proof.
  intros Hin Hn Hres Hst Hap Hle. unfold tool_manifest, observation_tools, guard_tools, app_control_tools in Hin. cbn [Datatypes.app] in Hin.
  repeat (apply elem_of_cons in Hin as [->|Hin]); [..|by apply elem_of_nil in Hin]; try done.
  - bare "query" (@nil string) ["device"] (Query "device") true.
  - bare "query" (@nil string) ["apps"] (Query "apps") true.
  - bare "query" (@nil string) ["leases"] (Query "leases") true.
  - bare "system" ["state-sync"] (@nil string) StateSync_ true.
  - bare "system" ["state-sync"] (@nil string) StateSync_ true.
  - with_lease "deploy" ["rollback"] (Update {| ua_stage := "rollback"; ua_app_id := app; ua_file := ""; ua_chunk_size := 0;
      ua_start_args := None; ua_reason := Some "" |}).
  - bare "system" ["capabilities"] (@nil string) Capabilities false.
  - with_lease "app" ["start"] (AppControl app "start" (Some "")).
  - with_lease "app" ["stop"] (AppControl app "stop" None).
  - with_lease "app" ["unload"] (AppControl app "unload" None).
Qed.
End Tools.

(** ** The lines of a deployment *)

(** The steps that run [neuro_cli.py]. *)
Definition cli_steps (p : DeployPlan) : list Step :=
  List.filter (fun s => match ps_argv s with _ :: script :: _ => String.eqb script "applocation/NeuroLink/neuro_cli/src/neuro_cli.py" | _ => false end)
    (dp_steps p).

Section Deployment.
Context (eager : bool) (separated : list string -> Outcome).
Notation understood argv := (meaning (parse_args eager separated build_parser argv)).

Definition plan_pairs (node source_agent : string) : list Pair :=
  [output_option ["human"; "json"; "jsonl"] "human" "json"; text_pair (opt "--node" "unit-01") node;
   text_pair (opt "--source-agent" "rational") source_agent].

Definition planned (p : DeployPlan) (lease_id : string) (command : Command) : Meaning :=
  Operates (Ok (core_common "json" (dp_node_id p) "core-cli" (dp_source_agent p) (flit 10 0) lease_id)) (Ok command) true (Ok "").

Definition update_to (stage app_id file : string) (chunk_size : Z) (start_args : option string) : Command :=
  Update {| ua_stage := stage; ua_app_id := app_id; ua_file := file; ua_chunk_size := chunk_size; ua_start_args := start_args; ua_reason := None |}.

(** One line of a plan. *)
Lemma plan_line p name path pairs q leaf w ns command lease_id :
  plain_text (dp_node_id p) -> plain_text (dp_source_agent p) -> plain_text name ->
  command_of name commands_table = Some q -> follow q path = Some (leaf, w) -> Forall (takes (pa_options leaf)) pairs ->
  clear_line (pa_options leaf) (map (fun x => op_flag (pr_option x)) pairs) ->
  clear_line (pa_options build_parser) ((name :: path) ++ map (fun x => op_flag (pr_option x)) pairs) ->
  finish leaf (all_stored pairs (start leaf)) = Parsed ns [] ->
  reading (dupdate (dset "command" (VStr name) (sc_ns (all_stored (plan_pairs (dp_node_id p) (dp_source_agent p)) (start build_parser)))) (w ns)) =
    (Ok (core_common "json" (dp_node_id p) "core-cli" (dp_source_agent p) (flit 10 0) lease_id), Ok command, true, Ok "") ->
  understood (tokens_of (plan_pairs (dp_node_id p) (dp_source_agent p)) ++ (name :: path) ++ tokens_of pairs) = planned p lease_id command.
Proof.
  intros Hnode Hagent Hn Hq Hf Hp Hc Hu Hfin Hr.
  assert (forall options, clear_line options (map (fun x => op_flag (pr_option x)) pairs) -> clear_line options (tokens_of pairs)) as Hclear.
  { intros options H. apply clear_pairs. clear -H Hp. induction Hp as [|x pairs (_ & _ & Ht & _) Hp IH]; [constructor|]. cbn in H.
    apply Forall_cons in H as [[H1 H2] H]. apply Forall_cons. split; [done|by apply IH]. }
  apply Forall_app in Hu as [Hu1 Hu2].
  rewrite (unit_line eager separated (plan_pairs (dp_node_id p) (dp_source_agent p)) name path (tokens_of pairs) q leaf w ns); try done.
  - by rewrite Hr.
  - each; [by apply output_taken|by apply text_taken..].
  - apply clear_app; [|by apply clear_app; [|apply Hclear]]. apply clear_pairs. each; done.
  - rewrite enter_pairs; [exact Hfin|exact Hp|by apply Hclear].
Qed.

Lemma plan_query p kind :
  plain_text (dp_node_id p) -> plain_text (dp_source_agent p) -> kind ∈ ["apps"; "leases"] ->
  understood (tokens_of (plan_pairs (dp_node_id p) (dp_source_agent p)) ++ ["query"; kind]) = planned p "" (Query kind).
Proof.
  intros Hnode Hagent Hk. change (["query"; kind]) with ((("query" : string) :: []) ++ [kind]).
  assert (forall options, clear_line options (tokens_of (plan_pairs (dp_node_id p) (dp_source_agent p))) -> clear_line options (["query"; kind]) ->
    clear_line options (tokens_of (plan_pairs (dp_node_id p) (dp_source_agent p)) ++ ["query"] ++ [kind])) as Hclear by (intros; by apply clear_app).
  repeat (apply elem_of_cons in Hk as [->|Hk]); [..|by apply elem_of_nil in Hk];
    (etrans;
     [eapply (unit_line eager separated (plan_pairs (dp_node_id p) (dp_source_agent p)) "query" []);
      [each; [by apply output_taken|by apply text_taken..]
      |apply Hclear; [apply clear_pairs; each; done|apply concrete_clear; reflexivity]|reflexivity|reflexivity|reflexivity|destruct eager; reflexivity]
     |]; reflexivity).
Qed.

Ltac planned_line name path pairs :=
  match goal with |- understood ?argv = planned ?p ?lease ?command =>
    change (understood (tokens_of (plan_pairs (dp_node_id p) (dp_source_agent p)) ++ (name :: path) ++ tokens_of pairs) = planned p lease command);
    eapply (plan_line p name path pairs)
  end; [done|done|reflexivity|reflexivity|reflexivity|each; try (by apply needed_taken); try (by apply text_taken)
       |apply concrete_clear; reflexivity|apply concrete_clear; reflexivity|reflexivity|reflexivity].

(** C20: where the node, the agent, the application, the artifact file and the start arguments of a deployment plan do not begin with
    a dash, its lines are the deployment: the unit command line reads them as taking the lease of the activation, preparing
    and verifying the artifact, activating it under that lease, looking at the applications, giving the lease back and
    looking at the leases, each for the node and in the name of the agent of the plan.  (Text with a leading dash is
    taken for an option: the plan is made, and the line is refused.) *)
Theorem deploy_plan_lines sys_executable {FS : Files} preset app_id source_dir board build_dir artifact_file node agent ttl start_args b a p :
  build_app_deploy_plan sys_executable preset app_id source_dir board build_dir artifact_file node agent ttl start_args = Ok (b, a, p) ->
  plain_text (dp_node_id p) -> plain_text (dp_source_agent p) -> plain_text app_id -> plain_text (dp_artifact_file p) ->
  plain_text (dp_start_args p) ->
  let lease := suggest_activation_lease_id app_id in
  map (fun s => (ps_name s, understood (drop 2 (ps_argv s)))) (cli_steps p) =
  [("lease_acquire_activate", planned p lease (LeaseAcquire (activate_resource app_id) ttl));
   ("deploy_prepare", planned p "" (update_to "prepare" app_id (dp_artifact_file p) DEFAULT_CHUNK_SIZE None));
   ("deploy_verify", planned p "" (update_to "verify" app_id "" 0 None));
   ("deploy_activate", planned p lease (update_to "activate" app_id "" 0 (Some (dp_start_args p))));
   ("query_apps", planned p "" (Query "apps"));
   ("lease_release_activate", planned p lease LeaseRelease);
   ("query_leases", planned p "" (Query "leases"))].
Proof.
  intros H Hnode Hagent Happ Hfile Hstart lease. unfold build_app_deploy_plan in H.
  destruct (validate_deploy_plan_identifier node _) as [node'|]; [|done]. destruct (validate_deploy_plan_identifier agent _) as [agent'|]; [|done].
  cbn [rbind] in H. destruct (ttl <=? 0) eqn:Ht; [done|]. apply Z.leb_gt in Ht.
  destruct (build_app_artifact_admission _ _ _ _ _ _) as [[b' a']|]; [|done]. cbn [rbind] in H. injection H as [= -> -> <-].
  cbn [dp_node_id dp_source_agent dp_artifact_file dp_start_args] in *.
  set (start := py_strip (text_or_empty start_args)) in *.
  match goal with |- context [cli_steps ?x] => set (p := x) end.
  assert (plain_text lease) as Hlease by reflexivity. assert (plain_text (activate_resource app_id)) as Hres by reflexivity.
  assert (plain_text (string_of_Z ttl)) as Httl by (apply id_text_head; lia).
  assert (convert Int (string_of_Z ttl) = Some (VInt ttl)) as Hint by (apply int_converted; lia).
  unfold cli_steps. cbn [dp_steps p deploy_steps List.filter ps_argv cli_prefix preflight_parts Datatypes.app String.eqb Ascii.eqb Bool.eqb map ps_name drop].
  repeat (apply (f_equal2 cons); [apply (f_equal2 pair); [reflexivity|]|]); [..|reflexivity].
  - planned_line "lease" ["acquire"] [text_pair (needs "--resource") (activate_resource app_id); text_pair (opt "--lease-id" "") lease;
      {| pr_option := opt_int "--ttl-ms" 30000; pr_text := string_of_Z ttl; pr_value := VInt ttl |}]. by split_and!.
  - planned_line "deploy" ["prepare"] [text_pair (needs "--app-id") app_id; text_pair (needs "--file") (aa_artifact_file a)].
  - planned_line "deploy" ["verify"] [text_pair (needs "--app-id") app_id].
  - destruct (String.eqb_spec start "") as [->|].
    + planned_line "deploy" ["activate"] [text_pair (needs "--app-id") app_id; text_pair (needs "--lease-id") lease].
    + planned_line "deploy" ["activate"] [text_pair (needs "--app-id") app_id; text_pair (needs "--lease-id") lease;
        text_pair (opt "--start-args" "") start].
  - exact (plan_query p "apps" Hnode Hagent ltac:(left)).
  - planned_line "lease" ["release"] [text_pair (needs "--lease-id") lease].
  - exact (plan_query p "leases" Hnode Hagent ltac:(right; left)).
Qed.
End Deployment.

(** ** Witnesses *)

Definition sample_args : dict := dict_of [("app_id", VStr "demo"); ("lease_id", VStr "l7")].

Lemma tool_lines_arrive_witness :
  exists contract, contract ∈ tool_manifest /\ tool_name contract = "system_stop_app" /\
  sent_meaning true (fun _ => Refused) "python" "neuro_cli.py" (line_sent sample_config contract sample_args) =
  Some (Operates (Ok (core_common "json" "unit-01" "core-cli" "rational" (flit 10 0) "l7")) (Ok (AppControl "demo" "stop" None)) true (Ok "")).
Proof.
  assert (exists contract, contract ∈ tool_manifest /\ tool_name contract = "system_stop_app" /\ takes_lease contract = true) as (contract & Hin & Hn & Ht)
    by (unfold tool_manifest, app_control_tools; eexists; split; [apply elem_of_app; right; apply elem_of_app; right; right; right; left|done]).
  exists contract. split; [exact Hin|]. split; [exact Hn|].
  destruct (tool_lines_arrive true (fun _ => Refused) "python" "neuro_cli.py" sample_config
    ltac:(split; [reflexivity|reflexivity|reflexivity|vm_compute; split; discriminate]) (flit 10 0) ltac:(vm_compute; reflexivity)
    contract [] sample_args "demo" "l7" Hin ltac:(rewrite Hn; discriminate)
    ltac:(repeat split; try reflexivity; discriminate) eq_refl eq_refl eq_refl) as (command & session & H1 & H2).
  rewrite Hn in H1. injection H1 as <- <-. rewrite Ht in H2. exact H2.
Defined.

Definition sample_plan :=
  build_app_deploy_plan "python" (FS := sample_files) "unit-app" "demo" None default_board default_build_dir None "unit-01" "rational" 120000 None.

Lemma deploy_plan_lines_witness :
  exists b a p, sample_plan = Ok (b, a, p) /\
  nth_error (map (fun s => (ps_name s, meaning (parse_args true (fun _ => Refused) build_parser (drop 2 (ps_argv s))))) (cli_steps p)) 3 =
  Some ("deploy_activate", planned p "l-demo-act" (update_to "activate" "demo" "" 0 (Some ""))).
Proof.
  destruct sample_plan as [[[b a] p]|e] eqn:E.
  2: { assert (is_ok sample_plan = true) as H by (vm_compute; reflexivity). rewrite E in H. discriminate H. }
  exists b, a, p. split; [reflexivity|].
  assert (match sample_plan with
          | Ok (_, _, p) => dp_node_id p = "unit-01" /\ dp_source_agent p = "rational" /\ dp_start_args p = "" /\
                            startswith (dp_artifact_file p) "-" = false
          | Raise _ => False
          end) as H by (vm_compute; repeat split).
  rewrite E in H. destruct H as (H1 & H2 & H3 & H4).
  pose proof (deploy_plan_lines true (fun _ => Refused) "python" (FS := sample_files) "unit-app" "demo" None default_board default_build_dir
    None "unit-01" "rational" 120000 None b a p E ltac:(rewrite H1; reflexivity) ltac:(rewrite H2; reflexivity) eq_refl H4
    ltac:(rewrite H3; reflexivity)) as H.
  cbv zeta in H. rewrite H. cbn [nth_error]. rewrite H3. reflexivity.
Defined.

(** ** Lines that do not arrive *)

(** A restart with start arguments: the line of its first half gives them to the stop, which knows no such option. *)
Example restart_with_start_args_refused :
  sent_meaning true (fun _ => Refused) "python" "neuro_cli.py" (half_line sample_config "stop" (dict_of [("start_args", VStr "release=2")]) "demo" "l7") =
    Some IsRefused /\
  sent_meaning true (fun _ => Refused) "python" "neuro_cli.py" (half_line sample_config "start" (dict_of [("start_args", VStr "release=2")]) "demo" "l7") =
    Some (Operates (Ok (core_common "json" "unit-01" "core-cli" "rational" (flit 10 0) "l7")) (Ok (AppControl "demo" "start" (Some "release=2"))) true (Ok "")).
Proof. vm_compute. done. Qed.

(** Start arguments that begin with a dash are taken for an option: the plan is made, and its activation is refused. *)
Example dashed_start_args_refused :
  meaning (parse_args true (fun _ => Refused) build_parser
    (drop 2 (cli_prefix "python" "unit-01" "rational" ++ ["deploy"; "activate"; "--app-id"; "demo"; "--lease-id"; "l7"; "--start-args"; "-v"]))) = IsRefused.
Proof. vm_compute. reflexivity. Qed.
